(* ===== verification/_CoqProject ===== *)
-Q . S2P
Prelude.v
Clib.v
Blob.v
Codec.v
Ctype.v
Version.v
Array.v
Balloc.v
Hash.v
Atom.v
Dep.v
Package.v
Subst.v
RepoParser.v
RepoThm.v
Index.v
AdbBlock.v
AdbTrust.v
AdbData.v
AdbValue.v
AdbSchema.v
AdbCmp.v
AdbText.v
Stream.v
StreamThm.v
StreamSeg.v
StreamProps.v
Tar.v
TarThm.v
TarInv.v
Gunzip.v
GunzipThm.v
ExtractV2.v
ExtractToy.v
ExtractThm.v
Serialize.v
SerializeThm.v
AdbGen.v
AdbGenThm.v
SolverState.v
Solver.v
SolverInv.v
SolverLoop.v
SolverSound.v
SolverStart.v
SolverCset.v
SolverPlan.v
Database.v
DatabaseThm.v
Repos.v
ReposThm.v
InstalledDb.v
InstalledDbThm.v
InstalledDbRt.v
Disk.v
FsDir.v
FsThm.v
Install.v
InstallToy.v
InstallThm.v
InstallKeep.v
InstallTab.v
InstallProps.v
SolverThm.v
