(* ===== verification/Prelude.v ===== *)
(** * Verification of apk-tools

    apk is the package manager of Alpine Linux.  It keeps a database of packages (those that are
    installed and those of the configured repositories), computes from the "world" (the list
    of packages the user asked for) and the database a set of changes, and applies it.  This
    library models the logic of that program in C under src/src/ as executable
    functions and proves the properties that make it correct.

    ** Parts of the program and where they are modelled

    - Foundations.  Prelude.v (this file): machine integers as [Z] with explicit wrap-around
      ([wrap], [u8] ... [u64]), byte strings as lists of [Z], string literals, the
      hint databases and tactics.  Clib.v: the libc functions on memory that the code uses.
    - Byte strings (blob.c, apk_blob.h): Blob.v, slices and the output cursor; Codec.v, integers,
      hexadecimal, base64 and digests as text (also crypto.c, apk_crypto.h); Ctype.v, the character
      classes of ctype.c.
    - Versions (version.c): Version.v, the tokenizer, validation, comparison and matching.
    - Storage: Array.v, growable arrays (common.c, apk_defines.h) and the path builder
      (pathbuilder.c); Balloc.v, the bump allocator (balloc.c); Hash.v, hash tables (hash.c);
      Atom.v, interned strings (atom.c), built on Balloc.v and Hash.v.
    - Dependencies and packages (package.c): Dep.v, parsing, printing and editing dependency lists
      and repository tags; Package.v, the package record, matching, ownership of
      files and directories, text form of a package; Index.v, reading repository indexes
      (apk_db_index_read of database.c over the line reader of io.c).
    - The package database (database.c): Database.v, names with their providers and
      reverse dependencies, packages by identity, installed packages; DatabaseThm.v, its
      reachable states.
    - The installed database (database.c): InstalledDb.v, directories, directory instances and files,
      the creator of installed packages, and the text form of installed packages with its reader
      (apk_db_fdb_read) and writer (apk_db_fdb_write); InstalledDbThm.v, the invariant of a package
      that is being read; InstalledDbRt.v, the round trip.
    - The solver (solver.c): SolverState.v, the data; Solver.v, every function of solver.c;
      SolverInv.v, SolverLoop.v, SolverSound.v, SolverStart.v, SolverCset.v, invariants of
      propagation, main loop, choice, start of a pass and change set; SolverPlan.v, what the
      changes do to the installed packages; SolverThm.v, the theorems.
    - ADB containers (adb.c, adb.h): AdbBlock.v, blocks of a file; AdbTrust.v, signatures,
      identities and the parser of mapped files; AdbData.v, typed values, their readers and
      the writer with its sharing table; AdbValue.v, trees of values; AdbSchema.v, the schemas of
      apk_adb.c with their functions; AdbCmp.v, comparing, sorting and searching objects;
      AdbText.v, objects from text.
    - Streams (io.c, apk_io.h): Stream.v, buffered input streams over a source (the class
      [IstreamOps] has the read function of a source), sources for descriptors, memory, segments,
      verified and copied streams, and output to files; StreamThm.v, what the operations of a
      stream give a client, against an abstract stream; StreamSeg.v, invariants of streams that
      every client keeps, and segments; StreamProps.v, the theorems.
    - Archives (tar.c): Tar.v, reading and writing; TarThm.v, the round trip; TarInv.v, what reading
      an archive keeps of the stream below it.
    - Compressed streams (io_gunzip.c): Gunzip.v, the decompressing stream with its callback for the
      compressed bytes (zlib is the class [Zlib]); GunzipThm.v, what the callback is given.
    - Packages of format 2 (extract_v2.c, trust.c, the digest contexts of crypto_openssl.c):
      ExtractV2.v; ExtractToy.v, a toy decompressor and packages for concrete runs; ExtractThm.v, the
      theorems.
    - Printing ADB data and reading it back (serialize.c, serialize_json.c,
      serialize_yaml.c, serialize_query.c, app_adbgen.c): Serialize.v, the printers; SerializeThm.v, JSON;
      AdbGen.v, the reader of the YAML text; AdbGenThm.v, the YAML round trip.
    - Repositories (repoparser.c; database.c, context.c, print.c): Subst.v, templates of file names
      (apk_blob_subst); RepoParser.v, the files that list repositories, and RepoThm.v; Repos.v, the table
      of repositories with its tags, packages found by file name, URLs shown to the user, and
      ReposThm.v.
    - The file system: Disk.v, the system calls on a tree of files, each of which may fail and all of
      which follow symbolic links in the directories of a path; FsDir.v,
      the operations on the directories and files of a package (fs_fsys.c, fs_uvol.c, apk_fs.h, part of
      io.c) and the wrappers of executables (apk_shim.c), which are on that tree when they are kept below
      the destination; FsThm.v, which files a call may change.
    - Installing, upgrading and removing packages (database.c, package.c): Install.v, from the stream of
      a package to its files on the disk and in the tables of InstalledDb.v, with the scripts that
      are run from memory or from a file below lib/apk/exec; InstallToy.v, a concrete
      system and packages; InstallThm.v, extraction; InstallKeep.v, a file that is followed through an
      operation; InstallTab.v, the table of files; InstallProps.v, the theorems.

    The parts interact as in the code: the readers of indexes and of the installed database fill
    package templates (Package.v) line by line with the parsers of Codec.v and Dep.v and hand them
    to apk_db_pkg_add (Database.v); [database_solver_db] shows that a database built that way is
    what the solver assumes of its input (the class [SolverDb] of the solver files),
    so the theorems of the solver hold for it.  Memory that the code shares (packages, names,
    directories, files) is kept in maps from addresses, and two references are equal exactly when
    their addresses are; arrays that are only read are lists.  Errors are negative numbers or
    [None] as in the code, and an invalid memory access is a separate outcome ([None] of the
    readers, [load] and [fetch] for files that are mapped), so that theorems about a result also say
    that it does not happen.

    ** What the theorems show

    - Solver: a pass always returns ([solver_round_returns]); a solution without errors contains for
      every world dependency and every dependency of a chosen package a package that provides it,
      contains no two packages of one name ([apk_solver_solve_sound]), and the change set leads
      from the installed packages to it: each of them is kept, replaced or removed exactly once
      ([apk_solver_solve_exact]); what errors mean and that the restart of a broken world may never
      end ([apk_solver_solve_incomplete], [solver_restarts_forever]).
    - Database: in every reachable state providers, reverse dependencies, identities and installed
      packages agree ([database_consistent], [database_solver_db], [duplicate_installed_dangles]).
    - Text: what is written is read back, for versions, dependencies, digests, repository indexes and
      the installed database ([apk_deps_roundtrip], [digest_roundtrip], [apk_index_roundtrip],
      [installed_db_roundtrip]), with the part that is not stored ([meta_package_record_lost]) and the
      error for lines that do not fit in the buffer of a stream.
    - Versions: comparison is a total preorder that is the lexicographic order of the components;
      validation accepts exactly a grammar.
    - ADB: nothing that is not authenticated reaches the callback of the parser
      ([adb_m_parse_authenticated]), signed files are accepted, the parser and the readers of
      untrusted data read inside of the file only ([adb_m_parse_total], [adb_readers_in_bounds]), a text
      is stored as the value it means or gives its error ([adb_w_fromstring_exact]), trees of values are read back and copied, equal data is stored once.
    - Streams: the bytes that a client gets are those of the source, for all pieces in which
      they arrive ([apk_istream_refines], [apk_istream_lines_any_pieces]), segments are exact, files
      are replaced only as a whole.
    - Archives and packages: what is written is read back ([tar_roundtrip]); an accepted package is
      authenticated to its last byte ([apk_extract_v2_authentic]); what goes wrong when a
      compressed file arrives in pieces ([gunzip_refill_breaks_signature], [identity_depends_on_buffer]).
    - Display: what is printed of ADB data as YAML is read back as the same calls
      ([yaml_roundtrip]), and what is printed as JSON is the text of a JSON value that stands for the data
      ([json_output_parses]).
    - Repositories: a line of a repository file adds exactly the repositories of its URL and
      components with the index file that apk-repositories(5) names ([repoparser_line]), reserved variables keep their values
      ([repoparser_reserved_kept]), the table has no duplicates and stays within its bounds
      ([repositories_well_formed]), a package is found by the file name that the template gives it
      ([apk_db_get_pkg_by_name_finds], [apk_blob_subst_renders]), passwords are not shown
      ([apk_url_sanitize_hides]).
    - Installation: accepted names stay below the root ([accepted_names_confined]), unpacking touches no
      file of the user ([unpack_keeps_files]), files that were changed are kept by upgrades and removals
      without --purge when the packages have files of that last component in protected directories only
      ([upgrade_keeps_changes], [remove_keeps_changes]); these three are for packages whose scripts are not
      run or leave the file alone; the table of files is exact afterwards ([upgrade_file_table]).
    - Storage: hash tables refine finite maps, atoms are unique, allocations are disjoint, arrays
      keep their items.

    ** Bounds and fuel

    Loops of the code that are not structural carry fuel, and a theorem or lemma shows that the fuel
    given is enough: the length of the text for tokenizers and line readers ([get_delims],
    [pull_deps_fuel], the loops of Version.v), the number of packages and names for a pass of the solver
    ([solver_round_returns]), two more than the length of the path for apk_db_dir_get
    ([dir_get_spec]), 33 doublings for the growth of a 32-bit length (AdbData.v), the bytes that are left
    for the loops of streams (StreamThm.v shows that they end), the number of entries of an archive
    ([tar_roundtrip]), the input that is left and the room in the buffer for decompression
    ([gzi_loop_ends]), three passes over the directories of a package for its two kinds of storage
    ([migrate_claims] shows that they end), and two more than the length of the path for the
    release of a directory and its parents.  The walk along a path follows 40 links as the kernel does,
    with ELOOP behind them.  The size of the buffer of a stream, which limits the length of a line, is a
    parameter ([istream_lines]).  The loop of
    apk_solver_solve over passes has no bound; its fuel is a parameter of the statements.  Machine
    integers keep their widths where they can overflow: 16-bit counters of requirers and references,
    8 and 16-bit lengths of names, 32-bit sizes of ADB blocks, offsets of 28 bits in ADB values.

    ** Parameters

    Cryptography (digests, signatures, keys), zlib, fnmatch, qsort, checksums used as versions, the
    tables of users and groups, the failures of system calls and the numbers of bytes that write takes, scripts of packages, the program for volumes, and the order in which hash tables are walked are parameters of the
    definitions that use them, as sections and classes, with the documented behaviour they
    need as hypotheses of the theorems; toy instances show that the hypotheses can hold.

    ** What is not modelled

    Processes and the network (process.c, libfetch), the parts of io.c that open, map and list files,
    compressing output and zstd (gzo_* of io_gunzip.c, io_zstd.c), hence downloading and loading indexes;
    committing a change set (commit.c) with triggers and hooks; what scripts do; the metadata of packages
    of format 3 (extract_v3.c); packing the wrappers of executables (apk_shim_pack); the
    command line (the other app_*.c, apk.c, context.c, print.c); the selection of packages by queries
    (query.c); the functions of app_adbgen.c that store the calls of the reader in a database, and the
    walker of adb_walk_adb.c; compression of ADB files (adb_comp.c); printf formatting; the
    Lua and Python bindings, tests and the portability layer. *)

From Stdlib Require Import ZArith Lia Ascii String.
From stdpp Require Import base numbers list option strings.

#[global] Open Scope Z_scope.

Declare Scope apk_scope.
Delimit Scope apk_scope with apk.
Notation "x .& y" := (Z.land x y) (at level 40, left associativity) : apk_scope.
Notation "x .| y" := (Z.lor x y) (at level 41, left associativity) : apk_scope.
Notation "x .^ y" := (Z.lxor x y) (at level 41, left associativity) : apk_scope.
Notation "x .<< n" := (Z.shiftl x n) (at level 39, left associativity) : apk_scope.
Notation "x .>> n" := (Z.shiftr x n) (at level 39, left associativity) : apk_scope.
#[global] Open Scope apk_scope.

(** ** Bytes, machine integers and string literals *)

(** A C [char] buffer is a list of byte values. *)
Abbreviation bytes := (list Z).

Definition byte_ok (b : Z) : Prop := 0 <= b < 256.
Abbreviation bytes_ok := (Forall byte_ok).

(** Conversion to an unsigned integer of [w] bits. *)
Definition wrap (w x : Z) : Z := x mod 2 ^ w.
Abbreviation u8 := (wrap 8).
Abbreviation u16 := (wrap 16).
Abbreviation u32 := (wrap 32).
Abbreviation u64 := (wrap 64).

(** Conversion to a signed [int]. *)
Definition s32 (x : Z) : Z := (x + 2 ^ 31) mod 2 ^ 32 - 2 ^ 31.

(** Conversion to a signed 64-bit integer. *)
Definition s64 (x : Z) : Z := (x + 2 ^ 63) mod 2 ^ 64 - 2 ^ 63.

Definition zlen {A} (l : list A) : Z := Z.of_nat (length l).
Definition ztake {A} (n : Z) (l : list A) : list A := take (Z.to_nat n) l.
Definition zdrop {A} (n : Z) (l : list A) : list A := drop (Z.to_nat n) l.

(** The byte of a character constant, and the bytes of a string literal. *)
Definition chr (a : ascii) : Z := Z.of_N (N_of_ascii a).
Definition bs (s : string) : bytes := chr <$> list_ascii_of_string s.

(** C truth values of an [int] used as a flag. *)
Definition bool_int (b : bool) : Z := if b then 1 else 0.

(** Little-endian encoding of an unsigned integer in [n] bytes, and decoding. *)
Fixpoint le_bytes (n : nat) (x : Z) : bytes :=
  match n with
  | O => []
  | S n => x mod 256 :: le_bytes n (x / 256)
  end.

Fixpoint le_val (l : bytes) : Z :=
  match l with
  | [] => 0
  | b :: l => b + 256 * le_val l
  end.

(** Decoding an enumerated table entry; out of range gives [d]. *)
Definition znth {A} (d : A) (l : list A) (i : Z) : A :=
  if i <? 0 then d else nth (Z.to_nat i) l d.

(** BIT of apk_defines.h. *)
Definition BIT (n : Z) : Z := 1 .<< n.

(** Exhaustive check over [0 .. n-1], used to settle finite table facts by computation. *)
Definition all_below (n : nat) (f : Z -> bool) : bool :=
  forallb f (map Z.of_nat (seq 0 n)).

(** ** Tactics *)

Create HintDb apk.
Create Rewrite HintDb apk.

Ltac div_mod_lia := Z.div_mod_to_equations; lia.

(** Case analysis on the first integer or boolean test of the goal or a hypothesis. *)
Ltac case_test :=
  match goal with
  | |- context [if ?b then _ else _] => let E := fresh "E" in destruct b eqn:E
  | H : context [if ?b then _ else _] |- _ => let E := fresh "E" in destruct b eqn:E
  end.

(** Boolean comparisons of hypotheses as propositions. *)
Ltac reflect_tests :=
  repeat match goal with
  | H : (_ =? _)%Z = true |- _ => apply Z.eqb_eq in H
  | H : (_ =? _)%Z = false |- _ => apply Z.eqb_neq in H
  | H : (_ <? _)%Z = true |- _ => apply Z.ltb_lt in H
  | H : (_ <? _)%Z = false |- _ => apply Z.ltb_ge in H
  | H : (_ <=? _)%Z = true |- _ => apply Z.leb_le in H
  | H : (_ <=? _)%Z = false |- _ => apply Z.leb_gt in H
  | H : _ && _ = true |- _ => apply andb_true_iff in H as [? ?]
  | H : _ || _ = false |- _ => apply orb_false_iff in H as [? ?]
  | H : negb _ = true |- _ => apply negb_true_iff in H
  | H : negb _ = false |- _ => apply negb_false_iff in H
  end.

(** ** Integers *)

Lemma wrap_bound w x : 0 <= w -> 0 <= wrap w x < 2 ^ w.
Proof. intros. unfold wrap. apply Z.mod_pos_bound, Z.pow_pos_nonneg; lia. Qed.

Lemma wrap_small w x : 0 <= x < 2 ^ w -> wrap w x = x.
Proof. apply Z.mod_small. Qed.

Lemma wrap_wrap w x : 0 <= w -> wrap w (wrap w x) = wrap w x.
Proof. intros. apply wrap_small, wrap_bound. done. Qed.

Lemma byte_land_ones b n : 0 <= n -> byte_ok b -> b .& Z.ones n = b mod 2 ^ n.
Proof. intros ? ?. apply Z.land_ones. lia. Qed.

(** Disjoint bits: an or of a shifted value and a small one is a sum. *)
Lemma lor_shift_add a b n :
  0 <= n -> 0 <= b < 2 ^ n -> (a .<< n) .| b = a * 2 ^ n + b.
Proof.
  intros Hn Hb. rewrite <- Z.shiftl_mul_pow2 by done.
  rewrite <- Z.add_lor_land.
  replace ((a .<< n) .& b) with 0; [lia|].
  symmetry. apply Z.bits_inj'. intros i Hi. rewrite Z.land_spec, Z.bits_0.
  destruct (decide (i < n)).
  - rewrite Z.shiftl_spec_low by lia. done.
  - rewrite <- (Z.mod_small b (2 ^ n)) by done.
    rewrite Z.mod_pow2_bits_high by lia. apply andb_false_r.
Qed.

(** A value below [2^w] has no bit from [w] on, and conversely. *)
Lemma testbit_above w x i : 0 <= w -> 0 <= x < 2 ^ w -> w <= i -> Z.testbit x i = false.
Proof.
  intros ? Hx Hi. rewrite <- (Z.mod_small x (2 ^ w)) by done.
  by apply Z.mod_pow2_bits_high.
Qed.

Lemma bits_range w x :
  0 <= w -> (forall i, w <= i -> Z.testbit x i = false) -> 0 <= x < 2 ^ w.
Proof.
  intros Hw H. replace x with (x mod 2 ^ w).
  - apply Z.mod_pos_bound, Z.pow_pos_nonneg; lia.
  - apply Z.bits_inj'. intros i Hi. destruct (decide (i < w)).
    + by rewrite Z.mod_pow2_bits_low.
    + rewrite Z.mod_pow2_bits_high by lia. rewrite H by lia. done.
Qed.

Lemma lxor_range w a b : 0 <= w -> 0 <= a < 2 ^ w -> 0 <= b < 2 ^ w -> 0 <= a .^ b < 2 ^ w.
Proof.
  intros Hw Ha Hb. apply bits_range; [done|]. intros i Hi.
  by rewrite Z.lxor_spec, !(testbit_above w) by done.
Qed.

Lemma lor_range w a b : 0 <= w -> 0 <= a < 2 ^ w -> 0 <= b < 2 ^ w -> 0 <= a .| b < 2 ^ w.
Proof.
  intros Hw Ha Hb. apply bits_range; [done|]. intros i Hi.
  by rewrite Z.lor_spec, !(testbit_above w) by done.
Qed.

Lemma all_below_spec n f x :
  all_below n f = true -> 0 <= x < Z.of_nat n -> f x = true.
Proof.
  unfold all_below. rewrite forallb_forall. intros H Hx. apply H.
  apply in_map_iff. exists (Z.to_nat x). split; [lia|]. apply in_seq. lia.
Qed.

Lemma s64_small x : 0 <= x < 2 ^ 63 -> s64 x = x.
Proof. intros. unfold s64. rewrite Z.mod_small by lia. lia. Qed.
Lemma s32_small x : 0 <= x < 2 ^ 31 -> s32 x = x.
Proof. intros. unfold s32. rewrite Z.mod_small by lia. lia. Qed.

(** ** Byte strings *)

Lemma zlen_nonneg {A} (l : list A) : 0 <= zlen l.
Proof. unfold zlen. lia. Qed.
Lemma zlen_app {A} (l k : list A) : zlen (l ++ k) = zlen l + zlen k.
Proof. unfold zlen. rewrite length_app. lia. Qed.
Lemma zlen_cons {A} (x : A) l : zlen (x :: l) = zlen l + 1.
Proof. unfold zlen. cbn [length]. lia. Qed.
Lemma zlen_nil {A} : zlen (@nil A) = 0.
Proof. done. Qed.
Lemma zlen_0_nil {A} (l : list A) : zlen l = 0 -> l = [].
Proof. destruct l; [done|]. rewrite zlen_cons. pose proof (zlen_nonneg l). lia. Qed.
Lemma zlen_ztake {A} n (l : list A) : 0 <= n <= zlen l -> zlen (ztake n l) = n.
Proof. unfold zlen, ztake. rewrite length_take. lia. Qed.
Lemma zlen_zdrop {A} n (l : list A) : 0 <= n <= zlen l -> zlen (zdrop n l) = zlen l - n.
Proof. unfold zlen, zdrop. rewrite length_drop. lia. Qed.
Lemma ztake_app_le {A} n (l r : list A) : n <= zlen l -> ztake n (l ++ r) = ztake n l.
Proof. intros H. unfold ztake, zlen in *. apply take_app_le. lia. Qed.
Lemma ztake_zdrop {A} n (l : list A) : ztake n l ++ zdrop n l = l.
Proof. apply take_drop. Qed.
Lemma ztake_app {A} (l k : list A) : ztake (zlen l) (l ++ k) = l.
Proof. unfold ztake, zlen. rewrite Nat2Z.id. apply take_app_length. Qed.
Lemma zdrop_app {A} (l k : list A) : zdrop (zlen l) (l ++ k) = k.
Proof. unfold zdrop, zlen. rewrite Nat2Z.id. apply drop_app_length. Qed.
Lemma ztake_all {A} n (l : list A) : zlen l <= n -> ztake n l = l.
Proof. unfold ztake, zlen. intros. apply take_ge. lia. Qed.
Lemma zdrop_0 {A} (l : list A) : zdrop 0 l = l.
Proof. done. Qed.
Lemma ztake_0 {A} (l : list A) : ztake 0 l = [].
Proof. done. Qed.
Lemma zdrop_zdrop {A} n m (l : list A) : 0 <= n -> 0 <= m -> zdrop n (zdrop m l) = zdrop (n + m) l.
Proof. intros. unfold zdrop. rewrite drop_drop. f_equal. lia. Qed.
Lemma zdrop_app_ge {A} n (l r : list A) : zlen l <= n -> zdrop n (l ++ r) = zdrop (n - zlen l) r.
Proof. intros. unfold zdrop, zlen in *. rewrite drop_app_ge by lia. f_equal. lia. Qed.
Lemma zdrop_app_le {A} n (l r : list A) : n <= zlen l -> zdrop n (l ++ r) = zdrop n l ++ r.
Proof. intros. unfold zdrop, zlen in *. by rewrite drop_app_le by lia. Qed.
Lemma ztake_app_ge {A} n (l r : list A) : zlen l <= n -> ztake n (l ++ r) = l ++ ztake (n - zlen l) r.
Proof. intros. unfold ztake, zlen in *. rewrite take_app_ge by lia. f_equal. f_equal. lia. Qed.
Lemma ztake_ztake {A} n m (l : list A) : n <= m -> ztake n (ztake m l) = ztake n l.
Proof. intros. unfold ztake. rewrite take_take. f_equal. lia. Qed.
Lemma zdrop_ztake {A} n m (l : list A) : 0 <= n <= m -> zdrop n (ztake m l) = ztake (m - n) (zdrop n l).
Proof. intros. unfold zdrop, ztake. rewrite skipn_firstn_comm. f_equal. lia. Qed.
Lemma ztake_split {A} n m (l : list A) : 0 <= n <= m -> n <= zlen l -> ztake m l = ztake n l ++ ztake (m - n) (zdrop n l).
Proof.
  intros. rewrite <- (ztake_zdrop n l) at 1. rewrite ztake_app_ge by (rewrite zlen_ztake; lia).
  by rewrite zlen_ztake by lia.
Qed.
Lemma ztake_neg {A} n (l : list A) : n <= 0 -> ztake n l = [].
Proof. intros. unfold ztake. by replace (Z.to_nat n) with O by lia. Qed.
Lemma zdrop_neg {A} n (l : list A) : n <= 0 -> zdrop n l = l.
Proof. intros. unfold zdrop. by replace (Z.to_nat n) with O by lia. Qed.
Lemma zdrop_all {A} n (l : list A) : zlen l <= n -> zdrop n l = [].
Proof. intros. unfold zdrop, zlen in *. apply skipn_all2. lia. Qed.
Lemma zlen_ztake_min {A} n (l : list A) : 0 <= n -> zlen (ztake n l) = Z.min n (zlen l).
Proof. intros. unfold ztake, zlen. rewrite length_firstn. lia. Qed.
Lemma zlen_zdrop_max {A} n (l : list A) : 0 <= n -> zlen (zdrop n l) = Z.max 0 (zlen l - n).
Proof. intros. unfold zdrop, zlen. rewrite length_skipn. lia. Qed.
Lemma zlen_pos {A} (l : list A) : l <> [] -> 0 < zlen l.
Proof. destruct l; [done|]. intros _. rewrite zlen_cons. pose proof (zlen_nonneg l). lia. Qed.
Lemma zlen_fmap {A B} (f : A -> B) l : zlen (f <$> l) = zlen l.
Proof. unfold zlen. by rewrite length_fmap. Qed.
#[export] Hint Rewrite @zlen_app @zlen_cons @zlen_nil @zlen_fmap : apk.
#[export] Hint Resolve zlen_nonneg : apk.

Lemma chr_byte a : byte_ok (chr a).
Proof.
  unfold byte_ok, chr. split; [lia|].
  pose proof (N_ascii_bounded a). lia.
Qed.
Lemma bs_ok s : bytes_ok (bs s).
Proof. apply Forall_fmap, Forall_true. intros. apply chr_byte. Qed.
#[export] Hint Resolve chr_byte bs_ok : apk.

(** ** Little-endian integers *)

Lemma length_le_bytes n x : length (le_bytes n x) = n.
Proof. revert x. induction n as [|n IH]; intros x; [done|]. cbn. by rewrite IH. Qed.

Lemma le_bytes_ok n x : bytes_ok (le_bytes n x).
Proof.
  revert x. induction n as [|n IH]; intros x; constructor; [|apply IH].
  unfold byte_ok. apply Z.mod_pos_bound. lia.
Qed.

Lemma le_val_bytes n x : le_val (le_bytes n x) = wrap (8 * Z.of_nat n) x.
Proof.
  revert x. induction n as [|n IH]; intros x; cbn [le_bytes le_val].
  - unfold wrap. by rewrite Z.mul_0_r, Z.pow_0_r, Z.mod_1_r.
  - rewrite IH. unfold wrap.
    replace (8 * Z.of_nat (S n)) with (8 + 8 * Z.of_nat n) by lia.
    rewrite Z.pow_add_r by lia. change (2 ^ 8) with 256.
    rewrite Z.rem_mul_r; [done|lia|apply Z.pow_pos_nonneg; lia].
Qed.

Lemma le_val_bound l : bytes_ok l -> 0 <= le_val l < 2 ^ (8 * zlen l).
Proof.
  induction 1 as [|b l Hb Hl IH]; [done|]. cbn [le_val]. rewrite zlen_cons.
  replace (8 * (zlen l + 1)) with (8 + 8 * zlen l) by lia.
  rewrite Z.pow_add_r by (pose proof (zlen_nonneg l); lia).
  change (2 ^ 8) with 256. unfold byte_ok in Hb. lia.
Qed.

Lemma le_bytes_val l : bytes_ok l -> le_bytes (length l) (le_val l) = l.
Proof.
  induction 1 as [|b l Hb Hl IH]; [done|]. cbn [le_val le_bytes length].
  unfold byte_ok in Hb. f_equal.
  - rewrite Z.mul_comm, Z.mod_add by lia. apply Z.mod_small. lia.
  - replace ((b + 256 * le_val l) / 256) with (le_val l) by div_mod_lia. done.
Qed.
#[export] Hint Resolve le_bytes_ok : apk.
#[export] Hint Rewrite length_le_bytes : apk.

(** ** Three-way comparison functions

    The contract of a C comparison function as [qsort] and [bsearch] need it: the sign of
    the result is antisymmetric and "not greater" is transitive. *)
Class CmpOrder {A} (cmp : A -> A -> Z) : Prop := {
  cmp_antisym a b : Z.sgn (cmp b a) = - Z.sgn (cmp a b);
  cmp_trans a b c : cmp a b <= 0 -> cmp b c <= 0 -> cmp a c <= 0;
}.

Section CmpFacts.
Context {A} (cmp : A -> A -> Z) `{!CmpOrder cmp}.

Lemma cmp_refl a : cmp a a = 0.
Proof. pose proof (cmp_antisym a a). lia. Qed.

Lemma cmp_ge a b : 0 <= cmp a b <-> cmp b a <= 0.
Proof. pose proof (cmp_antisym a b). lia. Qed.

Lemma cmp_eq_sym a b : cmp a b = 0 -> cmp b a = 0.
Proof. pose proof (cmp_antisym a b). lia. Qed.

Lemma cmp_le_lt_trans a b c : cmp a b <= 0 -> cmp b c < 0 -> cmp a c < 0.
Proof.
  intros H1 H2. pose proof (cmp_trans a b c).
  destruct (decide (cmp a c = 0)) as [E|]; [|lia].
  assert (cmp c a <= 0) by (pose proof (cmp_antisym a c); lia).
  pose proof (cmp_trans c a b). pose proof (cmp_antisym b c). lia.
Qed.

Lemma cmp_lt_le_trans a b c : cmp a b < 0 -> cmp b c <= 0 -> cmp a c < 0.
Proof.
  intros H1 H2. pose proof (cmp_trans a b c).
  destruct (decide (cmp a c = 0)) as [E|]; [|lia].
  assert (cmp c a <= 0) by (pose proof (cmp_antisym a c); lia).
  pose proof (cmp_trans b c a). pose proof (cmp_antisym a b). lia.
Qed.

Lemma cmp_eq_trans a b c : cmp a b = 0 -> cmp b c = 0 -> cmp a c = 0.
Proof.
  intros H1 H2. pose proof (cmp_trans a b c). pose proof (cmp_trans c b a).
  pose proof (cmp_antisym a b). pose proof (cmp_antisym b c).
  pose proof (cmp_antisym a c). lia.
Qed.
End CmpFacts.

(** The comparison of the images under a key function is an order again. *)
Lemma cmp_order_on {A B} (f : B -> A) (cmp : A -> A -> Z) :
  CmpOrder cmp -> CmpOrder (fun x y => cmp (f x) (f y)).
Proof. intros []. split; intros; eauto. Qed.

(** The lexicographic extension of a comparison to lists; a proper prefix comes first. *)
Fixpoint lex_list {A} (cmp : A -> A -> Z) (a b : list A) : Z :=
  match a, b with
  | [], [] => 0
  | [], _ => -1
  | _, [] => 1
  | x :: a, y :: b => if cmp x y =? 0 then lex_list cmp a b else cmp x y
  end.

#[export] Instance lex_list_order {A} (cmp : A -> A -> Z) `{!CmpOrder cmp} : CmpOrder (lex_list cmp).
Proof.
  split.
  - intros a. induction a as [|x a IH]; intros [|y b]; cbn; try done.
    pose proof (cmp_antisym x y).
    destruct (Z.eqb_spec (cmp x y) 0), (Z.eqb_spec (cmp y x) 0); auto; lia.
  - intros a. induction a as [|x a IH]; intros [|y b] [|z c]; cbn; try lia.
    specialize (IH b c). pose proof (cmp_trans x y z).
    pose proof (cmp_eq_trans cmp x y z). pose proof (cmp_lt_le_trans cmp x y z).
    pose proof (cmp_le_lt_trans cmp x y z).
    destruct (Z.eqb_spec (cmp x y) 0), (Z.eqb_spec (cmp y z) 0), (Z.eqb_spec (cmp x z) 0);
      auto; lia.
Qed.

(** The default of [List.last] does not matter on a non-empty list. *)
Lemma last_default {A} (x : A) l d d' : List.last (x :: l) d = List.last (x :: l) d'.
Proof. revert x. induction l as [|y l IH]; intros x; [done|]. apply (IH y). Qed.

Lemma filter_all {A} (P : A -> Prop) `{!forall x, Decision (P x)} (l : list A) :
  (forall x, x ∈ l -> P x) -> filter P l = l.
Proof.
  induction l as [|x l IH]; intros HP; [done|].
  rewrite filter_cons_True by (apply HP; by left). f_equal. apply IH. intros y Hy. apply HP. by right.
Qed.

(** Removing an item of an array by moving the last one into its place. *)
Lemma swap_remove_perm {A} (l : list A) i x e :
  l !! i = Some x -> l !! (length l - 1)%nat = Some e ->
  Permutation l (x :: take (length l - 1) (<[i := e]> l)).
Proof.
  destruct l as [|y l' _] using rev_ind; [done|]. rewrite length_app. cbn [length].
  replace (length l' + 1 - 1)%nat with (length l') by lia. intros Hi He.
  rewrite list_lookup_middle in He by done. injection He as ->.
  destruct (decide (i < length l')%nat) as [Hlt|Hge].
  - rewrite insert_app_l, take_app_length' by (rewrite ?length_insert; done).
    rewrite lookup_app_l in Hi by done. rewrite insert_take_drop by done.
    rewrite <- (take_drop_middle l' i x Hi) at 1. rewrite <- app_assoc. cbn.
    rewrite (Permutation_middle (take i l') (e :: drop (S i) l') x).
    f_equiv. cbn. by rewrite Permutation_app_comm.
  - assert (i = length l') as ->.
    { apply lookup_lt_Some in Hi. rewrite length_app in Hi. cbn in Hi. lia. }
    rewrite list_lookup_middle in Hi by done. injection Hi as ->.
    rewrite insert_app_r_alt, Nat.sub_diag by done. cbn. rewrite take_app_length.
    symmetry. apply Permutation_cons_append.
Qed.
