(* ===== verification/Clib.v ===== *)
(** libc functions on byte buffers, as the source uses them: [memcmp],
    [memmem], [memchr], [memrchr], [strnlen] and [isspace].  Buffers are lists of bytes;
    a call with a length argument is a call on the list of that length. *)
From Stdlib Require Import ZArith Lia.
From stdpp Require Import base numbers list option.
From S2P Require Import Prelude.

Definition ENOBUFS : Z := 105.

(** [memcmp] of two buffers on their common length; only its sign is specified by C,
    so the model returns -1, 0 or 1. *)
Fixpoint memcmp (a b : bytes) : Z :=
  match a, b with
  | x :: a, y :: b => if x <? y then -1 else if y <? x then 1 else memcmp a b
  | _, _ => 0
  end.

(** Is [p] a prefix of [l]? *)
Fixpoint prefixb (p l : bytes) : bool :=
  match p, l with
  | [], _ => true
  | x :: p, y :: l => (x =? y) && prefixb p l
  | _ :: _, [] => false
  end.

(** Offset of the first occurrence of [needle]. *)
Fixpoint memmem (hay needle : bytes) : option nat :=
  if prefixb needle hay then Some O
  else match hay with
       | [] => None
       | _ :: hay => S <$> memmem hay needle
       end.

Fixpoint memchr (l : bytes) (c : Z) : option nat :=
  match l with
  | [] => None
  | x :: l => if x =? c then Some O else S <$> memchr l c
  end.

Fixpoint memrchr (l : bytes) (c : Z) : option nat :=
  match l with
  | [] => None
  | x :: l => match memrchr l c with
              | Some i => Some (S i)
              | None => if x =? c then Some O else None
              end
  end.

(** The bytes of a buffer before its first NUL ([strnlen] and [strdup] stop there). *)
Fixpoint until_nul (l : bytes) : bytes :=
  match l with
  | [] => []
  | x :: l => if x =? 0 then [] else x :: until_nul l
  end.

(** The character classes of the C locale. *)
(** strcmp of NUL-free strings; the terminator sorts before every byte. *)
Fixpoint strcmp (a b : bytes) : Z :=
  match a, b with
  | [], [] => 0
  | [], y :: _ => - y
  | x :: _, [] => x
  | x :: a, y :: b => if x =? y then strcmp a b else x - y
  end.

Definition isspace (c : Z) : bool := (c =? 32) || ((9 <=? c) && (c <=? 13)).
Definition islower (c : Z) : bool := (97 <=? c) && (c <=? 122).
Definition isalpha (c : Z) : bool := islower c || ((65 <=? c) && (c <=? 90)).

(** ** memcmp *)

Lemma memcmp_range a b : memcmp a b = -1 \/ memcmp a b = 0 \/ memcmp a b = 1.
Proof.
  revert b. induction a as [|x a IH]; intros [|y b]; cbn; auto.
  repeat case_test; auto.
Qed.

Lemma memcmp_refl a : memcmp a a = 0.
Proof. induction a as [|x a IH]; [done|]. cbn. by rewrite Z.ltb_irrefl. Qed.

Lemma memcmp_antisym a b : memcmp b a = - memcmp a b.
Proof.
  revert b. induction a as [|x a IH]; intros [|y b]; cbn; try done.
  destruct (Z.ltb_spec x y), (Z.ltb_spec y x); cbn; auto; lia.
Qed.

Lemma memcmp_eq a b : length a = length b -> memcmp a b = 0 -> a = b.
Proof.
  revert b. induction a as [|x a IH]; intros [|y b]; cbn; try done.
  intros [= Hl]. repeat case_test; try done. reflect_tests. intros H.
  rewrite (IH b Hl H). f_equal. lia.
Qed.

(** ** Searching *)

Lemma prefixb_spec p l : prefixb p l = true <-> exists r, l = p ++ r.
Proof.
  revert l. induction p as [|x p IH]; intros l; cbn.
  - split; [intros _; by exists l|done].
  - destruct l as [|y l]; [split; [done|intros [r [=]]]|].
    rewrite andb_true_iff, Z.eqb_eq, IH. split.
    + intros [-> [r ->]]. by exists r.
    + intros [r [= -> ->]]. eauto.
Qed.

Lemma prefixb_memcmp p l :
  prefixb p l = (zlen p <=? zlen l) && (memcmp (ztake (zlen p) l) p =? 0).
Proof.
  apply eq_true_iff_eq. rewrite andb_true_iff, Z.leb_le, Z.eqb_eq, prefixb_spec. split.
  - intros [r ->]. rewrite ztake_app, memcmp_refl, zlen_app.
    split; [|done]. pose proof (zlen_nonneg r). lia.
  - intros [Hl Hc]. exists (zdrop (zlen p) l).
    apply memcmp_eq in Hc.
    + rewrite <- Hc at 1. by rewrite ztake_zdrop.
    + pose proof (zlen_ztake (zlen p) l). unfold zlen in *. lia.
Qed.

Lemma memmem_some hay needle i :
  memmem hay needle = Some i ->
  exists r, hay = take i hay ++ needle ++ r /\ (i <= length hay)%nat.
Proof.
  revert i. induction hay as [|x hay IH]; intros i; cbn [memmem].
  - case_test; [|done]. intros [= <-]. apply prefixb_spec in E as [r Hr].
    exists r. split; [done|cbn; lia].
  - case_test.
    + intros [= <-]. apply prefixb_spec in E as [r Hr]. exists r. split; [done|cbn; lia].
    + destruct (memmem hay needle) as [j|] eqn:Ej; [|done].
      intros [= <-]. destruct (IH j eq_refl) as [r [Hr Hl]].
      exists r. cbn. split; [by rewrite <- Hr|lia].
Qed.

(** No occurrence starts before the offset [memmem] returns. *)
Lemma memmem_first hay needle i j r :
  memmem hay needle = Some i -> hay = take j hay ++ needle ++ r ->
  (j <= length hay)%nat -> (i <= j)%nat.
Proof.
  revert i j. induction hay as [|x hay IH]; intros i j; cbn [memmem].
  - case_test; [|done]. intros [= <-]. lia.
  - case_test; [intros [= <-]; lia|].
    destruct (memmem hay needle) as [k|] eqn:Ek; [|done].
    intros [= <-] Heq Hl. destruct j as [|j].
    + cbn [take app] in Heq. rewrite Heq in E.
      assert (prefixb needle (needle ++ r) = true) by (apply prefixb_spec; eauto). congruence.
    + cbn in Heq. injection Heq as Heq. cbn in Hl.
      apply le_n_S, (IH k j); auto; lia.
Qed.

Lemma memmem_none hay needle l r :
  memmem hay needle = None -> hay <> l ++ needle ++ r.
Proof.
  revert l. induction hay as [|x hay IH]; intros l; cbn [memmem]; case_test; try done.
  - intros _ Heq. destruct l; [|done]. cbn in Heq. rewrite Heq in E.
    assert (prefixb needle (needle ++ r) = true) by (apply prefixb_spec; eauto). congruence.
  - destruct (memmem hay needle) eqn:Ek; [done|]. intros _ Heq.
    destruct l as [|y l].
    + cbn in Heq. rewrite Heq in E.
      assert (prefixb needle (needle ++ r) = true) by (apply prefixb_spec; eauto). congruence.
    + injection Heq as _ Heq. by apply (IH l).
Qed.

Lemma memrchr_some l c i :
  memrchr l c = Some i ->
  l = take i l ++ c :: drop (S i) l /\ Forall (fun x => x <> c) (drop (S i) l).
Proof.
  revert i. induction l as [|x l IH]; intros i; cbn [memrchr]; [done|].
  destruct (memrchr l c) as [j|] eqn:Ej.
  - intros [= <-]. destruct (IH j eq_refl) as [H1 H2]. cbn. split; [|done].
    f_equal. exact H1.
  - case_test; [|done]. reflect_tests. intros [= <-]. subst x. cbn. split; [done|].
    clear IH. revert Ej. induction l as [|y l IH]; [constructor|]. cbn.
    destruct (memrchr l c); [done|]. case_test; [done|]. reflect_tests.
    constructor; auto.
Qed.

Lemma memrchr_none l c : memrchr l c = None -> Forall (fun x => x <> c) l.
Proof.
  induction l as [|x l IH]; cbn [memrchr]; [constructor|].
  destruct (memrchr l c); [done|]. case_test; [done|]. reflect_tests. constructor; auto.
Qed.

Lemma strcmp_antisym a b : strcmp b a = - strcmp a b.
Proof.
  revert b. induction a as [|x a IH]; intros [|y b]; cbn; try lia.
  destruct (Z.eqb_spec x y), (Z.eqb_spec y x); try lia. apply IH.
Qed.

Lemma strcmp_eq a b :
  Forall (fun c => c <> 0) a -> Forall (fun c => c <> 0) b -> strcmp a b = 0 <-> a = b.
Proof.
  revert b. induction a as [|x a IH]; intros [|y b] Ha Hb; cbn; try done.
  - inversion Hb; subst. split; [lia|done].
  - inversion Ha; subst. split; [lia|done].
  - inversion Ha; inversion Hb; subst. destruct (Z.eqb_spec x y) as [->|].
    + rewrite IH by done. split; congruence.
    + split; [lia|congruence].
Qed.
