(* ===== verification/Blob.v ===== *)
(** apk_blob_t (blob.c, apk_blob.h): slices of bytes, their comparison, searching,
    splitting and tokenising, and the output cursor used by the push functions.

    A blob that is read is [option bytes]: [None] is APK_BLOB_NULL (a NULL pointer and
    length 0), [Some l] a non-NULL pointer to the bytes [l].  A blob that is written (the
    [to] argument of the push functions) is an [option wbuf]: the bytes written since the
    start of the buffer and the room that is left; [None] is again APK_BLOB_NULL. *)
From Stdlib Require Import ZArith Lia String.
From stdpp Require Import base numbers list option.
From S2P Require Import Prelude Clib.

Abbreviation blob := (option bytes).
Definition APK_BLOB_NULL : blob := None.
Definition APK_BLOB_IS_NULL (b : blob) : bool := match b with None => true | Some _ => false end.

(** The bytes a blob spans; none for a NULL blob, whose length is 0. *)
Definition blob_data (b : blob) : bytes := match b with None => [] | Some l => l end.
Definition blob_len (b : blob) : Z := zlen (blob_data b).

(** ** Copies and C strings *)

Definition apk_blob_cstr (b : blob) : bytes :=
  let l := blob_data b in
  if zlen l =? 0 then [0]
  else if List.last l 1 =? 0 then until_nul l ++ [0]
  else l ++ [0].

Fixpoint trim_end_fuel (p : Z -> bool) (rl : bytes) : bytes :=
  match rl with
  | [] => []
  | x :: rl' => if p x then trim_end_fuel p rl' else rl
  end.

Definition apk_blob_trim (l : bytes) : bytes := rev (trim_end_fuel isspace (rev l)).
Definition apk_blob_trim_end (l : bytes) (ch : Z) : bytes :=
  rev (trim_end_fuel (Z.eqb ch) (rev l)).

Fixpoint apk_blob_trim_start (l : bytes) (ch : Z) : bytes :=
  match l with
  | [] => []
  | x :: l' => if x =? ch then apk_blob_trim_start l' ch else l
  end.

Definition apk_blob_truncate (l : bytes) (maxlen : Z) : bytes :=
  ztake (Z.min (zlen l) maxlen) l.

(** ** Comparison *)

Definition apk_blob_compare (a b : blob) : Z :=
  if blob_len a =? blob_len b then memcmp (blob_data a) (blob_data b)
  else if blob_len a <? blob_len b then -1
  else 1.

Definition apk_blob_sort (a b : bytes) : Z :=
  let s := memcmp a b in
  if negb (s =? 0) then s else zlen a - zlen b.

Definition apk_blob_starts_with (a b : bytes) : bool :=
  if zlen a <? zlen b then false
  else memcmp (ztake (zlen b) a) b =? 0.

Definition apk_blob_ends_with (a b : bytes) : bool :=
  if zlen a <? zlen b then false
  else memcmp (zdrop (zlen a - zlen b) a) b =? 0.

Definition apk_blob_pull_blob_match (b m : bytes) : option bytes :=
  if zlen b <? zlen m then None
  else if negb (memcmp (ztake (zlen m) b) m =? 0) then None
  else Some (zdrop (zlen m) b).

(** ** Splitting *)

Definition apk_blob_contains (b : blob) (needle : bytes) : Z :=
  match b with
  | None => -1
  | Some l => match memmem l needle with Some i => Z.of_nat i | None => -1 end
  end.

Definition apk_blob_split (b : blob) (split : bytes) : option (bytes * bytes) :=
  let offs := apk_blob_contains b split in
  if offs <? 0 then None
  else Some (ztake offs (blob_data b), zdrop (offs + zlen split) (blob_data b)).

Definition apk_blob_rsplit (b : bytes) (split : Z) : option (bytes * bytes) :=
  match memrchr b split with
  | None => None
  | Some sep => Some (take sep b, drop (S sep) b)
  end.

(** One call of apk_blob_tokenize: the next non-empty token and the rest of the input.
    Every turn of its loop removes at least the separator, so [length b + 1] turns are
    enough ([apk_blob_tokenize_fuel]). *)
Fixpoint apk_blob_tokenize_loop (fuel : nat) (b : blob) (token : bytes) : option (option (bytes * blob)) :=
  match fuel with
  | O => None
  | S fuel =>
      match b with
      | None => Some None
      | Some l =>
          let '(iter, b') := match apk_blob_split b token with
                             | Some (l, r) => (l, Some r)
                             | None => (l, None)
                             end in
          if zlen iter =? 0 then apk_blob_tokenize_loop fuel b' token
          else Some (Some (iter, b'))
      end
  end.

Definition tokenize_measure (b : blob) : nat :=
  match b with None => 0 | Some l => S (length l) end.

Definition apk_blob_tokenize (b : blob) (token : bytes) : option (bytes * blob) :=
  default None (apk_blob_tokenize_loop (S (tokenize_measure b)) b token).

(** apk_blob_foreach_token: the tokens its body sees, in order. *)
Fixpoint foreach_token_loop (fuel : nat) (rest : blob) (token : bytes) : list bytes :=
  match fuel with
  | O => []
  | S fuel => match apk_blob_tokenize rest token with
              | None => []
              | Some (iter, rest) => iter :: foreach_token_loop fuel rest token
              end
  end.

Definition apk_blob_foreach_token (b : blob) (token : bytes) : list bytes :=
  foreach_token_loop (S (tokenize_measure b)) b token.

Definition apk_blob_foreach_word (b : blob) : list bytes := apk_blob_foreach_token b (bs " ").

(** ** Hashing *)

Definition rotl32 (x r : Z) : Z := (u32 (x .<< r)) .| (x .>> (32 - r)).
Definition murmur_c1 : Z := 0xcc9e2d51.
Definition murmur_c2 : Z := 0x1b873593.

(** The scrambling of one 32-bit word, shared by the block loop and the tail. *)
Definition murmur_scramble (k : Z) : Z := u32 (rotl32 (u32 (k * murmur_c1)) 15 * murmur_c2).

(** apk_unaligned_u32: a little-endian load of four bytes. *)
Definition apk_unaligned_u32 (p : bytes) : Z := le_val (take 4 p).

(** The block loop, followed by the tail switch on [len & 3]. *)
Fixpoint murmur3_body (key : bytes) (h : Z) : Z :=
  match key with
  | a :: b :: c :: d :: rest =>
      let h := h .^ murmur_scramble (apk_unaligned_u32 [a; b; c; d]) in
      murmur3_body rest (u32 (rotl32 h 13 * 5 + 0xe6546b64))
  | [k0; k1; k2] => h .^ murmur_scramble ((k2 .<< 16) .^ (k1 .<< 8) .^ k0)
  | [k0; k1] => h .^ murmur_scramble ((k1 .<< 8) .^ k0)
  | [k0] => h .^ murmur_scramble k0
  | [] => h
  end.

Definition murmur3_32 (key : bytes) (seed : Z) : Z :=
  let h := murmur3_body key (u32 seed) .^ u32 (zlen key) in
  let h := h .^ (h .>> 16) in
  let h := u32 (h * 0x85ebca6b) in
  let h := h .^ (h .>> 13) in
  let h := u32 (h * 0xc2b2ae35) in
  h .^ (h .>> 16).

Definition apk_blob_hash_seed (b : bytes) (seed : Z) : Z := murmur3_32 b seed.
Definition apk_blob_hash (b : bytes) : Z := apk_blob_hash_seed b 5381.

(** ** The output cursor *)

Record wbuf := WBuf { w_done : bytes; w_room : Z }.

(** APK_BLOB_BUF of a buffer of [n] bytes. *)
Definition wbuf_new (n : Z) : option wbuf := Some (WBuf [] n).

Definition apk_blob_push_blob (to : option wbuf) (literal : bytes) : option wbuf :=
  match to with
  | None => None
  | Some w => if w_room w <? zlen literal then None
              else Some (WBuf (w_done w ++ literal) (w_room w - zlen literal))
  end.

(** apk_blob_pushed: the part of a buffer of [n] bytes written so far, NULL unless the
    cursor still ends where the buffer ends. *)
Definition apk_blob_pushed (n : Z) (rest : option wbuf) : blob :=
  match rest with
  | None => None
  | Some w => if negb (zlen (w_done w) + w_room w =? n) then None else Some (w_done w)
  end.

(** A push that appends [l], or gives NULL when it does not fit. *)
Definition appends (f : option wbuf -> option wbuf) (l : bytes) : Prop :=
  forall to, f to = apk_blob_push_blob to l.

Lemma apk_blob_push_app to a b :
  apk_blob_push_blob (apk_blob_push_blob to a) b = apk_blob_push_blob to (a ++ b).
Proof.
  destruct to as [w|]; [|done]. cbn. rewrite zlen_app.
  pose proof (zlen_nonneg a). pose proof (zlen_nonneg b).
  destruct (Z.ltb_spec (w_room w) (zlen a)), (Z.ltb_spec (w_room w) (zlen a + zlen b));
    try done; try lia; cbn;
    destruct (Z.ltb_spec (w_room w - zlen a) (zlen b)); try done; try lia.
  rewrite app_assoc. do 2 f_equal. lia.
Qed.

Lemma appends_comp f g a b :
  appends f a -> appends g b -> appends (fun to => g (f to)) (a ++ b).
Proof. intros Hf Hg to. by rewrite Hg, Hf, apk_blob_push_app. Qed.

Lemma appends_push l : appends (fun to => apk_blob_push_blob to l) l.
Proof. by intros to. Qed.

(** ** Comparison is an order *)

Lemma apk_blob_compare_eq a b : apk_blob_compare (Some a) (Some b) = 0 <-> a = b.
Proof.
  unfold apk_blob_compare, blob_len, blob_data. cbn. split.
  - repeat case_test; try done. reflect_tests. apply memcmp_eq. unfold zlen in *. lia.
  - intros ->. by rewrite Z.eqb_refl, memcmp_refl.
Qed.

Lemma apk_blob_compare_antisym a b : apk_blob_compare b a = - apk_blob_compare a b.
Proof.
  unfold apk_blob_compare.
  destruct (Z.eqb_spec (blob_len a) (blob_len b)), (Z.eqb_spec (blob_len b) (blob_len a));
    try lia; [apply memcmp_antisym|].
  destruct (Z.ltb_spec (blob_len a) (blob_len b)), (Z.ltb_spec (blob_len b) (blob_len a)); lia.
Qed.

Lemma memcmp_trans a b c :
  length a = length b -> length b = length c ->
  memcmp a b <= 0 -> memcmp b c <= 0 -> memcmp a c <= 0.
Proof.
  revert b c. induction a as [|x a IH]; intros [|y b] [|z c]; cbn; try done.
  intros [= H1] [= H2]. specialize (IH b c H1 H2).
  destruct (Z.ltb_spec x y), (Z.ltb_spec y x), (Z.ltb_spec y z), (Z.ltb_spec z y),
    (Z.ltb_spec x z), (Z.ltb_spec z x); try lia; auto.
Qed.

#[export] Instance apk_blob_compare_order : CmpOrder apk_blob_compare.
Proof.
  split.
  - intros a b. rewrite (apk_blob_compare_antisym a b). apply Z.sgn_opp.
  - intros a b c. unfold apk_blob_compare, blob_len. repeat case_test; reflect_tests; try lia.
    apply memcmp_trans; unfold zlen in *; lia.
Qed.

(** [apk_blob_sort] is the lexicographic order, a proper prefix coming first. *)
Fixpoint lex_compare (a b : bytes) : Z :=
  match a, b with
  | [], [] => 0
  | [], _ => -1
  | _, [] => 1
  | x :: a, y :: b => if x <? y then -1 else if y <? x then 1 else lex_compare a b
  end.

Lemma apk_blob_sort_lex a b : Z.sgn (apk_blob_sort a b) = lex_compare a b.
Proof.
  revert b. induction a as [|x a IH]; intros [|y b]; unfold apk_blob_sort.
  - done.
  - cbn [memcmp lex_compare]. cbn. unfold zlen. cbn. lia.
  - cbn [memcmp lex_compare]. cbn. unfold zlen. cbn. lia.
  - cbn [memcmp lex_compare]. destruct (Z.ltb_spec x y); [done|].
    destruct (Z.ltb_spec y x); [done|]. specialize (IH b). unfold apk_blob_sort in IH.
    rewrite <- IH. case_test; [done|]. rewrite !zlen_cons. f_equal. lia.
Qed.

Lemma lex_compare_antisym a b : lex_compare b a = - lex_compare a b.
Proof.
  revert b. induction a as [|x a IH]; intros [|y b]; cbn; try done.
  destruct (Z.ltb_spec x y), (Z.ltb_spec y x); try lia. apply IH.
Qed.

Lemma lex_compare_trans a b c :
  lex_compare a b <= 0 -> lex_compare b c <= 0 -> lex_compare a c <= 0.
Proof.
  revert b c. induction a as [|x a IH]; intros [|y b] [|z c]; cbn; try lia.
  specialize (IH b c).
  destruct (Z.ltb_spec x y), (Z.ltb_spec y x), (Z.ltb_spec y z), (Z.ltb_spec z y),
    (Z.ltb_spec x z), (Z.ltb_spec z x); try lia; auto.
Qed.

Lemma lex_compare_eq a b : lex_compare a b = 0 <-> a = b.
Proof.
  revert b. induction a as [|x a IH]; intros [|y b]; cbn; try done.
  destruct (Z.ltb_spec x y), (Z.ltb_spec y x); try (split; [lia|intros [= -> ->]; lia]).
  rewrite IH. split; [intros ->; f_equal; lia|by intros [= -> ->]].
Qed.

#[export] Instance apk_blob_sort_order : CmpOrder apk_blob_sort.
Proof.
  split.
  - intros a b. rewrite !apk_blob_sort_lex. apply lex_compare_antisym.
  - intros a b c Hab Hbc. pose proof (lex_compare_trans a b c).
    rewrite <- !apk_blob_sort_lex in *. lia.
Qed.

Lemma apk_blob_sort_eq a b : apk_blob_sort a b = 0 <-> a = b.
Proof. rewrite <- lex_compare_eq, <- apk_blob_sort_lex. lia. Qed.

Lemma apk_blob_starts_with_spec a b :
  apk_blob_starts_with a b = true <-> exists r, a = b ++ r.
Proof.
  rewrite <- prefixb_spec, prefixb_memcmp. unfold apk_blob_starts_with.
  destruct (Z.ltb_spec (zlen a) (zlen b)), (Z.leb_spec (zlen b) (zlen a)); try lia; done.
Qed.

Lemma apk_blob_ends_with_spec a b :
  apk_blob_ends_with a b = true <-> exists l, a = l ++ b.
Proof.
  unfold apk_blob_ends_with. pose proof (zlen_nonneg b). split.
  - case_test; [done|]. reflect_tests. rewrite Z.eqb_eq. intros Hc.
    exists (ztake (zlen a - zlen b) a). apply memcmp_eq in Hc.
    + rewrite <- Hc at 2. by rewrite ztake_zdrop.
    + pose proof (zlen_zdrop (zlen a - zlen b) a). unfold zlen in *. lia.
  - intros [l ->]. pose proof (zlen_nonneg l). rewrite zlen_app.
    destruct (Z.ltb_spec (zlen l + zlen b) (zlen b)); [lia|].
    replace (zlen l + zlen b - zlen b) with (zlen l) by lia.
    by rewrite zdrop_app, memcmp_refl.
Qed.

Lemma apk_blob_pull_blob_match_spec b m r :
  apk_blob_pull_blob_match b m = Some r <-> b = m ++ r.
Proof.
  unfold apk_blob_pull_blob_match. split.
  - repeat case_test; try done. reflect_tests. intros [= <-].
    apply memcmp_eq in E0.
    + rewrite <- E0 at 1. by rewrite ztake_zdrop.
    + pose proof (zlen_nonneg m). pose proof (zlen_ztake (zlen m) b). unfold zlen in *. lia.
  - intros ->. rewrite zlen_app, ztake_app, memcmp_refl, zdrop_app.
    pose proof (zlen_nonneg r). by destruct (Z.ltb_spec (zlen m + zlen r) (zlen m)); [lia|].
Qed.

(** ** Splitting *)

(** Splitting returns the text before and after the first occurrence of the separator. *)
Lemma apk_blob_split_some l sep x y :
  apk_blob_split (Some l) sep = Some (x, y) ->
  l = x ++ sep ++ y /\
  forall x' y', l = x' ++ sep ++ y' -> zlen x <= zlen x'.
Proof.
  unfold apk_blob_split, apk_blob_contains, blob_data. cbn.
  destruct (memmem l sep) as [i|] eqn:Ei; [|done].
  destruct (Z.ltb_spec (Z.of_nat i) 0); [lia|]. intros [= <- <-].
  destruct (memmem_some _ _ _ Ei) as [r [Hr Hi]].
  assert (Hy : zdrop (Z.of_nat i + zlen sep) l = r).
  { unfold zdrop, zlen. rewrite Hr at 1.
    rewrite drop_app_ge; rewrite length_take_le by done; [|lia].
    replace (Z.to_nat _ - i)%nat with (length sep) by lia. apply drop_app_length. }
  unfold ztake. rewrite Nat2Z.id, Hy. split; [done|].
  intros x' y' Hx. unfold zlen. rewrite length_take_le by done.
  apply inj_le, (memmem_first l sep i (length x') y' Ei).
  - rewrite Hx, take_app_length. done.
  - rewrite Hx, length_app. lia.
Qed.

Lemma apk_blob_split_none l sep x y :
  apk_blob_split (Some l) sep = None -> l <> x ++ sep ++ y.
Proof.
  unfold apk_blob_split, apk_blob_contains. cbn.
  destruct (memmem l sep) as [i|] eqn:Ei.
  - destruct (Z.ltb_spec (Z.of_nat i) 0); [lia|done].
  - intros _. by apply memmem_none.
Qed.

Lemma apk_blob_rsplit_some l c x y :
  apk_blob_rsplit l c = Some (x, y) -> l = x ++ c :: y /\ Forall (fun b => b <> c) y.
Proof.
  unfold apk_blob_rsplit. destruct (memrchr l c) eqn:E; [|done].
  intros [= <- <-]. by apply memrchr_some.
Qed.

(** ** Tokens *)

(** The fields of a line separated by one byte, empty ones included. *)
Fixpoint fields (c : Z) (l : bytes) : list bytes :=
  match l with
  | [] => [[]]
  | x :: l => if x =? c then [] :: fields c l
              else match fields c l with
                   | f :: fs => (x :: f) :: fs
                   | [] => [[x]]
                   end
  end.

Definition nonempty (f : bytes) : bool := negb (zlen f =? 0).

Lemma fields_app c x y :
  Forall (fun b => b <> c) x -> fields c (x ++ c :: y) = x :: fields c y.
Proof.
  induction 1 as [|b x Hb _ IH]; cbn.
  - by rewrite Z.eqb_refl.
  - destruct (Z.eqb_spec b c); [done|]. by rewrite IH.
Qed.

Lemma fields_none c l : Forall (fun b => b <> c) l -> fields c l = [l].
Proof.
  induction 1 as [|b x Hb _ IH]; [done|]. cbn. destruct (Z.eqb_spec b c); [done|].
  by rewrite IH.
Qed.

Lemma split_byte_some l c x y :
  apk_blob_split (Some l) [c] = Some (x, y) -> fields c l = x :: fields c y.
Proof.
  intros H. apply apk_blob_split_some in H as [-> Hf]. apply fields_app.
  apply Forall_forall. intros b Hb ->.
  apply in_split in Hb as (x1 & x2 & ->).
  specialize (Hf x1 (x2 ++ c :: y)). rewrite zlen_app, zlen_cons in Hf.
  assert (zlen x1 + (zlen x2 + 1) <= zlen x1); [|pose proof (zlen_nonneg x2); lia].
  apply Hf. by rewrite <- app_assoc.
Qed.

Lemma split_byte_none l c :
  apk_blob_split (Some l) [c] = None -> fields c l = [l].
Proof.
  intros H. apply fields_none, Forall_forall. intros b Hb ->.
  apply in_split in Hb as (x1 & x2 & ->).
  by apply (apk_blob_split_none _ _ x1 x2 H).
Qed.

(** Splitting at a separator of two bytes whose first byte is not in the text before it, and at one byte. *)
Lemma split_pair a b k t : Forall (fun c => c <> a) k -> apk_blob_split (Some (k ++ [a; b] ++ t)) [a; b] = Some (k, t).
Proof.
  intros Hk. destruct (apk_blob_split (Some (k ++ [a; b] ++ t)) [a; b]) as [[x y]|] eqn:E.
  - apply apk_blob_split_some in E as [E Hmin]. specialize (Hmin k t eq_refl).
    assert (Hlen : ~ (length x < length k)%nat).
    { intros Hlt. assert (Ha : (k ++ [a; b] ++ t) !! length x = Some a) by (rewrite E; by apply list_lookup_middle).
      rewrite lookup_app_l in Ha by done. apply list_elem_of_lookup_2 in Ha. rewrite list.Forall_forall in Hk. by destruct (Hk a Ha). }
    apply app_inj_1 in E as [-> E]; [by injection E as ->|unfold zlen in Hmin; lia].
  - by destruct (apk_blob_split_none _ _ k t E).
Qed.

Lemma split_one c k t : Forall (fun x => x <> c) k -> apk_blob_split (Some (k ++ [c] ++ t)) [c] = Some (k, t).
Proof.
  intros Hk. destruct (apk_blob_split (Some (k ++ [c] ++ t)) [c]) as [[x y]|] eqn:E.
  - apply apk_blob_split_some in E as [E Hmin]. specialize (Hmin k t eq_refl).
    assert (Hlen : ~ (length x < length k)%nat).
    { intros Hlt. assert (Ha : (k ++ [c] ++ t) !! length x = Some c) by (rewrite E; by apply list_lookup_middle).
      rewrite lookup_app_l in Ha by done. apply list_elem_of_lookup_2 in Ha. rewrite list.Forall_forall in Hk. by destruct (Hk c Ha). }
    apply app_inj_1 in E as [-> E]; [by injection E as ->|unfold zlen in Hmin; lia].
  - by destruct (apk_blob_split_none _ _ k t E).
Qed.

Lemma split_shrinks l sep x y :
  sep <> [] -> apk_blob_split (Some l) sep = Some (x, y) ->
  (length y < length l)%nat.
Proof.
  intros Hs H. apply apk_blob_split_some in H as [-> _].
  rewrite !length_app. destruct sep; [done|]. cbn. lia.
Qed.

(** The loop of apk_blob_tokenize terminates: the fuel its model is given is enough. *)
Lemma apk_blob_tokenize_fuel fuel b sep :
  sep <> [] -> (tokenize_measure b < fuel)%nat ->
  is_Some (apk_blob_tokenize_loop fuel b sep).
Proof.
  intros Hs. revert b. induction fuel as [|fuel IH]; intros b Hf; [lia|].
  cbn. destruct b as [l|]; [|eauto].
  destruct (apk_blob_split (Some l) sep) as [[x y]|] eqn:E.
  - case_test; [|eauto]. apply IH. cbn in *. apply split_shrinks in E; auto. lia.
  - case_test; [|eauto]. apply IH. cbn in *. lia.
Qed.

Definition blob_fields (c : Z) (b : blob) : list bytes :=
  match b with None => [] | Some l => fields c l end.

Lemma tokenize_loop_fields fuel c b :
  (tokenize_measure b < fuel)%nat ->
  match apk_blob_tokenize_loop fuel b [c] with
  | Some (Some (iter, b')) =>
      List.filter nonempty (blob_fields c b) = iter :: List.filter nonempty (blob_fields c b')
      /\ (tokenize_measure b' < tokenize_measure b)%nat
  | Some None => List.filter nonempty (blob_fields c b) = []
  | None => False
  end.
Proof.
  revert b. induction fuel as [|fuel IH]; intros b Hf; [lia|].
  destruct b as [l|]; [|done]. cbn [apk_blob_tokenize_loop].
  destruct (apk_blob_split (Some l) [c]) as [[x y]|] eqn:E.
  - pose proof (split_shrinks l [c] x y ltac:(discriminate) E) as Hlt.
    pose proof (split_byte_some _ _ _ _ E) as Hx.
    cbn [blob_fields]. rewrite Hx. cbn [List.filter].
    replace (nonempty x) with (negb (zlen x =? 0)) by done.
    case_test; cbn [negb].
    + assert (Hm : (tokenize_measure (Some y) < fuel)%nat) by (cbn in *; lia).
      specialize (IH (Some y) Hm).
      destruct (apk_blob_tokenize_loop fuel (Some y) [c]) as [[[? ?]|]|]; [|exact IH|done].
      destruct IH as [IH ?]. split; [exact IH|cbn in *; lia].
    + split; [done|]. cbn. lia.
  - pose proof (split_byte_none _ _ E) as Hx.
    cbn [blob_fields]. rewrite Hx. cbn [List.filter].
    replace (nonempty l) with (negb (zlen l =? 0)) by done.
    destruct (Z.eqb_spec (zlen l) 0); cbn [negb].
    + destruct fuel; [cbn in Hf; lia|]. done.
    + split; [done|]. cbn. lia.
Qed.

Lemma tokenize_fields c b :
  match apk_blob_tokenize b [c] with
  | Some (iter, b') =>
      List.filter nonempty (blob_fields c b) = iter :: List.filter nonempty (blob_fields c b')
      /\ (tokenize_measure b' < tokenize_measure b)%nat
  | None => List.filter nonempty (blob_fields c b) = []
  end.
Proof.
  unfold apk_blob_tokenize.
  pose proof (tokenize_loop_fields (S (tokenize_measure b)) c b ltac:(lia)) as H.
  by destruct (apk_blob_tokenize_loop _ b [c]) as [[[? ?]|]|].
Qed.

Lemma foreach_token_loop_fields fuel c b :
  (tokenize_measure b < fuel)%nat ->
  foreach_token_loop fuel b [c] = List.filter nonempty (blob_fields c b).
Proof.
  revert b. induction fuel as [|fuel IH]; intros b Hf; [lia|]. cbn [foreach_token_loop].
  pose proof (tokenize_fields c b) as H.
  destruct (apk_blob_tokenize b [c]) as [[iter b']|]; [|by rewrite H].
  destruct H as [-> Hlt]. f_equal. apply IH. lia.
Qed.

(** ** Hash range *)

Lemma shiftr_range w n a : 0 <= n -> 0 <= a < 2 ^ w -> 0 <= a .>> n < 2 ^ w.
Proof.
  intros Hn Ha. rewrite Z.shiftr_div_pow2 by done.
  assert (0 < 2 ^ n) by (apply Z.pow_pos_nonneg; lia).
  split; [apply Z.div_pos; lia|].
  apply Z.le_lt_trans with a; [|lia]. apply Z.div_le_upper_bound; [lia|]. nia.
Qed.

Lemma murmur_scramble_range k : 0 <= murmur_scramble k < 2 ^ 32.
Proof. apply wrap_bound. lia. Qed.

Lemma murmur3_body_range n key h :
  (length key <= n)%nat -> 0 <= h < 2 ^ 32 -> 0 <= murmur3_body key h < 2 ^ 32.
Proof.
  revert key h. induction n as [|n IH]; intros key h Hl Hh.
  { destruct key; [done|cbn in Hl; lia]. }
  do 4 (destruct key as [|? key]; [cbn -[murmur_scramble Z.lxor Z.pow];
    try apply lxor_range; auto using murmur_scramble_range; lia|]).
  cbn [murmur3_body]. apply IH; [cbn in Hl; lia|]. apply wrap_bound. lia.
Qed.

(** ** Properties *)

(** Apk_blob_split finds the separator exactly when it occurs, and then returns the text
    before its first occurrence and the text after it. *)
Theorem apk_blob_split_correct l sep :
  match apk_blob_split (Some l) sep with
  | Some (x, y) => l = x ++ sep ++ y /\ forall x' y', l = x' ++ sep ++ y' -> zlen x <= zlen x'
  | None => forall x y, l <> x ++ sep ++ y
  end.
Proof.
  destruct (apk_blob_split (Some l) sep) as [[x y]|] eqn:E.
  - by apply apk_blob_split_some.
  - intros x y. by apply apk_blob_split_none.
Qed.

(** Iterating apk_blob_tokenize over a line (apk_blob_foreach_token, apk_blob_foreach_word)
    yields exactly the non-empty fields between the separator bytes, in order; the iteration
    terminates. *)
Theorem apk_blob_foreach_token_fields l c :
  apk_blob_foreach_token (Some l) [c] = List.filter nonempty (fields c l).
Proof. apply (foreach_token_loop_fields _ c (Some l)). cbn. lia. Qed.

(** Apk_blob_sort is the lexicographic total order on byte strings (a proper prefix sorts
    first, equality is identity) and apk_blob_compare is a total order that is zero only on
    equal byte strings, so both are valid qsort and bsearch comparison functions. *)
Theorem apk_blob_orders :
  CmpOrder apk_blob_sort /\ CmpOrder apk_blob_compare /\
  (forall a b, Z.sgn (apk_blob_sort a b) = lex_compare a b) /\
  (forall a b, apk_blob_sort a b = 0 <-> a = b) /\
  (forall a b, apk_blob_compare (Some a) (Some b) = 0 <-> a = b).
Proof.
  split; [apply _|]. split; [apply _|].
  auto using apk_blob_sort_lex, apk_blob_sort_eq, apk_blob_compare_eq.
Qed.

Lemma apk_blob_hash_seed_range b seed : 0 <= apk_blob_hash_seed b seed < 2 ^ 32.
Proof.
  unfold apk_blob_hash_seed, murmur3_32.
  assert (Hx : forall n h, 0 <= n -> 0 <= h < 2 ^ 32 -> 0 <= h .^ (h .>> n) < 2 ^ 32).
  { intros. apply lxor_range; auto using shiftr_range with lia. }
  repeat (apply Hx; [lia|]). apply wrap_bound. lia.
Qed.

(** Published MurmurHash3_x86_32 test vectors. *)
Example murmur_empty : murmur3_32 [] 0 = 0. Proof. reflexivity. Qed.
Example murmur_empty1 : murmur3_32 [] 1 = 0x514e28b7. Proof. reflexivity. Qed.
Example murmur_test : murmur3_32 (bs "test") 0 = 0xba6bd213. Proof. reflexivity. Qed.
Example murmur_tail1 : murmur3_32 [33] 0 = 0x72661cf4. Proof. reflexivity. Qed.
Example murmur_tail3 : murmur3_32 [33; 67; 101] 0 = 0x7e4a8634. Proof. reflexivity. Qed.
Example murmur_hello : murmur3_32 (bs "Hello, world!") 1234 = 0xfaf6cdb3. Proof. reflexivity. Qed.
