(* ===== verification/Codec.v ===== *)
(** Textual encodings of blob.c: integers in a radix, hexadecimal and base64 dumps, and the
    digests of apk_crypto.h / crypto.c that are written and read through them.

    A function that reads from [*b] and fills a destination [to] is modelled by state
    passing: it takes the blob and the previous contents of the destination and returns
    both; the result [None] means that the C code reads past the end of the source blob. *)
From Stdlib Require Import ZArith Lia String.
From stdpp Require Import base numbers list option.
From S2P Require Import Prelude Clib Blob.

(** ** Decoding tables *)

Definition digitdecode : bytes := [
  255; 255; 255; 255; 255; 255; 255; 255; 255; 255; 255; 255; 255; 255; 255; 255;
  255; 255; 255; 255; 255; 255; 255; 255; 255; 255; 255; 255; 255; 255; 255; 255;
  255; 255; 255; 255; 255; 255; 255; 255; 255; 255; 255; 62; 255; 255; 255; 255;
  0; 1; 2; 3; 4; 5; 6; 7; 8; 9; 255; 255; 255; 255; 255; 255;
  255; 10; 11; 12; 13; 14; 15; 255; 255; 255; 255; 255; 255; 255; 255; 255;
  255; 255; 255; 255; 255; 255; 255; 255; 255; 255; 255; 255; 255; 255; 255; 255;
  255; 10; 11; 12; 13; 14; 15; 255; 255; 255; 255; 255; 255; 255; 255; 255;
  255; 255; 255; 255; 255; 255; 255; 255; 255; 255; 255; 255; 255; 255; 255; 255;
  255; 255; 255; 255; 255; 255; 255; 255; 255; 255; 255; 255; 255; 255; 255; 255;
  255; 255; 255; 255; 255; 255; 255; 255; 255; 255; 255; 255; 255; 255; 255; 255;
  255; 255; 255; 255; 255; 255; 255; 255; 255; 255; 255; 255; 255; 255; 255; 255;
  255; 255; 255; 255; 255; 255; 255; 255; 255; 255; 255; 255; 255; 255; 255; 255;
  255; 255; 255; 255; 255; 255; 255; 255; 255; 255; 255; 255; 255; 255; 255; 255;
  255; 255; 255; 255; 255; 255; 255; 255; 255; 255; 255; 255; 255; 255; 255; 255;
  255; 255; 255; 255; 255; 255; 255; 255; 255; 255; 255; 255; 255; 255; 255; 255;
  255; 255; 255; 255; 255; 255; 255; 255; 255; 255; 255; 255; 255; 255; 255; 255].

Definition dx (c : Z) : Z := znth 0xff digitdecode c.

Definition b64decode_table : bytes := [
  255; 255; 255; 255; 255; 255; 255; 255; 255; 255; 255; 255; 255; 255; 255; 255;
  255; 255; 255; 255; 255; 255; 255; 255; 255; 255; 255; 255; 255; 255; 255; 255;
  255; 255; 255; 255; 255; 255; 255; 255; 255; 255; 255; 62; 255; 255; 255; 63;
  52; 53; 54; 55; 56; 57; 58; 59; 60; 61; 255; 255; 255; 0; 255; 255;
  255; 0; 1; 2; 3; 4; 5; 6; 7; 8; 9; 10; 11; 12; 13; 14;
  15; 16; 17; 18; 19; 20; 21; 22; 23; 24; 25; 255; 255; 255; 255; 255;
  255; 26; 27; 28; 29; 30; 31; 32; 33; 34; 35; 36; 37; 38; 39; 40;
  41; 42; 43; 44; 45; 46; 47; 48; 49; 50; 51; 255; 255; 255; 255; 255;
  255; 255; 255; 255; 255; 255; 255; 255; 255; 255; 255; 255; 255; 255; 255; 255;
  255; 255; 255; 255; 255; 255; 255; 255; 255; 255; 255; 255; 255; 255; 255; 255;
  255; 255; 255; 255; 255; 255; 255; 255; 255; 255; 255; 255; 255; 255; 255; 255;
  255; 255; 255; 255; 255; 255; 255; 255; 255; 255; 255; 255; 255; 255; 255; 255;
  255; 255; 255; 255; 255; 255; 255; 255; 255; 255; 255; 255; 255; 255; 255; 255;
  255; 255; 255; 255; 255; 255; 255; 255; 255; 255; 255; 255; 255; 255; 255; 255;
  255; 255; 255; 255; 255; 255; 255; 255; 255; 255; 255; 255; 255; 255; 255; 255;
  255; 255; 255; 255; 255; 255; 255; 255; 255; 255; 255; 255; 255; 255; 255; 255].

Definition b64decode (c : Z) : Z := znth 0xff b64decode_table c.

Definition xd : bytes := bs "0123456789abcdefghijklmnopqrstuvwxyz".
Definition xd_at (i : Z) : Z := znth 0 xd i.

Definition b64encode_table : bytes :=
  bs "ABCDEFGHIJKLMNOPQRSTUVWXYZabcdefghijklmnopqrstuvwxyz0123456789+/".
Definition b64encode (i : Z) : Z := znth 0 b64encode_table i.

(** ** Unsigned integers *)

(** The digit loop of apk_blob_push_uint, most significant digit first.  Its buffer has 64
    places, which is what a 64-bit value needs in radix 2. *)
Fixpoint push_uint_digits (fuel : nat) (value radix : Z) (acc : bytes) : bytes :=
  match fuel with
  | O => acc
  | S fuel => if value =? 0 then acc
              else push_uint_digits fuel (value / radix) radix (xd_at (value mod radix) :: acc)
  end.

Definition apk_blob_push_uint (to : option wbuf) (value radix : Z) : option wbuf :=
  if value =? 0 then apk_blob_push_blob to (bs "0")
  else apk_blob_push_blob to (push_uint_digits 64 value radix []).

(** apk_blob_pull_uint: the value (modulo 2^64) and the rest of the blob. *)
Fixpoint pull_uint_loop (b : bytes) (radix val : Z) : Z * bytes :=
  match b with
  | [] => (val, [])
  | c :: b' =>
      if c =? 0 then (val, b)
      else let ch := dx c in
           if radix <=? ch then (val, b)
           else pull_uint_loop b' radix (u64 (u64 (val * radix) + ch))
  end.

Definition apk_blob_pull_uint (b : bytes) (radix : Z) : Z * bytes := pull_uint_loop b radix 0.

Definition apk_blob_pull_char (b : blob) (expected : Z) : blob :=
  match b with
  | None => None
  | Some [] => None
  | Some (c :: b') => if c =? expected then Some b' else None
  end.

(** ** Hexadecimal dumps *)

Definition hex_byte (c : Z) : bytes := [xd_at ((c .>> 4) .& 0xf); xd_at (c .& 0xf)].

Definition hexdump (binary : bytes) : bytes := binary ≫= hex_byte.

Definition apk_blob_push_hexdump (to : option wbuf) (binary : bytes) : option wbuf :=
  match to with
  | None => None
  | Some w => if w_room w <? zlen binary * 2 then None
              else Some (WBuf (w_done w ++ hexdump binary) (w_room w - zlen binary * 2))
  end.

(** The loop over the destination: [n] bytes still to fill, [r] the or of all digits. *)
Fixpoint pull_hexdump_loop (n : nat) (s : bytes) (d : bytes) (r : Z) : option (Z * bytes * bytes) :=
  match n with
  | O => Some (r, s, d)
  | S n => match s with
           | c1 :: c2 :: s =>
               let r1 := dx c1 in
               let r2 := dx c2 in
               pull_hexdump_loop n s (d ++ [u8 ((r1 .<< 4) + r2)]) (r .| r1 .| r2)
           | _ => None
           end
  end.

Definition apk_blob_pull_hexdump (b : blob) (to : bytes) : option (blob * bytes) :=
  match b with
  | None => Some (None, to)
  | Some l =>
      if zlen l * 2 <? zlen to then Some (None, to)
      else match pull_hexdump_loop (length to) l [] 0 with
           | None => None
           | Some (r, s, d) => if r =? 0xff then Some (None, d) else Some (Some s, d)
           end
  end.

(** ** Base64 *)

Definition push_b64_tail (from : bytes) : bytes :=
  match from with
  | [f0; f1] =>
      [b64encode (f0 .>> 2); b64encode (((f0 .& 0x03) .<< 4) .| ((f1 .& 0xf0) .>> 4));
       b64encode ((f1 .& 0x0f) .<< 2); 61]
  | f0 :: _ => [b64encode (f0 .>> 2); b64encode ((f0 .& 0x03) .<< 4); 61; 61]
  | [] => []
  end.

(** The characters written for the [src] bytes by the loop and by the tail. *)
Fixpoint b64_dump (src : bytes) : bytes :=
  match src with
  | s0 :: s1 :: s2 :: src =>
      b64encode (s0 .>> 2)
      :: b64encode (((s0 .& 0x03) .<< 4) .| ((s1 .& 0xf0) .>> 4))
      :: b64encode (((s1 .& 0x0f) .<< 2) .| ((s2 .& 0xc0) .>> 6))
      :: b64encode (s2 .& 0x3f) :: b64_dump src
  | tail => push_b64_tail tail
  end.

Definition b64_needed (len : Z) : Z := ((len + 2) / 3) * 4.

Definition apk_blob_push_base64 (to : option wbuf) (binary : bytes) : option wbuf :=
  match to with
  | None => None
  | Some w =>
      let needed := b64_needed (zlen binary) in
      if w_room w <? needed then None
      else Some (WBuf (w_done w ++ b64_dump binary) (w_room w - needed))
  end.

(** pull_b64_tail: success, and the destination bytes [to] (one to three) it leaves. *)
Definition pull_b64_tail (to : bytes) (from : bytes) : bool * bytes :=
  match from with
  | f0 :: f1 :: f2 :: f3 :: _ =>
      let t0 := b64decode f0 in let t1 := b64decode f1 in
      let t2 := b64decode f2 in let t3 := b64decode f3 in
      if t0 .| t1 .| t2 .| t3 =? 0xff then (false, to)
      else
        let d0 := u8 ((t0 .<< 2) .| (t1 .>> 4)) in
        let d1 := u8 ((t1 .<< 4) .| (t2 .>> 2)) in
        match to with
        | _ :: _ :: _ :: rest => (true, d0 :: d1 :: u8 (((t2 .<< 6) .& 0xc0) .| t3) :: rest)
        | [_; _] => (f3 =? 61, [d0; d1])
        | [_] => if negb (f2 =? 61) then (false, [d0]) else (f3 =? 61, [d0])
        | [] => (true, [])
        end
  | _ => (false, to)
  end.

(** The group loop of apk_blob_pull_base64: fills three destination bytes per turn while
    three are left; returns the or of the digits, the source and destination left, and the
    bytes written. *)
Fixpoint pull_base64_loop (dst src : bytes) (d : bytes) (r : Z) : option (Z * bytes * bytes * bytes) :=
  match dst with
  | _ :: _ :: _ :: dst =>
      match src with
      | s0 :: s1 :: s2 :: s3 :: src =>
          let t0 := b64decode s0 in let t1 := b64decode s1 in
          let t2 := b64decode s2 in let t3 := b64decode s3 in
          pull_base64_loop dst src
            (d ++ [u8 ((t0 .<< 2) .| (t1 .>> 4)); u8 ((t1 .<< 4) .| (t2 .>> 2));
                   u8 (((t2 .<< 6) .& 0xc0) .| t3)])
            (r .| t0 .| t1 .| t2 .| t3)
      | _ => None
      end
  | _ => Some (r, src, dst, d)
  end.

Definition apk_blob_pull_base64 (b : blob) (to : bytes) : option (blob * bytes) :=
  match b with
  | None => Some (None, to)
  | Some l =>
      let needed := b64_needed (zlen to) in
      if zlen l <? needed then Some (None, to)
      else match pull_base64_loop to l [] 0 with
           | None => None
           | Some (r, src, dst, d) =>
               if r =? 0xff then Some (None, d ++ dst)
               else if zlen dst =? 0 then Some (Some (zdrop needed l), d)
               else let '(ok, tail) := pull_b64_tail dst src in
                    if ok then Some (Some (zdrop needed l), d ++ tail)
                    else Some (None, d ++ tail)
           end
  end.

(** ** Digests *)

Definition APK_DIGEST_NONE : Z := 0x00.
Definition APK_DIGEST_SHA1 : Z := 0x02.
Definition APK_DIGEST_SHA256 : Z := 0x03.
Definition APK_DIGEST_SHA512 : Z := 0x04.
Definition APK_DIGEST_SHA256_160 : Z := 0x05.
Definition APK_DIGEST_LENGTH_SHA1 : Z := 20.
Definition APK_DIGEST_LENGTH_SHA256_160 : Z := 20.
Definition APK_DIGEST_LENGTH_SHA256 : Z := 32.
Definition APK_DIGEST_LENGTH_SHA512 : Z := 64.

(** struct apk_digest: the algorithm, the length used and the whole 64-byte array. *)
Record apk_digest := Digest { d_alg : Z; d_len : Z; d_data : bytes }.

(** apk_digest_str: the names by algorithm number; number 1 (md5) has none. *)
Definition apk_digest_str : list (option string) :=
  [Some "none"; None; Some "sha1"; Some "sha256"; Some "sha512"; Some "sha256-160"]%string.

Definition apk_digest_alg_str (alg : Z) : option string :=
  znth (Some "unknown"%string) apk_digest_str alg.

Fixpoint apk_digest_alg_by_str_loop (tbl : list (option string)) (alg : Z) (algstr : string) : Z :=
  match tbl with
  | [] => APK_DIGEST_NONE
  | None :: tbl => apk_digest_alg_by_str_loop tbl (alg + 1) algstr
  | Some s :: tbl => if String.eqb s algstr then alg
                     else apk_digest_alg_by_str_loop tbl (alg + 1) algstr
  end.

Definition apk_digest_alg_by_str (algstr : string) : Z :=
  apk_digest_alg_by_str_loop apk_digest_str 0 algstr.

Definition apk_digest_alg_len (alg : Z) : Z :=
  if alg =? APK_DIGEST_SHA1 then APK_DIGEST_LENGTH_SHA1
  else if alg =? APK_DIGEST_SHA256_160 then APK_DIGEST_LENGTH_SHA256_160
  else if alg =? APK_DIGEST_SHA256 then APK_DIGEST_LENGTH_SHA256
  else if alg =? APK_DIGEST_SHA512 then APK_DIGEST_LENGTH_SHA512
  else 0.

Definition apk_digest_alg_by_len (len : Z) : Z :=
  if len =? 0 then APK_DIGEST_NONE
  else if len =? APK_DIGEST_LENGTH_SHA1 then APK_DIGEST_SHA1
  else if len =? APK_DIGEST_LENGTH_SHA256 then APK_DIGEST_SHA256
  else if len =? APK_DIGEST_LENGTH_SHA512 then APK_DIGEST_SHA512
  else APK_DIGEST_NONE.

(** memcpy into the front of an array. *)
Definition overwrite (arr src : bytes) : bytes := src ++ zdrop (zlen src) arr.

Definition apk_digest_from_blob (d : apk_digest) (b : bytes) : apk_digest :=
  let alg := apk_digest_alg_by_len (zlen b) in
  if negb (alg =? APK_DIGEST_NONE) then Digest alg (zlen b) (overwrite (d_data d) b)
  else Digest alg 0 (d_data d).

Definition apk_digest_reset (d : apk_digest) : apk_digest := Digest APK_DIGEST_NONE 0 (d_data d).

Definition apk_digest_set (d : apk_digest) (alg : Z) : apk_digest :=
  Digest alg (apk_digest_alg_len alg) (d_data d).

(** APK_DIGEST_BLOB *)
Definition apk_digest_blob (d : apk_digest) : bytes := ztake (d_len d) (d_data d).

Definition apk_digest_cmp (a b : apk_digest) : Z :=
  if negb (d_alg a =? d_alg b) then d_alg b - d_alg a
  else memcmp (ztake (d_len a) (d_data a)) (ztake (d_len a) (d_data b)).

Definition apk_digest_cmp_blob (d : apk_digest) (alg : Z) (b : blob) : Z :=
  if negb (d_alg d =? alg) then alg - d_alg d
  else apk_blob_compare (Some (apk_digest_blob d)) b.

Definition apk_blob_push_hash_hex (to : option wbuf) (hash : bytes) : option wbuf :=
  if zlen hash =? APK_DIGEST_LENGTH_SHA1
  then apk_blob_push_hexdump (apk_blob_push_blob to (bs "X1")) hash
  else None.

Definition apk_blob_push_hash (to : option wbuf) (hash : bytes) : option wbuf :=
  if zlen hash =? APK_DIGEST_LENGTH_SHA1
  then apk_blob_push_base64 (apk_blob_push_blob to (bs "Q1")) hash
  else None.

Definition apk_digest_push (to : option wbuf) (d : apk_digest) : option wbuf :=
  apk_blob_push_hash to (apk_digest_blob d).

Definition apk_digest_push_hex (to : option wbuf) (d : apk_digest) : option wbuf :=
  apk_blob_push_hash_hex to (apk_digest_blob d).

(** One of the two decoders applied to the bytes [offs .. offs+n-1] of the digest array. *)
Definition pull_into (pull : blob -> bytes -> option (blob * bytes))
    (b : blob) (d : apk_digest) (offs n : Z) : option (blob * apk_digest) :=
  match pull b (ztake n (zdrop offs (d_data d))) with
  | None => None
  | Some (b, to) =>
      Some (b, Digest (d_alg d) (d_len d)
                 (ztake offs (d_data d) ++ to ++ zdrop (offs + n) (d_data d)))
  end.

(** The body shared by the 'X' and 'Q' cases: decode the digest, and when a SHA-1 prefix was
    announced but the text goes on for exactly the missing part of a SHA-256 digest, decode
    that part too. *)
Definition pull_digest_body (pull : blob -> bytes -> option (blob * bytes))
    (decode : Z -> Z) (extra : Z) (b : blob) (d : apk_digest) : option (blob * apk_digest) :=
  match pull_into pull b d 0 (d_len d) with
  | None => None
  | Some (b, d) =>
      if (d_alg d =? APK_DIGEST_SHA1) && (blob_len b =? extra)
         && negb (decode (List.hd 0 (blob_data b)) =? 0xff)
      then pull_into pull b (apk_digest_set d APK_DIGEST_SHA256) APK_DIGEST_LENGTH_SHA1
             (APK_DIGEST_LENGTH_SHA256 - APK_DIGEST_LENGTH_SHA1)
      else Some (b, d)
  end.

Definition apk_blob_pull_digest (b : blob) (d : apk_digest) : option (blob * apk_digest) :=
  let fail := Some (None, apk_digest_reset d) in
  match b with
  | Some (encoding :: alg :: rest) =>
      let alg := if alg =? 49 then Some APK_DIGEST_SHA1
                 else if alg =? 50 then Some APK_DIGEST_SHA256 else None in
      match alg with
      | None => fail
      | Some alg =>
          let d := apk_digest_set d alg in
          if encoding =? 88 then pull_digest_body apk_blob_pull_hexdump dx 24 (Some rest) d
          else if encoding =? 81 then pull_digest_body apk_blob_pull_base64 b64decode 16 (Some rest) d
          else Some (None, apk_digest_reset d)
      end
  | _ => fail
  end.

(** ** Table facts, settled by computation *)

Lemma dx_xd i : 0 <= i < 16 -> dx (xd_at i) = i /\ xd_at i <> 0.
Proof.
  intros Hi.
  assert (H : ((dx (xd_at i) =? i) && negb (xd_at i =? 0)) = true).
  { apply (all_below_spec 16 (fun i => (dx (xd_at i) =? i) && negb (xd_at i =? 0))); [|done].
    vm_compute. reflexivity. }
  reflect_tests. done.
Qed.

Lemma b64_decode_encode i : 0 <= i < 64 -> b64decode (b64encode i) = i.
Proof.
  intros Hi. apply Z.eqb_eq.
  apply (all_below_spec 64 (fun i => b64decode (b64encode i) =? i)); [|done].
  vm_compute. reflexivity.
Qed.

(** Conjunction over pairs below [n] and [m]. *)
Lemma all_below2_spec n m (f : Z -> Z -> bool) x y :
  all_below n (fun x => all_below m (f x)) = true ->
  0 <= x < Z.of_nat n -> 0 <= y < Z.of_nat m -> f x y = true.
Proof.
  intros H Hx Hy. apply (all_below_spec _ _ _ (all_below_spec _ _ _ H Hx) Hy).
Qed.

Ltac by_table1 f n x :=
  apply Z.eqb_eq; change (f x = true); apply (all_below_spec n f x);
  [vm_compute; reflexivity|unfold byte_ok in *; lia].
Ltac by_table2 f n m x y :=
  apply Z.eqb_eq; change (f x y = true); apply (all_below2_spec n m f x y);
  [vm_compute; reflexivity|unfold byte_ok in *; lia|unfold byte_ok in *; lia].

Lemma hex_high c : byte_ok c -> (c .>> 4) .& 0xf = c / 16.
Proof. intros. by_table1 (fun c => (c .>> 4) .& 0xf =? c / 16) 256%nat c. Qed.
Lemma hex_low c : byte_ok c -> c .& 0xf = c mod 16.
Proof. intros. by_table1 (fun c => c .& 0xf =? c mod 16) 256%nat c. Qed.

Lemma b64_enc0 a : byte_ok a -> a .>> 2 = a / 4.
Proof. intros. by_table1 (fun a => a .>> 2 =? a / 4) 256%nat a. Qed.
Lemma b64_enc1 a b : byte_ok a -> byte_ok b ->
  ((a .& 0x03) .<< 4) .| ((b .& 0xf0) .>> 4) = a mod 4 * 16 + b / 16.
Proof.
  intros. by_table2 (fun a b => ((a .& 0x03) .<< 4) .| ((b .& 0xf0) .>> 4)
    =? a mod 4 * 16 + b / 16) 256%nat 256%nat a b.
Qed.
Lemma b64_enc2 b c : byte_ok b -> byte_ok c ->
  ((b .& 0x0f) .<< 2) .| ((c .& 0xc0) .>> 6) = b mod 16 * 4 + c / 64.
Proof.
  intros. by_table2 (fun b c => ((b .& 0x0f) .<< 2) .| ((c .& 0xc0) .>> 6)
    =? b mod 16 * 4 + c / 64) 256%nat 256%nat b c.
Qed.
Lemma b64_enc3 c : byte_ok c -> c .& 0x3f = c mod 64.
Proof. intros. by_table1 (fun c => c .& 0x3f =? c mod 64) 256%nat c. Qed.
Lemma b64_tail1 a : byte_ok a -> (a .& 0x03) .<< 4 = a mod 4 * 16.
Proof. intros. by_table1 (fun a => (a .& 0x03) .<< 4 =? a mod 4 * 16) 256%nat a. Qed.
Lemma b64_tail2 b : byte_ok b -> (b .& 0x0f) .<< 2 = b mod 16 * 4.
Proof. intros. by_table1 (fun b => (b .& 0x0f) .<< 2 =? b mod 16 * 4) 256%nat b. Qed.

Lemma b64_dec0 t0 t1 : 0 <= t0 < 64 -> 0 <= t1 < 64 ->
  u8 ((t0 .<< 2) .| (t1 .>> 4)) = t0 * 4 + t1 / 16.
Proof.
  intros. by_table2 (fun t0 t1 => u8 ((t0 .<< 2) .| (t1 .>> 4)) =? t0 * 4 + t1 / 16)
    64%nat 64%nat t0 t1.
Qed.
Lemma b64_dec1 t1 t2 : 0 <= t1 < 64 -> 0 <= t2 < 64 ->
  u8 ((t1 .<< 4) .| (t2 .>> 2)) = t1 mod 16 * 16 + t2 / 4.
Proof.
  intros. by_table2 (fun t1 t2 => u8 ((t1 .<< 4) .| (t2 .>> 2)) =? t1 mod 16 * 16 + t2 / 4)
    64%nat 64%nat t1 t2.
Qed.
Lemma b64_dec2 t2 t3 : 0 <= t2 < 64 -> 0 <= t3 < 64 ->
  u8 (((t2 .<< 6) .& 0xc0) .| t3) = t2 mod 4 * 64 + t3.
Proof.
  intros. by_table2 (fun t2 t3 => u8 (((t2 .<< 6) .& 0xc0) .| t3) =? t2 mod 4 * 64 + t3)
    64%nat 64%nat t2 t3.
Qed.

(** The or of values below 64 is not the error mark. *)
Lemma lor_lt_64 a b : 0 <= a < 64 -> 0 <= b < 64 -> 0 <= a .| b < 64.
Proof. apply (lor_range 6). lia. Qed.

(** ** Integers in a radix *)

(** The text apk_blob_push_uint appends. *)
Definition uint_text (value radix : Z) : bytes :=
  if value =? 0 then bs "0" else push_uint_digits 64 value radix [].

(** A text at which the digit loop stops. *)
Definition uint_stops (radix : Z) (rest : bytes) : Prop :=
  match rest with [] => True | c :: _ => c = 0 \/ radix <= dx c end.

Lemma apk_blob_push_uint_text value radix :
  appends (fun to => apk_blob_push_uint to value radix) (uint_text value radix).
Proof. intros to. unfold apk_blob_push_uint, uint_text. by case_test. Qed.

Lemma push_uint_eq to value radix :
  apk_blob_push_uint to value radix = apk_blob_push_blob to (uint_text value radix).
Proof. apply apk_blob_push_uint_text. Qed.

Lemma pull_uint_stop radix rest v : uint_stops radix rest -> pull_uint_loop rest radix v = (v, rest).
Proof.
  destruct rest as [|c rest]; [done|]. cbn. intros [->|H]; [done|].
  repeat case_test; try done. reflect_tests. lia.
Qed.

Lemma u64_step a r d : u64 (u64 (u64 a * r) + d) = u64 (a * r + d).
Proof.
  unfold wrap. rewrite Z.add_mod_idemp_l by done.
  rewrite Z.add_mod, Z.mul_mod_idemp_l, <- Z.add_mod by done. done.
Qed.

Lemma pull_uint_digit d rest radix v :
  2 <= radix <= 16 -> 0 <= d < radix ->
  pull_uint_loop (xd_at d :: rest) radix v = pull_uint_loop rest radix (u64 (u64 (v * radix) + d)).
Proof.
  intros Hr Hd. destruct (dx_xd d) as [Hdx H0]; [lia|]. cbn [pull_uint_loop].
  destruct (Z.eqb_spec (xd_at d) 0); [done|]. rewrite Hdx.
  by destruct (Z.leb_spec radix d); [lia|].
Qed.

(** Reading back the digits of [value] after having read [v]. *)
Lemma pull_push_digits fuel value radix acc v :
  2 <= radix <= 16 -> 0 <= value < 2 ^ Z.of_nat fuel -> 0 <= v < 2 ^ 64 ->
  exists n, 0 <= n /\
  pull_uint_loop (push_uint_digits fuel value radix acc) radix v =
  pull_uint_loop acc radix (u64 (v * radix ^ n + value)).
Proof.
  intros Hr. revert value acc. induction fuel as [|fuel IH]; intros value acc Hv Hv0.
  { cbn in Hv. exists 0. split; [done|]. cbn [push_uint_digits].
    rewrite wrap_small by lia. f_equal. lia. }
  cbn [push_uint_digits]. destruct (Z.eqb_spec value 0) as [->|Hne].
  { exists 0. split; [done|]. rewrite wrap_small by lia. f_equal. lia. }
  assert (Hq : 0 <= value / radix < 2 ^ Z.of_nat fuel).
  { rewrite Nat2Z.inj_succ, Z.pow_succ_r in Hv by lia.
    split; [apply Z.div_pos; lia|]. apply Z.div_lt_upper_bound; [lia|]. nia. }
  destruct (IH (value / radix) (xd_at (value mod radix) :: acc) Hq Hv0) as [n [Hn ->]].
  exists (n + 1). split; [lia|]. rewrite pull_uint_digit by
    (try apply Z.mod_pos_bound; lia).
  rewrite u64_step. do 2 f_equal.
  rewrite Z.pow_add_r, Z.pow_1_r by lia.
  pose proof (Z.div_mod value radix). lia.
Qed.

(** ** Hexadecimal dumps *)

Lemma zlen_hexdump l : zlen (hexdump l) = zlen l * 2.
Proof.
  unfold zlen. induction l as [|c l IH]; [done|].
  change (hexdump (c :: l)) with (hex_byte c ++ hexdump l).
  rewrite length_app. cbn [hex_byte length] in *. lia.
Qed.

Lemma pull_hexdump_loop_dump l rest d r :
  bytes_ok l -> 0 <= r < 16 ->
  exists r', 0 <= r' < 16 /\
  pull_hexdump_loop (length l) (hexdump l ++ rest) d r = Some (r', rest, d ++ l).
Proof.
  intros Hl. revert d r. induction Hl as [|c l Hc _ IH]; intros d r Hr.
  - exists r. by rewrite app_nil_r.
  - change (hexdump (c :: l)) with (hex_byte c ++ hexdump l).
    cbn [hex_byte app length pull_hexdump_loop].
    rewrite hex_high, hex_low by done. unfold byte_ok in Hc.
    rewrite (proj1 (dx_xd (c / 16) ltac:(div_mod_lia))).
    rewrite (proj1 (dx_xd (c mod 16) ltac:(div_mod_lia))).
    rewrite Z.shiftl_mul_pow2 by lia. change (2 ^ 4) with 16.
    replace (c / 16 * 16 + c mod 16) with c by div_mod_lia.
    rewrite wrap_small by lia.
    destruct (IH (d ++ [c]) (r .| (c / 16) .| (c mod 16))) as [r' [Hr' ->]].
    { apply (lor_range 4); [lia|apply (lor_range 4); [lia|lia|div_mod_lia]|div_mod_lia]. }
    exists r'. by rewrite <- app_assoc.
Qed.

Lemma pull_hexdump_loop_total n s d r :
  (2 * n <= length s)%nat -> is_Some (pull_hexdump_loop n s d r).
Proof.
  revert s d r. induction n as [|n IH]; intros s d r Hn; [eauto|].
  destruct s as [|c1 [|c2 s]]; cbn in *; try lia. apply IH. lia.
Qed.

(** ** Base64 *)

Lemma b64_dump_app3 a b c l :
  b64_dump (a :: b :: c :: l) = b64_dump [a; b; c] ++ b64_dump l.
Proof. done. Qed.

Lemma zlen_b64_dump l : zlen (b64_dump l) = b64_needed (zlen l).
Proof.
  unfold b64_needed. remember (length l) as n eqn:Hn. revert l Hn.
  induction (lt_wf n) as [n _ IH]. intros l ->.
  destruct l as [|a [|b [|c l]]]; [done|done|done|].
  rewrite b64_dump_app3, zlen_app, (IH (length l) ltac:(cbn; lia) l eq_refl).
  rewrite !zlen_cons. change (zlen (b64_dump [a; b; c])) with 4. div_mod_lia.
Qed.

Lemma pull_base64_loop_dump l dst rest d r :
  bytes_ok l -> length dst = length l -> 0 <= r < 64 ->
  exists r' tail dst' pre, 0 <= r' < 64 /\
    pull_base64_loop dst (b64_dump l ++ rest) d r =
      Some (r', b64_dump tail ++ rest, dst', d ++ pre) /\
    l = pre ++ tail /\ bytes_ok tail /\ length dst' = length tail /\ zlen tail < 3.
Proof.
  intros Hl. remember (length l) as n eqn:Hn. revert l dst d r Hn Hl.
  induction (lt_wf n) as [n _ IH]. intros l dst d r -> Hl Hd Hr.
  destruct l as [|a [|b [|c l]]], dst as [|x [|y [|z dst]]]; try discriminate.
  1-3: by eexists r, _, _, []; rewrite app_nil_r.
  inversion Hl as [|? ? Ha Hl1]; subst. inversion Hl1 as [|? ? Hb Hl2]; subst.
  inversion Hl2 as [|? ? Hc Hl3]; subst.
  cbn [b64_dump app pull_base64_loop].
  rewrite b64_enc0, b64_enc1, b64_enc2, b64_enc3 by done.
  unfold byte_ok in Ha, Hb, Hc.
  assert (H0 : 0 <= a / 4 < 64) by div_mod_lia.
  assert (H1 : 0 <= a mod 4 * 16 + b / 16 < 64) by div_mod_lia.
  assert (H2 : 0 <= b mod 16 * 4 + c / 64 < 64) by div_mod_lia.
  assert (H3 : 0 <= c mod 64 < 64) by div_mod_lia.
  rewrite !b64_decode_encode, b64_dec0, b64_dec1, b64_dec2 by done.
  replace (a / 4 * 4 + (a mod 4 * 16 + b / 16) / 16) with a by div_mod_lia.
  replace ((a mod 4 * 16 + b / 16) mod 16 * 16 + (b mod 16 * 4 + c / 64) / 4)
    with b by div_mod_lia.
  replace ((b mod 16 * 4 + c / 64) mod 4 * 64 + c mod 64) with c by div_mod_lia.
  destruct (IH (length l) ltac:(cbn; lia) l dst (d ++ [a; b; c])
              (r .| (a / 4) .| (a mod 4 * 16 + b / 16) .| (b mod 16 * 4 + c / 64) .| (c mod 64))
              eq_refl Hl3 ltac:(cbn in Hd; lia))
    as (r' & tail & dst' & pre & Hr' & -> & -> & Ht & Hlen & Hlt).
  { repeat apply lor_lt_64; done. }
  exists r', tail, dst', (a :: b :: c :: pre). by rewrite <- app_assoc.
Qed.

Lemma pull_b64_tail_dump to tail rest :
  bytes_ok tail -> length to = length tail -> 0 < zlen tail < 3 ->
  pull_b64_tail to (b64_dump tail ++ rest) = (true, tail).
Proof.
  intros Hok Hto Hl.
  destruct tail as [|a [|b [|c tail]]], to as [|x [|y [|z to]]]; try discriminate.
  - change (0 < 0 < 3) in Hl. lia.
  - inversion Hok as [|? ? Ha _]; subst. cbn [b64_dump push_b64_tail app pull_b64_tail].
    rewrite b64_enc0, b64_tail1 by done. unfold byte_ok in Ha.
    rewrite !b64_decode_encode by div_mod_lia. change (b64decode 61) with 0.
    assert (0 <= a / 4 < 64) by div_mod_lia. assert (0 <= a mod 4 * 16 < 64) by div_mod_lia.
    assert (0 <= a / 4 .| (a mod 4 * 16) .| 0 .| 0 < 64) by (repeat apply lor_lt_64; lia).
    destruct (Z.eqb_spec (a / 4 .| (a mod 4 * 16) .| 0 .| 0) 255); [lia|].
    rewrite b64_dec0 by done. cbn. do 2 f_equal. div_mod_lia.
  - inversion Hok as [|? ? Ha Hok']; subst. inversion Hok' as [|? ? Hb _]; subst.
    cbn [b64_dump push_b64_tail app pull_b64_tail].
    rewrite b64_enc0, b64_enc1, b64_tail2 by done. unfold byte_ok in Ha, Hb.
    rewrite !b64_decode_encode by div_mod_lia. change (b64decode 61) with 0.
    assert (0 <= a / 4 < 64) by div_mod_lia.
    assert (0 <= a mod 4 * 16 + b / 16 < 64) by div_mod_lia.
    assert (0 <= b mod 16 * 4 < 64) by div_mod_lia.
    assert (0 <= a / 4 .| (a mod 4 * 16 + b / 16) .| (b mod 16 * 4) .| 0 < 64)
      by (repeat apply lor_lt_64; lia).
    destruct (Z.eqb_spec (a / 4 .| (a mod 4 * 16 + b / 16) .| (b mod 16 * 4) .| 0) 255); [lia|].
    rewrite b64_dec0, b64_dec1 by done. cbn. do 2 f_equal; [|f_equal]; div_mod_lia.
  - rewrite !zlen_cons in Hl. pose proof (zlen_nonneg tail). lia.
Qed.

Lemma pull_base64_loop_total dst src d r :
  b64_needed (zlen dst) <= zlen src -> is_Some (pull_base64_loop dst src d r).
Proof.
  remember (length dst) as n eqn:Hn. revert dst src d r Hn.
  induction (lt_wf n) as [n _ IH]. intros dst src d r -> Hl.
  destruct dst as [|a [|b [|c dst]]]; [cbn; eauto..|].
  unfold b64_needed in Hl. rewrite !zlen_cons in Hl. pose proof (zlen_nonneg dst).
  destruct src as [|s0 [|s1 [|s2 [|s3 src]]]].
  1-4: unfold zlen in Hl at 2; cbn in Hl; div_mod_lia.
  cbn [pull_base64_loop]. apply (IH (length dst)); [cbn; lia|done|].
  rewrite !zlen_cons in Hl. unfold b64_needed. div_mod_lia.
Qed.

(** The decoders invert the dumps. *)
Lemma pull_hexdump_dump l rest to :
  bytes_ok l -> zlen to = zlen l ->
  apk_blob_pull_hexdump (Some (hexdump l ++ rest)) to = Some (Some rest, l).
Proof.
  intros Hl Ht. unfold apk_blob_pull_hexdump. pose proof (zlen_nonneg l).
  pose proof (zlen_nonneg rest). rewrite zlen_app, zlen_hexdump.
  destruct (Z.ltb_spec ((zlen l * 2 + zlen rest) * 2) (zlen to)); [lia|].
  replace (length to) with (length l) by (unfold zlen in Ht; lia).
  destruct (pull_hexdump_loop_dump l rest [] 0 Hl) as [r' [Hr' ->]]; [lia|].
  by destruct (Z.eqb_spec r' 255); [lia|].
Qed.

Lemma pull_base64_dump l rest to :
  bytes_ok l -> zlen to = zlen l ->
  apk_blob_pull_base64 (Some (b64_dump l ++ rest)) to = Some (Some rest, l).
Proof.
  intros Hl Ht. unfold apk_blob_pull_base64.
  rewrite Ht, <- zlen_b64_dump, zdrop_app, zlen_app. pose proof (zlen_nonneg rest).
  destruct (Z.ltb_spec (zlen (b64_dump l) + zlen rest) (zlen (b64_dump l))); [lia|].
  destruct (pull_base64_loop_dump l to rest [] 0 Hl ltac:(unfold zlen in Ht; lia) ltac:(lia))
    as (r' & tail & dst' & pre & Hr' & -> & -> & Htl & Hlen & Hlt).
  destruct (Z.eqb_spec r' 255); [lia|]. cbn [app].
  assert (Hz : zlen dst' = zlen tail) by (unfold zlen; lia). rewrite Hz.
  destruct (Z.eqb_spec (zlen tail) 0) as [Hz0|Hz0].
  - apply zlen_0_nil in Hz0 as ->. by rewrite app_nil_r.
  - rewrite pull_b64_tail_dump by (auto; pose proof (zlen_nonneg tail); lia). done.
Qed.

(** ** Digests *)

Lemma apk_digest_set_blob d alg data :
  zlen data = apk_digest_alg_len alg ->
  apk_digest_blob (Digest alg (apk_digest_alg_len alg) (data ++ d)) = data.
Proof. intros H. unfold apk_digest_blob. cbn. rewrite <- H. apply ztake_app. Qed.

(** A decoder that inverts the dump of [hash] fills the digest with it. *)
Lemma pull_into_dump pull d hash text rest n :
  zlen (d_data d) = 64 -> zlen hash = n -> 0 <= n <= 64 ->
  (forall to, zlen to = n -> pull (Some (text ++ rest)) to = Some (Some rest, hash)) ->
  pull_into pull (Some (text ++ rest)) d 0 n =
  Some (Some rest, Digest (d_alg d) (d_len d) (hash ++ zdrop n (d_data d))).
Proof.
  intros Hd Hh Hn Hp. unfold pull_into. rewrite zdrop_0, Hp.
  - by rewrite ztake_0, Z.add_0_l.
  - apply zlen_ztake. lia.
Qed.

Lemma xd_decimal d : 0 <= d < 10 -> xd_at d = 48 + d.
Proof.
  intros Hd. assert (Hall : forallb (fun d => xd_at d =? 48 + d) [0;1;2;3;4;5;6;7;8;9] = true) by (by vm_compute).
  assert (Hin : List.In d [0;1;2;3;4;5;6;7;8;9]) by (cbn; lia). apply Z.eqb_eq. exact (proj1 (forallb_forall _ _) Hall d Hin).
Qed.

(** The digits of a number in radix 8 or 10. *)
Lemma decimal_text v : 0 <= v < 2 ^ 64 -> forall r, r = 8 \/ r = 10 ->
  uint_text v r <> [] /\ Forall (fun c => 48 <= c <= 57) (uint_text v r).
Proof.
  intros Hv r Hr. unfold uint_text. destruct (Z.eqb_spec v 0); [split; [done|by repeat constructor]|].
  assert (Hd : forall fuel value acc, 0 <= value -> Forall (fun c => 48 <= c <= 57) acc ->
    Forall (fun c => 48 <= c <= 57) (push_uint_digits fuel value r acc)).
  { induction fuel as [|fuel IH]; intros value acc Hva Hacc; [done|]. cbn [push_uint_digits]. destruct (value =? 0); [done|].
    pose proof (Z.mod_pos_bound value r ltac:(lia)). pose proof (Z.div_pos value r Hva ltac:(lia)).
    apply IH; [done|]. constructor; [|done]. rewrite xd_decimal by lia. lia. }
  assert (Hne : forall fuel value acc, acc <> [] -> push_uint_digits fuel value r acc <> []).
  { induction fuel as [|fuel IH]; intros value acc Hacc; [done|]. cbn [push_uint_digits]. destruct (value =? 0); [done|]. by apply IH. }
  assert (Hpos : forall fuel, push_uint_digits (Datatypes.S fuel) v r [] <> []).
  { intros fuel. cbn [push_uint_digits]. destruct (Z.eqb_spec v 0); [done|]. by apply Hne. }
  split; [exact (Hpos 63%nat)|apply Hd; [lia|constructor]].
Qed.

(** Printed integers are read back. *)
Lemma uint_text_pull radix value rest :
  2 <= radix <= 16 -> 0 <= value < 2 ^ 64 -> uint_stops radix rest ->
  apk_blob_pull_uint (uint_text value radix ++ rest) radix = (value, rest).
Proof.
  intros Hr Hv Hs.
  unfold uint_text, apk_blob_pull_uint. destruct (Z.eqb_spec value 0) as [->|Hne].
  - change (bs "0" ++ rest) with (xd_at 0 :: rest).
    rewrite pull_uint_digit by lia. by apply pull_uint_stop.
  - assert (Ha : forall n v acc, push_uint_digits n v radix acc =
                                 push_uint_digits n v radix [] ++ acc).
    { induction n as [|n IH]; intros v acc; [done|]. cbn [push_uint_digits].
      case_test; [done|]. rewrite IH, (IH _ [_]), <- app_assoc. done. }
    rewrite <- Ha.
    destruct (pull_push_digits 64 value radix rest 0 Hr ltac:(lia) ltac:(lia)) as [n [_ ->]].
    rewrite Z.mul_0_l, Z.add_0_l, wrap_small by lia. by apply pull_uint_stop.
Qed.

(** The text of a SHA-1 hash, and reading it into any digest structure. *)
Definition hash_text (hash : bytes) : bytes := bs "Q1" ++ b64_dump hash.

Lemma apk_blob_push_hash_text hash :
  zlen hash = APK_DIGEST_LENGTH_SHA1 -> appends (fun to => apk_blob_push_hash to hash) (hash_text hash).
Proof.
  intros Hlen to. unfold apk_blob_push_hash. rewrite Hlen, Z.eqb_refl. unfold hash_text.
  rewrite <- apk_blob_push_app. destruct (apk_blob_push_blob to (bs "Q1")) as [w|]; [|done].
  unfold apk_blob_push_base64, apk_blob_push_blob. by rewrite zlen_b64_dump.
Qed.

Lemma push_hash_eq to hash :
  zlen hash = APK_DIGEST_LENGTH_SHA1 -> apk_blob_push_hash to hash = apk_blob_push_blob to (hash_text hash).
Proof. intros Hlen. by apply (apk_blob_push_hash_text hash Hlen). Qed.

Lemma pull_digest_hash_text d hash rest :
  bytes_ok hash -> zlen hash = APK_DIGEST_LENGTH_SHA1 -> zlen (d_data d) = 64 -> zlen rest <> 16 ->
  apk_blob_pull_digest (Some (hash_text hash ++ rest)) d =
  Some (Some rest, Digest APK_DIGEST_SHA1 20 (hash ++ zdrop 20 (d_data d))).
Proof.
  intros Hok Hlen Hd Hr.
  change (apk_blob_pull_digest (Some (hash_text hash ++ rest)) d)
    with (pull_digest_body apk_blob_pull_base64 b64decode 16 (Some (b64_dump hash ++ rest))
            (apk_digest_set d APK_DIGEST_SHA1)).
  unfold pull_digest_body. change (d_len (apk_digest_set d APK_DIGEST_SHA1)) with 20.
  rewrite (pull_into_dump apk_blob_pull_base64 _ hash); [|done|done|lia|].
  - unfold blob_len. cbn [blob_data d_alg apk_digest_set].
    destruct (Z.eqb_spec (zlen rest) 16); [done|]. by rewrite andb_false_r.
  - intros to Ht. apply pull_base64_dump; [done|]. by rewrite Ht, Hlen.
Qed.

(** ** Properties *)

(** An unsigned 64-bit integer printed by apk_blob_push_uint in any radix from 2 to 16
    is read back by apk_blob_pull_uint, which stops at the first byte that is not a digit
    and returns exactly the rest of the text. *)
Theorem uint_roundtrip radix value rest :
  2 <= radix <= 16 -> 0 <= value < 2 ^ 64 -> uint_stops radix rest ->
  exists text, appends (fun to => apk_blob_push_uint to value radix) text /\
  apk_blob_pull_uint (text ++ rest) radix = (value, rest).
Proof.
  intros Hr Hv Hs. exists (uint_text value radix).
  split; [apply apk_blob_push_uint_text|by apply uint_text_pull].
Qed.

Lemma uint_roundtrip_witness :
  exists text, appends (fun to => apk_blob_push_uint to 1234 10) text /\
  apk_blob_pull_uint (text ++ bs "-r0") 10 = (1234, bs "-r0").
Proof. apply (uint_roundtrip 10 1234 (bs "-r0")); [lia|lia|right; vm_compute; discriminate]. Defined.

Lemma hexdump_appends l : appends (fun to => apk_blob_push_hexdump to l) (hexdump l).
Proof.
  intros [w|]; [|done]. unfold apk_blob_push_hexdump, apk_blob_push_blob.
  by rewrite zlen_hexdump.
Qed.

(** A hexadecimal dump of any byte string is decoded back to it, and the text after it is
    left untouched. *)
Theorem hexdump_roundtrip l rest to :
  bytes_ok l -> zlen to = zlen l ->
  appends (fun to => apk_blob_push_hexdump to l) (hexdump l) /\
  apk_blob_pull_hexdump (Some (hexdump l ++ rest)) to = Some (Some rest, l).
Proof.
  intros Hl Ht. split; [apply hexdump_appends|by apply pull_hexdump_dump].
Qed.

Lemma hexdump_roundtrip_witness :
  apk_blob_pull_hexdump (Some (hexdump [0; 255; 16] ++ bs "zz")) [0; 0; 0]
  = Some (Some (bs "zz"), [0; 255; 16]).
Proof.
  apply (hexdump_roundtrip [0; 255; 16] (bs "zz") [0; 0; 0]);
    [repeat constructor; unfold byte_ok; lia|reflexivity].
Defined.

(** Base64 text of any byte string, of a length that is a multiple of three or not, is
    decoded back to it, and the text after it is left untouched. *)
Theorem base64_roundtrip l rest to :
  bytes_ok l -> zlen to = zlen l ->
  appends (fun to => apk_blob_push_base64 to l) (b64_dump l) /\
  apk_blob_pull_base64 (Some (b64_dump l ++ rest)) to = Some (Some rest, l).
Proof.
  intros Hl Ht. split; [|by apply pull_base64_dump].
  intros [w|]; [|done]. unfold apk_blob_push_base64, apk_blob_push_blob.
  by rewrite zlen_b64_dump.
Qed.

Lemma base64_roundtrip_witness :
  apk_blob_pull_base64 (Some (b64_dump [0; 255; 16; 7] ++ bs "zz")) [0; 0; 0; 0]
  = Some (Some (bs "zz"), [0; 255; 16; 7]).
Proof.
  apply (base64_roundtrip [0; 255; 16; 7] (bs "zz") [0; 0; 0; 0]);
    [repeat constructor; unfold byte_ok; lia|reflexivity].
Defined.

(** Apk_blob_pull_base64 never reads past the end of its source, whatever the source and
    the destination are. *)
Theorem pull_base64_in_bounds b to : is_Some (apk_blob_pull_base64 b to).
Proof.
  destruct b as [l|]; cbn; [|eauto]. destruct (Z.ltb_spec (zlen l) (b64_needed (zlen to))); [eauto|].
  destruct (pull_base64_loop_total to l [] 0 ltac:(done)) as [[[[r src] dst] d] ->].
  repeat case_test; eauto. destruct (pull_b64_tail dst src) as [[] tail]; eauto.
Qed.

(** apk_blob_pull_hexdump reads past the end of its source exactly when the source is
    shorter than twice the destination and its guard (which compares the destination with
    twice the source, not the source with twice the destination) lets the call through. *)
Theorem pull_hexdump_overread l to :
  apk_blob_pull_hexdump (Some l) to = None <->
  zlen l < 2 * zlen to /\ zlen to <= 2 * zlen l.
Proof.
  unfold apk_blob_pull_hexdump. destruct (Z.ltb_spec (zlen l * 2) (zlen to)).
  { split; [done|lia]. }
  assert (Hn : forall n s d r, (length s < 2 * n)%nat -> pull_hexdump_loop n s d r = None).
  { induction n as [|n IH]; intros s d r Hlt; [lia|].
    destruct s as [|c1 [|c2 s]]; [done|done|]. cbn [pull_hexdump_loop]. apply IH.
    cbn in Hlt. lia. }
  destruct (decide (zlen l < 2 * zlen to)) as [Hlt|Hge].
  - rewrite Hn by (unfold zlen in Hlt; lia). split; [lia|done].
  - destruct (pull_hexdump_loop_total (length to) l [] 0) as [[[r s] d] ->].
    { unfold zlen in Hge. lia. }
    split; [by case_test|lia].
Qed.

(** The text form of a SHA-1 digest (Q1 and base64, as package and file hashes are stored)
    is parsed back to the same digest by apk_blob_pull_digest, whatever the digest structure
    held before, provided the text is not continued by exactly the 16 characters that turn it
    into a SHA-256 digest. *)
Theorem digest_roundtrip d hash rest :
  bytes_ok hash -> zlen hash = APK_DIGEST_LENGTH_SHA1 -> zlen (d_data d) = 64 -> zlen rest <> 16 ->
  exists text d', appends (fun to => apk_blob_push_hash to hash) text /\
  apk_blob_pull_digest (Some (text ++ rest)) d = Some (Some rest, d') /\
  d_alg d' = APK_DIGEST_SHA1 /\ apk_digest_blob d' = hash.
Proof.
  intros Hok Hlen Hd Hr. exists (hash_text hash). eexists.
  split; [by apply apk_blob_push_hash_text|]. split; [by apply pull_digest_hash_text|].
  split; [done|]. unfold apk_digest_blob. cbn [d_len d_data].
  change 20 with APK_DIGEST_LENGTH_SHA1. rewrite <- Hlen. apply ztake_app.
Qed.

Lemma digest_roundtrip_witness :
  let hash := replicate 20 171 in
  exists text d', appends (fun to => apk_blob_push_hash to hash) text /\
  apk_blob_pull_digest (Some (text ++ bs " x")) (Digest 0 0 (replicate 64 0)) = Some (Some (bs " x"), d') /\
  d_alg d' = APK_DIGEST_SHA1 /\ apk_digest_blob d' = hash.
Proof.
  apply (digest_roundtrip (Digest 0 0 (replicate 64 0)) (replicate 20 171) (bs " x")).
  - repeat constructor; unfold byte_ok; lia.
  - reflexivity.
  - reflexivity.
  - discriminate.
Defined.

(** The two alternative forms decode as documented by the tests of the format: a SHA-256
    digest announced as such, and one announced as SHA-1 but carrying the longer text. *)
Example pull_digest_x2 :
  apk_blob_pull_digest (Some (bs "X2" ++ hexdump (replicate 32 7))) (Digest 0 0 (replicate 64 0))
  = Some (Some [], Digest APK_DIGEST_SHA256 32 (replicate 32 7 ++ replicate 32 0)).
Proof. vm_compute. reflexivity. Qed.

Example pull_digest_x1_long :
  apk_blob_pull_digest (Some (bs "X1" ++ hexdump (replicate 32 7))) (Digest 0 0 (replicate 64 0))
  = Some (Some [], Digest APK_DIGEST_SHA256 32 (replicate 32 7 ++ replicate 32 0)).
Proof. vm_compute. reflexivity. Qed.

(** '+' is a hexadecimal digit of value 0x3e to apk_blob_pull_hexdump. *)
Example pull_hexdump_plus :
  apk_blob_pull_hexdump (Some (bs "++")) [0] = Some (Some [], [u8 (0x3e * 16 + 0x3e)]).
Proof. vm_compute. reflexivity. Qed.
