(* ===== verification/Ctype.v ===== *)
(** Character classes (ctype.c, apk_ctype.h): the class tables, and the span functions that
    cut a blob at the first byte outside ([apk_blob_spn]) or inside ([apk_blob_cspn]) a
    class. *)
From Stdlib Require Import ZArith Lia Ascii String.
From stdpp Require Import base numbers list option.
From S2P Require Import Prelude Clib Blob.

Definition APK_CTYPE_HEXDIGIT : Z := 0.
Definition APK_CTYPE_PACKAGE_NAME : Z := 1.
Definition APK_CTYPE_VERSION_SUFFIX : Z := 2.
Definition APK_CTYPE_DEPENDENCY_NAME : Z := 3.
Definition APK_CTYPE_DEPENDENCY_COMPARER : Z := 4.
Definition APK_CTYPE_VARIABLE_NAME : Z := 5.
Definition APK_CTYPE_TAG_NAME : Z := 6.
Definition APK_CTYPE_DEPENDENCY_SEPARATOR : Z := 8.
Definition APK_CTYPE_REPOSITORY_SEPARATOR : Z := 9.

Definition BIT (x : Z) : Z := 1 .<< x.
Definition HEXDGT : Z := BIT APK_CTYPE_HEXDIGIT.
Definition PKGNAME : Z := BIT APK_CTYPE_PACKAGE_NAME .| BIT APK_CTYPE_DEPENDENCY_NAME.
Definition VERSUF : Z := BIT APK_CTYPE_VERSION_SUFFIX.
Definition DEPNAME : Z := BIT APK_CTYPE_DEPENDENCY_NAME.
Definition DEPCOMP : Z := BIT APK_CTYPE_DEPENDENCY_COMPARER.
Definition VARNAME : Z := BIT APK_CTYPE_VARIABLE_NAME .| BIT APK_CTYPE_TAG_NAME.
Definition TAGNAME : Z := BIT APK_CTYPE_TAG_NAME.
Definition DEPSEP : Z := BIT (APK_CTYPE_DEPENDENCY_SEPARATOR - 8).
Definition REPOSEP : Z := BIT (APK_CTYPE_REPOSITORY_SEPARATOR - 8).

(** An array written with designated initialisers: it has as many entries as the largest
    index needs, and 0 where no initialiser is given. *)
Definition designated (entries : list (ascii * Z)) : list Z :=
  map (fun i => match List.find (fun e => chr (fst e) =? Z.of_nat i) entries with
                | Some e => snd e
                | None => 0
                end)
      (seq 0 (S (fold_left (fun m e => Nat.max m (Z.to_nat (chr (fst e)))) entries 0%nat))).

Definition apk_ctype1 : list Z := Eval vm_compute in designated
  [("+"%char, PKGNAME .| TAGNAME); (","%char, DEPNAME .| TAGNAME);
   ("-"%char, PKGNAME .| TAGNAME); ("."%char, PKGNAME .| TAGNAME);
   (":"%char, DEPNAME .| TAGNAME); ("<"%char, DEPCOMP);
   ("="%char, DEPCOMP .| TAGNAME); (">"%char, DEPCOMP);
   ("/"%char, DEPNAME .| TAGNAME); ("0"%char, HEXDGT .| PKGNAME .| VARNAME);
   ("1"%char, HEXDGT .| PKGNAME .| VARNAME); ("2"%char, HEXDGT .| PKGNAME .| VARNAME);
   ("3"%char, HEXDGT .| PKGNAME .| VARNAME); ("4"%char, HEXDGT .| PKGNAME .| VARNAME);
   ("5"%char, HEXDGT .| PKGNAME .| VARNAME); ("6"%char, HEXDGT .| PKGNAME .| VARNAME);
   ("7"%char, HEXDGT .| PKGNAME .| VARNAME); ("8"%char, HEXDGT .| PKGNAME .| VARNAME);
   ("9"%char, HEXDGT .| PKGNAME .| VARNAME); ("A"%char, PKGNAME .| VARNAME);
   ("B"%char, PKGNAME .| VARNAME); ("C"%char, PKGNAME .| VARNAME);
   ("D"%char, PKGNAME .| VARNAME); ("E"%char, PKGNAME .| VARNAME);
   ("F"%char, PKGNAME .| VARNAME); ("G"%char, PKGNAME .| VARNAME);
   ("H"%char, PKGNAME .| VARNAME); ("I"%char, PKGNAME .| VARNAME);
   ("J"%char, PKGNAME .| VARNAME); ("K"%char, PKGNAME .| VARNAME);
   ("L"%char, PKGNAME .| VARNAME); ("M"%char, PKGNAME .| VARNAME);
   ("N"%char, PKGNAME .| VARNAME); ("O"%char, PKGNAME .| VARNAME);
   ("P"%char, PKGNAME .| VARNAME); ("Q"%char, PKGNAME .| VARNAME);
   ("R"%char, PKGNAME .| VARNAME); ("S"%char, PKGNAME .| VARNAME);
   ("T"%char, PKGNAME .| VARNAME); ("U"%char, PKGNAME .| VARNAME);
   ("V"%char, PKGNAME .| VARNAME); ("W"%char, PKGNAME .| VARNAME);
   ("X"%char, PKGNAME .| VARNAME); ("Y"%char, PKGNAME .| VARNAME);
   ("Z"%char, PKGNAME .| VARNAME); ("["%char, DEPNAME .| TAGNAME);
   ("]"%char, DEPNAME .| TAGNAME); ("_"%char, PKGNAME .| VARNAME);
   ("a"%char, HEXDGT .| VERSUF .| PKGNAME .| VARNAME); ("b"%char, HEXDGT .| VERSUF .| PKGNAME .| VARNAME);
   ("c"%char, HEXDGT .| VERSUF .| PKGNAME .| VARNAME); ("d"%char, HEXDGT .| VERSUF .| PKGNAME .| VARNAME);
   ("e"%char, HEXDGT .| VERSUF .| PKGNAME .| VARNAME); ("f"%char, HEXDGT .| VERSUF .| PKGNAME .| VARNAME);
   ("g"%char, VERSUF .| PKGNAME .| VARNAME); ("h"%char, VERSUF .| PKGNAME .| VARNAME);
   ("i"%char, VERSUF .| PKGNAME .| VARNAME); ("j"%char, VERSUF .| PKGNAME .| VARNAME);
   ("k"%char, VERSUF .| PKGNAME .| VARNAME); ("l"%char, VERSUF .| PKGNAME .| VARNAME);
   ("m"%char, VERSUF .| PKGNAME .| VARNAME); ("n"%char, VERSUF .| PKGNAME .| VARNAME);
   ("o"%char, VERSUF .| PKGNAME .| VARNAME); ("p"%char, VERSUF .| PKGNAME .| VARNAME);
   ("q"%char, VERSUF .| PKGNAME .| VARNAME); ("r"%char, VERSUF .| PKGNAME .| VARNAME);
   ("s"%char, VERSUF .| PKGNAME .| VARNAME); ("t"%char, VERSUF .| PKGNAME .| VARNAME);
   ("u"%char, VERSUF .| PKGNAME .| VARNAME); ("v"%char, VERSUF .| PKGNAME .| VARNAME);
   ("w"%char, VERSUF .| PKGNAME .| VARNAME); ("x"%char, VERSUF .| PKGNAME .| VARNAME);
   ("y"%char, VERSUF .| PKGNAME .| VARNAME); ("z"%char, VERSUF .| PKGNAME .| VARNAME);
   ("~"%char, DEPCOMP)].

Definition apk_ctype2 : list Z := Eval vm_compute in designated
  [("009"%char, REPOSEP); ("010"%char, DEPSEP); (" "%char, REPOSEP .| DEPSEP)].

(** get_array: the table of a class (its length is the C array size) and the mask. *)
Definition get_array (ctype : Z) : list Z * Z :=
  if 8 <=? ctype then (apk_ctype2, BIT (ctype - 8)) else (apk_ctype1, BIT ctype).

(** The test of both span loops: is byte [ch] in the class? *)
Definition in_ctype (ctype ch : Z) : bool :=
  let '(ctype_data, mask) := get_array ctype in
  negb ((zlen ctype_data <=? ch) || (znth 0 ctype_data ch .& mask =? 0)).

(** The loop of apk_blob_spn: [ret] (a byte outside the class was met), the span, the rest. *)
Fixpoint apk_blob_spn (b : bytes) (ctype : Z) : bool * bytes * bytes :=
  match b with
  | [] => (false, [], [])
  | ch :: b' => if negb (in_ctype ctype ch) then (true, [], b)
                else let '(ret, l, r) := apk_blob_spn b' ctype in (ret, ch :: l, r)
  end.

Fixpoint apk_blob_cspn (b : bytes) (ctype : Z) : bool * bytes * bytes :=
  match b with
  | [] => (false, [], [])
  | ch :: b' => if in_ctype ctype ch then (true, [], b)
                else let '(ret, l, r) := apk_blob_cspn b' ctype in (ret, ch :: l, r)
  end.

(** ** Spans *)

(** What a span returns: the parts make up the blob, the first lies in the class [p], the
    second is empty or starts with a byte outside it, and [ret] says which. *)
Definition span_of (p : Z -> bool) (b : bytes) (res : bool * bytes * bytes) : Prop :=
  let '(ret, l, r) := res in
  b = l ++ r /\ Forall (fun c => p c = true) l /\
  match r with
  | [] => ret = false
  | c :: _ => ret = true /\ p c = false
  end.

Lemma apk_blob_spn_span b ctype : span_of (in_ctype ctype) b (apk_blob_spn b ctype).
Proof.
  induction b as [|ch b IH]; cbn; [done|].
  destruct (in_ctype ctype ch) eqn:E; cbn; [|done].
  destruct (apk_blob_spn b ctype) as [[ret l] r]. cbn in IH. destruct IH as (-> & Hl & Hr).
  cbn. auto.
Qed.

Lemma apk_blob_cspn_span b ctype :
  span_of (fun c => negb (in_ctype ctype c)) b (apk_blob_cspn b ctype).
Proof.
  induction b as [|ch b IH]; cbn; [done|].
  destruct (in_ctype ctype ch) eqn:E; cbn; [by rewrite E|].
  destruct (apk_blob_cspn b ctype) as [[ret l] r]. cbn in IH. destruct IH as (-> & Hl & Hr).
  cbn. split; [done|]. split; [constructor; [by rewrite E|done]|done].
Qed.

(** A span is determined by its description. *)
Lemma span_of_unique p b res1 res2 : span_of p b res1 -> span_of p b res2 -> res1 = res2.
Proof.
  destruct res1 as [[t1 l1] r1], res2 as [[t2 l2] r2]. cbn.
  revert b l2. induction l1 as [|c l1 IH]; intros b l2 (Hb1 & Hl1 & Hr1) (Hb2 & Hl2 & Hr2).
  - destruct l2 as [|c2 l2]; cbn in *.
    + subst. destruct r2; [by subst|]. destruct Hr1, Hr2. by subst.
    + subst. inversion Hl2; subst. destruct Hr1. congruence.
  - destruct l2 as [|c2 l2]; cbn in *.
    + subst. inversion Hl1; subst. destruct Hr2. congruence.
    + subst b. injection Hb2 as <- Hb2. inversion Hl1; inversion Hl2; subst.
      specialize (IH (l1 ++ r1) l2 ltac:(auto) ltac:(auto)). congruence.
Qed.

(** Spans of a text whose parts are known. *)
Definition class_ends (p : Z -> bool) (r : bytes) : Prop :=
  match r with [] => True | c :: _ => p c = false end.

Lemma apk_blob_spn_app l r ctype :
  Forall (fun c => in_ctype ctype c = true) l -> class_ends (in_ctype ctype) r ->
  apk_blob_spn (l ++ r) ctype = (negb (bool_decide (r = [])), l, r).
Proof.
  intros Hl Hr. eapply span_of_unique; [apply apk_blob_spn_span|].
  cbn. split; [done|]. split; [done|]. by destruct r.
Qed.

Lemma apk_blob_cspn_app l r ctype :
  Forall (fun c => in_ctype ctype c = false) l ->
  class_ends (fun c => negb (in_ctype ctype c)) r ->
  apk_blob_cspn (l ++ r) ctype = (negb (bool_decide (r = [])), l, r).
Proof.
  intros Hl Hr. eapply span_of_unique; [apply apk_blob_cspn_span|].
  cbn. split; [done|]. split; [|by destruct r].
  revert Hl. apply Forall_impl. by intros c ->.
Qed.

(** ** What the classes contain, settled by computation over the 256 bytes *)

Definition between (a b : ascii) (c : Z) : bool := (chr a <=? c) && (c <=? chr b).

Definition one_of (s : string) (c : Z) : bool := existsb (Z.eqb c) (bs s).

(** The intended contents of the classes used by the parsers. *)
Definition ctype_spec (ctype c : Z) : bool :=
  if ctype =? APK_CTYPE_HEXDIGIT then between "0" "9" c || between "a" "f" c
  else if ctype =? APK_CTYPE_PACKAGE_NAME then
    between "0" "9" c || between "a" "z" c || between "A" "Z" c || one_of "+-._" c
  else if ctype =? APK_CTYPE_VERSION_SUFFIX then between "a" "z" c
  else if ctype =? APK_CTYPE_DEPENDENCY_NAME then
    between "0" "9" c || between "a" "z" c || between "A" "Z" c || one_of "+-._,:/[]" c
  else if ctype =? APK_CTYPE_DEPENDENCY_COMPARER then one_of "<=>~" c
  else if ctype =? APK_CTYPE_VARIABLE_NAME then
    between "0" "9" c || between "a" "z" c || between "A" "Z" c || one_of "_" c
  else if ctype =? APK_CTYPE_TAG_NAME then
    between "0" "9" c || between "a" "z" c || between "A" "Z" c || one_of "+-._,:/[]=" c
  else if ctype =? APK_CTYPE_DEPENDENCY_SEPARATOR then (c =? 10) || (c =? 32)
  else if ctype =? APK_CTYPE_REPOSITORY_SEPARATOR then (c =? 9) || (c =? 32)
  else false.

Lemma in_ctype_spec ctype c :
  0 <= ctype < 10 -> byte_ok c -> in_ctype ctype c = ctype_spec ctype c.
Proof.
  intros Ht Hc. apply eqb_prop.
  set (f := fun t c => Bool.eqb (in_ctype t c) (ctype_spec t c)).
  change (f ctype c = true).
  assert (H : all_below 10 (fun t => all_below 256 (f t)) = true) by (vm_compute; reflexivity).
  apply (all_below_spec _ _ _ (all_below_spec _ _ _ H Ht) Hc).
Qed.

(** ** Properties *)

(** Apk_blob_spn returns the longest prefix of the blob inside a character class,
    apk_blob_cspn the longest prefix outside it, each with the rest of the blob and a flag
    telling whether a rest is left; the classes contain exactly the documented characters. *)
Theorem ctype_spans ctype b :
  span_of (in_ctype ctype) b (apk_blob_spn b ctype) /\
  span_of (fun c => negb (in_ctype ctype c)) b (apk_blob_cspn b ctype) /\
  (0 <= ctype < 10 -> forall c, byte_ok c -> in_ctype ctype c = ctype_spec ctype c).
Proof.
  split; [apply apk_blob_spn_span|]. split; [apply apk_blob_cspn_span|].
  intros Ht c Hc. by apply in_ctype_spec.
Qed.

Lemma ctype_spans_witness :
  in_ctype APK_CTYPE_VERSION_SUFFIX (chr "q") = ctype_spec APK_CTYPE_VERSION_SUFFIX (chr "q").
Proof.
  apply (proj2 (proj2 (ctype_spans APK_CTYPE_VERSION_SUFFIX [])));
    [unfold APK_CTYPE_VERSION_SUFFIX; lia|apply chr_byte].
Defined.
