(* ===== verification/Version.v ===== *)
(** Package versions (version.c, apk_version.h): the tokenizer, validation, comparison,
    matching against an operator mask, and the operator names.

    A version is parsed token by token; [token_state] is the C structure, [parts] its enum.
    The loops over tokens carry fuel; every token consumes input, so [length + 2] turns are
    enough, which [validate_loop_total] and [compare_loop_total] prove. *)
From Stdlib Require Import ZArith Lia Ascii String.
From stdpp Require Import base numbers list option.
From S2P Require Import Prelude Clib Blob Codec Ctype.

Definition APK_VERSION_UNKNOWN : Z := 0.
Definition APK_VERSION_EQUAL : Z := 1.
Definition APK_VERSION_LESS : Z := 2.
Definition APK_VERSION_GREATER : Z := 4.
Definition APK_VERSION_FUZZY : Z := 8.
Definition APK_VERSION_CONFLICT : Z := 16.
Definition APK_DEPMASK_ANY : Z := APK_VERSION_EQUAL .| APK_VERSION_LESS .| APK_VERSION_GREATER.
Definition APK_DEPMASK_CHECKSUM : Z := APK_VERSION_LESS .| APK_VERSION_GREATER.

(** ** Tokens *)

Inductive parts :=
  TOKEN_INITIAL_DIGIT | TOKEN_DIGIT | TOKEN_LETTER | TOKEN_SUFFIX | TOKEN_SUFFIX_NO
| TOKEN_COMMIT_HASH | TOKEN_REVISION_NO | TOKEN_END | TOKEN_INVALID.

#[export] Instance parts_eq_dec : EqDecision parts.
Proof. solve_decision. Defined.

(** The value of the enumerator, by which the code orders the kinds. *)
Definition tok_num (p : parts) : Z :=
  match p with
  | TOKEN_INITIAL_DIGIT => 0 | TOKEN_DIGIT => 1 | TOKEN_LETTER => 2 | TOKEN_SUFFIX => 3
  | TOKEN_SUFFIX_NO => 4 | TOKEN_COMMIT_HASH => 5 | TOKEN_REVISION_NO => 6 | TOKEN_END => 7
  | TOKEN_INVALID => 8
  end.

Definition SUFFIX_INVALID : Z := 0.
Definition SUFFIX_ALPHA : Z := 1.
Definition SUFFIX_BETA : Z := 2.
Definition SUFFIX_PRE : Z := 3.
Definition SUFFIX_RC : Z := 4.
Definition SUFFIX_NONE : Z := 5.
Definition SUFFIX_CVS : Z := 6.
Definition SUFFIX_SVN : Z := 7.
Definition SUFFIX_GIT : Z := 8.
Definition SUFFIX_HG : Z := 9.
Definition SUFFIX_P : Z := 10.

Definition suffixes : list string :=
  [""; "alpha"; "beta"; "pre"; "rc"; ""; "cvs"; "svn"; "git"; "hg"; "p"]%string.

Definition suffix_value (suf : bytes) : Z :=
  match suf with
  | [] => SUFFIX_INVALID
  | c :: _ =>
      let val :=
        if c =? chr "a" then SUFFIX_ALPHA
        else if c =? chr "b" then SUFFIX_BETA
        else if c =? chr "c" then SUFFIX_CVS
        else if c =? chr "g" then SUFFIX_GIT
        else if c =? chr "h" then SUFFIX_HG
        else if c =? chr "p" then (if 1 <? zlen suf then SUFFIX_PRE else SUFFIX_P)
        else if c =? chr "r" then SUFFIX_RC
        else if c =? chr "s" then SUFFIX_SVN
        else SUFFIX_INVALID in
      if val =? SUFFIX_INVALID then SUFFIX_INVALID
      else if negb (apk_blob_compare (Some suf) (Some (bs (znth ""%string suffixes val))) =? 0)
      then SUFFIX_INVALID
      else val
  end.

Record token_state := Tok {
  token : parts;
  suffix : Z;
  number : Z;
  value : bytes;
}.

Definition set_token (t : token_state) (k : parts) : token_state :=
  Tok k (suffix t) (number t) (value t).

Definition token_cmp (ta tb : token_state) : Z :=
  let num a b := if a <? b then APK_VERSION_LESS else if b <? a then APK_VERSION_GREATER
                 else APK_VERSION_EQUAL in
  let use_string_sort :=
    let r := apk_blob_sort (value ta) (value tb) in
    if r <? 0 then APK_VERSION_LESS else if 0 <? r then APK_VERSION_GREATER
    else APK_VERSION_EQUAL in
  match token ta with
  | TOKEN_DIGIT =>
      if (List.hd 0 (value ta) =? chr "0") || (List.hd 0 (value tb) =? chr "0")
      then use_string_sort
      else num (number ta) (number tb)
  | TOKEN_INITIAL_DIGIT | TOKEN_SUFFIX_NO | TOKEN_REVISION_NO => num (number ta) (number tb)
  | TOKEN_LETTER => num (List.hd 0 (value ta)) (List.hd 0 (value tb))
  | TOKEN_SUFFIX => num (suffix ta) (suffix tb)
  | _ => use_string_sort
  end.

Definition token_parse_digits (t : token_state) (b : bytes) : token_state * bytes :=
  let '(n, b') := apk_blob_pull_uint b 10 in
  let v := ztake (zlen b - zlen b') b in
  (Tok (if zlen v =? 0 then TOKEN_INVALID else token t) (suffix t) n v, b').

(** token_first; the structure starts uninitialised, the model with zeroes. *)
Definition token_first (b : bytes) : token_state * bytes :=
  token_parse_digits (Tok TOKEN_INITIAL_DIGIT 0 0 []) b.

Definition token_digits (t : token_state) (b : bytes) : token_state * bytes :=
  match token t with
  | TOKEN_INITIAL_DIGIT | TOKEN_DIGIT => token_parse_digits (set_token t TOKEN_DIGIT) b
  | TOKEN_SUFFIX => token_parse_digits (set_token t TOKEN_SUFFIX_NO) b
  | _ => (set_token t TOKEN_INVALID, b)
  end.

Definition token_next (t : token_state) (b : bytes) : token_state * bytes :=
  match b with
  | [] => (set_token t TOKEN_END, b)
  | c :: b1 =>
      let invalid b := (set_token t TOKEN_INVALID, b) in
      if between "a" "z" c then
        if tok_num TOKEN_DIGIT <? tok_num (token t) then invalid b
        else (Tok TOKEN_LETTER (suffix t) (number t) [c], b1)
      else if c =? chr "." then
        if tok_num TOKEN_DIGIT <? tok_num (token t) then invalid b
        else token_digits t b1
      else if between "0" "9" c then token_digits t b
      else if c =? chr "_" then
        if tok_num TOKEN_SUFFIX_NO <? tok_num (token t) then invalid b
        else
          let '(_, v, r) := apk_blob_spn b1 APK_CTYPE_VERSION_SUFFIX in
          let s := suffix_value v in
          if s =? SUFFIX_INVALID then (Tok TOKEN_INVALID s (number t) v, r)
          else (Tok TOKEN_SUFFIX s (number t) v, r)
      else if c =? chr "~" then
        if tok_num TOKEN_COMMIT_HASH <=? tok_num (token t) then invalid b
        else
          let '(_, v, r) := apk_blob_spn b1 APK_CTYPE_HEXDIGIT in
          if zlen v =? 0 then (Tok TOKEN_INVALID (suffix t) (number t) v, r)
          else (Tok TOKEN_COMMIT_HASH (suffix t) (number t) v, r)
      else if c =? chr "-" then
        if tok_num TOKEN_REVISION_NO <=? tok_num (token t) then invalid b
        else match apk_blob_pull_blob_match b (bs "-r") with
             | None => invalid b
             | Some r => token_parse_digits (set_token t TOKEN_REVISION_NO) r
             end
      else invalid b
  end.

(** ** Operators *)

Definition apk_version_op_string (op : Z) : string :=
  let m := op .& Z.lnot APK_VERSION_CONFLICT in
  if m =? APK_VERSION_LESS then "<"
  else if m =? APK_VERSION_LESS .| APK_VERSION_EQUAL then "<="
  else if m =? APK_VERSION_LESS .| APK_VERSION_EQUAL .| APK_VERSION_FUZZY then "<~"
  else if m =? APK_VERSION_EQUAL .| APK_VERSION_FUZZY then "~"
  else if m =? APK_VERSION_FUZZY then "~"
  else if m =? APK_VERSION_EQUAL then "="
  else if m =? APK_VERSION_GREATER .| APK_VERSION_EQUAL then ">="
  else if m =? APK_VERSION_GREATER .| APK_VERSION_EQUAL .| APK_VERSION_FUZZY then ">~"
  else if m =? APK_VERSION_GREATER then ">"
  else if m =? APK_DEPMASK_CHECKSUM then "><"
  else if m =? APK_DEPMASK_ANY then ""
  else "?".

Fixpoint result_mask_loop (op : bytes) (r : Z) : Z :=
  match op with
  | [] => r
  | c :: op =>
      if c =? chr "<" then result_mask_loop op (r .| APK_VERSION_LESS)
      else if c =? chr ">" then result_mask_loop op (r .| APK_VERSION_GREATER)
      else if c =? chr "=" then result_mask_loop op (r .| APK_VERSION_EQUAL)
      else if c =? chr "~" then result_mask_loop op (r .| (APK_VERSION_FUZZY .| APK_VERSION_EQUAL))
      else 0
  end.

Definition apk_version_result_mask_blob (op : bytes) : Z := result_mask_loop op 0.
Definition apk_version_result_mask (op : string) : Z := apk_version_result_mask_blob (bs op).

(** ** Validation, comparison, matching *)

Fixpoint validate_loop (fuel : nat) (t : token_state) (b : bytes) : option bool :=
  if tok_num (token t) <? tok_num TOKEN_END then
    match fuel with
    | O => None
    | S fuel => let '(t, b) := token_next t b in validate_loop fuel t b
    end
  else Some (bool_decide (token t = TOKEN_END)).

Definition apk_version_validate (ver : bytes) : bool :=
  let '(t, b) := token_first ver in
  default false (validate_loop (S (length ver)) t b).

(** The verdict after the loop of apk_version_compare_fuzzy. *)
Definition compare_end (ta tb : token_state) (fuzzy : bool) : Z :=
  if bool_decide (token ta = token tb) then APK_VERSION_EQUAL
  else if bool_decide (token tb = TOKEN_END) && fuzzy then APK_VERSION_EQUAL
  else if bool_decide (token ta = TOKEN_SUFFIX) && (suffix ta <? SUFFIX_NONE) then APK_VERSION_LESS
  else if bool_decide (token tb = TOKEN_SUFFIX) && (suffix tb <? SUFFIX_NONE) then APK_VERSION_GREATER
  else if tok_num (token tb) <? tok_num (token ta) then APK_VERSION_LESS
  else if tok_num (token ta) <? tok_num (token tb) then APK_VERSION_GREATER
  else APK_VERSION_EQUAL.

Fixpoint compare_loop (fuel : nat) (ta : token_state) (a : bytes) (tb : token_state) (b : bytes)
    (fuzzy : bool) : option Z :=
  if bool_decide (token ta = token tb) && (tok_num (token ta) <? tok_num TOKEN_END) then
    let r := token_cmp ta tb in
    if negb (r =? APK_VERSION_EQUAL) then Some r
    else match fuel with
         | O => None
         | S fuel => let '(ta, a) := token_next ta a in
                     let '(tb, b) := token_next tb b in
                     compare_loop fuel ta a tb b fuzzy
         end
  else Some (compare_end ta tb fuzzy).

Definition apk_version_compare_fuzzy (a b : blob) (fuzzy : bool) : Z :=
  match a, b with
  | None, None => APK_VERSION_EQUAL
  | None, _ | _, None => APK_VERSION_EQUAL .| APK_VERSION_GREATER .| APK_VERSION_LESS
  | Some a, Some b =>
      let '(ta, a') := token_first a in
      let '(tb, b') := token_first b in
      default APK_VERSION_UNKNOWN (compare_loop (S (length a)) ta a' tb b' fuzzy)
  end.

Definition apk_version_compare (a b : blob) : Z := apk_version_compare_fuzzy a b false.

Definition apk_version_match (a : blob) (op : Z) (b : blob) : bool :=
  let fuzzy := negb (op .& APK_VERSION_FUZZY =? 0) in
  let ok := (op .& APK_DEPMASK_ANY =? APK_DEPMASK_ANY)
            || negb (apk_version_compare_fuzzy a b fuzzy .& op =? 0) in
  if negb (op .& APK_VERSION_CONFLICT =? 0) then negb ok else ok.

(** ** The upstream test vectors of test/user/version.sh style *)
Example v_valid : map (fun s => apk_version_validate (bs s))
  ["1"; "1.2.3_rc1-r0"; "1.2b_git20200101~0abc-r12"; "1.2_foo"; "1.2-r"; "a"; "1..2"; "1.2-r1-r2"; "1~"]%string
  = [true; true; true; false; false; false; false; false; false].
Proof. vm_compute. reflexivity. Qed.

Example v_cmp : map (fun p => apk_version_compare (Some (bs (fst p))) (Some (bs (snd p))))
  [("1.0", "1.0.1"); ("1.0_rc1", "1.0"); ("1.0_p1", "1.0"); ("1.10", "1.9"); ("1.010", "1.09");
   ("1.0-r1", "1.0-r2"); ("1.0a", "1.0"); ("1.0", "1.0")]%string
  = [2; 2; 4; 4; 2; 2; 4; 1].
Proof. vm_compute. reflexivity. Qed.

(** ** Digit runs *)

Definition isdigit (c : Z) : bool := between "0" "9" c.

(** A text that does not start with a digit. *)
Definition no_digit (r : bytes) : Prop :=
  match r with [] => True | c :: _ => isdigit c = false end.

Lemma dx_digit c : negb (c =? 0) && (dx c <? 10) = isdigit c.
Proof.
  destruct (decide (0 <= c < 256)) as [Hc|Hc].
  - apply eqb_prop.
    set (f := fun c => Bool.eqb (negb (c =? 0) && (dx c <? 10)) (isdigit c)).
    apply (all_below_spec 256 f c); [vm_compute; reflexivity|done].
  - assert (H : dx c = 255).
    { unfold dx, znth. case_test; [done|]. reflect_tests. apply nth_overflow.
      change (length digitdecode) with 256%nat. lia. }
    rewrite H, andb_false_r. unfold isdigit, between.
    change (chr "0") with 48. change (chr "9") with 57.
    destruct (Z.leb_spec 48 c), (Z.leb_spec c 57); try done; lia.
Qed.

Lemma pull_uint_loop_run b v :
  exists n ds r, pull_uint_loop b 10 v = (n, r) /\ b = ds ++ r /\
  Forall (fun c => isdigit c = true) ds /\ no_digit r.
Proof.
  revert v. induction b as [|c b IH]; intros v.
  { by exists v, [], []. }
  cbn [pull_uint_loop]. pose proof (dx_digit c) as Hd.
  destruct (Z.eqb_spec c 0) as [->|].
  { by exists v, [], (0 :: b). }
  destruct (Z.leb_spec 10 (dx c)).
  - exists v, [], (c :: b). split; [done|]. split; [done|]. split; [done|]. cbn.
    rewrite <- Hd. destruct (Z.ltb_spec (dx c) 10); [lia|]. apply andb_false_r.
  - destruct (IH (u64 (u64 (v * 10) + dx c))) as (n' & ds & r & -> & -> & Hds & Hr).
    exists n', (c :: ds), r. split; [done|]. split; [done|]. split; [|done].
    constructor; [|done]. rewrite <- Hd. destruct (Z.ltb_spec (dx c) 10); [done|lia].
Qed.

(** Two splits of a text into a run of digits and a rest agree. *)
Lemma digit_run_unique ds r ds' r' :
  ds ++ r = ds' ++ r' ->
  Forall (fun c => isdigit c = true) ds -> no_digit r ->
  Forall (fun c => isdigit c = true) ds' -> no_digit r' ->
  ds = ds' /\ r = r'.
Proof.
  intros H Hd Hr Hd' Hr'. revert ds' H Hd'.
  induction Hd as [|c ds Hc _ IH]; intros [|c' ds'] H Hd'; cbn in H.
  - auto.
  - subst r. inversion Hd'; subst. cbn in Hr. congruence.
  - subst r'. cbn in Hr'. congruence.
  - injection H as <- H. inversion Hd'; subst. destruct (IH ds' H) as [-> ->]; auto.
Qed.

Lemma token_parse_digits_run t b :
  exists n ds r, b = ds ++ r /\ Forall (fun c => isdigit c = true) ds /\ no_digit r /\
  token_parse_digits t b =
  (Tok (if zlen ds =? 0 then TOKEN_INVALID else token t) (suffix t) n ds, r).
Proof.
  unfold token_parse_digits, apk_blob_pull_uint.
  destruct (pull_uint_loop_run b 0) as (n & ds & r & -> & -> & Hds & Hr).
  exists n, ds, r. split_and!; try done.
  rewrite zlen_app. replace (zlen ds + zlen r - zlen r) with (zlen ds) by lia.
  by rewrite ztake_app.
Qed.

Lemma token_parse_digits_eq t ds r :
  ds <> [] -> Forall (fun c => isdigit c = true) ds -> no_digit r ->
  exists n, token_parse_digits t (ds ++ r) = (Tok (token t) (suffix t) n ds, r).
Proof.
  intros Hne Hds Hr.
  destruct (token_parse_digits_run t (ds ++ r)) as (n & ds' & r' & Heq & Hds' & Hr' & ->).
  destruct (digit_run_unique _ _ _ _ Heq Hds Hr Hds' Hr') as [<- <-].
  exists n. destruct (Z.eqb_spec (zlen ds) 0); [|done]. by apply zlen_0_nil in e.
Qed.

(** ** What one step of the tokenizer reads *)

Definition letter_ok (c : Z) : bool := between "a" "z" c.
Definition suffix_ok (v : bytes) : Prop := suffix_value v <> SUFFIX_INVALID.
Definition all_digits (ds : bytes) : Prop := ds <> [] /\ Forall (fun c => isdigit c = true) ds.
Definition hex_digits (h : bytes) : Prop :=
  h <> [] /\ Forall (fun c => in_ctype APK_CTYPE_HEXDIGIT c = true) h.
(** Text that does not continue a class. *)
Definition stops_at (ctype : Z) (r : bytes) : Prop :=
  match r with [] => True | c :: _ => in_ctype ctype c = false end.

(** The tokens that can follow a token of kind [k], with the text they span. *)
Inductive next_token (k : parts) : bytes -> parts -> bytes -> bytes -> Prop :=
| next_letter c b : tok_num k <= 1 -> letter_ok c = true ->
    next_token k (c :: b) TOKEN_LETTER [c] b
| next_dot ds r : tok_num k <= 1 -> all_digits ds -> no_digit r ->
    next_token k (chr "." :: ds ++ r) TOKEN_DIGIT ds r
| next_digit ds r : tok_num k <= 1 -> all_digits ds -> no_digit r ->
    next_token k (ds ++ r) TOKEN_DIGIT ds r
| next_suffix_no ds r : k = TOKEN_SUFFIX -> all_digits ds -> no_digit r ->
    next_token k (ds ++ r) TOKEN_SUFFIX_NO ds r
| next_suffix v r : tok_num k <= 4 -> suffix_ok v ->
    Forall (fun c => in_ctype APK_CTYPE_VERSION_SUFFIX c = true) v ->
    stops_at APK_CTYPE_VERSION_SUFFIX r ->
    next_token k (chr "_" :: v ++ r) TOKEN_SUFFIX v r
| next_hash v r : tok_num k < 5 -> hex_digits v -> stops_at APK_CTYPE_HEXDIGIT r ->
    next_token k (chr "~" :: v ++ r) TOKEN_COMMIT_HASH v r
| next_rev ds r : tok_num k < 6 -> all_digits ds -> no_digit r ->
    next_token k (bs "-r" ++ ds ++ r) TOKEN_REVISION_NO ds r.

Lemma token_parse_digits_inv t b t' b' :
  token_parse_digits t b = (t', b') ->
  token t' = TOKEN_INVALID \/
  (token t' = token t /\ suffix t' = suffix t /\ all_digits (value t') /\ no_digit b' /\
   b = value t' ++ b').
Proof.
  destruct (token_parse_digits_run t b) as (n & ds & r & -> & Hds & Hr & ->).
  intros [= <- <-]. cbn. destruct (Z.eqb_spec (zlen ds) 0); [by left|right].
  split_and!; try done. split; [|done]. intros ->. by apply n0.
Qed.

Lemma token_digits_inv t b t' b' :
  token_digits t b = (t', b') ->
  token t' = TOKEN_INVALID \/
  (token t' = (if bool_decide (token t = TOKEN_SUFFIX) then TOKEN_SUFFIX_NO else TOKEN_DIGIT) /\
   (token t = TOKEN_SUFFIX \/ tok_num (token t) <= 1) /\
   all_digits (value t') /\ no_digit b' /\ b = value t' ++ b').
Proof.
  unfold token_digits.
  destruct (token t) eqn:Et; try (intros [= <- <-]; by left);
    intros H; apply token_parse_digits_inv in H as [|(H1 & _ & H3 & H4 & H5)]; auto; right;
    (split_and!; [by rewrite H1|cbn; first [by left|right; lia]|done|done|done]).
Qed.

Lemma apk_blob_spn_inv b ctype ret v r :
  apk_blob_spn b ctype = (ret, v, r) ->
  b = v ++ r /\ Forall (fun c => in_ctype ctype c = true) v /\ stops_at ctype r.
Proof.
  intros H. pose proof (apk_blob_spn_span b ctype) as Hs. rewrite H in Hs.
  destruct Hs as (-> & Hv & Hr). split_and!; try done. destruct r; [done|]. apply Hr.
Qed.

Lemma apk_blob_spn_eq ctype v r :
  Forall (fun c => in_ctype ctype c = true) v -> stops_at ctype r ->
  exists ret, apk_blob_spn (v ++ r) ctype = (ret, v, r).
Proof.
  intros Hv Hr. destruct (apk_blob_spn (v ++ r) ctype) as [[ret v'] r'] eqn:E.
  exists ret. pose proof (apk_blob_spn_span (v ++ r) ctype) as Hs. rewrite E in Hs.
  pose proof (span_of_unique _ _ _ (match r with [] => false | _ => true end, v, r) Hs) as Hu.
  assert (Hs' : span_of (in_ctype ctype) (v ++ r) (match r with [] => false | _ => true end, v, r)).
  { cbn. split_and!; try done. by destruct r. }
  specialize (Hu Hs'). congruence.
Qed.

(** Every step ends the text, fails, or reads one of the tokens above. *)
Lemma token_next_inv t b t' b' :
  token_next t b = (t', b') ->
  (b = [] /\ t' = set_token t TOKEN_END /\ b' = []) \/
  (b <> [] /\ token t' = TOKEN_INVALID) \/
  (next_token (token t) b (token t') (value t') b' /\
   (token t' = TOKEN_SUFFIX -> suffix t' = suffix_value (value t'))).
Proof.
  destruct b as [|c b]; [intros [= <- <-]; by left|].
  intros H. right. revert H. cbn [token_next]. change (tok_num TOKEN_DIGIT) with 1. change (tok_num TOKEN_SUFFIX_NO) with 4.
  change (tok_num TOKEN_COMMIT_HASH) with 5. change (tok_num TOKEN_REVISION_NO) with 6.
  destruct (between "a" "z" c) eqn:Ec.
  { case_test; [intros [= <- <-]; by left|]. intros [= <- <-]. right. split; [|done].
    reflect_tests. cbn. by constructor. }
  destruct (Z.eqb_spec c (chr ".")) as [->|].
  { case_test; [intros [= <- <-]; by left|]. reflect_tests. intros H.
    apply token_digits_inv in H as [|(H1 & _ & H3 & H4 & H5)]; [by left|right].
    case_bool_decide as Hs; [rewrite Hs in E; cbn in E; lia|].
    rewrite H1. split; [|done]. subst b. by constructor. }
  destruct (between "0" "9" c) eqn:Ed.
  { intros H. apply token_digits_inv in H as [|(H1 & H2 & H3 & H4 & H5)]; [by left|right].
    rewrite H1, H5. split; [|by case_bool_decide].
    case_bool_decide as Hs; [by constructor|]. apply next_digit; try done.
    destruct H2; [done|lia]. }
  destruct (Z.eqb_spec c (chr "_")) as [->|].
  { case_test; [intros [= <- <-]; by left|]. reflect_tests.
    destruct (apk_blob_spn b _) as [[ret v] r] eqn:Es.
    apply apk_blob_spn_inv in Es as (-> & Hv & Hr).
    case_test; intros [= <- <-]; [by left|right]. reflect_tests. cbn.
    split; [|done]. by constructor. }
  destruct (Z.eqb_spec c (chr "~")) as [->|].
  { case_test; [intros [= <- <-]; by left|]. reflect_tests.
    destruct (apk_blob_spn b _) as [[ret v] r] eqn:Es.
    apply apk_blob_spn_inv in Es as (-> & Hv & Hr).
    case_test; intros [= <- <-]; [by left|right]. reflect_tests. cbn.
    split; [|done]. constructor; try done. split; [|done]. by intros ->. }
  destruct (Z.eqb_spec c (chr "-")) as [->|]; [|intros [= <- <-]; by left].
  case_test; [intros [= <- <-]; by left|]. reflect_tests.
  destruct (apk_blob_pull_blob_match _ _) as [r|] eqn:Em; [|intros [= <- <-]; by left].
  apply apk_blob_pull_blob_match_spec in Em as ->. intros H.
  apply token_parse_digits_inv in H as [|(H1 & _ & H3 & H4 & H5)]; [by left|right].
  rewrite H1, H5. split; [|done]. by constructor.
Qed.

Lemma isdigit_in ctype c :
  ctype = APK_CTYPE_VERSION_SUFFIX -> isdigit c = true -> in_ctype ctype c = false /\ letter_ok c = false.
Proof.
  intros -> H. unfold isdigit, between in H. change (chr "0") with 48 in H.
  change (chr "9") with 57 in H. reflect_tests.
  set (f := fun c => implb (isdigit c) (negb (in_ctype APK_CTYPE_VERSION_SUFFIX c) && negb (letter_ok c))).
  assert (Hf : f c = true) by (apply (all_below_spec 256 f c); [vm_compute; reflexivity|lia]).
  unfold f in Hf. replace (isdigit c) with true in Hf.
  - cbn [implb] in Hf. apply andb_true_iff in Hf as [Hf1 Hf2].
    split; by apply negb_true_iff.
  - unfold isdigit, between. change (chr "0") with 48. change (chr "9") with 57.
    symmetry. apply andb_true_iff. rewrite !Z.leb_le. lia.
Qed.

(** A step on a text that starts with a legal token reads that token. *)
Lemma token_next_complete t b k' v r :
  next_token (token t) b k' v r ->
  exists t', token_next t b = (t', r) /\ token t' = k' /\ value t' = v.
Proof.
  intros H. inversion H; subst; cbn [token_next].
  - unfold letter_ok in *. rewrite H1. change (tok_num TOKEN_DIGIT) with 1.
    destruct (Z.ltb_spec 1 (tok_num (token t))); [lia|]. by eexists.
  - change (between "a" "z" (chr ".")) with false. rewrite Z.eqb_refl.
    change (tok_num TOKEN_DIGIT) with 1.
    destruct (Z.ltb_spec 1 (tok_num (token t))); [lia|]. unfold token_digits.
    destruct H1 as [Hne Hds].
    destruct (token t); try (cbn in H0; lia);
      destruct (token_parse_digits_eq (set_token t TOKEN_DIGIT) v r Hne Hds H2) as [n ->]; by eexists.
  - destruct H1 as [Hne Hds]. destruct v as [|c v]; [done|]. inversion Hds as [|? ? Hc _]; subst.
    cbn [app token_next]. rewrite (proj2 (isdigit_in _ c eq_refl Hc) : between "a" "z" c = false).
    assert (Hdot : c <> chr ".") by (intros ->; by vm_compute in Hc).
    destruct (Z.eqb_spec c (chr ".")); [done|].
    rewrite (Hc : between "0" "9" c = true). unfold token_digits.
    change (c :: v ++ r) with ((c :: v) ++ r).
    destruct (token t); try (cbn in H0; lia);
      destruct (token_parse_digits_eq (set_token t TOKEN_DIGIT) (c :: v) r Hne Hds H2) as [n' ->];
      by eexists.
  - destruct H1 as [Hne Hds]. destruct v as [|c v]; [done|]. inversion Hds as [|? ? Hc _]; subst.
    cbn [app token_next]. rewrite (proj2 (isdigit_in _ c eq_refl Hc) : between "a" "z" c = false).
    assert (Hdot : c <> chr ".") by (intros ->; by vm_compute in Hc).
    destruct (Z.eqb_spec c (chr ".")); [done|].
    rewrite (Hc : between "0" "9" c = true). unfold token_digits. rewrite H0.
    change (c :: v ++ r) with ((c :: v) ++ r).
    destruct (token_parse_digits_eq (set_token t TOKEN_SUFFIX_NO) (c :: v) r Hne Hds H2) as [n' ->].
    by eexists.
  - change (between "a" "z" (chr "_")) with false. change (chr "_" =? chr ".") with false.
    change (between "0" "9" (chr "_")) with false. rewrite Z.eqb_refl.
    change (tok_num TOKEN_SUFFIX_NO) with 4.
    destruct (Z.ltb_spec 4 (tok_num (token t))); [lia|].
    destruct (apk_blob_spn_eq _ v r H2 H3) as [ret ->].
    unfold suffix_ok in H1. destruct (Z.eqb_spec (suffix_value v) SUFFIX_INVALID); [done|]. by eexists.
  - change (between "a" "z" (chr "~")) with false. change (chr "~" =? chr ".") with false.
    change (between "0" "9" (chr "~")) with false. change (chr "~" =? chr "_") with false.
    rewrite Z.eqb_refl. change (tok_num TOKEN_COMMIT_HASH) with 5.
    destruct (Z.leb_spec 5 (tok_num (token t))); [lia|].
    destruct H1 as [Hne Hh]. destruct (apk_blob_spn_eq _ v r Hh H2) as [ret ->].
    destruct (Z.eqb_spec (zlen v) 0) as [Hz|]; [by apply zlen_0_nil in Hz|]. by eexists.
  - change (bs "-r" ++ v ++ r) with (chr "-" :: chr "r" :: v ++ r). cbn [token_next].
    change (between "a" "z" (chr "-")) with false. change (chr "-" =? chr ".") with false.
    change (between "0" "9" (chr "-")) with false. change (chr "-" =? chr "_") with false.
    change (chr "-" =? chr "~") with false. rewrite Z.eqb_refl.
    change (tok_num TOKEN_REVISION_NO) with 6.
    destruct (Z.leb_spec 6 (tok_num (token t))); [lia|].
    rewrite (proj2 (apk_blob_pull_blob_match_spec (chr "-" :: chr "r" :: v ++ r) (bs "-r") (v ++ r)) eq_refl).
    destruct H1 as [Hne Hds].
    destruct (token_parse_digits_eq (set_token t TOKEN_REVISION_NO) v r Hne Hds H2) as [n ->]. by eexists.
Qed.

Lemma next_token_shrinks k b k' v r : next_token k b k' v r -> (length r < length b)%nat.
Proof.
  assert (Hd : forall ds, all_digits ds -> (0 < length ds)%nat).
  { intros ds [? _]. destruct ds; [done|cbn; lia]. }
  destruct 1; cbn [length]; rewrite ?length_app; try (pose proof (Hd _ ltac:(eassumption)));
    cbn; try lia.
Qed.

Lemma next_token_live k b k' v r : next_token k b k' v r -> tok_num k' < 7.
Proof. destruct 1; cbn; lia. Qed.

(** ** The grammar of versions

    The comment of version.c as productions:
    digit{.digit}...{letter}{_suf{#}}...{~hash}{-r#}. *)
Definition known_suffix (v : bytes) : Prop :=
  In v (map bs ["alpha"; "beta"; "pre"; "rc"; "cvs"; "svn"; "git"; "hg"; "p"]%string).

Inductive rev_tail : bytes -> Prop :=
| rev_none : rev_tail []
| rev_some ds : all_digits ds -> rev_tail (bs "-r" ++ ds).

Inductive hash_tail : bytes -> Prop :=
| hash_none s : rev_tail s -> hash_tail s
| hash_some h s : hex_digits h -> rev_tail s -> hash_tail (chr "~" :: h ++ s).

Inductive suffix_tail : bytes -> Prop :=
| suffix_none s : hash_tail s -> suffix_tail s
| suffix_plain v s : known_suffix v -> suffix_tail s -> suffix_tail (chr "_" :: v ++ s)
| suffix_num v ds s : known_suffix v -> all_digits ds -> suffix_tail s ->
    suffix_tail (chr "_" :: v ++ ds ++ s).

Inductive letter_tail : bytes -> Prop :=
| letter_none s : suffix_tail s -> letter_tail s
| letter_some c s : letter_ok c = true -> suffix_tail s -> letter_tail (c :: s).

Inductive digit_tail : bytes -> Prop :=
| digit_none s : letter_tail s -> digit_tail s
| digit_some ds s : all_digits ds -> digit_tail s -> digit_tail (chr "." :: ds ++ s).

Inductive version_text : bytes -> Prop :=
| version_intro ds s : all_digits ds -> digit_tail s -> version_text (ds ++ s).

(** What may follow a token of kind [k]. *)
Definition tail_of (k : parts) (s : bytes) : Prop :=
  match k with
  | TOKEN_INITIAL_DIGIT | TOKEN_DIGIT => digit_tail s
  | TOKEN_LETTER | TOKEN_SUFFIX_NO => suffix_tail s
  | TOKEN_SUFFIX => suffix_tail s \/ exists ds s', s = ds ++ s' /\ all_digits ds /\ suffix_tail s'
  | TOKEN_COMMIT_HASH => rev_tail s
  | TOKEN_REVISION_NO => s = []
  | _ => False
  end.

(** The suffix table: exactly the listed names have a value. *)
Lemma suffix_value_known v : known_suffix v <-> suffix_ok v.
Proof.
  split.
  - intros H. unfold known_suffix in H. cbn [map In] in H. unfold suffix_ok.
    repeat (destruct H as [<-|H]; [vm_compute; discriminate|]). done.
  - unfold suffix_ok, suffix_value. destruct v as [|c v]; [done|].
    set (val := if c =? _ then _ else _).
    case_test; [done|]. case_test; [done|]. intros _. reflect_tests.
    apply apk_blob_compare_eq in E0. rewrite E0. clear E0. revert E. unfold val.
    repeat case_test; intros Hv; try done; vm_compute;
      repeat (try (left; reflexivity); right).
Qed.

Lemma known_suffix_class v :
  known_suffix v -> Forall (fun c => in_ctype APK_CTYPE_VERSION_SUFFIX c = true) v.
Proof.
  unfold known_suffix. cbn [map In]. intros H.
  repeat (destruct H as [<-|H]; [repeat constructor|]). done.
Qed.

(** The first byte of a tail. *)
Definition starts (P : Z -> Prop) (s : bytes) : Prop := match s with [] => True | c :: _ => P c end.

Lemma starts_mono (P Q : Z -> Prop) s : (forall c, P c -> Q c) -> starts P s -> starts Q s.
Proof. destruct s; cbn; auto. Qed.

Lemma rev_tail_starts s : rev_tail s -> starts (fun c => c = chr "-") s.
Proof. by destruct 1. Qed.
Lemma hash_tail_starts s : hash_tail s -> starts (fun c => c = chr "-" \/ c = chr "~") s.
Proof. destruct 1 as [s H|]; [|by right]. eapply starts_mono, rev_tail_starts, H. cbv beta; tauto. Qed.
Lemma suffix_tail_starts s :
  suffix_tail s -> starts (fun c => c = chr "-" \/ c = chr "~" \/ c = chr "_") s.
Proof.
  destruct 1 as [s H| |]; [|by right; right..].
  eapply starts_mono, hash_tail_starts, H. cbv beta; tauto.
Qed.
Lemma letter_tail_starts s :
  letter_tail s ->
  starts (fun c => c = chr "-" \/ c = chr "~" \/ c = chr "_" \/ letter_ok c = true) s.
Proof.
  destruct 1 as [s H|]; [|by right; right; right].
  eapply starts_mono, suffix_tail_starts, H. cbv beta; tauto.
Qed.
Lemma digit_tail_starts s :
  digit_tail s ->
  starts (fun c => c = chr "." \/ c = chr "-" \/ c = chr "~" \/ c = chr "_" \/ letter_ok c = true) s.
Proof.
  destruct 1 as [s H|]; [|by left].
  eapply starts_mono, letter_tail_starts, H. cbv beta; tauto.
Qed.

Lemma letter_no_digit c : letter_ok c = true -> isdigit c = false.
Proof.
  intros H. destruct (isdigit c) eqn:E; [|done].
  destruct (isdigit_in _ c eq_refl E). congruence.
Qed.

Ltac tail_head H :=
  match type of H with starts _ ?s => destruct s as [|]; [done|] end;
  cbn in H; unfold no_digit, stops_at;
  repeat (destruct H as [->|H]; [reflexivity|]);
  try (subst; reflexivity); try (by apply letter_no_digit).

Lemma digit_tail_no_digit s : digit_tail s -> no_digit s.
Proof. intros H%digit_tail_starts. tail_head H. Qed.
Lemma suffix_tail_no_digit s : suffix_tail s -> no_digit s.
Proof. intros H%suffix_tail_starts. tail_head H. Qed.
Lemma suffix_tail_stops s : suffix_tail s -> stops_at APK_CTYPE_VERSION_SUFFIX s.
Proof. intros H%suffix_tail_starts. tail_head H. Qed.
Lemma rev_tail_stops s : rev_tail s -> stops_at APK_CTYPE_HEXDIGIT s.
Proof. intros H%rev_tail_starts. tail_head H. Qed.
Lemma digits_stop ds s : all_digits ds -> stops_at APK_CTYPE_VERSION_SUFFIX (ds ++ s).
Proof.
  intros [Hne H]. destruct H as [|c ds Hc]; [done|]. cbn.
  apply (isdigit_in _ c eq_refl Hc).
Qed.

Lemma suffix_tail_nil : suffix_tail []. Proof. repeat constructor. Qed.

Lemma tail_of_nil k : tok_num k < 7 -> tail_of k [].
Proof. destruct k; cbn; intros; try lia; auto; repeat constructor. Qed.

(** A non-empty legal tail starts with a legal token and goes on with a legal tail. *)
Lemma rev_tail_next k s :
  tok_num k < 6 -> rev_tail s -> s <> [] -> exists k' v r, next_token k s k' v r /\ tail_of k' r.
Proof.
  intros Hk H Hne. destruct H as [|ds Hds]; [done|].
  exists TOKEN_REVISION_NO, ds, []. split; [|done].
  rewrite <- (app_nil_r ds) at 1. by constructor.
Qed.

Lemma hash_tail_next k s :
  tok_num k < 5 -> hash_tail s -> s <> [] -> exists k' v r, next_token k s k' v r /\ tail_of k' r.
Proof.
  intros Hk H Hne. destruct H as [s H|h s Hh H]; [apply rev_tail_next; auto; lia|].
  exists TOKEN_COMMIT_HASH, h, s. split; [|done]. constructor; auto using rev_tail_stops.
Qed.

Lemma suffix_tail_next k s :
  tok_num k < 5 -> suffix_tail s -> s <> [] -> exists k' v r, next_token k s k' v r /\ tail_of k' r.
Proof.
  intros Hk H Hne. destruct H as [s H|v s Hv H|v ds s Hv Hd H]; [by apply hash_tail_next|..].
  - exists TOKEN_SUFFIX, v, s. split; [|by left]. constructor;
      [lia|by apply suffix_value_known|by apply known_suffix_class|by apply suffix_tail_stops].
  - exists TOKEN_SUFFIX, v, (ds ++ s). split; [|right; eauto]. constructor;
      [lia|by apply suffix_value_known|by apply known_suffix_class|by apply digits_stop].
Qed.

Lemma tail_of_next k s :
  tail_of k s -> s <> [] -> exists k' v r, next_token k s k' v r /\ tail_of k' r.
Proof.
  intros H Hne.
  assert (HD : tok_num k <= 1 -> digit_tail s ->
               exists k' v r, next_token k s k' v r /\ tail_of k' r).
  { intros Hk Hs. destruct Hs as [s Hs|ds s Hd Hs].
    - destruct Hs as [s Hs|c s Hc Hs]; [apply suffix_tail_next; auto; lia|].
      exists TOKEN_LETTER, [c], s. split; [by constructor|done].
    - exists TOKEN_DIGIT, ds, s. split; [|done]. constructor; auto using digit_tail_no_digit. }
  destruct k; cbn in H; try done.
  - by apply HD.
  - by apply HD.
  - by apply suffix_tail_next.
  - destruct H as [H|(ds & s' & -> & Hd & H)]; [by apply suffix_tail_next|].
    exists TOKEN_SUFFIX_NO, ds, s'. split; [|done]. constructor; auto using suffix_tail_no_digit.
  - by apply suffix_tail_next.
  - by apply rev_tail_next.
Qed.

Lemma suffix_tail_of k s :
  tok_num k <= 4 -> suffix_tail s -> tail_of k s.
Proof. destruct k; cbn; intros; try lia; auto; by apply digit_none, letter_none. Qed.

(** Conversely a legal token in front of a legal tail is a legal tail. *)
Lemma tail_of_cons k s k' v r :
  (tok_num k <= 1 -> no_digit s) -> next_token k s k' v r -> tail_of k' r -> tail_of k s.
Proof.
  intros Hnd H Ht. destruct H as [c b Hk Hc|ds r Hk Hd Hr|ds r Hk Hd Hr|ds r Hk Hd Hr
    |v r Hk Hv Hf Hs|v r Hk Hh Hs|ds r Hk Hd Hr]; cbn [tail_of] in Ht.
  - destruct k; cbn in *; try lia; by apply digit_none, letter_some.
  - destruct k; cbn in *; try lia; by apply digit_some.
  - specialize (Hnd Hk). destruct Hd as [Hne Hd], ds as [|c ds]; [done|].
    inversion Hd; subst. cbn in Hnd. congruence.
  - subst k. right. eauto.
  - apply suffix_tail_of; [lia|]. apply suffix_value_known in Hv.
    destruct Ht as [Ht|(ds & s' & -> & Hd & Ht)]; by constructor.
  - apply suffix_tail_of; [lia|]. by apply suffix_none, hash_some.
  - subst r. rewrite app_nil_r. apply rev_some in Hd.
    destruct (decide (k = TOKEN_COMMIT_HASH)) as [->|Hne]; [done|].
    apply suffix_tail_of; [destruct k; cbn in *; try lia; done|].
    by apply suffix_none, hash_none.
Qed.

Lemma next_token_no_digit k s k' v r : next_token k s k' v r -> tok_num k' <= 1 -> no_digit r.
Proof. destruct 1; cbn; intros; done || lia. Qed.

Lemma validate_loop_grammar n t b :
  (length b < n)%nat -> tok_num (token t) < 7 -> (tok_num (token t) <= 1 -> no_digit b) ->
  exists r, validate_loop n t b = Some r /\ (r = true <-> tail_of (token t) b).
Proof.
  revert t b. induction n as [|n IH]; intros t b Hl Hk Hnd; [lia|].
  cbn [validate_loop]. change (tok_num TOKEN_END) with 7.
  destruct (Z.ltb_spec (tok_num (token t)) 7); [|lia].
  destruct (token_next t b) as [t' b'] eqn:E.
  destruct (token_next_inv _ _ _ _ E) as [(-> & -> & ->)|[(Hne & Hi)|(Hn & _)]].
  - exists true. split; [by destruct n|]. split; auto using tail_of_nil.
  - exists false. split.
    + destruct n; cbn [validate_loop]; rewrite Hi; reflexivity.
    + split; [done|]. intros Ht. destruct (tail_of_next _ _ Ht Hne) as (k' & v & r & Hn & Ht').
      destruct (token_next_complete _ _ _ _ _ Hn) as (t2 & H2 & Hk2 & _).
      rewrite E in H2. injection H2 as <- <-. apply next_token_live in Hn.
      rewrite <- Hk2, Hi in Hn. cbn in Hn. lia.
  - destruct (IH t' b') as (r & Hr & Hiff).
    { apply next_token_shrinks in Hn. lia. }
    { by eapply next_token_live. }
    { by eapply next_token_no_digit. }
    exists r. split; [done|]. rewrite Hiff. split; [by eapply tail_of_cons|].
    intros Ht.
    assert (Hne : b <> []) by (intros ->; apply next_token_shrinks in Hn; cbn in Hn; lia).
    destruct (tail_of_next _ _ Ht Hne) as (k' & v & r' & Hn' & Ht').
    destruct (token_next_complete _ _ _ _ _ Hn') as (t2 & H2 & Hk2 & _).
    rewrite E in H2. injection H2 as <- <-. by rewrite Hk2.
Qed.

(** ** Comparison as an order on token keys *)

(** Each token as a list of integers whose lexicographic order is the order of the code:
    first its class (a pre-release suffix sorts before everything, then the kinds in
    decreasing order of their enumerators), then its contents.  A digit group with a
    leading zero sorts before all others and as a string. *)
Definition token_class (t : token_state) : Z :=
  if bool_decide (token t = TOKEN_SUFFIX) && (suffix t <? SUFFIX_NONE) then -9
  else - tok_num (token t).

Definition token_key (t : token_state) : list Z :=
  token_class t ::
  match token t with
  | TOKEN_INITIAL_DIGIT | TOKEN_SUFFIX_NO | TOKEN_REVISION_NO => [number t]
  | TOKEN_DIGIT => if List.hd 0 (value t) =? chr "0" then -1 :: value t else [number t]
  | TOKEN_LETTER => [List.hd 0 (value t)]
  | TOKEN_SUFFIX => [suffix t]
  | TOKEN_COMMIT_HASH => value t
  | TOKEN_END | TOKEN_INVALID => []
  end.

(** The tokens of a text, up to and including the one that ends it. *)
Fixpoint token_stream (n : nat) (t : token_state) (b : bytes) : list token_state :=
  t :: match n with
       | O => []
       | S n => if tok_num (token t) <? tok_num TOKEN_END
                then let '(t, b) := token_next t b in token_stream n t b
                else []
       end.

Definition version_tokens (v : bytes) : list token_state :=
  let '(t, b) := token_first v in token_stream (S (length v)) t b.

Definition version_key (v : bytes) : list (list Z) := token_key <$> version_tokens v.

(** A comparison result as a sign. *)
Definition vsign (r : Z) : Z :=
  if r =? APK_VERSION_LESS then -1 else if r =? APK_VERSION_GREATER then 1 else 0.

Definition tok_ok (t : token_state) : Prop :=
  token t = TOKEN_DIGIT -> isdigit (List.hd 0 (value t)) = true /\ 0 <= number t.

Lemma vsign_num x y :
  vsign (if x <? y then APK_VERSION_LESS else if y <? x then APK_VERSION_GREATER
         else APK_VERSION_EQUAL) = lex_compare [x] [y].
Proof. cbn. by repeat case_test. Qed.

Lemma vsign_sort x y :
  vsign (let r := apk_blob_sort x y in
         if r <? 0 then APK_VERSION_LESS else if 0 <? r then APK_VERSION_GREATER
         else APK_VERSION_EQUAL) = lex_compare x y.
Proof.
  rewrite <- apk_blob_sort_lex. cbn zeta.
  destruct (Z.ltb_spec (apk_blob_sort x y) 0); [symmetry; by apply Z.sgn_neg|].
  destruct (Z.ltb_spec 0 (apk_blob_sort x y)); [symmetry; by apply Z.sgn_pos|].
  replace (apk_blob_sort x y) with 0 by lia. done.
Qed.

Lemma lex_compare_cons x a b : lex_compare (x :: a) (x :: b) = lex_compare a b.
Proof. cbn. by rewrite Z.ltb_irrefl. Qed.

Lemma lex_compare_lt x y a b : x < y -> lex_compare (x :: a) (y :: b) = -1.
Proof. intros. cbn. by destruct (Z.ltb_spec x y); [|lia]. Qed.
Lemma lex_compare_gt x y a b : y < x -> lex_compare (x :: a) (y :: b) = 1.
Proof.
  intros. cbn. destruct (Z.ltb_spec x y); [lia|]. by destruct (Z.ltb_spec y x); [|lia].
Qed.

Lemma digit_head c : isdigit c = true -> c <> chr "0" -> chr "0" < c.
Proof. unfold isdigit, between. intros H Hne. reflect_tests. lia. Qed.

(** Two digit groups. *)
Lemma digit_key_cmp va vb na nb :
  isdigit (List.hd 0 va) = true -> isdigit (List.hd 0 vb) = true -> 0 <= na -> 0 <= nb ->
  va <> [] -> vb <> [] ->
  (if (List.hd 0 va =? chr "0") || (List.hd 0 vb =? chr "0")
   then lex_compare va vb else lex_compare [na] [nb]) =
  lex_compare (if List.hd 0 va =? chr "0" then -1 :: va else [na])
              (if List.hd 0 vb =? chr "0" then -1 :: vb else [nb]).
Proof.
  intros Ha Hb Hna Hnb Hva Hvb.
  destruct va as [|a va], vb as [|b vb]; try done. cbn [List.hd] in *.
  destruct (Z.eqb_spec a (chr "0")), (Z.eqb_spec b (chr "0")); cbn [orb].
  - by rewrite lex_compare_cons.
  - rewrite !lex_compare_lt; [done|lia|]. subst a. by apply digit_head.
  - rewrite !lex_compare_gt; [done|lia|]. subst b. by apply digit_head.
  - done.
Qed.

Lemma hd_nonempty t : tok_ok t -> token t = TOKEN_DIGIT -> value t <> [].
Proof. intros H E Hv. destruct (H E) as [Hd _]. rewrite Hv in Hd. by vm_compute in Hd. Qed.

(** Tokens of the same kind. *)
Lemma token_cmp_key ta tb :
  tok_ok ta -> tok_ok tb -> token ta = token tb -> tok_num (token ta) < 7 ->
  vsign (token_cmp ta tb) = lex_compare (token_key ta) (token_key tb).
Proof.
  intros Ha Hb Heq Hk.
  assert (Hclass : token ta <> TOKEN_SUFFIX -> token_class ta = token_class tb).
  { intros Hn. unfold token_class. rewrite <- Heq. by rewrite bool_decide_eq_false_2. }
  unfold token_key, token_cmp. rewrite <- Heq. destruct (token ta) eqn:Et; cbn in Hk; try lia;
    try (rewrite Hclass by done; rewrite lex_compare_cons; try apply vsign_num; try apply vsign_sort).
  - destruct (Ha Et), (Hb (eq_sym Heq)).
    rewrite <- digit_key_cmp by (auto using hd_nonempty).
    case_test; [apply vsign_sort|apply vsign_num].
  - rewrite vsign_num. unfold token_class. rewrite <- Heq, Et.
    rewrite !bool_decide_eq_true_2 by done. cbn [andb tok_num]. unfold SUFFIX_NONE.
    destruct (Z.ltb_spec (suffix ta) 5), (Z.ltb_spec (suffix tb) 5).
    + by rewrite lex_compare_cons.
    + rewrite !lex_compare_lt by lia. done.
    + rewrite !lex_compare_gt by lia. done.
    + by rewrite lex_compare_cons.
Qed.

Lemma token_class_range t : token_class t = -9 \/ token_class t = - tok_num (token t).
Proof. unfold token_class. case_test; auto. Qed.

Lemma tok_num_inj k k' : tok_num k = tok_num k' -> k = k'.
Proof. by destruct k, k'. Qed.

(** Tokens of different kinds, or two ends. *)
Lemma compare_end_key ta tb :
  (token ta = token tb -> 7 <= tok_num (token ta)) ->
  vsign (compare_end ta tb false) = lex_compare (token_key ta) (token_key tb).
Proof.
  intros H. unfold compare_end. case_bool_decide as Heq.
  { specialize (H Heq). unfold token_key, token_class. rewrite <- Heq.
    destruct (token ta); cbn in H; try lia; done. }
  rewrite andb_false_r. unfold token_key, token_class.
  assert (Hr : forall k, 0 <= tok_num k <= 8) by (intros []; cbn; lia).
  pose proof (Hr (token ta)). pose proof (Hr (token tb)).
  destruct (bool_decide (token ta = TOKEN_SUFFIX) && _) eqn:Ea.
  { apply andb_true_iff in Ea as [Ea _]. apply bool_decide_eq_true in Ea.
    rewrite (bool_decide_eq_false_2 (token tb = _)) by congruence.
    rewrite lex_compare_lt by (cbn; lia). done. }
  destruct (bool_decide (token tb = TOKEN_SUFFIX) && _) eqn:Eb.
  { rewrite lex_compare_gt by lia. done. }
  destruct (Z.ltb_spec (tok_num (token tb)) (tok_num (token ta))).
  { rewrite lex_compare_lt by lia. done. }
  destruct (Z.ltb_spec (tok_num (token ta)) (tok_num (token tb))).
  { rewrite lex_compare_gt by lia. done. }
  destruct Heq. apply tok_num_inj. lia.
Qed.

Lemma key_kind ta tb : token_key ta = token_key tb -> token ta = token tb.
Proof.
  unfold token_key, token_class. intros [= H _].
  destruct (token ta) eqn:Ea, (token tb) eqn:Eb; try done; cbn in H;
    repeat match goal with H : context [_ <? _] |- _ => destruct (_ <? _) in H end;
    try lia; try done.
Qed.

(** ** Every token of a stream is well formed, and the loops have enough fuel *)

Lemma pull_uint_loop_nonneg b v : 0 <= v -> 0 <= fst (pull_uint_loop b 10 v).
Proof.
  revert v. induction b as [|c b IH]; intros v Hv; [done|]. cbn [pull_uint_loop].
  repeat case_test; try done. apply IH, wrap_bound. lia.
Qed.

Lemma token_parse_digits_ok t b t' b' : token_parse_digits t b = (t', b') -> tok_ok t'.
Proof.
  intros H Hk.
  assert (Hn : 0 <= number t').
  { unfold token_parse_digits, apk_blob_pull_uint in H.
    pose proof (pull_uint_loop_nonneg b 0 ltac:(lia)).
    destruct (pull_uint_loop b 10 0). injection H as <- _. done. }
  split; [|done]. apply token_parse_digits_inv in H as [H|(_ & _ & [Hne Hd] & _)]; [congruence|].
  by destruct Hd.
Qed.

Lemma token_next_ok t b t' b' : token_next t b = (t', b') -> tok_ok t'.
Proof.
  assert (Hd : forall t b, token_digits t b = (t', b') -> tok_ok t').
  { intros t0 b0. unfold token_digits.
    destruct (token t0); first [apply token_parse_digits_ok|by intros [= <- <-]]. }
  assert (Hk : token t' <> TOKEN_DIGIT -> tok_ok t') by done.
  unfold token_next. destruct b as [|c b]; [by intros [= <- <-]|].
  repeat first
    [ apply Hd | apply token_parse_digits_ok | (intros [= <- <-]; apply Hk; done)
    | match goal with
      | |- (let '_ := ?e in _) = _ -> _ => destruct e as [[? ?] ?]
      | |- (match ?e with None => _ | Some _ => _ end) = _ -> _ => destruct e
      end
    | case_test ].
Qed.

(** Fuel [n] suffices from a token and its rest. *)
Definition enough (n : nat) (t : token_state) (b : bytes) : Prop :=
  tok_num (token t) < 7 -> (length b < n)%nat.

Lemma token_next_enough n t b t' b' :
  tok_num (token t) < 7 -> enough (S n) t b -> token_next t b = (t', b') -> enough n t' b'.
Proof.
  intros Hk He H Hk'. specialize (He Hk).
  destruct (token_next_inv _ _ _ _ H) as [(-> & -> & ->)|[(_ & Hi)|(Hn & _)]].
  - cbn in Hk'. lia.
  - rewrite Hi in Hk'. cbn in Hk'. lia.
  - apply next_token_shrinks in Hn. lia.
Qed.

Lemma token_first_spec v t b :
  token_first v = (t, b) -> tok_ok t /\ enough (S (length v)) t b /\
  (token t = TOKEN_INITIAL_DIGIT \/ token t = TOKEN_INVALID).
Proof.
  unfold token_first. intros H. split; [by eapply token_parse_digits_ok|].
  apply token_parse_digits_inv in H as [Hi|(Hk & _ & _ & _ & ->)].
  - split; [|by right]. intros Hlt. rewrite Hi in Hlt. cbn in Hlt. lia.
  - split; [|by left]. intros _. rewrite length_app. lia.
Qed.

Lemma token_stream_ok n t b : tok_ok t -> Forall tok_ok (token_stream n t b).
Proof.
  revert t b. induction n as [|n IH]; intros t b Ht; cbn [token_stream]; constructor; auto.
  case_test; [|done]. destruct (token_next t b) as [t' b'] eqn:En.
  eapply IH, token_next_ok, En.
Qed.

Lemma token_stream_end n t b : 7 <= tok_num (token t) -> token_stream n t b = [t].
Proof.
  intros H. destruct n; cbn [token_stream]; [done|].
  change (tok_num TOKEN_END) with 7. by destruct (Z.ltb_spec (tok_num (token t)) 7); [lia|].
Qed.

Lemma token_stream_step n t b t' b' :
  tok_num (token t) < 7 -> token_next t b = (t', b') ->
  token_stream (S n) t b = t :: token_stream n t' b'.
Proof.
  intros Hk H. cbn [token_stream]. change (tok_num TOKEN_END) with 7.
  destruct (Z.ltb_spec (tok_num (token t)) 7); [|lia]. by rewrite H.
Qed.

Definition three_way (r : Z) : Prop :=
  r = APK_VERSION_EQUAL \/ r = APK_VERSION_LESS \/ r = APK_VERSION_GREATER.

Lemma vsign_equal r : three_way r -> (vsign r = 0 <-> r = APK_VERSION_EQUAL).
Proof. by intros [->|[->| ->]]. Qed.

Lemma token_cmp_three_way ta tb : three_way (token_cmp ta tb).
Proof.
  unfold token_cmp, three_way. destruct (token ta); repeat case_test; auto.
Qed.

Lemma compare_end_three_way ta tb fuzzy : three_way (compare_end ta tb fuzzy).
Proof. unfold compare_end, three_way. repeat case_test; auto. Qed.

Lemma lex_stream_end na nb ta a tb b :
  (token ta = token tb -> 7 <= tok_num (token ta)) ->
  lex_list lex_compare (token_key <$> token_stream na ta a) (token_key <$> token_stream nb tb b)
  = lex_compare (token_key ta) (token_key tb).
Proof.
  intros H. destruct (decide (token ta = token tb)) as [Heq|Hne].
  - specialize (H Heq). rewrite !token_stream_end by congruence. cbn [fmap list_fmap lex_list].
    by destruct (Z.eqb_spec (lex_compare (token_key ta) (token_key tb)) 0).
  - assert (Hc : lex_compare (token_key ta) (token_key tb) <> 0).
    { rewrite lex_compare_eq. intros Hk. by apply Hne, key_kind. }
    destruct na, nb; cbn [token_stream fmap list_fmap lex_list];
      by destruct (Z.eqb_spec (lex_compare (token_key ta) (token_key tb)) 0).
Qed.

Lemma loop_test ta tb :
  (bool_decide (token ta = token tb) && (tok_num (token ta) <? tok_num TOKEN_END) = true /\
   token ta = token tb /\ tok_num (token ta) < 7 /\ tok_num (token tb) < 7) \/
  (bool_decide (token ta = token tb) && (tok_num (token ta) <? tok_num TOKEN_END) = false /\
   (token ta = token tb -> 7 <= tok_num (token ta))).
Proof.
  change (tok_num TOKEN_END) with 7. case_bool_decide as Heq; cbn [andb].
  - destruct (Z.ltb_spec (tok_num (token ta)) 7); [left|right; auto].
    rewrite <- Heq. auto.
  - right. split; [done|]. by intros.
Qed.

(** The comparison loop computes the lexicographic order of the token keys. *)
Lemma compare_loop_keys n ta a tb b na nb :
  tok_ok ta -> tok_ok tb -> enough n ta a -> enough na ta a -> enough nb tb b ->
  exists r, compare_loop n ta a tb b false = Some r /\ three_way r /\
  vsign r = lex_list lex_compare (token_key <$> token_stream na ta a)
                                 (token_key <$> token_stream nb tb b).
Proof.
  revert ta a tb b na nb. induction n as [|n IH]; intros ta a tb b na nb Ha Hb Hn Hna Hnb;
    cbn [compare_loop];
    destruct (loop_test ta tb) as [(-> & Heq & Hka & Hkb)|(-> & He)].
  - specialize (Hn Hka). lia.
  - eexists. split; [done|]. split; [apply compare_end_three_way|].
    by rewrite compare_end_key, lex_stream_end.
  - pose proof (token_cmp_key ta tb Ha Hb Heq Hka) as Hcmp.
    destruct na as [|na]; [specialize (Hna Hka); lia|].
    destruct nb as [|nb]; [specialize (Hnb Hkb); lia|].
    destruct (token_next ta a) as [ta' a'] eqn:Ea, (token_next tb b) as [tb' b'] eqn:Eb.
    rewrite (token_stream_step na ta a ta' a'), (token_stream_step nb tb b tb' b') by done.
    cbn [fmap list_fmap lex_list]. rewrite <- Hcmp.
    destruct (Z.eqb_spec (token_cmp ta tb) APK_VERSION_EQUAL) as [Hr|Hr]; cbn [negb].
    + rewrite Hr. apply (IH ta' a' tb' b' na nb);
        eauto using token_next_ok, token_next_enough.
    + eexists. split; [done|]. split; [apply token_cmp_three_way|].
      destruct (Z.eqb_spec (vsign (token_cmp ta tb)) 0) as [Hz|]; [|done].
      apply vsign_equal in Hz; [done|apply token_cmp_three_way].
  - eexists. split; [done|]. split; [apply compare_end_three_way|].
    by rewrite compare_end_key, lex_stream_end.
Qed.

Lemma apk_version_compare_keys a b :
  three_way (apk_version_compare (Some a) (Some b)) /\
  vsign (apk_version_compare (Some a) (Some b)) = lex_list lex_compare (version_key a) (version_key b).
Proof.
  unfold apk_version_compare, apk_version_compare_fuzzy, version_key, version_tokens.
  destruct (token_first a) as [ta a'] eqn:Ea, (token_first b) as [tb b'] eqn:Eb.
  destruct (token_first_spec _ _ _ Ea) as (Hoa & Hea & _).
  destruct (token_first_spec _ _ _ Eb) as (Hob & Heb & _).
  destruct (compare_loop_keys (S (length a)) ta a' tb b' (S (length a)) (S (length b)))
    as (r & -> & Hr & Hv); auto.
Qed.

#[export] Instance lex_compare_order : CmpOrder lex_compare.
Proof.
  split.
  - intros a b. rewrite (lex_compare_antisym a b). lia.
  - apply lex_compare_trans.
Qed.

(** ** Fuzzy comparison *)

Lemma removelast_stream n t b :
  tok_num (token t) < 7 -> forall t' b', token_next t b = (t', b') ->
  removelast (token_key <$> token_stream (S n) t b)
  = token_key t :: removelast (token_key <$> token_stream n t' b').
Proof.
  intros Hk t' b' E. rewrite (token_stream_step n t b t' b') by done.
  by destruct n.
Qed.

Lemma compare_end_not_equal ta tb :
  token ta <> token tb -> token tb <> TOKEN_END -> compare_end ta tb true <> APK_VERSION_EQUAL.
Proof.
  intros Hne Hend. unfold compare_end.
  rewrite (bool_decide_eq_false_2 _ Hne), (bool_decide_eq_false_2 _ Hend). cbn [andb].
  repeat case_test; try done. reflect_tests. exfalso. apply Hne, tok_num_inj. lia.
Qed.

Lemma compare_loop_fuzzy n ta a tb b na nb :
  tok_ok ta -> tok_ok tb -> enough n ta a -> enough na ta a -> enough nb tb b ->
  token (List.last (token_stream nb tb b) tb) = TOKEN_END ->
  exists r, compare_loop n ta a tb b true = Some r /\
  (r = APK_VERSION_EQUAL <->
   removelast (token_key <$> token_stream nb tb b) `prefix_of` (token_key <$> token_stream na ta a)).
Proof.
  revert ta a tb b na nb. induction n as [|n IH]; intros ta a tb b na nb Ha Hb Hn Hna Hnb Hl;
    cbn [compare_loop];
    destruct (loop_test ta tb) as [(-> & Heq & Hka & Hkb)|(-> & He)].
  1: specialize (Hn Hka); lia.
  2: { pose proof (token_cmp_key ta tb Ha Hb Heq Hka) as Hcmp.
    destruct na as [|na]; [specialize (Hna Hka); lia|].
    destruct nb as [|nb]; [specialize (Hnb Hkb); lia|].
    destruct (token_next ta a) as [ta' a'] eqn:Ea, (token_next tb b) as [tb' b'] eqn:Eb.
    rewrite (token_stream_step na ta a ta' a') by done.
    rewrite (removelast_stream nb tb b Hkb _ _ Eb). cbn [fmap list_fmap].
    destruct (Z.eqb_spec (token_cmp ta tb) APK_VERSION_EQUAL) as [Hr|Hr]; cbn [negb].
    - rewrite Hr in Hcmp. assert (Hkey : token_key ta = token_key tb) by (by apply lex_compare_eq).
      rewrite Hkey.
      destruct (IH ta' a' tb' b' na nb) as (r & Hrr & Hiff); eauto using token_next_ok, token_next_enough.
      { rewrite (token_stream_step nb tb b tb' b') in Hl by done.
        destruct (token_stream nb tb' b') as [|x xs] eqn:Es; [by destruct nb|].
        rewrite (last_default x xs tb' tb). exact Hl. }
      exists r. split; [done|]. rewrite Hiff. split; [apply prefix_cons|apply prefix_cons_inv_2].
    - eexists. split; [done|]. split; [done|]. intros Hp%prefix_cons_inv_1.
      rewrite Hp in Hcmp. rewrite (proj2 (lex_compare_eq _ _) eq_refl) in Hcmp.
      apply vsign_equal in Hcmp; [done|apply token_cmp_three_way]. }
  all: eexists; split; [done|].
  all: destruct (decide (7 <= tok_num (token tb))) as [Hte|Hte].
  1,3: rewrite token_stream_end in Hl by done; cbn in Hl; rewrite token_stream_end by done;
    unfold compare_end; rewrite Hl; case_bool_decide; cbn;
    split; auto using prefix_nil; done.
  all: split.
  1,3: intros Hr; exfalso; revert Hr; apply compare_end_not_equal;
    [intros Heq; specialize (He Heq); rewrite Heq in He; lia|intros Heq; rewrite Heq in Hte; cbn in Hte; lia].
  all: destruct nb as [|nb]; [specialize (Hnb ltac:(lia)); lia|].
  all: destruct (token_next tb b) as [tb' b'] eqn:Eb;
    rewrite (removelast_stream nb tb b ltac:(lia) _ _ Eb).
  all: destruct na; cbn [token_stream fmap list_fmap]; intros Hp%prefix_cons_inv_1;
    symmetry in Hp; apply key_kind in Hp; specialize (He Hp); rewrite Hp in He; lia.
Qed.

(** ** Properties *)

(** C14: apk_version_validate terminates and accepts exactly the versions of the documented
    grammar digit{.digit}...{letter}{_suf{#}}...{~hash}{-r#}, with the known suffix names. *)
Theorem apk_version_validate_grammar v : apk_version_validate v = true <-> version_text v.
Proof.
  unfold apk_version_validate, token_first.
  destruct (token_parse_digits_run (Tok TOKEN_INITIAL_DIGIT 0 0 []) v)
    as (n & ds & r & -> & Hds & Hr & ->).
  destruct (Z.eqb_spec (zlen ds) 0) as [Hz|Hz].
  - apply zlen_0_nil in Hz as ->. cbn. split; [done|].
    intros H. inversion H as [ds s [Hne Hd] Hs Heq]. destruct Hd as [|c ds Hc]; [done|].
    cbn in Heq. subst r. cbn in Hr. congruence.
  - cbn [token suffix].
    destruct (validate_loop_grammar (S (length (ds ++ r))) (Tok TOKEN_INITIAL_DIGIT 0 n ds) r)
      as (res & -> & Hiff); [rewrite length_app; lia|done|done|].
    cbn [default token tail_of] in *. change (id res = true <-> version_text (ds ++ r)).
    unfold id. rewrite Hiff. split.
    + intros Ht. constructor; [|done]. split; [|done]. by intros ->.
    + intros H. inversion H as [ds' s [Hne Hd] Hs Heq].
      destruct (digit_run_unique _ _ _ _ Heq Hd (digit_tail_no_digit _ Hs) Hds Hr) as [-> ->]. done.
Qed.

(** Comparing two non-NULL versions terminates with one of the three results, and that
    result is the lexicographic order of the token keys of the two texts, valid or not. *)
Theorem apk_version_compare_lex a b :
  three_way (apk_version_compare (Some a) (Some b)) /\
  vsign (apk_version_compare (Some a) (Some b)) = lex_list lex_compare (version_key a) (version_key b).
Proof. apply apk_version_compare_keys. Qed.

(** C13: apk_version_compare is a total preorder: swapping the arguments swaps less and greater,
    and it is transitive, also through numeric and string comparison of digit groups, so
    sorting packages by version is well defined. *)
Theorem apk_version_compare_order :
  CmpOrder (fun a b => vsign (apk_version_compare (Some a) (Some b))).
Proof.
  pose proof (cmp_order_on version_key (lex_list lex_compare) _) as [Ha Ht].
  split.
  - intros a b. rewrite !(proj2 (apk_version_compare_keys _ _)). apply Ha.
  - intros a b c. rewrite !(proj2 (apk_version_compare_keys _ _)). apply Ht.
Qed.

(** A fuzzy comparison against a valid version succeeds exactly when the tokens of that
    version are a prefix of the tokens of the other one. *)
Theorem apk_version_fuzzy_prefix a b :
  apk_version_validate b = true ->
  (apk_version_compare_fuzzy (Some a) (Some b) true = APK_VERSION_EQUAL <->
   removelast (version_key b) `prefix_of` version_key a).
Proof.
  unfold apk_version_validate, apk_version_compare_fuzzy, version_key, version_tokens.
  destruct (token_first a) as [ta a'] eqn:Ea, (token_first b) as [tb b'] eqn:Eb.
  destruct (token_first_spec _ _ _ Ea) as (Hoa & Hea & _).
  destruct (token_first_spec _ _ _ Eb) as (Hob & Heb & _). intros Hv.
  assert (Hl : forall n t c, default false (validate_loop n t c) = true ->
               token (List.last (token_stream n t c) t) = TOKEN_END).
  { clear. induction n as [|n IH]; intros t c; cbn [validate_loop token_stream].
    - case_test; [done|]. cbn. by rewrite bool_decide_eq_true.
    - case_test; [|cbn; by rewrite bool_decide_eq_true].
      destruct (token_next t c) as [t' c']. intros H. specialize (IH t' c' H).
      destruct (token_stream n t' c') as [|x xs] eqn:Es; [by destruct n|].
      rewrite (last_default x xs t' t) in IH. exact IH. }
  destruct (compare_loop_fuzzy (S (length a)) ta a' tb b' (S (length a)) (S (length b)))
    as (r & -> & Hr); auto.
Qed.

Lemma apk_version_fuzzy_prefix_witness :
  apk_version_compare_fuzzy (Some (bs "1.2.3-r4")) (Some (bs "1.2")) true = APK_VERSION_EQUAL <->
  removelast (version_key (bs "1.2")) `prefix_of` version_key (bs "1.2.3-r4").
Proof. apply apk_version_fuzzy_prefix. vm_compute. reflexivity. Defined.

(** Matching a version against an operator mask without the fuzzy bit holds exactly when
    the relation between the two versions is among the less/equal/greater bits of the mask,
    and a conflict mask negates that. *)
Theorem apk_version_match_mask a b op :
  0 <= op < 32 -> Z.testbit op 3 = false ->
  apk_version_match (Some a) op (Some b) =
  xorb (Z.testbit op 4)
    (let s := vsign (apk_version_compare (Some a) (Some b)) in
     if s =? 0 then Z.testbit op 0 else if s <? 0 then Z.testbit op 1 else Z.testbit op 2).
Proof.
  intros Hop Hf. unfold apk_version_match.
  replace (op .& APK_VERSION_FUZZY) with 0.
  - cbn [negb Z.eqb]. fold (apk_version_compare (Some a) (Some b)).
    destruct (apk_version_compare_keys a b) as [H3 _].
    set (r := apk_version_compare (Some a) (Some b)) in *. clearbody r.
    apply eqb_prop.
    set (g := fun r op => Bool.eqb
      (let ok := (op .& APK_DEPMASK_ANY =? APK_DEPMASK_ANY) || negb (r .& op =? 0) in
       if negb (op .& APK_VERSION_CONFLICT =? 0) then negb ok else ok)
      (xorb (Z.testbit op 4)
        (let s := vsign r in
         if s =? 0 then Z.testbit op 0 else if s <? 0 then Z.testbit op 1 else Z.testbit op 2))).
    change (g r op = true).
    destruct H3 as [-> | [-> | ->]]; (apply (all_below_spec 32 (g _) op); [vm_compute; reflexivity|lia]).
  - symmetry. apply Z.bits_inj'. intros i Hi. rewrite Z.land_spec, Z.bits_0.
    destruct (decide (i = 3)) as [->|]; [by rewrite Hf|].
    change APK_VERSION_FUZZY with (2 ^ 3). rewrite Z.pow2_bits_false by lia. apply andb_false_r.
Qed.

Lemma apk_version_match_mask_witness :
  apk_version_match (Some (bs "1.2")) (APK_VERSION_LESS .| APK_VERSION_CONFLICT) (Some (bs "1.3"))
  = xorb true (Z.testbit 18 1).
Proof.
  refine (eq_trans (apk_version_match_mask (bs "1.2") (bs "1.3") 18 _ _) _);
    [lia|reflexivity|vm_compute; reflexivity].
Defined.

(** Every operator mask that has a name other than the empty one and the unknown mark is
    read back from that name (the fuzzy operator implies equality). *)
Theorem op_string_roundtrip op :
  0 <= op < 32 ->
  apk_version_op_string op <> "?"%string -> apk_version_op_string op <> ""%string ->
  apk_version_result_mask (apk_version_op_string op) =
  (let m := op .& Z.lnot APK_VERSION_CONFLICT in
   if m =? APK_VERSION_FUZZY then m .| APK_VERSION_EQUAL else m).
Proof.
  intros Hop H1 H2.
  set (f := fun op =>
    String.eqb (apk_version_op_string op) "?" || String.eqb (apk_version_op_string op) "" ||
    (apk_version_result_mask (apk_version_op_string op) =?
     (let m := op .& Z.lnot APK_VERSION_CONFLICT in
      if m =? APK_VERSION_FUZZY then m .| APK_VERSION_EQUAL else m))).
  assert (H : f op = true) by (apply (all_below_spec 32 f op); [vm_compute; reflexivity|lia]).
  unfold f in H. apply orb_true_iff in H as [H|H]; [|by apply Z.eqb_eq in H].
  apply orb_true_iff in H as [H|H]; by apply String.eqb_eq in H.
Qed.

Lemma op_string_roundtrip_witness :
  apk_version_result_mask (apk_version_op_string 3) = 3.
Proof. apply (op_string_roundtrip 3); [lia|discriminate|discriminate]. Defined.
