(* ===== verification/Array.v ===== *)
(** Growable arrays (common.c, the APK_ARRAY macro of apk_defines.h) and the path builder
    (pathbuilder.c).

    An array object is its header (num, capacity, allocated) and its [capacity] cells; a
    cell is [None] while it has not been written.  A zeroed item is the section variable
    [zero].  Arrays that are not "allocated" live in a bump allocator or are the shared
    empty array; they are never freed or reallocated in place. *)
From Stdlib Require Import ZArith Lia Ascii String.
From stdpp Require Import base numbers list option.
From S2P Require Import Prelude Blob.

Section Array.
Context {A : Type} (zero : A).

Record apk_array := Arr {
  num : Z;
  capacity : Z;
  allocated : bool;
  item : list (option A);
}.

Definition apk_array_empty : apk_array := Arr 0 0 false [].

Definition apk_array_len (a : apk_array) : Z := num a.

(** The memory of [n] cells that realloc gives for a block holding [old]. *)
Definition realloc_cells (old : list (option A)) (n : Z) : list (option A) :=
  ztake n old ++ replicate (Z.to_nat (n - zlen old)) None.

(** memset of the cells [from .. to-1]. *)
Definition clear_cells (l : list (option A)) (from to : Z) : list (option A) :=
  ztake from l ++ replicate (Z.to_nat (to - from)) (Some zero) ++ zdrop to l.

Definition apk_array_resize (a : apk_array) (n cap : Z) : apk_array :=
  if cap =? 0 then apk_array_empty
  else
    let n := if cap <? n then cap else n in
    let old_num := num a in
    let cells := if negb (allocated a) || negb (cap =? capacity a)
                 then realloc_cells (if allocated a then item a else []) cap
                 else item a in
    Arr n (wrap 31 cap) true (if old_num <? n then clear_cells cells old_num n else cells).

Definition apk_array_grow (a : apk_array) : apk_array :=
  apk_array_resize a (num a) (capacity a + Z.min (capacity a + 2) 64).

(** [same] tells whether source and destination are the same object. *)
Definition apk_array_copy (dst src : apk_array) (same : bool) : apk_array :=
  if same then dst
  else
    let copy := apk_array_resize dst 0 (Z.max (num src) (capacity dst)) in
    if negb (num src =? 0)
    then Arr (num src) (capacity copy) (allocated copy)
             (ztake (num src) (item src) ++ zdrop (num src) (item copy))
    else copy.

Definition apk_array_truncate (a : apk_array) (n : Z) : option apk_array :=
  if n <=? num a then Some (Arr n (capacity a) (allocated a) (item a)) else None.

Definition apk_array_reset (a : apk_array) : apk_array :=
  if allocated a then Arr 0 (capacity a) (allocated a) (item a) else apk_array_empty.

(** array_type_name##_add *)
Definition apk_array_add (a : apk_array) (x : A) : apk_array :=
  let a := if capacity a <=? num a then apk_array_grow a else a in
  Arr (num a + 1) (capacity a) (allocated a) (<[Z.to_nat (num a) := Some x]> (item a)).

(** [_apk_array_balloc] and [_apk_array_bclone]: an array in bump-allocated memory. *)
Definition apk_array_balloc (cap : Z) : apk_array :=
  Arr 0 (wrap 31 cap) false (replicate (Z.to_nat cap) None).

Definition apk_array_bclone (a : apk_array) : apk_array :=
  if negb (allocated a) then a
  else if num a =? 0 then apk_array_empty
  else Arr (num a) (wrap 31 (num a)) false (ztake (num a) (item a)).

(** ** Invariant and contents *)

(** The cells in use are within the capacity, and all of them have been written. *)
Record array_ok (a : apk_array) : Prop := {
  ao_num : 0 <= num a <= capacity a;
  ao_cap : capacity a < 2 ^ 31;
  ao_cells : zlen (item a) = capacity a;
  ao_init : Forall is_Some (ztake (num a) (item a));
}.

(** The items an iteration over the array visits. *)
Definition contents (a : apk_array) : list A := omap id (ztake (num a) (item a)).

(** The array is [l]: well formed, with exactly these items. *)
Definition holds (a : apk_array) (l : list A) : Prop :=
  array_ok a /\ ztake (num a) (item a) = Some <$> l.

Lemma holds_contents a l : holds a l -> contents a = l /\ num a = zlen l.
Proof.
  intros [Ha Hl]. unfold contents. rewrite Hl. split.
  - clear. induction l as [|x l IH]; [done|]. cbn. f_equal. exact IH.
  - apply (f_equal zlen) in Hl. rewrite zlen_fmap in Hl. destruct Ha.
    rewrite zlen_ztake in Hl; lia.
Qed.

Lemma array_ok_holds a : array_ok a -> holds a (contents a).
Proof.
  intros Ha. split; [done|]. unfold contents. destruct Ha as [_ _ _ H].
  induction H as [|x l [y ->] H IH]; [done|]. cbn. by f_equal.
Qed.

Lemma holds_intro n cap al cells l :
  0 <= n <= cap -> cap < 2 ^ 31 -> zlen cells = cap -> ztake n cells = Some <$> l ->
  holds (Arr n cap al cells) l.
Proof.
  intros Hn Hc Hl Ht. split; [|done]. split; cbn; try lia.
  rewrite Ht. apply Forall_fmap, Forall_true. intros x. by exists x.
Qed.

Lemma empty_holds : holds apk_array_empty [].
Proof. by apply holds_intro. Qed.

Lemma zlen_replicate {B} n (x : B) : 0 <= n -> zlen (replicate (Z.to_nat n) x) = n.
Proof. unfold zlen. rewrite length_replicate. lia. Qed.

Lemma zlen_realloc old n : 0 <= n -> zlen (realloc_cells old n) = n.
Proof.
  intros Hn. unfold realloc_cells. rewrite zlen_app. unfold ztake, zlen.
  rewrite length_take, length_replicate. lia.
Qed.

Lemma zlen_clear l from to :
  0 <= from <= to -> to <= zlen l -> zlen (clear_cells l from to) = zlen l.
Proof.
  intros ? ?. unfold clear_cells.
  rewrite !zlen_app, zlen_ztake, zlen_replicate, zlen_zdrop; lia.
Qed.


Lemma ztake_fmap {B C} (f : B -> C) n l : ztake n (f <$> l) = f <$> ztake n l.
Proof. unfold ztake. by rewrite firstn_map. Qed.

Lemma ztake_realloc old n m : m <= n -> m <= zlen old -> ztake m (realloc_cells old n) = ztake m old.
Proof.
  intros Hn Hm. unfold realloc_cells.
  destruct (decide (n <= zlen old)).
  - rewrite (ztake_app_le m); [by apply ztake_ztake|].
    unfold zlen, ztake in *. rewrite length_take. lia.
  - rewrite (ztake_all n) by lia. by rewrite (ztake_app_le m) by lia.
Qed.

Lemma ztake_clear l from to :
  0 <= from <= to -> to <= zlen l ->
  ztake to (clear_cells l from to) = ztake from l ++ replicate (Z.to_nat (to - from)) (Some zero).
Proof.
  intros ? ?. unfold clear_cells. rewrite app_assoc.
  assert (Hl : zlen (ztake from l ++ replicate (Z.to_nat (to - from)) (Some zero)) = to).
  { rewrite zlen_app, zlen_ztake, zlen_replicate; lia. }
  pose proof (ztake_app (ztake from l ++ replicate (Z.to_nat (to - from)) (Some zero)) (zdrop to l)) as H1.
  rewrite Hl in H1. exact H1.
Qed.

(** ** Resizing *)

(** What a resize to [n] items leaves of [l]: a prefix, or [l] followed by zeroed items. *)
Definition resized (l : list A) (n : Z) : list A :=
  ztake n l ++ replicate (Z.to_nat (n - zlen l)) zero.

(** The cells a resize works on: at least the capacity asked for, and the old items first
    when the array is heap allocated. *)
Definition resize_cells (a : apk_array) (cap : Z) : list (option A) :=
  if negb (allocated a) || negb (cap =? capacity a)
  then realloc_cells (if allocated a then item a else []) cap
  else item a.

Lemma resize_cells_ok a l cap :
  holds a l -> (allocated a = false -> l = []) -> 0 <= cap ->
  zlen (resize_cells a cap) = cap /\
  forall m, m <= cap -> m <= zlen l -> ztake m (resize_cells a cap) = Some <$> ztake m l.
Proof.
  intros [Ha Hl] Hempty Hcap. destruct (holds_contents a l) as [_ Hnum]; [done|].
  destruct Ha as [Hn _ Hc _]. unfold resize_cells.
  assert (Hpre : forall m, m <= zlen l -> ztake m (item a) = Some <$> ztake m l).
  { intros m Hm. rewrite <- (ztake_ztake m (num a)) by lia. by rewrite Hl, ztake_fmap. }
  destruct (allocated a) eqn:Eal; cbn [negb orb].
  - destruct (Z.eqb_spec cap (capacity a)) as [->|]; cbn [negb].
    + split; [done|]. intros m _ Hm. by apply Hpre.
    + split; [by apply zlen_realloc|]. intros m Hm1 Hm2. rewrite ztake_realloc by lia. by apply Hpre.
  - split; [by apply zlen_realloc|]. intros m Hm1 Hm2. rewrite Hempty in * by done.
    rewrite zlen_nil in Hm2. unfold ztake. by replace (Z.to_nat m) with O by lia.
Qed.

Lemma apk_array_resize_holds a l n cap :
  holds a l -> (allocated a = false -> l = []) -> 0 <= n -> 0 < cap < 2 ^ 31 ->
  holds (apk_array_resize a n cap) (resized l (Z.min n cap)).
Proof.
  intros Ha Hempty Hn Hcap. pose proof (holds_contents a l Ha) as [_ Hnum].
  destruct (resize_cells_ok a l cap Ha Hempty ltac:(lia)) as [Hlen Hpre].
  unfold apk_array_resize. fold (resize_cells a cap).
  destruct (Z.eqb_spec cap 0); [lia|]. rewrite wrap_small by lia.
  replace (if cap <? n then cap else n) with (Z.min n cap) by (case_test; reflect_tests; lia).
  pose proof (zlen_nonneg l). rewrite Hnum. unfold resized.
  destruct (Z.ltb_spec (zlen l) (Z.min n cap)).
  - apply holds_intro; [lia..| |].
    + rewrite zlen_clear; lia.
    + rewrite ztake_clear by lia. rewrite Hpre by lia.
      rewrite !(ztake_all _ l) by lia. by rewrite fmap_app, fmap_replicate.
  - apply holds_intro; [lia..|].
    rewrite Hpre by lia. replace (Z.to_nat (_ - _)) with O by lia. by rewrite app_nil_r.
Qed.

Lemma resized_self l : resized l (zlen l) = l.
Proof. unfold resized. rewrite ztake_all by lia. by rewrite Z.sub_diag, app_nil_r. Qed.

Lemma insert_cell n (cells : list (option A)) (l : list A) x :
  0 <= n < zlen cells -> ztake n cells = Some <$> l ->
  zlen (<[Z.to_nat n := Some x]> cells) = zlen cells /\
  ztake (n + 1) (<[Z.to_nat n := Some x]> cells) = Some <$> (l ++ [x]).
Proof.
  intros Hn Ht. split; [unfold zlen; by rewrite length_insert|].
  unfold ztake, zlen in *. replace (Z.to_nat (n + 1)) with (S (Z.to_nat n)) by lia.
  rewrite (take_S_r _ _ (Some x)) by (apply list_lookup_insert_eq; lia).
  rewrite take_insert_ge by lia. by rewrite Ht, fmap_app.
Qed.

(** Room for one more item: nothing to do, or growing a heap array. *)
Lemma apk_array_room a l :
  holds a l -> (capacity a <= num a -> allocated a = false -> l = []) ->
  capacity a + Z.min (capacity a + 2) 64 < 2 ^ 31 ->
  let b := if capacity a <=? num a then apk_array_grow a else a in
  holds b l /\ num b < capacity b.
Proof.
  intros Ha Hroom Hcap. cbn zeta. pose proof (holds_contents a l Ha) as [_ Hnum].
  destruct Ha as [Hok Hl]. destruct (Z.leb_spec (capacity a) (num a)).
  - assert (H' : holds (apk_array_grow a) l).
    { unfold apk_array_grow. rewrite <- (resized_self l) at 1.
      replace (zlen l) with (Z.min (num a) (capacity a + Z.min (capacity a + 2) 64));
        destruct Hok; [|lia].
      apply apk_array_resize_holds; [by split|by auto|lia|lia]. }
    split; [done|]. destruct (holds_contents _ _ H') as [_ Hn']. rewrite Hn'.
    unfold apk_array_grow, apk_array_resize. destruct Hok.
    destruct (Z.eqb_spec (capacity a + Z.min (capacity a + 2) 64) 0); [lia|].
    cbn [capacity]. rewrite wrap_small by lia. lia.
  - by split.
Qed.

(** Adding an item to a heap array, or to one with room left, keeps the well-formedness
    invariant and appends the item; every array a program builds with init, add, truncate
    and reset therefore holds exactly the items added.  An array in bump-allocated memory
    must not be grown when it is full: its items would be lost. *)
Theorem apk_array_add_holds a l x :
  holds a l -> (capacity a <= num a -> allocated a = false -> l = []) ->
  capacity a + Z.min (capacity a + 2) 64 < 2 ^ 31 ->
  holds (apk_array_add a x) (l ++ [x]) /\ num (apk_array_add a x) = zlen l + 1.
Proof.
  intros Ha Hroom Hcap. destruct (apk_array_room a l Ha Hroom Hcap) as [Hb Hlt].
  unfold apk_array_add. set (b := if capacity a <=? num a then apk_array_grow a else a) in *.
  destruct (holds_contents b l Hb) as [_ Hn]. cbn [num]. split; [|lia].
  destruct Hb as [[] Hl]. destruct (insert_cell (num b) (item b) l x) as [H1 H2]; [lia|done|].
  apply holds_intro; [lia|lia|lia|done].
Qed.

Lemma apk_array_copy_holds dst src ld ls :
  holds dst ld -> holds src ls -> (allocated dst = false -> ld = []) ->
  holds (apk_array_copy dst src false) ls.
Proof.
  intros Hd Hs Hempty. pose proof (holds_contents _ _ Hs) as [_ Hns].
  destruct Hs as [[Hs1 Hs2 Hs3 _] Hsl]. unfold apk_array_copy.
  pose proof (ao_num dst (proj1 Hd)) as Hdn. pose proof (ao_cap dst (proj1 Hd)) as Hdc.
  destruct (decide (Z.max (num src) (capacity dst) = 0)) as [E|E].
  - rewrite E. unfold apk_array_resize. cbn [Z.eqb].
    replace (num src) with 0 by lia. cbn [negb Z.eqb].
    replace ls with (@nil A) by (symmetry; apply zlen_0_nil; lia). apply empty_holds.
  - assert (Hr : holds (apk_array_resize dst 0 (Z.max (num src) (capacity dst))) (resized ld 0)).
    { replace 0 with (Z.min 0 (Z.max (num src) (capacity dst))) at 2 by lia.
      apply apk_array_resize_holds; auto; lia. }
    set (copy := apk_array_resize dst 0 _) in *.
    assert (Hcap : capacity copy = Z.max (num src) (capacity dst)).
    { subst copy. unfold apk_array_resize. destruct (Z.eqb_spec (Z.max (num src) (capacity dst)) 0); [lia|].
      cbn. apply wrap_small. lia. }
    destruct (Z.eqb_spec (num src) 0) as [E0|E0]; cbn [negb].
    + replace ls with (@nil A) by (symmetry; apply zlen_0_nil; lia).
      unfold resized in Hr. rewrite ztake_0 in Hr. pose proof (zlen_nonneg ld).
      replace (Z.to_nat (0 - zlen ld)) with O in Hr by lia. exact Hr.
    + destruct Hr as [[] _]. apply holds_intro; [lia..| |].
      * rewrite zlen_app, zlen_ztake, zlen_zdrop; lia.
      * rewrite <- Hsl. rewrite ztake_app_le by (rewrite zlen_ztake; lia). by apply ztake_ztake.
Qed.

Lemma apk_array_truncate_holds a l n :
  holds a l -> 0 <= n <= zlen l ->
  exists b, apk_array_truncate a n = Some b /\ holds b (ztake n l).
Proof.
  intros Ha Hn. pose proof (holds_contents _ _ Ha) as [_ Hnum]. unfold apk_array_truncate.
  destruct (Z.leb_spec n (num a)); [|lia]. eexists. split; [done|].
  destruct Ha as [[] Hl]. apply holds_intro; [lia..|].
  rewrite <- (ztake_ztake n (num a)) by lia. by rewrite Hl, ztake_fmap.
Qed.

Lemma apk_array_reset_holds a l : holds a l -> holds (apk_array_reset a) [].
Proof.
  intros [[] _]. unfold apk_array_reset. case_test; [|apply empty_holds].
  apply holds_intro; try done; lia.
Qed.

Lemma apk_array_bclone_holds a l : holds a l -> holds (apk_array_bclone a) l.
Proof.
  intros Ha. pose proof (holds_contents _ _ Ha) as [_ Hnum]. unfold apk_array_bclone.
  case_test; [done|]. destruct (Z.eqb_spec (num a) 0).
  - replace l with (@nil A) by (symmetry; apply zlen_0_nil; lia). apply empty_holds.
  - destruct Ha as [[] Hl]. rewrite wrap_small by lia. apply holds_intro; [lia|lia| |].
    + rewrite zlen_ztake; lia.
    + by rewrite ztake_ztake.
Qed.

Lemma apk_array_balloc_holds cap : 0 <= cap < 2 ^ 31 -> holds (apk_array_balloc cap) [].
Proof.
  intros. unfold apk_array_balloc. rewrite wrap_small by lia.
  apply holds_intro; [lia..|rewrite zlen_replicate; lia|done].
Qed.

End Array.
Arguments apk_array A : clear implicits.

Lemma apk_array_add_holds_witness :
  holds (apk_array_add 0 (apk_array_add 0 apk_array_empty 7) 8) [7; 8].
Proof.
  apply (apk_array_add_holds 0 (apk_array_add 0 apk_array_empty 7) [7] 8);
    [|discriminate|vm_compute; reflexivity].
  by apply holds_intro.
Defined.

(** Growing a full array that is not heap allocated drops what it held. *)
Example grow_bump_array_loses :
  contents (apk_array_add 0 (apk_array_add 0 (apk_array_balloc 1) 7) 8) = [8].
Proof. reflexivity. Qed.

(** ** Path builder *)

Definition PATH_MAX : Z := 4096.
Definition ENAMETOOLONG : Z := 36.

Record apk_pathbuilder := PB { namelen : Z; name : bytes }.

(** [memcpy] of [src] to offset [i] of the name buffer. *)
Definition put_at (buf : bytes) (i : Z) (src : bytes) : bytes :=
  ztake i buf ++ src ++ zdrop (i + zlen src) buf.

Definition apk_pathbuilder_pushb (pb : apk_pathbuilder) (b : bytes) : apk_pathbuilder * Z :=
  let oldlen := namelen pb in
  let i := namelen pb in
  if PATH_MAX <=? i + zlen b + 2 then (pb, - ENAMETOOLONG)
  else
    let '(i, buf) := if negb (i =? 0) then (i + 1, put_at (name pb) i [chr "/"]) else (i, name pb) in
    let buf := put_at buf i b in
    let n := u16 (i + zlen b) in
    (PB n (put_at buf n [0]), oldlen).

Definition apk_pathbuilder_pop (pb : apk_pathbuilder) (pos : Z) : apk_pathbuilder :=
  if pos <? 0 then pb
  else let n := u16 pos in PB n (put_at (name pb) n [0]).

Definition apk_pathbuilder_setb (pb : apk_pathbuilder) (b : bytes) : apk_pathbuilder * Z :=
  apk_pathbuilder_pushb (PB 0 (name pb)) b.

Definition apk_pathbuilder_get (pb : apk_pathbuilder) : bytes := ztake (namelen pb) (name pb).

(** The buffer has PATH_MAX bytes and holds the path followed by a NUL. *)
Definition pb_ok (pb : apk_pathbuilder) : Prop :=
  zlen (name pb) = PATH_MAX /\ 0 <= namelen pb < PATH_MAX - 1.

Lemma zlen_put_at buf i src :
  0 <= i -> i + zlen src <= zlen buf -> zlen (put_at buf i src) = zlen buf.
Proof.
  intros ? ?. pose proof (zlen_nonneg src). unfold put_at.
  rewrite !zlen_app, zlen_ztake, zlen_zdrop; lia.
Qed.

Lemma ztake_put_at buf i src :
  0 <= i -> i + zlen src <= zlen buf -> ztake (i + zlen src) (put_at buf i src) = ztake i buf ++ src.
Proof.
  intros ? ?. pose proof (zlen_nonneg src). unfold put_at. rewrite app_assoc.
  replace (i + zlen src) with (zlen (ztake i buf ++ src)) by (rewrite zlen_app, zlen_ztake; lia).
  apply ztake_app.
Qed.

Lemma ztake_put_at_below buf i src n :
  0 <= n <= i -> i + zlen src <= zlen buf -> ztake n (put_at buf i src) = ztake n buf.
Proof.
  intros ? ?. pose proof (zlen_nonneg src). unfold put_at.
  rewrite (ztake_app_le n) by (rewrite zlen_ztake; lia). apply ztake_ztake. lia.
Qed.

(** The path after a push: the component is appended after a slash. *)
Definition path_join (p b : bytes) : bytes := if zlen p =? 0 then p ++ b else p ++ chr "/" :: b.

Lemma pb_get_len pb : pb_ok pb -> zlen (apk_pathbuilder_get pb) = namelen pb.
Proof. intros []. apply zlen_ztake. lia. Qed.

(** Writing a component and the NUL after it. *)
Lemma put_at_nul buf i src :
  0 <= i -> i + zlen src < zlen buf ->
  let buf' := put_at (put_at buf i src) (i + zlen src) [0] in
  zlen buf' = zlen buf /\ ztake (i + zlen src) buf' = ztake i buf ++ src /\
  forall n, 0 <= n <= i -> ztake n buf' = ztake n buf.
Proof.
  intros Hi Hl. pose proof (zlen_nonneg src). cbn zeta.
  assert (H1 : zlen [0] = 1) by done.
  assert (H2 : zlen (put_at buf i src) = zlen buf) by (apply zlen_put_at; lia).
  split; [rewrite zlen_put_at; lia|]. split.
  - rewrite ztake_put_at_below by lia. apply ztake_put_at; lia.
  - intros n Hn. rewrite !ztake_put_at_below by lia. done.
Qed.

Lemma apk_pathbuilder_push_ok pb b :
  pb_ok pb -> namelen pb + zlen b + 2 < PATH_MAX ->
  let pb' := (apk_pathbuilder_pushb pb b).1 in
  pb_ok pb' /\ apk_pathbuilder_get pb' = path_join (apk_pathbuilder_get pb) b /\
  ztake (namelen pb) (name pb') = apk_pathbuilder_get pb.
Proof.
  intros Hok Hlt. pose proof (pb_get_len pb Hok) as Hg. destruct Hok as [Hl Hn].
  pose proof (zlen_nonneg b). unfold apk_pathbuilder_pushb, path_join. rewrite Hg.
  destruct (Z.leb_spec PATH_MAX (namelen pb + zlen b + 2)); [lia|].
  unfold pb_ok, apk_pathbuilder_get, PATH_MAX in *.
  destruct (Z.eqb_spec (namelen pb) 0) as [E|E]; cbn [negb fst namelen name];
    rewrite (wrap_small 16) by lia.
  - destruct (put_at_nul (name pb) (namelen pb) b) as (H1 & H2 & H3); [lia..|].
    rewrite H1, H2, H3 by lia. split; [split; lia|done].
  - assert (Hs : zlen [chr "/"] = 1) by done.
    destruct (put_at_nul (put_at (name pb) (namelen pb) [chr "/"]) (namelen pb + 1) b)
      as (H1 & H2 & H3); [lia|rewrite zlen_put_at; lia|].
    rewrite H1, H2, H3, zlen_put_at, (ztake_put_at_below _ _ _ (namelen pb)) by lia.
    replace (namelen pb + 1) with (namelen pb + zlen [chr "/"]) by lia.
    rewrite ztake_put_at, <- app_assoc by lia. split; [split; lia|done].
Qed.

(** The path builder never writes outside its PATH_MAX bytes: a component that does not
    fit is refused and leaves the path alone; one that fits is appended after a slash, and
    popping to the position the push returned restores the path it was pushed on. *)
Theorem apk_pathbuilder_push_pop pb b :
  pb_ok pb ->
  let '(pb', pos) := apk_pathbuilder_pushb pb b in
  if namelen pb + zlen b + 2 <? PATH_MAX
  then pos = namelen pb /\ pb_ok pb' /\
       apk_pathbuilder_get pb' = path_join (apk_pathbuilder_get pb) b /\
       pb_ok (apk_pathbuilder_pop pb' pos) /\
       apk_pathbuilder_get (apk_pathbuilder_pop pb' pos) = apk_pathbuilder_get pb
  else pos = - ENAMETOOLONG /\ pb' = pb /\ apk_pathbuilder_pop pb' pos = pb.
Proof.
  intros Hok. pose proof (apk_pathbuilder_push_ok pb b Hok) as Hpush.
  destruct (apk_pathbuilder_pushb pb b) as [pb' pos] eqn:E. cbn zeta in Hpush. cbn [fst] in Hpush.
  destruct (Z.ltb_spec (namelen pb + zlen b + 2) PATH_MAX) as [Hlt|Hge].
  - destruct (Hpush Hlt) as (Hok' & Hget & Hpre).
    assert (Hpos : pos = namelen pb).
    { unfold apk_pathbuilder_pushb in E. destruct (Z.leb_spec PATH_MAX (namelen pb + zlen b + 2)); [lia|].
      destruct (negb (namelen pb =? 0)); by injection E. }
    subst pos. destruct Hok as [Hl Hn]. destruct Hok' as [Hl' Hn'].
    unfold apk_pathbuilder_pop. destruct (Z.ltb_spec (namelen pb) 0); [lia|].
    unfold apk_pathbuilder_get, pb_ok, PATH_MAX in *. cbn [namelen name].
    rewrite wrap_small by lia.
    rewrite ztake_put_at_below, zlen_put_at by (rewrite ?zlen_cons, ?zlen_nil; lia).
    repeat split; try lia; done.
  - unfold apk_pathbuilder_pushb in E. destruct (Z.leb_spec PATH_MAX (namelen pb + zlen b + 2)); [|lia].
    injection E as <- <-. repeat split. 
Qed.

Lemma apk_pathbuilder_push_pop_witness :
  apk_pathbuilder_get (apk_pathbuilder_pop
    (apk_pathbuilder_pushb (PB 3 (bs "etc" ++ replicate 4093 0)) (bs "apk")).1 3) = bs "etc".
Proof.
  destruct (apk_pathbuilder_push_pop (PB 3 (bs "etc" ++ replicate 4093 0)) (bs "apk"))
    as (Hpos & _ & _ & _ & H).
  - split; [vm_compute; reflexivity|cbn; unfold PATH_MAX; lia].
  - exact H.
Defined.
