(* ===== verification/Balloc.v ===== *)
(** The bump allocator (balloc.c) from which atoms, names, packages and files are carved.

    Addresses are integers.  [malloc] is the C library's: a function from the blocks it has
    handed out (address and size) and a size to the address of a new block, [None] when it
    returns NULL; what the allocator relies on is the class [MallocOk].  On NULL the code
    writes through the null pointer, which the model shows as [None]. *)
From Stdlib Require Import ZArith Lia.
From stdpp Require Import base numbers list option.
From S2P Require Import Prelude.

Definition ROUND_UP (x a : Z) : Z := u64 (u64 (x + (a - 1)) .& Z.lnot (a - 1)).

(** sizeof(struct apk_balloc_page) *)
Definition sizeof_balloc_page : Z := 8.

(** A block is an address and a size; blocks are half-open intervals. *)
Definition block : Type := Z * Z.
Definition disjoint_blocks (a b : block) : Prop := a.1 + a.2 <= b.1 \/ b.1 + b.2 <= a.1.
Definition block_within (a b : block) : Prop := b.1 <= a.1 /\ a.1 + a.2 <= b.1 + b.2.

Record apk_balloc := Balloc {
  pages_head : list block;
  page_size : Z;
  cur : Z;
  end_ : Z;
}.

Definition apk_balloc_init (page_size : Z) : apk_balloc := Balloc [] page_size 0 0.

Class MallocOk (malloc : list block -> Z -> option Z) : Prop := {
  malloc_aligned live n r : malloc live n = Some r -> r mod 16 = 0;
  malloc_range live n r : malloc live n = Some r -> 0 < r /\ r + n <= 2 ^ 63;
  malloc_fresh live n r : malloc live n = Some r -> Forall (disjoint_blocks (r, n)) live;
}.

Section Balloc.
Context (malloc : list block -> Z -> option Z).

Definition apk_balloc_aligned (ba : apk_balloc) (size align : Z) : option (apk_balloc * Z) :=
  let ptr := ROUND_UP (cur ba) align in
  if end_ ba <? u64 (ptr + size) then
    let psize := Z.max (page_size ba) size in
    match malloc (pages_head ba) (u64 (psize + sizeof_balloc_page)) with
    | None => None
    | Some bp =>
        let c := u64 (bp + sizeof_balloc_page) in
        let ptr := ROUND_UP c align in
        Some (Balloc ((bp, u64 (psize + sizeof_balloc_page)) :: pages_head ba) (page_size ba)
                     (u64 (ptr + size)) (u64 (bp + psize)), ptr)
    end
  else Some (Balloc (pages_head ba) (page_size ba) (u64 (ptr + size)) (end_ ba), ptr).

(** A sequence of requests (size and alignment) and the addresses they get. *)
Fixpoint balloc_run (ba : apk_balloc) (reqs : list (Z * Z)) : option (apk_balloc * list Z) :=
  match reqs with
  | [] => Some (ba, [])
  | (size, align) :: reqs =>
      match apk_balloc_aligned ba size align with
      | None => None
      | Some (ba, ptr) =>
          match balloc_run ba reqs with
          | None => None
          | Some (ba, ptrs) => Some (ba, ptr :: ptrs)
          end
      end
  end.
End Balloc.

(** ** Rounding *)

Lemma ROUND_UP_spec x k :
  0 <= x -> 0 <= k -> x + 2 ^ k <= 2 ^ 64 ->
  x <= ROUND_UP x (2 ^ k) < x + 2 ^ k /\ ROUND_UP x (2 ^ k) mod 2 ^ k = 0.
Proof.
  intros Hx Hk Hb. unfold ROUND_UP. assert (Hp : 0 < 2 ^ k) by (apply Z.pow_pos_nonneg; lia).
  rewrite (wrap_small 64 (x + _)) by lia.
  rewrite <- Z.ldiff_land, Z.sub_1_r, <- Z.ones_equiv.
  rewrite Z.ldiff_ones_r, Z.shiftr_div_pow2, Z.shiftl_mul_pow2 by lia.
  rewrite Z.ones_equiv. set (q := (x + Z.pred (2 ^ k)) / 2 ^ k).
  assert (Hq : x <= q * 2 ^ k < x + 2 ^ k).
  { subst q. pose proof (Z.div_mod (x + Z.pred (2 ^ k)) (2 ^ k) ltac:(lia)).
    pose proof (Z.mod_pos_bound (x + Z.pred (2 ^ k)) (2 ^ k) ltac:(lia)). lia. }
  rewrite wrap_small by lia. split; [done|]. apply Z_mod_mult.
Qed.

(** An aligned address is not moved. *)
Lemma ROUND_UP_aligned x k :
  0 <= x -> 0 <= k -> x + 2 ^ k <= 2 ^ 64 -> x mod 2 ^ k = 0 -> ROUND_UP x (2 ^ k) = x.
Proof.
  intros Hx Hk Hb Hm. assert (Hp : 0 < 2 ^ k) by (apply Z.pow_pos_nonneg; lia).
  destruct (ROUND_UP_spec x k) as [[H1 H2] H3]; try done.
  pose proof (Z.div_mod x (2 ^ k) ltac:(lia)) as D1.
  pose proof (Z.div_mod (ROUND_UP x (2 ^ k)) (2 ^ k) ltac:(lia)) as D2.
  rewrite Hm in D1. rewrite H3 in D2.
  generalize dependent (x / 2 ^ k). intros q1 D1.
  generalize dependent (ROUND_UP x (2 ^ k) / 2 ^ k). intros q2 D2.
  generalize dependent (ROUND_UP x (2 ^ k)). intros R H1 H2 H3 D2.
  generalize dependent (2 ^ k). intros P Hb Hm Hp D1 H2 H3 D2.
  assert (q1 <= q2) by nia. assert (q2 < q1 + 1) by nia. nia.
Qed.

(** ** Allocations do not overlap *)

Section BallocOk.
Context (malloc : list block -> Z -> option Z) `{!MallocOk malloc}.

(** The requests the allocator is used with: objects of a C type, aligned to at most 8. *)
Definition request_ok (r : Z * Z) : Prop :=
  0 < r.1 < 2 ^ 60 /\ exists k, 0 <= k <= 3 /\ r.2 = 2 ^ k.

(** Everything handed out lies in a page, and apart from the free rest of the newest page. *)
Record balloc_ok (ba : apk_balloc) (allocs : list block) : Prop := {
  bo_size : 0 <= page_size ba < 2 ^ 60;
  bo_page : match pages_head ba with
            | [] => cur ba = 0 /\ end_ ba = 0
            | p :: _ => p.1 + 8 <= cur ba /\ cur ba <= p.1 + p.2 /\ end_ ba = p.1 + p.2 - 8
                        /\ 0 < p.1 /\ p.1 + p.2 <= 2 ^ 63
            end;
  bo_pages : ForallOrdPairs disjoint_blocks (pages_head ba);
  bo_in : Forall (fun a => exists p, p ∈ pages_head ba /\ block_within a p) allocs;
  bo_pos : Forall (fun a => 0 < a.2) allocs;
  bo_free : match pages_head ba with
            | [] => True
            | p :: _ => Forall (fun a => block_within a p -> a.1 + a.2 <= cur ba) allocs
            end;
}.

Lemma within_disjoint a b p q :
  block_within a p -> block_within b q -> disjoint_blocks p q -> disjoint_blocks a b.
Proof. unfold block_within, disjoint_blocks. lia. Qed.

Lemma disjoint_sym a b : disjoint_blocks a b -> disjoint_blocks b a.
Proof. unfold disjoint_blocks. lia. Qed.

(** A block in the free rest of the newest page touches nothing handed out before. *)
Lemma free_rest_disjoint ba allocs p ps x :
  balloc_ok ba allocs -> pages_head ba = p :: ps -> block_within x p -> cur ba <= x.1 ->
  Forall (disjoint_blocks x) allocs.
Proof.
  intros Hok Hp Hx Hc. destruct Hok as [_ _ Hps Hin _ Hfree]. rewrite Hp in *.
  apply Forall_forall. intros a Ha.
  rewrite Forall_forall in Hin, Hfree. destruct (Hin a Ha) as (q & Hq & Hw).
  apply elem_of_cons in Hq as [->|Hq].
  - specialize (Hfree a Ha Hw). right. lia.
  - inversion Hps as [|? ? Hd _]; subst. rewrite Forall_forall in Hd.
    apply (within_disjoint x a p q); auto. apply Hd. by apply list_elem_of_In.
Qed.

Lemma pow2_small k : 0 <= k <= 3 -> 0 < 2 ^ k <= 8.
Proof.
  intros. split; [apply Z.pow_pos_nonneg; lia|].
  change 8 with (2 ^ 3). apply Z.pow_le_mono_r; lia.
Qed.

Lemma mod16_pow2 x k : 0 <= k <= 3 -> x mod 16 = 0 -> (x + 8) mod 2 ^ k = 0.
Proof.
  intros Hk Hx. assert (k = 0 \/ k = 1 \/ k = 2 \/ k = 3) as Hc by lia;
    destruct Hc as [-> | [-> | [-> | ->]]];
    [change (2 ^ 0) with 1|change (2 ^ 1) with 2|change (2 ^ 2) with 4|change (2 ^ 3) with 8];
    div_mod_lia.
Qed.

(** The request fits in what is left of the newest page. *)
Lemma balloc_fits ba allocs size k :
  balloc_ok ba allocs -> 0 < size < 2 ^ 60 -> 0 <= k <= 3 ->
  u64 (ROUND_UP (cur ba) (2 ^ k) + size) <= end_ ba ->
  let ptr := ROUND_UP (cur ba) (2 ^ k) in
  balloc_ok (Balloc (pages_head ba) (page_size ba) (u64 (ptr + size)) (end_ ba))
            ((ptr, size) :: allocs) /\
  ptr mod 2 ^ k = 0 /\ Forall (disjoint_blocks (ptr, size)) allocs.
Proof.
  intros Hok Hsz Hk Hfit ptr. pose proof (pow2_small k Hk). pose proof Hok as [Hps Hpg Hpages Hin Hpos Hfree].
  destruct (ROUND_UP_spec (cur ba) k) as [Hr Hm];
    [destruct (pages_head ba); lia..|]. fold ptr in Hr, Hm, Hfit.
  assert (Hw : u64 (ptr + size) = ptr + size).
  { apply wrap_small. destruct (pages_head ba); lia. }
  rewrite Hw in *. destruct (pages_head ba) as [|p ps] eqn:Ep; [lia|].
  assert (Hx : block_within (ptr, size) p) by (unfold block_within; cbn [fst snd]; lia).
  split; [|split; [done|]].
  - split; cbn [pages_head page_size cur end_]; rewrite ?Ep; try done; try lia.
    + constructor; [|done]. exists p. split; [by left|done].
    + constructor; [cbn [snd]; lia|done].
    + constructor; [cbn [fst snd]; lia|]. revert Hfree. apply Forall_impl.
      cbn beta. intros a Ha Haw. specialize (Ha Haw). lia.
  - apply (free_rest_disjoint ba allocs p ps); cbn [fst]; auto; lia.
Qed.

(** The request opens a new page. *)
Lemma balloc_new_page ba allocs size k bp :
  balloc_ok ba allocs -> 0 < size < 2 ^ 60 -> 0 <= k <= 3 ->
  let psize := Z.max (page_size ba) size in
  let n := u64 (psize + sizeof_balloc_page) in
  malloc (pages_head ba) n = Some bp ->
  let ptr := ROUND_UP (u64 (bp + sizeof_balloc_page)) (2 ^ k) in
  balloc_ok (Balloc ((bp, n) :: pages_head ba) (page_size ba) (u64 (ptr + size)) (u64 (bp + psize)))
            ((ptr, size) :: allocs) /\
  ptr mod 2 ^ k = 0 /\ Forall (disjoint_blocks (ptr, size)) allocs.
Proof.
  intros Hok Hsz Hk psize n Hm ptr. pose proof (pow2_small k Hk).
  pose proof Hok as [Hps _ Hpages Hin Hpos _].
  assert (Hn : n = psize + 8) by (subst n psize; apply wrap_small; lia).
  pose proof (malloc_range _ _ _ Hm) as Hrange. pose proof (malloc_fresh _ _ _ Hm) as Hfresh.
  assert (Hb : psize = Z.max (page_size ba) size) by done.
  assert (Hptr : ptr = bp + 8).
  { subst ptr. rewrite wrap_small by (unfold sizeof_balloc_page; lia).
    apply ROUND_UP_aligned; unfold sizeof_balloc_page; try lia.
    apply mod16_pow2; [done|]. by apply (malloc_aligned _ _ _ Hm). }
  rewrite !(wrap_small 64) by lia.
  assert (Hnew : Forall (fun a => disjoint_blocks (bp, n) a) allocs).
  { apply Forall_forall. intros a Ha. rewrite Forall_forall in Hin. destruct (Hin a Ha) as (q & Hq & Hw).
    rewrite Forall_forall in Hfresh. apply list_elem_of_In in Hq. specialize (Hfresh q Hq).
    unfold disjoint_blocks, block_within in *. cbn [fst snd] in *. lia. }
  split; [split; cbn [pages_head page_size cur end_]|split].
  - done.
  - cbn [fst snd]. lia.
  - by constructor.
  - constructor.
    + exists (bp, n). split; [by left|]. unfold block_within. cbn [fst snd]. lia.
    + revert Hin. apply Forall_impl. intros a (q & Hq & Hw). exists q. split; [by right|done].
  - constructor; [cbn [snd]; lia|done].
  - constructor; [cbn [fst snd]; lia|]. apply Forall_forall. intros a Ha Hw.
    rewrite Forall_forall in Hnew, Hpos. specialize (Hnew a Ha). specialize (Hpos a Ha). unfold disjoint_blocks, block_within in *. cbn [fst snd] in *. lia.
  - subst ptr. rewrite Hptr. apply mod16_pow2; [done|]. by apply (malloc_aligned _ _ _ Hm).
  - revert Hnew. apply Forall_impl. intros a Ha.
    unfold disjoint_blocks in *. cbn [fst snd] in *. lia.
Qed.

(** One allocation: the result is aligned, lies in a page and is disjoint from all before. *)
Lemma apk_balloc_aligned_ok ba allocs size align ba' ptr :
  balloc_ok ba allocs -> request_ok (size, align) ->
  apk_balloc_aligned malloc ba size align = Some (ba', ptr) ->
  balloc_ok ba' ((ptr, size) :: allocs) /\ ptr mod align = 0 /\
  Forall (disjoint_blocks (ptr, size)) allocs.
Proof.
  intros Hok [Hsz (k & Hk & Hal)] E. cbn [fst snd] in *. subst align.
  unfold apk_balloc_aligned in E. case_test; reflect_tests.
  - destruct (malloc _ _) as [bp|] eqn:Em; [|done]. injection E as <- <-.
    by apply balloc_new_page.
  - injection E as <- <-. by apply balloc_fits.
Qed.

Lemma balloc_init_ok n : 0 <= n < 2 ^ 60 -> balloc_ok (apk_balloc_init n) [].
Proof. intros. split; cbn; try done. constructor. Qed.

Lemma balloc_run_ok ba allocs reqs ba' ptrs :
  balloc_ok ba allocs -> Forall request_ok reqs -> balloc_run malloc ba reqs = Some (ba', ptrs) ->
  let new := zip ptrs (fst <$> reqs) in
  balloc_ok ba' (rev new ++ allocs) /\
  Forall2 (fun ptr r => ptr mod r.2 = 0) ptrs reqs /\
  Forall (fun x => Forall (disjoint_blocks x) allocs) new /\
  ForallOrdPairs disjoint_blocks new.
Proof.
  intros Hok Hr. revert ba allocs ptrs Hok. induction Hr as [|[size align] reqs Hq Hr IH];
    intros ba allocs ptrs Hok E; cbn [balloc_run] in E.
  - injection E as <- <-. cbn. split; [done|]. repeat split; constructor.
  - destruct (apk_balloc_aligned malloc ba size align) as [[ba1 ptr]|] eqn:Ea; [|done].
    destruct (balloc_run malloc ba1 reqs) as [[ba2 ptrs']|] eqn:Er; [|done].
    injection E as <- <-.
    destruct (apk_balloc_aligned_ok _ _ _ _ _ _ Hok Hq Ea) as (Hok1 & Hal & Hd).
    destruct (IH ba1 ((ptr, size) :: allocs) ptrs' Hok1 Er) as (H1 & H2 & H3 & H4).
    cbn. rewrite <- app_assoc. split; [exact H1|]. split; [by constructor|].
    assert (H3' := H3). rewrite Forall_forall in H3.
    split.
    + constructor; [done|]. apply Forall_forall. intros x Hx. specialize (H3 x Hx).
      by inversion H3.
    + constructor; [|done]. apply Forall_forall. intros x Hx. specialize (H3 x Hx).
      inversion H3; subst. by apply disjoint_sym.
Qed.
End BallocOk.

(** Over any sequence of allocations of C objects (sizes below 2^60, alignment at most
    8) from a fresh bump allocator, each result is aligned as asked, lies within memory
    obtained from malloc, and no two results overlap. *)
Theorem apk_balloc_disjoint malloc n reqs ba ptrs :
  MallocOk malloc -> 0 <= n < 2 ^ 60 -> Forall request_ok reqs ->
  balloc_run malloc (apk_balloc_init n) reqs = Some (ba, ptrs) ->
  let allocs := zip ptrs (fst <$> reqs) in
  Forall2 (fun ptr r => ptr mod r.2 = 0) ptrs reqs /\
  Forall (fun a => exists p, p ∈ pages_head ba /\ block_within a p) allocs /\
  ForallOrdPairs disjoint_blocks allocs.
Proof.
  intros Hm Hn Hr E.
  destruct (balloc_run_ok malloc (apk_balloc_init n) [] reqs ba ptrs) as (Hok & Hal & _ & Hd);
    [by apply balloc_init_ok|done|done|].
  split; [done|]. split; [|done]. pose proof (bo_in _ _ Hok) as Hin.
  rewrite app_nil_r in Hin. apply Forall_rev in Hin. by rewrite rev_involutive in Hin.
Qed.

(** A malloc that hands out increasing addresses, as far as the address space reaches. *)
Definition bump_malloc (live : list block) (n : Z) : option Z :=
  let top := fold_right (fun b m => Z.max (b.1 + b.2) m) 0 live in
  let r := (top / 16 + 1) * 16 in
  if (0 <=? n) && (r + n <=? 2 ^ 63) then Some r else None.

#[export] Instance bump_malloc_ok : MallocOk bump_malloc.
Proof.
  assert (Htop : forall live, 0 <= fold_right (fun b m => Z.max (b.1 + b.2) m) 0 live /\
    Forall (fun b : block => b.1 + b.2 <= fold_right (fun b m => Z.max (b.1 + b.2) m) 0 live) live).
  { induction live as [|b live [IH1 IH2]]; [done|]. cbn. split; [lia|]. constructor; [lia|].
    revert IH2. apply Forall_impl. cbn. lia. }
  split; intros live n r E; unfold bump_malloc in E; case_test; try done; injection E as <-;
    reflect_tests; destruct (Htop live) as [H1 H2].
  - apply Z_mod_mult.
  - split; [div_mod_lia|done].
  - revert H2. apply Forall_impl. intros b Hb. right. cbn [fst snd]. div_mod_lia.
Qed.

Lemma apk_balloc_disjoint_witness :
  let run := balloc_run bump_malloc (apk_balloc_init 64) [(3, 1); (40, 8); (40, 8); (1, 1)] in
  snd <$> run = Some [24; 32; 104; 144] /\
  ForallOrdPairs disjoint_blocks [(24, 3); (32, 40); (104, 40); (144, 1)].
Proof.
  split; [vm_compute; reflexivity|].
  eapply (apk_balloc_disjoint bump_malloc 64 [(3, 1); (40, 8); (40, 8); (1, 1)] _ [24; 32; 104; 144]);
    [exact _|lia| |vm_compute; reflexivity].
  repeat constructor; cbn; try lia; [exists 0|exists 3|exists 3|exists 0]; split; lia || done.
Defined.
