(* ===== verification/Hash.v ===== *)
(** Hash tables (hash.c, apk_hash.h).

    A table is an array of buckets, each a singly linked list with the newest item first; the
    table type is generic in the items it links and in the keys, and is used through a record
    of operations.  What a user must guarantee about the operations is the class
    [HashOpsOk]; the tables of the program are instances of it.  The abstract contract is a
    map from keys to stacks of items: insertion pushes, lookup reads the top, deletion pops. *)
From Stdlib Require Import ZArith Lia String.
From stdpp Require Import base numbers list option.
From S2P Require Import Prelude Clib Blob.

Section Hash.
Context {Item Key : Type}.

(** A field is [None] where the C structure leaves the function pointer NULL. *)
Record apk_hash_ops := HashOps {
  get_key : option (Item -> Key);
  hash_key : Key -> Z;
  hash_item : option (Item -> Z);
  compare : option (Key -> Key -> Z);
  compare_item : option (Item -> Key -> Z);
}.

Record apk_hash := Hash { buckets : list (list Item); num_items : Z }.

Definition apk_hash_init (num_buckets : Z) : apk_hash :=
  Hash (replicate (Z.to_nat num_buckets) []) 0.

Section Ops.
Context (ops : apk_hash_ops).

Definition apk_hash_from_key (key : Key) : Z := hash_key ops key.

Definition apk_hash_from_item (i : Item) : option Z :=
  match hash_item ops with
  | Some f => Some (f i)
  | None => match get_key ops with
            | Some g => Some (apk_hash_from_key (g i))
            | None => None
            end
  end.

(** The test of the lookup loops: compare_item, or compare on the item's key. *)
Definition item_matches (key : Key) (i : Item) : bool :=
  match compare_item ops with
  | Some c => c i key =? 0
  | None => match get_key ops, compare ops with
            | Some g, Some c => c key (g i) =? 0
            | _, _ => false
            end
  end.

Definition bucket_index (h : apk_hash) (hash : Z) : nat := Z.to_nat (hash mod zlen (buckets h)).
Definition bucket (h : apk_hash) (hash : Z) : list Item :=
  match buckets h !! bucket_index h hash with Some b => b | None => [] end.

Definition apk_hash_get_hashed (h : apk_hash) (key : Key) (hash : Z) : option Item :=
  List.find (item_matches key) (bucket h hash).

Definition apk_hash_insert_hashed (h : apk_hash) (i : Item) (hash : Z) : apk_hash :=
  Hash (<[bucket_index h hash := i :: bucket h hash]> (buckets h)) (num_items h + 1).

Fixpoint unlink_first (p : Item -> bool) (l : list Item) : option (list Item) :=
  match l with
  | [] => None
  | i :: l => if p i then Some l
              else match unlink_first p l with Some l => Some (i :: l) | None => None end
  end.

(** [None] is the failed assertion that the table has a compare_item. *)
Definition apk_hash_delete_hashed (h : apk_hash) (key : Key) (hash : Z) : option apk_hash :=
  match compare_item ops with
  | None => None
  | Some _ =>
      Some match unlink_first (item_matches key) (bucket h hash) with
           | None => h
           | Some b => Hash (<[bucket_index h hash := b]> (buckets h)) (num_items h - 1)
           end
  end.

Definition apk_hash_get (h : apk_hash) (key : Key) : option Item :=
  apk_hash_get_hashed h key (apk_hash_from_key key).

Definition apk_hash_insert (h : apk_hash) (i : Item) : option apk_hash :=
  match apk_hash_from_item i with
  | Some hash => Some (apk_hash_insert_hashed h i hash)
  | None => None
  end.
End Ops.

(** apk_hash_foreach with an enumerator [e] over a state: the first nonzero result of the
    enumerator ends the iteration. *)
Fixpoint foreach_items {S} (e : Item -> S -> S * Z) (l : list Item) (s : S) : S * Z :=
  match l with
  | [] => (s, 0)
  | i :: l => let '(s, r) := e i s in
              if negb (r =? 0) then (s, r) else foreach_items e l s
  end.

Fixpoint foreach_buckets {S} (e : Item -> S -> S * Z) (bs : list (list Item)) (s : S) : S * Z :=
  match bs with
  | [] => (s, 0)
  | b :: bs => let '(s, r) := foreach_items e b s in
               if negb (r =? 0) then (s, r) else foreach_buckets e bs s
  end.

Definition apk_hash_foreach {S} (h : apk_hash) (e : Item -> S -> S * Z) (s : S) : S * Z :=
  foreach_buckets e (buckets h) s.

Lemma foreach_items_app {S} (e : Item -> S -> S * Z) l k s :
  foreach_items e (l ++ k) s =
  let '(s', r) := foreach_items e l s in
  if negb (r =? 0) then (s', r) else foreach_items e k s'.
Proof.
  revert s. induction l as [|i l IH]; intros s; cbn; [done|].
  destruct (e i s) as [s' r]. destruct (Z.eqb_spec r 0) as [->|Hr]; cbn [negb]; [apply IH|].
  by apply Z.eqb_neq in Hr as ->.
Qed.

(** The enumeration visits every item once, bucket by bucket. *)
Lemma apk_hash_foreach_items {S} (h : apk_hash) (e : Item -> S -> S * Z) s :
  apk_hash_foreach h e s = foreach_items e (concat (buckets h)) s.
Proof.
  unfold apk_hash_foreach. generalize (buckets h). intros bs. revert s.
  induction bs as [|b bs IH]; intros s; cbn; [done|]. rewrite foreach_items_app.
  destruct (foreach_items e b s) as [s' r]. by case_test.
Qed.

(** ** Contract of the operations *)

Class HashOpsOk (ops : apk_hash_ops) (keyof : Item -> Key) : Prop := {
  ho_matches key i : item_matches ops key i = true <-> keyof i = key;
  ho_hash i : apk_hash_from_item ops i = Some (apk_hash_from_key ops (keyof i));
}.

Section Contract.
Context `{!EqDecision Key} (ops : apk_hash_ops) (keyof : Item -> Key) `{!HashOpsOk ops keyof}.

(** Every item is linked in the bucket of its hash, and the counter counts the items. *)
Record hash_ok (h : apk_hash) : Prop := {
  hk_buckets : buckets h <> [];
  hk_place n b i : buckets h !! n = Some b -> i ∈ b ->
                   n = bucket_index h (apk_hash_from_key ops (keyof i));
  hk_count : num_items h = zlen (concat (buckets h));
}.

(** The abstract table: the items of a key, newest first. *)
Definition bindings (h : apk_hash) (key : Key) : list Item :=
  filter (fun i => keyof i = key) (bucket h (apk_hash_from_key ops key)).

Lemma bucket_index_lt h hash : buckets h <> [] -> (bucket_index h hash < length (buckets h))%nat.
Proof.
  intros Hne. unfold bucket_index, zlen.
  assert (0 < Z.of_nat (length (buckets h))) by (destruct (buckets h); cbn; [done|lia]).
  pose proof (Z.mod_pos_bound hash (Z.of_nat (length (buckets h)))). lia.
Qed.

Lemma bucket_lookup h hash :
  buckets h <> [] -> buckets h !! bucket_index h hash = Some (bucket h hash).
Proof.
  intros Hne. unfold bucket. destruct (lookup_lt_is_Some_2 _ _ (bucket_index_lt h hash Hne)) as [b Hb].
  by rewrite Hb.
Qed.

Lemma find_head_filter (l : list Item) key :
  List.find (item_matches ops key) l = head (filter (fun i => keyof i = key) l).
Proof.
  induction l as [|i l IH]; [done|]. cbn [List.find]. rewrite filter_cons.
  pose proof (ho_matches key i) as Hm.
  destruct (item_matches ops key i), (decide (keyof i = key)); try done; exfalso;
    destruct Hm as [H1 H2]; [by apply n, H1|by discriminate H2].
Qed.

Lemma unlink_first_spec key l :
  match unlink_first (item_matches ops key) l with
  | None => filter (fun i => keyof i = key) l = []
  | Some l' => exists i, keyof i = key /\
      filter (fun i => keyof i = key) l = i :: filter (fun i => keyof i = key) l' /\
      (forall k, k <> key -> filter (fun i => keyof i = k) l' = filter (fun i => keyof i = k) l) /\
      Permutation l (i :: l')
  end.
Proof.
  induction l as [|i l IH]; [done|]. cbn [unlink_first]. pose proof (ho_matches key i) as Hm.
  destruct (item_matches ops key i).
  - exists i. destruct Hm as [Hm _]. specialize (Hm eq_refl). split; [done|].
    rewrite filter_cons_True by done. repeat split; try done.
    intros k Hk. by rewrite filter_cons_False by congruence.
  - assert (keyof i <> key) by (intros E; by apply Hm in E).
    destruct (unlink_first _ l) as [l'|].
    + destruct IH as (j & Hj & H1 & H2 & H3). exists j. split; [done|].
      rewrite !filter_cons_False by done. split; [done|]. split.
      * intros k Hk. rewrite !filter_cons. by rewrite H2.
      * rewrite H3. constructor.
    + by rewrite filter_cons_False.
Qed.

(** Replacing the bucket of [hash]. *)
Lemma bucket_index_set h hash b n hash' :
  bucket_index (Hash (<[bucket_index h hash := b]> (buckets h)) n) hash' = bucket_index h hash'.
Proof. unfold bucket_index. cbn [buckets]. unfold zlen. by rewrite length_insert. Qed.

Lemma bucket_set h hash b n hash' :
  buckets h <> [] ->
  bucket (Hash (<[bucket_index h hash := b]> (buckets h)) n) hash' =
  if decide (bucket_index h hash' = bucket_index h hash) then b else bucket h hash'.
Proof.
  intros Hne. unfold bucket. rewrite bucket_index_set. cbn [buckets].
  destruct (decide _) as [->|Hd].
  - by rewrite list_lookup_insert_eq by (by apply bucket_index_lt).
  - by rewrite list_lookup_insert_ne by done.
Qed.

Lemma concat_set (l : list (list Item)) n b b' :
  l !! n = Some b ->
  exists u v, concat l = u ++ b ++ v /\ concat (<[n := b']> l) = u ++ b' ++ v.
Proof.
  intros Hn. exists (concat (take n l)), (concat (drop (S n) l)).
  rewrite insert_take_drop by (apply lookup_lt_Some in Hn; done).
  rewrite <- (take_drop_middle l n b Hn) at 1.
  by rewrite !concat_app.
Qed.

(** Replacing a bucket keeps the invariant when its new items belong there and the counter
    follows. *)
Lemma hash_ok_set h hash b n :
  hash_ok h ->
  (forall i, i ∈ b -> bucket_index h (apk_hash_from_key ops (keyof i)) = bucket_index h hash) ->
  n = num_items h - zlen (bucket h hash) + zlen b ->
  hash_ok (Hash (<[bucket_index h hash := b]> (buckets h)) n).
Proof.
  intros Hok Hb Hn. pose proof (hk_buckets h Hok) as Hne.
  split.
  - cbn. intros E. apply (f_equal length) in E. rewrite length_insert in E.
    destruct (buckets h); done.
  - intros m c i Hm Hi. rewrite bucket_index_set. cbn in Hm.
    apply list_lookup_insert_Some in Hm as [(<- & <- & _)|(_ & Hm)].
    + symmetry. by apply Hb.
    + by apply (hk_place h Hok m c).
  - cbn [num_items buckets].
    destruct (concat_set (buckets h) (bucket_index h hash) (bucket h hash) b) as (u & v & E1 & E2);
      [by apply bucket_lookup|].
    rewrite E2, Hn, (hk_count h Hok), E1, !zlen_app. lia.
Qed.

Lemma bucket_place h hash i :
  hash_ok h -> i ∈ bucket h hash ->
  bucket_index h (apk_hash_from_key ops (keyof i)) = bucket_index h hash.
Proof.
  intros Hok Hi. symmetry. apply (hk_place h Hok _ (bucket h hash)); [|done].
  apply bucket_lookup, (hk_buckets h Hok).
Qed.

Lemma apk_hash_init_ok n : 0 < n -> hash_ok (apk_hash_init n).
Proof.
  intros Hn. split; cbn.
  - intros E. apply (f_equal length) in E. rewrite length_replicate in E. cbn in E. lia.
  - intros m b i Hm Hi. apply lookup_replicate in Hm as [-> _]. by apply elem_of_nil in Hi.
  - assert (Hc : forall k, concat (replicate k (@nil Item)) = []) by (induction k; done).
    by rewrite Hc.
Qed.

Lemma apk_hash_insert_ok h i :
  hash_ok h -> hash_ok (apk_hash_insert_hashed h i (apk_hash_from_key ops (keyof i))).
Proof.
  intros Hok. apply hash_ok_set; [done| |rewrite zlen_cons; lia].
  intros j Hj. apply elem_of_cons in Hj as [->|Hj]; [done|]. by apply bucket_place.
Qed.

Lemma apk_hash_insert_bindings h i key :
  hash_ok h ->
  bindings (apk_hash_insert_hashed h i (apk_hash_from_key ops (keyof i))) key =
  if decide (keyof i = key) then i :: bindings h key else bindings h key.
Proof.
  intros Hok. unfold bindings, apk_hash_insert_hashed.
  rewrite bucket_set by apply (hk_buckets h Hok).
  destruct (decide (keyof i = key)) as [<-|Hk].
  - rewrite decide_True by done. by rewrite filter_cons_True.
  - destruct (decide _) as [E|E]; [|done]. rewrite filter_cons_False by done.
    unfold bucket. by rewrite E.
Qed.

Lemma apk_hash_delete_spec h key h' :
  hash_ok h -> apk_hash_delete_hashed ops h key (apk_hash_from_key ops key) = Some h' ->
  hash_ok h' /\ bindings h' key = tail (bindings h key) /\
  (forall k, k <> key -> bindings h' k = bindings h k) /\
  num_items h' = num_items h - match bindings h key with [] => 0 | _ => 1 end.
Proof.
  intros Hok E. unfold apk_hash_delete_hashed in E. destruct (compare_item ops); [|done].
  injection E as <-. pose proof (hk_buckets h Hok) as Hne.
  pose proof (unlink_first_spec key (bucket h (apk_hash_from_key ops key))) as Hu.
  unfold bindings. destruct (unlink_first _ _) as [b|].
  - destruct Hu as (i & Hi & H1 & H2 & H3).
    assert (Hlen : zlen (bucket h (apk_hash_from_key ops key)) = zlen b + 1).
    { unfold zlen. rewrite H3. cbn [length]. lia. }
    rewrite !bucket_set by done. rewrite decide_True, H1 by done. cbn [tail num_items].
    split; [|split; [done|split; [|lia]]].
    + apply hash_ok_set; [done| |lia]. intros j Hj. apply bucket_place; [done|].
      rewrite H3. by right.
    + intros k Hk. rewrite bucket_set by done. destruct (decide _) as [Ei|]; [|done].
      rewrite H2 by done. unfold bucket. by rewrite Ei.
  - rewrite Hu. split; [done|]. split; [done|]. split; [done|]. lia.
Qed.

Lemma apk_hash_get_spec h key :
  apk_hash_get ops h key = head (bindings h key).
Proof. unfold apk_hash_get, apk_hash_get_hashed, bindings. apply find_head_filter. Qed.

(** Lookup finds an item of the key exactly when the table links one. *)
Lemma apk_hash_get_some h key i : apk_hash_get ops h key = Some i -> keyof i = key /\ i ∈ concat (buckets h).
Proof.
  rewrite apk_hash_get_spec. intros Hh.
  assert (Hi : i ∈ bindings h key) by (destruct (bindings h key); [done|injection Hh as ->; by left]).
  unfold bindings in Hi. apply list_elem_of_filter in Hi as [Hk Hi]. split; [done|].
  unfold bucket in Hi. destruct (buckets h !! _) as [b|] eqn:E; [|by apply elem_of_nil in Hi].
  apply list_elem_of_In, in_concat. exists b. split; apply list_elem_of_In; [|done].
  by apply list_elem_of_lookup_2 in E.
Qed.

Lemma elem_of_bindings h i :
  hash_ok h -> i ∈ concat (buckets h) -> i ∈ bindings h (keyof i).
Proof.
  intros Hok Hi. apply list_elem_of_In, in_concat in Hi as (b & Hb & Hi).
  apply list_elem_of_In in Hb, Hi. apply list_elem_of_lookup_1 in Hb as [n Hn].
  pose proof (hk_place h Hok n b i Hn Hi) as ->.
  unfold bindings. apply list_elem_of_filter. split; [done|]. unfold bucket. by rewrite Hn.
Qed.

Lemma apk_hash_get_none h key i :
  hash_ok h -> apk_hash_get ops h key = None -> i ∈ concat (buckets h) -> keyof i <> key.
Proof.
  rewrite apk_hash_get_spec. intros Hok Hh Hi <-. pose proof (elem_of_bindings h i Hok Hi) as Hb.
  destruct (bindings h (keyof i)); [by apply elem_of_nil in Hb|done].
Qed.
End Contract.
End Hash.
Arguments apk_hash_ops Item Key : clear implicits.
Arguments apk_hash Item : clear implicits.

(** C39: A hash table whose operations meet their contract implements a map from keys to
    stacks of items: it starts empty, lookup returns the newest item of the key, insertion
    pushes the item on the stack of its key and leaves every other key alone, deletion pops
    the stack of the key and leaves every other key alone, each keeps the placement and
    counting invariant, and the enumeration visits exactly the items bound to some key. *)
Theorem apk_hash_refines_map {Item Key} `{!EqDecision Key} (ops : apk_hash_ops Item Key) keyof :
  HashOpsOk ops keyof ->
  (forall n, 0 < n -> hash_ok ops keyof (apk_hash_init n)) /\
  forall h, hash_ok ops keyof h ->
    (forall key, apk_hash_get ops h key = head (bindings ops keyof h key)) /\
    (forall i, exists h', apk_hash_insert ops h i = Some h' /\ hash_ok ops keyof h' /\
       num_items h' = num_items h + 1 /\
       forall key, bindings ops keyof h' key =
         if decide (keyof i = key) then i :: bindings ops keyof h key else bindings ops keyof h key) /\
    (forall key h', apk_hash_delete_hashed ops h key (apk_hash_from_key ops key) = Some h' ->
       hash_ok ops keyof h' /\
       forall k, bindings ops keyof h' k =
         if decide (k = key) then tail (bindings ops keyof h key) else bindings ops keyof h k) /\
    (forall i, i ∈ concat (buckets h) <-> i ∈ bindings ops keyof h (keyof i)).
Proof.
  intros Hops. split; [intros; by apply apk_hash_init_ok|]. intros h Hok.
  split; [intros; by apply apk_hash_get_spec|].
  split; [|split].
  - intros i. unfold apk_hash_insert. rewrite (ho_hash i). eexists. split; [done|].
    split; [by apply apk_hash_insert_ok|]. split; [done|].
    intros key. by apply apk_hash_insert_bindings.
  - intros key h' E. destruct (apk_hash_delete_spec ops keyof h key h' Hok E) as (H1 & H2 & H3 & _).
    split; [done|]. intros k. destruct (decide (k = key)) as [->|]; auto.
  - intros i. split; [by apply elem_of_bindings|]. intros Hb.
    destruct (bindings ops keyof h (keyof i)) as [|j l] eqn:E; [by apply elem_of_nil in Hb|].
    rewrite <- E in Hb. unfold bindings in Hb. apply list_elem_of_filter in Hb as [_ Hb].
    unfold bucket in Hb. destruct (buckets h !! _) as [b|] eqn:Eb; [|by apply elem_of_nil in Hb].
    apply list_elem_of_In, in_concat. exists b. split; apply list_elem_of_In; [|done].
    by apply list_elem_of_lookup_2 in Eb.
Qed.

(** A table of blobs under their own bytes, as the atom pool keeps. *)
Definition blob_key_ops : apk_hash_ops bytes bytes :=
  HashOps (Some id) apk_blob_hash None (Some (fun a b => apk_blob_compare (Some a) (Some b))) None.

#[export] Instance blob_key_ops_ok : HashOpsOk blob_key_ops id.
Proof.
  split; [|done]. intros key i. unfold item_matches. cbn. rewrite Z.eqb_eq, apk_blob_compare_eq.
  split; by intros ->.
Qed.

Lemma apk_hash_refines_map_witness :
  exists h', apk_hash_insert blob_key_ops (apk_hash_init 10000) (bs "musl") = Some h' /\
    apk_hash_get blob_key_ops h' (bs "musl") = Some (bs "musl").
Proof.
  destruct (apk_hash_refines_map blob_key_ops id blob_key_ops_ok) as [Hinit Hops].
  destruct (Hops (apk_hash_init 10000) (Hinit 10000 ltac:(lia))) as (_ & Hins & _).
  destruct (Hins (bs "musl")) as (h' & E & Hok & _ & Hb). exists h'. split; [done|].
  destruct (Hops h' Hok) as (Hget & _). rewrite Hget, Hb. reflexivity.
Defined.
