(* ===== verification/Atom.v ===== *)
(** Atoms (atom.c): interned byte strings, so that later code compares them by pointer.

    The pool allocates nodes with the bump allocator and links them in a hash table; an atom
    is the address of the blob inside its node, or the address of the static [apk_atom_null].
    The results are what lets the rest of the development represent an atom by the bytes it
    points to. *)
From Stdlib Require Import ZArith Lia String.
From stdpp Require Import base numbers list option.
From S2P Require Import Prelude Clib Blob Balloc Hash.

Record apk_atom_hashnode := AtomNode { node_addr : Z; node_blob : bytes }.

(** sizeof(struct apk_atom_hashnode) and offsetof(.., blob). *)
Definition sizeof_hashnode : Z := 24.
Definition offsetof_blob : Z := 8.

Inductive atom_ptr := apk_atom_null | AtomAt (addr : Z).

#[export] Instance atom_ptr_eq_dec : EqDecision atom_ptr.
Proof. solve_decision. Defined.

Record apk_atom_pool := Pool { pool_ba : apk_balloc; pool_hash : apk_hash apk_atom_hashnode }.

Definition atom_ops : apk_hash_ops apk_atom_hashnode bytes :=
  HashOps (Some node_blob) apk_blob_hash None
          (Some (fun a b => apk_blob_compare (Some a) (Some b))) None.

#[export] Instance atom_ops_ok : HashOpsOk atom_ops node_blob.
Proof.
  split; [|done]. intros key i. unfold item_matches. cbn. rewrite Z.eqb_eq, apk_blob_compare_eq.
  split; by intros ->.
Qed.

Definition apk_atom_init (ba : apk_balloc) : apk_atom_pool := Pool ba (apk_hash_init 10000).

Section Atom.
Context (malloc : list block -> Z -> option Z).

Definition apk_atomize_dup (atoms : apk_atom_pool) (b : blob) : option (apk_atom_pool * atom_ptr) :=
  let l := blob_data b in
  let hash := apk_hash_from_key atom_ops l in
  if (zlen l <=? 0) || APK_BLOB_IS_NULL b then Some (atoms, apk_atom_null)
  else match apk_hash_get_hashed atom_ops (pool_hash atoms) l hash with
       | Some atom => Some (atoms, AtomAt (node_addr atom + offsetof_blob))
       | None =>
           match apk_balloc_aligned malloc (pool_ba atoms) (sizeof_hashnode + zlen l) 8 with
           | None => None
           | Some (ba, ptr) =>
               Some (Pool ba (apk_hash_insert_hashed (pool_hash atoms) (AtomNode ptr l) hash),
                     AtomAt (ptr + offsetof_blob))
           end
       end.

(** A sequence of calls. *)
Fixpoint atomize_all (atoms : apk_atom_pool) (l : list blob) : option (apk_atom_pool * list atom_ptr) :=
  match l with
  | [] => Some (atoms, [])
  | b :: l => match apk_atomize_dup atoms b with
              | None => None
              | Some (atoms, a) => match atomize_all atoms l with
                                   | None => None
                                   | Some (atoms, s) => Some (atoms, a :: s)
                                   end
              end
  end.
End Atom.

Definition atoms_of (p : apk_atom_pool) : list apk_atom_hashnode := concat (buckets (pool_hash p)).

(** What an atom points to. *)
Definition atom_read (p : apk_atom_pool) (a : atom_ptr) : option bytes :=
  match a with
  | apk_atom_null => Some []
  | AtomAt addr => node_blob <$> List.find (fun n => node_addr n + offsetof_blob =? addr) (atoms_of p)
  end.

Definition node_block (n : apk_atom_hashnode) : block :=
  (node_addr n, sizeof_hashnode + zlen (node_blob n)).

(** The table is well formed, holds each string once, none of them empty, and its nodes are
    distinct allocations. *)
Record pool_ok (p : apk_atom_pool) (allocs : list block) : Prop := {
  po_hash : hash_ok atom_ops node_blob (pool_hash p);
  po_balloc : balloc_ok (pool_ba p) allocs;
  po_nodes : Forall (fun n => node_block n ∈ allocs) (atoms_of p);
  po_addr : NoDup (node_addr <$> atoms_of p);
  po_key : NoDup (node_blob <$> atoms_of p);
  po_nonempty : Forall (fun n => node_blob n <> []) (atoms_of p);
}.

(** The nodes after an insertion, up to the order of the buckets. *)
Lemma atoms_insert p n hash ba :
  buckets (pool_hash p) <> [] ->
  Permutation (atoms_of (Pool ba (apk_hash_insert_hashed (pool_hash p) n hash))) (n :: atoms_of p).
Proof.
  intros Hne. unfold atoms_of. cbn.
  destruct (concat_set (buckets (pool_hash p)) _ _ (n :: bucket (pool_hash p) hash)
              (bucket_lookup (pool_hash p) hash Hne)) as (u & v & E1 & E2).
  rewrite E2, E1. symmetry. apply Permutation_middle.
Qed.

Lemma atom_read_at p allocs n :
  pool_ok p allocs -> n ∈ atoms_of p ->
  atom_read p (AtomAt (node_addr n + offsetof_blob)) = Some (node_blob n).
Proof.
  intros Hok Hn. cbn. pose proof (po_addr _ _ Hok) as Hnd.
  induction (atoms_of p) as [|m l IH]; [by apply elem_of_nil in Hn|].
  cbn. apply list.NoDup_cons in Hnd as [Hm Hnd].
  destruct (Z.eqb_spec (node_addr m + offsetof_blob) (node_addr n + offsetof_blob)) as [E|E].
  - apply elem_of_cons in Hn as [->|Hn]; [done|]. exfalso. apply Hm.
    replace (node_addr m) with (node_addr n) by lia. by apply list_elem_of_fmap_2.
  - apply elem_of_cons in Hn as [->|Hn]; [done|]. by apply IH.
Qed.

Lemma atom_read_inv p addr x :
  atom_read p (AtomAt addr) = Some x ->
  exists n, n ∈ atoms_of p /\ node_addr n + offsetof_blob = addr /\ node_blob n = x.
Proof.
  cbn. intros H. destruct (List.find _ _) as [n|] eqn:E; [|done].
  apply find_some in E as [Hn Ha]. apply Z.eqb_eq in Ha. injection H as <-.
  exists n. split; [by apply list_elem_of_In|done].
Qed.

(** Two atoms of a well-formed pool with the same bytes are the same pointer. *)
Lemma atom_read_inj p allocs a b x :
  pool_ok p allocs -> atom_read p a = Some x -> atom_read p b = Some x -> a = b.
Proof.
  intros Hok Ha Hb. pose proof (po_nonempty _ _ Hok) as Hne. rewrite Forall_forall in Hne.
  destruct a as [|aa], b as [|ab]; [done| | |].
  - injection Ha as <-. apply atom_read_inv in Hb as (n & Hn & _ & Hx).
    by apply list_elem_of_In, Hne in Hn.
  - injection Hb as <-. apply atom_read_inv in Ha as (n & Hn & _ & Hx).
    by apply list_elem_of_In, Hne in Hn.
  - apply atom_read_inv in Ha as (n & Hn & <- & Hx). apply atom_read_inv in Hb as (m & Hm & <- & Hy).
    pose proof (po_key _ _ Hok) as Hk.
    assert (n = m) as ->; [|done].
    apply list_elem_of_lookup_1 in Hn as [i Hi]. apply list_elem_of_lookup_1 in Hm as [j Hj].
    assert (i = j) as ->; [|congruence].
    eapply NoDup_lookup; [exact Hk|by rewrite list_lookup_fmap, Hi|].
    rewrite list_lookup_fmap, Hj. cbn. congruence.
Qed.

Section AtomOk.
Context (malloc : list block -> Z -> option Z) `{!MallocOk malloc}.

(** A new node: the invariant is kept and all atoms keep their bytes. *)
Lemma pool_ok_insert p allocs l ba ptr :
  pool_ok p allocs -> 0 < zlen l < 2 ^ 59 -> apk_hash_get atom_ops (pool_hash p) l = None ->
  apk_balloc_aligned malloc (pool_ba p) (sizeof_hashnode + zlen l) 8 = Some (ba, ptr) ->
  pool_ok (Pool ba (apk_hash_insert_hashed (pool_hash p) (AtomNode ptr l) (apk_hash_from_key atom_ops l)))
          ((ptr, sizeof_hashnode + zlen l) :: allocs).
Proof.
  intros Hok Hl Hnone Ha. pose proof Hok as [Hh Hb Hn Haddr Hkey Hne].
  assert (Hreq : request_ok (sizeof_hashnode + zlen l, 8)).
  { split; [unfold sizeof_hashnode; cbn [fst]; lia|by exists 3]. }
  destruct (apk_balloc_aligned_ok malloc _ _ _ _ _ _ Hb Hreq Ha) as (Hb' & _ & Hdis).
  pose proof (atoms_insert p (AtomNode ptr l) (apk_hash_from_key atom_ops l) ba (hk_buckets _ _ _ Hh)) as Hperm.
  set (p' := Pool ba _) in *.
  split; try done.
  - by apply (apk_hash_insert_ok atom_ops node_blob _ (AtomNode ptr l)).
  - rewrite Hperm. constructor; [by left|]. revert Hn. apply Forall_impl. intros n Hin. by right.
  - rewrite Hperm. cbn. apply list.NoDup_cons. split; [|done]. intros Hin.
    apply list_elem_of_fmap in Hin as (n & Hptr & Hin). cbn in Hptr.
    rewrite Forall_forall in Hn, Hdis. apply list_elem_of_In, Hn, list_elem_of_In, Hdis in Hin.
    unfold disjoint_blocks, node_block, sizeof_hashnode in Hin. cbn in Hin.
    pose proof (zlen_nonneg (node_blob n)). lia.
  - rewrite Hperm. cbn. apply list.NoDup_cons. split; [|done]. intros Hin.
    apply list_elem_of_fmap in Hin as (n & Hk & Hin). cbn in Hk.
    by apply (apk_hash_get_none atom_ops node_blob (pool_hash p) l n Hh Hnone Hin).
  - rewrite Hperm. constructor; [|done]. cbn. intros E. rewrite E in Hl. unfold zlen in Hl. cbn [length] in Hl. lia.
Qed.

Lemma apk_atomize_dup_ok p allocs b p' a :
  pool_ok p allocs -> blob_len b < 2 ^ 59 -> apk_atomize_dup malloc p b = Some (p', a) ->
  (exists allocs', pool_ok p' allocs') /\ atom_read p' a = Some (blob_data b) /\
  forall c x, atom_read p c = Some x -> atom_read p' c = Some x.
Proof.
  intros Hok Hl E. unfold apk_atomize_dup in E. unfold blob_len in Hl.
  set (l := blob_data b) in *. pose proof (zlen_nonneg l).
  destruct ((zlen l <=? 0) || APK_BLOB_IS_NULL b) eqn:E0.
  { injection E as <- <-. split; [by exists allocs|]. split; [|done]. cbn. f_equal.
    symmetry. apply orb_true_iff in E0 as [E0|E0]; [apply zlen_0_nil; lia|].
    subst l. by destruct b. }
  apply orb_false_iff in E0 as [E0 _]. reflect_tests.
  fold (apk_hash_get atom_ops (pool_hash p) l) in E.
  destruct (apk_hash_get atom_ops (pool_hash p) l) as [n|] eqn:Eg.
  - injection E as <- <-. destruct (apk_hash_get_some atom_ops node_blob _ _ _ Eg) as [<- Hin].
    split; [by exists allocs|]. split; [|done]. by apply (atom_read_at p allocs).
  - destruct (apk_balloc_aligned _ _ _ _) as [[ba ptr]|] eqn:Ea; [|done]. injection E as <- <-.
    pose proof (pool_ok_insert p allocs l ba ptr Hok ltac:(lia) Eg Ea) as Hok'.
    pose proof (atoms_insert p (AtomNode ptr l) (apk_hash_from_key atom_ops l) ba
                  (hk_buckets _ _ _ (po_hash _ _ Hok))) as Hperm.
    split; [by eexists|]. split.
    + apply (atom_read_at _ _ (AtomNode ptr l) Hok'). rewrite Hperm. by left.
    + intros [|addr] x Hx; [done|]. apply atom_read_inv in Hx as (n & Hn & <- & <-).
      apply (atom_read_at _ _ n Hok'). rewrite Hperm. by right.
Qed.

Lemma atomize_all_ok p allocs l p' atoms :
  pool_ok p allocs -> Forall (fun b => blob_len b < 2 ^ 59) l ->
  atomize_all malloc p l = Some (p', atoms) ->
  (exists allocs', pool_ok p' allocs') /\
  Forall2 (fun a b => atom_read p' a = Some (blob_data b)) atoms l /\
  forall c x, atom_read p c = Some x -> atom_read p' c = Some x.
Proof.
  intros Hok Hl. revert p allocs atoms Hok. induction Hl as [|b l Hb Hl IH]; intros p allocs atoms Hok E;
    cbn [atomize_all] in E.
  - injection E as <- <-. split; [by exists allocs|]. by split.
  - destruct (apk_atomize_dup malloc p b) as [[p1 a]|] eqn:E1; [|done].
    destruct (atomize_all malloc p1 l) as [[p2 s]|] eqn:E2; [|done]. injection E as <- <-.
    destruct (apk_atomize_dup_ok _ _ _ _ _ Hok Hb E1) as ([allocs1 Hok1] & Hr & Hk).
    destruct (IH p1 allocs1 s Hok1 E2) as (Hok2 & Hs & Hk2).
    split; [done|]. split; [constructor; [by apply Hk2|done]|]. intros c x Hc. by apply Hk2, Hk.
Qed.
End AtomOk.

Lemma apk_atom_init_ok n : 0 <= n < 2 ^ 60 -> pool_ok (apk_atom_init (apk_balloc_init n)) [].
Proof.
  intros Hn. assert (H0 : atoms_of (apk_atom_init (apk_balloc_init n)) = []) by (vm_compute; reflexivity).
  split; rewrite ?H0; [by apply apk_hash_init_ok|by apply balloc_init_ok|constructor..].
Qed.

(** Interning: over any sequence of apk_atomize_dup calls on a fresh pool, each returned
    atom points to the bytes it was made from, also after all later calls, and two returned
    atoms are the same pointer exactly when the bytes are the same; the empty and the NULL
    blob give the same atom. *)
Theorem apk_atomize_interns malloc n l p atoms :
  MallocOk malloc -> 0 <= n < 2 ^ 60 -> Forall (fun b => blob_len b < 2 ^ 59) l ->
  atomize_all malloc (apk_atom_init (apk_balloc_init n)) l = Some (p, atoms) ->
  Forall2 (fun a b => atom_read p a = Some (blob_data b)) atoms l /\
  forall i j a b x y, atoms !! i = Some a -> atoms !! j = Some b -> l !! i = Some x -> l !! j = Some y ->
    a = b <-> blob_data x = blob_data y.
Proof.
  intros Hm Hn Hl E.
  destruct (atomize_all_ok malloc _ _ _ _ _ (apk_atom_init_ok n Hn) Hl E) as ([allocs Hok] & Hall & _).
  split; [done|]. intros i j a b x y Ha Hb Hx Hy.
  pose proof (Forall2_lookup_lr _ _ _ _ _ _ Hall Ha Hx) as Hrx.
  pose proof (Forall2_lookup_lr _ _ _ _ _ _ Hall Hb Hy) as Hry. cbn in Hrx, Hry. split.
  - intros ->. congruence.
  - intros Exy. apply (atom_read_inj p allocs a b (blob_data x) Hok); congruence.
Qed.

Lemma apk_atomize_interns_witness :
  exists p, atomize_all bump_malloc (apk_atom_init (apk_balloc_init 4096))
      [Some (bs "x86_64"); Some (bs "MIT"); None; Some (bs "x86_64")] =
      Some (p, [AtomAt 32; AtomAt 64; apk_atom_null; AtomAt 32]) /\
    atom_read p (AtomAt 64) = Some (bs "MIT").
Proof.
  eexists. split; [vm_compute; reflexivity|].
  destruct (apk_atomize_interns bump_malloc 4096 [Some (bs "x86_64"); Some (bs "MIT"); None; Some (bs "x86_64")]
    _ [AtomAt 32; AtomAt 64; apk_atom_null; AtomAt 32] _ ltac:(lia)
    ltac:(repeat constructor) ltac:(vm_compute; reflexivity)) as [H _].
  exact (Forall2_lookup_lr _ _ _ 1%nat _ _ H eq_refl eq_refl).
Defined.
