(* ===== verification/Dep.v ===== *)
(** Dependencies (package.c, apk_package.h) and the repository tags they may carry
    (database.c): parsing, printing and editing dependency lists.

    Names and versions are interned (Atom.v), so they are represented by their bytes and a
    pointer comparison by equality of bytes; the empty version is [apk_atom_null], which is
    not a NULL blob.  Names hold no NUL byte. *)
From Stdlib Require Import ZArith Lia Ascii String.
From stdpp Require Import base numbers list option.
From S2P Require Import Prelude Clib Blob Codec Ctype Version.

(** Error codes of apk_defines.h. *)
Definition APKE_FIRST_VALUE : Z := 1024.
Definition APKE_FORMAT_INVALID : Z := APKE_FIRST_VALUE + 33.
Definition APKE_FORMAT_NOT_SUPPORTED : Z := APKE_FIRST_VALUE + 35.
Definition APKE_PKGVERSION_FORMAT : Z := APKE_FIRST_VALUE + 37.
Definition APKE_DEPENDENCY_FORMAT : Z := APKE_FIRST_VALUE + 38.
Definition APKE_V2PKG_FORMAT : Z := APKE_FIRST_VALUE + 50.
Definition APKE_PACKAGE_NAME_SPEC : Z := APKE_FIRST_VALUE + 54.

(** struct apk_dependency, its bit fields at their width. *)
Record apk_dependency := Dep {
  dep_name : bytes;
  dep_version : bytes;
  dep_op : Z;
  dep_broken : bool;
  dep_repository_tag : Z;
  dep_layer : Z;
}.

#[export] Instance apk_dependency_eq_dec : EqDecision apk_dependency.
Proof. solve_decision. Defined.

Definition apk_dep_conflict (dep : apk_dependency) : bool :=
  negb (dep_op dep .& APK_VERSION_CONFLICT =? 0).

(** ** Repository tags *)

Definition APK_MAX_TAGS : Z := 16.
Definition APK_DEFAULT_REPOSITORY_TAG : Z := 0.

Record apk_repository_tag := RepoTag { allowed_repos : Z; tag_text : bytes; plain_name : bytes }.

(** The entries of db->repo_tags in use; entry 0 is the default (untagged) repository. *)
Abbreviation repo_tags := (list apk_repository_tag).
Definition repo_tags_init : repo_tags := [RepoTag 0 [] []].

Fixpoint find_tag (sel : apk_repository_tag -> bytes) (tags : repo_tags) (i : Z) (tag : bytes) : option Z :=
  match tags with
  | [] => None
  | t :: tags => if apk_blob_compare (Some (sel t)) (Some tag) =? 0 then Some i
                 else find_tag sel tags (i + 1) tag
  end.

(** The first byte of an empty tag lies outside the tag; it is taken not to be an '@'. *)
Definition starts_at (tag : bytes) : bool := match tag with c :: _ => c =? chr "@" | [] => false end.

Definition apk_db_get_tag_id (tags : repo_tags) (tag : blob) : repo_tags * Z :=
  match tag with
  | None => (tags, APK_DEFAULT_REPOSITORY_TAG)
  | Some t =>
      match find_tag (if starts_at t then tag_text else plain_name) (tail tags) 1 t with
      | Some i => (tags, i)
      | None =>
          let i := Z.max 1 (zlen tags) in
          if APK_MAX_TAGS <=? i then (tags, -1)
          else
            let full := if starts_at t then t else chr "@" :: t in
            (tags ++ [RepoTag 0 full (blob_data (apk_blob_pull_char (Some full) (chr "@")))], i)
      end
  end.

(** ** Parsing *)

Definition apk_dep_parse (spec : blob) : option (bytes * Z * blob) :=
  match spec with
  | None => None
  | Some spec =>
      let '(op, spec) := match apk_blob_pull_blob_match spec (bs "!") with
                         | Some spec => (APK_VERSION_CONFLICT, spec)
                         | None => (0, spec)
                         end in
      let '(found, name, bop) := apk_blob_cspn spec APK_CTYPE_DEPENDENCY_COMPARER in
      if found then
        let '(more, bop, version) := apk_blob_spn bop APK_CTYPE_DEPENDENCY_COMPARER in
        if negb more then None
        else
          let op := op .| apk_version_result_mask_blob bop in
          if op .& Z.lnot APK_VERSION_CONFLICT =? 0 then None
          else Some (name, op, Some version)
      else Some (spec, op .| APK_DEPMASK_ANY, APK_BLOB_NULL)
  end.

(** The result: the rest of the input, the tags, and the dependency or NULL. *)
Definition apk_blob_pull_dep (b : blob) (tags : repo_tags) (allow_tag : bool)
    : blob * repo_tags * option apk_dependency :=
  match b with
  | None => (None, tags, None)
  | Some l =>
      let '(_, bdep, rest) := apk_blob_cspn l APK_CTYPE_DEPENDENCY_SEPARATOR in
      let '(_, _, rest) := apk_blob_spn rest APK_CTYPE_DEPENDENCY_SEPARATOR in
      match apk_dep_parse (Some bdep) with
      | None => (None, tags, None)
      | Some (bname, op, bver) =>
          let broken := negb (op .& APK_DEPMASK_CHECKSUM =? APK_DEPMASK_CHECKSUM)
                        && negb (apk_version_validate (blob_data bver)) in
          match apk_blob_split (Some bname) (bs "@") with
          | Some (bname, btag) =>
              if negb allow_tag then (None, tags, None)
              else
                let '(tags, tag) := apk_db_get_tag_id tags (Some btag) in
                (Some rest, tags, Some (Dep bname (blob_data bver) (u8 op) broken (wrap 6 tag) 0))
          | None => (Some rest, tags, Some (Dep bname (blob_data bver) (u8 op) broken 0 0))
          end
      end
  end.

(** Every turn of the loop consumes at least one byte or ends it, so the length of the text
    bounds the number of turns ([pull_deps_fuel]). *)
Fixpoint pull_deps_loop (fuel : nat) (b : blob) (tags : repo_tags) (deps : list apk_dependency)
    (allow_tag : bool) (rc : Z) : option (Z * repo_tags * list apk_dependency) :=
  if blob_len b <=? 0 then Some (rc, tags, deps)
  else match fuel with
       | O => None
       | S fuel =>
           let '(b, tags, dep) := apk_blob_pull_dep b tags allow_tag in
           match b, dep with
           | Some _, Some dep =>
               pull_deps_loop fuel b tags (deps ++ [dep]) allow_tag
                 (if dep_broken dep then - APKE_PKGVERSION_FORMAT else rc)
           | _, _ => pull_deps_loop fuel b tags deps allow_tag (- APKE_DEPENDENCY_FORMAT)
           end
       end.

Definition apk_blob_pull_deps (b : blob) (tags : repo_tags) (deps : list apk_dependency) (allow_tag : bool)
    : option (Z * repo_tags * list apk_dependency) :=
  pull_deps_loop (S (length (blob_data b))) b tags deps allow_tag 0.

(** ** Editing *)

Fixpoint apk_deps_add (deps : list apk_dependency) (dep : apk_dependency) : list apk_dependency :=
  match deps with
  | [] => [dep]
  | d0 :: deps => if bool_decide (dep_name d0 = dep_name dep) then dep :: deps
                  else d0 :: apk_deps_add deps dep
  end.

(** The last item takes the place of the deleted one. *)
Definition apk_deps_del (deps : list apk_dependency) (name : bytes) : list apk_dependency :=
  match list_find (fun d => dep_name d = name) deps with
  | None => deps
  | Some (i, _) =>
      let nlen := (length deps - 1)%nat in
      match deps !! nlen with
      | None => deps
      | Some d => take nlen (<[i := d]> deps)
      end
  end.

(** ** Printing *)

(** [db] is [None] where the code passes a NULL database. *)
Definition apk_blob_push_dep (to : option wbuf) (db : option repo_tags) (dep : apk_dependency) : option wbuf :=
  let to := if apk_dep_conflict dep then apk_blob_push_blob to (bs "!") else to in
  let to := apk_blob_push_blob to (dep_name dep) in
  let to := match db with
            | Some tags => if dep_repository_tag dep =? 0 then to
                           else apk_blob_push_blob to
                                  (tag_text (znth (RepoTag 0 [] []) tags (dep_repository_tag dep)))
            | None => to
            end in
  let to := apk_blob_push_blob to (bs (apk_version_op_string (dep_op dep))) in
  apk_blob_push_blob to (dep_version dep).

Fixpoint push_deps_rest (to : option wbuf) (db : option repo_tags) (deps : list apk_dependency) : option wbuf :=
  match deps with
  | [] => to
  | dep :: deps => push_deps_rest (apk_blob_push_dep (apk_blob_push_blob to (bs " ")) db dep) db deps
  end.

Definition apk_blob_push_deps (to : option wbuf) (db : option repo_tags) (deps : list apk_dependency) : option wbuf :=
  match deps with
  | [] => to
  | dep :: deps => push_deps_rest (apk_blob_push_dep to db dep) db deps
  end.

(** apk_deps_write_layer on a stream that accepts everything: the bytes written, or [None]
    when a dependency does not fit its 256-byte buffer.  Layer -1 writes all. *)
Fixpoint apk_deps_write_layer (db : option repo_tags) (deps : list apk_dependency) (separator : bytes)
    (layer : Z) (os : bytes) (n : Z) : option (bytes * Z) :=
  match deps with
  | [] => Some (os, n)
  | dep :: deps =>
      if negb (layer =? -1) && negb (dep_layer dep =? layer)
      then apk_deps_write_layer db deps separator layer os n
      else
        let to := wbuf_new 256 in
        let to := if negb (n =? 0) then apk_blob_push_blob to separator else to in
        match apk_blob_pushed 256 (apk_blob_push_dep to db dep) with
        | None => None
        | Some blob => apk_deps_write_layer db deps separator layer (os ++ blob) (n + zlen blob)
        end
  end.

Definition apk_deps_write (db : option repo_tags) (deps : list apk_dependency) (separator : bytes) (os : bytes)
    : option (bytes * Z) :=
  apk_deps_write_layer db deps separator (-1) os 0.

(** ** The text of a dependency *)

(** The tag as printed; nothing without a database or for the default tag. *)
Definition dep_tag_text (db : option repo_tags) (dep : apk_dependency) : bytes :=
  match db with
  | Some tags => if dep_repository_tag dep =? 0 then []
                 else tag_text (znth (RepoTag 0 [] []) tags (dep_repository_tag dep))
  | None => []
  end.

Definition dep_text (db : option repo_tags) (dep : apk_dependency) : bytes :=
  (if apk_dep_conflict dep then bs "!" else []) ++ dep_name dep ++ dep_tag_text db dep ++
  bs (apk_version_op_string (dep_op dep)) ++ dep_version dep.

Lemma apk_blob_push_dep_text db dep : appends (fun to => apk_blob_push_dep to db dep) (dep_text db dep).
Proof.
  intros to. unfold apk_blob_push_dep, dep_text, dep_tag_text.
  destruct (apk_dep_conflict dep), db as [tags|]; try destruct (dep_repository_tag dep =? 0);
    by rewrite ?apk_blob_push_app, ?app_nil_l, <- ?app_assoc, ?app_nil_l.
Qed.

(** The items separated by single spaces. *)
Fixpoint deps_text (db : option repo_tags) (deps : list apk_dependency) : bytes :=
  match deps with
  | [] => []
  | [dep] => dep_text db dep
  | dep :: deps => dep_text db dep ++ chr " " :: deps_text db deps
  end.

Lemma push_deps_rest_text db dep deps :
  appends (fun to => push_deps_rest (apk_blob_push_dep to db dep) db deps) (deps_text db (dep :: deps)).
Proof.
  revert dep. induction deps as [|d deps IH]; intros dep to; [apply apk_blob_push_dep_text|].
  cbn [push_deps_rest]. rewrite (IH d), !(apk_blob_push_dep_text db dep), !apk_blob_push_app.
  by rewrite <- ?app_assoc.
Qed.

Lemma apk_blob_push_deps_text db deps :
  deps <> [] -> appends (fun to => apk_blob_push_deps to db deps) (deps_text db deps).
Proof. destruct deps as [|dep deps]; [done|]. intros _. apply push_deps_rest_text. Qed.

(** ** Dependencies the parser produces *)

Definition is_comp : Z -> bool := in_ctype APK_CTYPE_DEPENDENCY_COMPARER.
Definition is_sep : Z -> bool := in_ctype APK_CTYPE_DEPENDENCY_SEPARATOR.

(** A word: no operator, separator or '@' in it. *)
Definition plain_word (w : bytes) : Prop :=
  Forall (fun c => is_comp c = false /\ is_sep c = false /\ c <> chr "@") w.

Definition name_ok (name : bytes) : Prop :=
  name <> [] /\ plain_word name /\ head name <> Some (chr "!").

(** An operator and a version, or neither. *)
Definition constraint_ok (op : Z) (version : bytes) : Prop :=
  (op .& Z.lnot APK_VERSION_CONFLICT = APK_DEPMASK_ANY /\ version = []) \/
  (apk_version_op_string op <> ""%string /\ apk_version_op_string op <> "?"%string /\
   op .& Z.lnot APK_VERSION_CONFLICT <> APK_VERSION_FUZZY /\
   version <> [] /\ Forall (fun c => is_sep c = false) version /\ class_ends is_comp version).

Definition dep_is_broken (op : Z) (version : bytes) : bool :=
  negb (op .& APK_DEPMASK_CHECKSUM =? APK_DEPMASK_CHECKSUM) && negb (apk_version_validate version).

(** Each used tag has its text and its name without the '@'; names are distinct words. *)
Definition tags_ok (tags : repo_tags) : Prop :=
  tags <> [] /\ zlen tags <= APK_MAX_TAGS /\
  Forall (fun t => tag_text t = chr "@" :: plain_name t /\ plain_word (plain_name t)) (tail tags) /\
  NoDup (plain_name <$> tail tags).

(** Without a database tags cannot be printed, so the dependency must have none. *)
Definition dep_tag_ok (db : option repo_tags) (dep : apk_dependency) : Prop :=
  dep_repository_tag dep = 0 \/
  exists tags, db = Some tags /\ 0 < dep_repository_tag dep < zlen tags.

Record dep_ok (db : option repo_tags) (dep : apk_dependency) : Prop := {
  do_name : name_ok (dep_name dep);
  do_op : 0 <= dep_op dep < 32;
  do_constraint : constraint_ok (dep_op dep) (dep_version dep);
  do_broken : dep_broken dep = dep_is_broken (dep_op dep) (dep_version dep);
  do_tag : dep_tag_ok db dep;
  do_layer : dep_layer dep = 0;
}.

(** The operator text is made of operator characters and reads back as the operator. *)
Lemma op_string_reads op :
  0 <= op < 32 -> apk_version_op_string op <> ""%string -> apk_version_op_string op <> "?"%string ->
  op .& Z.lnot APK_VERSION_CONFLICT <> APK_VERSION_FUZZY ->
  Forall (fun c => is_comp c = true) (bs (apk_version_op_string op)) /\
  bs (apk_version_op_string op) <> [] /\
  (op .& APK_VERSION_CONFLICT) .| apk_version_result_mask_blob (bs (apk_version_op_string op)) = op /\
  (op .& Z.lnot APK_VERSION_CONFLICT =? 0) = false.
Proof.
  intros Hop H1 H2 H3.
  set (f := fun op => String.eqb (apk_version_op_string op) "" || String.eqb (apk_version_op_string op) "?"
    || (op .& Z.lnot APK_VERSION_CONFLICT =? APK_VERSION_FUZZY)
    || (forallb is_comp (bs (apk_version_op_string op))
        && negb (bool_decide (bs (apk_version_op_string op) = []))
        && ((op .& APK_VERSION_CONFLICT) .| apk_version_result_mask_blob (bs (apk_version_op_string op)) =? op)
        && negb (op .& Z.lnot APK_VERSION_CONFLICT =? 0))).
  assert (H : f op = true) by (apply (all_below_spec 32 f op); [vm_compute; reflexivity|lia]).
  unfold f in H. apply orb_true_iff in H as [H|H].
  - apply orb_true_iff in H as [H|H]; [apply orb_true_iff in H as [H|H]|].
    + by apply String.eqb_eq in H.
    + by apply String.eqb_eq in H.
    + by apply Z.eqb_eq in H.
  - reflect_tests. split; [apply Forall_forall; by apply forallb_forall|].
    split; [by eapply bool_decide_eq_false_1|]. split; [done|]. by apply Z.eqb_neq.
Qed.

Lemma any_op_string op :
  0 <= op < 32 -> op .& Z.lnot APK_VERSION_CONFLICT = APK_DEPMASK_ANY ->
  apk_version_op_string op = ""%string /\ (op .& APK_VERSION_CONFLICT) .| APK_DEPMASK_ANY = op.
Proof.
  intros Hop Hany.
  set (f := fun op => negb (op .& Z.lnot APK_VERSION_CONFLICT =? APK_DEPMASK_ANY)
    || (String.eqb (apk_version_op_string op) "" && ((op .& APK_VERSION_CONFLICT) .| APK_DEPMASK_ANY =? op))).
  assert (H : f op = true) by (apply (all_below_spec 32 f op); [vm_compute; reflexivity|lia]).
  unfold f in H. rewrite Hany, Z.eqb_refl in H. cbn in H. reflect_tests.
  split; [by apply String.eqb_eq|done].
Qed.

(** The leading '!' is taken exactly for a conflict. *)
Lemma pull_bang (c : bool) nm r :
  nm <> [] -> head nm <> Some (chr "!") ->
  match apk_blob_pull_blob_match ((if c then bs "!" else []) ++ nm ++ r) (bs "!") with
  | Some spec => (APK_VERSION_CONFLICT, spec)
  | None => (0, (if c then bs "!" else []) ++ nm ++ r)
  end = (if c then APK_VERSION_CONFLICT else 0, nm ++ r).
Proof.
  intros Hne Hh. destruct c.
  - by rewrite (proj2 (apk_blob_pull_blob_match_spec (bs "!" ++ nm ++ r) (bs "!") (nm ++ r)) eq_refl).
  - destruct (apk_blob_pull_blob_match _ _) as [x|] eqn:E; [|done].
    apply apk_blob_pull_blob_match_spec in E. destruct nm as [|c nm]; [done|].
    cbn in E. injection E as -> _. done.
Qed.

Lemma conflict_bit op : 0 <= op < 32 ->
  (if negb (op .& APK_VERSION_CONFLICT =? 0) then APK_VERSION_CONFLICT else 0) = op .& APK_VERSION_CONFLICT.
Proof.
  intros Hop. apply Z.eqb_eq.
  apply (all_below_spec 32 (fun op => (if negb (op .& APK_VERSION_CONFLICT =? 0) then APK_VERSION_CONFLICT else 0)
    =? op .& APK_VERSION_CONFLICT)); [vm_compute; reflexivity|lia].
Qed.

Lemma apk_dep_parse_text nm op version :
  nm <> [] -> Forall (fun c => is_comp c = false) nm -> head nm <> Some (chr "!") ->
  0 <= op < 32 -> constraint_ok op version ->
  apk_dep_parse (Some ((if negb (op .& APK_VERSION_CONFLICT =? 0) then bs "!" else []) ++
                       nm ++ bs (apk_version_op_string op) ++ version)) =
  Some (nm, op, match version with [] => None | _ => Some version end).
Proof.
  intros Hne Hnm Hh Hop Hc. unfold apk_dep_parse. rewrite pull_bang by done.
  rewrite conflict_bit by done. destruct Hc as [[Hany ->]|(H1 & H2 & H3 & Hv & _ & Hcomp)].
  - destruct (any_op_string op Hop Hany) as [-> Hor]. change (bs "") with (@nil Z). rewrite !app_nil_r.
    pose proof (apk_blob_cspn_app nm [] APK_CTYPE_DEPENDENCY_COMPARER Hnm I) as Hs.
    rewrite app_nil_r in Hs. rewrite Hs. cbn [negb bool_decide]. by rewrite Hor.
  - destruct (op_string_reads op Hop H1 H2 H3) as (Ho & Hone & Hor & Hnz).
    rewrite apk_blob_cspn_app; [|done|].
    + rewrite (bool_decide_eq_false_2 (_ ++ _ = [])) by (intros E; by apply app_eq_nil in E as [? _]).
      cbn [negb]. rewrite apk_blob_spn_app by done.
      rewrite bool_decide_eq_false_2 by done. cbn [negb]. rewrite Hor, Hnz.
      by destruct version.
    + destruct (bs (apk_version_op_string op)) as [|c o]; [done|].
      apply Forall_cons_1 in Ho as [Hc _]. change (negb (is_comp c) = false). by rewrite Hc.
Qed.

(** ** Tags *)

Lemma find_tag_spec (sel : apk_repository_tag -> bytes) tags i t :
  match find_tag sel tags i t with
  | Some j => i <= j < i + zlen tags /\ exists e, tags !! Z.to_nat (j - i) = Some e /\ sel e = t
  | None => Forall (fun e => sel e <> t) tags
  end.
Proof.
  revert i. induction tags as [|e tags IH]; intros i; cbn [find_tag]; [constructor|].
  rewrite zlen_cons. pose proof (zlen_nonneg tags).
  destruct (Z.eqb_spec (apk_blob_compare (Some (sel e)) (Some t)) 0) as [E|E];
    rewrite apk_blob_compare_eq in E.
  - split; [lia|]. exists e. by rewrite Z.sub_diag.
  - specialize (IH (i + 1)). destruct (find_tag sel tags (i + 1) t) as [j|].
    + destruct IH as (Hj & e' & He' & Hs). split; [lia|]. exists e'. split; [|done].
      replace (Z.to_nat (j - i)) with (S (Z.to_nat (j - (i + 1)))) by lia. done.
    + by constructor.
Qed.

(** The tag of an entry is found again under its plain name. *)
Lemma get_tag_id_found tags n :
  tags_ok tags -> 0 < n < zlen tags ->
  exists t, znth (RepoTag 0 [] []) tags n = t /\ tag_text t = chr "@" :: plain_name t /\
    plain_word (plain_name t) /\ apk_db_get_tag_id tags (Some (plain_name t)) = (tags, n).
Proof.
  intros (Hne & Hmax & Hall & Hnd) Hn. destruct tags as [|t0 tags]; [done|]. cbn [tail] in *.
  rewrite zlen_cons in *. pose proof (zlen_nonneg tags).
  destruct (lookup_lt_is_Some_2 tags (Z.to_nat (n - 1))) as [t Ht]; [unfold zlen in *; lia|].
  exists t. assert (Hz : znth (RepoTag 0 [] []) (t0 :: tags) n = t).
  { unfold znth. destruct (Z.ltb_spec n 0); [lia|].
    replace (Z.to_nat n) with (S (Z.to_nat (n - 1))) by lia. cbn [nth].
    by apply nth_lookup_Some. }
  rewrite Forall_forall in Hall. pose proof (list_elem_of_lookup_2 _ _ _ Ht) as Hin.
  apply list_elem_of_In in Hin. destruct (Hall t Hin) as [Htext Hword].
  split; [done|]. split; [done|]. split; [done|].
  unfold apk_db_get_tag_id. cbn [tail].
  assert (Hat : starts_at (plain_name t) = false).
  { destruct (plain_name t) as [|c r] eqn:E; [done|]. cbn. apply Forall_cons_1 in Hword as [(_ & _ & Hc) _].
    by apply Z.eqb_neq. }
  rewrite Hat. pose proof (find_tag_spec plain_name tags 1 (plain_name t)) as Hf.
  destruct (find_tag plain_name tags 1 (plain_name t)) as [j|].
  - destruct Hf as (Hj & e & He & Hs). f_equal.
    assert (Z.to_nat (j - 1) = Z.to_nat (n - 1)); [|lia].
    eapply NoDup_lookup; [exact Hnd| |]; rewrite list_lookup_fmap; [by rewrite He|].
    rewrite Ht. cbn. congruence.
  - rewrite Forall_forall in Hf. by destruct (Hf t Hin).
Qed.

(** ** Round trip of one dependency *)

Lemma plain_word_comp w : plain_word w -> Forall (fun c => is_comp c = false) w.
Proof. apply Forall_impl. by intros c (? & _). Qed.
Lemma plain_word_sep w : plain_word w -> Forall (fun c => is_sep c = false) w.
Proof. apply Forall_impl. by intros c (_ & ? & _). Qed.

(** Splitting off the tag of a name. *)
Lemma split_no_at w : plain_word w -> apk_blob_split (Some w) (bs "@") = None.
Proof.
  intros Hw. destruct (apk_blob_split (Some w) (bs "@")) as [[x y]|] eqn:E; [|done].
  apply apk_blob_split_some in E as [-> _]. unfold plain_word in Hw.
  apply Forall_app in Hw as [_ Hw]. apply Forall_app in Hw as [Hw _].
  by apply Forall_cons_1 in Hw as [(_ & _ & Hc) _].
Qed.

Lemma split_at w t : plain_word w -> apk_blob_split (Some (w ++ chr "@" :: t)) (bs "@") = Some (w, t).
Proof.
  intros Hw. destruct (apk_blob_split (Some (w ++ chr "@" :: t)) (bs "@")) as [[x y]|] eqn:E.
  - apply apk_blob_split_some in E as [Hx Hmin]. specialize (Hmin w t eq_refl).
    change (bs "@" ++ y) with (chr "@" :: y) in Hx.
    assert (Hlen : (length x <= length w)%nat) by (unfold zlen in Hmin; lia).
    assert (Hlt : ~ (length x < length w)%nat).
    { intros Hlt. assert (Hl : (w ++ chr "@" :: t) !! length x = Some (chr "@")) by (rewrite Hx; by apply list_lookup_middle).
      rewrite lookup_app_l in Hl by done. apply list_elem_of_lookup_2, list_elem_of_In in Hl.
      unfold plain_word in Hw. rewrite Forall_forall in Hw. by destruct (Hw _ Hl) as (_ & _ & []). }
    apply app_inj_1 in Hx as [-> [= ->]]; [done|lia].
  - by apply (apk_blob_split_none _ _ w t) in E.
Qed.

Lemma op_string_sep op : 0 <= op < 32 -> Forall (fun c => is_sep c = false) (bs (apk_version_op_string op)).
Proof.
  intros Hop. apply Forall_forall. intros c Hc.
  assert (H : all_below 32 (fun op => forallb (fun c => negb (is_sep c)) (bs (apk_version_op_string op))) = true)
    by (vm_compute; reflexivity).
  apply (all_below_spec _ _ op) in H; [|lia]. rewrite forallb_forall in H.
  by apply negb_true_iff, H.
Qed.

Lemma constraint_sep op version : constraint_ok op version -> Forall (fun c => is_sep c = false) version.
Proof. by intros [[_ ->]|(_ & _ & _ & _ & ? & _)]. Qed.

(** The printed tag: nothing, or an '@' and a word that is looked up as the same tag. *)
Lemma dep_tag_text_cases tags db dep :
  tags_ok tags -> db = None \/ db = Some tags -> dep_tag_ok db dep ->
  (dep_repository_tag dep = 0 /\ dep_tag_text db dep = []) \/
  (dep_repository_tag dep <> 0 /\ 0 < dep_repository_tag dep < 16 /\
   exists w, dep_tag_text db dep = chr "@" :: w /\
    plain_word w /\ apk_db_get_tag_id tags (Some w) = (tags, dep_repository_tag dep)).
Proof.
  intros Hok Hdb [H0|(tags' & -> & Hn)].
  - left. split; [done|]. unfold dep_tag_text. rewrite H0. by destruct db.
  - right. destruct Hdb as [|[= ->]]; [done|]. split; [lia|].
    pose proof Hok as (_ & Hmax & _). unfold APK_MAX_TAGS in Hmax. split; [lia|].
    destruct (get_tag_id_found tags _ Hok Hn) as (t & Hz & Ht & Hw & Hg).
    exists (plain_name t). split; [|done]. unfold dep_tag_text.
    destruct (Z.eqb_spec (dep_repository_tag dep) 0); [lia|]. by rewrite Hz.
Qed.

Lemma dep_text_sep tags db dep :
  tags_ok tags -> db = None \/ db = Some tags -> dep_ok db dep ->
  Forall (fun c => is_sep c = false) (dep_text db dep).
Proof.
  intros Hok Hdb [(_ & Hw & _) Hop Hc _ Ht _]. unfold dep_text. rewrite !Forall_app.
  split; [by destruct (apk_dep_conflict dep); repeat constructor|].
  split; [by apply plain_word_sep|]. split.
  - destruct (dep_tag_text_cases tags db dep Hok Hdb Ht) as [[_ ->]|(_ & _ & w & -> & Hww & _)]; [done|].
    constructor; [done|]. by apply plain_word_sep.
  - split; [by apply op_string_sep|]. by apply (constraint_sep (dep_op dep)).
Qed.

Lemma dep_text_parse tags db dep :
  tags_ok tags -> db = None \/ db = Some tags -> dep_ok db dep ->
  apk_dep_parse (Some (dep_text db dep)) =
  Some (dep_name dep ++ dep_tag_text db dep, dep_op dep,
        match dep_version dep with [] => None | _ => Some (dep_version dep) end).
Proof.
  intros Hok Hdb [(Hne & Hw & Hh) Hop Hc _ Ht _]. unfold dep_text, apk_dep_conflict.
  rewrite (app_assoc (dep_name dep)). apply apk_dep_parse_text; try done.
  - intros E. by apply app_eq_nil in E as [? _].
  - apply Forall_app. split; [by apply plain_word_comp|].
    destruct (dep_tag_text_cases tags db dep Hok Hdb Ht) as [[_ ->]|(_ & _ & w & -> & Hww & _)]; [done|].
    constructor; [done|]. by apply plain_word_comp.
  - by destruct (dep_name dep).
Qed.

(** The rest after the separators that end a dependency. *)
Definition skip_seps (rest : bytes) : bytes := (apk_blob_spn rest APK_CTYPE_DEPENDENCY_SEPARATOR).2.

Lemma apk_blob_pull_dep_text tags db dep rest allow_tag :
  tags_ok tags -> db = None \/ db = Some tags -> dep_ok db dep ->
  (dep_repository_tag dep <> 0 -> allow_tag = true) ->
  class_ends (fun c => negb (is_sep c)) rest ->
  apk_blob_pull_dep (Some (dep_text db dep ++ rest)) tags allow_tag = (Some (skip_seps rest), tags, Some dep).
Proof.
  intros Hok Hdb Hd Hallow Hr. unfold apk_blob_pull_dep.
  rewrite apk_blob_cspn_app by (by try eapply dep_text_sep).
  unfold skip_seps. destruct (apk_blob_spn rest _) as [[? ?] r].
  rewrite (dep_text_parse tags db dep) by done. pose proof Hd as [(_ & Hw & _) Hop Hc Hb Ht Hl].
  assert (Hver : blob_data match dep_version dep with [] => None | _ => Some (dep_version dep) end = dep_version dep)
    by (by destruct (dep_version dep)).
  rewrite Hver. fold (dep_is_broken (dep_op dep) (dep_version dep)).
  rewrite <- Hb, (wrap_small 8 (dep_op dep)) by lia.
  destruct (dep_tag_text_cases tags db dep Hok Hdb Ht) as [[H0 ->]|(Hn & Hlt & w & -> & Hww & Hg)].
  - rewrite app_nil_r, split_no_at by done. destruct dep. cbn in *. by subst.
  - rewrite split_at by done. rewrite (Hallow Hn). cbn [negb]. rewrite Hg.
    rewrite (wrap_small 6) by lia. destruct dep. cbn in *. by subst.
Qed.

(** ** Lists of dependencies *)

Lemma skip_seps_len r : (length (skip_seps r) <= length r)%nat.
Proof.
  unfold skip_seps. pose proof (apk_blob_spn_span r APK_CTYPE_DEPENDENCY_SEPARATOR) as H.
  destruct (apk_blob_spn r _) as [[? l] k]. destruct H as (-> & _). rewrite length_app. cbn. lia.
Qed.

(** Every dependency read consumes input. *)
Lemma apk_blob_pull_dep_consumes l tags allow_tag b tags' dep :
  l <> [] -> apk_blob_pull_dep (Some l) tags allow_tag = (b, tags', dep) ->
  (length (blob_data b) < length l)%nat.
Proof.
  intros Hne E. unfold apk_blob_pull_dep in E.
  pose proof (apk_blob_cspn_span l APK_CTYPE_DEPENDENCY_SEPARATOR) as H1.
  destruct (apk_blob_cspn l _) as [[t bdep] rest] eqn:Ec. destruct H1 as (Hl & _ & Hr).
  pose proof (apk_blob_spn_span rest APK_CTYPE_DEPENDENCY_SEPARATOR) as H2.
  destruct (apk_blob_spn rest _) as [[t2 seps] rest2]. destruct H2 as (Hrest & _ & Hr2).
  assert (Hlen : (length rest2 < length l)%nat).
  { subst l rest. rewrite !length_app. destruct bdep; [|cbn; lia]. destruct seps; [|cbn; lia].
    cbn in *. destruct rest2 as [|c rest2]; [done|]. destruct Hr as [_ Hr], Hr2 as [_ Hr2].
    by rewrite Hr2 in Hr. }
  assert (Hpos : (0 < length l)%nat) by (destruct l; [done|cbn; lia]).
  destruct (apk_dep_parse (Some bdep)) as [[[bname op] bver]|]; [|by injection E as <- _ _].
  destruct (apk_blob_split (Some bname) (bs "@")) as [[nm tg]|]; [|by injection E as <- _ _].
  destruct (negb allow_tag); [by injection E as <- _ _|].
  destruct (apk_db_get_tag_id tags (Some tg)) as [tags2 tag]. by injection E as <- _ _.
Qed.

Lemma pull_deps_fuel fuel b tags deps allow_tag rc :
  (length (blob_data b) < fuel)%nat -> pull_deps_loop fuel b tags deps allow_tag rc <> None.
Proof.
  revert b tags deps rc. induction fuel as [|fuel IH]; intros b tags deps rc Hf; [lia|].
  cbn [pull_deps_loop]. destruct (Z.leb_spec (blob_len b) 0) as [Hb|Hb]; [done|].
  destruct b as [l|]; [|done]. cbn [blob_data] in *.
  assert (Hne : l <> []) by (intros ->; done).
  destruct (apk_blob_pull_dep (Some l) tags allow_tag) as [[b' tags'] dep] eqn:E.
  pose proof (apk_blob_pull_dep_consumes _ _ _ _ _ _ Hne E) as Hlt.
  destruct b' as [l'|]; [destruct dep|]; apply IH; cbn [blob_data length] in *; lia.
Qed.

(** A text followed by the next dependency or by nothing. *)
Lemma dep_text_ne db dep : dep_ok db dep -> dep_text db dep <> [].
Proof.
  intros [(Hne & _) _ _ _ _ _] E. unfold dep_text in E. apply app_eq_nil in E as [_ E].
  by apply app_eq_nil in E as [E _].
Qed.

Lemma deps_text_head db dep deps :
  exists r, deps_text db (dep :: deps) = dep_text db dep ++ r /\
  r = match deps with [] => [] | _ => chr " " :: deps_text db deps end.
Proof.
  destruct deps as [|d deps]; [exists []; by rewrite app_nil_r|].
  by exists (chr " " :: deps_text db (d :: deps)).
Qed.

Lemma skip_seps_word w r :
  w <> [] -> Forall (fun c => is_sep c = false) w -> skip_seps (chr " " :: w ++ r) = w ++ r.
Proof.
  intros Hne Hw. unfold skip_seps. destruct w as [|c w]; [done|]. apply Forall_cons_1 in Hw as [Hc _].
  rewrite (apk_blob_spn_app [chr " "] ((c :: w) ++ r)); [done|by repeat constructor|done].
Qed.

Lemma pull_deps_loop_text tags db deps allow_tag : 
  tags_ok tags -> db = None \/ db = Some tags -> Forall (dep_ok db) deps ->
  Forall (fun d => dep_repository_tag d <> 0 -> allow_tag = true) deps ->
  forall fuel acc rc, (length (deps_text db deps) < fuel)%nat ->
  pull_deps_loop fuel (Some (deps_text db deps)) tags acc allow_tag rc =
  Some (if existsb dep_broken deps then - APKE_PKGVERSION_FORMAT else rc, tags, acc ++ deps).
Proof.
  intros Hok Hdb Hall Hallow. induction Hall as [|dep deps Hd Hall IH]; intros fuel acc rc Hf.
  - destruct fuel; [cbn in Hf; lia|]. cbn. by rewrite app_nil_r.
  - apply Forall_cons_1 in Hallow as [Ha Hallow]. specialize (IH Hallow).
    destruct (deps_text_head db dep deps) as (r & E & Hr). rewrite E in *.
    destruct fuel as [|fuel]; [lia|]. cbn [pull_deps_loop].
    pose proof (dep_text_ne db dep Hd) as Hne.
    assert (Hlen : 0 < blob_len (Some (dep_text db dep ++ r))).
    { unfold blob_len, blob_data, zlen. rewrite length_app. destruct (dep_text db dep); [done|cbn; lia]. }
    destruct (Z.leb_spec (blob_len (Some (dep_text db dep ++ r))) 0); [lia|].
    rewrite (apk_blob_pull_dep_text tags) by (try done; subst r; by destruct deps).
    assert (Hskip : skip_seps r = deps_text db deps).
    { subst r. destruct deps as [|d deps]; [done|]. apply Forall_cons_1 in Hall as [Hd' _].
      destruct (deps_text_head db d deps) as (r' & -> & _). apply skip_seps_word; [by apply dep_text_ne|].
      by eapply dep_text_sep. }
    rewrite Hskip, IH.
    + rewrite <- app_assoc. cbn [existsb app]. destruct (dep_broken dep); cbn [orb]; [|done].
      by destruct (existsb dep_broken deps).
    + rewrite length_app in Hf. pose proof (skip_seps_len r) as Hl. rewrite Hskip in Hl.
      destruct (dep_text db dep); [done|cbn in Hf; lia].
Qed.

(** ** Properties *)

(** C16: A dependency list that is printed (as the world file, the index or the installed
    database store it) and parsed again gives the same list and the same tags, and the
    parser reports a version format error exactly when one of the constraints is broken;
    the condition [dep_ok] leaves out the operator masks whose printed name is not an
    operator. *)
Theorem apk_deps_roundtrip tags db deps allow_tag :
  tags_ok tags -> db = None \/ db = Some tags -> Forall (dep_ok db) deps -> deps <> [] ->
  Forall (fun d => dep_repository_tag d <> 0 -> allow_tag = true) deps ->
  exists text, appends (fun to => apk_blob_push_deps to db deps) text /\
  apk_blob_pull_deps (Some text) tags [] allow_tag =
  Some (if existsb dep_broken deps then - APKE_PKGVERSION_FORMAT else 0, tags, deps).
Proof.
  intros Hok Hdb Hall Hne Hallow. exists (deps_text db deps).
  split; [by apply apk_blob_push_deps_text|].
  unfold apk_blob_pull_deps. apply pull_deps_loop_text; try done. cbn. lia.
Qed.

Lemma apk_deps_roundtrip_witness :
  let tags := [RepoTag 0 [] []; RepoTag 2 (bs "@edge") (bs "edge")] in
  let deps := [Dep (bs "musl") (bs "1.2.3") (APK_VERSION_GREATER .| APK_VERSION_EQUAL) false 0 0;
               Dep (bs "so:libc.so") [] (APK_DEPMASK_ANY .| APK_VERSION_CONFLICT) false 1 0] in
  exists text, appends (fun to => apk_blob_push_deps to (Some tags) deps) text /\
  apk_blob_pull_deps (Some text) tags [] true = Some (0, tags, deps).
Proof.
  intros tags deps.
  apply (apk_deps_roundtrip tags (Some tags) deps true); [|by right| |done|by repeat constructor].
  - split; [done|]. split; [vm_compute; discriminate|]. split.
    + repeat constructor; vm_compute; discriminate.
    + repeat constructor. apply not_elem_of_nil.
  - constructor; [|constructor; [|constructor]].
    + split; [|split; vm_compute; congruence| |vm_compute; reflexivity|by left|done].
      * split; [done|]. split; [repeat constructor; vm_compute; discriminate|by vm_compute].
      * right. repeat (split; [by vm_compute|]). split; [repeat constructor|reflexivity].
    + split; [|split; vm_compute; congruence| |vm_compute; reflexivity| |done].
      * split; [done|]. split; [repeat constructor; vm_compute; discriminate|by vm_compute].
      * by left.
      * right. exists tags. split; [done|split; vm_compute; congruence].
Defined.

(** Parsing a dependency list always ends: every turn of the loop of apk_blob_pull_deps
    consumes input, so it returns a list and a code for every text. *)
Theorem apk_blob_pull_deps_total b tags deps allow_tag :
  exists rc tags' deps', apk_blob_pull_deps b tags deps allow_tag = Some (rc, tags', deps').
Proof.
  pose proof (pull_deps_fuel (S (length (blob_data b))) b tags deps allow_tag 0 ltac:(lia)) as H.
  unfold apk_blob_pull_deps. destruct (pull_deps_loop _ _ _ _ _ _) as [[[rc t] d]|]; [|done]. eauto.
Qed.

(** What the printed form of an operator mask loses: the mask of "<>=" prints as nothing. *)
Example dep_any_with_version :
  let '(_, _, d) := apk_blob_pull_dep (Some (bs "a<>=1")) repo_tags_init false in
  dep_text None <$> d = Some (bs "a1").
Proof. reflexivity. Qed.

(** A leading separator is read as a dependency with an empty name. *)
Example dep_leading_separator :
  apk_blob_pull_deps (Some (bs " a")) repo_tags_init [] false =
  Some (0, repo_tags_init, [Dep [] [] APK_DEPMASK_ANY false 0 0; Dep (bs "a") [] APK_DEPMASK_ANY false 0 0]).
Proof. vm_compute. reflexivity. Qed.

(** ** Editing the world *)

Lemma apk_deps_add_perm deps dep :
  NoDup (dep_name <$> deps) ->
  Permutation (apk_deps_add deps dep) (dep :: filter (fun d => dep_name d <> dep_name dep) deps).
Proof.
  induction deps as [|d deps IH]; intros Hnd; [done|]. cbn [apk_deps_add]. cbn in Hnd.
  apply list.NoDup_cons in Hnd as [Hn Hnd]. case_bool_decide as E.
  - rewrite filter_cons_False by (intros H; by apply H).
    rewrite filter_all; [done|]. intros d' Hd' Heq. apply Hn.
    rewrite E, <- Heq. by apply list_elem_of_fmap_2.
  - rewrite filter_cons_True, IH by done. constructor.
Qed.

Lemma apk_deps_del_perm deps name :
  NoDup (dep_name <$> deps) ->
  Permutation (apk_deps_del deps name) (filter (fun d => dep_name d <> name) deps).
Proof.
  intros Hnd. unfold apk_deps_del.
  destruct (list_find (fun d => dep_name d = name) deps) as [[i d]|] eqn:E.
  - apply list_find_Some in E as (Hi & Hd & _).
    destruct (deps !! (length deps - 1)%nat) as [e|] eqn:El.
    + pose proof (swap_remove_perm deps i d e Hi El) as Hp.
      assert (Hnd' : NoDup (dep_name <$> d :: take (length deps - 1) (<[i := e]> deps))) by (by rewrite <- Hp).
      cbn in Hnd'. apply list.NoDup_cons in Hnd' as [Hn _].
      rewrite Hp at 3. rewrite filter_cons_False by (intros H; by apply H).
      rewrite filter_all; [done|]. intros d' Hd' Heq. apply Hn.
      rewrite Hd, <- Heq. by apply list_elem_of_fmap_2.
    + apply lookup_lt_Some in Hi. apply lookup_ge_None in El. lia.
  - rewrite filter_all; [done|]. apply list_find_None in E. by apply list.Forall_forall.
Qed.

Lemma NoDup_filter_names (P : apk_dependency -> Prop) `{!forall x, Decision (P x)} deps :
  NoDup (dep_name <$> deps) -> NoDup (dep_name <$> filter P deps).
Proof.
  induction deps as [|d deps IH]; intros Hnd; [done|]. cbn in Hnd.
  apply list.NoDup_cons in Hnd as [Hn Hnd]. rewrite filter_cons. case_decide; [|by apply IH].
  cbn. apply list.NoDup_cons. split; [|by apply IH]. intros Hin. apply Hn.
  apply list_elem_of_fmap in Hin as (d' & -> & Hd'). apply list_elem_of_filter in Hd' as [_ Hd'].
  by apply list_elem_of_fmap_2.
Qed.

(** The world is edited as a map from names to dependencies: adding a dependency
    replaces the one of the same name or appends it, deleting a name removes it, all other
    dependencies stay, and no name ever occurs twice. *)
Theorem apk_deps_edit deps dep name :
  NoDup (dep_name <$> deps) ->
  Permutation (apk_deps_add deps dep) (dep :: filter (fun d => dep_name d <> dep_name dep) deps) /\
  Permutation (apk_deps_del deps name) (filter (fun d => dep_name d <> name) deps) /\
  NoDup (dep_name <$> apk_deps_add deps dep) /\ NoDup (dep_name <$> apk_deps_del deps name).
Proof.
  intros Hnd. pose proof (apk_deps_add_perm deps dep Hnd) as Ha.
  pose proof (apk_deps_del_perm deps name Hnd) as Hd. split; [done|]. split; [done|].
  rewrite Ha, Hd. split; [|by apply NoDup_filter_names].
  cbn. apply list.NoDup_cons. split; [|by apply NoDup_filter_names].
  intros Hin. apply list_elem_of_fmap in Hin as (d' & Heq & Hd').
  by apply list_elem_of_filter in Hd' as [? _].
Qed.

Lemma apk_deps_edit_witness :
  let d n v := Dep (bs n) (bs v) APK_VERSION_EQUAL false 0 0 in
  apk_deps_del [d "a" "1"; d "b" "2"; d "c" "3"]%string (bs "a") = [d "c" "3"; d "b" "2"]%string /\
  NoDup (dep_name <$> apk_deps_del [d "a" "1"; d "b" "2"; d "c" "3"]%string (bs "a")).
Proof.
  intros d. split; [vm_compute; reflexivity|].
  apply (apk_deps_edit [d "a" "1"; d "b" "2"; d "c" "3"]%string (d "a" "1")%string (bs "a")).
  apply (bool_decide_unpack _). vm_compute. exact I.
Defined.
