(* ===== verification/Package.v ===== *)
(** Packages (package.c, apk_package.h): the package record and its installed state, matching
    of packages against dependencies, file and directory ownership, and the text form of a
    package in an index (one letter, a colon and a value per line). *)
From Stdlib Require Import ZArith Lia Ascii String.
From stdpp Require Import base numbers list option.
From S2P Require Import Prelude Clib Blob Codec Ctype Version Dep.

(** ** Data *)

Definition APK_SCRIPT_INVALID : Z := -1.
Definition APK_SCRIPT_MAX : Z := 7.

(** struct apk_installed_package; its directory instances are kept by the database. *)
Record apk_installed_package := IPkg {
  scripts : list blob;
  triggers : list bytes;
  pending_triggers : list bytes;
  replaces : list apk_dependency;
  replaces_priority : Z;
  repository_tag : Z;
  run_all_triggers : bool;
  broken_files : bool;
  broken_script : bool;
  broken_xattr : bool;
  sha256_160 : bool;
  to_be_removed : bool;
}.

Definition set_scripts (v : list blob) (r : apk_installed_package) : apk_installed_package :=
  IPkg v (triggers r) (pending_triggers r) (replaces r) (replaces_priority r)
    (repository_tag r) (run_all_triggers r) (broken_files r) (broken_script r) (broken_xattr
    r) (sha256_160 r) (to_be_removed r).
Definition set_replaces (v : list apk_dependency) (r : apk_installed_package) : apk_installed_package :=
  IPkg (scripts r) (triggers r) (pending_triggers r) v (replaces_priority r) (repository_tag
    r) (run_all_triggers r) (broken_files r) (broken_script r) (broken_xattr r) (sha256_160
    r) (to_be_removed r).
Definition set_replaces_priority (v : Z) (r : apk_installed_package) : apk_installed_package :=
  IPkg (scripts r) (triggers r) (pending_triggers r) (replaces r) v (repository_tag r)
    (run_all_triggers r) (broken_files r) (broken_script r) (broken_xattr r) (sha256_160 r)
    (to_be_removed r).
Definition set_repository_tag (v : Z) (r : apk_installed_package) : apk_installed_package :=
  IPkg (scripts r) (triggers r) (pending_triggers r) (replaces r) (replaces_priority r) v
    (run_all_triggers r) (broken_files r) (broken_script r) (broken_xattr r) (sha256_160 r)
    (to_be_removed r).
Definition set_broken_files (v : bool) (r : apk_installed_package) : apk_installed_package :=
  IPkg (scripts r) (triggers r) (pending_triggers r) (replaces r) (replaces_priority r)
    (repository_tag r) (run_all_triggers r) v (broken_script r) (broken_xattr r) (sha256_160
    r) (to_be_removed r).
Definition set_broken_script (v : bool) (r : apk_installed_package) : apk_installed_package :=
  IPkg (scripts r) (triggers r) (pending_triggers r) (replaces r) (replaces_priority r)
    (repository_tag r) (run_all_triggers r) (broken_files r) v (broken_xattr r) (sha256_160
    r) (to_be_removed r).
Definition set_broken_xattr (v : bool) (r : apk_installed_package) : apk_installed_package :=
  IPkg (scripts r) (triggers r) (pending_triggers r) (replaces r) (replaces_priority r)
    (repository_tag r) (run_all_triggers r) (broken_files r) (broken_script r) v (sha256_160
    r) (to_be_removed r).
Definition set_sha256_160 (v : bool) (r : apk_installed_package) : apk_installed_package :=
  IPkg (scripts r) (triggers r) (pending_triggers r) (replaces r) (replaces_priority r)
    (repository_tag r) (run_all_triggers r) (broken_files r) (broken_script r) (broken_xattr
    r) v (to_be_removed r).
Definition set_to_be_removed (v : bool) (r : apk_installed_package) : apk_installed_package :=
  IPkg (scripts r) (triggers r) (pending_triggers r) (replaces r) (replaces_priority r)
    (repository_tag r) (run_all_triggers r) (broken_files r) (broken_script r) (broken_xattr
    r) (sha256_160 r) v.

Definition ipkg_new : apk_installed_package :=
  IPkg (replicate 7 None) [] [] [] 0 0 false false false false false false.

(** struct apk_package.  [pkg_addr] is its address, which is how the code compares packages;
    name and version are [None] while a template does not have them (a nameless package
    stands for the overlay). *)
Record apk_package := Pkg {
  pkg_addr : Z;
  pkg_name : option bytes;
  ipkg : option apk_installed_package;
  depends : list apk_dependency;
  install_if : list apk_dependency;
  provides : list apk_dependency;
  recommends : list apk_dependency;
  tags : list bytes;
  version : option bytes;
  arch : bytes;
  license : bytes;
  origin : bytes;
  maintainer : bytes;
  url : bytes;
  description : bytes;
  commit : bytes;
  installed_size : Z;
  size : Z;
  build_time : Z;
  foreach_genid : Z;
  repos : Z;
  provider_priority : Z;
  filename_ndx : Z;
  marked : bool;
  uninstallable : bool;
  cached_non_repository : bool;
  cached : bool;
  layer : Z;
  digest_alg : Z;
  digest : bytes;
}.

Definition set_pkg_name (v : option bytes) (r : apk_package) : apk_package :=
  Pkg (pkg_addr r) v (ipkg r) (depends r) (install_if r) (provides r) (recommends r) (tags
    r) (version r) (arch r) (license r) (origin r) (maintainer r) (url r) (description r)
    (commit r) (installed_size r) (size r) (build_time r) (foreach_genid r) (repos r)
    (provider_priority r) (filename_ndx r) (marked r) (uninstallable r)
    (cached_non_repository r) (cached r) (layer r) (digest_alg r) (digest r).
Definition set_ipkg (v : option apk_installed_package) (r : apk_package) : apk_package :=
  Pkg (pkg_addr r) (pkg_name r) v (depends r) (install_if r) (provides r) (recommends r)
    (tags r) (version r) (arch r) (license r) (origin r) (maintainer r) (url r) (description
    r) (commit r) (installed_size r) (size r) (build_time r) (foreach_genid r) (repos r)
    (provider_priority r) (filename_ndx r) (marked r) (uninstallable r)
    (cached_non_repository r) (cached r) (layer r) (digest_alg r) (digest r).
Definition set_depends (v : list apk_dependency) (r : apk_package) : apk_package :=
  Pkg (pkg_addr r) (pkg_name r) (ipkg r) v (install_if r) (provides r) (recommends r) (tags
    r) (version r) (arch r) (license r) (origin r) (maintainer r) (url r) (description r)
    (commit r) (installed_size r) (size r) (build_time r) (foreach_genid r) (repos r)
    (provider_priority r) (filename_ndx r) (marked r) (uninstallable r)
    (cached_non_repository r) (cached r) (layer r) (digest_alg r) (digest r).
Definition set_install_if (v : list apk_dependency) (r : apk_package) : apk_package :=
  Pkg (pkg_addr r) (pkg_name r) (ipkg r) (depends r) v (provides r) (recommends r) (tags r)
    (version r) (arch r) (license r) (origin r) (maintainer r) (url r) (description r)
    (commit r) (installed_size r) (size r) (build_time r) (foreach_genid r) (repos r)
    (provider_priority r) (filename_ndx r) (marked r) (uninstallable r)
    (cached_non_repository r) (cached r) (layer r) (digest_alg r) (digest r).
Definition set_provides (v : list apk_dependency) (r : apk_package) : apk_package :=
  Pkg (pkg_addr r) (pkg_name r) (ipkg r) (depends r) (install_if r) v (recommends r) (tags
    r) (version r) (arch r) (license r) (origin r) (maintainer r) (url r) (description r)
    (commit r) (installed_size r) (size r) (build_time r) (foreach_genid r) (repos r)
    (provider_priority r) (filename_ndx r) (marked r) (uninstallable r)
    (cached_non_repository r) (cached r) (layer r) (digest_alg r) (digest r).
Definition set_tags (v : list bytes) (r : apk_package) : apk_package :=
  Pkg (pkg_addr r) (pkg_name r) (ipkg r) (depends r) (install_if r) (provides r) (recommends
    r) v (version r) (arch r) (license r) (origin r) (maintainer r) (url r) (description r)
    (commit r) (installed_size r) (size r) (build_time r) (foreach_genid r) (repos r)
    (provider_priority r) (filename_ndx r) (marked r) (uninstallable r)
    (cached_non_repository r) (cached r) (layer r) (digest_alg r) (digest r).
Definition set_version (v : option bytes) (r : apk_package) : apk_package :=
  Pkg (pkg_addr r) (pkg_name r) (ipkg r) (depends r) (install_if r) (provides r) (recommends
    r) (tags r) v (arch r) (license r) (origin r) (maintainer r) (url r) (description r)
    (commit r) (installed_size r) (size r) (build_time r) (foreach_genid r) (repos r)
    (provider_priority r) (filename_ndx r) (marked r) (uninstallable r)
    (cached_non_repository r) (cached r) (layer r) (digest_alg r) (digest r).
Definition set_arch (v : bytes) (r : apk_package) : apk_package :=
  Pkg (pkg_addr r) (pkg_name r) (ipkg r) (depends r) (install_if r) (provides r) (recommends
    r) (tags r) (version r) v (license r) (origin r) (maintainer r) (url r) (description r)
    (commit r) (installed_size r) (size r) (build_time r) (foreach_genid r) (repos r)
    (provider_priority r) (filename_ndx r) (marked r) (uninstallable r)
    (cached_non_repository r) (cached r) (layer r) (digest_alg r) (digest r).
Definition set_license (v : bytes) (r : apk_package) : apk_package :=
  Pkg (pkg_addr r) (pkg_name r) (ipkg r) (depends r) (install_if r) (provides r) (recommends
    r) (tags r) (version r) (arch r) v (origin r) (maintainer r) (url r) (description r)
    (commit r) (installed_size r) (size r) (build_time r) (foreach_genid r) (repos r)
    (provider_priority r) (filename_ndx r) (marked r) (uninstallable r)
    (cached_non_repository r) (cached r) (layer r) (digest_alg r) (digest r).
Definition set_origin (v : bytes) (r : apk_package) : apk_package :=
  Pkg (pkg_addr r) (pkg_name r) (ipkg r) (depends r) (install_if r) (provides r) (recommends
    r) (tags r) (version r) (arch r) (license r) v (maintainer r) (url r) (description r)
    (commit r) (installed_size r) (size r) (build_time r) (foreach_genid r) (repos r)
    (provider_priority r) (filename_ndx r) (marked r) (uninstallable r)
    (cached_non_repository r) (cached r) (layer r) (digest_alg r) (digest r).
Definition set_maintainer (v : bytes) (r : apk_package) : apk_package :=
  Pkg (pkg_addr r) (pkg_name r) (ipkg r) (depends r) (install_if r) (provides r) (recommends
    r) (tags r) (version r) (arch r) (license r) (origin r) v (url r) (description r)
    (commit r) (installed_size r) (size r) (build_time r) (foreach_genid r) (repos r)
    (provider_priority r) (filename_ndx r) (marked r) (uninstallable r)
    (cached_non_repository r) (cached r) (layer r) (digest_alg r) (digest r).
Definition set_url (v : bytes) (r : apk_package) : apk_package :=
  Pkg (pkg_addr r) (pkg_name r) (ipkg r) (depends r) (install_if r) (provides r) (recommends
    r) (tags r) (version r) (arch r) (license r) (origin r) (maintainer r) v (description r)
    (commit r) (installed_size r) (size r) (build_time r) (foreach_genid r) (repos r)
    (provider_priority r) (filename_ndx r) (marked r) (uninstallable r)
    (cached_non_repository r) (cached r) (layer r) (digest_alg r) (digest r).
Definition set_description (v : bytes) (r : apk_package) : apk_package :=
  Pkg (pkg_addr r) (pkg_name r) (ipkg r) (depends r) (install_if r) (provides r) (recommends
    r) (tags r) (version r) (arch r) (license r) (origin r) (maintainer r) (url r) v (commit
    r) (installed_size r) (size r) (build_time r) (foreach_genid r) (repos r)
    (provider_priority r) (filename_ndx r) (marked r) (uninstallable r)
    (cached_non_repository r) (cached r) (layer r) (digest_alg r) (digest r).
Definition set_commit (v : bytes) (r : apk_package) : apk_package :=
  Pkg (pkg_addr r) (pkg_name r) (ipkg r) (depends r) (install_if r) (provides r) (recommends
    r) (tags r) (version r) (arch r) (license r) (origin r) (maintainer r) (url r)
    (description r) v (installed_size r) (size r) (build_time r) (foreach_genid r) (repos r)
    (provider_priority r) (filename_ndx r) (marked r) (uninstallable r)
    (cached_non_repository r) (cached r) (layer r) (digest_alg r) (digest r).
Definition set_installed_size (v : Z) (r : apk_package) : apk_package :=
  Pkg (pkg_addr r) (pkg_name r) (ipkg r) (depends r) (install_if r) (provides r) (recommends
    r) (tags r) (version r) (arch r) (license r) (origin r) (maintainer r) (url r)
    (description r) (commit r) v (size r) (build_time r) (foreach_genid r) (repos r)
    (provider_priority r) (filename_ndx r) (marked r) (uninstallable r)
    (cached_non_repository r) (cached r) (layer r) (digest_alg r) (digest r).
Definition set_size (v : Z) (r : apk_package) : apk_package :=
  Pkg (pkg_addr r) (pkg_name r) (ipkg r) (depends r) (install_if r) (provides r) (recommends
    r) (tags r) (version r) (arch r) (license r) (origin r) (maintainer r) (url r)
    (description r) (commit r) (installed_size r) v (build_time r) (foreach_genid r) (repos
    r) (provider_priority r) (filename_ndx r) (marked r) (uninstallable r)
    (cached_non_repository r) (cached r) (layer r) (digest_alg r) (digest r).
Definition set_build_time (v : Z) (r : apk_package) : apk_package :=
  Pkg (pkg_addr r) (pkg_name r) (ipkg r) (depends r) (install_if r) (provides r) (recommends
    r) (tags r) (version r) (arch r) (license r) (origin r) (maintainer r) (url r)
    (description r) (commit r) (installed_size r) (size r) v (foreach_genid r) (repos r)
    (provider_priority r) (filename_ndx r) (marked r) (uninstallable r)
    (cached_non_repository r) (cached r) (layer r) (digest_alg r) (digest r).
Definition set_foreach_genid (v : Z) (r : apk_package) : apk_package :=
  Pkg (pkg_addr r) (pkg_name r) (ipkg r) (depends r) (install_if r) (provides r) (recommends
    r) (tags r) (version r) (arch r) (license r) (origin r) (maintainer r) (url r)
    (description r) (commit r) (installed_size r) (size r) (build_time r) v (repos r)
    (provider_priority r) (filename_ndx r) (marked r) (uninstallable r)
    (cached_non_repository r) (cached r) (layer r) (digest_alg r) (digest r).
Definition set_provider_priority (v : Z) (r : apk_package) : apk_package :=
  Pkg (pkg_addr r) (pkg_name r) (ipkg r) (depends r) (install_if r) (provides r) (recommends
    r) (tags r) (version r) (arch r) (license r) (origin r) (maintainer r) (url r)
    (description r) (commit r) (installed_size r) (size r) (build_time r) (foreach_genid r)
    (repos r) v (filename_ndx r) (marked r) (uninstallable r) (cached_non_repository r)
    (cached r) (layer r) (digest_alg r) (digest r).
Definition set_uninstallable (v : bool) (r : apk_package) : apk_package :=
  Pkg (pkg_addr r) (pkg_name r) (ipkg r) (depends r) (install_if r) (provides r) (recommends
    r) (tags r) (version r) (arch r) (license r) (origin r) (maintainer r) (url r)
    (description r) (commit r) (installed_size r) (size r) (build_time r) (foreach_genid r)
    (repos r) (provider_priority r) (filename_ndx r) (marked r) v (cached_non_repository r)
    (cached r) (layer r) (digest_alg r) (digest r).

Definition set_repos (v : Z) (r : apk_package) : apk_package :=
  Pkg (pkg_addr r) (pkg_name r) (ipkg r) (depends r) (install_if r) (provides r) (recommends
    r) (tags r) (version r) (arch r) (license r) (origin r) (maintainer r) (url r)
    (description r) (commit r) (installed_size r) (size r) (build_time r) (foreach_genid r)
    v (provider_priority r) (filename_ndx r) (marked r) (uninstallable r)
    (cached_non_repository r) (cached r) (layer r) (digest_alg r) (digest r).
Definition set_recommends (v : list apk_dependency) (r : apk_package) : apk_package :=
  Pkg (pkg_addr r) (pkg_name r) (ipkg r) (depends r) (install_if r) (provides r) v (tags r)
    (version r) (arch r) (license r) (origin r) (maintainer r) (url r) (description r)
    (commit r) (installed_size r) (size r) (build_time r) (foreach_genid r) (repos r)
    (provider_priority r) (filename_ndx r) (marked r) (uninstallable r)
    (cached_non_repository r) (cached r) (layer r) (digest_alg r) (digest r).
Definition set_layer (v : Z) (r : apk_package) : apk_package :=
  Pkg (pkg_addr r) (pkg_name r) (ipkg r) (depends r) (install_if r) (provides r) (recommends
    r) (tags r) (version r) (arch r) (license r) (origin r) (maintainer r) (url r)
    (description r) (commit r) (installed_size r) (size r) (build_time r) (foreach_genid r)
    (repos r) (provider_priority r) (filename_ndx r) (marked r) (uninstallable r)
    (cached_non_repository r) (cached r) v (digest_alg r) (digest r).

(** The texts behind the two pointers. *)
Definition pkg_ver (p : apk_package) : bytes := match version p with Some v => v | None => [] end.
Definition pkg_nm (p : apk_package) : bytes := match pkg_name p with Some n => n | None => [] end.

Definition apk_pkg_hash_blob (p : apk_package) : bytes := ztake APK_DIGEST_LENGTH_SHA1 (digest p).
Definition apk_pkg_digest_blob (p : apk_package) : bytes := ztake (apk_digest_alg_len (digest_alg p)) (digest p).

Record apk_provider := Provider { prov_pkg : option apk_package; prov_version : bytes }.
Definition APK_PROVIDER_FROM_PACKAGE (p : apk_package) : apk_provider := Provider (Some p) (pkg_ver p).
Definition APK_PROVIDER_FROM_PROVIDES (p : apk_package) (d : apk_dependency) : apk_provider :=
  Provider (Some p) (dep_version d).

(** ** Matching *)

(** Reading a checksum from a dependency that does not hold a well-formed one leaves the
    digest on the stack partly unset, so the comparison has no defined result; it is this
    parameter. *)
Class UndefChecksum := undef_checksum : bytes -> bytes -> bool.

Definition digest_on_stack : apk_digest := Digest APK_DIGEST_NONE 0 (replicate 64 0).

Definition apk_dep_match_checksum `{UndefChecksum} (dep : apk_dependency) (pkg : apk_package) : bool :=
  match apk_blob_pull_digest (Some (dep_version dep)) digest_on_stack with
  | Some (b, d) =>
      if APK_BLOB_IS_NULL b && negb (d_len d =? 0) then undef_checksum (dep_version dep) (digest pkg)
      else apk_blob_compare (Some (apk_digest_blob d)) (Some (apk_pkg_hash_blob pkg)) =? 0
  | None => undef_checksum (dep_version dep) (digest pkg)
  end.

Definition apk_dep_is_provided `{UndefChecksum} (deppkg : option apk_package) (dep : apk_dependency)
    (p : option apk_provider) : bool :=
  match p with
  | None => apk_dep_conflict dep
  | Some p =>
      match prov_pkg p with
      | None => apk_dep_conflict dep
      | Some pkg =>
          if apk_dep_conflict dep && match deppkg with Some dp => pkg_addr dp =? pkg_addr pkg | None => false end
          then true
          else if dep_op dep =? APK_DEPMASK_CHECKSUM then apk_dep_match_checksum dep pkg
          else apk_version_match (Some (prov_version p)) (dep_op dep) (Some (dep_version dep))
      end
  end.

Definition apk_dep_is_materialized `{UndefChecksum} (dep : apk_dependency) (pkg : option apk_package) : bool :=
  match pkg with
  | None => apk_dep_conflict dep
  | Some pkg =>
      if negb (bool_decide (Some (dep_name dep) = pkg_name pkg)) then apk_dep_conflict dep
      else if dep_op dep =? APK_DEPMASK_CHECKSUM then apk_dep_match_checksum dep pkg
      else apk_version_match (Some (pkg_ver pkg)) (dep_op dep) (Some (dep_version dep))
  end.

Definition APK_DEP_IRRELEVANT : Z := 0x01.
Definition APK_DEP_SATISFIES : Z := 0x02.
Definition APK_DEP_CONFLICTS : Z := 0x04.

Definition apk_dep_analyze `{UndefChecksum} (deppkg : option apk_package) (dep : apk_dependency)
    (pkg : option apk_package) : Z :=
  match pkg with
  | None => APK_DEP_IRRELEVANT
  | Some p =>
      if bool_decide (Some (dep_name dep) = pkg_name p)
      then if apk_dep_is_materialized dep pkg then APK_DEP_SATISFIES else APK_DEP_CONFLICTS
      else match List.find (fun q => bool_decide (dep_name q = dep_name dep)) (provides p) with
           | Some q => if apk_dep_is_provided deppkg dep (Some (APK_PROVIDER_FROM_PROVIDES p q))
                       then APK_DEP_SATISFIES else APK_DEP_CONFLICTS
           | None => APK_DEP_IRRELEVANT
           end
  end.

(** The dependency on exactly one package, by its hash; [None] if the hash has no text. *)
Definition apk_dep_from_pkg (pkg : apk_package) : apk_dependency :=
  Dep (pkg_nm pkg) (blob_data (apk_blob_pushed 64 (apk_blob_push_hash (wbuf_new 64) (apk_pkg_hash_blob pkg))))
      APK_DEPMASK_CHECKSUM false 0 0.

Definition apk_pkg_version_compare (a b : apk_package) : Z :=
  if bool_decide (version a = version b) then APK_VERSION_EQUAL
  else apk_version_compare (Some (pkg_ver a)) (Some (pkg_ver b)).

(** ** Ownership of directories and files *)

Definition APK_PKG_REPLACES_YES : Z := 0.
Definition APK_PKG_REPLACES_NO : Z := 1.
Definition APK_PKG_REPLACES_CONFLICT : Z := 2.

(** [None] is a NULL dereference: a package that is not installed. *)
Definition apk_pkg_replaces_dir (a b : apk_package) : option Z :=
  match pkg_name a, pkg_name b with
  | None, _ => Some APK_PKG_REPLACES_NO
  | _, None => Some APK_PKG_REPLACES_YES
  | Some an, Some bn =>
      if bool_decide (an = bn) then Some APK_PKG_REPLACES_YES
      else match ipkg a, ipkg b with
      | Some ai, Some bi =>
          Some (
            if to_be_removed ai then APK_PKG_REPLACES_YES
            else if to_be_removed bi then APK_PKG_REPLACES_NO
            else if replaces_priority bi <? replaces_priority ai then APK_PKG_REPLACES_NO
            else if replaces_priority ai <? replaces_priority bi then APK_PKG_REPLACES_YES
            else
              let same_origin := negb (zlen (origin a) =? 0) && bool_decide (origin a = origin b) in
              if same_origin && (apk_blob_compare (Some (origin a)) (Some an) =? 0) then APK_PKG_REPLACES_NO
              else if same_origin && (apk_blob_compare (Some (origin b)) (Some bn) =? 0) then APK_PKG_REPLACES_YES
              else if strcmp an bn <=? 0 then APK_PKG_REPLACES_NO
              else APK_PKG_REPLACES_YES)
      | _, _ => None
      end
  end.

(** The priority with which an installed package replaces another, -1 if it does not. *)
Definition replaces_prio `{UndefChecksum} (i : apk_installed_package) (other : apk_package) : Z :=
  if existsb (fun dep => apk_dep_is_materialized dep (Some other)) (replaces i)
  then replaces_priority i else -1.

Definition apk_pkg_replaces_file `{UndefChecksum} (a b : apk_package) : option Z :=
  match pkg_name a with
  | None => Some APK_PKG_REPLACES_YES
  | Some an =>
      if bool_decide (Some an = pkg_name b) then Some APK_PKG_REPLACES_YES
      else match ipkg a, ipkg b with
      | Some ai, Some bi =>
          Some (
            if to_be_removed ai then APK_PKG_REPLACES_YES
            else if to_be_removed bi then APK_PKG_REPLACES_NO
            else
              let a_prio := replaces_prio ai b in
              let b_prio := replaces_prio bi a in
              if b_prio <? a_prio then APK_PKG_REPLACES_NO
              else if 0 <=? b_prio then APK_PKG_REPLACES_YES
              else if negb (zlen (origin a) =? 0) && bool_decide (origin a = origin b)
              then APK_PKG_REPLACES_YES
              else APK_PKG_REPLACES_CONFLICT)
      | _, _ => None
      end
  end.

(** ** Templates: reading package information *)

Record apk_package_tmpl := Tmpl { tm_pkg : apk_package; tm_id : apk_digest }.

Definition pkg_reset (addr : Z) : apk_package :=
  Pkg addr None None [] [] [] [] [] None [] [] [] [] [] [] [] 0 0 0 0 0 0 0 false false false false 0 0 [].

(** The template is reset in place: the fields are those of a fresh one.  (The arrays keep
    their memory, Array.v.) *)
Definition apk_pkgtmpl_reset (t : apk_package_tmpl) : apk_package_tmpl :=
  Tmpl (pkg_reset (pkg_addr (tm_pkg t))) (Digest APK_DIGEST_NONE 0 (replicate 64 0)).

Definition apk_pkgtmpl_init (addr : Z) : apk_package_tmpl :=
  Tmpl (pkg_reset addr) (Digest APK_DIGEST_NONE 0 (replicate 64 0)).

(** What apk_pkgtmpl_add_info changes of the database. *)
Record db_compat := Compat {
  db_tags : repo_tags;
  compat_depversions : bool;
  compat_notinstallable : bool;
  compat_newfeatures : bool;
}.

Definition with_pkg (t : apk_package_tmpl) (f : apk_package -> apk_package) : apk_package_tmpl :=
  Tmpl (f (tm_pkg t)) (tm_id t).

(** The letters handled by the installed database reader. *)
Definition fdb_fields : bytes := bs "FMRZrqasfg".

(** A field that is a list of dependencies: [ok] stores the list, [bad] adds what a failed
    parse does. *)
Definition add_info_deps (db : db_compat) (value : bytes) (deps : list apk_dependency)
    (ok bad : list apk_dependency -> db_compat -> db_compat * apk_package_tmpl)
    : option (db_compat * apk_package_tmpl * Z) :=
  match apk_blob_pull_deps (Some value) (db_tags db) deps false with
  | None => None
  | Some (rc, tgs, deps) =>
      let db := Compat tgs (compat_depversions db) (compat_notinstallable db) (compat_newfeatures db) in
      if negb (rc =? 0)
      then let '(db, t) := bad deps (Compat tgs true (compat_notinstallable db) (compat_newfeatures db)) in
           Some (db, t, 2)
      else let '(db, t) := ok deps db in Some (db, t, 0)
  end.

Definition is_field (field : Z) (c : ascii) : bool := field =? chr c.

(** [None] stands for an out-of-bounds read while a digest is parsed. *)
Definition apk_pkgtmpl_add_info (db : db_compat) (t : apk_package_tmpl) (field : Z) (value : bytes)
    : option (db_compat * apk_package_tmpl * Z) :=
  let set f := Some (db, with_pkg t f, 0) in
  let number f := Some (db, with_pkg t (f (apk_blob_pull_uint value 10).1), 0) in
  if is_field field "P" then set (set_pkg_name (Some value))
  else if is_field field "V" then set (set_version (Some value))
  else if is_field field "T" then set (set_description value)
  else if is_field field "U" then set (set_url value)
  else if is_field field "L" then set (set_license value)
  else if is_field field "A" then set (set_arch value)
  else if is_field field "D" then
    add_info_deps db value (depends (tm_pkg t))
      (fun l db => (db, with_pkg t (set_depends l)))
      (fun l db => (Compat (db_tags db) (compat_depversions db) true (compat_newfeatures db),
                    with_pkg t (fun p => set_uninstallable true (set_depends l p))))
  else if is_field field "C" then
    match apk_blob_pull_digest (Some value) (tm_id t) with
    | None => None
    | Some (b, d) => Some (db, Tmpl (tm_pkg t) d, if APK_BLOB_IS_NULL b then - APKE_V2PKG_FORMAT else 0)
    end
  else if is_field field "S" then number set_size
  else if is_field field "I" then number set_installed_size
  else if is_field field "p" then
    add_info_deps db value (provides (tm_pkg t))
      (fun l db => (db, with_pkg t (set_provides l))) (fun l db => (db, with_pkg t (set_provides l)))
  else if is_field field "i" then
    add_info_deps db value (install_if (tm_pkg t))
      (fun l db => (db, with_pkg t (set_install_if l))) (fun l db => (db, with_pkg t (set_install_if [])))
  else if is_field field "o" then set (set_origin value)
  else if is_field field "m" then set (set_maintainer value)
  else if is_field field "t" then number (fun n => set_build_time (s64 n))
  else if is_field field "c" then set (set_commit value)
  else if is_field field "k" then number (fun n => set_provider_priority (u16 n))
  else if existsb (Z.eqb field) fdb_fields then Some (db, t, 1)
  else if negb (islower field)
  then Some (Compat (db_tags db) (compat_depversions db) true true, with_pkg t (set_uninstallable true), 2)
  else Some (Compat (db_tags db) (compat_depversions db) (compat_notinstallable db) true, t, 2).

(** The keys of a .PKGINFO line and the index letter each stands for. *)
Definition pkginfo_fields : list (bytes * Z) :=
  map (fun p => (bs (fst p), chr (snd p)))
    [("pkgname", "P"%char); ("pkgver", "V"%char); ("pkgdesc", "T"%char); ("url", "U"%char); ("size", "I"%char);
     ("license", "L"%char); ("arch", "A"%char); ("depend", "D"%char); ("install_if", "i"%char);
     ("provides", "p"%char); ("origin", "o"%char); ("maintainer", "m"%char); ("builddate", "t"%char);
     ("commit", "c"%char); ("provider_priority", "k"%char)]%string.

(** [control] is apk_extract_v2_control (ExtractV2.v) on the state [e] of the extraction, which
    takes the digest of the data from the line. *)
Definition read_info_line {E} (control : E -> bytes -> bytes -> option E) (e : E) (db : db_compat) (t : apk_package_tmpl) (line : blob)
    : option (E * (db_compat * apk_package_tmpl * Z)) :=
  if (blob_len line <? 1) || (List.hd 0 (blob_data line) =? chr "#") then Some (e, (db, t, 0))
  else match apk_blob_split line (bs " = ") with
       | None => Some (e, (db, t, 0))
       | Some (l, r) =>
           e ← control e l r;
           match List.find (fun f => apk_blob_compare (Some (fst f)) (Some l) =? 0) pkginfo_fields with
           | Some f => pair e <$> apk_pkgtmpl_add_info db t (snd f) r
           | None => Some (e, (db, t, 0))
           end
       end.

(** ** Scripts *)

Definition apk_script_types : list bytes :=
  map bs ["pre-install"; "post-install"; "pre-deinstall"; "post-deinstall"; "pre-upgrade"; "post-upgrade"; "trigger"]%string.

Fixpoint script_type_loop (types : list bytes) (i : Z) (name : bytes) : Z :=
  match types with
  | [] => APK_SCRIPT_INVALID
  | t :: types => if strcmp t name =? 0 then i else script_type_loop types (i + 1) name
  end.
Definition apk_script_type (name : bytes) : Z := script_type_loop apk_script_types 0 name.

Definition apk_ipkg_assign_script (i : apk_installed_package) (type : Z) (b : blob) : apk_installed_package * Z :=
  match b with
  | None => (i, -1)
  | Some _ => if APK_SCRIPT_MAX <=? type then (i, -1)
              else (set_scripts (<[Z.to_nat type := b]> (scripts i)) i, 0)
  end.

(** ** The index text *)

(** A stream that accepts everything is the bytes written; [None] is a failed write. *)
Definition write_depends (os : bytes) (field : bytes) (deps : list apk_dependency) : option bytes :=
  if zlen deps =? 0 then Some os
  else match apk_deps_write None deps (bs " ") (os ++ field) with
       | None => None
       | Some (os, _) => Some (os ++ [10])
       end.

Definition push_field (to : option wbuf) (tag : bytes) (value : bytes) : option wbuf :=
  apk_blob_push_blob (apk_blob_push_blob to tag) value.

Definition push_field_opt (to : option wbuf) (tag : bytes) (value : bytes) : option wbuf :=
  if negb (zlen value =? 0) then push_field to tag value else to.

(** The number is converted to the 64-bit argument of apk_blob_push_uint. *)
Definition push_uint_opt (to : option wbuf) (tag : bytes) (value : Z) : option wbuf :=
  if negb (value =? 0) then apk_blob_push_uint (apk_blob_push_blob to tag) (u64 value) 10 else to.

Definition nl (s : string) : bytes := 10 :: bs s.

Definition apk_pkg_write_index_header (info : apk_package) (os : bytes) : option bytes :=
  let b := wbuf_new 2048 in
  let b := apk_blob_push_blob b (bs "C:") in
  let b := apk_blob_push_hash b (apk_pkg_hash_blob info) in
  let b := push_field b (nl "P:") (pkg_nm info) in
  let b := push_field b (nl "V:") (pkg_ver info) in
  let b := push_field_opt b (nl "A:") (arch info) in
  let b := apk_blob_push_uint (apk_blob_push_blob b (nl "S:")) (size info) 10 in
  let b := apk_blob_push_uint (apk_blob_push_blob b (nl "I:")) (installed_size info) 10 in
  let b := push_field b (nl "T:") (description info) in
  let b := push_field b (nl "U:") (url info) in
  let b := push_field b (nl "L:") (license info) in
  let b := push_field_opt b (nl "o:") (origin info) in
  let b := push_field_opt b (nl "m:") (maintainer info) in
  let b := push_uint_opt b (nl "t:") (build_time info) in
  let b := push_field_opt b (nl "c:") (commit info) in
  let b := push_uint_opt b (nl "k:") (provider_priority info) in
  let b := apk_blob_push_blob b [10] in
  match apk_blob_pushed 2048 b with
  | None => None
  | Some l =>
      match write_depends (os ++ l) (bs "D:") (depends info) with
      | None => None
      | Some os =>
          match write_depends os (bs "p:") (provides info) with
          | None => None
          | Some os => write_depends os (bs "i:") (install_if info)
          end
      end
  end.

Definition apk_pkg_write_index_entry (info : apk_package) (os : bytes) : option bytes :=
  match apk_pkg_write_index_header info os with
  | None => None
  | Some os => Some (os ++ [10])
  end.

(** ** Ownership *)

(** Two different installed packages with names. *)
Record rivals (a b : apk_package) (an bn : bytes) (ai bi : apk_installed_package) : Prop := {
  rv_a : pkg_name a = Some an; rv_b : pkg_name b = Some bn;
  rv_ai : ipkg a = Some ai; rv_bi : ipkg b = Some bi;
  rv_ne : an <> bn;
  rv_nul : Forall (fun c => c <> 0) an /\ Forall (fun c => c <> 0) bn;
  rv_prio : 0 <= replaces_priority ai /\ 0 <= replaces_priority bi;
}.

Lemma replaces_dir_unfold a b an bn ai bi :
  rivals a b an bn ai bi ->
  apk_pkg_replaces_dir a b = Some (
    if to_be_removed ai then APK_PKG_REPLACES_YES
    else if to_be_removed bi then APK_PKG_REPLACES_NO
    else if replaces_priority bi <? replaces_priority ai then APK_PKG_REPLACES_NO
    else if replaces_priority ai <? replaces_priority bi then APK_PKG_REPLACES_YES
    else
      let same_origin := negb (zlen (origin a) =? 0) && bool_decide (origin a = origin b) in
      if same_origin && (apk_blob_compare (Some (origin a)) (Some an) =? 0) then APK_PKG_REPLACES_NO
      else if same_origin && (apk_blob_compare (Some (origin b)) (Some bn) =? 0) then APK_PKG_REPLACES_YES
      else if strcmp an bn <=? 0 then APK_PKG_REPLACES_NO
      else APK_PKG_REPLACES_YES).
Proof.
  intros []. unfold apk_pkg_replaces_dir. by rewrite rv_a0, rv_b0, rv_ai0, rv_bi0, bool_decide_eq_false_2.
Qed.

Lemma rivals_sym a b an bn ai bi : rivals a b an bn ai bi -> rivals b a bn an bi ai.
Proof. intros [? ? ? ? ? [] []]. split; auto. Qed.

(** Between two different installed packages that are not being removed, exactly one owns
    a directory, and which one does not depend on the order in which they are asked: the
    decision is YES for one order exactly when it is NO for the other. *)
Theorem apk_pkg_replaces_dir_antisym a b an bn ai bi :
  rivals a b an bn ai bi -> to_be_removed ai = false -> to_be_removed bi = false ->
  (apk_pkg_replaces_dir a b = Some APK_PKG_REPLACES_YES /\ apk_pkg_replaces_dir b a = Some APK_PKG_REPLACES_NO) \/
  (apk_pkg_replaces_dir a b = Some APK_PKG_REPLACES_NO /\ apk_pkg_replaces_dir b a = Some APK_PKG_REPLACES_YES).
Proof.
  intros H Ha Hb. rewrite (replaces_dir_unfold a b an bn ai bi H).
  rewrite (replaces_dir_unfold b a bn an bi ai (rivals_sym _ _ _ _ _ _ H)).
  destruct H as [_ _ _ _ Hne [Hn1 Hn2] _]. rewrite Ha, Hb. cbn zeta.
  destruct (Z.ltb_spec (replaces_priority bi) (replaces_priority ai)),
    (Z.ltb_spec (replaces_priority ai) (replaces_priority bi)); try lia; auto.
  pose proof (strcmp_antisym an bn) as Hanti. pose proof (strcmp_eq an bn Hn1 Hn2) as Heq.
  assert (Hs : strcmp an bn <> 0) by (rewrite Heq; done).
  assert (Hlast : (strcmp bn an <=? 0) = negb (strcmp an bn <=? 0)).
  { destruct (Z.leb_spec (strcmp bn an) 0), (Z.leb_spec (strcmp an bn) 0); cbn; lia || done. }
  destruct (decide (origin a = origin b)) as [Eo|Eo].
  - rewrite <- Eo, !bool_decide_eq_true_2 by done.
    destruct (zlen (origin a) =? 0); cbn [negb andb].
    + rewrite Hlast. destruct (strcmp an bn <=? 0); auto.
    + destruct (Z.eqb_spec (apk_blob_compare (Some (origin a)) (Some an)) 0) as [E1|E1],
        (Z.eqb_spec (apk_blob_compare (Some (origin a)) (Some bn)) 0) as [E2|E2]; auto.
      * rewrite apk_blob_compare_eq in E1, E2. congruence.
      * rewrite Hlast. destruct (strcmp an bn <=? 0); auto.
  - rewrite (bool_decide_eq_false_2 (origin a = origin b)), (bool_decide_eq_false_2 (origin b = origin a)),
      !andb_false_r by congruence. cbn [andb].
    rewrite Hlast. destruct (strcmp an bn <=? 0); auto.
Qed.

(** An installed package with a name, an origin and a priority. *)
Definition sample_pkg (addr : Z) (name orig : string) (prio : Z) : apk_package :=
  set_ipkg (Some (set_replaces_priority prio ipkg_new))
    (set_origin (bs orig) (set_pkg_name (Some (bs name)) (pkg_reset addr))).

Lemma apk_pkg_replaces_dir_antisym_witness :
  let a := sample_pkg 1 "busybox" "busybox" 0 in
  let b := sample_pkg 2 "ash" "busybox" 0 in
  apk_pkg_replaces_dir a b = Some APK_PKG_REPLACES_NO /\ apk_pkg_replaces_dir b a = Some APK_PKG_REPLACES_YES.
Proof.
  intros a b.
  destruct (apk_pkg_replaces_dir_antisym a b (bs "busybox") (bs "ash")
    (set_replaces_priority 0 ipkg_new) (set_replaces_priority 0 ipkg_new)) as [[H _]|H]; [|done|done| |exact H].
  - split; try done. split; repeat constructor; discriminate.
  - exfalso. vm_compute in H. discriminate H.
Defined.

(** The directory ownership rule is not transitive: with equal priorities, a package named
    like its origin beats a sibling of smaller name, the sibling beats an unrelated package by
    name, and that package beats the first one by name.  The owner of a directory shared by
    the three therefore depends on the order in which they are considered, although the last
    rule is there "to have stable sort". *)
Theorem apk_pkg_replaces_dir_cycle :
  let a := sample_pkg 1 "zsh" "zsh" 0 in
  let b := sample_pkg 2 "a-zsh-doc" "zsh" 0 in
  let c := sample_pkg 3 "bash" "bash" 0 in
  apk_pkg_replaces_dir b a = Some APK_PKG_REPLACES_YES /\
  apk_pkg_replaces_dir c b = Some APK_PKG_REPLACES_YES /\
  apk_pkg_replaces_dir a c = Some APK_PKG_REPLACES_YES.
Proof. repeat split. Qed.

(** File ownership is decided consistently between two different installed packages: if
    the owner is kept for one order it is replaced for the other, and a conflict is reported
    for one order exactly when it is reported for the other. *)
Theorem apk_pkg_replaces_file_consistent `{UndefChecksum} a b an bn ai bi :
  rivals a b an bn ai bi ->
  (apk_pkg_replaces_file a b = Some APK_PKG_REPLACES_NO ->
   apk_pkg_replaces_file b a = Some APK_PKG_REPLACES_YES) /\
  (apk_pkg_replaces_file a b = Some APK_PKG_REPLACES_CONFLICT <->
   apk_pkg_replaces_file b a = Some APK_PKG_REPLACES_CONFLICT).
Proof.
  intros [Ha Hb Hai Hbi Hne _ [Hpa Hpb]]. unfold apk_pkg_replaces_file.
  unfold APK_PKG_REPLACES_YES, APK_PKG_REPLACES_NO, APK_PKG_REPLACES_CONFLICT.
  rewrite Ha, Hb, Hai, Hbi, (bool_decide_eq_false_2 (Some an = Some bn)),
    (bool_decide_eq_false_2 (Some bn = Some an)) by congruence.
  assert (Hra : -1 <= replaces_prio ai b) by (unfold replaces_prio; case_test; lia).
  assert (Hrb : -1 <= replaces_prio bi a) by (unfold replaces_prio; case_test; lia).
  cbn zeta. destruct (decide (origin a = origin b)) as [Eo|Eo].
  - rewrite Eo, bool_decide_eq_true_2 by done.
    destruct (to_be_removed ai), (to_be_removed bi); try (split; [|split]; congruence).
    destruct (Z.ltb_spec (replaces_prio bi a) (replaces_prio ai b)),
      (Z.ltb_spec (replaces_prio ai b) (replaces_prio bi a)),
      (Z.leb_spec 0 (replaces_prio bi a)), (Z.leb_spec 0 (replaces_prio ai b)),
      (negb (zlen (origin b) =? 0)); cbn [andb]; try lia; (split; [|split]; congruence).
  - rewrite (bool_decide_eq_false_2 (origin a = origin b)), (bool_decide_eq_false_2 (origin b = origin a)),
      !andb_false_r by congruence.
    destruct (to_be_removed ai), (to_be_removed bi); try (split; [|split]; congruence).
    destruct (Z.ltb_spec (replaces_prio bi a) (replaces_prio ai b)),
      (Z.ltb_spec (replaces_prio ai b) (replaces_prio bi a)),
      (Z.leb_spec 0 (replaces_prio bi a)), (Z.leb_spec 0 (replaces_prio ai b));
      try lia; (split; [|split]; congruence).
Qed.

#[local] Instance undef_false : UndefChecksum := fun _ _ => false.

Lemma apk_pkg_replaces_file_consistent_witness :
  let a := sample_pkg 1 "busybox" "busybox" 0 in
  let b := sample_pkg 2 "coreutils" "coreutils" 0 in
  apk_pkg_replaces_file a b = Some APK_PKG_REPLACES_CONFLICT /\
  apk_pkg_replaces_file b a = Some APK_PKG_REPLACES_CONFLICT.
Proof.
  intros a b. split; [reflexivity|].
  apply (apk_pkg_replaces_file_consistent a b (bs "busybox") (bs "coreutils")
    (set_replaces_priority 0 ipkg_new) (set_replaces_priority 0 ipkg_new)); [|reflexivity].
  split; try done. split; repeat constructor; discriminate.
Defined.

(** ** Dependencies on one package *)

Lemma pushed_new n l : zlen l <= n -> apk_blob_pushed n (apk_blob_push_blob (wbuf_new n) l) = Some l.
Proof.
  intros Hl. cbn. destruct (Z.ltb_spec n (zlen l)); [lia|]. cbn.
  by replace (zlen l + (n - zlen l) =? n) with true by (symmetry; apply Z.eqb_eq; lia).
Qed.

Lemma dep_from_pkg_version p :
  20 <= zlen (digest p) -> dep_version (apk_dep_from_pkg p) = hash_text (apk_pkg_hash_blob p).
Proof.
  intros Hl. unfold apk_dep_from_pkg. cbn [dep_version].
  assert (Hh : zlen (apk_pkg_hash_blob p) = APK_DIGEST_LENGTH_SHA1)
    by (apply zlen_ztake; unfold APK_DIGEST_LENGTH_SHA1; lia).
  rewrite (apk_blob_push_hash_text _ Hh (wbuf_new 64)), pushed_new; [done|].
  unfold hash_text. rewrite zlen_app, zlen_b64_dump, Hh. done.
Qed.

Lemma match_checksum_hash `{UndefChecksum} dep hash q :
  bytes_ok hash -> zlen hash = APK_DIGEST_LENGTH_SHA1 -> dep_version dep = hash_text hash ->
  apk_dep_match_checksum dep q = bool_decide (hash = apk_pkg_hash_blob q).
Proof.
  intros Hok Hlen Hv. unfold apk_dep_match_checksum. rewrite Hv, <- (app_nil_r (hash_text hash)).
  rewrite pull_digest_hash_text by done. cbn [APK_BLOB_IS_NULL andb].
  assert (Hb : forall data, apk_digest_blob (Digest APK_DIGEST_SHA1 20 (hash ++ data)) = hash).
  { intros data. unfold apk_digest_blob. cbn [d_len d_data].
    change 20 with APK_DIGEST_LENGTH_SHA1. rewrite <- Hlen. apply ztake_app. }
  rewrite Hb. case_bool_decide as E.
  - subst. by rewrite (proj2 (apk_blob_compare_eq _ _) eq_refl).
  - apply Z.eqb_neq. by rewrite apk_blob_compare_eq.
Qed.

(** The dependency made from a package (apk_dep_from_pkg) is satisfied by exactly the
    packages of the same name with the same 20-byte hash: the hash survives the trip through
    its text form, and every other package is refused. *)
Theorem apk_dep_from_pkg_exact `{UndefChecksum} p q :
  is_Some (pkg_name p) -> bytes_ok (digest p) -> 20 <= zlen (digest p) ->
  apk_dep_is_materialized (apk_dep_from_pkg p) (Some q) = true <->
  pkg_name q = pkg_name p /\ apk_pkg_hash_blob q = apk_pkg_hash_blob p.
Proof.
  intros [n Hn] Hok Hl. unfold apk_dep_is_materialized.
  change (dep_name (apk_dep_from_pkg p)) with (pkg_nm p).
  change (dep_op (apk_dep_from_pkg p)) with APK_DEPMASK_CHECKSUM.
  change (apk_dep_conflict (apk_dep_from_pkg p)) with false. unfold pkg_nm. rewrite Hn.
  case_bool_decide as E; cbn [negb].
  - cbn [Z.eqb]. rewrite Z.eqb_refl, (match_checksum_hash _ (apk_pkg_hash_blob p)).
    + rewrite bool_decide_eq_true. split; [by intros ->|by intros [_ ->]].
    + by apply Forall_take.
    + apply zlen_ztake. unfold APK_DIGEST_LENGTH_SHA1. lia.
    + by apply dep_from_pkg_version.
  - split; [done|]. intros [Hq _]. congruence.
Qed.

Lemma apk_dep_from_pkg_exact_witness :
  let p := Pkg 1 (Some (bs "musl")) None [] [] [] [] [] (Some (bs "1")) [] [] [] [] [] [] [] 0 0 0 0 0 0 0
             false false false false 0 APK_DIGEST_SHA1 (replicate 20 7) in
  apk_dep_is_materialized (apk_dep_from_pkg p) (Some p) = true.
Proof.
  intros p. apply (apk_dep_from_pkg_exact p p); [by eexists| |vm_compute; discriminate|done].
  repeat constructor; unfold byte_ok; lia.
Defined.
