(* ===== verification/Subst.v ===== *)
(** Templates with variables (apk_blob_subst of blob.c): file names and URLs are made from texts such as
    "${name}-${version}.${hash:8}.apk".  The variables of packages (apk_pkg_subst and apk_pkg_subst_validate of
    package.c) and what a template is rendered to. *)
From Stdlib Require Import ZArith Lia Ascii String.
From stdpp Require Import base numbers list option.
From S2P Require Import Prelude Clib Blob Codec Dep Package.

Definition ENOBUFS : Z := 105.

Section subst.
(** [buf] is the address of the buffer, [res] the function that writes the value of a variable. *)
Context (buf : Z) (res : bytes -> option wbuf -> Z * option wbuf).

(** "to.ptr > max_advance": the cursor goes back to [max].  [None] when that is before the buffer; the test is
    false for the null pointer of a cursor that has overflown. *)
Definition clip (max : Z) (to : option wbuf) : option (option wbuf) :=
  match to with
  | None => Some None
  | Some w =>
      if max <? buf + zlen (w_done w) then
        let n := max - buf in
        if n <? 0 then None else Some (Some (WBuf (ztake n (w_done w)) (w_room w + (zlen (w_done w) - n))))
      else Some (Some w)
  end.

(** The variable and the address that its value may reach; an error for other text after the number. *)
Definition subst_key (key : bytes) (w : wbuf) : Z + bytes * Z :=
  match apk_blob_split (Some key) (bs ":") with
  | None => inr (key, buf + zlen (w_done w) + w_room w)
  | Some (key, len) =>
      let '(n, len) := apk_blob_pull_uint len 10 in
      if negb (zlen len =? 0) then inl (- APKE_FORMAT_INVALID) else inr (key, u64 (buf + zlen (w_done w) + n))
  end.

(** The loop: an error, or the bytes up to the terminating zero.  [None] when memory before the buffer is
    written.  Every turn shortens the template, so its length bounds the number of turns. *)
Fixpoint subst_loop (fuel : nat) (fmt : bytes) (to : option wbuf) : option (Z + bytes) :=
  match apk_blob_split (Some fmt) (bs "${") with
  | None =>
      match apk_blob_push_blob (apk_blob_push_blob to fmt) [0] with
      | None => Some (inl (- ENOBUFS))
      | Some w => Some (inr (ztake (zlen (w_done w) - 1) (w_done w)))
      end
  | Some (prefix, rest) =>
      match fuel with
      | O => None
      | S fuel =>
          match apk_blob_push_blob to prefix with
          | None => Some (inl (- ENOBUFS))
          | Some w =>
              match apk_blob_split (Some rest) (bs "}") with
              | None => Some (inl (- APKE_FORMAT_INVALID))
              | Some (key, fmt) =>
                  match subst_key key w with
                  | inl r => Some (inl r)
                  | inr (key, max_advance) =>
                      let '(ret, to) := res key (Some w) in
                      if ret <? 0 then Some (inl ret)
                      else to ← clip max_advance to; subst_loop fuel fmt to
                  end
              end
          end
      end
  end.

Definition apk_blob_subst (sz : Z) (fmt : bytes) : option (Z + bytes) := subst_loop (S (length fmt)) fmt (wbuf_new sz).
End subst.

(** ** Packages *)

Definition apk_pkg_subst (pkg : apk_package) (key : bytes) (to : option wbuf) : Z * option wbuf :=
  let named k := apk_blob_compare (Some key) (Some k) =? 0 in
  if named (bs "name") then (0, apk_blob_push_blob to (default [] (pkg_name pkg)))
  else if named (bs "version") then (0, apk_blob_push_blob to (default [] (version pkg)))
  else if named (bs "arch") then (0, apk_blob_push_blob to (arch pkg))
  else if named (bs "hash") then (0, apk_blob_push_hexdump to (ztake (apk_digest_alg_len (digest_alg pkg)) (digest pkg)))
  else (- APKE_PACKAGE_NAME_SPEC, to).

(** The package that templates are tried with. *)
Definition subst_test_pkg : apk_package :=
  set_arch (bs "noarch") (set_version (Some (bs "1")) (set_pkg_name (Some (bs "test")) (pkg_reset 0))).

Definition apk_pkg_subst_validate (buf : Z) (fmt : bytes) : option Z :=
  r ← apk_blob_subst buf (apk_pkg_subst subst_test_pkg) 1024 fmt;
  match r with
  | inl r => Some r
  | inr _ =>
      let fmt := match apk_blob_rsplit fmt (chr "/") with Some (_, fmt) => fmt | None => fmt end in
      if negb (apk_blob_starts_with fmt (bs "${name}")) then Some (- APKE_PACKAGE_NAME_SPEC)
      else if (zlen fmt <? 8) || negb (existsb (Z.eqb (znth 0 fmt 7)) (bs "_-." ++ [0])) then Some (- APKE_PACKAGE_NAME_SPEC)
      else Some 0
  end.

(** ** What templates are rendered to *)

(** A piece of a template: text, or a variable with a limit on the length of its value. *)
Inductive piece := Text (t : bytes) | Var (key : bytes) (limit : option Z).

Definition piece_text (p : piece) : bytes :=
  match p with
  | Text t => t
  | Var key None => bs "${" ++ key ++ bs "}"
  | Var key (Some n) => bs "${" ++ key ++ bs ":" ++ uint_text n 10 ++ bs "}"
  end.
Definition template (ps : list piece) : bytes := concat (map piece_text ps).

(** Text without dollar signs, keys without the characters of the syntax. *)
Definition piece_ok (p : piece) : Prop :=
  match p with
  | Text t => Forall (fun c => c <> chr "$") t
  | Var key limit => Forall (fun c => c <> chr "$" /\ c <> chr ":" /\ c <> chr "}") key /\ match limit with Some n => 0 <= n < 2 ^ 32 | None => True end
  end.

Definition limited (limit : option Z) (v : bytes) : bytes := match limit with Some n => ztake n v | None => v end.
Definition piece_value (val : bytes -> bytes) (p : piece) : bytes :=
  match p with Text t => t | Var key limit => limited limit (val key) end.
Definition rendered (val : bytes -> bytes) (ps : list piece) : bytes := concat (map (piece_value val) ps).

(** The room that is needed: a value is written in full before it is cut. *)
Fixpoint fits (val : bytes -> bytes) (room : Z) (ps : list piece) : Prop :=
  match ps with
  | [] => 0 < room
  | Text t :: ps => zlen t < room /\ fits val (room - zlen t) ps
  | Var key limit :: ps => zlen (val key) <= room /\ fits val (room - zlen (limited limit (val key))) ps
  end.
Definition defined (res : bytes -> option wbuf -> Z * option wbuf) (val : bytes -> bytes) (p : piece) : Prop :=
  match p with Text _ => True | Var key _ => forall to, res key to = (0, apk_blob_push_blob to (val key)) end.

Section render.
Context (buf : Z) (res : bytes -> option wbuf -> Z * option wbuf) (val : bytes -> bytes).
Hypothesis Hbuf : 0 <= buf.

Lemma limited_len limit v : zlen (limited limit v) <= zlen v.
Proof. destruct limit as [n|]; [|done]. cbn. unfold ztake, zlen. rewrite length_take. lia. Qed.

Lemma push_room w t : zlen t <= w_room w -> apk_blob_push_blob (Some w) t = Some (WBuf (w_done w ++ t) (w_room w - zlen t)).
Proof. intros Ht. cbn. destruct (Z.ltb_spec (w_room w) (zlen t)); [lia|done]. Qed.

(** The key of a variable, and its value cut to the limit. *)
Lemma subst_key_piece key limit w :
  piece_ok (Var key limit) -> 0 <= w_room w -> buf + zlen (w_done w) + w_room w + 2 ^ 32 < 2 ^ 64 ->
  subst_key buf (match limit with Some n => key ++ bs ":" ++ uint_text n 10 | None => key end) w =
  inr (key, match limit with Some n => buf + zlen (w_done w) + n | None => buf + zlen (w_done w) + w_room w end).
Proof.
  intros [Hk Hn] Hr Hs. unfold subst_key. assert (Hc : Forall (fun c => c <> 58) key) by (eapply Forall_impl; [|exact Hk]; by intros c (_ & ? & _)).
  pose proof (zlen_nonneg (w_done w)). destruct limit as [n|].
  - pose proof (split_one 58 key (uint_text n 10) Hc) as E. change (bs ":") with [58]. rewrite E.
    pose proof (uint_text_pull 10 n [] ltac:(lia) ltac:(lia) I) as Hp. rewrite app_nil_r in Hp. rewrite Hp. cbn [zlen length]. 
    rewrite wrap_small by lia. done.
  - change (bs ":") with [58]. destruct (apk_blob_split (Some key) [58]) as [[x y]|] eqn:E; [|done].
    apply apk_blob_split_some in E as [-> _]. apply Forall_app in Hc as [_ Hc]. by inversion Hc.
Qed.

Lemma clip_limit done v room limit :
  0 <= room -> match limit with Some n => 0 <= n | None => True end ->
  clip buf (match limit with Some n => buf + zlen done + n | None => buf + zlen done + zlen v + room end) (Some (WBuf (done ++ v) room)) =
  Some (Some (WBuf (done ++ limited limit v) (room + (zlen v - zlen (limited limit v))))).
Proof.
  intros Hr Hn. cbn [clip w_done w_room]. rewrite zlen_app. pose proof (zlen_nonneg done). destruct limit as [n|]; cbn [limited].
  - destruct (Z.ltb_spec (buf + zlen done + n) (buf + (zlen done + zlen v))).
    + replace (buf + zlen done + n - buf) with (zlen done + n) by lia. destruct (Z.ltb_spec (zlen done + n) 0); [lia|].
      rewrite ztake_app_ge by lia. replace (zlen done + n - zlen done) with n by lia. rewrite zlen_ztake by lia. do 3 f_equal. lia.
    + rewrite ztake_all by lia. do 3 f_equal. lia.
  - destruct (Z.ltb_spec (buf + zlen done + zlen v + room) (buf + (zlen done + zlen v))); [lia|]. do 3 f_equal. lia.
Qed.

Lemma no_dollar t : Forall (fun c => c <> 36) t -> apk_blob_split (Some t) [36; 123] = None.
Proof.
  intros Ht. destruct (apk_blob_split (Some t) [36; 123]) as [[x y]|] eqn:E; [|done].
  apply apk_blob_split_some in E as [-> _]. apply Forall_app in Ht as [_ Ht]. by inversion Ht.
Qed.

Lemma fits_pos room ps : fits val room ps -> 0 < room.
Proof.
  revert room. induction ps as [|[t|key limit] ps IH]; intros room; cbn [fits]; [done|pose proof (zlen_nonneg t); lia|].
  intros [_ H]. apply IH in H. pose proof (zlen_nonneg (limited limit (val key))). lia.
Qed.

(** The loop, with the text before the next piece. *)
Lemma subst_loop_render ps fuel t w :
  Forall piece_ok ps -> Forall (defined res val) ps -> Forall (fun c => c <> 36) t -> fits val (w_room w - zlen t) ps ->
  buf + zlen (w_done w) + w_room w + 2 ^ 32 < 2 ^ 64 -> (length (template ps) < fuel)%nat ->
  subst_loop buf res fuel (t ++ template ps) (Some w) = Some (inr (w_done w ++ t ++ rendered val ps)).
Proof.
  revert fuel t w. induction ps as [|p ps IH]; intros fuel t w Hok Hdef Ht Hfit Hsz Hf; pose proof (fits_pos _ _ Hfit) as Hroom.
  { destruct fuel as [|fuel]; [lia|]. cbn [subst_loop]. change (bs "${") with [36; 123]. rewrite app_nil_r, no_dollar by done. cbn [fits] in Hfit.
    rewrite push_room by lia. rewrite push_room by (cbn [w_room]; change (zlen [0]) with 1; lia). cbn [w_done]. rewrite zlen_app. change (zlen [0]) with 1.
    replace (zlen (w_done w ++ t) + 1 - 1) with (zlen (w_done w ++ t)) by lia. rewrite ztake_app_le, ztake_all by lia. by rewrite app_nil_r. }
  inversion_clear Hok as [|? ? Hp Hps]. inversion_clear Hdef as [|? ? Hd Hds]. unfold template, rendered in *. cbn [map concat] in *. rewrite length_app in Hf.
  destruct p as [t'|key limit]; cbn [piece_text piece_value fits] in *.
  - destruct Hfit as [Hfit1 Hfit2]. rewrite !app_assoc. pose proof (zlen_nonneg t'). rewrite (IH fuel (t ++ t') w); try done; try lia.
    + by rewrite <- !app_assoc.
    + apply Forall_app. split; [done|]. exact Hp.
    + rewrite zlen_app. by replace (w_room w - (zlen t + zlen t')) with (w_room w - zlen t - zlen t') by lia.
  - destruct Hfit as [Hfit1 Hfit2]. destruct fuel as [|fuel]; [lia|].
    set (inner := match limit with Some n => key ++ bs ":" ++ uint_text n 10 | None => key end).
    assert (Htxt : match limit with Some n => bs "${" ++ key ++ bs ":" ++ uint_text n 10 ++ bs "}" | None => bs "${" ++ key ++ bs "}" end =
      [36; 123] ++ inner ++ [125]) by (subst inner; destruct limit; by rewrite <- ?app_assoc).
    rewrite Htxt in *. rewrite !length_app in Hf. rewrite <- !app_assoc. cbn [subst_loop]. change (bs "${") with [36; 123].
    rewrite split_pair by done. rewrite push_room by lia. change (bs "}") with [125]. pose proof Hp as [Hk Hn].
    assert (Hin : Forall (fun c => c <> 125) inner).
    { subst inner. assert (H1 : Forall (fun c => c <> 125) key) by (eapply Forall_impl; [|exact Hk]; by intros c (_ & _ & ?)).
      destruct limit as [n|]; [|done]. apply Forall_app. split; [done|]. constructor; [done|].
      eapply Forall_impl; [|apply (decimal_text n ltac:(lia) 10); auto]. cbn. intros c Hc ->. lia. }
    rewrite (split_one 125 inner) by done. subst inner. pose proof (zlen_nonneg t).
    rewrite subst_key_piece; [|done|cbn; lia|cbn [w_done w_room]; rewrite zlen_app; lia]. cbn [w_done w_room]. rewrite Hd, push_room by (cbn; lia). cbn [w_done w_room Z.ltb Z.compare].
    pose proof (clip_limit (w_done w ++ t) (val key) (w_room w - zlen t - zlen (val key)) limit) as Hclip.
    replace (buf + zlen (w_done w ++ t) + zlen (val key) + (w_room w - zlen t - zlen (val key))) with (buf + zlen (w_done w ++ t) + (w_room w - zlen t)) in Hclip by lia.
    rewrite Hclip by (destruct limit; lia). cbn [mbind option_bind].
    pose proof (limited_len limit (val key)). rewrite <- (app_nil_l (concat (map piece_text ps))).
    rewrite IH; cbn [w_done w_room]; try done; rewrite ?zlen_app; change (zlen (@nil Z)) with 0; try lia.
    + cbn [app]. by rewrite <- !app_assoc.
    + by replace (w_room w - zlen t - zlen (val key) + (zlen (val key) - zlen (limited limit (val key))) - 0) with (w_room w - zlen t - zlen (limited limit (val key))) by lia.
    + cbn [length] in Hf. lia.
Qed.
End render.

(** C29: A template is rendered piece by piece: text as it is, variables with their values, cut to the limit where one
    is given.  The buffer must have room for every value before it is cut. *)
Theorem apk_blob_subst_renders buf sz res val ps :
  0 <= buf -> buf + sz + 2 ^ 32 < 2 ^ 64 -> Forall piece_ok ps -> Forall (defined res val) ps -> fits val sz ps ->
  apk_blob_subst buf res sz (template ps) = Some (inr (rendered val ps)).
Proof.
  intros Hb Hs Hok Hd Hf. unfold apk_blob_subst, wbuf_new. rewrite <- (app_nil_l (template ps)).
  rewrite (subst_loop_render buf res val); try done; cbn [w_done w_room app]; change (zlen (@nil Z)) with 0; rewrite ?Z.sub_0_r; done || lia.
Qed.

(** The values of the variables of a package. *)
Definition pkg_value (pkg : apk_package) (key : bytes) : bytes :=
  if bool_decide (key = bs "name") then default [] (pkg_name pkg)
  else if bool_decide (key = bs "version") then default [] (version pkg)
  else if bool_decide (key = bs "arch") then arch pkg
  else hexdump (ztake (apk_digest_alg_len (digest_alg pkg)) (digest pkg)).
Definition pkg_keys : list bytes := [bs "name"; bs "version"; bs "arch"; bs "hash"].

Lemma apk_pkg_subst_value pkg key to : List.In key pkg_keys -> apk_pkg_subst pkg key to = (0, apk_blob_push_blob to (pkg_value pkg key)).
Proof.
  intros Hk. destruct Hk as [<-|[<-|[<-|[<-|[]]]]]; cbn -[apk_blob_push_hexdump apk_blob_push_blob]; try done.
  transitivity (0, apk_blob_push_hexdump to (ztake (apk_digest_alg_len (digest_alg pkg)) (digest pkg))); [done|].
  f_equal. apply hexdump_appends.
Qed.

Definition cachename : list piece := [Var (bs "name") None; Text (bs "-"); Var (bs "version") None; Text (bs "."); Var (bs "hash") (Some 8); Text (bs ".apk")].
Definition ex_named_pkg : apk_package := set_version (Some (bs "1.36.1-r2")) (set_pkg_name (Some (bs "busybox")) (pkg_reset 0)).

Lemma apk_blob_subst_renders_witness :
  apk_blob_subst 4096 (apk_pkg_subst ex_named_pkg) 200 (template cachename) = Some (inr (rendered (pkg_value ex_named_pkg) cachename)) /\
  template cachename = bs "${name}-${version}.${hash:8}.apk".
Proof.
  split; [|by vm_compute]. apply (apk_blob_subst_renders 4096 200 (apk_pkg_subst ex_named_pkg) (pkg_value ex_named_pkg) cachename); [lia|lia| | |].
  - repeat constructor; cbn; try lia; done.
  - repeat constructor; intros to; apply apk_pkg_subst_value; cbn; tauto.
  - repeat split; vm_compute; done.
Defined.

(** The limit is added to the address of the buffer without a check: a huge limit wraps around, and the cursor is
    set before the start of the buffer. *)
Theorem apk_blob_subst_underrun :
  apk_blob_subst 4096 (apk_pkg_subst ex_named_pkg) 200 (bs "${name:18446744073709551615}") = None.
Proof. by vm_compute. Qed.
