(* ===== verification/RepoParser.v ===== *)
(** Lists of repositories (repoparser.c): lines with keywords, tags, URLs and components, and variables that are
    set and used in them.  A repository is handed to the callback of the client with its URL, the name of the
    index file and the tag. *)
From Stdlib Require Import ZArith Lia Ascii String.
From stdpp Require Import base numbers list option.
From S2P Require Import Prelude Clib Blob Codec Ctype Array Hash Dep Package Subst.

Definition APKE_REPO_SYNTAX : Z := APKE_FIRST_VALUE + 63.
Definition APKE_REPO_KEYWORD : Z := APKE_FIRST_VALUE + 64.
Definition APKE_REPO_VARIABLE : Z := APKE_FIRST_VALUE + 65.

(** ** Variables *)

Definition APK_VARF_OVERWRITE : Z := 1.
Definition APK_VARF_READONLY : Z := 2.

(** The length of the key is kept in a byte. *)
Record apk_variable := ApkVar { var_value : bytes; var_flags : Z; var_keylen : Z; var_key : bytes }.

Definition variable_hash_get_key (var : apk_variable) : bytes := ztake (var_keylen var) (var_key var).

Definition variable_ops : apk_hash_ops apk_variable bytes :=
  HashOps (Some variable_hash_get_key) apk_blob_hash None (Some (fun a b => apk_blob_compare (Some a) (Some b))) None.

Abbreviation variables := (apk_hash apk_variable).

(** The item that a lookup finds, changed in place. *)
Fixpoint update_first {A} (p : A -> bool) (f : A -> A) (l : list A) : list A :=
  match l with
  | [] => []
  | x :: l => if p x then f x :: l else x :: update_first p f l
  end.
Definition hash_update (h : variables) (key : bytes) (hash : Z) (f : apk_variable -> apk_variable) : variables :=
  Hash (<[bucket_index h hash := update_first (item_matches variable_ops key) f (bucket h hash)]> (buckets h)) (num_items h).

Definition set_variable (value : bytes) (flags : Z) (var : apk_variable) : apk_variable :=
  ApkVar value flags (var_keylen var) (var_key var).

(** The result is 0 on all paths. *)
Definition apk_variable_set (vars : variables) (key value : bytes) (flags : Z) : variables :=
  let hash := apk_hash_from_key variable_ops key in
  match apk_hash_get_hashed variable_ops vars key hash with
  | None => apk_hash_insert_hashed vars (ApkVar value flags (u8 (zlen key)) key) hash
  | Some var =>
      if flags .& APK_VARF_OVERWRITE =? 0 then vars
      else if negb (var_flags var .& APK_VARF_READONLY =? 0) then vars
      else hash_update vars key hash (set_variable value flags)
  end.

Definition apk_variable_subst (vars : variables) (key : bytes) (to : option wbuf) : Z * option wbuf :=
  match apk_hash_get variable_ops vars key with
  | None => (- APKE_REPO_VARIABLE, to)
  | Some var => (0, apk_blob_push_blob to (var_value var))
  end.

(** ** Lines *)

Inductive repotype := APK_REPOTYPE_OMITTED | APK_REPOTYPE_NDX | APK_REPOTYPE_V2 | APK_REPOTYPE_V3.

(** The word, and the line after it and the separators that follow. *)
Definition get_word (line : bytes) : bytes * bytes :=
  let '(_, word, line) := apk_blob_cspn line APK_CTYPE_REPOSITORY_SEPARATOR in
  let '(_, _, line) := apk_blob_spn line APK_CTYPE_REPOSITORY_SEPARATOR in
  (word, line).

(** [first] is the byte at the start of the word, which is read whatever its length. *)
Definition is_url (first : Z) (word : bytes) : bool := (first =? chr "/") || (0 <? apk_blob_contains (Some word) (bs "://")).
Definition is_keyword (word : bytes) : bool :=
  if List.hd 0 word =? chr "@" then false else negb (is_url (List.hd 0 word) word).

(** The parser, and the context [C] of its callback. *)
Record apk_repoparser (C : Type) := RepoParser { rp_variables : variables; rp_line : Z; rp_ctx : C }.
Arguments RepoParser {C} _ _ _.
Arguments rp_variables {C} _.
Arguments rp_line {C} _.
Arguments rp_ctx {C} _.

Definition apk_repoparser_init {C} (ctx : C) : apk_repoparser C := RepoParser (apk_hash_init 10) 0 ctx.
Definition apk_repoparser_set_file {C} (rp : apk_repoparser C) : apk_repoparser C := RepoParser (rp_variables rp) 0 (rp_ctx rp).

Section parser.
(** The addresses of the buffers, and the callback: the URL, the name of the index file, the tag. *)
Context {C : Type} (buf : Z) (repository : C -> bytes -> option bytes -> blob -> Z * C).
Implicit Types rp : apk_repoparser C.

Definition apk_repoparser_subst rp (key : bytes) (to : option wbuf) : Z * option wbuf := apk_variable_subst (rp_variables rp) key to.

(** The options of a definition; every option is a word, so the length of the line bounds their number. *)
Fixpoint set_options (fuel : nat) (flags : Z) (line : bytes) : Z + Z * bytes :=
  match fuel with
  | O => inr (flags, line)
  | S fuel =>
      match line with
      | c :: _ =>
          if c =? chr "-" then
            let '(key, line) := get_word line in
            if apk_blob_compare (Some key) (Some (bs "-default")) =? 0
            then set_options fuel (Z.land flags (Z.lnot APK_VARF_OVERWRITE)) line
            else inl (- APKE_REPO_SYNTAX)
          else inr (flags, line)
      | [] => inr (flags, line)
      end
  end.

Definition apk_repoparser_parse_set rp (line : bytes) : option (Z * apk_repoparser C) :=
  match set_options (S (length line)) APK_VARF_OVERWRITE line with
  | inl r => Some (r, rp)
  | inr (flags, line) =>
      match apk_blob_split (Some line) (bs "=") with
      | None => Some (- APKE_REPO_VARIABLE, rp)
      | Some (key, value) =>
          if apk_blob_starts_with key (bs "APK_") || negb (isalpha (List.hd 0 line)) || (apk_blob_spn key APK_CTYPE_VARIABLE_NAME).1.1
          then Some (- APKE_REPO_VARIABLE, rp)
          else
            r ← apk_blob_subst buf (apk_repoparser_subst rp) PATH_MAX value;
            match r with
            | inl r => Some (r, rp)
            | inr value => Some (0, RepoParser (apk_variable_set (rp_variables rp) key value flags) (rp_line rp) (rp_ctx rp))
            end
      end
  end.

(** The components of a line: a repository for each, until one is refused. *)
Fixpoint add_components (pb : apk_pathbuilder) (index_file : option bytes) (tag : blob) (components : list bytes) (ctx : C) : Z * C :=
  match components with
  | [] => (0, ctx)
  | component :: components =>
      let '(pb, n) := apk_pathbuilder_pushb pb component in
      let '(r, ctx) := repository ctx (apk_pathbuilder_get pb) index_file tag in
      if negb (r =? 0) then (r, ctx) else add_components (apk_pathbuilder_pop pb n) index_file tag components ctx
  end.

Definition pb_new : apk_pathbuilder := PB 0 (replicate (Z.to_nat PATH_MAX) 0).

Definition index_file_of (type : repotype) (word : bytes) : option bytes :=
  let type := match type with
              | APK_REPOTYPE_OMITTED =>
                  if apk_blob_ends_with word (bs ".adb") || apk_blob_ends_with word (bs ".tar.gz") then APK_REPOTYPE_NDX else APK_REPOTYPE_V2
              | _ => type
              end in
  match type with
  | APK_REPOTYPE_V2 => Some (bs "APKINDEX.tar.gz")
  | APK_REPOTYPE_V3 => Some (bs "Packages.adb")
  | _ => None
  end.

(** After the keyword and the tag: the URL and its components. *)
Definition parse_url rp (type : repotype) (tag : blob) (word line : bytes) (allow_keywords : bool) : option (Z * apk_repoparser C) :=
  let with_ctx '(r, ctx) := (r : Z, RepoParser (rp_variables rp) (rp_line rp) ctx) in
  let index_file := index_file_of type word in
  r ← apk_blob_subst buf (apk_repoparser_subst rp) PATH_MAX word;
  match r with
  | inl r => Some (r, rp)
  | inr text =>
      let url := apk_blob_trim_end text (chr "/") in
      if allow_keywords && negb (is_url (List.hd 0 text) url) then Some (- APKE_REPO_SYNTAX, rp)
      else if zlen line =? 0 then Some (with_ctx (repository (rp_ctx rp) url index_file tag))
      else
        r ← apk_blob_subst buf (apk_repoparser_subst rp) PATH_MAX line;
        match r with
        | inl r => Some (r, rp)
        | inr components =>
            let '(pb, _) := apk_pathbuilder_setb pb_new url in
            Some (with_ctx (add_components pb index_file tag (apk_blob_foreach_word (Some components)) (rp_ctx rp)))
        end
  end.

(** After the keyword. *)
Definition parse_tag rp (type : repotype) (word line : bytes) (allow_keywords : bool) : option (Z * apk_repoparser C) :=
  if List.hd 0 word =? chr "@" then
    let tag := word in
    let '(word, line) := get_word line in
    if zlen word =? 0 then Some (- APKE_REPO_SYNTAX, rp) else parse_url rp type (Some tag) word line allow_keywords
  else parse_url rp type None word line allow_keywords.

Definition apk_repoparser_parse rp (line : blob) (allow_keywords : bool) : option (Z * apk_repoparser C) :=
  let rp := RepoParser (rp_variables rp) (rp_line rp + 1) (rp_ctx rp) in
  match line with
  | None | Some [] => Some (0, rp)
  | Some (c :: rest) =>
      if c =? chr "#" then Some (0, rp)
      else
        let '(word, line) := get_word (c :: rest) in
        if zlen word =? 0 then Some (- APKE_REPO_SYNTAX, rp)
        else if allow_keywords && is_keyword word then
          let keyword k := apk_blob_compare (Some word) (Some k) =? 0 in
          if keyword (bs "set") then apk_repoparser_parse_set rp line
          else
            let next type :=
              let '(word, line) := get_word line in
              if zlen word =? 0 then Some (- APKE_REPO_SYNTAX, rp) else parse_tag rp type word line allow_keywords in
            if keyword (bs "ndx") then next APK_REPOTYPE_NDX
            else if keyword (bs "v2") then next APK_REPOTYPE_V2
            else if keyword (bs "v3") then next APK_REPOTYPE_V3
            else Some (- APKE_REPO_KEYWORD, rp)
        else parse_tag rp APK_REPOTYPE_OMITTED word line allow_keywords
  end.

(** The lines of a file (apk_db_parse_istream): the first error ends the reading. *)
Fixpoint parse_lines rp (lines : list bytes) (allow_keywords : bool) : option (Z * apk_repoparser C) :=
  match lines with
  | [] => Some (0, rp)
  | l :: ls => '(r, rp) ← apk_repoparser_parse rp (Some l) allow_keywords; if r <? 0 then Some (r, rp) else parse_lines rp ls allow_keywords
  end.
End parser.
