(* ===== verification/RepoThm.v ===== *)
(** What lists of repositories do (RepoParser.v): the repositories of a line, and the variables that no line can
    change. *)
From Stdlib Require Import ZArith Lia Ascii String.
From stdpp Require Import base numbers list option.
From S2P Require Import Prelude Clib Blob Codec Ctype Array Hash Dep Package Subst RepoParser.

(** ** Variables *)

Lemma update_first_find {A} (p q : A -> bool) (f : A -> A) l :
  (forall x, p x = true -> q x = false /\ q (f x) = false) -> List.find q (update_first p f l) = List.find q l.
Proof.
  intros Hpq. induction l as [|x l IH]; [done|]. cbn [update_first]. destruct (p x) eqn:E.
  - destruct (Hpq x E) as [H1 H2]. cbn [List.find]. by rewrite H1, H2.
  - cbn [List.find]. by rewrite IH.
Qed.

(** A bucket that was replaced by one in which lookups of [key] find the same. *)
Lemma hash_get_set (h : variables) hash b n key :
  List.find (item_matches variable_ops key) b = List.find (item_matches variable_ops key) (bucket h hash) ->
  apk_hash_get variable_ops (Hash (<[bucket_index h hash := b]> (buckets h)) n) key = apk_hash_get variable_ops h key.
Proof.
  intros Hb. unfold apk_hash_get, apk_hash_get_hashed. unfold bucket at 1. rewrite bucket_index_set. cbn [buckets].
  destruct (decide (bucket_index h (apk_hash_from_key variable_ops key) = bucket_index h hash)) as [E|E].
  - unfold bucket in Hb |- *. rewrite E. destruct (buckets h !! bucket_index h hash) as [b0|] eqn:El.
    + by rewrite list_lookup_insert_eq by (by apply lookup_lt_Some in El).
    + rewrite list_insert_ge by (by apply lookup_ge_None). by rewrite El.
  - unfold bucket. by rewrite list_lookup_insert_ne.
Qed.

Lemma matches_key key var : item_matches variable_ops key var = true <-> variable_hash_get_key var = key.
Proof. unfold item_matches. cbn. rewrite Z.eqb_eq, apk_blob_compare_eq. split; by intros ->. Qed.

Definition reserved (key : bytes) : Prop := apk_blob_starts_with key (bs "APK_") = true.

Lemma reserved_prefix n key : reserved (ztake n key) -> reserved key.
Proof.
  unfold reserved. rewrite !apk_blob_starts_with_spec. intros [r E]. exists (r ++ zdrop n key). by rewrite app_assoc, <- E, ztake_zdrop.
Qed.

Lemma variable_set_reserved vars key value flags q :
  ~ reserved key -> reserved q -> apk_hash_get variable_ops (apk_variable_set vars key value flags) q = apk_hash_get variable_ops vars q.
Proof.
  intros Hk Hq. unfold apk_variable_set. destruct (apk_hash_get_hashed variable_ops vars key _) as [var|] eqn:E.
  - destruct (_ =? 0); [done|]. destruct (negb _); [done|]. apply hash_get_set. apply update_first_find.
    intros x Hx%matches_key. destruct (item_matches variable_ops q x) eqn:Ex; [apply matches_key in Ex; congruence|]. split; [done|].
    destruct (item_matches variable_ops q (set_variable value flags x)) eqn:Es; [|done]. apply matches_key in Es.
    change (variable_hash_get_key (set_variable value flags x)) with (variable_hash_get_key x) in Es. congruence.
  - apply hash_get_set. cbn [List.find]. destruct (item_matches variable_ops q (ApkVar value flags (u8 (zlen key)) key)) eqn:Es; [|done].
    apply matches_key in Es. unfold variable_hash_get_key in Es. cbn [var_keylen var_key] in Es. subst q. by apply reserved_prefix in Hq.
Qed.

Section lines.
Context {C : Type} (buf : Z) (repository : C -> bytes -> option bytes -> blob -> Z * C).
Implicit Types rp : apk_repoparser C.

Definition same_reserved (vars vars' : variables) : Prop :=
  forall q, reserved q -> apk_hash_get variable_ops vars' q = apk_hash_get variable_ops vars q.

Lemma parse_set_reserved rp line r rp' : apk_repoparser_parse_set buf rp line = Some (r, rp') -> same_reserved (rp_variables rp) (rp_variables rp').
Proof.
  unfold apk_repoparser_parse_set. destruct (set_options _ _ _) as [?|[flags l]]; [by intros [= <- <-]|].
  destruct (apk_blob_split (Some l) (bs "=")) as [[key value]|]; [|by intros [= <- <-]].
  destruct (apk_blob_starts_with key (bs "APK_")) eqn:Ek; [by intros [= <- <-]|]. cbn [orb]. destruct (_ || _); [by intros [= <- <-]|].
  destruct (apk_blob_subst _ _ _ _) as [[?|text]|]; cbn [mbind option_bind]; try done; intros [= <- <-]; [done|]. intros q Hq.
  apply variable_set_reserved; [|done]. unfold reserved. by rewrite Ek.
Qed.

Lemma parse_url_vars rp type tag word line ak r rp' :
  parse_url buf repository rp type tag word line ak = Some (r, rp') -> rp_variables rp' = rp_variables rp.
Proof.
  unfold parse_url. destruct (apk_blob_subst _ _ _ word) as [[?|text]|]; cbn [mbind option_bind]; try done; [by intros [= <- <-]|].
  destruct (_ && _); [by intros [= <- <-]|]. destruct (zlen line =? 0).
  { destruct (repository _ _ _ _). by intros [= <- <-]. }
  destruct (apk_blob_subst _ _ _ line) as [[?|components]|]; cbn [mbind option_bind]; try done; [by intros [= <- <-]|].
  destruct (apk_pathbuilder_setb _ _) as [pb n]. destruct (add_components _ _ _ _ _ _). by intros [= <- <-].
Qed.

Lemma parse_tag_vars rp type word line ak r rp' :
  parse_tag buf repository rp type word line ak = Some (r, rp') -> rp_variables rp' = rp_variables rp.
Proof.
  unfold parse_tag. destruct (_ =? _); [|apply parse_url_vars]. destruct (get_word line) as [w l]. destruct (zlen w =? 0); [by intros [= <- <-]|]. apply parse_url_vars.
Qed.

Lemma parse_reserved rp line ak r rp' :
  apk_repoparser_parse buf repository rp line ak = Some (r, rp') -> same_reserved (rp_variables rp) (rp_variables rp').
Proof.
  unfold apk_repoparser_parse. destruct line as [[|c rest]|]; [by intros [= <- <-]| |by intros [= <- <-]].
  destruct (c =? chr "#"); [by intros [= <- <-]|]. destruct (get_word (c :: rest)) as [word l]. destruct (zlen word =? 0); [by intros [= <- <-]|].
  assert (Hnext : forall type, (let '(word, line) := get_word l in
      if zlen word =? 0 then Some (- APKE_REPO_SYNTAX, RepoParser (rp_variables rp) (rp_line rp + 1) (rp_ctx rp))
      else parse_tag buf repository (RepoParser (rp_variables rp) (rp_line rp + 1) (rp_ctx rp)) type word line ak) = Some (r, rp') ->
    same_reserved (rp_variables rp) (rp_variables rp')).
  { intros type. destruct (get_word l) as [w l']. destruct (zlen w =? 0); [by intros [= <- <-]|]. intros E%parse_tag_vars. intros q _. by rewrite E. }
  destruct (ak && is_keyword word).
  - destruct (_ =? 0); [intros E; exact (parse_set_reserved _ _ _ _ E)|]. destruct (_ =? 0); [apply Hnext|]. destruct (_ =? 0); [apply Hnext|].
    destruct (_ =? 0); [apply Hnext|]. by intros [= <- <-].
  - intros E%parse_tag_vars. intros q _. by rewrite E.
Qed.
End lines.

(** C28: No line changes, hides or removes a variable whose name starts with APK_, such as APK_ARCH: after all lines of a
    file lookups find what they found before, whatever the callback does and wherever an error ends the reading. *)
Theorem repoparser_reserved_kept {C} buf (repository : C -> bytes -> option bytes -> blob -> Z * C) rp lines ak r rp' q :
  parse_lines buf repository rp lines ak = Some (r, rp') -> apk_blob_starts_with q (bs "APK_") = true ->
  apk_hash_get variable_ops (rp_variables rp') q = apk_hash_get variable_ops (rp_variables rp) q.
Proof.
  intros H Hq. revert rp H. induction lines as [|l lines IH]; intros rp; cbn [parse_lines]; [by intros [= <- <-]|].
  destruct (apk_repoparser_parse buf repository rp (Some l) ak) as [[r1 rp1]|] eqn:E; cbn [mbind option_bind]; [|done].
  apply parse_reserved in E. destruct (r1 <? 0); [intros [= <- <-]; by apply E|]. intros H. rewrite (IH rp1 H). by apply E.
Qed.

Definition ex_parser : apk_repoparser (list bytes) :=
  RepoParser (apk_variable_set (apk_hash_init 10) (bs "APK_ARCH") (bs "x86_64") APK_VARF_READONLY) 0 [].
Definition ex_repository (ctx : list bytes) (url : bytes) (index_file : option bytes) (tag : blob) : Z * list bytes := (0, ctx ++ [url]).

Lemma repoparser_reserved_kept_witness :
  exists r rp', parse_lines 4096 ex_repository ex_parser [bs "set mirror=http://a/${APK_ARCH}"; bs "v3 ${mirror} main"; bs "set APK_ARCH=arm"] true = Some (r, rp') /\
    apk_hash_get variable_ops (rp_variables rp') (bs "APK_ARCH") = apk_hash_get variable_ops (rp_variables ex_parser) (bs "APK_ARCH").
Proof.
  eexists _, _. split; [vm_compute; reflexivity|].
  eapply (repoparser_reserved_kept 4096 ex_repository ex_parser [bs "set mirror=http://a/${APK_ARCH}"; bs "v3 ${mirror} main"; bs "set APK_ARCH=arm"] true);
    [vm_compute; reflexivity|reflexivity].
Defined.

(** ** Repositories *)

(** Words of a line: not empty, without separators and variables. *)
Definition rword (w : bytes) : Prop := w <> [] /\ Forall (fun c => in_ctype APK_CTYPE_REPOSITORY_SEPARATOR c = false /\ c <> 36) w.
Fixpoint rline (ws : list bytes) : bytes :=
  match ws with
  | [] => []
  | [w] => w
  | w :: ws => w ++ bs " " ++ rline ws
  end.

Definition rwordb (w : bytes) : bool := negb (zlen w =? 0) && forallb (fun c => negb (in_ctype APK_CTYPE_REPOSITORY_SEPARATOR c) && negb (c =? 36)) w.
Lemma rwordb_ok w : rwordb w = true -> rword w.
Proof.
  unfold rwordb. intros [H1 H2]%andb_prop. split; [by destruct w|]. apply List.Forall_forall. intros c Hc.
  pose proof (proj1 (forallb_forall _ _) H2 c Hc) as [H3 H4]%andb_prop. apply negb_true_iff in H3, H4. by apply Z.eqb_neq in H4.
Qed.

Lemma rline_cons w ws : rline (w :: ws) = w ++ match ws with [] => [] | _ => bs " " ++ rline ws end.
Proof. destruct ws; cbn [rline]; [by rewrite app_nil_r|done]. Qed.

Lemma rline_start w ws : rword w -> class_ends (in_ctype APK_CTYPE_REPOSITORY_SEPARATOR) (rline (w :: ws)).
Proof. intros [Hne Hw]. rewrite rline_cons. destruct w as [|c w]; [done|]. inversion_clear Hw as [|? ? [Hc _]]. exact Hc. Qed.

Lemma get_word_line w ws : rword w -> Forall rword ws -> get_word (rline (w :: ws)) = (w, rline ws).
Proof.
  intros [_ Hw] Hws. unfold get_word. rewrite rline_cons.
  assert (Hw' : Forall (fun c => in_ctype APK_CTYPE_REPOSITORY_SEPARATOR c = false) w) by (eapply Forall_impl; [|exact Hw]; by intros c []).
  rewrite apk_blob_cspn_app; [|done|destruct ws; [done|by vm_compute]]. destruct ws as [|w' ws]; [done|].
  inversion_clear Hws as [|? ? Hw1 _]. rewrite apk_blob_spn_app; [done|by repeat constructor|by apply rline_start].
Qed.

Lemma no_sep_blank c : in_ctype APK_CTYPE_REPOSITORY_SEPARATOR c = false -> c <> 32.
Proof. intros H ->. by vm_compute in H. Qed.

Lemma rline_words ws : Forall rword ws -> apk_blob_foreach_word (Some (rline ws)) = ws.
Proof.
  intros Hws. unfold apk_blob_foreach_word, apk_blob_foreach_token. change (bs " ") with [32]. rewrite foreach_token_loop_fields by lia. cbn [blob_fields].
  induction Hws as [|w ws [Hne Hw] Hws IH]; [done|].
  assert (Hw' : Forall (fun c => c <> 32) w) by (eapply Forall_impl; [|exact Hw]; intros c [Hc _]; by apply no_sep_blank).
  rewrite rline_cons. destruct ws as [|w' ws].
  - rewrite app_nil_r, fields_none by done. by destruct w.
  - change (bs " " ++ rline (w' :: ws)) with (32 :: rline (w' :: ws)). rewrite fields_app by done. cbn [List.filter]. rewrite IH. by destruct w.
Qed.

Lemma rline_plain ws : Forall rword ws -> Forall (fun c => c <> 36) (rline ws).
Proof.
  induction 1 as [|w ws [Hne Hw] Hws IH]; [constructor|]. rewrite rline_cons. apply Forall_app. split.
  - eapply Forall_impl; [|exact Hw]. by intros c [].
  - destruct ws; [constructor|]. constructor; [done|exact IH].
Qed.

Lemma subst_plain buf res sz t : 0 <= buf -> buf + sz + 2 ^ 32 < 2 ^ 64 -> Forall (fun c => c <> 36) t -> zlen t < sz -> apk_blob_subst buf res sz t = Some (inr t).
Proof.
  intros Hb Hs Ht Hl. unfold apk_blob_subst, wbuf_new. pose proof (subst_loop_render buf res (fun _ => []) Hb [] (S (length t)) t (WBuf [] sz)) as H.
  unfold template, rendered in H. cbn [map concat w_done w_room app] in H. rewrite !app_nil_r in H. change (zlen (@nil Z)) with 0 in H.
  apply H; try done; cbn; lia.
Qed.

Section repositories.
Context {C : Type} (buf : Z) (repository : C -> bytes -> option bytes -> blob -> Z * C).
Hypothesis Hbuf : 0 <= buf < 2 ^ 63.

(** The calls of the callback, until one fails. *)
Fixpoint call_all (index_file : option bytes) (tag : blob) (urls : list bytes) (ctx : C) : Z * C :=
  match urls with
  | [] => (0, ctx)
  | url :: urls => let '(r, ctx) := repository ctx url index_file tag in if negb (r =? 0) then (r, ctx) else call_all index_file tag urls ctx
  end.

Lemma add_components_calls pb index_file tag comps ctx :
  pb_ok pb -> Forall (fun c => namelen pb + zlen c + 2 < PATH_MAX) comps ->
  add_components repository pb index_file tag comps ctx = call_all index_file tag (map (path_join (apk_pathbuilder_get pb)) comps) ctx.
Proof.
  revert pb ctx. induction comps as [|c comps IH]; intros pb ctx Hok Hl; [done|]. inversion_clear Hl as [|? ? Hc Hcs]. cbn [add_components map call_all].
  pose proof (apk_pathbuilder_push_pop pb c Hok) as Hp. destruct (apk_pathbuilder_pushb pb c) as [pb' n].
  destruct (Z.ltb_spec (namelen pb + zlen c + 2) PATH_MAX); [|lia]. destruct Hp as (-> & Hok' & -> & Hokp & Hget).
  destruct (repository _ _ _ _) as [r ctx']. destruct (negb (r =? 0)); [done|]. rewrite IH; [by rewrite Hget|done|].
  pose proof (pb_get_len _ Hok) as L1. pose proof (pb_get_len _ Hokp) as L2. rewrite Hget in L2. eapply Forall_impl; [|exact Hcs]. cbn. intros x. lia.
Qed.

(** The URLs of a line. *)
Definition targets (url : bytes) (comps : list bytes) : list bytes :=
  let url := apk_blob_trim_end url (chr "/") in match comps with [] => [url] | _ => map (path_join url) comps end.

Definition type_words (type : repotype) : list bytes :=
  match type with
  | APK_REPOTYPE_OMITTED => [] | APK_REPOTYPE_NDX => [bs "ndx"] | APK_REPOTYPE_V2 => [bs "v2"] | APK_REPOTYPE_V3 => [bs "v3"]
  end.

Lemma zlen_trim_end l c : zlen (apk_blob_trim_end l c) <= zlen l.
Proof.
  unfold apk_blob_trim_end, zlen. rewrite length_rev, <- (length_rev l). induction (rev l) as [|x r IH]; [done|]. cbn. destruct (c =? x); cbn; lia.
Qed.

Record repo_line_ok (url : bytes) (comps : list bytes) : Prop := {
  rl_url : rword url; rl_comps : Forall rword comps;
  rl_is_url : is_url (List.hd 0 url) url = true; rl_trimmed : is_url (List.hd 0 url) (apk_blob_trim_end url (chr "/")) = true;
  rl_first : List.hd 0 url <> chr "@" /\ List.hd 0 url <> chr "#";
  rl_len : zlen url + zlen (rline comps) + 3 < PATH_MAX
}.

Lemma comp_len comps c : List.In c comps -> zlen c <= zlen (rline comps).
Proof.
  induction comps as [|w ws IH]; [done|]. rewrite rline_cons, zlen_app. pose proof (zlen_nonneg w). intros [->|Hin].
  - destruct ws as [|w' ws]; rewrite ?zlen_app; [unfold zlen; cbn; lia|pose proof (zlen_nonneg (rline (w' :: ws))); change (zlen (bs " ")) with 1; lia].
  - destruct ws; [done|]. specialize (IH Hin). rewrite zlen_app. change (zlen (bs " ")) with 1. lia.
Qed.

Lemma parse_url_line rp type tag url comps :
  repo_line_ok url comps ->
  parse_url buf repository rp type tag url (rline comps) true =
  let '(r, ctx) := call_all (index_file_of type url) tag (targets url comps) (rp_ctx rp) in Some (r, RepoParser (rp_variables rp) (rp_line rp) ctx).
Proof.
  intros []. unfold parse_url, targets. pose proof (zlen_nonneg url). pose proof (zlen_nonneg (rline comps)). unfold PATH_MAX in rl_len0.
  rewrite (subst_plain buf _ PATH_MAX url); [|lia|unfold PATH_MAX; lia|destruct rl_url0 as [_ Hu]; eapply Forall_impl; [|exact Hu]; by intros c []|unfold PATH_MAX; lia].
  cbn [mbind option_bind]. rewrite rl_trimmed0. cbn [andb negb]. destruct comps as [|c comps].
  - change (zlen (rline []) =? 0) with true. cbv iota. cbn [call_all]. destruct (repository _ _ _ _) as [r ctx].
    destruct (Z.eqb_spec r 0) as [->|]; done.
  - assert (Hz : (zlen (rline (c :: comps)) =? 0) = false).
    { apply Z.eqb_neq. inversion_clear rl_comps0 as [|? ? [Hc _]]. rewrite rline_cons, zlen_app. destruct c as [|b c]; [done|].
      rewrite zlen_cons. pose proof (zlen_nonneg c). pose proof (zlen_nonneg (match comps with [] => [] | _ => bs " " ++ rline comps end)). lia. }
    rewrite Hz, (subst_plain buf _ PATH_MAX (rline (c :: comps))); [|lia|unfold PATH_MAX; lia|by apply rline_plain|unfold PATH_MAX; lia].
    cbn [mbind option_bind]. rewrite rline_words by done. set (u := apk_blob_trim_end url (chr "/")).
    pose proof (zlen_trim_end url (chr "/")) as Hu. fold u in Hu.
    assert (Hok0 : pb_ok pb_new) by (split; [vm_compute; reflexivity|cbn; unfold PATH_MAX; lia]).
    unfold apk_pathbuilder_setb. change (PB 0 (name pb_new)) with pb_new.
    destruct (apk_pathbuilder_push_ok pb_new u Hok0) as (Hok1 & Hg & _); [cbn; unfold PATH_MAX; lia|].
    change (path_join (apk_pathbuilder_get pb_new) u) with u in Hg. destruct (apk_pathbuilder_pushb pb_new u) as [pb n]. cbn [fst] in *.
    rewrite add_components_calls; [|done|].
    + rewrite Hg. by destruct (call_all _ _ _ _).
    + apply List.Forall_forall. intros x Hx. pose proof (comp_len _ _ Hx). pose proof (pb_get_len _ Hok1). rewrite Hg in *. unfold PATH_MAX. lia.
Qed.

(** Lines by their first word. *)
Lemma parse_first rp w ws :
  rword w -> Forall rword ws -> List.hd 0 w <> 35 -> is_keyword w = false ->
  apk_repoparser_parse buf repository rp (Some (rline (w :: ws))) true =
  parse_tag buf repository (RepoParser (rp_variables rp) (rp_line rp + 1) (rp_ctx rp)) APK_REPOTYPE_OMITTED w (rline ws) true.
Proof.
  intros Hw Hws Hh Hk. pose proof (get_word_line w ws Hw Hws) as Hg. destruct w as [|c w]; [by destruct Hw|]. unfold apk_repoparser_parse.
  rewrite rline_cons in Hg |- *. cbn [app] in Hg |- *. rewrite Hg. cbn [List.hd] in Hh. rewrite (proj2 (Z.eqb_neq c (chr "#"))) by done.
  rewrite (proj2 (Z.eqb_neq (zlen (c :: w)) 0)) by (intros E0; by apply zlen_0_nil in E0). by rewrite Hk.
Qed.

Lemma parse_keyword rp kw w ws :
  rword kw -> rword w -> Forall rword ws -> List.hd 0 kw <> 35 -> is_keyword kw = true -> apk_blob_compare (Some kw) (Some (bs "set")) <> 0 ->
  apk_repoparser_parse buf repository rp (Some (rline (kw :: w :: ws))) true =
  let next type := parse_tag buf repository (RepoParser (rp_variables rp) (rp_line rp + 1) (rp_ctx rp)) type w (rline ws) true in
  if apk_blob_compare (Some kw) (Some (bs "ndx")) =? 0 then next APK_REPOTYPE_NDX
  else if apk_blob_compare (Some kw) (Some (bs "v2")) =? 0 then next APK_REPOTYPE_V2
  else if apk_blob_compare (Some kw) (Some (bs "v3")) =? 0 then next APK_REPOTYPE_V3
  else Some (- APKE_REPO_KEYWORD, RepoParser (rp_variables rp) (rp_line rp + 1) (rp_ctx rp)).
Proof.
  intros Hkw Hw Hws Hh Hk Hset. pose proof (get_word_line kw (w :: ws) Hkw ltac:(by constructor)) as Hg. pose proof (get_word_line w ws Hw Hws) as Hg2.
  assert (Hz : (zlen w =? 0) = false) by (apply Z.eqb_neq; intros E0; apply zlen_0_nil in E0; by destruct Hw).
  destruct kw as [|c kw]; [by destruct Hkw|]. unfold apk_repoparser_parse.
  rewrite (rline_cons (c :: kw)) in Hg |- *. cbn [app] in Hg |- *. rewrite Hg. cbn [List.hd] in Hh. rewrite (proj2 (Z.eqb_neq c (chr "#"))) by done.
  rewrite (proj2 (Z.eqb_neq (zlen (c :: kw)) 0)) by (intros E0; by apply zlen_0_nil in E0). rewrite Hk. cbn [andb].
  rewrite (proj2 (Z.eqb_neq (apk_blob_compare _ (Some (bs "set"))) 0)) by done. by rewrite Hg2, Hz.
Qed.

Lemma parse_type rp type w ws :
  type <> APK_REPOTYPE_OMITTED -> rword w -> Forall rword ws ->
  apk_repoparser_parse buf repository rp (Some (rline (type_words type ++ w :: ws))) true =
  parse_tag buf repository (RepoParser (rp_variables rp) (rp_line rp + 1) (rp_ctx rp)) type w (rline ws) true.
Proof.
  intros Ht Hw Hws. assert (Hr : forall kw, List.In kw [bs "ndx"; bs "v2"; bs "v3"] -> rword kw).
  { intros kw [<-|[<-|[<-|[]]]]; (split; [done|]); repeat constructor; done. }
  destruct type; [done| | |]; cbn [type_words app]; (rewrite parse_keyword; [done|apply Hr; cbn; tauto|done..]).
Qed.
End repositories.

(** The index file that apk-repositories(5) gives a line: the one of its type; a line without a type has the type ndx if
    its URL ends with .adb or .tar.gz, and else v2; with the type ndx the URL itself is the index. *)
Inductive line_index : repotype -> bytes -> option bytes -> Prop :=
  | index_v2 url : line_index APK_REPOTYPE_V2 url (Some (bs "APKINDEX.tar.gz"))
  | index_v3 url : line_index APK_REPOTYPE_V3 url (Some (bs "Packages.adb"))
  | index_ndx url : line_index APK_REPOTYPE_NDX url None
  | index_omitted_adb base : line_index APK_REPOTYPE_OMITTED (base ++ bs ".adb") None
  | index_omitted_tgz base : line_index APK_REPOTYPE_OMITTED (base ++ bs ".tar.gz") None
  | index_omitted url : (forall base, url <> base ++ bs ".adb" /\ url <> base ++ bs ".tar.gz") ->
      line_index APK_REPOTYPE_OMITTED url (Some (bs "APKINDEX.tar.gz")).

Lemma index_file_of_line type url index : line_index type url index -> index_file_of type url = index.
Proof.
  intros [u|u|u|base|base|u Hu]; [done..| | |]; unfold index_file_of.
  - by rewrite (proj2 (apk_blob_ends_with_spec _ (bs ".adb"))) by eauto.
  - by rewrite (proj2 (apk_blob_ends_with_spec _ (bs ".tar.gz"))), orb_true_r by eauto.
  - assert (Hno : forall s, (forall base, u <> base ++ s) -> apk_blob_ends_with u s = false).
    { intros s Hs. apply not_true_is_false. rewrite apk_blob_ends_with_spec. by intros [l Hl]; apply (Hs l). }
    rewrite !Hno; [done|intros base; apply Hu..].
Qed.

(** C27: A line with a type or none, a tag or none, a URL and components hands one repository for each component, in order, to
    the callback, until the callback refuses one: the URL without trailing slashes joined with the component, the tag, and
    the index file that apk-repositories(5) gives the line, APKINDEX.tar.gz, Packages.adb or none when the URL is the
    index.  A line without components is one repository.  The words are separated by single blanks and have no variables
    in them (apk_blob_subst_renders is about those), and together they fit in a path.  A line whose URL is the index has
    no components, as the manual requires; repoparser_ndx_components shows what the code does with them. *)
Theorem repoparser_line {C} buf (repository : C -> bytes -> option bytes -> blob -> Z * C) rp type tag url index comps :
  0 <= buf < 2 ^ 63 -> repo_line_ok url comps -> line_index type url index -> (index = None -> comps = []) ->
  match tag with Some t => rword t /\ List.hd 0 t = chr "@" | None => True end ->
  apk_repoparser_parse buf repository rp (Some (rline (type_words type ++ match tag with Some t => [t] | None => [] end ++ url :: comps))) true =
  let '(r, ctx) := call_all repository index tag (targets url comps) (rp_ctx rp) in
  Some (r, RepoParser (rp_variables rp) (rp_line rp + 1) ctx).
Proof.
  intros Hbuf Hok Hidx _ Ht. apply index_file_of_line in Hidx as <-. set (rp1 := RepoParser (rp_variables rp) (rp_line rp + 1) (rp_ctx rp)).
  pose proof Hok as [Hu Hc Hurl _ [Hat Hhash] _].
  assert (Htag : forall word ws, word :: ws = match tag with Some t => [t] | None => [] end ++ url :: comps ->
    parse_tag buf repository rp1 type word (rline ws) true =
    let '(r, ctx) := call_all repository (index_file_of type url) tag (targets url comps) (rp_ctx rp) in Some (r, RepoParser (rp_variables rp) (rp_line rp + 1) ctx)).
  { intros word ws E. pose proof (fun t => parse_url_line buf repository Hbuf rp1 type t url comps Hok) as Hp. unfold parse_tag.
    destruct tag as [t|]; injection E as -> ->.
    - destruct Ht as [_ ->]. rewrite Z.eqb_refl. cbn [app]. rewrite get_word_line by done. destruct Hu as [Hne _].
      rewrite (proj2 (Z.eqb_neq (zlen url) 0)) by (intros E0; by apply zlen_0_nil in E0). apply Hp.
    - rewrite (proj2 (Z.eqb_neq (List.hd 0 url) (chr "@"))) by done. apply Hp. }
  assert (Hws : Forall rword (match tag with Some t => [t] | None => [] end ++ url :: comps)) by (destruct tag as [t|]; [destruct Ht as [Ht _]|]; repeat constructor; try apply Ht; try apply Hu; done).
  destruct (match tag with Some t => [t] | None => [] end ++ url :: comps) as [|w ws] eqn:Ew; [by destruct tag|].
  inversion_clear Hws as [|? ? Hw Hws']. rewrite <- (Htag w ws eq_refl). destruct type; [|by apply parse_type..].
  apply parse_first; [done|done| |].
  - destruct tag as [t|]; injection Ew as <- _; [|done]. destruct Ht as [_ ->]. done.
  - unfold is_keyword. destruct tag as [t|]; injection Ew as <- _; [by destruct Ht as [_ ->]|]. destruct (_ =? _); [done|]. by rewrite Hurl.
Qed.

Lemma repoparser_line_witness :
  apk_repoparser_parse 4096 ex_repository ex_parser (Some (bs "v3 @edge https://example.org/alpine main community")) true =
  Some (0, RepoParser (rp_variables ex_parser) 1 [bs "https://example.org/alpine/main"; bs "https://example.org/alpine/community"]).
Proof.
  pose proof (repoparser_line 4096 ex_repository ex_parser APK_REPOTYPE_V3 (Some (bs "@edge")) (bs "https://example.org/alpine") (Some (bs "Packages.adb")) [bs "main"; bs "community"]) as H.
  apply H; [lia| |constructor|done|].
  - constructor; [apply rwordb_ok; vm_compute; reflexivity|constructor; [apply rwordb_ok; vm_compute; reflexivity|constructor; [apply rwordb_ok; vm_compute; reflexivity|constructor]]|vm_compute; reflexivity|vm_compute; reflexivity|vm_compute; split; discriminate|vm_compute; reflexivity].
  - split; [apply rwordb_ok; vm_compute; reflexivity|done].
Defined.

(** apk-repositories(5) says that components are not valid with the type ndx; the code takes them, and adds them to the
    URL of the index file. *)
Lemma repoparser_ndx_components :
  apk_repoparser_parse 4096 ex_repository ex_parser (Some (bs "ndx https://example.org/Packages.adb main community")) true =
  Some (0, RepoParser (rp_variables ex_parser) 1 [bs "https://example.org/Packages.adb/main"; bs "https://example.org/Packages.adb/community"]).
Proof. by vm_compute. Qed.

(** Words are separated by blanks and tabs, but components by blanks only: with a tab two components are one. *)
Lemma repoparser_tab :
  apk_repoparser_parse 4096 ex_repository ex_parser (Some (bs "https://example.org/alpine main" ++ [9] ++ bs "community")) true =
  Some (0, RepoParser (rp_variables ex_parser) 1 [bs "https://example.org/alpine/main" ++ [9] ++ bs "community"]).
Proof. by vm_compute. Qed.

(** A name of 256 characters is stored with the length 0, and the variable is not found again. *)
Lemma repoparser_long_name :
  let key := replicate 256 (chr "a") in
  exists rp, parse_lines 4096 ex_repository ex_parser [bs "set " ++ key ++ bs "=x"] true = Some (0, rp) /\ apk_hash_get variable_ops (rp_variables rp) key = None.
Proof. eexists. split; [vm_compute; reflexivity|by vm_compute]. Qed.

(** ** The context of the callback *)

Section context.
Context {C : Type} (buf : Z) (repository : C -> bytes -> option bytes -> blob -> Z * C) (P : C -> Prop).
Hypothesis Hrep : forall ctx url index_file tag, P ctx -> P (repository ctx url index_file tag).2.
Implicit Types rp : apk_repoparser C.

Lemma components_ctx pb index_file tag comps ctx : P ctx -> P (add_components repository pb index_file tag comps ctx).2.
Proof.
  revert pb ctx. induction comps as [|c comps IH]; intros pb ctx Hc; [done|]. cbn [add_components]. destruct (apk_pathbuilder_pushb pb c) as [pb' n].
  pose proof (Hrep ctx (apk_pathbuilder_get pb') index_file tag Hc) as H. destruct (repository _ _ _ _) as [r ctx']. cbn [snd] in H.
  destruct (negb _); [done|]. by apply IH.
Qed.

Lemma parse_url_ctx rp type tag word line ak r rp' :
  parse_url buf repository rp type tag word line ak = Some (r, rp') -> P (rp_ctx rp) -> P (rp_ctx rp').
Proof.
  unfold parse_url. intros H Hc. destruct (apk_blob_subst _ _ _ word) as [[?|text]|]; cbn [mbind option_bind] in H; [by injection H as <- <-| |done].
  destruct (_ && _); [by injection H as <- <-|]. destruct (zlen line =? 0).
  { pose proof (Hrep (rp_ctx rp) (apk_blob_trim_end text (chr "/")) (index_file_of type word) tag Hc) as Hr. destruct (repository _ _ _ _). by injection H as <- <-. }
  destruct (apk_blob_subst _ _ _ line) as [[?|components]|]; cbn [mbind option_bind] in H; [by injection H as <- <-| |done].
  destruct (apk_pathbuilder_setb _ _) as [pb n].
  pose proof (components_ctx pb (index_file_of type word) tag (apk_blob_foreach_word (Some components)) (rp_ctx rp) Hc) as Hr.
  destruct (add_components _ _ _ _ _ _). by injection H as <- <-.
Qed.

Lemma parse_tag_ctx rp type word line ak r rp' :
  parse_tag buf repository rp type word line ak = Some (r, rp') -> P (rp_ctx rp) -> P (rp_ctx rp').
Proof.
  unfold parse_tag. destruct (_ =? _); [|apply parse_url_ctx]. destruct (get_word line) as [w l]. destruct (zlen w =? 0); [by intros [= <- <-]|]. apply parse_url_ctx.
Qed.

Lemma parse_set_ctx rp line r rp' : apk_repoparser_parse_set buf rp line = Some (r, rp') -> rp_ctx rp' = rp_ctx rp.
Proof.
  unfold apk_repoparser_parse_set. destruct (set_options _ _ _) as [?|[flags l]]; [by intros [= <- <-]|].
  destruct (apk_blob_split (Some l) (bs "=")) as [[key value]|]; [|by intros [= <- <-]]. destruct (_ || _); [by intros [= <- <-]|].
  destruct (apk_blob_subst _ _ _ _) as [[?|text]|]; cbn [mbind option_bind]; try done; by intros [= <- <-].
Qed.

Lemma parse_ctx rp line ak r rp' : apk_repoparser_parse buf repository rp line ak = Some (r, rp') -> P (rp_ctx rp) -> P (rp_ctx rp').
Proof.
  unfold apk_repoparser_parse. intros H Hc. destruct line as [[|c rest]|]; [by injection H as <- <-| |by injection H as <- <-].
  destruct (c =? chr "#"); [by injection H as <- <-|]. destruct (get_word (c :: rest)) as [word l]. destruct (zlen word =? 0); [by injection H as <- <-|].
  set (rp1 := RepoParser (rp_variables rp) (rp_line rp + 1) (rp_ctx rp)) in *. assert (Hc1 : P (rp_ctx rp1)) by done.
  assert (Hnext : forall type, (let '(word, line) := get_word l in if zlen word =? 0 then Some (- APKE_REPO_SYNTAX, rp1) else parse_tag buf repository rp1 type word line ak) = Some (r, rp') -> P (rp_ctx rp')).
  { intros type. destruct (get_word l) as [w l']. destruct (zlen w =? 0); [by intros [= <- <-]|]. intros E. by apply (parse_tag_ctx _ _ _ _ _ _ _ E). }
  destruct (ak && is_keyword word); [|by apply (parse_tag_ctx _ _ _ _ _ _ _ H)].
  destruct (_ =? 0); [by rewrite (parse_set_ctx _ _ _ _ H)|]. destruct (_ =? 0); [by apply (Hnext _ H)|]. destruct (_ =? 0); [by apply (Hnext _ H)|].
  destruct (_ =? 0); [by apply (Hnext _ H)|]. by injection H as <- <-.
Qed.

Lemma parse_lines_ctx rp lines ak r rp' : parse_lines buf repository rp lines ak = Some (r, rp') -> P (rp_ctx rp) -> P (rp_ctx rp').
Proof.
  revert rp. induction lines as [|l lines IH]; intros rp; cbn [parse_lines]; [by intros [= <- <-]|]. intros H Hc.
  destruct (apk_repoparser_parse buf repository rp (Some l) ak) as [[r1 rp1]|] eqn:E; cbn [mbind option_bind] in H; [|done].
  pose proof (parse_ctx _ _ _ _ _ E Hc) as Hc1. destruct (r1 <? 0); [by injection H as <- <-|]. by apply (IH rp1).
Qed.
End context.
