(* ===== verification/Index.v ===== *)
(** Reading a repository index (io.c, database.c): the stream is cut into lines, lines fill a
    package template, an empty line ends the entry.  The main result is the round trip with
    the writer of Package.v. *)
From Stdlib Require Import ZArith Lia Ascii String.
From stdpp Require Import base numbers list option.
From S2P Require Import Prelude Clib Blob Codec Ctype Version Dep Package.

(** ** Lines of a stream *)

(** The lines of a text: what is before each separator, and at the end what is left (nothing, if the text ends with a
    separator).  The separator is one byte, so every turn shortens the text. *)
Fixpoint get_delims (fuel : nat) (token : bytes) (l : bytes) : list bytes :=
  match fuel with
  | O => []
  | S fuel => match apk_blob_split (Some l) token with
              | Some (data, rest) => data :: get_delims fuel token rest
              | None => [l]
              end
  end.
Definition apk_istream_lines (l : bytes) : list bytes := get_delims (S (length l)) [10] l.

(** apk_istream_get_delim until it fails, for a stream with a buffer of [bufsize] bytes: the lines, and what
    apk_istream_close returns afterwards.  A line that leaves no room for its separator in the buffer is an error. *)
Fixpoint fitting (bufsize : Z) (ls : list bytes) : list bytes * Z :=
  match ls with
  | [] => ([], 0)
  | l :: ls => if bufsize <=? zlen l then ([], - ENOBUFS) else let '(ls, e) := fitting bufsize ls in (l :: ls, e)
  end.
Definition istream_lines (bufsize : Z) (l : bytes) : list bytes * Z := fitting bufsize (apk_istream_lines l).
(** All lines fit. *)
Definition lines_fit (bufsize : Z) (l : bytes) : bool := forallb (fun x => zlen x <? bufsize) (apk_istream_lines l).

(** Either there is no error, or the error is at the first line that is too long. *)
Lemma fitting_spec bufsize ls :
  if forallb (fun x => zlen x <? bufsize) ls then fitting bufsize ls = (ls, 0)
  else exists pre post, ls = pre ++ post /\ fitting bufsize ls = (pre, - ENOBUFS).
Proof.
  induction ls as [|l ls IH]; [done|]. cbn [forallb fitting]. destruct (Z.ltb_spec (zlen l) bufsize), (Z.leb_spec bufsize (zlen l)); try lia; cbn [andb].
  - destruct (forallb _ ls); [by rewrite IH|]. destruct IH as (pre & post & -> & ->). by exists (l :: pre), post.
  - by exists [], (l :: ls).
Qed.

(** ** The reader *)

Definition APKE_V2DB_FORMAT : Z := APKE_FIRST_VALUE + 49.

Record index_reader := Reader {
  rd_db : db_compat;
  rd_tmpl : apk_package_tmpl;
  rd_added : list apk_package_tmpl;
}.

Definition apk_db_arch_compatible (arches : list bytes) (noarch arch : bytes) : bool :=
  (zlen arch =? 0) || existsb (fun a => bool_decide (a = arch)) arches || bool_decide (noarch = arch).

(** What apk_db_pkg_add takes from the template, or [None] where it refuses it. *)
Definition pkg_add_guard (arches : list bytes) (noarch : bytes) (t : apk_package_tmpl) : option apk_package_tmpl :=
  match pkg_name (tm_pkg t), version (tm_pkg t) with
  | Some _, Some _ =>
      if d_len (tm_id t) <? APK_DIGEST_LENGTH_SHA1 then None
      else if apk_db_arch_compatible arches noarch (arch (tm_pkg t)) then Some t
      else Some (with_pkg t (set_uninstallable true))
  | _, _ => None
  end.

Section Reader.
Context (arches : list bytes) (noarch : bytes) (repo : Z).

(** One line of the loop of apk_db_fdb_read for a repository ([repo] >= 0), where lines for
    the installed database are skipped: [inl] the new state, [inr] the error; [None] an
    out-of-bounds read while a digest is parsed. *)
Definition index_line (st : index_reader) (l : bytes) : option (index_reader + Z) :=
  if zlen l <? 2 then
    match pkg_name (tm_pkg (rd_tmpl st)) with
    | None => Some (inl st)
    | Some _ =>
        let t := with_pkg (rd_tmpl st) (fun p => set_repos (repos p .| (1 .<< repo)) p) in
        match pkg_add_guard arches noarch t with
        | None => Some (inr (- APKE_V2DB_FORMAT))
        | Some t => Some (inl (Reader (rd_db st) (apk_pkgtmpl_reset t) (rd_added st ++ [t])))
        end
    end
  else if negb (znth 0 l 1 =? chr ":") then Some (inr (- APKE_V2DB_FORMAT))
  else match apk_pkgtmpl_add_info (rd_db st) (rd_tmpl st) (znth 0 l 0) (zdrop 2 l) with
       | None => None
       | Some (db, t, _) => Some (inl (Reader db t (rd_added st)))
       end.

Fixpoint index_lines (st : index_reader) (ls : list bytes) : option (index_reader + Z) :=
  match ls with
  | [] => Some (inl st)
  | l :: ls => match index_line st l with
               | Some (inl st) => index_lines st ls
               | r => r
               end
  end.

Definition apk_db_index_read (bufsize : Z) (db : db_compat) (addr : Z) (text : bytes) : option (index_reader + Z) :=
  let '(ls, e) := istream_lines bufsize text in
  match index_lines (Reader db (apk_pkgtmpl_init addr) []) ls with
  | Some (inl st) => Some (if e <? 0 then inr e else inl st)
  | r => r
  end.
End Reader.

(** ** Lines and text *)

Definition unlines (ls : list bytes) : bytes := ls ≫= (fun l => l ++ [10]).

Definition no_nl (l : bytes) : Prop := Forall (fun c => c <> 10) l.

Lemma split_nl l r : no_nl l -> apk_blob_split (Some (l ++ 10 :: r)) [10] = Some (l, r).
Proof. apply (split_one 10). Qed.

Lemma get_delims_line fuel l r :
  no_nl l -> get_delims (S fuel) [10] (l ++ 10 :: r) = l :: get_delims fuel [10] r.
Proof. intros Hl. cbn [get_delims]. by rewrite split_nl. Qed.

Lemma get_delims_unlines ls fuel r :
  Forall no_nl ls -> get_delims (length ls + fuel) [10] (unlines ls ++ r) = ls ++ get_delims fuel [10] r.
Proof.
  induction 1 as [|l ls Hl Hls IH]; [done|].
  change (unlines (l :: ls)) with ((l ++ [10]) ++ unlines ls).
  rewrite <- !app_assoc. cbn [app length Nat.add]. rewrite get_delims_line by done. by rewrite IH.
Qed.

(** More fuel than bytes changes nothing. *)
Lemma get_delims_fuel n m l :
  (length l < n)%nat -> (length l < m)%nat -> get_delims n [10] l = get_delims m [10] l.
Proof.
  revert m l. induction n as [|n IH]; intros [|m] l Hn Hm; try lia. cbn [get_delims].
  destruct (apk_blob_split (Some l) [10]) as [[x y]|] eqn:E; [|done].
  apply apk_blob_split_some in E as [-> _]. rewrite !length_app in *. cbn in *. f_equal. apply IH; lia.
Qed.

Lemma length_unlines ls : (length ls <= length (unlines ls))%nat.
Proof.
  induction ls as [|l ls IH]; [done|]. change (unlines (l :: ls)) with ((l ++ [10]) ++ unlines ls).
  rewrite !length_app. cbn. lia.
Qed.

Lemma apk_istream_lines_unlines ls : Forall no_nl ls -> apk_istream_lines (unlines ls) = ls ++ [[]].
Proof.
  intros Hls. unfold apk_istream_lines.
  pose proof (get_delims_unlines ls (S (S (length (unlines ls)))) [] Hls) as H.
  rewrite app_nil_r in H. rewrite (get_delims_fuel _ (length ls + S (S (length (unlines ls))))) by lia.
  rewrite H. f_equal.
Qed.

Section Fold.
Context (arches : list bytes) (noarch : bytes) (repo : Z).

Lemma index_lines_app st ls ks :
  index_lines arches noarch repo st (ls ++ ks) =
  match index_lines arches noarch repo st ls with
  | Some (inl st) => index_lines arches noarch repo st ks
  | r => r
  end.
Proof.
  revert st. induction ls as [|l ls IH]; intros st; [done|]. cbn [app index_lines].
  destruct (index_line arches noarch repo st l) as [[?|?]|]; auto.
Qed.
End Fold.

(** ** The lines of an entry *)

Definition opt_line (tag : string) (v : bytes) : list bytes := if zlen v =? 0 then [] else [bs tag ++ v].
Definition num_line (tag : string) (n : Z) : list bytes := if n =? 0 then [] else [bs tag ++ uint_text (u64 n) 10].
Definition deps_line (tag : string) (deps : list apk_dependency) : list bytes :=
  if zlen deps =? 0 then [] else [bs tag ++ deps_text None deps].

Definition header_rest (p : apk_package) : list bytes :=
  [bs "P:" ++ pkg_nm p; bs "V:" ++ pkg_ver p] ++ opt_line "A:" (arch p) ++
  [bs "S:" ++ uint_text (size p) 10; bs "I:" ++ uint_text (installed_size p) 10;
   bs "T:" ++ description p; bs "U:" ++ url p; bs "L:" ++ license p] ++
  opt_line "o:" (origin p) ++ opt_line "m:" (maintainer p) ++ num_line "t:" (build_time p) ++
  opt_line "c:" (commit p) ++ num_line "k:" (provider_priority p).

Definition header_lines (p : apk_package) : list bytes :=
  (bs "C:" ++ hash_text (apk_pkg_hash_blob p)) :: header_rest p.

Definition entry_lines (p : apk_package) : list bytes :=
  header_lines p ++ deps_line "D:" (depends p) ++ deps_line "p:" (provides p) ++ deps_line "i:" (install_if p).

(** What the writer needs of a package for its entry to be readable. *)
Record index_ok (p : apk_package) : Prop := {
  io_name : exists n, pkg_name p = Some n /\ no_nl n;
  io_version : exists v, version p = Some v /\ no_nl v;
  io_strings : Forall no_nl [arch p; license p; origin p; maintainer p; url p; description p; commit p];
  io_digest : bytes_ok (digest p) /\ 20 <= zlen (digest p);
  io_size : 0 <= size p < 2 ^ 64 /\ 0 <= installed_size p < 2 ^ 64;
  io_time : 0 <= build_time p < 2 ^ 63;
  io_prio : 0 <= provider_priority p < 2 ^ 16;
  io_deps : Forall (fun d => dep_ok None d /\ dep_broken d = false) (depends p ++ provides p ++ install_if p);
}.

Lemma push_opt b X tag v :
  push_field_opt (apk_blob_push_blob b X) (nl tag) v =
  apk_blob_push_blob b (X ++ (opt_line tag v ≫= cons 10)).
Proof.
  unfold push_field_opt, push_field, opt_line, nl. destruct (zlen v =? 0); cbn [negb].
  - by rewrite app_nil_r.
  - rewrite !apk_blob_push_app. cbn. by rewrite app_nil_r.
Qed.

Lemma push_num b X tag n :
  push_uint_opt (apk_blob_push_blob b X) (nl tag) n =
  apk_blob_push_blob b (X ++ (num_line tag n ≫= cons 10)).
Proof.
  unfold push_uint_opt, num_line, nl. destruct (n =? 0); cbn [negb].
  - by rewrite app_nil_r.
  - rewrite push_uint_eq, !apk_blob_push_app. cbn. by rewrite app_nil_r.
Qed.

Lemma push_line b X tag v :
  push_field (apk_blob_push_blob b X) (nl tag) v = apk_blob_push_blob b (X ++ ([bs tag ++ v] ≫= cons 10)).
Proof. unfold push_field, nl. rewrite !apk_blob_push_app. cbn. by rewrite app_nil_r. Qed.

Lemma push_uint_line b X tag n :
  apk_blob_push_uint (apk_blob_push_blob (apk_blob_push_blob b X) (nl tag)) n 10 =
  apk_blob_push_blob b (X ++ ([bs tag ++ uint_text n 10] ≫= cons 10)).
Proof.
  unfold nl. rewrite push_uint_eq, !apk_blob_push_app. cbn. by rewrite app_nil_r.
Qed.

Lemma unlines_cons l ls : unlines (l :: ls) = l ++ 10 :: unlines ls.
Proof. unfold unlines. cbn. by rewrite <- app_assoc. Qed.

Lemma unlines_app ls ks : unlines (ls ++ ks) = unlines ls ++ unlines ks.
Proof. apply bind_app. Qed.

Lemma unlines_first l ls : (l ++ (ls ≫= cons 10)) ++ [10] = unlines (l :: ls).
Proof.
  revert l. induction ls as [|k ls IH]; intros l; [by rewrite unlines_cons, app_nil_r|].
  rewrite unlines_cons, <- IH. change ((k :: ls) ≫= cons 10) with ((10 :: k) ++ (ls ≫= cons 10)).
  by rewrite <- !app_assoc.
Qed.

Lemma pushed_some n l t : apk_blob_pushed n (apk_blob_push_blob (wbuf_new n) l) = Some t -> t = l.
Proof.
  cbn. destruct (n <? zlen l); [done|]. cbn. destruct (negb _); [done|]. congruence.
Qed.

(** The header buffer, when it is large enough, holds the header lines. *)
Lemma write_header_lines p os t :
  index_ok p -> apk_pkg_write_index_header p os = Some t ->
  ((write_depends (os ++ unlines (header_lines p)) (bs "D:") (depends p) ≫=
    (fun os => write_depends os (bs "p:") (provides p))) ≫=
    (fun os => write_depends os (bs "i:") (install_if p))) = Some t.
Proof.
  intros Hok E. unfold apk_pkg_write_index_header in E.
  assert (Hh : zlen (apk_pkg_hash_blob p) = APK_DIGEST_LENGTH_SHA1).
  { apply zlen_ztake. destruct (io_digest p Hok). unfold APK_DIGEST_LENGTH_SHA1. lia. }
  rewrite (push_hash_eq _ _ Hh), apk_blob_push_app in E.
  repeat (rewrite ?push_line, ?push_opt, ?push_uint_line, ?push_num in E).
  rewrite apk_blob_push_app in E.
  destruct (apk_blob_pushed 2048 _) as [l|] eqn:El; [|done]. apply pushed_some in El.
  assert (Hl : l = unlines (header_lines p)).
  { rewrite El. unfold header_lines. rewrite <- unlines_first. unfold header_rest. rewrite !bind_app, <- !app_assoc. cbn.
    repeat (progress (cbn [app]; rewrite ?app_nil_r, <- ?app_assoc)). done. }
  rewrite Hl in E. revert E. clear.
  destruct (write_depends _ (bs "D:") (depends p)) as [u|]; cbn; [|done]. by destruct (write_depends u (bs "p:") (provides p)).
Qed.

(** The dependencies after the first, each behind a space. *)
Lemma write_layer_rest deps os n t m :
  Forall (dep_ok None) deps -> 0 < n -> apk_deps_write_layer None deps (bs " ") (-1) os n = Some (t, m) ->
  t = os ++ (deps ≫= (fun d => chr " " :: dep_text None d)).
Proof.
  intros Hd. revert os n. induction Hd as [|d deps Hd Hds IH]; intros os n Hn E; cbn [apk_deps_write_layer] in E.
  - injection E as <- _. by rewrite app_nil_r.
  - cbn [Z.eqb Pos.eqb negb andb] in E. destruct (Z.eqb_spec n 0); [lia|]. cbn [negb] in E.
    pose proof (apk_blob_push_dep_text None d) as Hp. unfold appends in Hp. rewrite Hp, apk_blob_push_app in E.
    destruct (apk_blob_pushed 256 _) as [b|] eqn:Eb; [|done]. apply pushed_some in Eb.
    pose proof (zlen_nonneg b). rewrite (IH (os ++ b) (n + zlen b)) by (done || lia).
    subst b. by rewrite <- app_assoc.
Qed.

Lemma deps_text_bind d deps :
  deps_text None (d :: deps) = dep_text None d ++ (deps ≫= (fun d => chr " " :: dep_text None d)).
Proof.
  revert d. induction deps as [|e deps IH]; intros d; [by rewrite app_nil_r|].
  change (deps_text None (d :: e :: deps)) with (dep_text None d ++ chr " " :: deps_text None (e :: deps)).
  by rewrite IH.
Qed.

Lemma write_depends_line tag deps os t :
  Forall (dep_ok None) deps -> write_depends os (bs tag) deps = Some t ->
  t = os ++ unlines (deps_line tag deps).
Proof.
  intros Hd E. unfold write_depends, deps_line in *. destruct (zlen deps =? 0) eqn:El.
  - injection E as <-. by rewrite app_nil_r.
  - destruct Hd as [|d deps Hd Hds]; [done|]. unfold apk_deps_write in E. cbn [apk_deps_write_layer Z.eqb Pos.eqb negb andb] in E.
    pose proof (apk_blob_push_dep_text None d) as Hp. unfold appends in Hp. rewrite Hp in E.
    destruct (apk_blob_pushed 256 _) as [b|] eqn:Eb; [|done]. apply pushed_some in Eb. subst b.
    destruct (apk_deps_write_layer _ _ _ _ _ _) as [[u m]|] eqn:Ew; [|done]. injection E as <-.
    apply write_layer_rest in Ew; [|done|].
    + rewrite unlines_cons, deps_text_bind, Ew, <- !app_assoc. done.
    + pose proof (dep_text_ne None d Hd). unfold zlen. destruct (dep_text None d); [done|cbn; lia].
Qed.

(** The text of an entry is its lines and an empty one. *)
Lemma write_entry_lines p os t :
  index_ok p -> apk_pkg_write_index_entry p os = Some t -> t = os ++ unlines (entry_lines p ++ [[]]).
Proof.
  intros Hok E. unfold apk_pkg_write_index_entry in E.
  destruct (apk_pkg_write_index_header p os) as [u|] eqn:Eh; [|done]. injection E as <-.
  apply write_header_lines in Eh; [|done].
  assert (Hd : Forall (dep_ok None) (depends p ++ provides p ++ install_if p)).
  { pose proof (io_deps p Hok) as H. revert H. apply Forall_impl. by intros d [? _]. }
  apply Forall_app in Hd as [Hd1 Hd]. apply Forall_app in Hd as [Hd2 Hd3].
  destruct (write_depends _ (bs "D:") _) as [u1|] eqn:E1; [|done]. cbn [mbind option_bind] in Eh.
  destruct (write_depends u1 (bs "p:") _) as [u2|] eqn:E2; [|done]. cbn [mbind option_bind] in Eh.
  apply write_depends_line in E1, E2, Eh; try done. subst.
  unfold entry_lines. rewrite !unlines_app, <- !app_assoc. done.
Qed.

(** ** Reading the lines back *)

Section ReadBack.
Context (arches : list bytes) (noarch : bytes) (repo : Z).

Definition reads (st : index_reader) (ls : list bytes) (st' : index_reader) : Prop :=
  index_lines arches noarch repo st ls = Some (inl st').

(** The template of the reader with a field set. *)
Definition upd (f : apk_package -> apk_package) (st : index_reader) : index_reader :=
  Reader (rd_db st) (with_pkg (rd_tmpl st) f) (rd_added st).
Definition cur (st : index_reader) : apk_package := tm_pkg (rd_tmpl st).

Lemma reads_app st ls st1 ks st2 : reads st ls st1 -> reads st1 ks st2 -> reads st (ls ++ ks) st2.
Proof. unfold reads. intros H1 H2. by rewrite index_lines_app, H1. Qed.

Lemma reads_field st c v db t r :
  apk_pkgtmpl_add_info (rd_db st) (rd_tmpl st) c v = Some (db, t, r) ->
  reads st [c :: chr ":" :: v] (Reader db t (rd_added st)).
Proof.
  intros E. unfold reads. cbn [index_lines]. unfold index_line. rewrite !zlen_cons.
  pose proof (zlen_nonneg v). destruct (Z.ltb_spec (zlen v + 1 + 1) 2); [lia|].
  change (znth 0 (c :: chr ":" :: v) 1) with (chr ":").
  change (znth 0 (c :: chr ":" :: v) 0) with c. change (zdrop 2 (c :: chr ":" :: v)) with v.
  rewrite Z.eqb_refl. cbn [negb]. by rewrite E.
Qed.

(** A line that sets one text field, and the same line when it is left out for an empty text. *)
Lemma reads_opt st tag v f :
  (forall st, reads st [bs tag ++ v] (upd f st)) -> (v = [] -> upd f st = st) ->
  reads st (opt_line tag v) (upd f st).
Proof.
  intros H1 H2. unfold opt_line. destruct (Z.eqb_spec (zlen v) 0) as [E|]; [|apply H1].
  rewrite H2 by (by apply zlen_0_nil). done.
Qed.

Lemma uint_text_value n : 0 <= n < 2 ^ 64 -> (apk_blob_pull_uint (uint_text n 10) 10).1 = n.
Proof.
  intros Hn. pose proof (uint_text_pull 10 n [] ltac:(lia) Hn I) as H. rewrite app_nil_r in H. by rewrite H.
Qed.

Lemma reads_num st tag n f :
  (forall st, reads st [bs tag ++ uint_text (u64 n) 10] (upd f st)) -> (n = 0 -> upd f st = st) ->
  reads st (num_line tag n) (upd f st).
Proof.
  intros H1 H2. unfold num_line. destruct (Z.eqb_spec n 0) as [E|]; [|apply H1]. by rewrite H2.
Qed.

Lemma dep_tag_none d : dep_ok None d -> dep_repository_tag d = 0.
Proof. intros [_ _ _ _ Ht _]. by destruct Ht as [|(? & ? & _)]. Qed.

Lemma pull_deps_of_text tgs deps :
  tags_ok tgs -> Forall (fun d => dep_ok None d /\ dep_broken d = false) deps ->
  apk_blob_pull_deps (Some (deps_text None deps)) tgs [] false = Some (0, tgs, deps).
Proof.
  intros Ht Hd. unfold apk_blob_pull_deps. rewrite (pull_deps_loop_text tgs None); [|done|by left| | |cbn; lia].
  - replace (existsb dep_broken deps) with false; [done|]. symmetry. apply not_true_is_false.
    intros E. apply existsb_exists in E as (d & Hin & Hb). rewrite Forall_forall in Hd.
    destruct (Hd d Hin). congruence.
  - revert Hd. apply Forall_impl. by intros d [? _].
  - revert Hd. apply Forall_impl. intros d [Ho _] Hn. by destruct (Hn (dep_tag_none d Ho)).
Qed.

Definition with_db (db : db_compat) : Prop := tags_ok (db_tags db).

Lemma compat_eta db :
  Compat (db_tags db) (compat_depversions db) (compat_notinstallable db) (compat_newfeatures db) = db.
Proof. by destruct db. Qed.

(** A dependency line stores its list with [set] in the field read by [get]. *)
Lemma reads_deps st c tag deps get set bad :
  bs tag = [c; chr ":"] ->
  (forall v, apk_pkgtmpl_add_info (rd_db st) (rd_tmpl st) c v =
     add_info_deps (rd_db st) v (get (cur st)) (fun l db => (db, with_pkg (rd_tmpl st) (set l))) bad) ->
  with_db (rd_db st) -> get (cur st) = [] -> set [] (cur st) = cur st ->
  Forall (fun d => dep_ok None d /\ dep_broken d = false) deps ->
  reads st (deps_line tag deps) (upd (set deps) st).
Proof.
  intros Htag Hadd Hdb H0 Hset Hd. unfold deps_line. destruct (Z.eqb_spec (zlen deps) 0) as [E|].
  - apply zlen_0_nil in E as ->. destruct st as [db [p id] added]. unfold upd, with_pkg, cur in *.
    cbn in *. by rewrite Hset.
  - rewrite Htag. apply (reads_field st c (deps_text None deps) _ _ 0).
    rewrite Hadd. unfold add_info_deps. rewrite H0, pull_deps_of_text by done.
    cbn. by rewrite compat_eta.
Qed.

(** ** The template an entry gives *)

Definition index_tmpl (p : apk_package) (addr : Z) : apk_package :=
  Pkg addr (pkg_name p) None (depends p) (install_if p) (provides p) [] [] (version p) (arch p) (license p)
    (origin p) (maintainer p) (url p) (description p) (commit p) (installed_size p) (size p) (build_time p)
    0 0 (provider_priority p) 0 false false false false 0 0 [].

Definition index_id (p : apk_package) : apk_digest :=
  Digest APK_DIGEST_SHA1 20 (apk_pkg_hash_blob p ++ replicate 44 0).

Definition fresh (addr : Z) (db : db_compat) (added : list apk_package_tmpl) : index_reader :=
  Reader db (apk_pkgtmpl_init addr) added.

Definition header_tmpl (p : apk_package) (addr : Z) : apk_package :=
  set_provides [] (set_install_if [] (set_depends [] (index_tmpl p addr))).

Lemma add_info_C db t v :
  apk_pkgtmpl_add_info db t (chr "C") v =
  match apk_blob_pull_digest (Some v) (tm_id t) with
  | None => None
  | Some (b, d) => Some (db, Tmpl (tm_pkg t) d, if APK_BLOB_IS_NULL b then - APKE_V2PKG_FORMAT else 0)
  end.
Proof. reflexivity. Qed.

Lemma reads_hash p addr db added :
  index_ok p ->
  reads (fresh addr db added) [bs "C:" ++ hash_text (apk_pkg_hash_blob p)]
    (Reader db (Tmpl (pkg_reset addr) (index_id p)) added).
Proof.
  intros Hok. destruct (io_digest p Hok) as [Hdok Hdlen].
  assert (Hh : zlen (apk_pkg_hash_blob p) = APK_DIGEST_LENGTH_SHA1)
    by (apply zlen_ztake; unfold APK_DIGEST_LENGTH_SHA1; lia).
  apply (reads_field (fresh addr db added) (chr "C") (hash_text (apk_pkg_hash_blob p)) db
      (Tmpl (pkg_reset addr) (index_id p)) 0).
  rewrite add_info_C, <- (app_nil_r (hash_text _)).
  by rewrite pull_digest_hash_text by (done || by apply Forall_take).
Qed.

(** The text lines. *)
Lemma reads_P st v : reads st [bs "P:" ++ v] (upd (set_pkg_name (Some v)) st).
Proof. exact (reads_field st (chr "P") v _ _ 0 eq_refl). Qed.
Lemma reads_V st v : reads st [bs "V:" ++ v] (upd (set_version (Some v)) st).
Proof. exact (reads_field st (chr "V") v _ _ 0 eq_refl). Qed.
Lemma reads_T st v : reads st [bs "T:" ++ v] (upd (set_description v) st).
Proof. exact (reads_field st (chr "T") v _ _ 0 eq_refl). Qed.
Lemma reads_U st v : reads st [bs "U:" ++ v] (upd (set_url v) st).
Proof. exact (reads_field st (chr "U") v _ _ 0 eq_refl). Qed.
Lemma reads_L st v : reads st [bs "L:" ++ v] (upd (set_license v) st).
Proof. exact (reads_field st (chr "L") v _ _ 0 eq_refl). Qed.
Lemma reads_A st v : reads st [bs "A:" ++ v] (upd (set_arch v) st).
Proof. exact (reads_field st (chr "A") v _ _ 0 eq_refl). Qed.
Lemma reads_o st v : reads st [bs "o:" ++ v] (upd (set_origin v) st).
Proof. exact (reads_field st (chr "o") v _ _ 0 eq_refl). Qed.
Lemma reads_m st v : reads st [bs "m:" ++ v] (upd (set_maintainer v) st).
Proof. exact (reads_field st (chr "m") v _ _ 0 eq_refl). Qed.
Lemma reads_c st v : reads st [bs "c:" ++ v] (upd (set_commit v) st).
Proof. exact (reads_field st (chr "c") v _ _ 0 eq_refl). Qed.

(** The number lines. *)
Lemma reads_S st n : 0 <= n < 2 ^ 64 -> reads st [bs "S:" ++ uint_text n 10] (upd (set_size n) st).
Proof.
  intros Hn. rewrite <- (uint_text_value n Hn) at 2.
  exact (reads_field st (chr "S") (uint_text n 10) _ _ 0 eq_refl).
Qed.
Lemma reads_I st n : 0 <= n < 2 ^ 64 -> reads st [bs "I:" ++ uint_text n 10] (upd (set_installed_size n) st).
Proof.
  intros Hn. rewrite <- (uint_text_value n Hn) at 2.
  exact (reads_field st (chr "I") (uint_text n 10) _ _ 0 eq_refl).
Qed.
Lemma reads_t st n : 0 <= n < 2 ^ 64 -> reads st [bs "t:" ++ uint_text n 10] (upd (set_build_time (s64 n)) st).
Proof.
  intros Hn. rewrite <- (uint_text_value n Hn) at 2.
  exact (reads_field st (chr "t") (uint_text n 10) _ _ 0 eq_refl).
Qed.
Lemma reads_k st n : 0 <= n < 2 ^ 64 -> reads st [bs "k:" ++ uint_text n 10] (upd (set_provider_priority (u16 n)) st).
Proof.
  intros Hn. rewrite <- (uint_text_value n Hn) at 2.
  exact (reads_field st (chr "k") (uint_text n 10) _ _ 0 eq_refl).
Qed.

(** Setting a field to what it holds changes nothing. *)
Lemma upd_id f st : f (cur st) = cur st -> upd f st = st.
Proof. destruct st as [db [p id] added]. unfold upd, with_pkg, cur. cbn. by intros ->. Qed.
Lemma set_arch_id v r : v = arch r -> set_arch v r = r.
Proof. intros ->. by destruct r. Qed.
Lemma set_origin_id v r : v = origin r -> set_origin v r = r.
Proof. intros ->. by destruct r. Qed.
Lemma set_maintainer_id v r : v = maintainer r -> set_maintainer v r = r.
Proof. intros ->. by destruct r. Qed.
Lemma set_commit_id v r : v = commit r -> set_commit v r = r.
Proof. intros ->. by destruct r. Qed.
Lemma set_build_time_id v r : v = build_time r -> set_build_time v r = r.
Proof. intros ->. by destruct r. Qed.
Lemma set_provider_priority_id v r : v = provider_priority r -> set_provider_priority v r = r.
Proof. intros ->. by destruct r. Qed.

Lemma reads_header p addr db added :
  index_ok p ->
  reads (fresh addr db added) (header_lines p) (Reader db (Tmpl (header_tmpl p addr) (index_id p)) added).
Proof.
  intros Hok. pose proof Hok as [(n & Hn & _) (v & Hv & _) _ _ [Hs1 Hs2] Ht Hp _].
  unfold header_lines, header_rest.
  assert (Hnm : pkg_nm p = n) by (unfold pkg_nm; by rewrite Hn).
  assert (Hvr : pkg_ver p = v) by (unfold pkg_ver; by rewrite Hv). rewrite Hnm, Hvr.
  eapply (reads_app _ [_]); [by apply reads_hash|]. set (st := Reader db _ added).
  eapply (reads_app _ [_; _]); [eapply (reads_app _ [_]); [apply reads_P|apply reads_V]|].
  eapply reads_app; [apply (reads_opt _ "A:" _ (set_arch (arch p)));
    [intros; apply reads_A|intros Ez; by apply upd_id, set_arch_id]|].
  eapply (reads_app _ [_; _; _; _; _]).
  { eapply (reads_app _ [_]); [apply reads_S; lia|]. eapply (reads_app _ [_]); [apply reads_I; lia|].
    eapply (reads_app _ [_]); [apply reads_T|]. eapply (reads_app _ [_]); [apply reads_U|apply reads_L]. }
  eapply reads_app; [apply (reads_opt _ "o:" _ (set_origin (origin p)));
    [intros; apply reads_o|intros Ez; by apply upd_id, set_origin_id]|].
  eapply reads_app; [apply (reads_opt _ "m:" _ (set_maintainer (maintainer p)));
    [intros; apply reads_m|intros Ez; by apply upd_id, set_maintainer_id]|].
  eapply reads_app.
  { apply (reads_num _ "t:" (build_time p) (set_build_time (build_time p))); [|intros Ez; by apply upd_id, set_build_time_id].
    intros st'. rewrite (wrap_small 64) by lia. rewrite <- (s64_small (build_time p)) at 2 by lia.
    apply reads_t. lia. }
  eapply reads_app; [apply (reads_opt _ "c:" _ (set_commit (commit p)));
    [intros; apply reads_c|intros Ez; by apply upd_id, set_commit_id]|].
  assert (Hend : Reader db (Tmpl (header_tmpl p addr) (index_id p)) added =
    upd (set_provider_priority (provider_priority p))
      (Reader db (Tmpl (set_provider_priority 0 (header_tmpl p addr)) (index_id p)) added)) by reflexivity.
  rewrite Hend. match goal with |- reads ?s _ _ => replace s with
    (Reader db (Tmpl (set_provider_priority 0 (header_tmpl p addr)) (index_id p)) added) end.
  - apply (reads_num _ "k:" (provider_priority p) (set_provider_priority (provider_priority p)));
    [|intros Ez; by apply upd_id, set_provider_priority_id].
    intros st'. rewrite (wrap_small 64) by lia. rewrite <- (wrap_small 16 (provider_priority p)) at 2 by lia.
    apply reads_k. lia.
  - unfold header_tmpl, index_tmpl. rewrite Hn, Hv. reflexivity.
Qed.
End ReadBack.

(** ** No line holds a newline *)

Lemma znth_no_nl tbl i : no_nl tbl -> znth 0 tbl i <> 10.
Proof.
  intros Ht. unfold znth. destruct (i <? 0); [done|].
  destruct (nth_in_or_default (Z.to_nat i) tbl 0) as [Hin|E]; [|by rewrite E].
  unfold no_nl in Ht. rewrite Forall_forall in Ht. by apply Ht.
Qed.

Lemma bs_no_nl s : forallb (fun c => negb (c =? 10)) (bs s) = true -> no_nl (bs s).
Proof.
  rewrite forallb_forall. intros Hs. apply Forall_forall. intros c Hc. specialize (Hs c Hc).
  reflect_tests. done.
Qed.

Lemma b64_dump_no_nl l : no_nl (b64_dump l).
Proof.
  assert (He : forall i, b64encode i <> 10) by (intros i; apply znth_no_nl; by apply bs_no_nl).
  assert (Hn : forall n l, (length l <= n)%nat -> no_nl (b64_dump l)); [|by apply (Hn (length l))].
  clear l. intros n. induction n as [|n IH]; intros l Hl.
  - destruct l; [constructor|cbn in Hl; lia].
  - destruct l as [|a [|b [|c l]]]; cbn [b64_dump push_b64_tail]; repeat constructor; try apply He; try done.
    apply IH. cbn in Hl. lia.
Qed.

Lemma uint_text_no_nl n r : no_nl (uint_text n r).
Proof.
  unfold uint_text. destruct (n =? 0); [by apply bs_no_nl|].
  assert (Hx : forall i, xd_at i <> 10) by (intros i; apply znth_no_nl; by apply bs_no_nl).
  assert (Hd : forall fuel v acc, no_nl acc -> no_nl (push_uint_digits fuel v r acc)).
  { induction fuel as [|fuel IH]; intros v acc Ha; [done|]. cbn [push_uint_digits].
    destruct (v =? 0); [done|]. apply IH. by constructor. }
  apply Hd. constructor.
Qed.

Lemma dep_text_no_nl d : dep_ok None d -> no_nl (dep_text None d).
Proof.
  intros Hd. assert (Ht : tags_ok repo_tags_init).
  { repeat split; [done|vm_compute; congruence|constructor|constructor]. }
  pose proof (dep_text_sep repo_tags_init None d Ht (or_introl eq_refl) Hd) as H.
  revert H. apply Forall_impl. intros c Hc ->. by vm_compute in Hc.
Qed.

Lemma deps_line_no_nl tag deps :
  no_nl (bs tag) -> Forall (dep_ok None) deps -> Forall no_nl (deps_line tag deps).
Proof.
  intros Ht Hd. unfold deps_line. destruct (zlen deps =? 0); [done|]. constructor; [|done].
  apply Forall_app. split; [done|]. destruct Hd as [|d deps Hd Hds]; [constructor|].
  rewrite deps_text_bind. apply Forall_app. split; [by apply dep_text_no_nl|].
  induction Hds as [|e deps He Hds IH]; [constructor|].
  change ((e :: deps) ≫= (fun d => chr " " :: dep_text None d))
    with ((chr " " :: dep_text None e) ++ (deps ≫= (fun d => chr " " :: dep_text None d))).
  apply Forall_app. split; [|exact IH]. constructor; [done|by apply dep_text_no_nl].
Qed.

Lemma line_no_nl tag v : no_nl (bs tag) -> no_nl v -> no_nl (bs tag ++ v).
Proof. intros. by apply Forall_app. Qed.

Lemma opt_line_no_nl tag v : no_nl (bs tag) -> no_nl v -> Forall no_nl (opt_line tag v).
Proof. intros. unfold opt_line. destruct (zlen v =? 0); repeat constructor. by apply line_no_nl. Qed.

Lemma num_line_no_nl tag n : no_nl (bs tag) -> Forall no_nl (num_line tag n).
Proof.
  intros. unfold num_line. destruct (n =? 0); repeat constructor. apply line_no_nl; [done|apply uint_text_no_nl].
Qed.

Lemma index_deps_ok p :
  index_ok p -> Forall (dep_ok None) (depends p) /\ Forall (dep_ok None) (provides p) /\
                Forall (dep_ok None) (install_if p).
Proof.
  intros Hok. rewrite <- !Forall_app. pose proof (io_deps p Hok) as H. revert H.
  apply Forall_impl. by intros d [? _].
Qed.

Lemma entry_no_nl p : index_ok p -> Forall no_nl (entry_lines p ++ [[]]).
Proof.
  intros Hok. destruct (index_deps_ok p Hok) as (Hd1 & Hd2 & Hd3).
  pose proof Hok as [(n & Hn & Hnn) (v & Hv & Hvn) Hstr _ _ _ _ _].
  repeat (apply Forall_cons_1 in Hstr as [? Hstr]).
  unfold entry_lines, header_lines, header_rest, pkg_nm, pkg_ver. rewrite Hn, Hv.
  assert (Hb : forall s, forallb (fun c => negb (c =? 10)) (bs s) = true -> no_nl (bs s)) by apply bs_no_nl.
  pose proof (b64_dump_no_nl (apk_pkg_hash_blob p)).
  assert (Hh : no_nl (hash_text (apk_pkg_hash_blob p))) by (apply line_no_nl; [by apply Hb|done]).
  pose proof uint_text_no_nl. rewrite !Forall_app.
  split; [|repeat constructor]. split; [|repeat split; auto using deps_line_no_nl].
  constructor; [by apply line_no_nl; auto|]. rewrite !Forall_app.
  repeat split; auto using opt_line_no_nl, num_line_no_nl; repeat (constructor; [apply line_no_nl; auto|]);
    constructor.
Qed.

(** ** Whole indexes *)

Section RoundTrip.
Context (arches : list bytes) (noarch : bytes) (repo addr : Z).

(** What is added to the database for an entry: the fields of the package, the repository
    bit, and the mark for packages of other architectures. *)
Definition added_tmpl (p : apk_package) : apk_package_tmpl :=
  Tmpl (set_uninstallable (negb (apk_db_arch_compatible arches noarch (arch p)))
          (set_repos (1 .<< repo) (index_tmpl p addr))) (index_id p).

Lemma reads_entry p db added :
  index_ok p -> with_db db ->
  reads arches noarch repo (fresh addr db added) (entry_lines p ++ [[]]) (fresh addr db (added ++ [added_tmpl p])).
Proof.
  intros Hok Hdb. pose proof (io_deps p Hok) as Hd. apply Forall_app in Hd as [Hd1 Hd].
  apply Forall_app in Hd as [Hd2 Hd3]. unfold entry_lines. rewrite <- !app_assoc.
  eapply reads_app; [by apply reads_header|].
  eapply reads_app; [by eapply (reads_deps _ _ _ _ (chr "D") _ _ depends set_depends)|].
  eapply reads_app; [by eapply (reads_deps _ _ _ _ (chr "p") _ _ provides set_provides)|].
  eapply reads_app; [by eapply (reads_deps _ _ _ _ (chr "i") _ _ install_if set_install_if)|].
  destruct (io_name p Hok) as (n & Hn & _). destruct (io_version p Hok) as (v & Hv & _).
  unfold reads, index_lines, index_line. rewrite zlen_nil. cbn [Z.ltb Z.compare].
  unfold pkg_add_guard. cbn. rewrite Hn, Hv. unfold added_tmpl.
  by destruct (apk_db_arch_compatible arches noarch (arch p)).
Qed.

Lemma reads_entries ps db added :
  Forall index_ok ps -> with_db db ->
  reads arches noarch repo (fresh addr db added) (ps ≫= (fun p => entry_lines p ++ [[]]))
    (fresh addr db (added ++ (added_tmpl <$> ps))).
Proof.
  intros Hps Hdb. revert added. induction Hps as [|p ps Hp Hps IH]; intros added.
  - unfold reads. cbn. by rewrite app_nil_r.
  - change ((p :: ps) ≫= (fun p => entry_lines p ++ [[]]))
      with ((entry_lines p ++ [[]]) ++ (ps ≫= (fun p => entry_lines p ++ [[]]))).
    eapply reads_app; [by apply reads_entry|]. rewrite fmap_cons.
    replace (added ++ added_tmpl p :: (added_tmpl <$> ps)) with ((added ++ [added_tmpl p]) ++ (added_tmpl <$> ps))
      by (by rewrite <- app_assoc). apply IH.
Qed.
End RoundTrip.

(** Writing the entries of a list of packages one after the other, as the index writer does. *)
Fixpoint write_entries (ps : list apk_package) (os : bytes) : option bytes :=
  match ps with
  | [] => Some os
  | p :: ps => match apk_pkg_write_index_entry p os with
               | None => None
               | Some os => write_entries ps os
               end
  end.

Lemma write_entries_lines ps os t :
  Forall index_ok ps -> write_entries ps os = Some t ->
  t = os ++ unlines (ps ≫= (fun p => entry_lines p ++ [[]])).
Proof.
  intros Hps. revert os. induction Hps as [|p ps Hp Hps IH]; intros os E; cbn [write_entries] in E.
  - injection E as <-. by rewrite app_nil_r.
  - destruct (apk_pkg_write_index_entry p os) as [u|] eqn:Eu; [|done].
    apply write_entry_lines in Eu as ->; [|done]. rewrite (IH _ E).
    change ((p :: ps) ≫= (fun p => entry_lines p ++ [[]]))
      with ((entry_lines p ++ [[]]) ++ (ps ≫= (fun p => entry_lines p ++ [[]]))).
    by rewrite (unlines_app (entry_lines p ++ [[]])), <- app_assoc.
Qed.

(** C15: A repository index that was written without an error is read back completely, for every size of the buffer of the
    stream: for every package, in order, the reader adds a template with the same name, version,
    architecture, license, origin, maintainer, URL, description, commit, sizes, build time,
    provider priority, dependencies, provides and install-if lists and the same hash, marked
    with the bit of the repository and as not installable exactly when its architecture is
    not one of the database's.  When a line is as long as the buffer or longer, reading it fails with ENOBUFS instead. *)
Theorem apk_index_roundtrip bufsize arches noarch repo addr db ps text :
  tags_ok (db_tags db) -> Forall index_ok ps -> write_entries ps [] = Some text ->
  apk_db_index_read arches noarch repo bufsize db addr text =
  Some (if lines_fit bufsize text
        then inl (Reader db (apk_pkgtmpl_init addr) (added_tmpl arches noarch repo addr <$> ps))
        else inr (- ENOBUFS)).
Proof.
  intros Hdb Hps E. apply write_entries_lines in E as ->; [|done]. rewrite app_nil_l. set (text := unlines _).
  assert (Hall : index_lines arches noarch repo (Reader db (apk_pkgtmpl_init addr) []) (apk_istream_lines text) =
                 Some (inl (Reader db (apk_pkgtmpl_init addr) (added_tmpl arches noarch repo addr <$> ps)))).
  { unfold text. rewrite apk_istream_lines_unlines.
    - rewrite index_lines_app, (reads_entries arches noarch repo addr ps db [] Hps Hdb). done.
    - clear -Hps. induction Hps as [|p ps Hp Hps IH]; [constructor|].
      change ((p :: ps) ≫= (fun p => entry_lines p ++ [[]]))
        with ((entry_lines p ++ [[]]) ++ (ps ≫= (fun p => entry_lines p ++ [[]]))).
      apply Forall_app. split; [by apply entry_no_nl|done]. }
  unfold apk_db_index_read, istream_lines, lines_fit. pose proof (fitting_spec bufsize (apk_istream_lines text)) as Hf.
  destruct (forallb _ _); [by rewrite Hf, Hall|]. destruct Hf as (pre & post & Es & ->). rewrite Es, index_lines_app in Hall.
  by destruct (index_lines _ _ _ _ pre) as [[?|?]|].
Qed.

Lemma apk_index_roundtrip_witness :
  let d := Dep (bs "so:libc.musl-x86_64.so.1") [] APK_DEPMASK_ANY false 0 0 in
  let p := Pkg 7 (Some (bs "zlib")) None [d] [] [] [] [] (Some (bs "1.3.1-r2")) (bs "x86_64") (bs "Zlib") (bs "zlib")
             [] (bs "https://zlib.net/") (bs "compression library") [] 110592 54253 1706000000 0 0 0 0
             false false false false 0 APK_DIGEST_SHA1 (replicate 20 9) in
  exists text, write_entries [p; p] [] = Some text /\
    apk_db_index_read [bs "x86_64"] (bs "noarch") 0 64 (Compat repo_tags_init false false false) 1 text =
    Some (inl (Reader (Compat repo_tags_init false false false) (apk_pkgtmpl_init 1)
                      (added_tmpl [bs "x86_64"] (bs "noarch") 0 1 <$> [p; p]))).
Proof.
  intros d p. eexists. split; [vm_compute; reflexivity|].
  apply (apk_index_roundtrip 64 [bs "x86_64"] (bs "noarch") 0 1 (Compat repo_tags_init false false false) [p; p]);
    [|assert (Hp : index_ok p); [|constructor; [exact Hp|constructor; [exact Hp|constructor]]]|vm_compute; reflexivity].
  - repeat split; [done|vm_compute; congruence|constructor|constructor].
  - assert (Hs : forall s, forallb (fun c => negb (c =? 10)) (bs s) = true -> no_nl (bs s)) by apply bs_no_nl.
    split; cbn -[bs]; try lia.
    + eexists. split; [reflexivity|by apply Hs].
    + eexists. split; [reflexivity|by apply Hs].
    + repeat match goal with |- Forall no_nl _ => constructor end; first [by apply Hs|constructor].
    + split; [|by vm_compute]. repeat constructor; unfold byte_ok; lia.
    + constructor; [|constructor]. split; [|done]. split; try done.
      * split; [done|]. split; [|by vm_compute]. repeat constructor; vm_compute; congruence.
      * by left.
      * by left.
Defined.
