(* ===== verification/AdbBlock.v ===== *)
(** ADB containers (adb.h, adb.c): block headers, the enumeration of the blocks of a file that
    is mapped in memory, and writing blocks.

    Integers of the file are little endian; a header is decoded from the bytes at a position
    of the data.  Sizes are 64-bit and wrap around as in the code. *)
From Stdlib Require Import ZArith Lia.
From stdpp Require Import base numbers list option.
From S2P Require Import Prelude Clib Blob Balloc Dep.

Definition APKE_ADB_HEADER : Z := APKE_FIRST_VALUE + 40.
Definition APKE_ADB_VERSION : Z := APKE_FIRST_VALUE + 41.
Definition APKE_ADB_SCHEMA : Z := APKE_FIRST_VALUE + 42.
Definition APKE_ADB_BLOCK : Z := APKE_FIRST_VALUE + 43.
Definition APKE_ADB_SIGNATURE : Z := APKE_FIRST_VALUE + 44.
Definition APKE_ADB_INTEGRITY : Z := APKE_FIRST_VALUE + 45.

Definition ADB_BLOCK_ALIGNMENT : Z := 8.
Definition ADB_BLOCK_ADB : Z := 0.
Definition ADB_BLOCK_SIG : Z := 1.
Definition ADB_BLOCK_DATA : Z := 2.
Definition ADB_BLOCK_EXT : Z := 3.
Definition ADB_BLOCK_MAX : Z := 4.

(** struct adb_block *)
Record adb_block := Blk { type_size : Z; reserved : Z; x_size : Z }.

Definition adb_block_init (type length : Z) : adb_block :=
  if length <=? 0x3fffffff - 4 then Blk (u32 (u32 (type .<< 30) + 4 + length)) 0 0
  else Blk (u32 (u32 (ADB_BLOCK_EXT .<< 30) + type)) 0 (u64 (16 + length)).

Definition adb_block_is_ext (b : adb_block) : bool := type_size b .>> 30 =? ADB_BLOCK_EXT.

Definition adb_block_type (b : adb_block) : Z :=
  if adb_block_is_ext b then type_size b .& 0x3fffffff else type_size b .>> 30.

Definition adb_block_rawsize (b : adb_block) : Z :=
  if adb_block_is_ext b then x_size b else type_size b .& 0x3fffffff.

Definition adb_block_hdrsize (b : adb_block) : Z := if adb_block_is_ext b then 16 else 4.

Definition adb_block_size (b : adb_block) : Z := ROUND_UP (adb_block_rawsize b) ADB_BLOCK_ALIGNMENT.
Definition adb_block_length (b : adb_block) : Z := u64 (adb_block_rawsize b - adb_block_hdrsize b).
Definition adb_block_padding (b : adb_block) : Z := u32 (adb_block_size b - adb_block_rawsize b).

(** The bytes of a header: the short form stops after type_size. *)
Definition block_header (b : adb_block) : bytes :=
  if adb_block_is_ext b then le_bytes 4 (type_size b) ++ le_bytes 4 (reserved b) ++ le_bytes 8 (x_size b)
  else le_bytes 4 (type_size b).

(** Reading memory: a pointer is the bytes that follow it in the data it points into, and a read
    of more bytes than follow it is [None]. *)
Definition fetch (n : Z) (p : bytes) : option bytes := if zlen p <? n then None else Some (ztake n p).
Definition load (n : Z) (p : bytes) : option Z := le_val <$> fetch n p.

(** The header at a pointer; the fields after type_size only matter for the long form. *)
Definition block_at (l : bytes) : adb_block :=
  Blk (le_val (ztake 4 l)) (le_val (ztake 4 (zdrop 4 l))) (le_val (ztake 8 (zdrop 8 l))).

(** NULL at the end of the data, an error, a block at a position, or a read outside of the data. *)
Inductive block_res := BlkNull | BlkErr (e : Z) | BlkOk (pos : Z) (b : adb_block) | BlkFault.

(** adb_block_hdrsize reads type_size, and adb_block_rawsize and adb_block_size read x_size of a
    long header: [fetch] is the part of the header that has been read so far. *)
Definition adb_block_validate (pos : Z) (data : bytes) : block_res :=
  let len := zlen data - pos in
  let ptr := zdrop pos data in
  if pos =? zlen data then BlkNull
  else if len <? 4 then BlkErr (- APKE_ADB_BLOCK)
  else
    match fetch 4 ptr with
    | None => BlkFault
    | Some hdr =>
        let hdrlen := adb_block_hdrsize (block_at hdr) in
        if len <? hdrlen then BlkErr (- APKE_ADB_BLOCK)
        else
          match fetch hdrlen ptr with
          | None => BlkFault
          | Some _ =>
              let blk := block_at ptr in
              if adb_block_rawsize blk <? hdrlen then BlkErr (- APKE_ADB_BLOCK)
              else if len <? adb_block_size blk then BlkErr (- APKE_ADB_BLOCK)
              else BlkOk pos blk
          end
    end.

Definition adb_block_first (data : bytes) : block_res := adb_block_validate 0 data.
Definition adb_block_next (pos : Z) (cur : adb_block) (data : bytes) : block_res :=
  adb_block_validate (pos + adb_block_size cur) data.

(** adb_foreach_block: the blocks visited, and [None] if the enumeration stopped at an error;
    the outer [None] means that [fuel] steps were not enough, or a read outside of the data. *)
Fixpoint foreach_block (fuel : nat) (cur : block_res) (data : bytes) : option (list (Z * adb_block) * option Z) :=
  match fuel with
  | O => None
  | S fuel =>
      match cur with
      | BlkNull => Some ([], None)
      | BlkErr e => Some ([], Some e)
      | BlkFault => None
      | BlkOk pos b =>
          match foreach_block fuel (adb_block_next pos b data) data with
          | None => None
          | Some (l, e) => Some ((pos, b) :: l, e)
          end
      end
  end.

Definition adb_blocks (data : bytes) : option (list (Z * adb_block) * option Z) :=
  foreach_block (S (S (length data))) (adb_block_first data) data.

(** adb_block_blob: the bytes the payload pointer and length span, [None] when they reach
    outside the data. *)
Definition adb_block_blob (pos : Z) (b : adb_block) (data : bytes) : option bytes :=
  let start := pos + adb_block_hdrsize b in
  if start + adb_block_length b <=? zlen data
  then Some (ztake (adb_block_length b) (zdrop start data)) else None.

(** adb_c_block on a stream that accepts everything. *)
Definition adb_c_block (os : bytes) (type : Z) (val : bytes) : bytes :=
  let blk := adb_block_init type (zlen val) in
  let padding := adb_block_padding blk in
  os ++ block_header blk ++ val ++ (if negb (padding =? 0) then replicate (Z.to_nat padding) 0 else []).

(** ** File header *)

Definition ADB_FORMAT_MAGIC : Z := 0x2e424441.
Definition adb_c_header (os : bytes) (schema : Z) : bytes := os ++ le_bytes 4 ADB_FORMAT_MAGIC ++ le_bytes 4 schema.

(** ** Validated blocks *)

(** The blocks whose size does not overflow when it is rounded up. *)
Definition no_overflow (b : adb_block) : Prop := adb_block_rawsize b <= 2 ^ 64 - 8.

Lemma le_val_take_range n l : bytes_ok l -> 0 <= n -> 0 <= le_val (ztake n l) < 2 ^ (8 * n).
Proof.
  intros Hl Hn. assert (Ht : bytes_ok (ztake n l)) by (by apply Forall_take).
  pose proof (le_val_bound _ Ht) as H. split; [lia|].
  apply (Z.lt_le_trans _ _ _ (proj2 H)). apply Z.pow_le_mono_r; [lia|].
  unfold zlen, ztake. rewrite length_take. lia.
Qed.

Lemma land_2p31 x : 0 <= x < 2 ^ 31 -> x .& 0x80000000 = 0.
Proof.
  intros H. apply Z.bits_inj'. intros n Hn. rewrite Z.land_spec, Z.bits_0.
  change 0x80000000 with (2 ^ 31). rewrite Z.pow2_bits_eqb by lia.
  destruct (Z.eqb_spec 31 n) as [<-|]; [|by rewrite andb_false_r]. rewrite andb_true_r.
  rewrite Z.testbit_false by lia. rewrite Z.div_small by lia. done.
Qed.

Lemma land_3fffffff x : x .& 0x3fffffff = x mod 2 ^ 30.
Proof. change 0x3fffffff with (Z.ones 30). apply Z.land_ones. lia. Qed.

Lemma block_at_range l :
  bytes_ok l ->
  0 <= adb_block_rawsize (block_at l) < 2 ^ 64 /\ 0 <= type_size (block_at l) < 2 ^ 32.
Proof.
  intros Hl. pose proof (le_val_take_range 4 l Hl ltac:(lia)).
  assert (Hd : bytes_ok (zdrop 8 l)) by (by apply Forall_drop).
  pose proof (le_val_take_range 8 (zdrop 8 l) Hd ltac:(lia)).
  unfold adb_block_rawsize. split; [|exact H]. case_test; cbn [x_size type_size block_at]; [done|].
  rewrite land_3fffffff. pose proof (Z.mod_pos_bound (le_val (ztake 4 l)) (2 ^ 30) ltac:(lia)). lia.
Qed.

Lemma hdrsize_bound b : adb_block_hdrsize b = 4 \/ adb_block_hdrsize b = 16.
Proof. unfold adb_block_hdrsize. case_test; auto. Qed.

Lemma fetch_some n p : n <= zlen p -> fetch n p = Some (ztake n p).
Proof. intros H. unfold fetch. by rewrite (proj2 (Z.ltb_ge _ _) H). Qed.

Lemma load_some n p : n <= zlen p -> load n p = Some (le_val (ztake n p)).
Proof. intros H. unfold load. by rewrite fetch_some. Qed.

Lemma load_byte p : 1 <= zlen p -> load 1 p = Some (znth 0 p 0).
Proof. intros H. rewrite load_some by done. destruct p as [|x p]; [done|]. f_equal. change (ztake 1 (x :: p)) with [x]. change (le_val [x]) with (x + 256 * 0). change (znth 0 (x :: p) 0) with x. lia. Qed.

Lemma fetch_inv n p b : fetch n p = Some b -> b = ztake n p.
Proof. unfold fetch. destruct (_ <? _); [done|]. by intros [= <-]. Qed.

Lemma hdrsize_take p : adb_block_hdrsize (block_at (ztake 4 p)) = adb_block_hdrsize (block_at p).
Proof. unfold adb_block_hdrsize, adb_block_is_ext. cbn [type_size block_at]. unfold ztake. by rewrite take_take. Qed.

(** The length guards make every read of the header one inside of the data. *)
Lemma adb_block_validate_reads pos data : 0 <= pos ->
  adb_block_validate pos data =
    let len := zlen data - pos in
    if pos =? zlen data then BlkNull
    else if len <? 4 then BlkErr (- APKE_ADB_BLOCK)
    else
      let blk := block_at (zdrop pos data) in
      let hdrlen := adb_block_hdrsize blk in
      if len <? hdrlen then BlkErr (- APKE_ADB_BLOCK)
      else if adb_block_rawsize blk <? hdrlen then BlkErr (- APKE_ADB_BLOCK)
      else if len <? adb_block_size blk then BlkErr (- APKE_ADB_BLOCK)
      else BlkOk pos blk.
Proof.
  intros Hp. unfold adb_block_validate. destruct (pos =? zlen data); [done|].
  destruct (Z.ltb_spec (zlen data - pos) 4); [done|]. cbv zeta.
  assert (Hl : zlen (zdrop pos data) = zlen data - pos) by (apply zlen_zdrop; lia).
  rewrite (fetch_some 4) by lia.
  rewrite hdrsize_take. destruct (Z.ltb_spec (zlen data - pos) (adb_block_hdrsize (block_at (zdrop pos data)))); [done|].
  by rewrite fetch_some by lia.
Qed.

Lemma adb_block_validate_safe pos data : 0 <= pos -> adb_block_validate pos data <> BlkFault.
Proof. intros Hp. rewrite adb_block_validate_reads by done. cbv zeta. by repeat case_match. Qed.

(** What the validation establishes. *)
Lemma adb_block_validate_ok pos data b p :
  adb_block_validate pos data = BlkOk p b ->
  p = pos /\ b = block_at (zdrop pos data) /\ 4 <= zlen data - pos /\
  adb_block_hdrsize b <= zlen data - pos /\ adb_block_hdrsize b <= adb_block_rawsize b /\
  adb_block_size b <= zlen data - pos.
Proof.
  unfold adb_block_validate. cbv zeta. destruct (pos =? zlen data); [done|].
  destruct (Z.ltb_spec (zlen data - pos) 4); [done|].
  destruct (fetch 4 _) as [hdr|] eqn:E4; [|done]. apply fetch_inv in E4 as ->. rewrite hdrsize_take.
  set (blk := block_at (zdrop pos data)).
  destruct (Z.ltb_spec (zlen data - pos) (adb_block_hdrsize blk)); [done|].
  destruct (fetch (adb_block_hdrsize blk) _); [|done].
  destruct (Z.ltb_spec (adb_block_rawsize blk) (adb_block_hdrsize blk)); [done|].
  destruct (Z.ltb_spec (zlen data - pos) (adb_block_size blk)); [done|].
  intros [= <- <-]. repeat split; done || lia.
Qed.

Lemma block_size_round b :
  0 <= adb_block_rawsize b -> no_overflow b ->
  adb_block_rawsize b <= adb_block_size b < adb_block_rawsize b + 8 /\ adb_block_size b mod 8 = 0.
Proof.
  intros H0 Hn. unfold adb_block_size, no_overflow, ADB_BLOCK_ALIGNMENT in *.
  change 8 with (2 ^ 3). apply ROUND_UP_spec; lia.
Qed.

Lemma block_in_bounds pos data p b :
  bytes_ok data -> 0 <= pos -> adb_block_validate pos data = BlkOk p b -> no_overflow b ->
  p = pos /\ 0 < adb_block_size b /\ adb_block_size b mod 8 = 0 /\ pos + adb_block_size b <= zlen data /\
  exists payload, adb_block_blob pos b data = Some payload /\
    zlen payload = adb_block_rawsize b - adb_block_hdrsize b.
Proof.
  intros Hd Hpos E Hn. destruct (adb_block_validate_ok _ _ _ _ E) as (-> & -> & H4 & Hh & Hr & Hs).
  set (b := block_at (zdrop pos data)) in *.
  destruct (block_at_range (zdrop pos data)) as [Hraw _]; [by apply Forall_drop|]. fold b in Hraw.
  destruct (block_size_round b) as [Hsz Hm]; [lia|done|].
  pose proof (hdrsize_bound b) as Hhb. split; [done|]. split; [lia|]. split; [done|]. split; [lia|].
  assert (Hl : adb_block_length b = adb_block_rawsize b - adb_block_hdrsize b) by (apply wrap_small; lia).
  unfold adb_block_blob. rewrite Hl.
  destruct (Z.leb_spec (pos + adb_block_hdrsize b + (adb_block_rawsize b - adb_block_hdrsize b)) (zlen data)); [|lia].
  eexists. split; [done|]. apply zlen_ztake. split; [lia|].
  rewrite zlen_zdrop by lia. lia.
Qed.

(** A block whose rounded size wraps around to zero. *)
Lemma overflow_size b : 0 <= adb_block_rawsize b < 2 ^ 64 -> ~ no_overflow b -> adb_block_size b = 0.
Proof.
  unfold no_overflow, adb_block_size, ROUND_UP, ADB_BLOCK_ALIGNMENT. intros Hr Hn.
  set (r := adb_block_rawsize b) in *.
  assert (Hw : u64 (r + (8 - 1)) = r + 7 - 2 ^ 64).
  { unfold wrap. replace (r + (8 - 1)) with ((r + 7 - 2 ^ 64) + 1 * 2 ^ 64) by lia.
    rewrite Z.mod_add by lia. apply Z.mod_small. lia. }
  rewrite Hw. assert (Hx : exists k, r + 7 - 2 ^ 64 = k /\ 0 <= k < 8) by (eexists; split; [done|lia]).
  destruct Hx as (k & -> & Hk).
  assert (k = 0 \/ k = 1 \/ k = 2 \/ k = 3 \/ k = 4 \/ k = 5 \/ k = 6 \/ k = 7) as Hc by lia.
  destruct Hc as [-> | [-> | [-> | [-> | [-> | [-> | [-> | ->]]]]]]]; reflexivity.
Qed.

Lemma foreach_block_stuck fuel pos b data :
  adb_block_validate pos data = BlkOk pos b -> adb_block_size b = 0 ->
  foreach_block fuel (BlkOk pos b) data = None.
Proof.
  intros Hv Hs. induction fuel as [|fuel IH]; [done|]. cbn [foreach_block]. unfold adb_block_next.
  by rewrite Hs, Z.add_0_r, Hv, IH.
Qed.

(** The enumeration ends within as many steps as there are bytes, unless it meets a block
    whose size overflows. *)
Lemma foreach_block_ends data :
  bytes_ok data ->
  (forall pos b, 0 <= pos -> adb_block_validate pos data = BlkOk pos b -> no_overflow b) ->
  forall fuel pos, 0 <= pos <= zlen data -> zlen data - pos < Z.of_nat fuel - 1 ->
  is_Some (foreach_block fuel (adb_block_validate pos data) data).
Proof.
  intros Hd Hall fuel. induction fuel as [|fuel IH]; intros pos Hpos Hf; [lia|].
  cbn [foreach_block]. destruct (adb_block_validate pos data) as [|e|p b|] eqn:E;
    [eauto|eauto| |by apply adb_block_validate_safe in E; [|lia]].
  assert (p = pos) as -> by (by apply adb_block_validate_ok in E as [-> _]).
  pose proof (Hall pos b ltac:(lia) E) as Hn.
  destruct (block_in_bounds pos data pos b Hd ltac:(lia) E Hn) as (_ & Hs & _ & Hb & _).
  unfold adb_block_next. destruct (IH (pos + adb_block_size b)) as [[l e] Hr]; [lia|lia|].
  rewrite Hr. eauto.
Qed.

(** ** Written blocks *)

(** Headers that agree on everything the code looks at. *)
Definition same_block (b c : adb_block) : Prop :=
  type_size b = type_size c /\ (adb_block_is_ext b = true -> x_size b = x_size c).

Lemma same_block_obs b c :
  same_block b c ->
  adb_block_type b = adb_block_type c /\ adb_block_rawsize b = adb_block_rawsize c /\
  adb_block_hdrsize b = adb_block_hdrsize c /\ adb_block_size b = adb_block_size c /\
  adb_block_length b = adb_block_length c.
Proof.
  intros [Ht Hx].
  assert (He : adb_block_is_ext b = adb_block_is_ext c) by (unfold adb_block_is_ext; by rewrite Ht).
  assert (Hr : adb_block_rawsize b = adb_block_rawsize c).
  { unfold adb_block_rawsize. rewrite <- He, <- Ht. destruct (adb_block_is_ext b); auto. }
  assert (Hh : adb_block_hdrsize b = adb_block_hdrsize c) by (unfold adb_block_hdrsize; by rewrite He).
  repeat split; try done.
  - unfold adb_block_type. by rewrite He, Ht.
  - unfold adb_block_size. by rewrite Hr.
  - unfold adb_block_length. by rewrite Hr, Hh.
Qed.

Lemma ztake_app_exact {A} n (l r : list A) : zlen l = n -> ztake n (l ++ r) = l.
Proof. intros <-. apply ztake_app. Qed.
Lemma zdrop_app_exact {A} n (l r : list A) : zlen l = n -> zdrop n (l ++ r) = r.
Proof. intros <-. apply zdrop_app. Qed.
Lemma zdrop_add {A} a b (l : list A) : 0 <= a -> 0 <= b -> zdrop (a + b) l = zdrop b (zdrop a l).
Proof. intros. unfold zdrop. rewrite drop_drop. f_equal. lia. Qed.
Lemma zlen_le_bytes n x : zlen (le_bytes n x) = Z.of_nat n.
Proof. unfold zlen. by rewrite length_le_bytes. Qed.

(** Reading a header that was written. *)
Lemma block_at_header b r :
  0 <= type_size b < 2 ^ 32 -> 0 <= x_size b < 2 ^ 64 -> same_block (block_at (block_header b ++ r)) b.
Proof.
  intros Ht Hx. unfold block_header, block_at. destruct (adb_block_is_ext b) eqn:E; split; cbn [type_size x_size].
  - rewrite <- !app_assoc, ztake_app_exact, le_val_bytes by apply zlen_le_bytes. by apply wrap_small.
  - intros _. rewrite <- !app_assoc.
    rewrite (app_assoc (le_bytes 4 _)), (zdrop_app_exact 8) by (by rewrite zlen_app, !zlen_le_bytes).
    rewrite ztake_app_exact, le_val_bytes by apply zlen_le_bytes. by apply wrap_small.
  - rewrite ztake_app_exact, le_val_bytes by apply zlen_le_bytes. by apply wrap_small.
  - intros E'. exfalso. revert E E'. unfold adb_block_is_ext. cbn [type_size].
    rewrite ztake_app_exact, le_val_bytes by apply zlen_le_bytes. rewrite wrap_small by done. congruence.
Qed.

(** The header made for a payload of [n] bytes. *)
Lemma adb_block_init_spec t n :
  0 <= t < 3 -> 0 <= n < 2 ^ 63 ->
  let b := adb_block_init t n in
  0 <= type_size b < 2 ^ 32 /\ 0 <= x_size b < 2 ^ 64 /\ adb_block_type b = t /\
  adb_block_rawsize b = adb_block_hdrsize b + n /\ adb_block_length b = n /\ no_overflow b.
Proof.
  intros Ht Hn. cbn zeta. unfold adb_block_init. destruct (Z.leb_spec n (0x3fffffff - 4)).
  - assert (Hts : u32 (u32 (t .<< 30) + 4 + n) = t * 2 ^ 30 + (4 + n)).
    { rewrite Z.shiftl_mul_pow2 by lia. rewrite (wrap_small 32 (t * 2 ^ 30)) by lia. rewrite wrap_small; lia. }
    rewrite Hts. set (b := Blk (t * 2 ^ 30 + (4 + n)) 0 0).
    assert (Hsh : type_size b .>> 30 = t).
    { cbn. rewrite Z.shiftr_div_pow2 by lia. rewrite Z.div_add_l by lia. rewrite Z.div_small; lia. }
    assert (He : adb_block_is_ext b = false) by (unfold adb_block_is_ext; rewrite Hsh; apply Z.eqb_neq; unfold ADB_BLOCK_EXT; lia).
    assert (Hraw : adb_block_rawsize b = 4 + n).
    { unfold adb_block_rawsize. rewrite He, land_3fffffff. cbn [type_size b].
      rewrite Z.add_comm, Z.mod_add by lia. apply Z.mod_small. lia. }
    unfold adb_block_type, adb_block_length, no_overflow, adb_block_hdrsize. rewrite Hraw, He, Hsh.
    cbn [type_size x_size b]. repeat split; try lia. rewrite wrap_small; lia.
  - assert (Hts : u32 (u32 (ADB_BLOCK_EXT .<< 30) + t) = 3 * 2 ^ 30 + t).
    { change (u32 (ADB_BLOCK_EXT .<< 30)) with (3 * 2 ^ 30). apply wrap_small. lia. }
    rewrite Hts, (wrap_small 64) by lia. set (b := Blk (3 * 2 ^ 30 + t) 0 (16 + n)).
    assert (He : adb_block_is_ext b = true).
    { unfold adb_block_is_ext. cbn [type_size b]. rewrite Z.shiftr_div_pow2 by lia.
      rewrite Z.div_add_l by lia. rewrite Z.div_small by lia. done. }
    unfold adb_block_type, adb_block_length, no_overflow, adb_block_hdrsize, adb_block_rawsize.
    rewrite He, land_3fffffff. cbn [type_size x_size b]. repeat split; try lia.
    + rewrite Z.add_comm, Z.mod_add by lia. apply Z.mod_small. lia.
    + rewrite wrap_small; lia.
Qed.

(** ** Enumeration *)

(** The blocks an enumeration visits are validated, follow each other without gaps, and their
    payloads lie inside the data. *)
Fixpoint chain (data : bytes) (pos : Z) (l : list (Z * adb_block)) : Prop :=
  match l with
  | [] => True
  | (p, b) :: l =>
      p = pos /\ 0 < adb_block_size b /\ adb_block_size b mod 8 = 0 /\ pos + adb_block_size b <= zlen data /\
      (exists payload, adb_block_blob pos b data = Some payload /\
         zlen payload = adb_block_rawsize b - adb_block_hdrsize b) /\
      chain data (pos + adb_block_size b) l
  end.

Definition overflowing_block (data : bytes) : Prop :=
  exists pos b, 0 <= pos /\ adb_block_validate pos data = BlkOk pos b /\ ~ no_overflow b.

Lemma not_overflowing data :
  ~ overflowing_block data -> forall pos b, 0 <= pos -> adb_block_validate pos data = BlkOk pos b -> no_overflow b.
Proof.
  intros Hn pos b Hp Hv. unfold no_overflow. destruct (Z.le_gt_cases (adb_block_rawsize b) (2 ^ 64 - 8)); [done|].
  destruct Hn. exists pos, b. repeat split; [done|done|]. unfold no_overflow. lia.
Qed.

Lemma foreach_block_chain data :
  bytes_ok data ->
  (forall pos b, 0 <= pos -> adb_block_validate pos data = BlkOk pos b -> no_overflow b) ->
  forall fuel pos l e, 0 <= pos <= zlen data ->
  foreach_block fuel (adb_block_validate pos data) data = Some (l, e) -> chain data pos l.
Proof.
  intros Hd Hall fuel. induction fuel as [|fuel IH]; intros pos l e Hpos; [done|].
  cbn [foreach_block]. destruct (adb_block_validate pos data) as [|e'|p b|] eqn:E; [by intros [= <- _]..| |done].
  assert (p = pos) as -> by (by apply adb_block_validate_ok in E as [-> _]).
  destruct (block_in_bounds pos data pos b Hd ltac:(lia) E (Hall pos b ltac:(lia) E)) as (_ & Hs & Hm & Hb & Hp).
  unfold adb_block_next.
  destruct (foreach_block fuel _ data) as [[l' e'']|] eqn:Er; [|done]. intros [= <- <-].
  cbn [chain]. repeat (split; [done || lia|]). eapply IH; [lia|exact Er].
Qed.

(** Enumerating the blocks of a file ends, and every block it visits, with its payload and
    its padding, lies inside the file right after the one before; the only inputs this does not
    hold for are those in which some position passes the validation with a block whose 64-bit
    size wraps around when it is rounded up to the alignment. *)
Theorem adb_blocks_enumeration data (Hd : bytes_ok data) (Hn : ~ overflowing_block data) :
  exists l e, adb_blocks data = Some (l, e) /\ chain data 0 l.
Proof.
  pose proof (not_overflowing data Hn) as Hall.
  destruct (foreach_block_ends data Hd Hall (S (S (length data))) 0) as [[l e] Hr];
    [unfold zlen; lia|unfold zlen; lia|].
  exists l, e. split; [exact Hr|]. eapply (foreach_block_chain data Hd Hall); [|exact Hr]. unfold zlen. lia.
Qed.

(** A block that claims a 64-bit size within seven of the maximum passes the validation
    although its payload reaches outside of the file, and the enumeration stays on it for ever. *)
Theorem adb_block_size_overflow pos data b
    (Hd : bytes_ok data) (Hp : 0 <= pos) (Hl : 16 <= zlen data - pos) (Hz : zlen data < 2 ^ 63)
    (Hb : b = block_at (zdrop pos data)) (He : adb_block_is_ext b = true) (Hx : 2 ^ 64 - 7 <= x_size b) :
  adb_block_validate pos data = BlkOk pos b /\ adb_block_blob pos b data = None /\
  forall fuel, foreach_block fuel (BlkOk pos b) data = None.
Proof.
  destruct (block_at_range (zdrop pos data)) as [Hraw _]; [by apply Forall_drop|]. rewrite <- Hb in Hraw.
  assert (Hr : adb_block_rawsize b = x_size b) by (unfold adb_block_rawsize; by rewrite He).
  assert (Hh : adb_block_hdrsize b = 16) by (unfold adb_block_hdrsize; by rewrite He).
  assert (Hs : adb_block_size b = 0) by (apply overflow_size; [done|unfold no_overflow; lia]).
  assert (Hv : adb_block_validate pos data = BlkOk pos b).
  { rewrite adb_block_validate_reads by done. cbv zeta. rewrite <- Hb, Hh, Hs, Hr.
    rewrite (proj2 (Z.eqb_neq _ _)) by lia. rewrite !(proj2 (Z.ltb_ge _ _)) by lia. done. }
  split; [exact Hv|]. split; [|intros fuel; by apply foreach_block_stuck].
  unfold adb_block_blob. rewrite (proj2 (Z.leb_gt _ _)); [done|].
  assert (Hle : adb_block_length b = x_size b - 16) by (unfold adb_block_length; rewrite Hr, Hh; apply wrap_small; lia).
  rewrite Hle. lia.
Qed.

Definition overflow_file : bytes := le_bytes 4 0xc0000000 ++ le_bytes 4 0 ++ le_bytes 8 (2 ^ 64 - 1).

Lemma adb_block_size_overflow_witness :
  adb_block_validate 0 overflow_file = BlkOk 0 (block_at overflow_file) /\
  adb_block_blob 0 (block_at overflow_file) overflow_file = None /\
  forall fuel, foreach_block fuel (BlkOk 0 (block_at overflow_file)) overflow_file = None.
Proof.
  apply (adb_block_size_overflow 0 overflow_file (block_at overflow_file)).
  - apply (bool_decide_unpack _). vm_compute. exact I.
  - lia.
  - apply (bool_decide_unpack _). vm_compute. exact I.
  - reflexivity.
  - reflexivity.
  - reflexivity.
  - apply (bool_decide_unpack _). vm_compute. exact I.
Defined.

(** ** What was written is enumerated *)

Definition block_pad (b : adb_block) : bytes := replicate (Z.to_nat (adb_block_padding b)) 0.

Definition block_bytes (tp : Z * bytes) : bytes :=
  let b := adb_block_init tp.1 (zlen tp.2) in block_header b ++ tp.2 ++ block_pad b.

Lemma adb_c_block_bytes os type val : adb_c_block os type val = os ++ block_bytes (type, val).
Proof.
  unfold adb_c_block, block_bytes, block_pad. cbn [fst snd].
  destruct (Z.eqb_spec (adb_block_padding (adb_block_init type (zlen val))) 0) as [->|]; done.
Qed.

Definition adb_c_blocks (os : bytes) (l : list (Z * bytes)) : bytes :=
  foldl (fun os tp => adb_c_block os tp.1 tp.2) os l.

Lemma adb_c_blocks_eq l os : adb_c_blocks os l = os ++ mjoin (map block_bytes l).
Proof.
  revert os. induction l as [|[t v] l IH]; intros os; cbn; [by rewrite app_nil_r|].
  rewrite adb_c_block_bytes. fold (adb_c_blocks (os ++ block_bytes (t, v)) l). by rewrite IH, app_assoc.
Qed.

Definition writable (tp : Z * bytes) : Prop := 0 <= tp.1 < 3 /\ zlen tp.2 < 2 ^ 62.

Lemma zlen_block_header b : zlen (block_header b) = adb_block_hdrsize b.
Proof.
  unfold block_header, adb_block_hdrsize. destruct (adb_block_is_ext b); by rewrite ?zlen_app, !zlen_le_bytes.
Qed.

Lemma init_sizes t v (b := adb_block_init t (zlen v)) :
  writable (t, v) ->
  0 < adb_block_size b /\ adb_block_size b = adb_block_hdrsize b + zlen v + adb_block_padding b /\
  0 <= adb_block_padding b.
Proof.
  intros [Ht Hv]. cbn [fst snd] in *.
  destruct (adb_block_init_spec t (zlen v) Ht) as (_ & _ & _ & Hraw & _ & Hno); [unfold zlen in *; lia|].
  fold b in Hraw, Hno. pose proof (hdrsize_bound b).
  destruct (block_size_round b) as [Hs _]; [unfold zlen in *; lia|done|].
  assert (Hp : adb_block_padding b = adb_block_size b - adb_block_rawsize b) by (apply wrap_small; lia).
  rewrite Hp. unfold zlen in *. lia.
Qed.

Lemma zlen_block_bytes t v :
  writable (t, v) -> zlen (block_bytes (t, v)) = adb_block_size (adb_block_init t (zlen v)).
Proof.
  intros Hw. destruct (init_sizes t v Hw) as (_ & -> & Hp). unfold block_bytes, block_pad. cbn [fst snd].
  rewrite !zlen_app, zlen_block_header. unfold zlen. rewrite length_replicate. unfold zlen in Hp. lia.
Qed.

(** The block at the end of what was written before it. *)
Lemma written_block pre t v post :
  writable (t, v) ->
  let data := pre ++ block_bytes (t, v) ++ post in
  exists b, adb_block_validate (zlen pre) data = BlkOk (zlen pre) b /\
    adb_block_type b = t /\ adb_block_blob (zlen pre) b data = Some v /\
    adb_block_size b = zlen (block_bytes (t, v)).
Proof.
  intros Hw data. destruct (init_sizes t v Hw) as (H0 & Hs & Hp). pose proof (zlen_block_bytes t v Hw) as Hz.
  set (i := adb_block_init t (zlen v)) in *.
  destruct Hw as [Ht Hv]. cbn [fst snd] in Ht, Hv. assert (Hvn : 0 <= zlen v) by (unfold zlen; lia).
  destruct (adb_block_init_spec t (zlen v) Ht) as (Hts & Hxs & Hty & Hraw & Hlen & Hno); [lia|].
  fold i in Hts, Hxs, Hty, Hraw, Hlen, Hno. pose proof (hdrsize_bound i).
  assert (Hdata : zdrop (zlen pre) data = block_header i ++ v ++ block_pad i ++ post).
  { unfold data. rewrite zdrop_app. unfold block_bytes. cbn [fst snd]. fold i. by rewrite <- !app_assoc. }
  exists (block_at (zdrop (zlen pre) data)). rewrite Hdata.
  destruct (same_block_obs _ _ (block_at_header i (v ++ block_pad i ++ post) Hts Hxs)) as (E1 & E2 & E3 & E4 & E5).
  assert (Hlt : zlen data = zlen pre + adb_block_size i + zlen post) by (unfold data; rewrite !zlen_app; lia).
  assert (Hpost : 0 <= zlen post) by (unfold zlen; lia).
  split; [|split; [congruence|split; [|congruence]]].
  - rewrite adb_block_validate_reads by (unfold zlen; lia). cbv zeta. rewrite Hdata, E2, E3, E4, Hraw.
    rewrite (proj2 (Z.eqb_neq _ _)) by lia. by rewrite !(proj2 (Z.ltb_ge _ _)) by lia.
  - unfold adb_block_blob. rewrite E3, E5, Hlen. rewrite (proj2 (Z.leb_le _ _)) by lia. f_equal.
    assert (Hdd : zdrop (zlen pre + adb_block_hdrsize i) data = v ++ block_pad i ++ post).
    { rewrite zdrop_add, Hdata by (unfold zlen; lia || lia). rewrite zdrop_app_exact; [done|apply zlen_block_header]. }
    rewrite Hdd. by apply ztake_app_exact.
Qed.

Lemma written_blocks_foreach l :
  Forall writable l ->
  forall pre fuel, (length l < fuel)%nat ->
  exists bs, foreach_block fuel (adb_block_validate (zlen pre) (adb_c_blocks pre l)) (adb_c_blocks pre l) = Some (bs, None) /\
    map (fun pb => (adb_block_type pb.2, adb_block_blob pb.1 pb.2 (adb_c_blocks pre l))) bs
    = map (fun tp => (tp.1, Some tp.2)) l.
Proof.
  induction 1 as [|[t v] l Hw Hl IH]; intros pre fuel Hf; destruct fuel as [|fuel]; try (cbn in Hf; lia).
  - exists []. cbn. unfold adb_block_validate. by rewrite Z.eqb_refl.
  - rewrite adb_c_blocks_eq.
    change (mjoin (map block_bytes ((t, v) :: l))) with (block_bytes (t, v) ++ mjoin (map block_bytes l)).
    destruct (written_block pre t v (mjoin (map block_bytes l)) Hw) as (b & Hv & Ht & Hb & Hs).
    destruct (IH (pre ++ block_bytes (t, v)) fuel) as (bs & Hr & Hm); [cbn in Hf; lia|].
    rewrite adb_c_blocks_eq, <- app_assoc in Hr, Hm. rewrite zlen_app in Hr.
    exists ((zlen pre, b) :: bs). cbn [foreach_block]. rewrite Hv. unfold adb_block_next. rewrite Hs, Hr.
    split; [done|]. cbn [map fst snd]. by rewrite Ht, Hb, Hm.
Qed.

Lemma blocks_fuel l : Forall writable l -> (length l < 2 + length (adb_c_blocks [] l))%nat.
Proof.
  intros Hl. rewrite adb_c_blocks_eq. cbn [app].
  assert (Hlen : (length l <= length (mjoin (map block_bytes l)))%nat).
  { induction Hl as [|[t v] l Hw Hl IH]; [done|].
    change (mjoin (map block_bytes ((t, v) :: l))) with (block_bytes (t, v) ++ mjoin (map block_bytes l)).
    rewrite length_app. cbn [length]. pose proof (zlen_block_bytes t v Hw). destruct (init_sizes t v Hw).
    unfold zlen in *. lia. }
  lia.
Qed.

(** The blocks appended to a stream are the ones an enumeration of the result finds, in
    order, each with its type and exactly its payload, and the enumeration ends without an
    error; in both header forms and with whatever padding the lengths need. *)
Theorem adb_blocks_roundtrip l (Hl : Forall writable l) :
  exists bs, adb_blocks (adb_c_blocks [] l) = Some (bs, None) /\
    map (fun pb => (adb_block_type pb.2, adb_block_blob pb.1 pb.2 (adb_c_blocks [] l))) bs
    = map (fun tp => (tp.1, Some tp.2)) l.
Proof.
  apply (written_blocks_foreach l Hl []). by apply blocks_fuel.
Qed.

Lemma adb_blocks_roundtrip_witness :
  exists bs, adb_blocks (adb_c_blocks [] [(0, [1;2;3;4;5;6;7;8;9]); (1, []); (2, [7;7;7;7])]) = Some (bs, None) /\
    map (fun pb => (adb_block_type pb.2, adb_block_blob pb.1 pb.2
                      (adb_c_blocks [] [(0, [1;2;3;4;5;6;7;8;9]); (1, []); (2, [7;7;7;7])]))) bs
    = [(0, Some [1;2;3;4;5;6;7;8;9]); (1, Some []); (2, Some [7;7;7;7])].
Proof.
  apply (adb_blocks_roundtrip [(0, [1;2;3;4;5;6;7;8;9]); (1, []); (2, [7;7;7;7])]).
  repeat constructor; cbn; lia.
Defined.

Definition small_file : bytes := adb_c_blocks [] [(0, [1;2;3;4]); (2, [9])].

(** Every block a validation accepts in a short file without extended headers is small. *)
Lemma small_file_no_overflow : ~ overflowing_block small_file.
Proof.
  intros (pos & b & Hp & Hv & Hn). destruct (adb_block_validate_ok _ _ _ _ Hv) as (_ & Hb & H4 & _).
  change (zlen small_file) with 16 in H4.
  assert (Hc : all_below 13 (fun p => bool_decide (adb_block_rawsize (block_at (zdrop p small_file)) <= 2 ^ 64 - 8)) = true)
    by (vm_compute; reflexivity).
  apply Hn. unfold no_overflow. rewrite Hb.
  pose proof (all_below_spec 13 _ pos Hc ltac:(lia)) as Hd. by apply bool_decide_eq_true_1 in Hd.
Qed.

Lemma adb_blocks_enumeration_witness :
  exists l e, adb_blocks small_file = Some (l, e) /\ chain small_file 0 l.
Proof.
  apply (adb_blocks_enumeration small_file).
  - apply (bool_decide_unpack _). vm_compute. exact I.
  - exact small_file_no_overflow.
Defined.
