(* ===== verification/AdbTrust.v ===== *)
(** Authenticated reading and signed writing of ADB files (adb.c): adb_digest_adb,
    adb_trust_write_signatures, adb_trust_verify_signature, __adb_handle_identity,
    __adb_m_parse, __adb_m_mmap and adb_m_blob.

    The cryptographic library (OpenSSL behind crypto_openssl.c) is a parameter, the class
    [Crypto]; what a signature scheme promises is the class [CryptoOk].  The callback of the
    parser is a parameter too: a function on a state of its own. *)
From Stdlib Require Import ZArith Lia.
From stdpp Require Import base numbers list option.
From S2P Require Import Prelude Clib Blob Codec Balloc Dep AdbBlock.

Definition APKE_CRYPTO_ERROR : Z := APKE_FIRST_VALUE + 27.
Definition APKE_CRYPTO_NOT_SUPPORTED : Z := APKE_FIRST_VALUE + 28.
Definition APKE_SIGNATURE_GEN_FAILURE : Z := APKE_FIRST_VALUE + 30.
Definition APKE_SIGNATURE_UNTRUSTED : Z := APKE_FIRST_VALUE + 31.
Definition APKE_SIGNATURE_INVALID : Z := APKE_FIRST_VALUE + 32.

(** ** The cryptographic library *)

(** Digests of a buffer; signatures over the concatenation of the updates, by algorithm and
    key.  [None] and [false] are failures. *)
Class Crypto (pkey : Type) := {
  EVP_Digest : Z -> bytes -> option bytes;
  EVP_DigestVerifyInit : Z -> pkey -> bool;
  EVP_DigestVerifyFinal : Z -> pkey -> bytes -> bytes -> bool;
  EVP_DigestSignInit : Z -> pkey -> bool;
  EVP_DigestSignFinal : Z -> pkey -> bytes -> Z -> option bytes;
  EVP_DigestUpdate : bytes -> bytes -> bool
}.

(** struct apk_pkey, apk_trust_key and apk_trust; the digest context of a trust store only
    lives from a start to the matching verification or signature. *)
Record apk_pkey (pkey : Type) := Pkey { key_id : bytes; key_priv : pkey }.
Arguments Pkey {pkey} _ _.
Arguments key_id {pkey} _.
Arguments key_priv {pkey} _.

Record apk_trust_key (pkey : Type) := TKey { tk_key : apk_pkey pkey; tk_filename : bytes }.
Arguments TKey {pkey} _ _.
Arguments tk_key {pkey} _.
Arguments tk_filename {pkey} _.

Record apk_trust (pkey : Type) := Trust {
  trusted_key_list : list (apk_trust_key pkey);
  private_key_list : list (apk_trust_key pkey);
  allow_untrusted : bool
}.
Arguments Trust {pkey} _ _ _.
Arguments trusted_key_list {pkey} _.
Arguments private_key_list {pkey} _.
Arguments allow_untrusted {pkey} _.

(** struct adb, as far as reading uses it; [None] is a null buffer. *)
Record adb := Adb { adb_adb : option bytes; adb_schema : Z }.

(** struct adb_verify_ctx *)
Record adb_verify_ctx := Vfy { vfy_calc : Z; vfy_sha256 : apk_digest; vfy_sha512 : apk_digest }.

Definition digest_zero : apk_digest := Digest 0 0 (replicate 64 0).
Definition vfy_zero : adb_verify_ctx := Vfy 0 digest_zero digest_zero.

(** struct apk_extract_ctx, the fields the parser uses; [e_generate_identity] is the digest
    object pointed to, if any. *)
Record apk_extract_ctx := Ectx {
  e_generate_identity : option apk_digest;
  e_generate_alg : Z;
  e_verify_alg : Z;
  e_verify_digest : bytes
}.

Definition sizeof_adb_hdr : Z := 8.
Definition sizeof_adb_sign_hdr : Z := 2.
Definition sizeof_adb_sign_v0 : Z := 18.
Definition ADB_MAX_SIGNATURE_LEN : Z := 2048.
Definition ADB_SCHEMA_IMPLIED : Z := 0x80000000.

Section Trust.
Context {pkey : Type} `{!Crypto pkey}.

Definition apk_digest_calc (d : apk_digest) (alg : Z) (data : bytes) : Z * apk_digest :=
  match EVP_Digest alg data with
  | None => (- APKE_CRYPTO_ERROR, d)
  | Some md => (0, apk_digest_set (Digest (d_alg d) (d_len d) (overwrite (d_data d) md)) alg)
  end.

Definition vfy_calculated (vfy : adb_verify_ctx) (alg : Z) : bool := negb (vfy_calc vfy .& (1 .<< alg) =? 0).

(** The result code, the context and the digest slice. *)
Definition adb_digest_adb (vfy : adb_verify_ctx) (hash_alg : Z) (data : option bytes)
  : Z * adb_verify_ctx * bytes :=
  let alg := if hash_alg =? APK_DIGEST_SHA256_160 then APK_DIGEST_SHA256 else hash_alg in
  if (alg =? APK_DIGEST_SHA256) || (alg =? APK_DIGEST_SHA512) then
    let d := if alg =? APK_DIGEST_SHA256 then vfy_sha256 vfy else vfy_sha512 vfy in
    let pmd (d : apk_digest) := ztake (apk_digest_alg_len hash_alg) (d_data d) in
    if vfy_calculated vfy alg then (0, vfy, pmd d)
    else
      match data with
      | None => (- APKE_ADB_BLOCK, vfy, [])
      | Some data =>
          let '(r, d) := apk_digest_calc d alg data in
          if negb (r =? 0) then (r, vfy, [])
          else
            let calc := u32 (vfy_calc vfy .| (1 .<< alg)) in
            (0, (if alg =? APK_DIGEST_SHA256 then Vfy calc d (vfy_sha512 vfy) else Vfy calc (vfy_sha256 vfy) d), pmd d)
      end
  else (- APKE_CRYPTO_NOT_SUPPORTED, vfy, []).

(** ** Signatures *)

(** struct apk_digest_ctx: the algorithm, the key and what was fed so far. *)
Record digest_ctx := DCtx { dc_alg : Z; dc_key : apk_pkey pkey; dc_data : bytes }.

Definition apk_verify_start (alg : Z) (k : apk_pkey pkey) : option digest_ctx :=
  if EVP_DigestVerifyInit alg (key_priv k) then Some (DCtx alg k []) else None.

Definition apk_sign_start (alg : Z) (k : apk_pkey pkey) : option digest_ctx :=
  if EVP_DigestSignInit alg (key_priv k) then Some (DCtx alg k []) else None.

Definition apk_digest_ctx_update (c : digest_ctx) (d : bytes) : option digest_ctx :=
  if EVP_DigestUpdate (dc_data c) d then Some (DCtx (dc_alg c) (dc_key c) (dc_data c ++ d)) else None.

Definition apk_verify (c : digest_ctx) (sig : bytes) : Z :=
  if EVP_DigestVerifyFinal (dc_alg c) (key_priv (dc_key c)) (dc_data c) sig then 0 else - APKE_SIGNATURE_INVALID.

Definition apk_sign (c : digest_ctx) (len : Z) : option bytes :=
  EVP_DigestSignFinal (dc_alg c) (key_priv (dc_key c)) (dc_data c) len.

Definition adb_digest_v0_signature (c : digest_ctx) (schema : Z) (sig0 md : bytes) : option digest_ctx :=
  c ← apk_digest_ctx_update c (le_bytes 4 schema);
  c ← apk_digest_ctx_update c sig0;
  apk_digest_ctx_update c md.

(** The keys in order, stopping at the first one that verifies. *)
Fixpoint verify_keys (keys : list (apk_trust_key pkey)) (db : adb) (vfy : adb_verify_ctx) (sigb : bytes)
  : Z * adb_verify_ctx :=
  match keys with
  | [] => (- APKE_SIGNATURE_UNTRUSTED, vfy)
  | tkey :: keys =>
      if negb (memcmp (ztake 16 (zdrop 2 sigb)) (key_id (tk_key tkey)) =? 0) then verify_keys keys db vfy sigb
      else
        let '(r, vfy, md) := adb_digest_adb vfy (znth 0 sigb 1) (adb_adb db) in
        if negb (r =? 0) then verify_keys keys db vfy sigb
        else
          match apk_verify_start APK_DIGEST_SHA512 (tk_key tkey) ≫= fun c =>
                adb_digest_v0_signature c (adb_schema db) (ztake sizeof_adb_sign_v0 sigb) md with
          | None => verify_keys keys db vfy sigb
          | Some c =>
              if negb (apk_verify c (zdrop sizeof_adb_sign_v0 sigb) =? 0) then verify_keys keys db vfy sigb
              else (0, vfy)
          end
  end.

(** [None] when the null trust store would be dereferenced, or the signature read behind its end:
    the struct adb_sign_v0 at its start is read as soon as there is a key to compare it with. *)
Definition adb_trust_verify_signature (t : option (apk_trust pkey)) (db : adb) (vfy : adb_verify_ctx) (sigb : bytes)
  : option (Z * adb_verify_ctx) :=
  match adb_adb db with
  | None => Some (- APKE_ADB_BLOCK, vfy)
  | Some _ =>
      if zlen sigb <? sizeof_adb_sign_hdr then Some (- APKE_ADB_SIGNATURE, vfy)
      else
        sign_ver ← load 1 sigb;
        if negb (sign_ver =? 0) then Some (- APKE_ADB_SIGNATURE, vfy)
        else if zlen sigb <? sizeof_adb_sign_v0 then Some (- APKE_ADB_SIGNATURE, vfy)
        else
          t ← t;
          _ ← fetch sizeof_adb_sign_v0 sigb;
          Some (verify_keys (trusted_key_list t) db vfy sigb)
  end.

(** An output stream that accepts everything: what was written, and the error it was
    cancelled with (0 for none). *)
Record ostream := Os { os_data : bytes; os_rc : Z }.

Definition apk_ostream_cancel (os : ostream) (rc : Z) : ostream :=
  Os (os_data os) (if os_rc os =? 0 then rc else os_rc os).

Definition os_block (os : ostream) (type : Z) (val : bytes) : ostream :=
  Os (adb_c_block (os_data os) type val) (os_rc os).

(** The signature of one key: its two headers, then the signature proper. *)
Definition sign_key (tkey : apk_trust_key pkey) (schema : Z) (md : bytes) : Z + bytes :=
  let sig0 := [0; APK_DIGEST_SHA512] ++ key_id (tk_key tkey) in
  match apk_sign_start APK_DIGEST_SHA512 (tk_key tkey) ≫= fun c => adb_digest_v0_signature c schema sig0 md with
  | None => inl (- APKE_CRYPTO_ERROR)
  | Some c =>
      match apk_sign c (ADB_MAX_SIGNATURE_LEN - sizeof_adb_sign_v0) with
      | None => inl (- APKE_SIGNATURE_GEN_FAILURE)
      | Some sig => inr (sig0 ++ sig)
      end
  end.

Fixpoint write_signatures (keys : list (apk_trust_key pkey)) (schema : Z) (md : bytes) (os : ostream)
  : Z * ostream :=
  match keys with
  | [] => (0, os)
  | tkey :: keys =>
      match sign_key tkey schema md with
      | inl r => (r, apk_ostream_cancel os r)
      | inr sig => write_signatures keys schema md (os_block os ADB_BLOCK_SIG sig)
      end
  end.

Definition adb_trust_write_signatures (t : apk_trust pkey) (db : adb) (vfy : adb_verify_ctx) (os : ostream)
  : Z * ostream :=
  let '(r, _, md) := adb_digest_adb vfy APK_DIGEST_SHA512 (adb_adb db) in
  if negb (r =? 0) then (r, os) else write_signatures (private_key_list t) (adb_schema db) md os.

(** The result of the signing is only seen through the stream. *)
Definition adb_c_adb (os : ostream) (db : adb) (t : apk_trust pkey) : Z * ostream :=
  if adb_schema db =? 0 then (- APKE_ADB_HEADER, apk_ostream_cancel os (- APKE_ADB_HEADER))
  else
    let os := Os (adb_c_header (os_data os) (adb_schema db)) (os_rc os) in
    let os := os_block os ADB_BLOCK_ADB (default [] (adb_adb db)) in
    let '(_, os) := adb_trust_write_signatures t db vfy_zero os in
    (os_rc os, os).

(** ** Identities *)

Definition __adb_handle_identity (ectx : option apk_extract_ctx) (vfy : adb_verify_ctx) (b : bytes)
  : Z * option apk_extract_ctx * adb_verify_ctx :=
  match ectx with
  | None => (0, None, vfy)
  | Some e =>
      let alg := if negb (e_generate_alg e =? 0) then e_generate_alg e else e_verify_alg e in
      if (alg =? APK_DIGEST_NONE) || (alg =? APK_DIGEST_SHA1) then (0, Some e, vfy)
      else
        let '(r, vfy, calculated) := adb_digest_adb vfy alg (Some b) in
        if negb (r =? 0) then (r, Some e, vfy)
        else
          match e_generate_identity e with
          | Some d =>
              let d := apk_digest_set d alg in
              let d := Digest (d_alg d) (d_len d) (overwrite (d_data d) calculated) in
              (0, Some (Ectx (Some d) (e_generate_alg e) (e_verify_alg e) (e_verify_digest e)), vfy)
          | None =>
              if negb (apk_blob_compare (Some (e_verify_digest e)) (Some calculated) =? 0) then
                if e_verify_alg e =? APK_DIGEST_SHA256_160 then (0, Some e, vfy)
                else (- APKE_ADB_INTEGRITY, Some e, vfy)
              else (1, Some e, vfy)
          end
  end.

(** ** Parsing a mapped file *)

Section Parse.
Context {S : Type} (cb : adb -> adb_block -> bytes -> S -> Z * S).
Context (t : option (apk_trust pkey)).

(** The variables of the parser that live across blocks, and the state of the callback. *)
Record pstate := PS {
  p_db : adb;
  p_ectx : option apk_extract_ctx;
  p_vfy : adb_verify_ctx;
  p_trusted : bool;
  p_allowed : Z;
  p_cb : S
}.

Definition set_db (s : pstate) (b : option bytes) : pstate :=
  PS (Adb b (adb_schema (p_db s))) (p_ectx s) (p_vfy s) (p_trusted s) (p_allowed s) (p_cb s).
Definition set_vfy (s : pstate) (v : adb_verify_ctx) : pstate :=
  PS (p_db s) (p_ectx s) v (p_trusted s) (p_allowed s) (p_cb s).
Definition set_ectx (s : pstate) (e : option apk_extract_ctx) : pstate :=
  PS (p_db s) e (p_vfy s) (p_trusted s) (p_allowed s) (p_cb s).
Definition set_trusted (s : pstate) : pstate :=
  PS (p_db s) (p_ectx s) (p_vfy s) true (p_allowed s) (p_cb s).
Definition set_allowed (s : pstate) (a : Z) : pstate :=
  PS (p_db s) (p_ectx s) (p_vfy s) (p_trusted s) a (p_cb s).
Definition set_cb (s : pstate) (c : S) : pstate :=
  PS (p_db s) (p_ectx s) (p_vfy s) (p_trusted s) (p_allowed s) c.

(** The switch on the block type: a negative code leaves the loop; [None] when a null trust
    store is used or a block is read behind its end. *)
Definition parse_switch (s : pstate) (type : Z) (b : bytes) : option (Z * pstate) :=
  if type =? ADB_BLOCK_ADB then
    let s := set_allowed s (BIT ADB_BLOCK_SIG .| BIT ADB_BLOCK_DATA) in
    if zlen b <? sizeof_adb_hdr then Some (- APKE_ADB_BLOCK, s)
    else
      compat_ver ← load 1 b;
      if negb (compat_ver =? 0) then Some (- APKE_ADB_VERSION, s)
      else
        let s := set_db s (Some b) in
        let '(r, e, v) := __adb_handle_identity (p_ectx s) (p_vfy s) b in
        let s := set_vfy (set_ectx s e) v in
        Some (r, if r =? 1 then set_trusted s else s)
  else if type =? ADB_BLOCK_SIG then
    if p_trusted s then Some (0, s)
    else
      '(r, v) ← adb_trust_verify_signature t (p_db s) (p_vfy s) b;
      Some (0, if r =? 0 then set_trusted (set_vfy s v) else set_vfy s v)
  else if type =? ADB_BLOCK_DATA then
    let s := set_allowed s (BIT ADB_BLOCK_DATA) in
    if negb (p_trusted s) then Some (- APKE_SIGNATURE_UNTRUSTED, s) else Some (0, s)
  else Some (0, s).

(** One turn of the loop. *)
Definition parse_block (s : pstate) (blk : adb_block) (b : bytes) : option (Z * pstate) :=
  let type := adb_block_type blk in
  if (ADB_BLOCK_MAX <=? type) || (BIT type .& p_allowed s =? 0) then Some (- APKE_ADB_BLOCK, s)
  else
    '(r, s) ← parse_switch s type b;
    if r <? 0 then Some (r, s)
    else
      let '(r, c) := cb (p_db s) blk b (p_cb s) in
      Some (r, set_cb s c).

(** How the loop ends: with the code and the end of the enumeration (an error of the
    enumeration, 0 for none), by reaching outside of the data or through a null pointer, or not
    within [fuel] turns. *)
Inductive outcome :=
  | Done (r : Z) (end_err : Z) (s : pstate)
  | Fault
  | OutOfFuel.

Fixpoint parse_loop (fuel : nat) (cur : block_res) (r : Z) (s : pstate) (data : bytes) : outcome :=
  match fuel with
  | O => OutOfFuel
  | Datatypes.S fuel =>
      match cur with
      | BlkNull => Done r 0 s
      | BlkErr e => Done r e s
      | BlkFault => Fault
      | BlkOk pos blk =>
          match b ← adb_block_blob pos blk data; parse_block s blk b with
          | None => Fault
          | Some (r, s) =>
              if r <? 0 then Done r 0 s
              else parse_loop fuel (adb_block_next pos blk data) r s data
          end
      end
  end.

Definition parse_end (r end_err : Z) (s : pstate) : Z * pstate :=
  let r := if 0 <? r then - APKE_ADB_BLOCK else r in
  let r :=
    if r =? 0 then
      if negb (end_err =? 0) then end_err
      else if negb (p_trusted s) then - APKE_SIGNATURE_UNTRUSTED
      else match adb_adb (p_db s) with None => - APKE_ADB_BLOCK | Some _ => r end
    else r in
  (r, if negb (r =? 0) then set_db s None else s).

Definition parse_init (db : adb) (ectx : option apk_extract_ctx) (c : S) : pstate :=
  PS db ectx vfy_zero (match t with Some t => allow_untrusted t | None => false end) (BIT ADB_BLOCK_ADB) c.

Definition __adb_m_parse (db : adb) (data : bytes) (ectx : option apk_extract_ctx) (c : S) : option (Z * pstate) :=
  match parse_loop (2 + length data) (adb_block_first data) 0 (parse_init db ectx c) data with
  | Done r e s => Some (parse_end r e s)
  | Fault | OutOfFuel => None
  end.

(** On failure the database is freed, which clears it. *)
Definition __adb_m_mmap (db : adb) (mmap : bytes) (expected_schema : Z) (ectx : option apk_extract_ctx) (c : S)
  : option (Z * pstate) :=
  let parse db data :=
    '(r, s) ← __adb_m_parse db data ectx c;
    Some (r, if negb (r =? 0) then PS (Adb None 0) (p_ectx s) (p_vfy s) (p_trusted s) (p_allowed s) (p_cb s) else s) in
  let fail r := Some (r, parse_init db ectx c) in
  if expected_schema .& ADB_SCHEMA_IMPLIED =? 0 then
    if zlen mmap <? 8 then fail (- APKE_ADB_HEADER)
    else
      magic ← load 4 mmap;
      if negb (magic =? ADB_FORMAT_MAGIC) then fail (- APKE_ADB_HEADER)
      else
        schema ← load 4 (zdrop 4 mmap);
        if negb (expected_schema =? 0) && negb (expected_schema =? schema) then fail (- APKE_ADB_SCHEMA)
        else parse (Adb (adb_adb db) schema) (zdrop 8 mmap)
  else parse db mmap.

End Parse.
Arguments pstate S : clear implicits.
Arguments outcome S : clear implicits.

Definition __adb_dummy_cb (db : adb) (blk : adb_block) (b : bytes) (s : unit) : Z * unit := (0, s).

Definition adb_m_blob (blob : bytes) (t : option (apk_trust pkey)) : option (Z * pstate unit) :=
  __adb_m_parse __adb_dummy_cb t (Adb None 0) blob None tt.

(** ** What makes a database trustworthy *)

(** The library's digests have the length of their algorithm. *)
Class CryptoOk : Prop := {
  EVP_Digest_len alg data md : EVP_Digest alg data = Some md -> zlen md = apk_digest_alg_len alg
}.
Context {Hcrypto : CryptoOk}.

(** The digest an algorithm number of a signature or an identity stands for. *)
Definition digest_of (hash_alg : Z) (data : bytes) : option bytes :=
  let alg := if hash_alg =? APK_DIGEST_SHA256_160 then APK_DIGEST_SHA256 else hash_alg in
  if (alg =? APK_DIGEST_SHA256) || (alg =? APK_DIGEST_SHA512)
  then ztake (apk_digest_alg_len hash_alg) <$> EVP_Digest alg data else None.

(** A signature block that key [k] verifies for database [data] under [schema]. *)
Definition signed_by (k : apk_pkey pkey) (schema : Z) (data sigb : bytes) : Prop :=
  sizeof_adb_sign_v0 <= zlen sigb /\ znth 0 sigb 0 = 0 /\
  memcmp (ztake 16 (zdrop 2 sigb)) (key_id k) = 0 /\
  exists md, digest_of (znth 0 sigb 1) data = Some md /\
    EVP_DigestVerifyFinal APK_DIGEST_SHA512 (key_priv k)
      (le_bytes 4 schema ++ ztake sizeof_adb_sign_v0 sigb ++ md) (zdrop sizeof_adb_sign_v0 sigb) = true.

(** The identity the caller asked for. *)
Definition identity_matches (ectx : option apk_extract_ctx) (data : bytes) : Prop :=
  exists e, ectx = Some e /\ e_generate_identity e = None /\
    let alg := if negb (e_generate_alg e =? 0) then e_generate_alg e else e_verify_alg e in
    alg <> APK_DIGEST_NONE /\ alg <> APK_DIGEST_SHA1 /\ digest_of alg data = Some (e_verify_digest e).

(** What the callback was given, most recent first. *)
Record event := Ev { ev_type : Z; ev_adb : option bytes; ev_payload : bytes }.

Definition authenticated (t : option (apk_trust pkey)) (ectx : option apk_extract_ctx) (schema : Z)
    (log : list event) (data : bytes) : Prop :=
  (exists t', t = Some t' /\ allow_untrusted t' = true) \/
  identity_matches ectx data \/
  exists t' k ev, t = Some t' /\ k ∈ trusted_key_list t' /\ ev ∈ log /\ ev_type ev = ADB_BLOCK_SIG /\
    signed_by (tk_key k) schema data (ev_payload ev).

(** Every data block was handed out after the database was authenticated. *)
Fixpoint log_ok (t : option (apk_trust pkey)) (ectx : option apk_extract_ctx) (schema : Z) (log : list event) : Prop :=
  match log with
  | [] => True
  | ev :: log =>
      (ev_type ev = ADB_BLOCK_DATA -> exists data, ev_adb ev = Some data /\ authenticated t ectx schema log data) /\
      log_ok t ectx schema log
  end.

Definition logged {S} (cb : adb -> adb_block -> bytes -> S -> Z * S) (db : adb) (blk : adb_block) (b : bytes)
    (c : S * list event) : Z * (S * list event) :=
  let '(r, s) := cb db blk b c.1 in (r, (s, Ev (adb_block_type blk) (adb_adb db) b :: c.2)).

(** ** The digest cache *)

(** Which digests are there, and that they are digests of the database. *)
Definition vfy_ok (vfy : adb_verify_ctx) (data : option bytes) : Prop :=
  (exists a b : bool, vfy_calc vfy = (if a then 8 else 0) + (if b then 16 else 0)) /\
  (vfy_calculated vfy APK_DIGEST_SHA256 = true ->
   exists b md, data = Some b /\ EVP_Digest APK_DIGEST_SHA256 b = Some md /\ exists r, d_data (vfy_sha256 vfy) = md ++ r) /\
  (vfy_calculated vfy APK_DIGEST_SHA512 = true ->
   exists b md, data = Some b /\ EVP_Digest APK_DIGEST_SHA512 b = Some md /\ exists r, d_data (vfy_sha512 vfy) = md ++ r).

Lemma vfy_zero_ok data : vfy_ok vfy_zero data.
Proof. split; [by exists false, false|]. split; intros H; discriminate H. Qed.

(** The two algorithms the databases are digested with. *)
Definition base_alg (h : Z) : Z := if h =? APK_DIGEST_SHA256_160 then APK_DIGEST_SHA256 else h.

Lemma alg_len_base h : base_alg h = APK_DIGEST_SHA256 \/ base_alg h = APK_DIGEST_SHA512 ->
  apk_digest_alg_len h <= apk_digest_alg_len (base_alg h).
Proof.
  unfold base_alg. destruct (Z.eqb_spec h APK_DIGEST_SHA256_160) as [->|]; [done|]. by intros [-> | ->].
Qed.

Lemma digest_slice h b md r :
  base_alg h = APK_DIGEST_SHA256 \/ base_alg h = APK_DIGEST_SHA512 ->
  EVP_Digest (base_alg h) b = Some md ->
  ztake (apk_digest_alg_len h) (md ++ r) = ztake (apk_digest_alg_len h) md.
Proof. intros Ha Hd. apply ztake_app_le. rewrite (EVP_Digest_len _ _ _ Hd). by apply alg_len_base. Qed.

(** A digest that is asked for is the library's digest of the database, whether it was
    computed before or is computed now, and the cache stays correct. *)
Lemma adb_digest_adb_spec vfy h b :
  vfy_ok vfy (Some b) ->
  let '(r, vfy', md) := adb_digest_adb vfy h (Some b) in
  vfy_ok vfy' (Some b) /\ r <= 0 /\
  match digest_of h b with Some md' => r = 0 /\ md = md' | None => r <> 0 end.
Proof.
  intros ((ca & cb & Hc) & H256 & H512). unfold adb_digest_adb, digest_of. fold (base_alg h).
  destruct (Z.eqb_spec (base_alg h) APK_DIGEST_SHA256) as [E|E].
  - cbn [orb]. destruct (vfy_calculated vfy (base_alg h)) eqn:Hv.
    + rewrite E in Hv. destruct (H256 Hv) as (b' & md & [= <-] & Hd & r & Hr).
      rewrite E, Hd. cbn [fmap option_fmap option_map]. split; [split; eauto|]. split; [done|]. split; [done|].
      rewrite Hr. apply (digest_slice h b md r); [auto|by rewrite E].
    + unfold apk_digest_calc. rewrite E. destruct (EVP_Digest APK_DIGEST_SHA256 b) as [md|] eqn:Hd; cbn.
      * split; [|split; [lia|split; [done|]]].
        -- unfold vfy_ok, vfy_calculated. cbn [vfy_calc vfy_sha256 vfy_sha512]. split.
           { exists true, cb. unfold vfy_calculated in Hv. rewrite E, Hc in Hv. rewrite Hc. by destruct ca, cb. }
           split; [intros _; exists b, md; repeat split; [done|]; eexists; reflexivity|].
           intros Hx. apply H512. unfold vfy_calculated. rewrite Hc in *. by destruct ca, cb.
        -- apply (digest_slice h b md); [auto|by rewrite E].
      * split; [split; eauto|]. split; done.
  - destruct (Z.eqb_spec (base_alg h) APK_DIGEST_SHA512) as [E'|E']; cbn [orb].
    2: { split; [split; eauto|]. split; done. }
    destruct (vfy_calculated vfy (base_alg h)) eqn:Hv.
    + rewrite E' in Hv. destruct (H512 Hv) as (b' & md & [= <-] & Hd & r & Hr).
      rewrite E', Hd. cbn [fmap option_fmap option_map]. split; [split; eauto|]. split; [done|]. split; [done|].
      rewrite Hr. apply (digest_slice h b md r); [auto|by rewrite E'].
    + unfold apk_digest_calc. rewrite E'. destruct (EVP_Digest APK_DIGEST_SHA512 b) as [md|] eqn:Hd; cbn.
      * split; [|split; [lia|split; [done|]]].
        -- unfold vfy_ok, vfy_calculated. cbn [vfy_calc vfy_sha256 vfy_sha512]. split.
           { exists ca, true. unfold vfy_calculated in Hv. rewrite E', Hc in Hv. rewrite Hc. by destruct ca, cb. }
           split; [|intros _; exists b, md; repeat split; [done|]; eexists; reflexivity].
           intros Hx. apply H256. unfold vfy_calculated. rewrite Hc in *. by destruct ca, cb.
        -- apply (digest_slice h b md); [auto|by rewrite E'].
      * split; [split; eauto|]. split; done.
Qed.

(** ** Signature checks *)

Lemma update_spec c d c' : apk_digest_ctx_update c d = Some c' ->
  dc_alg c' = dc_alg c /\ dc_key c' = dc_key c /\ dc_data c' = dc_data c ++ d.
Proof. unfold apk_digest_ctx_update. case_test; [|done]. by intros [= <-]. Qed.

Lemma v0_signature_spec c schema sig0 md c' :
  adb_digest_v0_signature c schema sig0 md = Some c' ->
  dc_alg c' = dc_alg c /\ dc_key c' = dc_key c /\
  dc_data c' = dc_data c ++ le_bytes 4 schema ++ sig0 ++ md.
Proof.
  unfold adb_digest_v0_signature. intros H.
  destruct (apk_digest_ctx_update c _) as [c1|] eqn:E1; [|done]. cbn in H.
  destruct (apk_digest_ctx_update c1 _) as [c2|] eqn:E2; [|done]. cbn in H.
  apply update_spec in E1 as (A1 & B1 & D1). apply update_spec in E2 as (A2 & B2 & D2).
  apply update_spec in H as (A3 & B3 & D3). rewrite A3, B3, D3, A2, B2, D2, A1, B1, D1.
  repeat split. by rewrite <- !app_assoc.
Qed.

(** The signature check of one key, on the digest of the database. *)
Definition key_check (k : apk_pkey pkey) (schema : Z) (sigb md : bytes) : bool :=
  match apk_verify_start APK_DIGEST_SHA512 k ≫= fun c =>
        adb_digest_v0_signature c schema (ztake sizeof_adb_sign_v0 sigb) md with
  | None => false
  | Some c => apk_verify c (zdrop sizeof_adb_sign_v0 sigb) =? 0
  end.

Lemma key_check_sound k schema sigb md :
  key_check k schema sigb md = true ->
  EVP_DigestVerifyFinal APK_DIGEST_SHA512 (key_priv k)
    (le_bytes 4 schema ++ ztake sizeof_adb_sign_v0 sigb ++ md) (zdrop sizeof_adb_sign_v0 sigb) = true.
Proof.
  unfold key_check, apk_verify_start. case_test; cbn; [|done].
  destruct (adb_digest_v0_signature _ _ _ _) as [c|] eqn:Es; [|done].
  apply v0_signature_spec in Es as (Ea & Ek & Ed). unfold apk_verify. rewrite Ea, Ek, Ed. cbn [dc_alg dc_key dc_data app].
  by case_test.
Qed.

Lemma verify_keys_spec sigb db b :
  adb_adb db = Some b -> forall keys vfy, vfy_ok vfy (Some b) ->
  let '(r, vfy') := verify_keys keys db vfy sigb in
  vfy_ok vfy' (Some b) /\
  (r = 0 <-> exists k md, k ∈ keys /\ memcmp (ztake 16 (zdrop 2 sigb)) (key_id (tk_key k)) = 0 /\
     digest_of (znth 0 sigb 1) b = Some md /\ key_check (tk_key k) (adb_schema db) sigb md = true).
Proof.
  intros Hdb keys. induction keys as [|k keys IH]; intros vfy Hv; cbn [verify_keys].
  { split; [done|]. split; [done|]. intros (k & md & Hk & _). by apply elem_of_nil in Hk. }
  assert (Hskip : forall vfy', vfy_ok vfy' (Some b) ->
    (forall md, memcmp (ztake 16 (zdrop 2 sigb)) (key_id (tk_key k)) = 0 -> digest_of (znth 0 sigb 1) b = Some md ->
       key_check (tk_key k) (adb_schema db) sigb md = true -> False) ->
    let '(r, vfy') := verify_keys keys db vfy' sigb in
    vfy_ok vfy' (Some b) /\
    (r = 0 <-> exists k0 md, k0 ∈ k :: keys /\ memcmp (ztake 16 (zdrop 2 sigb)) (key_id (tk_key k0)) = 0 /\
       digest_of (znth 0 sigb 1) b = Some md /\ key_check (tk_key k0) (adb_schema db) sigb md = true)).
  { intros vfy' Hv' Hno. specialize (IH vfy' Hv'). destruct (verify_keys keys db vfy' sigb) as [r v].
    destruct IH as [H1 H2]. split; [done|]. rewrite H2. split.
    - intros (k0 & md & Hin & Hr). exists k0, md. split; [by right|done].
    - intros (k0 & md & Hin & Hm & Hd & Hc). apply elem_of_cons in Hin as [->|Hin]; [|eauto 8].
      destruct (Hno md Hm Hd Hc). }
  destruct (Z.eqb_spec (memcmp (ztake 16 (zdrop 2 sigb)) (key_id (tk_key k))) 0) as [Hm|Hm]; cbn [negb].
  2: { apply Hskip; [done|]. by intros. }
  rewrite Hdb. pose proof (adb_digest_adb_spec vfy (znth 0 sigb 1) b Hv) as Hd.
  destruct (adb_digest_adb vfy (znth 0 sigb 1) (Some b)) as [[r vfy'] md]. destruct Hd as (Hv' & _ & Hd).
  destruct (Z.eqb_spec r 0) as [->|Hr]; cbn [negb].
  2: { apply Hskip; [done|]. intros md' _ Hd' _. rewrite Hd' in Hd. tauto. }
  destruct (digest_of (znth 0 sigb 1) b) as [md'|] eqn:Edig; [|done]. destruct Hd as [_ ->].
  assert (Hkc : key_check (tk_key k) (adb_schema db) sigb md' =
    match apk_verify_start APK_DIGEST_SHA512 (tk_key k) ≫= fun c =>
          adb_digest_v0_signature c (adb_schema db) (ztake sizeof_adb_sign_v0 sigb) md' with
    | None => false | Some c => apk_verify c (zdrop sizeof_adb_sign_v0 sigb) =? 0 end) by reflexivity.
  destruct (apk_verify_start APK_DIGEST_SHA512 (tk_key k) ≫= _) as [c|].
  2: { apply Hskip; [done|]. intros md _ [= <-] Hc. by rewrite Hkc in Hc. }
  destruct (apk_verify c (zdrop sizeof_adb_sign_v0 sigb) =? 0) eqn:Ev; cbn [negb].
  2: { apply Hskip; [done|]. intros md _ [= <-] Hc. by rewrite Hkc in Hc. }
  split; [done|]. split; [|done]. intros _. exists k, md'. split; [by left|done].
Qed.

(** A signature is accepted exactly when it has the right shape and a trusted key checks it. *)
Lemma verify_signature_spec t db vfy sigb b :
  adb_adb db = Some b -> vfy_ok vfy (Some b) ->
  match adb_trust_verify_signature t db vfy sigb with
  | None => t = None
  | Some (r, vfy') =>
      vfy_ok vfy' (Some b) /\
      (r = 0 <-> sizeof_adb_sign_v0 <= zlen sigb /\ znth 0 sigb 0 = 0 /\
        exists t' k md, t = Some t' /\ k ∈ trusted_key_list t' /\
          memcmp (ztake 16 (zdrop 2 sigb)) (key_id (tk_key k)) = 0 /\
          digest_of (znth 0 sigb 1) b = Some md /\ key_check (tk_key k) (adb_schema db) sigb md = true)
  end.
Proof.
  intros Hdb Hv. unfold adb_trust_verify_signature. rewrite Hdb.
  unfold sizeof_adb_sign_hdr, sizeof_adb_sign_v0.
  destruct (Z.ltb_spec (zlen sigb) 2) as [H2|H2]; [split; [done|]; split; [done|]; lia|].
  rewrite load_byte by lia. cbn [mbind option_bind].
  destruct (Z.eqb_spec (znth 0 sigb 0) 0) as [H0|H0]; cbn [negb]; [|split; [done|]; split; [done|]; tauto].
  destruct (Z.ltb_spec (zlen sigb) 18) as [H18|H18]; [split; [done|]; split; [done|]; lia|].
  destruct t as [t|]; cbn [mbind option_bind]; [|done]. rewrite fetch_some by done. cbn [option_bind].
  pose proof (verify_keys_spec sigb db b Hdb (trusted_key_list t) vfy Hv) as Hk.
  destruct (verify_keys (trusted_key_list t) db vfy sigb) as [r vfy']. destruct Hk as [Hv' Hk].
  split; [done|]. rewrite Hk. split.
  - intros (k & md & H). split; [lia|]. split; [done|]. exists t, k, md. tauto.
  - intros (_ & _ & t' & k & md & [= <-] & H). eauto.
Qed.

(** ** The parser only trusts authenticated databases *)

Lemma handle_identity_spec ectx b :
  let '(r, ectx', vfy) := __adb_handle_identity ectx vfy_zero b in
  vfy_ok vfy (Some b) /\ (r = 1 -> identity_matches ectx b).
Proof.
  destruct ectx as [e|]; cbn [__adb_handle_identity]; [|split; [apply vfy_zero_ok|done]].
  set (alg := if negb (e_generate_alg e =? 0) then e_generate_alg e else e_verify_alg e).
  destruct (Z.eqb_spec alg APK_DIGEST_NONE) as [|Hn]; [split; [apply vfy_zero_ok|done]|].
  destruct (Z.eqb_spec alg APK_DIGEST_SHA1) as [|H1]; [split; [apply vfy_zero_ok|done]|]. cbn [orb].
  pose proof (adb_digest_adb_spec vfy_zero alg b (vfy_zero_ok _)) as Hd.
  destruct (adb_digest_adb vfy_zero alg (Some b)) as [[r vfy] md]. destruct Hd as (Hv & Hr & Hd).
  destruct (Z.eqb_spec r 0) as [->|Hr']; cbn [negb]; [|split; [done|lia]].
  destruct (e_generate_identity e) as [d|] eqn:Eg; [done|].
  destruct (Z.eqb_spec (apk_blob_compare (Some (e_verify_digest e)) (Some md)) 0) as [Hc|]; cbn [negb].
  - split; [done|]. intros _. exists e. fold alg. repeat split; [done..|].
    destruct (digest_of alg b) as [md'|]; [|lia]. destruct Hd as [_ ->]. f_equal.
    symmetry. by apply apk_blob_compare_eq in Hc as [= ->].
  - case_test; (split; [done|]); intros H; exfalso; revert H; by unfold APKE_ADB_INTEGRITY, APKE_FIRST_VALUE.
Qed.

Section Sound.
Context {S : Type} (cb : adb -> adb_block -> bytes -> S -> Z * S).
Context (t : option (apk_trust pkey)) (ectx : option apk_extract_ctx) (schema : Z).

Let init_trusted : bool := match t with Some t => allow_untrusted t | None => false end.

(** Before and after the database block. *)
Definition parse_inv (s : pstate (S * list event)) : Prop :=
  adb_schema (p_db s) = schema /\ log_ok t ectx schema (p_cb s).2 /\
  match adb_adb (p_db s) with
  | None => p_allowed s = BIT ADB_BLOCK_ADB /\ p_ectx s = ectx /\ p_vfy s = vfy_zero /\ p_trusted s = init_trusted
  | Some b =>
      (p_allowed s = (BIT ADB_BLOCK_SIG .| BIT ADB_BLOCK_DATA) \/ p_allowed s = BIT ADB_BLOCK_DATA) /\
      vfy_ok (p_vfy s) (Some b) /\ (p_trusted s = true -> authenticated t ectx schema (p_cb s).2 b)
  end.

Lemma init_trusted_auth log b : init_trusted = true -> authenticated t ectx schema log b.
Proof. unfold init_trusted. intros H. left. destruct t as [t'|]; [eauto|done]. Qed.

Lemma authenticated_mono ev log b : authenticated t ectx schema log b -> authenticated t ectx schema (ev :: log) b.
Proof.
  intros [H|[H|(t' & k & ev' & H1 & H2 & H3 & H4)]]; [by left|by right; left|].
  right; right. exists t', k, ev'. repeat split; try done; try (by right); apply H4.
Qed.

(** The state after the switch, before the callback has seen the block. *)
Definition switched (s : pstate (S * list event)) (type : Z) (b : bytes) : Prop :=
  adb_schema (p_db s) = schema /\ log_ok t ectx schema (p_cb s).2 /\
  exists d, adb_adb (p_db s) = Some d /\
    (p_allowed s = (BIT ADB_BLOCK_SIG .| BIT ADB_BLOCK_DATA) \/ p_allowed s = BIT ADB_BLOCK_DATA) /\
    vfy_ok (p_vfy s) (Some d) /\
    (type = ADB_BLOCK_DATA -> authenticated t ectx schema (p_cb s).2 d) /\
    (p_trusted s = true -> forall a, authenticated t ectx schema (Ev type a b :: (p_cb s).2) d).

Lemma parse_switch_adb s b :
  parse_inv s -> adb_adb (p_db s) = None -> 
  exists r s', parse_switch t s ADB_BLOCK_ADB b = Some (r, s') /\ (p_cb s').2 = (p_cb s).2 /\
    (r < 0 \/ adb_adb (p_db s') = Some b /\ switched s' ADB_BLOCK_ADB b).
Proof.
  intros (Hs & Hl & H) Hn. rewrite Hn in H. destruct H as (Ha & He & Hv & Ht). cbn [parse_switch].
  change (ADB_BLOCK_ADB =? ADB_BLOCK_ADB) with true. cbv iota. unfold parse_switch.
  destruct (Z.ltb_spec (zlen b) sizeof_adb_hdr); [eexists _, _; split; [done|]; split; [done|]; by left|].
  rewrite load_byte by (unfold sizeof_adb_hdr in *; lia). cbn [mbind option_bind].
  destruct (negb (znth 0 b 0 =? 0)); [eexists _, _; split; [done|]; split; [done|]; by left|].
  cbn [set_db set_allowed p_ectx p_vfy]. rewrite He, Hv.
  pose proof (handle_identity_spec ectx b) as Hi.
  destruct (__adb_handle_identity ectx vfy_zero b) as [[r e] v]. destruct Hi as [Hvo Hid].
  eexists _, _. split; [reflexivity|]. split; [by destruct (r =? 1)|]. right.
  split; [by destruct (r =? 1)|]. unfold switched.
  assert (Hauth : p_trusted s = true \/ r = 1 -> forall log, authenticated t ectx schema log b).
  { intros [Htr|Hr] log; [apply init_trusted_auth; congruence|right; left; by apply Hid]. }
  destruct (Z.eqb_spec r 1); cbn [set_trusted set_vfy set_ectx set_db set_allowed p_db p_cb p_allowed p_vfy p_trusted adb_schema adb_adb].
  all: (split; [done|]; split; [done|]; exists b; split; [done|]; split; [by left|]; split; [done|]; split; [done|]; auto).
Qed.

Lemma parse_switch_sig s b d :
  parse_inv s -> adb_adb (p_db s) = Some d -> p_allowed s = (BIT ADB_BLOCK_SIG .| BIT ADB_BLOCK_DATA) ->
  match parse_switch t s ADB_BLOCK_SIG b with
  | None => t = None
  | Some (r, s') => r = 0 /\ p_db s' = p_db s /\ (p_cb s').2 = (p_cb s).2 /\ switched s' ADB_BLOCK_SIG b
  end.
Proof.
  intros (Hs & Hl & H) Hd Ha. rewrite Hd in H. destruct H as (_ & Hv & Ht). unfold parse_switch.
  change (ADB_BLOCK_SIG =? ADB_BLOCK_ADB) with false. change (ADB_BLOCK_SIG =? ADB_BLOCK_SIG) with true. cbv iota.
  destruct (p_trusted s) eqn:Etr.
  { do 3 (split; [done|]). unfold switched. split; [done|]. split; [done|]. exists d.
    repeat (split; [done || auto|]). intros _ a. apply authenticated_mono. auto. }
  pose proof (verify_signature_spec t (p_db s) (p_vfy s) b d Hd Hv) as Hsp.
  destruct (adb_trust_verify_signature t (p_db s) (p_vfy s) b) as [[r v]|]; cbn [mbind option_bind]; [|done].
  destruct Hsp as [Hv' Hr]. split; [done|].
  destruct (Z.eqb_spec r 0) as [->|Hne]; cbn [set_trusted set_vfy p_db p_cb].
  - split; [done|]. split; [done|]. unfold switched. cbn. split; [done|]. split; [done|]. exists d.
    repeat (split; [done || auto|]). intros _ a.
    destruct (proj1 Hr eq_refl) as (H18 & H0 & t' & k & md & -> & Hk & Hm & Hdig & Hc).
    right; right. exists t', k, (Ev ADB_BLOCK_SIG a b). split; [done|]. split; [done|]. split; [by left|].
    split; [done|]. split; [done|]. split; [done|]. split; [done|]. exists md. split; [done|]. apply key_check_sound. by rewrite <- Hs.
  - split; [done|]. split; [done|]. unfold switched. cbn. split; [done|]. split; [done|]. exists d.
    repeat (split; [done || auto|]). congruence.
Qed.

Lemma parse_switch_data s b d :
  parse_inv s -> adb_adb (p_db s) = Some d ->
  exists r s', parse_switch t s ADB_BLOCK_DATA b = Some (r, s') /\ p_db s' = p_db s /\ (p_cb s').2 = (p_cb s).2 /\
    (r < 0 \/ switched s' ADB_BLOCK_DATA b).
Proof.
  intros (Hs & Hl & H) Hd. rewrite Hd in H. destruct H as (_ & Hv & Ht). unfold parse_switch.
  change (ADB_BLOCK_DATA =? ADB_BLOCK_ADB) with false. change (ADB_BLOCK_DATA =? ADB_BLOCK_SIG) with false.
  change (ADB_BLOCK_DATA =? ADB_BLOCK_DATA) with true. cbv iota. cbn [set_allowed p_trusted].
  destruct (p_trusted s) eqn:Etr; cbn [negb]; eexists _, _; (split; [done|]); (split; [done|]); (split; [done|]).
  - right. unfold switched. cbn. split; [done|]. split; [done|]. exists d. repeat (split; [done || auto|]).
    intros _ a. apply authenticated_mono. auto.
  - left. done.
Qed.

Lemma switched_inv s type b blk r c :
  switched s type b -> adb_block_type blk = type -> logged cb (p_db s) blk b (p_cb s) = (r, c) ->
  parse_inv (set_cb s c).
Proof.
  intros (Hs & Hl & d & Hd & Ha & Hv & Hdata & Ht) Hty. unfold logged.
  destruct (cb (p_db s) blk b (p_cb s).1) as [r' c'] eqn:Ecb. intros [= <- <-].
  unfold parse_inv. cbn [set_cb p_db p_cb p_allowed p_vfy p_trusted p_ectx snd]. split; [done|]. split.
  - cbn [log_ok ev_type ev_adb]. split; [|done]. rewrite Hty. intros H. exists d. auto.
  - rewrite Hd, Hty. repeat (split; [done|]). intros H. by apply Ht.
Qed.

Lemma allowed_none type : (BIT type .& BIT ADB_BLOCK_ADB =? 0) = false -> 0 <= type < 4 -> type = ADB_BLOCK_ADB.
Proof.
  intros H Ht. assert (type = 0 \/ type = 1 \/ type = 2 \/ type = 3) as Hc by lia.
  destruct Hc as [-> | [-> | [-> | ->]]]; vm_compute in H; done.
Qed.

Lemma allowed_some a type :
  (a = (BIT ADB_BLOCK_SIG .| BIT ADB_BLOCK_DATA) \/ a = BIT ADB_BLOCK_DATA) ->
  (BIT type .& a =? 0) = false -> 0 <= type < 4 ->
  type = ADB_BLOCK_DATA \/ type = ADB_BLOCK_SIG /\ a = (BIT ADB_BLOCK_SIG .| BIT ADB_BLOCK_DATA).
Proof.
  intros Ha H Ht. assert (type = 0 \/ type = 1 \/ type = 2 \/ type = 3) as Hc by lia.
  destruct Hc as [-> | [-> | [-> | ->]]], Ha as [-> | ->]; vm_compute in H; try done; auto.
Qed.

(** One turn of the loop. *)
Lemma parse_block_inv s blk b r s' :
  parse_inv s -> 0 <= adb_block_type blk -> parse_block (logged cb) t s blk b = Some (r, s') ->
  log_ok t ectx schema (p_cb s').2 /\
  (0 <= r -> parse_inv s' /\
    match adb_adb (p_db s) with
    | None => adb_block_type blk = ADB_BLOCK_ADB /\ adb_adb (p_db s') = Some b
    | Some d => adb_adb (p_db s') = Some d
    end).
Proof.
  intros Hinv Hty. unfold parse_block. pose proof Hinv as (Hs & Hl & Hi).
  destruct (Z.leb_spec ADB_BLOCK_MAX (adb_block_type blk)) as [|Hmax]; cbn [orb]; [intros [= <- <-]; by split|].
  destruct (BIT (adb_block_type blk) .& p_allowed s =? 0) eqn:Eal; [intros [= <- <-]; by split|].
  assert (Hrange : 0 <= adb_block_type blk < 4) by (unfold ADB_BLOCK_MAX in Hmax; lia).
  set (rest := fun rs : Z * pstate (S * list event) => if rs.1 <? 0 then Some rs
     else let '(r, c) := logged cb (p_db rs.2) blk b (p_cb rs.2) in Some (r, set_cb rs.2 c)).
  assert (Hrest : forall r1 s1, (p_cb s1).2 = (p_cb s).2 -> (r1 < 0 \/ switched s1 (adb_block_type blk) b) ->
    rest (r1, s1) = Some (r, s') ->
    log_ok t ectx schema (p_cb s').2 /\ (0 <= r -> parse_inv s' /\ p_db s' = p_db s1)).
  { intros r1 s1 Hcb Hsw. unfold rest. cbn [fst snd]. destruct (Z.ltb_spec r1 0) as [Hneg|Hpos].
    - intros [= <- <-]. rewrite Hcb. split; [done|lia].
    - destruct Hsw as [|Hsw]; [lia|]. destruct (logged cb (p_db s1) blk b (p_cb s1)) as [r2 c] eqn:El.
      intros [= <- <-]. pose proof (switched_inv s1 _ b blk _ _ Hsw eq_refl El) as Hi'.
      split; [by destruct Hi' as (_ & Hlog & _)|]. done. }
  assert (Hgoal : parse_switch t s (adb_block_type blk) b ≫= rest = Some (r, s') ->
    log_ok t ectx schema (p_cb s').2 /\
    (0 <= r -> parse_inv s' /\
      match adb_adb (p_db s) with
      | None => adb_block_type blk = ADB_BLOCK_ADB /\ adb_adb (p_db s') = Some b
      | Some d => adb_adb (p_db s') = Some d
      end)).
  2: { intros H. apply Hgoal. rewrite <- H. destruct (parse_switch _ _ _ _) as [[r1 s1]|]; done. }
  destruct (adb_adb (p_db s)) as [d|] eqn:Ed.
  - destruct Hi as (Ha & _ & _).
    destruct (allowed_some _ _ Ha Eal Hrange) as [Hd|[Hg Ha']].
    + rewrite Hd in *. destruct (parse_switch_data s b d Hinv Ed) as (r1 & s1 & -> & Hdb & Hcb & Hsw). cbn [mbind option_bind].
      intros H. destruct (Hrest r1 s1 Hcb Hsw H) as [H1 H2]. split; [done|]. intros Hr. destruct (H2 Hr) as [H3 ->].
      split; [done|]. by rewrite Hdb.
    + rewrite Hg in *. pose proof (parse_switch_sig s b d Hinv Ed Ha') as Hsw.
      destruct (parse_switch t s ADB_BLOCK_SIG b) as [[r1 s1]|]; cbn [mbind option_bind]; [|done].
      destruct Hsw as (-> & Hdb & Hcb & Hsw). intros H.
      destruct (Hrest 0 s1 Hcb (or_intror Hsw) H) as [H1 H2]. split; [done|]. intros Hr. destruct (H2 Hr) as [H3 ->].
      split; [done|]. by rewrite Hdb.
  - destruct Hi as (Ha & _). rewrite Ha in Eal. pose proof (allowed_none _ Eal Hrange) as Hg. rewrite Hg in *.
    destruct (parse_switch_adb s b Hinv Ed) as (r1 & s1 & -> & Hcb & Hsw). cbn [mbind option_bind]. intros H.
    destruct (Hrest r1 s1 Hcb) as [H1 H2]; [destruct Hsw as [|[_ ?]]; auto|done|]. split; [done|].
    intros Hr. destruct (H2 Hr) as [H3 Hdb]. split; [done|]. split; [done|]. rewrite Hdb.
    destruct Hsw as [Hneg|[? _]]; [|done]. exfalso. revert H. unfold rest. cbn [fst].
    rewrite (proj2 (Z.ltb_lt _ _) Hneg). intros [= <- <-]. lia.
Qed.

(** The database block is the first one of the file. *)
Definition first_block (data b : bytes) : Prop :=
  exists blk, adb_block_first data = BlkOk 0 blk /\ adb_block_type blk = ADB_BLOCK_ADB /\ adb_block_blob 0 blk data = Some b.

Lemma parse_loop_inv data :
  bytes_ok data -> forall fuel cur r s,
  parse_inv s -> (forall pos blk, cur = BlkOk pos blk -> 0 <= adb_block_type blk) ->
  match adb_adb (p_db s) with None => cur = adb_block_first data | Some b => first_block data b end ->
  forall r' e s', parse_loop (logged cb) t fuel cur r s data = Done r' e s' ->
  log_ok t ectx schema (p_cb s').2 /\
  (0 <= r' -> parse_inv s' /\ match adb_adb (p_db s') with None => True | Some b => first_block data b end).
Proof.
  intros Hd. induction fuel as [|fuel IH]; intros cur r s Hinv Hty Hfirst r' e s'; cbn [parse_loop]; [done|].
  assert (Hend : log_ok t ectx schema (p_cb s).2 /\
    (0 <= r -> parse_inv s /\ match adb_adb (p_db s) with None => True | Some b => first_block data b end)).
  { split; [apply Hinv|]. intros _. split; [done|]. by destruct (adb_adb (p_db s)). }
  destruct cur as [|er|pos blk|]; [intros [= <- <- <-]; exact Hend..| |done].
  destruct (adb_block_blob pos blk data) as [b|] eqn:Eb; cbn [mbind option_bind]; [|done].
  destruct (parse_block (logged cb) t s blk b) as [[r1 s1]|] eqn:Ep; [|done].
  destruct (parse_block_inv s blk b r1 s1 Hinv (Hty _ _ eq_refl) Ep) as [Hlog Hr].
  destruct (Z.ltb_spec r1 0) as [Hneg|Hpos]; [intros [= <- <- <-]; split; [done|lia]|].
  destruct (Hr Hpos) as [Hinv1 Hdb]. apply IH; [done| |].
  - intros pos' blk' En. unfold adb_block_next in En. apply adb_block_validate_ok in En as (_ & -> & _).
    destruct (block_at_range (zdrop (pos + adb_block_size blk) data)) as [_ Hts]; [by apply Forall_drop|].
    unfold adb_block_type. case_test; [rewrite land_3fffffff; apply Z.mod_pos_bound; lia|].
    apply Z.shiftr_nonneg. lia.
  - destruct (adb_adb (p_db s)) as [d|]; [by rewrite Hdb|]. destruct Hdb as [Hadb ->].
    exists blk. assert (Hp : pos = 0) by (symmetry in Hfirst; by apply adb_block_validate_ok in Hfirst as [-> _]).
    subst pos. done.
Qed.

End Sound.
Lemma block_type_first data pos blk : bytes_ok data -> adb_block_first data = BlkOk pos blk -> 0 <= adb_block_type blk.
Proof.
  intros Hd E. apply adb_block_validate_ok in E as (_ & -> & _).
  destruct (block_at_range (zdrop 0 data)) as [_ Hts]; [by apply Forall_drop|].
  unfold adb_block_type. case_test; [rewrite land_3fffffff; apply Z.mod_pos_bound; lia|]. apply Z.shiftr_nonneg. lia.
Qed.

Lemma parse_sound {S} (cb : adb -> adb_block -> bytes -> S -> Z * S) t db data ectx c r s :
  bytes_ok data -> adb_adb db = None -> __adb_m_parse (logged cb) t db data ectx (c, []) = Some (r, s) ->
  log_ok t ectx (adb_schema db) (p_cb s).2 /\
  (r = 0 -> exists b, adb_adb (p_db s) = Some b /\ first_block data b /\
     authenticated t ectx (adb_schema db) (p_cb s).2 b) /\
  (r <> 0 -> adb_adb (p_db s) = None).
Proof.
  intros Hd Hdb. unfold __adb_m_parse.
  destruct (parse_loop _ _ _ _ _ _ _) as [r1 e1 s1| |] eqn:E; [|done..].
  edestruct (parse_loop_inv cb t ectx (adb_schema db) data Hd) as [Hlog Hr]; [..|exact E|].
  { unfold parse_inv; cbn [parse_init p_db p_cb snd]. by rewrite Hdb. }
  { intros pos blk. by apply block_type_first. }
  { cbn [parse_init p_db]. by rewrite Hdb. }
  intros H. apply (inj Some) in H. revert H. unfold parse_end.
  set (r0 := if 0 <? r1 then - APKE_ADB_BLOCK else r1).
  assert (Hr0 : r0 = 0 -> r1 = 0).
  { unfold r0. destruct (0 <? r1); [|done]. intros H. exfalso. by vm_compute in H. }
  destruct (Z.eqb_spec r0 0) as [Hz|Hz].
  2: { destruct (Z.eqb_spec r0 0); [done|]. cbn [negb]. intros [= <- <-]. split; [done|]. split; [done|]. done. }
  destruct (Hr ltac:(rewrite Hr0; [lia|done])) as [(Hs & _ & Hi) Hf].
  destruct (Z.eqb_spec e1 0) as [He|He]; cbn [negb].
  2: { destruct (Z.eqb_spec e1 0); [done|]. cbn [negb]. intros [= <- <-]. split; [done|]. by split. }
  destruct (p_trusted s1) eqn:Et; cbn [negb].
  2: { change (- APKE_SIGNATURE_UNTRUSTED =? 0) with false. cbn [negb]. intros [= <- <-]. split; [done|]. by split. }
  destruct (adb_adb (p_db s1)) as [b|] eqn:Eb.
  2: { change (- APKE_ADB_BLOCK =? 0) with false. cbn [negb]. intros [= <- <-]. split; [done|]. by split. }
  rewrite Hz. cbn [negb Z.eqb]. intros [= <- <-]. split; [done|]. split; [|done]. intros _.
  exists b. split; [done|]. split; [done|]. destruct Hi as (_ & _ & Ha). auto.
Qed.

(** ** Totality *)

Lemma verify_signature_total t db vfy sigb : is_Some (adb_trust_verify_signature (Some t) db vfy sigb).
Proof.
  unfold adb_trust_verify_signature, sizeof_adb_sign_hdr, sizeof_adb_sign_v0. destruct (adb_adb db); [|eauto].
  destruct (Z.ltb_spec (zlen sigb) 2); [eauto|]. rewrite load_byte by lia. cbn [mbind option_bind].
  case_test; [eauto|]. destruct (Z.ltb_spec (zlen sigb) 18); [eauto|]. rewrite fetch_some by lia. cbn [option_bind]. eauto.
Qed.

Lemma parse_block_total {S} (cb : adb -> adb_block -> bytes -> S -> Z * S) t s blk b :
  is_Some (parse_block cb (Some t) s blk b).
Proof.
  unfold parse_block. destruct (_ || _); [eauto|].
  assert (Hsw : is_Some (parse_switch (Some t) s (adb_block_type blk) b)).
  { unfold parse_switch, sizeof_adb_hdr. destruct (verify_signature_total t (p_db s) (p_vfy s) b) as [[r v] ->].
    case_test; [|repeat first [progress cbn [mbind option_bind] | case_match]; eauto].
    destruct (Z.ltb_spec (zlen b) 8); [eauto|]. rewrite load_byte by lia. cbn [mbind option_bind].
    case_test; [eauto|]. destruct (__adb_handle_identity _ _ _) as [[r1 e1] v1]. eauto. }
  destruct Hsw as [[r s'] ->]. cbn [mbind option_bind]. case_test; [eauto|]. destruct (cb _ _ _ _). eauto.
Qed.

Lemma parse_loop_total {S} (cb : adb -> adb_block -> bytes -> S -> Z * S) t data :
  bytes_ok data ->
  (forall pos b, 0 <= pos -> adb_block_validate pos data = BlkOk pos b -> no_overflow b) ->
  forall fuel pos r s, 0 <= pos <= zlen data -> zlen data - pos < Z.of_nat fuel - 1 ->
  exists r' e s', parse_loop cb (Some t) fuel (adb_block_validate pos data) r s data = Done r' e s'.
Proof.
  intros Hd Hall fuel. induction fuel as [|fuel IH]; intros pos r s Hpos Hf; [lia|].
  cbn [parse_loop]. destruct (adb_block_validate pos data) as [|e|p b|] eqn:E;
    [eauto|eauto| |by apply adb_block_validate_safe in E; [|lia]].
  assert (p = pos) as -> by (by apply adb_block_validate_ok in E as [-> _]).
  destruct (block_in_bounds pos data pos b Hd ltac:(lia) E (Hall pos b ltac:(lia) E))
    as (_ & Hs & _ & Hb & payload & Hp & _).
  rewrite Hp. cbn [mbind option_bind].
  destruct (parse_block_total cb t s b payload) as [[r1 s1] ->]. case_test; [eauto|].
  unfold adb_block_next. apply IH; lia.
Qed.

(** ** Signed files *)

Definition parse_typed (t : option (apk_trust pkey)) (s : pstate unit) (type : Z) (b : bytes) : option (Z * pstate unit) :=
  if (ADB_BLOCK_MAX <=? type) || (BIT type .& p_allowed s =? 0) then Some (- APKE_ADB_BLOCK, s)
  else '(r, s) ← parse_switch t s type b; Some (if r <? 0 then r else 0, s).

Lemma parse_block_typed t s blk b :
  parse_block __adb_dummy_cb t s blk b = parse_typed t s (adb_block_type blk) b.
Proof.
  unfold parse_block, parse_typed. destruct (_ || _); [done|].
  destruct (parse_switch _ _ _ _) as [[r s']|]; cbn; [|done]. case_test; [done|]. by destruct s' as [? ? ? ? ? []].
Qed.

Fixpoint parse_list (t : option (apk_trust pkey)) (l : list (Z * bytes)) (r : Z) (s : pstate unit) : outcome unit :=
  match l with
  | [] => Done r 0 s
  | (type, b) :: l =>
      match parse_typed t s type b with
      | None => Fault
      | Some (r, s) => if r <? 0 then Done r 0 s else parse_list t l r s
      end
  end.

Lemma parse_loop_written t l :
  Forall writable l -> forall pre fuel r s, (length l < fuel)%nat ->
  parse_loop __adb_dummy_cb t fuel (adb_block_validate (zlen pre) (adb_c_blocks pre l)) r s (adb_c_blocks pre l)
  = parse_list t l r s.
Proof.
  induction 1 as [|[ty v] l Hw Hl IH]; intros pre fuel r s Hf; destruct fuel as [|fuel]; try (cbn in Hf; lia).
  - cbn. unfold adb_block_validate. by rewrite Z.eqb_refl.
  - rewrite adb_c_blocks_eq.
    change (mjoin (map block_bytes ((ty, v) :: l))) with (block_bytes (ty, v) ++ mjoin (map block_bytes l)).
    destruct (written_block pre ty v (mjoin (map block_bytes l)) Hw) as (b & Hv & Ht & Hb & Hs).
    cbn [parse_loop parse_list]. rewrite Hv, Hb. cbn [mbind option_bind]. rewrite parse_block_typed, Ht.
    destruct (parse_typed t s ty v) as [[r1 s1]|]; [|done]. case_test; [done|].
    unfold adb_block_next. rewrite Hs, <- zlen_app, app_assoc, <- adb_c_blocks_eq. apply IH. cbn in Hf. lia.
Qed.

(** A run of signature blocks leaves the database alone, and makes it trusted as soon as one
    of them checks. *)
Lemma parse_sigs t sigs b : forall s,
  adb_adb (p_db s) = Some b -> vfy_ok (p_vfy s) (Some b) -> p_allowed s = (BIT ADB_BLOCK_SIG .| BIT ADB_BLOCK_DATA) ->
  exists s', parse_list (Some t) (map (pair ADB_BLOCK_SIG) sigs) 0 s = Done 0 0 s' /\ p_db s' = p_db s /\
    (p_trusted s = true \/
     (exists sg k md, sg ∈ sigs /\ sizeof_adb_sign_v0 <= zlen sg /\ znth 0 sg 0 = 0 /\ k ∈ trusted_key_list t /\
        memcmp (ztake 16 (zdrop 2 sg)) (key_id (tk_key k)) = 0 /\ digest_of (znth 0 sg 1) b = Some md /\
        key_check (tk_key k) (adb_schema (p_db s)) sg md = true) ->
     p_trusted s' = true).
Proof.
  induction sigs as [|sg sigs IH]; intros s Hb Hv Ha.
  { exists s. split; [done|]. split; [done|]. intros [H|(sg & _ & _ & H & _)]; [done|]. by apply elem_of_nil in H. }
  cbn [map parse_list]. unfold parse_typed. rewrite Ha.
  change ((ADB_BLOCK_MAX <=? ADB_BLOCK_SIG) || _) with false. cbv iota.
  unfold parse_switch. change (ADB_BLOCK_SIG =? ADB_BLOCK_ADB) with false.
  change (ADB_BLOCK_SIG =? ADB_BLOCK_SIG) with true. cbv iota. destruct (p_trusted s) eqn:Et.
  { cbn [mbind option_bind]. destruct (IH s Hb Hv Ha) as (s' & H1 & H2 & H3). exists s'. cbn [Z.ltb Z.compare].
    split; [done|]. split; [done|]. intros _. apply H3. by left. }
  pose proof (verify_signature_spec (Some t) (p_db s) (p_vfy s) sg b Hb Hv) as Hsp.
  destruct (adb_trust_verify_signature (Some t) (p_db s) (p_vfy s) sg) as [[r v]|]; [|done].
  destruct Hsp as [Hv' Hr]. cbn [mbind option_bind].
  set (s1 := if r =? 0 then set_trusted (set_vfy s v) else set_vfy s v).
  assert (Hs1 : p_db s1 = p_db s /\ p_vfy s1 = v /\ p_allowed s1 = p_allowed s) by (unfold s1; by case_test).
  destruct Hs1 as (Hd1 & Hv1 & Ha1).
  destruct (IH s1) as (s' & H1 & H2 & H3); [by rewrite Hd1|by rewrite Hv1|by rewrite Ha1|].
  exists s'. cbn [Z.ltb Z.compare]. split; [done|]. split; [by rewrite H2|].
  intros [Hx|(sg' & k & md & Hin & H18 & H0 & Hk & Hm & Hdig & Hc)]; [done|]. apply H3.
  apply elem_of_cons in Hin as [->|Hin].
  - left. unfold s1. assert (r = 0) as ->; [|done]. apply Hr. split; [done|]. split; [done|]. exists t, k, md. auto.
  - right. rewrite Hd1. exists sg', k, md. auto 8.
Qed.

(** A private key and the trusted key that checks its signatures: the library never fails on
    them, and verifies what it signed. *)
Record key_pair (k k' : apk_pkey pkey) : Prop := {
  kp_id : key_id k = key_id k';
  kp_id_len : zlen (key_id k) = 16;
  kp_init : EVP_DigestVerifyInit APK_DIGEST_SHA512 (key_priv k') = true;
  kp_update : forall a b, EVP_DigestUpdate a b = true;
  kp_verify : forall m n s, EVP_DigestSignFinal APK_DIGEST_SHA512 (key_priv k) m n = Some s ->
    EVP_DigestVerifyFinal APK_DIGEST_SHA512 (key_priv k') m s = true
}.

(** The signing function respects the length it was given. *)
Definition sign_len_ok : Prop :=
  forall a k m n s, EVP_DigestSignFinal a k m n = Some s -> zlen s <= n.

Lemma sign_key_shape k schema md sg :
  sign_key k schema md = inr sg ->
  exists sig, sg = [0; APK_DIGEST_SHA512] ++ key_id (tk_key k) ++ sig /\
    EVP_DigestSignFinal APK_DIGEST_SHA512 (key_priv (tk_key k))
      (le_bytes 4 schema ++ ([0; APK_DIGEST_SHA512] ++ key_id (tk_key k)) ++ md)
      (ADB_MAX_SIGNATURE_LEN - sizeof_adb_sign_v0) = Some sig.
Proof.
  unfold sign_key, apk_sign_start. case_test; cbn [mbind option_bind]; [|done].
  destruct (adb_digest_v0_signature _ _ _ _) as [c|] eqn:Es; [|done].
  apply v0_signature_spec in Es as (Ea & Ek & Ed). unfold apk_sign. rewrite Ea, Ek, Ed. cbn [dc_alg dc_key dc_data app].
  destruct (EVP_DigestSignFinal _ _ _ _) as [sig|] eqn:E'; [|done]. intros [= <-]. exists sig. by rewrite <- E'.
Qed.

(** What a private key signs, the trusted key of the pair checks. *)
Lemma sign_key_checked k k' schema md sg :
  key_pair (tk_key k) (tk_key k') -> sign_key k schema md = inr sg ->
  sizeof_adb_sign_v0 <= zlen sg /\ znth 0 sg 0 = 0 /\ znth 0 sg 1 = APK_DIGEST_SHA512 /\
  memcmp (ztake 16 (zdrop 2 sg)) (key_id (tk_key k')) = 0 /\ key_check (tk_key k') schema sg md = true.
Proof.
  intros Hp Hs. destruct (sign_key_shape _ _ _ _ Hs) as (sig & -> & Hsig).
  pose proof (kp_id_len _ _ Hp) as Hl. set (id := key_id (tk_key k)) in *.
  assert (H18 : zlen ([0; APK_DIGEST_SHA512] ++ id) = sizeof_adb_sign_v0) by (rewrite zlen_app, Hl; done).
  split; [rewrite app_assoc, zlen_app, H18; pose proof (zlen_nonneg sig); lia|].
  split; [done|]. split; [done|]. split.
  - rewrite (zdrop_app_exact 2), (ztake_app_exact 16) by done. unfold id. rewrite (kp_id _ _ Hp). apply memcmp_refl.
  - unfold key_check, apk_verify_start. rewrite (kp_init _ _ Hp). cbn [mbind option_bind].
    rewrite app_assoc, (ztake_app_exact sizeof_adb_sign_v0), (zdrop_app_exact sizeof_adb_sign_v0) by done.
    unfold adb_digest_v0_signature, apk_digest_ctx_update.
    repeat (rewrite (kp_update _ _ Hp); cbn [mbind option_bind dc_alg dc_key dc_data]).
    unfold apk_verify. cbn [dc_alg dc_key dc_data].
    assert (Hm : forall m, m = le_bytes 4 schema ++ ([0; APK_DIGEST_SHA512] ++ id) ++ md ->
      EVP_DigestVerifyFinal APK_DIGEST_SHA512 (key_priv (tk_key k')) m sig = true).
    { intros m ->. by apply (kp_verify _ _ Hp _ _ _ Hsig). }
    rewrite Hm; [done|]. by rewrite app_nil_l, <- app_assoc.
Qed.

Lemma sign_key_err k schema md r : sign_key k schema md = inl r -> r <> 0.
Proof.
  unfold sign_key. destruct (apk_sign_start _ _ ≫= _); [destruct (apk_sign _ _); [done|]|];
    intros [= <-]; vm_compute; discriminate.
Qed.

Lemma write_signatures_ok schema md keys : forall os os' r,
  os_rc os = 0 -> write_signatures keys schema md os = (r, os') -> os_rc os' = 0 ->
  exists sigs, Forall2 (fun k sg => sign_key k schema md = inr sg) keys sigs /\
    os_data os' = adb_c_blocks (os_data os) (map (pair ADB_BLOCK_SIG) sigs).
Proof.
  induction keys as [|k keys IH]; intros os os' r H0; cbn [write_signatures].
  { intros [= <- <-] _. exists []. split; [constructor|done]. }
  destruct (sign_key k schema md) as [e|sg] eqn:Es.
  - intros [= <- <-]. cbn. rewrite H0. cbn. intros H. by apply sign_key_err in Es.
  - intros Hw H'. destruct (IH (os_block os ADB_BLOCK_SIG sg) os' r H0 Hw H') as (sigs & Hf & Hd).
    exists (sg :: sigs). split; [by constructor|]. done.
Qed.

(** A file as adb_c_adb writes it is a header and written blocks. *)
Lemma adb_c_adb_shape t b schema os os' md :
  adb_c_adb os (Adb (Some b) schema) t = (0, os') -> os_data os = [] -> os_rc os = 0 -> 
  EVP_Digest APK_DIGEST_SHA512 b = Some md ->
  exists sigs, Forall2 (fun k sg => sign_key k schema md = inr sg) (private_key_list t) sigs /\
    os_data os' = adb_c_header [] schema ++ adb_c_blocks [] ((ADB_BLOCK_ADB, b) :: map (pair ADB_BLOCK_SIG) sigs).
Proof.
  intros H Hd0 Hrc Hmd. unfold adb_c_adb in H. cbn [adb_schema adb_adb default] in H.
  destruct (schema =? 0); [done|]. unfold adb_trust_write_signatures in H. cbn [adb_schema adb_adb] in H.
  pose proof (adb_digest_adb_spec vfy_zero APK_DIGEST_SHA512 b (vfy_zero_ok _)) as Hsp.
  destruct (adb_digest_adb vfy_zero APK_DIGEST_SHA512 (Some b)) as [[r v] md']. destruct Hsp as (_ & _ & Hsp).
  unfold digest_of in Hsp. cbn -[EVP_Digest ztake] in Hsp. change (Z.pos 4) with APK_DIGEST_SHA512 in Hsp.
  rewrite Hmd in Hsp. cbn [fmap option_fmap option_map] in Hsp. destruct Hsp as [-> ->]. cbn [negb Z.eqb] in H.
  assert (Hz : ztake 64 md = md).
  { apply take_ge. pose proof (EVP_Digest_len _ _ _ Hmd) as Hl. change (apk_digest_alg_len APK_DIGEST_SHA512) with 64 in Hl.
    unfold zlen in Hl. lia. }
  change (ztake APK_DIGEST_LENGTH_SHA512 md) with (ztake 64 md) in H. rewrite Hz in H.
  destruct (write_signatures _ _ _ _) as [r' os1] eqn:Ew. injection H as Hrc1 <-.
  pose proof (write_signatures_ok schema md (private_key_list t)) as Hws.
  destruct (Hws (os_block (Os (adb_c_header (os_data os) schema) (os_rc os)) ADB_BLOCK_ADB b) os1 r') as (sigs & Hf & Hd);
    [exact Hrc|exact Ew|exact Hrc1|].
  exists sigs. split; [done|]. rewrite Hd. cbn [os_block os_data]. rewrite Hd0.
  rewrite !adb_c_blocks_eq. rewrite adb_c_block_bytes. cbn [map mjoin list_join app]. by rewrite <- app_assoc.
Qed.

Lemma sigs_writable schema md keys sigs :
  sign_len_ok -> Forall (fun k => zlen (key_id (tk_key k)) = 16) keys ->
  Forall2 (fun k sg => sign_key k schema md = inr sg) keys sigs -> Forall writable (map (pair ADB_BLOCK_SIG) sigs).
Proof.
  intros Hn Hk. induction 1 as [|k sg keys sigs Hs Hf IH]; cbn [map]; [constructor|].
  apply Forall_cons_1 in Hk as [Hid Hk]. constructor; [|auto]. split; [done|]. cbn [snd].
  destruct (sign_key_shape _ _ _ _ Hs) as (sig & -> & Hsig). apply Hn in Hsig.
  rewrite !zlen_app, Hid. change (zlen [0; APK_DIGEST_SHA512]) with 2.
  unfold ADB_MAX_SIGNATURE_LEN, sizeof_adb_sign_v0 in Hsig. lia.
Qed.

(** Parsing the blocks of a signed file. *)
Lemma parse_signed t' k k' schema md b keys sigs :
  Forall2 (fun k sg => sign_key k schema md = inr sg) keys sigs -> k ∈ keys -> k' ∈ trusted_key_list t' ->
  key_pair (tk_key k) (tk_key k') -> EVP_Digest APK_DIGEST_SHA512 b = Some md ->
  sizeof_adb_hdr <= zlen b -> znth 0 b 0 = 0 ->
  exists s, parse_list (Some t') ((ADB_BLOCK_ADB, b) :: map (pair ADB_BLOCK_SIG) sigs) 0
              (parse_init (Some t') (Adb None schema) None tt) = Done 0 0 s /\
    p_db s = Adb (Some b) schema /\ p_trusted s = true.
Proof.
  intros Hf Hk Hk' Hp Hmd Hlen Hver. cbn [parse_list].
  assert (Ht : parse_typed (Some t') (parse_init (Some t') (Adb None schema) None tt) ADB_BLOCK_ADB b =
    Some (0, PS (Adb (Some b) schema) None vfy_zero (allow_untrusted t') (BIT ADB_BLOCK_SIG .| BIT ADB_BLOCK_DATA) tt)).
  { unfold parse_typed. cbn [parse_init p_allowed].
    change ((ADB_BLOCK_MAX <=? ADB_BLOCK_ADB) || _) with false. cbv iota. unfold parse_switch.
    change (ADB_BLOCK_ADB =? ADB_BLOCK_ADB) with true. cbv iota.
    rewrite (proj2 (Z.ltb_ge _ _) Hlen), load_byte, Hver by (unfold sizeof_adb_hdr in Hlen; lia). done. }
  rewrite Ht. change (0 <? 0) with false. cbv iota. set (s0 := PS (Adb (Some b) schema) _ _ _ _ _).
  destruct (parse_sigs t' sigs b s0) as (s & Hr & Hdb & Htr); [done|apply vfy_zero_ok|done|].
  exists s. split; [done|]. split; [done|]. apply Htr. right.
  apply list_elem_of_lookup in Hk as [i Hi].
  destruct (Forall2_lookup_l _ _ _ _ _ Hf Hi) as (sg & Hsg & Hs).
  destruct (sign_key_checked k k' schema md sg Hp Hs) as (H18 & H0 & H1 & Hm & Hc).
  exists sg, k', md. split; [by eapply list_elem_of_lookup_2|]. rewrite H1.
  repeat (split; [done|]). split; [|done]. unfold digest_of. cbn -[EVP_Digest ztake].
  change (Z.pos 4) with APK_DIGEST_SHA512. rewrite Hmd. cbn [fmap option_fmap option_map]. f_equal.
  apply take_ge. pose proof (EVP_Digest_len _ _ _ Hmd) as Hl. change (apk_digest_alg_len APK_DIGEST_SHA512) with 64 in Hl.
  change APK_DIGEST_LENGTH_SHA512 with 64. unfold zlen in Hl. lia.
Qed.

End Trust.

Arguments pstate S : clear implicits.
Arguments outcome S : clear implicits.

(** C6: Parsing a mapped ADB file never trusts data that nothing vouches for: whatever the
    callback does, it is given data blocks only after the database block, which is the first
    block of the file, was authenticated (untrusted data was allowed, or the digest of the
    database is the identity asked for, or a signature block seen before verifies it, with the
    schema and the signature's own header, under a trusted key); success means the same for the
    database returned, and on failure no database is left. *)
Theorem adb_m_parse_authenticated {pkey} `{!Crypto pkey} {Hc : CryptoOk} {S}
    (cb : adb -> adb_block -> bytes -> S -> Z * S) t db data ectx c r s
    (Hd : bytes_ok data) (Hdb : adb_adb db = None)
    (Hrun : __adb_m_parse (logged cb) t db data ectx (c, []) = Some (r, s)) :
  log_ok t ectx (adb_schema db) (p_cb s).2 /\
  (r = 0 -> exists b, adb_adb (p_db s) = Some b /\ first_block data b /\
     authenticated t ectx (adb_schema db) (p_cb s).2 b) /\
  (r <> 0 -> adb_adb (p_db s) = None).
Proof. by apply (parse_sound cb t db data ectx c). Qed.

(** C17: A database written with adb_c_adb for a set of private keys is read back: mapping the
    file with a trust store that holds the public half of any one of them succeeds and yields
    the same database and schema, through file header, block enumeration, the digest cache and
    the signature checks of all the keys. *)
Theorem adb_signed_file_accepted {pkey} `{!Crypto pkey} {Hc : CryptoOk} (t t' : apk_trust pkey) k k' b schema md os
    (Hb : sizeof_adb_hdr <= zlen b < 2 ^ 62) (Hver : znth 0 b 0 = 0) (Hschema : 0 < schema < 2 ^ 31)
    (Hmd : EVP_Digest APK_DIGEST_SHA512 b = Some md)
    (Hsl : sign_len_ok) (Hids : Forall (fun k => zlen (key_id (tk_key k)) = 16) (private_key_list t))
    (Hk : k ∈ private_key_list t) (Hk' : k' ∈ trusted_key_list t') (Hpair : key_pair (tk_key k) (tk_key k'))
    (Hw : adb_c_adb (Os [] 0) (Adb (Some b) schema) t = (0, os)) :
  exists s, __adb_m_mmap __adb_dummy_cb (Some t') (Adb None 0) (os_data os) schema None tt = Some (0, s) /\
    p_db s = Adb (Some b) schema.
Proof.
  destruct (adb_c_adb_shape t b schema (Os [] 0) os md Hw eq_refl eq_refl Hmd) as (sigs & Hf & ->).
  destruct (parse_signed t' k k' schema md b _ sigs Hf Hk Hk' Hpair Hmd (proj1 Hb) Hver) as (s & Hp & Hdb & Htr).
  set (l := (ADB_BLOCK_ADB, b) :: map (pair ADB_BLOCK_SIG) sigs) in *.
  assert (Hwr : Forall writable l).
  { constructor; [split; [done|apply Hb]|]. by eapply sigs_writable. }
  exists s. split; [|done]. unfold __adb_m_mmap.
  assert (Hbit : schema .& ADB_SCHEMA_IMPLIED = 0) by (apply land_2p31; lia).
  rewrite Hbit. cbv iota. unfold adb_c_header. rewrite app_nil_l.
  rewrite !zlen_app, !zlen_le_bytes. rewrite (proj2 (Z.ltb_ge _ _)) by (pose proof (zlen_nonneg (adb_c_blocks [] l)); lia).
  rewrite <- !app_assoc, !load_some by (rewrite ?zdrop_app_exact, !zlen_app, !zlen_le_bytes by apply zlen_le_bytes; pose proof (zlen_nonneg (adb_c_blocks [] l)); lia).
  cbn [mbind option_bind]. rewrite (ztake_app_exact 4), le_val_bytes by apply zlen_le_bytes.
  change (wrap (8 * Z.of_nat 4) ADB_FORMAT_MAGIC =? ADB_FORMAT_MAGIC) with true. cbn [negb].
  rewrite (zdrop_app_exact 4), (ztake_app_exact 4), le_val_bytes by apply zlen_le_bytes.
  rewrite (wrap_small (8 * Z.of_nat 4)) by lia. rewrite (Z.eqb_refl schema). cbn [negb]. rewrite andb_false_r.
  rewrite app_assoc, (zdrop_app_exact 8) by (by rewrite zlen_app, !zlen_le_bytes).
  unfold __adb_m_parse. pose proof (parse_loop_written (Some t') l Hwr []) as Hpl.
  unfold adb_block_first. change 0 with (zlen ([] : bytes)) at 3. rewrite Hpl by (apply blocks_fuel; done).
  cbn [adb_adb]. rewrite Hp. unfold parse_end. rewrite Htr, Hdb. done.
Qed.

Lemma parse_returns {pkey} `{!Crypto pkey} {S} (cb : adb -> adb_block -> bytes -> S -> Z * S) t db data ectx c :
  bytes_ok data -> ~ overflowing_block data -> is_Some (__adb_m_parse cb (Some t) db data ectx c).
Proof.
  intros Hd Hn. pose proof (not_overflowing data Hn) as Hall.
  unfold __adb_m_parse, adb_block_first.
  destruct (parse_loop_total cb t data Hd Hall (2 + length data) 0 0 (parse_init (Some t) db ectx c)) as (r & e & s & ->);
    [unfold zlen; lia|unfold zlen; lia|eauto].
Qed.

(** The blocks of a mapped file: all of it when the schema is implied, and what follows the file
    header otherwise. *)
Definition mapped_blocks (schema : Z) (mmap : bytes) : bytes :=
  if schema .& ADB_SCHEMA_IMPLIED =? 0 then zdrop 8 mmap else mmap.

(** C40: Parsing a mapped file against a trust store ends with a result, whatever the bytes of the
    file and whatever the callback does, unless a block's rounded size overflows (which
    adb_block_size_overflow shows to go wrong).  The file header, the headers of the blocks, the
    payloads, the version of the database and the headers of the signatures are read with reads
    that fail when they reach behind the end of the file or block, so that a result also says that
    each of them was made inside of it: every length guard in the code is one of those that
    establish it. *)
Theorem adb_m_parse_total {pkey} `{!Crypto pkey} {S} (cb : adb -> adb_block -> bytes -> S -> Z * S) t db mmap schema ectx c
    (Hd : bytes_ok mmap) (Hn : ~ overflowing_block (mapped_blocks schema mmap)) :
  is_Some (__adb_m_mmap cb (Some t) db mmap schema ectx c).
Proof.
  unfold __adb_m_mmap, mapped_blocks in *. destruct (_ =? 0).
  - destruct (Z.ltb_spec (zlen mmap) 8); [eauto|]. rewrite !load_some by (rewrite ?zlen_zdrop; lia). cbn [mbind option_bind].
    destruct (negb _); [eauto|]. destruct (_ && _); [eauto|].
    edestruct (parse_returns cb t) as [[r s] ->]; [by apply Forall_drop|done|]. cbn [mbind option_bind]. eauto.
  - edestruct (parse_returns cb t) as [[r s] ->]; [done..|]. cbn [mbind option_bind]. eauto.
Qed.

Lemma no_store_no_key {pkey} `{!Crypto pkey} db vfy b :
  match adb_trust_verify_signature (pkey := pkey) None db vfy b with Some (r, _) => r <> 0 | None => True end.
Proof.
  unfold adb_trust_verify_signature. destruct (adb_adb db); [|done]. destruct (_ <? _); [done|].
  destruct (load 1 b); cbn [mbind option_bind]; [|done]. by repeat case_test.
Qed.

Lemma never_trusted {pkey} `{!Crypto pkey} (s s' : pstate unit) type b r :
  parse_switch None s type b = Some (r, s') -> p_ectx s = None -> p_trusted s = false ->
  p_ectx s' = None /\ p_trusted s' = false.
Proof.
  unfold parse_switch. intros H He Ht. rewrite Ht in H. cbn [set_allowed p_trusted p_ectx set_db] in H.
  rewrite He, Ht in H. cbn [__adb_handle_identity negb] in H.
  pose proof (no_store_no_key (p_db s) (p_vfy s) b) as Hv.
  destruct (adb_trust_verify_signature None (p_db s) (p_vfy s) b) as [[r' v]|], (load 1 b) as [ver|];
    cbn [mbind option_bind] in H; repeat case_match; simplify_eq; cbn; try done.
  all: by destruct (Z.eqb_spec r' 0).
Qed.

(** Without a trust store nothing is ever accepted: adb_m_blob, as the comparison of
    nested databases calls it, leaves an empty database for every input. *)
Theorem adb_m_blob_without_store {pkey} `{!Crypto pkey} blob r (s : pstate unit)
    (H : adb_m_blob (pkey := pkey) blob None = Some (r, s)) :
  r <> 0 /\ adb_adb (p_db s) = None.
Proof.
  revert H. unfold adb_m_blob, __adb_m_parse.
  assert (Hloop : forall fuel cur r0 s0, p_ectx s0 = None -> p_trusted s0 = false ->
    match parse_loop (pkey := pkey) __adb_dummy_cb None fuel cur r0 s0 blob with
    | Done _ _ s1 => p_trusted s1 = false | _ => True end).
  { induction fuel as [|fuel IH]; intros cur r0 s0 He Ht; [done|]. cbn [parse_loop].
    destruct cur as [| |pos blk|]; [done..| |done]. destruct (adb_block_blob pos blk blob) as [b|]; cbn [mbind option_bind]; [|done].
    rewrite parse_block_typed. unfold parse_typed. destruct (_ || _); [done|].
    destruct (parse_switch None s0 (adb_block_type blk) b) as [[r1 s1]|] eqn:Ep; cbn [mbind option_bind]; [|done].
    destruct (never_trusted s0 s1 _ b r1 Ep He Ht) as [He1 Ht1]. destruct (_ <? 0); [done|]. by apply IH. }
  specialize (Hloop (2 + length blob)%nat (adb_block_first blob) 0 (parse_init (pkey := pkey) None (Adb None 0) None tt) eq_refl eq_refl).
  destruct (parse_loop _ _ _ _ _ _ _) as [r1 e1 s1| |]; [|done..]. intros H. apply (inj Some) in H. revert H.
  unfold parse_end. rewrite Hloop. cbn [negb].
  set (r0 := if 0 <? r1 then _ else r1). set (r2 := if r0 =? 0 then _ else r0).
  assert (Hr2 : r2 <> 0).
  { unfold r2. destruct (Z.eqb_spec r0 0); [|done]. destruct (Z.eqb_spec e1 0); cbn [negb]; [vm_compute; discriminate|done]. }
  rewrite (proj2 (Z.eqb_neq _ _) Hr2). cbn [negb]. intros [= <- <-]. done.
Qed.

(** ** A toy library, for concrete runs *)

(** Digests are a repeated checksum; a signature is the key and the checksum of the message. *)
Definition toy_sum (l : bytes) : Z := foldr Z.add 0 l mod 256.

#[local] Instance toy_crypto : Crypto Z := {
  EVP_Digest alg data := Some (replicate (Z.to_nat (apk_digest_alg_len alg)) (toy_sum data));
  EVP_DigestVerifyInit _ _ := true;
  EVP_DigestVerifyFinal _ k m s := bool_decide (s = [k; toy_sum m]);
  EVP_DigestSignInit _ _ := true;
  EVP_DigestSignFinal _ k m n := if 2 <=? n then Some [k; toy_sum m] else None;
  EVP_DigestUpdate _ _ := true
}.

#[local] Instance toy_crypto_ok : CryptoOk (pkey := Z).
Proof.
  constructor. intros alg data md [= <-]. unfold zlen. rewrite length_replicate.
  assert (0 <= apk_digest_alg_len alg) by (unfold apk_digest_alg_len; repeat case_test; done). lia.
Qed.

Definition toy_key (n : Z) : apk_trust_key Z := TKey (Pkey (replicate 16 n) n) [].
Definition toy_trust : apk_trust Z := Trust [toy_key 9; toy_key 7] [toy_key 5; toy_key 7] false.
Definition toy_db : bytes := [0; 0; 0; 0; 1; 2; 3; 4; 5].
Definition toy_file : bytes := os_data (adb_c_adb (Os [] 0) (Adb (Some toy_db) 0x676b6370) toy_trust).2.
Definition toy_data : bytes := adb_c_block (zdrop 8 toy_file) ADB_BLOCK_DATA [1; 2; 3].

(** The database, the signatures of an unknown and of a trusted key, and a data block. *)
Lemma adb_m_parse_authenticated_witness :
  exists r s, __adb_m_parse (logged __adb_dummy_cb) (Some toy_trust) (Adb None 0x676b6370) toy_data None (tt, []) = Some (r, s) /\
  r = 0 /\ map ev_type (p_cb s).2 = [ADB_BLOCK_DATA; ADB_BLOCK_SIG; ADB_BLOCK_SIG; ADB_BLOCK_ADB] /\
  log_ok (Some toy_trust) None 0x676b6370 (p_cb s).2.
Proof.
  eexists _, _. split; [vm_compute; reflexivity|]. split; [reflexivity|]. split; [reflexivity|].
  refine (proj1 (adb_m_parse_authenticated __adb_dummy_cb (Some toy_trust) (Adb None 0x676b6370) toy_data None tt _ _ _ _ _)).
  - apply (bool_decide_unpack _). vm_compute. exact I.
  - reflexivity.
  - vm_compute. reflexivity.
Defined.

Lemma toy_key_pair n : key_pair (tk_key (toy_key n)) (tk_key (toy_key n)).
Proof.
  constructor; [done|done|done|done|]. intros m len s. cbn. case_test; [|done]. intros [= <-]. by rewrite bool_decide_eq_true_2.
Qed.

Lemma toy_sign_len : sign_len_ok (pkey := Z).
Proof. intros a k m n s. cbn. destruct (Z.leb_spec 2 n); [|done]. by intros [= <-]. Qed.

Lemma adb_signed_file_accepted_witness :
  exists s, __adb_m_mmap __adb_dummy_cb (Some toy_trust) (Adb None 0) toy_file 0x676b6370 None tt = Some (0, s) /\
    p_db s = Adb (Some toy_db) 0x676b6370.
Proof.
  apply (adb_signed_file_accepted toy_trust toy_trust (toy_key 7) (toy_key 7) toy_db 0x676b6370
           (replicate 64 (toy_sum toy_db)) (adb_c_adb (Os [] 0) (Adb (Some toy_db) 0x676b6370) toy_trust).2).
  - apply (bool_decide_unpack _). vm_compute. exact I.
  - reflexivity.
  - lia.
  - reflexivity.
  - exact toy_sign_len.
  - repeat constructor.
  - right. left.
  - right. left.
  - exact (toy_key_pair 7).
  - vm_compute. reflexivity.
Defined.

Lemma adb_m_parse_total_witness :
  is_Some (__adb_m_mmap __adb_dummy_cb (Some toy_trust) (Adb None 1) (adb_c_header [] 1 ++ small_file) 1 None tt).
Proof.
  apply (adb_m_parse_total __adb_dummy_cb toy_trust (Adb None 1) (adb_c_header [] 1 ++ small_file) 1 None tt).
  - apply (bool_decide_unpack _). vm_compute. exact I.
  - exact small_file_no_overflow.
Defined.

Lemma adb_m_blob_without_store_witness :
  exists r s, adb_m_blob (pkey := Z) (adb_c_block [] ADB_BLOCK_ADB toy_db) None = Some (r, s) /\
    r <> 0 /\ adb_adb (p_db s) = None.
Proof.
  eexists _, _. split; [vm_compute; reflexivity|].
  apply (adb_m_blob_without_store (pkey := Z) (adb_c_block [] ADB_BLOCK_ADB toy_db)). vm_compute. reflexivity.
Defined.
