(* ===== verification/AdbData.v ===== *)
(** The values of an ADB (adb.c, adb.h): typed 32-bit references into the block of a
    database, the bounds-checked readers, and the writer that appends data and shares equal
    data through a hash table of what was written.

    A pointer into a database is the bytes that follow it.  [None] as the result of a writing
    operation is a failed assertion (adb_w_error asserts too), a write outside of the buffer, a
    read through a NULL pointer, or a loop that does not end.  The machine is little endian, so
    le32toh and the like are the identity; realloc is assumed to succeed. *)
From Stdlib Require Import ZArith Lia String.
From stdpp Require Import base numbers list option.
From S2P Require Import Prelude Clib Blob Balloc Dep AdbBlock.

(** ** Values *)

Definition ADB_TYPE_SPECIAL : Z := 0x00000000.
Definition ADB_TYPE_INT : Z := 0x10000000.
Definition ADB_TYPE_INT_32 : Z := 0x20000000.
Definition ADB_TYPE_INT_64 : Z := 0x30000000.
Definition ADB_TYPE_BLOB_8 : Z := 0x80000000.
Definition ADB_TYPE_BLOB_16 : Z := 0x90000000.
Definition ADB_TYPE_BLOB_32 : Z := 0xa0000000.
Definition ADB_TYPE_ARRAY : Z := 0xd0000000.
Definition ADB_TYPE_OBJECT : Z := 0xe0000000.
Definition ADB_TYPE_ERROR : Z := 0xf0000000.
Definition ADB_TYPE_MASK : Z := 0xf0000000.
Definition ADB_VALUE_MASK : Z := 0x0fffffff.

Definition ADB_VAL_TYPE (x : Z) : Z := x .& ADB_TYPE_MASK.
Definition ADB_VAL_VALUE (x : Z) : Z := x .& ADB_VALUE_MASK.
Definition ADB_VAL (type val : Z) : Z := u32 (type .| val).
Definition ADB_IS_ERROR (x : Z) : bool := ADB_VAL_TYPE x =? ADB_TYPE_ERROR.
Definition ADB_NULL : Z := 0.
Definition ADBI_NUM_ENTRIES : Z := 0.
Definition ADBI_FIRST : Z := 1.
Definition sizeof_hdr : Z := 8.

(** ** Reading *)

Definition adb_r_deref (db : bytes) (v offs s : Z) : option bytes :=
  let offs := offs + ADB_VAL_VALUE v in
  if zlen db <? offs + s then None else Some (zdrop offs db).

(** Each reader comes twice.  The ones ending in [_mem] are the code with its reads of memory as
    [load]: [None] is a read outside of the database.  Those reads never happen
    (adb_readers_in_bounds), and the readers without the suffix, which everything else uses, are
    the values the first ones come with. *)
Definition adb_r_root_mem (db : bytes) : option Z :=
  if zlen db <? sizeof_hdr then Some ADB_NULL else load 4 (zdrop 4 db).
Definition adb_r_root (db : bytes) : Z := default ADB_NULL (adb_r_root_mem db).

Definition adb_r_int_mem (db : bytes) (v : Z) : option Z :=
  let t := ADB_VAL_TYPE v in
  if t =? ADB_TYPE_INT then Some (ADB_VAL_VALUE v)
  else if t =? ADB_TYPE_INT_32 then
    match adb_r_deref db v 0 4 with Some ptr => load 4 ptr | None => Some 0 end
  else if t =? ADB_TYPE_INT_64 then
    match adb_r_deref db v 0 8 with Some ptr => load 8 ptr | None => Some 0 end
  else Some 0.
Definition adb_r_int (db : bytes) (v : Z) : Z := default 0 (adb_r_int_mem db v).

(** A blob as the pair of a pointer, [None] for NULL, and a length; APK_BLOB_NULL is [(None, 0)].
    The pointer of a blob stands for the bytes of the blob. *)
Definition ptr_len (ptr : option bytes) (len : Z) : option bytes * Z := (ztake len <$> ptr, len).

(** A blob whose length is kept in [n] bytes. *)
Definition adb_r_blob_n (n : Z) (db : bytes) (v : Z) : option (option bytes * Z) :=
  match adb_r_deref db v 0 n with
  | None => Some (None, 0)
  | Some blob => len ← load n blob; Some (ptr_len (adb_r_deref db v n len) len)
  end.

Definition adb_r_blob_mem (db : bytes) (v : Z) : option (option bytes * Z) :=
  let t := ADB_VAL_TYPE v in
  if t =? ADB_TYPE_BLOB_8 then adb_r_blob_n 1 db v
  else if t =? ADB_TYPE_BLOB_16 then adb_r_blob_n 2 db v
  else if t =? ADB_TYPE_BLOB_32 then adb_r_blob_n 4 db v
  else Some (None, 0).
Definition adb_r_blob (db : bytes) (v : Z) : option bytes * Z := default (None, 0) (adb_r_blob_mem db v).

(** An array of [n] 32-bit integers in memory. *)
Fixpoint words (n : nat) (p : bytes) : option (list Z) :=
  match n with
  | O => Some []
  | S n => x ← load 4 p; l ← words n (zdrop 4 p); Some (x :: l)
  end.

(** struct adb_obj: the cells ([None] for NULL), of which the first is the number of entries, or
    their capacity while the object is built; num; and dynamic. *)
Record adb_obj := Obj { o_obj : option (list Z); o_num : Z; o_dynamic : bool }.

Definition obj_null : adb_obj := Obj None 1 false.

(** The pointer to the cells of an object stands for all [num] of them. *)
Definition adb_r_obj_mem (db : bytes) (v : Z) : option adb_obj :=
  if negb (ADB_VAL_TYPE v =? ADB_TYPE_ARRAY) && negb (ADB_VAL_TYPE v =? ADB_TYPE_OBJECT) then Some obj_null
  else
    match adb_r_deref db v 0 4 with
    | None => Some obj_null
    | Some o =>
        num ← load 4 o;
        if num =? 0 then Some obj_null
        else match adb_r_deref db v 0 (4 * num) with
             | None => Some obj_null
             | Some o => cells ← words (Z.to_nat num) o; Some (Obj (Some cells) num false)
             end
    end.
Definition adb_r_obj (db : bytes) (v : Z) : adb_obj := default obj_null (adb_r_obj_mem db v).

(** [None] is a read through NULL: cell 0 of an object that could not be read. *)
Definition adb_ro_val (o : adb_obj) (i : Z) : option Z :=
  if o_num o <=? i then Some ADB_NULL
  else match o_obj o with Some cells => Some (znth 0 cells i) | None => None end.

Definition adb_ra_num (o : adb_obj) : Z := (if o_num o =? 0 then 1 else o_num o) - 1.

Definition adb_ro_int (db : bytes) (o : adb_obj) (i : Z) : option Z := adb_r_int db <$> adb_ro_val o i.
Definition adb_ro_blob (db : bytes) (o : adb_obj) (i : Z) : option (option bytes * Z) := adb_r_blob db <$> adb_ro_val o i.
Definition adb_ro_obj (db : bytes) (o : adb_obj) (i : Z) : option adb_obj := adb_r_obj db <$> adb_ro_val o i.

(** ** Writing data *)

(** struct adb_w_bucket_entry.  A bucket is a chain of nodes with 40 entries each; it is the
    list of the entries of all its nodes, where an entry that is not used has length 0. *)
Record adb_w_bucket_entry := Entry { e_hash : Z; e_offs : Z; e_len : Z }.
Definition BUCKET_ENTRIES : nat := 40.

(** struct adb, the fields of the writer. *)
Record wadb := Wadb {
  wa_data : bytes; wa_schema : Z; wa_num_buckets : Z; wa_alloc_len : Z; wa_no_cache : Z;
  wa_bucket : list (list adb_w_bucket_entry) }.

Definition set_wa_data (d : bytes) (db : wadb) : wadb :=
  Wadb d (wa_schema db) (wa_num_buckets db) (wa_alloc_len db) (wa_no_cache db) (wa_bucket db).
Definition set_wa_alloc_len (n : Z) (db : wadb) : wadb :=
  Wadb (wa_data db) (wa_schema db) (wa_num_buckets db) n (wa_no_cache db) (wa_bucket db).
Definition set_wa_no_cache (n : Z) (db : wadb) : wadb :=
  Wadb (wa_data db) (wa_schema db) (wa_num_buckets db) (wa_alloc_len db) n (wa_bucket db).
Definition set_wa_bucket (b : list (list adb_w_bucket_entry)) (db : wadb) : wadb :=
  Wadb (wa_data db) (wa_schema db) (wa_num_buckets db) (wa_alloc_len db) (wa_no_cache db) b.

(** The doubling of alloc_len, a 32-bit integer: once it has wrapped around it stays 0. *)
Fixpoint double_alloc (fuel : nat) (need alloc_len : Z) : option Z :=
  match fuel with
  | O => None
  | S fuel => if alloc_len <? need then double_alloc fuel need (u32 (alloc_len * 2)) else Some alloc_len
  end.

(** The zeroes in front of the data, and room for it. *)
Definition w_pad (db : wadb) (alignment : Z) : option wadb :=
  let i := u64 (ROUND_UP (zlen (wa_data db)) alignment - zlen (wa_data db)) in
  if i =? 0 then Some db
  else if zlen (wa_data db) + i <=? wa_alloc_len db
  then Some (set_wa_data (wa_data db ++ replicate (Z.to_nat i) 0) db)
  else None.

Definition w_reserve (db : wadb) (len : Z) : option wadb :=
  if wa_alloc_len db <? zlen (wa_data db) + len then
    if wa_num_buckets db =? 0 then None
    else
      n ← double_alloc 33 (zlen (wa_data db) + len) (if wa_alloc_len db =? 0 then 8192 else wa_alloc_len db);
      Some (set_wa_alloc_len n db)
  else Some db.

Definition adb_w_raw (db : wadb) (vec : list bytes) (len alignment : Z) : option (Z * wadb) :=
  db ← w_pad db alignment;
  db ← w_reserve db len;
  Some (zlen (wa_data db), set_wa_data (wa_data db ++ mjoin vec) db).

Definition adb_w_init_dynamic (schema num_buckets : Z) : option wadb :=
  r ← adb_w_raw (Wadb [] schema num_buckets 0 (bool_int (num_buckets =? 0)) (replicate (Z.to_nat num_buckets) []))
        [replicate 8 0] sizeof_hdr sizeof_hdr;
  Some r.2.

Definition adb_w_init_static (bufsz : Z) : wadb := Wadb [] 0 0 (u32 bufsz) 1 [].

(** [None] when the length would cover bytes that were never written. *)
Definition adb_reset (db : wadb) : option wadb :=
  if zlen (wa_data db) <? sizeof_hdr then None
  else Some (set_wa_data (ztake sizeof_hdr (wa_data db)) (set_wa_bucket (map (fun _ => []) (wa_bucket db)) db)).

Definition iovec_len (vec : list bytes) : Z := foldl (fun l v => u64 (l + zlen v)) 0 vec.

Definition iovec_hash (vec : list bytes) : Z := foldl (fun hash v => apk_blob_hash_seed v hash) 5381 vec.

Fixpoint iovec_memcmp (vec : list bytes) (b : bytes) : Z :=
  match vec with
  | [] => 0
  | v :: vec => if negb (memcmp (ztake (zlen v) b) v =? 0) then 1 else iovec_memcmp vec (zdrop (zlen v) b)
  end.

(** The search in a bucket: the offset of equal data, or the entry to use for the new data. *)
Inductive bucket_res := Found (offs : Z) | Add (i : nat).

Fixpoint search_bucket (data : bytes) (vec : list bytes) (hash len alignment : Z) (i : nat)
    (l : list adb_w_bucket_entry) : bucket_res :=
  match l with
  | [] => Add i
  | e :: l =>
      if e_len e =? 0 then Add i
      else if negb (e_hash e =? hash) then search_bucket data vec hash len alignment (S i) l
      else if (e_len e =? len) && (iovec_memcmp vec (zdrop (e_offs e) data) =? 0) then
        if negb (e_offs e .& (alignment - 1) =? 0) then Add i else Found (e_offs e)
      else search_bucket data vec hash len alignment (S i) l
  end.

(** Entry [i] of a bucket is set; after the last entry a new node is linked. *)
Definition set_entry (i : nat) (e : adb_w_bucket_entry) (l : list adb_w_bucket_entry) : list adb_w_bucket_entry :=
  <[i := e]> (if (i <? length l)%nat then l else l ++ replicate BUCKET_ENTRIES (Entry 0 0 0)).

Definition adb_w_data (db : wadb) (vec : list bytes) (alignment : Z) : option (Z * wadb) :=
  if negb (wa_no_cache db =? 0) then adb_w_raw db vec (iovec_len vec) alignment
  else
    let hash := iovec_hash vec in
    let len := iovec_len vec in
    let bucketno := Z.to_nat (hash mod wa_num_buckets db) in
    let bucket := nth bucketno (wa_bucket db) [] in
    match search_bucket (wa_data db) vec hash len alignment 0 bucket with
    | Found offs => Some (offs, db)
    | Add i =>
        r ← adb_w_raw db vec len alignment;
        let '(offs, db) := r in
        Some (u32 offs, set_wa_bucket (<[bucketno := set_entry i (Entry hash (u32 offs) (u32 len)) bucket]> (wa_bucket db)) db)
    end.

Definition adb_w_data1 (db : wadb) (ptr : option bytes) (alignment : Z) : option (Z * wadb) :=
  match ptr with
  | None => Some (ADB_NULL, db)
  | Some p => adb_w_data db [p] alignment
  end.

Definition adb_w_root (db : wadb) (root_val : Z) : option wadb :=
  if zlen (wa_data db) <? sizeof_hdr then None
  else Some (set_wa_data (ztake 4 (wa_data db) ++ le_bytes 4 root_val ++ zdrop 8 (wa_data db)) db).

(** ** Writing values *)

(** The result of the value writers: the value and the database. *)
Definition val_of (type : Z) (r : option (Z * wadb)) : option (Z * wadb) := prod_map (ADB_VAL type) id <$> r.

Definition adb_w_blob_vec (db : wadb) (b : list bytes) : option (Z * wadb) :=
  if (4 <? length b)%nat then None
  else
    let sz := iovec_len b in
    if 0xffff <? sz then val_of ADB_TYPE_BLOB_32 (adb_w_data db (le_bytes 4 sz :: b) 4)
    else if 0xff <? sz then val_of ADB_TYPE_BLOB_16 (adb_w_data db (le_bytes 2 sz :: b) 2)
    else if 0 <? sz then val_of ADB_TYPE_BLOB_8 (adb_w_data db (le_bytes 1 sz :: b) 1)
    else Some (ADB_NULL, db).

Definition adb_w_blob (db : wadb) (b : bytes) : option (Z * wadb) := adb_w_blob_vec db [b].

Definition adb_w_blob_raw (db : wadb) (b : bytes) : option (Z * wadb) :=
  r ← adb_w_blob (set_wa_no_cache (u8 (wa_no_cache db + 1)) db) b;
  let '(val, db) := r in
  Some (val, set_wa_no_cache (u8 (wa_no_cache db - 1)) db).

Definition adb_w_int (db : wadb) (val : Z) : option (Z * wadb) :=
  if 0x100000000 <=? val then val_of ADB_TYPE_INT_64 (adb_w_data1 db (Some (le_bytes 8 val)) 4)
  else if 0x10000000 <=? val then val_of ADB_TYPE_INT_32 (adb_w_data1 db (Some (le_bytes 4 val)) 4)
  else Some (ADB_VAL ADB_TYPE_INT val, db).

(** ** Building objects *)

Definition adb_wo_init (num_fields : Z) : adb_obj :=
  Obj (Some (num_fields :: replicate (Z.to_nat (num_fields - 1)) 0)) 1 false.

(** The capacity of an object that is built; [None] for a NULL pointer. *)
Definition adb_wo_max (o : adb_obj) : option Z := (fun cells => znth 0 cells ADBI_NUM_ENTRIES) <$> o_obj o.

Definition set_cell (i : Z) (v : Z) (cells : list Z) : list Z := <[Z.to_nat i := v]> cells.

Definition adb_wo_reset (o : adb_obj) : option adb_obj :=
  cells ← o_obj o;
  let max := znth 0 cells ADBI_NUM_ENTRIES in
  let zeroed := replicate (Z.to_nat (o_num o)) 0 ++ zdrop (o_num o) cells in
  Some (Obj (Some (set_cell ADBI_NUM_ENTRIES max zeroed)) 1 (o_dynamic o)).

(** for (n = o->num; n > 1 && obj[n-1] == ADB_NULL; n--) *)
Fixpoint trim_null (cells : list Z) (n : nat) : nat :=
  match n with
  | O => O
  | S m => if (1 <? n)%nat && (nth m cells 0 =? ADB_NULL) then trim_null cells m else n
  end.

(** The hook of the schema that runs before an object is written. *)
Definition pre_commit_t : Type := option (bytes -> adb_obj -> option adb_obj).

(** The object is emptied after it was written, with its capacity put back. *)
Definition w_obj_done (max : Z) (o : adb_obj) : option adb_obj :=
  o ← adb_wo_reset o;
  cells ← o_obj o;
  Some (Obj (Some (set_cell ADBI_NUM_ENTRIES max cells)) (o_num o) (o_dynamic o)).

Definition __adb_w_obj (pre_commit : pre_commit_t) (db : wadb) (o : adb_obj) (type : Z) : option (Z * wadb * adb_obj) :=
  max ← adb_wo_max o;
  o ← match pre_commit with Some f => f (wa_data db) o | None => Some o end;
  obj ← o_obj o;
  let n := trim_null obj (Z.to_nat (o_num o)) in
  let obj := if (1 <? n)%nat then set_cell ADBI_NUM_ENTRIES (Z.of_nat n) obj else obj in
  r ← (if (1 <? n)%nat
       then val_of type (adb_w_data1 db (Some (mjoin (le_bytes 4 <$> take n obj))) 4)
       else Some (ADB_NULL, db));
  let '(val, db) := r in
  o ← w_obj_done max (Obj (Some obj) (o_num o) (o_dynamic o));
  Some (val, db, o).

Definition adb_w_obj (pre_commit : pre_commit_t) (db : wadb) (o : adb_obj) : option (Z * wadb * adb_obj) :=
  __adb_w_obj pre_commit db o ADB_TYPE_OBJECT.
Definition adb_w_arr (pre_commit : pre_commit_t) (db : wadb) (o : adb_obj) : option (Z * wadb * adb_obj) :=
  __adb_w_obj pre_commit db o ADB_TYPE_ARRAY.

Definition adb_wo_val (o : adb_obj) (i v : Z) : option adb_obj :=
  max ← adb_wo_max o;
  cells ← o_obj o;
  if max <=? i then None
  else if ADB_IS_ERROR v then None
  else Some (Obj (Some (set_cell i v cells))
               (if negb (v =? ADB_NULL) && (o_num o <=? i) then i + 1 else o_num o) (o_dynamic o)).

Definition adb_wa_append (o : adb_obj) (v : Z) : option adb_obj :=
  max ← adb_wo_max o;
  cells ← o_obj o;
  if ADB_IS_ERROR v then None
  else if v =? ADB_NULL then Some o
  else
    let '(cells, dynamic) :=
      if max <=? o_num o
      then (set_cell ADBI_NUM_ENTRIES (max * 2) (ztake max cells ++ replicate (Z.to_nat max) 0), true)
      else (cells, o_dynamic o) in
    Some (Obj (Some (set_cell (o_num o) v cells)) (o_num o + 1) dynamic).

Definition adb_wo_free (o : adb_obj) : adb_obj := Obj None (o_num o) false.

Definition adb_wo_resetdb (db : wadb) (o : adb_obj) : option (wadb * adb_obj) :=
  o ← adb_wo_reset o;
  db ← adb_reset db;
  Some (db, o).

(** A database as a value of another one: a blob that holds the block. *)
Definition adb_w_adb (db : wadb) (valdb : bytes) : option (Z * wadb) :=
  let blk := adb_block_init ADB_BLOCK_ADB (zlen valdb) in
  let vec := [block_header blk; valdb; replicate (Z.to_nat (adb_block_padding blk)) 0] in
  if zlen valdb <=? sizeof_hdr then Some (ADB_NULL, db)
  else
    let vec := le_bytes 4 (iovec_len vec) :: vec in
    val_of ADB_TYPE_BLOB_32 (adb_w_raw db vec (iovec_len vec) 4).

(** ** Copying *)

(** A blob with its length, kept in [n] bytes, in front; [None] is adb_w_error. *)
Definition copy_blob_size (n : Z) (src : bytes) (v : Z) : option Z :=
  match adb_r_deref src v 0 n with None => None | Some ptr => len ← load n ptr; Some (n + len) end.

Definition copy_data (db : wadb) (src : bytes) (v sz align : Z) : option (Z * wadb) :=
  val_of (ADB_VAL_TYPE v) (adb_w_data1 db (ztake sz <$> adb_r_deref src v 0 sz) align).

Section Copy.
Context (copy : wadb -> Z -> option (Z * wadb)).

(** The loop over the fields of an object, first field first. *)
Fixpoint copy_fields (db : wadb) (vals : list Z) : option (list Z * wadb) :=
  match vals with
  | [] => Some ([], db)
  | v :: vals =>
      r ← copy db v;
      let '(v, db) := r in
      r ← copy_fields db vals;
      let '(vals, db) := r in
      Some (v :: vals, db)
  end.
End Copy.

(** [same] says that source and destination are one database. *)
Fixpoint adb_w_copy (fuel : nat) (same : bool) (src : bytes) (db : wadb) (v : Z) : option (Z * wadb) :=
  match fuel with
  | O => None
  | S fuel =>
      let t := ADB_VAL_TYPE v in
      if same then Some (v, db)
      else if (t =? ADB_TYPE_SPECIAL) || (t =? ADB_TYPE_INT) then Some (v, db)
      else if t =? ADB_TYPE_INT_32 then copy_data db src v 4 4
      else if t =? ADB_TYPE_INT_64 then copy_data db src v 8 8
      else if t =? ADB_TYPE_BLOB_8 then sz ← copy_blob_size 1 src v; copy_data db src v sz 1
      else if t =? ADB_TYPE_BLOB_16 then sz ← copy_blob_size 2 src v; copy_data db src v sz 2
      else if t =? ADB_TYPE_BLOB_32 then sz ← copy_blob_size 4 src v; copy_data db src v sz 4
      else if (t =? ADB_TYPE_OBJECT) || (t =? ADB_TYPE_ARRAY) then
        cells ← o_obj (adb_r_obj src v);
        r ← copy_fields (adb_w_copy fuel same src) db (zdrop ADBI_FIRST cells);
        let '(vals, db) := r in
        val_of t (adb_w_data1 db (Some (mjoin (le_bytes 4 <$> ztake ADBI_FIRST cells ++ vals))) 4)
      else None
  end.

(** ** Types and offsets in a value *)

Lemma adb_val_value x : ADB_VAL_VALUE x = x mod 2 ^ 28.
Proof. unfold ADB_VAL_VALUE. change ADB_VALUE_MASK with (Z.ones 28). by apply Z.land_ones. Qed.

Lemma adb_val_type x : 0 <= x < 2 ^ 32 -> ADB_VAL_TYPE x = x / 2 ^ 28 * 2 ^ 28.
Proof.
  intros Hx. unfold ADB_VAL_TYPE. rewrite <- Z.shiftl_mul_pow2, <- Z.shiftr_div_pow2 by lia.
  change ADB_TYPE_MASK with (Z.ones 4 .<< 28). apply Z.bits_inj'. intros i Hi.
  rewrite Z.land_spec, !Z.shiftl_spec by done. destruct (decide (i < 28)) as [H|H].
  - rewrite !(Z.testbit_neg_r _ (i - 28)) by lia. by rewrite andb_false_r.
  - rewrite Z.shiftr_spec by lia. replace (i - 28 + 28) with i by lia. destruct (decide (i < 32)) as [H2|H2].
    + rewrite Z.ones_spec_low by lia. apply andb_true_r.
    + rewrite (testbit_above 32 x) by lia. done.
Qed.

(** The type nibble of a value. *)
Definition is_type (t : Z) : Prop := exists k, 0 <= k < 16 /\ t = k * 2 ^ 28.

Lemma adb_val_split t v : is_type t -> 0 <= v < 2 ^ 28 ->
  ADB_VAL_TYPE (ADB_VAL t v) = t /\ ADB_VAL_VALUE (ADB_VAL t v) = v /\ 0 <= ADB_VAL t v < 2 ^ 32.
Proof.
  intros (k & Hk & ->) Hv. unfold ADB_VAL.
  rewrite <- (Z.shiftl_mul_pow2 k 28), lor_shift_add by lia. rewrite (wrap_small 32) by lia.
  rewrite adb_val_value, adb_val_type, Z.shiftl_mul_pow2 by lia. div_mod_lia.
Qed.

Ltac solve_is_type := match goal with |- is_type ?t => exists (t / 2 ^ 28); by vm_compute end.

(** ** Data stored at an offset *)

(** The bytes [b] are at offset [o], behind the header. *)
Definition stored (d : bytes) (o : Z) (b : bytes) : Prop :=
  sizeof_hdr <= o /\ o + zlen b <= zlen d /\ ztake (zlen b) (zdrop o d) = b.

(** Data behind the header stays where it is. *)
Definition extends (d d' : bytes) : Prop :=
  exists h h' b x, d = h ++ b /\ d' = h' ++ b ++ x /\ zlen h = sizeof_hdr /\ zlen h' = sizeof_hdr.

Lemma extends_refl d : sizeof_hdr <= zlen d -> extends d d.
Proof.
  intros H. exists (ztake 8 d), (ztake 8 d), (zdrop 8 d), []. rewrite app_nil_r, ztake_zdrop.
  unfold sizeof_hdr in *. by rewrite zlen_ztake by lia.
Qed.

Lemma extends_app d x : sizeof_hdr <= zlen d -> extends d (d ++ x).
Proof.
  intros H. exists (ztake 8 d), (ztake 8 d), (zdrop 8 d), x. rewrite app_assoc, ztake_zdrop.
  unfold sizeof_hdr in *. by rewrite zlen_ztake by lia.
Qed.

Lemma extends_zlen d d' : extends d d' -> sizeof_hdr <= zlen d <= zlen d'.
Proof.
  intros (h & h' & b & x & -> & -> & E1 & E2). rewrite !zlen_app.
  pose proof (zlen_nonneg b). pose proof (zlen_nonneg x). lia.
Qed.

Lemma extends_trans d d1 d2 : extends d d1 -> extends d1 d2 -> extends d d2.
Proof.
  intros (h & h1 & b & x & -> & -> & E1 & E2) (h' & h2 & b' & x' & E & -> & E3 & E4).
  assert (b' = b ++ x) as ->.
  { apply (f_equal (zdrop sizeof_hdr)) in E. by rewrite !zdrop_app_exact in E. }
  exists h, h2, b, (x ++ x'). by rewrite <- (app_assoc b).
Qed.

Lemma extends_stored d d' o b : extends d d' -> stored d o b -> stored d' o b.
Proof.
  intros He (H1 & H2 & H3). pose proof (extends_zlen d d' He). split_and!; [done|lia|].
  destruct He as (h & h' & c & x & -> & -> & E1 & E2). rewrite zlen_app in H2.
  unfold sizeof_hdr in *. pose proof (zlen_nonneg b).
  rewrite zdrop_app_ge in H3 |- * by lia. rewrite E1 in *. rewrite E2.
  rewrite zdrop_app_le by lia. rewrite ztake_app_le; [done|]. rewrite zlen_zdrop; lia.
Qed.

Lemma stored_app d o a b : stored d o (a ++ b) -> stored d o a /\ stored d (o + zlen a) b.
Proof.
  intros (H1 & H2 & H3). rewrite zlen_app in *. pose proof (zlen_nonneg a). pose proof (zlen_nonneg b).
  unfold stored, sizeof_hdr in *. assert (H4 : zdrop o d = (a ++ b) ++ zdrop (zlen a + zlen b) (zdrop o d)).
  { rewrite <- (ztake_zdrop (zlen a + zlen b) (zdrop o d)) at 1. by rewrite H3. }
  split; (split_and!; [lia|lia|]).
  - rewrite H4, <- app_assoc. apply ztake_app.
  - rewrite zdrop_add, H4, <- app_assoc, zdrop_app by lia. apply ztake_app.
Qed.

Lemma stored_end d pad b : sizeof_hdr <= zlen d -> stored (d ++ pad ++ b) (zlen d + zlen pad) b.
Proof.
  intros H. pose proof (zlen_nonneg pad). split_and!; [lia|rewrite !zlen_app; lia|].
  rewrite app_assoc, <- zlen_app, zdrop_app. by apply ztake_all.
Qed.

Lemma deref_stored d v b : stored d (ADB_VAL_VALUE v) b ->
  exists r, adb_r_deref d v 0 (zlen b) = Some (b ++ r).
Proof.
  intros (H1 & H2 & H3). unfold adb_r_deref. rewrite Z.add_0_l.
  destruct (Z.ltb_spec (zlen d) (ADB_VAL_VALUE v + zlen b)); [lia|].
  exists (zdrop (zlen b) (zdrop (ADB_VAL_VALUE v) d)). f_equal.
  rewrite <- (ztake_zdrop (zlen b) (zdrop (ADB_VAL_VALUE v) d)) at 1. by rewrite H3.
Qed.

(** A read of as many bytes as were checked for. *)
Lemma deref_load d v n p : adb_r_deref d v 0 n = Some p -> 0 <= n -> load n p = Some (le_val (ztake n p)).
Proof.
  unfold adb_r_deref. rewrite Z.add_0_l. destruct (Z.ltb_spec (zlen d) (ADB_VAL_VALUE v + n)); [done|]. intros [= <-] Hn.
  assert (0 <= ADB_VAL_VALUE v) by (rewrite adb_val_value; by apply Z.mod_pos_bound).
  apply load_some. rewrite zlen_zdrop; lia.
Qed.

(** ** The writer *)

Definition entry_ok (d : bytes) (e : adb_w_bucket_entry) : Prop :=
  e_len e = 0 \/ sizeof_hdr <= e_offs e /\ e_offs e + e_len e <= zlen d.

(** The largest database whose offsets fit in a value. *)
Definition ADB_MAX : Z := 2 ^ 28.

(** A database made by adb_w_init_dynamic with buckets: the header is there, the data fits in
    the buffer, and the hash table points to data. *)
Record wadb_ok (db : wadb) : Prop := {
  wo_bytes : bytes_ok (wa_data db);
  wo_hdr : sizeof_hdr <= zlen (wa_data db);
  wo_fits : zlen (wa_data db) <= wa_alloc_len db;
  wo_alloc : exists k, 0 <= k <= 15 /\ wa_alloc_len db = 2 ^ (13 + k);
  wo_buckets : 0 < wa_num_buckets db /\ wa_num_buckets db = zlen (wa_bucket db);
  wo_cache : Forall (Forall (entry_ok (wa_data db))) (wa_bucket db);
}.

Lemma double_alloc_spec need k fuel :
  need <= ADB_MAX -> 0 <= k <= 15 -> 16 - k <= Z.of_nat fuel ->
  exists k', k <= k' <= 15 /\ need <= 2 ^ (13 + k') /\ double_alloc fuel need (2 ^ (13 + k)) = Some (2 ^ (13 + k')).
Proof.
  intros Hn. revert k. induction fuel as [|fuel IH]; intros k Hk Hf; [lia|]. cbn [double_alloc].
  destruct (Z.ltb_spec (2 ^ (13 + k)) need) as [H|H]; [|exists k; split_and!; [lia|lia|lia|done]].
  assert (k <> 15) by (intros ->; unfold ADB_MAX in Hn; lia).
  replace (2 ^ (13 + k) * 2) with (2 ^ (13 + (k + 1))).
  2: { replace (13 + (k + 1)) with (Z.succ (13 + k)) by lia. rewrite Z.pow_succ_r; lia. }
  rewrite (wrap_small 32) by (split; [apply Z.pow_nonneg; lia|apply Z.pow_lt_mono_r; lia]).
  destruct (IH (k + 1)) as (k' & ? & ? & ->); [lia..|]. exists k'. split_and!; [lia|lia|lia|done].
Qed.

Definition padding (d : bytes) (k : Z) : bytes := replicate (Z.to_nat (ROUND_UP (zlen d) (2 ^ k) - zlen d)) 0.

Lemma padding_spec d k : 0 <= k <= 3 -> zlen d <= ADB_MAX ->
  0 <= zlen (padding d k) < 2 ^ k /\ (zlen d + zlen (padding d k)) mod 2 ^ k = 0 /\
  u64 (ROUND_UP (zlen d) (2 ^ k) - zlen d) = zlen (padding d k).
Proof.
  intros Hk Hd. unfold ADB_MAX in Hd. pose proof (pow2_small k Hk). pose proof (zlen_nonneg d).
  destruct (ROUND_UP_spec (zlen d) k) as [H1 H2]; [lia..|].
  assert (E : zlen (padding d k) = ROUND_UP (zlen d) (2 ^ k) - zlen d).
  { unfold padding, zlen at 1. rewrite length_replicate. lia. }
  rewrite E. split_and!; [lia|lia| |apply wrap_small; lia].
  by replace (zlen d + (ROUND_UP (zlen d) (2 ^ k) - zlen d)) with (ROUND_UP (zlen d) (2 ^ k)) by lia.
Qed.

(** The padding stays inside the buffer, whose size is a multiple of every alignment. *)
Lemma padding_fits d k n : 0 <= k <= 3 -> 0 <= n <= 15 -> zlen d <= 2 ^ (13 + n) -> zlen d <= ADB_MAX ->
  zlen d + zlen (padding d k) <= 2 ^ (13 + n).
Proof.
  intros Hk Hn Hd Hm. destruct (padding_spec d k Hk Hm) as ([H1 H2] & H3 & _). pose proof (pow2_small k Hk).
  destruct (decide (zlen d + zlen (padding d k) <= 2 ^ (13 + n))) as [|Hgt]; [done|exfalso].
  assert (E : 2 ^ (13 + n) mod 2 ^ k = 0).
  { replace (13 + n) with (k + (13 + n - k)) by lia. rewrite Z.pow_add_r by lia. rewrite Z.mul_comm. apply Z_mod_mult. }
  pose proof (Z.div_mod (2 ^ (13 + n)) (2 ^ k) ltac:(lia)) as D1. rewrite E in D1.
  pose proof (Z.div_mod (zlen d + zlen (padding d k)) (2 ^ k) ltac:(lia)) as D2. rewrite H3 in D2.
  destruct (Z_le_gt_dec ((zlen d + zlen (padding d k)) / 2 ^ k) (2 ^ (13 + n) / 2 ^ k)) as [Hle|Hlt]; [nia|].
  assert (2 ^ k * (2 ^ (13 + n) / 2 ^ k + 1) <= 2 ^ k * ((zlen d + zlen (padding d k)) / 2 ^ k)) by nia. lia.
Qed.

Lemma entry_ok_mono d d' e : zlen d <= zlen d' -> entry_ok d e -> entry_ok d' e.
Proof. intros ? [|[? ?]]; [by left|right; lia]. Qed.

Lemma bytes_ok_padding d k : bytes_ok (padding d k).
Proof. apply Forall_replicate. unfold byte_ok. lia. Qed.
#[local] Hint Resolve bytes_ok_padding : apk.

(** Appending bytes to a good database whose buffer is large enough. *)
Lemma wadb_ok_append db x n :
  wadb_ok db -> bytes_ok x -> 0 <= n <= 15 -> zlen (wa_data db) + zlen x <= 2 ^ (13 + n) ->
  wadb_ok (set_wa_data (wa_data db ++ x) (set_wa_alloc_len (2 ^ (13 + n)) db)).
Proof.
  intros [Hb Hh Hf _ Hnb Hc] Hx Hn Hl. pose proof (zlen_nonneg x).
  constructor; cbn [wa_data wa_alloc_len wa_num_buckets wa_bucket set_wa_data set_wa_alloc_len]; rewrite ?zlen_app; try lia.
  - by apply Forall_app.
  - by exists n.
  - eapply list.Forall_impl; [exact Hc|]. intros l Hl'. eapply list.Forall_impl; [exact Hl'|]. intros e. apply entry_ok_mono.
    rewrite zlen_app. lia.
Qed.

Lemma w_pad_ok db k : wadb_ok db -> 0 <= k <= 3 -> zlen (wa_data db) <= ADB_MAX ->
  w_pad db (2 ^ k) = Some (set_wa_data (wa_data db ++ padding (wa_data db) k) db) /\
  wadb_ok (set_wa_data (wa_data db ++ padding (wa_data db) k) db).
Proof.
  intros Hok Hk Hm. destruct (wo_alloc db Hok) as (n & Hn & Ha). pose proof (wo_fits db Hok) as Hf.
  pose proof (padding_fits (wa_data db) k n Hk Hn ltac:(lia) Hm) as Hp.
  destruct (padding_spec (wa_data db) k Hk Hm) as (H1 & _ & H3). split.
  - unfold w_pad. rewrite H3. destruct (Z.eqb_spec (zlen (padding (wa_data db) k)) 0) as [E|E].
    + apply zlen_0_nil in E. rewrite E, app_nil_r. by destruct db.
    + destruct (Z.leb_spec (zlen (wa_data db) + zlen (padding (wa_data db) k)) (wa_alloc_len db)); [|lia].
      do 3 f_equal. unfold padding, zlen at 1. by rewrite length_replicate, Nat2Z.id.
  - pose proof (wadb_ok_append db (padding (wa_data db) k) n Hok (bytes_ok_padding _ _) Hn Hp) as H.
    rewrite <- Ha in H. by destruct db.
Qed.

Lemma w_reserve_ok db len : wadb_ok db -> zlen (wa_data db) + len <= ADB_MAX ->
  exists n, 0 <= n <= 15 /\ zlen (wa_data db) + len <= 2 ^ (13 + n) /\
    w_reserve db len = Some (set_wa_alloc_len (2 ^ (13 + n)) db).
Proof.
  intros [_ _ Hf (n & Hn & Ha) Hnb _] Hm. unfold w_reserve.
  destruct (Z.ltb_spec (wa_alloc_len db) (zlen (wa_data db) + len)).
  - destruct (Z.eqb_spec (wa_num_buckets db) 0); [lia|]. pose proof (Z.pow_pos_nonneg 2 (13 + n)).
    destruct (Z.eqb_spec (wa_alloc_len db) 0); [lia|]. rewrite Ha.
    destruct (double_alloc_spec (zlen (wa_data db) + len) n 33) as (m & ? & ? & ->); [lia..|].
    exists m. split_and!; [lia|lia|lia|done].
  - exists n. split_and!; [lia..|]. rewrite <- Ha. by destruct db.
Qed.

(** adb_w_raw on a good database appends padding and data, in the buffer. *)
Lemma adb_w_raw_ok db vec k :
  wadb_ok db -> 0 <= k <= 3 -> Forall bytes_ok vec -> zlen (wa_data db) + 8 + zlen (mjoin vec) <= ADB_MAX ->
  exists n, 0 <= n <= 15 /\
  let db' := set_wa_data (wa_data db ++ padding (wa_data db) k ++ mjoin vec) (set_wa_alloc_len (2 ^ (13 + n)) db) in
  adb_w_raw db vec (zlen (mjoin vec)) (2 ^ k) = Some (zlen (wa_data db) + zlen (padding (wa_data db) k), db') /\ wadb_ok db'.
Proof.
  intros Hok Hk Hv Hm. pose proof (zlen_nonneg (mjoin vec)). pose proof (pow2_small k Hk).
  destruct (padding_spec (wa_data db) k Hk) as (H1 & _ & _); [lia|].
  destruct (w_pad_ok db k Hok Hk) as [E1 Hok1]; [lia|].
  destruct (w_reserve_ok _ (zlen (mjoin vec)) Hok1) as (n & Hn & Hl & E2); [cbn; rewrite zlen_app; lia|].
  exists n. split; [done|]. cbv zeta. unfold adb_w_raw. rewrite E1. cbn [mbind option_bind]. rewrite E2. cbn [mbind option_bind].
  cbn [wa_data set_wa_data set_wa_alloc_len] in *. rewrite <- app_assoc, zlen_app. split; [by destruct db|].
  pose proof (wadb_ok_append _ (mjoin vec) n Hok1 ltac:(by apply Forall_join) Hn Hl) as H'.
  cbn [wa_data set_wa_data] in H'. rewrite <- app_assoc in H'. by destruct db.
Qed.

Lemma join_cons (v : bytes) vec : mjoin (v :: vec) = v ++ mjoin vec.
Proof. done. Qed.

Lemma iovec_len_from (vec : list bytes) a : 0 <= a -> a + zlen (mjoin vec) <= ADB_MAX ->
  foldl (fun l v => u64 (l + zlen v)) a vec = a + zlen (mjoin vec).
Proof.
  revert a. induction vec as [|v vec IH]; intros a Ha H; [change (a = a + 0); lia|].
  cbn [foldl]. rewrite join_cons, zlen_app in *. pose proof (zlen_nonneg v). pose proof (zlen_nonneg (mjoin vec)).
  assert (ADB_MAX < 2 ^ 64) by done. rewrite (wrap_small 64) by lia. rewrite IH; lia.
Qed.

Lemma iovec_len_spec (vec : list bytes) : zlen (mjoin vec) <= ADB_MAX -> iovec_len vec = zlen (mjoin vec).
Proof. intros H. unfold iovec_len. rewrite iovec_len_from; lia. Qed.

Lemma iovec_memcmp_spec (vec : list bytes) b : zlen (mjoin vec) <= zlen b -> iovec_memcmp vec b = 0 ->
  ztake (zlen (mjoin vec)) b = mjoin vec.
Proof.
  revert b. induction vec as [|v vec IH]; intros b Hl; [done|]. cbn [iovec_memcmp].
  rewrite join_cons, zlen_app in *. pose proof (zlen_nonneg v). pose proof (zlen_nonneg (mjoin vec)).
  destruct (Z.eqb_spec (memcmp (ztake (zlen v) b) v) 0) as [E|E]; [|done]. cbn [negb]. intros Hv.
  apply memcmp_eq in E; [|apply Nat2Z.inj, zlen_ztake; fold (zlen v); lia].
  rewrite <- (IH (zdrop (zlen v) b)) at 2 by (rewrite ?zlen_zdrop; lia). rewrite <- E at 2.
  unfold ztake, zdrop, zlen. rewrite <- Nat2Z.inj_add, !Nat2Z.id. symmetry. apply take_take_drop.
Qed.

Lemma search_bucket_spec d vec hash len al i l :
  match search_bucket d vec hash len al i l with
  | Found offs => exists e, e ∈ l /\ e_offs e = offs /\ e_len e = len /\ len <> 0 /\
                    iovec_memcmp vec (zdrop offs d) = 0 /\ offs .& (al - 1) = 0
  | Add j => (i <= j <= i + length l)%nat
  end.
Proof.
  revert i. induction l as [|e l IH]; intros i; cbn [search_bucket]; [cbn; lia|].
  destruct (Z.eqb_spec (e_len e) 0); [cbn; lia|].
  specialize (IH (S i)). assert (Hrec : match search_bucket d vec hash len al (S i) l with
    | Found offs => exists e', e' ∈ e :: l /\ e_offs e' = offs /\ e_len e' = len /\ len <> 0 /\
                    iovec_memcmp vec (zdrop offs d) = 0 /\ offs .& (al - 1) = 0
    | Add j => (i <= j <= i + length (e :: l))%nat end).
  { destruct (search_bucket _ _ _ _ _ _ l) as [o|j]; [|cbn; lia].
    destruct IH as (e' & H1 & H2). exists e'. split; [by right|done]. }
  destruct (negb (e_hash e =? hash)); [done|].
  destruct (Z.eqb_spec (e_len e) len) as [El|]; [|done].
  destruct (Z.eqb_spec (iovec_memcmp vec (zdrop (e_offs e) d)) 0) as [Em|]; [|done]. cbn [andb].
  destruct (Z.eqb_spec (e_offs e .& (al - 1)) 0) as [Ea|]; cbn [negb]; [|cbn; lia].
  exists e. split_and!; [by left|done|done|lia|done|done].
Qed.

Lemma entries_set d i e l : Forall (entry_ok d) l -> entry_ok d e -> Forall (entry_ok d) (set_entry i e l).
Proof.
  intros Hl He. unfold set_entry. apply Forall_insert; [|done]. case_match; [done|].
  apply Forall_app. split; [done|]. apply Forall_replicate. by left.
Qed.

Lemma land_ones_mod x k : 0 <= k -> x .& (2 ^ k - 1) = x mod 2 ^ k.
Proof. intros H. replace (2 ^ k - 1) with (Z.ones k) by (rewrite Z.ones_equiv; lia). by apply Z.land_ones. Qed.

(** What a writing operation leaves of a database: it stays good, its data stays where it is and
    grows by at most [n] bytes. *)
Record grows (n : Z) (db db' : wadb) : Prop := {
  gr_ok : wadb_ok db';
  gr_extends : extends (wa_data db) (wa_data db');
  gr_size : zlen (wa_data db) <= zlen (wa_data db') <= zlen (wa_data db) + n;
  gr_cache : wa_no_cache db' = wa_no_cache db;
}.

Lemma grows_refl n db : wadb_ok db -> 0 <= n -> grows n db db.
Proof. intros H Hn. constructor; [done|apply extends_refl, H|lia|done]. Qed.

Lemma grows_trans m n db db1 db2 : grows m db db1 -> grows n db1 db2 -> grows (m + n) db db2.
Proof. intros [O1 E1 S1 C1] [O2 E2 S2 C2]. constructor; [done|by eapply extends_trans|lia|congruence]. Qed.

Lemma grows_weaken m n db db' : m <= n -> grows m db db' -> grows n db db'.
Proof. intros H [O1 E1 S1 C1]. constructor; [done|done|lia|done]. Qed.

Lemma bucket_entries_ok db n : wadb_ok db -> Forall (entry_ok (wa_data db)) (nth n (wa_bucket db) []).
Proof.
  intros Hok. destruct (nth_in_or_default n (wa_bucket db) []) as [Hin| ->]; [|done].
  pose proof (wo_cache db Hok) as Hc. rewrite list.Forall_forall in Hc. apply Hc. by apply list_elem_of_In.
Qed.

(** adb_w_data stores the data once, aligned, and returns where it is. *)
Lemma adb_w_data_ok db vec k :
  wadb_ok db -> 0 <= k <= 3 -> Forall bytes_ok vec -> 0 < zlen (mjoin vec) ->
  zlen (wa_data db) + 8 + zlen (mjoin vec) <= ADB_MAX ->
  exists offs db', adb_w_data db vec (2 ^ k) = Some (offs, db') /\ grows (8 + zlen (mjoin vec)) db db' /\
    stored (wa_data db') offs (mjoin vec) /\ offs mod 2 ^ k = 0 /\ 0 <= offs < ADB_MAX.
Proof.
  intros Hok Hk Hv Hpos Hm. pose proof (pow2_small k Hk) as Hp. pose proof (wo_hdr db Hok) as Hh. pose proof (zlen_nonneg (wa_data db)).
  assert (Hm' := Hm). unfold ADB_MAX in Hm'.
  destruct (padding_spec (wa_data db) k Hk) as (H1 & H2 & _); [unfold ADB_MAX; lia|].
  destruct (adb_w_raw_ok db vec k Hok Hk Hv Hm) as (n & Hn & Er & Hok'). cbv zeta in Er, Hok'.
  set (db' := set_wa_data _ _) in *. set (offs := zlen (wa_data db) + zlen (padding (wa_data db) k)) in *.
  assert (Hst : stored (wa_data db') offs (mjoin vec)) by (by apply (stored_end (wa_data db) (padding (wa_data db) k))).
  assert (Hg : grows (8 + zlen (mjoin vec)) db db').
  { constructor; [done|by apply extends_app| |done]. unfold db'. cbn. rewrite !zlen_app. lia. }
  unfold adb_w_data. rewrite iovec_len_spec by lia. destruct (wa_no_cache db =? 0) eqn:Ec; cbn [negb].
  2: { exists offs, db'. split_and!; [done|done|done|done|lia|unfold ADB_MAX; lia]. }
  pose proof (search_bucket_spec (wa_data db) vec (iovec_hash vec) (zlen (mjoin vec)) (2 ^ k) 0
    (nth (Z.to_nat (iovec_hash vec mod wa_num_buckets db)) (wa_bucket db) [])) as Hs.
  pose proof (bucket_entries_ok db (Z.to_nat (iovec_hash vec mod wa_num_buckets db)) Hok) as Hl.
  destruct (search_bucket _ _ _ _ _ _ _) as [o|j].
  - destruct Hs as (e & He & Eo & El & _ & Ecmp & Eal). rewrite list.Forall_forall in Hl.
    destruct (Hl e He) as [?|[G1 G2]]; [lia|]. rewrite Eo, El in *. exists o, db. unfold sizeof_hdr in *.
    rewrite land_ones_mod in Eal by lia. unfold ADB_MAX.
    split_and!; [done|apply grows_refl; [done|lia]| |done|lia|lia].
    split_and!; [done|lia|]. apply iovec_memcmp_spec; [|done]. rewrite zlen_zdrop; lia.
  - rewrite Er. cbn [mbind option_bind]. unfold ADB_MAX.
    rewrite !(wrap_small 32) by lia. eexists offs, _. split_and!; [done| |exact Hst|done|lia|lia].
    destruct Hg as [[] G2 G3 G4]. constructor; [|done..].
    constructor; cbn [wa_data wa_alloc_len wa_num_buckets wa_bucket set_wa_bucket]; try done.
    + unfold zlen in *. rewrite length_insert. done.
    + apply Forall_insert; [done|]. apply entries_set.
      * eapply list.Forall_impl; [exact Hl|]. intros e. apply entry_ok_mono. lia.
      * right. cbn. destruct Hst as (? & ? & _). done.
Qed.

(** ** Trees of values *)

(** What a value stands for.  [ATree] is an array or an object with its fields from
    ADBI_FIRST on. *)
#[local] Unset Elimination Schemes.
Inductive aval := ANull | AInt (n : Z) | ABlob (b : bytes) | ATree (type : Z) (ts : list aval).
#[local] Set Elimination Schemes.

Lemma aval_ind (P : aval -> Prop) :
  P ANull -> (forall n, P (AInt n)) -> (forall b, P (ABlob b)) ->
  (forall ty ts, Forall P ts -> P (ATree ty ts)) -> forall t, P t.
Proof.
  intros Hn Hi Hb Ht. fix IH 1. intros [|n|b|ty ts]; [apply Hn|apply Hi|apply Hb|apply Ht].
  induction ts as [|t ts IHts]; constructor; [apply IH|apply IHts].
Qed.

(** The bytes of an array of 32-bit integers. *)
Definition cell_bytes (l : list Z) : bytes := mjoin (le_bytes 4 <$> l).

Definition is_word (x : Z) : Prop := 0 <= x < 2 ^ 32.
Definition is_blob_type (ty n : Z) : Prop :=
  (ty, n) ∈ [(ADB_TYPE_BLOB_8, 1); (ADB_TYPE_BLOB_16, 2); (ADB_TYPE_BLOB_32, 4)].

(** The value [v] of the database [d] stands for the tree. *)
Fixpoint denotes (d : bytes) (v : Z) (t : aval) : Prop :=
  is_word v /\
  match t with
  | ANull => v = ADB_NULL
  | AInt n =>
      ADB_VAL_TYPE v = ADB_TYPE_INT /\ ADB_VAL_VALUE v = n \/
      ADB_VAL_TYPE v = ADB_TYPE_INT_32 /\ 0 <= n < 2 ^ 32 /\ stored d (ADB_VAL_VALUE v) (le_bytes 4 n) \/
      ADB_VAL_TYPE v = ADB_TYPE_INT_64 /\ 0 <= n < 2 ^ 64 /\ stored d (ADB_VAL_VALUE v) (le_bytes 8 n)
  | ABlob b =>
      exists n, is_blob_type (ADB_VAL_TYPE v) n /\ 0 < zlen b < 256 ^ n /\ bytes_ok b /\
        stored d (ADB_VAL_VALUE v) (le_bytes (Z.to_nat n) (zlen b) ++ b)
  | ATree ty ts =>
      ADB_VAL_TYPE v = ty /\ (ty = ADB_TYPE_ARRAY \/ ty = ADB_TYPE_OBJECT) /\ zlen ts + 1 < 2 ^ 32 /\
      exists cells, stored d (ADB_VAL_VALUE v) (cell_bytes (zlen ts + 1 :: cells)) /\
        (fix all (ts : list aval) (cells : list Z) {struct ts} : Prop :=
           match ts, cells with
           | [], [] => True
           | t :: ts, c :: cells => denotes d c t /\ all ts cells
           | _, _ => False
           end) ts cells
  end.

Lemma denotes_tree d v ty ts :
  denotes d v (ATree ty ts) <->
  is_word v /\ ADB_VAL_TYPE v = ty /\ (ty = ADB_TYPE_ARRAY \/ ty = ADB_TYPE_OBJECT) /\ zlen ts + 1 < 2 ^ 32 /\
  exists cells, stored d (ADB_VAL_VALUE v) (cell_bytes (zlen ts + 1 :: cells)) /\ Forall2 (denotes d) cells ts.
Proof.
  cbn [denotes].
  assert (H : forall cells ts, (fix all (ts : list aval) (cells : list Z) {struct ts} : Prop :=
           match ts, cells with
           | [], [] => True
           | t :: ts, c :: cells => denotes d c t /\ all ts cells
           | _, _ => False
           end) ts cells <-> Forall2 (denotes d) cells ts).
  { clear. induction cells as [|c cells IH]; intros [|t ts].
    - by split.
    - split; [done|]. intros H. inversion H.
    - split; [done|]. intros H. inversion H.
    - split; [intros [? ?]; constructor; [done|by apply IH]|]. intros H. inversion H; subst. split; [done|by apply IH]. }
  split; intros (Hw & H1 & H2 & H3 & cells & H4 & H5); (split_and!; [done..|exists cells; split; [done|by apply H]]).
Qed.

Lemma denotes_word d v t : denotes d v t -> is_word v.
Proof. destruct t; by intros [? _]. Qed.

(** Trees stay readable when the database grows. *)
Lemma denotes_extends d d' t v : extends d d' -> denotes d v t -> denotes d' v t.
Proof.
  intros He. revert v. induction t as [|n|b|ty ts IH] using aval_ind; intros v.
  - done.
  - intros (Hw & H). split; [done|]. destruct H as [H|[(H1 & H2 & H3)|(H1 & H2 & H3)]]; eauto 6 using extends_stored.
  - intros (Hw & n & H1 & H2 & H3 & H4). split; [done|]. exists n. eauto using extends_stored.
  - rewrite !denotes_tree. intros (Hw & H1 & H2 & H3 & cells & H4 & H5). split_and!; try done. exists cells.
    split; [by eapply extends_stored|]. clear -IH H5. induction H5 as [|c t cells ts Hc _ IHf]; [constructor|].
    inversion IH; subst. constructor; auto.
Qed.

Lemma denotes_grows n db db' v t : grows n db db' -> denotes (wa_data db) v t -> denotes (wa_data db') v t.
Proof. intros H. eapply denotes_extends, gr_extends, H. Qed.

(** ** The readers on such values *)

Lemma le_read n x r : 0 <= x < 256 ^ Z.of_nat n -> le_val (ztake (Z.of_nat n) (le_bytes n x ++ r)) = x.
Proof.
  intros H. rewrite ztake_app_exact by apply zlen_le_bytes. rewrite le_val_bytes. apply wrap_small.
  rewrite Z.pow_mul_r by lia. done.
Qed.

Lemma adb_r_int_denotes d v n : denotes d v (AInt n) -> adb_r_int d v = n.
Proof.
  intros (_ & H). unfold adb_r_int, adb_r_int_mem. destruct H as [(-> & <-)|[(-> & Hn & Hs)|(-> & Hn & Hs)]]; [done|..].
  - change (ADB_TYPE_INT_32 =? ADB_TYPE_INT) with false. rewrite Z.eqb_refl. apply deref_stored in Hs as (r & E).
    rewrite zlen_le_bytes in E. change (Z.of_nat 4) with 4 in E. rewrite E, (deref_load _ _ _ _ E) by done. by apply (le_read 4).
  - change (ADB_TYPE_INT_64 =? ADB_TYPE_INT) with false. change (ADB_TYPE_INT_64 =? ADB_TYPE_INT_32) with false.
    rewrite Z.eqb_refl. apply deref_stored in Hs as (r & E).
    rewrite zlen_le_bytes in E. change (Z.of_nat 8) with 8 in E. rewrite E, (deref_load _ _ _ _ E) by done. by apply (le_read 8).
Qed.

Lemma deref_add d v n s : adb_r_deref d v n s = if zlen d <? n + ADB_VAL_VALUE v + s then None else Some (zdrop (n + ADB_VAL_VALUE v) d).
Proof. done. Qed.

Lemma adb_r_blob_n_stored d v (n : nat) b :
  zlen b < 256 ^ Z.of_nat n -> stored d (ADB_VAL_VALUE v) (le_bytes n (zlen b) ++ b) ->
  adb_r_blob_n (Z.of_nat n) d v = Some (Some b, zlen b).
Proof.
  intros Hb Hs. pose proof (zlen_nonneg b). apply stored_app in Hs as [H1 H2]. rewrite zlen_le_bytes in H2.
  apply deref_stored in H1 as (r & E). rewrite zlen_le_bytes in E. unfold adb_r_blob_n. rewrite E, (deref_load _ _ _ _ E) by lia.
  cbn [mbind option_bind]. rewrite le_read by lia.
  destruct H2 as (_ & H3 & H4). rewrite deref_add. rewrite (Z.add_comm (Z.of_nat n)).
  destruct (Z.ltb_spec (zlen d) (ADB_VAL_VALUE v + Z.of_nat n + zlen b)); [lia|].
  unfold ptr_len. cbn [fmap option_fmap option_map]. by rewrite H4.
Qed.

Lemma adb_r_blob_denotes d v b : denotes d v (ABlob b) -> adb_r_blob d v = (Some b, zlen b).
Proof.
  intros (_ & n & Ht & Hb & _ & Hs). unfold adb_r_blob, adb_r_blob_mem. unfold is_blob_type in Ht.
  rewrite !elem_of_cons, elem_of_nil in Ht. destruct Ht as [[= Et ->]|[[= Et ->]|[[= Et ->]|[]]]]; rewrite Et.
  - change (default (None, 0) (adb_r_blob_n (Z.of_nat 1) d v) = (Some b, zlen b)). by rewrite (adb_r_blob_n_stored d v 1 b); [|apply Hb|].
  - change (default (None, 0) (adb_r_blob_n (Z.of_nat 2) d v) = (Some b, zlen b)). by rewrite (adb_r_blob_n_stored d v 2 b); [|apply Hb|].
  - change (default (None, 0) (adb_r_blob_n (Z.of_nat 4) d v) = (Some b, zlen b)). by rewrite (adb_r_blob_n_stored d v 4 b); [|apply Hb|].
Qed.

Lemma zlen_cell_bytes l : zlen (cell_bytes l) = 4 * zlen l.
Proof.
  induction l as [|x l IH]; [done|]. unfold cell_bytes in *. rewrite fmap_cons, join_cons, zlen_app, zlen_cons, zlen_le_bytes. lia.
Qed.

Lemma words_cell_bytes l r : Forall is_word l -> words (length l) (cell_bytes l ++ r) = Some l.
Proof.
  induction 1 as [|x l Hx Hl IH]; [done|]. cbn [words length]. unfold cell_bytes in *. rewrite fmap_cons, join_cons, <- app_assoc.
  rewrite load_some by (rewrite zlen_app, zlen_le_bytes; unfold zlen; lia). cbn [mbind option_bind].
  rewrite zdrop_app_exact by apply zlen_le_bytes. rewrite IH. cbn [mbind option_bind]. do 2 f_equal. by apply (le_read 4).
Qed.

Lemma adb_r_obj_denotes d v ty ts : denotes d v (ATree ty ts) ->
  exists cells, Forall2 (denotes d) cells ts /\
    adb_r_obj d v = Obj (Some (zlen ts + 1 :: cells)) (zlen ts + 1) false.
Proof.
  rewrite denotes_tree. intros (Hw & Ht & Hty & Hl & cells & Hs & Hc). exists cells. split; [done|].
  pose proof (Forall2_length Hc) as Hlen. pose proof (zlen_nonneg ts).
  assert (Hw' : Forall is_word (zlen ts + 1 :: cells)).
  { constructor; [unfold is_word; lia|]. clear -Hc. induction Hc; constructor; [by eapply denotes_word|done]. }
  assert (Hz : zlen (zlen ts + 1 :: cells) = zlen ts + 1) by (rewrite zlen_cons; unfold zlen; lia).
  unfold adb_r_obj, adb_r_obj_mem. rewrite Ht.
  replace (negb (ty =? ADB_TYPE_ARRAY) && negb (ty =? ADB_TYPE_OBJECT)) with false by (destruct Hty as [-> | ->]; done).
  assert (Hs' := Hs). unfold cell_bytes in Hs'. rewrite fmap_cons, join_cons in Hs'. apply stored_app in Hs' as [H1 _].
  apply deref_stored in H1 as (r1 & E1). rewrite zlen_le_bytes in E1. change (Z.of_nat 4) with 4 in E1.
  rewrite E1, (deref_load _ _ _ _ E1) by done. cbn [mbind option_bind].
  rewrite (le_read 4) by (change (256 ^ Z.of_nat 4) with (2 ^ 32); lia).
  destruct (Z.eqb_spec (zlen ts + 1) 0); [lia|].
  apply deref_stored in Hs as (r & E). rewrite zlen_cell_bytes, Hz in E. rewrite E.
  replace (Z.to_nat (zlen ts + 1)) with (length (zlen ts + 1 :: cells)) by (cbn; unfold zlen; lia).
  by rewrite words_cell_bytes.
Qed.

(** ** The value writers *)

Lemma val_of_ok db n ty r offs db' b :
  r = Some (offs, db') -> grows n db db' -> stored (wa_data db') offs b -> 0 <= offs < ADB_MAX -> is_type ty ->
  exists v, val_of ty r = Some (v, db') /\ is_word v /\ ADB_VAL_TYPE v = ty /\ stored (wa_data db') (ADB_VAL_VALUE v) b.
Proof.
  intros -> _ Hs Ho Ht. destruct (adb_val_split ty offs Ht Ho) as (E1 & E2 & E3).
  exists (ADB_VAL ty offs). rewrite E1, E2. done.
Qed.

(** Writing one piece of data behind a value of type [ty]. *)
Lemma w_val_ok db vec k ty :
  wadb_ok db -> 0 <= k <= 3 -> Forall bytes_ok vec -> 0 < zlen (mjoin vec) ->
  zlen (wa_data db) + 8 + zlen (mjoin vec) <= ADB_MAX -> is_type ty ->
  exists v db', val_of ty (adb_w_data db vec (2 ^ k)) = Some (v, db') /\ grows (8 + zlen (mjoin vec)) db db' /\
    is_word v /\ ADB_VAL_TYPE v = ty /\ stored (wa_data db') (ADB_VAL_VALUE v) (mjoin vec).
Proof.
  intros Hok Hk Hv Hp Hm Ht. destruct (adb_w_data_ok db vec k Hok Hk Hv Hp Hm) as (o & db' & E & Hg & Hs & _ & Ho).
  destruct (val_of_ok db _ ty _ o db' _ E Hg Hs Ho Ht) as (v & ? & ? & ? & ?). by exists v, db'.
Qed.

Lemma join_single (p : bytes) : mjoin [p] = p.
Proof. apply app_nil_r. Qed.

Lemma adb_w_int_ok db n : wadb_ok db -> 0 <= n < 2 ^ 64 -> zlen (wa_data db) + 16 <= ADB_MAX ->
  exists v db', adb_w_int db n = Some (v, db') /\ grows 16 db db' /\ denotes (wa_data db') v (AInt n).
Proof.
  intros Hok Hn Hm. unfold adb_w_int. destruct (Z.leb_spec 0x100000000 n) as [H|H]; [|destruct (Z.leb_spec 0x10000000 n) as [H'|H']].
  - destruct (w_val_ok db [le_bytes 8 n] 2 ADB_TYPE_INT_64 Hok) as (v & db' & E & Hg & Hw & Ht & Hs);
      rewrite ?join_single, ?zlen_le_bytes in *; [lia|constructor; [apply le_bytes_ok|constructor]|lia|lia|solve_is_type|].
    exists v, db'. split; [exact E|]. split; [done|]. split; [done|]. right. right. done.
  - destruct (w_val_ok db [le_bytes 4 n] 2 ADB_TYPE_INT_32 Hok) as (v & db' & E & Hg & Hw & Ht & Hs);
      rewrite ?join_single, ?zlen_le_bytes in *; [lia|constructor; [apply le_bytes_ok|constructor]|lia|lia|solve_is_type|].
    exists v, db'. split; [exact E|]. split; [by eapply grows_weaken, Hg|]. split; [done|]. right. left. split_and!; [done|lia|lia|done].
  - destruct (adb_val_split ADB_TYPE_INT n) as (E1 & E2 & E3); [solve_is_type|lia|].
    exists (ADB_VAL ADB_TYPE_INT n), db. split; [done|]. split; [by apply grows_refl|]. split; [done|]. by left.
Qed.

Definition blob_tree (b : bytes) : aval := match b with [] => ANull | _ => ABlob b end.

Lemma blob_tree_pos b : 0 < zlen b -> blob_tree b = ABlob b.
Proof. by destruct b. Qed.

(** A blob written with its length in [n] bytes. *)
Lemma w_blob_n_ok db (n : nat) k b ty :
  wadb_ok db -> 0 <= k <= 3 -> Forall bytes_ok b -> 0 < zlen (mjoin b) < 256 ^ Z.of_nat n -> (n <= 4)%nat ->
  is_blob_type ty (Z.of_nat n) -> is_type ty -> zlen (wa_data db) + 12 + zlen (mjoin b) <= ADB_MAX ->
  exists v db', val_of ty (adb_w_data db (le_bytes n (zlen (mjoin b)) :: b) (2 ^ k)) = Some (v, db') /\
    grows (12 + zlen (mjoin b)) db db' /\ denotes (wa_data db') v (blob_tree (mjoin b)).
Proof.
  intros Hok Hk Hb Hl Hn Hbt Ht Hm.
  destruct (w_val_ok db (le_bytes n (zlen (mjoin b)) :: b) k ty Hok Hk) as (v & db' & E & Hg & Hw & Hty & Hs);
    rewrite ?join_cons, ?zlen_app, ?zlen_le_bytes in *; [by constructor; auto with apk|lia|lia|done|].
  exists v, db'. split; [done|]. split; [by eapply grows_weaken, Hg; lia|].
  rewrite blob_tree_pos by lia. split; [done|]. exists (Z.of_nat n). rewrite Hty, Nat2Z.id.
  split_and!; [done|lia|lia|by apply Forall_join|done].
Qed.

Lemma adb_w_blob_vec_ok db b : wadb_ok db -> (length b <= 4)%nat -> Forall bytes_ok b ->
  zlen (wa_data db) + 12 + zlen (mjoin b) <= ADB_MAX ->
  exists v db', adb_w_blob_vec db b = Some (v, db') /\ grows (12 + zlen (mjoin b)) db db' /\
    denotes (wa_data db') v (blob_tree (mjoin b)).
Proof.
  intros Hok Hl Hb Hm. pose proof (zlen_nonneg (mjoin b)) as Hz. pose proof (zlen_nonneg (wa_data db)).
  unfold adb_w_blob_vec. destruct (Nat.ltb_spec 4 (length b)); [lia|]. rewrite iovec_len_spec by lia.
  assert (HM : ADB_MAX = 2 ^ 28) by done.
  destruct (Z.ltb_spec 0xffff (zlen (mjoin b))); [|destruct (Z.ltb_spec 0xff (zlen (mjoin b)));
    [|destruct (Z.ltb_spec 0 (zlen (mjoin b)))]].
  - apply (w_blob_n_ok db 4 2 b ADB_TYPE_BLOB_32); [done|lia|done|change (256 ^ Z.of_nat 4) with (2 ^ 32); lia|lia| |solve_is_type|lia].
    apply list_elem_of_In. cbn. tauto.
  - apply (w_blob_n_ok db 2 1 b ADB_TYPE_BLOB_16); [done|lia|done|change (256 ^ Z.of_nat 2) with (2 ^ 16); lia|lia| |solve_is_type|lia].
    apply list_elem_of_In. cbn. tauto.
  - apply (w_blob_n_ok db 1 0 b ADB_TYPE_BLOB_8); [done|lia|done|change (256 ^ Z.of_nat 1) with (256); lia|lia| |solve_is_type|lia].
    apply list_elem_of_In. cbn. tauto.
  - assert (E : mjoin b = []) by (apply zlen_0_nil; lia). rewrite E. exists ADB_NULL, db.
    split; [done|]. split; [by apply grows_refl|]. done.
Qed.

(** ** Objects that are built *)

Lemma denotes_null d v t : denotes d v t -> v = ADB_NULL <-> t = ANull.
Proof.
  intros H. split; [intros -> |by intros ->; apply H]. destruct t as [|n|b|ty ts]; [done|exfalso..].
  - destruct H as (_ & [(H & _)|[(H & _)|(H & _)]]); done.
  - destruct H as (_ & n & H & _). unfold is_blob_type in H. rewrite !elem_of_cons, elem_of_nil in H.
    by destruct H as [[=]|[[=]|[[=]|[]]]].
  - apply denotes_tree in H as (_ & H & [-> | ->] & _); done.
Qed.

Lemma denotes_no_error d v t : denotes d v t -> ADB_IS_ERROR v = false.
Proof.
  unfold ADB_IS_ERROR. intros H. apply Z.eqb_neq. destruct t as [|n|b|ty ts].
  - by destruct H as (_ & ->).
  - destruct H as (_ & [(-> & _)|[(-> & _)|(-> & _)]]); done.
  - destruct H as (_ & n & H & _). unfold is_blob_type in H. rewrite !elem_of_cons, elem_of_nil in H.
    by destruct H as [[= -> _]|[[= -> _]|[[= -> _]|[]]]].
  - by apply denotes_tree in H as (_ & -> & [-> | ->] & _).
Qed.

(** The object [o] is being built with the fields [ts]; it has room for [max - 1]. *)
Definition builds (d : bytes) (o : adb_obj) (max : Z) (ts : list aval) : Prop :=
  exists cells rest, o_obj o = Some (max :: cells ++ replicate rest 0) /\ o_num o = zlen ts + 1 /\
    max = zlen ts + 1 + Z.of_nat rest /\ Forall2 (denotes d) cells ts.

(** Field [i] is set to [t]; setting a field that is not there to null changes nothing. *)
Definition set_field (i : nat) (t : aval) (ts : list aval) : list aval :=
  if (i <? length ts)%nat then <[i := t]> ts
  else match t with ANull => ts | _ => ts ++ replicate (i - length ts) ANull ++ [t] end.

Definition add_item (t : aval) (ts : list aval) : list aval := match t with ANull => ts | _ => ts ++ [t] end.

Lemma builds_init d n : 1 <= n -> builds d (adb_wo_init n) n [].
Proof.
  intros H. exists [], (Z.to_nat (n - 1)). split_and!; [done|done|rewrite zlen_nil; lia|constructor].
Qed.

Lemma builds_extends d d' o max ts : extends d d' -> builds d o max ts -> builds d' o max ts.
Proof.
  intros He (cells & rest & H1 & H2 & H3 & H4). exists cells, rest. split_and!; try done.
  eapply list.Forall2_impl; [exact H4|]. intros v t. by apply denotes_extends.
Qed.

Lemma insert_zeros (j rest : nat) (v : Z) : (j < rest)%nat ->
  <[j := v]> (replicate rest 0) = (replicate j 0 ++ [v]) ++ replicate (rest - j - 1) 0.
Proof.
  intros H. replace rest with (j + (S (rest - j - 1)))%nat at 1 by lia. rewrite replicate_add, insert_app_r_alt by (rewrite length_replicate; lia).
  rewrite length_replicate, Nat.sub_diag. cbn. by rewrite <- app_assoc.
Qed.

Lemma insert_hd (x a : Z) l : <[Z.to_nat ADBI_NUM_ENTRIES := x]> (a :: l) = x :: l.
Proof. done. Qed.
Lemma insert_tl (n : nat) (x a : Z) l : <[S n := x]> (a :: l) = a :: <[n := x]> l.
Proof. done. Qed.

Lemma builds_max d o max ts : builds d o max ts -> adb_wo_max o = Some max.
Proof. intros (cells & rest & E & _). unfold adb_wo_max. by rewrite E. Qed.

Lemma denotes_nulls d n : Forall2 (denotes d) (replicate n 0) (replicate n ANull).
Proof. induction n; cbn; constructor; [by split|done]. Qed.

Lemma adb_wo_val_ok d o max ts i v t :
  builds d o max ts -> denotes d v t -> 1 <= i < max ->
  exists o', adb_wo_val o i v = Some o' /\ builds d o' max (set_field (Z.to_nat i - 1) t ts).
Proof.
  intros Hb Hd Hi. unfold adb_wo_val. rewrite (builds_max _ _ _ _ Hb).
  destruct Hb as (cells & rest & Ho & Hn & Hm & Hc). rewrite Ho. cbn [mbind option_bind].
  destruct (Z.leb_spec max i); [lia|]. rewrite (denotes_no_error _ _ _ Hd). eexists. split; [done|].
  pose proof (Forall2_length Hc) as Hl. unfold set_cell. destruct (Z.to_nat i) as [|j] eqn:Ej; [lia|].
  replace (S j - 1)%nat with j by lia. rewrite insert_tl.
  unfold set_field. rewrite Hn. destruct (Nat.ltb_spec j (length ts)) as [Hlt|Hge].
  - destruct (Z.leb_spec (zlen ts + 1) i); [unfold zlen in *; lia|]. rewrite andb_false_r.
    exists (<[j := v]> cells), rest. rewrite insert_app_l by lia. unfold zlen in *. rewrite length_insert.
    split_and!; [done|done|done|by apply Forall2_insert].
  - destruct (Z.leb_spec (zlen ts + 1) i); [|unfold zlen in *; lia]. rewrite andb_true_r.
    rewrite insert_app_r_alt by lia. pose proof (denotes_null d v t Hd) as Hv. unfold zlen in *.
    destruct (Z.eqb_spec v ADB_NULL) as [->|Hnz]; cbn [negb].
    + rewrite (proj1 Hv eq_refl). exists cells, rest. split_and!; try done. cbn [o_obj].
      rewrite insert_zeros by lia. do 3 f_equal. unfold ADB_NULL.
      rewrite <- replicate_S_end, <- replicate_add. f_equal. lia.
    + assert (E : (match t with ANull => ts | _ => ts ++ replicate (j - length ts) ANull ++ [t] end)
                  = ts ++ replicate (j - length ts) ANull ++ [t]) by (destruct t; [exfalso; by apply Hnz, Hv|done..]).
      rewrite E. exists (cells ++ replicate (j - length ts) 0 ++ [v]), (rest - (j - length ts) - 1)%nat. cbn [o_obj o_num]. unfold zlen.
      rewrite Hl, insert_zeros, <- !app_assoc, !length_app, length_replicate by lia. cbn [length].
      split_and!; [done|lia|lia|]. apply Forall2_app; [done|]. apply Forall2_app; [apply denotes_nulls|].
      constructor; [done|constructor].
Qed.

Lemma adb_wa_append_ok d o max ts v t :
  builds d o max ts -> denotes d v t ->
  exists o' max', adb_wa_append o v = Some o' /\ builds d o' max' (add_item t ts).
Proof.
  intros Hb Hd. unfold adb_wa_append. rewrite (builds_max _ _ _ _ Hb). assert (Hb' := Hb).
  destruct Hb as (cells & rest & Ho & Hn & Hm & Hc). rewrite Ho. cbn [mbind option_bind].
  rewrite (denotes_no_error _ _ _ Hd). pose proof (denotes_null d v t Hd) as Hv. pose proof (zlen_nonneg ts).
  destruct (Z.eqb_spec v ADB_NULL) as [->|Hnz]; [rewrite (proj1 Hv eq_refl); by exists o, max|].
  assert (E : add_item t ts = ts ++ [t]) by (destruct t; [exfalso; by apply Hnz, Hv|done..]). rewrite E.
  pose proof (Forall2_length Hc) as Hl. unfold zlen in *. rewrite Hn.
  destruct (Z.leb_spec max (Z.of_nat (length ts) + 1)).
  - assert (rest = 0%nat) as -> by lia. cbn [replicate]. rewrite app_nil_r.
    eexists _, (max * 2). split; [done|]. exists (cells ++ [v]), (length ts). unfold set_cell, zlen. cbn [o_obj o_num].
    rewrite ztake_all by (unfold zlen; cbn; lia). rewrite length_app. cbn [length].
    split_and!; [|lia|lia|by apply Forall2_app; [|constructor]].
    replace (Z.to_nat (Z.of_nat (length ts) + 1)) with (S (length ts)) by lia.
    cbn [app]. rewrite insert_hd, insert_tl, insert_app_r_alt by lia. rewrite Hl, Nat.sub_diag. replace (Z.to_nat max) with (S (length ts)) by lia.
    cbn. by rewrite <- app_assoc.
  - destruct rest as [|rest]; [lia|]. eexists _, max. split; [done|]. exists (cells ++ [v]), rest. cbn [o_obj o_num].
    unfold set_cell, zlen. rewrite length_app. cbn [length]. split_and!; [|lia|lia|by apply Forall2_app; [|constructor]].
    replace (Z.to_nat (Z.of_nat (length ts) + 1)) with (S (length ts)) by lia.
    rewrite insert_tl, insert_app_r_alt by lia. rewrite Hl, Nat.sub_diag. cbn. by rewrite <- app_assoc.
Qed.

(** Fields without the nulls at the end; an object without fields is null. *)
Fixpoint trim (ts : list aval) : list aval :=
  match ts with
  | [] => []
  | t :: ts => match trim ts, t with [], ANull => [] | ts, t => t :: ts end
  end.

Definition tree_of (ty : Z) (ts : list aval) : aval := match trim ts with [] => ANull | ts => ATree ty ts end.

Lemma trim_snoc_null ts : trim (ts ++ [ANull]) = trim ts.
Proof. induction ts as [|t ts IH]; [done|]. cbn. by rewrite IH. Qed.

Lemma trim_snoc ts t : t <> ANull -> trim (ts ++ [t]) = ts ++ [t].
Proof.
  intros Ht. induction ts as [|u ts IH]; [by destruct t|]. cbn. rewrite IH. by destruct ts.
Qed.

Lemma trim_length ts : (length (trim ts) <= length ts)%nat.
Proof. induction ts as [|t ts IH]; [done|]. cbn. destruct (trim ts), t; cbn in *; lia. Qed.

Lemma trim_null_spec d h cells ts rest : Forall2 (denotes d) cells ts ->
  trim_null (h :: cells ++ rest) (S (length ts)) = S (length (trim ts)) /\
  Forall2 (denotes d) (take (length (trim ts)) cells) (trim ts).
Proof.
  revert cells rest. induction ts as [|t ts IH] using rev_ind; intros cells rest H.
  { apply Forall2_nil_inv_r in H as ->. by split. }
  apply Forall2_app_inv_r in H as (c1 & c2 & H1 & H2 & ->). apply Forall2_cons_inv_r in H2 as (v & c3 & Hv & H3 & ->).
  apply Forall2_nil_inv_r in H3 as ->. pose proof (Forall2_length H1) as Hl. rewrite length_app, Nat.add_1_r.
  rewrite <- app_assoc. cbn [trim_null app]. change (nth (S (length ts)) (h :: c1 ++ v :: rest) 0) with (nth (length ts) (c1 ++ v :: rest) 0).
  rewrite <- Hl at 2. rewrite nth_middle. pose proof (denotes_null d v t Hv) as Hn.
  destruct (Z.eqb_spec v ADB_NULL) as [->|Hz].
  - rewrite (proj1 Hn eq_refl), trim_snoc_null. destruct (IH c1 (ADB_NULL :: rest) H1) as [E1 E2].
    cbn [app] in E1. split; [by cbn [Nat.ltb Nat.leb andb]|]. pose proof (trim_length ts). by rewrite take_app_le by lia.
  - assert (t <> ANull) by (intros ->; by apply Hz, Hn). rewrite trim_snoc by done. rewrite andb_false_r, length_app. cbn [length].
    split; [lia|]. rewrite take_ge by (rewrite length_app; cbn; lia). apply Forall2_app; [done|]. constructor; [done|constructor].
Qed.

Lemma bytes_ok_cells l : bytes_ok (cell_bytes l).
Proof. apply Forall_join, Forall_fmap, Forall_true. intros. apply le_bytes_ok. Qed.

(** The memory of the object after it was written: all its fields are null again. *)
Lemma builds_reset d (cells : list Z) (rest : nat) (num n max : Z) dyn :
  num = zlen cells + 1 -> max = zlen cells + 1 + Z.of_nat rest ->
  exists o', w_obj_done max (Obj (Some (n :: cells ++ replicate rest 0)) num dyn) = Some o' /\ builds d o' max [].
Proof.
  intros Hn Hm. pose proof (zlen_nonneg cells). unfold w_obj_done, adb_wo_reset. cbn [mbind option_bind o_obj o_num o_dynamic].
  eexists. split; [done|]. exists [], (length cells + rest)%nat. cbn [o_obj o_num].
  split_and!; [|done|rewrite zlen_nil; unfold zlen in *; lia|constructor].
  unfold set_cell. replace (Z.to_nat num) with (S (length cells)) by (unfold zlen in *; lia). cbn [replicate app].
  rewrite !insert_hd. unfold zdrop. replace (Z.to_nat num) with (S (length cells)) by (unfold zlen in *; lia).
  cbn [drop]. rewrite drop_app_length. by rewrite <- replicate_add.
Qed.

Lemma adb_w_obj_ok db o max ts ty :
  wadb_ok db -> builds (wa_data db) o max ts -> ty = ADB_TYPE_ARRAY \/ ty = ADB_TYPE_OBJECT ->
  zlen (wa_data db) + 12 + 4 * zlen ts <= ADB_MAX ->
  exists v db' o', __adb_w_obj None db o ty = Some (v, db', o') /\ grows (12 + 4 * zlen ts) db db' /\
    denotes (wa_data db') v (tree_of ty ts) /\ builds (wa_data db') o' max [].
Proof.
  intros Hok Hb Hty Hm. unfold __adb_w_obj. rewrite (builds_max _ _ _ _ Hb).
  destruct Hb as (cells & rest & Ho & Hn & Hx & Hc). cbn [mbind option_bind]. rewrite Ho, Hn. cbn [mbind option_bind].
  pose proof (Forall2_length Hc) as Hl. pose proof (zlen_nonneg (wa_data db)).
  assert (Hlz : zlen cells = zlen ts) by (unfold zlen; lia).
  replace (Z.to_nat (zlen ts + 1)) with (S (length ts)) by (unfold zlen; lia).
  destruct (trim_null_spec (wa_data db) max cells ts (replicate rest 0) Hc) as [-> Ht].
  pose proof (trim_length ts) as Htl. unfold tree_of. destruct (trim ts) as [|t ts'] eqn:Et.
  - cbn [length Nat.ltb Nat.leb]. cbn [mbind option_bind].
    destruct (builds_reset (wa_data db) cells rest (zlen ts + 1) max max (o_dynamic o)) as (o' & E & Hb'); [lia..|].
    rewrite E. exists ADB_NULL, db, o'. pose proof (zlen_nonneg ts). split_and!; [done|apply grows_refl; [done|lia]|done|done].
  - set (ts1 := t :: ts') in *. assert (Hp : (0 < length ts1)%nat) by (cbn; lia).
    replace (1 <? S (length ts1))%nat with true by (symmetry; apply Nat.ltb_lt; lia). unfold set_cell. rewrite insert_hd.
    cbn [take]. rewrite take_app_le by lia. set (cs := take (length ts1) cells).
    change (mjoin (le_bytes 4 <$> Z.of_nat (S (length ts1)) :: cs)) with (cell_bytes (Z.of_nat (S (length ts1)) :: cs)).
    assert (Hz : zlen (cell_bytes (Z.of_nat (S (length ts1)) :: cs)) = 4 * (zlen ts1 + 1)).
    { rewrite zlen_cell_bytes, zlen_cons. unfold cs, zlen. rewrite length_take. lia. }
    assert (Hle : zlen ts1 <= zlen ts) by (unfold zlen; lia). assert (0 < zlen ts1) by (unfold zlen; lia).
    destruct (w_val_ok db [cell_bytes (Z.of_nat (S (length ts1)) :: cs)] 2 ty Hok) as (v & db' & E & Hg & Hw & Hv & Hs);
      rewrite ?join_single, ?Hz in *; [lia|constructor; [apply bytes_ok_cells|constructor]|lia|lia
      |destruct Hty as [-> | ->]; solve_is_type|].
    unfold adb_w_data1. change (2 ^ 2) with 4 in E. rewrite E. cbn [mbind option_bind].
    destruct (builds_reset (wa_data db') cells rest (zlen ts + 1) (Z.of_nat (S (length ts1))) max (o_dynamic o)) as (o' & E' & Hb'); [lia..|].
    rewrite E'. exists v, db', o'. split_and!; [done|eapply grows_weaken, Hg; lia| |done].
    apply denotes_tree. split_and!; [done|done|done|unfold ADB_MAX in *; lia|]. exists cs.
    replace (zlen ts1 + 1) with (Z.of_nat (S (length ts1))) by (unfold zlen; lia). split; [done|].
    eapply list.Forall2_impl; [exact Ht|]. intros c u. by apply denotes_grows with (1 := Hg).
Qed.
