(* ===== verification/AdbValue.v ===== *)
(** Theorems on ADB values (AdbData.v): trees that are written are read back, readers never
    leave the database, and copying between databases preserves trees. *)
From Stdlib Require Import ZArith Lia String.
From stdpp Require Import base numbers list option.
From S2P Require Import Prelude Clib Blob Balloc Dep AdbBlock AdbData.

(** ** Writing and reading a tree *)

(** Writing the fields of an array or object one after the other. *)
Section Fields.
Context (write : wadb -> aval -> option (Z * wadb)) (ty : Z).

Fixpoint w_fields (db : wadb) (o : adb_obj) (i : Z) (ts : list aval) : option (wadb * adb_obj) :=
  match ts with
  | [] => Some (db, o)
  | t :: ts =>
      r ← write db t;
      let '(v, db) := r in
      o ← (if ty =? ADB_TYPE_ARRAY then adb_wa_append o v else adb_wo_val o i v);
      w_fields db o (i + 1) ts
  end.
End Fields.

(** A whole tree, through the interface of the writer: objects have as many fields as are
    needed, arrays start with [array_fields] and grow. *)
Fixpoint w_tree (array_fields : Z) (db : wadb) (t : aval) {struct t} : option (Z * wadb) :=
  match t with
  | ANull => Some (ADB_NULL, db)
  | AInt n => adb_w_int db n
  | ABlob b => adb_w_blob db b
  | ATree ty ts =>
      r ← w_fields (fun db t => w_tree array_fields db t) ty db
            (adb_wo_init (if ty =? ADB_TYPE_ARRAY then array_fields else zlen ts + 1)) ADBI_FIRST ts;
      let '(db, o) := r in
      fst <$> __adb_w_obj None db o ty
  end.

(** Reading a value with the readers of its type, to the given depth. *)
Fixpoint r_tree (depth : nat) (d : bytes) (v : Z) : option aval :=
  match depth with
  | O => None
  | S depth =>
      let t := ADB_VAL_TYPE v in
      if v =? ADB_NULL then Some ANull
      else if (t =? ADB_TYPE_INT) || (t =? ADB_TYPE_INT_32) || (t =? ADB_TYPE_INT_64) then Some (AInt (adb_r_int d v))
      else if (t =? ADB_TYPE_BLOB_8) || (t =? ADB_TYPE_BLOB_16) || (t =? ADB_TYPE_BLOB_32) then ABlob <$> (adb_r_blob d v).1
      else
        cells ← o_obj (adb_r_obj d v);
        ATree t <$> mapM (r_tree depth d) (zdrop ADBI_FIRST cells)
  end.

(** The tree that is read back: empty blobs, arrays and objects are null, arrays have no null
    items and objects no nulls at the end. *)
Definition items (ts : list aval) : list aval := foldl (fun ts t => add_item t ts) [] ts.

Fixpoint norm (t : aval) : aval :=
  match t with
  | ABlob b => blob_tree b
  | ATree ty ts => tree_of ty (if ty =? ADB_TYPE_ARRAY then items (norm <$> ts) else norm <$> ts)
  | t => t
  end.

Fixpoint depth (t : aval) : nat :=
  match t with ATree _ ts => S (foldr (fun t n => Nat.max (depth t) n) O ts) | _ => 1%nat end.

(** The bytes a tree needs at most. *)
Fixpoint weight (t : aval) : Z :=
  match t with
  | ANull => 0
  | AInt _ => 16
  | ABlob b => 12 + zlen b
  | ATree _ ts => 12 + 4 * zlen ts + foldr (fun t n => weight t + n) 0 ts
  end.

Fixpoint tree_ok (t : aval) : Prop :=
  match t with
  | ANull => True
  | AInt n => 0 <= n < 2 ^ 64
  | ABlob b => bytes_ok b
  | ATree ty ts => (ty = ADB_TYPE_ARRAY \/ ty = ADB_TYPE_OBJECT) /\ foldr (fun t P => tree_ok t /\ P) True ts
  end.

Definition weights (ts : list aval) : Z := foldr (fun t n => weight t + n) 0 ts.

Lemma weight_nonneg t : 0 <= weight t.
Proof.
  induction t as [|n|b|ty ts IH] using aval_ind; cbn; try (pose proof (zlen_nonneg b)); try lia.
  assert (0 <= foldr (fun t n => weight t + n) 0 ts) by (induction IH; cbn; lia). pose proof (zlen_nonneg ts). lia.
Qed.

Lemma weights_nonneg ts : 0 <= weights ts.
Proof. induction ts as [|t ts IH]; cbn; [lia|]. pose proof (weight_nonneg t). unfold weights in IH. lia. Qed.

(** *** Fields *)

Lemma trim_nulls ts : ts = trim ts ++ replicate (length ts - length (trim ts)) ANull.
Proof.
  induction ts as [|t ts IH]; [done|]. cbn [trim]. pose proof (trim_length ts).
  destruct (trim ts) as [|u us] eqn:E.
  - destruct t; cbn [length app Nat.sub replicate]; f_equal; rewrite IH at 1; cbn; by rewrite Nat.sub_0_r.
  - replace (match t with ANull => ANull :: u :: us | _ => t :: u :: us end) with (t :: u :: us) by by destruct t.
    cbn [length app]. rewrite Nat.sub_succ. f_equal. exact IH.
Qed.

Lemma trim_idem ts : trim (trim ts) = trim ts.
Proof.
  induction ts as [|t ts IH]; [done|]. cbn [trim]. destruct (trim ts) as [|u us] eqn:E.
  - by destruct t.
  - replace (match t with ANull => ANull :: u :: us | _ => t :: u :: us end) with (t :: u :: us) by by destruct t.
    cbn [trim] in *. rewrite IH. by destruct t.
Qed.

Lemma set_field_trim p t : set_field (length p) t (trim p) = trim (p ++ [t]).
Proof.
  pose proof (trim_length p). unfold set_field. destruct (Nat.ltb_spec (length p) (length (trim p))); [lia|].
  destruct t; [by rewrite trim_snoc_null|rewrite trim_snoc by done; rewrite app_assoc, <- trim_nulls; done..].
Qed.

Lemma items_snoc p t : items (p ++ [t]) = add_item t (items p).
Proof. unfold items. by rewrite foldl_app. Qed.

(** The fields an array or object has after the items [p] were added. *)
Definition fields_of (ty : Z) (p : list aval) : list aval := if ty =? ADB_TYPE_ARRAY then items p else trim p.

Lemma items_length p : (length (items p) <= length p)%nat.
Proof.
  induction p as [|t p IH] using rev_ind; [done|]. rewrite items_snoc, length_app. destruct t; cbn; rewrite ?length_app; cbn; lia.
Qed.

Lemma fields_length ty p : zlen (fields_of ty p) <= zlen p.
Proof. unfold fields_of, zlen. pose proof (items_length p). pose proof (trim_length p). case_match; lia. Qed.

Lemma add_field_ok d o max ty p v t :
  builds d o max (fields_of ty p) -> denotes d v t -> (ty =? ADB_TYPE_ARRAY) = false -> zlen p + 1 < max ->
  exists o', adb_wo_val o (zlen p + 1) v = Some o' /\ builds d o' max (fields_of ty (p ++ [t])).
Proof.
  intros Hb Hd Ht Hm. unfold fields_of in *. rewrite Ht in *. pose proof (zlen_nonneg p).
  destruct (adb_wo_val_ok d o max (trim p) (zlen p + 1) v t Hb Hd) as (o' & E & Hb'); [lia|].
  exists o'. split; [done|]. replace (Z.to_nat (zlen p + 1) - 1)%nat with (length p) in Hb' by (unfold zlen; lia).
  by rewrite set_field_trim in Hb'.
Qed.

Lemma tree_of_fields ty p : tree_of ty (fields_of ty p) = tree_of ty (if ty =? ADB_TYPE_ARRAY then items p else p).
Proof. unfold fields_of, tree_of. destruct (ty =? ADB_TYPE_ARRAY); [done|]. by rewrite trim_idem. Qed.

Section Write.
Context (array_fields : Z) (Ha : 1 <= array_fields).

(** A tree is written where [w_tree] says. *)
Definition written (t : aval) : Prop := forall db,
  wadb_ok db -> tree_ok t -> zlen (wa_data db) + weight t <= ADB_MAX ->
  exists v db', w_tree array_fields db t = Some (v, db') /\ grows (weight t) db db' /\ denotes (wa_data db') v (norm t).

Lemma w_fields_ok ty max ts : Forall written ts -> foldr (fun t P => tree_ok t /\ P) True ts ->
  forall db o p, wadb_ok db -> zlen (wa_data db) + weights ts <= ADB_MAX ->
  (exists m, builds (wa_data db) o m (fields_of ty p) /\ ((ty =? ADB_TYPE_ARRAY) = false -> m = max)) -> zlen p + zlen ts < max ->
  exists db' o', w_fields (fun db t => w_tree array_fields db t) ty db o (zlen p + 1) ts = Some (db', o') /\
    grows (weights ts) db db' /\ exists m, builds (wa_data db') o' m (fields_of ty (p ++ (norm <$> ts))).
Proof.
  induction 1 as [|t ts Ht _ IH]; intros Hok db o p Hdb Hm (m & Hb & Hmax) Hp.
  { exists db, o. split; [done|]. split; [by apply grows_refl|]. rewrite app_nil_r. by exists m. }
  cbn in Hok, Hm. destruct Hok as [Ht' Hts]. rewrite zlen_cons in Hp. fold (weights ts) in *.
  pose proof (weights_nonneg ts) as Hwn. pose proof (zlen_nonneg ts).
  destruct (Ht db Hdb Ht') as (v & db1 & E & Hg & Hd); [lia|]. cbn [w_fields]. rewrite E. cbn [mbind option_bind].
  apply (builds_extends _ (wa_data db1)) in Hb; [|by apply (gr_extends _ _ _ Hg)].
  assert (Ho : exists o' m', (if ty =? ADB_TYPE_ARRAY then adb_wa_append o v else adb_wo_val o (zlen p + 1) v) = Some o' /\
    builds (wa_data db1) o' m' (fields_of ty (p ++ [norm t])) /\ ((ty =? ADB_TYPE_ARRAY) = false -> m' = max)).
  { destruct (ty =? ADB_TYPE_ARRAY) eqn:Et.
    - unfold fields_of in *. rewrite Et in *.
      destruct (adb_wa_append_ok _ o m (items p) v (norm t) Hb Hd) as (o' & m' & Eo & Hb'). exists o', m'. by rewrite items_snoc.
    - rewrite (Hmax eq_refl) in Hb. destruct (add_field_ok _ o max ty p v (norm t) Hb Hd Et) as (o' & Eo & Hb'); [lia|].
      by exists o', max. }
  destruct Ho as (o' & m' & -> & Hb' & Hm'). cbn [mbind option_bind].
  destruct (IH Hts db1 o' (p ++ [norm t])) as (db2 & o2 & E2 & Hg2 & Hb2).
  - apply (gr_ok _ _ _ Hg).
  - destruct (gr_size _ _ _ Hg). lia.
  - by exists m'.
  - rewrite zlen_app, zlen_cons, zlen_nil. lia.
  - rewrite zlen_app, zlen_cons, zlen_nil, Z.add_0_l in E2. rewrite E2. exists db2, o2. split; [done|].
    split; [by eapply grows_trans|]. by rewrite <- app_assoc in Hb2.
Qed.

Lemma w_tree_ok t : written t.
Proof.
  induction t as [|n|b|ty ts IH] using aval_ind; intros db Hdb Hok Hm.
  - exists ADB_NULL, db. split; [done|]. split; [by apply grows_refl|done].
  - by apply adb_w_int_ok.
  - cbn in Hok, Hm. destruct (adb_w_blob_vec_ok db [b] Hdb) as (v & db' & E & Hg & Hd);
      rewrite ?join_single in *; [cbn; lia|by constructor|lia|]. by exists v, db'.
  - cbn in Hok, Hm. destruct Hok as [Hty Hts]. fold (weights ts) in Hm. pose proof (weights_nonneg ts). pose proof (zlen_nonneg ts).
    cbn [w_tree]. destruct (w_fields_ok ty (zlen ts + 1) ts IH Hts db
      (adb_wo_init (if ty =? ADB_TYPE_ARRAY then array_fields else zlen ts + 1)) []) as (db1 & o1 & E & Hg & m & Hb).
    + done.
    + lia.
    + exists (if ty =? ADB_TYPE_ARRAY then array_fields else zlen ts + 1). split; [|by intros ->].
      replace (fields_of ty []) with (@nil aval) by (unfold fields_of; by case_match).
      apply builds_init. case_match; lia.
    + rewrite zlen_nil. lia.
    + change (zlen [] + 1) with ADBI_FIRST in E. rewrite E. cbn [mbind option_bind]. cbn [app] in Hb.
      pose proof (fields_length ty (norm <$> ts)) as Hfl. rewrite zlen_fmap in Hfl. destruct (gr_size _ _ _ Hg).
      destruct (adb_w_obj_ok db1 o1 m (fields_of ty (norm <$> ts)) ty (gr_ok _ _ _ Hg) Hb Hty) as (v & db2 & o2 & E2 & Hg2 & Hd & _); [lia|].
      rewrite E2. cbn [fmap option_fmap option_map fst]. exists v, db2. split; [done|]. split.
      * cbn [weight]. fold (weights ts). eapply grows_weaken, grows_trans; [|exact Hg|exact Hg2]. lia.
      * cbn [norm]. by rewrite <- tree_of_fields.
Qed.
End Write.

(** ** Reading back *)

Lemma mapM_denotes (f : Z -> option aval) d cells ts :
  Forall2 (denotes d) cells ts -> (forall c t, t ∈ ts -> denotes d c t -> f c = Some t) -> mapM f cells = Some ts.
Proof.
  induction 1 as [|c t cells ts Hc _ IH]; intros Hf; [done|]. cbn [mapM]. rewrite (Hf c t) by (done || by left).
  cbn [mbind option_bind]. rewrite IH by (intros; apply Hf; [by right|done]). done.
Qed.

Lemma depth_field ts t : t ∈ ts -> (depth t <= foldr (fun t n => Nat.max (depth t) n) O ts)%nat.
Proof. induction 1; cbn; lia. Qed.

Lemma r_tree_denotes d t n v : (depth t <= n)%nat -> denotes d v t -> r_tree n d v = Some t.
Proof.
  revert n v. induction t as [|i|b|ty ts IH] using aval_ind; intros n v Hn Hd;
    (destruct n as [|n]; [cbn in Hn; lia|]); cbn [r_tree]; assert (Hz := denotes_null d v _ Hd).
  - rewrite (proj2 Hz eq_refl). done.
  - destruct (Z.eqb_spec v ADB_NULL) as [E|_]; [by apply Hz in E|]. rewrite (adb_r_int_denotes d v i Hd).
    destruct Hd as (_ & [(-> & _)|[(-> & _)|(-> & _)]]); done.
  - destruct (Z.eqb_spec v ADB_NULL) as [E|_]; [by apply Hz in E|]. rewrite (adb_r_blob_denotes d v b Hd).
    destruct Hd as (_ & m & Ht & _). unfold is_blob_type in Ht. rewrite !elem_of_cons, elem_of_nil in Ht.
    by destruct Ht as [[= -> _]|[[= -> _]|[[= -> _]|[]]]].
  - destruct (Z.eqb_spec v ADB_NULL) as [E|_]; [by apply Hz in E|].
    destruct (adb_r_obj_denotes d v ty ts Hd) as (cells & Hc & ->). apply denotes_tree in Hd as (_ & Et & Hty & _).
    rewrite Et. cbn [mbind option_bind o_obj]. change (zdrop ADBI_FIRST (zlen ts + 1 :: cells)) with cells.
    assert (Hm : mapM (r_tree n d) cells = Some ts).
    { apply (mapM_denotes _ d); [done|]. intros c t Ht Hc'. rewrite list.Forall_forall in IH. apply IH; [done| |done].
      pose proof (depth_field ts t Ht). cbn in Hn. lia. }
    rewrite Hm. by destruct Hty as [-> | ->].
Qed.

Lemma adb_w_root_ok db v : wadb_ok db -> is_word v ->
  exists db', adb_w_root db v = Some db' /\ wadb_ok db' /\ extends (wa_data db) (wa_data db') /\ adb_r_root (wa_data db') = v.
Proof.
  intros Hok Hv. unfold adb_w_root, adb_r_root, adb_r_root_mem. pose proof (wo_hdr db Hok) as Hh. unfold sizeof_hdr in *.
  destruct (Z.ltb_spec (zlen (wa_data db)) 8); [lia|]. eexists. split; [done|]. cbn [wa_data set_wa_data].
  set (d := wa_data db) in *. set (d' := ztake 4 d ++ le_bytes 4 v ++ zdrop 8 d).
  assert (L4 : zlen (ztake 4 d) = 4) by (apply zlen_ztake; lia).
  assert (L : zlen d' = zlen d). { unfold d'. rewrite !zlen_app, zlen_le_bytes, L4, zlen_zdrop by lia. lia. }
  split; [|split].
  - destruct Hok as [Hb _ Hf Ha Hnb Hc]. constructor; cbn [wa_data set_wa_data wa_alloc_len wa_num_buckets wa_bucket]; rewrite ?L; try done.
    + unfold d'. apply Forall_app. split; [by apply Forall_take|]. apply Forall_app. split; [apply le_bytes_ok|by apply Forall_drop].
    + eapply list.Forall_impl; [exact Hc|]. intros l Hl. eapply list.Forall_impl; [exact Hl|]. intros e. apply entry_ok_mono. fold d. lia.
  - exists (ztake 8 d), (ztake 4 d ++ le_bytes 4 v), (zdrop 8 d), []. rewrite app_nil_r, <- app_assoc, ztake_zdrop.
    split_and!; [done|done|change sizeof_hdr with 8; apply zlen_ztake; lia|]. by rewrite zlen_app, zlen_le_bytes, L4.
  - rewrite L. destruct (Z.ltb_spec (zlen d) 8); [lia|]. unfold d'. rewrite zdrop_app_exact by done. rewrite load_some by (rewrite zlen_app, zlen_le_bytes; unfold zlen; lia). by apply (le_read 4).
Qed.

Lemma adb_w_init_dynamic_ok schema nb : 0 < nb ->
  exists db, adb_w_init_dynamic schema nb = Some db /\ wadb_ok db /\ zlen (wa_data db) = sizeof_hdr /\ wa_no_cache db = 0.
Proof.
  intros Hn. unfold adb_w_init_dynamic, adb_w_raw, w_pad, w_reserve. destruct (Z.eqb_spec nb 0) as [|_]; [lia|].
  cbn [wa_data wa_alloc_len wa_num_buckets]. change (zlen [] + sizeof_hdr) with 8. change (zlen []) with 0.
  change (u64 (ROUND_UP 0 sizeof_hdr - 0) =? 0) with true. cbn [mbind option_bind wa_data wa_alloc_len wa_num_buckets].
  change (0 <? 0 + sizeof_hdr) with true. cbn [orb]. destruct (Z.eqb_spec nb 0) as [|_]; [lia|].
  change (double_alloc 33 (0 + sizeof_hdr) (if 0 =? 0 then 8192 else 0)) with (Some 8192). cbn [mbind option_bind].
  eexists. split; [done|]. split; [|done].
  constructor; cbn [wa_data wa_alloc_len wa_num_buckets wa_bucket set_wa_data set_wa_alloc_len].
  - apply (bool_decide_eq_true_1 _). by vm_compute.
  - done.
  - done.
  - exists 0. done.
  - cbn. unfold zlen. rewrite length_replicate. lia.
  - cbn. apply Forall_replicate. constructor.
Qed.

(** ** Copying *)

Lemma stored_take d o b : stored d o b -> ztake (zlen b) (zdrop o d) = b.
Proof. by intros (_ & _ & ?). Qed.

Lemma deref_take d v b : stored d (ADB_VAL_VALUE v) b -> ztake (zlen b) <$> adb_r_deref d v 0 (zlen b) = Some b.
Proof. intros H. destruct (deref_stored d v b H) as (r & ->). cbn. by rewrite ztake_app. Qed.

(** Data copied with its value: the new value has the same type and stands for the same bytes. *)
Lemma copy_data_ok db src v k b :
  wadb_ok db -> 0 <= k <= 3 -> bytes_ok b -> 0 < zlen b -> is_word v -> stored src (ADB_VAL_VALUE v) b ->
  zlen (wa_data db) + 8 + zlen b <= ADB_MAX ->
  exists v' db', copy_data db src v (zlen b) (2 ^ k) = Some (v', db') /\ grows (8 + zlen b) db db' /\
    is_word v' /\ ADB_VAL_TYPE v' = ADB_VAL_TYPE v /\ stored (wa_data db') (ADB_VAL_VALUE v') b.
Proof.
  intros Hok Hk Hb Hp Hw Hs Hm. unfold copy_data. rewrite (deref_take _ _ _ Hs). cbn [adb_w_data1].
  destruct (w_val_ok db [b] k (ADB_VAL_TYPE v) Hok Hk) as (v' & db' & H); rewrite ?join_single in *; [|done|done| |].
  - by repeat constructor.
  - exists (v / 2 ^ 28). unfold is_word in Hw. rewrite adb_val_type by done. split; [div_mod_lia|done].
  - by exists v', db'.
Qed.

Lemma copy_blob_size_ok src v (n : nat) b : zlen b < 256 ^ Z.of_nat n ->
  stored src (ADB_VAL_VALUE v) (le_bytes n (zlen b) ++ b) ->
  copy_blob_size (Z.of_nat n) src v = Some (zlen (le_bytes n (zlen b) ++ b)).
Proof.
  intros Hb Hs. pose proof (zlen_nonneg b). apply stored_app in Hs as [H1 _]. apply deref_stored in H1 as (r & E).
  rewrite zlen_le_bytes in E. unfold copy_blob_size. rewrite E, (deref_load _ _ _ _ E) by lia.
  cbn [mbind option_bind]. rewrite le_read by lia. by rewrite zlen_app, zlen_le_bytes.
Qed.

(** The copy of a blob whose length takes [n] bytes. *)
Lemma copy_blob_ok db src v (n : nat) k b :
  wadb_ok db -> 0 <= k <= 3 -> (n <= 4)%nat -> is_blob_type (ADB_VAL_TYPE v) (Z.of_nat n) -> is_word v -> bytes_ok b ->
  0 < zlen b < 256 ^ Z.of_nat n -> stored src (ADB_VAL_VALUE v) (le_bytes n (zlen b) ++ b) ->
  zlen (wa_data db) + 12 + zlen b <= ADB_MAX ->
  exists v' db', (sz ← copy_blob_size (Z.of_nat n) src v; copy_data db src v sz (2 ^ k)) = Some (v', db') /\
    grows (12 + zlen b) db db' /\ denotes (wa_data db') v' (ABlob b).
Proof.
  intros Hok Hk Hn Ht Hw Hb Hl Hs Hm. rewrite (copy_blob_size_ok src v n b) by (done || lia). cbn [mbind option_bind].
  assert (Hz : zlen (le_bytes n (zlen b) ++ b) = Z.of_nat n + zlen b) by by rewrite zlen_app, zlen_le_bytes.
  destruct (copy_data_ok db src v k (le_bytes n (zlen b) ++ b) Hok Hk) as (v' & db' & E & Hg & Hw' & Ht' & Hs');
    [apply Forall_app; split; [apply le_bytes_ok|done]|lia|done|done|lia|].
  exists v', db'. split; [done|]. split; [eapply grows_weaken, Hg; lia|]. split; [done|].
  exists (Z.of_nat n). rewrite Ht', Nat2Z.id. done.
Qed.

Definition copied (src : bytes) (t : aval) : Prop := forall fuel db v,
  wadb_ok db -> denotes src v t -> (depth t <= fuel)%nat -> zlen (wa_data db) + weight t <= ADB_MAX ->
  exists v' db', adb_w_copy fuel false src db v = Some (v', db') /\ grows (weight t) db db' /\ denotes (wa_data db') v' t.

Lemma copy_fields_ok src fuel ts : Forall (copied src) ts -> forall db cells,
  wadb_ok db -> Forall2 (denotes src) cells ts -> (foldr (fun t n => Nat.max (depth t) n) O ts <= fuel)%nat ->
  zlen (wa_data db) + weights ts <= ADB_MAX ->
  exists vals db', copy_fields (adb_w_copy fuel false src) db cells = Some (vals, db') /\ grows (weights ts) db db' /\
    Forall2 (denotes (wa_data db')) vals ts.
Proof.
  induction 1 as [|t ts Ht _ IH]; intros db cells Hok Hc Hf Hm.
  { apply Forall2_nil_inv_r in Hc as ->. exists [], db. split; [done|]. split; [by apply grows_refl|constructor]. }
  apply Forall2_cons_inv_r in Hc as (c & cells' & Hd & Hc & ->). cbn in Hf, Hm. fold (weights ts) in Hm.
  pose proof (weights_nonneg ts). destruct (Ht fuel db c Hok Hd) as (v & db1 & E & Hg & Hd'); [lia|lia|].
  destruct (gr_size _ _ _ Hg). destruct (IH db1 cells') as (vals & db2 & E2 & Hg2 & Hds); [apply Hg|done|lia|lia|].
  cbn [copy_fields]. rewrite E. cbn [mbind option_bind]. rewrite E2. cbn [mbind option_bind]. exists (v :: vals), db2.
  split; [done|]. split; [by eapply grows_trans|]. constructor; [by eapply denotes_grows|done].
Qed.

Lemma copy_int_ok src n : copied src (AInt n).
Proof.
  intros fuel db v Hok Hd Hf Hm. destruct fuel as [|fuel]; [cbn in Hf; lia|]. cbn [adb_w_copy weight] in *.
  destruct Hd as (Hw & [(Ht & Hv)|[(Ht & Hn & Hs)|(Ht & Hn & Hs)]]); rewrite Ht.
  - exists v, db. split; [done|]. split; [by apply grows_refl|]. split; [done|]. by left.
  - destruct (copy_data_ok db src v 2 (le_bytes 4 n) Hok) as (v' & db' & E & Hg & Hw' & Ht' & Hs');
      rewrite ?zlen_le_bytes in *; [lia|apply le_bytes_ok|lia|done|done|lia|].
    exists v', db'. split; [exact E|]. split; [by eapply grows_weaken, Hg|]. split; [done|]. right. left. by rewrite Ht'.
  - destruct (copy_data_ok db src v 3 (le_bytes 8 n) Hok) as (v' & db' & E & Hg & Hw' & Ht' & Hs');
      rewrite ?zlen_le_bytes in *; [lia|apply le_bytes_ok|lia|done|done|lia|].
    exists v', db'. split; [exact E|]. split; [by eapply grows_weaken, Hg|]. split; [done|]. right. right. by rewrite Ht'.
Qed.

Lemma adb_w_copy_tree fuel src db v : ADB_VAL_TYPE v = ADB_TYPE_ARRAY \/ ADB_VAL_TYPE v = ADB_TYPE_OBJECT ->
  adb_w_copy (S fuel) false src db v =
  (cells ← o_obj (adb_r_obj src v);
   r ← copy_fields (adb_w_copy fuel false src) db (zdrop ADBI_FIRST cells);
   let '(vals, db) := r in
   val_of (ADB_VAL_TYPE v) (adb_w_data1 db (Some (mjoin (le_bytes 4 <$> ztake ADBI_FIRST cells ++ vals))) 4)).
Proof. intros [E|E]; cbn [adb_w_copy]; rewrite E; reflexivity. Qed.

Lemma copy_tree_ok src ty ts : Forall (copied src) ts -> copied src (ATree ty ts).
Proof.
  intros IH fuel db v Hok Hd Hf Hm. destruct fuel as [|fuel]; [cbn in Hf; lia|]. cbn [weight depth] in *. fold (weights ts) in *.
  destruct (adb_r_obj_denotes src v ty ts Hd) as (cells & Hc & Eo). apply denotes_tree in Hd as (Hw & Ht & Hty & Hl & _).
  pose proof (zlen_nonneg ts). pose proof (weights_nonneg ts).
  destruct (copy_fields_ok src fuel ts IH db cells Hok Hc) as (vals & db1 & E & Hg & Hds); [lia|lia|].
  destruct (gr_size _ _ _ Hg). assert (Hlv : zlen vals = zlen ts) by (unfold zlen; by rewrite (Forall2_length Hds)).
  assert (Hz : zlen (cell_bytes (zlen ts + 1 :: vals)) = 4 * (zlen ts + 1)) by (rewrite zlen_cell_bytes, zlen_cons; lia).
  destruct (w_val_ok db1 [cell_bytes (zlen ts + 1 :: vals)] 2 ty (gr_ok _ _ _ Hg)) as (v' & db2 & E2 & Hg2 & Hw' & Ht' & Hs');
    rewrite ?join_single, ?Hz in *; [lia|constructor; [apply bytes_ok_cells|constructor]|lia|lia
    |destruct Hty as [-> | ->]; solve_is_type|].
  rewrite adb_w_copy_tree by (rewrite Ht; done). rewrite Eo. cbn [mbind option_bind o_obj].
  change (zdrop ADBI_FIRST (zlen ts + 1 :: cells)) with cells. rewrite E. cbn [mbind option_bind].
  change (ztake ADBI_FIRST (zlen ts + 1 :: cells) ++ vals) with (zlen ts + 1 :: vals). rewrite Ht.
  exists v', db2. split; [exact E2|]. split; [eapply grows_weaken, grows_trans; [|exact Hg|exact Hg2]; lia|].
  apply denotes_tree. split_and!; try done. exists vals. split; [done|].
  eapply list.Forall2_impl; [exact Hds|]. intros c u. by apply denotes_grows with (1 := Hg2).
Qed.

Lemma copy_blob_all src b : copied src (ABlob b).
Proof.
  intros fuel db v Hok Hd Hf Hm. destruct fuel as [|fuel]; [cbn in Hf; lia|]. cbn [adb_w_copy weight] in *.
  destruct Hd as (Hw & n & Ht & Hl & Hb & Hs). assert (Ht' := Ht). unfold is_blob_type in Ht'.
  rewrite !elem_of_cons, elem_of_nil in Ht'. destruct Ht' as [[= Et ->]|[[= Et ->]|[[= Et ->]|[]]]]; rewrite Et.
  - apply (copy_blob_ok db src v 1 0 b); [done|lia|lia|done|done|done|done|done|lia].
  - apply (copy_blob_ok db src v 2 1 b); [done|lia|lia|done|done|done|done|done|lia].
  - apply (copy_blob_ok db src v 4 2 b); [done|lia|lia|done|done|done|done|done|lia].
Qed.

Lemma all_copied src t : copied src t.
Proof.
  induction t as [|n|b|ty ts IH] using aval_ind; [|apply copy_int_ok|apply copy_blob_all|by apply copy_tree_ok].
  intros fuel db v Hok Hd Hf Hm. destruct fuel as [|fuel]; [cbn in Hf; lia|]. destruct Hd as [_ ->].
  exists ADB_NULL, db. split; [done|]. split; [by apply grows_refl|done].
Qed.

(** ** Properties *)

(** C18: a tree of integers, blobs, arrays and objects that is written to a database with the
    functions of the writer (adb_w_int, adb_w_blob, adb_wo_val, adb_wa_append, adb_w_obj,
    adb_w_arr) and made the root (adb_w_root) is what the readers (adb_r_root, adb_r_int, adb_r_blob,
    adb_r_obj) find there, up to empty values, which are null; writing succeeds as long as the
    database stays below 256 MiB, and every value that was written before still stands for the
    same tree. *)
Theorem adb_tree_roundtrip array_fields db t :
  1 <= array_fields -> wadb_ok db -> tree_ok t -> zlen (wa_data db) + weight t <= ADB_MAX ->
  exists v db1 db2, w_tree array_fields db t = Some (v, db1) /\ adb_w_root db1 v = Some db2 /\
    wadb_ok db2 /\ adb_r_root (wa_data db2) = v /\
    r_tree (depth (norm t)) (wa_data db2) v = Some (norm t) /\
    forall v0 t0, denotes (wa_data db) v0 t0 -> denotes (wa_data db2) v0 t0.
Proof.
  intros Ha Hok Ht Hm. destruct (w_tree_ok array_fields Ha t db Hok Ht Hm) as (v & db1 & E & Hg & Hd).
  destruct (adb_w_root_ok db1 v (gr_ok _ _ _ Hg) (denotes_word _ _ _ Hd)) as (db2 & E2 & Hok2 & He & Hr).
  exists v, db1, db2. split_and!; try done.
  - apply r_tree_denotes; [done|]. by eapply denotes_extends.
  - intros v0 t0 H0. eapply denotes_extends; [exact He|]. by eapply denotes_grows.
Qed.

(** adb_w_copy of a value of another database copies the whole tree the value stands for:
    the new value stands for the same tree in the destination, and the values that
    were there before stand for what they did. *)
Theorem adb_w_copy_tree_same src db v t fuel :
  wadb_ok db -> denotes src v t -> (depth t <= fuel)%nat -> zlen (wa_data db) + weight t <= ADB_MAX ->
  exists v' db', adb_w_copy fuel false src db v = Some (v', db') /\ wadb_ok db' /\ denotes (wa_data db') v' t /\
    forall v0 t0, denotes (wa_data db) v0 t0 -> denotes (wa_data db') v0 t0.
Proof.
  intros Hok Hd Hf Hm. destruct (all_copied src t fuel db v Hok Hd Hf Hm) as (v' & db' & E & Hg & Hd').
  exists v', db'. split_and!; [done|apply Hg|done|]. intros v0 t0. by apply denotes_grows with (1 := Hg).
Qed.

Lemma copy_fields_none v cells copy db : v ∈ cells -> (forall db, copy db v = None) -> copy_fields copy db cells = None.
Proof.
  intros Hv Hc. revert db. induction Hv as [v cells|v c cells _ IH]; intros db; cbn [copy_fields].
  - by rewrite Hc.
  - destruct (copy db c) as [[c' db1]|]; [|done]. cbn [mbind option_bind]. by rewrite IH.
Qed.

(** an array or object that has itself among its fields is never copied: adb_w_copy has no
    bound on the depth and does not notice the cycle, so that a file whose values form one, which
    the parser accepts, makes the recursion endless. *)
Theorem adb_w_copy_cycle src v cells n dyn :
  ADB_VAL_TYPE v = ADB_TYPE_ARRAY \/ ADB_VAL_TYPE v = ADB_TYPE_OBJECT ->
  adb_r_obj src v = Obj (Some cells) n dyn -> v ∈ zdrop ADBI_FIRST cells ->
  forall fuel db, adb_w_copy fuel false src db v = None.
Proof.
  intros Ht Eo Hv fuel. induction fuel as [|fuel IH]; intros db; [done|].
  rewrite adb_w_copy_tree, Eo by done. cbn [mbind option_bind o_obj]. by rewrite (copy_fields_none v).
Qed.

(** *** Sharing *)

Lemma search_bucket_same d d' vec hash len al i l :
  (forall e, e ∈ l -> e_len e <> 0 -> e_len e = len ->
     iovec_memcmp vec (zdrop (e_offs e) d') = iovec_memcmp vec (zdrop (e_offs e) d)) ->
  search_bucket d' vec hash len al i l = search_bucket d vec hash len al i l.
Proof.
  revert i. induction l as [|e l IH]; intros i H; [done|]. cbn [search_bucket].
  destruct (Z.eqb_spec (e_len e) 0); [done|]. rewrite IH by (intros; apply H; [by right|done|done]).
  destruct (negb (e_hash e =? hash)); [done|].
  destruct (Z.eqb_spec (e_len e) len); [|done]. rewrite H by (done || by left). done.
Qed.

(** The search finds the entry it was told to use. *)
Lemma search_bucket_found d vec hash len al i j l e :
  search_bucket d vec hash len al i l = Add j -> e_hash e = hash -> e_len e = len -> len <> 0 ->
  iovec_memcmp vec (zdrop (e_offs e) d) = 0 -> e_offs e .& (al - 1) = 0 ->
  search_bucket d vec hash len al i (set_entry (j - i) e l) = Found (e_offs e).
Proof.
  intros Hs Hh Hl Hz Hm Ha.
  assert (He : forall i r, search_bucket d vec hash len al i (e :: r) = Found (e_offs e)).
  { intros k r. cbn [search_bucket]. rewrite Hh, Hl, Hm, Ha, !Z.eqb_refl.
    destruct (Z.eqb_spec len 0); [done|]. done. }
  pose proof (search_bucket_spec d vec hash len al i l) as Hb. rewrite Hs in Hb.
  unfold set_entry. revert i Hs Hb. induction l as [|x l IH]; intros i Hs Hb; cbn [search_bucket] in Hs.
  - injection Hs as <-. rewrite Nat.sub_diag. cbn [length Nat.ltb Nat.leb app]. apply He.
  - destruct (Z.eqb_spec (e_len x) 0) as [E0|E0].
    { injection Hs as <-. rewrite Nat.sub_diag. cbn [length Nat.ltb Nat.leb]. apply He. }
    assert (Hrec : search_bucket d vec hash len al (S i) l = Add j ->
      search_bucket d vec hash len al (S i) (<[(j - S i)%nat := e]> (if (j - S i <? length l)%nat then l else l ++ replicate BUCKET_ENTRIES (Entry 0 0 0)))
        = Found (e_offs e) /\
      <[(j - i)%nat := e]> (if (j - i <? length (x :: l))%nat then x :: l else (x :: l) ++ replicate BUCKET_ENTRIES (Entry 0 0 0)) =
      x :: <[(j - S i)%nat := e]> (if (j - S i <? length l)%nat then l else l ++ replicate BUCKET_ENTRIES (Entry 0 0 0))).
    { intros Hs'. pose proof (search_bucket_spec d vec hash len al (S i) l) as Hb'. rewrite Hs' in Hb'.
      split; [by apply IH|]. replace (j - i)%nat with (S (j - S i)) by lia. cbn [length].
      change (S (j - S i) <? S (length l))%nat with (j - S i <? length l)%nat.
      by destruct (j - S i <? length l)%nat. }
    destruct (negb (e_hash x =? hash)) eqn:Ex.
    { destruct (Hrec Hs) as [E1 ->]. cbn [search_bucket]. destruct (Z.eqb_spec (e_len x) 0); [done|]. by rewrite Ex. }
    destruct ((e_len x =? len) && (iovec_memcmp vec (zdrop (e_offs x) d) =? 0)) eqn:Em.
    { destruct (negb (e_offs x .& (al - 1) =? 0)); [|done]. injection Hs as <-. rewrite Nat.sub_diag.
      cbn [length Nat.ltb Nat.leb]. apply He. }
    destruct (Hrec Hs) as [E1 ->]. cbn [search_bucket]. destruct (Z.eqb_spec (e_len x) 0); [done|]. by rewrite Ex, Em.
Qed.

Lemma iovec_memcmp_take vec b : iovec_memcmp vec (ztake (zlen (mjoin vec)) b) = iovec_memcmp vec b.
Proof.
  revert b. induction vec as [|v vec IH]; intros b; [done|]. cbn [iovec_memcmp]. rewrite join_cons, zlen_app.
  pose proof (zlen_nonneg v). pose proof (zlen_nonneg (mjoin vec)).
  replace (ztake (zlen v) (ztake (zlen v + zlen (mjoin vec)) b)) with (ztake (zlen v) b).
  2: { unfold ztake. rewrite take_take. f_equal. lia. }
  replace (zdrop (zlen v) (ztake (zlen v + zlen (mjoin vec)) b)) with (ztake (zlen (mjoin vec)) (zdrop (zlen v) b)).
  2: { unfold ztake, zdrop. rewrite take_drop_commute. do 2 f_equal. lia. }
  by rewrite IH.
Qed.

Lemma extends_slice d d' o n : extends d d' -> sizeof_hdr <= o -> 0 <= n -> o + n <= zlen d ->
  ztake n (zdrop o d') = ztake n (zdrop o d).
Proof.
  intros He Ho Hn Hl. unfold sizeof_hdr in Ho.
  assert (L : zlen (ztake n (zdrop o d)) = n) by (apply zlen_ztake; rewrite zlen_zdrop; lia).
  assert (Hs : stored d o (ztake n (zdrop o d))) by (split_and!; [done|lia|by rewrite L]).
  apply (extends_stored _ d') in Hs as (_ & _ & Hs); [|done]. by rewrite L in Hs.
Qed.

Lemma iovec_memcmp_self vec : iovec_memcmp vec (mjoin vec) = 0.
Proof. induction vec as [|v vec IH]; [done|]. cbn [iovec_memcmp]. by rewrite join_cons, ztake_app, memcmp_refl, zdrop_app. Qed.

(** The bucket of some data. *)
Definition bucket_of (db : wadb) (vec : list bytes) : nat := Z.to_nat (iovec_hash vec mod wa_num_buckets db).

Lemma bucket_of_lt db vec : wadb_ok db -> (bucket_of db vec < length (wa_bucket db))%nat.
Proof.
  intros Hok. destruct (wo_buckets db Hok) as [Hnb Hnb']. unfold bucket_of.
  pose proof (Z.mod_pos_bound (iovec_hash vec) (wa_num_buckets db) Hnb). unfold zlen in Hnb'. lia.
Qed.

(** With the hash table in use, data is found or entered in the table. *)
Lemma adb_w_data_cases db vec k offs db' (len := zlen (mjoin vec)) (bucket := nth (bucket_of db vec) (wa_bucket db) []) :
  wadb_ok db -> wa_no_cache db = 0 -> 0 <= k <= 3 -> Forall bytes_ok vec -> zlen (wa_data db) + 8 + len <= ADB_MAX ->
  adb_w_data db vec (2 ^ k) = Some (offs, db') ->
  db' = db \/
  wa_num_buckets db' = wa_num_buckets db /\ exists i, search_bucket (wa_data db) vec (iovec_hash vec) len (2 ^ k) 0 bucket = Add i /\
    wa_bucket db' = <[bucket_of db vec := set_entry i (Entry (iovec_hash vec) offs len) bucket]> (wa_bucket db).
Proof.
  intros Hok Hnc Hk Hv Hm E. pose proof (zlen_nonneg (wa_data db)) as Hz. pose proof (zlen_nonneg (mjoin vec)).
  assert (HM : ADB_MAX = 2 ^ 28) by done. unfold adb_w_data in E. rewrite Hnc in E. cbn [Z.eqb negb] in E.
  rewrite iovec_len_spec in E by lia. fold (bucket_of db vec) bucket len in E.
  destruct (search_bucket (wa_data db) vec (iovec_hash vec) len (2 ^ k) 0 bucket) as [o|i] eqn:Es; [left; by injection E|right].
  destruct (adb_w_raw_ok db vec k Hok Hk Hv Hm) as (n & Hn & Er & _). fold len in Er. rewrite Er in E. cbn [mbind option_bind] in E.
  apply (inj Some), pair_equal_spec in E as [<- <-]. split; [done|]. exists i. split; [done|].
  cbn [wa_bucket set_wa_bucket set_wa_data set_wa_alloc_len]. by rewrite (wrap_small 32 len) by lia.
Qed.

(** data is stored once: writing the same bytes with the same alignment a second time
    finds the first copy in the hash table, returns its offset and leaves the database alone. *)
Theorem adb_w_data_shares db vec k offs db' :
  wadb_ok db -> wa_no_cache db = 0 -> 0 <= k <= 3 -> Forall bytes_ok vec -> 0 < zlen (mjoin vec) ->
  zlen (wa_data db) + 8 + zlen (mjoin vec) <= ADB_MAX ->
  adb_w_data db vec (2 ^ k) = Some (offs, db') -> adb_w_data db' vec (2 ^ k) = Some (offs, db').
Proof.
  intros Hok Hnc Hk Hv Hp Hm E. pose proof (zlen_nonneg (wa_data db)).
  destruct (adb_w_data_cases db vec k offs db' Hok Hnc Hk Hv Hm E) as [-> |(Enb & i & Es & Eb)]; [exact E|].
  destruct (adb_w_data_ok db vec k Hok Hk Hv Hp Hm) as (o1 & db1 & E1 & Hg & (_ & _ & Hst) & Hal & Ho).
  rewrite E in E1. injection E1 as <- <-.
  unfold adb_w_data. rewrite (gr_cache _ _ _ Hg), Hnc, Enb, Eb, iovec_len_spec by lia. cbn [Z.eqb negb]. fold (bucket_of db vec).
  rewrite (nth_lookup_Some _ (bucket_of db vec) _ (set_entry i (Entry (iovec_hash vec) offs (zlen (mjoin vec))) (nth (bucket_of db vec) (wa_bucket db) [])))
    by by apply list_lookup_insert_eq, bucket_of_lt.
  rewrite <- (search_bucket_same (wa_data db) (wa_data db')) in Es.
  - rewrite <- (Nat.sub_0_r i). rewrite (search_bucket_found _ _ _ _ _ 0 i _ (Entry (iovec_hash vec) offs (zlen (mjoin vec)))); try done; [lia| |].
    + cbn [e_offs]. by rewrite <- iovec_memcmp_take, Hst, iovec_memcmp_self.
    + cbn [e_offs]. by rewrite land_ones_mod by lia.
  - intros e He Hne Hle. pose proof (bucket_entries_ok db (bucket_of db vec) Hok) as Hl. rewrite list.Forall_forall in Hl.
    destruct (Hl e He) as [?|[G1 G2]]; [done|].
    rewrite <- iovec_memcmp_take, <- (iovec_memcmp_take vec (zdrop _ (wa_data db))).
    rewrite (extends_slice (wa_data db)); [done|apply Hg|done|lia|lia].
Qed.

(** *** Bounds of the readers *)

Lemma adb_val_value_bound v : 0 <= ADB_VAL_VALUE v < ADB_MAX.
Proof. rewrite adb_val_value. by apply Z.mod_pos_bound. Qed.

Lemma deref_some d v o s p : 0 <= o -> adb_r_deref d v o s = Some p ->
  p = zdrop (o + ADB_VAL_VALUE v) d /\ o + ADB_VAL_VALUE v + s <= zlen d.
Proof.
  intros Ho. unfold adb_r_deref. destruct (Z.ltb_spec (zlen d) (o + ADB_VAL_VALUE v + s)); [done|]. by intros [= <-].
Qed.

Lemma le_val_take n l : bytes_ok l -> 0 <= le_val (ztake n l) < 2 ^ (8 * zlen (ztake n l)).
Proof. intros H. apply le_val_bound. by apply Forall_take. Qed.

(** The bytes [b] are in the database, at the offset of [v]. *)
Definition found (d : bytes) (v : Z) (b : bytes) : Prop := exists rest, zdrop (ADB_VAL_VALUE v) d = b ++ rest.

(** An integer: the value itself, or the bytes at its offset if all of them are there, and else 0. *)
Definition int_in (d : bytes) (v r : Z) : Prop :=
  let stored_in (k : nat) := if ADB_VAL_VALUE v + Z.of_nat k <=? zlen d then found d v (le_bytes k r) /\ 0 <= r < 2 ^ (8 * Z.of_nat k) else r = 0 in
  if ADB_VAL_TYPE v =? ADB_TYPE_INT then r = ADB_VAL_VALUE v
  else if ADB_VAL_TYPE v =? ADB_TYPE_INT_32 then stored_in 4%nat
  else if ADB_VAL_TYPE v =? ADB_TYPE_INT_64 then stored_in 8%nat
  else r = 0.

(** A blob: its length, as long as its type says, and its bytes are at its offset; or there is no
    pointer.  A length without a pointer means that the data is cut off. *)
Definition blob_in (d : bytes) (v : Z) (r : option bytes * Z) : Prop :=
  match r with
  | (Some b, n) => zlen b = n /\ exists k, is_blob_type (ADB_VAL_TYPE v) k /\ found d v (le_bytes (Z.to_nat k) n ++ b)
  | (None, n) => n <> 0 -> exists k, is_blob_type (ADB_VAL_TYPE v) k /\ found d v (le_bytes (Z.to_nat k) n) /\
                   ADB_VAL_VALUE v + k <= zlen d < ADB_VAL_VALUE v + k + n
  end.

(** An array or object: its cells, the first of which is their number, are at its offset. *)
Definition obj_in (d : bytes) (v : Z) (o : adb_obj) : Prop :=
  match o_obj o with
  | Some cells => zlen cells = o_num o /\ 1 <= o_num o /\ znth 0 cells ADBI_NUM_ENTRIES = o_num o /\ found d v (cell_bytes cells)
  | None => o_num o = 1
  end.

Lemma le_bytes_take (k : nat) p : bytes_ok p -> Z.of_nat k <= zlen p -> le_bytes k (le_val (ztake (Z.of_nat k) p)) = ztake (Z.of_nat k) p.
Proof.
  intros Hp Hk. assert (L : zlen (ztake (Z.of_nat k) p) = Z.of_nat k) by (apply zlen_ztake; lia).
  replace k with (length (ztake (Z.of_nat k) p)) at 1 by (unfold zlen in L; lia). apply le_bytes_val. by apply Forall_take.
Qed.

Lemma found_take d v n : found d v (ztake n (zdrop (ADB_VAL_VALUE v) d)).
Proof. eexists. symmetry. apply ztake_zdrop. Qed.

Lemma adb_r_blob_n_in (k : nat) d v : bytes_ok d -> is_blob_type (ADB_VAL_TYPE v) (Z.of_nat k) ->
  exists r, adb_r_blob_n (Z.of_nat k) d v = Some r /\ blob_in d v r.
Proof.
  intros Hd Hk. unfold adb_r_blob_n. destruct (adb_r_deref d v 0 (Z.of_nat k)) as [p|] eqn:E; [|eexists; split; [done|by intros []]].
  rewrite (deref_load _ _ _ _ E) by lia. cbn [mbind option_bind].
  apply deref_some in E as [-> E1]; [|done]. rewrite Z.add_0_l in *. set (len := le_val _).
  assert (Hl : 0 <= len) by (apply le_val_take; by apply Forall_drop). pose proof (adb_val_value_bound v) as Hv.
  assert (Hb : le_bytes k len = ztake (Z.of_nat k) (zdrop (ADB_VAL_VALUE v) d)).
  { apply le_bytes_take; [by apply Forall_drop|rewrite zlen_zdrop; lia]. }
  eexists. split; [done|]. unfold ptr_len. destruct (adb_r_deref d v (Z.of_nat k) len) as [p|] eqn:E2; cbn [fmap option_fmap option_map].
  - apply deref_some in E2 as [-> E2]; [|lia]. split; [apply zlen_ztake; rewrite zlen_zdrop; lia|]. exists (Z.of_nat k). split; [done|].
    rewrite Nat2Z.id, Hb. exists (zdrop len (zdrop (Z.of_nat k + ADB_VAL_VALUE v) d)).
    rewrite <- app_assoc, ztake_zdrop, (Z.add_comm (Z.of_nat k)), zdrop_add by lia. by rewrite ztake_zdrop.
  - intros _. exists (Z.of_nat k). split; [done|]. rewrite Nat2Z.id, Hb. split; [apply found_take|].
    unfold adb_r_deref in E2. destruct (Z.ltb_spec (zlen d) (Z.of_nat k + ADB_VAL_VALUE v + len)); [lia|done].
Qed.

Lemma adb_r_blob_in d v : bytes_ok d -> exists r, adb_r_blob_mem d v = Some r /\ blob_in d v r.
Proof.
  intros Hd. unfold adb_r_blob_mem.
  repeat match goal with |- context [ADB_VAL_TYPE v =? ?t] =>
    destruct (Z.eqb_spec (ADB_VAL_TYPE v) t) as [Ht|]; [first [apply (adb_r_blob_n_in 1) | apply (adb_r_blob_n_in 2) | apply (adb_r_blob_n_in 4)];
      [done|rewrite Ht; unfold is_blob_type; rewrite !elem_of_cons; auto]|] end.
  eexists. split; [done|by intros []].
Qed.

Lemma words_spec n p : bytes_ok p -> 4 * Z.of_nat n <= zlen p ->
  exists l, words n p = Some l /\ length l = n /\ cell_bytes l = ztake (4 * Z.of_nat n) p /\ (0 < n -> head l = Some (le_val (ztake 4 p)))%nat.
Proof.
  revert p. induction n as [|n IH]; intros p Hp Hl; [exists []; split_and!; [done..|lia]|]. cbn [words].
  rewrite load_some by lia. cbn [mbind option_bind].
  destruct (IH (zdrop 4 p)) as (l & -> & Hn & Hc & _); [by apply Forall_drop|rewrite zlen_zdrop; lia|]. cbn [mbind option_bind].
  eexists. split; [done|]. split; [cbn; lia|]. split; [|done]. unfold cell_bytes in *. rewrite fmap_cons, join_cons, Hc.
  rewrite (le_bytes_take 4) by (done || lia).
  unfold ztake, zdrop. replace (Z.to_nat (4 * Z.of_nat (S n))) with (Z.to_nat 4 + Z.to_nat (4 * Z.of_nat n))%nat by lia.
  apply take_take_drop.
Qed.

Lemma adb_r_obj_in d v : bytes_ok d -> exists o, adb_r_obj_mem d v = Some o /\ obj_in d v o.
Proof.
  intros Hd. assert (Hnull : exists o, Some obj_null = Some o /\ obj_in d v o) by (exists obj_null; done).
  unfold adb_r_obj_mem. destruct (negb _ && negb _); [done|]. destruct (adb_r_deref d v 0 4) as [p|] eqn:E1; [|done].
  rewrite (deref_load _ _ _ _ E1) by done. cbn [mbind option_bind].
  apply deref_some in E1 as [-> E1]; [|done]. rewrite Z.add_0_l. set (num := le_val _).
  assert (Hn : 0 <= num) by (apply le_val_take; by apply Forall_drop). destruct (Z.eqb_spec num 0); [done|].
  destruct (adb_r_deref d v 0 (4 * num)) as [p|] eqn:E2; [|done]. apply deref_some in E2 as [-> E2]; [|done].
  rewrite Z.add_0_l in *. pose proof (adb_val_value_bound v).
  destruct (words_spec (Z.to_nat num) (zdrop (ADB_VAL_VALUE v) d)) as (cells & -> & Hl & Hc & Hh);
    [by apply Forall_drop|rewrite zlen_zdrop; lia|]. cbn [mbind option_bind].
  eexists. split; [done|]. unfold obj_in. cbn [o_obj o_num].
  split_and!; [unfold zlen; lia|lia| |rewrite Hc; apply found_take].
  destruct cells; [cbn in Hl; lia|]. by injection (Hh ltac:(lia)) as ->.
Qed.

Lemma adb_r_int_in d v : bytes_ok d -> exists r, adb_r_int_mem d v = Some r /\ int_in d v r.
Proof.
  intros Hd. unfold adb_r_int_mem, int_in. pose proof (adb_val_value_bound v).
  assert (Hat : forall k : nat, exists r, match adb_r_deref d v 0 (Z.of_nat k) with Some p => load (Z.of_nat k) p | None => Some 0 end = Some r /\
    if ADB_VAL_VALUE v + Z.of_nat k <=? zlen d then found d v (le_bytes k r) /\ 0 <= r < 2 ^ (8 * Z.of_nat k) else r = 0).
  { intros k. unfold adb_r_deref at 1. rewrite Z.add_0_l. destruct (Z.leb_spec (ADB_VAL_VALUE v + Z.of_nat k) (zlen d)) as [Hl|Hl].
    - rewrite (proj2 (Z.ltb_ge _ _) Hl), load_some by (rewrite zlen_zdrop; lia). eexists. split; [done|].
      rewrite le_bytes_take by first [by apply Forall_drop | rewrite zlen_zdrop; lia]. split; [apply found_take|].
      pose proof (le_val_take (Z.of_nat k) (zdrop (ADB_VAL_VALUE v) d) ltac:(by apply Forall_drop)) as Hr.
      rewrite zlen_ztake in Hr by (rewrite zlen_zdrop; lia). done.
    - rewrite (proj2 (Z.ltb_lt _ _)) by lia. by exists 0. }
  case_test; [by eexists|]. case_test; [apply (Hat 4%nat)|]. case_test; [apply (Hat 8%nat)|]. by eexists.
Qed.

(** C19: whatever bytes a database has and whatever value is looked up, the readers stay inside of
    it.  Every read of memory that adb_r_root, adb_r_int, adb_r_blob and adb_r_obj make is one of
    bytes of the database: with reads that fail outside of it (the [_mem] definitions) they come
    with a result.  The result is what is at the offset of the value: an integer stored there in
    full, and 0 if it is cut off; a blob with its length in front, or no pointer; as many cells as
    the array or object says.  So fields can be read at every index from ADBI_FIRST on.  A blob
    that is cut off by the end of the database comes back with its length but without a pointer. *)
Theorem adb_readers_in_bounds d v : bytes_ok d ->
  is_Some (adb_r_root_mem d) /\
  (exists r, adb_r_int_mem d v = Some r /\ int_in d v r) /\
  (exists r, adb_r_blob_mem d v = Some r /\ blob_in d v r) /\
  exists o, adb_r_obj_mem d v = Some o /\ obj_in d v o /\ forall i, ADBI_FIRST <= i -> is_Some (adb_ro_val o i).
Proof.
  intros Hd. split; [|split; [by apply adb_r_int_in|split; [by apply adb_r_blob_in|]]].
  - unfold adb_r_root_mem, sizeof_hdr. destruct (Z.ltb_spec (zlen d) 8); [done|]. rewrite load_some by (rewrite zlen_zdrop; lia). done.
  - destruct (adb_r_obj_in d v Hd) as (o & -> & Ho). exists o. split; [done|]. split; [done|]. intros i Hi. unfold obj_in, adb_ro_val in *.
    destruct (Z.leb_spec (o_num o) i); [done|]. destruct (o_obj o); [done|]. unfold ADBI_FIRST in Hi. lia.
Qed.

(** *** Databases as values *)

Lemma nested_block_size b (blk := block_bytes (ADB_BLOCK_ADB, b)) : zlen b < ADB_MAX -> zlen b < zlen blk <= zlen b + 24.
Proof.
  intros H. pose proof (zlen_nonneg b). unfold ADB_MAX in H.
  assert (Hw : writable (ADB_BLOCK_ADB, b)) by (split; [done|]; cbn; lia).
  unfold blk. rewrite (zlen_block_bytes _ _ Hw).
  destruct (adb_block_init_spec ADB_BLOCK_ADB (zlen b)) as (_ & _ & _ & Hraw & _ & Hno); [done|lia|].
  pose proof (hdrsize_bound (adb_block_init ADB_BLOCK_ADB (zlen b))).
  destruct (block_size_round (adb_block_init ADB_BLOCK_ADB (zlen b))) as [Hs _]; [lia|done|]. lia.
Qed.

Lemma bytes_ok_block b : bytes_ok b -> Forall bytes_ok [block_header (adb_block_init ADB_BLOCK_ADB (zlen b)); b; block_pad (adb_block_init ADB_BLOCK_ADB (zlen b))].
Proof.
  intros Hb. repeat constructor; [|done|apply Forall_replicate; done]. unfold block_header.
  case_match; rewrite ?Forall_app; auto using le_bytes_ok.
Qed.

(** a database written as a value of another one is a blob that holds exactly the block
    adb_c_block would write for it, so that the nested database can be parsed like a file; the
    values written before are kept. *)
Theorem adb_w_adb_nested db b :
  wadb_ok db -> bytes_ok b -> sizeof_hdr < zlen b -> zlen (wa_data db) + 36 + zlen b <= ADB_MAX ->
  exists v db', adb_w_adb db b = Some (v, db') /\
    (adb_r_blob (wa_data db') v).1 = Some (adb_c_block [] ADB_BLOCK_ADB b) /\
    forall v0 t0, denotes (wa_data db) v0 t0 -> denotes (wa_data db') v0 t0.
Proof.
  intros Hok Hb Hl Hm. pose proof (zlen_nonneg (wa_data db)). assert (HM : ADB_MAX = 2 ^ 28) by done. unfold sizeof_hdr in Hl.
  pose proof (nested_block_size b ltac:(lia)) as Hz. rewrite adb_c_block_bytes. cbn [app].
  unfold adb_w_adb. fold (block_pad (adb_block_init ADB_BLOCK_ADB (zlen b))).
  set (vec := [block_header _; b; block_pad _]). assert (Ev : mjoin vec = block_bytes (ADB_BLOCK_ADB, b)).
  { unfold vec. cbn. by rewrite app_nil_r. }
  destruct (Z.leb_spec (zlen b) sizeof_hdr); [unfold sizeof_hdr in *; lia|].
  rewrite (iovec_len_spec vec) by (rewrite Ev; lia). rewrite Ev. set (blk := block_bytes _) in *.
  assert (Ej : mjoin (le_bytes 4 (zlen blk) :: vec) = le_bytes 4 (zlen blk) ++ blk) by by rewrite join_cons, Ev.
  assert (Ej' : zlen (mjoin (le_bytes 4 (zlen blk) :: vec)) = 4 + zlen blk) by by rewrite Ej, zlen_app, zlen_le_bytes.
  rewrite iovec_len_spec by lia.
  destruct (adb_w_raw_ok db (le_bytes 4 (zlen blk) :: vec) 2 Hok) as (n & Hn & Er & Hok');
    [lia|constructor; [apply le_bytes_ok|by apply bytes_ok_block]|lia|]. cbv zeta in Er, Hok'. change (2 ^ 2) with 4 in Er.
  destruct (padding_spec (wa_data db) 2) as (Hp & _); [lia|lia|]. rewrite Er, Ej in *. change (2 ^ 2) with 4 in Hp.
  set (db' := set_wa_data _ _) in *. set (offs := zlen (wa_data db) + zlen (padding (wa_data db) 2)) in *.
  destruct (adb_val_split ADB_TYPE_BLOB_32 offs) as (E1 & E2 & E3); [solve_is_type|lia|].
  exists (ADB_VAL ADB_TYPE_BLOB_32 offs), db'. split; [done|]. split.
  - unfold adb_r_blob, adb_r_blob_mem. rewrite E1. change (ADB_TYPE_BLOB_32 =? ADB_TYPE_BLOB_8) with false.
    change (ADB_TYPE_BLOB_32 =? ADB_TYPE_BLOB_16) with false. rewrite Z.eqb_refl. rewrite (adb_r_blob_n_stored _ _ 4 blk); [done|lia|].
    rewrite E2. apply (stored_end (wa_data db) (padding (wa_data db) 2)), Hok.
  - intros v0 t0. apply denotes_extends, extends_app, Hok.
Qed.

(** ** Witnesses *)

Definition ex_tree : aval :=
  ATree ADB_TYPE_OBJECT [ABlob (bs "busybox"); AInt 0x123456789; ANull;
    ATree ADB_TYPE_ARRAY [ABlob (bs "so:libc"); ANull; ABlob []; AInt 7; ABlob (bs "so:libc")]; ANull].

Definition ex_wadb : wadb := default (adb_w_init_static 0) (adb_w_init_dynamic 0x676b6370 4).
Definition ex_written : Z * wadb := default (0, ex_wadb) (w_tree 2 ex_wadb ex_tree).

Lemma ex_wadb_ok : wadb_ok ex_wadb.
Proof.
  destruct (adb_w_init_dynamic_ok 0x676b6370 4) as (db & E & H & _); [lia|]. unfold ex_wadb. by rewrite E.
Qed.

Lemma ex_tree_ok : tree_ok ex_tree.
Proof.
  repeat (first [done|split|apply bs_ok|constructor]); auto with apk; by (left + right).
Qed.

Lemma adb_tree_roundtrip_witness :
  exists v db1 db2, w_tree 2 ex_wadb ex_tree = Some (v, db1) /\ adb_w_root db1 v = Some db2 /\
    wadb_ok db2 /\ adb_r_root (wa_data db2) = v /\
    r_tree (depth (norm ex_tree)) (wa_data db2) v = Some (norm ex_tree) /\
    forall v0 t0, denotes (wa_data ex_wadb) v0 t0 -> denotes (wa_data db2) v0 t0.
Proof. apply (adb_tree_roundtrip 2 ex_wadb ex_tree); [lia|apply ex_wadb_ok|apply ex_tree_ok|by vm_compute]. Defined.

Lemma ex_denotes : denotes (wa_data ex_written.2) ex_written.1 (norm ex_tree).
Proof.
  destruct (w_tree_ok 2 ltac:(lia) ex_tree ex_wadb ex_wadb_ok ex_tree_ok) as (v & db & E & _ & H); [by vm_compute|].
  unfold ex_written. by rewrite E.
Qed.

Lemma adb_w_copy_tree_same_witness :
  exists v' db', adb_w_copy 3 false (wa_data ex_written.2) ex_wadb ex_written.1 = Some (v', db') /\ wadb_ok db' /\
    denotes (wa_data db') v' (norm ex_tree) /\
    forall v0 t0, denotes (wa_data ex_wadb) v0 t0 -> denotes (wa_data db') v0 t0.
Proof.
  apply (adb_w_copy_tree_same (wa_data ex_written.2) ex_wadb ex_written.1 (norm ex_tree) 3);
    [apply ex_wadb_ok|apply ex_denotes|vm_compute; lia|by vm_compute].
Defined.

(** An object at offset 8 whose only field is the object itself. *)
Definition ex_cycle : bytes := replicate 8 0 ++ le_bytes 4 2 ++ le_bytes 4 0xe0000008.

Lemma adb_w_copy_cycle_witness : adb_w_copy 1000 false ex_cycle ex_wadb 0xe0000008 = None.
Proof.
  apply (adb_w_copy_cycle ex_cycle 0xe0000008 [2; 0xe0000008] 2 false); [by right|by vm_compute|].
  apply list_elem_of_here.
Defined.

Definition ex_shared : option (Z * wadb) := adb_w_data ex_wadb [bs "so:"; bs "libc"] (2 ^ 2).

Lemma adb_w_data_shares_witness :
  adb_w_data (default (0, ex_wadb) ex_shared).2 [bs "so:"; bs "libc"] (2 ^ 2) = Some (8, (default (0, ex_wadb) ex_shared).2).
Proof.
  apply (adb_w_data_shares ex_wadb [bs "so:"; bs "libc"] 2 8 (default (0, ex_wadb) ex_shared).2);
    [apply ex_wadb_ok|done|lia|by repeat (constructor; [apply bs_ok|])|done|by vm_compute|by vm_compute].
Defined.

(** A blob of five bytes of which none is there. *)
Lemma adb_readers_in_bounds_witness :
  adb_r_blob_mem (replicate 8 0 ++ [5]) 0x80000008 = Some (None, 5) /\
  exists r, adb_r_blob_mem (replicate 8 0 ++ [5]) 0x80000008 = Some r /\ blob_in (replicate 8 0 ++ [5]) 0x80000008 r.
Proof.
  split; [by vm_compute|]. apply (adb_readers_in_bounds (replicate 8 0 ++ [5]) 0x80000008).
  apply (bool_decide_eq_true_1 _). by vm_compute.
Defined.

Lemma adb_w_adb_nested_witness :
  exists v db', adb_w_adb ex_wadb (wa_data ex_written.2) = Some (v, db') /\
    (adb_r_blob (wa_data db') v).1 = Some (adb_c_block [] ADB_BLOCK_ADB (wa_data ex_written.2)) /\
    forall v0 t0, denotes (wa_data ex_wadb) v0 t0 -> denotes (wa_data db') v0 t0.
Proof.
  apply (adb_w_adb_nested ex_wadb (wa_data ex_written.2)); [apply ex_wadb_ok| |by vm_compute|by vm_compute].
  apply (bool_decide_eq_true_1 _). by vm_compute.
Defined.
