(* ===== verification/AdbSchema.v ===== *)
(** The schemas of adb databases (apk_adb.c, apk_adb.h, and the parts of adb.c that follow a
    schema): the text form and the comparison of scalars, dependencies and tags, the tables of
    the package, index and installed-database schemas, comparing objects, searching and sorting
    arrays, and filling objects from text.

    The function pointers of a schema are named by constructors and called through
    [scalar_tostring], [scalar_fromstring], [scalar_compare], [obj_fromstring] and [commit_of].
    The schema of an object is an argument of the operations instead of a field of the object, so
    the assertion that two compared objects have one schema holds by construction.  [None] is a
    failed assertion, a use of a NULL pointer or undefined arithmetic. *)
From Stdlib Require Import ZArith Lia String Ascii.
From stdpp Require Import base numbers list option.
From S2P Require Import Prelude Clib Blob Codec Ctype Version Dep AdbBlock AdbData.

Definition EINVAL : Z := 22.
Definition E2BIG : Z := 7.
Definition APKE_PKGNAME_FORMAT : Z := APKE_FIRST_VALUE + 36.
Definition APKE_ADB_SCHEMA : Z := APKE_FIRST_VALUE + 42.
Definition APKE_ADB_NO_FROMSTRING : Z := APKE_FIRST_VALUE + 46.
Definition APKE_ADB_PACKAGE_FORMAT : Z := APKE_FIRST_VALUE + 48.
Definition ADB_ERROR (val : Z) : Z := ADB_VAL ADB_TYPE_ERROR val.

(** A blob as [adb_r_blob] returns it: the pointer and the length. *)
Definition rblob : Type := option bytes * Z.

(** apk_blob_fmt, for the text that vsnprintf would print into a large enough buffer, and the
    text of a blob printed with BLOB_FMT: it ends at a NUL byte. *)
Definition apk_blob_fmt (sz : Z) (text : bytes) : rblob :=
  if sz <=? zlen text then (None, 0) else (Some text, zlen text).
Definition blob_printf (b : bytes) : bytes := until_nul b.

(** A blob that was pushed into a buffer, from its start to the cursor. *)
Definition pushed_part (w : wbuf) : rblob := (Some (w_done w), zlen (w_done w)).

(** ** Human readable sizes (print.c) *)

Definition size_units : list string := ["B"; "KiB"; "MiB"; "GiB"; "TiB"]%string.

(** The unit is an int: its multiplication overflows after GiB, which is undefined. *)
Fixpoint human_size_unit_loop (units : list string) (s : Z) (b : blob) : option Z :=
  match units with
  | [] => Some 1
  | u :: units =>
      if apk_blob_compare b (Some (bs u)) =? 0 then Some s
      else if 2 ^ 31 <=? s * 1024 then None else human_size_unit_loop units (s * 1024) b
  end.
Definition apk_get_human_size_unit (b : blob) : option Z := human_size_unit_loop size_units 1 b.

Fixpoint human_size_loop (n : nat) (i s : Z) : Z * Z :=
  match n with
  | O => (i, s)
  | S n => if 10000 <=? s then human_size_loop n (i + 1) (s / 1024) else (i, s)
  end.
Definition apk_get_human_size (size : Z) : string * Z :=
  let '(i, s) := human_size_loop (length size_units) 0 size in
  (nth (Z.to_nat (Z.min i (Z.of_nat (length size_units) - 1))) size_units ""%string, s).

(** ** Scalars *)

Inductive adb_scalar_schema :=
  scalar_string | scalar_mstring | schema_xattr | scalar_name | scalar_version | scalar_hexblob
| scalar_int | scalar_oct | scalar_hsize.

Definition ADB_KIND_ADB : Z := 1.
Definition ADB_KIND_OBJECT : Z := 2.
Definition ADB_KIND_ARRAY : Z := 3.
Definition ADB_KIND_BLOB : Z := 4.
Definition ADB_KIND_NUMERIC : Z := 5.
Definition ADB_KIND_OCTAL : Z := 6.

Definition scalar_kind (s : adb_scalar_schema) : Z :=
  match s with
  | scalar_int | scalar_hsize => ADB_KIND_NUMERIC
  | scalar_oct => ADB_KIND_OCTAL
  | _ => ADB_KIND_BLOB
  end.

Definition string_tostring (d : bytes) (val : Z) : rblob := adb_r_blob d val.
Definition string_fromstring (db : wadb) (val : blob) : option (Z * wadb) := adb_w_blob db (blob_data val).

(** apk_blob_sort: memcmp reads as many bytes as both have, which a NULL pointer allows only
    when there are none. *)
Definition string_compare (d1 : bytes) (v1 : Z) (d2 : bytes) (v2 : Z) : option Z :=
  let '(p1, n1) := adb_r_blob d1 v1 in
  let '(p2, n2) := adb_r_blob d2 v2 in
  match p1, p2 with
  | Some a, Some b => Some (apk_blob_sort a b)
  | _, _ => if Z.min n1 n2 =? 0 then Some (n1 - n2) else None
  end.

Definition xattr_tostring (d : bytes) (val bufsz : Z) : rblob :=
  match adb_r_blob d val with
  | (None, n) => (None, n)
  | (Some b, _) =>
      match apk_blob_split (Some b) [0] with
      | None => (None, 0)
      | Some (k, v) =>
          let to := apk_blob_push_blob (wbuf_new bufsz) k in
          let to := apk_blob_push_blob to (bs "=") in
          match apk_blob_push_hexdump to v with
          | Some w => pushed_part w
          | None => apk_blob_fmt bufsz (blob_printf k ++ bs "=(" ++ uint_text (zlen v) 10 ++ bs " bytes)")
          end
      end
  end.

(** [buf] is the array of 256 bytes on the stack the hexadecimal text is decoded into. *)
Definition hex_buf (n : Z) : bytes := replicate (Z.to_nat n) 0.

Definition xattr_fromstring (db : wadb) (val : blob) : option (Z * wadb) :=
  match apk_blob_rsplit (blob_data val) (chr "=") with
  | None => Some (ADB_ERROR APKE_ADB_SCHEMA, db)
  | Some (name, hex) =>
      (* b[0].len++ takes in the byte after the name, the '=' *)
      let b0 := name ++ bs "=" in
      if negb (zlen hex .& 1 =? 0) then Some (ADB_ERROR EINVAL, db)
      else if 256 <? zlen hex / 2 then Some (ADB_ERROR E2BIG, db)
      else
        r ← apk_blob_pull_hexdump (Some hex) (hex_buf (zlen hex / 2));
        match r with
        | (None, _) => Some (ADB_ERROR EINVAL, db)
        | (Some _, b1) => adb_w_blob_vec db [b0; b1]
        end
  end.

Definition isalnum (c : Z) : bool := isalpha c || ((48 <=? c) && (c <=? 57)).

Definition name_fromstring (db : wadb) (val : blob) : option (Z * wadb) :=
  let fail := Some (ADB_ERROR APKE_PKGNAME_FORMAT, db) in
  match blob_data val with
  | [] => fail
  | c :: _ =>
      if negb (isalnum c) then fail
      else if (apk_blob_spn (blob_data val) APK_CTYPE_PACKAGE_NAME).1.1 then fail
      else adb_w_blob db (blob_data val)
  end.

Definition version_fromstring (db : wadb) (val : blob) : option (Z * wadb) :=
  if negb (apk_version_validate (blob_data val)) then Some (ADB_ERROR APKE_PKGVERSION_FORMAT, db)
  else adb_w_blob db (blob_data val).

Definition version_compare (d1 : bytes) (v1 : Z) (d2 : bytes) (v2 : Z) : Z :=
  let r := apk_version_compare (adb_r_blob d1 v1).1 (adb_r_blob d2 v2).1 in
  if r =? APK_VERSION_LESS then -1 else if r =? APK_VERSION_GREATER then 1 else 0.

Definition hexblob_tostring (d : bytes) (val bufsz : Z) : rblob :=
  match adb_r_blob d val with
  | (None, n) => (None, n)
  | (Some b, n) =>
      match apk_blob_push_hexdump (wbuf_new bufsz) b with
      | Some w => pushed_part w
      | None => apk_blob_fmt bufsz (bs "(" ++ uint_text n 10 ++ bs " bytes)")
      end
  end.

Definition hexblob_fromstring (db : wadb) (val : blob) : option (Z * wadb) :=
  if negb (blob_len val .& 1 =? 0) then Some (ADB_ERROR EINVAL, db)
  else if 256 <? blob_len val / 2 then Some (ADB_ERROR E2BIG, db)
  else
    r ← apk_blob_pull_hexdump val (hex_buf (blob_len val / 2));
    match r with
    | (None, _) => Some (ADB_ERROR EINVAL, db)
    | (Some _, b) => adb_w_blob db b
    end.

Definition int_tostring (d : bytes) (val bufsz : Z) : rblob := apk_blob_fmt bufsz (uint_text (adb_r_int d val) 10).
Definition oct_tostring (d : bytes) (val bufsz : Z) : rblob := apk_blob_fmt bufsz (uint_text (adb_r_int d val) 8).

Definition uint_fromstring (radix : Z) (db : wadb) (val : blob) : option (Z * wadb) :=
  let '(n, rest) := apk_blob_pull_uint (blob_data val) radix in
  if negb (zlen rest =? 0) then Some (ADB_ERROR EINVAL, db) else adb_w_int db n.
Definition int_fromstring : wadb -> blob -> option (Z * wadb) := uint_fromstring 10.
Definition oct_fromstring : wadb -> blob -> option (Z * wadb) := uint_fromstring 8.

Definition int_compare (d1 : bytes) (v1 : Z) (d2 : bytes) (v2 : Z) : Z :=
  let r1 := adb_r_int d1 v1 in
  let r2 := adb_r_int d2 v2 in
  if r1 <? r2 then -1 else if r2 <? r1 then 1 else 0.

Definition hsize_tostring (d : bytes) (val bufsz : Z) : rblob :=
  let '(unit, v) := apk_get_human_size (adb_r_int d val) in
  apk_blob_fmt bufsz (uint_text v 10 ++ bs " " ++ bs unit).

Definition hsize_fromstring (db : wadb) (val : blob) : option (Z * wadb) :=
  match apk_blob_split val (bs " ") with
  | None => int_fromstring db val
  | Some (l, r) =>
      sz ← apk_get_human_size_unit (Some r);
      adb_w_int db (u64 ((apk_blob_pull_uint l 10).1 * sz))
  end.

Definition scalar_tostring (s : adb_scalar_schema) (d : bytes) (val bufsz : Z) : rblob :=
  match s with
  | scalar_string | scalar_mstring | scalar_name | scalar_version => string_tostring d val
  | schema_xattr => xattr_tostring d val bufsz
  | scalar_hexblob => hexblob_tostring d val bufsz
  | scalar_int => int_tostring d val bufsz
  | scalar_oct => oct_tostring d val bufsz
  | scalar_hsize => hsize_tostring d val bufsz
  end.

Definition scalar_fromstring (s : adb_scalar_schema) (db : wadb) (val : blob) : option (Z * wadb) :=
  match s with
  | scalar_string | scalar_mstring => string_fromstring db val
  | schema_xattr => xattr_fromstring db val
  | scalar_name => name_fromstring db val
  | scalar_version => version_fromstring db val
  | scalar_hexblob => hexblob_fromstring db val
  | scalar_int => int_fromstring db val
  | scalar_oct => oct_fromstring db val
  | scalar_hsize => hsize_fromstring db val
  end.

Definition scalar_compare (s : adb_scalar_schema) (d1 : bytes) (v1 : Z) (d2 : bytes) (v2 : Z) : option Z :=
  match s with
  | scalar_version => Some (version_compare d1 v1 d2 v2)
  | scalar_int | scalar_oct | scalar_hsize => Some (int_compare d1 v1 d2 v2)
  | _ => string_compare d1 v1 d2 v2
  end.

(** ** Schemas *)

(** The fromstring functions of arrays and the pre_commit hooks; only dependencies have an
    object-level tostring and fromstring. *)
Inductive arr_fromstring := tags_fromstring_ptr | dependencies_fromstring_ptr.
Inductive arr_pre_commit := adb_wa_sort_ptr | adb_wa_sort_unique_ptr.

(** An object has as many fields as it lists: num_fields is one more. *)
#[local] Unset Elimination Schemes.
Inductive adb_schema :=
| Scalar (s : adb_scalar_schema)
| Object (num_compare : Z) (dependency_text : bool) (fields : list (string * adb_schema))
| Array (num_fields : Z) (fromstring : option arr_fromstring) (pre_commit : option arr_pre_commit) (item : adb_schema)
| AdbSchema (schema_id : Z) (schema : adb_schema).
#[local] Set Elimination Schemes.

Definition schema_kind (s : adb_schema) : Z :=
  match s with
  | Scalar s => scalar_kind s
  | Object _ _ _ => ADB_KIND_OBJECT
  | Array _ _ _ _ => ADB_KIND_ARRAY
  | AdbSchema _ _ => ADB_KIND_ADB
  end.

Definition num_fields (s : adb_schema) : Z :=
  match s with Object _ _ fields => zlen fields + 1 | Array n _ _ _ => n | _ => 0 end.

Definition num_compare (s : adb_schema) : Z := match s with Object n _ _ => n | _ => 0 end.

Fixpoint schema_depth (s : adb_schema) : nat :=
  match s with
  | Scalar _ => 1
  | Object _ _ fields => S (foldr (fun f n => Nat.max (schema_depth f.2) n) 1 fields)%nat
  | Array _ _ _ item => S (schema_depth item)
  | AdbSchema _ s => S (schema_depth s)
  end.

Definition ADBI_DEP_NAME : Z := 0x01.
Definition ADBI_DEP_VERSION : Z := 0x02.
Definition ADBI_DEP_MATCH : Z := 0x03.
Definition ADBI_PI_NAME : Z := 0x01.
Definition ADBI_PI_VERSION : Z := 0x02.
Definition ADBI_PI_HASHES : Z := 0x03.
Definition ADBI_PI_DESCRIPTION : Z := 0x04.
Definition ADBI_PI_ARCH : Z := 0x05.
Definition ADBI_PI_LICENSE : Z := 0x06.
Definition ADBI_PI_ORIGIN : Z := 0x07.
Definition ADBI_PI_MAINTAINER : Z := 0x08.
Definition ADBI_PI_URL : Z := 0x09.
Definition ADBI_PI_REPO_COMMIT : Z := 0x0a.
Definition ADBI_PI_BUILD_TIME : Z := 0x0b.
Definition ADBI_PI_INSTALLED_SIZE : Z := 0x0c.
Definition ADBI_PI_FILE_SIZE : Z := 0x0d.
Definition ADBI_PI_PROVIDER_PRIORITY : Z := 0x0e.
Definition ADBI_PI_DEPENDS : Z := 0x0f.
Definition ADBI_PI_PROVIDES : Z := 0x10.
Definition ADBI_PI_REPLACES : Z := 0x11.
Definition ADBI_PI_INSTALL_IF : Z := 0x12.
Definition ADBI_PI_TAGS : Z := 0x15.
Definition ADBI_FI_NAME : Z := 0x01.
Definition ADBI_DI_NAME : Z := 0x01.
Definition ADBI_PKG_PKGINFO : Z := 0x01.
Definition ADB_SCHEMA_INDEX : Z := 0x78646e69.
Definition ADB_SCHEMA_PACKAGE : Z := 0x676b6370.
Definition ADB_SCHEMA_INSTALLED_DB : Z := 0x00626469.

Definition schema_tags_array : adb_schema := Array 32 (Some tags_fromstring_ptr) None (Scalar scalar_string).
Definition schema_string_array : adb_schema := Array 32 None None (Scalar scalar_string).
Definition schema_xattr_array : adb_schema := Array 8 None (Some adb_wa_sort_ptr) (Scalar schema_xattr).

Definition schema_dependency : adb_schema :=
  Object ADBI_DEP_NAME true
    [("name"%string, Scalar scalar_string); ("version"%string, Scalar scalar_version); ("match"%string, Scalar scalar_int)].

Definition schema_dependency_array : adb_schema :=
  Array 32 (Some dependencies_fromstring_ptr) (Some adb_wa_sort_unique_ptr) schema_dependency.

Definition schema_pkginfo : adb_schema :=
  Object ADBI_PI_HASHES false
    [("name"%string, Scalar scalar_name); ("version"%string, Scalar scalar_version); ("hashes"%string, Scalar scalar_hexblob);
     ("description"%string, Scalar scalar_string); ("arch"%string, Scalar scalar_string); ("license"%string, Scalar scalar_string);
     ("origin"%string, Scalar scalar_string); ("maintainer"%string, Scalar scalar_string); ("url"%string, Scalar scalar_string);
     ("repo-commit"%string, Scalar scalar_hexblob); ("build-time"%string, Scalar scalar_int);
     ("installed-size"%string, Scalar scalar_hsize); ("file-size"%string, Scalar scalar_hsize);
     ("provider-priority"%string, Scalar scalar_int); ("depends"%string, schema_dependency_array);
     ("provides"%string, schema_dependency_array); ("replaces"%string, schema_dependency_array);
     ("install-if"%string, schema_dependency_array); ("recommends"%string, schema_dependency_array);
     ("layer"%string, Scalar scalar_int); ("tags"%string, schema_tags_array)].

Definition schema_pkginfo_array : adb_schema := Array 128 None (Some adb_wa_sort_ptr) schema_pkginfo.

Definition schema_index : adb_schema :=
  Object 0 false
    [("description"%string, Scalar scalar_string); ("packages"%string, schema_pkginfo_array); ("pkgname-spec"%string, Scalar scalar_string)].

Definition schema_acl : adb_schema :=
  Object 0 false
    [("mode"%string, Scalar scalar_oct); ("user"%string, Scalar scalar_string); ("group"%string, Scalar scalar_string);
     ("xattrs"%string, schema_xattr_array)].

Definition schema_file : adb_schema :=
  Object ADBI_FI_NAME false
    [("name"%string, Scalar scalar_string); ("acl"%string, schema_acl); ("size"%string, Scalar scalar_int); ("mtime"%string, Scalar scalar_int);
     ("hash"%string, Scalar scalar_hexblob); ("target"%string, Scalar scalar_hexblob)].

Definition schema_file_array : adb_schema := Array 128 None (Some adb_wa_sort_ptr) schema_file.

Definition schema_dir : adb_schema :=
  Object ADBI_DI_NAME false [("name"%string, Scalar scalar_string); ("acl"%string, schema_acl); ("files"%string, schema_file_array)].

Definition schema_dir_array : adb_schema := Array 128 None (Some adb_wa_sort_ptr) schema_dir.

Definition schema_scripts : adb_schema :=
  Object 0 false
    [("trigger"%string, Scalar scalar_mstring); ("pre-install"%string, Scalar scalar_mstring); ("post-install"%string, Scalar scalar_mstring);
     ("pre-deinstall"%string, Scalar scalar_mstring); ("post-deinstall"%string, Scalar scalar_mstring);
     ("pre-upgrade"%string, Scalar scalar_mstring); ("post-upgrade"%string, Scalar scalar_mstring)].

Definition schema_package : adb_schema :=
  Object ADBI_PKG_PKGINFO false
    [("info"%string, schema_pkginfo); ("paths"%string, schema_dir_array); ("scripts"%string, schema_scripts);
     ("triggers"%string, schema_string_array); ("replaces-priority"%string, Scalar scalar_int)].

Definition schema_package_adb : adb_schema := AdbSchema ADB_SCHEMA_PACKAGE schema_package.
Definition schema_package_adb_array : adb_schema := Array 128 None (Some adb_wa_sort_ptr) schema_package_adb.
Definition schema_idb : adb_schema := Object 0 false [("packages"%string, schema_package_adb_array)].

Definition adb_all_schemas : list (Z * adb_schema) :=
  [(ADB_SCHEMA_INDEX, schema_index); (ADB_SCHEMA_INSTALLED_DB, schema_idb); (ADB_SCHEMA_PACKAGE, schema_package)].

(** ** Fields by index and by name *)

(** The schema of field [i] of an object, or of the items of an array. *)
Definition adb_ro_kind (s : adb_schema) (i : Z) : option adb_schema :=
  match s with
  | Array _ _ _ item => Some item
  | Object _ _ fields => if (0 <? i) && (i <? num_fields s) then snd <$> fields !! Z.to_nat (i - 1) else None
  | _ => None
  end.

Fixpoint field_by_name (eq : bytes -> bool) (i : Z) (fields : list (string * adb_schema)) : Z :=
  match fields with
  | [] => 0
  | (name, _) :: fields => if eq (bs name) then i + 1 else field_by_name eq (i + 1) fields
  end.

(** The fields of arrays have no names. *)
Definition named_fields (s : adb_schema) : list (string * adb_schema) :=
  match s with Object _ _ fields => fields | _ => [] end.

Definition adb_s_field_by_name_blob (s : adb_schema) (blob : blob) : Z :=
  field_by_name (fun name => apk_blob_compare (Some name) blob =? 0) 0 (named_fields s).

Definition adb_s_field_by_name (s : adb_schema) (name : bytes) : Z :=
  field_by_name (fun n => strcmp n name =? 0) 0 (named_fields s).

(** The result and what was appended to the output, in a buffer with room for [room] bytes. *)
Definition adb_s_field_subst (s : adb_schema) (d : bytes) (obj : adb_obj) (var : blob) (room : Z) : option (Z * bytes) :=
  let f := adb_s_field_by_name_blob s var in
  if f =? 0 then Some (- APKE_ADB_SCHEMA, [])
  else
    val ← adb_ro_val obj f;
    match adb_ro_kind s f with
    | Some (Scalar c) =>
        let '(ptr, len) := scalar_tostring c d val room in
        if room <? len then Some (- ENOBUFS, [])
        else match ptr with
             | Some b => Some (0, b)
             | None => if len =? 0 then Some (0, []) else None
             end
    | _ => Some (- APKE_ADB_SCHEMA, [])
    end.

Definition index_fields : list (ascii * Z) :=
  [("C", ADBI_PI_HASHES); ("P", ADBI_PI_NAME); ("V", ADBI_PI_VERSION); ("T", ADBI_PI_DESCRIPTION); ("U", ADBI_PI_URL);
   ("I", ADBI_PI_INSTALLED_SIZE); ("S", ADBI_PI_FILE_SIZE); ("L", ADBI_PI_LICENSE); ("A", ADBI_PI_ARCH);
   ("D", ADBI_PI_DEPENDS); ("i", ADBI_PI_INSTALL_IF); ("p", ADBI_PI_PROVIDES); ("k", ADBI_PI_PROVIDER_PRIORITY);
   ("o", ADBI_PI_ORIGIN); ("m", ADBI_PI_MAINTAINER); ("t", ADBI_PI_BUILD_TIME); ("c", ADBI_PI_REPO_COMMIT);
   ("g", ADBI_PI_TAGS); ("r", ADBI_PI_REPLACES)]%char.

(** The field of a line of the old index format, by its letter; 0 for other characters. *)
Fixpoint index_field (l : list (ascii * Z)) (f : Z) : Z :=
  match l with
  | [] => 0
  | (c, ndx) :: l => if chr c =? f then ndx else index_field l f
  end.
Definition adb_pkg_field_index (f : Z) : Z := index_field index_fields f.

(** ** Comparing objects *)

Definition ADB_OBJCMP_EXACT : Z := 0.
Definition ADB_OBJCMP_TEMPLATE : Z := 1.
Definition ADB_OBJCMP_INDEX : Z := 2.

Section CmpLoop.
Context (cmp : Z -> option Z) (mode num_compare : Z) (tmpl : adb_obj).

(** The [n] turns of the loop from field [i] on. *)
Fixpoint cmp_loop (n : nat) (i : Z) : option Z :=
  match n with
  | O => Some 0
  | S n =>
      v ← adb_ro_val tmpl i;
      let is_set := negb (v =? ADB_NULL) in
      r ← (if (mode =? ADB_OBJCMP_EXACT) || is_set then cmp i else Some 0);
      if negb (r =? 0) then Some r
      else if (mode =? ADB_OBJCMP_INDEX) && negb is_set then Some 0
      else if negb (mode =? ADB_OBJCMP_EXACT) && (num_compare <=? i) then Some 0
      else cmp_loop n (i + 1)
  end.
End CmpLoop.

(** adb_ro_cmp, with the comparison of objects as an argument. *)
Definition ro_cmp (cmpobj : adb_schema -> adb_obj -> adb_obj -> option Z) (s : adb_schema) (d1 : bytes) (tmpl : adb_obj)
    (d2 : bytes) (obj : adb_obj) (i : Z) : option Z :=
  kind ← adb_ro_kind s i;
  v1 ← adb_ro_val tmpl i;
  v2 ← adb_ro_val obj i;
  match kind with
  | Scalar c => scalar_compare c d1 v1 d2 v2
  | Object _ _ _ | Array _ _ _ _ => cmpobj kind (adb_r_obj d1 v1) (adb_r_obj d2 v2)
  | AdbSchema _ _ => None
  end.

(** The recursion follows the schema, whose depth is enough fuel. *)
Fixpoint cmpobj_fuel (fuel : nat) (mode : Z) (s : adb_schema) (d1 : bytes) (tmpl : adb_obj) (d2 : bytes) (obj : adb_obj)
    : option Z :=
  match fuel, s with
  | S fuel, (Object _ _ _ | Array _ _ _ _) =>
      cmp_loop (ro_cmp (fun k o1 o2 => cmpobj_fuel fuel mode k d1 o1 d2 o2) s d1 tmpl d2 obj)
        mode (num_compare s) tmpl (Z.to_nat (Z.max (o_num tmpl) (o_num obj) - 1)) ADBI_FIRST
  | _, _ => None
  end.

Definition adb_ro_cmpobj (s : adb_schema) (d1 : bytes) (tmpl : adb_obj) (d2 : bytes) (obj : adb_obj) (mode : Z) : option Z :=
  cmpobj_fuel (schema_depth s) mode s d1 tmpl d2 obj.

Definition adb_ro_cmp (s : adb_schema) (d1 : bytes) (tmpl : adb_obj) (d2 : bytes) (obj : adb_obj) (i mode : Z) : option Z :=
  ro_cmp (fun k o1 o2 => adb_ro_cmpobj k d1 o1 d2 o2 mode) s d1 tmpl d2 obj i.

(** ** Searching an array *)

Section Find.
Context (item : adb_schema) (d : bytes) (arr : adb_obj) (td : bytes) (tmpl : adb_obj).

Definition find_cmp (mode i : Z) : option Z :=
  obj ← adb_ro_obj d arr i;
  adb_ro_cmpobj item td tmpl d obj mode.

(** The binary search halves [l .. r), so the size of the array is enough fuel. *)
Fixpoint bsearch_loop (fuel : nat) (l r : Z) : option Z :=
  if l <? r then
    match fuel with
    | O => None
    | S fuel =>
        let m := (l + r) / 2 in
        c ← find_cmp ADB_OBJCMP_INDEX m;
        if c <? 0 then bsearch_loop fuel l m else bsearch_loop fuel (m + 1) r
    end
  else Some r.

Fixpoint find_loop (n : nat) (cur : Z) : option Z :=
  match n with
  | O => Some (-1)
  | S n =>
      c ← find_cmp ADB_OBJCMP_TEMPLATE cur;
      if c =? 0 then Some cur
      else
        c ← find_cmp ADB_OBJCMP_INDEX cur;
        if negb (c =? 0) then Some (-1) else find_loop n (cur + 1)
  end.

Definition adb_ra_find (cur : Z) : option Z :=
  cur ← (if cur =? 0
         then r ← bsearch_loop (S (Z.to_nat (adb_ra_num arr))) ADBI_FIRST (adb_ra_num arr + 1); Some (r - 1)
         else Some (cur + 1));
  find_loop (Z.to_nat (adb_ra_num arr + 1 - cur)) cur.
End Find.

(** ** Sorting arrays *)

(** qsort_r of the C library, for a comparison that may fail.  It is only documented to sort
    when the comparison is consistent. *)
Definition sort_consistent (cmp : Z -> Z -> option Z) (l : list Z) : Prop :=
  (forall a b, a ∈ l -> b ∈ l -> exists r r', cmp a b = Some r /\ cmp b a = Some r' /\ Z.sgn r' = - Z.sgn r) /\
  (forall a b c r1 r2, a ∈ l -> b ∈ l -> c ∈ l -> cmp a b = Some r1 -> cmp b c = Some r2 -> r1 <= 0 -> r2 <= 0 ->
     exists r, cmp a c = Some r /\ r <= 0).

Definition sorted_by (cmp : Z -> Z -> option Z) (l : list Z) : Prop :=
  forall i j a b, (i < j)%nat -> l !! i = Some a -> l !! j = Some b -> exists r, cmp a b = Some r /\ r <= 0.

Class Qsort := qsort_r : (Z -> Z -> option Z) -> list Z -> option (list Z).
Class QsortOk {Q : Qsort} : Prop := {
  qsort_r_sorts cmp l : sort_consistent cmp l -> exists l', qsort_r cmp l = Some l' /\ l' ≡ₚ l /\ sorted_by cmp l';
}.

(** What adb_m_blob without a trust store leaves of a nested database: its data. *)
Class NestedAdb := nested_adb : option bytes -> option bytes.

Section Write.
Context {Q : Qsort} {NA : NestedAdb}.

Definition wacmp (s : adb_schema) (d : bytes) (v1 v2 : Z) : option Z :=
  adb_ro_cmpobj s d (adb_r_obj d v1) d (adb_r_obj d v2) ADB_OBJCMP_EXACT.

Definition wadbcmp (s : adb_schema) (d : bytes) (v1 v2 : Z) : option Z :=
  a1 ← nested_adb (adb_r_blob d v1).1;
  a2 ← nested_adb (adb_r_blob d v2).1;
  adb_ro_cmpobj s a1 (adb_r_obj a1 (adb_r_root a1)) a2 (adb_r_obj a2 (adb_r_root a2)) ADB_OBJCMP_EXACT.

(** The comparison adb_wa_sort chooses by the kind of the items; other kinds are not sorted. *)
Definition wa_compare (item : adb_schema) (d : bytes) : option (Z -> Z -> option Z) :=
  match item with
  | Scalar c => if scalar_kind c =? ADB_KIND_BLOB then Some (fun v1 v2 => scalar_compare c d v1 d v2) else None
  | Object _ _ _ => Some (wacmp item d)
  | AdbSchema _ s => Some (wadbcmp s d)
  | Array _ _ _ _ => None
  end.

Definition adb_wa_sort (item : adb_schema) (d : bytes) (arr : adb_obj) : option adb_obj :=
  match wa_compare item d with
  | None => Some arr
  | Some cmp =>
      cells ← o_obj arr;
      items ← qsort_r cmp (ztake (adb_ra_num arr) (zdrop ADBI_FIRST cells));
      Some (Obj (Some (ztake ADBI_FIRST cells ++ items ++ zdrop (adb_ra_num arr + 1) cells)) (o_num arr) (o_dynamic arr))
  end.

(** The [n] turns of the loop from item [i] on: the cells and the next free item. *)
Fixpoint unique_loop (n : nat) (i j : Z) (cells : list Z) : list Z * Z :=
  match n with
  | O => (cells, j)
  | S n =>
      if znth 0 cells i =? znth 0 cells (i - 1) then unique_loop n (i + 1) j cells
      else unique_loop n (i + 1) (j + 1) (set_cell j (znth 0 cells i) cells)
  end.

Definition adb_wa_sort_unique (item : adb_schema) (d : bytes) (arr : adb_obj) : option adb_obj :=
  arr ← adb_wa_sort item d arr;
  let num := adb_ra_num arr in
  if 2 <=? num then
    cells ← o_obj arr;
    let '(cells, j) := unique_loop (Z.to_nat (num - 1)) 2 2 cells in
    Some (Obj (Some cells) j (o_dynamic arr))
  else Some arr.

(** The pre_commit hook of a schema. *)
Definition commit_of (s : adb_schema) : pre_commit_t :=
  match s with
  | Array _ _ (Some adb_wa_sort_ptr) item => Some (adb_wa_sort item)
  | Array _ _ (Some adb_wa_sort_unique_ptr) item => Some (adb_wa_sort_unique item)
  | _ => None
  end.

(** ** Filling objects *)

Definition adb_wo_int (db : wadb) (o : adb_obj) (i v : Z) : option (wadb * adb_obj) :=
  r ← adb_w_int db v;
  o ← adb_wo_val o i r.1;
  Some (r.2, o).

Definition adb_wo_blob (db : wadb) (o : adb_obj) (i : Z) (b : blob) : option (wadb * adb_obj) :=
  r ← adb_w_blob db (blob_data b);
  o ← adb_wo_val o i r.1;
  Some (r.2, o).

Definition adb_wo_blob_raw (db : wadb) (o : adb_obj) (i : Z) (b : blob) : option (wadb * adb_obj) :=
  r ← adb_w_blob_raw db (blob_data b);
  o ← adb_wo_val o i r.1;
  Some (r.2, o).

(** The child [no] has the schema [s]; both objects and the database change. *)
Definition adb_wo_obj (s : adb_schema) (db : wadb) (o : adb_obj) (i : Z) (no : adb_obj) : option (wadb * adb_obj * adb_obj) :=
  r ← adb_w_obj (commit_of s) db no;
  o ← adb_wo_val o i r.1.1;
  Some (r.1.2, o, r.2).

Definition adb_wo_arr (s : adb_schema) (db : wadb) (o : adb_obj) (i : Z) (no : adb_obj) : option (wadb * adb_obj * adb_obj) :=
  r ← adb_w_arr (commit_of s) db no;
  o ← adb_wo_val o i r.1.1;
  Some (r.1.2, o, r.2).

Definition adb_wa_append_obj (s : adb_schema) (db : wadb) (o no : adb_obj) : option (wadb * adb_obj * adb_obj) :=
  r ← adb_w_obj (commit_of s) db no;
  o ← adb_wa_append o r.1.1;
  Some (r.1.2, o, r.2).

(** adb_wo_init for a schema, and for the schema of field [i] of a parent; a scalar field leaves
    the schema NULL, which is then dereferenced. *)
Definition adb_wo_init_schema (s : adb_schema) : adb_obj := adb_wo_init (num_fields s).
Definition adb_wo_init_val (parent : adb_schema) (i : Z) : option (adb_schema * adb_obj) :=
  kind ← adb_ro_kind parent i;
  match kind with
  | Object _ _ _ | Array _ _ _ _ => Some (kind, adb_wo_init_schema kind)
  | AdbSchema _ s => Some (s, adb_wo_init_schema s)
  | Scalar _ => None
  end.

(** The loop of adb_wo_copyobj over the fields of the source. *)
Fixpoint copyobj_loop (fuel : nat) (same : bool) (srcd : bytes) (src : adb_obj) (n : nat) (i : Z) (db : wadb) (o : adb_obj)
    : option (wadb * adb_obj) :=
  match n with
  | O => Some (db, o)
  | S n =>
      v ← adb_ro_val src i;
      r ← adb_w_copy fuel same srcd db v;
      o ← adb_wo_val o i r.1;
      copyobj_loop fuel same srcd src n (i + 1) r.2 o
  end.
Definition adb_wo_copyobj (fuel : nat) (same : bool) (srcd : bytes) (src : adb_obj) (db : wadb) (o : adb_obj)
    : option (wadb * adb_obj) :=
  o ← adb_wo_reset o;
  copyobj_loop fuel same srcd src (Z.to_nat (o_num src - 1)) ADBI_FIRST db o.

(** ** Text *)

Definition dependency_tostring (d : bytes) (obj : adb_obj) (bufsz : Z) : option rblob :=
  name ← adb_ro_blob d obj ADBI_DEP_NAME;
  ver ← adb_ro_blob d obj ADBI_DEP_VERSION;
  match_ ← adb_ro_int d obj ADBI_DEP_MATCH;
  let op := u32 match_ in
  let op := if op =? 0 then APK_VERSION_EQUAL else op in
  let bang := if negb (op .& APK_VERSION_CONFLICT =? 0) then bs "!" else [] in
  Some match name.1, ver.1 with
       | None, _ => (None, 0)
       | Some n, None =>
           if negb (op .& APK_VERSION_CONFLICT =? 0) then apk_blob_fmt bufsz (bs "!" ++ blob_printf n) else name
       | Some n, Some v =>
           apk_blob_fmt bufsz (bang ++ blob_printf n ++ bs (apk_version_op_string op) ++ blob_printf v)
       end.

Definition dependency_fromstring (db : wadb) (obj : adb_obj) (bdep : blob) : option (Z * wadb * adb_obj) :=
  let fail := Some (- APKE_DEPENDENCY_FORMAT, db, obj) in
  match apk_dep_parse bdep with
  | None => fail
  | Some (bname, op, bver) =>
      if negb (op .& APK_DEPMASK_CHECKSUM =? APK_DEPMASK_CHECKSUM) && negb (apk_version_validate (blob_data bver)) then fail
      else if (apk_blob_spn bname APK_CTYPE_DEPENDENCY_NAME).1.1 then fail
      else
        r ← adb_wo_blob db obj ADBI_DEP_NAME (Some bname);
        let '(db, obj) := r in
        r ← (if negb (op =? APK_DEPMASK_ANY) then
               r ← adb_wo_blob db obj ADBI_DEP_VERSION bver;
               let '(db, obj) := r in
               if negb (op =? APK_VERSION_EQUAL) then adb_wo_int db obj ADBI_DEP_MATCH op else Some (db, obj)
             else Some (db, obj));
        let '(db, obj) := r in
        Some (0, db, obj)
  end.

(** One dependency of a list: the dependency and the rest, unless there is none left. *)
Definition apk_dep_split (b : bytes) : option (bytes * bytes) :=
  if zlen b =? 0 then None
  else
    let '(_, _, b) := apk_blob_spn b APK_CTYPE_DEPENDENCY_SEPARATOR in
    let '(_, bdep, b) := apk_blob_cspn b APK_CTYPE_DEPENDENCY_SEPARATOR in
    if zlen bdep =? 0 then None else Some (bdep, b).

(** adb_wo_fromstring for the only object schema with a fromstring. *)
Definition adb_wo_fromstring (db : wadb) (o : adb_obj) (val : blob) : option (Z * wadb * adb_obj) :=
  o ← adb_wo_reset o;
  dependency_fromstring db o val.

(** Every turn takes at least one byte, so the length of the text is enough fuel. *)
Fixpoint dependencies_loop (fuel : nat) (db : wadb) (obj dep : adb_obj) (b : bytes) : option (Z * wadb * adb_obj) :=
  match apk_dep_split b with
  | None => Some (0, db, obj)
  | Some (bdep, b) =>
      match fuel with
      | O => None
      | S fuel =>
          r ← adb_wo_fromstring db dep (Some bdep);
          let '(rc, db, dep) := r in
          if negb (rc =? 0) then Some (rc, db, obj)
          else
            r ← adb_wa_append_obj schema_dependency db obj dep;
            let '(db, obj, dep) := r in
            dependencies_loop fuel db obj dep b
      end
  end.
Definition dependencies_fromstring (db : wadb) (obj : adb_obj) (b : blob) : option (Z * wadb * adb_obj) :=
  dependencies_loop (length (blob_data b)) db obj (adb_wo_init_schema schema_dependency) (blob_data b).

Section Tags.
Context (item_fromstring : wadb -> blob -> option (Z * wadb)).

(** adb_wa_append_fromstring, for the conversion of the schema of the items. *)
Definition wa_append_fromstring (db : wadb) (o : adb_obj) (b : blob) : option (Z * wadb * adb_obj) :=
  r ← item_fromstring db b;
  o ← adb_wa_append o r.1;
  Some (r.1, r.2, o).

Fixpoint tags_loop (words : list bytes) (db : wadb) (obj : adb_obj) : option (Z * wadb * adb_obj) :=
  match words with
  | [] => Some (0, db, obj)
  | word :: words =>
      if (apk_blob_spn word APK_CTYPE_TAG_NAME).1.1 then Some (- APKE_ADB_PACKAGE_FORMAT, db, obj)
      else
        r ← wa_append_fromstring db obj (Some word);
        tags_loop words r.1.2 r.2
  end.
End Tags.

Definition tags_fromstring (item_fromstring : wadb -> blob -> option (Z * wadb)) (db : wadb) (obj : adb_obj) (str : blob)
    : option (Z * wadb * adb_obj) :=
  tags_loop item_fromstring (apk_blob_foreach_word str) db obj.

(** The object that was filled is written, or the error is the value; arrays are written with
    the type of objects too. *)
Definition finish_fromstring (s : adb_schema) (r : option (Z * wadb * adb_obj)) : option (Z * wadb) :=
  r ← r;
  let '(rc, db, obj) := r in
  if negb (rc =? 0) then Some (ADB_ERROR (- rc), db)
  else fst <$> adb_w_obj (commit_of s) db obj.

Fixpoint adb_w_fromstring (s : adb_schema) (db : wadb) (val : blob) : option (Z * wadb) :=
  match s with
  | Scalar c => scalar_fromstring c db val
  | Object _ true _ => finish_fromstring s (dependency_fromstring db (adb_wo_init_schema s) val)
  | Array _ (Some tags_fromstring_ptr) _ item =>
      finish_fromstring s (tags_fromstring (adb_w_fromstring item) db (adb_wo_init_schema s) val)
  | Array _ (Some dependencies_fromstring_ptr) _ _ =>
      finish_fromstring s (dependencies_fromstring db (adb_wo_init_schema s) val)
  | _ => Some (ADB_ERROR APKE_ADB_NO_FROMSTRING, db)
  end.

Definition adb_wa_append_fromstring (s : adb_schema) (db : wadb) (o : adb_obj) (b : blob) : option (Z * wadb * adb_obj) :=
  item ← adb_ro_kind s ADBI_FIRST;
  wa_append_fromstring (adb_w_fromstring item) db o b.

(** The value is stored even when it is an error. *)
Definition adb_wo_val_fromstring (s : adb_schema) (db : wadb) (o : adb_obj) (i : Z) (val : blob) : option (Z * wadb * adb_obj) :=
  max ← adb_wo_max o;
  cells ← o_obj o;
  if max <=? i then None
  else
    kind ← adb_ro_kind s i;
    r ← adb_w_fromstring kind db val;
    Some (r.1, r.2, Obj (Some (set_cell i r.1 cells)) (if o_num o <=? i then i + 1 else o_num o) (o_dynamic o)).

(** ** Package information of the old formats *)

Definition pkginfo_store (obj : adb_obj) (f : Z) (r : Z * wadb) : option (Z * wadb * adb_obj) :=
  let '(v, db) := r in
  if negb (v =? ADB_NULL) && negb (ADB_IS_ERROR v)
  then obj ← adb_wo_val obj f v; Some (v, db, obj)
  else Some (v, db, obj).

Definition adb_wo_pkginfo (db : wadb) (obj : adb_obj) (f : Z) (val : blob) : option (Z * wadb * adb_obj) :=
  let v := ADB_ERROR APKE_ADB_PACKAGE_FORMAT in
  if f =? ADBI_PI_HASHES then
    if APK_BLOB_IS_NULL val || (blob_len val <? 4) then pkginfo_store obj f (v, db)
    else
      r ← apk_blob_pull_digest val (Digest 0 0 (replicate 64 0));
      r ← adb_w_blob db (apk_digest_blob r.2);
      pkginfo_store obj f r
  else if f =? ADBI_PI_REPO_COMMIT then
    if blob_len val <? 40 then pkginfo_store obj f (v, db)
    else
      r ← apk_blob_pull_hexdump val (hex_buf 20);
      match r with
      | (None, _) => pkginfo_store obj f (v, db)
      | (Some _, buf) => r ← adb_w_blob db buf; pkginfo_store obj f r
      end
  else adb_wo_val_fromstring schema_pkginfo db obj f val.
End Write.
