(* ===== verification/AdbCmp.v ===== *)
(** Theorems on comparing, sorting and searching adb objects (AdbSchema.v): adb_ro_cmpobj is the
    lexicographic order of the trees the objects stand for, unless a version is compared with a
    missing one; adb_wa_sort and adb_wa_sort_unique sort arrays; adb_ra_find finds the last of
    the items that match an index. *)
From Stdlib Require Import ZArith Lia String.
From stdpp Require Import base numbers list option sorting.
From S2P Require Import Prelude Clib Blob Codec Ctype Version Dep AdbBlock AdbTrust AdbData AdbValue AdbSchema.

(** ** The order of trees *)

Definition kids (t : aval) : list aval := match t with ATree _ ts => ts | _ => [] end.
Definition blob_of (t : aval) : bytes := match t with ABlob b => b | _ => [] end.
Definition int_of (t : aval) : Z := match t with AInt n => n | _ => 0 end.
Definition is_blob (t : aval) : bool := match t with ABlob _ => true | _ => false end.
Definition vkey (t : aval) : list (list Z) := match t with ABlob b => version_key b | _ => [] end.

(** Field [i] of a list of fields; the fields that are not there are null. *)
Definition kid (ts : list aval) (i : Z) : aval := nth (Z.to_nat (i - 1)) ts ANull.

(** A missing version comes before all versions. *)
Definition scalar_cmp (c : adb_scalar_schema) (t1 t2 : aval) : Z :=
  match c with
  | scalar_version => lex_list lex_compare (vkey t1) (vkey t2)
  | scalar_int | scalar_oct | scalar_hsize => int_of t1 - int_of t2
  | _ => apk_blob_sort (blob_of t1) (blob_of t2)
  end.

Section Pad.
Context (f : Z -> aval -> aval -> Z).

(** The first of the [n] fields from [i] on that differs decides. *)
Fixpoint lex_pad (n : nat) (i : Z) (ts1 ts2 : list aval) : Z :=
  match n with
  | O => 0
  | S n => let r := f i (kid ts1 i) (kid ts2 i) in if r =? 0 then lex_pad n (i + 1) ts1 ts2 else r
  end.
Definition pad_cmp (ts1 ts2 : list aval) : Z := lex_pad (Nat.max (length ts1) (length ts2)) ADBI_FIRST ts1 ts2.

Context (g : Z -> aval -> aval -> bool).

(** [g] holds for the fields up to the first that differs. *)
Fixpoint all_pad (n : nat) (i : Z) (ts1 ts2 : list aval) : bool :=
  match n with
  | O => true
  | S n =>
      g i (kid ts1 i) (kid ts2 i) &&
      (if f i (kid ts1 i) (kid ts2 i) =? 0 then all_pad n (i + 1) ts1 ts2 else true)
  end.
Definition pad_all (ts1 ts2 : list aval) : bool := all_pad (Nat.max (length ts1) (length ts2)) ADBI_FIRST ts1 ts2.
End Pad.

Fixpoint tree_cmp_fuel (n : nat) (s : adb_schema) (t1 t2 : aval) : Z :=
  match s, n with
  | Scalar c, _ => scalar_cmp c t1 t2
  | (Object _ _ _ | Array _ _ _ _), S n =>
      pad_cmp (fun i a b => match adb_ro_kind s i with Some k => tree_cmp_fuel n k a b | None => 0 end) (kids t1) (kids t2)
  | _, _ => 0
  end.
Definition tree_cmp (s : adb_schema) : aval -> aval -> Z := tree_cmp_fuel (schema_depth s) s.

(** Comparing meets no field that the schema does not have, no nested database, and never a
    version on one side only. *)
Fixpoint comparable_fuel (n : nat) (s : adb_schema) (t1 t2 : aval) : bool :=
  match s, n with
  | Scalar scalar_version, _ => Bool.eqb (is_blob t1) (is_blob t2)
  | Scalar _, _ => true
  | (Object _ _ _ | Array _ _ _ _), S n =>
      pad_all (fun i a b => match adb_ro_kind s i with Some k => tree_cmp_fuel n k a b | None => 0 end)
        (fun i a b => match adb_ro_kind s i with Some k => comparable_fuel n k a b | None => false end) (kids t1) (kids t2)
  | _, _ => false
  end.
Definition comparable (s : adb_schema) : aval -> aval -> bool := comparable_fuel (schema_depth s) s.

#[export] Instance scalar_cmp_order c : CmpOrder (scalar_cmp c).
Proof.
  destruct c; [apply (cmp_order_on blob_of), _..|apply (cmp_order_on vkey), _|apply (cmp_order_on blob_of), _| | |].
  all: split; intros; cbn [scalar_cmp] in *; lia.
Qed.

Section PadOrder.
Context (f : Z -> aval -> aval -> Z) {Hf : forall i, CmpOrder (f i)}.

#[local] Instance lex_pad_order n i : CmpOrder (lex_pad f n i).
Proof.
  revert i. induction n as [|n IH]; intros i; [split; cbn; lia|]. specialize (IH (i + 1)).
  split; intros a b; cbn [lex_pad].
  - pose proof (cmp_antisym (cmp := f i) (kid a i) (kid b i)).
    pose proof (cmp_antisym (cmp := lex_pad f n (i + 1)) a b).
    destruct (Z.eqb_spec (f i (kid a i) (kid b i)) 0), (Z.eqb_spec (f i (kid b i) (kid a i)) 0); lia.
  - intros c. set (x := kid a i). set (y := kid b i). set (z := kid c i).
    pose proof (cmp_trans (cmp := f i) x y z). pose proof (cmp_trans (cmp := lex_pad f n (i + 1)) a b c).
    pose proof (cmp_eq_trans (f i) x y z). pose proof (cmp_lt_le_trans (f i) x y z). pose proof (cmp_le_lt_trans (f i) x y z).
    destruct (Z.eqb_spec (f i x y) 0), (Z.eqb_spec (f i y z) 0), (Z.eqb_spec (f i x z) 0); auto; lia.
Qed.

Lemma kid_over ts i : zlen ts < i -> kid ts i = ANull.
Proof. intros H. unfold kid. apply nth_overflow. unfold zlen in H. lia. Qed.

Lemma lex_pad_over n i ts1 ts2 : zlen ts1 < i -> zlen ts2 < i -> lex_pad f n i ts1 ts2 = 0.
Proof.
  revert i. induction n as [|n IH]; intros i H1 H2; [done|]. cbn [lex_pad].
  rewrite !kid_over, cmp_refl by done. cbn. apply IH; lia.
Qed.

Lemma lex_pad_ge n m i ts1 ts2 : (n <= m)%nat -> zlen ts1 < i + Z.of_nat n -> zlen ts2 < i + Z.of_nat n ->
  lex_pad f m i ts1 ts2 = lex_pad f n i ts1 ts2.
Proof.
  revert m i. induction n as [|n IH]; intros m i Hn H1 H2; [apply lex_pad_over; lia|].
  destruct m as [|m]; [lia|]. cbn [lex_pad]. case_match; [|done]. apply IH; lia.
Qed.

Lemma pad_cmp_eq n ts1 ts2 : (length ts1 <= n)%nat -> (length ts2 <= n)%nat -> pad_cmp f ts1 ts2 = lex_pad f n ADBI_FIRST ts1 ts2.
Proof. intros H1 H2. symmetry. apply lex_pad_ge; unfold zlen, ADBI_FIRST; lia. Qed.

#[export] Instance pad_cmp_order : CmpOrder (pad_cmp f).
Proof.
  split.
  - intros a b. unfold pad_cmp. rewrite (Nat.max_comm (length b)). apply cmp_antisym.
  - intros a b c. set (n := (length a + length b + length c)%nat).
    rewrite !(pad_cmp_eq n) by lia. apply cmp_trans.
Qed.
End PadOrder.

#[export] Instance tree_cmp_fuel_order n s : CmpOrder (tree_cmp_fuel n s).
Proof.
  revert s. induction n as [|n IH]; intros [c|nc tx fs|nf fs pc it|id s]; cbn [tree_cmp_fuel];
    try apply scalar_cmp_order; try (split; cbn; lia);
    (apply (cmp_order_on kids), pad_cmp_order; intros i; destruct (adb_ro_kind _ i); [apply IH|split; cbn; lia]).
Qed.

#[export] Instance tree_cmp_order s : CmpOrder (tree_cmp s).
Proof. apply tree_cmp_fuel_order. Qed.

(** ** Objects that stand for fields *)

(** The fields of [o], which is read or built, stand for [ts]. *)
Definition holds (d : bytes) (o : adb_obj) (ts : list aval) : Prop :=
  o_num o = zlen ts + 1 /\ forall i, ADBI_FIRST <= i -> exists v, adb_ro_val o i = Some v /\ denotes d v (kid ts i).

Lemma holds_cells d cells ts rest h dyn : Forall2 (denotes d) cells ts -> holds d (Obj (Some (h :: cells ++ rest)) (zlen ts + 1) dyn) ts.
Proof.
  intros Hc. split; [done|]. intros i Hi. unfold ADBI_FIRST in Hi. unfold adb_ro_val. cbn [o_num o_obj].
  destruct (Z.leb_spec (zlen ts + 1) i).
  - exists ADB_NULL. split; [done|]. rewrite kid_over by lia. done.
  - eexists. split; [done|]. pose proof (list.Forall2_length _ _ _ Hc) as Hl0. unfold znth, kid, zlen in *.
    destruct (Z.ltb_spec i 0); [lia|].
    replace (Z.to_nat i) with (S (Z.to_nat (i - 1))) by lia. cbn [nth]. rewrite app_nth1 by lia.
    destruct (lookup_lt_is_Some_2 ts (Z.to_nat (i - 1))) as [t Ht]; [lia|].
    destruct (list.Forall2_lookup_r _ _ _ _ _ Hc Ht) as (c & Hl & Hd).
    by rewrite (nth_lookup_Some _ _ _ _ Hl), (nth_lookup_Some _ _ _ _ Ht).
Qed.

Lemma builds_holds d o max ts : builds d o max ts -> holds d o ts.
Proof.
  intros (cells & rest & Ho & Hn & _ & Hc). destruct o as [oo on od]. cbn in *. subst. by apply holds_cells.
Qed.

Lemma denotes_type d v t : denotes d v t ->
  match t with ATree _ _ => True | _ => ADB_VAL_TYPE v <> ADB_TYPE_ARRAY /\ ADB_VAL_TYPE v <> ADB_TYPE_OBJECT end.
Proof.
  destruct t as [|n|b|ty ts]; intros H; [| | |done].
  - by destruct H as (_ & ->).
  - by destruct H as (_ & [(-> & _)|[(-> & _)|(-> & _)]]).
  - destruct H as (_ & n & H & _). unfold is_blob_type in H. rewrite !elem_of_cons, elem_of_nil in H.
    by destruct H as [[= -> _]|[[= -> _]|[[= -> _]|[]]]].
Qed.

Lemma adb_r_obj_holds d v t : denotes d v t -> holds d (adb_r_obj d v) (kids t).
Proof.
  intros H. destruct t as [|n|b|ty ts].
  4: { destruct (adb_r_obj_denotes d v ty ts H) as (cells & Hc & ->). rewrite <- (app_nil_r cells). by apply holds_cells. }
  all: pose proof (denotes_type d v _ H) as [H1 H2]; unfold adb_r_obj, adb_r_obj_mem;
    rewrite (proj2 (Z.eqb_neq _ _) H1), (proj2 (Z.eqb_neq _ _) H2); cbn [negb andb kids default id];
    (split; [done|]); intros i Hi; unfold adb_ro_val, obj_null, ADBI_FIRST in *; cbn [o_num o_obj];
    (destruct (Z.leb_spec 1 i); [|lia]); exists ADB_NULL; (split; [done|]); rewrite kid_over by (rewrite zlen_nil; lia); done.
Qed.

(** ** Comparing scalars *)

Lemma adb_r_blob_tree d v t : denotes d v t ->
  adb_r_blob d v = (if is_blob t then Some (blob_of t) else None, zlen (blob_of t)).
Proof.
  intros H. destruct t as [|n|b|ty ts]; cbn [is_blob blob_of]; [| |by apply adb_r_blob_denotes|].
  - by destruct H as (_ & ->).
  - unfold adb_r_blob, adb_r_blob_mem. by destruct H as (_ & [(-> & _)|[(-> & _)|(-> & _)]]).
  - unfold adb_r_blob, adb_r_blob_mem. apply denotes_tree in H as (_ & -> & [-> | ->] & _); done.
Qed.

Lemma adb_r_int_tree d v t : denotes d v t -> adb_r_int d v = int_of t.
Proof.
  intros H. destruct t as [|n|b|ty ts]; cbn [int_of]; [|by apply adb_r_int_denotes| |].
  - by destruct H as (_ & ->).
  - destruct H as (_ & n & H & _). unfold adb_r_int, adb_r_int_mem, is_blob_type in *. rewrite !elem_of_cons, elem_of_nil in H.
    by destruct H as [[= -> _]|[[= -> _]|[[= -> _]|[]]]].
  - unfold adb_r_int, adb_r_int_mem. apply denotes_tree in H as (_ & -> & [-> | ->] & _); done.
Qed.

Lemma string_compare_tree d1 v1 t1 d2 v2 t2 : denotes d1 v1 t1 -> denotes d2 v2 t2 ->
  string_compare d1 v1 d2 v2 = Some (apk_blob_sort (blob_of t1) (blob_of t2)).
Proof.
  intros H1 H2. unfold string_compare. rewrite (adb_r_blob_tree _ _ _ H1), (adb_r_blob_tree _ _ _ H2).
  assert (E : forall t, is_blob t = false -> blob_of t = []) by (intros []; done).
  destruct (is_blob t1) eqn:E1; [destruct (is_blob t2) eqn:E2; [done|]|].
  - rewrite (E t2 E2). change (zlen []) with 0. rewrite Z.min_r by apply zlen_nonneg. cbv iota beta. f_equal.
    unfold apk_blob_sort. by destruct (blob_of t1).
  - rewrite (E t1 E1). change (zlen []) with 0. rewrite Z.min_l by apply zlen_nonneg. cbv iota beta. f_equal.
Qed.

Lemma scalar_compare_tree c d1 v1 t1 d2 v2 t2 : denotes d1 v1 t1 -> denotes d2 v2 t2 ->
  comparable_fuel 0 (Scalar c) t1 t2 = true ->
  exists r, scalar_compare c d1 v1 d2 v2 = Some r /\ Z.sgn r = Z.sgn (scalar_cmp c t1 t2).
Proof.
  intros H1 H2 Hc.
  assert (Hi : exists r, Some (int_compare d1 v1 d2 v2) = Some r /\ Z.sgn r = Z.sgn (int_of t1 - int_of t2)).
  { eexists. split; [done|]. unfold int_compare. rewrite (adb_r_int_tree _ _ _ H1), (adb_r_int_tree _ _ _ H2).
    case_match; case_match || idtac; lia. }
  destruct c; cbn [scalar_compare scalar_cmp]; try done;
    try (eexists; split; [by apply (string_compare_tree _ _ t1 _ _ t2)|done]).
  eexists. split; [done|]. unfold version_compare. rewrite (adb_r_blob_tree _ _ _ H1), (adb_r_blob_tree _ _ _ H2). cbn [fst].
  cbn in Hc. apply Bool.eqb_prop in Hc. destruct t1, t2; try done; cbn [is_blob blob_of vkey] in *.
  destruct (apk_version_compare_keys b b0) as [H3 H4]. rewrite <- H4. unfold vsign.
  destruct H3 as [-> |[-> | ->]]; done.
Qed.

(** ** Comparing objects *)

Lemma cmp_loop_exact cmp nc d1 o1 ts1 ts2 f g m i : holds d1 o1 ts1 -> ADBI_FIRST <= i ->
  (forall j, ADBI_FIRST <= j -> g j (kid ts1 j) (kid ts2 j) = true ->
     exists r, cmp j = Some r /\ Z.sgn r = Z.sgn (f j (kid ts1 j) (kid ts2 j))) ->
  all_pad f g m i ts1 ts2 = true ->
  exists r, cmp_loop cmp ADB_OBJCMP_EXACT nc o1 m i = Some r /\ Z.sgn r = Z.sgn (lex_pad f m i ts1 ts2).
Proof.
  intros [_ Ho] Hi Hc. revert i Hi. induction m as [|m IH]; intros i Hi Hg; [by exists 0|].
  cbn [all_pad] in Hg. apply andb_prop in Hg as [Hg1 Hg2]. cbn [cmp_loop lex_pad].
  destruct (Ho i Hi) as (v & -> & _). destruct (Hc i Hi Hg1) as (r & Er & Hr). cbn [mbind option_bind].
  change (ADB_OBJCMP_EXACT =? ADB_OBJCMP_EXACT) with true. cbn [orb]. rewrite Er. cbn [mbind option_bind].
  destruct (Z.eqb_spec (f i (kid ts1 i) (kid ts2 i)) 0) as [E|E].
  - assert (r = 0) as -> by lia. cbn [negb Z.eqb andb].
    change (ADB_OBJCMP_EXACT =? ADB_OBJCMP_INDEX) with false. cbn [andb]. apply IH; [lia|done].
  - destruct (Z.eqb_spec r 0) as [->|]; [lia|]. cbn [negb]. by exists r.
Qed.

Lemma turns_pad o1 o2 d1 d2 ts1 ts2 : holds d1 o1 ts1 -> holds d2 o2 ts2 ->
  Z.to_nat (Z.max (o_num o1) (o_num o2) - 1) = Nat.max (length ts1) (length ts2).
Proof. intros [-> _] [-> _]. unfold zlen. lia. Qed.

Lemma cmpobj_fuel_tree n s d1 o1 t1 d2 o2 t2 :
  holds d1 o1 (kids t1) -> holds d2 o2 (kids t2) -> comparable_fuel n s t1 t2 = true ->
  match s with Object _ _ _ | Array _ _ _ _ => True | _ => False end ->
  exists r, cmpobj_fuel n ADB_OBJCMP_EXACT s d1 o1 d2 o2 = Some r /\ Z.sgn r = Z.sgn (tree_cmp_fuel n s t1 t2).
Proof.
  revert s o1 t1 o2 t2. induction n as [|n IH]; intros s o1 t1 o2 t2 H1 H2 Hc Hs; [by destruct s|].
  assert (Hi : forall j, ADBI_FIRST <= j ->
    match adb_ro_kind s j with Some k => comparable_fuel n k (kid (kids t1) j) (kid (kids t2) j) | None => false end = true ->
    exists r, ro_cmp (fun k o1 o2 => cmpobj_fuel n ADB_OBJCMP_EXACT k d1 o1 d2 o2) s d1 o1 d2 o2 j = Some r /\
      Z.sgn r = Z.sgn match adb_ro_kind s j with Some k => tree_cmp_fuel n k (kid (kids t1) j) (kid (kids t2) j) | None => 0 end).
  { intros j Hj. unfold ro_cmp. destruct (adb_ro_kind s j) as [k|]; [|done]. cbn [mbind option_bind].
    destruct H1 as [_ H1], H2 as [_ H2]. destruct (H1 j Hj) as (v1 & -> & D1), (H2 j Hj) as (v2 & -> & D2).
    cbn [mbind option_bind]. intros Hg. destruct k as [c|? ? ?|? ? ? ?|? ?].
    - destruct (scalar_compare_tree c d1 v1 _ d2 v2 _ D1 D2) as (r & Er & Hr); [by destruct n, c|].
      exists r. split; [done|]. rewrite Hr. by destruct n.
    - apply IH; [by apply adb_r_obj_holds..|done|done].
    - apply IH; [by apply adb_r_obj_holds..|done|done].
    - by destruct n. }
  destruct s as [c|nc tx fs|nf fs pc it|id s]; try done; cbn [cmpobj_fuel tree_cmp_fuel comparable_fuel] in *;
    rewrite (turns_pad _ _ _ _ _ _ H1 H2); (eapply cmp_loop_exact; [exact H1|done| |exact Hc]; exact Hi).
Qed.

Definition is_object (s : adb_schema) : Prop := match s with Object _ _ _ | Array _ _ _ _ => True | _ => False end.

Lemma adb_ro_cmpobj_tree s d1 o1 t1 d2 o2 t2 : is_object s ->
  holds d1 o1 (kids t1) -> holds d2 o2 (kids t2) -> comparable s t1 t2 = true ->
  exists r, adb_ro_cmpobj s d1 o1 d2 o2 ADB_OBJCMP_EXACT = Some r /\ Z.sgn r = Z.sgn (tree_cmp s t1 t2).
Proof. intros Hs H1 H2 Hc. by apply cmpobj_fuel_tree. Qed.

(** C32: adb_ro_cmpobj compares whole objects as a total preorder: two objects are compared like
    the trees they stand for, field by field with missing fields as null, strings as bytes,
    numbers as numbers and versions by apk_version_compare, whatever databases they are in, as
    long as no version is compared with a missing version. *)
Theorem adb_ro_cmpobj_order s d1 v1 t1 d2 v2 t2 : is_object s ->
  denotes d1 v1 t1 -> denotes d2 v2 t2 -> comparable s t1 t2 = true ->
  (exists r, adb_ro_cmpobj s d1 (adb_r_obj d1 v1) d2 (adb_r_obj d2 v2) ADB_OBJCMP_EXACT = Some r /\
     Z.sgn r = Z.sgn (tree_cmp s t1 t2)) /\
  CmpOrder (tree_cmp s).
Proof.
  intros Hs H1 H2 Hc. split; [|apply _]. apply adb_ro_cmpobj_tree; [done|by apply adb_r_obj_holds..|done].
Qed.

(** ** Sorting *)

Definition ordered {A} (R : A -> A -> Prop) (l : list A) : Prop :=
  forall i j a b, (i < j)%nat -> l !! i = Some a -> l !! j = Some b -> R a b.

Lemma ordered_cons {A} (R : A -> A -> Prop) x l : ordered R (x :: l) <-> (forall y, y ∈ l -> R x y) /\ ordered R l.
Proof.
  split.
  - intros H. split.
    + intros y Hy. apply list_elem_of_lookup_1 in Hy as [j Hj]. apply (H 0%nat (S j)); [lia|done|done].
    + intros i j a b Hij. apply (H (S i) (S j)). lia.
  - intros [H1 H2] [|i] [|j] a b Hij Ha Hb; [lia| |lia|].
    + injection Ha as <-. by eapply H1, list_elem_of_lookup_2.
    + eapply (H2 i j); [lia|done|done].
Qed.

Lemma Forall2_permute {A B} (R : A -> B -> Prop) l l' k : l' ≡ₚ l -> Forall2 R l k -> exists k', Forall2 R l' k' /\ k' ≡ₚ k.
Proof.
  intros Hp. revert k. induction Hp as [|x l l' Hp IH|x y l|l l' l'' H1 IH1 H2 IH2]; intros k Hk.
  - exists []. by inversion Hk.
  - apply list.Forall2_cons_inv_l in Hk as (b & k0 & Hx & Hk & ->). destruct (IH k0 Hk) as (k' & H1 & H2).
    exists (b :: k'). split; [by constructor|by constructor].
  - apply list.Forall2_cons_inv_l in Hk as (b & k0 & Hx & Hk & ->). apply list.Forall2_cons_inv_l in Hk as (c & k1 & Hy & Hk & ->).
    exists (c :: b :: k1). split; [by repeat constructor|constructor].
  - destruct (IH2 k Hk) as (k' & K1 & K2). destruct (IH1 k' K1) as (k'' & K3 & K4). exists k''. split; [done|by etrans].
Qed.

(** The neighbours that are equal, once. *)
Fixpoint dedup_adj (prev : Z) (l : list Z) : list Z :=
  match l with
  | [] => []
  | x :: l => if x =? prev then dedup_adj x l else x :: dedup_adj x l
  end.

Lemma dedup_adj_length prev l : (length (dedup_adj prev l) <= length l)%nat.
Proof. revert prev. induction l as [|x l IH]; intros prev; [done|]. cbn. specialize (IH x). case_match; cbn; lia. Qed.

Lemma znth_app_at {A} (def : A) h l x r i : i = zlen l + 1 -> znth def (h :: l ++ x :: r) i = x.
Proof.
  intros ->. unfold znth, zlen. destruct (Z.ltb_spec (Z.of_nat (length l) + 1) 0); [lia|].
  replace (Z.to_nat (Z.of_nat (length l) + 1)) with (S (length l)) by lia. cbn [nth]. by rewrite nth_middle.
Qed.

Lemma set_cell_at h l x r v i : i = zlen l + 1 -> set_cell i v (h :: l ++ x :: r) = h :: l ++ v :: r.
Proof.
  intros ->. unfold set_cell, zlen. replace (Z.to_nat (Z.of_nat (length l) + 1)) with (S (length l)) by lia.
  rewrite insert_tl, insert_app_r_alt by lia. by rewrite Nat.sub_diag.
Qed.

Lemma unique_loop_dedup h out mid rem junk prev i j :
  last (out ++ mid) = Some prev -> i = zlen (out ++ mid) + 1 -> j = zlen out + 1 ->
  exists junk', unique_loop (length rem) i j (h :: (out ++ mid) ++ rem ++ junk) =
    (h :: (out ++ dedup_adj prev rem) ++ junk', zlen (out ++ dedup_adj prev rem) + 1).
Proof.
  revert out mid prev i j. induction rem as [|x rem IH]; intros out mid prev i j Hl Hi Hj.
  - exists (mid ++ junk). cbn. by rewrite !app_nil_r, app_assoc, Hj.
  - cbn [length unique_loop dedup_adj app]. rewrite znth_app_at by done.
    assert (Hp : znth 0 (h :: (out ++ mid) ++ x :: rem ++ junk) (i - 1) = prev).
    { apply last_Some in Hl as [l0 Hl]. rewrite Hl, <- app_assoc. apply znth_app_at. rewrite Hi, Hl, zlen_app, zlen_cons, zlen_nil. lia. }
    rewrite Hp. destruct (Z.eqb_spec x prev) as [->|Hne].
    + destruct (IH out (mid ++ [prev]) prev (i + 1) j) as (junk' & E); [by rewrite app_assoc, last_snoc| |done|].
      * rewrite Hi, !zlen_app, zlen_cons, zlen_nil. lia.
      * exists junk'. rewrite <- E. by rewrite <- !app_assoc.
    + assert (Hm : exists y m', mid ++ [x] = y :: m' /\ last ((out ++ [x]) ++ m') = Some x).
      { destruct mid as [|y m]; [exists x, []; split; [done|]; by rewrite app_nil_r, last_snoc|].
        exists y, (m ++ [x]). split; [done|]. by rewrite app_assoc, last_snoc. }
      destruct Hm as (y & m' & Em & Hl').
      assert (E1 : h :: (out ++ mid) ++ x :: rem ++ junk = h :: out ++ y :: (m' ++ rem ++ junk)).
      { f_equal. rewrite <- app_assoc. f_equal. change (x :: rem ++ junk) with ([x] ++ (rem ++ junk)). by rewrite app_assoc, Em. }
      rewrite E1, (set_cell_at h out y _ x j) by done.
      destruct (IH (out ++ [x]) m' x (i + 1) (j + 1)) as (junk' & E); [done| | |].
      * rewrite Hi, !zlen_app. apply (f_equal zlen) in Em. rewrite zlen_app, !zlen_cons, zlen_nil in *. lia.
      * rewrite Hj, zlen_app, zlen_cons, zlen_nil. lia.
      * exists junk'. rewrite <- !app_assoc in E. cbn [app] in E. rewrite E, <- ?app_assoc. done.
Qed.

Lemma denotes_functional d v t1 t2 : denotes d v t1 -> denotes d v t2 -> t1 = t2.
Proof.
  intros H1 H2. set (n := Nat.max (depth t1) (depth t2)).
  pose proof (r_tree_denotes d t1 n v ltac:(lia) H1). pose proof (r_tree_denotes d t2 n v ltac:(lia) H2). congruence.
Qed.

(** Items that compare equal are one value, as when equal data is shared. *)
Definition shared (s : adb_schema) (d : bytes) (cs : list Z) : Prop :=
  forall v w a b, v ∈ cs -> w ∈ cs -> denotes d v a -> denotes d w b -> tree_cmp s a b = 0 -> v = w.

Lemma dedup_trees s d prev l tp ts :
  denotes d prev tp -> Forall2 (denotes d) l ts -> ordered (fun a b => tree_cmp s a b <= 0) (tp :: ts) ->
  exists ts', Forall2 (denotes d) (dedup_adj prev l) ts' /\ (forall t, t ∈ tp :: ts' <-> t ∈ tp :: ts) /\
    ordered (fun a b => tree_cmp s a b <= 0) (tp :: ts') /\
    (shared s d (prev :: l) -> ordered (fun a b => tree_cmp s a b < 0) (tp :: ts')).
Proof.
  intros Hp Hl. revert prev tp Hp. induction Hl as [|x tx l ts Hx Hl IH]; intros prev tp Hp Ho.
  { exists []. split_and!; [constructor|done|done|]. intros _. apply ordered_cons. split; [intros y; by rewrite elem_of_nil|].
    intros i j a b _ H. by rewrite lookup_nil in H. }
  cbn [dedup_adj]. apply ordered_cons in Ho as [Ho1 Ho2]. destruct (Z.eqb_spec x prev) as [->|Hne].
  - assert (tx = tp) as -> by by eapply denotes_functional. destruct (IH prev tp Hp Ho2) as (ts' & H1 & H2 & H3 & H4).
    exists ts'. split_and!; [done| |done|].
    + intros t. rewrite H2, !elem_of_cons. tauto.
    + intros Hs. apply H4. intros v w a b Hv Hw. apply Hs; by right.
  - destruct (IH x tx Hx Ho2) as (ts' & H1 & H2 & H3 & H4). exists (tx :: ts').
    assert (Hle : forall y, y ∈ tx :: ts' -> tree_cmp s tp y <= 0) by (intros y Hy; by apply Ho1, H2).
    split_and!; [by constructor| | |].
    + intros t. specialize (H2 t). rewrite !elem_of_cons in *. tauto.
    + by apply ordered_cons.
    + intros Hs. assert (Hs' := H4 (fun v w a b Hv Hw => Hs v w a b (list_elem_of_further _ _ _ Hv) (list_elem_of_further _ _ _ Hw))).
      apply ordered_cons. split; [|done]. intros y Hy. pose proof (Hle y Hy).
      destruct (decide (tree_cmp s tp y = 0)) as [E|]; [exfalso|lia].
      assert (Hxy : tree_cmp s tx y <= 0).
      { apply elem_of_cons in Hy as [->|Hy]; [by rewrite (cmp_refl (tree_cmp s))|]. apply ordered_cons in H3 as [H3 _]. by apply H3. }
      apply Hne. symmetry. apply (Hs prev x tp tx); [by left|by right; left|done|done|].
      pose proof (cmp_antisym (cmp := tree_cmp s) tp y). pose proof (cmp_trans (cmp := tree_cmp s) tx y tp).
      pose proof (cmp_antisym (cmp := tree_cmp s) tp tx). pose proof (Hle tx ltac:(by left)). lia.
Qed.

Section SortThm.
Context {Q : Qsort} {QO : QsortOk} {NA : NestedAdb}.

(** The schemas whose arrays are sorted by their trees: strings and objects. *)
Definition sortable (s : adb_schema) : Prop :=
  match s with Scalar c => scalar_kind c = ADB_KIND_BLOB | Object _ _ _ => True | _ => False end.

Lemma wa_compare_tree s d : sortable s ->
  exists cmp, wa_compare s d = Some cmp /\ forall v1 v2 t1 t2, denotes d v1 t1 -> denotes d v2 t2 -> comparable s t1 t2 = true ->
    exists r, cmp v1 v2 = Some r /\ Z.sgn r = Z.sgn (tree_cmp s t1 t2).
Proof.
  intros Hs. destruct s as [c|nc tx fs|? ? ? ?|? ?]; [| |done..]; cbn [wa_compare].
  - cbn in Hs. rewrite Hs. eexists. split; [done|]. intros v1 v2 t1 t2 H1 H2 Hc. by apply scalar_compare_tree.
  - eexists. split; [done|]. intros v1 v2 t1 t2 H1 H2 Hc. apply adb_ro_cmpobj_tree; [done|by apply adb_r_obj_holds..|done].
Qed.

Lemma wa_consistent s d cmp cs ts : Forall2 (denotes d) cs ts ->
  (forall a b, a ∈ ts -> b ∈ ts -> comparable s a b = true) ->
  (forall v1 v2 t1 t2, denotes d v1 t1 -> denotes d v2 t2 -> comparable s t1 t2 = true ->
     exists r, cmp v1 v2 = Some r /\ Z.sgn r = Z.sgn (tree_cmp s t1 t2)) ->
  sort_consistent cmp cs.
Proof.
  intros Hd Hc Hcmp.
  assert (Ht : forall v, v ∈ cs -> exists t, t ∈ ts /\ denotes d v t).
  { intros v Hv. apply list_elem_of_lookup_1 in Hv as [i Hi]. destruct (list.Forall2_lookup_l _ _ _ _ _ Hd Hi) as (t & Hti & ?).
    exists t. split; [by eapply list_elem_of_lookup_2|done]. }
  split.
  - intros a b Ha Hb. destruct (Ht a Ha) as (ta & Ta & Da), (Ht b Hb) as (tb & Tb & Db).
    destruct (Hcmp a b ta tb) as (r & Er & Hr); auto. destruct (Hcmp b a tb ta) as (r' & Er' & Hr'); auto.
    exists r, r'. split_and!; [done|done|]. rewrite Hr, Hr'. apply cmp_antisym.
  - intros a b c r1 r2 Ha Hb Hcc E1 E2 L1 L2.
    destruct (Ht a Ha) as (ta & Ta & Da), (Ht b Hb) as (tb & Tb & Db), (Ht c Hcc) as (tc & Tc & Dc).
    destruct (Hcmp a b ta tb) as (r & Er & Hr); auto. destruct (Hcmp b c tb tc) as (r' & Er' & Hr'); auto.
    destruct (Hcmp a c ta tc) as (r'' & Er'' & Hr''); auto. exists r''. split; [done|].
    pose proof (cmp_trans (cmp := tree_cmp s) ta tb tc). rewrite E1 in Er. rewrite E2 in Er'. injection Er as ->. injection Er' as ->. lia.
Qed.

Lemma adb_wa_sort_ok s d o max ts : sortable s -> builds d o max ts ->
  (forall a b, a ∈ ts -> b ∈ ts -> comparable s a b = true) ->
  exists cs ts' rest, adb_wa_sort s d o = Some (Obj (Some (max :: cs ++ replicate rest 0)) (zlen ts' + 1) (o_dynamic o)) /\
    max = zlen ts' + 1 + Z.of_nat rest /\ Forall2 (denotes d) cs ts' /\ ts' ≡ₚ ts /\
    ordered (fun a b => tree_cmp s a b <= 0) ts' /\
    exists cs0 rest0, o_obj o = Some (max :: cs0 ++ replicate rest0 0) /\ length cs0 = length ts /\ cs ≡ₚ cs0.
Proof.
  intros Hs (cs0 & rest & Ho & Hn & Hm & Hd) Hc. destruct (wa_compare_tree s d Hs) as (cmp & Ec & Hcmp).
  destruct (qsort_r_sorts cmp cs0 (wa_consistent s d cmp cs0 ts Hd Hc Hcmp)) as (cs & Eq & Hp & Hsort).
  destruct (Forall2_permute _ _ _ _ Hp Hd) as (ts' & Hd' & Hp'). pose proof (Permutation_length Hp') as Hl.
  pose proof (list.Forall2_length _ _ _ Hd) as Hl0. pose proof (list.Forall2_length _ _ _ Hd') as Hl1.
  exists cs, ts', rest. split_and!; [|unfold zlen in *; lia|done|done| |by exists cs0, rest].
  - unfold adb_wa_sort. rewrite Ec, Ho. cbn [mbind option_bind].
    assert (Er : adb_ra_num o = zlen cs0).
    { unfold adb_ra_num. rewrite Hn. pose proof (zlen_nonneg ts). destruct (Z.eqb_spec (zlen ts + 1) 0); [lia|]. unfold zlen in *. lia. }
    rewrite Er. change (zdrop ADBI_FIRST (max :: cs0 ++ replicate rest 0)) with (cs0 ++ replicate rest 0).
    rewrite ztake_app, Eq. cbn [mbind option_bind]. change (ztake ADBI_FIRST (max :: cs0 ++ replicate rest 0)) with [max].
    replace (zdrop (zlen cs0 + 1) (max :: cs0 ++ replicate rest 0)) with (replicate rest 0).
    + rewrite Hn. unfold zlen. by rewrite Hl.
    + unfold zdrop, zlen. replace (Z.to_nat (Z.of_nat (length cs0) + 1)) with (S (length cs0)) by lia.
      cbn [drop]. by rewrite drop_app_length.
  - intros i j a b Hij Ha Hb. destruct (list.Forall2_lookup_r _ _ _ _ _ Hd' Ha) as (v & Hv & Dv).
    destruct (list.Forall2_lookup_r _ _ _ _ _ Hd' Hb) as (w & Hw & Dw). destruct (Hsort i j v w Hij Hv Hw) as (r & Er & Hr).
    destruct (Hcmp v w a b Dv Dw) as (r' & Er' & Hr'); [|rewrite Er in Er'; injection Er' as ->; lia].
    apply Hc; rewrite <- Hp'; by eapply list_elem_of_lookup_2.
Qed.

(** The values of the items of an array that is built. *)
Definition item_cells (o : adb_obj) : list Z := match o_obj o with Some cells => ztake (adb_ra_num o) (zdrop ADBI_FIRST cells) | None => [] end.

Lemma adb_wa_sort_unique_ok s d o max ts : sortable s -> builds d o max ts ->
  (forall a b, a ∈ ts -> b ∈ ts -> comparable s a b = true) ->
  exists cs ts' junk, adb_wa_sort_unique s d o = Some (Obj (Some (max :: cs ++ junk)) (zlen ts' + 1) (o_dynamic o)) /\
    Forall2 (denotes d) cs ts' /\ (forall t, t ∈ ts' <-> t ∈ ts) /\ (length ts' <= length ts)%nat /\
    ordered (fun a b => tree_cmp s a b <= 0) ts' /\
    (shared s d (item_cells o) -> ordered (fun a b => tree_cmp s a b < 0) ts').
Proof.
  intros Hs Hb Hc. destruct (adb_wa_sort_ok s d o max ts Hs Hb Hc) as (cs & ts' & rest & E & Hm & Hd & Hp & Ho & cs0 & rest0 & Eo & Hl0 & Hp0).
  unfold adb_wa_sort_unique. rewrite E. cbn [mbind option_bind]. unfold adb_ra_num at 1 2. cbn [o_num o_obj o_dynamic].
  pose proof (zlen_nonneg ts') as Hz. destruct (Z.eqb_spec (zlen ts' + 1) 0); [lia|]. rewrite Z.add_simpl_r.
  pose proof (Permutation_length Hp) as Hpl. destruct (Z.leb_spec 2 (zlen ts')) as [Hge|Hlt].
  - destruct Hd as [|prev tp l tl Hd1 Hd2]; [rewrite zlen_nil in Hge; lia|]. cbn [mbind option_bind].
    pose proof (list.Forall2_length _ _ _ Hd2) as Hl.
    destruct (unique_loop_dedup max [prev] [] l (replicate rest 0) prev 2 2) as (junk & Eu); [done|done|done|].
    replace (Z.to_nat (zlen (tp :: tl) - 1)) with (length l) by (rewrite zlen_cons; unfold zlen; lia).
    cbn [app] in Eu |- *. rewrite Eu. destruct (dedup_trees s d prev l tp tl Hd1 Hd2 Ho) as (tl' & H1 & H2 & H3 & H4).
    assert (Hd' : Forall2 (denotes d) (prev :: dedup_adj prev l) (tp :: tl')) by by constructor.
    pose proof (list.Forall2_length _ _ _ H1) as Hl'. pose proof (dedup_adj_length prev l).
    exists (prev :: dedup_adj prev l), (tp :: tl'), junk. split_and!; [|done| |cbn [length] in *; lia|done|].
    + do 2 f_equal. unfold zlen. cbn [length]. lia.
    + intros t. rewrite H2. by rewrite Hp.
    + intros Hsh. apply H4. assert (Ei : item_cells o = cs0).
      { unfold item_cells. rewrite Eo. change (zdrop ADBI_FIRST (max :: cs0 ++ replicate rest0 0)) with (cs0 ++ replicate rest0 0).
        destruct Hb as (? & ? & _ & Hn & _). unfold adb_ra_num. rewrite Hn. pose proof (zlen_nonneg ts).
        destruct (Z.eqb_spec (zlen ts + 1) 0); [lia|]. replace (zlen ts + 1 - 1) with (zlen cs0) by (unfold zlen; lia). apply ztake_app. }
      rewrite Ei in Hsh. intros v w a b Hv Hw. apply Hsh; by rewrite <- Hp0.
  - exists cs, ts', (replicate rest 0). split_and!; [done|done|by intros t; rewrite Hp|lia|done|].
    intros _ i j a b Hij Ha Hb'. apply lookup_lt_Some in Ha, Hb'. unfold zlen in Hlt. lia.
Qed.

(** C33: arrays of strings and objects whose items can be compared are sorted before they are
    written: adb_wa_sort permutes the items of an array into ascending order, and
    adb_wa_sort_unique keeps exactly the items that were there, in ascending order, and in
    strictly ascending order when items that compare equal are the same value. *)
Theorem adb_wa_sort_sorts s d o max ts : sortable s -> builds d o max ts ->
  (forall a b, a ∈ ts -> b ∈ ts -> comparable s a b = true) ->
  (exists o' ts', adb_wa_sort s d o = Some o' /\ builds d o' max ts' /\ ts' ≡ₚ ts /\
     ordered (fun a b => tree_cmp s a b <= 0) ts') /\
  (exists o' ts', adb_wa_sort_unique s d o = Some o' /\ holds d o' ts' /\ (forall t, t ∈ ts' <-> t ∈ ts) /\
     ordered (fun a b => tree_cmp s a b <= 0) ts' /\
     (shared s d (item_cells o) -> ordered (fun a b => tree_cmp s a b < 0) ts')).
Proof.
  intros Hs Hb Hc. split.
  - destruct (adb_wa_sort_ok s d o max ts Hs Hb Hc) as (cs & ts' & rest & E & Hm & Hd & Hp & Ho & _).
    eexists _, ts'. split_and!; [exact E|by exists cs, rest|done|done].
  - destruct (adb_wa_sort_unique_ok s d o max ts Hs Hb Hc) as (cs & ts' & junk & E & Hd & Ht & _ & Ho & Hu).
    eexists _, ts'. split_and!; [exact E|by apply holds_cells|done..].
Qed.
End SortThm.

(** ** Templates *)

Lemma ro_val_over o i : o_num o <= i -> adb_ro_val o i = Some ADB_NULL.
Proof. intros H. unfold adb_ro_val. by destruct (Z.leb_spec (o_num o) i); [|lia]. Qed.

(** Two loops over templates that agree up to num_compare, each with enough turns. *)
Lemma cmp_loop_prefix cmp cmp' mode nc t t' n n' i : mode <> ADB_OBJCMP_EXACT -> i <= nc ->
  (forall j, i <= j <= nc -> adb_ro_val t j = adb_ro_val t' j) ->
  (forall j, i <= j <= nc -> adb_ro_val t j <> Some ADB_NULL -> cmp j = cmp' j) ->
  o_num t <= i + Z.of_nat n -> o_num t' <= i + Z.of_nat n' ->
  cmp_loop cmp mode nc t n i = cmp_loop cmp' mode nc t' n' i.
Proof.
  intros Hm. assert (Em : (mode =? ADB_OBJCMP_EXACT) = false) by by apply Z.eqb_neq.
  assert (Hskip : forall c o k j, j <= nc -> (forall m, j <= m <= nc -> adb_ro_val o m = Some ADB_NULL) -> cmp_loop c mode nc o k j = Some 0).
  { intros c o k. induction k as [|k IHk]; intros j Hj Ho; [done|]. cbn [cmp_loop]. rewrite Ho by lia. cbn [mbind option_bind].
    rewrite Em. change (negb (ADB_NULL =? ADB_NULL)) with false. cbn [orb mbind option_bind negb Z.eqb]. rewrite andb_true_r, andb_true_l.
    destruct (mode =? ADB_OBJCMP_INDEX); [done|]. destruct (Z.leb_spec nc j); [done|]. apply IHk; [lia|]. intros m Hmm. apply Ho. lia. }
  revert n' i. induction n as [|n IH]; intros n' i Hi Hv Hc Hn Hn'.
  { rewrite (Hskip cmp t 0%nat) by (try done; intros m Hmm; apply ro_val_over; lia). symmetry. apply Hskip; [done|].
    intros m Hmm. rewrite <- Hv by lia. apply ro_val_over. lia. }
  destruct n' as [|n'].
  { rewrite (Hskip cmp' t' 0%nat) by (try done; intros m Hmm; apply ro_val_over; lia). apply Hskip; [done|].
    intros m Hmm. rewrite Hv by lia. apply ro_val_over. lia. }
  cbn [cmp_loop]. rewrite <- Hv by lia. destruct (adb_ro_val t i) as [v|] eqn:Ev; cbn [mbind option_bind]; [|done].
  rewrite Em. cbn [orb]. assert (E : (if negb (v =? ADB_NULL) then cmp i else Some 0) = (if negb (v =? ADB_NULL) then cmp' i else Some 0)).
  { destruct (Z.eqb_spec v ADB_NULL) as [|Hnz]; [done|]. cbn [negb]. apply Hc; [lia|]. rewrite Ev. by intros [= ->]. }
  rewrite E. destruct (if negb (v =? ADB_NULL) then cmp' i else Some 0) as [r|]; cbn [mbind option_bind]; [|done].
  destruct (negb (r =? 0)); [done|]. destruct (_ && _); [done|]. cbn [negb andb]. destruct (Z.leb_spec nc i); [done|].
  apply IH; [lia|intros j Hj; apply Hv; lia|intros j Hj; apply Hc; lia|lia|lia].
Qed.

(** searching with a template looks only at the fields up to num_compare of the schema:
    templates that agree on these compare the same with every object, in both search modes,
    whatever else they ask for.  So the file size that mkndx puts in its template (field 13 of
    a package, whose num_compare is 3) never takes part in the search. *)
Theorem adb_template_prefix s td t t' d obj mode : is_object s -> mode <> ADB_OBJCMP_EXACT -> 1 <= num_compare s ->
  (forall i, ADBI_FIRST <= i <= num_compare s -> adb_ro_val t i = adb_ro_val t' i) ->
  adb_ro_cmpobj s td t d obj mode = adb_ro_cmpobj s td t' d obj mode.
Proof.
  intros Hs Hm Hn Hv. unfold adb_ro_cmpobj. destruct (schema_depth s) as [|n] eqn:Ed; [by destruct s|].
  assert (Hc : forall j, ADBI_FIRST <= j <= num_compare s -> forall c, ro_cmp c s td t d obj j = ro_cmp c s td t' d obj j).
  { intros j Hj c. unfold ro_cmp. by rewrite (Hv j Hj). }
  destruct s; try done; cbn [cmpobj_fuel]; (apply cmp_loop_prefix; [done|done|done|by intros; apply Hc|unfold ADBI_FIRST; lia|unfold ADBI_FIRST; lia]).
Qed.

(** ** Searching *)

Section FindThm.
Context (item : adb_schema) (d : bytes) (arr : adb_obj) (td : bytes) (tmpl : adb_obj).
Definition by_index : Z -> option Z := find_cmp item d arr td tmpl ADB_OBJCMP_INDEX.
Definition by_template : Z -> option Z := find_cmp item d arr td tmpl ADB_OBJCMP_TEMPLATE.

(** Item [k] is the last that is not greater than the template. *)
Definition last_le (k : Z) : Prop :=
  ADBI_FIRST <= k <= adb_ra_num arr /\
  (forall i, ADBI_FIRST <= i <= k -> exists c, by_index i = Some c /\ 0 <= c) /\
  (forall i, k < i <= adb_ra_num arr -> exists c, by_index i = Some c /\ c < 0).

Lemma bsearch_loop_last k fuel l r : last_le k -> ADBI_FIRST <= l <= k + 1 -> k + 1 <= r <= adb_ra_num arr + 1 ->
  (Z.to_nat (r - l) <= fuel)%nat -> bsearch_loop item d arr td tmpl fuel l r = Some (k + 1).
Proof.
  intros (Hk & Hle & Hgt). unfold by_index in *. revert l r. induction fuel as [|fuel IH]; intros l r Hl Hr Hf; cbn [bsearch_loop].
  { destruct (Z.ltb_spec l r); [lia|]. f_equal. lia. }
  destruct (Z.ltb_spec l r) as [Hlr|]; [|f_equal; lia].
  assert (Hmid : l <= (l + r) / 2 < r) by div_mod_lia. destruct (Z_le_gt_dec ((l + r) / 2) k).
  - destruct (Hle ((l + r) / 2)) as (c & -> & Hc); [lia|]. cbn [mbind option_bind]. destruct (Z.ltb_spec c 0); [lia|]. apply IH; lia.
  - destruct (Hgt ((l + r) / 2)) as (c & -> & Hc); [lia|]. cbn [mbind option_bind]. destruct (Z.ltb_spec c 0); [|lia]. apply IH; lia.
Qed.
End FindThm.

(** An object that differs from the template in an indexed field does not match it either. *)
Lemma cmp_loop_index_template c1 c2 nc t n i r :
  (forall j r, c1 j = Some r -> r <> 0 -> c2 j <> Some 0) ->
  cmp_loop c1 ADB_OBJCMP_INDEX nc t n i = Some r -> r <> 0 -> cmp_loop c2 ADB_OBJCMP_TEMPLATE nc t n i <> Some 0.
Proof.
  intros Hc. revert i. induction n as [|n IH]; intros i; cbn [cmp_loop]; [by intros [= <-]|].
  destruct (adb_ro_val t i) as [v|]; cbn [mbind option_bind]; [|done].
  change (ADB_OBJCMP_INDEX =? ADB_OBJCMP_EXACT) with false. change (ADB_OBJCMP_TEMPLATE =? ADB_OBJCMP_EXACT) with false.
  change (ADB_OBJCMP_INDEX =? ADB_OBJCMP_INDEX) with true. change (ADB_OBJCMP_TEMPLATE =? ADB_OBJCMP_INDEX) with false.
  cbn [orb negb andb]. destruct (negb (v =? ADB_NULL)) eqn:Ev; cbn [negb].
  - destruct (c1 i) as [r1|] eqn:E1; cbn [mbind option_bind]; [|done]. destruct (Z.eqb_spec r1 0) as [->|Hnz]; cbn [negb].
    + destruct (c2 i) as [r2|]; cbn [mbind option_bind]; [|done]. destruct (Z.eqb_spec r2 0) as [->|]; cbn [negb]; [|by intros _ _ [= ->]].
      destruct (nc <=? i); [by intros [= <-]|apply IH].
    + intros _ _. specialize (Hc i r1 E1 Hnz). destruct (c2 i) as [r2|]; cbn [mbind option_bind]; [|done].
      destruct (Z.eqb_spec r2 0) as [->|]; cbn [negb]; [done|by intros [= ->]].
  - cbn [mbind option_bind Z.eqb negb]. by intros [= <-].
Qed.

Lemma index_template n s td t d o r : cmpobj_fuel n ADB_OBJCMP_INDEX s td t d o = Some r -> r <> 0 ->
  cmpobj_fuel n ADB_OBJCMP_TEMPLATE s td t d o <> Some 0.
Proof.
  revert s t o r. induction n as [|n IH]; intros s t o r; [done|]. destruct s as [c|nc tx fs|nf fs pc it|id s]; try done;
    cbn [cmpobj_fuel]; intros H Hr; (eapply cmp_loop_index_template; [|exact H|exact Hr]); intros j r' Hj Hr'; unfold ro_cmp in *;
    (destruct (adb_ro_kind _ j) as [k|]; cbn [mbind option_bind] in *; [|done]);
    (destruct (adb_ro_val t j); cbn [mbind option_bind] in *; [|done]);
    (destruct (adb_ro_val o j); cbn [mbind option_bind] in *; [|done]);
    (destruct k; [congruence|by eapply IH|by eapply IH|done]).
Qed.

Lemma by_index_template item d arr td tmpl i c :
  by_index item d arr td tmpl i = Some c -> c <> 0 -> by_template item d arr td tmpl i <> Some 0.
Proof.
  unfold by_index, by_template, find_cmp. destruct (adb_ro_obj d arr i); cbn [mbind option_bind]; [|done]. apply index_template.
Qed.

(** a search finds the last item that is not greater than the template in the indexed
    fields, when it matches the template, and no other: of several packages with the name of the
    template only the last can be found, even when it does not match and others do. *)
Theorem adb_ra_find_last item d arr td tmpl k : last_le item d arr td tmpl k ->
  (adb_ra_find item d arr td tmpl 0 = Some k <-> by_template item d arr td tmpl k = Some 0) /\
  forall j, adb_ra_find item d arr td tmpl 0 = Some j -> 0 < j -> j = k.
Proof.
  intros Hl. assert (Hk := Hl). destruct Hk as (Hk & _ & Hgt). unfold ADBI_FIRST in Hk.
  assert (E : adb_ra_find item d arr td tmpl 0 = find_loop item d arr td tmpl (S (Z.to_nat (adb_ra_num arr - k))) k).
  { unfold adb_ra_find. cbn [Z.eqb]. rewrite (bsearch_loop_last item d arr td tmpl k) by (done || unfold ADBI_FIRST; lia).
    cbn [mbind option_bind]. f_equal; lia. }
  rewrite E. cbn [find_loop]. fold (by_template item d arr td tmpl) (by_index item d arr td tmpl) in *.
  destruct (by_template item d arr td tmpl k) as [c|]; cbn [mbind option_bind]; [|by split; [split|]].
  destruct (Z.eqb_spec c 0) as [->|Hc]; [by split; [|intros j [= <-]]|].
  assert (Hno : forall j, find_loop item d arr td tmpl (Z.to_nat (adb_ra_num arr - k)) (k + 1) = Some j -> j = -1).
  { intros j. destruct (Z.to_nat (adb_ra_num arr - k)) as [|m] eqn:Em; cbn [find_loop]; [by intros [= <-]|].
    destruct (Hgt (k + 1)) as (c' & Ec & Hc'); [lia|]. fold (by_template item d arr td tmpl) (by_index item d arr td tmpl).
    pose proof (by_index_template _ _ _ _ _ _ _ Ec ltac:(lia)) as Hne. destruct (by_template _ _ _ _ _ (k + 1)) as [x|]; cbn [mbind option_bind]; [|done].
    destruct (Z.eqb_spec x 0) as [->|]; [done|]. rewrite Ec. cbn [mbind option_bind]. destruct (Z.eqb_spec c' 0); [lia|]. by intros [= <-]. }
  destruct (by_index item d arr td tmpl k) as [x|]; cbn [mbind option_bind]; [|by split; [split; [done|intros [= ->]]|]].
  destruct (negb (x =? 0)); (split; [split; [|by intros [= ->]]|]).
  - intros [= <-]. lia.
  - intros j [= <-] Hj. lia.
  - intros H. apply Hno in H. lia.
  - intros j H Hj. apply Hno in H. lia.
Qed.

(** a search in an array that could not be read, such as the missing list of packages of an
    empty index, reads through the NULL pointer of the array for every template. *)
Theorem adb_ra_find_empty item d v td tmpl :
  ADB_VAL_TYPE v <> ADB_TYPE_ARRAY -> ADB_VAL_TYPE v <> ADB_TYPE_OBJECT ->
  adb_ra_find item d (adb_r_obj d v) td tmpl 0 = None.
Proof.
  intros H1 H2. unfold adb_r_obj, adb_r_obj_mem. by rewrite (proj2 (Z.eqb_neq _ _) H1), (proj2 (Z.eqb_neq _ _) H2).
Qed.

(** ** Dependencies without a version *)

Definition dep_tree (name : bytes) (version : option bytes) : aval :=
  ATree ADB_TYPE_OBJECT (ABlob name :: match version with Some v => [ABlob v] | None => [] end).

Lemma wacmp_dep d v1 v2 name ver1 ver2 :
  denotes d v1 (dep_tree name ver1) -> denotes d v2 (dep_tree name ver2) ->
  wacmp schema_dependency d v1 v2 = Some (match ver1, ver2 with Some a, Some b => vsign (apk_version_compare (Some a) (Some b)) | _, _ => 0 end).
Proof.
  intros H1 H2. apply adb_r_obj_holds in H1 as [N1 H1], H2 as [N2 H2]. unfold wacmp, adb_ro_cmpobj.
  change (cmpobj_fuel (schema_depth schema_dependency) ADB_OBJCMP_EXACT schema_dependency d (adb_r_obj d v1) d (adb_r_obj d v2))
    with (cmp_loop (ro_cmp (fun k o1 o2 => cmpobj_fuel 1 ADB_OBJCMP_EXACT k d o1 d o2) schema_dependency d (adb_r_obj d v1) d (adb_r_obj d v2))
      ADB_OBJCMP_EXACT 1 (adb_r_obj d v1) (Z.to_nat (Z.max (o_num (adb_r_obj d v1)) (o_num (adb_r_obj d v2)) - 1)) 1). rewrite N1, N2.
  destruct (H1 1 ltac:(done)) as (a1 & A1 & D1), (H2 1 ltac:(done)) as (b1 & B1 & E1).
  destruct (H1 2 ltac:(done)) as (a2 & A2 & D2), (H2 2 ltac:(done)) as (b2 & B2 & E2).
  cbn [dep_tree kids kid] in *. change (kid (ABlob name :: _) 1) with (ABlob name) in *.
  assert (Hname : ro_cmp (fun k o1 o2 => cmpobj_fuel 1 ADB_OBJCMP_EXACT k d o1 d o2) schema_dependency d (adb_r_obj d v1) d (adb_r_obj d v2) 1 = Some 0).
  { unfold ro_cmp. change (adb_ro_kind schema_dependency 1) with (Some (Scalar scalar_string)). rewrite A1, B1. cbn [mbind option_bind scalar_compare].
    rewrite (string_compare_tree _ _ _ _ _ _ D1 E1). cbn [blob_of]. by rewrite (proj2 (apk_blob_sort_eq name name) eq_refl). }
  assert (Hver : ro_cmp (fun k o1 o2 => cmpobj_fuel 1 ADB_OBJCMP_EXACT k d o1 d o2) schema_dependency d (adb_r_obj d v1) d (adb_r_obj d v2) 2 =
    Some (match ver1, ver2 with Some a, Some b => vsign (apk_version_compare (Some a) (Some b)) | _, _ => 0 end)).
  { unfold ro_cmp. change (adb_ro_kind schema_dependency 2) with (Some (Scalar scalar_version)). rewrite A2, B2. cbn [mbind option_bind scalar_compare].
    unfold version_compare. rewrite (adb_r_blob_tree _ _ _ D2), (adb_r_blob_tree _ _ _ E2). destruct ver1, ver2; done. }
  set (turns := Z.to_nat _). assert (Ht : turns = match ver1, ver2 with None, None => 1%nat | _, _ => 2%nat end) by (unfold turns; by destruct ver1, ver2).
  rewrite Ht. destruct ver1 as [x|], ver2 as [y|]; cbn [cmp_loop]; rewrite A1; cbn [mbind option_bind];
    change (ADB_OBJCMP_EXACT =? ADB_OBJCMP_EXACT) with true; cbn [orb]; rewrite Hname; cbn [mbind option_bind Z.eqb negb];
    change (ADB_OBJCMP_EXACT =? ADB_OBJCMP_INDEX) with false; cbn [andb]; try done;
    change (1 + 1) with 2; rewrite A2; cbn [mbind option_bind]; rewrite Hver; cbn [mbind option_bind]; [|done..].
  by destruct (Z.eqb_spec (vsign (apk_version_compare (Some x) (Some y))) 0) as [->|].
Qed.

(** the comparison of dependencies is not an order, as the sorting of dependency lists needs
    it: a dependency without a version is equal to the dependencies on every version, which
    differ from each other.  So qsort_r is called with a comparison it is not defined for. *)
Theorem dependency_compare_inconsistent d a b c name ver1 ver2 :
  denotes d a (dep_tree name None) -> denotes d b (dep_tree name (Some ver1)) -> denotes d c (dep_tree name (Some ver2)) ->
  apk_version_compare (Some ver1) (Some ver2) = APK_VERSION_LESS ->
  wacmp schema_dependency d a b = Some 0 /\ wacmp schema_dependency d c a = Some 0 /\ wacmp schema_dependency d b c = Some (-1) /\
  ~ sort_consistent (wacmp schema_dependency d) [a; b; c].
Proof.
  intros Ha Hb Hc Hv. pose proof (wacmp_dep d a b _ _ _ Ha Hb) as E1. pose proof (wacmp_dep d c a _ _ _ Hc Ha) as E2.
  pose proof (wacmp_dep d b c _ _ _ Hb Hc) as E3. cbv beta iota in *. rewrite Hv in E3.
  split_and!; [done..|]. intros [Hanti Htrans].
  destruct (Hanti b c) as (r & r' & Er & Er' & Hs); [by right; left|by right; right; left|]. rewrite E3 in Er. injection Er as <-.
  destruct (Htrans c a b 0 0) as (x & Ex & Hx); try done; [by right; right; left|by left|by right; left|].
  rewrite Ex in Er'. injection Er' as <-. change (vsign APK_VERSION_LESS) with (-1) in Hs. lia.
Qed.

(** ** Nested databases *)

(** What adb_m_blob of AdbTrust.v leaves behind for a blob when it is called without a store. *)
Definition nested_adb_trust {pkey} `{!Crypto pkey} : NestedAdb :=
  fun b => r ← adb_m_blob (pkey := pkey) (default [] b) None; Some (default [] (adb_adb (p_db r.2))).

(** the packages of an installed database are never put in order: adb_wa_sort compares nested
    databases by parsing them without a trust store, which leaves nothing to compare, so all of
    them are equal. *)
Theorem wadbcmp_blind {pkey} `{!Crypto pkey} s d v1 v2 r1 r2 :
  is_object s ->
  adb_m_blob (pkey := pkey) (default [] (adb_r_blob d v1).1) None = Some r1 ->
  adb_m_blob (pkey := pkey) (default [] (adb_r_blob d v2).1) None = Some r2 ->
  wadbcmp (NA := nested_adb_trust (pkey := pkey)) s d v1 v2 = Some 0.
Proof.
  intros Hs H1 H2. unfold wadbcmp, nested_adb, nested_adb_trust. rewrite H1, H2. cbn [mbind option_bind]. destruct r1 as [r1 s1], r2 as [r2 s2]. cbn [snd].
  rewrite (proj2 (adb_m_blob_without_store _ _ _ H1)), (proj2 (adb_m_blob_without_store _ _ _ H2)).
  cbn [default from_option]. unfold adb_ro_cmpobj. change (adb_r_obj [] (adb_r_root [])) with (Obj None 1 false).
  destruct s; try done; cbn [schema_depth]; reflexivity.
Qed.

(** ** A sorting function *)

Fixpoint isort_insert (cmp : Z -> Z -> option Z) (x : Z) (l : list Z) : option (list Z) :=
  match l with
  | [] => Some [x]
  | y :: l' => r ← cmp x y; if r <=? 0 then Some (x :: l) else cons y <$> isort_insert cmp x l'
  end.
Definition isort : Qsort := fun cmp l => foldr (fun x acc => acc ≫= isort_insert cmp x) (Some []) l.

Lemma isort_insert_ok cmp L x l : sort_consistent cmp L -> x ∈ L -> (forall y, y ∈ l -> y ∈ L) -> sorted_by cmp l ->
  exists l', isort_insert cmp x l = Some l' /\ l' ≡ₚ x :: l /\ sorted_by cmp l'.
Proof.
  intros [Ha Ht] Hx. induction l as [|y l IH]; intros Hl Hs; cbn [isort_insert].
  { exists [x]. split; [done|]. split; [done|]. apply ordered_cons. split; [intros y; by rewrite elem_of_nil|done]. }
  apply ordered_cons in Hs as [Hy Hs]. destruct (Ha x y Hx) as (r & r' & Er & Er' & Hr); [apply Hl; by left|].
  rewrite Er. cbn [mbind option_bind]. destruct (Z.leb_spec r 0) as [Hle|Hgt].
  - exists (x :: y :: l). split; [done|]. split; [done|]. apply ordered_cons. split; [|by apply ordered_cons].
    intros z Hz. apply elem_of_cons in Hz as [->|Hz]; [by exists r|]. destruct (Hy z Hz) as (q & Eq & Hq).
    apply (Ht x y z r q); [done|apply Hl; by left|apply Hl; by right|done..].
  - destruct IH as (l' & -> & Hp & Hs'); [intros z Hz; apply Hl; by right|done|]. exists (y :: l'). split; [done|].
    split; [rewrite Hp; constructor|]. apply ordered_cons. split; [|done]. intros z. rewrite Hp, elem_of_cons.
    intros [->|Hz]; [exists r'; split; [done|lia]|by apply Hy].
Qed.

#[export] Instance isort_ok : QsortOk (Q := isort).
Proof.
  split. intros cmp L HL. assert (H : forall l, (forall y, y ∈ l -> y ∈ L) -> exists l', isort cmp l = Some l' /\ l' ≡ₚ l /\ sorted_by cmp l').
  { induction l as [|x l IH]; intros Hl; [exists []; split_and!; [done|done|intros i j a b _ H; by rewrite lookup_nil in H]|].
    destruct IH as (l1 & E & Hp & Hs); [intros y Hy; apply Hl; by right|].
    destruct (isort_insert_ok cmp L x l1 HL) as (l2 & E2 & Hp2 & Hs2); [apply Hl; by left| |done|].
    - intros y. rewrite Hp. intros Hy. apply Hl. by right.
    - exists l2. cbn. unfold isort in E. rewrite E. split_and!; [done|by rewrite Hp2, Hp|done]. }
  by apply (H L).
Qed.

(** ** Witnesses *)

Lemma trees_from ts db : wadb_ok db -> Forall (fun t => tree_ok t /\ norm t = t) ts -> zlen (wa_data db) + weights ts <= ADB_MAX ->
  exists d cs, extends (wa_data db) d /\ Forall2 (denotes d) cs ts.
Proof.
  intros Hok H. revert db Hok. induction H as [|t ts [Ht Hn] _ IH]; intros db Hok Hw.
  { exists (wa_data db), []. split; [by apply extends_refl, wo_hdr|constructor]. }
  cbn in Hw. fold (weights ts) in Hw. pose proof (weights_nonneg ts).
  destruct (w_tree_ok 32 ltac:(lia) t db Hok Ht) as (v & db1 & _ & Hg & Hd); [lia|]. destruct (gr_size _ _ _ Hg).
  destruct (IH db1 (gr_ok _ _ _ Hg)) as (d & cs & He & Hc); [lia|]. exists d, (v :: cs).
  split; [eapply extends_trans; [apply Hg|exact He]|]. constructor; [|done]. rewrite Hn in Hd. by eapply denotes_extends.
Qed.

(** Some database has the values. *)
Lemma trees_exist ts : Forall (fun t => tree_ok t /\ norm t = t) ts -> 8 + weights ts <= ADB_MAX ->
  exists d cs, Forall2 (denotes d) cs ts.
Proof.
  intros H Hw. destruct (adb_w_init_dynamic_ok 0 8) as (db & _ & Hok & Hz & _); [lia|].
  destruct (trees_from ts db Hok H) as (d & cs & _ & Hc); [unfold sizeof_hdr in Hz; lia|]. by exists d, cs.
Qed.

Ltac solve_trees := apply trees_exist; [repeat constructor; try (apply (bool_decide_eq_true_1 _); vm_compute; reflexivity)|by vm_compute].

Definition toy_dep (name ver : string) : aval := dep_tree (bs name) (Some (bs ver)).

Lemma adb_ro_cmpobj_order_witness : exists d v1 v2 r,
  adb_ro_cmpobj schema_dependency d (adb_r_obj d v1) d (adb_r_obj d v2) ADB_OBJCMP_EXACT = Some r /\ Z.sgn r = -1 /\
  CmpOrder (tree_cmp schema_dependency).
Proof.
  assert (H : exists d cs, Forall2 (denotes d) cs [toy_dep "musl" "1.2.9"; toy_dep "musl" "1.2.10"]) by solve_trees.
  destruct H as (d & cs & H). apply list.Forall2_cons_inv_r in H as (v1 & cs1 & H1 & H & ->).
  apply list.Forall2_cons_inv_r in H as (v2 & cs2 & H2 & _ & ->).
  destruct (adb_ro_cmpobj_order schema_dependency d v1 _ d v2 _ I H1 H2 ltac:(vm_compute; reflexivity)) as [(r & Er & Hr) Ho].
  exists d, v1, v2, r. split_and!; [exact Er|rewrite Hr; vm_compute; reflexivity|exact Ho].
Defined.

Definition toy_deps : list aval := [toy_dep "zlib" "1.3"; toy_dep "musl" "1.2.10"; toy_dep "musl" "1.2.9"; toy_dep "musl" "1.2.10"].

Lemma adb_wa_sort_sorts_witness : exists d o,
  (exists o' ts', adb_wa_sort (Q := isort) (NA := fun _ => None) schema_dependency d o = Some o' /\ builds d o' 32 ts' /\ ts' ≡ₚ toy_deps /\
     ordered (fun a b => tree_cmp schema_dependency a b <= 0) ts') /\
  (exists o' ts', adb_wa_sort_unique (Q := isort) (NA := fun _ => None) schema_dependency d o = Some o' /\ holds d o' ts' /\
     (forall t, t ∈ ts' <-> t ∈ toy_deps) /\ ordered (fun a b => tree_cmp schema_dependency a b <= 0) ts' /\
     (shared schema_dependency d (item_cells o) -> ordered (fun a b => tree_cmp schema_dependency a b < 0) ts')).
Proof.
  assert (H : exists d cs, Forall2 (denotes d) cs toy_deps) by solve_trees. destruct H as (d & cs & H).
  exists d, (Obj (Some (32 :: cs ++ replicate 27 0)) 5 false).
  apply (adb_wa_sort_sorts (Q := isort) (NA := fun _ => None) schema_dependency d _ 32 toy_deps I).
  - exists cs, 27%nat. split_and!; [reflexivity..|exact H].
  - assert (E : forallb (fun a => forallb (comparable schema_dependency a) toy_deps) toy_deps = true) by (vm_compute; reflexivity).
    intros a b Ha Hb. apply list_elem_of_In in Ha, Hb. rewrite forallb_forall in E. specialize (E a Ha). rewrite forallb_forall in E. exact (E b Hb).
Defined.

Lemma dependency_compare_inconsistent_witness : exists d a b c,
  wacmp schema_dependency d a b = Some 0 /\ wacmp schema_dependency d c a = Some 0 /\ wacmp schema_dependency d b c = Some (-1) /\
  ~ sort_consistent (wacmp schema_dependency d) [a; b; c].
Proof.
  assert (H : exists d cs, Forall2 (denotes d) cs [dep_tree (bs "musl") None; toy_dep "musl" "1"; toy_dep "musl" "2"]) by solve_trees.
  destruct H as (d & cs & H). apply list.Forall2_cons_inv_r in H as (a & cs1 & Ha & H & ->).
  apply list.Forall2_cons_inv_r in H as (b & cs2 & Hb & H & ->). apply list.Forall2_cons_inv_r in H as (c & cs3 & Hc & _ & ->).
  exists d, a, b, c. apply (dependency_compare_inconsistent d a b c (bs "musl") (bs "1") (bs "2")); [exact Ha|exact Hb|exact Hc|vm_compute; reflexivity].
Defined.

(** A template as mkndx fills it: the name, and the file size in field 13. *)
Definition toy_template (size : Z) : adb_obj := Obj (Some ([22; 0x80000008] ++ replicate 11 0 ++ [size] ++ replicate 8 0)) 14 false.
Definition toy_name_db : bytes := replicate 8 0 ++ [4] ++ bs "musl".

Lemma adb_template_prefix_witness :
  adb_ro_cmpobj schema_pkginfo toy_name_db (toy_template 0x10000001) toy_name_db (toy_template 0x10000002) ADB_OBJCMP_TEMPLATE =
  adb_ro_cmpobj schema_pkginfo toy_name_db (toy_template 0x10000002) toy_name_db (toy_template 0x10000002) ADB_OBJCMP_TEMPLATE.
Proof.
  apply (adb_template_prefix schema_pkginfo); [exact I|discriminate|vm_compute; discriminate|].
  intros i [H1 H2]. change (num_compare schema_pkginfo) with 3 in H2. unfold ADBI_FIRST in H1.
  assert (i = 1 \/ i = 2 \/ i = 3) as [-> |[-> | ->]] by lia; reflexivity.
Defined.

(** Two packages of one name with different versions, and an index that lists both. *)
Definition toy_index : option (bytes * Z) :=
  db ← adb_w_init_dynamic 0 8;
  r ← w_tree 32 db (ATree ADB_TYPE_ARRAY [ATree ADB_TYPE_OBJECT [ABlob (bs "musl"); ABlob (bs "1")];
                                          ATree ADB_TYPE_OBJECT [ABlob (bs "musl"); ABlob (bs "2")]]);
  Some (wa_data r.2, r.1).
Definition toy_index_db : bytes := Eval vm_compute in default [] (fst <$> toy_index).
Definition toy_index_val : Z := Eval vm_compute in default 0 (snd <$> toy_index).

Lemma adb_ra_find_last_witness :
  let arr := adb_r_obj toy_index_db toy_index_val in
  let tmpl := toy_template 0 in
  by_template schema_pkginfo toy_index_db arr toy_name_db tmpl 1 = Some 0 /\
  (adb_ra_find schema_pkginfo toy_index_db arr toy_name_db tmpl 0 = Some 2 <->
     by_template schema_pkginfo toy_index_db arr toy_name_db tmpl 2 = Some 0) /\
  forall j, adb_ra_find schema_pkginfo toy_index_db arr toy_name_db tmpl 0 = Some j -> 0 < j -> j = 2.
Proof.
  cbv zeta. split; [vm_compute; reflexivity|]. apply (adb_ra_find_last schema_pkginfo). split; [vm_compute; split; discriminate|].
  split; intros i [H1 H2].
  - unfold ADBI_FIRST in H1. assert (i = 1 \/ i = 2) as [-> | ->] by lia; exists 0; (split; [vm_compute; reflexivity|discriminate]).
  - change (adb_ra_num (adb_r_obj toy_index_db toy_index_val)) with 2 in H2. lia.
Defined.

Lemma adb_ra_find_empty_witness : adb_ra_find schema_pkginfo toy_index_db (adb_r_obj toy_index_db ADB_NULL) toy_name_db (toy_template 0) 0 = None.
Proof. apply (adb_ra_find_empty schema_pkginfo); vm_compute; discriminate. Defined.

Definition toy_nested : bytes := adb_c_block [] ADB_BLOCK_ADB toy_db.
Definition toy_idb : bytes := replicate 8 0 ++ zlen toy_nested :: toy_nested.

#[local] Existing Instance toy_crypto.

Lemma wadbcmp_blind_witness :
  wadbcmp (NA := nested_adb_trust (pkey := Z)) schema_package toy_idb 0x80000008 0x80000008 = Some 0.
Proof. eapply (wadbcmp_blind schema_package); [exact I|vm_compute; reflexivity..]. Defined.
