(* ===== verification/AdbText.v ===== *)
(** Theorems on the text form of adb values (AdbSchema.v): what adb_w_fromstring stores for
    a text, texts are given back by the tostring functions, typed objects are
    compared without a failing assertion, lists of dependencies are stored as sorted sets, and
    what is lost of sizes and extended attributes. *)
From Stdlib Require Import ZArith Lia String Ascii.
From stdpp Require Import base numbers list option.
From S2P Require Import Prelude Clib Blob Codec Ctype Version Dep AdbBlock AdbTrust AdbData AdbValue AdbSchema AdbCmp.

(** ** Types *)

(** Null has every type: a field that is not set.  An array may carry the tag of an object, since
    adb_r_obj reads both alike and adb_w_fromstring writes both as objects. *)
Inductive has_type : adb_schema -> aval -> Prop :=
| HtNull s : has_type s ANull
| HtBlob c b : scalar_kind c = ADB_KIND_BLOB -> has_type (Scalar c) (ABlob b)
| HtInt c n : scalar_kind c <> ADB_KIND_BLOB -> 0 <= n < 2 ^ 64 -> has_type (Scalar c) (AInt n)
| HtObject nc tx fs ts : (length ts <= length fs)%nat ->
    (forall i f t, fs !! i = Some f -> ts !! i = Some t -> has_type f.2 t) ->
    has_type (Object nc tx fs) (ATree ADB_TYPE_OBJECT ts)
| HtArray nf fs pc it ty ts : ty = ADB_TYPE_ARRAY \/ ty = ADB_TYPE_OBJECT -> (forall t, t ∈ ts -> has_type it t) -> has_type (Array nf fs pc it) (ATree ty ts).

Lemma adb_w_blob_ok db b : wadb_ok db -> bytes_ok b -> zlen (wa_data db) + 12 + zlen b <= ADB_MAX ->
  exists v db', adb_w_blob db b = Some (v, db') /\ grows (12 + zlen b) db db' /\ denotes (wa_data db') v (blob_tree b).
Proof.
  intros Hok Hb Hm. destruct (adb_w_blob_vec_ok db [b] Hok) as (v & db' & H); rewrite ?join_single in *;
    [cbn; lia|by constructor|done|by exists v, db'].
Qed.

(** ** Filling objects *)

Lemma adb_wo_blob_ok db o max ts i b : wadb_ok db -> builds (wa_data db) o max ts -> 1 <= i < max -> bytes_ok (blob_data b) ->
  zlen (wa_data db) + 12 + zlen (blob_data b) <= ADB_MAX ->
  exists db' o', adb_wo_blob db o i b = Some (db', o') /\ grows (12 + zlen (blob_data b)) db db' /\
    builds (wa_data db') o' max (set_field (Z.to_nat i - 1) (blob_tree (blob_data b)) ts).
Proof.
  intros Hok Hb Hi Hby Hm. destruct (adb_w_blob_ok db (blob_data b) Hok Hby Hm) as (v & db' & E & Hg & Hd).
  apply (builds_extends _ (wa_data db')) in Hb; [|apply Hg]. destruct (adb_wo_val_ok _ o max ts i v _ Hb Hd Hi) as (o' & Eo & Hb').
  exists db', o'. unfold adb_wo_blob. rewrite E. cbn [mbind option_bind fst snd]. by rewrite Eo.
Qed.

Lemma adb_wo_int_ok db o max ts i n : wadb_ok db -> builds (wa_data db) o max ts -> 1 <= i < max -> 0 <= n < 2 ^ 64 ->
  zlen (wa_data db) + 16 <= ADB_MAX ->
  exists db' o', adb_wo_int db o i n = Some (db', o') /\ grows 16 db db' /\ builds (wa_data db') o' max (set_field (Z.to_nat i - 1) (AInt n) ts).
Proof.
  intros Hok Hb Hi Hn Hm. destruct (adb_w_int_ok db n Hok Hn Hm) as (v & db' & E & Hg & Hd).
  apply (builds_extends _ (wa_data db')) in Hb; [|apply Hg]. destruct (adb_wo_val_ok _ o max ts i v _ Hb Hd Hi) as (o' & Eo & Hb').
  exists db', o'. unfold adb_wo_int. rewrite E. cbn [mbind option_bind fst snd]. by rewrite Eo.
Qed.

(** The fields of a stored dependency: no version and operator for any version, no operator for
    an exact version. *)
Definition dep_fields (name : bytes) (op : Z) (ver : bytes) : list aval :=
  let ts := set_field 0 (blob_tree name) [] in
  if op =? APK_DEPMASK_ANY then ts
  else
    let ts := set_field 1 (blob_tree ver) ts in
    if op =? APK_VERSION_EQUAL then ts else set_field 2 (AInt op) ts.

Lemma result_mask_range op r : 0 <= r < 16 -> 0 <= result_mask_loop op r < 16.
Proof.
  revert r. induction op as [|c op IH]; intros r Hr; cbn [result_mask_loop]; [done|].
  repeat case_match; try lia; apply IH; apply (lor_range 4); unfold APK_VERSION_LESS, APK_VERSION_GREATER, APK_VERSION_EQUAL; try lia.
  by vm_compute.
Qed.

Lemma apk_dep_parse_bounds x nm op ver : apk_dep_parse (Some x) = Some (nm, op, ver) -> bytes_ok x ->
  0 <= op < 32 /\ bytes_ok nm /\ bytes_ok (blob_data ver) /\ zlen nm + zlen (blob_data ver) <= zlen x.
Proof.
  unfold apk_dep_parse. intros H Hx.
  assert (Hp : exists op0 y, 0 <= op0 < 32 /\ bytes_ok y /\ zlen y <= zlen x /\
    match apk_blob_pull_blob_match x (bs "!") with Some spec => (APK_VERSION_CONFLICT, spec) | None => (0, x) end = (op0, y)).
  { destruct (apk_blob_pull_blob_match x (bs "!")) as [y|] eqn:E; [|exists 0, x; split_and!; [lia|lia|done|lia|done]].
    apply apk_blob_pull_blob_match_spec in E as ->. exists APK_VERSION_CONFLICT, y. apply Forall_app in Hx as [_ Hy].
    rewrite zlen_app. change (zlen (bs "!")) with 1. split_and!; [done|done|done|lia|done]. }
  destruct Hp as (op0 & y & Hop & Hy & Hl & E). rewrite E in H. clear E.
  pose proof (apk_blob_cspn_span y APK_CTYPE_DEPENDENCY_COMPARER) as Hs.
  destruct (apk_blob_cspn y APK_CTYPE_DEPENDENCY_COMPARER) as [[found n1] bop]. destruct Hs as (-> & _). destruct found.
  - pose proof (apk_blob_spn_span bop APK_CTYPE_DEPENDENCY_COMPARER) as Hs.
    destruct (apk_blob_spn bop APK_CTYPE_DEPENDENCY_COMPARER) as [[more b2] v]. destruct Hs as (-> & _).
    destruct more; cbn [negb] in H; [|done]. case_match; [done|]. injection H as <- <- <-. cbn [blob_data].
    apply Forall_app in Hy as [Hn1 Hy]. apply Forall_app in Hy as [_ Hv]. rewrite !zlen_app in Hl. pose proof (zlen_nonneg b2).
    split_and!; try done; try lia; apply (lor_range 5); try lia;
      pose proof (result_mask_range b2 0 ltac:(lia)); unfold apk_version_result_mask_blob; lia.
  - injection H as <- <- <-. change (blob_data APK_BLOB_NULL) with (@nil Z). change (zlen []) with 0. split_and!; try done; try constructor; try lia; apply (lor_range 5); try lia; by vm_compute.
Qed.

(** The name, operator and version of a text that is a dependency. *)
Definition dep_accepts (x : bytes) : option (bytes * Z * bytes) :=
  match apk_dep_parse (Some x) with
  | Some (nm, op, ver) =>
      if dep_is_broken op (blob_data ver) || (apk_blob_spn nm APK_CTYPE_DEPENDENCY_NAME).1.1 then None
      else Some (nm, op, blob_data ver)
  | None => None
  end.

Lemma dep_accepts_bounds x nm op ver : dep_accepts x = Some (nm, op, ver) -> bytes_ok x ->
  0 <= op < 32 /\ bytes_ok nm /\ bytes_ok ver /\ zlen nm + zlen ver <= zlen x.
Proof.
  unfold dep_accepts. destruct (apk_dep_parse (Some x)) as [[[n o] v]|] eqn:E; [|done]. case_match; [done|].
  intros [= <- <- <-] Hx. by apply (apk_dep_parse_bounds x n o v).
Qed.

Lemma dependency_fromstring_ok db obj x : wadb_ok db -> builds (wa_data db) obj 4 [] -> bytes_ok x ->
  zlen (wa_data db) + 40 + zlen x <= ADB_MAX ->
  exists rc db' obj', dependency_fromstring db obj (Some x) = Some (rc, db', obj') /\ grows (40 + zlen x) db db' /\
    match dep_accepts x with
    | Some (nm, op, ver) => rc = 0 /\ builds (wa_data db') obj' 4 (dep_fields nm op ver)
    | None => rc = - APKE_DEPENDENCY_FORMAT /\ builds (wa_data db') obj' 4 []
    end.
Proof.
  intros Hok Hb Hx Hm. pose proof (zlen_nonneg x). assert (Hgr : grows (40 + zlen x) db db) by (apply grows_refl; [done|lia]).
  destruct (dep_accepts x) as [[[nm op] ver]|] eqn:Ea.
  2: { exists (- APKE_DEPENDENCY_FORMAT), db, obj. split; [|done]. revert Ea. unfold dep_accepts, dependency_fromstring.
    destruct (apk_dep_parse (Some x)) as [[[n o] v]|]; [|done]. unfold dep_is_broken. destruct (negb _ && negb _); [done|]. cbn [orb]. by case_match. }
  destruct (dep_accepts_bounds x nm op ver Ea Hx) as (Hop & Hn & Hv & Hl). pose proof (zlen_nonneg nm). pose proof (zlen_nonneg ver).
  revert Ea. unfold dep_accepts, dependency_fromstring. destruct (apk_dep_parse (Some x)) as [[[n o] v]|]; [|done].
  unfold dep_is_broken. destruct (negb _ && negb _); [done|]. cbn [orb]. case_match; [done|]. intros [= -> -> Ev].
  destruct (adb_wo_blob_ok db obj 4 [] ADBI_DEP_NAME (Some nm) Hok Hb) as (db1 & o1 & -> & Hg1 & Hb1); [unfold ADBI_DEP_NAME; lia|done|cbn; lia|].
  cbn [mbind option_bind blob_data] in *. destruct (gr_size _ _ _ Hg1). unfold dep_fields. cbv zeta.
  destruct (Z.eqb_spec op APK_DEPMASK_ANY) as [Eany|Hany]; cbn [negb mbind option_bind].
  { exists 0, db1, o1. split_and!; [done|eapply grows_weaken, Hg1; lia|done|exact Hb1]. }
  destruct (adb_wo_blob_ok db1 o1 4 _ ADBI_DEP_VERSION v (gr_ok _ _ _ Hg1) Hb1) as (db2 & o2 & -> & Hg2 & Hb2);
    [unfold ADBI_DEP_VERSION; lia|by rewrite Ev|rewrite Ev; lia|]. rewrite Ev in *. destruct (gr_size _ _ _ Hg2). cbn [mbind option_bind].
  destruct (Z.eqb_spec op APK_VERSION_EQUAL) as [Eeq|Heq]; cbn [negb mbind option_bind].
  { exists 0, db2, o2. split_and!; [done|eapply grows_weaken, grows_trans; [|exact Hg1|exact Hg2]; lia|done|exact Hb2]. }
  destruct (adb_wo_int_ok db2 o2 4 _ ADBI_DEP_MATCH op (gr_ok _ _ _ Hg2) Hb2) as (db3 & o3 & -> & Hg3 & Hb3); [unfold ADBI_DEP_MATCH; lia|lia|lia|].
  cbn [mbind option_bind]. exists 0, db3, o3. split_and!; [done| |done|exact Hb3].
  eapply grows_weaken, grows_trans; [|exact Hg1|eapply grows_trans; [exact Hg2|exact Hg3]]. lia.
Qed.

Definition dep_val (name : bytes) (op : Z) (ver : bytes) : aval := tree_of ADB_TYPE_OBJECT (dep_fields name op ver).

Lemma dep_fields_length name op ver : (length (dep_fields name op ver) <= 3)%nat.
Proof. unfold dep_fields. destruct name, ver; repeat case_match; cbn; lia. Qed.

Lemma dep_val_type name op ver : 0 <= op < 32 -> has_type schema_dependency (dep_val name op ver).
Proof.
  intros Hop.
  assert (Hf : forall ts, Forall2 (fun c t => has_type (Scalar c) t) (take (length ts) [scalar_string; scalar_version; scalar_int]) ts ->
    has_type schema_dependency (tree_of ADB_TYPE_OBJECT ts)).
  { intros ts H. unfold tree_of. assert (Ht : forall i t, trim ts !! i = Some t -> ts !! i = Some t).
    { intros i t Hi. rewrite (trim_nulls ts). by apply lookup_app_l_Some. }
    pose proof (trim_length ts). pose proof (list.Forall2_length _ _ _ H) as Hl. rewrite length_take in Hl. cbn in Hl.
    destruct (trim ts) as [|u us]; [constructor|]. constructor; [cbn [length] in *; lia|]. intros i f t Hi Hti. apply Ht in Hti.
    destruct (list.Forall2_lookup_r _ _ _ _ _ H Hti) as (c & Hc & Hct). rewrite lookup_take_Some in Hc. destruct Hc as [Hc _].
    assert (f.2 = Scalar c) as -> by (destruct i as [|[|[|i]]]; cbn in Hi, Hc; simplify_eq; done). done. }
  apply Hf. unfold dep_fields. destruct name, ver; repeat case_match; cbn; repeat constructor; done || lia.
Qed.

(** ** Tags *)

(** The bytes the words of a text need, each with a length in front and a cell in the array. *)
Definition words_size (ws : list bytes) : Z := foldr (fun w n => 16 + zlen w + n) 0 ws.

Lemma fields_total c x : foldr (fun w n => zlen w + n) 0 (fields c x) <= zlen x.
Proof.
  induction x as [|b x IH]; [by vm_compute|]. cbn [fields]. rewrite zlen_cons. destruct (b =? c); [cbn [foldr]; rewrite zlen_nil; lia|].
  destruct (fields c x) as [|f fs]; cbn [foldr] in *; rewrite zlen_cons; [rewrite zlen_nil|]; lia.
Qed.

Lemma words_size_fields c x : words_size (List.filter nonempty (fields c x)) <= 17 * zlen x.
Proof.
  pose proof (fields_total c x). enough (words_size (List.filter nonempty (fields c x)) <= 17 * foldr (fun w n => zlen w + n) 0 (fields c x)) by lia.
  generalize (fields c x) as fs. induction fs as [|f fs IH]; [done|]. cbn [List.filter foldr]. pose proof (zlen_nonneg f).
  unfold nonempty at 1. destruct (Z.eqb_spec (zlen f) 0); cbn [negb]; [lia|]. cbn [words_size foldr].
  fold (words_size (List.filter nonempty fs)). lia.
Qed.

Lemma fields_bytes c x : bytes_ok x -> Forall bytes_ok (fields c x).
Proof.
  induction 1 as [|b x Hb Hx IH]; [by constructor; [apply List.Forall_nil|]|]. cbn [fields].
  destruct (b =? c); [by constructor; [apply List.Forall_nil|]|].
  destruct (fields c x) as [|f fs]; [by constructor; [constructor; [|apply List.Forall_nil]|]|]. apply Forall_cons_1 in IH as [H1 H2]. constructor; [by constructor|done].
Qed.

Section Texts.
Context {Q : Qsort} {NA : NestedAdb}.

(** The array grew by the words, if all of them are tags. *)
Definition is_tag (w : bytes) : bool := forallb (in_ctype APK_CTYPE_TAG_NAME) w.

Lemma spn_rest w cls : (apk_blob_spn w cls).1.1 = negb (forallb (in_ctype cls) w).
Proof.
  pose proof (apk_blob_spn_span w cls) as H. destruct (apk_blob_spn w cls) as [[more a] b]. cbn [fst].
  unfold span_of in H. destruct H as (-> & Ha & Hb). rewrite forallb_app. assert (Ht : forallb (in_ctype cls) a = true) by (apply forallb_forall; by apply List.Forall_forall).
  rewrite Ht. destruct b as [|c b]; [by rewrite Hb|]. destruct Hb as [-> Hc]. cbn [andb forallb]. by rewrite Hc.
Qed.

Lemma tags_loop_ok ws : Forall bytes_ok ws -> Forall (fun w => nonempty w = true) ws ->
  forall db o max ts, wadb_ok db -> builds (wa_data db) o max ts -> zlen (wa_data db) + words_size ws <= ADB_MAX ->
  exists rc db' o' max', tags_loop (adb_w_fromstring (Scalar scalar_string)) ws db o = Some (rc, db', o') /\ grows (words_size ws) db db' /\
    if forallb is_tag ws then rc = 0 /\ builds (wa_data db') o' max' (ts ++ (ABlob <$> ws)) else rc = - APKE_ADB_PACKAGE_FORMAT.
Proof.
  induction 1 as [|w ws Hw _ IH]; intros Hne db o max ts Hok Hb Hm.
  { exists 0, db, o, max. split; [done|]. split; [by apply grows_refl|]. cbn. by rewrite app_nil_r. }
  apply Forall_cons_1 in Hne as [Hw1 Hne]. cbn [words_size foldr forallb] in *. fold (words_size ws) in *.
  assert (Hws : 0 <= words_size ws) by (clear; induction ws as [|w ws IH]; cbn; [lia|]; pose proof (zlen_nonneg w); unfold words_size in *; lia).
  pose proof (zlen_nonneg w). cbn [tags_loop]. rewrite spn_rest. change (forallb (in_ctype APK_CTYPE_TAG_NAME) w) with (is_tag w).
  destruct (is_tag w); cbn [negb andb].
  2: { exists (- APKE_ADB_PACKAGE_FORMAT), db, o, max. split; [done|]. split; [apply grows_refl; [done|lia]|done]. }
  unfold wa_append_fromstring. cbn [adb_w_fromstring scalar_fromstring]. unfold string_fromstring. cbn [blob_data].
  destruct (adb_w_blob_ok db w Hok Hw) as (v & db1 & -> & Hg & Hd); [lia|]. cbn [mbind option_bind fst snd].
  apply (builds_extends _ (wa_data db1)) in Hb; [|apply Hg]. rewrite blob_tree_pos in Hd.
  2: { unfold nonempty in Hw1. destruct (Z.eqb_spec (zlen w) 0); [done|lia]. }
  destruct (adb_wa_append_ok _ o max ts v _ Hb Hd) as (o1 & max1 & -> & Hb1). cbn [mbind option_bind fst snd]. destruct (gr_size _ _ _ Hg).
  destruct (IH Hne db1 o1 max1 (ts ++ [ABlob w]) (gr_ok _ _ _ Hg) Hb1) as (rc & db2 & o2 & max2 & E & Hg2 & Hr); [lia|].
  exists rc, db2, o2, max2. split; [done|]. split; [eapply grows_weaken, grows_trans; [|exact Hg|exact Hg2]; lia|].
  by rewrite <- app_assoc in Hr.
Qed.

Lemma trim_blobs ws : trim (ABlob <$> ws) = ABlob <$> ws.
Proof. induction ws as [|w ws IH]; [done|]. cbn. rewrite IH. by destruct ws. Qed.

(** ** What a text means *)

(** A number: the digits of its radix, modulo 2^64. *)
Definition number_text (radix : Z) (x : bytes) : Z + aval :=
  if forallb (fun c => (48 <=? c) && (c <? 48 + radix)) x
  then inr (AInt (foldl (fun n c => n * radix + (c - 48)) 0 x mod 2 ^ 64)) else inl EINVAL.

(** A name of a package: it starts with a letter or digit. *)
Definition is_name (x : bytes) : bool :=
  match x with [] => false | c :: _ => isalnum c && forallb (in_ctype APK_CTYPE_PACKAGE_NAME) x end.

Definition tags_of (x : bytes) : list bytes := List.filter nonempty (fields (chr " ") x).

(** The error or the value of a text for a schema.  Tags are kept in an object (adb.c:878). *)
Inductive text_value : adb_schema -> bytes -> Z + aval -> Prop :=
| tv_string x : text_value (Scalar scalar_string) x (inr (blob_tree x))
| tv_mstring x : text_value (Scalar scalar_mstring) x (inr (blob_tree x))
| tv_name x : text_value (Scalar scalar_name) x (if is_name x then inr (ABlob x) else inl APKE_PKGNAME_FORMAT)
| tv_version x : text_value (Scalar scalar_version) x (if apk_version_validate x then inr (blob_tree x) else inl APKE_PKGVERSION_FORMAT)
| tv_int x : text_value (Scalar scalar_int) x (number_text 10 x)
| tv_oct x : text_value (Scalar scalar_oct) x (number_text 8 x)
| tv_dependency x : text_value schema_dependency x
    (match dep_accepts x with Some (name, op, ver) => inr (dep_val name op ver) | None => inl APKE_DEPENDENCY_FORMAT end)
| tv_tags x : text_value schema_tags_array x
    (if forallb is_tag (tags_of x) then inr (tree_of ADB_TYPE_OBJECT (ABlob <$> tags_of x)) else inl APKE_ADB_PACKAGE_FORMAT).

(** The database grew by at most [n] bytes and keeps its values; the new one is the error or stands for the tree. *)
Definition stored_as (n : Z) (db : wadb) (r : Z + aval) (out : option (Z * wadb)) : Prop :=
  exists v db', out = Some (v, db') /\ grows n db db' /\
    match r with inl e => v = ADB_ERROR e | inr t => denotes (wa_data db') v t end.

Lemma stored_error n db e : wadb_ok db -> 0 <= n -> stored_as n db (inl e) (Some (ADB_ERROR e, db)).
Proof. intros Hok Hn. exists (ADB_ERROR e), db. split_and!; [done|by apply grows_refl|done]. Qed.

Lemma stored_blob n db b : wadb_ok db -> bytes_ok b -> 12 + zlen b <= n -> zlen (wa_data db) + n <= ADB_MAX ->
  stored_as n db (inr (blob_tree b)) (adb_w_blob db b).
Proof.
  intros Hok Hb Hl Hm. destruct (adb_w_blob_ok db b Hok Hb) as (v & db' & E & Hg & Hd); [lia|].
  exists v, db'. split_and!; [done|eapply grows_weaken, Hg; lia|done].
Qed.

Lemma dx_radix radix c : radix = 8 \/ radix = 10 -> byte_ok c ->
  (negb (c =? 0) && (dx c <? radix)) = ((48 <=? c) && (c <? 48 + radix)) /\ (48 <= c < 58 -> dx c = c - 48).
Proof.
  intros Hr Hc. unfold byte_ok in Hc.
  set (f := fun c => Bool.eqb (negb (c =? 0) && (dx c <? 8)) ((48 <=? c) && (c <? 56)) && Bool.eqb (negb (c =? 0) && (dx c <? 10)) ((48 <=? c) && (c <? 58)) &&
    (negb ((48 <=? c) && (c <? 58)) || (dx c =? c - 48))).
  assert (Hf : f c = true) by (apply (all_below_spec 256 f c); [vm_compute; reflexivity|done]). unfold f in Hf.
  apply andb_prop in Hf as [Hf H3]. apply andb_prop in Hf as [H1 H2]. apply eqb_prop in H1, H2.
  split; [by destruct Hr as [-> | ->]|]. intros H. destruct (Z.leb_spec 48 c), (Z.ltb_spec c 58); lia.
Qed.

Lemma pull_uint_number radix x n : radix = 8 \/ radix = 10 -> bytes_ok x -> 
  let digit c := (48 <=? c) && (c <? 48 + radix) in
  if forallb digit x then pull_uint_loop x radix (u64 n) = (u64 (foldl (fun n c => n * radix + (c - 48)) n x), [])
  else (zlen (pull_uint_loop x radix (u64 n)).2 =? 0) = false.
Proof.
  intros Hr Hx digit. revert n. induction Hx as [|c x Hc Hx IH]; intros n; [done|]. cbn [forallb foldl pull_uint_loop].
  destruct (dx_radix radix c Hr Hc) as [Hd Hv]. fold (digit c) in Hd.
  assert (Hz : (zlen (c :: x) =? 0) = false) by (apply Z.eqb_neq; rewrite zlen_cons; pose proof (zlen_nonneg x); lia).
  destruct (digit c) eqn:Ec; cbn [andb].
  - apply andb_prop in Hd as [H0 H1]. apply negb_true_iff in H0. rewrite H0. apply Z.ltb_lt in H1.
    destruct (Z.leb_spec radix (dx c)); [lia|]. unfold digit in Ec. apply andb_prop in Ec as [L1 L2]. reflect_tests.
    rewrite (Hv ltac:(lia)), u64_step. apply IH.
  - destruct (c =? 0); [done|]. cbn [negb andb] in Hd. apply Z.ltb_ge in Hd. by rewrite (proj2 (Z.leb_le _ _) Hd).
Qed.

Lemma stored_number n radix db x : radix = 8 \/ radix = 10 -> wadb_ok db -> bytes_ok x -> 16 <= n -> zlen (wa_data db) + n <= ADB_MAX ->
  stored_as n db (number_text radix x) (uint_fromstring radix db (Some x)).
Proof.
  intros Hr Hok Hx Hn Hm. unfold uint_fromstring, number_text, apk_blob_pull_uint. cbn [blob_data].
  pose proof (pull_uint_number radix x 0 Hr Hx) as H. cbv zeta in H. change (u64 0) with 0 in H.
  destruct (forallb _ x).
  - rewrite H. change (negb (zlen [] =? 0)) with false. cbv iota.
    destruct (adb_w_int_ok db (u64 (foldl (fun n c => n * radix + (c - 48)) 0 x)) Hok) as (v & db' & E & Hg & Hd); [by apply Z.mod_pos_bound|lia|].
    exists v, db'. split_and!; [done|eapply grows_weaken, Hg; lia|done].
  - destruct (pull_uint_loop x radix 0) as [m rest]. cbn [snd] in H. rewrite H. apply stored_error; [done|lia].
Qed.

Lemma stored_object s db n m db1 o max ts : commit_of s = None -> grows m db db1 -> builds (wa_data db1) o max ts ->
  m + 12 + 4 * zlen ts <= n -> zlen (wa_data db) + n <= ADB_MAX ->
  stored_as n db (inr (tree_of ADB_TYPE_OBJECT ts)) (finish_fromstring s (Some (0, db1, o))).
Proof.
  intros Hc Hg Hb Hn Hm. destruct (gr_size _ _ _ Hg).
  destruct (adb_w_obj_ok db1 o max ts ADB_TYPE_OBJECT (gr_ok _ _ _ Hg) Hb) as (v & db2 & o2 & E & Hg2 & Hd & _); [by right|lia|].
  unfold finish_fromstring. cbn [mbind option_bind Z.eqb negb]. rewrite Hc. unfold adb_w_obj. rewrite E.
  exists v, db2. split; [done|]. split; [eapply grows_weaken, grows_trans; [|exact Hg|exact Hg2]; lia|done].
Qed.

Lemma stored_dependency db x : wadb_ok db -> bytes_ok x -> zlen (wa_data db) + 64 + 22 * zlen x <= ADB_MAX ->
  stored_as (64 + 22 * zlen x) db (match dep_accepts x with Some (name, op, ver) => inr (dep_val name op ver) | None => inl APKE_DEPENDENCY_FORMAT end)
    (adb_w_fromstring schema_dependency db (Some x)).
Proof.
  intros Hok Hx Hm. pose proof (zlen_nonneg x). change (adb_w_fromstring schema_dependency db (Some x))
    with (finish_fromstring schema_dependency (dependency_fromstring db (adb_wo_init 4) (Some x))).
  destruct (dependency_fromstring_ok db (adb_wo_init 4) x Hok) as (rc & db1 & o1 & -> & Hg & Hr); [by apply builds_init|done|lia|].
  destruct (dep_accepts x) as [[[nm op] ver]|] eqn:Ea; destruct Hr as [-> Hb].
  - pose proof (dep_fields_length nm op ver). eapply stored_object; [done|exact Hg|exact Hb|unfold zlen in *; lia|lia].
  - exists (ADB_ERROR APKE_DEPENDENCY_FORMAT), db1. split; [done|]. split; [eapply grows_weaken, Hg; lia|done].
Qed.

Lemma stored_tags db x : wadb_ok db -> bytes_ok x -> zlen (wa_data db) + 64 + 22 * zlen x <= ADB_MAX ->
  stored_as (64 + 22 * zlen x) db (if forallb is_tag (tags_of x) then inr (tree_of ADB_TYPE_OBJECT (ABlob <$> tags_of x)) else inl APKE_ADB_PACKAGE_FORMAT)
    (adb_w_fromstring schema_tags_array db (Some x)).
Proof.
  intros Hok Hx Hm. pose proof (zlen_nonneg x). change (adb_w_fromstring schema_tags_array db (Some x)) with (finish_fromstring schema_tags_array
    (tags_loop (adb_w_fromstring (Scalar scalar_string)) (apk_blob_foreach_word (Some x)) db (adb_wo_init 32))).
  unfold apk_blob_foreach_word. change (bs " ") with [chr " "]. rewrite apk_blob_foreach_token_fields.
  pose proof (words_size_fields (chr " ") x) as Hw. unfold tags_of. set (ws := List.filter nonempty (fields (chr " ") x)) in *.
  assert (Hwl : 16 * zlen ws <= words_size ws) by (clear; induction ws as [|w ws IH]; [done|]; cbn; rewrite zlen_cons; pose proof (zlen_nonneg w); unfold words_size in *; lia).
  destruct (tags_loop_ok ws) with (db := db) (o := adb_wo_init 32) (max := 32) (ts := @nil aval) as (rc & db1 & o1 & max & -> & Hg & Hr);
    [|by apply List.Forall_forall; intros w Hin; apply filter_In in Hin as [_ ?]|done|by apply builds_init|lia|].
  { apply List.Forall_forall. intros w Hin. apply filter_In in Hin as [Hin _]. pose proof (fields_bytes (chr " ") x Hx) as Hf. rewrite List.Forall_forall in Hf. by apply Hf. }
  destruct (forallb is_tag ws).
  - destruct Hr as [-> Hb]. eapply stored_object; [done|exact Hg|exact Hb|cbn [app]; rewrite zlen_fmap; lia|lia].
  - rewrite Hr. exists (ADB_ERROR APKE_ADB_PACKAGE_FORMAT), db1. split; [done|]. split; [eapply grows_weaken, Hg; lia|done].
Qed.

(** C31: adb_w_fromstring stores exactly what a text means, for strings, names, versions, numbers, dependencies and lists of
    tags.  Whatever the text is, the call returns; a name that does not start with a letter or digit or has another
    character than those of names, a version that is not valid, a number with something else than its digits, a text that is not a
    dependency, or a word that is not a tag gives the error value of its kind, and any other text a value that stands for it: the string
    (null if it is empty), the number modulo 2^64, the object of name, version and operator that apk_dep_parse finds, or
    the object of the words.  Earlier values of the database are kept, and it grows by no more than what the text needs. *)
Theorem adb_w_fromstring_exact s db x r : text_value s x r -> wadb_ok db -> bytes_ok x ->
  zlen (wa_data db) + 64 + 22 * zlen x <= ADB_MAX -> stored_as (64 + 22 * zlen x) db r (adb_w_fromstring s db (Some x)).
Proof.
  intros Hs Hok Hx Hm. pose proof (zlen_nonneg x). assert (Hb : stored_as (64 + 22 * zlen x) db (inr (blob_tree x)) (adb_w_blob db x)) by (apply stored_blob; [done|done|lia|lia]).
  destruct Hs; [done|done| | |apply stored_number; [by right|done|done|lia|lia]|apply stored_number; [by left|done|done|lia|lia]|by apply stored_dependency|by apply stored_tags].
  - cbn [adb_w_fromstring scalar_fromstring]. unfold name_fromstring, is_name. cbn [blob_data]. destruct x as [|c x]; [by apply stored_error; [|lia]|].
    rewrite spn_rest. destruct (isalnum c); cbn [negb andb]; [|by apply stored_error; [|lia]].
    destruct (forallb _ (c :: x)); cbn [negb]; [done|by apply stored_error; [|lia]].
  - cbn [adb_w_fromstring scalar_fromstring]. unfold version_fromstring. cbn [blob_data]. destruct (apk_version_validate x); cbn [negb]; [done|by apply stored_error; [|lia]].
Qed.
End Texts.

(** ** Texts that are given back *)

(** The texts a scalar prints: names and versions in their grammar, hexadecimal digits of up to
    256 bytes, numbers without leading zeroes. *)
Definition canonical (c : adb_scalar_schema) (x : bytes) : Prop :=
  match c with
  | scalar_string | scalar_mstring => x <> []
  | scalar_name => (exists ch, head x = Some ch /\ isalnum ch = true) /\ Forall (fun ch => in_ctype APK_CTYPE_PACKAGE_NAME ch = true) x
  | scalar_version => x <> [] /\ apk_version_validate x = true
  | scalar_hexblob => exists b, x = hexdump b /\ bytes_ok b /\ 0 < zlen b <= 256
  | scalar_int => exists n, x = uint_text n 10 /\ 0 <= n < 2 ^ 64
  | scalar_oct => exists n, x = uint_text n 8 /\ 0 <= n < 2 ^ 64
  | schema_xattr | scalar_hsize => False
  end.

Lemma blob_back db x : wadb_ok db -> bytes_ok x -> x <> [] -> zlen (wa_data db) + 12 + zlen x <= ADB_MAX ->
  exists v db', adb_w_blob db x = Some (v, db') /\ ADB_IS_ERROR v = false /\ adb_r_blob (wa_data db') v = (Some x, zlen x).
Proof.
  intros Hok Hx Hne Hm. destruct (adb_w_blob_ok db x Hok Hx Hm) as (v & db' & E & _ & Hd). exists v, db'.
  rewrite blob_tree_pos in Hd by (destruct x; [done|rewrite zlen_cons; pose proof (zlen_nonneg x); lia]).
  split_and!; [done|by eapply denotes_no_error|by apply adb_r_blob_denotes].
Qed.

Lemma fmt_fits n x : zlen x < n -> apk_blob_fmt n x = (Some x, zlen x).
Proof. intros H. unfold apk_blob_fmt. by destruct (Z.leb_spec n (zlen x)); [lia|]. Qed.

Lemma uint_back radix db n bufsz : 2 <= radix <= 16 -> wadb_ok db -> 0 <= n < 2 ^ 64 -> zlen (wa_data db) + 16 <= ADB_MAX ->
  zlen (uint_text n radix) < bufsz ->
  exists v db', uint_fromstring radix db (Some (uint_text n radix)) = Some (v, db') /\ ADB_IS_ERROR v = false /\
    apk_blob_fmt bufsz (uint_text (adb_r_int (wa_data db') v) radix) = (Some (uint_text n radix), zlen (uint_text n radix)).
Proof.
  intros Hr Hok Hn Hm Hb. destruct (adb_w_int_ok db n Hok Hn Hm) as (v & db' & E & _ & Hd). exists v, db'.
  unfold uint_fromstring. cbn [blob_data]. pose proof (uint_text_pull radix n [] Hr Hn I) as Hp. rewrite app_nil_r in Hp. rewrite Hp.
  split_and!; [done|by eapply denotes_no_error|]. rewrite (adb_r_int_denotes _ _ _ Hd). by apply fmt_fits.
Qed.

(** the text of a string, name, version, hexadecimal blob or number that was stored in a
    database is printed again as it was. *)
Theorem scalar_text_roundtrip c db x bufsz : canonical c x -> wadb_ok db -> bytes_ok x ->
  zlen (wa_data db) + 16 + zlen x <= ADB_MAX -> zlen x < bufsz ->
  exists v db', scalar_fromstring c db (Some x) = Some (v, db') /\ ADB_IS_ERROR v = false /\
    scalar_tostring c (wa_data db') v bufsz = (Some x, zlen x).
Proof.
  intros Hc Hok Hx Hm Hb. pose proof (zlen_nonneg x). destruct c; cbn [canonical scalar_fromstring scalar_tostring] in *; try done.
  - apply blob_back; [done..|lia].
  - apply blob_back; [done..|lia].
  - destruct Hc as [(ch & Hh & Ha) Hn]. unfold name_fromstring. cbn [blob_data]. pose proof (apk_blob_spn_app x [] _ Hn I) as Hs. rewrite app_nil_r in Hs.
    rewrite Hs. destruct x as [|c x]; [done|]. injection Hh as ->. rewrite Ha. cbn [negb fst bool_decide]. apply blob_back; [done..|lia].
  - destruct Hc as [Hne Hv]. unfold version_fromstring. cbn [blob_data]. rewrite Hv. apply blob_back; [done..|lia].
  - destruct Hc as (b & -> & Hby & Hbl). rewrite zlen_hexdump in *. unfold hexblob_fromstring, blob_len. cbn [blob_data]. rewrite zlen_hexdump, Z.div_mul by lia.
    change 1 with (Z.ones 1). rewrite Z.land_ones, Z.mod_mul by lia. cbn [Z.eqb negb]. destruct (Z.ltb_spec 256 (zlen b)); [lia|].
    pose proof (pull_hexdump_dump b [] (hex_buf (zlen b)) Hby) as Hp. rewrite app_nil_r in Hp. rewrite Hp by (unfold hex_buf, zlen; rewrite length_replicate; lia).
    cbn [mbind option_bind]. destruct (blob_back db b Hok Hby) as (v & db' & E & He & Hr); [by intros ->; rewrite zlen_nil in *; lia|lia|].
    exists v, db'. split_and!; [done|done|]. unfold hexblob_tostring. rewrite Hr. cbn [apk_blob_push_hexdump wbuf_new w_room w_done app].
    destruct (Z.ltb_spec bufsz (zlen b * 2)); [lia|]. unfold pushed_part. cbn [w_done]. by rewrite zlen_hexdump.
  - destruct Hc as (n & -> & Hn). apply uint_back; [lia|done|done|lia|done].
  - destruct Hc as (n & -> & Hn). apply uint_back; [lia|done|done|lia|done].
Qed.

(** ** Dependencies *)

(** Dependencies whose text is accepted and printed again: a valid version, and a name of
    the characters of names. *)
Record dep_storable (dep : apk_dependency) : Prop := {
  ds_ok : dep_ok None dep;
  ds_valid : dep_is_broken (dep_op dep) (dep_version dep) = false;
  ds_name : Forall (fun ch => in_ctype APK_CTYPE_DEPENDENCY_NAME ch = true) (dep_name dep);
  ds_bytes : bytes_ok (dep_name dep) /\ bytes_ok (dep_version dep);
  ds_nul : Forall (fun ch => ch <> 0) (dep_version dep);
}.

Definition dep_value (dep : apk_dependency) : aval := dep_val (dep_name dep) (dep_op dep) (dep_version dep).

Lemma dep_text_accepted dep : dep_storable dep ->
  dep_accepts (dep_text None dep) = Some (dep_name dep, dep_op dep, dep_version dep).
Proof.
  intros [Hok Hv Hn _ _]. destruct Hok as [(Hne & Hw & Hh) Hop Hc _ _ _]. unfold dep_accepts, dep_text, dep_tag_text, apk_dep_conflict. cbn [app].
  rewrite (apk_dep_parse_text _ _ _ Hne (plain_word_comp _ Hw) Hh Hop Hc).
  assert (E : blob_data (match dep_version dep with [] => None | _ => Some (dep_version dep) end) = dep_version dep) by by destruct (dep_version dep).
  rewrite E, Hv. pose proof (apk_blob_spn_app (dep_name dep) [] _ Hn I) as Hs. rewrite app_nil_r in Hs. by rewrite Hs.
Qed.

Lemma dep_val_kids name op ver : name <> [] ->
  kid (kids (dep_val name op ver)) 1 = ABlob name /\
  kid (kids (dep_val name op ver)) 2 = (if op =? APK_DEPMASK_ANY then ANull else blob_tree ver) /\
  kid (kids (dep_val name op ver)) 3 = (if (op =? APK_DEPMASK_ANY) || (op =? APK_VERSION_EQUAL) then ANull else AInt op).
Proof.
  intros Hn. unfold dep_val, dep_fields. destruct name as [|c name]; [done|].
  destruct (op =? APK_DEPMASK_ANY), (op =? APK_VERSION_EQUAL), ver; done.
Qed.

Lemma until_nul_id l : Forall (fun ch => ch <> 0) l -> until_nul l = l.
Proof. induction 1 as [|x l Hx _ IH]; [done|]. cbn. destruct (Z.eqb_spec x 0); [done|]. by rewrite IH. Qed.

Lemma name_no_nul l : Forall (fun ch => in_ctype APK_CTYPE_DEPENDENCY_NAME ch = true) l -> Forall (fun ch => ch <> 0) l.
Proof. intros H. eapply list.Forall_impl; [exact H|]. intros ch Hc ->. by vm_compute in Hc. Qed.

Lemma zlen_dep_text dep : zlen (dep_name dep) + zlen (dep_version dep) <= zlen (dep_text None dep).
Proof.
  unfold dep_text, dep_tag_text. rewrite !zlen_app, zlen_nil.
  pose proof (zlen_nonneg (if apk_dep_conflict dep then bs "!" else [])). pose proof (zlen_nonneg (bs (apk_version_op_string (dep_op dep)))). lia.
Qed.

Lemma dependency_tostring_text d v dep bufsz : dep_storable dep -> denotes d v (dep_value dep) -> zlen (dep_text None dep) < bufsz ->
  dependency_tostring d (adb_r_obj d v) bufsz = Some (Some (dep_text None dep), zlen (dep_text None dep)).
Proof.
  intros [Hok Hv Hn _ Hz] Hd Hb. destruct Hok as [(Hne & _ & _) Hop Hc _ _ _]. apply adb_r_obj_holds in Hd as [_ Hh].
  destruct (dep_val_kids (dep_name dep) (dep_op dep) (dep_version dep) Hne) as (K1 & K2 & K3). fold (dep_value dep) in *.
  destruct (Hh ADBI_DEP_NAME ltac:(done)) as (v1 & E1 & D1), (Hh ADBI_DEP_VERSION ltac:(done)) as (v2 & E2 & D2), (Hh ADBI_DEP_MATCH ltac:(done)) as (v3 & E3 & D3).
  unfold ADBI_DEP_NAME, ADBI_DEP_VERSION, ADBI_DEP_MATCH in *. rewrite K1 in D1. rewrite K2 in D2. rewrite K3 in D3.
  unfold dependency_tostring, adb_ro_blob, adb_ro_int, ADBI_DEP_NAME, ADBI_DEP_VERSION, ADBI_DEP_MATCH.
  rewrite E1, E2, E3. cbn [fmap option_fmap option_map mbind option_bind].
  rewrite (adb_r_blob_tree _ _ _ D1), (adb_r_blob_tree _ _ _ D2), (adb_r_int_tree _ _ _ D3). cbn [fst is_blob blob_of].
  unfold dep_text, dep_tag_text, apk_dep_conflict in *. cbn [app] in *. unfold blob_printf.
  rewrite (until_nul_id (dep_name dep)) by by apply name_no_nul. f_equal.
  destruct Hc as [[Hany Hver]|(H1 & H2 & H3 & Hver & _)].
  - destruct (any_op_string _ Hop Hany) as [Es _]. rewrite Es, Hver in *. cbn [bs] in *. rewrite !app_nil_r in *.
    destruct (Z.eqb_spec (dep_op dep) APK_DEPMASK_ANY) as [E|E]; cbn [is_blob blob_of orb int_of blob_tree].
    + rewrite E in *. done.
    + destruct (Z.eqb_spec (dep_op dep) APK_VERSION_EQUAL) as [E'|E']; [by rewrite E' in Hany|]. cbn [int_of].
      rewrite (wrap_small 32) by lia. destruct (Z.eqb_spec (dep_op dep) 0) as [E0|]; [by rewrite E0 in Hany|].
      assert (Ec : negb (dep_op dep .& APK_VERSION_CONFLICT =? 0) = true).
      { assert (Hc : forallb (fun o => negb (o .& Z.lnot APK_VERSION_CONFLICT =? APK_DEPMASK_ANY) || (o =? APK_DEPMASK_ANY) || negb (o .& APK_VERSION_CONFLICT =? 0))
          (map Z.of_nat (seq 0 32)) = true) by (vm_compute; reflexivity).
        rewrite forallb_forall in Hc. specialize (Hc (dep_op dep)). rewrite Hany, Z.eqb_refl, (proj2 (Z.eqb_neq _ _) E) in Hc. cbn [negb orb] in Hc.
        apply Hc. apply in_map_iff. exists (Z.to_nat (dep_op dep)). split; [lia|]. apply in_seq. lia. }
      rewrite Ec in *. by rewrite fmt_fits.
  - destruct (Z.eqb_spec (dep_op dep) APK_DEPMASK_ANY) as [E|E]; [by rewrite E in H1|]. rewrite blob_tree_pos.
    2: { destruct (dep_version dep) as [|b0 l0]; [done|]. rewrite zlen_cons. pose proof (zlen_nonneg l0). lia. }
    cbn [is_blob blob_of orb]. rewrite (until_nul_id (dep_version dep)) by done.
    assert (Eo : (if u32 (int_of (if dep_op dep =? APK_VERSION_EQUAL then ANull else AInt (dep_op dep))) =? 0 then APK_VERSION_EQUAL
                  else u32 (int_of (if dep_op dep =? APK_VERSION_EQUAL then ANull else AInt (dep_op dep)))) = dep_op dep).
    { destruct (Z.eqb_spec (dep_op dep) APK_VERSION_EQUAL) as [-> |]; [done|]. cbn [int_of]. rewrite (wrap_small 32) by lia.
      destruct (Z.eqb_spec (dep_op dep) 0) as [E0|]; [by rewrite E0 in H2|done]. }
    rewrite Eo. by apply fmt_fits.
Qed.

(** a dependency that was stored in a database from its text is printed as the same text. *)
Theorem dependency_text_roundtrip {Q : Qsort} {NA : NestedAdb} dep db bufsz : dep_storable dep -> wadb_ok db ->
  bytes_ok (dep_text None dep) -> zlen (wa_data db) + 64 + zlen (dep_text None dep) <= ADB_MAX -> zlen (dep_text None dep) < bufsz ->
  exists v db', adb_w_fromstring schema_dependency db (Some (dep_text None dep)) = Some (v, db') /\
    denotes (wa_data db') v (dep_value dep) /\
    dependency_tostring (wa_data db') (adb_r_obj (wa_data db') v) bufsz = Some (Some (dep_text None dep), zlen (dep_text None dep)).
Proof.
  intros Hd Hok Hx Hm Hb.
  destruct (dependency_fromstring_ok db (adb_wo_init 4) _ Hok (builds_init _ 4 ltac:(lia)) Hx) as (rc & db1 & o1 & E & Hg & Hr); [lia|].
  rewrite (dep_text_accepted dep Hd) in Hr. destruct Hr as [-> Hb1]. destruct (gr_size _ _ _ Hg).
  pose proof (dep_fields_length (dep_name dep) (dep_op dep) (dep_version dep)).
  destruct (adb_w_obj_ok db1 o1 4 _ ADB_TYPE_OBJECT (gr_ok _ _ _ Hg) Hb1) as (v & db2 & o2 & E2 & _ & Hv & _); [by right|unfold zlen in *; lia|].
  exists v, db2. split_and!; [|exact Hv|by apply dependency_tostring_text].
  change (adb_w_fromstring schema_dependency db (Some (dep_text None dep)))
    with (finish_fromstring schema_dependency (dependency_fromstring db (adb_wo_init 4) (Some (dep_text None dep)))).
  rewrite E. cbn. unfold adb_w_obj. change (commit_of schema_dependency) with (@None (bytes -> adb_obj -> option adb_obj)). by rewrite E2.
Qed.

(** ** Lists of dependencies *)

Lemma builds_clear d o max ts : builds d o max ts -> exists o', adb_wo_reset o = Some o' /\ builds d o' max [].
Proof.
  intros (cells & rest & Ho & Hn & Hm & Hc). pose proof (list.Forall2_length _ _ _ Hc) as Hl.
  unfold adb_wo_reset. rewrite Ho. cbn [mbind option_bind]. eexists. split; [done|]. exists [], (length cells + rest)%nat. cbn [o_obj o_num].
  split_and!; [|done|rewrite zlen_nil; unfold zlen in *; lia|constructor]. unfold set_cell, zdrop.
  replace (Z.to_nat (o_num o)) with (S (length cells)) by (unfold zlen in *; lia). cbn [replicate app]. rewrite insert_hd. cbn [drop].
  rewrite drop_app_length, <- replicate_add. done.
Qed.

Lemma dep_value_not_null dep : dep_storable dep -> dep_value dep <> ANull.
Proof.
  intros [[(Hne & _ & _) _ _ _ _ _] _ _ _ _]. destruct (dep_val_kids _ (dep_op dep) (dep_version dep) Hne) as [H _].
  intros E. fold (dep_value dep) in H. by rewrite E in H.
Qed.

Lemma dep_text_no_sep dep : dep_storable dep -> Forall (fun c => is_sep c = false) (dep_text None dep).
Proof.
  intros [Hok _ _ _ _]. apply (dep_text_sep repo_tags_init None); [|by left|done].
  unfold tags_ok. split_and!; [done|done|constructor|constructor].
Qed.

(** The first dependency of a text, after separators. *)
Lemma apk_dep_split_text seps w rest : Forall (fun c => is_sep c = true) seps -> Forall (fun c => is_sep c = false) w -> w <> [] ->
  class_ends (fun c => negb (is_sep c)) rest -> apk_dep_split (seps ++ w ++ rest) = Some (w, rest).
Proof.
  intros Hs Hw Hne Hr. unfold apk_dep_split. pose proof (zlen_nonneg seps). pose proof (zlen_nonneg rest).
  assert (0 < zlen w) by (destruct w; [done|]; rewrite zlen_cons; pose proof (zlen_nonneg w); lia).
  rewrite !zlen_app. destruct (Z.eqb_spec (zlen seps + (zlen w + zlen rest)) 0); [lia|].
  rewrite apk_blob_spn_app; [|done|destruct w as [|c w]; [done|]; by apply Forall_cons_1 in Hw as [Hc _]].
  rewrite apk_blob_cspn_app by done. destruct (Z.eqb_spec (zlen w) 0); [lia|done].
Qed.

(** The bytes a list of dependencies needs. *)
Definition deps_size (deps : list apk_dependency) : Z := foldr (fun dep n => 64 + zlen (dep_text None dep) + n) 0 deps.

Lemma deps_size_nonneg deps : 0 <= deps_size deps.
Proof. induction deps as [|dep deps IH]; cbn; [lia|]. pose proof (zlen_nonneg (dep_text None dep)). unfold deps_size in IH. lia. Qed.

Lemma length_deps_text dep deps : (length (dep_text None dep) <= length (deps_text None (dep :: deps)))%nat.
Proof. destruct deps; cbn [deps_text]; [lia|]. rewrite length_app. lia. Qed.

(** The rest of a list after its first dependency: a separator and the other dependencies. *)
Lemma deps_text_cons dep deps : exists seps, deps_text None (dep :: deps) = dep_text None dep ++ seps ++ deps_text None deps /\
  Forall (fun c => is_sep c = true) seps /\ class_ends (fun c => negb (is_sep c)) (seps ++ deps_text None deps).
Proof.
  destruct deps as [|dep' deps]; [exists []; cbn; rewrite app_nil_r; by split_and!|]. exists [chr " "]. split_and!; [done|by constructor|done].
Qed.

Section DepList.
Context {Q : Qsort} {NA : NestedAdb}.

Lemma dependencies_loop_text deps : Forall dep_storable deps -> Forall (fun dep => bytes_ok (dep_text None dep)) deps ->
  forall fuel db obj max ts dep seps, wadb_ok db -> builds (wa_data db) obj max ts -> builds (wa_data db) dep 4 [] ->
  Forall (fun c => is_sep c = true) seps -> (length (deps_text None deps) <= fuel)%nat -> zlen (wa_data db) + deps_size deps <= ADB_MAX ->
  exists db' obj' max', dependencies_loop fuel db obj dep (seps ++ deps_text None deps) = Some (0, db', obj') /\
    grows (deps_size deps) db db' /\ builds (wa_data db') obj' max' (ts ++ (dep_value <$> deps)).
Proof.
  induction 1 as [|d deps Hd _ IH]; intros Hby fuel db obj max ts dep seps Hok Hb Hbd Hs Hf Hm.
  { exists db, obj, max. split_and!; [|by apply grows_refl|by rewrite app_nil_r]. cbn [deps_text]. rewrite app_nil_r.
    assert (E : apk_dep_split seps = None).
    { unfold apk_dep_split. destruct (Z.eqb_spec (zlen seps) 0); [done|]. pose proof (apk_blob_spn_app seps [] _ Hs I) as Hsp. rewrite app_nil_r in Hsp. by rewrite Hsp. }
    destruct fuel; cbn [dependencies_loop]; by rewrite E. }
  apply Forall_cons_1 in Hby as [Hx Hby]. cbn [deps_size foldr] in *. fold (deps_size deps) in *. pose proof (deps_size_nonneg deps).
  pose proof (zlen_nonneg (dep_text None d)). pose proof (length_deps_text d deps).
  destruct (deps_text_cons d deps) as (seps' & Et & Hs' & Hr). pose proof (dep_text_ne None d (ds_ok _ Hd)) as Hne.
  assert (0 < length (dep_text None d))%nat by (destruct (dep_text None d); [done|cbn; lia]).
  destruct fuel as [|fuel]; [lia|]. cbn [dependencies_loop]. rewrite Et, (apk_dep_split_text seps _ _ Hs (dep_text_no_sep d Hd) Hne Hr).
  destruct (builds_clear _ _ _ _ Hbd) as (dep0 & E0 & Hb0). unfold adb_wo_fromstring at 1. rewrite E0. cbn [mbind option_bind].
  destruct (dependency_fromstring_ok db dep0 _ Hok Hb0 Hx) as (rc & db1 & o1 & E & Hg & Hrc); [lia|].
  rewrite (dep_text_accepted d Hd) in Hrc. destruct Hrc as [-> Hb1]. rewrite E. cbn [mbind option_bind Z.eqb negb]. destruct (gr_size _ _ _ Hg).
  pose proof (dep_fields_length (dep_name d) (dep_op d) (dep_version d)).
  destruct (adb_w_obj_ok db1 o1 4 _ ADB_TYPE_OBJECT (gr_ok _ _ _ Hg) Hb1) as (v & db2 & o2 & E2 & Hg2 & Hv & Hb2); [by right|unfold zlen in *; lia|].
  unfold adb_wa_append_obj, adb_w_obj. change (commit_of schema_dependency) with (@None (bytes -> adb_obj -> option adb_obj)). rewrite E2. cbn [mbind option_bind fst snd].
  assert (He : extends (wa_data db) (wa_data db2)) by (eapply extends_trans; [apply Hg|apply Hg2]).
  destruct (adb_wa_append_ok _ obj max ts v _ (builds_extends _ _ _ _ _ He Hb) Hv) as (obj' & max' & -> & Hb3). cbn [mbind option_bind].
  change (tree_of ADB_TYPE_OBJECT (dep_fields (dep_name d) (dep_op d) (dep_version d))) with (dep_value d) in Hb3.
  assert (Ea : add_item (dep_value d) ts = ts ++ [dep_value d]) by (pose proof (dep_value_not_null d Hd); by destruct (dep_value d)).
  rewrite Ea in Hb3. destruct (gr_size _ _ _ Hg2).
  destruct (IH Hby fuel db2 obj' max' (ts ++ [dep_value d]) o2 seps' (gr_ok _ _ _ Hg2) Hb3 Hb2 Hs') as (db3 & obj3 & max3 & E3 & Hg3 & Hb4).
  - rewrite Et, !length_app in Hf. lia.
  - unfold zlen in *. lia.
  - exists db3, obj3, max3. split_and!; [done| |by rewrite <- app_assoc in Hb4].
    eapply grows_weaken, grows_trans; [|exact Hg|eapply grows_trans; [exact Hg2|exact Hg3]]. unfold zlen in *. lia.
Qed.
End DepList.

(** Writing an object after a pre_commit hook, which may leave other cells behind its items. *)
Lemma adb_w_obj_pre_ok f db o max h cells ts junk dyn ty : wadb_ok db -> adb_wo_max o = Some max ->
  f (wa_data db) o = Some (Obj (Some (h :: cells ++ junk)) (zlen ts + 1) dyn) -> Forall2 (denotes (wa_data db)) cells ts ->
  ty = ADB_TYPE_ARRAY \/ ty = ADB_TYPE_OBJECT -> zlen (wa_data db) + 12 + 4 * zlen ts <= ADB_MAX ->
  exists v db' o', __adb_w_obj (Some f) db o ty = Some (v, db', o') /\ grows (12 + 4 * zlen ts) db db' /\ denotes (wa_data db') v (tree_of ty ts).
Proof.
  intros Hok Hmax Hf Hc Hty Hm. unfold __adb_w_obj. rewrite Hmax. cbn [mbind option_bind]. rewrite Hf. cbn [mbind option_bind o_obj o_num o_dynamic].
  pose proof (list.Forall2_length _ _ _ Hc) as Hl. pose proof (zlen_nonneg ts). pose proof (zlen_nonneg (wa_data db)).
  replace (Z.to_nat (zlen ts + 1)) with (S (length ts)) by (unfold zlen; lia).
  destruct (trim_null_spec (wa_data db) h cells ts junk Hc) as [-> Ht]. pose proof (trim_length ts) as Htl.
  unfold tree_of. destruct (trim ts) as [|t ts'].
  - cbn [length Nat.ltb Nat.leb mbind option_bind w_obj_done adb_wo_reset o_obj o_num]. eexists _, db, _. split_and!; [done|apply grows_refl; [done|lia]|done].
  - set (ts1 := t :: ts') in *. assert (Hp : (0 < length ts1)%nat) by (cbn; lia).
    replace (1 <? S (length ts1))%nat with true by (symmetry; apply Nat.ltb_lt; lia). unfold set_cell at 1 2. rewrite insert_hd.
    cbn [take]. rewrite take_app_le by lia. set (cs := take (length ts1) cells).
    change (mjoin (le_bytes 4 <$> Z.of_nat (S (length ts1)) :: cs)) with (cell_bytes (Z.of_nat (S (length ts1)) :: cs)).
    assert (Hz : zlen (cell_bytes (Z.of_nat (S (length ts1)) :: cs)) = 4 * (zlen ts1 + 1)).
    { rewrite zlen_cell_bytes, zlen_cons. unfold cs, zlen. rewrite length_take. lia. }
    assert (zlen ts1 <= zlen ts) by (unfold zlen; lia). assert (0 < zlen ts1) by (unfold zlen; lia).
    destruct (w_val_ok db [cell_bytes (Z.of_nat (S (length ts1)) :: cs)] 2 ty Hok) as (v & db' & E & Hg & Hw & Hv & Hs);
      rewrite ?join_single, ?Hz in *; [lia|constructor; [apply bytes_ok_cells|constructor]|lia|lia
      |destruct Hty as [-> | ->]; solve_is_type|].
    unfold adb_w_data1. change (2 ^ 2) with 4 in E. rewrite E. cbn [mbind option_bind w_obj_done adb_wo_reset o_obj o_num].
    eexists v, db', _. split_and!; [done|eapply grows_weaken, Hg; lia|].
    apply denotes_tree. split_and!; [done|done|done|unfold ADB_MAX in *; lia|]. exists cs.
    replace (zlen ts1 + 1) with (Z.of_nat (S (length ts1))) by (unfold zlen; lia). split; [done|].
    eapply list.Forall2_impl; [exact Ht|]. intros c u. by apply denotes_grows with (1 := Hg).
Qed.

(** a list of dependencies that can be compared, given as text, is stored as an array of
    exactly these dependencies in ascending order; this goes through splitting and parsing the
    text, writing each dependency, sorting the array, removing repeated values and writing it. *)
Theorem dependency_list_stored {Q : Qsort} {QO : QsortOk} {NA : NestedAdb} deps db :
  Forall dep_storable deps -> Forall (fun dep => bytes_ok (dep_text None dep)) deps ->
  (forall a b, a ∈ deps -> b ∈ deps -> comparable schema_dependency (dep_value a) (dep_value b) = true) ->
  wadb_ok db -> zlen (wa_data db) + deps_size deps + 12 + 4 * zlen deps <= ADB_MAX ->
  exists v db' ts, adb_w_fromstring schema_dependency_array db (Some (deps_text None deps)) = Some (v, db') /\
    denotes (wa_data db') v (tree_of ADB_TYPE_OBJECT ts) /\ (forall t, t ∈ ts <-> t ∈ dep_value <$> deps) /\
    ordered (fun a b => tree_cmp schema_dependency a b <= 0) ts.
Proof.
  intros Hd Hby Hc Hok Hm. pose proof (deps_size_nonneg deps). pose proof (zlen_nonneg deps).
  destruct (dependencies_loop_text deps Hd Hby (length (deps_text None deps)) db (adb_wo_init 32) 32 [] (adb_wo_init 4) [])
    as (db1 & obj & max & E & Hg & Hb); [done|by apply builds_init|by apply builds_init|constructor|lia|lia|]. cbn [app] in *.
  destruct (adb_wa_sort_unique_ok schema_dependency (wa_data db1) obj max _ I Hb) as (cs & ts & junk & Es & Hcs & Ht & Hl & Ho & _).
  { intros a b Ha Hb'. apply list_elem_of_fmap in Ha as (x & -> & Hx), Hb' as (y & -> & Hy). by apply Hc. }
  rewrite length_fmap in Hl. destruct (gr_size _ _ _ Hg).
  destruct (adb_w_obj_pre_ok (adb_wa_sort_unique schema_dependency) db1 obj max max cs ts junk _ ADB_TYPE_OBJECT (gr_ok _ _ _ Hg)
    (builds_max _ _ _ _ Hb) Es Hcs) as (v & db2 & o2 & E2 & _ & Hv); [by right|unfold zlen in *; lia|].
  exists v, db2, ts. split_and!; [|done|done|done].
  change (adb_w_fromstring schema_dependency_array db (Some (deps_text None deps))) with (finish_fromstring schema_dependency_array
    (dependencies_loop (length (deps_text None deps)) db (adb_wo_init 32) (adb_wo_init 4) (deps_text None deps))).
  rewrite E. cbn [finish_fromstring mbind option_bind Z.eqb negb]. unfold adb_w_obj.
  change (commit_of schema_dependency_array) with (Some (adb_wa_sort_unique schema_dependency)). by rewrite E2.
Qed.

(** ** Comparing typed objects *)

(** No databases as fields; only the schema of the installed database has one. *)
Fixpoint no_adb (s : adb_schema) : bool :=
  match s with
  | Scalar _ => true
  | Object _ _ fields => foldr (fun f b => no_adb f.2 && b) true fields
  | Array _ _ _ item => no_adb item
  | AdbSchema _ _ => false
  end.

Lemma cmp_loop_total cmp mode nc d o ts n i : holds d o ts -> ADBI_FIRST <= i ->
  (forall j, i <= j < i + Z.of_nat n -> is_Some (cmp j)) -> is_Some (cmp_loop cmp mode nc o n i).
Proof.
  intros [_ Ho]. revert i. induction n as [|n IH]; intros i Hi Hc; [done|]. cbn [cmp_loop].
  destruct (Ho i Hi) as (v & -> & _). cbn [mbind option_bind]. destruct (Hc i) as [r Er]; [lia|].
  assert (Hr : is_Some (if (mode =? ADB_OBJCMP_EXACT) || negb (v =? ADB_NULL) then cmp i else Some 0)) by (case_match; eauto).
  destruct Hr as [r' ->]. cbn [mbind option_bind]. repeat case_match; try done. apply IH; [lia|]. intros j Hj. apply Hc. lia.
Qed.

Lemma scalar_compare_total c d1 v1 t1 d2 v2 t2 : denotes d1 v1 t1 -> denotes d2 v2 t2 -> is_Some (scalar_compare c d1 v1 d2 v2).
Proof. intros H1 H2. destruct c; cbn [scalar_compare]; try done; by rewrite (string_compare_tree _ _ _ _ _ _ H1 H2). Qed.

(** The fields of a typed value have the types of the fields of the schema. *)
Lemma typed_kid s t j k : has_type s t -> adb_ro_kind s j = Some k -> has_type k (kid (kids t) j).
Proof.
  intros Ht Hk. assert (Hin : forall ts, kid ts j = ANull \/ ts !! Z.to_nat (j - 1) = Some (kid ts j)).
  { intros ts. unfold kid. destruct (ts !! Z.to_nat (j - 1)) as [u|] eqn:E; [right; by rewrite (nth_lookup_Some _ _ _ _ E)|].
    left. apply nth_overflow. by apply lookup_ge_None. }
  destruct (Hin (kids t)) as [->|Hl]; [constructor|]. revert Hl. generalize (kid (kids t) j) as u. intros u Hl.
  destruct Ht as [s|c b|c n|nc tx fs ts Hle Hf|nf fs pc it ty ts Hty Hf]; cbn [kids] in Hl; try by rewrite lookup_nil in Hl.
  - cbn [adb_ro_kind] in Hk. case_match; [|done]. apply fmap_Some in Hk as (f & Hfs & ->). by eapply Hf.
  - injection Hk as <-. by eapply Hf, list_elem_of_lookup_2.
Qed.

Lemma kind_below s j k : no_adb s = true -> adb_ro_kind s j = Some k -> no_adb k = true /\ (schema_depth k < schema_depth s)%nat.
Proof.
  intros Hn Hk. destruct s as [c|nc tx fs|nf fs pc it|id s]; cbn [adb_ro_kind] in Hk; [done| |by injection Hk as <-; cbn in *; split; [|lia]|done].
  case_match; [|done]. apply fmap_Some in Hk as (f & Hf & ->). cbn [no_adb schema_depth] in *. apply list_elem_of_lookup_2 in Hf.
  clear -Hn Hf. induction Hf as [f fs|f g fs Hf IH]; cbn [foldr] in *; apply andb_prop in Hn as [H1 H2]; [split; [done|lia]|].
  destruct (IH H2). split; [done|lia].
Qed.

Lemma kind_exists s t j : has_type s t -> is_object s -> ADBI_FIRST <= j -> j <= zlen (kids t) -> is_Some (adb_ro_kind s j).
Proof.
  intros Ht Hs Hj Hl. unfold ADBI_FIRST, zlen in *. destruct Ht as [s|c b|c n|nc tx fs ts Hle Hf|nf fs pc it ty ts Hty Hf]; cbn [kids] in *; try done; try (cbn in Hl; lia).
  cbn [adb_ro_kind num_fields]. unfold zlen. destruct (Z.ltb_spec 0 j); [|lia]. destruct (Z.ltb_spec j (Z.of_nat (length fs) + 1)); [|lia].
  cbn [andb]. destruct (lookup_lt_is_Some_2 fs (Z.to_nat (j - 1))) as [f ->]; [lia|]. done.
Qed.

Lemma cmpobj_fuel_typed n mode s d1 o1 t1 d2 o2 t2 : (schema_depth s <= n)%nat -> no_adb s = true -> is_object s ->
  has_type s t1 -> has_type s t2 -> holds d1 o1 (kids t1) -> holds d2 o2 (kids t2) -> is_Some (cmpobj_fuel n mode s d1 o1 d2 o2).
Proof.
  revert s o1 t1 o2 t2. induction n as [|n IH]; intros s o1 t1 o2 t2 Hd Hn Hs T1 T2 H1 H2; [destruct s; cbn in Hd; lia|].
  assert (Hc : forall j, ADBI_FIRST <= j -> is_Some (adb_ro_kind s j) ->
    is_Some (ro_cmp (fun k o1 o2 => cmpobj_fuel n mode k d1 o1 d2 o2) s d1 o1 d2 o2 j)).
  { intros j Hj [k Hk]. unfold ro_cmp. rewrite Hk. cbn [mbind option_bind]. destruct H1 as [_ H1], H2 as [_ H2].
    destruct (H1 j Hj) as (v1 & -> & D1), (H2 j Hj) as (v2 & -> & D2). cbn [mbind option_bind].
    destruct (kind_below s j k Hn Hk) as [Hnk Hdk]. pose proof (typed_kid s t1 j k T1 Hk) as K1. pose proof (typed_kid s t2 j k T2 Hk) as K2.
    destruct k; [by eapply scalar_compare_total|eapply IH; [lia|done|done|exact K1|exact K2|by apply adb_r_obj_holds..]..|done]. }
  assert (Hj : forall j, ADBI_FIRST <= j < ADBI_FIRST + Z.of_nat (Z.to_nat (Z.max (o_num o1) (o_num o2) - 1)) -> is_Some (adb_ro_kind s j)).
  { intros j Hj. destruct H1 as [N1 _], H2 as [N2 _]. rewrite N1, N2 in Hj. unfold ADBI_FIRST in *.
    destruct (Z_le_gt_dec j (zlen (kids t1))); [apply (kind_exists s t1); [done|done|unfold ADBI_FIRST; lia|lia]|]. apply (kind_exists s t2); [done|done|unfold ADBI_FIRST; lia|].
    pose proof (zlen_nonneg (kids t1)). pose proof (zlen_nonneg (kids t2)). lia. }
  destruct s; try done; cbn [cmpobj_fuel]; (eapply cmp_loop_total; [exact H1|done|]); intros j Hr; (apply Hc; [lia|by apply Hj]).
Qed.

(** values that have the type of an object schema are compared in every mode without a failing
    assertion, a missing field or a use of a NULL pointer. *)
Theorem typed_objects_compare s d1 v1 t1 d2 v2 t2 mode : no_adb s = true -> is_object s ->
  denotes d1 v1 t1 -> denotes d2 v2 t2 -> has_type s t1 -> has_type s t2 ->
  is_Some (adb_ro_cmpobj s d1 (adb_r_obj d1 v1) d2 (adb_r_obj d2 v2) mode).
Proof. intros Hn Hs H1 H2 T1 T2. eapply cmpobj_fuel_typed; [done|done|done|exact T1|exact T2|by apply adb_r_obj_holds..]. Qed.

(** ** Sizes *)

(** The text hsize_tostring prints for a number. *)
Definition human_text (n : Z) : bytes := uint_text (apk_get_human_size n).2 10 ++ bs " " ++ bs (apk_get_human_size n).1.

Lemma hsize_tostring_text d v bufsz : hsize_tostring d v bufsz = apk_blob_fmt bufsz (human_text (adb_r_int d v)).
Proof. unfold hsize_tostring, human_text. by destruct (apk_get_human_size _). Qed.

(** Up to 9999 GiB the size is divided by the unit it is printed with. *)
Lemma human_size_small n : 0 <= n < 10000 * 2 ^ 30 ->
  exists k, 0 <= k <= 3 /\ apk_get_human_size n = (nth (Z.to_nat k) size_units ""%string, n / 1024 ^ k) /\ n / 1024 ^ k < 10000.
Proof.
  intros Hn. unfold apk_get_human_size. change (length size_units) with 5%nat. cbn [human_size_loop].
  destruct (Z.leb_spec 10000 n); [|exists 0; change (1024 ^ 0) with 1; rewrite Z.div_1_r; split_and!; [lia|lia|done|lia]].
  destruct (Z.leb_spec 10000 (n / 1024)); [|exists 1; change (1024 ^ 1) with 1024; split_and!; [lia|lia|done|lia]].
  rewrite !(Z.div_div n) by lia. change (1024 * 1024) with (1024 ^ 2).
  destruct (Z.leb_spec 10000 (n / 1024 ^ 2)); [|exists 2; split_and!; [lia|lia|done|lia]].
  change (1024 ^ 2 * 1024) with (1024 ^ 3).
  assert (n / 1024 ^ 3 < 10000) by (apply Z.div_lt_upper_bound; [lia|]; change (1024 ^ 3) with (2 ^ 30); lia).
  destruct (Z.leb_spec 10000 (n / 1024 ^ 3)); [lia|]. exists 3. split_and!; [lia|lia|done|lia].
Qed.

(** From 10000 GiB on the unit is TiB; from 10000 TiB on the number is divided once more than
    the unit says. *)
Lemma human_size_large n : 10000 * 2 ^ 30 <= n ->
  apk_get_human_size n = ("TiB"%string, if 10000 <=? n / 2 ^ 40 then n / 2 ^ 50 else n / 2 ^ 40).
Proof.
  intros Hn. unfold apk_get_human_size. change (length size_units) with 5%nat. cbn [human_size_loop].
  assert (H : forall k, 0 <= k <= 3 -> 10000 <= n / 1024 ^ k).
  { intros k Hk. apply Z.div_le_lower_bound; [apply Z.pow_pos_nonneg; lia|].
    assert (1024 ^ k <= 1024 ^ 3) by (apply Z.pow_le_mono_r; lia). change (1024 ^ 3) with (2 ^ 30) in *. lia. }
  pose proof (H 0 ltac:(lia)) as H0. pose proof (H 1 ltac:(lia)) as H1. pose proof (H 2 ltac:(lia)) as H2. pose proof (H 3 ltac:(lia)) as H3.
  change (1024 ^ 0) with 1 in H0. rewrite Z.div_1_r in H0. change (1024 ^ 1) with 1024 in H1.
  destruct (Z.leb_spec 10000 n); [|lia]. destruct (Z.leb_spec 10000 (n / 1024)); [|lia]. rewrite !(Z.div_div n) by lia.
  change (1024 * 1024) with (1024 ^ 2). destruct (Z.leb_spec 10000 (n / 1024 ^ 2)); [|lia].
  change (1024 ^ 2 * 1024) with (1024 ^ 3). destruct (Z.leb_spec 10000 (n / 1024 ^ 3)); [|lia].
  change (1024 ^ 3 * 1024) with (2 ^ 40). change (2 ^ 40 * 1024) with (2 ^ 50).
  destruct (Z.leb_spec 10000 (n / 2 ^ 40)); done.
Qed.

Lemma uint_text_no_space n : Forall (fun c => c <> chr " ") (uint_text n 10).
Proof.
  unfold uint_text. case_match; [by repeat constructor|]. assert (Hp : forall fuel v acc, Forall (fun c => c <> chr " ") acc ->
    Forall (fun c => c <> chr " ") (push_uint_digits fuel v 10 acc)).
  { induction fuel as [|fuel IH]; intros v acc Ha; cbn [push_uint_digits]; [done|]. case_match; [done|]. apply IH. constructor; [|done].
    pose proof (Z.mod_pos_bound v 10 ltac:(lia)) as Hm. revert Hm. generalize (v mod 10) as k. intros k Hk.
    assert (He : all_below 10 (fun k => negb (xd_at k =? chr " ")) = true) by (vm_compute; reflexivity).
    pose proof (all_below_spec 10 _ k He Hk) as Hx. cbv beta in Hx. by destruct (Z.eqb_spec (xd_at k) (chr " ")). }
  apply Hp. constructor.
Qed.

Lemma split_first a c b : Forall (fun x => x <> c) a -> apk_blob_split (Some (a ++ c :: b)) [c] = Some (a, b).
Proof. apply (split_one c). Qed.

Lemma hsize_fromstring_split db s u : 0 <= s < 2 ^ 64 ->
  hsize_fromstring db (Some (uint_text s 10 ++ bs " " ++ bs u)) =
  (sz ← apk_get_human_size_unit (Some (bs u)); adb_w_int db (u64 (s * sz))).
Proof.
  intros Hs. unfold hsize_fromstring. change (bs " ") with [chr " "]. cbn [app]. rewrite split_first by apply uint_text_no_space.
  pose proof (uint_text_pull 10 s [] ltac:(lia) ltac:(lia) I) as Hp. rewrite app_nil_r in Hp. by rewrite Hp.
Qed.

(** sizes survive their printed form up to rounding: below 10000 GiB the text of a size is
    read back as a multiple of its unit that is not greater than the size and less than a unit
    away from it.  From 10000 GiB on the text cannot be read at all, since the unit of TiB
    overflows the int it is computed in, and from 10000 TiB on the number printed counts PiB. *)
Theorem hsize_text_bounds n db : 0 <= n < 2 ^ 64 ->
  if n <? 10000 * 2 ^ 30
  then exists k m, 0 <= k <= 3 /\ m <= n < m + 1024 ^ k /\ m mod 1024 ^ k = 0 /\ hsize_fromstring db (Some (human_text n)) = adb_w_int db m
  else hsize_fromstring db (Some (human_text n)) = None /\ (10000 * 2 ^ 40 <= n -> human_text n = uint_text (n / 2 ^ 50) 10 ++ bs " TiB").
Proof.
  intros Hn. unfold human_text. destruct (Z.ltb_spec n (10000 * 2 ^ 30)) as [Hlt|Hge].
  - destruct (human_size_small n ltac:(lia)) as (k & Hk & -> & Hs). cbn [fst snd]. assert (Hp : 0 < 1024 ^ k) by (apply Z.pow_pos_nonneg; lia).
    assert (0 <= n / 1024 ^ k) by (apply Z.div_pos; lia). exists k, (n / 1024 ^ k * 1024 ^ k).
    split_and!; [lia|lia|div_mod_lia|div_mod_lia|apply Z.mod_mul; lia|].
    rewrite hsize_fromstring_split by lia. assert (Eu : apk_get_human_size_unit (Some (bs (nth (Z.to_nat k) size_units ""%string))) = Some (1024 ^ k)).
    { assert (k = 0 \/ k = 1 \/ k = 2 \/ k = 3) as [-> |[-> |[-> | ->]]] by lia; by vm_compute. }
    rewrite Eu. cbn [mbind option_bind]. f_equal. apply wrap_small. div_mod_lia.
  - rewrite (human_size_large n Hge). cbn [fst snd]. assert (n / 2 ^ 40 < 2 ^ 24) by (apply Z.div_lt_upper_bound; lia).
    assert (n / 2 ^ 50 < 2 ^ 14) by (apply Z.div_lt_upper_bound; lia). assert (0 <= n / 2 ^ 40 /\ 0 <= n / 2 ^ 50) by (split; apply Z.div_pos; lia).
    split.
    + rewrite hsize_fromstring_split by (destruct (Z.leb_spec 10000 (n / 2 ^ 40)); lia). reflexivity.
    + intros Hg. assert (10000 <= n / 2 ^ 40) by (apply Z.div_le_lower_bound; lia). destruct (Z.leb_spec 10000 (n / 2 ^ 40)); [done|lia].
Qed.

(** ** Extended attributes *)

Lemma rsplit_last a c b : Forall (fun x => x <> c) b -> apk_blob_rsplit (a ++ c :: b) c = Some (a, b).
Proof.
  intros Hb. unfold apk_blob_rsplit. assert (E : memrchr (a ++ c :: b) c = Some (length a)).
  { assert (En : memrchr b c = None) by (induction Hb as [|x b Hx _ IH]; [done|]; cbn; rewrite IH; by destruct (Z.eqb_spec x c)).
    induction a as [|x a IH]; cbn [app memrchr length]; [by rewrite En, Z.eqb_refl|]. by rewrite IH. }
  rewrite E, take_app_length. f_equal. f_equal. by rewrite (drop_app_ge a) by lia; replace (S (length a) - length a)%nat with 1%nat by lia.
Qed.

Lemma hexdump_no c l : bytes_ok l -> (forall k, 0 <= k < 16 -> xd_at k <> c) -> Forall (fun x => x <> c) (hexdump l).
Proof.
  intros Hl Hc. induction Hl as [|b l Hb _ IH]; [constructor|]. change (hexdump (b :: l)) with (hex_byte b ++ hexdump l).
  apply Forall_app. split; [|done]. unfold hex_byte. rewrite hex_high, hex_low by done. unfold byte_ok in Hb.
  repeat constructor; apply Hc; div_mod_lia.
Qed.

(** an extended attribute given as text cannot be printed: its name is stored with the '='
    behind it where the printing code looks for a NUL byte, so for a name and a value without
    NUL bytes xattr_tostring gives a NULL blob. *)
Theorem xattr_text_lost name value db bufsz :
  Forall (fun c => c <> 0) name -> Forall (fun c => c <> 0) value -> bytes_ok name -> bytes_ok value -> zlen value <= 256 ->
  wadb_ok db -> zlen (wa_data db) + 16 + zlen name + zlen value <= ADB_MAX ->
  exists v db', xattr_fromstring db (Some (name ++ bs "=" ++ hexdump value)) = Some (v, db') /\ ADB_IS_ERROR v = false /\
    (adb_r_blob (wa_data db') v).1 = Some (name ++ bs "=" ++ value) /\ xattr_tostring (wa_data db') v bufsz = (None, 0).
Proof.
  intros Hn Hv Bn Bv Hl Hok Hm. pose proof (zlen_nonneg value). pose proof (zlen_nonneg name).
  assert (Hx : Forall (fun x => x <> chr "=") (hexdump value)).
  { apply hexdump_no; [done|]. intros k Hk. assert (He : all_below 16 (fun k => negb (xd_at k =? chr "=")) = true) by (vm_compute; reflexivity).
    pose proof (all_below_spec 16 _ k He Hk) as Hx. cbv beta in Hx. by destruct (Z.eqb_spec (xd_at k) (chr "=")). }
  unfold xattr_fromstring. cbn [blob_data]. change (bs "=" ++ hexdump value) with (chr "=" :: hexdump value). rewrite (rsplit_last _ _ _ Hx).
  rewrite zlen_hexdump, Z.div_mul by lia. change 1 with (Z.ones 1). rewrite Z.land_ones, Z.mod_mul by lia. cbn [Z.eqb negb].
  destruct (Z.ltb_spec 256 (zlen value)); [lia|]. pose proof (pull_hexdump_dump value [] (hex_buf (zlen value)) Bv) as Hp. rewrite app_nil_r in Hp.
  rewrite Hp by (unfold hex_buf, zlen; rewrite length_replicate; lia). cbn [mbind option_bind].
  assert (Ej : mjoin [name ++ bs "="; value] = name ++ bs "=" ++ value) by (cbn; by rewrite app_nil_r, <- app_assoc).
  destruct (adb_w_blob_vec_ok db [name ++ bs "="; value] Hok) as (v & db' & E & _ & Hd); rewrite ?Ej, ?zlen_app in *; change (zlen (bs "=")) with 1 in *;
    [cbn; lia|repeat constructor; [apply Forall_app; split; [done|by constructor]|done]|lia|].
  exists v, db'. rewrite blob_tree_pos in Hd by (rewrite !zlen_app; change (zlen (bs "=")) with 1; lia).
  split_and!; [done|by eapply denotes_no_error|by rewrite (adb_r_blob_denotes _ _ _ Hd)|].
  unfold xattr_tostring. rewrite (adb_r_blob_denotes _ _ _ Hd). destruct (apk_blob_split _ [0]) as [[k y]|] eqn:Es; [exfalso|done].
  apply apk_blob_split_some in Es as [Es _]. assert (Hz : Forall (fun c => c <> 0) (name ++ bs "=" ++ value)).
  { apply Forall_app. split; [done|]. apply Forall_app. split; [by constructor|done]. }
  rewrite Es in Hz. apply Forall_app in Hz as [_ Hz]. by apply Forall_cons_1 in Hz as [Hz _].
Qed.

(** ** Witnesses *)

Definition toy_wadb : wadb := Eval vm_compute in default (adb_w_init_static 0) (adb_w_init_dynamic 0 8).

Lemma toy_wadb_ok : wadb_ok toy_wadb.
Proof.
  destruct (adb_w_init_dynamic_ok 0 8) as (db & E & Hok & _); [lia|]. assert (E' : adb_w_init_dynamic 0 8 = Some toy_wadb) by (vm_compute; reflexivity).
  rewrite E' in E. by injection E as ->.
Qed.

Ltac solve_bytes := apply (bool_decide_eq_true_1 _); vm_compute; reflexivity.

Lemma adb_w_fromstring_exact_witness :
  stored_as 284 toy_wadb (inr (dep_val (bs "busybox") (APK_VERSION_CONFLICT .| APK_VERSION_LESS) (bs "1")))
    (adb_w_fromstring (Q := isort) (NA := fun _ => None) schema_dependency toy_wadb (Some (bs "!busybox<1"))) /\
  stored_as 284 toy_wadb (inl APKE_PKGNAME_FORMAT)
    (adb_w_fromstring (Q := isort) (NA := fun _ => None) (Scalar scalar_name) toy_wadb (Some (bs "-busybox/1"))).
Proof.
  split.
  - apply (adb_w_fromstring_exact schema_dependency toy_wadb (bs "!busybox<1")); [exact (tv_dependency (bs "!busybox<1"))|exact toy_wadb_ok|solve_bytes|vm_compute; discriminate].
  - apply (adb_w_fromstring_exact (Scalar scalar_name) toy_wadb (bs "-busybox/1")); [exact (tv_name (bs "-busybox/1"))|exact toy_wadb_ok|solve_bytes|vm_compute; discriminate].
Defined.

Lemma scalar_text_roundtrip_witness :
  exists v db', scalar_fromstring scalar_oct toy_wadb (Some (bs "100644")) = Some (v, db') /\ ADB_IS_ERROR v = false /\
    scalar_tostring scalar_oct (wa_data db') v 64 = (Some (bs "100644"), 6).
Proof.
  apply (scalar_text_roundtrip scalar_oct toy_wadb (bs "100644") 64);
    [exists 33188; split; [vm_compute; reflexivity|lia]|exact toy_wadb_ok|solve_bytes|vm_compute; discriminate|vm_compute; reflexivity].
Defined.

Definition toy_adep (name : string) (op : Z) (ver : string) : apk_dependency := Dep (bs name) (bs ver) op false 0 0.

Ltac solve_storable := constructor; [constructor; [split; [discriminate|split; [|discriminate]]|cbn; lia| |vm_compute; reflexivity|left; reflexivity|reflexivity]
  |vm_compute; reflexivity| |split| ]; try solve_bytes.

Lemma toy_adep_storable : dep_storable (toy_adep "busybox" 5 "1.36.1-r2") /\ dep_storable (toy_adep "musl" 17 "1.2").
Proof.
  split; solve_storable; right; (split_and!; [discriminate|discriminate|vm_compute; discriminate|discriminate|solve_bytes|vm_compute; reflexivity]).
Qed.

Lemma dependency_text_roundtrip_witness :
  exists v db', adb_w_fromstring (Q := isort) (NA := fun _ => None) schema_dependency toy_wadb (Some (bs "busybox>=1.36.1-r2")) = Some (v, db') /\
    denotes (wa_data db') v (dep_value (toy_adep "busybox" 5 "1.36.1-r2")) /\
    dependency_tostring (wa_data db') (adb_r_obj (wa_data db') v) 64 = Some (Some (bs "busybox>=1.36.1-r2"), 18).
Proof.
  apply (dependency_text_roundtrip (toy_adep "busybox" 5 "1.36.1-r2") toy_wadb 64);
    [exact (proj1 toy_adep_storable)|exact toy_wadb_ok|solve_bytes|vm_compute; discriminate|vm_compute; reflexivity].
Defined.

Definition toy_list : list apk_dependency := [toy_adep "musl" 17 "1.2"; toy_adep "busybox" 5 "1.36.1-r2"; toy_adep "musl" 17 "1.2"].

Lemma dependency_list_stored_witness :
  exists v db' ts, adb_w_fromstring (Q := isort) (NA := fun _ => None) schema_dependency_array toy_wadb
      (Some (bs "!musl=1.2 busybox>=1.36.1-r2 !musl=1.2")) = Some (v, db') /\
    denotes (wa_data db') v (tree_of ADB_TYPE_OBJECT ts) /\ (forall t, t ∈ ts <-> t ∈ dep_value <$> toy_list) /\
    ordered (fun a b => tree_cmp schema_dependency a b <= 0) ts.
Proof.
  destruct toy_adep_storable as [H1 H2].
  apply (dependency_list_stored (Q := isort) toy_list toy_wadb); [by repeat constructor|repeat constructor; solve_bytes| |exact toy_wadb_ok|vm_compute; discriminate].
  assert (E : forallb (fun a => forallb (fun b => comparable schema_dependency (dep_value a) (dep_value b)) toy_list) toy_list = true) by (vm_compute; reflexivity).
  intros a b Ha Hb. apply list_elem_of_In in Ha, Hb. rewrite forallb_forall in E. specialize (E a Ha). rewrite forallb_forall in E. exact (E b Hb).
Defined.

Lemma typed_objects_compare_witness : exists d a b,
  is_Some (adb_ro_cmpobj schema_dependency d (adb_r_obj d a) d (adb_r_obj d b) ADB_OBJCMP_TEMPLATE).
Proof.
  assert (H : exists d cs, Forall2 (denotes d) cs [dep_val (bs "musl") 7 []; dep_val (bs "musl") 5 (bs "1")]) by solve_trees.
  destruct H as (d & cs & H). apply list.Forall2_cons_inv_r in H as (a & cs1 & Ha & H & ->). apply list.Forall2_cons_inv_r in H as (b & cs2 & Hb & _ & ->).
  exists d, a, b. eapply (typed_objects_compare schema_dependency); [reflexivity|exact I|exact Ha|exact Hb|apply dep_val_type; lia|apply dep_val_type; lia].
Defined.

Lemma hsize_text_bounds_witness :
  exists k m, 0 <= k <= 3 /\ m <= 123456789 < m + 1024 ^ k /\ m mod 1024 ^ k = 0 /\ hsize_fromstring toy_wadb (Some (human_text 123456789)) = adb_w_int toy_wadb m.
Proof. apply (hsize_text_bounds 123456789 toy_wadb). lia. Defined.

Lemma xattr_text_lost_witness :
  exists v db', xattr_fromstring toy_wadb (Some (bs "user.k=c3a9")) = Some (v, db') /\ ADB_IS_ERROR v = false /\
    (adb_r_blob (wa_data db') v).1 = Some (bs "user.k=" ++ [0xc3; 0xa9]) /\ xattr_tostring (wa_data db') v 64 = (None, 0).
Proof.
  apply (xattr_text_lost (bs "user.k") [0xc3; 0xa9] toy_wadb 64); [solve_bytes|solve_bytes|solve_bytes|solve_bytes|vm_compute; discriminate|exact toy_wadb_ok|vm_compute; discriminate].
Defined.
