(* ===== verification/Stream.v ===== *)
(** Buffered input streams and output streams (io.c, apk_io.h).

    A stream keeps a buffer of [buf_size] bytes with the bytes that were read from its source
    and not handed out yet between [ptr] and [end].  The memory of the buffer is part of the
    state, because the code hands out pointers into it and because a segment of a stream
    shares the buffer with its parent.  The source ([ops->read]) is a class, with instances for
    file descriptors, memory, segments and streams that are verified or copied. *)
From Stdlib Require Import ZArith Lia.
From stdpp Require Import base numbers list option.
From S2P Require Import Prelude Clib Blob Codec Dep AdbTrust.

Definition ENOSPC : Z := 28.
Definition ECONNABORTED : Z := 103.
Definition APKE_EOF : Z := APKE_FIRST_VALUE + 1.
Definition APKE_FILE_INTEGRITY : Z := APKE_FIRST_VALUE + 56.
Definition SSIZE_MAX : Z := 2 ^ 63 - 1.
Definition APK_IO_ALL : Z := 2 ^ 64 - 1.

(** ** Streams *)

(** [ops->read] of a source, given [is.err] of its stream and a size: the number of bytes read, 0
    at the end, a negative error; the bytes that were stored at the destination; the source
    and what is in [is.err] afterwards, which most sources leave alone. *)
Class IstreamOps (S : Type) := ops_read : S -> Z -> Z -> Z * bytes * S * Z.

(** struct apk_istream: [is_buf] is the memory of buf_size bytes, [is_ptr] is ptr - buf
    ([None] for NULL) and [is_len] is end - ptr. *)
Record apk_istream (S : Type) := Istream {
  is_src : S;
  is_buf : bytes;
  is_ptr : option Z;
  is_len : Z;
  is_err : Z
}.
Arguments Istream {S} _ _ _ _ _.
Arguments is_src {S} _.
Arguments is_buf {S} _.
Arguments is_ptr {S} _.
Arguments is_len {S} _.
Arguments is_err {S} _.

Section setters.
Context {S : Type}.
Implicit Types st : apk_istream S.

Definition is_buf_size st : Z := zlen (is_buf st).
Definition set_src (s : S) st : apk_istream S := Istream s (is_buf st) (is_ptr st) (is_len st) (is_err st).
Definition set_err (e : Z) st : apk_istream S := Istream (is_src st) (is_buf st) (is_ptr st) (is_len st) e.
Definition set_window (buf : bytes) (p : option Z) (len : Z) st : apk_istream S :=
  Istream (is_src st) buf p len (is_err st).
(** ptr += n *)
Definition advance (n : Z) st : apk_istream S :=
  set_window (is_buf st) ((fun p => p + n) <$> is_ptr st) (is_len st - n) st.

(** The bytes between ptr and end. *)
Definition window st : bytes :=
  match is_ptr st with None => [] | Some p => ztake (is_len st) (zdrop p (is_buf st)) end.

Definition apk_istream_error st (err : Z) : Z * apk_istream S :=
  let st := if (0 <=? is_err st) && negb (err =? 0) then set_err err st else st in
  (if is_err st <? 0 then is_err st else 0, st).
End setters.

(** [mem] with the bytes [d] stored at offset [off]. *)
Definition mem_write (mem : bytes) (off : Z) (d : bytes) : bytes :=
  ztake off mem ++ d ++ zdrop (off + zlen d) mem.

Section ops.
Context {S : Type} `{IstreamOps S}.
Implicit Types st : apk_istream S.

(** [is->ops->read(is, ..., size)] *)
Definition src_read st (size : Z) : Z * bytes * apk_istream S :=
  let '(r, d, src, err) := ops_read (is_src st) (is_err st) size in (r, d, set_err err (set_src src st)).

(** The loop of apk_istream_read_max; [out] are the bytes stored at the destination. *)
Fixpoint read_max_loop (fuel : nat) st (out : bytes) (lft r : Z) : option (Z * Z * bytes * apk_istream S) :=
  match fuel with
  | O => None
  | Datatypes.S fuel =>
      if lft =? 0 then Some (lft, r, out, st)
      else if negb (is_len st =? 0) then
        let r := Z.min lft (is_len st) in
        read_max_loop fuel (advance r st) (out ++ ztake r (window st)) (lft - r) r
      else if negb (is_err st =? 0) then Some (lft, r, out, st)
      else if is_buf_size st / 4 <? lft then
        let '(r, d, st) := src_read st lft in
        if r <=? 0 then Some (lft, r, out, st)
        else read_max_loop fuel st (out ++ d) (lft - r) r
      else
        let '(r, d, st) := src_read st (is_buf_size st) in
        if r <=? 0 then Some (lft, r, out, st)
        else read_max_loop fuel (set_window (mem_write (is_buf st) 0 d) (Some 0) r st) out lft r
  end.

Definition apk_istream_read_max st (size : Z) : option (Z * bytes * apk_istream S) :=
  if is_err st <? 0 then Some (is_err st, [], st)
  else
    '(lft, r, out, st) ← read_max_loop (Z.to_nat (2 * size + 2)) st [] size 0;
    if r <? 0 then let '(e, st) := apk_istream_error st r in Some (e, out, st)
    else if lft =? size then
      let '(e, st) := apk_istream_error st (if negb (size =? 0) && (is_err st =? 0) then 1 else 0) in
      Some (e, out, st)
    else Some (size - lft, out, st).

Definition apk_istream_read st (size : Z) : option (Z * bytes * apk_istream S) :=
  '(r, out, st) ← apk_istream_read_max st size;
  if r =? size then Some (0, out, st)
  else let '(e, st) := apk_istream_error st (- APKE_EOF) in Some (e, out, st).

Definition __apk_istream_fill st : Z * apk_istream S :=
  if negb (is_err st =? 0) then (is_err st, st)
  else
    let at_buf := match is_ptr st with Some p => p =? 0 | None => false end in
    if at_buf && (is_len st =? is_buf_size st) then (- ENOBUFS, st)
    else
      (* memmove of the window to the start of the buffer *)
      let st := if at_buf then st
                else set_window (mem_write (is_buf st) 0 (window st)) (Some 0) (is_len st) st in
      let '(sz, d, st) := src_read st (is_buf_size st - is_len st) in
      if sz <=? 0 then apk_istream_error st (if sz =? 0 then 1 else sz)
      else (0, set_window (mem_write (is_buf st) (is_len st) d) (is_ptr st) (is_len st + sz) st).

(** Filling either fills the buffer or ends, so [buf_size] + 1 turns are enough.  The result
    is an error or 0; the data is then at ptr. *)
Fixpoint peek_loop (fuel : nat) st (len : Z) : option (Z * apk_istream S) :=
  match fuel with
  | O => None
  | Datatypes.S fuel =>
      if len <=? is_len st then Some (0, st)
      else let '(r, st) := __apk_istream_fill st in
           if r =? 0 then peek_loop fuel st len
           else Some (if 0 <? r then - APKE_EOF else r, st)
  end.

Definition apk_istream_peek st (len : Z) : option (Z * bytes * apk_istream S) :=
  if is_err st <? 0 then Some (is_err st, [], st)
  else
    '(r, st) ← peek_loop (Z.to_nat (is_buf_size st + 2)) st len;
    if r =? 0 then Some (0, ztake len (window st), st) else Some (r, [], st).

Definition apk_istream_get st (len : Z) : option (Z * bytes * apk_istream S) :=
  '(r, d, st) ← apk_istream_peek st len;
  if r =? 0 then Some (0, d, advance len st)
  else Some (r, [], (apk_istream_error st r).2).

Definition apk_istream_get_max st (max : Z) : Z * blob * apk_istream S :=
  let st := if is_len st =? 0 then (__apk_istream_fill st).2 else st in
  if negb (is_len st =? 0) then
    let n := Z.min (is_len st) max in
    (0, Some (ztake n (window st)), advance n st)
  else (if is_err st <? 0 then is_err st else - APKE_EOF, APK_BLOB_NULL, st).

Fixpoint get_delim_loop (fuel : nat) st (token : bytes) : option (Z * blob * apk_istream S) :=
  match fuel with
  | O => None
  | Datatypes.S fuel =>
      match apk_blob_split (Some (window st)) token with
      | Some (data, lft) => Some (0, Some data, advance (is_len st - zlen lft) st)
      | None =>
          let '(r, st) := __apk_istream_fill st in
          if r =? 0 then get_delim_loop fuel st token
          else if r <? 0 then
            let '(e, st) := apk_istream_error st r in Some (e, APK_BLOB_NULL, st)
          else Some (0, Some (window st), set_window (is_buf st) (Some 0) 0 st)
      end
  end.

Definition apk_istream_get_delim st (token : bytes) : option (Z * blob * apk_istream S) :=
  if negb (is_err st =? 0) && (is_len st =? 0) then
    Some (if is_err st <? 0 then is_err st else - APKE_EOF, APK_BLOB_NULL, st)
  else get_delim_loop (Z.to_nat (is_buf_size st + 2)) st token.

(** The loop of apk_istream_skip: the number of bytes that were skipped, or an error. *)
Fixpoint skip_loop (fuel : nat) st (size done : Z) : option (Z * apk_istream S) :=
  match fuel with
  | O => None
  | Datatypes.S fuel =>
      if done <? size then
        let '(r, d, st) := apk_istream_get_max st (Z.min (size - done) SSIZE_MAX) in
        if r <? 0 then Some (r, st) else skip_loop fuel st size (done + blob_len d)
      else Some (s32 done, st)
  end.

Definition apk_istream_skip st (size : Z) : option (Z * apk_istream S) :=
  skip_loop (Z.to_nat (size + 1)) st size 0.

(** apk_blob_from_istream; the allocation succeeds. *)
Definition apk_blob_from_istream st (size : Z) : option (Z * blob * apk_istream S) :=
  '(r, d, st) ← apk_istream_read st size;
  if r <? 0 then Some (r, APK_BLOB_NULL, st) else Some (r, Some d, st).
End ops.

(** ** Sources *)

(** A file descriptor: the bytes still to come, the sizes of the pieces in which the kernel
    delivers them (a piece has at least one byte; without a piece as much as was asked for), and
    what read returns after the last byte, 0 or a negative error number. *)
Record fd_file := FdFile { fd_data : bytes; fd_pieces : list Z; fd_fin : Z }.

#[export] Instance fdi_read : IstreamOps fd_file := fun f err size =>
  if zlen (fd_data f) =? 0 then (fd_fin f, [], f, err)
  else
    let piece := match fd_pieces f with [] => size | n :: _ => Z.max 1 n end in
    let n := Z.min size (Z.min piece (zlen (fd_data f))) in
    (n, ztake n (fd_data f), FdFile (zdrop n (fd_data f)) (tail (fd_pieces f)) (fd_fin f), err).

Definition apk_istream_from_fd (bufsize : Z) (f : fd_file) : apk_istream fd_file :=
  Istream f (replicate (Z.to_nat bufsize) 0) None 0 0.

(** A stream of bytes in memory: everything is in the buffer. *)
#[export] Instance blob_read : IstreamOps unit := fun _ err _ => (0, [], tt, err).

Definition apk_istream_from_blob (b : bytes) : apk_istream unit := Istream tt b (Some 0) (zlen b) 1.

(** *** Segments *)

Record segment (S : Type) := Segment { sg_pis : apk_istream S; sg_bytes_left : Z; sg_mtime : Z }.
Arguments Segment {S} _ _ _.
Arguments sg_pis {S} _.
Arguments sg_bytes_left {S} _.
Arguments sg_mtime {S} _.

Section derived.
Context {S : Type} `{IstreamOps S}.

#[export] Instance segment_read : IstreamOps (segment S) := fun sg err size =>
  let size := if sg_bytes_left sg <? size then sg_bytes_left sg else size in
  if size =? 0 then (0, [], sg, err)
  else
    let '(r, d, pis) := src_read (sg_pis sg) size in
    if r <=? 0 then (if r =? 0 then - ECONNABORTED else r, [], Segment pis (sg_bytes_left sg) (sg_mtime sg), err)
    else (r, d, Segment pis (sg_bytes_left sg - r) (sg_mtime sg), err).

(** The segment uses the buffer of its parent. *)
Definition apk_istream_segment (st : apk_istream S) (len mtime : Z) : apk_istream (segment S) :=
  if len <? is_len st then
    Istream (Segment (advance len st) 0 mtime) (is_buf st) (is_ptr st) len 0
  else
    Istream (Segment (set_window (is_buf st) None 0 st) (len - is_len st) mtime) (is_buf st) (is_ptr st) (is_len st) 0.

(** Closing a segment gives the buffer back to the parent, with what the segment did to it,
    and skips what was not read. *)
Definition segment_close (st : apk_istream (segment S)) : option (Z * apk_istream S) :=
  let sg := is_src st in
  let pis := set_window (is_buf st) (is_ptr (sg_pis sg)) (is_len (sg_pis sg)) (sg_pis sg) in
  pis ← (if negb (sg_bytes_left sg =? 0) then snd <$> apk_istream_skip pis (sg_bytes_left sg) else Some pis);
  Some (if is_err st <? 0 then is_err st else 0, pis).

(** *** Verified streams *)

(** struct apk_digest_istream: what was fed to the digest so far, and the expected digest until
    it was compared. *)
Record digest_istream := Dis { dis_pis : apk_istream S; dis_alg : Z; dis_digest : option apk_digest; dis_data : bytes; dis_size_left : Z }.

#[export] Instance digest_read : IstreamOps digest_istream := fun dis err size =>
  let '(r, d, pis) := src_read (dis_pis dis) size in
  if 0 <? r then (r, d, Dis pis (dis_alg dis) (dis_digest dis) (dis_data dis ++ d) (u64 (dis_size_left dis - r)), err)
  else (r, d, Dis pis (dis_alg dis) (dis_digest dis) (dis_data dis) (dis_size_left dis), err).

Definition apk_istream_verify (st : apk_istream S) (size : Z) (d : apk_digest) : apk_istream digest_istream :=
  Istream (Dis st (d_alg d) (Some d) (window st) (u64 (size - is_len st))) (is_buf st) (is_ptr st) (is_len st) 0.

(** apk_digest_ctx_final of a context for [alg] that was fed [data]. *)
Definition digest_final {pkey} `{!Crypto pkey} (alg : Z) (data : bytes) : apk_digest :=
  match EVP_Digest alg data with
  | None => apk_digest_reset digest_zero
  | Some md => Digest alg (apk_digest_alg_len alg) (overwrite (d_data digest_zero) md)
  end.

Definition digest_close {pkey} `{!Crypto pkey} (st : apk_istream digest_istream) : Z * apk_istream digest_istream :=
  let dis := is_src st in
  let st := match dis_digest dis with
            | Some d =>
                if dis_size_left dis =? 0 then
                  let st := if negb (apk_digest_cmp (digest_final (dis_alg dis) (dis_data dis)) d =? 0)
                            then (apk_istream_error st (- APKE_FILE_INTEGRITY)).2 else st in
                  set_src (Dis (dis_pis dis) (dis_alg dis) None (dis_data dis) (dis_size_left dis)) st
                else st
            | None => st
            end in
  (if is_err st <? 0 then is_err st else 0, st).
End derived.
Arguments digest_istream S : clear implicits.

(** ** Output streams *)

(** [ops->write] of an output stream: 0 or a negative error; and its [rc]. *)
Class OstreamOps (O : Type) := {
  ops_write : O -> bytes -> Z * O;
  os_rc_of : O -> Z;
  set_os_rc : Z -> O -> O
}.

Section ostream.
Context {O : Type} `{OstreamOps O}.

Definition os_cancel (os : O) (rc : Z) : Z * O := (rc, if os_rc_of os =? 0 then set_os_rc rc os else os).

(** vsnprintf stores at most 2047 characters and a NUL, and returns the length of the whole text. *)
Definition apk_ostream_fmt (os : O) (text : bytes) : Z * O :=
  let buf := ztake 2047 text ++ [0] in
  if 2048 <? zlen text then os_cancel os (- ENOBUFS) else ops_write os (ztake (zlen text) buf).

Definition apk_ostream_write_string (os : O) (s : bytes) : Z * O :=
  let '(r, os) := ops_write os s in (if r <? 0 then r else zlen s, os).

(** *** Copies *)

Record tee_istream (S : Type) := Tee { tee_inner : apk_istream S; tee_to : O }.
Arguments Tee {S} _ _.
Arguments tee_inner {S} _.
Arguments tee_to {S} _.

#[export] Instance tee_read {S} `{IstreamOps S} : IstreamOps (tee_istream S) := fun tee err size =>
  let '(r, d, inner) := src_read (tee_inner tee) size in
  if r <=? 0 then (r, d, Tee inner (tee_to tee), err)
  else let '(w, os) := ops_write (tee_to tee) d in
       (if w <? 0 then w else r, d, Tee inner os, err).

(** apk_istream_tee of two open streams: what is buffered is written first.  The result is an
    error or the new stream. *)
Definition apk_istream_tee {S} `{IstreamOps S} (from : apk_istream S) (to : O) : (Z * O) + apk_istream (tee_istream S) :=
  let tee os := Istream (Tee from os) (is_buf from) (is_ptr from) (is_len from) 0 in
  if negb (is_len from =? 0) then
    let '(r, os) := ops_write to (window from) in
    if r <? 0 then inl (os_cancel os r) else inr (tee os)
  else inr (tee to).

(** apk_stream_copy; a copy of a known size ends after [size] turns, a copy of everything with
    the stream.  The last argument is what the digest was fed with. *)
Fixpoint copy_loop {S} `{IstreamOps S} (fuel : nat) (st : apk_istream S) (os : O) (size done : Z) (dctx : bytes)
  : option (Z * apk_istream S * O * bytes) :=
  match fuel with
  | 0%nat => None
  | Datatypes.S fuel =>
      if done <? size then
        let '(r, d, st) := apk_istream_get_max st (Z.min (size - done) SSIZE_MAX) in
        if r <? 0 then
          if (r =? - APKE_EOF) && (size =? APK_IO_ALL) then Some (s64 done, st, os, dctx)
          else Some (r, st, (os_cancel os r).2, dctx)
        else
          let '(r, os) := ops_write os (blob_data d) in
          if r <? 0 then Some (r, st, os, dctx ++ blob_data d)
          else copy_loop fuel st os size (done + blob_len d) (dctx ++ blob_data d)
      else Some (s64 done, st, os, dctx)
  end.

Definition apk_stream_copy {S} `{IstreamOps S} (fuel : nat) (st : apk_istream S) (os : O) (size : Z) :=
  copy_loop fuel st os size 0 [].
End ostream.

(** *** Files *)

(** A file that is written: its contents so far, and how the next calls of write behave: a
    negative error number, or the most that is stored. *)
Record wfile := WFile { wf_data : bytes; wf_script : list Z }.

Definition sys_write (f : wfile) (d : bytes) : Z * wfile :=
  match wf_script f with
  | [] => (zlen d, WFile (wf_data f ++ d) [])
  | n :: script =>
      if n <? 0 then (n, WFile (wf_data f) script)
      else let n := Z.min n (zlen d) in (n, WFile (wf_data f ++ ztake n d) script)
  end.

(** Every turn stores a byte or ends, so the length is enough fuel. *)
Fixpoint write_fully_loop (fuel : nat) (f : wfile) (d : bytes) (i : Z) : option (Z * wfile) :=
  match fuel with
  | O => None
  | Datatypes.S fuel =>
      if i <? zlen d then
        let '(r, f) := sys_write f (zdrop i d) in
        if r <=? 0 then Some (if r =? 0 then i else r, f)
        else write_fully_loop fuel f d (i + r)
      else Some (i, f)
  end.

Definition apk_write_fully (f : wfile) (d : bytes) : option (Z * wfile) :=
  write_fully_loop (Datatypes.S (length d)) f d 0.

Record apk_fd_ostream := Fos { fos_rc : Z; fos_fd : wfile; fos_buffer : bytes }.
Definition FOS_BUFFER : Z := 1024.

Definition fos_cancel (fos : apk_fd_ostream) (rc : Z) : Z * apk_fd_ostream :=
  (rc, if fos_rc fos =? 0 then Fos rc (fos_fd fos) (fos_buffer fos) else fos).

Definition fdo_flush (fos : apk_fd_ostream) : option (Z * apk_fd_ostream) :=
  if fos_rc fos <? 0 then Some (fos_rc fos, fos)
  else if zlen (fos_buffer fos) =? 0 then Some (0, fos)
  else
    '(r, f) ← apk_write_fully (fos_fd fos) (fos_buffer fos);
    let fos := Fos (fos_rc fos) f (fos_buffer fos) in
    if negb (r =? zlen (fos_buffer fos)) then Some (fos_cancel fos (if r <? 0 then r else - ENOSPC))
    else Some (0, Fos (fos_rc fos) f []).

Definition fdo_write (fos : apk_fd_ostream) (d : bytes) : option (Z * apk_fd_ostream) :=
  let store fos := Some (0, Fos (fos_rc fos) (fos_fd fos) (fos_buffer fos ++ d)) in
  if FOS_BUFFER <=? zlen d + zlen (fos_buffer fos) then
    '(r, fos) ← fdo_flush fos;
    if negb (r =? 0) then Some (r, fos)
    else if FOS_BUFFER / 2 <=? zlen d then
      '(r, f) ← apk_write_fully (fos_fd fos) d;
      let fos := Fos (fos_rc fos) f (fos_buffer fos) in
      if r =? zlen d then Some (0, fos) else Some (fos_cancel fos (if r <? 0 then r else - ENOSPC))
    else store fos
  else store fos.

(** The instance of an output stream; [fdo_write] always returns ([fdo_write_spec]). *)
#[export] Instance fd_ostream_ops : OstreamOps apk_fd_ostream := {|
  ops_write fos d := default (0, fos) (fdo_write fos d);
  os_rc_of := fos_rc;
  set_os_rc rc fos := Fos rc (fos_fd fos) (fos_buffer fos)
|}.

(** What became of the file. *)
Inductive out_file := Renamed (contents : bytes) | Unlinked | Kept (contents : bytes).

(** fdo_close; [named] for a stream of apk_ostream_to_file, which writes a temporary file;
    [close_r] and [rename_r] are the results of close and renameat, 0 or a negative error number. *)
Definition fdo_close (fos : apk_fd_ostream) (named : bool) (close_r rename_r : Z) : option (Z * out_file) :=
  '(_, fos) ← fdo_flush fos;
  let fos := if close_r <? 0 then (fos_cancel fos close_r).2 else fos in
  let rc := fos_rc fos in
  let kept := Kept (wf_data (fos_fd fos)) in
  if named then
    if rc =? 0 then if rename_r <? 0 then Some (rename_r, kept) else Some (rc, Renamed (wf_data (fos_fd fos)))
    else Some (rc, Unlinked)
  else Some (rc, kept).
