(* ===== verification/StreamThm.v ===== *)
(** Streams deliver the bytes of their source (Stream.v).

    [IstreamOk] states what a source promises to a buffered stream: it has a content, which
    every read shortens by what it returns, however large the pieces are.  Against this
    interface the operations on streams are shown to implement an abstract stream, the bytes
    that are left ([astream]), whatever the pieces are.  The sources of the program are instances;
    in particular a segment of a stream is again a source, and closing it leaves the parent at
    the end of the segment, although both use one buffer. *)
From Stdlib Require Import ZArith Lia.
From stdpp Require Import base numbers list option.
From S2P Require Import Prelude Clib Blob Codec Dep AdbTrust Index Stream.

(** ** Parts of a memory *)

Definition slice (mem : bytes) (p k : Z) : bytes := ztake k (zdrop p mem).

Lemma zlen_slice mem p k : 0 <= p -> 0 <= k -> p + k <= zlen mem -> zlen (slice mem p k) = k.
Proof. intros. unfold slice. rewrite zlen_ztake_min, zlen_zdrop_max by lia. lia. Qed.

Lemma zlen_mem_write mem off d : 0 <= off -> off + zlen d <= zlen mem -> zlen (mem_write mem off d) = zlen mem.
Proof.
  intros. unfold mem_write. pose proof (zlen_nonneg d). autorewrite with apk.
  rewrite zlen_ztake_min, zlen_zdrop_max by lia. lia.
Qed.

Lemma slice_write mem off d : 0 <= off -> off + zlen d <= zlen mem -> slice (mem_write mem off d) off (zlen d) = d.
Proof.
  intros. pose proof (zlen_nonneg d). unfold slice, mem_write.
  assert (Ht : zlen (ztake off mem) = off) by (rewrite zlen_ztake_min; lia).
  rewrite zdrop_app_ge, Ht, Z.sub_diag, zdrop_0 by lia. apply ztake_app.
Qed.

Lemma slice_write_before mem off d p k :
  0 <= p -> 0 <= k -> p + k <= off -> off + zlen d <= zlen mem -> slice (mem_write mem off d) p k = slice mem p k.
Proof.
  intros. pose proof (zlen_nonneg d). unfold slice, mem_write.
  assert (Ht : zlen (ztake off mem) = off) by (rewrite zlen_ztake_min; lia).
  rewrite zdrop_app_le, ztake_app_le; [|rewrite zlen_zdrop_max; lia|lia].
  rewrite zdrop_ztake, ztake_ztake by lia. done.
Qed.

Lemma slice_write_after mem off d p k :
  0 <= off -> off + zlen d <= p -> 0 <= k -> p + k <= zlen mem -> slice (mem_write mem off d) p k = slice mem p k.
Proof.
  intros. pose proof (zlen_nonneg d). unfold slice, mem_write.
  assert (Ht : zlen (ztake off mem) = off) by (rewrite zlen_ztake_min; lia).
  rewrite zdrop_app_ge, Ht, zdrop_app_ge, zdrop_zdrop by lia. do 2 f_equal. lia.
Qed.

Lemma slice_add mem p k j : 0 <= p -> 0 <= k -> 0 <= j -> slice mem p (k + j) = slice mem p k ++ slice mem (p + k) j.
Proof.
  intros. unfold slice. rewrite (Z.add_comm p k), <- zdrop_zdrop by lia.
  rewrite <- (ztake_zdrop k (zdrop p mem)) at 1.
  destruct (Z.le_gt_cases k (zlen (zdrop p mem))).
  - assert (Ht : zlen (ztake k (zdrop p mem)) = k) by (rewrite zlen_ztake_min; lia).
    rewrite ztake_app_ge, Ht by lia. do 2 f_equal. lia.
  - rewrite (zdrop_all k), !app_nil_r by lia. rewrite (ztake_all (k + j)) by (rewrite zlen_ztake_min; lia).
    by rewrite (ztake_all j) , app_nil_r by (rewrite zlen_nil; lia).
Qed.

Lemma slice_drop mem p k n : 0 <= p -> 0 <= n <= k -> slice mem (p + n) (k - n) = zdrop n (slice mem p k).
Proof. intros. unfold slice. rewrite zdrop_ztake, zdrop_zdrop by lia. do 2 f_equal. lia. Qed.

Lemma slice_take mem p k n : n <= k -> slice mem p n = ztake n (slice mem p k).
Proof. intros. unfold slice. by rewrite ztake_ztake. Qed.

(** ** Splitting a text of which only a prefix is known *)

Lemma split_unique l sep x y x' y' :
  apk_blob_split (Some l) sep = Some (x, y) -> l = x' ++ sep ++ y' ->
  (forall a b, l = a ++ sep ++ b -> zlen x' <= zlen a) -> x = x' /\ y = y'.
Proof.
  intros Hs Hl Hmin. apply apk_blob_split_some in Hs as [H1 H2].
  assert (zlen x = zlen x') by (pose proof (Hmin _ _ H1); pose proof (H2 _ _ Hl); lia).
  rewrite H1 in Hl. apply app_inj_1 in Hl as [-> Hl]; [|unfold zlen in *; lia].
  by apply app_inv_head in Hl.
Qed.

Lemma occurrence_in_prefix (w t x sep y : bytes) :
  w ++ t = x ++ sep ++ y -> zlen x + zlen sep <= zlen w -> exists y', w = x ++ sep ++ y' /\ y = y' ++ t.
Proof.
  intros Heq Hle. rewrite app_assoc in Heq. apply app_eq_inv in Heq as [(k & -> & ->)|(k & Hk & ->)].
  - exists k. by rewrite app_assoc.
  - assert (k = []) as ->.
    { apply zlen_0_nil. pose proof (zlen_nonneg k).
      assert (zlen (x ++ sep) = zlen (w ++ k)) by (by rewrite Hk). autorewrite with apk in *. lia. }
    exists []. rewrite !app_nil_r in *. by subst.
Qed.

Lemma split_app_some w t sep x y :
  apk_blob_split (Some w) sep = Some (x, y) -> apk_blob_split (Some (w ++ t)) sep = Some (x, y ++ t).
Proof.
  intros Hs. apply apk_blob_split_some in Hs as [Hw Hmin].
  assert (Hl : w ++ t = x ++ sep ++ y ++ t) by (rewrite Hw; by rewrite <- !app_assoc).
  destruct (apk_blob_split (Some (w ++ t)) sep) as [[x' y']|] eqn:E.
  - destruct (split_unique _ _ _ _ x (y ++ t) E Hl) as [-> ->]; [|done].
    intros a b Hab. destruct (Z.le_gt_cases (zlen x) (zlen a)); [done|].
    destruct (occurrence_in_prefix w t a sep b Hab) as (y0 & Hy0 & _); [|by apply (Hmin a y0)].
    rewrite Hw. autorewrite with apk. pose proof (zlen_nonneg y). lia.
  - by destruct (apk_blob_split_none _ _ x (y ++ t) E).
Qed.

Lemma split_prefix w t sep x y :
  apk_blob_split (Some (w ++ t)) sep = Some (x, y) -> zlen x + zlen sep <= zlen w ->
  exists y', apk_blob_split (Some w) sep = Some (x, y').
Proof.
  intros Hs Hle. pose proof (apk_blob_split_some _ _ _ _ Hs) as [Hw _].
  destruct (occurrence_in_prefix _ _ _ _ _ Hw Hle) as (y' & Hy & _).
  destruct (apk_blob_split (Some w) sep) as [[x2 y2]|] eqn:E.
  - apply (split_app_some _ t) in E. rewrite Hs in E. injection E as <- _. eauto.
  - by destruct (apk_blob_split_none _ _ x y' E).
Qed.

Lemma split_len l sep x y : apk_blob_split (Some l) sep = Some (x, y) -> zlen l = zlen x + zlen sep + zlen y.
Proof. intros Hs. apply apk_blob_split_some in Hs as [-> _]. autorewrite with apk. lia. Qed.

(** ** Abstract streams *)

(** What a client of a stream sees: the bytes that are left, how the stream ends, whether the
    end was noticed, and how much can be looked at in one piece. *)
Record astream := AS { a_rest : bytes; a_fin : Z; a_eof : bool; a_cap : Z }.

Inductive stream_op :=
  | OReadMax (n : Z) | ORead (n : Z) | OPeek (n : Z) | OGet (n : Z) | OGetDelim (token : bytes) | OSkip (n : Z).

Definition a_drop (n : Z) (a : astream) : astream := AS (zdrop n (a_rest a)) (a_fin a) (a_eof a) (a_cap a).
Definition a_end (eof : bool) (a : astream) : astream := AS [] (a_fin a) eof (a_cap a).
Definition a_short (a : astream) : Z := if a_fin a <? 0 then a_fin a else - APKE_EOF.
Definition a_nopeek (a : astream) : Z :=
  if negb (a_eof a) && (a_cap a <=? zlen (a_rest a)) then - ENOBUFS else a_short a.

(** The text before the next separator or the end. *)
Definition a_delim (a : astream) (token : bytes) : Z * blob * astream :=
  match apk_blob_split (Some (a_rest a)) token with
  | Some (data, rest) =>
      if zlen data + zlen token <=? a_cap a then (0, Some data, AS rest (a_fin a) (a_eof a) (a_cap a))
      else (- ENOBUFS, None, a)
  | None =>
      if negb (a_eof a) && (a_cap a <=? zlen (a_rest a)) then (- ENOBUFS, None, a)
      else if a_fin a <? 0 then (a_fin a, None, a)
      else (0, Some (a_rest a), a_end true a)
  end.

(** The result of an operation, with the data it returns, and what is left. *)
Definition astep (a : astream) (o : stream_op) : Z * blob * astream :=
  let l := a_rest a in
  match o with
  | OReadMax n =>
      if n <=? zlen l then (n, Some (ztake n l), a_drop n a)
      else if a_fin a <? 0 then (a_fin a, None, a)
      else (zlen l, Some l, a_end (a_eof a || (zlen l =? 0)) a)
  | ORead n => if n <=? zlen l then (0, Some (ztake n l), a_drop n a) else (a_short a, None, a)
  | OPeek n => if (n <=? zlen l) && (n <=? a_cap a) then (0, Some (ztake n l), a) else (a_nopeek a, None, a)
  | OGet n => if (n <=? zlen l) && (n <=? a_cap a) then (0, Some (ztake n l), a_drop n a) else (a_nopeek a, None, a)
  | OGetDelim token => if a_eof a && (zlen l =? 0) then (- APKE_EOF, None, a) else a_delim a token
  | OSkip n => if n <=? zlen l then (s32 n, None, a_drop n a) else (a_short a, None, a)
  end.

(** ** What a source promises *)

Class IstreamOk (S : Type) `{IstreamOps S} := {
  src_ok : S -> Prop;
  (** the bytes still to come, and what a read returns after them: 0 or an error; reads leave
      [is.err] alone *)
  content : S -> bytes * Z;
  content_fin s : src_ok s -> (content s).2 <= 0;
  read_some s err size : src_ok s -> 0 < size -> (content s).1 <> [] ->
    exists d s', ops_read s err size = (zlen d, d, s', err) /\ d <> [] /\ zlen d <= size /\ src_ok s' /\
      content s = (d ++ (content s').1, (content s').2);
  read_end s err size : src_ok s -> 0 < size -> (content s).1 = [] ->
    exists s', ops_read s err size = ((content s).2, [], s', err) /\ src_ok s' /\ content s' = content s
}.

Section stream.
Context {S : Type} `{HS : IstreamOk S}.
Implicit Types st : apk_istream S.

(** The laws, for a stream over the source. *)
Lemma src_read_some st size :
  src_ok (is_src st) -> 0 < size -> (content (is_src st)).1 <> [] ->
  exists d s', src_read st size = (zlen d, d, set_src s' st) /\ d <> [] /\ zlen d <= size /\ src_ok s' /\
    content (is_src st) = (d ++ (content s').1, (content s').2).
Proof.
  intros Hs Hz Hc. destruct (read_some _ (is_err st) size Hs Hz Hc) as (d & s' & Hrd & Hd).
  exists d, s'. split; [|done]. unfold src_read. by rewrite Hrd.
Qed.

Lemma src_read_end st size :
  src_ok (is_src st) -> 0 < size -> (content (is_src st)).1 = [] ->
  exists s', src_read st size = ((content (is_src st)).2, [], set_src s' st) /\ src_ok s' /\ content s' = content (is_src st).
Proof.
  intros Hs Hz Hc. destruct (read_end _ (is_err st) size Hs Hz Hc) as (s' & Hrd & Hd).
  exists s'. split; [|done]. unfold src_read. by rewrite Hrd.
Qed.

(** ** Well-formed streams and what is left of them *)

Record is_ok st : Prop := {
  ok_src : src_ok (is_src st);
  ok_err : 0 <= is_err st;
  ok_buf : is_err st = 0 -> 0 < is_buf_size st;
  ok_end : 0 < is_err st -> content (is_src st) = ([], 0);
  ok_len : 0 <= is_len st;
  ok_win : match is_ptr st with None => is_len st = 0 | Some p => 0 <= p /\ p + is_len st <= is_buf_size st end
}.

Definition rest st : bytes := window st ++ (content (is_src st)).1.
Definition fin st : Z := (content (is_src st)).2.

Lemma window_slice st p : is_ptr st = Some p -> window st = slice (is_buf st) p (is_len st).
Proof. intros Hp. unfold window. by rewrite Hp. Qed.

Lemma window_len st : is_ok st -> zlen (window st) = is_len st.
Proof.
  intros [_ _ _ _ Hl Hw]. unfold window. destruct (is_ptr st) as [p|]; [|by rewrite Hw].
  apply zlen_slice; unfold is_buf_size in *; lia.
Qed.

Lemma window_nil st : is_ok st -> is_len st = 0 -> window st = [].
Proof. intros Hst Hl. apply zlen_0_nil. by rewrite window_len. Qed.

Lemma window_cap st : is_ok st -> is_len st <= is_buf_size st.
Proof. intros [_ _ _ _ Hl Hw]. unfold is_buf_size in *. destruct (is_ptr st); [lia|]. rewrite Hw. auto with apk. Qed.

Lemma advance_ok st n :
  is_ok st -> 0 <= n <= is_len st ->
  is_ok (advance n st) /\ window (advance n st) = zdrop n (window st).
Proof.
  intros [Hs He Hb Hd Hl Hw] Hn. split.
  - constructor; cbn; try done; [lia|]. destruct (is_ptr st); cbn in *; [unfold is_buf_size in *; cbn; lia|lia].
  - unfold window. cbn. destruct (is_ptr st) as [p|]; cbn.
    + apply slice_drop; lia.
    + unfold zdrop. by rewrite skipn_nil.
Qed.

Lemma advance_rest st n :
  is_ok st -> 0 <= n <= is_len st -> rest (advance n st) = zdrop n (rest st) /\ ztake n (window st) = ztake n (rest st).
Proof.
  intros Hst Hn. pose proof (window_len st Hst) as Hl. destruct (advance_ok st n Hst Hn) as [_ Hw].
  unfold rest. rewrite Hw. cbn [is_src advance set_window]. split.
  - by rewrite zdrop_app_le by lia.
  - by rewrite ztake_app_le by lia.
Qed.

(** ** Filling the buffer *)

Definition compacted st : apk_istream S :=
  if match is_ptr st with Some p => p =? 0 | None => false end then st
  else set_window (mem_write (is_buf st) 0 (window st)) (Some 0) (is_len st) st.

Lemma compacted_ok st :
  is_ok st -> is_err st = 0 ->
  is_ok (compacted st) /\ window (compacted st) = window st /\ is_ptr (compacted st) = Some 0 /\
  is_len (compacted st) = is_len st /\ is_src (compacted st) = is_src st /\ is_err (compacted st) = is_err st /\
  is_buf_size (compacted st) = is_buf_size st.
Proof.
  intros Hst He. pose proof (window_len st Hst) as Hl. pose proof (window_cap st Hst) as Hc.
  destruct Hst as [Hs He0 Hb Hd Hl0 Hw]. unfold compacted.
  destruct (match is_ptr st with Some p => p =? 0 | None => false end) eqn:E.
  - destruct (is_ptr st) as [p|] eqn:Ep; [|done]. apply Z.eqb_eq in E as ->.
    split_and!; try done. constructor; try done. by rewrite Ep.
  - clear E. unfold is_buf_size in *.
    assert (Hz : zlen (mem_write (is_buf st) 0 (window st)) = zlen (is_buf st)).
    { apply zlen_mem_write; lia. }
    split_and!; try done.
    + constructor; cbn; try done; unfold is_buf_size; cbn; rewrite ?Hz; auto; lia.
    + rewrite (window_slice _ 0) by done. cbn. rewrite <- Hl at 1. rewrite Hl, <- Hl. apply slice_write; lia.
Qed.

Lemma fill_compacted st :
  is_err st = 0 ->
  __apk_istream_fill st =
    if match is_ptr st with Some p => p =? 0 | None => false end && (is_len st =? is_buf_size st) then (- ENOBUFS, st)
    else
      let '(sz, d, st) := src_read (compacted st) (is_buf_size (compacted st) - is_len (compacted st)) in
      if sz <=? 0 then apk_istream_error st (if sz =? 0 then 1 else sz)
      else (0, set_window (mem_write (is_buf st) (is_len st) d) (is_ptr st) (is_len st + sz) st).
Proof. intros He. unfold __apk_istream_fill, compacted. rewrite He. cbn. done. Qed.

(** The results of a fill: more bytes in the window, a full buffer, or the end, which is only
    noted; the next fill returns it. *)
Inductive fill_result st : Z -> apk_istream S -> Prop :=
  | fill_more st' d :
      is_ok st' -> d <> [] -> is_err st = 0 -> is_err st' = 0 -> is_buf_size st' = is_buf_size st ->
      window st' = window st ++ d -> rest st' = rest st -> fin st' = fin st -> fill_result st 0 st'
  | fill_full : is_err st = 0 -> is_len st = is_buf_size st -> fill_result st (- ENOBUFS) st
  | fill_known : is_err st <> 0 -> fill_result st (is_err st) st
  | fill_end st' :
      is_ok st' -> is_err st = 0 -> is_err st' = 1 -> is_buf_size st' = is_buf_size st ->
      window st' = window st -> rest st' = rest st -> content (is_src st) = ([], 0) ->
      is_len st < is_buf_size st -> fin st' = fin st -> fill_result st 0 st'
  | fill_error st' :
      (content (is_src st)).1 = [] -> fin st < 0 -> is_err st = 0 -> is_err st' = fin st ->
      is_len st' = is_len st -> is_len st < is_buf_size st -> fill_result st (fin st) st'.

Lemma fill_spec st : is_ok st -> fill_result st (__apk_istream_fill st).1 (__apk_istream_fill st).2.
Proof.
  intros Hst. destruct (Z.eq_dec (is_err st) 0) as [He|He].
  2:{ unfold __apk_istream_fill. destruct (Z.eqb_spec (is_err st) 0); [done|]. by constructor. }
  rewrite fill_compacted by done.
  destruct (compacted_ok st Hst He) as (Hc & Hw & Hp & Hl & Hs & He' & Hb).
  pose proof (window_cap st Hst) as Hcap.
  destruct (_ && _) eqn:Efull.
  { apply andb_true_iff in Efull as [_ E]. apply Z.eqb_eq in E. by constructor. }
  assert (Hlt : is_len st < is_buf_size st).
  { apply andb_false_iff in Efull as [E|E]; [|apply Z.eqb_neq in E; lia].
    destruct Hst as [_ _ Hb0 _ Hl0 Hwin]. specialize (Hb0 He).
    destruct (is_ptr st) as [p|]; [apply Z.eqb_neq in E; lia|lia]. }
  rewrite Hb, Hl. destruct Hc as [Hcs Hce Hcb Hcd Hcl Hcw]. rewrite Hp in Hcw.
  destruct (decide ((content (is_src st)).1 = [])) as [Hnil|Hnil].
  - destruct (src_read_end (compacted st) (is_buf_size st - is_len st) Hcs ltac:(lia)) as (s' & -> & Hs' & Hcont); [by rewrite Hs|].
    pose proof (content_fin _ Hcs) as Hfin. rewrite Hs in Hcs, Hfin, Hcont |- *. cbn [fst snd].
    destruct (Z.leb_spec (content (is_src st)).2 0); [|lia].
    unfold apk_istream_error. cbn [set_src is_err]. rewrite He', He. cbn [Z.leb andb].
    destruct (Z.eqb_spec (content (is_src st)).2 0) as [E0|E0]; cbn [negb Z.eqb andb set_err is_err fst snd].
    + cbn. apply fill_end; cbn; try done.
      * constructor; cbn; try done; rewrite ?Hp; unfold is_buf_size in *; cbn in *; rewrite ?Hl in *; auto; try lia.
        intros _. rewrite Hcont. by destruct (content (is_src st)); cbn in *; subst.
      * unfold rest. cbn. rewrite Hcont. f_equal. exact Hw.
      * by destruct (content (is_src st)); cbn in *; subst.
      * unfold fin. cbn. by rewrite Hcont.
    + destruct (Z.eqb_spec (content (is_src st)).2 0); [done|]. cbn [negb].
      change ((0 <=? 0) && true) with true. cbn [set_err is_err].
      destruct (Z.ltb_spec (content (is_src st)).2 0); [|lia]. apply (fill_error st); try done.
  - destruct (src_read_some (compacted st) (is_buf_size st - is_len st) Hcs ltac:(lia)) as (d & s' & -> & Hd & Hle & Hs' & Hcont);
      [by rewrite Hs|]. rewrite Hs in Hcs, Hcont.
    pose proof (zlen_pos d Hd). cbn [fst snd]. destruct (Z.leb_spec (zlen d) 0); [lia|].
    cbn [set_src is_buf is_len is_ptr]. rewrite Hl, Hp.
    set (st' := set_window _ _ _ _). cbn [fst snd].
    assert (Hz : zlen (mem_write (is_buf (compacted st)) (is_len st) d) = zlen (is_buf (compacted st))).
    { apply zlen_mem_write; unfold is_buf_size in *; lia. }
    assert (Hw' : window st' = window st ++ d).
    { rewrite (window_slice st' 0) by done. subst st'. cbn.
      rewrite slice_add by lia. rewrite Z.add_0_l, slice_write by (unfold is_buf_size in *; lia). f_equal.
      rewrite slice_write_before by (unfold is_buf_size in *; lia).
      rewrite <- Hw, (window_slice (compacted st) 0) by done. by rewrite Hl. }
    apply (fill_more st st' d); try done.
    + constructor; subst st'; cbn; try done; unfold is_buf_size in *; cbn; rewrite ?Hz, ?Hb; try lia.
    + subst st'. cbn. by rewrite He'.
    + subst st'. unfold is_buf_size in *. cbn. by rewrite Hz.
    + unfold rest. rewrite Hw'. subst st'. cbn. rewrite <- app_assoc. f_equal. by rewrite Hcont.
    + unfold fin. subst st'. cbn. by rewrite Hcont.
Qed.
(** ** Reading *)

(** A read of the source with an empty window: into the destination, into the buffer, or at
    the end. *)
Lemma direct_read st s' d :
  is_ok st -> is_err st = 0 -> is_len st = 0 -> src_ok s' -> content (is_src st) = (d ++ (content s').1, (content s').2) ->
  is_ok (set_src s' st) /\ rest st = d ++ rest (set_src s' st) /\ fin (set_src s' st) = fin st.
Proof.
  intros Hst He Hl Hs Hc. pose proof (window_nil st Hst Hl) as Hw. split_and!.
  - destruct Hst. constructor; cbn; try done. lia.
  - unfold rest. change (window (set_src s' st)) with (window st). rewrite Hw. cbn. by rewrite Hc.
  - unfold fin. cbn. by rewrite Hc.
Qed.

Lemma buffer_read st s' d :
  is_ok st -> is_err st = 0 -> is_len st = 0 -> src_ok s' -> zlen d <= is_buf_size st ->
  content (is_src st) = (d ++ (content s').1, (content s').2) ->
  let st' := set_window (mem_write (is_buf (set_src s' st)) 0 d) (Some 0) (zlen d) (set_src s' st) in
  is_ok st' /\ rest st' = rest st /\ fin st' = fin st /\ is_buf_size st' = is_buf_size st.
Proof.
  intros Hst He Hl Hs Hd Hc st'. pose proof (window_nil st Hst Hl) as Hw. pose proof (zlen_nonneg d).
  assert (Hz : zlen (mem_write (is_buf st) 0 d) = zlen (is_buf st)).
  { apply zlen_mem_write; unfold is_buf_size in *; lia. }
  assert (Hw1 : window st' = d).
  { rewrite (window_slice st' 0) by done. cbn. apply slice_write; unfold is_buf_size in *; lia. }
  split_and!.
  - destruct Hst. constructor; subst st'; cbn; unfold is_buf_size in *; cbn in *; rewrite ?Hz; try done; lia.
  - unfold rest. rewrite Hw1, Hw. cbn. by rewrite Hc.
  - unfold fin. cbn. by rewrite Hc.
  - exact Hz.
Qed.

Lemma end_read st s' :
  is_ok st -> is_len st = 0 -> src_ok s' -> content s' = content (is_src st) -> (content (is_src st)).1 = [] ->
  is_ok (set_src s' st) /\ rest (set_src s' st) = [] /\ rest st = [] /\ fin (set_src s' st) = fin st.
Proof.
  intros Hst Hl Hs Hc Hn. pose proof (window_nil st Hst Hl) as Hw. split_and!.
  - destruct Hst. constructor; cbn; try done. intros. by rewrite Hc, ok_end0.
  - unfold rest. change (window (set_src s' st)) with (window st). rewrite Hw. cbn. by rewrite Hc, Hn.
  - unfold rest. by rewrite Hw, Hn.
  - unfold fin. cbn. by rewrite Hc.
Qed.

(** [left] bytes are wanted: one turn takes what the window has, or reads. *)
Lemma read_max_loop_spec fuel st out lft r :
  is_ok st -> 0 <= lft -> 0 <= r -> 2 * lft + (if is_len st =? 0 then 1 else 0) < Z.of_nat fuel ->
  exists lft' r' st',
    read_max_loop fuel st out lft r = Some (lft', r', out ++ ztake lft (rest st), st') /\
    lft' = Z.max 0 (lft - zlen (rest st)) /\
    is_ok st' /\ rest st' = zdrop lft (rest st) /\ fin st' = fin st /\ is_err st' = is_err st /\
    is_buf_size st' = is_buf_size st /\
    (lft' = 0 -> 0 <= r') /\ (0 < lft' -> r' = fin st \/ (fin st = 0 /\ 0 <= r')).
Proof.
  revert st out lft r. induction fuel as [|fuel IH]; intros st out lft r Hst Hlft Hr Hfuel.
  { case_test; lia. }
  cbn [read_max_loop]. pose proof (zlen_nonneg (rest st)) as Hrl.
  destruct (Z.eqb_spec lft 0) as [->|Hlft0].
  { exists 0, r, st. rewrite (ztake_neg 0), app_nil_r, zdrop_0 by lia.
    split_and!; try done; lia. }
  pose proof (window_len st Hst) as Hwl. pose proof (ok_len st Hst) as Hl0.
  destruct (Z.eqb_spec (is_len st) 0) as [Hl|Hl]; cbn [negb].
  2:{ set (n := Z.min lft (is_len st)).
      destruct (advance_ok st n Hst ltac:(lia)) as [Hok' _].
      destruct (advance_rest st n Hst ltac:(lia)) as [Hrest Htake].
      destruct (IH (advance n st) (out ++ ztake n (window st)) (lft - n) n Hok' ltac:(lia) ltac:(lia)) as
        (lft' & r' & st' & -> & Hl' & Hst' & Hrest' & Hfin' & He' & Hb' & Hr1 & Hr2).
      { case_test; lia. }
      assert (Hlw : is_len st <= zlen (rest st)).
      { unfold rest. autorewrite with apk. pose proof (zlen_nonneg (content (is_src st)).1). lia. }
      exists lft', r', st'. rewrite Hrest in *.
      rewrite Htake, <- app_assoc. rewrite zlen_zdrop_max in Hl' by lia.
      split_and!; try done; try lia.
      - by rewrite <- ztake_split by lia.
      - rewrite Hrest', zdrop_zdrop by lia. f_equal. lia. }
  assert (Hcont : rest st = (content (is_src st)).1) by (unfold rest; by rewrite window_nil).
  pose proof (ok_src st Hst) as Hsrc.
  destruct (Z.eqb_spec (is_err st) 0) as [He|He]; cbn [negb].
  2:{ pose proof (ok_err st Hst). rewrite (ok_end st Hst) in Hcont by lia. cbn in Hcont.
      exists lft, r, st. rewrite Hcont. rewrite (ztake_all lft []), zdrop_all, app_nil_r by (rewrite ?zlen_nil; lia).
      change (zlen (@nil Z)) with 0. split_and!; try done; try lia.
      intros _. unfold fin. rewrite (ok_end st Hst) by lia. auto. }
  pose proof (ok_buf st Hst He) as Hb.
  set (direct := is_buf_size st / 4 <? lft).
  assert (Hsz : 0 < (if direct then lft else is_buf_size st)) by (destruct direct; lia).
  destruct (decide ((content (is_src st)).1 = [])) as [Hnil|Hnil].
  - destruct (src_read_end st _ Hsrc Hsz Hnil) as (s' & Hread & Hs' & Hc'). pose proof (content_fin _ Hsrc) as Hfin.
    destruct (end_read st s' Hst Hl Hs' Hc' Hnil) as (Hok' & Hr' & Hr0 & Hf').
    exists lft, (content (is_src st)).2, (set_src s' st).
    rewrite Hr0, (ztake_all lft []), (zdrop_all lft []), app_nil_r by (rewrite zlen_nil; lia).
    change (zlen (@nil Z)) with 0. split_and!; try done; try lia; [|by left].
    destruct direct; rewrite Hread; destruct (Z.leb_spec (content (is_src st)).2 0); done || lia.
  - destruct (src_read_some st _ Hsrc Hsz Hnil) as (d & s' & Hread & Hd & Hle & Hs' & Hc').
    pose proof (zlen_pos d Hd) as Hdp. destruct direct; rewrite Hread; (destruct (Z.leb_spec (zlen d) 0); [lia|]).
    + destruct (direct_read st s' d Hst He Hl Hs' Hc') as (Hok' & Hrs & Hfs).
      destruct (IH (set_src s' st) (out ++ d) (lft - zlen d) (zlen d) Hok' ltac:(lia) ltac:(lia)) as
        (lft' & r' & st' & -> & Hl' & Hst' & Hrest' & Hfin' & He' & Hb' & Hr1 & Hr2).
      { cbn. rewrite Hl. cbn. lia. }
      exists lft', r', st'. rewrite Hrs, Hfs in *. autorewrite with apk.
      split_and!; try done; try lia.
      * rewrite ztake_app_ge by lia. by rewrite <- app_assoc.
      * by rewrite Hrest', zdrop_app_ge by lia.
    + destruct (buffer_read st s' d Hst He Hl Hs' Hle Hc') as (Hok' & Hrs & Hfs & Hbs).
      edestruct (IH _ out lft (zlen d) Hok') as
        (lft' & r' & st' & -> & Hl' & Hst' & Hrest' & Hfin' & He' & Hb' & Hr1 & Hr2); [lia|lia| |].
      { cbn. destruct (Z.eqb_spec (zlen d) 0); lia. }
      exists lft', r', st'. rewrite Hrs, Hfs in *. split_and!; try done. by rewrite Hb'.
Qed.

(** ** The operations implement abstract streams *)

Record sim st (a : astream) : Prop := {
  sim_ok : is_ok st;
  sim_rest : rest st = a_rest a;
  sim_fin : fin st = a_fin a;
  sim_eof : (is_err st =? 0) = negb (a_eof a);
  sim_cap : is_buf_size st = a_cap a
}.

Lemma sim_fin_le st a : sim st a -> a_fin a <= 0.
Proof. intros [Hok _ <- _ _]. apply content_fin, ok_src, Hok. Qed.

Lemma sim_eof_fin st a : sim st a -> a_eof a = true -> a_fin a = 0 /\ rest st = window st.
Proof.
  intros [Hok _ Hf He _] Heof. rewrite Heof in He. apply Z.eqb_neq in He.
  pose proof (ok_err st Hok). pose proof (ok_end st Hok ltac:(lia)) as Hc.
  unfold fin in Hf. unfold rest. rewrite Hc in *. cbn in *. by rewrite app_nil_r.
Qed.

Lemma noticed_ok st : is_ok st -> rest st = [] -> fin st = 0 -> is_ok (set_err 1 st).
Proof.
  intros [] Hr Hf. unfold rest in Hr. apply app_eq_nil in Hr as [_ Hr]. unfold fin in Hf.
  constructor; cbn; try done. intros _. by destruct (content (is_src st)); cbn in *; subst.
Qed.

Lemma read_max_spec st a n :
  sim st a -> 0 <= n ->
  exists r out st', apk_istream_read_max st n = Some (r, out, st') /\
    r = (astep a (OReadMax n)).1.1 /\ (0 <= r -> Some out = (astep a (OReadMax n)).1.2 /\ sim st' (astep a (OReadMax n)).2) /\
    (r < 0 -> is_err st' = r).
Proof.
  intros Hsim Hn. pose proof Hsim as [Hok Hr Hf He Hc].
  pose proof (sim_fin_le st a Hsim) as Hfin. pose proof (ok_err st Hok) as Herr. pose proof (zlen_nonneg (a_rest a)) as Hlen.
  unfold apk_istream_read_max. destruct (Z.ltb_spec (is_err st) 0); [lia|].
  destruct (read_max_loop_spec (Z.to_nat (2 * n + 2)) st [] n 0 Hok Hn ltac:(lia)) as
    (lft & r & st' & -> & Hl & Hok' & Hr' & Hf' & He' & Hb' & Hr1 & Hr2).
  { case_test; lia. }
  cbn [mbind option_bind app]. rewrite Hr, Hf in *. cbn [astep].
  assert (Hsim' : sim st' (a_drop n a)) by (constructor; cbn; congruence).
  destruct (Z.leb_spec n (zlen (a_rest a))) as [Hle|Hgt].
  - (* enough bytes *)
    assert (lft = 0) as -> by lia. specialize (Hr1 eq_refl). destruct (Z.ltb_spec r 0); [lia|].
    destruct (Z.eqb_spec 0 n) as [<-|Hn0]; cbn [negb andb].
    + cbn [Z.eqb negb andb]. unfold apk_istream_error. rewrite andb_false_r, He'.
      destruct (Z.ltb_spec (is_err st) 0); [lia|]. eexists _, _, _. split; [done|]. split; [done|]. split; [done|lia].
    + rewrite Z.sub_0_r. eexists _, _, _. split; [done|]. split; [done|]. split; [done|lia].
  - (* the stream ends *)
    specialize (Hr2 ltac:(lia)). rewrite zdrop_all in Hr' by lia.
    rewrite ztake_all by lia. destruct (Z.ltb_spec (a_fin a) 0) as [Hneg|Hpos].
    + assert (r = a_fin a) as -> by lia. destruct (Z.ltb_spec (a_fin a) 0); [|lia].
      destruct (a_eof a) eqn:Eeof; [destruct (sim_eof_fin st a Hsim Eeof); lia|].
      unfold apk_istream_error. rewrite He'. apply Z.eqb_eq in He. rewrite He. cbn [Z.leb Z.compare andb].
      destruct (Z.eqb_spec (a_fin a) 0); [lia|]. cbn. destruct (Z.ltb_spec (a_fin a) 0); [|lia].
      eexists _, _, _. split; [done|]. split; [done|]. split; [lia|done].
    + destruct (Z.ltb_spec r 0); [lia|]. assert (Hf0 : a_fin a = 0) by lia.
      destruct (Z.eqb_spec lft n) as [->|Hne].
      * assert (Hz : zlen (a_rest a) = 0) by lia. rewrite Hz. cbn [Z.eqb orb].
        destruct (Z.eqb_spec n 0); [lia|]. cbn [negb andb]. unfold apk_istream_error. rewrite He', He.
        destruct (a_eof a) eqn:Eeof; cbn [negb]; rewrite ?andb_false_r.
        -- rewrite He'. destruct (Z.ltb_spec (is_err st) 0); [lia|]. eexists _, _, _. split; [done|]. split; [done|].
           split; [|lia]. intros _. split; [done|]. constructor; cbn; try congruence. rewrite He'. exact He.
        -- apply Z.eqb_eq in He. rewrite He. cbn. eexists _, _, _. split; [done|]. split; [done|]. split; [|lia].
           intros _. split; [done|]. constructor; cbn; try done; try (unfold fin in *; cbn; congruence).
           ++ apply noticed_ok; congruence.
           ++ unfold is_buf_size in *. cbn. congruence.
      * eexists _, _, _. split; [done|]. split; [cbn; lia|]. split; [|lia]. intros _. split; [done|].
        destruct (Z.eqb_spec (zlen (a_rest a)) 0); [lia|]. rewrite orb_false_r.
        constructor; cbn; congruence.
Qed.

(** How often a loop over fills can turn. *)
Definition fill_measure st : Z := is_buf_size st - is_len st + (if is_err st =? 0 then 1 else 0).

Lemma fill_measure_bound st : is_ok st -> 0 <= fill_measure st <= is_buf_size st + 1.
Proof.
  intros Hok. pose proof (window_cap st Hok). pose proof (ok_len st Hok). unfold fill_measure. case_test; lia.
Qed.

Definition noticed (b : bool) (a : astream) : astream := AS (a_rest a) (a_fin a) (a_eof a || b) (a_cap a).

Lemma noticed_false a : noticed false a = a.
Proof. unfold noticed. rewrite orb_false_r. by destruct a. Qed.

(** A fill of a stream [st] for [a]: it goes on with a larger window or having noticed the end,
    or it stops. *)
Lemma fill_sim st a :
  sim st a ->
  let '(r, st') := __apk_istream_fill st in
  (r = 0 /\ fill_measure st' < fill_measure st /\
     ((sim st' a /\ a_eof a = false /\ exists d, window st' = window st ++ d) \/
      (sim st' (noticed true a) /\ a_eof a = false /\ a_fin a = 0 /\ rest st = window st /\ window st' = window st /\
       zlen (a_rest a) < a_cap a))) \/
  (0 < r /\ st' = st /\ a_eof a = true /\ rest st = window st /\ a_fin a = 0) \/
  (r = - ENOBUFS /\ st' = st /\ a_eof a = false /\ zlen (window st) = a_cap a /\ a_cap a <= zlen (a_rest a)) \/
  (r < 0 /\ r = a_fin a /\ is_err st' = r /\ is_len st' = is_len st /\ a_eof a = false /\ rest st = window st /\ zlen (a_rest a) < a_cap a).
Proof.
  intros Hsim. pose proof Hsim as [Hok Hr Hf He Hc]. pose proof (fill_spec st Hok) as Hfill.
  pose proof (window_len st Hok) as Hwl.
  destruct (__apk_istream_fill st) as [r st']. cbn [fst snd] in Hfill.
  destruct Hfill as [st' d Hok' Hd He0 He' Hb Hw Hr' Hf' | He0 Hl | He0 | st' Hok' He0 He' Hb Hw Hr' Hcont Hlt Hf' | st' Hcont Hneg He0 He' Hl' Hlt].
  - left. split; [done|]. pose proof (window_len st' Hok') as Hwl'. rewrite Hw in Hwl'. autorewrite with apk in Hwl'.
    pose proof (zlen_pos d Hd). rewrite He0 in He. split.
    + unfold fill_measure. rewrite He0, He', Hb. lia.
    + left. split_and!; [constructor; congruence| |eauto]. destruct (a_eof a); done.
  - right. right. left. rewrite He0 in He. split_and!; try done.
    + destruct (a_eof a); done.
    + lia.
    + rewrite <- Hr. unfold rest. autorewrite with apk. pose proof (zlen_nonneg (content (is_src st)).1). lia.
  - right. left. pose proof (ok_err st Hok). apply Z.eqb_neq in He0 as He1. rewrite He1 in He.
    assert (Heof : a_eof a = true) by (by destruct (a_eof a)).
    destruct (sim_eof_fin st a Hsim Heof) as [Hf0 Hrw].
    split_and!; try done. lia.
  - left. split; [done|]. rewrite He0 in He. assert (Heof : a_eof a = false) by (by destruct (a_eof a)).
    assert (Hrw : rest st = window st) by (unfold rest; by rewrite Hcont, app_nil_r).
    pose proof (window_len st' Hok') as Hwl'. rewrite Hw in Hwl'. split.
    + unfold fill_measure. rewrite He0, He', Hb. cbn. lia.
    + right. split_and!; try done.
      * constructor; cbn; try congruence. by rewrite He', orb_true_r.
      * rewrite <- Hf. unfold fin. by rewrite Hcont.
      * rewrite <- Hr, <- Hc, Hrw. lia.
  - right. right. right. rewrite He0 in He. assert (Heof : a_eof a = false) by (by destruct (a_eof a)).
    assert (Hrw : rest st = window st) by (unfold rest; by rewrite Hcont, app_nil_r).
    split_and!; try done.
    rewrite <- Hr, <- Hc, Hrw. lia.
Qed.

(** apk_istream_peek gives up where the abstract stream does. *)
Lemma peek_loop_spec fuel st a len :
  sim st a -> 0 <= len -> fill_measure st < Z.of_nat fuel ->
  exists r st', peek_loop fuel st len = Some (r, st') /\
    if (len <=? zlen (a_rest a)) && (len <=? a_cap a) then
      r = 0 /\ sim st' a /\ len <= is_len st'
    else r = a_nopeek a /\ r < 0.
Proof.
  revert st a. induction fuel as [|fuel IH]; intros st a Hsim Hlen Hfuel.
  { pose proof (fill_measure_bound st (sim_ok _ _ Hsim)). lia. }
  pose proof Hsim as [Hok Hr Hf He Hc]. pose proof (window_len st Hok) as Hwl. pose proof (window_cap st Hok) as Hcap.
  pose proof (sim_fin_le st a Hsim) as Hfin.
  assert (Hle : is_len st <= zlen (a_rest a)).
  { rewrite <- Hr. unfold rest. autorewrite with apk. pose proof (zlen_nonneg (content (is_src st)).1). lia. }
  cbn [peek_loop]. destruct (Z.leb_spec len (is_len st)) as [Hl|Hl].
  { exists 0, st. split; [done|].
    destruct (Z.leb_spec len (zlen (a_rest a))); [|lia]. destruct (Z.leb_spec len (a_cap a)); [|lia]. done. }
  pose proof (fill_sim st a Hsim) as Hfill. destruct (__apk_istream_fill st) as [r st'].
  unfold a_nopeek, a_short.
  destruct Hfill as [(-> & Hm & [(Hsim' & Heof & _)|(Hsim' & Heof & Hf0 & Hrw & Hw & Hlt)])|
    [(Hr0 & -> & Heof & Hrw & Hf0)|[(-> & -> & Heof & Hwin & Hcl)|(Hr0 & -> & He' & Hl' & Heof & Hrw & Hlt)]]].
  - cbn [Z.eqb]. apply (IH st' a); try done. lia.
  - cbn [Z.eqb]. destruct (IH st' (noticed true a) Hsim' Hlen ltac:(lia)) as (r & st2 & Hp & Hres).
    exists r, st2. split; [done|]. cbn [a_rest a_cap a_fin a_eof noticed] in Hres.
    rewrite <- Hr, Hrw in *. destruct (Z.leb_spec len (zlen (window st))); [lia|]. cbn [andb] in *.
    unfold a_nopeek, a_short in Hres. cbn [a_rest a_cap a_fin a_eof noticed] in Hres.
    rewrite orb_true_r in Hres. cbn [negb andb] in Hres. rewrite Heof. cbn [negb andb].
    destruct (Z.leb_spec (a_cap a) (zlen (window st))); [lia|]. done.
  - destruct (Z.eqb_spec r 0); [lia|]. destruct (Z.ltb_spec 0 r); [|lia]. eexists _, _. split; [done|].
    rewrite <- Hr, Hrw in *. destruct (Z.leb_spec len (zlen (window st))); [lia|]. cbn [andb].
    rewrite Heof, Hf0. cbn. done.
  - cbn. eexists _, _. split; [done|]. destruct (Z.leb_spec len (a_cap a)); [lia|]. rewrite andb_false_r, Heof.
    destruct (Z.leb_spec (a_cap a) (zlen (a_rest a))); [|lia]. done.
  - destruct (Z.eqb_spec (a_fin a) 0); [lia|]. destruct (Z.ltb_spec 0 (a_fin a)); [lia|]. eexists _, _. split; [done|].
    rewrite <- Hr, Hrw in *. destruct (Z.leb_spec len (zlen (window st))); [lia|]. cbn [andb].
    rewrite Heof. cbn [negb andb]. destruct (Z.leb_spec (a_cap a) (zlen (window st))); [lia|].
    destruct (Z.ltb_spec (a_fin a) 0); [|lia]. done.
Qed.

Lemma peek_spec st a n :
  sim st a -> 0 <= n ->
  exists r d st', apk_istream_peek st n = Some (r, d, st') /\ r = (astep a (OPeek n)).1.1 /\
    (0 <= r -> r = 0 /\ n <= is_len st' /\ Some d = (astep a (OPeek n)).1.2 /\ sim st' a).
Proof.
  intros Hsim Hn. pose proof Hsim as [Hok Hr Hf He Hc]. pose proof (ok_err st Hok).
  unfold apk_istream_peek. destruct (Z.ltb_spec (is_err st) 0); [lia|].
  destruct (peek_loop_spec (Z.to_nat (is_buf_size st + 2)) st a n Hsim Hn) as (r & st' & -> & Hres).
  { pose proof (fill_measure_bound st Hok). unfold is_buf_size in *. pose proof (zlen_nonneg (is_buf st)). lia. }
  cbn [mbind option_bind astep]. destruct (_ && _).
  - destruct Hres as (-> & Hsim' & Hl). cbn. eexists _, _, _. split; [done|]. split; [done|]. intros _.
    split_and!; try done. f_equal. rewrite <- (sim_rest _ _ Hsim').
    by destruct (advance_rest st' n (sim_ok _ _ Hsim') ltac:(lia)) as [_ ->].
  - destruct Hres as [-> Hneg]. destruct (Z.eqb_spec (a_nopeek a) 0); [lia|]. eexists _, _, _. split; [done|].
    split; [done|]. lia.
Qed.

Lemma advance_sim st a n : sim st a -> 0 <= n <= is_len st -> sim (advance n st) (a_drop n a).
Proof.
  intros [Hok Hr Hf He Hc] Hn. destruct (advance_rest st n Hok Hn) as [Hr' _]. destruct (advance_ok st n Hok Hn) as [Hok' _].
  constructor; cbn; try done. by rewrite Hr', Hr.
Qed.

(** ** Delimiters, and skipping *)

Lemma reset_sim st a :
  sim st a -> a_eof a = true -> sim (set_window (is_buf st) (Some 0) 0 st) (a_end true a).
Proof.
  intros Hsim Heof. destruct (sim_eof_fin st a Hsim Heof) as [Hf0 Hrw]. destruct Hsim as [[] Hr Hf He Hc].
  rewrite Heof in He. pose proof (zlen_nonneg (is_buf st)). constructor; cbn; try done.
  apply Z.eqb_neq in He. unfold rest, window. cbn. by rewrite ok_end0 by lia.
Qed.

Lemma found_sim st a token x y :
  sim st a -> apk_blob_split (Some (window st)) token = Some (x, y) ->
  zlen x + zlen token <= a_cap a /\
  exists y', apk_blob_split (Some (a_rest a)) token = Some (x, y') /\
    sim (advance (is_len st - zlen y) st) (AS y' (a_fin a) (a_eof a) (a_cap a)).
Proof.
  intros Hsim Esp. pose proof Hsim as [Hok Hr Hf He Hc]. pose proof (window_len st Hok) as Hwl. pose proof (window_cap st Hok) as Hcap.
  pose proof (split_app_some _ (content (is_src st)).1 _ _ _ Esp) as Hsp. fold (rest st) in Hsp. rewrite Hr in Hsp.
  pose proof (split_len _ _ _ _ Esp) as Hlen. pose proof (zlen_nonneg y). pose proof (zlen_nonneg x). pose proof (zlen_nonneg token).
  split; [lia|]. eexists. split; [done|].
  destruct (advance_sim st a (is_len st - zlen y) Hsim ltac:(lia)) as [Ha1 Ha2 Ha3 Ha4 Ha5].
  constructor; try done. rewrite Ha2. cbn.
  apply apk_blob_split_some in Hsp as [Heq _]. rewrite Heq.
  rewrite app_assoc, zdrop_app_ge; [|autorewrite with apk; lia]. autorewrite with apk.
  apply zdrop_neg. lia.
Qed.

Lemma get_delim_loop_spec fuel st a token :
  sim st a -> fill_measure st < Z.of_nat fuel ->
  exists r d st', get_delim_loop fuel st token = Some (r, d, st') /\
    r = (a_delim a token).1.1 /\ (0 <= r -> d = (a_delim a token).1.2 /\ sim st' (a_delim a token).2) /\
    (r < 0 -> is_err st' = r).
Proof.
  revert st a. induction fuel as [|fuel IH]; intros st a Hsim Hfuel.
  { pose proof (fill_measure_bound st (sim_ok _ _ Hsim)). lia. }
  pose proof Hsim as [Hok Hr Hf He Hc]. pose proof (window_len st Hok) as Hwl. pose proof (sim_fin_le st a Hsim) as Hfin.
  cbn [get_delim_loop]. destruct (apk_blob_split (Some (window st)) token) as [[x y]|] eqn:Esp.
  { destruct (found_sim _ _ _ _ _ Hsim Esp) as (Hle & y' & Hy & Hsim').
    eexists _, _, _. split; [done|]. unfold a_delim. rewrite Hy.
    destruct (Z.leb_spec (zlen x + zlen token) (a_cap a)); [|lia]. cbn. split; [done|]. split; [done|lia]. }
  pose proof (fill_sim st a Hsim) as Hfill. destruct (__apk_istream_fill st) as [r st'].
  destruct Hfill as [(-> & Hm & [(Hsim' & Heof & d & Hw)|(Hsim' & Heof & Hf0 & Hrw & Hw & Hlt)])|
    [(Hr0 & -> & Heof & Hrw & Hf0)|[(-> & -> & Heof & Hwin & Hcl)|(Hr0 & -> & He' & Hl' & Heof & Hrw & Hlt)]]].
  - cbn [Z.eqb]. apply (IH st' a); try done. lia.
  - cbn [Z.eqb]. destruct (IH st' (noticed true a) Hsim' ltac:(lia)) as (r & d & st2 & -> & Hres).
    eexists _, _, _. split; [done|]. unfold a_delim in *. cbn [a_rest noticed a_eof a_fin a_cap] in Hres.
    rewrite <- Hr, Hrw, Esp in *. rewrite orb_true_r in Hres. cbn [negb andb] in Hres. rewrite Heof. cbn [negb andb].
    destruct (Z.leb_spec (a_cap a) (zlen (window st))); [lia|]. rewrite Hf0 in *. done.
  - destruct (Z.eqb_spec r 0); [lia|]. destruct (Z.ltb_spec r 0); [lia|]. eexists _, _, _. split; [done|].
    unfold a_delim. rewrite <- Hr, Hrw, Esp, Heof, Hf0. cbn. split; [done|]. split; [|lia]. intros _. split; [done|].
    by apply reset_sim.
  - cbn. unfold apk_istream_error. rewrite Heof in He. apply Z.eqb_eq in He. rewrite He. cbn.
    eexists _, _, _. split; [done|]. unfold a_delim. rewrite Heof. cbn [negb andb].
    destruct (Z.leb_spec (a_cap a) (zlen (a_rest a))); [|lia].
    destruct (apk_blob_split (Some (a_rest a)) token) as [[x y]|] eqn:E; [|done].
    destruct (Z.leb_spec (zlen x + zlen token) (a_cap a)); [|done].
    rewrite <- Hr in E. destruct (split_prefix (window st) (content (is_src st)).1 _ _ _ E) as [y' Hy']; [lia|congruence].
  - destruct (Z.eqb_spec (a_fin a) 0); [lia|]. destruct (Z.ltb_spec (a_fin a) 0); [|lia].
    unfold apk_istream_error. rewrite He'. destruct (Z.leb_spec 0 (a_fin a)); [lia|]. cbn [andb]. rewrite He'.
    destruct (Z.ltb_spec (a_fin a) 0); [|lia]. eexists _, _, _. split; [done|].
    unfold a_delim. rewrite <- Hr, Hrw, Esp, Heof in *. cbn [negb andb].
    destruct (Z.leb_spec (a_cap a) (zlen (window st))); [lia|]. destruct (Z.ltb_spec (a_fin a) 0); [|lia].
    split; [done|]. split; [lia|done].
Qed.

Lemma get_delim_spec st a token :
  sim st a ->
  exists r d st', apk_istream_get_delim st token = Some (r, d, st') /\
    r = (astep a (OGetDelim token)).1.1 /\
    (0 <= r -> d = (astep a (OGetDelim token)).1.2 /\ sim st' (astep a (OGetDelim token)).2).
Proof.
  intros Hsim. pose proof Hsim as [Hok Hr Hf He Hc]. pose proof (ok_err st Hok). pose proof (window_len st Hok) as Hwl.
  unfold apk_istream_get_delim. cbn [astep]. rewrite He, negb_involutive.
  destruct (a_eof a) eqn:Heof; cbn [andb].
  - destruct (sim_eof_fin st a Hsim Heof) as [_ Hrw]. rewrite <- Hr, Hrw, Hwl.
    destruct (Z.eqb_spec (is_len st) 0) as [E|E].
    + destruct (Z.ltb_spec (is_err st) 0); [lia|]. eexists _, _, _. split; [done|]. split; [done|].
      intros Hx. by cbv in Hx.
    + destruct (get_delim_loop_spec (Z.to_nat (is_buf_size st + 2)) st a token Hsim) as (r & d & st' & Hg & H1 & H2 & _); [|by eauto 10].
      pose proof (fill_measure_bound st Hok). unfold is_buf_size in *. pose proof (zlen_nonneg (is_buf st)). lia.
  - destruct (get_delim_loop_spec (Z.to_nat (is_buf_size st + 2)) st a token Hsim) as (r & d & st' & Hg & H1 & H2 & _); [|by eauto 10].
    pose proof (fill_measure_bound st Hok). unfold is_buf_size in *. pose proof (zlen_nonneg (is_buf st)). lia.
Qed.

(** apk_istream_get_max hands out the next piece: some of the bytes that are left, as long as
    there are any. *)
Definition next_piece (a : astream) (max : Z) (res : Z * blob * apk_istream S) : Prop :=
  if zlen (a_rest a) =? 0 then res.1.1 = a_short a /\ (a_fin a = 0 -> sim res.2 (a_end true a))
  else res.1.1 = 0 /\ exists n, 0 < n <= max /\ n <= zlen (a_rest a) /\
    res.1.2 = Some (ztake n (a_rest a)) /\ sim res.2 (a_drop n a).

Lemma window_piece st a max :
  sim st a -> 0 < max -> is_len st <> 0 ->
  let n := Z.min (is_len st) max in next_piece a max (0, Some (ztake n (window st)), advance n st).
Proof.
  intros Hsim Hmax Hl n. pose proof Hsim as [Hok Hr _ _ _]. pose proof (window_len st Hok) as Hwl.
  pose proof (ok_len st Hok).
  assert (Hle : is_len st <= zlen (a_rest a)).
  { rewrite <- Hr. unfold rest. autorewrite with apk. pose proof (zlen_nonneg (content (is_src st)).1). lia. }
  unfold next_piece. destruct (Z.eqb_spec (zlen (a_rest a)) 0); [lia|]. cbn [fst snd]. split; [done|].
  exists n. destruct (advance_rest st n Hok ltac:(lia)) as [_ ->].
  rewrite Hr. split_and!; try lia; [done|]. apply advance_sim; [done|lia].
Qed.

Lemma end_sim st a : sim st a -> a_rest a = [] -> sim st (a_end (a_eof a) a).
Proof. intros [] Hn. constructor; cbn; congruence. Qed.

Lemma get_max_spec st a max : sim st a -> 0 < max -> next_piece a max (apk_istream_get_max st max).
Proof.
  intros Hsim Hmax. unfold apk_istream_get_max. destruct (Z.eqb_spec (is_len st) 0) as [Hl|Hl]; cbn [negb].
  2:{ destruct (Z.eqb_spec (is_len st) 0); [done|]. cbn [negb]. by apply window_piece. }
  pose proof Hsim as [Hok Hr Hf He Hc]. pose proof (window_nil st Hok Hl) as Hwn. pose proof (ok_err st Hok) as Herr.
  pose proof (fill_sim st a Hsim) as Hfill. destruct (__apk_istream_fill st) as [r st'] eqn:Ef. cbn [snd].
  unfold a_short in *.
  destruct Hfill as [(-> & Hm & [(Hsim' & Heof & d & Hw)|(Hsim' & Heof & Hf0 & Hrw & Hw & Hlt)])|
    [(Hr0 & -> & Heof & Hrw & Hf0)|[(-> & -> & Heof & Hwin & Hcl)|(Hr0 & -> & He' & Hl' & Heof & Hrw & Hlt)]]].
  - destruct (Z.eqb_spec (is_len st') 0) as [Hl'|Hl'].
    + pose proof (sim_cap _ _ Hsim'). pose proof (sim_eof _ _ Hsim') as He'. unfold fill_measure in Hm.
      rewrite He, He', Hl, Hl' in Hm. lia.
    + cbn [negb]. by apply window_piece.
  - pose proof (window_len st' (sim_ok _ _ Hsim')) as Hwl. rewrite Hw, Hwn in Hwl. change (zlen (@nil Z)) with 0 in Hwl.
    rewrite <- Hwl. cbn [Z.eqb negb]. pose proof (ok_err st' (sim_ok _ _ Hsim')).
    destruct (Z.ltb_spec (is_err st') 0); [lia|].
    assert (Hnil : a_rest a = []) by congruence. unfold next_piece, a_short. rewrite Hnil, Hf0. cbn.
    split; [done|]. intros _. rewrite <- (orb_true_r (a_eof a)). exact (end_sim _ _ Hsim' Hnil).
  - rewrite Hl. cbn [Z.eqb negb]. destruct (Z.ltb_spec (is_err st) 0); [lia|].
    assert (Hnil : a_rest a = []) by congruence. unfold next_piece, a_short. rewrite Hnil, Hf0. cbn.
    split; [done|]. intros _. rewrite <- Heof. exact (end_sim _ _ Hsim Hnil).
  - rewrite Hwn in Hwin. change (zlen (@nil Z)) with 0 in Hwin. pose proof (ok_buf st Hok).
    rewrite Heof in He. apply Z.eqb_eq in He. lia.
  - assert (Hnil : a_rest a = []) by congruence.
    rewrite Hl', Hl. cbn [Z.eqb negb]. rewrite He'. destruct (Z.ltb_spec (a_fin a) 0); [|lia].
    unfold next_piece, a_short. rewrite Hnil. cbn. destruct (Z.ltb_spec (a_fin a) 0); [|lia]. split; [done|lia].
Qed.

Lemma a_drop_drop n m a : 0 <= n -> 0 <= m -> a_drop m (a_drop n a) = a_drop (n + m) a.
Proof. intros. unfold a_drop. cbn. by rewrite zdrop_zdrop, Z.add_comm by lia. Qed.

Lemma skip_loop_spec fuel st a n done :
  sim st (a_drop done a) -> 0 <= done <= n -> done <= zlen (a_rest a) -> n - done < Z.of_nat fuel ->
  exists r st', skip_loop fuel st n done = Some (r, st') /\
    (if n <=? zlen (a_rest a) then r = s32 n /\ sim st' (a_drop n a)
     else r = a_short a /\ (a_fin a = 0 -> sim st' (a_end true a))).
Proof.
  revert st done. induction fuel as [|fuel IH]; intros st done Hsim Hd Hle Hf; [lia|].
  cbn [skip_loop]. destruct (Z.ltb_spec done n) as [Hlt|Hge].
  2:{ assert (done = n) as -> by lia. exists (s32 n), st. split; [by auto|].
      destruct (Z.leb_spec n (zlen (a_rest a))); [done|lia]. }
  assert (Hpos : 0 < Z.min (n - done) SSIZE_MAX) by (unfold SSIZE_MAX; lia).
  pose proof (get_max_spec st _ _ Hsim Hpos) as Hget.
  destruct (apk_istream_get_max st (Z.min (n - done) SSIZE_MAX)) as [[r d] st']. unfold next_piece in Hget.
  cbn [a_rest a_fin a_drop fst snd] in Hget. rewrite zlen_zdrop_max in Hget by lia.
  destruct (Z.eqb_spec (Z.max 0 (zlen (a_rest a) - done)) 0) as [E|E].
  - destruct Hget as [-> Hend]. unfold a_short in *. cbn [a_fin a_drop] in *.
    destruct (Z.leb_spec n (zlen (a_rest a))); [lia|].
    destruct (Z.ltb_spec (a_fin a) 0).
    + destruct (Z.ltb_spec (a_fin a) 0); [|lia]. eexists _, _. split; [done|]. split; [done|exact Hend].
    + change (- APKE_EOF <? 0) with true. eexists _, _. split; [done|]. split; [done|exact Hend].
  - destruct Hget as (-> & k & Hk & Hkl & -> & Hsim'). cbn [Z.ltb Z.compare].
    rewrite a_drop_drop in Hsim' by lia. unfold blob_len. cbn [blob_data].
    rewrite zlen_ztake by (rewrite zlen_zdrop_max; lia).
    apply IH; [done|lia|lia|lia].
Qed.

Lemma skip_spec st a n :
  sim st a -> 0 <= n ->
  exists r st', apk_istream_skip st n = Some (r, st') /\
    (if n <=? zlen (a_rest a) then r = s32 n /\ sim st' (a_drop n a)
     else r = a_short a /\ (a_fin a = 0 -> sim st' (a_end true a))).
Proof.
  intros Hsim Hn. apply skip_loop_spec; try lia; [|auto with apk].
  unfold a_drop. rewrite zdrop_0. by destruct a.
Qed.
(** ** Clients of a stream *)

Definition istep st (o : stream_op) : option (Z * blob * apk_istream S) :=
  let data '(r, d, st) := Some (r, if r <? 0 then None else Some d, st) in
  match o with
  | OReadMax n => x ← apk_istream_read_max st n; data x
  | ORead n => x ← apk_istream_read st n; data x
  | OPeek n => x ← apk_istream_peek st n; data x
  | OGet n => x ← apk_istream_get st n; data x
  | OGetDelim token => apk_istream_get_delim st token
  | OSkip n => '(r, st) ← apk_istream_skip st n; Some (r, None, st)
  end.

(** A client uses a stream until the first error: the results of its operations. *)
Fixpoint run st (ops : list stream_op) : option (list (Z * blob)) :=
  match ops with
  | [] => Some []
  | o :: ops =>
      '(r, d, st) ← istep st o;
      if r <? 0 then Some [(r, None)] else rs ← run st ops; Some ((r, d) :: rs)
  end.

Fixpoint arun (a : astream) (ops : list stream_op) : list (Z * blob) :=
  match ops with
  | [] => []
  | o :: ops => let '(r, d, a) := astep a o in if r <? 0 then [(r, None)] else (r, d) :: arun a ops
  end.

Definition op_ok (o : stream_op) : Prop :=
  match o with OReadMax n | ORead n | OPeek n | OGet n | OSkip n => 0 <= n | OGetDelim _ => True end.

Lemma read_spec st a n :
  sim st a -> 0 <= n ->
  exists r out st', apk_istream_read st n = Some (r, out, st') /\ r = (astep a (ORead n)).1.1 /\
    (0 <= r -> Some out = (astep a (ORead n)).1.2 /\ sim st' (astep a (ORead n)).2).
Proof.
  intros Hsim Hn. pose proof (sim_fin_le st a Hsim) as Hfin. pose proof (zlen_nonneg (a_rest a)).
  destruct (read_max_spec st a n Hsim Hn) as (r & out & st' & Hrd & Hr & Hpos & Hneg).
  unfold apk_istream_read. rewrite Hrd. cbn [mbind option_bind]. cbn [astep] in *. unfold a_short.
  destruct (Z.leb_spec n (zlen (a_rest a))) as [Hle|Hgt].
  - cbn in Hr. subst r. rewrite Z.eqb_refl. destruct (Hpos Hn) as [Hd Hs].
    eexists _, _, _. split; [done|]. split; [done|]. by intros _.
  - assert (Hne : r <> n).
    { destruct (a_fin a <? 0) eqn:E; cbn in Hr; [apply Z.ltb_lt in E|]; lia. }
    destruct (Z.eqb_spec r n); [done|]. unfold apk_istream_error.
    destruct (Z.ltb_spec (a_fin a) 0) as [Hf|Hf]; cbn in Hr; subst r.
    + rewrite Hneg by done. destruct (Z.leb_spec 0 (a_fin a)); [lia|]. cbn [andb]. rewrite Hneg by done.
      destruct (Z.ltb_spec (a_fin a) 0); [|lia]. eexists _, _, _. split; [done|].
      destruct (Z.ltb_spec (a_fin a) 0); [|lia]. split; [done|]. lia.
    + destruct (Hpos ltac:(lia)) as [_ Hs]. pose proof (ok_err _ (sim_ok _ _ Hs)).
      destruct (Z.leb_spec 0 (is_err st')); [|lia]. cbn. eexists _, _, _. split; [done|].
      destruct (Z.ltb_spec (a_fin a) 0); [lia|]. split; [done|]. intros Hx. by cbv in Hx.
Qed.

Lemma get_spec st a n :
  sim st a -> 0 <= n ->
  exists r d st', apk_istream_get st n = Some (r, d, st') /\ r = (astep a (OGet n)).1.1 /\
    (0 <= r -> Some d = (astep a (OGet n)).1.2 /\ sim st' (astep a (OGet n)).2).
Proof.
  intros Hsim Hn. destruct (peek_spec st a n Hsim Hn) as (r & d & st' & Hp & Hr & Hpos).
  unfold apk_istream_get. rewrite Hp. cbn [mbind option_bind]. cbn [astep] in *.
  destruct (Z.eqb_spec r 0) as [->|Hr0].
  - destruct (Hpos ltac:(lia)) as (_ & Hl & Hd & Hs). eexists _, _, _. split; [done|].
    destruct (_ && _); cbn in *; [|done]. split; [done|]. intros _. split; [done|]. by apply advance_sim.
  - eexists _, _, _. split; [done|]. destruct (_ && _); cbn in *; [done|]. split; [done|].
    intros Hx. destruct (Hpos Hx) as [-> _]. done.
Qed.

Lemma istep_spec st a o :
  sim st a -> op_ok o ->
  exists r d st', istep st o = Some (r, d, st') /\ r = (astep a o).1.1 /\
    (0 <= r -> d = (astep a o).1.2 /\ sim st' (astep a o).2).
Proof.
  intros Hsim Ho. destruct o as [n|n|n|n|token|n]; cbn [istep op_ok] in *.
  - destruct (read_max_spec st a n Hsim Ho) as (r & d & st' & -> & Hr & Hpos & _). cbn [mbind option_bind].
    eexists _, _, _. split; [done|]. split; [done|]. intros Hp. destruct (Z.ltb_spec r 0); [lia|]. auto.
  - destruct (read_spec st a n Hsim Ho) as (r & d & st' & -> & Hr & Hpos). cbn [mbind option_bind].
    eexists _, _, _. split; [done|]. split; [done|]. intros Hp. destruct (Z.ltb_spec r 0); [lia|]. auto.
  - destruct (peek_spec st a n Hsim Ho) as (r & d & st' & -> & Hr & Hpos). cbn [mbind option_bind].
    eexists _, _, _. split; [done|]. split; [done|]. intros Hp. destruct (Z.ltb_spec r 0); [lia|].
    destruct (Hpos Hp) as (-> & _ & Hd & Hs). split; [done|]. cbn [astep] in *. by destruct (_ && _).
  - destruct (get_spec st a n Hsim Ho) as (r & d & st' & -> & Hr & Hpos). cbn [mbind option_bind].
    eexists _, _, _. split; [done|]. split; [done|]. intros Hp. destruct (Z.ltb_spec r 0); [lia|]. auto.
  - apply get_delim_spec; done.
  - destruct (skip_spec st a n Hsim Ho) as (r & st' & -> & Hres). cbn [mbind option_bind astep].
    eexists _, _, _. split; [done|]. destruct (n <=? zlen (a_rest a)).
    + destruct Hres as [-> Hs]. done.
    + destruct Hres as [-> Hs]. split; [done|]. cbn. unfold a_short. pose proof (sim_fin_le st a Hsim).
      destruct (Z.ltb_spec (a_fin a) 0); [lia|]. intros Hx. by cbv in Hx.
Qed.

Lemma run_spec st a ops : sim st a -> Forall op_ok ops -> run st ops = Some (arun a ops).
Proof.
  revert st a. induction ops as [|o ops IH]; intros st a Hsim Hops; [done|].
  apply list.Forall_cons_1 in Hops as [Ho Hops]. cbn [run arun].
  destruct (istep_spec st a o Hsim Ho) as (r & d & st' & -> & Hr & Hpos). cbn [mbind option_bind].
  destruct (astep a o) as [[r' d'] a']. cbn in *. subst r'.
  destruct (Z.ltb_spec r 0); [done|]. destruct (Hpos ltac:(lia)) as [-> Hs]. rewrite (IH st' a' Hs Hops). done.
Qed.
End stream.

(** ** The sources of the program *)

#[export] Program Instance fd_ok : IstreamOk fd_file := {|
  src_ok f := fd_fin f <= 0;
  content f := (fd_data f, fd_fin f)
|}.
Next Obligation. done. Qed.
Next Obligation.
  intros f err size Hf Hsize Hd. cbn in *. pose proof (zlen_pos _ Hd) as Hp. unfold ops_read, fdi_read.
  destruct (Z.eqb_spec (zlen (fd_data f)) 0) as [|Hne]; [lia|].
  set (n := Z.min _ _).
  assert (Hn : 0 < n <= size /\ n <= zlen (fd_data f)).
  { subst n. destruct (fd_pieces f); lia. }
  exists (ztake n (fd_data f)). eexists. rewrite zlen_ztake by lia. split_and!; [done| |lia|done|].
  - intros E. apply (f_equal zlen) in E. rewrite zlen_ztake in E by lia. change (zlen (@nil Z)) with 0 in E. lia.
  - cbn. by rewrite ztake_zdrop.
Qed.
Next Obligation.
  intros f err size Hf Hsize Hd. cbn in *. unfold ops_read, fdi_read. rewrite Hd. cbn. eexists. split; [done|]. cbn. by rewrite Hd.
Qed.

#[export] Program Instance blob_ok : IstreamOk unit := {| src_ok _ := True; content _ := ([], 0) |}.
Next Obligation. intros [] _. cbn. lia. Qed.
Next Obligation. intros [] err size _ _ []. done. Qed.
Next Obligation. intros [] err size _ _ _. exists tt. done. Qed.

Lemma fd_sim (f : fd_file) bufsize :
  fd_fin f <= 0 -> 0 < bufsize -> sim (apk_istream_from_fd bufsize f) (AS (fd_data f) (fd_fin f) false bufsize).
Proof.
  intros Hf Hb.
  assert (Hs : is_buf_size (apk_istream_from_fd bufsize f) = bufsize).
  { unfold is_buf_size, zlen. cbn. rewrite length_replicate. lia. }
  constructor; try done. constructor; rewrite ?Hs; cbn; try done; lia.
Qed.

Lemma blob_sim (b : bytes) : sim (apk_istream_from_blob b) (AS b 0 true (zlen b)).
Proof.
  pose proof (zlen_nonneg b).
  constructor; try done.
  unfold rest, window. cbn. by rewrite app_nil_r, zdrop_0, ztake_all.
Qed.
