(* ===== verification/StreamSeg.v ===== *)
(** Segments of streams (io.c: apk_istream_segment), and what clients of a segment can do to its
    parent.  A segment is a source like others, so the results of StreamThm.v apply to it.  It
    shares the buffer with its parent; [seg_inv] says where both keep their bytes, every
    operation on the segment preserves it, and so closing the segment leaves the parent right
    after the bytes of the segment, whatever the client did. *)
From Stdlib Require Import ZArith Lia.
From stdpp Require Import base numbers list option.
From S2P Require Import Prelude Clib Blob Codec Dep AdbTrust Index Stream StreamThm.

(** ** Invariants of a stream *)

(** Offsets of the bytes that a stream has in its buffer. *)
Definition placed {S} (st : apk_istream S) : Prop :=
  0 <= is_len st /\
  match is_ptr st with None => is_len st = 0 | Some p => 0 <= p /\ p + is_len st <= is_buf_size st end.

Lemma zlen_window {S} (st : apk_istream S) : placed st -> zlen (window st) = is_len st.
Proof.
  intros [Hl Hw]. unfold window. destruct (is_ptr st) as [p|]; [|by rewrite Hw].
  apply zlen_slice; unfold is_buf_size in *; lia.
Qed.

(** What a client does with a stream: any operations, in any order. *)
Inductive client {S} `{IstreamOps S} : apk_istream S -> apk_istream S -> Prop :=
  | client_done st : client st st
  | client_op st o res st' : op_ok o -> istep st o = Some res -> client res.2 st' -> client st st'
  | client_get_max st n st' : 0 <= n -> client (apk_istream_get_max st n).2 st' -> client st st'
  | client_error st e st' : e <= 0 -> client (apk_istream_error st e).2 st' -> client st st'.

(** An invariant is kept by the steps that operations are made of; then every client keeps it. *)
Class StreamInv {S} `{IstreamOps S} (P : apk_istream S -> Prop) : Prop := {
  inv_placed st : P st -> placed st;
  inv_buf st : P st -> 0 < is_buf_size st;
  inv_advance st n : P st -> 0 <= n <= is_len st -> P (advance n st);
  inv_err st e : P st -> 0 <= is_err st -> e < 0 -> P (set_err e st);
  inv_reset st : P st -> P (set_window (is_buf st) (Some 0) 0 st);
  inv_fill st : P st -> P (__apk_istream_fill st).2;
  inv_read st size r d st' : P st -> 0 < size -> src_read st size = (r, d, st') -> P st' /\ (0 < r -> r <= size);
  inv_eof st size d st' : P st -> 0 < size -> src_read st size = (0, d, st') -> 0 <= is_err st' -> P (set_err 1 st');
  inv_load st r d st' : P st -> is_len st = 0 -> is_err st = 0 ->
    src_read st (is_buf_size st) = (r, d, st') -> 0 < r -> P (set_window (mem_write (is_buf st') 0 d) (Some 0) r st')
}.

Lemma src_read_inv {S} `{IstreamOps S} (st st' : apk_istream S) size r d :
  src_read st size = (r, d, st') ->
  exists src err, ops_read (is_src st) (is_err st) size = (r, d, src, err) /\ st' = set_err err (set_src src st).
Proof. unfold src_read. destruct (ops_read _ _ _) as [[[r' d'] src] err]. intros [= <- <- <-]. eauto. Qed.

Section invariant.
Context {S : Type} `{IstreamOps S} (P : apk_istream S -> Prop) `{!StreamInv P}.
Implicit Types st : apk_istream S.

Lemma inv_error st e : P st -> e <= 0 -> P (apk_istream_error st e).2.
Proof.
  intros Hi He. unfold apk_istream_error. cbn. destruct (Z.leb_spec 0 (is_err st)); cbn; [|done].
  destruct (Z.eqb_spec e 0); cbn; [done|]. apply inv_err; [done|done|lia].
Qed.

Lemma inv_read_max_loop fuel st out lft r res :
  P st -> 0 <= lft -> read_max_loop fuel st out lft r = Some res ->
  P res.2 /\ (res.1.1.1 <> 0 -> is_err res.2 = 0 -> 0 <= res.1.1.2 -> P (set_err 1 res.2)).
Proof.
  revert st out lft r. induction fuel as [|fuel IH]; intros st out lft r Hi Hl; [done|]. cbn [read_max_loop].
  destruct (Z.eqb_spec lft 0); [intros [= <-]; by cbn|].
  pose proof (inv_placed _ Hi) as [Hl0 Hwin].
  destruct (Z.eqb_spec (is_len st) 0) as [E|E]; cbn [negb].
  2:{ apply IH; [apply inv_advance; [done|lia]|lia]. }
  destruct (Z.eqb_spec (is_err st) 0) as [He|He]; cbn [negb]; [|intros [= <-]; by cbn].
  pose proof (zlen_nonneg (is_buf st)).
  assert (Hend : forall size r' d st', 0 < size -> src_read st size = (r', d, st') -> r' <= 0 ->
    P st' /\ (lft <> 0 -> is_err st' = 0 -> 0 <= r' -> P (set_err 1 st'))).
  { intros size r' d st' Hsize Hrd Hr'. split; [by apply (inv_read st size r' d st' Hi Hsize Hrd)|].
    intros _ He' Hr0. assert (r' = 0) as -> by lia. apply (inv_eof st size d st'); done || lia. }
  destruct (_ / 4 <? lft).
  - destruct (src_read st lft) as [[r' d] st'] eqn:Hrd.
    destruct (inv_read st lft r' d st' Hi ltac:(lia) Hrd) as [Hi' Hpos].
    destruct (Z.leb_spec r' 0); [intros [= <-]; apply (Hend lft r' d); done || lia|]. apply IH; [done|]. specialize (Hpos ltac:(lia)). lia.
  - destruct (src_read st (is_buf_size st)) as [[r' d] st'] eqn:Hrd.
    destruct (Z.leb_spec r' 0); [|apply IH; [|done]].
    { intros [= <-]. apply (Hend (is_buf_size st) r' d); try done. by apply inv_buf. }
    exact (inv_load st r' d st' Hi E He Hrd ltac:(lia)).
Qed.

Lemma inv_peek_loop fuel st len res :
  P st -> peek_loop fuel st len = Some res -> P res.2 /\ (res.1 = 0 -> len <= is_len res.2) /\ res.1 <= 0.
Proof.
  revert st. induction fuel as [|fuel IH]; intros st Hi; [done|]. cbn [peek_loop].
  destruct (Z.leb_spec len (is_len st)); [by intros [= <-]|].
  pose proof (inv_fill st Hi) as Hf. destruct (__apk_istream_fill st) as [r st']. cbn in Hf.
  destruct (Z.eqb_spec r 0); [by apply IH|]. intros [= <-]. cbn. split; [done|].
  destruct (Z.ltb_spec 0 r); [by cbv|]. split; [done|lia].
Qed.

Lemma inv_get_delim_loop fuel st token res :
  P st -> get_delim_loop fuel st token = Some res -> P res.2.
Proof.
  revert st. induction fuel as [|fuel IH]; intros st Hi; [done|]. cbn [get_delim_loop].
  destruct (apk_blob_split (Some (window st)) token) as [[x y]|] eqn:E.
  { intros [= <-]. cbn. apply inv_advance; [done|]. apply split_len in E.
    rewrite (zlen_window st (inv_placed _ Hi)) in E.
    pose proof (zlen_nonneg x). pose proof (zlen_nonneg y). pose proof (zlen_nonneg token). lia. }
  pose proof (inv_fill st Hi) as Hf. destruct (__apk_istream_fill st) as [r st']. cbn in Hf.
  destruct (r =? 0); [by apply IH|]. destruct (Z.ltb_spec r 0).
  - destruct (apk_istream_error st' r) as [e st''] eqn:Ee. intros [= <-]. cbn.
    change st'' with (e, st'').2. rewrite <- Ee. apply inv_error; [done|lia].
  - intros [= <-]. cbn. by apply inv_reset.
Qed.

Lemma inv_get_max st max : P st -> 0 <= max -> P (apk_istream_get_max st max).2.
Proof.
  intros Hi Hmax. unfold apk_istream_get_max.
  assert (Hi' : P (if is_len st =? 0 then (__apk_istream_fill st).2 else st)).
  { case_match; [by apply inv_fill|done]. }
  set (st' := if is_len st =? 0 then _ else st) in *. destruct (inv_placed _ Hi') as [Hl _].
  destruct (negb _); cbn; [|done]. apply inv_advance; [done|lia].
Qed.

Lemma inv_skip_loop fuel st n done res : P st -> skip_loop fuel st n done = Some res -> P res.2.
Proof.
  revert st done. induction fuel as [|fuel IH]; intros st done Hi; [discriminate|]. cbn [skip_loop].
  destruct (Z.ltb_spec done n); [|by intros [= <-]].
  pose proof (inv_get_max st (Z.min (n - done) SSIZE_MAX) Hi ltac:(unfold SSIZE_MAX; lia)) as Hg.
  destruct (apk_istream_get_max _ _) as [[r d] st']. destruct (r <? 0); [by intros [= <-]|]. by apply IH.
Qed.

Lemma inv_read_max st n res : P st -> 0 <= n -> apk_istream_read_max st n = Some res -> P res.2.
Proof.
  intros Hi Hn. unfold apk_istream_read_max. destruct (is_err st <? 0); [by intros [= <-]|].
  destruct (read_max_loop _ st [] n 0) as [[[[lft r] out] st']|] eqn:E; [|done]. cbn [mbind option_bind].
  apply inv_read_max_loop in E as [Hi' He1]; try done. cbn in Hi', He1.
  destruct (Z.ltb_spec r 0); [|destruct (Z.eqb_spec lft n) as [->|]; [|by intros [= <-]]].
  - pose proof (inv_error st' r Hi' ltac:(lia)) as He. destruct (apk_istream_error st' r). by intros [= <-].
  - unfold apk_istream_error. destruct (Z.eqb_spec n 0) as [->|Hn0]; cbn [negb andb].
    { rewrite andb_false_r. by intros [= <-]. }
    destruct (Z.eqb_spec (is_err st') 0) as [Hz|Hz]; cbn [Z.eqb negb andb].
    + rewrite Hz. intros [= <-]. by apply He1.
    + rewrite andb_false_r. by intros [= <-].
Qed.

Lemma inv_peek st n res :
  P st -> 0 <= n -> apk_istream_peek st n = Some res -> P res.2 /\ (res.1.1 = 0 -> is_err st < 0 \/ n <= is_len res.2) /\ res.1.1 <= 0.
Proof.
  intros Hi Hn. unfold apk_istream_peek. destruct (Z.ltb_spec (is_err st) 0); [intros [= <-]; cbn; split_and!; auto; lia|].
  destruct (peek_loop _ st n) as [[r st']|] eqn:E; [|done]. cbn [mbind option_bind].
  apply inv_peek_loop in E as (Hi' & Hl & Hr); try done. cbn in Hi', Hl, Hr.
  destruct (Z.eqb_spec r 0); intros [= <-]; cbn; split_and!; auto; lia.
Qed.

Lemma inv_istep st o res : P st -> op_ok o -> istep st o = Some res -> P res.2.
Proof.
  intros Hi Ho. destruct o as [n|n|n|n|token|n]; cbn [istep op_ok] in *.
  - destruct (apk_istream_read_max st n) as [[[r d] st']|] eqn:E; [|done]. cbn. intros [= <-].
    by apply inv_read_max in E.
  - unfold apk_istream_read. destruct (apk_istream_read_max st n) as [[[r d] st']|] eqn:E; [|done]. cbn.
    apply inv_read_max in E; try done. cbn in E. destruct (r =? n); cbn; [by intros [= <-]|].
    pose proof (inv_error st' (- APKE_EOF) E ltac:(by cbv)) as He. unfold apk_istream_error in He. cbn in He. by intros [= <-].
  - destruct (apk_istream_peek st n) as [[[r d] st']|] eqn:E; [|done]. cbn. intros [= <-].
    by apply inv_peek in E as [? _].
  - unfold apk_istream_get. destruct (apk_istream_peek st n) as [[[r d] st']|] eqn:E; [|done]. cbn.
    assert (Hneg : is_err st < 0 -> r <> 0).
    { revert E. unfold apk_istream_peek. destruct (Z.ltb_spec (is_err st) 0); [intros [= <- _ _]; lia|lia]. }
    apply inv_peek in E as (Hi' & Hl & Hr); try done. cbn in *. destruct (Z.eqb_spec r 0) as [->|]; intros [= <-]; cbn.
    + apply inv_advance; [done|]. destruct (Hl eq_refl) as [Hx|]; [by destruct (Hneg Hx)|lia].
    + destruct (Z.leb_spec 0 (is_err st')); cbn; [apply inv_err; done || lia|done].
  - unfold apk_istream_get_delim. destruct (_ && _); [by intros [= <-]|]. by apply inv_get_delim_loop.
  - unfold apk_istream_skip. destruct (skip_loop _ st n 0) as [[r st']|] eqn:E; [|done]. cbn. intros [= <-]. cbn.
    by apply inv_skip_loop in E.
Qed.

Lemma client_inv st st' : client st st' -> P st -> P st'.
Proof.
  induction 1 as [|st o res st' Ho Hs _ IH|st n st' Hn _ IH|st e st' He _ IH]; intros Hi; [done|..]; apply IH.
  - by eapply inv_istep.
  - by apply inv_get_max.
  - by apply inv_error.
Qed.
End invariant.

(** An invariant of the source and the error of the stream: it is kept by reads, by an error that
    ends the stream, and when a read that returned nothing is noted as the end. *)
Section source.
Context {S : Type} `{IstreamOps S} (Q : S -> Z -> Prop).

Class SourceInv : Prop := {
  sinv_read s err size r d s' err' : Q s err -> 0 < size -> ops_read s err size = (r, d, s', err') ->
    Q s' err' /\ (0 < r -> r = zlen d /\ zlen d <= size);
  sinv_err s err e : Q s err -> 0 <= err -> e < 0 -> Q s e;
  sinv_eof s err size d s' err' : Q s err -> 0 < size -> ops_read s err size = (0, d, s', err') -> 0 <= err' -> Q s' 1
}.
Context `{HQ : SourceInv} (n : Z).

(** The buffer keeps its size [n]. *)
Definition src_inv (st : apk_istream S) : Prop := placed st /\ (0 < n /\ is_buf_size st = n) /\ Q (is_src st) (is_err st).

Lemma src_inv_placed st buf p len :
  src_inv st -> zlen buf = zlen (is_buf st) -> placed (set_window buf p len st) -> src_inv (set_window buf p len st).
Proof. intros (_ & [Hn Hb] & HQs) Hz Hp. split_and!; try done. unfold is_buf_size in *. cbn. lia. Qed.

Lemma src_inv_compacted st :
  src_inv st -> src_inv (compacted st) /\ is_ptr (compacted st) = Some 0 /\
    is_buf_size (compacted st) = is_buf_size st /\ is_len (compacted st) = is_len st.
Proof.
  intros Hi. pose proof Hi as (Hp & Hb & HQs). pose proof (zlen_window st Hp) as Hw. destruct Hp as [Hl Hp].
  unfold compacted. destruct (match is_ptr st with Some p => p =? 0 | None => false end) eqn:E.
  { destruct (is_ptr st) as [p|] eqn:Ep; [|done]. apply Z.eqb_eq in E as ->. done. }
  assert (Hz : zlen (mem_write (is_buf st) 0 (window st)) = zlen (is_buf st)).
  { apply zlen_mem_write; unfold is_buf_size in *; destruct (is_ptr st); lia. }
  split_and!; try done. apply src_inv_placed; try done.
  unfold placed, is_buf_size in *. cbn. rewrite Hz. destruct (is_ptr st); lia.
Qed.

Lemma src_inv_store st size r d st' :
  src_inv st -> is_ptr st = Some 0 -> 0 < size -> is_len st + size <= is_buf_size st ->
  src_read st size = (r, d, st') -> 0 < r ->
  src_inv (set_window (mem_write (is_buf st') (is_len st') d) (Some 0) (is_len st' + r) st').
Proof.
  intros (Hp & Hb & HQs) Hp0 Hsize Hroom (src & err & Hrd & ->)%src_read_inv Hr.
  destruct (sinv_read _ _ _ _ _ _ _ HQs Hsize Hrd) as [HQ' Hd].
  destruct (Hd Hr) as [-> Hle]. destruct Hp as [Hl _]. unfold is_buf_size in *.
  assert (Hz : zlen (mem_write (is_buf st) (is_len st) d) = zlen (is_buf st)) by (apply zlen_mem_write; lia).
  unfold src_inv, placed, is_buf_size. cbn. rewrite Hz. split_and!; done || lia.
Qed.

#[export] Instance src_inv_stream : StreamInv src_inv.
Proof.
  constructor.
  - by intros st (? & _).
  - intros st (_ & [? ->] & _). done.
  - intros st k Hi Hk. pose proof Hi as ([Hl Hp] & _). apply src_inv_placed; try done.
    unfold placed, is_buf_size in *. cbn. destruct (is_ptr st); cbn; lia.
  - intros st e (Hp & Hb & HQs) He0 He. split; [done|]. split; [done|]. cbn. by apply (sinv_err _ (is_err st)).
  - intros st Hi. pose proof Hi as (_ & Hb & _). apply src_inv_placed; try done.
    unfold placed, is_buf_size in *. cbn. lia.
  - intros st Hi. destruct (Z.eq_dec (is_err st) 0) as [He|He].
    2:{ unfold __apk_istream_fill. destruct (Z.eqb_spec (is_err st) 0); done. }
    rewrite fill_compacted by done. destruct (_ && _) eqn:Efull; [done|].
    destruct (src_inv_compacted st Hi) as (Hi' & Hp & Hb & Hl).
    assert (Hroom : is_len st < is_buf_size st).
    { destruct Hi as ([Hl0 Hw] & Hb0 & _). destruct (is_ptr st) as [p|]; [|lia].
      apply andb_false_iff in Efull as [E|E]; apply Z.eqb_neq in E; lia. }
    destruct (src_read (compacted st) _) as [[r d] st'] eqn:Hrd. destruct (Z.leb_spec r 0).
    + destruct Hi' as (H1 & H2 & H3). apply src_read_inv in Hrd as (src & err & Hrd & ->).
      assert (Hsz : 0 < is_buf_size (compacted st) - is_len (compacted st)) by lia.
      destruct (sinv_read _ _ _ _ _ _ _ H3 Hsz Hrd) as [H4 _].
      unfold apk_istream_error. cbn [snd set_err is_err]. destruct (Z.leb_spec 0 err) as [Herr|Herr]; cbn [andb]; [|done].
      destruct (Z.eqb_spec r 0) as [->|]; cbn [Z.eqb negb].
      * split; [exact H1|]. split; [exact H2|]. exact (sinv_eof _ _ _ _ _ _ H3 Hsz Hrd Herr).
      * rewrite (proj2 (Z.eqb_neq r 0)) by done. cbn [negb]. split; [exact H1|]. split; [exact H2|]. cbn.
        apply (sinv_err _ err); done || lia.
    + pose proof (src_inv_store _ (is_buf_size (compacted st) - is_len (compacted st)) r d st' Hi' Hp
        ltac:(lia) ltac:(lia) Hrd ltac:(lia)) as Hst.
      apply src_read_inv in Hrd as (src & err & _ & ->). rewrite <- Hp in Hst. exact Hst.
  - intros st size r d st' (H1 & H2 & H3) Hs (src & err & Hrd & ->)%src_read_inv.
    destruct (sinv_read _ _ _ _ _ _ _ H3 Hs Hrd) as [H4 H5].
    split; [done|]. intros Hr. destruct (H5 Hr). lia.
  - intros st size d st' (H1 & H2 & H3) Hs (src & err & Hrd & ->)%src_read_inv He.
    split; [exact H1|]. split; [exact H2|]. exact (sinv_eof _ _ _ _ _ _ H3 Hs Hrd He).
  - intros st r d st' (H1 & H2 & H3) Hl He Hrd Hr. apply src_read_inv in Hrd as (src & err & Hrd & ->).
    pose proof (src_inv_store (set_window (is_buf st) (Some 0) 0 st) (is_buf_size st) r d
      (set_err err (set_src src (set_window (is_buf st) (Some 0) 0 st)))) as Hst.
    apply Hst; try done; [|unfold is_buf_size in *; lia|unfold src_read; cbn; by rewrite Hrd]. apply (src_inv_placed st); [done|done|].
    unfold placed, is_buf_size in *. cbn. lia.
Qed.
End source.

(** A segment of a stream with an invariant: reading it keeps the invariant of its parent. *)
Section source_segment.
Context {S : Type} `{IstreamOps S} (Q : S -> Z -> Prop) `{!SourceInv Q} (n : Z).

Definition seg_src_inv (sg : segment S) (_ : Z) : Prop := src_inv Q n (sg_pis sg) /\ 0 <= sg_bytes_left sg.

#[export] Instance seg_source_inv : SourceInv seg_src_inv.
Proof.
  assert (Hread : forall sg err size r d sg' err', seg_src_inv sg err -> 0 < size -> ops_read sg err size = (r, d, sg', err') ->
    seg_src_inv sg' err' /\ (0 < r -> r = zlen d /\ zlen d <= size)).
  { intros sg err size r d sg' err' [Hi Hl] Hsize. unfold ops_read, segment_read.
    set (m := if sg_bytes_left sg <? size then sg_bytes_left sg else size).
    destruct (Z.eqb_spec m 0); [intros [= <- <- <- <-]; split; [done|lia]|].
    assert (Hm : 0 < m <= size /\ m <= sg_bytes_left sg) by (subst m; destruct (Z.ltb_spec (sg_bytes_left sg) size); lia).
    destruct (src_read (sg_pis sg) m) as [[r' d'] pis] eqn:Hrd.
    assert (Hi' : src_inv Q n pis) by (by apply (inv_read (P := src_inv Q n) (sg_pis sg) m r' d' pis Hi ltac:(lia) Hrd)).
    apply src_read_inv in Hrd as (src & e & Hrd & ->).
    destruct (sinv_read Q _ _ _ _ _ _ _ (proj2 (proj2 Hi)) (proj1 (proj1 Hm)) Hrd) as [_ Hd].
    destruct (Z.leb_spec r' 0); intros [= <- <- <- <-].
    - split; [done|]. destruct (Z.eqb_spec r' 0); [by cbv|lia].
    - destruct (Hd ltac:(lia)). split; [split; [done|cbn; lia]|]. intros _. split; [done|lia]. }
  constructor; [exact Hread|done|].
  intros sg err size d sg' err' Hi Hsize Hrd _. by apply (Hread _ _ _ _ _ _ _ Hi Hsize Hrd).
Qed.

Lemma segment_open st len mtime : src_inv Q n st -> 0 <= len -> src_inv seg_src_inv n (apk_istream_segment st len mtime).
Proof.
  intros Hi Hlen. pose proof Hi as ([Hl Hp] & [Hn Hb] & HQs). unfold apk_istream_segment.
  destruct (Z.ltb_spec len (is_len st)).
  - split; [|split; [done|]]; cbn.
    + split; [done|]. cbn. unfold is_buf_size in *. cbn. destruct (is_ptr st); [lia|lia].
    + split; [|cbn; lia]. apply (inv_advance (P := src_inv Q n)); [done|lia].
  - split; [|split; [done|]]; cbn.
    + split; [done|]. cbn. done.
    + split; [|cbn; lia]. apply src_inv_placed; done.
Qed.

Lemma segment_parent sg : src_inv seg_src_inv n sg -> src_inv Q n (sg_pis (is_src sg)).
Proof. by intros (_ & _ & Hi & _). Qed.

Lemma segment_closed sg r st : src_inv seg_src_inv n sg -> segment_close sg = Some (r, st) -> src_inv Q n st.
Proof.
  intros (_ & [Hn Hb] & Hi & Hl). unfold segment_close.
  set (pis := set_window (is_buf sg) _ _ _).
  assert (Hp : src_inv Q n pis).
  { pose proof Hi as ([Hl0 Hw] & [_ Hb'] & _). apply src_inv_placed; [done|unfold is_buf_size in *; lia|].
    unfold placed, is_buf_size in *. cbn. split; [done|]. destruct (is_ptr _); [lia|done]. }
  destruct (negb _); cbn.
  - unfold apk_istream_skip. destruct (skip_loop _ pis _ 0) as [[r' st']|] eqn:E; [|done]. cbn. intros [= _ <-].
    by apply (inv_skip_loop (src_inv Q n)) in E.
  - by intros [= _ <-].
Qed.
End source_segment.

Section segment.
Context {S : Type} `{HS : IstreamOk S}.

Definition seg_content (sg : segment S) : bytes * Z :=
  let '(b, e) := content (is_src (sg_pis sg)) in
  if sg_bytes_left sg <=? zlen b then (ztake (sg_bytes_left sg) b, 0)
  else (b, if e <? 0 then e else - ECONNABORTED).

#[export] Program Instance segment_ok : IstreamOk (segment S) := {|
  src_ok sg := src_ok (is_src (sg_pis sg)) /\ 0 <= sg_bytes_left sg;
  content := seg_content
|}.
Next Obligation.
  intros sg [Hs Hl]. pose proof (content_fin _ Hs). unfold seg_content. destruct (content _) as [b e]. cbn in *.
  case_test; cbn; [lia|]. case_test; cbn; [lia|]. by cbv.
Qed.
Next Obligation.
  intros sg err size [Hs Hl] Hsize Hne. unfold seg_content in *.
  destruct (content (is_src (sg_pis sg))) as [b e] eqn:Ec.
  set (n := if sg_bytes_left sg <? size then sg_bytes_left sg else size).
  assert (Hb : b <> []).
  { intros ->. apply Hne. case_test; [|done]. cbn. unfold ztake. by rewrite firstn_nil. }
  assert (Hn : 0 < n <= size /\ n <= sg_bytes_left sg).
  { subst n. pose proof (zlen_pos _ Hb). destruct (Z.ltb_spec (sg_bytes_left sg) size); [|lia].
    destruct (Z.eq_dec (sg_bytes_left sg) 0) as [E|]; [|lia]. rewrite E in Hne.
    destruct (Z.leb_spec 0 (zlen b)); [|lia]. by destruct Hne. }
  destruct (src_read_some (sg_pis sg) n Hs ltac:(lia)) as (d & s' & Hr & Hd & Hle & Hs' & Hc); [by rewrite Ec|].
  pose proof (zlen_pos _ Hd). unfold ops_read, segment_read. fold n. destruct (Z.eqb_spec n 0); [lia|].
  rewrite Hr. destruct (Z.leb_spec (zlen d) 0); [lia|]. eexists d, _. split_and!; try done; try lia.
  - cbn. lia.
  - cbn [is_src sg_pis sg_bytes_left set_src]. rewrite Ec in Hc. destruct (content s') as [b' e']. cbn in Hc. injection Hc as -> ->.
    autorewrite with apk.
    destruct (Z.leb_spec (sg_bytes_left sg) (zlen d + zlen b')), (Z.leb_spec (sg_bytes_left sg - zlen d) (zlen b')); try lia; cbn.
    + by rewrite ztake_app_ge by lia.
    + done.
Qed.
Next Obligation.
  intros sg err size [Hs Hl] Hsize Hne. pose proof (content_fin _ Hs) as Hf. unfold seg_content in *.
  destruct (content (is_src (sg_pis sg))) as [b e] eqn:Ec. cbn in Hf. unfold ops_read, segment_read.
  destruct (Z.leb_spec (sg_bytes_left sg) (zlen b)) as [Hle|Hgt]; cbn in Hne.
  - assert (E : sg_bytes_left sg = 0).
    { apply (f_equal zlen) in Hne. rewrite zlen_ztake in Hne by lia. by change (zlen (@nil Z)) with 0 in Hne. }
    rewrite E. destruct (Z.ltb_spec 0 size); [|lia]. cbn. eexists. split; [done|]. rewrite Ec, E.
    destruct (Z.leb_spec 0 (zlen b)); [done|lia].
  - subst b. change (zlen (@nil Z)) with 0 in Hgt.
    set (n := if sg_bytes_left sg <? size then sg_bytes_left sg else size).
    assert (0 < n) by (subst n; case_test; lia). destruct (Z.eqb_spec n 0); [lia|].
    destruct (src_read_end (sg_pis sg) n Hs ltac:(lia)) as (s' & -> & Hs' & Hc); [by rewrite Ec|].
    rewrite Ec. cbn [fst snd]. destruct (Z.leb_spec e 0); [|lia].
    exists (Segment (set_src s' (sg_pis sg)) (sg_bytes_left sg) (sg_mtime sg)). split_and!; [|done| |].
    + destruct (Z.eqb_spec e 0), (Z.ltb_spec e 0); try done; lia.
    + done.
    + cbn [is_src sg_pis sg_bytes_left set_src]. rewrite Hc, Ec. change (zlen (@nil Z)) with 0.
      destruct (Z.leb_spec (sg_bytes_left sg) 0); [lia|]. done.
Qed.

(** ** The bytes of a segment *)

Definition a_segment (len : Z) (a : astream) : astream :=
  AS (ztake len (a_rest a))
     (if len <=? zlen (a_rest a) then 0 else if a_fin a <? 0 then a_fin a else - ECONNABORTED) false (a_cap a).

Lemma segment_sim (st : apk_istream S) a len mtime :
  sim st a -> 0 <= len -> 0 < a_cap a -> sim (apk_istream_segment st len mtime) (a_segment len a).
Proof.
  intros Hsim Hlen Hcap. pose proof Hsim as [Hok Hr Hf He Hc]. pose proof (window_len st Hok) as Hwl.
  pose proof (window_cap st Hok) as Hwc. pose proof Hok as [Hs _ _ _ Hl Hw]. unfold is_buf_size in *.
  unfold apk_istream_segment, a_segment. rewrite <- Hr, <- Hf in *. unfold rest, fin in *.
  destruct (content (is_src st)) as [b e] eqn:Ec. cbn [fst snd] in *. pose proof (zlen_nonneg b). autorewrite with apk.
  destruct (Z.ltb_spec len (is_len st)) as [Hlt|Hge].
  - assert (E : ztake len (window st ++ b) = window (Istream (Segment (advance len st) 0 mtime) (is_buf st) (is_ptr st) len 0)).
    { rewrite ztake_app_le by lia. unfold window. cbn. destruct (is_ptr st) as [p|]; [|lia].
      rewrite ztake_ztake by lia. done. }
    destruct (Z.leb_spec len (zlen (window st) + zlen b)); [|lia].
    constructor; cbn; unfold rest, fin, is_buf_size; cbn; unfold seg_content; cbn; rewrite ?Ec; try done.
    + constructor; cbn; unfold is_buf_size; cbn; try done; try lia. destruct (is_ptr st); lia.
    + destruct (Z.leb_spec 0 (zlen b)); [|lia]. cbn. by rewrite app_nil_r, E.
    + destruct (Z.leb_spec 0 (zlen b)); [done|lia].
  - constructor; cbn; unfold rest, fin, is_buf_size; cbn; unfold seg_content; cbn; rewrite ?Ec; try done.
    + constructor; cbn; unfold is_buf_size; cbn; try done; try lia. split; [done|lia].
    + change (window (Istream _ (is_buf st) (is_ptr st) (is_len st) 0)) with (window st).
      rewrite ztake_app_ge by lia. f_equal. rewrite Hwl.
      destruct (Z.leb_spec (len - is_len st) (zlen b)); [done|]. cbn. by rewrite ztake_all by lia.
    + rewrite Hwl. destruct (Z.leb_spec (len - is_len st) (zlen b)), (Z.leb_spec len (is_len st + zlen b)); done || lia.
Qed.
(** ** The parent of a segment *)

Implicit Types sg : apk_istream (segment S).

(** The parent as it is when the segment ends now: its buffer is the one of the segment. *)
Definition parent sg : apk_istream S :=
  let p := sg_pis (is_src sg) in set_window (is_buf sg) (is_ptr p) (is_len p) p.
Definition left_of sg : Z := sg_bytes_left (is_src sg).

Definition seg_end sg : Z := match is_ptr sg with None => 0 | Some p => p + is_len sg end.

(** After the segment the parent is at [a]: what the segment still takes from the source comes
    first, and the parent keeps bytes in the buffer only behind those of a segment that takes no more. *)
Record seg_inv (a : astream) sg : Prop := {
  si_placed : placed sg;
  si_buf : 0 < is_buf_size sg;
  si_left : 0 <= left_of sg;
  si_rest : exists b, sim (parent sg) b /\ a = a_drop (left_of sg) b /\ left_of sg <= zlen (a_rest b);
  si_buffer : is_len (parent sg) = 0 \/
    (left_of sg = 0 /\ exists p, is_ptr (parent sg) = Some p /\ seg_end sg <= p)
}.

(** Changing the bytes of the segment in the buffer, without changing the source. *)
Lemma seg_inv_move a sg buf p len err :
  let sg' := Istream (is_src sg) buf p len err in
  seg_inv a sg -> placed sg' -> zlen buf = zlen (is_buf sg) ->
  (is_len (parent sg) <> 0 -> seg_end sg' <= seg_end sg /\
     forall q k, seg_end sg <= q -> 0 <= k -> q + k <= zlen buf -> slice buf q k = slice (is_buf sg) q k) ->
  seg_inv a sg'.
Proof.
  intros sg' [Hp Hb0 Hl (b & Hb & -> & Hle) Hbuf] Hp' Hz Hmem.
  constructor; try done; [unfold is_buf_size in *; cbn; lia| |].
  - exists b. split_and!; try done. destruct Hb as [Hok Hr Hf He Hc].
    assert (Hw : window (parent sg') = window (parent sg)).
    { destruct Hbuf as [E|(E & q & Hq & Hge)].
      - unfold window. change (is_ptr (parent sg')) with (is_ptr (parent sg)).
        change (is_len (parent sg')) with (is_len (parent sg)). rewrite E. by destruct (is_ptr _).
      - rewrite !(window_slice _ q) by done. change (is_len (parent sg')) with (is_len (parent sg)).
        destruct (Z.eq_dec (is_len (parent sg)) 0) as [E0|E0]; [by rewrite E0|].
        destruct (Hmem E0) as [_ Hs]. apply Hs; [done|apply Hok|]. cbn.
        destruct Hok as [_ _ _ _ _ Hwin]. rewrite Hq in Hwin. unfold is_buf_size in Hwin. cbn in *. lia. }
    assert (Hsz : is_buf_size (parent sg') = is_buf_size (parent sg)) by exact Hz.
    constructor; try done; [|unfold rest; rewrite Hw; exact Hr|by rewrite Hsz].
    destruct Hok as [H1 H2 H3 H4 H5 H6]. constructor; rewrite ?Hsz; done.
  - destruct Hbuf as [E|(E & q & Hq & Hge)]; [by left|].
    destruct (Z.eq_dec (is_len (parent sg)) 0) as [E0|E0]; [by left|].
    right. split; [done|]. exists q. split; [done|]. destruct (Hmem E0). lia.
Qed.

Lemma seg_inv_advance a sg n : seg_inv a sg -> 0 <= n <= is_len sg -> seg_inv a (advance n sg).
Proof.
  intros Hi Hn. destruct (si_placed _ _ Hi) as [Hl Hp]. apply (seg_inv_move a sg); try done.
  - unfold placed, is_buf_size in *. cbn. destruct (is_ptr sg); cbn; lia.
  - intros _. split; [|done]. unfold seg_end. cbn. destruct (is_ptr sg); cbn; lia.
Qed.

Lemma seg_inv_err a sg e : seg_inv a sg -> seg_inv a (set_err e sg).
Proof.
  intros Hi. pose proof (si_placed _ _ Hi). apply (seg_inv_move a sg); try done.
Qed.

Lemma seg_inv_error a sg e : seg_inv a sg -> seg_inv a (apk_istream_error sg e).2.
Proof. intros Hi. unfold apk_istream_error. cbn. case_match; [by apply seg_inv_err|done]. Qed.

Lemma seg_inv_reset a sg : seg_inv a sg -> seg_inv a (set_window (is_buf sg) (Some 0) 0 sg).
Proof.
  intros Hi. destruct (si_placed _ _ Hi) as [Hl Hp]. pose proof (zlen_nonneg (is_buf sg)).
  apply (seg_inv_move a sg); [done| |done|].
  - unfold placed, is_buf_size. cbn. lia.
  - intros _. split; [|done]. unfold seg_end. cbn. destruct (is_ptr sg); lia.
Qed.

Lemma seg_inv_compacted a sg :
  seg_inv a sg -> seg_inv a (compacted sg) /\ is_len (compacted sg) = is_len sg /\ is_ptr (compacted sg) = Some 0 /\
    is_buf_size (compacted sg) = is_buf_size sg.
Proof.
  intros Hi. unfold compacted. destruct (match is_ptr sg with Some p => p =? 0 | None => false end) eqn:E.
  { destruct (is_ptr sg) as [p|] eqn:Ep; [|done]. apply Z.eqb_eq in E as ->. done. }
  clear E. pose proof (si_placed _ _ Hi) as Hpl. pose proof (zlen_window sg Hpl) as Hwl. destruct Hpl as [Hl Hp].
  unfold is_buf_size in *.
  assert (Hz : zlen (mem_write (is_buf sg) 0 (window sg)) = zlen (is_buf sg)).
  { apply zlen_mem_write; destruct (is_ptr sg); pose proof (zlen_nonneg (is_buf sg)); lia. }
  split_and!; try done. apply (seg_inv_move a sg); try done.
  - unfold placed, is_buf_size. cbn. rewrite Hz. destruct (is_ptr sg); pose proof (zlen_nonneg (is_buf sg)); lia.
  - intros _. unfold seg_end. cbn. split; [destruct (is_ptr sg); lia|].
    intros q k Hq Hk Hle. rewrite Hz in Hle. apply slice_write_after; try done; destruct (is_ptr sg); lia.
Qed.
(** A read of the segment moves the source of the parent along. *)
Lemma seg_inv_read a sg size r d sg' :
  seg_inv a sg -> 0 <= size -> src_read sg size = (r, d, sg') ->
  seg_inv a sg' /\ (0 < r -> r = zlen d /\ zlen d <= size /\ is_len (parent sg') = 0).
Proof.
  intros Hi Hsize. unfold src_read at 1. unfold ops_read, segment_read. fold (left_of sg).
  set (n := if left_of sg <? size then left_of sg else size).
  destruct (Z.eqb_spec n 0) as [E|E].
  { intros [= <- <- <-]. split; [|lia]. by destruct sg. }
  pose proof Hi as [Hp Hb0 Hl (b & Hb & Ha & Hle) Hbuf]. pose proof Hb as [Hok Hr Hf He Hc].
  assert (Hn : 0 < n <= size /\ n <= left_of sg) by (subst n; destruct (Z.ltb_spec (left_of sg) size); lia).
  assert (Hlen : is_len (parent sg) = 0) by (destruct Hbuf as [|[? _]]; [done|lia]).
  assert (Hcont : (content (is_src (parent sg))).1 = a_rest b).
  { rewrite <- Hr. unfold rest. by rewrite (window_nil (parent sg)). }
  assert (Hne : (content (is_src (parent sg))).1 <> []).
  { rewrite Hcont. intros E'. rewrite E' in Hle. change (zlen (@nil Z)) with 0 in Hle. lia. }
  assert (He0 : is_err (parent sg) = 0).
  { pose proof (ok_err _ Hok). destruct (Z.eq_dec (is_err (parent sg)) 0); [done|].
    rewrite (ok_end _ Hok) in Hne by lia. done. }
  destruct (src_read_some (parent sg) n (ok_src _ Hok) ltac:(lia) Hne) as (d' & s' & Hrd & Hd & Hdn & Hs' & Hc').
  assert (Hrd' : src_read (sg_pis (is_src sg)) n = (zlen d', d', set_src s' (sg_pis (is_src sg)))).
  { apply src_read_inv in Hrd as (src & err & Hrd & E0). injection E0 as <- <-. unfold src_read. cbn in Hrd. by rewrite Hrd. }
  pose proof (zlen_pos _ Hd) as Hdp. rewrite Hrd'. destruct (Z.leb_spec (zlen d') 0); [lia|].
  intros [= <- <- <-]. split; [|intros _; split_and!; [done|lia|done]].
  destruct (direct_read (parent sg) s' d' Hok He0 Hlen Hs' Hc') as (Hok' & Hrest & Hfin).
  constructor; try done; [cbn; lia| |by left].
  exists (a_drop (zlen d') b). split_and!.
  - constructor; cbn; try done; [|by rewrite <- Hf]. rewrite <- Hr, Hrest. by rewrite zdrop_app.
  - rewrite Ha, a_drop_drop by (cbn; lia). unfold left_of. cbn. f_equal. lia.
  - cbn. rewrite zlen_zdrop_max by lia. lia.
Qed.

(** A read into the buffer behind the window. *)
Lemma seg_inv_store a sg size r d sg' :
  seg_inv a sg -> is_ptr sg = Some 0 -> 0 <= size -> is_len sg + size <= is_buf_size sg ->
  src_read sg size = (r, d, sg') -> 0 < r ->
  seg_inv a (set_window (mem_write (is_buf sg') (is_len sg') d) (Some 0) (is_len sg' + r) sg').
Proof.
  intros Hi Hp Hsize Hroom Hrd Hr. destruct (seg_inv_read a sg size r d sg' Hi Hsize Hrd) as [Hi' Hpos].
  apply src_read_inv in Hrd as (src & err & Hrd & ->).
  destruct (Hpos Hr) as (-> & Hd & Hlen). destruct (si_placed _ _ Hi) as [Hl _]. unfold is_buf_size in *.
  assert (Hz : zlen (mem_write (is_buf sg) (is_len sg) d) = zlen (is_buf sg)) by (apply zlen_mem_write; lia).
  apply (seg_inv_move a (set_err err (set_src src sg))); try done.
  unfold placed, is_buf_size. cbn. rewrite Hz. lia.
Qed.

Lemma seg_inv_fill a sg : seg_inv a sg -> seg_inv a (__apk_istream_fill sg).2.
Proof.
  intros Hi. destruct (Z.eq_dec (is_err sg) 0) as [He|He].
  2:{ unfold __apk_istream_fill. destruct (Z.eqb_spec (is_err sg) 0); done. }
  rewrite fill_compacted by done. destruct (_ && _); [done|].
  destruct (seg_inv_compacted a sg Hi) as (Hi' & Hl & Hp & Hb).
  pose proof (si_placed _ _ Hi') as [Hl0 Hwin]. rewrite Hp in Hwin.
  destruct (src_read (compacted sg) _) as [[r d] sg'] eqn:Hrd.
  destruct (Z.leb_spec r 0).
  - apply seg_inv_error. eapply seg_inv_read; [done| |done]. lia.
  - pose proof (seg_inv_store a (compacted sg) (is_buf_size (compacted sg) - is_len (compacted sg)) r d sg' Hi' Hp
      ltac:(lia) ltac:(lia) Hrd ltac:(lia)) as Hst.
    apply src_read_inv in Hrd as (src & err & _ & ->). rewrite <- Hp in Hst. exact Hst.
Qed.

#[export] Instance seg_inv_stream a : StreamInv (seg_inv a).
Proof.
  constructor.
  - apply si_placed.
  - apply si_buf.
  - apply seg_inv_advance.
  - intros sg e Hi _ _. by apply seg_inv_err.
  - apply seg_inv_reset.
  - apply seg_inv_fill.
  - intros sg size r d sg' Hi Hsize Hrd. destruct (seg_inv_read a sg size r d sg' Hi ltac:(lia) Hrd) as [Hi' Hpos].
    split; [done|]. intros Hr. destruct (Hpos Hr). lia.
  - intros sg size d sg' Hi Hsize Hrd _. apply seg_inv_err. by destruct (seg_inv_read a sg size 0 d sg' Hi ltac:(lia) Hrd).
  - intros sg r d sg' Hi Hl He Hrd Hr. pose proof (zlen_nonneg (is_buf sg)).
    apply src_read_inv in Hrd as (src & err & Hrd & ->).
    pose proof (seg_inv_store a (set_window (is_buf sg) (Some 0) 0 sg) (is_buf_size sg) r d
      (set_err err (set_src src (set_window (is_buf sg) (Some 0) 0 sg))) (seg_inv_reset a sg Hi) eq_refl) as Hst.
    apply Hst; try done. unfold src_read. cbn [is_src is_err set_window]. by rewrite Hrd.
Qed.

Lemma client_seg_inv a sg sg' : client sg sg' -> seg_inv a sg -> seg_inv a sg'.
Proof. exact (client_inv (seg_inv a) sg sg'). Qed.

(** ** Opening and closing *)

Lemma segment_inv (st : apk_istream S) a len mtime :
  sim st a -> 0 < a_cap a -> 0 <= len <= zlen (a_rest a) -> seg_inv (a_drop len a) (apk_istream_segment st len mtime).
Proof.
  intros Hsim Hcap Hlen. pose proof Hsim as [Hok Hr Hf He Hc]. pose proof (window_len st Hok) as Hwl.
  pose proof Hok as [Hs _ _ _ Hl Hw]. rewrite <- Hc in Hcap. unfold apk_istream_segment.
  destruct (Z.ltb_spec len (is_len st)) as [Hlt|Hge].
  - assert (Ep : parent (Istream (Segment (advance len st) 0 mtime) (is_buf st) (is_ptr st) len 0) = advance len st) by done.
    constructor; [|done|done| |].
    + unfold placed. cbn. destruct (is_ptr st); unfold is_buf_size in *; cbn; lia.
    + rewrite Ep. exists (a_drop len a). split_and!; [apply advance_sim; [done|lia]|unfold left_of; cbn|auto with apk].
      unfold a_drop. cbn. by rewrite zdrop_0.
    + right. split; [done|]. cbn. unfold seg_end. cbn. destruct (is_ptr st) as [p|]; [|lia]. exists (p + len).
      cbn. split; [done|lia].
  - assert (Hrl : zlen (a_rest a) = is_len st + zlen (content (is_src st)).1).
    { rewrite <- Hr. unfold rest. autorewrite with apk. lia. }
    constructor; [exact (conj Hl Hw)|done|unfold left_of; cbn; lia| |by left].
    exists (a_drop (is_len st) a). split_and!.
    + constructor; cbn; try done.
      * destruct Hok. constructor; done.
      * unfold rest, window. cbn. rewrite <- Hr. unfold rest. rewrite <- Hwl at 1. by rewrite zdrop_app.
    + unfold left_of. cbn. rewrite a_drop_drop by lia. f_equal. lia.
    + unfold left_of. cbn. rewrite zlen_zdrop_max by lia. lia.
Qed.

Lemma segment_close_spec a sg :
  seg_inv a sg -> exists st, segment_close sg = Some (if is_err sg <? 0 then is_err sg else 0, st) /\ sim st a.
Proof.
  intros [Hp _ Hl (b & Hb & -> & Hle) Hbuf]. unfold segment_close. fold (parent sg). fold (left_of sg).
  change (set_window (is_buf sg) (is_ptr (sg_pis (is_src sg))) (is_len (sg_pis (is_src sg))) (sg_pis (is_src sg))) with (parent sg).
  destruct (Z.eqb_spec (left_of sg) 0) as [E|E]; cbn [negb].
  - cbn. eexists. split; [done|]. rewrite E. unfold a_drop. rewrite zdrop_0. by destruct b.
  - destruct (skip_spec (parent sg) b (left_of sg) Hb Hl) as (r & st & -> & Hres). cbn.
    eexists. split; [done|]. destruct (Z.leb_spec (left_of sg) (zlen (a_rest b))); [|lia]. by destruct Hres.
Qed.
End segment.
