(* ===== verification/StreamProps.v ===== *)
(** The properties of streams (Stream.v): files deliver their bytes whatever the pieces the kernel
    returns, segments are separate from their parents, text is cut into the lines that the
    readers of indexes see, verified streams compare the digest of everything that was read,
    and files that are written appear under their name only when they are complete. *)
From Stdlib Require Import ZArith Lia.
From stdpp Require Import base numbers list option.
From S2P Require Import Prelude Clib Blob Codec Dep AdbTrust Index Stream StreamThm StreamSeg.

(** ** Reading a file *)

(** C21: a stream over a file descriptor behaves like the sequence of bytes of the file: for every
    way in which the kernel cuts the file into pieces, every size of the buffer and every sequence
    of reads, peeks, searches for separators and skips, up to and including the first error,
    the results are those of the abstract stream, and every operation returns.  So no byte is
    lost, repeated or reordered by the buffer. *)
Theorem apk_istream_refines (f : fd_file) (bufsize : Z) (ops : list stream_op) :
  fd_fin f <= 0 -> 0 < bufsize -> Forall op_ok ops ->
  run (apk_istream_from_fd bufsize f) ops = Some (arun (AS (fd_data f) (fd_fin f) false bufsize) ops).
Proof. intros Hf Hb Hops. by apply run_spec; [apply fd_sim|]. Qed.

Lemma apk_istream_refines_witness :
  let f := FdFile [1; 2; 3; 10; 5; 6; 7; 8; 9] [2; 1; 3; 1] 0 in
  let ops := [OPeek 2; OReadMax 1; OGetDelim [10]; OSkip 1; OGet 2; OReadMax 5; OReadMax 1; OPeek 1] in
  run (apk_istream_from_fd 4 f) ops = Some (arun (AS (fd_data f) (fd_fin f) false 4) ops) /\
  arun (AS (fd_data f) (fd_fin f) false 4) ops =
    [(0, Some [1; 2]); (1, Some [1]); (0, Some [2; 3]); (1, None); (0, Some [6; 7]); (2, Some [8; 9]); (0, Some []);
     (- APKE_EOF, None)].
Proof.
  cbv zeta. split; [|reflexivity]. apply apk_istream_refines; [cbn; lia|lia|].
  repeat constructor; cbn; lia.
Defined.

(** ** Segments *)

Section segments.
Context {S : Type} `{HS : IstreamOk S}.

(** C22: a segment of [len] bytes of a stream has exactly the next [len] bytes, and ends with an error
    when the stream ends before it.  Although the segment works in the buffer of the stream, the
    stream continues after the segment, whatever its client did: when the segment is closed,
    what is left of the stream is what comes after the [len] bytes, none of it overwritten. *)
Theorem apk_istream_segment_exact (st : apk_istream S) (a : astream) (len mtime : Z) :
  sim st a -> 0 < a_cap a -> 0 <= len ->
  (forall ops, Forall op_ok ops -> run (apk_istream_segment st len mtime) ops = Some (arun (a_segment len a) ops)) /\
  (len <= zlen (a_rest a) ->
   forall sg, client (apk_istream_segment st len mtime) sg ->
   exists r st', segment_close sg = Some (r, st') /\ sim st' (a_drop len a)).
Proof.
  intros Hsim Hcap Hlen. split.
  - intros ops Hops. apply run_spec; [by apply segment_sim|done].
  - intros Hle sg Hsg. pose proof (segment_inv st a len mtime Hsim Hcap ltac:(lia)) as Hi.
    destruct (segment_close_spec _ sg (client_seg_inv _ _ _ Hsg Hi)) as (st' & Hc & Hs). eauto.
Qed.
End segments.

Lemma apk_istream_segment_exact_witness :
  let st := apk_istream_from_fd 4 (FdFile [1; 2; 3; 4; 5; 6; 7; 8] [3; 2] 0) in
  let a := AS [1; 2; 3; 4; 5; 6; 7; 8] 0 false 4 in
  run (apk_istream_segment st 5 0) [OReadMax 2; OReadMax 9] = Some [(2, Some [1; 2]); (3, Some [3; 4; 5])] /\
  exists sg r st', client (apk_istream_segment st 5 0) sg /\ segment_close sg = Some (r, st') /\ sim st' (a_drop 5 a).
Proof.
  cbv zeta.
  assert (Hsim : sim (apk_istream_from_fd 4 (FdFile [1; 2; 3; 4; 5; 6; 7; 8] [3; 2] 0)) (AS [1; 2; 3; 4; 5; 6; 7; 8] 0 false 4)).
  { apply (fd_sim (FdFile [1; 2; 3; 4; 5; 6; 7; 8] [3; 2] 0) 4); cbn; lia. }
  destruct (apk_istream_segment_exact _ _ 5 0 Hsim ltac:(cbn; lia) ltac:(lia)) as [Hrun Hclose]. split.
  - rewrite Hrun; [reflexivity|repeat constructor; cbn; lia].
  - destruct (istep (apk_istream_segment (apk_istream_from_fd 4 (FdFile [1; 2; 3; 4; 5; 6; 7; 8] [3; 2] 0)) 5 0) (OGet 1)) as [res|] eqn:E.
    2:{ vm_compute in E. discriminate. }
    exists res.2. destruct (Hclose ltac:(by vm_compute) res.2) as (r & st' & Hc & Hs).
    + eapply client_op; [|exact E|constructor]. cbn. lia.
    + exists r, st'. split; [|done]. eapply client_op; [|exact E|constructor]. cbn. lia.
Defined.

(** ** Lines *)

(** The loop of the readers of text: lines until apk_istream_get_delim fails; the lines and the
    last result. *)
Fixpoint stream_lines {S} `{IstreamOps S} (fuel : nat) (st : apk_istream S) : option (list bytes * Z) :=
  match fuel with
  | O => None
  | Datatypes.S fuel =>
      '(r, d, st) ← apk_istream_get_delim st [10];
      if r =? 0 then '(ls, e) ← stream_lines fuel st; Some (blob_data d :: ls, e) else Some ([], r)
  end.

Lemma stream_lines_S {S} `{IstreamOps S} n (st : apk_istream S) :
  stream_lines (Datatypes.S n) st =
    ('(r, d, st) ← apk_istream_get_delim st [10];
     if r =? 0 then '(ls, e) ← stream_lines n st; Some (blob_data d :: ls, e) else Some ([], r)).
Proof. done. Qed.

(** What ends the lines: an error, or the end of the stream. *)
Definition lines_end (e : Z) : Z := if e =? 0 then - APKE_EOF else e.

(** The lines of [istream_lines] (Index.v), also when one of them does not fit in the buffer. *)
Lemma stream_lines_fitting {S} `{HS : IstreamOk S} n (st : apk_istream S) a :
  sim st a -> a_eof a = false -> a_fin a = 0 -> (length (a_rest a) < n)%nat ->
  stream_lines (Datatypes.S n) st = let '(ls, e) := fitting (a_cap a) (get_delims n [10] (a_rest a)) in Some (ls, lines_end e).
Proof.
  revert st a. induction n as [|n IH]; intros st a Hsim Heof Hfin Hlen; [lia|].
  rewrite stream_lines_S. cbn [get_delims] in *.
  destruct (get_delim_spec st a [10] Hsim) as (r & d & st' & -> & Hr & Hpos). cbn [mbind option_bind].
  cbn [astep] in Hr, Hpos. rewrite Heof in *. cbn [andb] in *. unfold a_delim in *.
  destruct (apk_blob_split (Some (a_rest a)) [10]) as [[x y]|] eqn:Esp; cbn [fitting].
  - change (zlen [10]) with 1 in *. destruct (Z.leb_spec (zlen x + 1) (a_cap a)), (Z.leb_spec (a_cap a) (zlen x)); try lia.
    + cbn in Hr, Hpos. subst r. destruct (Hpos ltac:(lia)) as [-> Hs]. cbn [Z.eqb]. pose proof (split_len _ _ _ _ Esp) as Hl. change (zlen [10]) with 1 in Hl.
      rewrite (IH st' _ Hs); [cbn [a_cap a_rest]|done|done|cbn; unfold zlen in Hl; lia]. by destruct (fitting _ _).
    + cbn in Hr. by subst r.
  - rewrite Heof in *. cbn [negb andb] in *. destruct (Z.leb_spec (a_cap a) (zlen (a_rest a))); [cbn in Hr; by subst r|].
    rewrite Hfin in *. cbn in Hr, Hpos. subst r. destruct (Hpos ltac:(lia)) as [-> Hs]. cbn [Z.eqb]. rewrite stream_lines_S.
    destruct (get_delim_spec st' _ [10] Hs) as (r & d & st2 & -> & -> & _). done.
Qed.

(** Reading a file line by line gives the lines that the readers of indexes and of the installed database are given. *)
Lemma istream_lines_of_file (f : fd_file) (bufsize : Z) :
  fd_fin f = 0 -> 0 < bufsize ->
  stream_lines (length (fd_data f) + 2) (apk_istream_from_fd bufsize f) = let '(ls, e) := istream_lines bufsize (fd_data f) in Some (ls, lines_end e).
Proof.
  intros Hf Hb. replace (length (fd_data f) + 2)%nat with (Datatypes.S (Datatypes.S (length (fd_data f)))) by lia.
  apply (stream_lines_fitting _ _ (AS (fd_data f) (fd_fin f) false bufsize)); try done; [|cbn; lia].
  apply fd_sim; lia.
Qed.

(** C34: reading a text line by line from a file gives the lines of the text, as the reader of
    indexes takes them ([apk_index_roundtrip]), for every way in which the kernel cuts the file
    into pieces, as long as every line is shorter than the buffer; and then it ends with the end of
    the file. *)
Theorem apk_istream_lines_any_pieces (f : fd_file) (bufsize : Z) :
  fd_fin f = 0 -> 0 < bufsize -> Forall (fun l => zlen l < bufsize) (apk_istream_lines (fd_data f)) ->
  stream_lines (length (fd_data f) + 2) (apk_istream_from_fd bufsize f) = Some (apk_istream_lines (fd_data f), - APKE_EOF).
Proof.
  intros Hf Hb Hls. rewrite istream_lines_of_file by done. unfold istream_lines. pose proof (fitting_spec bufsize (apk_istream_lines (fd_data f))) as H.
  assert (Hall : forallb (fun x => zlen x <? bufsize) (apk_istream_lines (fd_data f)) = true).
  { apply forallb_forall. intros x Hx. rewrite List.Forall_forall in Hls. apply Z.ltb_lt. by apply Hls. }
  rewrite Hall in H. by rewrite H.
Qed.

Lemma apk_istream_lines_any_pieces_witness :
  let f := FdFile [65; 10; 66; 67; 10; 10; 68] [1; 3; 1; 1] 0 in
  stream_lines 9 (apk_istream_from_fd 3 f) = Some ([[65]; [66; 67]; []; [68]], - APKE_EOF).
Proof.
  cbv zeta. apply (apk_istream_lines_any_pieces (FdFile [65; 10; 66; 67; 10; 10; 68] [1; 3; 1; 1] 0) 3); [done|lia|].
  vm_compute. repeat constructor.
Defined.

(** ** Verified streams *)

Section verify.
Context {S : Type} `{HS : IstreamOk S} {pkey : Type} `{!Crypto pkey}.

(** What was not fetched from the source yet. *)
Definition unfetched (st : apk_istream (digest_istream S)) : bytes := (content (is_src (dis_pis (is_src st)))).1.

Definition dis_inv (total : bytes) (d : apk_digest) (dis : digest_istream S) : Prop :=
  src_ok (is_src (dis_pis dis)) /\ content (is_src (dis_pis dis)) = (zdrop (zlen (dis_data dis)) total, 0) /\
  dis_data dis = ztake (zlen (dis_data dis)) total /\
  dis_size_left dis = u64 (zlen total - zlen (dis_data dis)) /\ dis_digest dis = Some d /\ dis_alg dis = d_alg d.

Lemma dis_inv_read total d dis err size r data dis' err' :
  dis_inv total d dis -> 0 < size -> ops_read dis err size = (r, data, dis', err') ->
  dis_inv total d dis' /\ (0 < r -> r = zlen data /\ zlen data <= size).
Proof.
  intros (Hs & Hc & Hd & Hl & Hdig & Halg) Hsize. unfold ops_read, digest_read.
  destruct (decide ((content (is_src (dis_pis dis))).1 = [])) as [Hn|Hn].
  - destruct (src_read_end (dis_pis dis) size Hs Hsize Hn) as (s' & -> & Hs' & Hc'). rewrite Hc. cbn. intros [= <- <- <- <-].
    split; [|lia]. split_and!; cbn; try done. by rewrite Hc'.
  - destruct (src_read_some (dis_pis dis) size Hs Hsize Hn) as (x & s' & -> & Hx & Hle & Hs' & Hc').
    pose proof (zlen_pos _ Hx). destruct (Z.ltb_spec 0 (zlen x)); [|lia]. intros [= <- <- <- <-]. split; [|done].
    rewrite Hc in Hc'. injection Hc' as Ht Hf. pose proof (zlen_nonneg (dis_data dis)).
    assert (Htot : total = dis_data dis ++ x ++ (content s').1) by (rewrite Hd at 1; by rewrite <- Ht, ztake_zdrop).
    split_and!; cbn; try done; autorewrite with apk.
    + rewrite Htot, zdrop_app_ge by lia. rewrite zdrop_app_ge by lia.
      replace (zlen (dis_data dis) + zlen x - zlen (dis_data dis) - zlen x) with 0 by lia. rewrite zdrop_0, Hf.
      by destruct (content s').
    + rewrite Htot at 1. rewrite app_assoc. replace (zlen (dis_data dis) + zlen x) with (zlen (dis_data dis ++ x)) by (by autorewrite with apk).
      by rewrite ztake_app.
    + rewrite Hl. unfold wrap. rewrite Zminus_mod_idemp_l. f_equal. lia.
Qed.

#[local] Instance dis_source_inv total d : SourceInv (fun dis _ => dis_inv total d dis).
Proof.
  constructor.
  - intros dis err size r data dis' err'. apply dis_inv_read.
  - done.
  - intros dis err size data dis' err' Hi Hs Hrd _. by apply (dis_inv_read _ _ _ _ _ _ _ _ _ Hi Hs Hrd).
Qed.

(** C35: closing a stream that apk_istream_verify made of the bytes of a file returns an error of the
    stream if there was one, and otherwise 0 exactly if the digest of the whole file is the
    expected one or part of the file was never fetched; the digest covers the bytes that were
    buffered before, and does not depend on how the client read them. *)
Theorem apk_istream_verify_exact (st : apk_istream S) (a : astream) (d : apk_digest) (st' : apk_istream (digest_istream S)) :
  sim st a -> 0 < a_cap a -> a_fin a = 0 -> zlen (a_rest a) < 2 ^ 64 ->
  client (apk_istream_verify st (zlen (a_rest a)) d) st' ->
  (digest_close st').1 =
    if is_err st' <? 0 then is_err st'
    else if (zlen (unfetched st') =? 0) && negb (apk_digest_cmp (digest_final (d_alg d) (a_rest a)) d =? 0)
         then - APKE_FILE_INTEGRITY else 0.
Proof.
  intros Hsim Hcap Hfin Hsize Hcl. pose proof Hsim as [Hok Hr Hf He Hc]. pose proof (window_len st Hok) as Hwl.
  pose proof (ok_len st Hok) as Hl0.
  assert (Hi : src_inv (fun dis _ => dis_inv (a_rest a) d dis) (a_cap a) (apk_istream_verify st (zlen (a_rest a)) d)).
  { split; [exact (conj (ok_len st Hok) (ok_win st Hok))|]. split; [cbn; unfold is_buf_size in *; cbn; lia|].
    split_and!; cbn; try done; [apply Hok| | |]; rewrite <- ?Hr; unfold rest.
    - rewrite zdrop_app. unfold fin in Hf. destruct (content (is_src st)). cbn in *. congruence.
    - by rewrite ztake_app.
    - by rewrite Hwl. }
  pose proof (client_inv _ (StreamInv0 := src_inv_stream _ (HQ := dis_source_inv (a_rest a) d) (a_cap a)) _ _ Hcl Hi) as (_ & _ & Hs & Hcont & Hd & Hl & Hdig & Halg).
  unfold digest_close, unfetched. rewrite Hdig, Hl, Hcont, Halg. cbn [fst].
  set (n := zlen (dis_data (is_src st'))) in *.
  assert (Hn : 0 <= n <= zlen (a_rest a)).
  { apply (f_equal zlen) in Hd. fold n in Hd. pose proof (zlen_nonneg (dis_data (is_src st'))).
    rewrite zlen_ztake_min in Hd by (subst n; lia). subst n. lia. }
  rewrite (wrap_small 64) by lia. rewrite zlen_zdrop_max, Z.max_r by lia.
  destruct (Z.eqb_spec (zlen (a_rest a) - n) 0) as [E|E]; cbn [andb].
  - rewrite Hd, ztake_all by lia. destruct (apk_digest_cmp _ d =? 0); cbn [negb]; cbn [set_src is_err fst]; [done|].
    unfold apk_istream_error. change (negb (- APKE_FILE_INTEGRITY =? 0)) with true. rewrite andb_true_r.
    destruct (Z.leb_spec 0 (is_err st')), (Z.ltb_spec (is_err st') 0); try lia; cbn; [done|].
    destruct (Z.ltb_spec (is_err st') 0); [done|lia].
  - done.
Qed.
End verify.

#[local] Existing Instance toy_crypto.

Definition verify_file : fd_file := FdFile [1; 2; 3; 4; 5; 6; 7] [3; 2] 0.
Definition verify_stream : apk_istream (digest_istream fd_file) :=
  apk_istream_verify (apk_istream_from_fd 4 verify_file) 7 (digest_final (pkey := Z) APK_DIGEST_SHA256 [1; 2; 3; 4; 5; 6; 8]).

Lemma apk_istream_verify_exact_witness :
  exists st', client verify_stream st' /\ (digest_close (pkey := Z) st').1 = - APKE_FILE_INTEGRITY.
Proof.
  destruct (istep verify_stream (OReadMax 7)) as [res|] eqn:E; [|vm_compute in E; discriminate].
  assert (Hcl : client verify_stream res.2) by (eapply client_op; [|exact E|constructor]; cbn; lia).
  exists res.2. split; [exact Hcl|].
  rewrite (apk_istream_verify_exact (pkey := Z) (apk_istream_from_fd 4 verify_file) (AS [1; 2; 3; 4; 5; 6; 7] 0 false 4)
    (digest_final (pkey := Z) APK_DIGEST_SHA256 [1; 2; 3; 4; 5; 6; 8]) res.2).
  - revert E. vm_compute. intros [= <-]. reflexivity.
  - apply (fd_sim verify_file 4); cbn; lia.
  - cbn; lia.
  - reflexivity.
  - vm_compute. reflexivity.
  - exact Hcl.
Defined.

(** ** Writing files *)

Fixpoint fdo_writes (fos : apk_fd_ostream) (ds : list bytes) : option apk_fd_ostream :=
  match ds with
  | [] => Some fos
  | d :: ds => '(_, fos) ← fdo_write fos d; fdo_writes fos ds
  end.

Lemma write_fully_loop_spec fuel f d i :
  0 <= i <= zlen d -> zlen d - i < Z.of_nat fuel ->
  exists r f', write_fully_loop fuel f d i = Some (r, f') /\
    (r = zlen d -> wf_data f' = wf_data f ++ zdrop i d) /\ (wf_script f = [] -> r = zlen d /\ wf_script f' = []).
Proof.
  revert f i. induction fuel as [|fuel IH]; intros f i Hi Hf; [lia|]. cbn [write_fully_loop].
  destruct (Z.ltb_spec i (zlen d)) as [Hlt|Hge].
  2:{ assert (i = zlen d) as -> by lia. eexists _, _. split; [done|]. rewrite zdrop_all, app_nil_r by lia. done. }
  assert (Hdl : zlen (zdrop i d) = zlen d - i) by (rewrite zlen_zdrop; lia).
  unfold sys_write. destruct (wf_script f) as [|n script] eqn:Es.
  - destruct (Z.leb_spec (zlen (zdrop i d)) 0); [lia|]. rewrite Hdl. replace (i + (zlen d - i)) with (zlen d) by lia.
    destruct (IH (WFile (wf_data f ++ zdrop i d) []) (zlen d) ltac:(lia) ltac:(lia)) as (r & f' & -> & Hr & Hs).
    eexists _, _. split; [done|]. split; [|by auto]. intros E. rewrite (Hr E). cbn. by rewrite (zdrop_all (zlen d)), app_nil_r by lia.
  - destruct (Z.ltb_spec n 0).
    { destruct (Z.leb_spec n 0); [|lia]. destruct (Z.eqb_spec n 0); [lia|]. eexists _, _. split; [done|]. split; [lia|done]. }
    destruct (Z.leb_spec (Z.min n (zlen (zdrop i d))) 0).
    { destruct (Z.eqb_spec (Z.min n (zlen (zdrop i d))) 0); [|lia]. eexists _, _. split; [done|]. split; [lia|done]. }
    set (k := Z.min n (zlen (zdrop i d))) in *.
    destruct (IH (WFile (wf_data f ++ ztake k (zdrop i d)) script) (i + k) ltac:(lia) ltac:(lia)) as (r & f' & -> & Hr & Hs).
    eexists _, _. split; [done|]. split; [|done]. intros E. rewrite (Hr E). cbn. rewrite <- app_assoc. f_equal.
    rewrite <- (ztake_zdrop k (zdrop i d)) at 2. by rewrite zdrop_zdrop, Z.add_comm by lia.
Qed.

Lemma write_fully_spec f d :
  exists r f', apk_write_fully f d = Some (r, f') /\
    (r = zlen d -> wf_data f' = wf_data f ++ d) /\ (wf_script f = [] -> r = zlen d /\ wf_script f' = []).
Proof.
  pose proof (zlen_nonneg d). unfold apk_write_fully.
  destruct (write_fully_loop_spec (Datatypes.S (length d)) f d 0 ltac:(lia) ltac:(unfold zlen; lia)) as (r & f' & -> & Hr & Hs).
  rewrite zdrop_0 in Hr. eauto 10.
Qed.

(** The buffer has room for what is stored in it, and without an error the file and the buffer
    hold everything that was written; [good] if no call of write fails. *)
Definition fos_ok (total : bytes) (good : bool) (fos : apk_fd_ostream) : Prop :=
  zlen (fos_buffer fos) < FOS_BUFFER /\
  (fos_rc fos = 0 -> wf_data (fos_fd fos) ++ fos_buffer fos = total) /\
  (good = true -> fos_rc fos = 0 /\ wf_script (fos_fd fos) = []).

Lemma fos_cancel_ok total fos e :
  e <> 0 -> zlen (fos_buffer fos) < FOS_BUFFER -> fos_ok total false (fos_cancel fos e).2.
Proof.
  intros He Hb. unfold fos_cancel, fos_ok. destruct (Z.eqb_spec (fos_rc fos) 0); cbn; split_and!; done || lia.
Qed.

Lemma fdo_flush_spec total good fos :
  fos_ok total good fos ->
  exists r fos', fdo_flush fos = Some (r, fos') /\ fos_ok total good fos' /\
    (r = 0 -> fos_buffer fos' = []) /\ (r <> 0 -> fos_rc fos' <> 0).
Proof.
  intros Hok. pose proof Hok as (Hb & Hd & Hg). unfold fdo_flush.
  destruct (Z.ltb_spec (fos_rc fos) 0); [eexists _, _; split; [done|]; split_and!; try done; lia|].
  destruct (Z.eqb_spec (zlen (fos_buffer fos)) 0) as [E|E].
  { apply zlen_0_nil in E. eexists _, _; split; [done|]. by split_and!. }
  destruct (write_fully_spec (fos_fd fos) (fos_buffer fos)) as (r & f' & -> & Hr & Hs). cbn [mbind option_bind].
  cbn [fos_buffer]. destruct (Z.eqb_spec r (zlen (fos_buffer fos))) as [->|Hne]; cbn [negb].
  - eexists _, _; split; [done|]. split_and!; try done.
    split; [by cbv|]. split.
    + intros E0. cbn. rewrite app_nil_r, Hr by done. by apply Hd.
    + intros Hgood. destruct (Hg Hgood) as [H1 H2]. cbn. split; [done|]. by apply Hs.
  - assert (He : (if r <? 0 then r else - ENOSPC) <> 0) by (destruct (Z.ltb_spec r 0); [lia|done]).
    destruct (fos_cancel _ _) as [r' fos'] eqn:Ec. eexists _, _; split; [done|].
    pose proof (fos_cancel_ok total (Fos (fos_rc fos) f' (fos_buffer fos)) _ He Hb) as Hok'. rewrite Ec in Hok'. cbn in Hok'.
    unfold fos_cancel in Ec. injection Ec as <- <-. destruct good.
    { destruct (Hg eq_refl) as [_ Hsc]. by destruct (Hs Hsc). }
    cbn [fos_rc] in *. split_and!; [exact Hok'|done|].
    intros _. by destruct (Z.eqb_spec (fos_rc fos) 0).
Qed.

Lemma fdo_write_spec total good fos d :
  fos_ok total good fos -> exists r fos', fdo_write fos d = Some (r, fos') /\ fos_ok (total ++ d) good fos' /\ (r <> 0 -> fos_rc fos' <> 0).
Proof.
  intros Hok. pose proof (zlen_nonneg d).
  assert (Hstore : forall fos, fos_ok total good fos -> zlen (fos_buffer fos) + zlen d < FOS_BUFFER ->
    fos_ok (total ++ d) good (Fos (fos_rc fos) (fos_fd fos) (fos_buffer fos ++ d))).
  { clear fos Hok. intros fos (Hb & Hd & Hg) Hlt. split_and!; try done; cbn.
    - autorewrite with apk. lia.
    - intros E. rewrite app_assoc, Hd by done. done. }
  unfold fdo_write. destruct (Z.leb_spec FOS_BUFFER (zlen d + zlen (fos_buffer fos))).
  2:{ eexists _, _. split; [done|]. split; [|done]. apply Hstore; [done|lia]. }
  destruct (fdo_flush_spec total good fos Hok) as (r & fos' & -> & Hok' & Hz & Hnz). cbn [mbind option_bind].
  destruct (Z.eqb_spec r 0) as [->|Hr]; cbn [negb].
  - specialize (Hz eq_refl). pose proof Hok' as (Hb & Hd & Hg). rewrite Hz, app_nil_r in *.
    destruct (Z.leb_spec (FOS_BUFFER / 2) (zlen d)) as [Hbig|Hsmall].
    + destruct (write_fully_spec (fos_fd fos') d) as (r & f' & -> & Hr & Hs). cbn [mbind option_bind].
      destruct (Z.eqb_spec r (zlen d)) as [->|Hne].
      * eexists _, _. split; [done|]. split; [|done]. split_and!; cbn; rewrite ?Hz; try done.
        -- intros E. by rewrite app_nil_r, Hr, Hd.
        -- intros Hgood. destruct (Hg Hgood). split; [done|]. by apply Hs.
      * destruct good; [destruct (Hg eq_refl) as [_ Hsc]; by destruct (Hs Hsc)|].
        assert (He : (if r <? 0 then r else - ENOSPC) <> 0) by (destruct (Z.ltb_spec r 0); [lia|done]).
        destruct (fos_cancel _ _) as [r' fos2] eqn:Ec. eexists _, _. split; [done|].
        change fos2 with (r', fos2).2. rewrite <- Ec. split; [by apply fos_cancel_ok|].
        intros _. unfold fos_cancel. cbn. by destruct (Z.eqb_spec (fos_rc fos') 0).
    + eexists _, _. split; [done|]. split; [|done]. pose proof (Hstore fos' Hok') as Hst. rewrite Hz in Hst. apply Hst.
      change (zlen (@nil Z)) with 0.
      change (FOS_BUFFER / 2) with 512 in Hsmall. unfold FOS_BUFFER. lia.
  - eexists _, _. split; [done|]. split; [|by auto]. destruct Hok' as (Hb & Hd & Hg). split_and!; try done.
    intros E. by destruct (Hnz Hr).
Qed.

Lemma fdo_writes_spec ds total good fos :
  fos_ok total good fos -> exists fos', fdo_writes fos ds = Some fos' /\ fos_ok (total ++ concat ds) good fos'.
Proof.
  revert total fos. induction ds as [|d ds IH]; intros total fos Hok; cbn [fdo_writes concat].
  - rewrite app_nil_r. eauto.
  - destruct (fdo_write_spec total good fos d Hok) as (r & fos' & -> & Hok' & _). cbn [mbind option_bind].
    rewrite app_assoc. by apply IH.
Qed.

Lemma fdo_close_spec total good fos named close_r rename_r :
  fos_ok total good fos ->
  exists rc out, fdo_close fos named close_r rename_r = Some (rc, out) /\
    match out with
    | Renamed c => named = true /\ c = total /\ rc = 0
    | Unlinked => named = true /\ rc <> 0
    | Kept c => (rc = 0 -> named = false /\ c = total) /\ (named = true -> rc <> 0)
    end /\
    (fos_rc fos <> 0 -> rc <> 0) /\
    (good = true -> 0 <= close_r -> 0 <= rename_r -> rc = 0).
Proof.
  intros Hok. unfold fdo_close.
  destruct (fdo_flush_spec total good fos Hok) as (r & fos' & Hfl & (Hb & Hd & Hg) & Hz & Hnz). rewrite Hfl. cbn [mbind option_bind].
  assert (Hrc : fos_rc fos <> 0 -> fos_rc fos' <> 0).
  { intros E. revert Hfl. unfold fdo_flush. case_match; [by intros [= <- <-]|]. case_match; [by intros [= <- <-]|].
    destruct (apk_write_fully _ _) as [[n f]|]; [|done]. cbn. case_match; unfold fos_cancel; cbn.
    - destruct (Z.eqb_spec (fos_rc fos) 0); [done|]. by intros [= <- <-].
    - by intros [= <- <-]. }
  set (fos2 := if close_r <? 0 then (fos_cancel fos' close_r).2 else fos').
  assert (H2 : fos_rc fos2 = 0 -> fos_rc fos' = 0 /\ wf_data (fos_fd fos2) = total).
  { intros E. assert (fos2 = fos') as E2.
    { subst fos2. destruct (Z.ltb_spec close_r 0); [|done]. unfold fos_cancel in *. cbn in *.
      destruct (Z.eqb_spec (fos_rc fos') 0); cbn in *; [lia|done]. }
    rewrite E2 in *. split; [done|]. destruct (Z.eq_dec r 0) as [Er|Er]; [|by destruct (Hnz Er)].
    rewrite <- Hd by done. by rewrite (Hz Er), app_nil_r. }
  assert (H3 : good = true -> 0 <= close_r -> fos_rc fos2 = 0).
  { intros E Hc. subst fos2. destruct (Z.ltb_spec close_r 0); [lia|]. by apply Hg. }
  destruct named; [destruct (Z.eqb_spec (fos_rc fos2) 0) as [E|E]; [destruct (Z.ltb_spec rename_r 0)|]|];
    eexists _, _; (split; [done|]).
  - split_and!; lia.
  - destruct (H2 E) as [H4 H5]. split_and!; try done. intros Hx. by destruct (Hrc Hx).
  - split_and!; try done. intros Hgood Hc _. by destruct (E (H3 Hgood Hc)).
  - split; [|split].
    + split; [|done]. intros E. by destruct (H2 E).
    + intros Hx E. destruct (H2 E) as [H4 _]. by destruct (Hrc Hx).
    + intros Hgood Hc _. by apply H3.
Qed.

(** C36: a file that is written with apk_ostream_to_file appears under its name completely or not at
    all: whatever calls of write, close and rename fail or store only a part, and even if the
    writer ignores the results of the writes, the temporary file is renamed only when it holds
    exactly the bytes that were written, in order, and then, and only then, closing returns 0.
    When no call fails it is renamed. *)
Theorem apk_ostream_to_file_atomic (ds : list bytes) (script : list Z) (close_r rename_r : Z) :
  exists fos rc out,
    fdo_writes (Fos 0 (WFile [] script) []) ds = Some fos /\
    fdo_close fos true close_r rename_r = Some (rc, out) /\
    match out with Renamed c => c = concat ds /\ rc = 0 | _ => rc <> 0 end /\
    (script = [] -> 0 <= close_r -> 0 <= rename_r -> rc = 0).
Proof.
  set (good := bool_decide (script = [])).
  assert (Hok : fos_ok [] good (Fos 0 (WFile [] script) [])).
  { split_and!; try done. intros E. by apply bool_decide_eq_true in E. }
  destruct (fdo_writes_spec ds [] good _ Hok) as (fos & Hw & Hok'). cbn [app] in Hok'. exists fos.
  destruct (fdo_close_spec _ _ fos true close_r rename_r Hok') as (rc & out & Hc & Hout & _ & Hgood).
  exists rc, out. split_and!; try done.
  - destruct out; [by destruct Hout as (_ & ? & ?)|by destruct Hout|destruct Hout as [_ Hn]; by apply Hn].
  - intros E. apply Hgood. by apply bool_decide_eq_true.
Qed.

(** ** Copying a stream to a file *)

Section copy.
Context {S : Type} `{HS : IstreamOk S}.

Lemma copy_loop_spec fuel (st : apk_istream S) a fos size done dctx :
  sim st (a_drop done a) -> 0 <= done <= size -> done <= zlen (a_rest a) -> size < APK_IO_ALL ->
  size - done < Z.of_nat fuel -> fos_ok (ztake done (a_rest a)) false fos -> dctx = ztake done (a_rest a) ->
  exists r st' fos' dctx', copy_loop fuel st fos size done dctx = Some (r, st', fos', dctx') /\
    zlen (fos_buffer fos') < FOS_BUFFER /\
    (fos_rc fos' = 0 -> size <= zlen (a_rest a) /\ r = s64 size /\ dctx' = ztake size (a_rest a) /\
       sim st' (a_drop size a) /\ fos_ok (ztake size (a_rest a)) false fos').
Proof.
  revert st fos done dctx. induction fuel as [|fuel IH]; intros st fos done dctx Hsim Hd Hle Hall Hf Hok Hdctx; [lia|].
  cbn [copy_loop]. destruct (Z.ltb_spec done size) as [Hlt|Hge].
  2:{ assert (done = size) as -> by lia. eexists _, _, _, _. split; [by auto|]. split; [apply Hok|].
      intros _. split_and!; try done; apply Hok. }
  assert (Hpos : 0 < Z.min (size - done) SSIZE_MAX) by (unfold SSIZE_MAX; lia).
  pose proof (get_max_spec st _ _ Hsim Hpos) as Hget.
  destruct (apk_istream_get_max st (Z.min (size - done) SSIZE_MAX)) as [[r d] st']. unfold next_piece in Hget.
  cbn [a_rest a_fin a_drop fst snd] in Hget. rewrite zlen_zdrop_max in Hget by lia.
  destruct (Z.eqb_spec (Z.max 0 (zlen (a_rest a) - done)) 0) as [E|E].
  - destruct Hget as [-> _]. unfold a_short. cbn [a_fin a_drop].
    assert (Hneg : (if a_fin a <? 0 then a_fin a else - APKE_EOF) < 0) by (destruct (Z.ltb_spec (a_fin a) 0); [lia|by cbv]).
    destruct (Z.ltb_spec (if a_fin a <? 0 then a_fin a else - APKE_EOF) 0); [|lia].
    destruct (Z.eqb_spec size APK_IO_ALL); [lia|]. rewrite andb_false_r.
    eexists _, _, _, _. split; [done|]. unfold os_cancel. cbn [snd os_rc_of fd_ostream_ops set_os_rc].
    destruct (Z.eqb_spec (fos_rc fos) 0); cbn; (split; [apply Hok|]); intros; lia.
  - destruct Hget as (-> & k & Hk & Hkl & -> & Hsim'). cbn [Z.ltb Z.compare].
    rewrite a_drop_drop in Hsim' by lia. unfold blob_len. cbn [blob_data ops_write fd_ostream_ops].
    destruct (fdo_write_spec _ false fos (ztake k (zdrop done (a_rest a))) Hok) as (r & fos' & -> & Hok' & Hrc). cbn [default id].
    replace k with (done + k - done) in Hok' at 1 by lia. rewrite <- (ztake_split done (done + k)) in Hok' by lia.
    assert (Hdc : dctx ++ ztake k (zdrop done (a_rest a)) = ztake (done + k) (a_rest a)).
    { rewrite Hdctx, (ztake_split done (done + k)) by lia. do 2 f_equal. lia. }
    destruct (Z.ltb_spec r 0).
    + eexists _, _, _, _. split; [done|]. split; [apply Hok'|]. intros E0. destruct Hrc; [lia|done].
    + rewrite zlen_ztake by (rewrite zlen_zdrop_max; lia). apply IH; try done; lia.
Qed.

(** a file that is unpacked from a stream (apk_stream_copy to a new file, and closing it, as
    fsys_file_extract does) is complete whenever closing it returns 0: it then holds exactly
    the next [size] bytes of the stream and the stream continues after them, for all pieces in
    which the bytes are read and written; if the stream ends early or any call fails, closing
    it returns an error, so that the result of the copy itself need not be looked at. *)
Theorem apk_stream_copy_complete (st : apk_istream S) (a : astream) (size : Z) (script : list Z) (close_r : Z) :
  sim st a -> 0 <= size < APK_IO_ALL ->
  exists r st' fos dctx rc c,
    apk_stream_copy (Z.to_nat size + 1) st (Fos 0 (WFile [] script) []) size = Some (r, st', fos, dctx) /\
    fdo_close fos false close_r 0 = Some (rc, Kept c) /\
    (rc = 0 -> c = ztake size (a_rest a) /\ size <= zlen (a_rest a) /\ dctx = c /\ sim st' (a_drop size a)).
Proof.
  intros Hsim Hsize.
  assert (Hok : fos_ok (ztake 0 (a_rest a)) false (Fos 0 (WFile [] script) [])) by done.
  assert (Hsim0 : sim st (a_drop 0 a)) by (unfold a_drop; rewrite zdrop_0; by destruct a).
  destruct (copy_loop_spec (Z.to_nat size + 1) st a _ size 0 [] Hsim0 ltac:(lia) (zlen_nonneg _) ltac:(lia) ltac:(lia) Hok eq_refl)
    as (r & st' & fos & dctx & Hcp & Hb & Hres).
  assert (Hok' : fos_ok (ztake size (a_rest a)) false fos).
  { split_and!; try done. intros E. destruct (Hres E) as (_ & _ & _ & _ & _ & Hd & _). by apply Hd. }
  destruct (fdo_close_spec _ _ fos false close_r 0 Hok') as (rc & out & Hc & Hout & Hrc & _).
  destruct out as [c| |c]; [by destruct Hout|by destruct Hout|].
  exists r, st', fos, dctx, rc, c. split; [done|]. split; [done|]. intros E.
  destruct Hout as [Hkept _]. destruct (Hkept E) as [_ ->].
  assert (Hz : fos_rc fos = 0) by (destruct (Z.eq_dec (fos_rc fos) 0) as [|Hx]; [done|by destruct (Hrc Hx)]).
  destruct (Hres Hz) as (? & _ & ? & ? & _). done.
Qed.
End copy.

Lemma apk_stream_copy_complete_witness :
  exists r st' fos dctx,
    apk_stream_copy 6 (apk_istream_from_fd 4 verify_file) (Fos 0 (WFile [] [2; 1]) []) 5 = Some (r, st', fos, dctx) /\
    fdo_close fos false 0 0 = Some (0, Kept [1; 2; 3; 4; 5]).
Proof.
  destruct (apk_stream_copy_complete (apk_istream_from_fd 4 verify_file) (AS [1; 2; 3; 4; 5; 6; 7] 0 false 4) 5 [2; 1] 0)
    as (r & st' & fos & dctx & rc & c & Hcp & Hc & Hres).
  - apply (fd_sim verify_file 4); cbn; lia.
  - by vm_compute.
  - exists r, st', fos, dctx. split; [exact Hcp|]. rewrite Hc. revert Hc Hcp. vm_compute. intros Hc [= <- <- <- <-].
    cbn in Hc. injection Hc as <- <-. reflexivity.
Defined.

(** apk_ostream_fmt compares the length with > where the buffer has one character less, so a text of
    exactly 2048 characters is written with a NUL in the place of its last character. *)
Lemma apk_ostream_fmt_spec {O} `{OstreamOps O} (os : O) (text : bytes) :
  apk_ostream_fmt os text =
    if zlen text <=? 2047 then ops_write os text
    else if zlen text =? 2048 then ops_write os (ztake 2047 text ++ [0])
    else os_cancel os (- ENOBUFS).
Proof.
  unfold apk_ostream_fmt. destruct (Z.leb_spec (zlen text) 2047), (Z.ltb_spec 2048 (zlen text)); try lia.
  - f_equal. rewrite (ztake_all 2047) by lia. by rewrite ztake_app.
  - destruct (Z.eqb_spec (zlen text) 2048); [lia|done].
  - destruct (Z.eqb_spec (zlen text) 2048) as [E|]; [|lia]. f_equal. apply ztake_all.
    autorewrite with apk. rewrite zlen_ztake by lia. change (zlen (@nil Z)) with 0. lia.
Qed.
