(* ===== verification/Tar.v ===== *)
(** Tar archives (tar.c): headers with octal numbers, the reader with its extended headers, and the
    writer.  The reader keeps names as pointers into four buffers (the header, the joined file
    name, the long name and the extended header), which are part of its state; a pointer into an
    extended header that was reallocated is invalid. *)
From Stdlib Require Import ZArith Lia Ascii String.
From stdpp Require Import base numbers list option.
From S2P Require Import Prelude Clib Blob Codec Dep AdbTrust Stream.

Definition ENAMETOOLONG : Z := 36.
Definition PATH_MAX : Z := 4096.
Definition S_IFMT : Z := 0xf000.
Definition S_IFIFO : Z := 0x1000.
Definition S_IFCHR : Z := 0x2000.
Definition S_IFDIR : Z := 0x4000.
Definition S_IFBLK : Z := 0x6000.
Definition S_IFREG : Z := 0x8000.
Definition S_IFLNK : Z := 0xa000.

(** makedev of the C library. *)
Definition makedev (maj min : Z) : Z :=
  ((maj .& 0xfffff000) .<< 32) .| ((maj .& 0xfff) .<< 8) .| ((min .& 0xffffff00) .<< 12) .| (min .& 0xff).

(** ** Headers *)

Record tar_header := TarHeader {
  h_name : bytes; h_mode : bytes; h_uid : bytes; h_gid : bytes; h_size : bytes; h_mtime : bytes; h_chksum : bytes;
  h_typeflag : Z; h_linkname : bytes; h_magic : bytes; h_uname : bytes; h_gname : bytes;
  h_devmajor : bytes; h_devminor : bytes; h_prefix : bytes; h_padding : bytes
}.

(** The layout of the structure in memory. *)
Definition hdr_bytes (h : tar_header) : bytes :=
  h_name h ++ h_mode h ++ h_uid h ++ h_gid h ++ h_size h ++ h_mtime h ++ h_chksum h ++ [h_typeflag h] ++ h_linkname h ++
  h_magic h ++ h_uname h ++ h_gname h ++ h_devmajor h ++ h_devminor h ++ h_prefix h ++ h_padding h.

Definition hdr_field (b : bytes) (off len : Z) : bytes := ztake len (zdrop off b).
Definition hdr_of (b : bytes) : tar_header := {|
  h_name := hdr_field b 0 100; h_mode := hdr_field b 100 8; h_uid := hdr_field b 108 8; h_gid := hdr_field b 116 8;
  h_size := hdr_field b 124 12; h_mtime := hdr_field b 136 12; h_chksum := hdr_field b 148 8;
  h_typeflag := List.hd 0 (hdr_field b 156 1); h_linkname := hdr_field b 157 100; h_magic := hdr_field b 257 8;
  h_uname := hdr_field b 265 32; h_gname := hdr_field b 297 32; h_devmajor := hdr_field b 329 8;
  h_devminor := hdr_field b 337 8; h_prefix := hdr_field b 345 155; h_padding := hdr_field b 500 12
|}.

Definition hdr_zero : tar_header := hdr_of (replicate 512 0).

(** ** Octal numbers *)

Fixpoint skip_blanks (b : bytes) : bytes :=
  match b with
  | c :: b' => if (c =? 0) || (c =? 0x20) then skip_blanks b' else b
  | [] => []
  end.

(** The value, and the error that is stored at [r], or 0. *)
Definition get_octal (s : bytes) : Z * Z :=
  let '(val, b) := apk_blob_pull_uint s 8 in
  (val, if zlen (skip_blanks b) =? 0 then 0 else - APKE_V2PKG_FORMAT).

(** The digits are stored from the end of the field; what does not fit is dropped. *)
Fixpoint put_digits (n : nat) (value : Z) (acc : bytes) : bytes :=
  match n with
  | O => acc
  | S n => if value =? 0 then put_digits n 0 (chr "0" :: acc)
           else put_digits n (value / 8) (chr "0" + value mod 8 :: acc)
  end.

Definition put_octal (l : Z) (value : Z) (has_zero : bool) : bytes :=
  if has_zero then put_digits (Z.to_nat (l - 1)) (u64 value) [0] else put_digits (Z.to_nat l) (u64 value) [].

(** ** File information *)

Record apk_xattr := Xattr { xa_name : bytes; xa_value : bytes }.

(** struct apk_file_info, as far as archives fill it; [None] for NULL. *)
Record apk_file_info := FileInfo {
  fi_name : bytes; fi_link_target : option bytes; fi_uname : option bytes; fi_gname : option bytes;
  fi_size : Z; fi_uid : Z; fi_gid : Z; fi_mode : Z; fi_mtime : Z; fi_device : Z;
  fi_digest : apk_digest; fi_xattr_digest : apk_digest; fi_xattrs : list apk_xattr
}.

(** A pointer to a name: buf.name, buf.linkname, filename, longname, or an offset in the extended
    header, with the number of the allocation it points into. *)
Inductive name_ref := NBuf | NLinkname | NFilename | NLongname | NPax (alloc : nat) (off : Z).

(** The entry while its header is read. *)
Record tar_entry := TarEntry {
  te_name : name_ref; te_link_target : option name_ref;
  te_size : Z; te_uid : Z; te_gid : Z; te_mode : Z; te_mtime : Z; te_device : Z;
  te_digest : apk_digest; te_xattr_digest : apk_digest; te_xattrs : list apk_xattr
}.

Definition te_set_name (n : name_ref) (e : tar_entry) : tar_entry :=
  TarEntry n (te_link_target e) (te_size e) (te_uid e) (te_gid e) (te_mode e) (te_mtime e) (te_device e)
    (te_digest e) (te_xattr_digest e) (te_xattrs e).
Definition te_set_link (n : name_ref) (e : tar_entry) : tar_entry :=
  TarEntry (te_name e) (Some n) (te_size e) (te_uid e) (te_gid e) (te_mode e) (te_mtime e) (te_device e)
    (te_digest e) (te_xattr_digest e) (te_xattrs e).
Definition te_add_mode (m : Z) (e : tar_entry) : tar_entry :=
  TarEntry (te_name e) (te_link_target e) (te_size e) (te_uid e) (te_gid e) (te_mode e .| m) (te_mtime e) (te_device e)
    (te_digest e) (te_xattr_digest e) (te_xattrs e).
Definition te_set_digests (d xd : apk_digest) (e : tar_entry) : tar_entry :=
  TarEntry (te_name e) (te_link_target e) (te_size e) (te_uid e) (te_gid e) (te_mode e) (te_mtime e) (te_device e)
    d xd (te_xattrs e).
Definition te_add_xattr (x : apk_xattr) (e : tar_entry) : tar_entry :=
  TarEntry (te_name e) (te_link_target e) (te_size e) (te_uid e) (te_gid e) (te_mode e) (te_mtime e) (te_device e)
    (te_digest e) (te_xattr_digest e) (te_xattrs e ++ [x]).

(** ** Extended headers *)

(** One record of an extended header: [mem] is the buffer, [hdr] what is left of the header and
    [off] its offset.  [None] is an invalid access (apk_blob_pull_hexdump), [Some None] the end
    of the loop. *)
Definition extended_record (alloc : nat) (mem hdr : bytes) (off : Z) (fi : tar_entry)
  : option (option (bytes * bytes * Z * tar_entry)) :=
  let '(len, h1) := apk_blob_pull_uint hdr 10 in
  let len := u32 len in
  match apk_blob_pull_char (Some h1) 32 with
  | None => Some None
  | Some h2 =>
      match apk_blob_split (Some h2) (bs "=") with
      | None => Some None
      | Some (name, h3) =>
          let used := zlen hdr - zlen h3 in
          if len <? used + 1 then Some None
          else
            let len := len - (used + 1) in
            if zlen h3 <? len then Some None
            else
              let value := ztake len h3 in
              match apk_blob_pull_char (Some (zdrop len h3)) 10 with
              | None => Some None
              | Some h5 =>
                  let voff := off + used in
                  let mem := mem_write mem (voff + len) [0] in
                  let next fi mem := Some (Some (mem, h5, voff + len + 1, fi)) in
                  if apk_blob_compare (Some name) (Some (bs "path")) =? 0 then next (te_set_name (NPax alloc voff) fi) mem
                  else if apk_blob_compare (Some name) (Some (bs "linkpath")) =? 0 then next (te_set_link (NPax alloc voff) fi) mem
                  else match apk_blob_pull_blob_match name (bs "SCHILY.xattr.") with
                  | Some xname => next (te_add_xattr (Xattr (until_nul xname) value) fi) (mem_write mem (voff - 1) [0])
                  | None =>
                      match apk_blob_pull_blob_match name (bs "APK-TOOLS.checksum.") with
                      | Some aname =>
                          let alg := if apk_blob_compare (Some aname) (Some (bs "SHA1")) =? 0 then APK_DIGEST_SHA1
                                     else APK_DIGEST_NONE in
                          if d_alg (te_digest fi) <? alg then
                            let d := apk_digest_set (te_digest fi) alg in
                            '(b, data) ← apk_blob_pull_hexdump (Some value) (apk_digest_blob d);
                            let d := Digest (d_alg d) (d_len d) (overwrite (d_data d) data) in
                            let d := if APK_BLOB_IS_NULL b then apk_digest_reset d else d in
                            next (te_set_digests d (te_xattr_digest fi) fi) mem
                          else next fi mem
                      | None => next fi mem
                      end
                  end
              end
      end
  end.

(** Every record is shorter than the header before it. *)
Fixpoint extended_loop (fuel : nat) (alloc : nat) (mem hdr : bytes) (off : Z) (fi : tar_entry)
  : option (bytes * tar_entry) :=
  match fuel with
  | O => None
  | S fuel =>
      res ← extended_record alloc mem hdr off fi;
      match res with
      | None => Some (mem, fi)
      | Some (mem, hdr, off, fi) => extended_loop fuel alloc mem hdr off fi
      end
  end.

(** handle_extended_header of the first [len] bytes of the buffer. *)
Definition handle_extended_header (alloc : nat) (mem : bytes) (len : Z) (fi : tar_entry) : option (bytes * tar_entry) :=
  extended_loop (S (Z.to_nat len)) alloc mem (ztake len mem) 0 fi.

(** ** Digests of extended attributes *)

Definition cmp_xattr (a b : apk_xattr) : Z := strcmp (xa_name a) (xa_name b).

Definition hash_len_data (data : bytes) : bytes := rev (le_bytes 4 (zlen data)) ++ data.

(** apk_array_qsort with cmp_xattr is the argument [sort]. *)
Definition apk_fileinfo_hash_xattr_array {pkey} `{!Crypto pkey} (sort : list apk_xattr -> list apk_xattr)
    (xattrs : list apk_xattr) (alg : Z) (d : apk_digest) : list apk_xattr * apk_digest :=
  let d := apk_digest_reset d in
  match xattrs with
  | [] => (xattrs, d)
  | _ =>
      let xattrs := sort xattrs in
      let data := xattrs ≫= fun x => hash_len_data (xa_name x) ++ hash_len_data (xa_value x) in
      (xattrs, match EVP_Digest alg data with
               | None => apk_digest_reset d
               | Some md => Digest alg (apk_digest_alg_len alg) (overwrite (d_data d) md)
               end)
  end.

(** ** The reader *)

(** What apk_id_cache_resolve_uid and apk_id_cache_resolve_gid answer for a name and a default. *)
Record id_cache := IdCache { resolve_uid : bytes -> Z -> Z; resolve_gid : bytes -> Z -> Z }.

(** The number of bytes of a C string at [off], at most [max]; [None] if the memory ends before. *)
Definition strnlen_at (mem : bytes) (off max : Z) : option Z :=
  let s := ztake max (zdrop off mem) in
  let n := zlen (until_nul s) in
  if (n <? zlen s) || (zlen s =? max) then Some n else None.

Definition cstr_at (mem : bytes) (off : Z) : option bytes :=
  let s := zdrop off mem in if zlen (until_nul s) <? zlen s then Some (until_nul s) else None.

Section parse.
Context {S : Type} `{IstreamOps S} {C : Type} {pkey : Type} `{!Crypto pkey}.
Variable sort : list apk_xattr -> list apk_xattr.
Variable idc : id_cache.
(** the bytes of newly allocated memory *)
Variable junk : Z.
(** the callback: its result, its context and the stream of the file *)
Variable parser : C -> apk_file_info -> apk_istream (segment S) -> option (Z * C * apk_istream (segment S)).

(** The local variables of apk_tar_parse that live longer than an entry. *)
Record tar_state := TarState {
  ts_is : apk_istream S; ts_ctx : C; ts_end : bool;
  ts_pax : bytes; ts_alloc : nat; ts_paxlen : Z; ts_longname : bytes; ts_filename : bytes; ts_name : name_ref
}.

Definition ts_set_is (st : apk_istream S) (t : tar_state) : tar_state :=
  TarState st (ts_ctx t) (ts_end t) (ts_pax t) (ts_alloc t) (ts_paxlen t) (ts_longname t) (ts_filename t) (ts_name t).

Definition blob_realloc (b : bytes) (newsize : Z) : bytes :=
  if newsize <=? zlen b then b else b ++ replicate (Z.to_nat (newsize - zlen b)) junk.

(** The memory a name points into, and its offset. *)
Definition name_mem (t : tar_state) (buf : tar_header) (n : name_ref) : option (bytes * Z) :=
  match n with
  | NBuf => Some (h_name buf ++ [0], 0)
  | NLinkname => Some (h_linkname buf ++ [0], 0)
  | NFilename => Some (ts_filename t, 0)
  | NLongname => Some (ts_longname t, 0)
  | NPax alloc off => if Nat.eqb alloc (ts_alloc t) then Some (ts_pax t, off) else None
  end.

Definition name_strnlen (t : tar_state) (buf : tar_header) (n : name_ref) : option Z :=
  '(mem, off) ← name_mem t buf n; strnlen_at mem off PATH_MAX.
Definition name_cstr (t : tar_state) (buf : tar_header) (n : name_ref) : option bytes :=
  '(mem, off) ← name_mem t buf n; cstr_at mem off.

(** The entry of a header, and the error of its numbers. *)
Definition tar_entry_of (buf : tar_header) (name : name_ref) : tar_entry * Z :=
  let '(size, r1) := get_octal (h_size buf) in
  let '(uid, r2) := get_octal (h_uid buf) in
  let '(gid, r3) := get_octal (h_gid buf) in
  let '(mode, r4) := get_octal (h_mode buf) in
  let '(mtime, r5) := get_octal (h_mtime buf) in
  let '(maj, r6) := get_octal (h_devmajor buf) in
  let '(min, r7) := get_octal (h_devminor buf) in
  let fails := existsb (fun r => negb (r =? 0)) [r1; r2; r3; r4; r5; r6; r7] in
  (TarEntry name None (s64 size)
     (resolve_uid idc (until_nul (h_uname buf)) (u32 uid)) (resolve_gid idc (until_nul (h_gname buf)) (u32 gid))
     (u32 (mode .& 0xfff)) (s64 mtime) (makedev (u32 maj) (u32 min)) digest_zero digest_zero [],
   if fails then - APKE_V2PKG_FORMAT else 0).

Definition round_512 (n : Z) : Z := (n + 511) .& (- 512).

(** The outcome of a header: an error with [goto err], or the next header. *)
Inductive tar_step := TarErr (r : Z) (t : tar_state) | TarNext (t : tar_state).

(** The switch on the type: the result, the state, the entry and what is left to skip. *)
Definition tar_switch (t : tar_state) (buf : tar_header) (e : tar_entry) (toskip : Z) : option (Z * tar_state * tar_entry * Z) :=
  let ty := h_typeflag buf in
  let plain e := Some (0, t, e, toskip) in
  if ty =? chr "L" then
    let long := blob_realloc (ts_longname t) (te_size e + 1) in
    '(r, d, st) ← apk_istream_read (ts_is t) (te_size e);
    let long := mem_write long 0 d in
    let t := TarState st (ts_ctx t) (ts_end t) (ts_pax t) (ts_alloc t) (ts_paxlen t)
               (if r <? 0 then long else mem_write long (te_size e) [0]) (ts_filename t) (ts_name t) in
    Some (r, t, te_set_name NLongname e, toskip - te_size e)
  else if ty =? chr "K" then plain e
  else if (ty =? chr "0") || (ty =? chr "7") then plain (te_add_mode S_IFREG e)
  else if ty =? chr "1" then
    let e := te_add_mode S_IFREG e in
    plain (match te_link_target e with None => te_set_link NLinkname e | Some _ => e end)
  else if ty =? chr "2" then
    let e := te_add_mode S_IFLNK e in
    plain (match te_link_target e with None => te_set_link NLinkname e | Some _ => e end)
  else if ty =? chr "3" then plain (te_add_mode S_IFCHR e)
  else if ty =? chr "4" then plain (te_add_mode S_IFBLK e)
  else if ty =? chr "5" then plain (te_add_mode S_IFDIR e)
  else if ty =? chr "6" then plain (te_add_mode S_IFIFO e)
  else if ty =? chr "g" then plain e
  else if ty =? chr "x" then
    let newsize := round_512 (te_size e) in
    let alloc := if newsize <=? zlen (ts_pax t) then ts_alloc t else Datatypes.S (ts_alloc t) in
    let pax := blob_realloc (ts_pax t) newsize in
    '(r, d, st) ← apk_istream_read (ts_is t) (te_size e);
    Some (r, TarState st (ts_ctx t) (ts_end t) (mem_write pax 0 d) alloc (te_size e) (ts_longname t) (ts_filename t) (ts_name t),
          e, toskip - te_size e)
  else plain e.

(** What the callback sees of an entry. *)
Definition file_info_of (t : tar_state) (buf : tar_header) (e : tar_entry) : option apk_file_info :=
  name ← name_cstr t buf (te_name e);
  link ← match te_link_target e with None => Some None | Some l => Some <$> name_cstr t buf l end;
  let names := h_uname buf ++ h_gname buf ++ h_devmajor buf ++ h_devminor buf ++ h_prefix buf ++ h_padding buf in
  Some (FileInfo name link (cstr_at names 0) (cstr_at names 32) (te_size e) (te_uid e) (te_gid e) (te_mode e)
          (te_mtime e) (te_device e) (te_digest e) (te_xattr_digest e) (te_xattrs e)).

Definition name_too_long (t : tar_state) (buf : tar_header) (e : tar_entry) : option bool :=
  n ← name_strnlen t buf (te_name e);
  if PATH_MAX - 10 <=? n then Some true
  else match te_link_target e with
       | None => Some false
       | Some l => n ← name_strnlen t buf l; Some (PATH_MAX - 10 <=? n)
       end.

(** The callback for a file, with the stream of its contents. *)
Definition tar_file (t : tar_state) (buf : tar_header) (e : tar_entry) : option (Z * tar_state) :=
  fi ← file_info_of t buf e;
  '(r, c, sg) ← parser (ts_ctx t) fi (apk_istream_segment (ts_is t) (te_size e) (te_mtime e));
  let leave st paxlen name :=
    TarState st c (ts_end t) (ts_pax t) (ts_alloc t) paxlen (ts_longname t) (ts_filename t) name in
  if negb (r =? 0) then Some (r, leave (sg_pis (is_src sg)) (ts_paxlen t) (te_name e))
  else
    '(_, st) ← segment_close sg;
    Some (0, leave st 0 NBuf).

(** One header that is not empty. *)
Definition tar_header_step (t : tar_state) (buf : tar_header) : option tar_step :=
  if negb (memcmp (h_magic buf) (bs "ustar") =? 0) then Some (TarErr (- APKE_V2PKG_FORMAT) t)
  else
    let '(e, r) := tar_entry_of buf (ts_name t) in
    if negb (r =? 0) then Some (TarErr r t)
    else
      let has_prefix := negb (List.hd 0 (h_prefix buf) =? 0) && negb (h_typeflag buf =? chr "x") && negb (h_typeflag buf =? chr "g") in
      let filename := until_nul (h_prefix buf) ++ bs "/" ++ until_nul (h_name buf) ++ [0] in
      let t := if has_prefix then
                 TarState (ts_is t) (ts_ctx t) (ts_end t) (ts_pax t) (ts_alloc t) (ts_paxlen t) (ts_longname t) filename (ts_name t)
               else t in
      let e := if has_prefix then te_set_name NFilename e else e in
      if SSIZE_MAX - 512 <=? te_size e then Some (TarErr 0 t)
      else
        '(t, e) ← (if negb (ts_paxlen t =? 0) then
                     '(pax, e) ← handle_extended_header (ts_alloc t) (ts_pax t) (ts_paxlen t) e;
                     let '(xattrs, xd) := apk_fileinfo_hash_xattr_array sort (te_xattrs e) APK_DIGEST_SHA1 (te_xattr_digest e) in
                     Some (TarState (ts_is t) (ts_ctx t) (ts_end t) pax (ts_alloc t) (ts_paxlen t) (ts_longname t) (ts_filename t) (ts_name t),
                           TarEntry (te_name e) (te_link_target e) (te_size e) (te_uid e) (te_gid e) (te_mode e) (te_mtime e)
                             (te_device e) (te_digest e) xd xattrs)
                   else Some (t, e));
        '(r, t, e, toskip) ← tar_switch t buf e (round_512 (te_size e));
        if r <? 0 then Some (TarErr r t)
        else
          long ← name_too_long t buf e;
          if (long : bool) then Some (TarErr (- ENAMETOOLONG) t)
          else
            '(r, t, toskip) ← (if negb (te_mode e .& S_IFMT =? 0) then
                                 '(r, t) ← tar_file t buf e; Some (r, t, toskip - te_size e)
                               else
                                 Some (0, TarState (ts_is t) (ts_ctx t) (ts_end t) (ts_pax t) (ts_alloc t) (ts_paxlen t)
                                            (ts_longname t) (ts_filename t) (te_name e), toskip));
            if negb (r =? 0) then Some (TarErr r t)
            else if toskip =? 0 then Some (TarNext t)
            else
              '(r, st) ← apk_istream_skip (ts_is t) toskip;
              if r <? 0 then Some (TarErr r (ts_set_is st t)) else Some (TarNext (ts_set_is st t)).

(** The end-of-archive records that are left. *)
Fixpoint tar_drain (fuel : nat) (st : apk_istream S) : option (Z * apk_istream S) :=
  match fuel with
  | O => None
  | Datatypes.S fuel =>
      '(r, d, st) ← apk_istream_read_max st 512;
      if r =? 512 then if List.hd 0 d =? 0 then tar_drain fuel st else Some (r, st) else Some (r, st)
  end.

(** From [err:] on. *)
Definition tar_err (r : Z) : Z := if 0 <=? r then - APKE_EOF else r.

(** The loop over headers; every header takes 512 bytes from the stream. *)
Fixpoint tar_loop (fuel : nat) (t : tar_state) : option (Z * tar_state) :=
  match fuel with
  | O => None
  | Datatypes.S fuel =>
      '(r, d, st) ← apk_istream_read_max (ts_is t) 512;
      let t := ts_set_is st t in
      if negb (r =? 512) then Some (if r =? 0 then 0 else tar_err r, t)
      else if List.hd 0 d =? 0 then
        if ts_end t then
          '(r, st) ← tar_drain fuel st;
          Some (if r =? 0 then 0 else tar_err r, ts_set_is st t)
        else tar_loop fuel (TarState st (ts_ctx t) true (ts_pax t) (ts_alloc t) (ts_paxlen t) (ts_longname t) (ts_filename t) (ts_name t))
      else
        step ← tar_header_step t (hdr_of d);
        match step with
        | TarErr r t => Some (tar_err r, t)
        | TarNext t => tar_loop fuel t
        end
  end.

(** apk_tar_parse: the result with which the stream is closed, the context and the stream. *)
Definition apk_tar_parse (fuel : nat) (st : apk_istream S) (ctx : C) : option (Z * C * apk_istream S) :=
  '(r, t) ← tar_loop fuel (TarState st ctx false [] 0 0 [] [] NBuf);
  let st := if r <? 0 then (apk_istream_error (ts_is t) r).2 else ts_is t in
  Some (if is_err st <? 0 then is_err st else 0, ts_ctx t, st).
End parse.

(** ** The writer *)

(** strlcpy into a field: at most one byte less than the field, and a NUL. *)
Definition strlcpy (field src : bytes) : bytes :=
  let s := ztake (zlen field - 1) src in mem_write field 0 (s ++ [0]).

Definition apk_tar_fill_header (hdr : tar_header) (typeflag : Z) (name : option bytes) (size : Z) (ae : apk_file_info) : tar_header :=
  let h := {|
    h_name := match name with Some n => strlcpy (h_name hdr) n | None => h_name hdr end;
    h_mode := put_octal 8 (fi_mode ae .& 0xfff) true;
    h_uid := put_octal 8 (fi_uid ae) true;
    h_gid := put_octal 8 (fi_gid ae) true;
    h_size := put_octal 12 size false;
    h_mtime := put_octal 12 (fi_mtime ae) false;
    h_chksum := replicate 8 32;
    h_typeflag := typeflag;
    h_linkname := h_linkname hdr;
    h_magic := bs "ustar  " ++ [0];
    h_uname := strlcpy (h_uname hdr) (default (bs "root") (fi_uname ae));
    h_gname := strlcpy (h_gname hdr) (default (bs "root") (fi_gname ae));
    h_devmajor := h_devmajor hdr; h_devminor := h_devminor hdr; h_prefix := h_prefix hdr; h_padding := h_padding hdr
  |} in
  let chksum := foldr Z.add 0 (hdr_bytes h) in
  {| h_name := h_name h; h_mode := h_mode h; h_uid := h_uid h; h_gid := h_gid h; h_size := h_size h; h_mtime := h_mtime h;
     h_chksum := put_octal 7 chksum true ++ [32]; h_typeflag := h_typeflag h; h_linkname := h_linkname h; h_magic := h_magic h;
     h_uname := h_uname h; h_gname := h_gname h; h_devmajor := h_devmajor h; h_devminor := h_devminor h;
     h_prefix := h_prefix h; h_padding := h_padding h |}.

Section write.
Context {O : Type} `{OstreamOps O}.

Definition apk_tar_write_padding (os : O) (size : Z) : Z * O :=
  let pad := 512 - (size .& 511) in
  if negb (pad =? 512) then
    let '(r, os) := ops_write os (replicate (Z.to_nat pad) 0) in (if r <? 0 then -1 else 0, os)
  else (0, os).

Definition apk_tar_write_longname_entry (os : O) (ae : apk_file_info) : Z * O :=
  let name := fi_name ae in
  let buf := apk_tar_fill_header hdr_zero (chr "L") (Some (bs "././@LongLink")) (zlen name) ae in
  let '(r, os) := ops_write os (hdr_bytes buf) in
  if r <? 0 then (-1, os)
  else
    let '(r, os) := ops_write os (name ++ [0]) in
    if r <? 0 then (-1, os)
    else
      let '(r, os) := apk_tar_write_padding os (zlen name + 1) in
      (if r <? 0 then -1 else 0, os).

(** The size of a file is an off_t, which the header takes as an int. *)
Definition apk_tar_write_entry (os : O) (ae : option apk_file_info) (data : option bytes) : Z * O :=
  match ae with
  | None =>
      let '(r, os) := ops_write os (hdr_bytes hdr_zero) in
      if r <? 0 then (-1, os)
      else let '(r, os) := ops_write os (hdr_bytes hdr_zero) in (if r <? 0 then -1 else 0, os)
  | Some ae =>
      if negb (fi_mode ae .& S_IFMT =? S_IFREG) then (-1, os)
      else
        let '(r, os) := if 99 <? zlen (fi_name ae) then apk_tar_write_longname_entry os ae else (0, os) in
        if r <? 0 then (-1, os)
        else
          let buf := apk_tar_fill_header hdr_zero (chr "0") (Some (fi_name ae)) (s32 (fi_size ae)) ae in
          let '(r, os) := ops_write os (hdr_bytes buf) in
          if r <? 0 then (-1, os)
          else match data with
               | None => (0, os)
               | Some data =>
                   let '(r, os) := ops_write os (ztake (fi_size ae) data) in
                   if r <? 0 then (-1, os)
                   else let '(r, os) := apk_tar_write_padding os (s32 (fi_size ae)) in
                        (if negb (r =? 0) then -1 else 0, os)
               end
  end.
End write.
