(* ===== verification/TarThm.v ===== *)
(** Tar archives (Tar.v): what the writer writes the reader reads back, for all pieces in which the
    archive arrives and whatever part of each file its client reads; and where it does not. *)
From Stdlib Require Import ZArith Lia Ascii String.
From stdpp Require Import base numbers list option.
From S2P Require Import Prelude Clib Blob Codec Dep AdbTrust Stream StreamThm StreamSeg Tar.

(** ** Octal numbers *)

Fixpoint oct_digits (n : nat) (v : Z) : bytes :=
  match n with O => [] | S n => oct_digits n (v / 8) ++ [48 + v mod 8] end.

Lemma put_digits_oct n v acc : 0 <= v -> put_digits n v acc = oct_digits n v ++ acc.
Proof.
  revert v acc. induction n as [|n IH]; intros v acc Hv; [done|]. cbn [put_digits oct_digits].
  destruct (Z.eqb_spec v 0) as [->|Hne].
  - rewrite IH by lia. by rewrite <- app_assoc.
  - rewrite IH by (apply Z.div_pos; lia). by rewrite <- app_assoc.
Qed.

Lemma zlen_oct_digits n v : zlen (oct_digits n v) = Z.of_nat n.
Proof. revert v. induction n as [|n IH]; intros v; cbn [oct_digits]; [done|]. autorewrite with apk. rewrite IH. lia. Qed.

Lemma dx_oct k : 0 <= k < 8 -> dx (48 + k) = k.
Proof.
  intros Hk. pose proof (all_below_spec 8 (fun k => dx (48 + k) =? k) k ltac:(vm_compute; reflexivity) ltac:(lia)) as H.
  by apply Z.eqb_eq in H.
Qed.

Lemma pull_oct_digits n v rest a :
  0 <= v -> 0 <= a -> (a + 1) * 8 ^ Z.of_nat n <= 2 ^ 64 ->
  pull_uint_loop (oct_digits n v ++ rest) 8 a = pull_uint_loop rest 8 (a * 8 ^ Z.of_nat n + v mod 8 ^ Z.of_nat n).
Proof.
  revert v rest. induction n as [|n IH]; intros v rest Hv Ha Hb.
  { cbn [oct_digits app]. change (8 ^ Z.of_nat 0) with 1. rewrite Z.mod_1_r, Z.mul_1_r, Z.add_0_r. done. }
  rewrite Nat2Z.inj_succ, Z.pow_succ_r in * by lia. cbn [oct_digits]. rewrite <- app_assoc.
  assert (Hpow : 0 < 8 ^ Z.of_nat n) by (apply Z.pow_pos_nonneg; lia).
  rewrite IH; [|apply Z.div_pos; lia|done|nia]. cbn [app pull_uint_loop].
  pose proof (Z.mod_pos_bound v 8 ltac:(lia)). pose proof (Z.mod_pos_bound (v / 8) (8 ^ Z.of_nat n) ltac:(lia)).
  destruct (Z.eqb_spec (48 + v mod 8) 0); [lia|]. rewrite dx_oct by lia.
  destruct (Z.leb_spec 8 (v mod 8)); [lia|].
  rewrite (wrap_small 64 (_ * 8)) by nia. rewrite wrap_small by nia. f_equal.
  rewrite Z.rem_mul_r by lia. lia.
Qed.

Lemma skip_blanks_nul n : skip_blanks (replicate n 0) = [].
Proof. induction n; [done|]. cbn. done. Qed.

(** What was stored with [put_octal] is read back, modulo what the digits can hold. *)
Lemma get_put_octal l v z :
  0 <= l <= 21 -> 0 <= v < 2 ^ 64 ->
  get_octal (put_octal l v z) = (v mod 8 ^ (if z then l - 1 else l), 0) \/ (z = true /\ l = 0).
Proof.
  intros Hl Hv. unfold get_octal, put_octal, apk_blob_pull_uint. rewrite (wrap_small 64) by lia.
  assert (Hp : forall n, 0 <= n <= 21 -> 8 ^ n <= 2 ^ 64).
  { intros n Hn. replace 8 with (2 ^ 3) by done. rewrite <- Z.pow_mul_r by lia. apply Z.pow_le_mono_r; lia. }
  destruct z.
  - destruct (Z.eq_dec l 0) as [->|Hne]; [by right|]. left. rewrite put_digits_oct by lia.
    rewrite pull_oct_digits; rewrite ?Z2Nat.id by lia; try lia; [|rewrite Z.mul_1_l; apply Hp; lia].
    done.
  - left. rewrite put_digits_oct, app_nil_r by lia. rewrite <- (app_nil_r (oct_digits _ _)).
    rewrite pull_oct_digits; rewrite ?Z2Nat.id by lia; try lia; [|rewrite Z.mul_1_l; apply Hp; lia].
    done.
Qed.

Lemma octal_value (l v : Z) (z : bool) :
  1 <= l <= 21 -> 0 <= v < 8 ^ (if z then l - 1 else l) -> get_octal (put_octal l v z) = (v, 0).
Proof.
  intros Hl Hv.
  assert (Hb : v < 2 ^ 64).
  { apply Z.lt_le_trans with (8 ^ 21); [|vm_compute; discriminate].
    apply Z.lt_le_trans with (8 ^ (if z then l - 1 else l)); [lia|]. apply Z.pow_le_mono_r; destruct z; lia. }
  destruct (get_put_octal l v z ltac:(lia) ltac:(lia)) as [->|[_ ->]]; [|lia]. rewrite Z.mod_small by lia. done.
Qed.

(** ** Headers *)

Record hdr_wf (h : tar_header) : Prop := {
  wf_name : zlen (h_name h) = 100; wf_mode : zlen (h_mode h) = 8; wf_uid : zlen (h_uid h) = 8; wf_gid : zlen (h_gid h) = 8;
  wf_size : zlen (h_size h) = 12; wf_mtime : zlen (h_mtime h) = 12; wf_chksum : zlen (h_chksum h) = 8;
  wf_linkname : zlen (h_linkname h) = 100; wf_magic : zlen (h_magic h) = 8; wf_uname : zlen (h_uname h) = 32;
  wf_gname : zlen (h_gname h) = 32; wf_devmajor : zlen (h_devmajor h) = 8; wf_devminor : zlen (h_devminor h) = 8;
  wf_prefix : zlen (h_prefix h) = 155; wf_padding : zlen (h_padding h) = 12
}.

Lemma zlen_hdr_bytes h : hdr_wf h -> zlen (hdr_bytes h) = 512.
Proof. intros []. unfold hdr_bytes. autorewrite with apk. lia. Qed.

Lemma field_skip b off len n (x : bytes) : zlen x = n -> n <= off -> hdr_field (x ++ b) off len = hdr_field b (off - n) len.
Proof. intros Hx Ho. unfold hdr_field. by rewrite zdrop_app_ge, Hx by lia. Qed.
Lemma field_here b len (x : bytes) : zlen x = len -> hdr_field (x ++ b) 0 len = x.
Proof. intros <-. unfold hdr_field. by rewrite zdrop_0, ztake_app. Qed.

Lemma field_last b len : zlen b = len -> hdr_field b 0 len = b.
Proof. intros <-. unfold hdr_field. rewrite zdrop_0. by apply ztake_all. Qed.

Ltac find_field :=
  repeat match goal with
  | |- hdr_field (?x ++ ?b) 0 ?len = _ => apply field_here; assumption
  | |- hdr_field ?b 0 ?len = ?b => apply field_last; assumption
  | H : zlen ?x = ?n |- hdr_field (?x ++ ?b) ?off ?len = _ =>
      rewrite (field_skip b off len n x H) by lia;
      let o := eval compute in (off - n) in change (off - n) with o
  end.

Lemma hdr_of_bytes h : hdr_wf h -> hdr_of (hdr_bytes h) = h.
Proof.
  destruct h as [nm md ui gi sz mt ck ty ln mg un gn dj dn px pd]. intros []. cbn in * |-.
  unfold hdr_of, hdr_bytes. cbn [h_name h_mode h_uid h_gid h_size h_mtime h_chksum h_typeflag
    h_linkname h_magic h_uname h_gname h_devmajor h_devminor h_prefix h_padding].
  assert (Ht : zlen [ty] = 1) by done.
  assert (E : hdr_field (nm ++ md ++ ui ++ gi ++ sz ++ mt ++ ck ++ [ty] ++ ln ++ mg ++ un ++ gn ++ dj ++ dn ++ px ++ pd) 156 1 = [ty])
    by find_field.
  rewrite E. f_equal; find_field.
Qed.

Lemma hdr_zero_wf : hdr_wf hdr_zero.
Proof. constructor; reflexivity. Qed.

Lemma zlen_strlcpy field src : 1 <= zlen field -> zlen (strlcpy field src) = zlen field.
Proof.
  intros Hf. unfold strlcpy. apply zlen_mem_write; [lia|]. autorewrite with apk. rewrite zlen_ztake_min by lia. lia.
Qed.

Definition no_nul (s : bytes) : Prop := Forall (fun c => c <> 0) s.

Lemma until_nul_app s r : no_nul s -> until_nul (s ++ 0 :: r) = s.
Proof.
  induction s as [|c s IH]; intros Hs; [done|]. apply list.Forall_cons_1 in Hs as [Hc Hs]. cbn.
  destruct (Z.eqb_spec c 0); [done|]. by rewrite IH.
Qed.

Lemma until_nul_no s : no_nul s -> until_nul s = s.
Proof.
  induction s as [|c s IH]; intros Hs; [done|]. apply list.Forall_cons_1 in Hs as [Hc Hs]. cbn.
  destruct (Z.eqb_spec c 0); [done|]. by rewrite IH.
Qed.

Lemma no_nul_ztake n s : no_nul s -> no_nul (ztake n s).
Proof. unfold no_nul, ztake. intros. by apply Forall_take. Qed.

Lemma strlcpy_split field src :
  1 <= zlen field -> strlcpy field src = ztake (zlen field - 1) src ++ 0 :: zdrop (zlen (ztake (zlen field - 1) src) + 1) field.
Proof.
  intros Hf. unfold strlcpy, mem_write. rewrite (ztake_neg 0) by lia. cbn [app]. rewrite <- app_assoc. cbn [app].
  do 2 f_equal. autorewrite with apk. f_equal.
Qed.

Lemma until_nul_strlcpy field src r :
  1 <= zlen field -> no_nul src -> until_nul (strlcpy field src ++ r) = ztake (zlen field - 1) src.
Proof.
  intros Hf Hs. rewrite strlcpy_split by done. rewrite <- app_assoc. cbn [app]. apply until_nul_app. by apply no_nul_ztake.
Qed.

Lemma cstr_strlcpy (x f u r : bytes) :
  1 <= zlen f -> no_nul u -> zlen u < zlen f -> cstr_at (x ++ strlcpy f u ++ r) (zlen x) = Some u.
Proof.
  intros Hf Hu Hul. unfold cstr_at. rewrite zdrop_app, until_nul_strlcpy, ztake_all by (done || lia).
  rewrite zlen_app, zlen_strlcpy by done. pose proof (zlen_nonneg r). destruct (Z.ltb_spec (zlen u) (zlen f + zlen r)); [done|lia].
Qed.

(** ** The entries of an archive *)

(** What a file must satisfy to be stored: the limits of the fields of a header.  A name whose length
    is a multiple of 512 is excluded ([tar_long_names_lost]). *)
Record entry_ok (ae : apk_file_info) (data : bytes) : Prop := {
  eo_mode : fi_mode ae .& S_IFMT = S_IFREG;
  eo_name : no_nul (fi_name ae); eo_name0 : fi_name ae <> []; eo_name_max : zlen (fi_name ae) < PATH_MAX - 10;
  eo_name_512 : 99 < zlen (fi_name ae) -> zlen (fi_name ae) mod 512 <> 0;
  eo_uname : no_nul (default (bs "root") (fi_uname ae)); eo_uname_max : zlen (default (bs "root") (fi_uname ae)) < 32;
  eo_gname : no_nul (default (bs "root") (fi_gname ae)); eo_gname_max : zlen (default (bs "root") (fi_gname ae)) < 32;
  eo_uid : 0 <= fi_uid ae < 8 ^ 7; eo_gid : 0 <= fi_gid ae < 8 ^ 7; eo_mtime : 0 <= fi_mtime ae < 8 ^ 12;
  eo_size : fi_size ae = zlen data; eo_size_max : zlen data < 2 ^ 31
}.

(** The header of a file or of its long name. *)
Definition entry_header (ae : apk_file_info) (ty : Z) (name : bytes) (size : Z) : tar_header :=
  apk_tar_fill_header hdr_zero ty (Some name) size ae.

Lemma zlen_put_octal l v z : 1 <= l -> zlen (put_octal l v z) = l.
Proof.
  intros Hl. unfold put_octal. assert (0 <= u64 v) by (apply wrap_bound; lia).
  destruct z; rewrite put_digits_oct by done; autorewrite with apk; rewrite zlen_oct_digits; lia.
Qed.

Lemma entry_header_wf ae ty name size : hdr_wf (entry_header ae ty name size).
Proof.
  assert (Hs : forall (f : bytes) n, zlen f = n -> 1 <= n -> forall src, zlen (strlcpy f src) = n).
  { intros f n <- Hn src. by apply zlen_strlcpy. }
  constructor; cbn [entry_header apk_tar_fill_header h_name h_mode h_uid h_gid h_size h_mtime h_chksum h_linkname h_magic
    h_uname h_gname h_devmajor h_devminor h_prefix h_padding].
  1, 10, 11: apply Hs; [reflexivity|lia].
  1-5: apply zlen_put_octal; lia.
  - rewrite zlen_app, zlen_put_octal by lia. reflexivity.
  - reflexivity.
  - reflexivity.
  - reflexivity.
  - reflexivity.
  - reflexivity.
  - reflexivity.
Qed.

(** What the callback is given for a file. *)
Definition tar_info (idc : id_cache) (ae : apk_file_info) : apk_file_info :=
  let uname := default (bs "root") (fi_uname ae) in
  let gname := default (bs "root") (fi_gname ae) in
  FileInfo (fi_name ae) None (Some uname) (Some gname) (fi_size ae)
    (resolve_uid idc uname (fi_uid ae)) (resolve_gid idc gname (fi_gid ae)) (fi_mode ae .& 0xfff .| S_IFREG) (fi_mtime ae) 0
    digest_zero digest_zero [].

Lemma land_fff_range x : 0 <= x .& 0xfff < 4096.
Proof. change 0xfff with (Z.ones 12). rewrite Z.land_ones by lia. apply Z.mod_pos_bound. lia. Qed.

Lemma tar_entry_of_header idc ae data ty name size nm :
  entry_ok ae data -> 0 <= size < 8 ^ 12 ->
  tar_entry_of idc (entry_header ae ty name size) nm =
    (TarEntry nm None size (fi_uid (tar_info idc ae)) (fi_gid (tar_info idc ae)) (fi_mode ae .& 0xfff) (fi_mtime ae) 0
       digest_zero digest_zero [], 0).
Proof.
  intros [] Hsize. unfold tar_entry_of, entry_header, apk_tar_fill_header.
  cbn [h_name h_mode h_uid h_gid h_size h_mtime h_uname h_gname h_devmajor h_devminor].
  pose proof (land_fff_range (fi_mode ae)).
  rewrite !octal_value by (cbn; lia).
  change (get_octal (h_devmajor hdr_zero)) with (0, 0). change (get_octal (h_devminor hdr_zero)) with (0, 0).
  cbv beta iota. cbn [existsb Z.eqb negb orb].
  assert (Hmode : u32 (fi_mode ae .& 0xfff .& 0xfff) = fi_mode ae .& 0xfff).
  { rewrite <- Z.land_assoc. change (0xfff .& 0xfff) with 0xfff. apply wrap_small. lia. }
  assert (Hn : forall (f : bytes) u, zlen f = 32 -> no_nul u -> zlen u < 32 -> until_nul (strlcpy f u) = u).
  { intros f u Hf Hu Hul. pose proof (until_nul_strlcpy f u [] ltac:(lia) Hu) as E. rewrite app_nil_r in E.
    rewrite E. apply ztake_all. lia. }
  rewrite (Hn (h_uname hdr_zero)), (Hn (h_gname hdr_zero)) by done.
  rewrite Hmode, !s64_small by lia. rewrite !(wrap_small 32) by lia. done.
Qed.

(** ** Padding *)

Definition pad (n : Z) : bytes := replicate (Z.to_nat (round_512 n - n)) 0.

Lemma round_512_spec n : 0 <= n -> round_512 n = (n + 511) / 512 * 512.
Proof.
  intros Hn. unfold round_512. change (-512) with (Z.lnot (Z.ones 9)). rewrite <- Z.ldiff_land, Z.ldiff_ones_r by lia.
  rewrite Z.shiftl_mul_pow2, Z.shiftr_div_pow2 by lia. done.
Qed.

Lemma round_512_bounds n : 0 <= n -> n <= round_512 n < n + 512.
Proof. intros Hn. rewrite round_512_spec by done. div_mod_lia. Qed.

Lemma zlen_pad n : 0 <= n -> zlen (pad n) = round_512 n - n.
Proof. intros Hn. pose proof (round_512_bounds n Hn). unfold pad, zlen. rewrite length_replicate. lia. Qed.

(** A writer in memory. *)
#[export] Instance mem_ostream : OstreamOps bytes :=
  {| ops_write os d := (0, os ++ d); os_rc_of _ := 0; set_os_rc _ os := os |}.

Lemma write_padding os n : 0 <= n -> apk_tar_write_padding os n = (0, os ++ pad n).
Proof.
  intros Hn. unfold apk_tar_write_padding, pad. rewrite round_512_spec by done.
  change 511 with (Z.ones 9) at 1 2. rewrite Z.land_ones by lia. change (2 ^ 9) with 512.
  destruct (Z.eqb_spec (512 - n mod 512) 512) as [E|E]; cbn [negb].
  - replace ((n + 511) / 512 * 512 - n) with 0 by div_mod_lia. by rewrite app_nil_r.
  - cbn [ops_write mem_ostream Z.ltb Z.compare]. do 4 f_equal. div_mod_lia.
Qed.

Lemma pad_long n : 0 <= n -> n mod 512 <> 0 -> 0 :: pad (n + 1) = pad n.
Proof.
  intros Hn Hm. unfold pad. rewrite !round_512_spec by lia.
  replace (Z.to_nat ((n + 511) / 512 * 512 - n)) with (S (Z.to_nat ((n + 1 + 511) / 512 * 512 - (n + 1)))) by div_mod_lia.
  done.
Qed.

(** ** Reading one entry *)

Section read.
Context {S : Type} `{HS : IstreamOk S} {C : Type} {pkey : Type} `{!Crypto pkey}.
Context (sort : list apk_xattr -> list apk_xattr) (idc : id_cache) (junk : Z).
Context (parser : C -> apk_file_info -> apk_istream (segment S) -> option (Z * C * apk_istream (segment S))).
Implicit Types t : @tar_state S C.

(** The callback accepts a file: whatever stream has its contents, it returns 0 after using the
    stream as it likes. *)
Definition accepts (cap : Z) (c : C) (ae : apk_file_info) (data : bytes) (c' : C) : Prop :=
  forall sg, sim sg (AS data 0 false cap) ->
  exists sg', parser c (tar_info idc ae) sg = Some (0, c', sg') /\ client sg sg'.

Lemma skip_rest (st : apk_istream S) a n :
  sim st a -> 0 <= n < 2 ^ 31 -> n <= zlen (a_rest a) ->
  exists st', apk_istream_skip st n = Some (n, st') /\ sim st' (a_drop n a).
Proof.
  intros Hsim Hn Hle. destruct (skip_spec st a n Hsim ltac:(lia)) as (r & st' & -> & Hres).
  destruct (Z.leb_spec n (zlen (a_rest a))); [|lia]. destruct Hres as [-> Hs]. rewrite s32_small by lia. eauto.
Qed.

Lemma mode_ifmt m : (m .& 0xfff .| S_IFREG) .& S_IFMT = S_IFREG.
Proof.
  rewrite Z.land_lor_distr_l, <- Z.land_assoc. change (0xfff .& S_IFMT) with 0. rewrite Z.land_0_r. reflexivity.
Qed.

Lemma mode_no_ifmt m : m .& 0xfff .& S_IFMT = 0.
Proof. rewrite <- Z.land_assoc. change (0xfff .& S_IFMT) with 0. apply Z.land_0_r. Qed.

(** The call of the callback and the end of the segment. *)
Lemma tar_file_step t ae data h a c' rest :
  entry_ok ae data -> h = entry_header ae (chr "0") (fi_name ae) (zlen data) ->
  sim (ts_is t) a -> 0 < a_cap a -> a_rest a = data ++ rest ->
  name_cstr t h (ts_name t) = Some (fi_name ae) -> accepts (a_cap a) (ts_ctx t) ae data c' ->
  exists st', tar_file parser t h
      (TarEntry (ts_name t) None (zlen data) (fi_uid (tar_info idc ae)) (fi_gid (tar_info idc ae))
         (fi_mode ae .& 0xfff .| S_IFREG) (fi_mtime ae) 0 digest_zero digest_zero []) =
    Some (0, TarState st' c' (ts_end t) (ts_pax t) (ts_alloc t) 0 (ts_longname t) (ts_filename t) NBuf) /\
    sim st' (AS rest (a_fin a) (a_eof a) (a_cap a)).
Proof.
  intros Hok -> Hsim Hcap Hrest Hname Hacc. pose proof (zlen_nonneg data) as Hd. pose proof (zlen_nonneg rest).
  assert (Hle : zlen data <= zlen (a_rest a)) by (rewrite Hrest; autorewrite with apk; lia).
  assert (Hseg : a_segment (zlen data) a = AS data 0 false (a_cap a)).
  { unfold a_segment. destruct (Z.leb_spec (zlen data) (zlen (a_rest a))); [|lia]. by rewrite Hrest, ztake_app. }
  unfold tar_file, file_info_of. cbn [te_name te_link_target te_size te_uid te_gid te_mode te_mtime te_device te_digest
    te_xattr_digest te_xattrs]. rewrite Hname. cbn [mbind option_bind].
  match goal with |- context [parser _ ?f _] => assert (Hfi : f = tar_info idc ae) end.
  { destruct Hok. unfold tar_info. rewrite eo_size0. cbn [entry_header apk_tar_fill_header h_uname h_gname]. f_equal.
    - apply (cstr_strlcpy []); done.
    - change 32 with (zlen (h_uname hdr_zero)) at 1. rewrite <- (zlen_strlcpy (h_uname hdr_zero) (default (bs "root") (fi_uname ae))) by done.
      apply cstr_strlcpy; done. }
  rewrite Hfi. clear Hfi.
  destruct (Hacc (apk_istream_segment (ts_is t) (zlen data) (fi_mtime ae))) as (sg' & -> & Hcl).
  { rewrite <- Hseg. by apply segment_sim. }
  cbn [mbind option_bind Z.eqb negb].
  pose proof (segment_inv (ts_is t) a (zlen data) (fi_mtime ae) Hsim Hcap ltac:(lia)) as Hi.
  destruct (segment_close_spec _ sg' (client_seg_inv _ _ _ Hcl Hi)) as (st' & -> & Hs). cbn [mbind option_bind].
  eexists. split; [done|]. unfold a_drop in Hs. by rewrite Hrest, zdrop_app in Hs.
Qed.
(** The checks of a header that the writer made: its entry is read, and no extended header is pending. *)
Lemma tar_header_entry t ae data ty name size :
  entry_ok ae data -> 0 <= size < 8 ^ 12 -> ts_paxlen t = 0 ->
  let h := entry_header ae ty name size in
  let e := TarEntry (ts_name t) None size (fi_uid (tar_info idc ae)) (fi_gid (tar_info idc ae)) (fi_mode ae .& 0xfff)
             (fi_mtime ae) 0 digest_zero digest_zero [] in
  tar_header_step sort idc junk parser t h =
    ('(r, t, e, toskip) ← tar_switch junk t h e (round_512 size);
     if r <? 0 then Some (TarErr r t)
     else
       long ← name_too_long t h e;
       if (long : bool) then Some (TarErr (- ENAMETOOLONG) t)
       else
         '(r, t, toskip) ← (if negb (te_mode e .& S_IFMT =? 0) then
                              '(r, t) ← tar_file parser t h e; Some (r, t, toskip - te_size e)
                            else
                              Some (0, TarState (ts_is t) (ts_ctx t) (ts_end t) (ts_pax t) (ts_alloc t) (ts_paxlen t)
                                         (ts_longname t) (ts_filename t) (te_name e), toskip));
         if negb (r =? 0) then Some (TarErr r t)
         else if toskip =? 0 then Some (TarNext t)
         else
           '(r, st) ← apk_istream_skip (ts_is t) toskip;
           if r <? 0 then Some (TarErr r (ts_set_is st t)) else Some (TarNext (ts_set_is st t))).
Proof.
  intros Hok Hsize Hpax h e. unfold tar_header_step.
  change (memcmp (h_magic h) (bs "ustar") =? 0) with true. cbn [negb].
  unfold h at 1. rewrite (tar_entry_of_header idc ae data) by done. fold e. cbn [Z.eqb negb].
  change (List.hd 0 (h_prefix h)) with 0. cbn [Z.eqb negb andb].
  change (te_size e) with size.
  destruct (Z.leb_spec (SSIZE_MAX - 512) size) as [Hx|_].
  { exfalso. assert (8 ^ 12 < SSIZE_MAX - 512) by (by vm_compute). lia. }
  rewrite Hpax. cbn [Z.eqb negb mbind option_bind]. reflexivity.
Qed.

Lemma switch_file t h e n :
  h_typeflag h = chr "0" -> tar_switch junk t h e n = Some (0, t, te_add_mode S_IFREG e, n).
Proof. intros Hty. unfold tar_switch. by rewrite Hty. Qed.

Lemma switch_long t h e n :
  h_typeflag h = chr "L" ->
  tar_switch junk t h e n =
    ('(r, d, st) ← apk_istream_read (ts_is t) (te_size e);
     let long := mem_write (blob_realloc junk (ts_longname t) (te_size e + 1)) 0 d in
     Some (r, TarState st (ts_ctx t) (ts_end t) (ts_pax t) (ts_alloc t) (ts_paxlen t)
                (if r <? 0 then long else mem_write long (te_size e) [0]) (ts_filename t) (ts_name t),
           te_set_name NLongname e, n - te_size e)).
Proof. intros Hty. unfold tar_switch. by rewrite Hty. Qed.

(** What is left to skip after an entry: the padding. *)
Lemma skip_padding (t : @tar_state S C) a n rest :
  sim (ts_is t) a -> 0 <= n < 512 -> zlen (a_rest a) = n + zlen rest -> zdrop n (a_rest a) = rest ->
  exists st', (if n =? 0 then Some (TarNext t)
    else '(r, st) ← apk_istream_skip (ts_is t) n;
         if r <? 0 then Some (TarErr r (ts_set_is st t)) else Some (TarNext (ts_set_is st t))) =
    Some (TarNext (ts_set_is st' t)) /\ sim st' (AS rest (a_fin a) (a_eof a) (a_cap a)).
Proof.
  intros Hsim Hn Hlen Hdrop. pose proof (zlen_nonneg rest). destruct (Z.eqb_spec n 0) as [->|Hne].
  - exists (ts_is t). destruct t. split; [done|]. rewrite zdrop_0 in Hdrop. rewrite <- Hdrop. by destruct a.
  - destruct (skip_rest (ts_is t) a n Hsim ltac:(lia) ltac:(lia)) as (st' & -> & Hs). cbn [mbind option_bind].
    destruct (Z.ltb_spec n 0); [lia|]. exists st'. split; [done|]. unfold a_drop in Hs. by rewrite Hdrop in Hs.
Qed.

(** A file: one call of the callback, and the stream is behind the padding. *)
Lemma tar_file_header t ae data a c' rest :
  let h := entry_header ae (chr "0") (fi_name ae) (zlen data) in
  entry_ok ae data -> sim (ts_is t) a -> 0 < a_cap a -> a_rest a = data ++ pad (zlen data) ++ rest -> ts_paxlen t = 0 ->
  name_cstr t h (ts_name t) = Some (fi_name ae) -> name_strnlen t h (ts_name t) = Some (zlen (fi_name ae)) ->
  accepts (a_cap a) (ts_ctx t) ae data c' ->
  exists st', tar_header_step sort idc junk parser t h =
      Some (TarNext (TarState st' c' (ts_end t) (ts_pax t) (ts_alloc t) 0 (ts_longname t) (ts_filename t) NBuf)) /\
    sim st' (AS rest (a_fin a) (a_eof a) (a_cap a)).
Proof.
  intros h Hok Hsim Hcap Hrest Hpax Hname Hlen Hacc. pose proof (zlen_nonneg data) as Hd.
  pose proof (eo_size_max _ _ Hok). pose proof (eo_name_max _ _ Hok). pose proof (round_512_bounds (zlen data) Hd).
  unfold h. rewrite (tar_header_entry t ae data) by (done || lia). fold h.
  rewrite switch_file by done. cbn [mbind option_bind Z.ltb Z.compare].
  unfold te_add_mode, name_too_long. cbn [te_name te_link_target te_mode te_size te_uid te_gid te_mtime te_device te_digest te_xattr_digest te_xattrs]. rewrite Hlen. cbn [mbind option_bind].
  destruct (Z.leb_spec (PATH_MAX - 10) (zlen (fi_name ae))); [lia|]. cbv beta iota. cbn [mbind option_bind].
  rewrite mode_ifmt. change (negb (S_IFREG =? 0)) with true. cbv beta iota.
  destruct (tar_file_step t ae data h a c' (pad (zlen data) ++ rest) Hok eq_refl Hsim Hcap Hrest Hname Hacc) as (st' & Hf & Hs).
  rewrite Hf. cbn [mbind option_bind Z.eqb negb].
  set (t' := TarState st' c' _ _ _ _ _ _ _).
  destruct (skip_padding t' _ (round_512 (zlen data) - zlen data) rest Hs) as (st2 & Hsk & Hs2).
  - lia.
  - cbn. autorewrite with apk. by rewrite zlen_pad.
  - cbn. rewrite <- zlen_pad by done. apply zdrop_app.
  - exists st2. split; [exact Hsk|exact Hs2].
Qed.

Lemma strnlen_nul name l :
  no_nul name -> zlen name < PATH_MAX - 10 -> strnlen_at (name ++ 0 :: l) 0 PATH_MAX = Some (zlen name).
Proof.
  intros Hnul Hmax. pose proof (zlen_nonneg name). unfold strnlen_at. rewrite zdrop_0.
  rewrite ztake_app_ge by lia. replace (PATH_MAX - zlen name) with (1 + (PATH_MAX - zlen name - 1)) by lia.
  assert (Et : exists l', ztake (1 + (PATH_MAX - zlen name - 1)) (0 :: l) = 0 :: l').
  { rewrite (ztake_split 1) by (rewrite ?zlen_cons; pose proof (zlen_nonneg l); lia). eauto. }
  destruct Et as [l' ->]. rewrite until_nul_app by done. autorewrite with apk. pose proof (zlen_nonneg l').
  destruct (Z.ltb_spec (zlen name) (zlen name + (zlen l' + 1))); [done|lia].
Qed.

Lemma cstr_nul name l : no_nul name -> cstr_at (name ++ 0 :: l) 0 = Some name.
Proof.
  intros Hnul. unfold cstr_at. rewrite zdrop_0, until_nul_app by done. autorewrite with apk. pose proof (zlen_nonneg l).
  destruct (Z.ltb_spec (zlen name) (zlen name + (zlen l + 1))); [done|lia].
Qed.

(** A long name: it is read, and is the name of the next entry. *)
Lemma tar_long_header t ae data a rest :
  let h := entry_header ae (chr "L") (bs "././@LongLink") (zlen (fi_name ae)) in
  entry_ok ae data -> sim (ts_is t) a -> a_rest a = fi_name ae ++ pad (zlen (fi_name ae)) ++ rest -> ts_paxlen t = 0 ->
  exists st' long, tar_header_step sort idc junk parser t h =
      Some (TarNext (TarState st' (ts_ctx t) (ts_end t) (ts_pax t) (ts_alloc t) 0 (fi_name ae ++ 0 :: long) (ts_filename t) NLongname)) /\
    sim st' (AS rest (a_fin a) (a_eof a) (a_cap a)).
Proof.
  intros h Hok Hsim Hrest Hpax. set (name := fi_name ae) in *. pose proof (zlen_nonneg name) as Hd.
  pose proof (eo_name_max _ _ Hok) as Hmax. fold name in Hmax. pose proof (round_512_bounds (zlen name) Hd).
  pose proof (zlen_nonneg rest). pose proof (zlen_pad (zlen name) Hd) as Hpad.
  unfold h. rewrite (tar_header_entry t ae data) by (done || (unfold PATH_MAX in *; cbn; lia)). fold h.
  rewrite switch_long by done. cbn [te_size].
  destruct (read_spec (ts_is t) a (zlen name) Hsim Hd) as (r & d & st1 & -> & Hr & Hpos). cbn [mbind option_bind].
  cbn [astep] in Hr, Hpos. rewrite Hrest, !zlen_app in Hr, Hpos.
  destruct (Z.leb_spec (zlen name) (zlen name + (zlen (pad (zlen name)) + zlen rest))); [|lia].
  cbn in Hr. subst r. destruct (Hpos ltac:(lia)) as [Hd' Hs]. cbn in Hd', Hs. rewrite ztake_app in Hd'. injection Hd' as ->.
  cbn [Z.ltb Z.compare].
  set (long := mem_write (mem_write (blob_realloc junk (ts_longname t) (zlen name + 1)) 0 name) (zlen name) [0]).
  assert (Hlong : exists l, long = name ++ 0 :: l).
  { set (b := blob_realloc junk (ts_longname t) (zlen name + 1)) in *.
    assert (Hb : zlen name + 1 <= zlen b).
    { subst b. unfold blob_realloc. destruct (Z.leb_spec (zlen name + 1) (zlen (ts_longname t))); [done|].
      autorewrite with apk. unfold zlen at 3. rewrite length_replicate. lia. }
    exists (zdrop (zlen name + 1) (mem_write b 0 name)). unfold long. unfold mem_write at 1.
    replace (ztake (zlen name) (mem_write b 0 name)) with name; [done|].
    unfold mem_write. rewrite (ztake_neg 0) by lia. by rewrite app_nil_l, ztake_app. }
  destruct Hlong as [l Hlong]. rewrite Hlong.
  pose proof (strnlen_nul name l (eo_name _ _ Hok) Hmax) as Hn.
  unfold te_set_name, name_too_long. cbn [te_name te_link_target te_mode te_size]. unfold name_strnlen, name_mem.
  cbn [ts_longname mbind option_bind]. rewrite Hn. cbn [mbind option_bind].
  destruct (Z.leb_spec (PATH_MAX - 10) (zlen name)); [lia|]. cbv beta iota. cbn [mbind option_bind].
  rewrite mode_no_ifmt. cbn [Z.eqb negb mbind option_bind]. rewrite Hpax.
  cbn [ts_is ts_ctx ts_end ts_pax ts_alloc ts_paxlen ts_longname ts_filename ts_name].
  set (t' := TarState st1 _ _ _ _ _ _ _ NLongname).
  destruct (skip_padding t' _ (round_512 (zlen name) - zlen name) rest Hs) as (st2 & Hsk & Hs2).
  - lia.
  - cbn. rewrite Hrest, zdrop_app, zlen_app. lia.
  - cbn. by rewrite Hrest, zdrop_app, <- Hpad, zdrop_app.
  - exists st2, l. split; [exact Hsk|exact Hs2].
Qed.

(** ** The loop over headers *)

Lemma read_record fuel t a h rest :
  hdr_wf h -> List.hd 0 (hdr_bytes h) <> 0 -> sim (ts_is t) a -> a_rest a = hdr_bytes h ++ rest ->
  exists st', tar_loop sort idc junk parser (Datatypes.S fuel) t =
      (step ← tar_header_step sort idc junk parser (ts_set_is st' t) h;
       match step with TarErr r t => Some (tar_err r, t) | TarNext t => tar_loop sort idc junk parser fuel t end) /\
    sim st' (AS rest (a_fin a) (a_eof a) (a_cap a)).
Proof.
  intros Hwf Hne Hsim Hrest. pose proof (zlen_hdr_bytes h Hwf) as Hlen. pose proof (zlen_nonneg rest).
  destruct (read_max_spec (ts_is t) a 512 Hsim ltac:(lia)) as (r & d & st' & Hrd & Hr & Hpos & _).
  cbn [astep] in Hr, Hpos. rewrite Hrest, zlen_app, Hlen in Hr, Hpos.
  destruct (Z.leb_spec 512 (512 + zlen rest)); [|lia]. cbn in Hr. subst r.
  destruct (Hpos ltac:(lia)) as [Hd Hs]. cbn in Hd, Hs. rewrite <- Hlen, ztake_app in Hd. injection Hd as ->.
  exists st'. cbn [tar_loop]. rewrite Hrd. cbn [mbind option_bind Z.eqb Pos.eqb negb].
  destruct (Z.eqb_spec (List.hd 0 (hdr_bytes h)) 0); [done|]. rewrite hdr_of_bytes by done.
  split; [done|]. unfold a_drop in Hs. by rewrite Hrest, <- Hlen, zdrop_app in Hs.
Qed.

Lemma hd_entry_header ae ty name size : name <> [] -> no_nul name -> List.hd 0 (hdr_bytes (entry_header ae ty name size)) <> 0.
Proof.
  intros Hne Hnul. unfold hdr_bytes. cbn [entry_header apk_tar_fill_header h_name]. rewrite strlcpy_split by done.
  destruct name as [|x name]; [done|]. apply list.Forall_cons_1 in Hnul as [Hx _]. exact Hx.
Qed.

(** The bytes of an entry. *)
Definition long_bytes (ae : apk_file_info) : bytes :=
  hdr_bytes (entry_header ae (chr "L") (bs "././@LongLink") (zlen (fi_name ae))) ++ fi_name ae ++ pad (zlen (fi_name ae)).
Definition file_bytes (ae : apk_file_info) (data : bytes) : bytes :=
  hdr_bytes (entry_header ae (chr "0") (fi_name ae) (zlen data)) ++ data ++ pad (zlen data).
Definition entry_bytes (ae : apk_file_info) (data : bytes) : bytes :=
  (if 99 <? zlen (fi_name ae) then long_bytes ae else []) ++ file_bytes ae data.

(** The state between entries. *)
Definition between t (c : C) : Prop := ts_ctx t = c /\ ts_end t = false /\ ts_paxlen t = 0 /\ ts_name t = NBuf.

Lemma loop_file fuel t ae data a c c' rest :
  entry_ok ae data -> sim (ts_is t) a -> 0 < a_cap a -> a_rest a = file_bytes ae data ++ rest ->
  ts_ctx t = c -> ts_end t = false -> ts_paxlen t = 0 ->
  (exists l, name_mem t (entry_header ae (chr "0") (fi_name ae) (zlen data)) (ts_name t) = Some (fi_name ae ++ 0 :: l, 0)) ->
  accepts (a_cap a) c ae data c' ->
  exists t', tar_loop sort idc junk parser (Datatypes.S fuel) t = tar_loop sort idc junk parser fuel t' /\ between t' c' /\
    sim (ts_is t') (AS rest (a_fin a) (a_eof a) (a_cap a)).
Proof.
  intros Hok Hsim Hcap Hrest <- Hend Hpax [l Hmem] Hacc. unfold file_bytes in Hrest. rewrite <- !app_assoc in Hrest.
  destruct (read_record fuel t a _ _ (entry_header_wf _ _ _ _) (hd_entry_header ae (chr "0") (fi_name ae) (zlen data)
    (eo_name0 _ _ Hok) (eo_name _ _ Hok)) Hsim Hrest) as (st1 & -> & Hs1).
  destruct (tar_file_header (ts_set_is st1 t) ae data _ c' rest Hok Hs1) as (st2 & Hstep & Hs2); try done.
  - unfold name_cstr. change (name_mem (ts_set_is st1 t)) with (name_mem t). cbn [ts_set_is ts_name]. rewrite Hmem.
    cbn [mbind option_bind]. apply cstr_nul, Hok.
  - unfold name_strnlen. change (name_mem (ts_set_is st1 t)) with (name_mem t). cbn [ts_set_is ts_name]. rewrite Hmem.
    cbn [mbind option_bind]. apply strnlen_nul; apply Hok.
  - rewrite Hstep. cbn [mbind option_bind]. eexists. split; [done|]. split; [|done]. by repeat split.
Qed.

Lemma name_mem_short t ae data :
  entry_ok ae data -> zlen (fi_name ae) <= 99 ->
  exists l, name_mem t (entry_header ae (chr "0") (fi_name ae) (zlen data)) NBuf = Some (fi_name ae ++ 0 :: l, 0).
Proof.
  intros Hok Hle. unfold name_mem. cbn [entry_header apk_tar_fill_header h_name]. rewrite strlcpy_split by done.
  rewrite ztake_all by (change (zlen (h_name hdr_zero)) with 100; lia). rewrite <- app_assoc. cbn [app]. eauto.
Qed.

(** One entry: one call of the callback, after at most two headers. *)
Lemma loop_entry fuel t ae data a c c' rest :
  entry_ok ae data -> sim (ts_is t) a -> 0 < a_cap a -> a_rest a = entry_bytes ae data ++ rest -> between t c ->
  accepts (a_cap a) c ae data c' ->
  exists f t', (fuel <= f)%nat /\
    tar_loop sort idc junk parser (Datatypes.S (Datatypes.S fuel)) t = tar_loop sort idc junk parser f t' /\ between t' c' /\
    sim (ts_is t') (AS rest (a_fin a) (a_eof a) (a_cap a)).
Proof.
  intros Hok Hsim Hcap Hrest (Hc & Hend & Hpax & Hname) Hacc. unfold entry_bytes in Hrest.
  destruct (Z.ltb_spec 99 (zlen (fi_name ae))).
  - unfold long_bytes in Hrest. rewrite <- !app_assoc in Hrest.
    destruct (read_record (Datatypes.S fuel) t a _ _ (entry_header_wf _ _ _ _) (hd_entry_header ae (chr "L") (bs "././@LongLink")
      (zlen (fi_name ae)) ltac:(done) ltac:(by repeat constructor)) Hsim Hrest) as (st1 & -> & Hs1).
    destruct (tar_long_header (ts_set_is st1 t) ae data _ _ Hok Hs1 eq_refl Hpax) as (st2 & long & -> & Hs2).
    cbn [mbind option_bind].
    match goal with |- context [tar_loop _ _ _ _ _ ?u] => set (t2 := u) end.
    destruct (loop_file fuel t2 ae data _ c c' rest Hok Hs2) as (t' & Hl & Hb & Hs'); try done.
    { eexists. reflexivity. }
    exists fuel, t'. done.
  - destruct (loop_file (Datatypes.S fuel) t ae data a c c' rest Hok Hsim) as (t' & Hl & Hb & Hs'); try done.
    { rewrite Hname. by apply name_mem_short. }
    exists (Datatypes.S fuel), t'. split; [lia|done].
Qed.

(** The callback accepts all files in turn. *)
Inductive handled (cap : Z) : C -> list (apk_file_info * bytes) -> C -> Prop :=
  | handled_nil c : handled cap c [] c
  | handled_cons c ae data l c' c'' : accepts cap c ae data c' -> handled cap c' l c'' -> handled cap c ((ae, data) :: l) c''.

Definition archive (l : list (apk_file_info * bytes)) : bytes :=
  (l ≫= fun '(ae, data) => entry_bytes ae data) ++ hdr_bytes hdr_zero ++ hdr_bytes hdr_zero.

Lemma read_zero_block (st : apk_istream S) a rest :
  sim st a -> a_rest a = hdr_bytes hdr_zero ++ rest ->
  exists d st', apk_istream_read_max st 512 = Some (512, d, st') /\ List.hd 0 d = 0 /\
    sim st' (AS rest (a_fin a) (a_eof a) (a_cap a)).
Proof.
  intros Hsim Hrest. pose proof (zlen_hdr_bytes hdr_zero hdr_zero_wf) as Hlen. pose proof (zlen_nonneg rest).
  destruct (read_max_spec st a 512 Hsim ltac:(lia)) as (r & d & st' & Hrd & Hr & Hpos & _).
  cbn [astep] in Hr, Hpos. rewrite Hrest, zlen_app, Hlen in Hr, Hpos.
  destruct (Z.leb_spec 512 (512 + zlen rest)); [|lia]. cbn in Hr. subst r.
  destruct (Hpos ltac:(lia)) as [Hd Hs]. cbn [fst snd] in Hd, Hs. rewrite <- Hlen, ztake_app in Hd. injection Hd as ->.
  exists (hdr_bytes hdr_zero), st'. split; [done|]. split; [reflexivity|]. unfold a_drop in Hs.
  by rewrite Hrest, <- Hlen, zdrop_app in Hs.
Qed.

Lemma read_nothing (st : apk_istream S) a :
  sim st a -> a_rest a = [] -> a_fin a = 0 ->
  exists d st', apk_istream_read_max st 512 = Some (0, d, st') /\ 0 <= is_err st'.
Proof.
  intros Hsim Hrest Hfin. destruct (read_max_spec st a 512 Hsim ltac:(lia)) as (r & d & st' & Hrd & Hr & Hpos & _).
  cbn [astep] in Hr, Hpos. rewrite Hrest, Hfin in Hr, Hpos. change (zlen (@nil Z)) with 0 in Hr, Hpos. cbn in Hr. subst r.
  destruct (Hpos ltac:(lia)) as [_ Hs]. exists d, st'. split; [done|]. apply (ok_err _ (sim_ok _ _ Hs)).
Qed.

(** The end of an archive: two empty headers, and the end of the stream. *)
Lemma tar_loop_end fuel t a :
  sim (ts_is t) a -> a_rest a = hdr_bytes hdr_zero ++ hdr_bytes hdr_zero -> a_fin a = 0 -> ts_end t = false ->
  exists t', tar_loop sort idc junk parser (3 + fuel) t = Some (0, t') /\ ts_ctx t' = ts_ctx t /\ 0 <= is_err (ts_is t').
Proof.
  intros Hsim Hrest Hfin Hend.
  destruct (read_zero_block (ts_is t) a _ Hsim Hrest) as (d & st1 & H1 & Hd & Hs1).
  cbn [Nat.add tar_loop]. rewrite H1. cbn [mbind option_bind Z.eqb Pos.eqb negb]. rewrite Hd. cbn [Z.eqb ts_set_is ts_end ts_is].
  rewrite Hend.
  destruct (read_zero_block st1 _ [] Hs1 ltac:(cbn; by rewrite app_nil_r)) as (d2 & st2 & H2 & Hd2 & Hs2).
  cbn [Nat.add tar_loop ts_is]. rewrite H2. cbn [mbind option_bind Z.eqb Pos.eqb negb]. rewrite Hd2. cbn [Z.eqb ts_set_is ts_end].
  destruct (read_nothing st2 _ Hs2 eq_refl Hfin) as (d3 & st3 & H3 & He).
  cbn [tar_drain]. rewrite H3. cbn [mbind option_bind Z.eqb].
  eexists. split; [done|]. done.
Qed.

Lemma loop_entries cap eof l c c' :
  0 < cap -> handled cap c l c' -> Forall (fun '(ae, data) => entry_ok ae data) l ->
  forall fuel t, sim (ts_is t) (AS (archive l) 0 eof cap) -> between t c -> (2 * length l + 3 <= fuel)%nat ->
  exists t', tar_loop sort idc junk parser fuel t = Some (0, t') /\ ts_ctx t' = c' /\ 0 <= is_err (ts_is t').
Proof.
  intros Hcap. induction 1 as [c|c ae data l c1 c2 Hacc Hh IH]; intros Hok fuel t Hsim Hb Hfuel.
  - destruct Hb as (Hc & Hend & _). replace fuel with (3 + (fuel - 3))%nat by (cbn in Hfuel; lia).
    destruct (tar_loop_end (fuel - 3) t _ Hsim eq_refl eq_refl Hend) as (t' & Hl & Hc' & He). exists t'. by rewrite Hc', Hc.
  - apply list.Forall_cons_1 in Hok as [Hae Hok]. cbn [length] in Hfuel.
    replace fuel with (Datatypes.S (Datatypes.S (fuel - 2)))%nat by lia.
    destruct (loop_entry (fuel - 2) t ae data _ c c1 (archive l) Hae Hsim Hcap) as (f & t1 & Hf & -> & Hb1 & Hs1); try done.
    { unfold archive. cbn [a_rest mbind list_bind]. by rewrite <- app_assoc. }
    apply IH; [done|done|done|lia].
Qed.

Lemma apk_tar_parse_archive cap eof l c c' fuel (st : apk_istream S) :
  0 < cap -> handled cap c l c' -> Forall (fun '(ae, data) => entry_ok ae data) l ->
  sim st (AS (archive l) 0 eof cap) -> (2 * length l + 3 <= fuel)%nat ->
  exists st', apk_tar_parse sort idc junk parser fuel st c = Some (0, c', st').
Proof.
  intros Hcap Hh Hok Hsim Hfuel.
  destruct (loop_entries cap eof l c c' Hcap Hh Hok fuel (TarState st c false [] 0 0 [] [] NBuf) Hsim) as (t' & Hl & Hc & He);
    [by repeat split|done|].
  unfold apk_tar_parse. rewrite Hl. cbn [mbind option_bind Z.ltb Z.compare]. destruct (Z.ltb_spec (is_err (ts_is t')) 0); [lia|].
  rewrite Hc. eauto.
Qed.
End read.

(** ** The writer *)

Lemma write_longname os ae data :
  entry_ok ae data -> 99 < zlen (fi_name ae) -> apk_tar_write_longname_entry os ae = (0, os ++ long_bytes ae).
Proof.
  intros Hok Hlong. unfold apk_tar_write_longname_entry, long_bytes. cbn [ops_write mem_ostream Z.ltb Z.compare].
  rewrite write_padding by lia. cbn [Z.ltb Z.compare]. unfold entry_header.
  rewrite <- (pad_long (zlen (fi_name ae))) by (lia || by apply (eo_name_512 _ _ Hok)).
  rewrite <- !app_assoc. done.
Qed.

Lemma write_entry os ae data :
  entry_ok ae data -> apk_tar_write_entry os (Some ae) (Some data) = (0, os ++ entry_bytes ae data).
Proof.
  intros Hok. pose proof Hok as []. unfold apk_tar_write_entry, entry_bytes. rewrite eo_mode0, Z.eqb_refl. cbn [negb].
  pose proof (zlen_nonneg data). rewrite eo_size0, (s32_small (zlen data)), (ztake_all (zlen data)) by lia.
  destruct (Z.ltb_spec 99 (zlen (fi_name ae))).
  - rewrite (write_longname os ae data) by done. cbn [ops_write mem_ostream Z.ltb Z.compare].
    rewrite write_padding by lia. cbn [Z.eqb negb]. unfold file_bytes, entry_header. by rewrite <- !app_assoc.
  - cbn [ops_write mem_ostream Z.ltb Z.compare].
    rewrite write_padding by lia. cbn [Z.eqb negb]. unfold file_bytes, entry_header. by rewrite <- !app_assoc.
Qed.

(** An archive: its files in order, then the end. *)
Fixpoint write_archive (os : bytes) (l : list (apk_file_info * bytes)) : Z * bytes :=
  match l with
  | [] => apk_tar_write_entry os None None
  | (ae, data) :: l =>
      let '(r, os) := apk_tar_write_entry os (Some ae) (Some data) in
      if r <? 0 then (r, os) else write_archive os l
  end.

Lemma write_archive_spec l os :
  Forall (fun '(ae, data) => entry_ok ae data) l -> write_archive os l = (0, os ++ archive l).
Proof.
  revert os. induction l as [|[ae data] l IH]; intros os Hok; cbn [write_archive].
  - cbn [apk_tar_write_entry ops_write mem_ostream Z.ltb Z.compare]. unfold archive. cbn [mbind list_bind app]. by rewrite <- app_assoc.
  - apply list.Forall_cons_1 in Hok as [Hae Hok]. rewrite write_entry by done. cbn [Z.ltb Z.compare]. rewrite IH by done.
    unfold archive. cbn [mbind list_bind]. by rewrite <- !app_assoc.
Qed.

(** C23: An archive written with [apk_tar_write_entry] is read back by [apk_tar_parse]: whatever
    pieces the stream [st] delivers the archive in, the callback is called once for each file, in
    order, with its name (also a name too long for the header), mode, owner, time and size and
    with a stream of exactly its contents; however much of these the callback leaves unread, the
    next header is found, and the result is 0. *)
Theorem tar_roundtrip {S} `{HS : IstreamOk S} {C pkey} `{!Crypto pkey} sort idc junk
    (parser : C -> apk_file_info -> apk_istream (segment S) -> option (Z * C * apk_istream (segment S)))
    (l : list (apk_file_info * bytes)) (c c' : C) (st : apk_istream S) (cap : Z) (eof : bool) (fuel : nat) :
  Forall (fun '(ae, data) => entry_ok ae data) l -> handled idc parser cap c l c' ->
  0 < cap -> sim st (AS (write_archive [] l).2 0 eof cap) -> (2 * length l + 3 <= fuel)%nat ->
  (write_archive [] l).1 = 0 /\ exists st', apk_tar_parse sort idc junk parser fuel st c = Some (0, c', st').
Proof.
  intros Hok Hh Hcap Hsim Hfuel. rewrite write_archive_spec in * by done. split; [done|].
  by apply (apk_tar_parse_archive sort idc junk parser cap eof l c c').
Qed.

(** ** A callback that keeps everything *)

Definition collect {S} `{IstreamOps S} (c : list (apk_file_info * bytes)) (fi : apk_file_info) (sg : apk_istream (segment S))
    : option (Z * list (apk_file_info * bytes) * apk_istream (segment S)) :=
  '(r, d, sg) ← apk_istream_read sg (fi_size fi); Some (r, c ++ [(fi, d)], sg).

Lemma collect_accepts {S} `{HS : IstreamOk S} idc cap c ae data :
  entry_ok ae data -> accepts idc (collect (S := S)) cap c ae data (c ++ [(tar_info idc ae, data)]).
Proof.
  intros Hok sg Hsim. unfold collect. change (fi_size (tar_info idc ae)) with (fi_size ae). rewrite (eo_size _ _ Hok).
  pose proof (zlen_nonneg data) as Hd.
  destruct (read_spec sg _ (zlen data) Hsim Hd) as (r & d & sg' & Hrd & Hr & Hpos). cbn [astep a_rest] in Hr, Hpos.
  rewrite Z.leb_refl in Hr, Hpos. cbn in Hr. subst r. destruct (Hpos ltac:(lia)) as [Hd' _]. cbn in Hd'.
  rewrite ztake_all in Hd' by lia. injection Hd' as ->. rewrite Hrd. cbn [mbind option_bind]. exists sg'. split; [done|].
  apply (client_op sg (ORead (zlen data)) (0, Some data, sg')); [done| |apply client_done].
  cbn [istep]. by rewrite Hrd.
Qed.

Lemma collect_handled {S} `{HS : IstreamOk S} idc cap l c :
  Forall (fun '(ae, data) => entry_ok ae data) l ->
  handled idc (collect (S := S)) cap c l (c ++ map (fun '(ae, data) => (tar_info idc ae, data)) l).
Proof.
  revert c. induction l as [|[ae data] l IH]; intros c Hok.
  - rewrite app_nil_r. constructor.
  - apply list.Forall_cons_1 in Hok as [Hae Hok]. econstructor; [by apply collect_accepts|].
    specialize (IH (c ++ [(tar_info idc ae, data)]) Hok). by rewrite <- app_assoc in IH.
Qed.

(** ** Concrete archives *)

#[local] Existing Instance toy_crypto.

Definition example_file (name data : bytes) : apk_file_info * bytes :=
  (FileInfo name None (Some (bs "alice")) None (zlen data) 1000 7 0x81a4 123456 0 digest_zero digest_zero [], data).
Definition no_ids : id_cache := IdCache (fun _ d => d) (fun _ d => d).

Lemma example_file_ok n c data :
  (n < 4000)%nat -> n <> 0%nat -> c <> 0 -> (99 < Z.of_nat n -> Z.of_nat n mod 512 <> 0) -> zlen data < 2 ^ 31 ->
  entry_ok (example_file (replicate n c) data).1 data.
Proof.
  intros Hn Hn0 Hc H512 Hd. unfold example_file. constructor; cbn [fst fi_mode fi_name fi_uname fi_gname fi_uid fi_gid fi_mtime fi_size default]; try done.
  - by apply Forall_replicate.
  - by destruct n.
  - unfold zlen, PATH_MAX. rewrite length_replicate. lia.
  - unfold zlen. by rewrite length_replicate.
  - by repeat constructor.
  - by repeat constructor.
Qed.

(** Two files, the second with a long name, read in pieces of odd sizes. *)
Definition two_files : list (apk_file_info * bytes) :=
  [example_file (replicate 3 97) (bs "hello"); example_file (replicate 200 98) (bs "world!")].

Lemma tar_roundtrip_witness :
  (write_archive [] two_files).1 = 0 /\
  exists st', apk_tar_parse id no_ids 77 collect 20
    (apk_istream_from_fd 700 (FdFile (write_archive [] two_files).2 [300; 1; 100; 612] 0)) [] =
    Some (0, map (fun '(ae, data) => (tar_info no_ids ae, data)) two_files, st').
Proof.
  assert (Hok : Forall (fun '(ae, data) => entry_ok ae data) two_files).
  { constructor; [apply (example_file_ok 3 97 (bs "hello"))|constructor; [apply (example_file_ok 200 98 (bs "world!"))|constructor]];
      done || lia. }
  apply (tar_roundtrip id no_ids 77 collect two_files [] _ _ 700 false 20 Hok (collect_handled no_ids 700 two_files [] Hok)).
  - lia.
  - apply fd_sim; cbn; lia.
  - cbn. lia.
Defined.

(** Names whose length is a multiple of 512 are not read back: the writer stores the NUL behind the
    name, which the size of the header does not count, so that a block of zeros is left that the
    reader takes for the end of the archive.  The writer stores two such files without an error;
    the reader gets the first one and fails at the second. *)
Theorem tar_long_names_lost :
  let a := example_file (replicate 512 97) (bs "x") in
  let b := example_file (replicate 512 98) (bs "y") in
  (write_archive [] [a; b]).1 = 0 /\
  exists st', apk_tar_parse id no_ids 77 collect 20 (apk_istream_from_blob (write_archive [] [a; b]).2) [] =
    Some (- APKE_EOF, [(tar_info no_ids a.1, a.2)], st').
Proof. cbv zeta. split; [by vm_compute|]. eexists. by vm_compute. Qed.

(** Extended headers are records of a length, a name and a value. *)
Definition pax_header (text : bytes) : bytes :=
  let ae := (example_file [] []).1 in
  hdr_bytes (entry_header ae (chr "x") (bs "pax") (zlen text)) ++ text ++ pad (zlen text).

(** Two extended headers in a row: the second is read with the attributes of the first applied to it,
    so that its name points into the memory of the first; when it is larger this memory is
    reallocated, and the check of the length of the name reads through the old pointer.
    [apk_tar_parse] performs an invalid access, whatever the callback does. *)
Theorem tar_pax_dangling {C} (parser : C -> apk_file_info -> apk_istream (segment unit) -> option (Z * C * apk_istream (segment unit)))
    (c : C) junk fuel :
  apk_tar_parse id no_ids junk parser fuel
    (apk_istream_from_blob (pax_header (bs "10 path=a" ++ [10]) ++ pax_header (bs "600 x=" ++ replicate 593 97 ++ [10]))) c = None.
Proof. destruct fuel as [|[|fuel]]; by vm_compute. Qed.
