(* ===== verification/TarInv.v ===== *)
(** Invariants of the stream an archive is read from: what reads keep, [apk_tar_parse] keeps, if the
    callback keeps it on the stream of a file. *)
From Stdlib Require Import ZArith Lia Ascii String.
From stdpp Require Import base numbers list option.
From S2P Require Import Prelude Clib Blob Codec Dep AdbTrust Stream StreamThm StreamSeg Tar.

Lemma dx_nonneg c : 0 <= dx c.
Proof.
  unfold dx, znth. case_test; [lia|]. destruct (nth_in_or_default (Z.to_nat c) digitdecode 0xff) as [Hin|Hd]; [|rewrite Hd; lia].
  assert (Hall : forallb (Z.leb 0) digitdecode = true) by (by vm_compute).
  apply Z.leb_le. by apply (proj1 (forallb_forall _ _) Hall).
Qed.

Lemma pull_octal_bound (b : bytes) (v : Z) :
  0 <= v -> (v + 1) * 8 ^ zlen b <= 2 ^ 64 -> 0 <= (pull_uint_loop b 8 v).1 < (v + 1) * 8 ^ zlen b.
Proof.
  revert v. induction b as [|c b IH]; intros v Hv Hb.
  { change (8 ^ zlen (@nil Z)) with 1. cbn [pull_uint_loop fst]. lia. }
  rewrite zlen_cons in *. pose proof (zlen_nonneg b). rewrite Z.pow_add_r in * by lia. change (8 ^ 1) with 8 in *.
  assert (Hpow : 0 < 8 ^ zlen b) by (apply Z.pow_pos_nonneg; lia).
  cbn [pull_uint_loop]. destruct (c =? 0); [cbn; nia|]. pose proof (dx_nonneg c).
  destruct (Z.leb_spec 8 (dx c)); [cbn; nia|].
  rewrite (wrap_small 64 (v * 8)) by nia. rewrite wrap_small by nia.
  destruct (IH (v * 8 + dx c)); [lia|nia|]. nia.
Qed.

Lemma get_octal_bound s : zlen s <= 12 -> 0 <= (get_octal s).1 < 8 ^ 12.
Proof.
  intros Hs. unfold get_octal, apk_blob_pull_uint. pose proof (zlen_nonneg s).
  assert (Hp : 8 ^ zlen s <= 8 ^ 12) by (apply Z.pow_le_mono_r; lia).
  assert (Hc : 8 ^ 12 < 2 ^ 64) by (by vm_compute).
  pose proof (pull_octal_bound s 0 ltac:(lia) ltac:(lia)). destruct (pull_uint_loop s 8 0) as [v b]. cbn in *. lia.
Qed.

Section reads.
Context {S : Type} `{IstreamOps S} (Q : S -> Z -> Prop) `{!SourceInv Q} (n : Z).

Lemma inv_read_op (st : apk_istream S) k r d st' :
  src_inv Q n st -> 0 <= k -> apk_istream_read st k = Some (r, d, st') -> src_inv Q n st'.
Proof.
  intros Hi Hk Hrd. apply (inv_istep (src_inv Q n) st (ORead k) (r, (if r <? 0 then None else Some d), st')); try done.
  cbn [istep]. by rewrite Hrd.
Qed.

Lemma inv_skip (st : apk_istream S) k r st' : src_inv Q n st -> apk_istream_skip st k = Some (r, st') -> src_inv Q n st'.
Proof. intros Hi Hsk. by apply (inv_skip_loop (src_inv Q n)) in Hsk. Qed.

Lemma tar_drain_inv fuel st r st' : src_inv Q n st -> tar_drain fuel st = Some (r, st') -> src_inv Q n st'.
Proof.
  revert st. induction fuel as [|fuel IH]; intros st Hi; [done|]. cbn [tar_drain].
  destruct (apk_istream_read_max st 512) as [[[r1 d] st1]|] eqn:E; [|done]. cbn [mbind option_bind].
  apply (inv_read_max (src_inv Q n)) in E; [|done|lia]. cbn in E.
  destruct (r1 =? 512); [|by intros [= _ <-]]. destruct (_ =? 0); [by apply IH|by intros [= _ <-]].
Qed.

End reads.

(** The invariant may depend on the state of the callback. *)
Section tar_inv.
Context {S : Type} `{IstreamOps S} {C : Type} (Q : C -> S -> Z -> Prop) {HQ : forall c, SourceInv (Q c)} (n : Z).
Context {pkey : Type} `{!Crypto pkey} (sort : list apk_xattr -> list apk_xattr) (idc : id_cache) (junk : Z).
Context (parser : C -> apk_file_info -> apk_istream (segment S) -> option (Z * C * apk_istream (segment S))).
Hypothesis parser_inv : forall c fi sg r c' sg', 0 <= fi_size fi ->
  src_inv (seg_src_inv (Q c) n) n sg -> parser c fi sg = Some (r, c', sg') -> src_inv (seg_src_inv (Q c') n) n sg'.
Implicit Types t : @tar_state S C.

Definition tar_inv t : Prop := src_inv (Q (ts_ctx t)) n (ts_is t).

Lemma tar_switch_inv t h e k r t' e' k' :
  tar_inv t -> 0 <= te_size e -> tar_switch junk t h e k = Some (r, t', e', k') -> tar_inv t' /\ te_size e' = te_size e.
Proof.
  intros Hi Hs. unfold tar_switch.
  destruct (h_typeflag h =? chr "L").
  { destruct (apk_istream_read (ts_is t) (te_size e)) as [[[r' d] st]|] eqn:E; [|done]. cbn. intros [= <- <- <- <-].
    split; [|done]. by apply (inv_read_op (Q (ts_ctx t)) n) in E. }
  repeat match goal with
  | |- (if ?b then _ else _) = _ -> _ => destruct b; [intros [= <- <- <- <-]; split; [done|]; (done || (cbn; by case_match))|]
  end.
  destruct (h_typeflag h =? chr "x"); [|by intros [= <- <- <- <-]].
  destruct (apk_istream_read (ts_is t) (te_size e)) as [[[r' d] st]|] eqn:E; [|done]. cbn. intros [= <- <- <- <-].
  split; [|done]. by apply (inv_read_op (Q (ts_ctx t)) n) in E.
Qed.

Lemma tar_file_inv t h e r t' : tar_inv t -> 0 <= te_size e -> tar_file parser t h e = Some (r, t') -> tar_inv t'.
Proof.
  intros Hi Hs. unfold tar_file. destruct (file_info_of t h e) as [fi|] eqn:Hfi; [|done]. cbn [mbind option_bind].
  assert (Hsz : fi_size fi = te_size e).
  { revert Hfi. unfold file_info_of. destruct (name_cstr _ _ _); [|done]. cbn [mbind option_bind].
    destruct (match te_link_target e with None => _ | Some _ => _ end); [|done]. by intros [= <-]. }
  destruct (parser _ _ _) as [[[r' c] sg]|] eqn:Hp; [|done]. cbn [mbind option_bind].
  apply parser_inv in Hp; [|lia|by apply segment_open].
  destruct (negb (r' =? 0)); [intros [= _ <-]; unfold tar_inv; cbn; by apply (segment_parent (Q c) n)|].
  destruct (segment_close sg) as [[r'' st]|] eqn:Hc; [|done]. cbn. intros [= _ <-]. by apply (segment_closed (Q c) n) in Hc.
Qed.

Definition step_inv (s : @tar_step S C) : Prop := match s with TarErr _ t | TarNext t => tar_inv t end.

Lemma tar_entry_of_size h nm : zlen (h_size h) <= 12 -> 0 <= te_size (tar_entry_of idc h nm).1.
Proof.
  intros Hs. unfold tar_entry_of. pose proof (get_octal_bound _ Hs) as Hb.
  destruct (get_octal (h_size h)) as [size r1]. do 6 destruct (get_octal _). cbn in *.
  rewrite s64_small; [lia|]. assert (8 ^ 12 < 2 ^ 63) by (by vm_compute). lia.
Qed.

Lemma extended_loop_size fuel alloc mem hdr off e mem' e' :
  extended_loop fuel alloc mem hdr off e = Some (mem', e') -> te_size e' = te_size e.
Proof.
  revert mem hdr off e. induction fuel as [|fuel IH]; intros mem hdr off e; [done|]. cbn [extended_loop].
  destruct (extended_record alloc mem hdr off e) as [[[[[m h] o] e1]|]|] eqn:E; cbn; try done.
  - intros Hl. apply IH in Hl. rewrite Hl. clear Hl. revert E. unfold extended_record.
    destruct (apk_blob_pull_uint hdr 10) as [len h1].
    repeat (case_match; try done); try (intros [= <- <- <- <-]; done).
    all: destruct (apk_blob_pull_hexdump _ _) as [[b data]|]; cbn; try done; intros [= <- <- <- <-]; done.
  - by intros [= _ <-].
Qed.

(** After the switch: the checks, the callback and the padding. *)
Lemma tar_rest_inv t h e toskip res :
  tar_inv t -> 0 <= te_size e ->
  (long ← name_too_long t h e;
   if (long : bool) then Some (TarErr (- ENAMETOOLONG) t)
   else
     '(r, t, toskip) ← (if negb (te_mode e .& S_IFMT =? 0) then
                          '(r, t) ← tar_file parser t h e; Some (r, t, toskip - te_size e)
                        else
                          Some (0, TarState (ts_is t) (ts_ctx t) (ts_end t) (ts_pax t) (ts_alloc t) (ts_paxlen t)
                                     (ts_longname t) (ts_filename t) (te_name e), toskip));
     if negb (r =? 0) then Some (TarErr r t)
     else if toskip =? 0 then Some (TarNext t)
     else
       '(r, st) ← apk_istream_skip (ts_is t) toskip;
       if r <? 0 then Some (TarErr r (ts_set_is st t)) else Some (TarNext (ts_set_is st t))) = Some res ->
  step_inv res.
Proof.
  intros Hi Hs. destruct (name_too_long t h e) as [[]|]; cbn [mbind option_bind]; [by intros [= <-]| |done].
  match goal with |- context [mbind _ ?m] => destruct m as [[[r t1] skip]|] eqn:E; [|done] end. cbn [mbind option_bind].
  assert (Hi1 : tar_inv t1).
  { destruct (negb _) in E; [|by injection E as <- <- <-].
    destruct (tar_file parser t h e) as [[r' t']|] eqn:Ef; [|done]. injection E as <- <- <-. by apply tar_file_inv in Ef. }
  destruct (negb (r =? 0)); [by intros [= <-]|]. destruct (skip =? 0); [by intros [= <-]|].
  destruct (apk_istream_skip (ts_is t1) skip) as [[r' st]|] eqn:Esk; [|done]. cbn [mbind option_bind].
  apply (inv_skip (Q (ts_ctx t1)) n) in Esk; [|done]. destruct (r' <? 0); intros [= <-]; exact Esk.
Qed.

Lemma tar_header_step_inv t h res :
  tar_inv t -> zlen (h_size h) <= 12 -> tar_header_step sort idc junk parser t h = Some res -> step_inv res.
Proof.
  intros Hi Hh. unfold tar_header_step. destruct (negb _); [by intros [= <-]|].
  pose proof (tar_entry_of_size h (ts_name t) Hh) as Hs. destruct (tar_entry_of idc h (ts_name t)) as [e r]. cbn in Hs.
  destruct (negb _); [by intros [= <-]|]. set (pre := negb _ && _ && _). clearbody pre.
  set (t1 := if pre then _ else t). set (e1 := if pre then _ else e).
  assert (Hi1 : tar_inv t1) by (subst t1; by destruct pre).
  assert (Hs1 : 0 <= te_size e1) by (subst e1; by destruct pre). clearbody t1 e1.
  destruct (SSIZE_MAX - 512 <=? te_size e1); [by intros [= <-]|].
  match goal with |- context [mbind _ ?m] => destruct m as [[t2 e2]|] eqn:E; [|done] end. cbn [mbind option_bind].
  assert (Hx : tar_inv t2 /\ 0 <= te_size e2).
  { destruct (negb _) in E; [|by injection E as <- <-].
    destruct (handle_extended_header _ _ _ _) as [[pax e']|] eqn:Ee; [|done]. cbn [mbind option_bind] in E.
    apply extended_loop_size in Ee. destruct (apk_fileinfo_hash_xattr_array _ _ _ _) as [xs xd].
    injection E as <- <-. split; [exact Hi1|]. cbn. by rewrite Ee. }
  destruct Hx as [Hi2 Hs2].
  destruct (tar_switch junk t2 h e2 _) as [[[[r3 t3] e3] skip]|] eqn:Esw; [|done]. cbn [mbind option_bind].
  apply tar_switch_inv in Esw as [Hi3 Hs3]; [|done|done].
  destruct (r3 <? 0); [by intros [= <-]|]. apply tar_rest_inv; [done|lia].
Qed.

Lemma zlen_field b off len : 0 <= len -> zlen (hdr_field b off len) <= len.
Proof. intros. unfold hdr_field. rewrite zlen_ztake_min by lia. lia. Qed.

Lemma tar_loop_inv fuel t r t' : tar_inv t -> tar_loop sort idc junk parser fuel t = Some (r, t') -> tar_inv t'.
Proof.
  revert t. induction fuel as [|fuel IH]; intros t Hi; [done|]. cbn [tar_loop].
  destruct (apk_istream_read_max (ts_is t) 512) as [[[r1 d] st1]|] eqn:E; [|done]. cbn [mbind option_bind].
  apply (inv_read_max (src_inv (Q (ts_ctx t)) n)) in E; [|done|lia]. cbn in E.
  destruct (negb _); [by intros [= _ <-]|]. destruct (_ =? 0).
  - destruct (ts_end _); [|by apply IH]. destruct (tar_drain fuel st1) as [[r2 st2]|] eqn:Ed; [|done].
    cbn [mbind option_bind]. intros [= _ <-]. by apply (tar_drain_inv (Q (ts_ctx t)) n) in Ed.
  - destruct (tar_header_step _ _ _ _ _ _) as [step|] eqn:Es; [|done]. cbn [mbind option_bind].
    apply tar_header_step_inv in Es; [|done|apply zlen_field; lia].
    destruct step as [r2 t2|t2]; [by intros [= _ <-]|by apply IH].
Qed.

Lemma apk_tar_parse_inv fuel st c r c' st' :
  src_inv (Q c) n st -> apk_tar_parse sort idc junk parser fuel st c = Some (r, c', st') ->
  src_inv (Q c') n st' /\ r = (if is_err st' <? 0 then is_err st' else 0).
Proof.
  intros Hi. unfold apk_tar_parse. destruct (tar_loop _ _ _ _ _ _) as [[r1 t]|] eqn:E; [|done]. cbn [mbind option_bind].
  apply tar_loop_inv in E; [|exact Hi]. intros [= <- <- <-]. split; [|done].
  destruct (Z.ltb_spec r1 0); [|exact E]. apply (inv_error (src_inv (Q (ts_ctx t)) n)); [exact E|lia].
Qed.
End tar_inv.
