(* ===== verification/Gunzip.v ===== *)
(** Decompressing streams (io_gunzip.c): a stream of gzip members over another stream, with a callback
    for the compressed bytes of the members and for the boundaries between them.

    The decompressor (inflate of zlib) is a parameter, the class [Zlib].  The stream works on the
    buffer of the stream below it: the input of inflate and the bytes that are passed to the
    callback are given by offsets into that buffer, which is refilled while offsets are kept. *)
From Stdlib Require Import ZArith Lia.
From stdpp Require Import base numbers list option.
From S2P Require Import Prelude Clib Blob Codec Dep AdbTrust Stream.

Definition ENOMEM : Z := 12.
Definition EIO : Z := 5.
Definition ECANCELED : Z := 125.
Definition Z_OK : Z := 0.
Definition Z_STREAM_END : Z := 1.
Definition Z_BUF_ERROR : Z := -5.

(** inflate of the available input into at most so many bytes: the result code, the number of bytes
    that were consumed and the bytes that were produced; inflateInit2 for window bits. *)
Class Zlib (zs : Type) := {
  inflate : zs -> bytes -> Z -> Z * Z * bytes * zs;
  inflateInit2 : Z -> option zs
}.

(** What zlib promises: it stays inside of its input and output, and when nothing could be done
    one of them was empty. *)
Class ZlibOk (zs : Type) `{Zlib zs} : Prop := {
  inflate_in z input n rc used out z' : 0 < n -> inflate z input n = (rc, used, out, z') -> 0 <= used <= zlen input;
  inflate_out z input n rc used out z' : 0 < n -> inflate z input n = (rc, used, out, z') -> zlen out <= n;
  inflate_buf_error z input n used out z' : 0 < n -> inflate z input n = (Z_BUF_ERROR, used, out, z') -> input = [] /\ out = [];
  inflate_progress z input n rc used out z' : 0 < n -> inflate z input n = (rc, used, out, z') ->
    rc = Z_OK \/ rc = Z_STREAM_END -> 0 < used + zlen out
}.

Inductive mpart := APK_MPART_DATA | APK_MPART_BOUNDARY | APK_MPART_END.

(** struct apk_gzip_istream: the stream below, the decompressor with its input (next_in as an offset
    into the buffer below, and avail_in), cbprev ([None] for NULL), cbarg and the context
    of the callback. *)
Record gzip_istream (S zs K : Type) := Gzip {
  gz_zis : apk_istream S; gz_zs : zs; gz_next_in : Z; gz_avail_in : Z;
  gz_cbprev : option Z; gz_cbarg : option (Z * Z); gz_cbctx : K
}.
Arguments Gzip {S zs K} _ _ _ _ _ _ _.
Arguments gz_zis {S zs K} _.
Arguments gz_zs {S zs K} _.
Arguments gz_next_in {S zs K} _.
Arguments gz_avail_in {S zs K} _.
Arguments gz_cbprev {S zs K} _.
Arguments gz_cbarg {S zs K} _.
Arguments gz_cbctx {S zs K} _.

(** apk_istream_error on the field alone. *)
Definition err_set (err e : Z) : Z * Z :=
  let err := if (0 <=? err) && negb (e =? 0) then e else err in (if err <? 0 then err else 0, err).

Section gunzip.
Context {S : Type} `{IstreamOps S} {zs : Type} `{Zlib zs} {K : Type}.
(** the callback, if there is one: its result and its context *)
Variable cb : option (K -> mpart -> bytes -> Z * K).
Implicit Types g : gzip_istream S zs K.

Definition gz_set_ctx (k : K) g : gzip_istream S zs K :=
  Gzip (gz_zis g) (gz_zs g) (gz_next_in g) (gz_avail_in g) (gz_cbprev g) (gz_cbarg g) k.
Definition gz_set_cb (prev : option Z) (arg : option (Z * Z)) g : gzip_istream S zs K :=
  Gzip (gz_zis g) (gz_zs g) (gz_next_in g) (gz_avail_in g) prev arg (gz_cbctx g).
Definition gz_set_zs (z : zs) (next avail : Z) g : gzip_istream S zs K :=
  Gzip (gz_zis g) z next avail (gz_cbprev g) (gz_cbarg g) (gz_cbctx g).

(** [len] bytes of the buffer below, at [off]. *)
Definition gz_mem g (off len : Z) : bytes := ztake len (zdrop off (is_buf (gz_zis g))).

(** The result, the stream and its error. *)
Definition gzi_boundary_change g (err : Z) : Z * gzip_istream S zs K * Z :=
  let '(r, g) := match cb, gz_cbarg g with
                 | Some f, Some (off, len) =>
                     let '(r, k) := f (gz_cbctx g) APK_MPART_DATA (gz_mem g off len) in (r, gz_set_ctx k g)
                 | _, _ => (0, g)
                 end in
  if negb (r =? 0) then let '(r, err) := err_set err r in (r, g, err)
  else
    let g := gz_set_cb (gz_cbprev g) None g in
    let err := if (err =? 0) && negb (is_err (gz_zis g) =? 0) && (gz_avail_in g =? 0) then is_err (gz_zis g) else err in
    match cb with
    | None => (0, g, err)
    | Some f =>
        let '(r, k) := f (gz_cbctx g) (if negb (err =? 0) then APK_MPART_END else APK_MPART_BOUNDARY) [] in
        let '(r, err) := err_set err (if 0 <? r then - ECANCELED else r) in
        (r, gz_set_ctx k g, err)
    end.

Definition gzi_read_more g (err : Z) : Z * gzip_istream S zs K * Z :=
  let '(r, blob, zis) := apk_istream_get_max (gz_zis g) APK_IO_ALL in
  let g := Gzip zis (gz_zs g) (gz_next_in g) (gz_avail_in g) (gz_cbprev g) (gz_cbarg g) (gz_cbctx g) in
  if r <? 0 then
    if negb (r =? - APKE_EOF) then let '(r, err) := err_set err r in (r, g, err) else (0, g, err)
  else
    let off := default 0 (is_ptr zis) - blob_len blob in
    (0, Gzip zis (gz_zs g) off (blob_len blob) (Some off) (gz_cbarg g) (gz_cbctx g), err).

(** The callback for the input that was used up, before the buffer is refilled. *)
Definition gzi_report g (err : Z) : Z * gzip_istream S zs K * Z :=
  match cb, gz_cbprev g with
  | Some f, Some p =>
      if p =? gz_next_in g then (0, g, err)
      else
        let '(r, k) := f (gz_cbctx g) APK_MPART_DATA (gz_mem g p (gz_next_in g - p)) in
        if r <? 0 then let '(r, err) := err_set err r in (r, gz_set_ctx k g, err)
        else (0, gz_set_cb (Some (gz_next_in g)) (gz_cbarg g) (gz_set_ctx k g), err)
  | _, _ => (0, g, err)
  end.

(** The end of a member: [inl] is the result of the read, [inr] goes on. *)
Definition gzi_member_end g (err : Z) (out : bytes) : (Z * gzip_istream S zs K * Z) + (gzip_istream S zs K * Z) :=
  let g := match cb with
           | None => g
           | Some _ =>
               (* both pointers are NULL before the first input *)
               let arg := (fun p => (p, gz_next_in g - p)) <$> gz_cbprev g in
               gz_set_cb ((fun _ => gz_next_in g) <$> gz_cbprev g) arg g
           end in
  let '(r, g, err) := if gz_avail_in g =? 0 then gzi_read_more g err else (0, g, err) in
  if negb (r =? 0) then inl (r, g, err)
  else
    let '(r, g, err) := if (gz_avail_in g =? 0) && (zlen out =? 0) then gzi_boundary_change g err else (0, g, err) in
    if negb (r =? 0) then inl (r, g, err)
    else match inflateInit2 (15 + 32) with
         | None => inl (- ENOMEM, g, err)
         | Some z =>
             let g := gz_set_zs z (gz_next_in g) (gz_avail_in g) g in
             match cb with
             | Some _ => if negb (zlen out =? 0) then inl (zlen out, g, err) else inr (g, err)
             | None => inr (g, err)
             end
         end.

(** Before inflate is called: a pending boundary, and new input if there is none. *)
Definition gzi_prepare g (err : Z) : Z * gzip_istream S zs K * Z :=
  let '(r, g, err) := match gz_cbarg g with Some _ => gzi_boundary_change g err | None => (0, g, err) end in
  if negb (r =? 0) then (r, g, err)
  else if (gz_avail_in g =? 0) && (err =? 0) then
    let '(r, g, err) := gzi_report g err in
    if negb (r =? 0) then (r, g, err) else gzi_read_more g err
  else (0, g, err).

(** The loop of gzi_read; [out] is what was stored at the destination.  [None] when the turns are
    used up. *)
Fixpoint gzi_loop (turns : nat) g (err size : Z) (out : bytes) : option (Z * bytes * gzip_istream S zs K * Z) :=
  match turns with
  | O => None
  | Datatypes.S turns =>
      if (zlen out =? size) || (err <? 0) then Some (zlen out, out, g, err)
      else
        let '(r, g, err) := gzi_prepare g err in
        if negb (r =? 0) then Some (r, out, g, err)
        else
          let '(rc, used, d, z) := inflate (gz_zs g) (gz_mem g (gz_next_in g) (gz_avail_in g)) (size - zlen out) in
          let g := gz_set_zs z (gz_next_in g + used) (gz_avail_in g - used) g in
          let out := out ++ d in
          if rc =? Z_STREAM_END then
            match gzi_member_end g err out with
            | inl (r, g, err) => Some (r, out, g, err)
            | inr (g, err) => gzi_loop turns g err size out
            end
          else if rc =? Z_OK then gzi_loop turns g err size out
          else if rc =? Z_BUF_ERROR then Some (zlen out, out, g, err)
          else let '(r, err) := err_set err (- APKE_FORMAT_INVALID) in Some (r, out, g, err)
  end.

(** gzi_read as a source, for a number of turns that is enough ([gzi_loop_ends]). *)
Definition gzi_read (turns : nat) : IstreamOps (gzip_istream S zs K) := fun g err size =>
  default (- EIO, [], g, - EIO) (gzi_loop turns g err size []).

Definition window_bits (bits : Z) (raw : bool) : Z := if raw then - bits else bits .| 16.

(** apk_istream_zlib; [None] if zlib cannot be started.  The buffer has [bufsize] bytes. *)
Definition apk_istream_zlib (bufsize : Z) (st : apk_istream S) (raw : bool) (ctx : K) : option (apk_istream (gzip_istream S zs K)) :=
  z ← inflateInit2 (window_bits 15 raw);
  Some (Istream (Gzip st z 0 0 None None ctx) (replicate (Z.to_nat bufsize) 0) None 0 0).
End gunzip.
