(* ===== verification/GunzipThm.v ===== *)
(** Decompressing a file that is in memory (Gunzip.v): the callback is given every byte of the file, in
    order, and the end is only reported after the last one.  With other streams this fails. *)
From Stdlib Require Import ZArith Lia Ascii String.
From stdpp Require Import base numbers list option.
From S2P Require Import Prelude Clib Blob Codec Dep AdbTrust Stream StreamThm StreamSeg Gunzip.

(** ** What a callback keeps *)

(** An invariant of the context of the callback and of the bytes that it was given; [file] is what it will have
    been given at the end. *)
Class MpartInv {K} (cb : K -> mpart -> bytes -> Z * K) (file : bytes) (J : bytes -> K -> Prop) : Prop := {
  cb_nonpos fed k part d : J fed k -> (cb k part d).1 <= 0;
  cb_data fed k d k' : J fed k -> cb k APK_MPART_DATA d = (0, k') -> J (fed ++ d) k';
  cb_boundary fed k k' : J fed k -> cb k APK_MPART_BOUNDARY [] = (0, k') -> J fed k';
  cb_end k k' : J file k -> cb k APK_MPART_END [] = (0, k') -> J file k'
}.

Section memory.
Context {zs : Type} `{ZlibOk zs} {K : Type} (cb : K -> mpart -> bytes -> Z * K) (file : bytes) (J : bytes -> K -> Prop).
Context `{!MpartInv cb file J} (Hfile : zlen file < 2 ^ 64).
Implicit Types g : gzip_istream unit zs K.

(** Nothing was read yet. *)
Record gz_unread g : Prop := {
  gu_zis : gz_zis g = apk_istream_from_blob file; gu_next : gz_next_in g = 0; gu_avail : gz_avail_in g = 0;
  gu_prev : gz_cbprev g = None; gu_arg : gz_cbarg g = None; gu_J : J [] (gz_cbctx g)
}.

(** The file is in the buffer; the callback was given the first [q] bytes, and the bytes up to [p] are
    pending in cbarg. *)
Record gz_reading (q p : Z) g : Prop := {
  gr_buf : is_buf (gz_zis g) = file; gr_err : is_err (gz_zis g) = 1; gr_len : is_len (gz_zis g) = 0;
  gr_prev : gz_cbprev g = Some p; gr_q : 0 <= q <= p; gr_p : p <= gz_next_in g;
  gr_avail : 0 <= gz_avail_in g; gr_end : gz_next_in g + gz_avail_in g = zlen file;
  gr_J : J (ztake q file) (gz_cbctx g);
  gr_arg : match gz_cbarg g with None => q = p | Some (o, len) => o = q /\ len = p - q /\ p = gz_next_in g end
}.

Definition gz_inv g : Prop := gz_unread g \/ exists q p, gz_reading q p g.

(** All of the file was consumed. *)
Definition gz_drained g : Prop := gz_avail_in g = 0 /\ is_len (gz_zis g) = 0.

(** Between the steps: the stream failed, or the invariant holds. *)
Definition gz_ok g (err : Z) : Prop := err < 0 \/ (gz_inv g /\ (0 < err -> gz_drained g)).

Lemma err_set_neg err e : 0 <= err -> e < 0 -> err_set err e = (e, e).
Proof.
  intros He Hn. unfold err_set. destruct (Z.leb_spec 0 err); [|lia]. destruct (Z.eqb_spec e 0); [lia|]. cbn.
  destruct (Z.ltb_spec e 0); [done|lia].
Qed.
Lemma err_set_0 err : 0 <= err -> err_set err 0 = (0, err).
Proof. intros He. unfold err_set. rewrite andb_false_r. destruct (Z.ltb_spec err 0); [lia|done]. Qed.

Lemma drained_end q p g : gz_reading q p g -> gz_avail_in g = 0 -> gz_next_in g = zlen file.
Proof. intros [] E. lia. Qed.

Lemma slice_reading q p g k : gz_reading q p g -> 0 <= k -> q + k <= zlen file -> ztake q file ++ gz_mem g q k = ztake (q + k) file.
Proof.
  intros Hr Hk Hle. pose proof (gr_q _ _ _ Hr). unfold gz_mem. rewrite (gr_buf _ _ _ Hr).
  rewrite (ztake_split q (q + k)) by lia. do 2 f_equal. lia.
Qed.

(** A step failed, or the invariant holds. *)
Definition step_ok (res : Z * gzip_istream unit zs K * Z) : Prop :=
  let '(r, g, err) := res in (r < 0 /\ gz_ok g err) \/ (r = 0 /\ 0 <= err /\ gz_inv g /\ (0 < err -> gz_drained g)).

(** Everything that was consumed was reported. *)
Definition gz_reported g : Prop := (gz_unread g /\ file = []) \/ (gz_reading (gz_next_in g) (gz_next_in g) g /\ gz_cbarg g = None).

Lemma reported_fed g : gz_reported g -> J (ztake (gz_next_in g) file) (gz_cbctx g) /\ is_err (gz_zis g) = 1 /\ is_len (gz_zis g) = 0 /\
  (gz_avail_in g = 0 -> ztake (gz_next_in g) file = file).
Proof.
  intros [[[U1 U2 U3 U4 U5 U6] Hnil]|[[] _]].
  - rewrite U1, U2, Hnil. cbn. done.
  - split_and!; try done. intros E. apply ztake_all. lia.
Qed.

Lemma reported_ctx g k :
  gz_reported g -> J (ztake (gz_next_in g) file) k -> gz_inv (gz_set_ctx k g) /\ gz_cbarg (gz_set_ctx k g) = None.
Proof.
  intros [[[U1 U2 U3 U4 U5 U6] Hnil]|[[] Harg]] Hk; (split; [|done]).
  - left. constructor; cbn; try done. by rewrite U2 in Hk.
  - right. exists (gz_next_in g), (gz_next_in g). by constructor.
Qed.

(** The boundary or the end is reported. *)
Lemma notify_ok g err :
  gz_reported g -> 0 <= err -> (0 < err -> gz_drained g) ->
  let err1 := if (err =? 0) && negb (is_err (gz_zis g) =? 0) && (gz_avail_in g =? 0) then is_err (gz_zis g) else err in
  let '(r, k) := cb (gz_cbctx g) (if negb (err1 =? 0) then APK_MPART_END else APK_MPART_BOUNDARY) [] in
  let '(r, err2) := err_set err1 (if 0 <? r then - ECANCELED else r) in
  step_ok (r, gz_set_ctx k g, err2) /\ (r = 0 -> gz_cbarg (gz_set_ctx k g) = None).
Proof.
  intros Hrep He Hd err1. destruct (reported_fed g Hrep) as (HJ & Hz & Hl & Hfed).
  assert (He1 : 0 <= err1 /\ (0 < err1 -> gz_drained g)).
  { subst err1. rewrite Hz. destruct (Z.eqb_spec err 0); cbn [andb negb Z.eqb]; [|done].
    destruct (Z.eqb_spec (gz_avail_in g) 0); [|done]. split; [lia|]. by split. }
  destruct He1 as [He1 Hd1]. clearbody err1. set (part := if negb (err1 =? 0) then _ else _).
  destruct (cb (gz_cbctx g) part []) as [r k] eqn:Ecb.
  pose proof (cb_nonpos _ _ part [] HJ) as Hr. rewrite Ecb in Hr. cbn in Hr.
  destruct (Z.ltb_spec 0 r); [lia|]. destruct (Z.eq_dec r 0) as [->|Hne].
  2:{ rewrite err_set_neg by lia. split; [left; split; [lia|]; left; lia|lia]. }
  rewrite err_set_0 by done.
  assert (HJ' : J (ztake (gz_next_in g) file) k).
  { subst part. destruct (Z.eqb_spec err1 0) as [E|E]; cbn [negb] in Ecb; [by apply (cb_boundary _ (gz_cbctx g))|].
    destruct (Hd1 ltac:(lia)) as [Ha _]. rewrite (Hfed Ha) in *. by apply (cb_end (gz_cbctx g)). }
  destruct (reported_ctx g k Hrep HJ') as [Hi Harg]. split; [|done]. right. by split_and!.
Qed.

(** gzi_boundary_change with something pending, or for an empty file. *)
Lemma boundary_change_ok g err :
  (exists q p, gz_reading q p g /\ gz_cbarg g <> None) \/ (gz_unread g /\ file = []) ->
  0 <= err -> (0 < err -> gz_drained g) ->
  let res := gzi_boundary_change (Some cb) g err in step_ok res /\ (res.1.1 = 0 -> gz_cbarg res.1.2 = None).
Proof.
  intros Hpre He Hd. unfold gzi_boundary_change. destruct Hpre as [(q & p & Hr & Harg)|[Hu Hnil]].
  - pose proof Hr as [R1 R2 R3 R4 R5 R6 R7 R8 R9 R10]. destruct (gz_cbarg g) as [[o len]|]; [|done]. destruct R10 as (-> & -> & Hp).
    destruct (cb (gz_cbctx g) APK_MPART_DATA (gz_mem g q (p - q))) as [r k] eqn:Ecb.
    pose proof (cb_nonpos _ _ APK_MPART_DATA (gz_mem g q (p - q)) R9) as Hneg. rewrite Ecb in Hneg. cbn in Hneg.
    destruct (Z.eqb_spec r 0) as [->|Hne]; cbn [negb].
    2:{ rewrite err_set_neg by lia. cbn. split; [left; split; [lia|]; left; lia|lia]. }
    pose proof (cb_data _ _ _ _ R9 Ecb) as HJ. rewrite (slice_reading q p g (p - q) Hr) in HJ by lia.
    replace (q + (p - q)) with p in HJ by lia.
    set (g1 := gz_set_cb _ None _).
    assert (Hrep : gz_reported g1).
    { right. split; [|done]. subst g1. cbn. rewrite <- Hp. constructor; cbn; try done; lia. }
    pose proof (notify_ok g1 err Hrep He Hd) as Hn. cbv zeta in Hn |- *. destruct (cb (gz_cbctx g1) _ []) as [r2 k2].
    destruct (err_set _ _) as [r3 err3]. exact Hn.
  - rewrite (gu_arg g Hu). cbn [Z.eqb negb]. set (g1 := gz_set_cb _ None g).
    assert (Hrep : gz_reported g1).
    { left. split; [|done]. destruct Hu. by constructor. }
    pose proof (notify_ok g1 err Hrep He Hd) as Hn. cbv zeta in Hn |- *. destruct (cb (gz_cbctx g1) _ []) as [r2 k2].
    destruct (err_set _ _) as [r3 err3]. exact Hn.
Qed.

Lemma unread_inv g : gz_unread g -> gz_inv g.
Proof. by left. Qed.
Lemma reading_inv q p g : gz_reading q p g -> gz_inv g.
Proof. right. eauto. Qed.

(** What is left of the file. *)
Definition gz_left g : Z := is_len (gz_zis g) + gz_avail_in g.

(** The buffer is refilled: the whole file the first time, nothing more later. *)
Lemma read_more_ok g err :
  gz_inv g -> gz_avail_in g = 0 ->
  exists g', gzi_read_more g err = (0, g', err) /\ gz_inv g' /\ is_len (gz_zis g') = 0 /\ gz_cbarg g' = gz_cbarg g /\
    (gz_cbprev g <> None -> g' = g) /\ (gz_unread g -> file = [] -> g' = g) /\ (file <> [] -> gz_cbprev g' <> None) /\
    gz_left g' = gz_left g.
Proof.
  intros Hi Ha. unfold gzi_read_more. pose proof (zlen_nonneg file) as Hf. destruct Hi as [Hu|(q & p & Hr)].
  - pose proof Hu as [U1 U2 U3 U4 U5 U6]. rewrite U1. unfold apk_istream_get_max, apk_istream_from_blob. cbn [is_len].
    destruct (Z.eqb_spec (zlen file) 0) as [E|E].
    + cbn. rewrite E. cbn. change (- APKE_EOF <? 0) with true. cbv iota. rewrite Z.eqb_refl. cbn [negb].
      exists g. assert (Hnil : file = []) by (by apply zlen_0_nil).
      split; [|split_and!; try done; [by left|rewrite U1; cbn; lia]].
      destruct g as [zis z nx av pv ag ctx]. cbn in *. rewrite U1. unfold apk_istream_from_blob. by rewrite E.
    + cbn [is_len]. destruct (Z.eqb_spec (zlen file) 0); [done|]. cbn [negb].
      assert (Hmin : Z.min (zlen file) APK_IO_ALL = zlen file) by (unfold APK_IO_ALL; lia). rewrite Hmin.
      unfold window. cbn [is_ptr is_len is_buf]. rewrite zdrop_0, !(ztake_all (zlen file) file) by lia. cbn [Z.ltb Z.compare blob_len].
      cbn [advance set_window is_ptr fmap option_fmap option_map default].
      change (blob_len (Some file)) with (zlen file). replace (0 + zlen file - zlen file) with 0 by lia.
      set (g' := Gzip _ _ _ _ _ _ _). exists g'.
      assert (Hr : gz_reading 0 0 g').
      { subst g'. constructor; cbn; rewrite ?U5; done || lia || (f_equal; lia). }
      split; [done|]. split_and!; try done; [by apply (reading_inv 0 0)|cbn; lia| |].
      * intros _ Hnil. rewrite Hnil in E. done.
      * unfold gz_left. rewrite U1, U3. cbn. lia.
  - pose proof Hr as [R1 R2 R3 R4 R5 R6 R7 R8 R9 R10].
    exists g. unfold apk_istream_get_max. rewrite R3. cbn [Z.eqb]. unfold __apk_istream_fill. rewrite R2. cbn [Z.eqb negb snd].
    rewrite R3. cbn [Z.eqb negb]. rewrite R2. cbn [Z.ltb Z.compare]. change (- APKE_EOF <? 0) with true. cbv iota.
    rewrite Z.eqb_refl. cbn [negb].
    split; [by destruct g|]. split_and!; try done; try (by apply (reading_inv q p)); by rewrite R4.
Qed.

(** Consumed input is reported before a refill. *)
Lemma report_ok g err :
  gz_inv g -> gz_cbarg g = None -> 0 <= err -> (0 < err -> gz_drained g) ->
  let res := gzi_report (Some cb) g err in
  step_ok res /\ (res.1.1 = 0 -> gz_cbarg res.1.2 = None /\ gz_avail_in res.1.2 = gz_avail_in g /\ res.2 = err /\
    (gz_cbprev res.1.2 = None -> gz_unread res.1.2)).
Proof.
  intros Hi Harg He Hd. unfold gzi_report. destruct Hi as [Hu|(q & p & Hr)].
  - rewrite (gu_prev g Hu). cbn. split; [right; split_and!; try done; by left|done].
  - pose proof Hr as [R1 R2 R3 R4 R5 R6 R7 R8 R9 R10]. rewrite R4. rewrite Harg in R10. subst q.
    destruct (Z.eqb_spec p (gz_next_in g)) as [E|E].
    { cbn. split; [right; split_and!; try done; by apply (reading_inv p p)|]. intros _. split_and!; try done. by rewrite R4. }
    destruct (cb (gz_cbctx g) APK_MPART_DATA _) as [r k] eqn:Ecb.
    pose proof (cb_nonpos _ _ APK_MPART_DATA (gz_mem g p (gz_next_in g - p)) R9) as Hneg. rewrite Ecb in Hneg. cbn in Hneg.
    destruct (Z.ltb_spec r 0); [rewrite err_set_neg by lia; cbn; split; [left; split; [lia|]; left; lia|lia]|].
    assert (r = 0) as -> by lia. pose proof (cb_data _ _ _ _ R9 Ecb) as HJ.
    rewrite (slice_reading p p g _ Hr) in HJ by lia. replace (p + (gz_next_in g - p)) with (gz_next_in g) in HJ by lia.
    cbn. split; [|done]. right. split_and!; try done. apply (reading_inv (gz_next_in g) (gz_next_in g)).
    constructor; cbn; rewrite ?Harg; done || lia.
Qed.

(** inflate moves on in the file. *)
Lemma inflate_ok g z used :
  gz_inv g -> gz_cbarg g = None -> 0 <= used <= gz_avail_in g ->
  gz_inv (gz_set_zs z (gz_next_in g + used) (gz_avail_in g - used) g).
Proof.
  intros [Hu|(q & p & Hr)] Harg Hused.
  - destruct Hu as [U1 U2 U3 U4 U5 U6]. left. constructor; cbn; try done; lia.
  - destruct Hr as [R1 R2 R3 R4 R5 R6 R7 R8 R9 R10]. right. exists q, p. rewrite Harg in R10.
    constructor; cbn; rewrite ?Harg; done || lia.
Qed.

Lemma gz_mem_len g : gz_inv g -> 0 <= gz_avail_in g /\ zlen (gz_mem g (gz_next_in g) (gz_avail_in g)) = gz_avail_in g.
Proof.
  intros [[U1 U2 U3 U4 U5 U6]|(q & p & [R1 R2 R3 R4 R5 R6 R7 R8 R9 R10])].
  - rewrite U3. done.
  - split; [done|]. unfold gz_mem. rewrite R1, zlen_ztake; [done|]. rewrite zlen_zdrop; lia.
Qed.

Lemma set_zs_inv g z : gz_inv g -> gz_inv (gz_set_zs z (gz_next_in g) (gz_avail_in g) g).
Proof. intros [[]|(q & p & [])]; [left|right; exists q, p]; by constructor. Qed.

(** The end of a member. *)
Lemma member_end_ok g err out :
  gz_inv g -> gz_cbarg g = None -> 0 <= err -> (0 < err -> gz_drained g) -> (gz_cbprev g = None -> file = []) ->
  match gzi_member_end (Some cb) g err out with
  | inl (r, g', err') => (r < 0 /\ gz_ok g' err') \/ (r = zlen out /\ r <> 0 /\ gz_ok g' err')
  | inr (g', err') => zlen out = 0 /\ 0 <= err' /\ gz_inv g' /\ (0 < err' -> gz_drained g')
  end.
Proof.
  intros Hi Harg He Hd Hnil. unfold gzi_member_end. set (g1 := gz_set_cb _ _ g).
  assert (H1 : (gz_unread g1 /\ file = []) \/ exists q p, gz_reading q p g1 /\ gz_cbarg g1 <> None).
  { destruct Hi as [Hu|(q & p & Hr)].
    - left. split; [|apply Hnil, Hu]. subst g1. destruct Hu as [U1 U2 U3 U4 U5 U6]. rewrite U4. by constructor.
    - right. pose proof Hr as [R1 R2 R3 R4 R5 R6 R7 R8 R9 R10]. rewrite Harg in R10. subst q.
      exists p, (gz_next_in g). subst g1. rewrite R4. cbn. split; [|done]. constructor; cbn; try done; lia. }
  assert (Hi1 : gz_inv g1) by (destruct H1 as [[? _]|(q & p & ? & _)]; [by left|by apply (reading_inv q p)]).
  assert (Hd1 : 0 < err -> gz_drained g1) by exact Hd. clearbody g1. clear Hi Harg Hd Hnil g.
  assert (Hmore : exists g2, (if gz_avail_in g1 =? 0 then gzi_read_more g1 err else (0, g1, err)) = (0, g2, err) /\
    (gz_avail_in g1 = 0 -> g2 = g1) /\ (gz_avail_in g1 <> 0 -> g2 = g1)).
  { destruct (Z.eqb_spec (gz_avail_in g1) 0) as [Ha|Ha]; [|eauto 6].
    destruct (read_more_ok g1 err Hi1 Ha) as (g2 & -> & _ & _ & _ & Hsame & Hsame0 & _). exists g2. split; [done|]. split; [|done]. intros _.
    destruct H1 as [[Hu Hn]|(q & p & Hr & _)]; [by apply Hsame0|]. apply Hsame. by rewrite (gr_prev _ _ _ Hr). }
  destruct Hmore as (g2 & -> & Hs1 & Hs2). assert (g2 = g1) as -> by (destruct (Z.eq_dec (gz_avail_in g1) 0); auto).
  clear Hs1 Hs2. cbn [Z.eqb negb].
  assert (Hb : exists r2 g2 err2, (if (gz_avail_in g1 =? 0) && (zlen out =? 0) then gzi_boundary_change (Some cb) g1 err else (0, g1, err)) =
      (r2, g2, err2) /\ ((r2 < 0 /\ gz_ok g2 err2) \/ (r2 = 0 /\ 0 <= err2 /\ gz_inv g2 /\ (0 < err2 -> gz_drained g2)))).
  { destruct (_ && _); [|eexists _, _, _; split; [done|]; right; by split_and!].
    destruct (boundary_change_ok g1 err ltac:(destruct H1; auto) He Hd1) as [Hstep _].
    destruct (gzi_boundary_change (Some cb) g1 err) as [[r2 g2] err2]. exists r2, g2, err2. split; [done|]. exact Hstep. }
  destruct Hb as (r2 & g2 & err2 & -> & [[Hneg Hok]|(-> & He2 & Hi2 & Hd2)]).
  { destruct (Z.eqb_spec r2 0); [lia|]. cbn [negb]. by left. }
  cbn [Z.eqb negb]. destruct (inflateInit2 (15 + 32)) as [z|].
  2:{ left. split; [done|]. right. by split. }
  destruct (Z.eqb_spec (zlen out) 0) as [E|E]; cbn [negb].
  - split; [done|]. split; [done|]. split; [by apply set_zs_inv|exact Hd2].
  - right. split; [done|]. split; [done|]. right. split; [by apply set_zs_inv|exact Hd2].
Qed.

Lemma inv_no_prev g : gz_inv g -> is_len (gz_zis g) = 0 -> gz_cbprev g = None -> file = [].
Proof.
  intros [Hu|(q & p & Hr)] Hl Hp; [|by rewrite (gr_prev _ _ _ Hr) in Hp].
  rewrite (gu_zis g Hu) in Hl. cbn in Hl. by apply zlen_0_nil.
Qed.

Lemma boundary_left g err : gz_left (gzi_boundary_change (Some cb) g err).1.2 = gz_left g.
Proof.
  unfold gzi_boundary_change.
  repeat first [progress cbn [fst snd gz_left gz_set_ctx gz_set_cb] | case_match]; simplify_eq; done.
Qed.

Lemma report_left g err : gz_left (gzi_report (Some cb) g err).1.2 = gz_left g.
Proof. unfold gzi_report. repeat case_match; simplify_eq; done. Qed.

(** A pending boundary. *)
Definition gz_pending g err : Z * gzip_istream unit zs K * Z :=
  match gz_cbarg g with Some _ => gzi_boundary_change (Some cb) g err | None => (0, g, err) end.

Lemma pending_ok g err :
  gz_inv g -> 0 <= err -> (0 < err -> gz_drained g) ->
  step_ok (gz_pending g err) /\ ((gz_pending g err).1.1 = 0 -> gz_cbarg (gz_pending g err).1.2 = None) /\
  gz_left (gz_pending g err).1.2 = gz_left g.
Proof.
  intros Hi He Hd. unfold gz_pending. destruct (gz_cbarg g) as [a|] eqn:Ea; [|split; [right; by split_and!|done]].
  rewrite boundary_left. assert (Hpre : exists q p, gz_reading q p g /\ gz_cbarg g <> None).
  { destruct Hi as [Hu|(q & p & Hr)]; [by rewrite (gu_arg g Hu) in Ea|]. exists q, p. split; [done|]. by rewrite Ea. }
  destruct (boundary_change_ok g err (or_introl Hpre) He Hd). by split_and!.
Qed.

(** Before inflate: nothing is pending, and without input the file is at its end. *)
Lemma prepare_ok g err :
  gz_inv g -> 0 <= err -> (0 < err -> gz_drained g) ->
  let res := gzi_prepare (Some cb) g err in
  step_ok res /\ (res.1.1 = 0 -> gz_cbarg res.1.2 = None /\ (gz_cbprev res.1.2 = None -> file = []) /\
    (gz_avail_in res.1.2 = 0 -> gz_drained res.1.2)) /\ gz_left res.1.2 = gz_left g.
Proof.
  intros Hi He Hd. unfold gzi_prepare. destruct (pending_ok g err Hi He Hd) as (Hstep & Harg & Hleft).
  fold (gz_pending g err). destruct (gz_pending g err) as [[r1 g1] err1]. cbn [fst snd] in *. rewrite <- Hleft. clear Hleft Hi He Hd g err.
  destruct Hstep as [[Hneg Hok]|(-> & He & Hi & Hd)].
  { destruct (Z.eqb_spec r1 0); [lia|]. cbn [negb fst snd]. split; [by left|]. split; [lia|done]. }
  specialize (Harg eq_refl). cbn [Z.eqb negb].
  destruct (Z.eqb_spec (gz_avail_in g1) 0) as [Ha|Ha]; cbn [andb].
  2:{ cbn [fst snd]. split; [right; by split_and!|]. split; [|done]. intros _. split; [done|]. split; [|done].
      intros Hp. destruct Hi as [Hu|(q & p & Hr)]; [by destruct Ha; apply Hu|by rewrite (gr_prev _ _ _ Hr) in Hp]. }
  destruct (Z.eqb_spec err1 0) as [->|Hne].
  2:{ cbn [fst snd]. destruct (Hd ltac:(lia)) as [_ Hl]. split; [right; by split_and!|]. split; [|done]. intros _. split; [done|].
      split; [|done]. by apply inv_no_prev. }
  destruct (report_ok g1 0 Hi Harg He Hd) as [Hstep Hres]. pose proof (report_left g1 0) as Hleft.
  destruct (gzi_report (Some cb) g1 0) as [[r2 g2] err2]. cbn [fst snd] in *.
  destruct Hstep as [[Hneg Hok]|(-> & He2 & Hi2 & Hd2)].
  { destruct (Z.eqb_spec r2 0); [lia|]. cbn [negb fst snd]. split; [by left|]. split; [lia|done]. }
  cbn [Z.eqb negb]. destruct (Hres eq_refl) as (Harg2 & Ha2 & -> & Hun).
  destruct (read_more_ok g2 0 Hi2 ltac:(lia)) as (g3 & -> & Hi3 & Hl3 & Harg3 & _ & _ & _ & Hleft3). cbn [fst snd].
  split; [right; split_and!; done || lia|]. split; [|by rewrite Hleft3]. intros _. rewrite Harg3. split; [done|].
  split; [by apply inv_no_prev|]. by split.
Qed.

Lemma gzi_loop_ok turns g err size out r d g' err' :
  0 < size -> zlen out <= size -> gz_ok g err -> gzi_loop (Some cb) turns g err size out = Some (r, d, g', err') ->
  gz_ok g' err' /\ (0 < r -> r = zlen d /\ zlen d <= size) /\ (r = 0 -> 0 <= err' -> gz_drained g').
Proof.
  intros Hsize. revert g err out. induction turns as [|turns IH]; intros g err out Hout Hok; [done|]. cbn [gzi_loop].
  destruct (Z.eqb_spec (zlen out) size) as [E|E]; cbn [orb].
  { intros [= <- <- <- <-]. split; [done|]. split; [done|]. lia. }
  destruct (Z.ltb_spec err 0) as [Hneg|He].
  { intros [= <- <- <- <-]. split; [done|]. split; [by intros; split|lia]. }
  destruct Hok as [|[Hi Hd]]; [lia|].
  destruct (prepare_ok g err Hi He Hd) as (Hstep & Hres & _).
  destruct (gzi_prepare (Some cb) g err) as [[r1 g1] err1]. cbn [fst snd] in *.
  destruct Hstep as [[Hneg Hok]|(-> & He1 & Hi1 & Hd1)].
  { destruct (Z.eqb_spec r1 0); [lia|]. cbn [negb]. intros [= <- <- <- <-]. split; [done|]. split; lia. }
  cbn [Z.eqb negb]. destruct (Hres eq_refl) as (Harg & Hprev & Hdr).
  destruct (gz_mem_len g1 Hi1) as [Ha Hmem]. assert (Hroom : 0 < size - zlen out) by lia.
  destruct (inflate (gz_zs g1) _ (size - zlen out)) as [[[rc used] o] z] eqn:Einf.
  pose proof (inflate_in _ _ _ _ _ _ _ Hroom Einf) as Hused. rewrite Hmem in Hused.
  pose proof (inflate_out _ _ _ _ _ _ _ Hroom Einf) as Ho.
  set (g2 := gz_set_zs z _ _ g1).
  assert (Hi2 : gz_inv g2) by (by apply inflate_ok).
  assert (Hd2 : 0 < err1 -> gz_drained g2).
  { intros Hp. destruct (Hd1 Hp) as [H1 H2]. split; [cbn; lia|exact H2]. }
  assert (Hout2 : zlen (out ++ o) <= size) by (autorewrite with apk; lia).
  destruct (rc =? Z_STREAM_END).
  { pose proof (member_end_ok g2 err1 (out ++ o) Hi2 Harg He1 Hd2 Hprev) as Hm.
    destruct (gzi_member_end (Some cb) g2 err1 (out ++ o)) as [[[r3 g3] err3]|[g3 err3]].
    - intros [= <- <- <- <-]. destruct Hm as [[H1 H2]|(-> & H1 & H2)]; (split; [done|]); split; try lia.
    - destruct Hm as (H1 & H2 & H3 & H4). apply IH; [done|]. right. by split. }
  destruct (rc =? Z_OK).
  { apply IH; [done|]. right. by split. }
  destruct (Z.eqb_spec rc Z_BUF_ERROR) as [->|_].
  { intros [= <- <- <- <-]. apply inflate_buf_error in Einf as [Hin _]; [|lia]. rewrite Hin in Hmem.
    change (zlen (@nil Z)) with 0 in Hmem. split; [right; by split|]. split; [done|]. intros _ _.
    destruct (Hdr ltac:(lia)) as [_ Hl]. split; [cbn; lia|exact Hl]. }
  rewrite err_set_neg by (done || by vm_compute). intros [= <- <- <- <-]. split; [by left|]. split; [by intros|by intros].
Qed.

(** The invariant for the operations of streams. *)
#[export] Instance gz_source_inv turns : @SourceInv _ (gzi_read (Some cb) turns) gz_ok.
Proof.
  assert (Hread : forall g err size r d g' err', gz_ok g err -> 0 < size -> gzi_read (Some cb) turns g err size = (r, d, g', err') ->
    gz_ok g' err' /\ (0 < r -> r = zlen d /\ zlen d <= size) /\ (r = 0 -> 0 <= err' -> gz_drained g')).
  { intros g err size r d g' err' Hok Hsize. unfold gzi_read.
    destruct (gzi_loop (Some cb) turns g err size []) as [[[[r1 d1] g1] err1]|] eqn:E; cbn.
    - intros [= <- <- <- <-]. apply (gzi_loop_ok turns g err size [] r1 d1 g1 err1); try done. change (zlen (@nil Z)) with 0. lia.
    - intros [= <- <- <- <-]. split; [by left|]. split; [by intros|by intros]. }
  constructor.
  - intros g err size r d g' err' Hok Hsize Hrd. destruct (Hread g err size r d g' err' Hok Hsize Hrd) as (H1 & H2 & _). done.
  - intros g err e _ _ He. by left.
  - intros g err size d g' err' Hok Hsize Hrd He. destruct (Hread g err size 0 d g' err' Hok Hsize Hrd) as ([|[H1 H2]] & _ & H3).
    + lia.
    + right. split; [done|]. intros _. by apply H3.
Qed.

Lemma gz_start z ctx : J [] ctx -> gz_ok (Gzip (apk_istream_from_blob file) z 0 0 None None ctx) 0.
Proof. intros HJ. right. split; [left; by constructor|lia]. Qed.

(** The state of the callback, when the stream has not failed. *)
Lemma gz_ok_fed g err : gz_ok g err -> 0 <= err -> exists fed, J fed (gz_cbctx g).
Proof. intros [|[[[]|(q & p & [])] _]]; eauto. lia. Qed.

(** The state may be changed where the invariant allows it. *)
Lemma gz_ok_ctx g err k : gz_ok g err -> (forall fed, J fed (gz_cbctx g) -> J fed k) -> gz_ok (gz_set_ctx k g) err.
Proof.
  intros [|[Hi Hd]] Hk; [by left|]. right. split; [|exact Hd].
  destruct Hi as [[]|(q & p & [])]; [left|right; exists q, p]; constructor; cbn; auto.
Qed.

(** *** Turns *)

Lemma inv_left g : gz_inv g -> 0 <= gz_left g.
Proof.
  unfold gz_left. intros [[U1 U2 U3 U4 U5 U6]|(q & p & [])]; [|lia]. rewrite U1, U3. cbn. pose proof (zlen_nonneg file). lia.
Qed.

Lemma member_end_left g err out :
  gz_inv g -> gz_cbarg g = None -> (gz_cbprev g = None -> file = []) ->
  match gzi_member_end (Some cb) g err out with inl _ => True | inr (g', _) => gz_left g' = gz_left g end.
Proof.
  intros Hi Harg Hnil. unfold gzi_member_end. set (g1 := gz_set_cb _ _ g).
  assert (Hi1 : gz_inv g1).
  { destruct Hi as [Hu|(q & p & Hr)].
    - left. subst g1. destruct Hu as [U1 U2 U3 U4 U5 U6]. rewrite U4. by constructor.
    - pose proof Hr as [R1 R2 R3 R4 R5 R6 R7 R8 R9 R10]. rewrite Harg in R10. subst q. apply (reading_inv p (gz_next_in g)).
      subst g1. rewrite R4. constructor; cbn; try done; lia. }
  assert (Hm : gz_left (if gz_avail_in g1 =? 0 then gzi_read_more g1 err else (0, g1, err)).1.2 = gz_left g).
  { destruct (Z.eqb_spec (gz_avail_in g1) 0) as [Ha|Ha]; [|done].
    destruct (read_more_ok g1 err Hi1 Ha) as (g2 & -> & _ & _ & _ & _ & _ & _ & Hl). exact Hl. }
  destruct (if gz_avail_in g1 =? 0 then _ else _) as [[r2 g2] err2]. cbn [fst snd] in Hm.
  destruct (negb (r2 =? 0)); [done|].
  assert (Hb : gz_left (if (gz_avail_in g2 =? 0) && (zlen out =? 0) then gzi_boundary_change (Some cb) g2 err2 else (0, g2, err2)).1.2 = gz_left g).
  { destruct (_ && _); [by rewrite boundary_left|done]. }
  destruct (if (gz_avail_in g2 =? 0) && _ then _ else _) as [[r3 g3] err3]. cbn [fst snd] in Hb.
  destruct (negb (r3 =? 0)); [done|]. destruct (inflateInit2 (15 + 32)); [|done]. destruct (negb _); [done|]. exact Hb.
Qed.

(** Every turn consumes or produces a byte, so that the length of the file and the size are enough turns. *)
Lemma gzi_loop_ends turns g err size out :
  0 < size -> zlen out <= size -> gz_ok g err -> (gz_inv g -> gz_left g + (size - zlen out) < Z.of_nat turns) -> turns <> 0%nat ->
  is_Some (gzi_loop (Some cb) turns g err size out).
Proof.
  intros Hsize. revert g err out. induction turns as [|turns IH]; intros g err out Hout Hok Hturns Hnz; [done|]. cbn [gzi_loop].
  destruct (Z.eqb_spec (zlen out) size) as [E|E]; cbn [orb]; [eauto|].
  destruct (Z.ltb_spec err 0) as [Hneg|He]; [eauto|]. destruct Hok as [|[Hi Hd]]; [lia|]. specialize (Hturns Hi).
  destruct (prepare_ok g err Hi He Hd) as (Hstep & Hres & Hleft).
  destruct (gzi_prepare (Some cb) g err) as [[r1 g1] err1]. cbn [fst snd] in *.
  destruct Hstep as [[Hneg Hok]|(-> & He1 & Hi1 & Hd1)].
  { destruct (Z.eqb_spec r1 0); [lia|]. cbn [negb]. eauto. }
  cbn [Z.eqb negb]. destruct (Hres eq_refl) as (Harg & Hprev & Hdr).
  destruct (gz_mem_len g1 Hi1) as [Ha Hmem]. assert (Hroom : 0 < size - zlen out) by lia.
  destruct (inflate (gz_zs g1) _ (size - zlen out)) as [[[rc used] o] z] eqn:Einf.
  pose proof (inflate_in _ _ _ _ _ _ _ Hroom Einf) as Hused. rewrite Hmem in Hused.
  pose proof (inflate_out _ _ _ _ _ _ _ Hroom Einf) as Ho. pose proof (zlen_nonneg o).
  pose proof (inflate_progress _ _ _ _ _ _ _ Hroom Einf) as Hprog.
  set (g2 := gz_set_zs z _ _ g1).
  assert (Hi2 : gz_inv g2) by (by apply inflate_ok).
  assert (Hl2 : gz_left g2 = gz_left g - used) by (rewrite <- Hleft; unfold gz_left; subst g2; cbn; lia).
  pose proof (inv_left g2 Hi2) as Hpos.
  assert (Hd2 : 0 < err1 -> gz_drained g2).
  { intros Hp. destruct (Hd1 Hp) as [D1 D2]. split; [cbn; lia|exact D2]. }
  assert (Hout2 : zlen (out ++ o) <= size) by (autorewrite with apk; lia).
  destruct (Z.eqb_spec rc Z_STREAM_END) as [->|].
  { specialize (Hprog (or_intror eq_refl)).
    pose proof (member_end_ok g2 err1 (out ++ o) Hi2 Harg He1 Hd2 Hprev) as Hm.
    pose proof (member_end_left g2 err1 (out ++ o) Hi2 Harg Hprev) as Hml.
    destruct (gzi_member_end (Some cb) g2 err1 (out ++ o)) as [[[r3 g3] err3]|[g3 err3]]; [eauto|].
    destruct Hm as (M1 & M2 & M3 & M4). apply IH; [done|right; by split| |]; autorewrite with apk; lia. }
  destruct (Z.eqb_spec rc Z_OK) as [->|].
  { specialize (Hprog (or_introl eq_refl)). apply IH; [done|right; by split| |]; autorewrite with apk; lia. }
  destruct (rc =? Z_BUF_ERROR); [eauto|]. destruct (err_set _ _). eauto.
Qed.
End memory.

(** A weaker invariant of the context. *)
Lemma gz_ok_mono {zs K} (file : bytes) (J J' : bytes -> K -> Prop) (g : gzip_istream unit zs K) err :
  (forall fed k, J fed k -> J' fed k) -> gz_ok file J g err -> gz_ok file J' g err.
Proof.
  intros Hj [|[Hi Hd]]; [by left|]. right. split; [|exact Hd].
  destruct Hi as [[]|(q & p & [])]; [left|right; exists q, p]; constructor; auto.
Qed.
