(* ===== verification/ExtractV2.v ===== *)
(** Packages and indexes of format 2 (extract_v2.c, trust.c): a tar archive in several gzip members, first
    signatures, then the control files, then the data.  The context of the signatures is
    changed from two sides: by the callback of the decompressor, which sees the compressed bytes
    and the boundaries of members, and by the callback of the archive reader, which sees the
    files.  Both find it in the state of the decompressing stream. *)
From Stdlib Require Import ZArith Lia Ascii String.
From stdpp Require Import base numbers list option.
From S2P Require Import Prelude Clib Blob Codec Dep Package AdbTrust Stream Tar Gunzip.

Definition APKE_V2PKG_INTEGRITY : Z := APKE_FIRST_VALUE + 51.
Definition APKE_V2NDX_FORMAT : Z := APKE_FIRST_VALUE + 52.

(** ** Digest contexts *)

(** What else is used of the cryptographic library: starting a digest; the verification of a signature
    with a context that was not started for it, and the digest of one that was. *)
Class CryptoCtx (pkey : Type) := {
  EVP_DigestInit : Z -> bool;
  EVP_VerifyFinal_plain : Z -> bytes -> bytes -> bool;
  EVP_DigestFinal_verify : Z -> pkey -> bytes -> option bytes
}.

Section ctx.
Context {pkey : Type} `{!Crypto pkey, !CryptoCtx pkey}.

(** struct apk_digest_ctx: the algorithm, the key if it was started for verification, and what it was
    fed with. *)
Record md_ctx := MdCtx { md_alg : Z; md_key : option pkey; md_data : bytes }.

Definition md_none : md_ctx := MdCtx APK_DIGEST_NONE None [].
Definition md_init (alg : Z) : md_ctx := MdCtx alg None [].

Definition md_reset (c : md_ctx) : Z * md_ctx :=
  if md_alg c =? APK_DIGEST_NONE then (0, c)
  else if EVP_DigestInit (md_alg c) then (0, MdCtx (md_alg c) (md_key c) []) else (- APKE_CRYPTO_ERROR, c).

Definition md_reset_alg (c : md_ctx) (alg : Z) : Z * md_ctx :=
  if EVP_DigestInit alg then (0, MdCtx alg None []) else (- APKE_CRYPTO_ERROR, MdCtx (md_alg c) None []).

Definition md_verify_start (c : md_ctx) (alg : Z) (k : apk_pkey pkey) : Z * md_ctx :=
  if EVP_DigestVerifyInit alg (key_priv k) then (0, MdCtx alg (Some (key_priv k)) [])
  else (- APKE_CRYPTO_ERROR, MdCtx (md_alg c) None []).

Definition md_update (c : md_ctx) (d : bytes) : Z * md_ctx :=
  if EVP_DigestUpdate (md_data c) d then (0, MdCtx (md_alg c) (md_key c) (md_data c ++ d)) else (- APKE_CRYPTO_ERROR, c).

(** The result and the digest that is stored. *)
Definition md_final (c : md_ctx) (d : apk_digest) : Z * apk_digest :=
  match match md_key c with None => EVP_Digest (md_alg c) (md_data c) | Some k => EVP_DigestFinal_verify (md_alg c) k (md_data c) end with
  | None => (- APKE_CRYPTO_ERROR, apk_digest_reset d)
  | Some md => (0, Digest (md_alg c) (apk_digest_alg_len (md_alg c)) (overwrite (d_data d) md))
  end.

Definition md_verify (c : md_ctx) (sig : bytes) : Z :=
  if match md_key c with
     | None => EVP_VerifyFinal_plain (md_alg c) (md_data c) sig
     | Some k => EVP_DigestVerifyFinal (md_alg c) k (md_data c) sig
     end then 0 else - APKE_SIGNATURE_INVALID.

(** ** Keys *)

(** apk_trust_key_by_name *)
Fixpoint key_by_name (keys : list (apk_trust_key pkey)) (filename : bytes) : option (apk_pkey pkey) :=
  match keys with
  | [] => None
  | k :: keys => if strcmp (tk_filename k) filename =? 0 then Some (tk_key k) else key_by_name keys filename
  end.

Definition apk_trust_key_by_name (trust : apk_trust pkey) (filename : bytes) : option (apk_pkey pkey) :=
  key_by_name (trusted_key_list trust) filename.

(** ** The context of the signatures *)

Inductive sign_action := APK_SIGN_VERIFY | APK_SIGN_VERIFY_IDENTITY | APK_SIGN_VERIFY_AND_GENERATE.

(** struct apk_sign_ctx; [sc_generated] is the digest that [ectx->generate_identity] points to.  The trust
    store with allow_untrusted and the expected identity do not change and are arguments. *)
Record apk_sign_ctx := SignCtx {
  sc_action : sign_action; sc_num_signatures : Z; sc_verify_error : Z; sc_control_started : bool;
  sc_data_started : bool; sc_has_data_checksum : bool; sc_control_verified : bool; sc_data_verified : bool;
  sc_end_seen : bool; sc_alg : Z; sc_data_hash : apk_digest; sc_digest_ctx : md_ctx; sc_identity_ctx : md_ctx;
  sc_sig_data : blob; sc_pkey : option (apk_pkey pkey); sc_generated : apk_digest
}.

Definition set_num_signatures (v : Z) (s : apk_sign_ctx) : apk_sign_ctx :=
  SignCtx (sc_action s) v (sc_verify_error s) (sc_control_started s) (sc_data_started s) (sc_has_data_checksum
    s) (sc_control_verified s) (sc_data_verified s) (sc_end_seen s) (sc_alg s) (sc_data_hash s) (sc_digest_ctx
    s) (sc_identity_ctx s) (sc_sig_data s) (sc_pkey s) (sc_generated s).
Definition set_verify_error (v : Z) (s : apk_sign_ctx) : apk_sign_ctx :=
  SignCtx (sc_action s) (sc_num_signatures s) v (sc_control_started s) (sc_data_started s)
    (sc_has_data_checksum s) (sc_control_verified s) (sc_data_verified s) (sc_end_seen s) (sc_alg s)
    (sc_data_hash s) (sc_digest_ctx s) (sc_identity_ctx s) (sc_sig_data s) (sc_pkey s) (sc_generated s).
Definition set_control_started (v : bool) (s : apk_sign_ctx) : apk_sign_ctx :=
  SignCtx (sc_action s) (sc_num_signatures s) (sc_verify_error s) v (sc_data_started s) (sc_has_data_checksum
    s) (sc_control_verified s) (sc_data_verified s) (sc_end_seen s) (sc_alg s) (sc_data_hash s) (sc_digest_ctx
    s) (sc_identity_ctx s) (sc_sig_data s) (sc_pkey s) (sc_generated s).
Definition set_data_started (v : bool) (s : apk_sign_ctx) : apk_sign_ctx :=
  SignCtx (sc_action s) (sc_num_signatures s) (sc_verify_error s) (sc_control_started s) v
    (sc_has_data_checksum s) (sc_control_verified s) (sc_data_verified s) (sc_end_seen s) (sc_alg s)
    (sc_data_hash s) (sc_digest_ctx s) (sc_identity_ctx s) (sc_sig_data s) (sc_pkey s) (sc_generated s).
Definition set_has_data_checksum (v : bool) (s : apk_sign_ctx) : apk_sign_ctx :=
  SignCtx (sc_action s) (sc_num_signatures s) (sc_verify_error s) (sc_control_started s) (sc_data_started s) v
    (sc_control_verified s) (sc_data_verified s) (sc_end_seen s) (sc_alg s) (sc_data_hash s) (sc_digest_ctx s)
    (sc_identity_ctx s) (sc_sig_data s) (sc_pkey s) (sc_generated s).
Definition set_control_verified (v : bool) (s : apk_sign_ctx) : apk_sign_ctx :=
  SignCtx (sc_action s) (sc_num_signatures s) (sc_verify_error s) (sc_control_started s) (sc_data_started s)
    (sc_has_data_checksum s) v (sc_data_verified s) (sc_end_seen s) (sc_alg s) (sc_data_hash s) (sc_digest_ctx
    s) (sc_identity_ctx s) (sc_sig_data s) (sc_pkey s) (sc_generated s).
Definition set_data_verified (v : bool) (s : apk_sign_ctx) : apk_sign_ctx :=
  SignCtx (sc_action s) (sc_num_signatures s) (sc_verify_error s) (sc_control_started s) (sc_data_started s)
    (sc_has_data_checksum s) (sc_control_verified s) v (sc_end_seen s) (sc_alg s) (sc_data_hash s)
    (sc_digest_ctx s) (sc_identity_ctx s) (sc_sig_data s) (sc_pkey s) (sc_generated s).
Definition set_end_seen (v : bool) (s : apk_sign_ctx) : apk_sign_ctx :=
  SignCtx (sc_action s) (sc_num_signatures s) (sc_verify_error s) (sc_control_started s) (sc_data_started s)
    (sc_has_data_checksum s) (sc_control_verified s) (sc_data_verified s) v (sc_alg s) (sc_data_hash s)
    (sc_digest_ctx s) (sc_identity_ctx s) (sc_sig_data s) (sc_pkey s) (sc_generated s).
Definition set_alg (v : Z) (s : apk_sign_ctx) : apk_sign_ctx :=
  SignCtx (sc_action s) (sc_num_signatures s) (sc_verify_error s) (sc_control_started s) (sc_data_started s)
    (sc_has_data_checksum s) (sc_control_verified s) (sc_data_verified s) (sc_end_seen s) v (sc_data_hash s)
    (sc_digest_ctx s) (sc_identity_ctx s) (sc_sig_data s) (sc_pkey s) (sc_generated s).
Definition set_data_hash (v : apk_digest) (s : apk_sign_ctx) : apk_sign_ctx :=
  SignCtx (sc_action s) (sc_num_signatures s) (sc_verify_error s) (sc_control_started s) (sc_data_started s)
    (sc_has_data_checksum s) (sc_control_verified s) (sc_data_verified s) (sc_end_seen s) (sc_alg s) v
    (sc_digest_ctx s) (sc_identity_ctx s) (sc_sig_data s) (sc_pkey s) (sc_generated s).
Definition set_digest_ctx (v : md_ctx) (s : apk_sign_ctx) : apk_sign_ctx :=
  SignCtx (sc_action s) (sc_num_signatures s) (sc_verify_error s) (sc_control_started s) (sc_data_started s)
    (sc_has_data_checksum s) (sc_control_verified s) (sc_data_verified s) (sc_end_seen s) (sc_alg s)
    (sc_data_hash s) v (sc_identity_ctx s) (sc_sig_data s) (sc_pkey s) (sc_generated s).
Definition set_identity_ctx (v : md_ctx) (s : apk_sign_ctx) : apk_sign_ctx :=
  SignCtx (sc_action s) (sc_num_signatures s) (sc_verify_error s) (sc_control_started s) (sc_data_started s)
    (sc_has_data_checksum s) (sc_control_verified s) (sc_data_verified s) (sc_end_seen s) (sc_alg s)
    (sc_data_hash s) (sc_digest_ctx s) v (sc_sig_data s) (sc_pkey s) (sc_generated s).
Definition set_sig_data (v : blob) (s : apk_sign_ctx) : apk_sign_ctx :=
  SignCtx (sc_action s) (sc_num_signatures s) (sc_verify_error s) (sc_control_started s) (sc_data_started s)
    (sc_has_data_checksum s) (sc_control_verified s) (sc_data_verified s) (sc_end_seen s) (sc_alg s)
    (sc_data_hash s) (sc_digest_ctx s) (sc_identity_ctx s) v (sc_pkey s) (sc_generated s).
Definition set_pkey (v : option (apk_pkey pkey)) (s : apk_sign_ctx) : apk_sign_ctx :=
  SignCtx (sc_action s) (sc_num_signatures s) (sc_verify_error s) (sc_control_started s) (sc_data_started s)
    (sc_has_data_checksum s) (sc_control_verified s) (sc_data_verified s) (sc_end_seen s) (sc_alg s)
    (sc_data_hash s) (sc_digest_ctx s) (sc_identity_ctx s) (sc_sig_data s) v (sc_generated s).
Definition set_generated (v : apk_digest) (s : apk_sign_ctx) : apk_sign_ctx :=
  SignCtx (sc_action s) (sc_num_signatures s) (sc_verify_error s) (sc_control_started s) (sc_data_started s)
    (sc_has_data_checksum s) (sc_control_verified s) (sc_data_verified s) (sc_end_seen s) (sc_alg s)
    (sc_data_hash s) (sc_digest_ctx s) (sc_identity_ctx s) (sc_sig_data s) (sc_pkey s) v.

Definition apk_sign_ctx_init (action : sign_action) (generated : apk_digest) : apk_sign_ctx :=
  SignCtx action 0 (- APKE_SIGNATURE_UNTRUSTED) false false false false false false APK_DIGEST_SHA1 digest_zero
    (md_init APK_DIGEST_SHA1)
    match action with APK_SIGN_VERIFY_AND_GENERATE => md_init APK_DIGEST_SHA1 | _ => md_none end
    None None generated.

Variable trust : apk_trust pkey.
(** [ectx->verify_alg] and [ectx->verify_digest] *)
Variable verify_alg : Z.
Variable verify_digest : blob.

Definition check_signing_key_trust (s : apk_sign_ctx) : Z :=
  match sc_action s with
  | APK_SIGN_VERIFY | APK_SIGN_VERIFY_AND_GENERATE =>
      match sc_pkey s with
      | None => if allow_untrusted trust then 0 else - APKE_SIGNATURE_UNTRUSTED
      | Some _ => 0
      end
  | APK_SIGN_VERIFY_IDENTITY => 0
  end.

Definition signature_type : list (bytes * Z) :=
  [(bs "RSA512", APK_DIGEST_SHA512); (bs "RSA256", APK_DIGEST_SHA256); (bs "RSA", APK_DIGEST_SHA1); (bs "DSA", APK_DIGEST_SHA1)].

(** The algorithm and the name of the key in the name of a signature file. *)
Fixpoint signature_name (types : list (bytes * Z)) (name : bytes) : option (Z * bytes) :=
  match types with
  | [] => None
  | (type, alg) :: types =>
      match apk_blob_pull_blob_match (zdrop 6 name) (type ++ bs ".") with
      | Some key => Some (alg, key)
      | None => signature_name types name
      end
  end.

(** The callback for the parts of the stream. *)
Definition mpart_data (s : apk_sign_ctx) (data : bytes) : Z * apk_sign_ctx :=
  let '(r, c) := md_update (sc_digest_ctx s) data in
  let s := set_digest_ctx c s in
  if negb (r =? 0) then (r, s)
  else if sc_control_started s && negb (sc_data_started s) && negb (md_alg (sc_identity_ctx s) =? APK_DIGEST_NONE) then
    let '(r, c) := md_update (sc_identity_ctx s) data in (r, set_identity_ctx c s)
  else (0, s).

(** The boundary before the control files. *)
Definition mpart_signatures_end (s : apk_sign_ctx) (part : mpart) : Z * apk_sign_ctx :=
  match part with
  | APK_MPART_END => (- APKE_FORMAT_INVALID, s)
  | _ =>
      let '(r, c) := md_reset (sc_identity_ctx s) in
      let s := set_identity_ctx c s in
      if negb (r =? 0) then (r, s)
      else
        let '(r, c) := match sc_pkey s, sc_action s with
                       | None, _ | _, APK_SIGN_VERIFY_IDENTITY => md_reset_alg (sc_digest_ctx s) (sc_alg s)
                       | Some k, _ => md_verify_start (sc_digest_ctx s) (sc_alg s) k
                       end in
        (r, set_digest_ctx c s)
  end.

(** The end of the data, with a digest that the control files gave. *)
Definition mpart_data_end (s : apk_sign_ctx) : Z * apk_sign_ctx :=
  let '(r, calculated) := md_final (sc_digest_ctx s) digest_zero in
  if negb (r =? 0) then (r, s)
  else if negb (apk_digest_cmp calculated (sc_data_hash s) =? 0) then (- APKE_V2PKG_INTEGRITY, s)
  else
    let s := set_data_verified true s in
    if negb (allow_untrusted trust) && negb (sc_control_verified s) then (- APKE_SIGNATURE_UNTRUSTED, s) else (0, s).

(** After the control files were verified: the digests start again. *)
Definition mpart_verified (s : apk_sign_ctx) (part : mpart) : Z * apk_sign_ctx :=
  let s := set_control_verified true s in
  let s := match part with
           | APK_MPART_END => if negb (sc_has_data_checksum s) then set_data_verified true s else s
           | _ => s
           end in
  let '(r, c) := md_reset (sc_identity_ctx s) in
  let s := set_identity_ctx c s in
  if negb (r =? 0) then (r, s)
  else let '(r, c) := md_reset_alg (sc_digest_ctx s) (sc_alg s) in (r, set_digest_ctx c s).

(** The signature of the control files, or of everything. *)
Definition mpart_signature (s : apk_sign_ctx) (part : mpart) : Z * apk_sign_ctx :=
  let s := match sc_pkey s with
           | Some _ => set_verify_error (md_verify (sc_digest_ctx s) (blob_data (sc_sig_data s))) s
           | None => s
           end in
  if negb (sc_verify_error s =? 0) && (negb (sc_verify_error s =? - APKE_SIGNATURE_UNTRUSTED) || negb (allow_untrusted trust))
  then (sc_verify_error s, s)
  else mpart_verified s part.

(** The expected digest of the control files. *)
Definition mpart_identity (s : apk_sign_ctx) (part : mpart) : Z * apk_sign_ctx :=
  let '(_, calculated) := md_final (sc_digest_ctx s) digest_zero in
  if negb (apk_digest_cmp_blob calculated verify_alg verify_digest =? 0) then (- APKE_V2PKG_INTEGRITY, s)
  else mpart_verified (set_verify_error 0 s) part.

Definition mpart_eqb (a b : mpart) : bool :=
  match a, b with
  | APK_MPART_DATA, APK_MPART_DATA | APK_MPART_BOUNDARY, APK_MPART_BOUNDARY | APK_MPART_END, APK_MPART_END => true
  | _, _ => false
  end.

Definition apk_sign_ctx_mpart_cb (s : apk_sign_ctx) (part : mpart) (data : bytes) : Z * apk_sign_ctx :=
  if sc_end_seen s || sc_data_verified s then (- APKE_FORMAT_INVALID, s)
  else if mpart_eqb part APK_MPART_BOUNDARY && sc_data_started s then (- APKE_FORMAT_INVALID, s)
  else
    let s := if mpart_eqb part APK_MPART_END then set_end_seen true s else s in
    if mpart_eqb part APK_MPART_DATA then mpart_data s data
    else if negb (zlen data =? 0) then (- APKE_FORMAT_INVALID, s)
    else if negb (sc_control_started s) then mpart_signatures_end s part
    else
      let end_of_control := negb (sc_data_started s) in
      let s := set_data_started true s in
      if negb (sc_has_data_checksum s) && end_of_control && negb (mpart_eqb part APK_MPART_END) then (0, s)
      else if sc_has_data_checksum s && negb end_of_control then mpart_data_end s
      else
        let r := check_signing_key_trust s in
        if negb (r =? 0) then (r, s)
        else match sc_action s with
             | APK_SIGN_VERIFY_AND_GENERATE =>
                 let s := set_generated (md_final (sc_identity_ctx s) (sc_generated s)).2 s in
                 if negb (sc_has_data_checksum s) then (- APKE_V2PKG_FORMAT, s) else mpart_signature s part
             | APK_SIGN_VERIFY => mpart_signature s part
             | APK_SIGN_VERIFY_IDENTITY => mpart_identity s part
             end.

(** ** The files of the archive *)

Context {S : Type} `{IstreamOps S} {zs : Type} `{Zlib zs}.
Variable turns : nat.

(** A file of the archive: the decompressing stream with the context below a segment. *)
Definition v2_source : Type := gzip_istream S zs apk_sign_ctx.
#[local] Instance v2_read : IstreamOps v2_source := gzi_read (Some apk_sign_ctx_mpart_cb) turns.
Definition v2_file : Type := apk_istream (segment v2_source).

Definition file_sctx (sg : v2_file) : apk_sign_ctx := gz_cbctx (is_src (sg_pis (is_src sg))).
Definition set_file_sctx (s : apk_sign_ctx) (sg : v2_file) : v2_file :=
  let seg := is_src sg in
  let pis := sg_pis seg in
  set_src (Segment (set_src (gz_set_ctx s (is_src pis)) pis) (sg_bytes_left seg) (sg_mtime seg)) sg.

Definition has_slash (name : bytes) : bool := match memchr name (chr "/") with Some _ => true | None => false end.

(** 1 for a file that is not a signature. *)
Definition apk_sign_ctx_process_file (fi : apk_file_info) (sg : v2_file) : option (Z * v2_file) :=
  let s := file_sctx sg in
  let name := fi_name fi in
  if sc_data_started s then Some (1, sg)
  else if negb (List.hd 0 name =? chr ".") || has_slash name then
    if sc_has_data_checksum s then Some (- APKE_V2PKG_FORMAT, sg)
    else match sc_action s with
         | APK_SIGN_VERIFY_IDENTITY => Some (- APKE_V2PKG_FORMAT, sg)
         | _ =>
             let s := set_control_started true (set_data_started true s) in
             let r := check_signing_key_trust s in
             Some (if negb (r =? 0) then r else 1, set_file_sctx s sg)
         end
  else if sc_control_started s then Some (1, sg)
  else if negb (apk_blob_starts_with name (bs ".SIGN.")) then Some (1, set_file_sctx (set_control_started true s) sg)
  else
    let s := set_num_signatures (s32 (sc_num_signatures s + 1)) s in
    let sg := set_file_sctx s sg in
    match sc_pkey s, sc_action s with
    | Some _, _ | _, APK_SIGN_VERIFY_IDENTITY => Some (0, sg)
    | None, _ =>
        match signature_name signature_type name with
        | None => Some (0, sg)
        | Some (alg, key) =>
            if 65536 <? fi_size fi then Some (0, sg)
            else match apk_trust_key_by_name trust key with
                 | None => Some (0, sg)
                 | Some pkey =>
                     let sg := set_file_sctx (set_pkey (Some pkey) (set_alg alg s)) sg in
                     '(_, data, sg) ← apk_blob_from_istream sg (fi_size fi);
                     Some (0, set_file_sctx (set_sig_data data (file_sctx sg)) sg)
                 end
        end
    end.

(** A line of the control file. *)
Definition apk_extract_v2_control (sg : v2_file) (l r : bytes) : option v2_file :=
  let s := file_sctx sg in
  if negb (sc_control_started s) || sc_data_started s then Some sg
  else if apk_blob_compare (Some (bs "datahash")) (Some l) =? 0 then
    let s := set_alg APK_DIGEST_SHA256 (set_has_data_checksum true s) in
    let d := apk_digest_set (sc_data_hash s) (sc_alg s) in
    '(_, data) ← apk_blob_pull_hexdump (Some r) (apk_digest_blob d);
    Some (set_file_sctx (set_data_hash (Digest (d_alg d) (d_len d) (overwrite (d_data d) data)) s) sg)
  else Some sg.

(** Each line takes a byte of the file, or is the last one. *)
Fixpoint v2_meta_loop (fuel : nat) (sg : v2_file) : option v2_file :=
  match fuel with
  | O => None
  | Datatypes.S fuel =>
      '(r, k, sg) ← apk_istream_get_delim sg [10];
      if negb (r =? 0) then Some sg
      else if (blob_len k <? 1) || (List.hd 0 (blob_data k) =? chr "#") then v2_meta_loop fuel sg
      else match apk_blob_split k (bs " = ") with
           | None => v2_meta_loop fuel sg
           | Some (l, r) => sg ← apk_extract_v2_control sg l r; v2_meta_loop fuel sg
           end
  end.

Definition apk_extract_v2_meta (sg : v2_file) : option (Z * v2_file) :=
  sg ← v2_meta_loop (Z.to_nat (is_len sg + sg_bytes_left (is_src sg) + 2)) sg; Some (0, sg).

(** *** The entries *)

(** struct apk_extract_ops: functions of the client, with a state of its own. *)
Context {X : Type}.
Record extract_ops := ExtractOps {
  op_v2index : option (X -> blob -> v2_file -> option (Z * X * v2_file));
  op_v2meta : option (X -> v2_file -> option (Z * X * v2_file));
  op_script : option (X -> Z -> Z -> v2_file -> option (Z * X * v2_file));
  op_file : option (X -> apk_file_info -> v2_file -> option (Z * X * v2_file))
}.

(** extract_v2verify_ops *)
Definition extract_v2verify_ops : extract_ops := {|
  op_v2index := Some (fun x _ sg => Some (0, x, sg));
  op_v2meta := Some (fun x sg => '(r, sg) ← apk_extract_v2_meta sg; Some (r, x, sg));
  op_script := None;
  op_file := Some (fun x _ sg => Some (0, x, sg))
|}.

(** The fields of struct apk_extract_ctx that change, and the state of the client. *)
Record extract_state := ExtractState { xs_is_package : bool; xs_is_index : bool; xs_desc : blob; xs_client : X }.

Variable ops : extract_ops.

Definition apk_extract_v2_entry (x : extract_state) (fi : apk_file_info) (sg : v2_file) : option (Z * extract_state * v2_file) :=
  let name := fi_name fi in
  let dot := List.hd 0 name =? chr "." in
  let run x (res : option (Z * X * v2_file)) :=
    '(r, c, sg) ← res; Some (r, ExtractState (xs_is_package x) (xs_is_index x) (xs_desc x) c, sg) in
  '(r, sg) ← apk_sign_ctx_process_file fi sg;
  if r <=? 0 then Some (r, x, sg)
  else
    let s := file_sctx sg in
    if negb (sc_control_started s) then Some (0, x, sg)
    else if negb (sc_data_started s) || negb (sc_has_data_checksum s) then
      if dot then
        let x := ExtractState true (xs_is_index x) (xs_desc x) (xs_client x) in
        if xs_is_index x then Some (- APKE_V2NDX_FORMAT, x, sg)
        else match op_v2meta ops with
             | None => Some (- APKE_FORMAT_NOT_SUPPORTED, x, sg)
             | Some v2meta =>
                 if strcmp name (bs ".PKGINFO") =? 0 then run x (v2meta (xs_client x) sg)
                 else if strcmp name (bs ".INSTALL") =? 0 then Some (- APKE_V2PKG_FORMAT, x, sg)
                 else
                   let type := apk_script_type (zdrop 1 name) in
                   match op_script ops with
                   | Some script => if negb (type =? APK_SCRIPT_INVALID) then run x (script (xs_client x) type (fi_size fi) sg)
                                    else Some (0, x, sg)
                   | None => Some (0, x, sg)
                   end
             end
      else
        let x := ExtractState (xs_is_package x) true (xs_desc x) (xs_client x) in
        if xs_is_package x then Some (- APKE_V2PKG_FORMAT, x, sg)
        else match op_v2index ops with
             | None => Some (- APKE_FORMAT_NOT_SUPPORTED, x, sg)
             | Some v2index =>
                 if (strcmp name (bs "DESCRIPTION") =? 0) && (fi_size fi <=? 160) then
                   '(_, desc, sg) ← apk_blob_from_istream sg (fi_size fi);
                   Some (0, ExtractState (xs_is_package x) (xs_is_index x) desc (xs_client x), sg)
                 else if strcmp name (bs "APKINDEX") =? 0 then run x (v2index (xs_client x) (xs_desc x) sg)
                 else Some (0, x, sg)
             end
    else if negb (sc_data_started s) then Some (0, x, sg)
    else match op_file ops with
         | None => Some (- ECANCELED, x, sg)
         | Some file => if dot then Some (0, x, sg) else run x (file (xs_client x) fi sg)
         end.

(** The action, from generate_identity and verify_alg. *)
Definition v2_action (generate : bool) : sign_action :=
  if generate then APK_SIGN_VERIFY_AND_GENERATE
  else if negb (verify_alg =? APK_DIGEST_NONE) then APK_SIGN_VERIFY_IDENTITY
  else APK_SIGN_VERIFY.

(** What apk_extract_v2 makes of the result of the reader. *)
Definition v2_result (r : Z) (x : extract_state) (s : apk_sign_ctx) : Z :=
  let r := if ((r =? 0) || (r =? - ECANCELED) || (r =? - APKE_EOF)) && negb (xs_is_package x) && negb (xs_is_index x)
           then - APKE_FORMAT_INVALID else r in
  let r := if (r =? 0) && (negb (sc_data_verified s) || negb (sc_end_seen s)) then - APKE_V2PKG_INTEGRITY else r in
  let r := if ((r =? 0) || (r =? - ECANCELED)) && negb (sc_verify_error s =? 0) then sc_verify_error s else r in
  if (r =? - APKE_SIGNATURE_UNTRUSTED) && allow_untrusted trust then 0 else r.

Variable sort : list apk_xattr -> list apk_xattr.
Variable idc : id_cache.
Variable junk : Z.

(** apk_extract_v2; [generate] is what generate_identity points to, if it is set.  The result, the
    state of the client and the generated identity. *)
Definition apk_extract_v2 (fuel : nat) (bufsize : Z) (st : apk_istream S) (generate : option apk_digest) (x : X)
  : option (Z * X * apk_digest) :=
  let sctx := apk_sign_ctx_init (v2_action (match generate with Some _ => true | None => false end)) (default digest_zero generate) in
  match apk_istream_zlib bufsize st false sctx with
  | None => let r := v2_result (- ENOMEM) (ExtractState false false None x) sctx in Some (r, x, sc_generated sctx)
  | Some gis =>
      '(r, e, gis) ← apk_tar_parse sort idc junk apk_extract_v2_entry fuel gis (ExtractState false false None x);
      let s := gz_cbctx (is_src gis) in
      Some (v2_result r e s, xs_client e, sc_generated s)
  end.
End ctx.
