(* ===== verification/ExtractToy.v ===== *)
(** A toy decompressor and toy packages, for concrete runs of the decompressing streams and of the
    reader of packages: a member is a mark, two bytes of length and the contents as they are. *)
From Stdlib Require Import ZArith Lia Ascii String.
From stdpp Require Import base numbers list option.
From S2P Require Import Prelude Clib Blob Codec Dep Package AdbTrust Stream StreamThm StreamSeg Tar TarThm Gunzip ExtractV2.

Definition TOY_MARK : Z := 31.

(** The bytes of the header so far, or how much of the contents is left. *)
Inductive toy_zs := ToyHdr (h : bytes) | ToyBody (lft : Z).

Definition toy_body (lft : Z) (input : bytes) (used n : Z) : Z * Z * bytes * toy_zs :=
  let k := Z.min lft (Z.min n (zlen input)) in
  (if k =? lft then Z_STREAM_END else if used + k =? 0 then Z_BUF_ERROR else Z_OK, used + k, ztake k input, ToyBody (lft - k)).

Definition toy_inflate (z : toy_zs) (input : bytes) (n : Z) : Z * Z * bytes * toy_zs :=
  match z with
  | ToyBody lft => if lft <=? 0 then (-3, 0, [], z) else toy_body lft input 0 n
  | ToyHdr h =>
      let k := Z.min (3 - zlen h) (zlen input) in
      let h' := h ++ ztake k input in
      if k <=? 0 then (if zlen input =? 0 then Z_BUF_ERROR else -3, 0, [], z)
      else if zlen h' <? 3 then (Z_OK, k, [], ToyHdr h')
      else if List.hd 0 h' =? TOY_MARK then toy_body (Z.max 0 (znth 0 h' 1) + 256 * Z.max 0 (znth 0 h' 2)) (zdrop k input) k n
      else (-3, 0, [], z)
  end.

#[export] Instance toy_zlib : Zlib toy_zs := {| inflate := toy_inflate; inflateInit2 _ := Some (ToyHdr []) |}.

Definition toy_member (d : bytes) : bytes := [TOY_MARK; zlen d mod 256; zlen d / 256] ++ d.

Lemma toy_body_ok lft input used n rc u out z' :
  0 <= lft -> 0 <= used -> 0 < n -> 0 < lft \/ 0 < used -> toy_body lft input used n = (rc, u, out, z') ->
  used <= u <= used + zlen input /\ zlen out <= n /\ (rc = Z_BUF_ERROR -> used = 0 /\ input = [] /\ out = []) /\
  (rc = Z_OK \/ rc = Z_STREAM_END -> 0 < u + zlen out).
Proof.
  intros Hl Hu Hn Hp. unfold toy_body. set (k := Z.min lft _). intros [= <- <- <- <-]. pose proof (zlen_nonneg input).
  assert (Hk : 0 <= k <= zlen input /\ k <= n /\ k <= lft) by lia. rewrite zlen_ztake by lia.
  split; [lia|]. split; [lia|].
  destruct (Z.eqb_spec k lft); [split; [by intros|]; intros _; lia|]. destruct (Z.eqb_spec (used + k) 0) as [E|E].
  - split; [|intros []; done]. intros _. assert (zlen input = 0) by lia. assert (Hi : input = []) by (by apply zlen_0_nil). subst.
    split_and!; [lia|done|]. unfold ztake. by rewrite firstn_nil.
  - split; [by intros|]. intros _. lia.
Qed.

Lemma toy_inflate_ok z input n rc u out z' :
  0 < n -> toy_inflate z input n = (rc, u, out, z') ->
  0 <= u <= zlen input /\ zlen out <= n /\ (rc = Z_BUF_ERROR -> input = [] /\ out = []) /\
  (rc = Z_OK \/ rc = Z_STREAM_END -> 0 < u + zlen out).
Proof.
  intros Hn. pose proof (zlen_nonneg input) as Hi. destruct z as [h|lft]; cbn [toy_inflate].
  - set (k := Z.min _ _). destruct (Z.leb_spec k 0).
    { intros [= <- <- <- <-]. change (zlen (@nil Z)) with 0. split; [lia|]. split; [lia|].
      destruct (Z.eqb_spec (zlen input) 0) as [E|E]; [|split; [done|intros []; done]].
      split; [intros _; split; [by apply zlen_0_nil|done]|intros []; done]. }
    assert (Hk : k <= zlen input) by lia. destruct (zlen (h ++ ztake k input) <? 3).
    { intros [= <- <- <- <-]. change (zlen (@nil Z)) with 0. split; [lia|]. split; [lia|]. split; [done|lia]. }
    destruct (_ =? TOY_MARK).
    + intros E. apply toy_body_ok in E as (E1 & E2 & E3 & E4); [|lia..]. rewrite zlen_zdrop in E1 by lia.
      split; [lia|]. split; [lia|]. split; [|done]. intros Hrc. destruct (E3 Hrc). lia.
    + intros [= <- <- <- <-]. change (zlen (@nil Z)) with 0. split; [lia|]. split; [lia|]. split; [done|intros []; done].
  - destruct (Z.leb_spec lft 0).
    + intros [= <- <- <- <-]. change (zlen (@nil Z)) with 0. split; [lia|]. split; [lia|]. split; [done|intros []; done].
    + intros E. apply toy_body_ok in E as (E1 & E2 & E3 & E4); [|lia..]. split; [lia|]. split; [lia|]. split; [|done].
      intros Hrc. by destruct (E3 Hrc).
Qed.

#[export] Instance toy_zlib_ok : ZlibOk toy_zs.
Proof.
  constructor.
  - intros z input n rc u out z' Hn E. by apply (toy_inflate_ok z input n rc u out z' Hn E).
  - intros z input n rc u out z' Hn E. by apply (toy_inflate_ok z input n rc u out z' Hn E).
  - intros z input n u out z' Hn E. by apply (toy_inflate_ok z input n _ u out z' Hn E).
  - intros z input n rc u out z' Hn E. by apply (toy_inflate_ok z input n rc u out z' Hn E).
Qed.

#[export] Instance toy_crypto_ctx : CryptoCtx Z := {|
  EVP_DigestInit _ := true; EVP_VerifyFinal_plain _ _ _ := false; EVP_DigestFinal_verify _ _ _ := None
|}.
#[export] Existing Instance toy_crypto.

(** ** Toy packages *)

Definition toy_entry (name : String.string) (data : bytes) : bytes :=
  (apk_tar_write_entry [] (Some (example_file (bs name) data).1) (Some data)).2.
Definition toy_end : bytes := (apk_tar_write_entry ([] : bytes) None None).2.

Fixpoint toy_hex (l : bytes) : bytes :=
  match l with [] => [] | c :: l => xd_at (c / 16) :: xd_at (c mod 16) :: toy_hex l end.

Definition toy_data_gz : bytes := toy_member (toy_entry "etc/motd" (bs "hello") ++ toy_end).
Definition toy_pkginfo : bytes :=
  bs "pkgname = toy" ++ [10] ++ bs "datahash = " ++ toy_hex (replicate 32 (toy_sum toy_data_gz)) ++ [10].
Definition toy_control_gz : bytes := toy_member (toy_entry ".PKGINFO" toy_pkginfo).
Definition toy_sig_gz : bytes := toy_member (toy_entry ".SIGN.RSA.key7" [7; toy_sum toy_control_gz]).
Definition toy_package : bytes := toy_sig_gz ++ toy_control_gz ++ toy_data_gz.

Definition toy_store (allow : bool) : apk_trust Z := Trust [TKey (Pkey (replicate 16 7) 7) (bs "key7")] [] allow.

(** A package from any stream, with the functions that only verify. *)
Definition toy_extract {S} `{IstreamOps S} (st : apk_istream S) : option Z :=
  '(r, _, _) ← apk_extract_v2 (toy_store false) APK_DIGEST_NONE None 1000 (zs := toy_zs)
    (extract_v2verify_ops (toy_store false) APK_DIGEST_NONE None 1000) id no_ids 0 100 4096 st None tt;
  Some r.

(** ** A client that keeps the values it passes on *)

Section logging.
Context {pkey : Type} `{!Crypto pkey, !CryptoCtx pkey} {S : Type} `{IstreamOps S} {zs : Type} `{Zlib zs}.
Context (trust : apk_trust pkey) (verify_alg : Z) (verify_digest : blob) (turns : nat).
#[local] Instance logging_read : IstreamOps (v2_source (pkey := pkey) (S := S) (zs := zs)) := v2_read trust verify_alg verify_digest turns.

Fixpoint logging_loop (fuel : nat) (log : list bytes) (sg : v2_file (pkey := pkey) (S := S) (zs := zs)) : option (list bytes * v2_file) :=
  match fuel with
  | O => None
  | Datatypes.S fuel =>
      '(r, k, sg) ← apk_istream_get_delim sg [10];
      if negb (r =? 0) then Some (log, sg)
      else match apk_blob_split k (bs " = ") with
           | None => logging_loop fuel log sg
           | Some (l, r) =>
               sg ← apk_extract_v2_control sg l r;
               logging_loop fuel (if apk_blob_compare (Some (bs "datahash")) (Some l) =? 0 then log ++ [r] else log) sg
           end
  end.

Definition logging_ops : extract_ops (X := list bytes) := {|
  op_v2index := None;
  op_v2meta := Some (fun log sg => '(log, sg) ← logging_loop (Z.to_nat (is_len sg + sg_bytes_left (is_src sg) + 2)) log sg; Some (0, log, sg));
  op_script := None;
  op_file := Some (fun x _ sg => Some (0, x, sg))
|}.
End logging.

Definition toy_accept {S} `{IstreamOps S} (st : apk_istream S) (generate : option apk_digest) : option (Z * list bytes * apk_digest) :=
  apk_extract_v2 (toy_store false) APK_DIGEST_NONE None 1000 (zs := toy_zs)
    (logging_ops (toy_store false) APK_DIGEST_NONE None 1000) id no_ids 0 100 4096 st generate [].
