(* ===== verification/ExtractThm.v ===== *)
(** What a package of format 2 that was accepted guarantees (ExtractV2.v): the control files are signed by a
    trusted key or have the expected digest, and the rest of the file has the digest that
    the control files give.  And what goes wrong when the file arrives in pieces. *)
From Stdlib Require Import ZArith Lia Ascii String.
From stdpp Require Import base numbers list option.
From S2P Require Import Prelude Clib Blob Codec Dep Package AdbTrust Stream StreamThm StreamSeg Tar TarThm TarInv.
From S2P Require Import Gunzip GunzipThm ExtractV2 ExtractToy.

(** A context that was not started for a signature does not verify one. *)
Class CryptoCtxOk (pkey : Type) `{CryptoCtx pkey} : Prop :=
  plain_refused alg m s : EVP_VerifyFinal_plain alg m s = false.

Section authentic.
Context {pkey : Type} `{!Crypto pkey, !CryptoCtx pkey, !CryptoCtxOk pkey}.
Context (trust : apk_trust pkey) (verify_alg : Z) (verify_digest : blob) (file : bytes).
(** the values of datahash lines that the client passes on *)
Context (D : bytes -> Prop).
Hypothesis untrusted_refused : allow_untrusted trust = false.
Implicit Types s : apk_sign_ctx (pkey := pkey).

(** ** What is guaranteed *)

(** The control files [c] are trusted. *)
Definition vouched (a : sign_action) (c : bytes) : Prop :=
  match a with
  | APK_SIGN_VERIFY_IDENTITY => apk_digest_cmp_blob (digest_final verify_alg c) verify_alg verify_digest = 0
  | _ => exists name k alg sig, apk_trust_key_by_name trust name = Some k /\ EVP_DigestVerifyFinal alg (key_priv k) c sig = true
  end.

(** A digest that was read from the value of a datahash line. *)
Definition announced (hash : apk_digest) : Prop :=
  exists value prev b data, D value /\
    apk_blob_pull_hexdump (Some value) (apk_digest_blob (apk_digest_set prev APK_DIGEST_SHA256)) = Some (b, data) /\
    hash = Digest APK_DIGEST_SHA256 (apk_digest_alg_len APK_DIGEST_SHA256) (overwrite (d_data prev) data).

(** A file is signatures, control files and data. *)
Definition authentic (a : sign_action) (f : bytes) : Prop :=
  exists pre control rest, f = pre ++ control ++ rest /\ vouched a control /\
    (rest = [] \/ exists hash, announced hash /\ apk_digest_cmp (digest_final APK_DIGEST_SHA256 rest) hash = 0).

(** ** The phases of the context *)

(** Nothing was verified yet; the digest has what came after the last signatures. *)
Record opening (a : sign_action) (fed : bytes) s : Prop := {
  op_action : sc_action s = a; op_error : sc_verify_error s = - APKE_SIGNATURE_UNTRUSTED;
  op_dv : sc_data_verified s = false; op_end : sc_end_seen s = false;
  op_has : sc_has_data_checksum s = true -> sc_data_started s = false /\ sc_control_started s = true /\
    sc_alg s = APK_DIGEST_SHA256 /\ announced (sc_data_hash s);
  op_fed : exists pre, fed = pre ++ md_data (sc_digest_ctx s);
  op_identity : a = APK_SIGN_VERIFY_IDENTITY -> sc_pkey s = None;
  op_trusted : forall k, sc_pkey s = Some k -> exists name, apk_trust_key_by_name trust name = Some k;
  op_key : forall key, md_key (sc_digest_ctx s) = Some key -> exists k, sc_pkey s = Some k /\ key = key_priv k
}.

(** The control files were verified and the data follows. *)
Record checked (a : sign_action) (fed : bytes) s : Prop := {
  ck_action : sc_action s = a; ck_error : sc_verify_error s = 0; ck_cs : sc_control_started s = true; ck_ds : sc_data_started s = true;
  ck_has : sc_has_data_checksum s = true; ck_dv : sc_data_verified s = false; ck_end : sc_end_seen s = false;
  ck_hash : announced (sc_data_hash s); ck_key : md_key (sc_digest_ctx s) = None; ck_alg : md_alg (sc_digest_ctx s) = APK_DIGEST_SHA256;
  ck_fed : exists pre control, fed = pre ++ control ++ md_data (sc_digest_ctx s) /\ vouched a control
}.

(** The end was seen. *)
Record finished (a : sign_action) (fed : bytes) s : Prop := {
  fi_ds : sc_data_started s = true; fi_end : sc_end_seen s = true;
  fi_authentic : sc_data_verified s = true -> authentic a fed
}.

Definition v2_ok (a : sign_action) (fed : bytes) s : Prop := opening a fed s \/ checked a fed s \/ finished a fed s.

Lemma v2_start a generated : v2_ok a [] (apk_sign_ctx_init a generated).
Proof. left. constructor; try done. by exists []. Qed.

Lemma error_neg : - APKE_SIGNATURE_UNTRUSTED < 0 /\ - APKE_SIGNATURE_INVALID < 0 /\ - APKE_CRYPTO_ERROR < 0 /\
  - APKE_FORMAT_INVALID < 0 /\ - APKE_V2PKG_INTEGRITY < 0 /\ - APKE_V2PKG_FORMAT < 0.
Proof. by split_and!; vm_compute. Qed.

(** ** Digest contexts *)

Implicit Types c : md_ctx (pkey := pkey).

Lemma md_update_spec c d r c' : md_update c d = (r, c') -> r <= 0 /\ (r = 0 -> c' = MdCtx (md_alg c) (md_key c) (md_data c ++ d)).
Proof. unfold md_update. destruct (EVP_DigestUpdate _ _); intros [= <- <-]; [done|]. split; [by vm_compute|done]. Qed.
Lemma md_reset_nonpos c r c' : md_reset c = (r, c') -> r <= 0.
Proof. unfold md_reset. repeat case_match; intros [= <- <-]; done. Qed.
Lemma md_reset_alg_spec c alg r c' : md_reset_alg c alg = (r, c') -> r <= 0 /\ (r = 0 -> c' = MdCtx alg None []).
Proof. unfold md_reset_alg. destruct (EVP_DigestInit alg); intros [= <- <-]; [done|]. split; [by vm_compute|done]. Qed.
Lemma md_verify_start_spec c alg k r c' :
  md_verify_start c alg k = (r, c') -> r <= 0 /\ (r = 0 -> c' = MdCtx alg (Some (key_priv k)) []).
Proof. unfold md_verify_start. destruct (EVP_DigestVerifyInit _ _); intros [= <- <-]; [done|]. split; [by vm_compute|done]. Qed.
Lemma md_final_nonpos c d : (md_final c d).1 <= 0.
Proof. unfold md_final. by case_match. Qed.
Lemma md_final_plain c : md_key c = None -> (md_final c digest_zero).2 = digest_final (md_alg c) (md_data c).
Proof. unfold md_final, digest_final. intros ->. by case_match. Qed.
Lemma md_verify_spec c sig :
  md_verify c sig = - APKE_SIGNATURE_INVALID \/
  (md_verify c sig = 0 /\ exists key, md_key c = Some key /\ EVP_DigestVerifyFinal (md_alg c) key (md_data c) sig = true).
Proof.
  unfold md_verify. destruct (md_key c) as [key|]; [|left; by rewrite plain_refused].
  destruct (EVP_DigestVerifyFinal _ _ _ _) eqn:E; [right; eauto|by left].
Qed.

(** ** The callback of the decompressor *)

Definition cb_ok (a : sign_action) (fed : bytes) (res : Z * apk_sign_ctx (pkey := pkey)) : Prop :=
  res.1 <= 0 /\ (res.1 = 0 -> v2_ok a fed res.2).

Lemma cb_fail a fed r s : r < 0 -> cb_ok a fed (r, s).
Proof. split; cbn; lia. Qed.

Lemma opening_identity a fed s c : opening a fed s -> opening a fed (set_identity_ctx c s).
Proof. intros []. by constructor. Qed.
Lemma checked_identity a fed s c : checked a fed s -> checked a fed (set_identity_ctx c s).
Proof. intros []. by constructor. Qed.

Lemma opening_digest a fed d s :
  opening a fed s ->
  opening a (fed ++ d) (set_digest_ctx (MdCtx (md_alg (sc_digest_ctx s)) (md_key (sc_digest_ctx s)) (md_data (sc_digest_ctx s) ++ d)) s).
Proof. intros []. constructor; try done. destruct op_fed0 as [pre ->]. exists pre. cbn. by rewrite <- app_assoc. Qed.
Lemma checked_digest a fed d s :
  checked a fed s ->
  checked a (fed ++ d) (set_digest_ctx (MdCtx (md_alg (sc_digest_ctx s)) (md_key (sc_digest_ctx s)) (md_data (sc_digest_ctx s) ++ d)) s).
Proof.
  intros []. constructor; try done. destruct ck_fed0 as (pre & control & -> & Hv). exists pre, control. split; [|done]. cbn. by rewrite <- !app_assoc.
Qed.

Lemma mpart_data_ok a fed d s : opening a fed s \/ checked a fed s -> cb_ok a (fed ++ d) (mpart_data s d).
Proof.
  intros Hs. unfold mpart_data. destruct (md_update (sc_digest_ctx s) d) as [r c] eqn:E.
  apply md_update_spec in E as [Hr Hc]. destruct (Z.eqb_spec r 0) as [->|]; cbn [negb]; [|apply cb_fail; lia].
  rewrite Hc by done.
  assert (Hs' : forall i, v2_ok a (fed ++ d) (set_identity_ctx i (set_digest_ctx (MdCtx (md_alg (sc_digest_ctx s)) (md_key (sc_digest_ctx s))
    (md_data (sc_digest_ctx s) ++ d)) s))).
  { intros i. destruct Hs; [left; by apply opening_identity, opening_digest|right; left; by apply checked_identity, checked_digest]. }
  destruct (_ && _ && _).
  - destruct (md_update _ d) as [r' c'] eqn:E. apply md_update_spec in E as [Hr' _]. split; [done|]. intros _. apply Hs'.
  - split; [done|]. intros _. destruct Hs; [left; by apply opening_digest|right; left; by apply checked_digest].
Qed.

Lemma signatures_end_ok a fed s :
  opening a fed s -> sc_control_started s = false -> cb_ok a fed (mpart_signatures_end s APK_MPART_BOUNDARY).
Proof.
  intros Hs Hcs. unfold mpart_signatures_end. destruct (md_reset (sc_identity_ctx s)) as [r c] eqn:E.
  apply md_reset_nonpos in E. destruct (Z.eqb_spec r 0) as [->|]; cbn [negb]; [|apply cb_fail; lia].
  apply (opening_identity a fed s c) in Hs. change (sc_control_started (set_identity_ctx c s) = false) in Hcs.
  set (s1 := set_identity_ctx c s) in *. clearbody s1. clear s c E.
  assert (Hnew : forall c', md_data c' = [] -> (forall key, md_key c' = Some key -> exists k, sc_pkey s1 = Some k /\ key = key_priv k) ->
    opening a fed (set_digest_ctx c' s1)).
  { intros c' Hd Hk. destruct Hs. constructor; try done. cbn. rewrite Hd. exists fed. by rewrite app_nil_r. }
  assert (Hplain : cb_ok a fed (let '(r, c) := md_reset_alg (sc_digest_ctx s1) (sc_alg s1) in (r, set_digest_ctx c s1))).
  { destruct (md_reset_alg _ _) as [r2 c2] eqn:E2. apply md_reset_alg_spec in E2 as [Hr2 Hc2]. split; [done|]. cbn. intros Hz.
    rewrite Hc2 by done. left. by apply Hnew. }
  destruct (sc_pkey s1) as [k|] eqn:Ek; [|exact Hplain].
  assert (Hver : cb_ok a fed (let '(r, c) := md_verify_start (sc_digest_ctx s1) (sc_alg s1) k in (r, set_digest_ctx c s1))).
  { destruct (md_verify_start _ _ _) as [r2 c2] eqn:E2. apply md_verify_start_spec in E2 as [Hr2 Hc2]. split; [done|]. cbn. intros Hz.
    rewrite Hc2 by done. left. apply Hnew; [done|]. intros key [= <-]. eauto. }
  by destruct (sc_action s1).
Qed.

(** The state when the boundary or the end is handled: the flags that the callback sets first. *)
Definition at_end (part : mpart) s : apk_sign_ctx :=
  set_data_started true (if mpart_eqb part APK_MPART_END then set_end_seen true s else s).

Lemma data_end_ok a fed s : checked a fed s -> cb_ok a fed (mpart_data_end trust (at_end APK_MPART_END s)).
Proof.
  intros []. unfold mpart_data_end, at_end. cbn [mpart_eqb set_data_started set_end_seen sc_digest_ctx sc_data_hash].
  pose proof (md_final_nonpos (sc_digest_ctx s) digest_zero) as Hr. pose proof (md_final_plain _ ck_key0) as Hfin. rewrite ck_alg0 in Hfin.
  destruct (md_final (sc_digest_ctx s) digest_zero) as [r calc]. cbn in Hr, Hfin.
  destruct (Z.eqb_spec r 0) as [->|]; cbn [negb]; [|apply cb_fail; lia].
  destruct (Z.eqb_spec (apk_digest_cmp calc (sc_data_hash s)) 0) as [Hcmp|]; cbn [negb]; [|by apply cb_fail].
  destruct (_ && _); [by apply cb_fail|]. split; [done|]. intros _. right. right. constructor; try done. intros _.
  destruct ck_fed0 as (pre & control & -> & Hv). exists pre, control, (md_data (sc_digest_ctx s)). split_and!; [done|done|].
  right. exists (sc_data_hash s). split; [done|]. by rewrite <- Hfin.
Qed.

(** After the verification of [c]: the data follows, or everything was verified. *)
Lemma verified_ok a fed s part :
  opening a fed s -> sc_control_started s = true -> vouched a (md_data (sc_digest_ctx s)) -> part <> APK_MPART_DATA ->
  (sc_has_data_checksum s = true \/ part = APK_MPART_END) ->
  forall s1, s1 = set_verify_error 0 (at_end part s) \/ (exists g, s1 = set_verify_error 0 (set_generated g (at_end part s))) ->
  cb_ok a fed (mpart_verified s1 part).
Proof.
  intros [] Hcs Hv Hpart Hhas s1 Hs1.
  assert (Hflags : sc_has_data_checksum s1 = sc_has_data_checksum s /\ sc_digest_ctx s1 = sc_digest_ctx s /\ sc_alg s1 = sc_alg s /\
    sc_verify_error s1 = 0 /\ sc_action s1 = a /\ sc_control_started s1 = true /\ sc_data_started s1 = true /\
    sc_data_verified s1 = false /\ sc_end_seen s1 = mpart_eqb part APK_MPART_END /\ sc_data_hash s1 = sc_data_hash s).
  { unfold at_end in Hs1. destruct Hs1 as [->|[g ->]]; destruct part; by cbn. }
  destruct Hflags as (F1 & F2 & F3 & F4 & F5 & F6 & F7 & F8 & F9 & F10). destruct op_fed0 as [pre Hfed].
  unfold mpart_verified. set (s2 := match part with APK_MPART_END => _ | _ => _ end).
  destruct (md_reset (sc_identity_ctx s2)) as [r c] eqn:E. apply md_reset_nonpos in E.
  destruct (Z.eqb_spec r 0) as [->|]; cbn [negb]; [|apply cb_fail; lia].
  destruct (md_reset_alg _ _) as [r2 c2] eqn:E2. apply md_reset_alg_spec in E2 as [Hr2 Hc2]. split; [done|]. cbn. intros Hz.
  rewrite Hc2 by done. destruct part; [done| |].
  - subst s2. destruct Hhas as [Hhas|]; [|done]. destruct (op_has0 Hhas) as (G1 & G2 & G3 & G4). right. left.
    constructor; cbn; rewrite ?F1, ?F3, ?F4, ?F5, ?F6, ?F7, ?F8, ?F9, ?F10; try done.
    exists pre, (md_data (sc_digest_ctx s)). by rewrite app_nil_r.
  - right. right. subst s2. cbn [set_control_verified sc_has_data_checksum] in *. rewrite F1 in *.
    destruct (sc_has_data_checksum s); cbn [negb] in *; constructor; cbn; rewrite ?F7, ?F8, ?F9; try done.
    intros _. exists pre, (md_data (sc_digest_ctx s)), []. rewrite app_nil_r. split_and!; try done. by left.
Qed.

Lemma signature_ok a fed s part s1 :
  opening a fed s -> a <> APK_SIGN_VERIFY_IDENTITY -> sc_control_started s = true -> sc_pkey s <> None -> part <> APK_MPART_DATA ->
  (sc_has_data_checksum s = true \/ part = APK_MPART_END) ->
  s1 = at_end part s \/ (exists g, s1 = set_generated g (at_end part s)) -> cb_ok a fed (mpart_signature trust s1 part).
Proof.
  intros Hs Ha Hcs Hk Hpart Hhas Hs1.
  assert (Hsame : sc_pkey s1 = sc_pkey s /\ sc_digest_ctx s1 = sc_digest_ctx s).
  { unfold at_end in Hs1. destruct Hs1 as [->|[g ->]]; by destruct part. }
  destruct Hsame as [E1 E2]. unfold mpart_signature. rewrite E1, E2. destruct (sc_pkey s) as [k|] eqn:Ek; [|done].
  set (sig := blob_data (sc_sig_data s1)). destruct (md_verify_spec (sc_digest_ctx s) sig) as [->|(-> & key & Hkey & Hv)].
  - cbn [set_verify_error sc_verify_error]. change (- APKE_SIGNATURE_INVALID =? 0) with false.
    change (- APKE_SIGNATURE_INVALID =? - APKE_SIGNATURE_UNTRUSTED) with false. cbn [negb orb andb]. by apply cb_fail.
  - cbn [set_verify_error sc_verify_error Z.eqb negb andb].
    apply (verified_ok a fed s part Hs Hcs); try done.
    + destruct (op_key _ _ _ Hs key Hkey) as (k' & Hk' & ->). destruct (op_trusted _ _ _ Hs k' Hk') as [name Hname].
      assert (Hvo : exists name k alg sig, apk_trust_key_by_name trust name = Some k /\
        EVP_DigestVerifyFinal alg (key_priv k) (md_data (sc_digest_ctx s)) sig = true) by eauto 8.
      by destruct a.
    + destruct Hs1 as [->|[g ->]]; [by left|right; by exists g].
Qed.

Lemma identity_ok fed s part :
  verify_alg <> APK_DIGEST_NONE -> opening APK_SIGN_VERIFY_IDENTITY fed s -> sc_control_started s = true -> part <> APK_MPART_DATA ->
  (sc_has_data_checksum s = true \/ part = APK_MPART_END) ->
  cb_ok APK_SIGN_VERIFY_IDENTITY fed (mpart_identity verify_alg verify_digest (at_end part s) part).
Proof.
  intros Halg Hs Hcs Hpart Hhas. unfold mpart_identity.
  assert (Hkey : md_key (sc_digest_ctx s) = None).
  { destruct (md_key (sc_digest_ctx s)) as [key|] eqn:E; [|done]. destruct (op_key _ _ _ Hs key E) as (k & Hk & _).
    by rewrite (op_identity _ _ _ Hs eq_refl) in Hk. }
  assert (Hc : sc_digest_ctx (at_end part s) = sc_digest_ctx s) by (by destruct part). rewrite Hc.
  pose proof (md_final_plain _ Hkey) as Hfin. destruct (md_final (sc_digest_ctx s) digest_zero) as [r calc]. cbn in Hfin. subst calc.
  destruct (Z.eqb_spec (apk_digest_cmp_blob (digest_final (md_alg (sc_digest_ctx s)) (md_data (sc_digest_ctx s))) verify_alg verify_digest) 0)
    as [Hcmp|]; cbn [negb]; [|by apply cb_fail].
  apply (verified_ok _ fed s part Hs Hcs); try done; [|by left]. cbn [vouched].
  assert (Hsame : d_alg (digest_final (md_alg (sc_digest_ctx s)) (md_data (sc_digest_ctx s))) = verify_alg).
  { unfold apk_digest_cmp_blob in Hcmp. destruct (Z.eqb_spec (d_alg (digest_final (md_alg (sc_digest_ctx s)) (md_data (sc_digest_ctx s)))) verify_alg);
      [done|]. cbn [negb] in Hcmp. lia. }
  assert (Hsm : md_alg (sc_digest_ctx s) = verify_alg).
  { revert Hsame. unfold digest_final. destruct (EVP_Digest _ _); [done|]. intros E. cbn in E. by destruct Halg. }
  by rewrite Hsm in Hcmp.
Qed.

(** The end of the control files, or of a file without a digest of the data. *)
Lemma control_end_ok a fed s part :
  (a = APK_SIGN_VERIFY_IDENTITY -> verify_alg <> APK_DIGEST_NONE) -> opening a fed s -> sc_control_started s = true ->
  part <> APK_MPART_DATA -> (sc_has_data_checksum s = true \/ part = APK_MPART_END) ->
  cb_ok a fed
    (let s := at_end part s in
     let r := check_signing_key_trust trust s in
     if negb (r =? 0) then (r, s)
     else match sc_action s with
          | APK_SIGN_VERIFY_AND_GENERATE =>
              let s := set_generated (md_final (sc_identity_ctx s) (sc_generated s)).2 s in
              if negb (sc_has_data_checksum s) then (- APKE_V2PKG_FORMAT, s) else mpart_signature trust s part
          | APK_SIGN_VERIFY => mpart_signature trust s part
          | APK_SIGN_VERIFY_IDENTITY => mpart_identity verify_alg verify_digest s part
          end).
Proof.
  intros Halg Ho Hcs Hpart Hhas. cbv zeta. unfold check_signing_key_trust.
  assert (Hsame : sc_action (at_end part s) = a /\ sc_pkey (at_end part s) = sc_pkey s).
  { destruct Ho. split; [rewrite <- op_action0|]; by destruct part. }
  destruct Hsame as [-> ->]. rewrite untrusted_refused.
  destruct a.
  - destruct (sc_pkey s) as [k|] eqn:Ek; [|by apply cb_fail]. cbn [Z.eqb negb].
    apply (signature_ok _ fed s part); try done; [congruence|by left].
  - cbn [Z.eqb negb]. apply identity_ok; auto.
  - destruct (sc_pkey s) as [k|] eqn:Ek; [|by apply cb_fail]. cbn [Z.eqb negb].
    cbv zeta. set (s1 := set_generated _ _). destruct (sc_has_data_checksum s1); cbn [negb]; [|by apply cb_fail].
    apply (signature_ok _ fed s part); try done; [congruence|right; subst s1; eauto].
Qed.

(** Every call of the callback keeps the phases. *)
Lemma mpart_cb_ok a fed s part d :
  (a = APK_SIGN_VERIFY_IDENTITY -> verify_alg <> APK_DIGEST_NONE) -> v2_ok a fed s ->
  cb_ok a (match part with APK_MPART_DATA => fed ++ d | _ => fed end) (apk_sign_ctx_mpart_cb trust verify_alg verify_digest s part d).
Proof.
  intros Halg Hs. unfold apk_sign_ctx_mpart_cb.
  destruct (sc_end_seen s || sc_data_verified s) eqn:Eend; [by apply cb_fail|].
  assert (Hs' : opening a fed s \/ checked a fed s).
  { destruct Hs as [|[|[]]]; auto. by rewrite fi_end0 in Eend. }
  destruct (mpart_eqb part APK_MPART_BOUNDARY && sc_data_started s) eqn:Eb; [by apply cb_fail|].
  destruct part; cbn [mpart_eqb].
  { by apply mpart_data_ok. }
  - cbn [mpart_eqb andb] in Eb. destruct (negb (zlen d =? 0)); [by apply cb_fail|].
    destruct Hs' as [Ho|[]]; [|by rewrite ck_ds0 in Eb].
    destruct (sc_control_started s) eqn:Ecs; cbn [negb]; [|by apply signatures_end_ok].
    rewrite Eb. cbn [negb andb]. change (sc_has_data_checksum (set_data_started true s)) with (sc_has_data_checksum s).
    destruct (sc_has_data_checksum s) eqn:Ehas; cbn [negb andb].
    2:{ split; [done|]. intros _. left. destruct Ho. constructor; try done. cbn. by rewrite Ehas. }
    apply (control_end_ok a fed s APK_MPART_BOUNDARY); auto.
  - destruct (negb (zlen d =? 0)); [by apply cb_fail|]. cbn [set_end_seen sc_control_started sc_data_started].
    destruct (sc_control_started s) eqn:Ecs; cbn [negb]; [|by apply cb_fail].
    rewrite andb_false_r. cbn [negb]. change (sc_has_data_checksum (set_data_started true (set_end_seen true s))) with (sc_has_data_checksum s).
    rewrite negb_involutive. destruct Hs' as [Ho|Hc].
    + assert (Hno : sc_has_data_checksum s && sc_data_started s = false).
      { destruct (sc_has_data_checksum s) eqn:Eh; [|done]. by destruct (op_has _ _ _ Ho Eh) as (-> & _). }
      rewrite Hno. apply (control_end_ok a fed s APK_MPART_END); auto.
    + rewrite (ck_has _ _ _ Hc), (ck_ds _ _ _ Hc). cbn [andb]. by apply (data_end_ok a fed s).
Qed.

(** ** The callback of the archive reader *)

(** Changes of the context that keep the phases. *)
Definition ctx_keeps (a : sign_action) s s' : Prop := (forall fed, v2_ok a fed s -> v2_ok a fed s') /\ sc_end_seen s' = sc_end_seen s.

Lemma keeps_opening a s s' :
  sc_data_started s = false -> sc_end_seen s' = sc_end_seen s -> (forall fed, opening a fed s -> opening a fed s') -> ctx_keeps a s s'.
Proof. intros Hds He Ho. split; [|done]. intros fed [H|[[]|[]]]; [left; auto|congruence|congruence]. Qed.

Lemma keeps_control a s : sc_data_started s = false -> ctx_keeps a s (set_control_started true s).
Proof.
  intros Hds. apply keeps_opening; [done|done|]. intros fed []. constructor; try done. cbn. intros Hh.
  by destruct (op_has0 Hh) as (? & _ & ? & ?).
Qed.
Lemma keeps_data a s :
  sc_data_started s = false -> sc_has_data_checksum s = false -> ctx_keeps a s (set_control_started true (set_data_started true s)).
Proof. intros Hds Hh. apply keeps_opening; [done|done|]. intros fed []. constructor; try done. cbn. by rewrite Hh. Qed.
Lemma keeps_num a s v : ctx_keeps a s (set_num_signatures v s).
Proof. split; [|done]. intros fed [[]|[[]|[]]]; [left|right; left|right; right]; by constructor. Qed.
Lemma keeps_sig a s v : ctx_keeps a s (set_sig_data v s).
Proof. split; [|done]. intros fed [[]|[[]|[]]]; [left|right; left|right; right]; by constructor. Qed.
Lemma keeps_pkey a s name k alg :
  sc_data_started s = false -> sc_control_started s = false -> sc_pkey s = None -> sc_action s <> APK_SIGN_VERIFY_IDENTITY ->
  apk_trust_key_by_name trust name = Some k -> ctx_keeps a s (set_pkey (Some k) (set_alg alg s)).
Proof.
  intros Hds Hcs Hk Ha Hname. apply keeps_opening; [done|done|]. intros fed []. constructor; cbn; try done.
  - intros Hh. destruct (op_has0 Hh) as (_ & ? & _). congruence.
  - congruence.
  - intros k' [= <-]. eauto.
  - intros key Hkey. destruct (op_key0 key Hkey) as (k' & ? & _). congruence.
Qed.
Lemma keeps_hash a s value b data :
  sc_data_started s = false -> sc_control_started s = true -> D value ->
  apk_blob_pull_hexdump (Some value) (apk_digest_blob (apk_digest_set (sc_data_hash s) APK_DIGEST_SHA256)) = Some (b, data) ->
  ctx_keeps a s (set_data_hash (Digest APK_DIGEST_SHA256 (apk_digest_alg_len APK_DIGEST_SHA256) (overwrite (d_data (sc_data_hash s)) data))
    (set_alg APK_DIGEST_SHA256 (set_has_data_checksum true s))).
Proof.
  intros Hds Hcs HD Hpull. apply keeps_opening; [done|done|]. intros fed []. constructor; cbn; try done. intros _. split_and!; try done.
  by exists value, (sc_data_hash s), b, data.
Qed.

(** The invariant of the context for the decompressor: the end is only seen at the end of the file. *)
Definition v2_inv (a : sign_action) (fed : bytes) s : Prop := v2_ok a fed s /\ (sc_end_seen s = true -> fed = file).

Lemma keeps_inv a fed s s' : ctx_keeps a s s' -> v2_inv a fed s -> v2_inv a fed s'.
Proof. intros [Hk He] [Hv Hf]. split; [auto|]. by rewrite He. Qed.

Lemma cb_end_seen s part d : part <> APK_MPART_END -> sc_end_seen (apk_sign_ctx_mpart_cb trust verify_alg verify_digest s part d).2 = sc_end_seen s.
Proof.
  intros Hp. unfold apk_sign_ctx_mpart_cb, mpart_data, mpart_signatures_end, mpart_data_end, mpart_signature, mpart_identity, mpart_verified.
  destruct part; [| |done]; repeat first [progress cbn [mpart_eqb fst snd] | case_match]; simplify_eq; try done.
Qed.

Lemma v2_mpart_inv a :
  (a = APK_SIGN_VERIFY_IDENTITY -> verify_alg <> APK_DIGEST_NONE) ->
  MpartInv (apk_sign_ctx_mpart_cb trust verify_alg verify_digest) file (v2_inv a).
Proof.
  intros Halg.
  assert (Hstep : forall fed s part d s', part <> APK_MPART_END -> v2_inv a fed s ->
    apk_sign_ctx_mpart_cb trust verify_alg verify_digest s part d = (0, s') ->
    v2_inv a (match part with APK_MPART_DATA => fed ++ d | _ => fed end) s').
  { intros fed s part d s' Hp [Hv Hf] Hcb. pose proof (cb_end_seen s part d Hp) as He. pose proof (mpart_cb_ok a fed s part d Halg Hv) as [_ Hok].
    rewrite Hcb in He, Hok. split; [by apply Hok|]. cbn in He. rewrite He. intros Hend. exfalso. revert Hcb.
    unfold apk_sign_ctx_mpart_cb. by rewrite Hend. }
  constructor.
  - intros fed s part d [Hv _]. by destruct (mpart_cb_ok a fed s part d Halg Hv).
  - intros fed s d s' Hi Hcb. by apply (Hstep fed s APK_MPART_DATA d).
  - intros fed s s' Hi Hcb. by apply (Hstep fed s APK_MPART_BOUNDARY []).
  - intros s s' [Hv _] Hcb. split; [|done]. pose proof (mpart_cb_ok a file s APK_MPART_END [] Halg Hv) as [_ Hok].
    rewrite Hcb in Hok. by apply Hok.
Qed.
End authentic.

Section mono.
Context {pkey : Type} `{!Crypto pkey, !CryptoCtx pkey} (trust : apk_trust pkey) (verify_alg : Z) (verify_digest : blob) (file : bytes).
Context (D D' : bytes -> Prop) (HD : forall v, D v -> D' v).

Lemma announced_mono hash : announced D hash -> announced D' hash.
Proof. intros (v & prev & b & data & Hv & H1 & H2). exists v, prev, b, data. auto. Qed.

Lemma authentic_mono a f : authentic trust verify_alg verify_digest D a f -> authentic trust verify_alg verify_digest D' a f.
Proof.
  intros (pre & control & rest & H1 & H2 & H3). exists pre, control, rest. split_and!; try done.
  destruct H3 as [|(hash & H3 & H4)]; [by left|]. right. exists hash. split; [by apply announced_mono|done].
Qed.

Lemma v2_inv_mono a fed s : v2_inv trust verify_alg verify_digest file D a fed s -> v2_inv trust verify_alg verify_digest file D' a fed s.
Proof.
  intros [Hv Hf]. split; [|done]. destruct Hv as [[]|[[]|[]]]; [left|right; left|right; right]; constructor; auto using announced_mono, authentic_mono.
  intros Hh. destruct (op_has0 Hh) as (? & ? & ? & ?). auto using announced_mono.
Qed.
End mono.

(** ** Clients *)

Section extract.
Context {pkey : Type} `{!Crypto pkey, !CryptoCtx pkey, !CryptoCtxOk pkey} {zs : Type} `{ZlibOk zs}.
Context (trust : apk_trust pkey) (verify_alg : Z) (verify_digest : blob) (turns : nat) {X : Type}.
Hypothesis untrusted_refused : allow_untrusted trust = false.
Abbreviation v2_source := (@v2_source pkey unit zs).
Abbreviation v2_file := (@v2_file pkey unit zs).
#[local] Instance source_read : IstreamOps v2_source := v2_read trust verify_alg verify_digest turns.

(** What the functions of a client do with a file: they read it in any way, and pass lines to
    apk_extract_v2_control; [D] holds of the values of datahash lines. *)
Inductive v2_client (D : bytes -> Prop) : v2_file -> v2_file -> Prop :=
  | vc_done sg : v2_client D sg sg
  | vc_stream sg sg1 sg' : client sg sg1 -> v2_client D sg1 sg' -> v2_client D sg sg'
  | vc_control sg l v sg1 sg' :
      apk_extract_v2_control sg l v = Some sg1 -> (apk_blob_compare (Some (bs "datahash")) (Some l) = 0 -> D v) ->
      v2_client D sg1 sg' -> v2_client D sg sg'.

(** The values of datahash lines that a client has passed on, in a state of it. *)
Class ExtractClient (ops : extract_ops (X := X)) (passed : X -> bytes -> Prop) : Prop := {
  ec_v2index f desc x sg r x' sg' : op_v2index ops = Some f -> f x desc sg = Some (r, x', sg') ->
    (forall v, passed x v -> passed x' v) /\ v2_client (passed x') sg sg';
  ec_v2meta f x sg r x' sg' : op_v2meta ops = Some f -> f x sg = Some (r, x', sg') ->
    (forall v, passed x v -> passed x' v) /\ v2_client (passed x') sg sg';
  ec_script f type size x sg r x' sg' : op_script ops = Some f -> f x type size sg = Some (r, x', sg') ->
    (forall v, passed x v -> passed x' v) /\ v2_client (passed x') sg sg';
  ec_file f fi x sg r x' sg' : op_file ops = Some f -> f x fi sg = Some (r, x', sg') ->
    (forall v, passed x v -> passed x' v) /\ v2_client (passed x') sg sg'
}.

Context (file : bytes) (Hfile : zlen file < 2 ^ 64) (a : sign_action).
Hypothesis identity_alg : a = APK_SIGN_VERIFY_IDENTITY -> verify_alg <> APK_DIGEST_NONE.
Context (n : Z).

Definition source_inv (D : bytes -> Prop) : v2_source -> Z -> Prop := gz_ok file (v2_inv trust verify_alg verify_digest file D a).
Definition file_inv (D : bytes -> Prop) : v2_file -> Prop := src_inv (seg_src_inv (source_inv D) n) n.

#[local] Instance source_inv_ok D : SourceInv (source_inv D).
Proof.
  pose proof (v2_mpart_inv trust verify_alg verify_digest file D untrusted_refused a identity_alg).
  by apply gz_source_inv.
Qed.

Lemma set_ctx_inv D s sg :
  file_inv D sg -> ctx_keeps trust verify_alg verify_digest D a (file_sctx sg) s -> file_inv D (set_file_sctx s sg).
Proof.
  intros (Hp & Hb & ((Hp2 & Hb2 & Hok) & Hl)) Hk. split; [exact Hp|]. split; [exact Hb|]. split; [|exact Hl].
  split; [exact Hp2|]. split; [exact Hb2|]. apply gz_ok_ctx; [exact Hok|]. intros fed. by apply keeps_inv.
Qed.

Lemma file_inv_mono (D D' : bytes -> Prop) sg : (forall v, D v -> D' v) -> file_inv D sg -> file_inv D' sg.
Proof.
  intros HD (Hp & Hb & ((Hp2 & Hb2 & Hok) & Hl)). split; [exact Hp|]. split; [exact Hb|]. split; [|exact Hl].
  split; [exact Hp2|]. split; [exact Hb2|]. revert Hok. apply gz_ok_mono. intros fed s. by apply v2_inv_mono.
Qed.

Lemma control_inv D sg l v sg' :
  file_inv D sg -> apk_extract_v2_control sg l v = Some sg' -> (apk_blob_compare (Some (bs "datahash")) (Some l) = 0 -> D v) ->
  file_inv D sg'.
Proof.
  intros Hi. unfold apk_extract_v2_control. destruct (negb _ || _) eqn:E; [by intros [= <-]|].
  apply orb_false_iff in E as [E1 E2]. apply negb_false_iff in E1.
  destruct (Z.eqb_spec (apk_blob_compare (Some (bs "datahash")) (Some l)) 0); [|by intros [= <-]].
  destruct (apk_blob_pull_hexdump _ _) as [[b data]|] eqn:Ep; [|done]. cbn [mbind option_bind]. intros [= <-] HD.
  apply set_ctx_inv; [done|]. apply (keeps_hash trust verify_alg verify_digest D a (file_sctx sg) v b); auto.
Qed.

Lemma v2_client_inv D sg sg' : v2_client D sg sg' -> file_inv D sg -> file_inv D sg'.
Proof.
  induction 1 as [|sg sg1 sg' Hc _ IH|sg l v sg1 sg' Hc HD _ IH]; intros Hi; [done|apply IH..].
  - revert Hc Hi. apply client_inv. apply _.
  - by apply (control_inv D sg l v).
Qed.

Lemma blob_from_inv D sg size r b sg' :
  file_inv D sg -> 0 <= size -> apk_blob_from_istream sg size = Some (r, b, sg') -> file_inv D sg'.
Proof.
  intros Hi Hs. unfold apk_blob_from_istream. destruct (apk_istream_read sg size) as [[[r1 d] sg1]|] eqn:E; [|done].
  cbn [mbind option_bind]. apply (inv_read_op (seg_src_inv (source_inv D) n) n) in E; [|done|done].
  by destruct (r1 <? 0); intros [= _ _ <-].
Qed.

Lemma process_file_inv D fi sg r sg' :
  0 <= fi_size fi -> file_inv D sg -> apk_sign_ctx_process_file trust verify_alg verify_digest turns fi sg = Some (r, sg') -> file_inv D sg'.
Proof.
  intros Hsize Hi. unfold apk_sign_ctx_process_file. destruct (sc_data_started (file_sctx sg)) eqn:Eds; [by intros [= _ <-]|].
  destruct (_ || has_slash _).
  { destruct (sc_has_data_checksum (file_sctx sg)) eqn:Eh; [by intros [= _ <-]|].
    destruct (sc_action (file_sctx sg)); intros [= _ <-]; try done; by apply set_ctx_inv, keeps_data. }
  destruct (sc_control_started (file_sctx sg)) eqn:Ecs; [by intros [= _ <-]|].
  destruct (negb (apk_blob_starts_with _ _)); [intros [= _ <-]; by apply set_ctx_inv, keeps_control|].
  set (s := set_num_signatures _ (file_sctx sg)).
  assert (Hi1 : file_inv D (set_file_sctx s sg)) by (by apply set_ctx_inv, keeps_num).
  set (sg1 := set_file_sctx s sg) in *. cbv zeta.
  destruct (sc_pkey s) as [k|] eqn:Ek; [by intros [= _ <-]|].
  destruct (sc_action s) eqn:Ea; [|by intros [= _ <-]|]; (destruct (signature_name _ _) as [[alg key]|]; [|by intros [= _ <-]]);
    (destruct (65536 <? fi_size fi); [by intros [= _ <-]|]);
    (destruct (apk_trust_key_by_name trust key) as [k|] eqn:Ename; [|by intros [= _ <-]]);
    (destruct (apk_blob_from_istream _ _) as [[[r1 data] sg2]|] eqn:E; [|done]); cbn [mbind option_bind]; intros [= _ <-];
    (apply (blob_from_inv D) in E; [|apply set_ctx_inv; [done|]; apply (keeps_pkey _ _ _ D a s key); congruence || done|done]);
    by apply set_ctx_inv, keeps_sig.
Qed.

Context (ops : extract_ops (X := X)) (passed : X -> bytes -> Prop) `{!ExtractClient ops passed}.

Definition entry_inv (x : extract_state) : v2_file -> Prop := file_inv (passed (xs_client x)).

(** A function of the client. *)
Lemma client_run (res : option (Z * X * v2_file)) x p i d sg r x' sg' :
  entry_inv x sg ->
  (forall r c sg', res = Some (r, c, sg') -> (forall v, passed (xs_client x) v -> passed c v) /\ v2_client (passed c) sg sg') ->
  ('(r, c, sg) ← res; Some (r, ExtractState p i d c, sg)) = Some (r, x', sg') ->
  entry_inv x' sg'.
Proof.
  intros Hi Hres. destruct res as [[[r1 c] sg1]|]; [|done]. cbn. intros [= _ <- <-].
  destruct (Hres _ _ _ eq_refl) as [Hm Hc]. apply (v2_client_inv _ _ _ Hc). revert Hi. by apply file_inv_mono.
Qed.

Lemma entry_keeps x fi sg r x' sg' :
  0 <= fi_size fi -> entry_inv x sg ->
  apk_extract_v2_entry trust verify_alg verify_digest turns ops x fi sg = Some (r, x', sg') -> entry_inv x' sg'.
Proof.
  intros Hsize Hi. unfold apk_extract_v2_entry.
  destruct (apk_sign_ctx_process_file _ _ _ _ _ _) as [[r1 sg1]|] eqn:E; [|done]. cbn [mbind option_bind].
  apply (process_file_inv (passed (xs_client x))) in E; [|done|done]. clear Hi sg.
  destruct (r1 <=? 0); [by intros [= _ <- <-]|]. cbv zeta. destruct (negb (sc_control_started _)); [by intros [= _ <- <-]|].
  destruct (_ || _).
  - destruct (_ =? chr ".").
    + destruct (xs_is_index _); [by intros [= _ <- <-]|]. destruct (op_v2meta ops) as [f|] eqn:Ef; [|by intros [= _ <- <-]].
      destruct (_ =? 0); [apply (client_run _ x _ _ _ sg1); [done|]; intros ???; by apply (ec_v2meta _ _ _ _ _ _ Ef)|].
      destruct (_ =? 0); [by intros [= _ <- <-]|]. destruct (op_script ops) as [g|] eqn:Eg; [|by intros [= _ <- <-]].
      destruct (negb _); [|by intros [= _ <- <-]].
      apply (client_run _ x _ _ _ sg1); [done|]. intros ???. by apply (ec_script _ _ _ _ _ _ _ _ Eg).
    + destruct (xs_is_package _); [by intros [= _ <- <-]|]. destruct (op_v2index ops) as [f|] eqn:Ef; [|by intros [= _ <- <-]].
      destruct (_ && _).
      { destruct (apk_blob_from_istream _ _) as [[[r2 desc] sg2]|] eqn:Eb; [|done]. cbn. intros [= _ <- <-].
        by apply (blob_from_inv (passed (xs_client x))) in Eb. }
      destruct (_ =? 0); [|by intros [= _ <- <-]].
      apply (client_run _ x _ _ _ sg1); [done|]. intros ???. by apply (ec_v2index _ _ _ _ _ _ _ Ef).
  - destruct (negb _); [by intros [= _ <- <-]|]. destruct (op_file ops) as [f|] eqn:Ef; [|by intros [= _ <- <-]].
    destruct (_ =? chr "."); [by intros [= _ <- <-]|].
    apply (client_run _ x _ _ _ sg1); [done|]. intros ???. by apply (ec_file _ _ _ _ _ _ _ Ef).
Qed.
End extract.

Section accepted.
Context {pkey : Type} `{!Crypto pkey, !CryptoCtx pkey, !CryptoCtxOk pkey} {zs : Type} `{ZlibOk zs}.
Context (trust : apk_trust pkey) (verify_alg : Z) (verify_digest : blob) (turns : nat) {X : Type}.
#[local] Instance accepted_read : IstreamOps (@v2_source pkey unit zs) := source_read trust verify_alg verify_digest turns.

(** Reading lines and passing them on. *)
Lemma logging_client : ExtractClient trust verify_alg verify_digest turns (logging_ops (zs := zs) (S := unit) trust verify_alg verify_digest turns)
  (fun log v => v ∈ log).
Proof.
  assert (Hloop : forall fuel log sg log' sg', logging_loop trust verify_alg verify_digest turns fuel log sg = Some (log', sg') ->
    (forall v, v ∈ log -> v ∈ log') /\ v2_client trust verify_alg verify_digest turns (fun v => v ∈ log') sg sg').
  { induction fuel as [|fuel IH]; intros log sg log' sg'; [done|]. cbn [logging_loop].
    destruct (apk_istream_get_delim sg [10]) as [[[r k] sg1]|] eqn:E; [|done]. cbn [mbind option_bind].
    assert (Hc : client sg sg1).
    { apply (client_op _ (OGetDelim [10]) (r, k, sg1)); [done| |constructor]. exact E. }
    destruct (negb (r =? 0)); [intros [= <- <-]; split; [done|]; apply (vc_stream _ _ _ _ _ _ _ _ Hc); constructor|].
    destruct (apk_blob_split k (bs " = ")) as [[l v]|].
    2:{ intros Hl. apply IH in Hl as [H1 H2]. split; [done|]. by apply (vc_stream _ _ _ _ _ _ _ _ Hc). }
    destruct (apk_extract_v2_control sg1 l v) as [sg2|] eqn:Ec; [|done]. cbn [mbind option_bind]. intros Hl. apply IH in Hl as [H1 H2].
    split; [intros; apply H1; case_match; [by apply elem_of_app; left|done]|]. apply (vc_stream _ _ _ _ _ _ _ _ Hc). apply (vc_control _ _ _ _ _ _ l v sg2); [done| |done].
    intros Hcmp. apply H1. rewrite Hcmp. cbn. apply elem_of_app. right. by apply list_elem_of_singleton. }
  constructor; try done.
  - intros f x sg r x' sg' [= <-]. destruct (logging_loop _ _ _ _ _ _ _) as [[log sg1]|] eqn:E; [|done]. cbn. intros [= _ <- <-].
    by apply (Hloop _ _ _ _ _ E).
  - intros f fi x sg r x' sg' [= <-] [= _ <- <-]. split; [done|constructor].
Qed.

Lemma v2_result_0 r (e : extract_state (X := X)) s :
  allow_untrusted trust = false -> v2_result trust r e s = 0 ->
  r = 0 /\ sc_data_verified s = true /\ sc_end_seen s = true /\ sc_verify_error s = 0.
Proof.
  unfold v2_result. intros ->. rewrite andb_false_r. cbv zeta. set (r1 := if _ && negb (xs_is_index e) then _ else r).
  assert (Hr1 : r1 = 0 -> r = 0) by (subst r1; case_match; [by vm_compute|done]). clearbody r1.
  destruct (Z.eqb_spec r1 0) as [->|Hne]; cbn [andb].
  - specialize (Hr1 eq_refl). destruct (sc_data_verified s), (sc_end_seen s); cbn; try (by vm_compute).
    by destruct (Z.eqb_spec (sc_verify_error s) 0).
  - destruct (Z.eqb_spec r1 0); [done|]. cbn [orb]. destruct (r1 =? - ECANCELED); cbn [andb]; [|done].
    by destruct (Z.eqb_spec (sc_verify_error s) 0).
Qed.

(** C7: An accepted package, whatever it is read for: everything in the file is covered. *)
Theorem apk_extract_v2_authentic (file : bytes) (bufsize : Z) (fuel : nat) (generate : option apk_digest)
  (ops : extract_ops (X := X)) (passed : X -> bytes -> Prop) sort idc junk (x x' : X) (id : apk_digest) :
  ExtractClient trust verify_alg verify_digest turns ops passed -> allow_untrusted trust = false ->
  zlen file < 2 ^ 64 -> 0 < bufsize ->
  apk_extract_v2 trust verify_alg verify_digest turns ops sort idc junk fuel bufsize (apk_istream_from_blob file) generate x = Some (0, x', id) ->
  authentic trust verify_alg verify_digest (passed x') (v2_action verify_alg (match generate with Some _ => true | None => false end)) file.
Proof.
  intros Hops Huntr Hfile Hbuf. unfold apk_extract_v2. set (a := v2_action _ _).
  assert (Halg : a = APK_SIGN_VERIFY_IDENTITY -> verify_alg <> APK_DIGEST_NONE).
  { subst a. unfold v2_action. destruct generate; [done|]. by destruct (Z.eqb_spec verify_alg APK_DIGEST_NONE). }
  destruct (apk_istream_zlib _ _ _ _) as [gis|] eqn:Ez; [|done].
  destruct (apk_tar_parse _ _ _ _ _ _ _) as [[[r e] gis']|] eqn:Et; [|done]. cbn [mbind option_bind]. intros [= Hr <- _].
  pose proof (fun x => source_inv_ok trust verify_alg verify_digest turns Huntr file Hfile a Halg (passed (xs_client x))) as HQ.
  apply (apk_tar_parse_inv (fun x => source_inv trust verify_alg verify_digest file a (passed (xs_client x))) bufsize) in Et as [(_ & _ & Hok) Hrr].
  - apply v2_result_0 in Hr as (-> & Hdv & Hend & _); [|done]. destruct (Z.ltb_spec (is_err gis') 0) as [He|He]; [lia|].
    apply gz_ok_fed in Hok as [fed [Hv Hf]]; [|done]. rewrite <- (Hf Hend). destruct Hv as [Ho|[Hc|Hc]].
    + by destruct (eq_true_false_abs _ Hdv (op_dv _ _ _ _ _ Ho)).
    + by destruct (eq_true_false_abs _ Hdv (ck_dv _ _ _ _ _ _ _ Hc)).
    + by apply (fi_authentic _ _ _ _ _ _ _ Hc).
  - intros c fi sg r' c' sg' Hs Hi Hp. by apply (entry_keeps trust verify_alg verify_digest turns Huntr file Hfile a Halg bufsize ops passed c fi sg r').
  - unfold apk_istream_zlib in Ez. destruct (inflateInit2 _) as [z|]; [|done]. injection Ez as <-.
    assert (Hz : zlen (replicate (Z.to_nat bufsize) 0) = bufsize) by (unfold zlen; rewrite length_replicate; lia).
    split; [done|]. split; [split; [done|exact Hz]|]. apply gz_start. split; [apply v2_start|done].
Qed.
End accepted.

#[export] Instance toy_crypto_ctx_ok : CryptoCtxOk Z.
Proof. done. Qed.

(** A signed package that is in memory. *)
Lemma apk_extract_v2_authentic_witness :
  authentic (toy_store false) APK_DIGEST_NONE None (fun v => v ∈ [toy_hex (replicate 32 (toy_sum toy_data_gz))]) APK_SIGN_VERIFY toy_package.
Proof.
  apply (apk_extract_v2_authentic (toy_store false) APK_DIGEST_NONE None 1000 toy_package 4096 100 None
    (logging_ops (zs := toy_zs) (toy_store false) APK_DIGEST_NONE None 1000) (fun log v => v ∈ log) id no_ids 0 []
    [toy_hex (replicate 32 (toy_sum toy_data_gz))] digest_zero).
  - apply logging_client.
  - reflexivity.
  - vm_compute. reflexivity.
  - lia.
  - vm_compute. reflexivity.
Defined.

(** A file that the kernel delivers in full buffers of [n] bytes. *)
Definition toy_fd (n : Z) : apk_istream fd_file := Istream (FdFile toy_package [] 0) (replicate (Z.to_nat n) 0) None 0 0.

(** A refill while bytes are pending: the digest of the control files is taken of bytes that were
    overwritten, so the signature of the same package is refused, depending on the size of the
    buffer. *)
Theorem gunzip_refill_breaks_signature :
  toy_extract (apk_istream_from_blob toy_package) = Some 0 /\ toy_extract (toy_fd 4096) = Some 0 /\
  toy_extract (toy_fd 1027) = Some (- APKE_SIGNATURE_INVALID).
Proof. by vm_compute. Qed.

(** The identity of a package depends on the size of the buffer. *)
Theorem identity_depends_on_buffer :
  exists id1 id2 log1 log2,
    toy_accept (apk_istream_from_blob toy_package) (Some digest_zero) = Some (0, log1, id1) /\
    toy_accept (toy_fd 1500) (Some digest_zero) = Some (0, log2, id2) /\
    ztake 1 (d_data id1) = [toy_sum toy_control_gz] /\ ztake 1 (d_data id2) <> [toy_sum toy_control_gz].
Proof. do 4 eexists. split; [vm_compute; reflexivity|]. split; [vm_compute; reflexivity|]. by split; vm_compute. Qed.
