(* ===== verification/Serialize.v ===== *)
(** Serialisers (apk_serialize.h, serialize.c, serialize_json.c, serialize_yaml.c, serialize_query.c): the interface
    through which databases and query results are written, and its implementations for text.

    The output stream collects what is written (results of writes are not looked at by the
    serialisers).  [None] is a failed assertion or an access outside of an array. *)
From Stdlib Require Import ZArith Lia Ascii String.
From stdpp Require Import base numbers list option.
From S2P Require Import Prelude Clib Blob Codec Dep Stream.

Definition EINVAL : Z := 22.
Definition APK_SERIALIZE_MAX_NESTING : Z := 32.

(** ** The interface *)

(** struct apk_serializer_ops, over the context of a serialiser; numeric is missing in some. *)
Record apk_serializer_ops (S : Type) := SerOps {
  so_start_object : S -> Z -> option (Z * S);
  so_start_array : S -> Z -> option (Z * S);
  so_end : S -> option (Z * S);
  so_comment : S -> blob -> option (Z * S);
  so_key : S -> blob -> option (Z * S);
  so_string : S -> blob -> bool -> option (Z * S);
  so_numeric : option (S -> Z -> Z -> option (Z * S))
}.
Arguments SerOps {S} _ _ _ _ _ _ _.
Arguments so_start_object {S} _ _ _.
Arguments so_start_array {S} _ _ _.
Arguments so_end {S} _ _.
Arguments so_comment {S} _ _ _.
Arguments so_key {S} _ _ _.
Arguments so_string {S} _ _ _ _.
Arguments so_numeric {S} _.

(** The calls of a client. *)
Inductive ser_event :=
  | SerObject (schema_id : Z) | SerArray (num : Z) | SerEnd | SerComment (b : blob) | SerKey (b : blob)
  | SerString (b : blob) (multiline : bool) | SerNumeric (val hint : Z).

Section client.
Context {S : Type} (ops : apk_serializer_ops S).

Definition apk_ser_start_schema (s : S) (schema_id : Z) : option (Z * S) := so_start_object ops s schema_id.
Definition apk_ser_start_object (s : S) : option (Z * S) := so_start_object ops s 0.
Definition apk_ser_start_array (s : S) (num : Z) : option (Z * S) := so_start_array ops s (s32 num).
Definition apk_ser_end (s : S) : option (Z * S) := so_end ops s.
Definition apk_ser_comment (s : S) (b : blob) : option (Z * S) := so_comment ops s b.
Definition apk_ser_key (s : S) (b : blob) : option (Z * S) := so_key ops s b.
Definition apk_ser_string_ml (s : S) (b : blob) (ml : bool) : option (Z * S) := so_string ops s b ml.
Definition apk_ser_string (s : S) (b : blob) : option (Z * S) := so_string ops s b false.
Definition apk_ser_numeric (s : S) (val hint : Z) : option (Z * S) := f ← so_numeric ops; f s val hint.

Definition ser_event_step (s : S) (e : ser_event) : option (Z * S) :=
  match e with
  | SerObject id => apk_ser_start_schema s id
  | SerArray num => apk_ser_start_array s num
  | SerEnd => apk_ser_end s
  | SerComment b => apk_ser_comment s b
  | SerKey b => apk_ser_key s b
  | SerString b ml => apk_ser_string_ml s b ml
  | SerNumeric v hint => apk_ser_numeric s v hint
  end.

(** A client that ignores the results, as the queries do. *)
Fixpoint ser_run (s : S) (es : list ser_event) : option S :=
  match es with
  | [] => Some s
  | e :: es => '(_, s) ← ser_event_step s e; ser_run s es
  end.
End client.

(** ** Arrays in the contexts *)

Definition cell_get {A} (l : list A) (i : Z) : option A := if i <? 0 then None else l !! Z.to_nat i.
Definition cell_set {A} (l : list A) (i : Z) (x : A) : option (list A) :=
  if (i <? 0) || (zlen l <=? i) then None else Some (<[Z.to_nat i := x]> l).

(** apk_ostream_write of the first [n] bytes of an array of blanks that ends in a zero byte. *)
Definition pad_write (pad : bytes) (n : Z) : option bytes :=
  if (n <? 0) || (zlen pad + 1 <? n) then None else Some (ztake n (pad ++ [0])).
Definition blanks32 : bytes := replicate 32 (chr " ").

(** ** JSON *)

Record serialize_json := Json {
  js_out : bytes; js_nest : Z; js_key_printed : bool; js_need_separator : bool; js_need_newline : bool; js_end : list Z
}.
Definition json_init : serialize_json := Json [] 0 false false false (replicate 32 0).

Definition js_write (b : bytes) (dt : serialize_json) : serialize_json :=
  Json (js_out dt ++ b) (js_nest dt) (js_key_printed dt) (js_need_separator dt) (js_need_newline dt) (js_end dt).
Definition js_flags (key_printed need_separator need_newline : bool) (dt : serialize_json) : serialize_json :=
  Json (js_out dt) (js_nest dt) key_printed need_separator need_newline (js_end dt).
Definition js_newline (dt : serialize_json) : serialize_json := js_flags (js_key_printed dt) (js_need_separator dt) true dt.

Definition ser_json_indent (dt : serialize_json) (item : bool) : option serialize_json :=
  dt ← (if js_key_printed dt then Some (js_write (bs " ") dt)
        else
          let dt := if item && js_need_separator dt then js_write (bs ",") dt else dt in
          if js_need_newline dt then
            if 34 <? 2 * js_nest dt then None
            else b ← pad_write (10 :: blanks32) (1 + 2 * js_nest dt); Some (js_write b dt)
          else Some (js_write (bs " ") dt));
  Some (js_flags false (js_need_separator dt) (js_need_newline dt) dt).

Definition ser_json_start_indent (dt : serialize_json) (start_brace end_brace : Z) : option serialize_json :=
  if negb (js_nest dt <? APK_SERIALIZE_MAX_NESTING) then None
  else
    let dt := js_write [start_brace] dt in
    ends ← cell_set (js_end dt) (js_nest dt + 1) end_brace;
    Some (Json (js_out dt) (js_nest dt + 1) (js_key_printed dt) false true ends).

Definition ser_json_start (dt : serialize_json) (start_brace end_brace : Z) : option (Z * serialize_json) :=
  dt ← (if negb (js_nest dt =? 0) then ser_json_indent dt true else Some dt);
  dt ← ser_json_start_indent dt start_brace end_brace;
  Some (0, dt).

Definition ser_json_start_object (dt : serialize_json) (schema_id : Z) : option (Z * serialize_json) :=
  ser_json_start dt (chr "{") (chr "}").
Definition ser_json_start_array (dt : serialize_json) (num : Z) : option (Z * serialize_json) :=
  ser_json_start dt (chr "[") (chr "]").

Definition ser_json_end (dt : serialize_json) : option (Z * serialize_json) :=
  let dt := js_newline dt in
  let dt := Json (js_out dt) (js_nest dt - 1) (js_key_printed dt) (js_need_separator dt) (js_need_newline dt) (js_end dt) in
  dt ← ser_json_indent dt false;
  brace ← cell_get (js_end dt) (js_nest dt + 1);
  let dt := js_write [brace] dt in
  ends ← cell_set (js_end dt) (js_nest dt + 1) 0;
  let dt := Json (js_out dt) (js_nest dt) (js_key_printed dt) true false ends in
  Some (0, if js_nest dt =? 0 then js_write [10] dt else dt).

Definition ser_json_comment (dt : serialize_json) (comment : blob) : option (Z * serialize_json) := Some (0, dt).

Definition ser_json_key (dt : serialize_json) (key : blob) : option (Z * serialize_json) :=
  dt ← ser_json_indent (js_newline dt) true;
  let dt := js_write ([34] ++ blob_data key ++ [34; chr ":"]) dt in
  Some (0, js_flags true true (js_need_newline dt) dt).

(** The second byte of an escape. *)
Definition json_escape (ch : Z) : option Z :=
  if ch =? 34 then Some 34
  else if ch =? 10 then Some (chr "n")
  else if ch =? 9 then Some (chr "t")
  else if ch =? 92 then Some 92
  else None.

(** The loop of ser_json_string: what it writes for the bytes from [i] on; [pending] is val[done..i]. *)
Fixpoint json_string_loop (pending val : bytes) : bytes :=
  match val with
  | [] => pending
  | ch :: val =>
      match json_escape ch with
      | None => json_string_loop (pending ++ [ch]) val
      | Some e => pending ++ [92; e] ++ json_string_loop [] val
      end
  end.

Definition ser_json_string (dt : serialize_json) (val : blob) (multiline : bool) : option (Z * serialize_json) :=
  dt ← ser_json_indent (js_newline dt) true;
  let dt := js_write ([34] ++ json_string_loop [] (blob_data val) ++ [34]) dt in
  Some (0, js_flags (js_key_printed dt) true (js_need_newline dt) dt).

Definition ser_json_numeric (dt : serialize_json) (val octal : Z) : option (Z * serialize_json) :=
  dt ← ser_json_indent (js_newline dt) true;
  let dt := js_write (uint_text val 10) dt in
  Some (0, js_flags (js_key_printed dt) true (js_need_newline dt) dt).

Definition apk_serializer_json : apk_serializer_ops serialize_json :=
  SerOps ser_json_start_object ser_json_start_array ser_json_end ser_json_comment ser_json_key ser_json_string
    (Some ser_json_numeric).

(** ** YAML *)

Definition F_ARRAY : Z := 1.

Record serialize_yaml := Yaml {
  ym_out : bytes; ym_nest : Z; ym_indent : Z; ym_line_started : bool; ym_key_printed : bool; ym_flags : list Z
}.
Definition yaml_init : serialize_yaml := Yaml [] 0 0 false false (replicate 32 0).

Definition ym_write (b : bytes) (dt : serialize_yaml) : serialize_yaml :=
  Yaml (ym_out dt ++ b) (ym_nest dt) (ym_indent dt) (ym_line_started dt) (ym_key_printed dt) (ym_flags dt).
Definition ym_line (started printed : bool) (dt : serialize_yaml) : serialize_yaml :=
  Yaml (ym_out dt) (ym_nest dt) (ym_indent dt) started printed (ym_flags dt).
Definition ym_shift (k : Z) (dt : serialize_yaml) : serialize_yaml :=
  Yaml (ym_out dt) (ym_nest dt) (ym_indent dt + k) (ym_line_started dt) (ym_key_printed dt) (ym_flags dt).

Definition ser_yaml_indent (dt : serialize_yaml) (item continue_line : bool) : option serialize_yaml :=
  dt ← (if negb (ym_line_started dt) then
          if 33 <? 2 * ym_indent dt then None
          else
            b ← pad_write blanks32 (2 * ym_indent dt);
            let dt := ym_write b dt in
            flags ← (if item then cell_get (ym_flags dt) (ym_nest dt) else Some 0);
            Some (if flags .& F_ARRAY =? 0 then dt else ym_write (bs "- ") dt)
        else Some (if ym_key_printed dt && continue_line then ym_write (bs " ") dt else dt));
  Some (ym_line true (ym_key_printed dt) dt).

Definition ser_yaml_start_indent (dt : serialize_yaml) (flags : Z) : option serialize_yaml :=
  if negb (ym_nest dt <? APK_SERIALIZE_MAX_NESTING) then None
  else
    let dt := if 0 <? ym_nest dt then ym_shift 1 dt else dt in
    fl ← cell_set (ym_flags dt) (ym_nest dt + 1) flags;
    Some (Yaml (ym_out dt) (ym_nest dt + 1) (ym_indent dt) (ym_line_started dt) (ym_key_printed dt) fl).

Definition ser_yaml_newline (dt : serialize_yaml) : serialize_yaml := ym_line false false (ym_write [10] dt).

(** printf of a number with %08X, %d and %#llo *)
Fixpoint hex_digits (n : nat) (v : Z) (acc : bytes) : bytes :=
  match n with
  | O => acc
  | S n => hex_digits n (v / 16) ((let d := v mod 16 in if d <? 10 then chr "0" + d else chr "A" + d - 10) :: acc)
  end.
Definition fmt_08X (v : Z) : bytes := hex_digits 8 v [].
Definition fmt_d (v : Z) : bytes := if v <? 0 then bs "-" ++ uint_text (- v) 10 else uint_text v 10.
Definition fmt_octal (v : Z) : bytes := if v =? 0 then bs "0" else bs "0" ++ uint_text v 8.

Definition ser_yaml_start_object (dt : serialize_yaml) (schema_id : Z) : option (Z * serialize_yaml) :=
  dt ← ser_yaml_indent dt true false;
  dt ← ser_yaml_start_indent dt 0;
  Some (0, if negb (schema_id =? 0) then ser_yaml_newline (ym_write (bs "#%SCHEMA: " ++ fmt_08X schema_id) dt) else dt).

Definition ser_yaml_start_array (dt : serialize_yaml) (num : Z) : option (Z * serialize_yaml) :=
  dt ← (if 0 <=? num then dt ← ser_yaml_indent dt true true; Some (ym_write (bs "# " ++ fmt_d num ++ bs " items") dt) else Some dt);
  dt ← ser_yaml_start_indent (ser_yaml_newline dt) F_ARRAY;
  Some (0, dt).

Definition ser_yaml_end (dt : serialize_yaml) : option (Z * serialize_yaml) :=
  dt ← (if ym_line_started dt then
          dt ← ser_yaml_indent dt false true; Some (ser_yaml_newline (ym_write (bs "# empty object") dt))
        else Some dt);
  let nest := ym_nest dt - 1 in
  let indent := if negb (nest =? 0) then ym_indent dt - 1 else ym_indent dt in
  Some (0, Yaml (ym_out dt) nest indent (ym_line_started dt) (ym_key_printed dt) (ym_flags dt)).

Definition ser_yaml_comment (dt : serialize_yaml) (comment : blob) : option (Z * serialize_yaml) :=
  dt ← ser_yaml_indent dt false true;
  Some (0, ser_yaml_newline (ym_write (bs "# " ++ blob_data comment) dt)).

Definition ser_yaml_key (dt : serialize_yaml) (key : blob) : option (Z * serialize_yaml) :=
  let dt := if ym_key_printed dt then ser_yaml_newline dt else dt in
  dt ← ser_yaml_indent dt true true;
  Some (0, ym_line (ym_line_started dt) true (ym_write (blob_data key ++ bs ":") dt)).

Inductive yaml_quote := QUOTE_NONE | QUOTE_SINGLE | QUOTE_BLOCK.

(** The loop of need_quoting. *)
Fixpoint need_quoting_loop (b : bytes) (prev : Z) (style : yaml_quote) : yaml_quote :=
  match b with
  | [] => style
  | c :: b =>
      if (c =? 13) || (c =? 10) || (c =? 39) then QUOTE_BLOCK
      else if c =? chr " " then need_quoting_loop b c (if prev =? chr ":" then QUOTE_SINGLE else style)
      else if c =? chr "#" then if prev =? chr " " then QUOTE_BLOCK else need_quoting_loop b c QUOTE_SINGLE
      else need_quoting_loop b c style
  end.

(** Indicator characters; strchr also finds the zero byte at the end. *)
Definition yaml_indicators : bytes := bs "-?:,[]{}#&*!|>'" ++ [34] ++ bs "%@`" ++ [0].

Definition need_quoting (b : bytes) (multiline : bool) : yaml_quote :=
  if zlen b =? 0 then QUOTE_NONE
  else if (80 <=? zlen b) || multiline then QUOTE_BLOCK
  else need_quoting_loop b 0 (if existsb (Z.eqb (List.hd 0 b)) yaml_indicators then QUOTE_SINGLE else QUOTE_NONE).

(** The lines of a block. *)
Fixpoint yaml_block (lines : list bytes) (dt : serialize_yaml) : option serialize_yaml :=
  match lines with
  | [] => Some dt
  | line :: lines => dt ← ser_yaml_indent dt false true; yaml_block lines (ser_yaml_newline (ym_write line dt))
  end.

Definition ser_yaml_string (dt : serialize_yaml) (scalar : blob) (multiline : bool) : option (Z * serialize_yaml) :=
  dt ← ser_yaml_indent dt true true;
  match need_quoting (blob_data scalar) multiline with
  | QUOTE_NONE => Some (0, ser_yaml_newline (ym_write (blob_data scalar) dt))
  | QUOTE_SINGLE => Some (0, ser_yaml_newline (ym_write ([39] ++ blob_data scalar ++ [39]) dt))
  | QUOTE_BLOCK =>
      let dt := ym_shift 1 (ser_yaml_newline (ym_write (bs "|") dt)) in
      dt ← yaml_block (apk_blob_foreach_token scalar [10]) dt;
      Some (0, ym_shift (-1) dt)
  end.

Definition ser_yaml_numeric (dt : serialize_yaml) (val hint : Z) : option (Z * serialize_yaml) :=
  dt ← ser_yaml_indent dt true true;
  Some (0, ser_yaml_newline (ym_write (if negb (hint =? 0) then fmt_octal val else uint_text val 10) dt)).

Definition apk_serializer_yaml : apk_serializer_ops serialize_yaml :=
  SerOps ser_yaml_start_object ser_yaml_start_array ser_yaml_end ser_yaml_comment ser_yaml_key ser_yaml_string
    (Some ser_yaml_numeric).

(** ** Fields of queries (query.c, apk_query.h) *)

Definition APK_Q_FIELD_QUERY : Z := 0.
Definition APK_Q_FIELD_ERROR : Z := 1.
Definition APK_Q_FIELD_PATH_TARGET : Z := 2.
Definition APK_Q_FIELD_OWNER : Z := 3.
Definition APK_Q_FIELD_PACKAGE : Z := 4.
Definition APK_Q_FIELD_NAME : Z := 5.
Definition APK_Q_FIELD_VERSION : Z := 6.
Definition APK_Q_FIELD_HASH : Z := 7.
Definition APK_Q_FIELD_DESCRIPTION : Z := 8.
Definition APK_Q_FIELD_ARCH : Z := 9.
Definition APK_Q_FIELD_LICENSE : Z := 10.
Definition APK_Q_FIELD_ORIGIN : Z := 11.
Definition APK_Q_FIELD_MAINTAINER : Z := 12.
Definition APK_Q_FIELD_URL : Z := 13.
Definition APK_Q_FIELD_COMMIT : Z := 14.
Definition APK_Q_FIELD_BUILD_TIME : Z := 15.
Definition APK_Q_FIELD_INSTALLED_SIZE : Z := 16.
Definition APK_Q_FIELD_FILE_SIZE : Z := 17.
Definition APK_Q_FIELD_PROVIDER_PRIORITY : Z := 18.
Definition APK_Q_FIELD_DEPENDS : Z := 19.
Definition APK_Q_FIELD_PROVIDES : Z := 20.
Definition APK_Q_FIELD_REPLACES : Z := 21.
Definition APK_Q_FIELD_INSTALL_IF : Z := 22.
Definition APK_Q_FIELD_RECOMMENDS : Z := 23.
Definition APK_Q_FIELD_LAYER : Z := 24.
Definition APK_Q_FIELD_TAGS : Z := 25.
Definition APK_Q_FIELD_CONTENTS : Z := 26.
Definition APK_Q_FIELD_TRIGGERS : Z := 27.
Definition APK_Q_FIELD_SCRIPTS : Z := 28.
Definition APK_Q_FIELD_REPLACES_PRIORITY : Z := 29.
Definition APK_Q_FIELD_STATUS : Z := 30.
Definition APK_Q_FIELD_REPOSITORIES : Z := 31.
Definition APK_Q_FIELD_DOWNLOAD_URL : Z := 32.
Definition APK_Q_FIELD_REV_DEPENDS : Z := 33.
Definition APK_Q_FIELD_REV_INSTALL_IF : Z := 34.
Definition APK_Q_NUM_FIELDS : Z := 35.

(** The fields in the order of DECLARE_FIELDS, with their keys and printable names. *)
Definition declare_fields : list (bytes * bytes) :=
  [(bs "query", bs "Query");
   (bs "error", bs "Error");
   (bs "path-target", bs "Path-Target");
   (bs "owner", bs "Owner");
   (bs "package", bs "Package");
   (bs "name", bs "Name");
   (bs "version", bs "Version");
   (bs "hash", bs "Hash");
   (bs "description", bs "Description");
   (bs "arch", bs "Arch");
   (bs "license", bs "License");
   (bs "origin", bs "Origin");
   (bs "maintainer", bs "Maintainer");
   (bs "url", bs "URL");
   (bs "commit", bs "Commit");
   (bs "build-time", bs "Build-Time");
   (bs "installed-size", bs "Installed-Size");
   (bs "file-size", bs "File-Size");
   (bs "provider-priority", bs "Provider-Priority");
   (bs "depends", bs "Depends");
   (bs "provides", bs "Provides");
   (bs "replaces", bs "Replaces");
   (bs "install-if", bs "Install-If");
   (bs "recommends", bs "Recommends");
   (bs "layer", bs "Layer");
   (bs "tags", bs "Tags");
   (bs "contents", bs "Contents");
   (bs "triggers", bs "Triggers");
   (bs "scripts", bs "Scripts");
   (bs "replaces-priority", bs "Replaces-Priority");
   (bs "status", bs "Status");
   (bs "repositories", bs "Repositories");
   (bs "download-url", bs "Download-URL");
   (bs "reverse-depends", bs "Reverse-Depends");
   (bs "reverse-install-if", bs "Reverse-Install-If")].

Definition apk_query_field (f : Z) : bytes := (znth ([], []) declare_fields f).1.

Fixpoint field_by_name (fields : list (bytes * bytes)) (k : blob) (i : Z) : Z :=
  match fields with
  | [] => -1
  | (key, _) :: fields => if apk_blob_compare (Some key) k =? 0 then i else field_by_name fields k (i + 1)
  end.
Definition apk_query_field_by_name (k : blob) : Z := field_by_name declare_fields k 0.

(** The key is compared by its text: every client passes keys of [apk_query_field]. *)
Definition apk_query_printable_field (key : bytes) : bytes :=
  match apk_query_field_by_name (Some key) with
  | -1 => key
  | f => ztake (zlen key) (znth ([], []) declare_fields f).2
  end.

(** ** Text for people *)

Definition F_OBJECT : Z := 1.
Definition F_INDENT : Z := 2.
Definition F_SPACE : Z := 4.
Definition S_NEW : Z := 0.
Definition S_KEY : Z := 1.
Definition S_SCALAR : Z := 2.

Record serialize_query := SerQ {
  sq_out : bytes; sq_nest : Z; sq_indent : Z; sq_x : Z; sq_state : Z; sq_multiline : bool; sq_first_seen : bool; sq_flags : list Z
}.
Definition query_init : serialize_query := SerQ [] 0 0 0 S_NEW false false (replicate 32 0).

(** apk_ostream_write_blob, which does not count in [x], and ser_q_write. *)
Definition sq_put (b : bytes) (dt : serialize_query) : serialize_query :=
  SerQ (sq_out dt ++ b) (sq_nest dt) (sq_indent dt) (sq_x dt) (sq_state dt) (sq_multiline dt) (sq_first_seen dt) (sq_flags dt).
Definition ser_q_write (b : bytes) (dt : serialize_query) : serialize_query :=
  SerQ (sq_out dt ++ b) (sq_nest dt) (sq_indent dt) (s32 (sq_x dt + zlen b)) (sq_state dt) (sq_multiline dt) (sq_first_seen dt) (sq_flags dt).
Definition sq_set (x state : Z) (multiline : bool) (dt : serialize_query) : serialize_query :=
  SerQ (sq_out dt) (sq_nest dt) (sq_indent dt) x state multiline (sq_first_seen dt) (sq_flags dt).
Definition sq_set_x (x : Z) (dt : serialize_query) : serialize_query := sq_set x (sq_state dt) (sq_multiline dt) dt.

Definition ser_q_start_indent (dt : serialize_query) (flags : Z) : option serialize_query :=
  if negb (sq_nest dt <? APK_SERIALIZE_MAX_NESTING) then None
  else
    let dt := if sq_nest dt =? 1 then
                let dt := if sq_first_seen dt then sq_set_x 0 (ser_q_write [10] dt) else dt in
                SerQ (sq_out dt) (sq_nest dt) (sq_indent dt) (sq_x dt) (sq_state dt) (sq_multiline dt) true (sq_flags dt)
              else dt in
    let indent := if negb (flags .& F_INDENT =? 0) then sq_indent dt + 1 else sq_indent dt in
    fl ← cell_set (sq_flags dt) (sq_nest dt + 1) flags;
    Some (SerQ (sq_out dt) (sq_nest dt + 1) indent (sq_x dt) (sq_state dt) false (sq_first_seen dt) fl).

Definition ser_q_start_object (dt : serialize_query) (schema_id : Z) : option (Z * serialize_query) :=
  dt ← ser_q_start_indent dt F_OBJECT; Some (0, dt).

Definition ser_q_start_array (dt : serialize_query) (num : Z) : option (Z * serialize_query) :=
  let flags := if sq_multiline dt then F_INDENT else if sq_state dt =? S_KEY then F_SPACE else 0 in
  dt ← ser_q_start_indent dt flags; Some (0, dt).

Definition ser_q_end (dt : serialize_query) : option (Z * serialize_query) :=
  flags ← cell_get (sq_flags dt) (sq_nest dt);
  let indent := if negb (flags .& F_INDENT =? 0) then sq_indent dt - 1 else sq_indent dt in
  let dt := SerQ (sq_out dt) (sq_nest dt - 1) indent (sq_x dt) (sq_state dt) (sq_multiline dt) (sq_first_seen dt) (sq_flags dt) in
  let dt := if negb (flags .& F_SPACE =? 0) || negb (sq_state dt =? S_NEW)
            then sq_set 0 S_NEW (sq_multiline dt) (sq_put [10] dt) else dt in
  Some (0, sq_set (sq_x dt) (sq_state dt) false dt).

Definition ser_q_comment (dt : serialize_query) (comment : blob) : option (Z * serialize_query) := Some (0, dt).

Definition ser_q_item (dt : serialize_query) : option serialize_query :=
  if sq_state dt =? S_KEY then Some (sq_put (bs " ") dt)
  else if sq_state dt =? S_SCALAR then
    flags ← cell_get (sq_flags dt) (sq_nest dt);
    Some (if negb (flags .& F_SPACE =? 0) then
            if sq_x dt <? 80 then ser_q_write (bs " ") dt else sq_set_x 2 (ser_q_write ([10] ++ bs "  ") dt)
          else sq_set_x 0 (ser_q_write [10] dt))
  else Some dt.

Definition ser_q_key (dt : serialize_query) (key : blob) : option (Z * serialize_query) :=
  dt ← ser_q_item dt;
  let key := blob_data key in
  let dt := ser_q_write (bs ":") (ser_q_write (apk_query_printable_field key) dt) in
  let multiline := bool_decide (key = apk_query_field APK_Q_FIELD_CONTENTS) || bool_decide (key = apk_query_field APK_Q_FIELD_REPOSITORIES) in
  let dt := sq_set (sq_x dt) S_KEY multiline dt in
  Some (0, if multiline then sq_set 0 S_NEW multiline (ser_q_write [10] dt) else dt).

Definition ser_q_string (dt : serialize_query) (val : blob) (multiline : bool) : option (Z * serialize_query) :=
  if multiline then
    let dt := if sq_state dt =? S_KEY then sq_put [10] dt else dt in
    let dt := foldl (fun dt line => ser_q_write [10] (ser_q_write line (ser_q_write (bs "  ") dt))) dt (apk_blob_foreach_token val [10]) in
    Some (0, sq_set 0 S_NEW (sq_multiline dt) dt)
  else
    dt ← ser_q_item dt;
    dt ← (if negb (sq_indent dt =? 0) then b ← pad_write blanks32 (sq_indent dt * 2); Some (ser_q_write b dt) else Some dt);
    let dt := ser_q_write (blob_data val) dt in
    Some (0, sq_set (sq_x dt) S_SCALAR (sq_multiline dt) dt).

Definition ser_q_numeric (dt : serialize_query) (val octal : Z) : option (Z * serialize_query) :=
  dt ← ser_q_item dt;
  let dt := ser_q_write (uint_text val 10) dt in
  Some (0, sq_set (sq_x dt) S_SCALAR (sq_multiline dt) dt).

Definition apk_serializer_query : apk_serializer_ops serialize_query :=
  SerOps ser_q_start_object ser_q_start_array ser_q_end ser_q_comment ser_q_key ser_q_string (Some ser_q_numeric).

(** ** Choosing a format *)

Inductive ser_format := FormatJson | FormatYaml | FormatDefault.

Definition apk_serializer_lookup (format : bytes) : Z + ser_format :=
  if strcmp format (bs "json") =? 0 then inr FormatJson
  else if strcmp format (bs "yaml") =? 0 then inr FormatYaml
  else if strcmp format (bs "default") =? 0 then inr FormatDefault
  else inl (- EINVAL).
