(* ===== verification/SerializeThm.v ===== *)
(** What the JSON serialiser writes (Serialize.v) is read back by a strict reader of JSON as the
    value that the calls describe. *)
From Stdlib Require Import ZArith Lia Ascii String.
From stdpp Require Import base numbers list option.
From S2P Require Import Prelude Clib Blob Codec Dep Stream Serialize.

(** ** Values *)

#[warnings="-register-all"]
Inductive jvalue := JString (s : bytes) | JNumber (v : Z) | JArray (l : list jvalue) | JObject (l : list (bytes * jvalue)).

(** The calls that describe a value; comments may come between the items. *)
Inductive emits : list ser_event -> jvalue -> Prop :=
  | em_string b ml : emits [SerString b ml] (JString (blob_data b))
  | em_numeric v hint : emits [SerNumeric v hint] (JNumber v)
  | em_array n es l : emits_items es l -> emits (SerArray n :: es ++ [SerEnd]) (JArray l)
  | em_object id es l : emits_members es l -> emits (SerObject id :: es ++ [SerEnd]) (JObject l)
with emits_items : list ser_event -> list jvalue -> Prop :=
  | ei_nil : emits_items [] []
  | ei_comment b es l : emits_items es l -> emits_items (SerComment b :: es) l
  | ei_cons es v es' l : emits es v -> emits_items es' l -> emits_items (es ++ es') (v :: l)
with emits_members : list ser_event -> list (bytes * jvalue) -> Prop :=
  | eo_nil : emits_members [] []
  | eo_comment b es l : emits_members es l -> emits_members (SerComment b :: es) l
  | eo_cons k es v es' l : emits es v -> emits_members es' l ->
      emits_members (SerKey k :: es ++ es') ((blob_data k, v) :: l).

Scheme emits_mut := Induction for emits Sort Prop
  with emits_items_mut := Induction for emits_items Sort Prop
  with emits_members_mut := Induction for emits_members Sort Prop.
Combined Scheme emits_all_mut from emits_mut, emits_items_mut, emits_members_mut.

(** ** A reader of JSON *)

Definition json_ws (c : Z) : bool := (c =? 32) || (c =? 9) || (c =? 10) || (c =? 13).
Fixpoint skip_ws (l : bytes) : bytes := match l with c :: l' => if json_ws c then skip_ws l' else l | [] => [] end.

Definition json_unescape (c : Z) : option Z :=
  if c =? 34 then Some 34 else if c =? 92 then Some 92 else if c =? 47 then Some 47
  else if c =? chr "n" then Some 10 else if c =? chr "t" then Some 9 else if c =? chr "r" then Some 13
  else if c =? chr "b" then Some 8 else if c =? chr "f" then Some 12 else None.

(** The rest of a string; control characters must be escaped. *)
Fixpoint json_string_body (l : bytes) : option (bytes * bytes) :=
  match l with
  | [] => None
  | c :: l =>
      if c =? 34 then Some ([], l)
      else if c =? 92 then
        match l with
        | [] => None
        | e :: l => ch ← json_unescape e; '(s, l) ← json_string_body l; Some (ch :: s, l)
        end
      else if c <? 32 then None
      else '(s, l) ← json_string_body l; Some (c :: s, l)
  end.

Definition json_digit (c : Z) : bool := (48 <=? c) && (c <=? 57).
Fixpoint json_digits (l : bytes) (v : Z) : Z * bytes :=
  match l with
  | c :: l' => if json_digit c then json_digits l' (v * 10 + (c - 48)) else (v, l)
  | [] => (v, [])
  end.
(** Numbers have no leading zeros. *)
Definition json_number (l : bytes) : option (jvalue * bytes) :=
  match l with
  | [] => None
  | c :: l' => if negb (json_digit c) then None
               else if c =? 48 then Some (JNumber 0, l')
               else let '(v, l) := json_digits l 0 in Some (JNumber v, l)
  end.

Fixpoint json_value (fuel : nat) (l : bytes) : option (jvalue * bytes) :=
  match fuel with
  | O => None
  | S fuel =>
      let l := skip_ws l in
      match l with
      | [] => None
      | c :: l' =>
          if c =? 34 then '(s, l) ← json_string_body l'; Some (JString s, l)
          else if c =? chr "[" then
            match skip_ws l' with
            | 93 :: l => Some (JArray [], l)
            | _ => '(vs, l) ← json_elements fuel l'; Some (JArray vs, l)
            end
          else if c =? chr "{" then
            match skip_ws l' with
            | 125 :: l => Some (JObject [], l)
            | _ => '(vs, l) ← json_members fuel l'; Some (JObject vs, l)
            end
          else json_number l
      end
  end
with json_elements (fuel : nat) (l : bytes) : option (list jvalue * bytes) :=
  match fuel with
  | O => None
  | S fuel =>
      '(v, l) ← json_value fuel l;
      match skip_ws l with
      | 44 :: l => '(vs, l) ← json_elements fuel l; Some (v :: vs, l)
      | 93 :: l => Some ([v], l)
      | _ => None
      end
  end
with json_members (fuel : nat) (l : bytes) : option (list (bytes * jvalue) * bytes) :=
  match fuel with
  | O => None
  | S fuel =>
      match skip_ws l with
      | 34 :: l =>
          '(k, l) ← json_string_body l;
          match skip_ws l with
          | 58 :: l =>
              '(v, l) ← json_value fuel l;
              match skip_ws l with
              | 44 :: l => '(vs, l) ← json_members fuel l; Some ((k, v) :: vs, l)
              | 125 :: l => Some ([(k, v)], l)
              | _ => None
              end
          | _ => None
          end
      | _ => None
      end
  end.

Definition json_document (l : bytes) : option jvalue :=
  '(v, l) ← json_value (2 * length l + 2) l; if skip_ws l is [] then Some v else None.

(** ** What can be written *)

Definition plain_byte (c : Z) : bool := (32 <=? c) && negb (c =? 34) && negb (c =? 92).
Definition string_byte (c : Z) : bool := (32 <=? c) || (c =? 10) || (c =? 9).

(** Strings without other control characters, keys that need no escapes, numbers of 64 bits. *)
Fixpoint json_ok (v : jvalue) : bool :=
  match v with
  | JString s => forallb string_byte s
  | JNumber v => (0 <=? v) && (v <? 2 ^ 64)
  | JArray l => forallb json_ok l
  | JObject l => forallb (fun kv => forallb plain_byte kv.1 && json_ok kv.2) l
  end.

Fixpoint json_depth (v : jvalue) : Z :=
  match v with
  | JString _ | JNumber _ => 0
  | JArray l => 1 + foldr (fun v d => Z.max (json_depth v) d) 0 l
  | JObject l => 1 + foldr (fun kv d => Z.max (json_depth kv.2) d) 0 l
  end.

(** ** Reading pieces *)

Definition all_ws (l : bytes) : Prop := Forall (fun c => json_ws c = true) l.
Definition no_digit (l : bytes) : Prop := match l with [] => True | c :: _ => json_digit c = false end.

Lemma skip_ws_app w l : all_ws w -> skip_ws (w ++ l) = skip_ws l.
Proof. induction 1 as [|c w Hc _ IH]; [done|]. cbn. by rewrite Hc. Qed.

Lemma skip_ws_char c l : json_ws c = false -> skip_ws (c :: l) = c :: l.
Proof. intros Hc. cbn. by rewrite Hc. Qed.

Lemma no_digit_app w l : all_ws w -> no_digit l -> no_digit (w ++ l).
Proof.
  destruct 1 as [|c w Hc _]; [done|]. intros _. cbn. unfold json_ws, json_digit in *.
  repeat match goal with |- context [?a <=? ?b] => destruct (Z.leb_spec a b) end; cbn; try done.
  repeat match goal with H : context [?a =? ?b] |- _ => destruct (Z.eqb_spec a b) end; done || lia.
Qed.

Lemma string_loop_body pending s rest :
  forallb string_byte s = true -> forallb plain_byte pending = true ->
  json_string_body (json_string_loop pending s ++ 34 :: rest) = Some (pending ++ s, rest).
Proof.
  assert (Hplain : forall p b t, forallb plain_byte p = true -> json_string_body b = Some (t, rest) ->
    json_string_body (p ++ b) = Some (p ++ t, rest)).
  { induction p as [|c p IH]; intros b t Hp Hb; [done|]. cbn in Hp. apply andb_prop in Hp as [Hc Hp].
    unfold plain_byte in Hc. apply andb_prop in Hc as [Hc H3]. apply andb_prop in Hc as [H1 H2].
    apply negb_true_iff in H2, H3. cbn [app json_string_body]. rewrite H2, H3. apply Z.leb_le in H1.
    destruct (Z.ltb_spec c 32); [lia|]. by rewrite (IH b t Hp Hb). }
  revert pending. induction s as [|ch s IH]; intros pending Hs Hp; cbn [json_string_loop].
  { rewrite app_nil_r. rewrite <- (app_nil_r pending) at 2. by apply Hplain. }
  cbn in Hs. apply andb_prop in Hs as [Hch Hs]. unfold json_escape.
  destruct (Z.eqb_spec ch 34) as [->|]; [rewrite <- !app_assoc; apply Hplain; [done|]; cbn; by rewrite IH|].
  destruct (Z.eqb_spec ch 10) as [->|]; [rewrite <- !app_assoc; apply Hplain; [done|]; cbn; by rewrite IH|].
  destruct (Z.eqb_spec ch 9) as [->|]; [rewrite <- !app_assoc; apply Hplain; [done|]; cbn; by rewrite IH|].
  destruct (Z.eqb_spec ch 92) as [->|]; [rewrite <- !app_assoc; apply Hplain; [done|]; cbn; by rewrite IH|].
  rewrite IH; [by rewrite <- app_assoc|done|]. rewrite forallb_app, Hp. cbn. rewrite andb_true_r.
  unfold plain_byte, string_byte in *. rewrite (proj2 (Z.eqb_neq ch 34)), (proj2 (Z.eqb_neq ch 92)) by done.
  rewrite (proj2 (Z.eqb_neq ch 10)), (proj2 (Z.eqb_neq ch 9)) in Hch by done. by rewrite !orb_false_r in Hch; rewrite Hch.
Qed.

Lemma plain_body k rest : forallb plain_byte k = true -> json_string_body (k ++ 34 :: rest) = Some (k, rest).
Proof.
  intros Hk. induction k as [|c k IH]; [done|]. cbn in Hk. apply andb_prop in Hk as [Hc Hk].
  unfold plain_byte in Hc. apply andb_prop in Hc as [Hc H3]. apply andb_prop in Hc as [H1 H2].
  apply negb_true_iff in H2, H3. cbn [app json_string_body]. rewrite H2, H3. apply Z.leb_le in H1.
  destruct (Z.ltb_spec c 32); [lia|]. by rewrite (IH Hk).
Qed.

(** Numbers *)
Lemma json_digits_stop rest v : no_digit rest -> json_digits rest v = (v, rest).
Proof. destruct rest; [done|]. cbn. by intros ->. Qed.

Lemma json_digits_push fuel value acc v :
  0 <= value < 2 ^ Z.of_nat fuel ->
  exists n, 0 <= n /\ json_digits (push_uint_digits fuel value 10 acc) v = json_digits acc (v * 10 ^ n + value).
Proof.
  revert value acc. induction fuel as [|fuel IH]; intros value acc Hv.
  { cbn in Hv. exists 0. split; [done|]. cbn [push_uint_digits]. f_equal. lia. }
  cbn [push_uint_digits]. destruct (Z.eqb_spec value 0) as [->|Hne]; [exists 0; split; [done|]; f_equal; lia|].
  rewrite Nat2Z.inj_succ, Z.pow_succ_r in Hv by lia.
  destruct (IH (value / 10) (xd_at (value mod 10) :: acc)) as (n & Hn & ->); [pose proof (Z.div_mod value 10); pose proof (Z.mod_pos_bound value 10); lia|].
  exists (n + 1). split; [lia|]. pose proof (Z.mod_pos_bound value 10). cbn [json_digits]. rewrite xd_decimal by lia.
  assert (Hd : json_digit (48 + value mod 10) = true) by (unfold json_digit; lia). rewrite Hd.
  f_equal. rewrite Z.pow_add_r by lia. pose proof (Z.div_mod value 10). lia.
Qed.

(** The first digit of a positive number. *)
Lemma push_digits_head fuel value acc :
  0 < value < 2 ^ Z.of_nat fuel -> exists d l, push_uint_digits fuel value 10 acc = xd_at d :: l /\ 0 < d < 10.
Proof.
  revert value acc. induction fuel as [|fuel IH]; intros value acc Hv; [cbn in Hv; lia|].
  cbn [push_uint_digits]. destruct (Z.eqb_spec value 0); [lia|]. rewrite Nat2Z.inj_succ, Z.pow_succ_r in Hv by lia.
  pose proof (Z.div_mod value 10). pose proof (Z.mod_pos_bound value 10).
  destruct (Z.eq_dec (value / 10) 0) as [E|E].
  - rewrite E. exists (value mod 10), acc. split; [by destruct fuel|lia].
  - apply IH. pose proof (Z.div_pos value 10). lia.
Qed.

Lemma json_number_text v rest :
  0 <= v < 2 ^ 64 -> no_digit rest -> json_number (uint_text v 10 ++ rest) = Some (JNumber v, rest).
Proof.
  intros Hv Hr. unfold uint_text. destruct (Z.eqb_spec v 0) as [->|Hne]; [done|].
  assert (Happ : forall fuel value acc, push_uint_digits fuel value 10 acc ++ rest = push_uint_digits fuel value 10 (acc ++ rest)).
  { induction fuel as [|fuel IH]; intros value acc; [done|]. cbn. destruct (value =? 0); [done|]. by rewrite IH. }
  rewrite Happ. cbn [app]. destruct (push_digits_head 64 v rest ltac:(lia)) as (d & l & E & Hd).
  destruct (json_digits_push 64 v rest 0 ltac:(lia)) as (n & _ & Hval). rewrite (json_digits_stop rest) in Hval by done.
  rewrite E in *. rewrite xd_decimal in * by lia. unfold json_number.
  assert (Hdig : json_digit (48 + d) = true) by (unfold json_digit; lia). rewrite Hdig. cbn [negb].
  destruct (Z.eqb_spec (48 + d) 48); [lia|]. by rewrite Hval.
Qed.

(** ** Writing pieces *)

(** A text that is read as a value, before anything that does not go on with digits. *)
Definition reads_value (v : jvalue) (body : bytes) : Prop := forall fuel w rest,
  (2 * length body + 1 <= fuel)%nat -> all_ws w -> no_digit rest -> json_value fuel (w ++ body ++ rest) = Some (v, rest).
Definition reads_elements (l : list jvalue) (body : bytes) : Prop := forall fuel w rest,
  (2 * length body + 2 <= fuel)%nat -> all_ws w -> json_elements fuel (body ++ w ++ 93 :: rest) = Some (l, rest).
Definition reads_members (l : list (bytes * jvalue)) (body : bytes) : Prop := forall fuel w rest,
  (2 * length body + 2 <= fuel)%nat -> all_ws w -> json_members fuel (body ++ w ++ 125 :: rest) = Some (l, rest).

(** The context between two calls inside of a container: the array of braces is there. *)
Definition js_ready (dt : serialize_json) : Prop := 0 <= js_nest dt /\ length (js_end dt) = 32%nat.

(** What a call leaves as it is: the braces of the containers that are open. *)
Definition js_same (dt dt' : serialize_json) : Prop :=
  js_nest dt' = js_nest dt /\ length (js_end dt') = length (js_end dt) /\
  forall i, 0 <= i <= js_nest dt -> cell_get (js_end dt') i = cell_get (js_end dt) i.

Lemma js_same_trans a b c : js_same a b -> js_same b c -> js_same a c.
Proof. intros (A1 & A2 & A3) (B1 & B2 & B3). split_and!; try congruence. intros i Hi. rewrite B3 by lia. by apply A3. Qed.

Lemma ws_pad n : 0 <= n <= 32 -> all_ws (ztake (1 + n) ((10 :: blanks32) ++ [0])).
Proof.
  intros Hn. assert (Hall : all_ws (10 :: blanks32)) by (by repeat constructor).
  rewrite ztake_app_le by (change (zlen (10 :: blanks32)) with 33; lia). by apply Forall_take.
Qed.

(** Separator and white space before an item, or before a closing brace. *)
Lemma json_indent_ok dt item :
  js_ready dt -> js_nest dt <= 16 ->
  exists w, all_ws w /\ ser_json_indent dt item =
    Some (js_flags false (js_need_separator dt) (js_need_newline dt)
            (js_write ((if negb (js_key_printed dt) && item && js_need_separator dt then [44] else []) ++ w) dt)).
Proof.
  intros [Hn Hl] Hd. unfold ser_json_indent. destruct (js_key_printed dt) eqn:Ek; cbn [negb andb].
  { exists (bs " "). split; [by repeat constructor|done]. }
  set (dt1 := if item && js_need_separator dt then _ else dt).
  assert (Hdt : dt1 = js_write (if item && js_need_separator dt then [44] else []) dt).
  { subst dt1. destruct (item && _); [done|]. unfold js_write. rewrite app_nil_r. by destruct dt. }
  assert (Hf : js_need_newline dt1 = js_need_newline dt /\ js_nest dt1 = js_nest dt /\ js_need_separator dt1 = js_need_separator dt).
  { rewrite Hdt. by destruct dt. }
  destruct Hf as (F1 & F2 & F3). rewrite F1, F2. destruct (js_need_newline dt) eqn:Enl.
  - destruct (Z.ltb_spec 34 (2 * js_nest dt)); [lia|]. unfold pad_write.
    destruct (Z.ltb_spec (1 + 2 * js_nest dt) 0); [lia|]. change (zlen (10 :: blanks32)) with 33.
    destruct (Z.ltb_spec (33 + 1) (1 + 2 * js_nest dt)); [lia|]. cbn [orb mbind option_bind].
    exists (ztake (1 + 2 * js_nest dt) ((10 :: blanks32) ++ [0])). split; [apply ws_pad; lia|].
    rewrite Hdt. unfold js_write, js_flags. cbn. by rewrite <- app_assoc, Enl.
  - exists (bs " "). split; [by repeat constructor|]. cbn [mbind option_bind]. rewrite Hdt. unfold js_write, js_flags. cbn. by rewrite <- app_assoc, Enl.
Qed.

(** One item: [sep] is the comma that the context asks for. *)
Definition js_sep (dt : serialize_json) : bytes := if negb (js_key_printed dt) && js_need_separator dt then [44] else [].

Definition wrote_item (dt dt' : serialize_json) (v : jvalue) : Prop :=
  js_same dt dt' /\ js_key_printed dt' = false /\ js_need_separator dt' = true /\
  exists w body, js_out dt' = js_out dt ++ js_sep dt ++ w ++ body /\ all_ws w /\ reads_value v body.

Lemma ready_same dt dt' : js_ready dt -> js_same dt dt' -> js_ready dt'.
Proof. intros [H1 H2] (S1 & S2 & _). split; [lia|congruence]. Qed.

(** Scalars *)
Lemma scalar_ok dt v text f :
  js_ready dt -> js_nest dt <= 16 -> reads_value v text ->
  (forall d, ser_json_indent (js_newline dt) true = Some d ->
     f dt = Some (0, let d := js_write text d in js_flags (js_key_printed d) true (js_need_newline d) d)) ->
  exists dt', f dt = Some (0, dt') /\ wrote_item dt dt' v.
Proof.
  intros Hr Hn Hv Hf. destruct (json_indent_ok (js_newline dt) true Hr Hn) as (w & Hw & E). eexists. split; [by apply Hf|].
  split; [split_and!; done|]. split; [done|]. split; [done|]. exists w, text. split; [|done].
  unfold js_sep. cbn. rewrite andb_true_r. by rewrite <- !app_assoc.
Qed.

Lemma string_text_reads s : forallb string_byte s = true -> reads_value (JString s) ([34] ++ json_string_loop [] s ++ [34]).
Proof.
  intros Hs fuel w rest Hf Hw Hr. destruct fuel as [|fuel]; [cbn in Hf; lia|]. cbn [json_value].
  rewrite skip_ws_app by done. rewrite <- !app_assoc. cbn [app]. rewrite skip_ws_char by done. cbn [Z.eqb].
  change (34 =? 34) with true. cbv iota. by rewrite string_loop_body.
Qed.

Lemma number_text_reads v : 0 <= v < 2 ^ 64 -> reads_value (JNumber v) (uint_text v 10).
Proof.
  intros Hv fuel w rest Hf Hw Hr. destruct fuel as [|fuel]; [lia|]. cbn [json_value]. rewrite skip_ws_app by done.
  pose proof (json_number_text v rest Hv Hr) as Hnum.
  destruct (uint_text v 10 ++ rest) as [|c l] eqn:E; [done|].
  assert (Hc : json_digit c = true) by (cbn in Hnum; destruct (json_digit c); [done|by cbn in Hnum]).
  assert (Hws : json_ws c = false).
  { unfold json_digit, json_ws in *. repeat match goal with |- context [?a =? ?b] => destruct (Z.eqb_spec a b) end; try done; subst; done. }
  rewrite skip_ws_char by done.
  destruct (Z.eqb_spec c 34) as [->|]; [done|]. destruct (Z.eqb_spec c (chr "[")) as [->|]; [done|].
  by destruct (Z.eqb_spec c (chr "{")) as [->|].
Qed.

(** *** Containers *)

Lemma cell_get_set {A} (l : list A) i x l' : cell_set l i x = Some l' -> cell_get l' i = Some x.
Proof.
  unfold cell_set, cell_get. destruct (Z.ltb_spec i 0); cbn; [done|]. destruct (Z.leb_spec (zlen l) i); [done|].
  intros [= <-]. apply list_lookup_insert_eq. unfold zlen in *. lia.
Qed.
Lemma cell_get_other {A} (l : list A) i j x l' : cell_set l i x = Some l' -> j <> i -> cell_get l' j = cell_get l j.
Proof.
  unfold cell_set, cell_get. destruct (Z.ltb_spec i 0); cbn; [done|]. destruct (_ <=? _); [done|]. intros [= <-] Hj.
  destruct (Z.ltb_spec j 0); [done|]. apply list_lookup_insert_ne. lia.
Qed.
Lemma cell_set_len {A} (l : list A) i x l' : cell_set l i x = Some l' -> length l' = length l.
Proof. unfold cell_set. destruct (_ || _); [done|]. intros [= <-]. apply length_insert. Qed.
Lemma cell_set_ok {A} (l : list A) i x : 0 <= i < zlen l -> exists l', cell_set l i x = Some l'.
Proof. intros Hi. unfold cell_set. destruct (Z.ltb_spec i 0); [lia|]. destruct (Z.leb_spec (zlen l) i); [lia|]. cbn. eauto. Qed.

(** The context just inside of a container that was opened in [dt]. *)
Record inside (dt d1 : serialize_json) (brace : Z) : Prop := {
  in_nest : js_nest d1 = js_nest dt + 1; in_len : length (js_end d1) = 32%nat; in_key : js_key_printed d1 = false;
  in_brace : cell_get (js_end d1) (js_nest d1) = Some brace;
  in_same : forall i, 0 <= i <= js_nest dt -> cell_get (js_end d1) i = cell_get (js_end dt) i
}.

Lemma json_start_ok dt a b :
  js_ready dt -> js_nest dt <= 16 -> (js_nest dt = 0 -> js_key_printed dt = false) ->
  exists d1 w, ser_json_start dt a b = Some (0, d1) /\ inside dt d1 b /\ js_need_separator d1 = false /\ all_ws w /\
    js_out d1 = js_out dt ++ (if js_nest dt =? 0 then [] else js_sep dt ++ w) ++ [a].
Proof.
  intros Hr Hn Hk. pose proof Hr as [H0 Hl]. unfold ser_json_start, ser_json_start_indent.
  assert (Hpre : exists d w, (if negb (js_nest dt =? 0) then ser_json_indent dt true else Some dt) = Some d /\ all_ws w /\
    js_out d = js_out dt ++ (if js_nest dt =? 0 then [] else js_sep dt ++ w) /\ js_nest d = js_nest dt /\ js_end d = js_end dt /\
    js_key_printed d = false).
  { destruct (Z.eqb_spec (js_nest dt) 0) as [E|E]; cbn [negb].
    - exists dt, []. rewrite app_nil_r. split_and!; try done; [constructor|auto].
    - destruct (json_indent_ok dt true Hr Hn) as (w & Hw & ->). eexists _, w. split; [done|]. split; [done|]. split_and!; try done.
      unfold js_sep. cbn. by rewrite andb_true_r. }
  destruct Hpre as (d & w & -> & Hw & Ho & E1 & E2 & E3). cbn [mbind option_bind]. rewrite E1.
  unfold APK_SERIALIZE_MAX_NESTING. destruct (Z.ltb_spec (js_nest dt) 32); [|lia]. cbn [negb].
  change (js_end (js_write [a] d)) with (js_end d). change (js_nest (js_write [a] d)) with (js_nest d). rewrite E1, E2.
  destruct (cell_set_ok (js_end dt) (js_nest dt + 1) b) as [l' El]; [unfold zlen; lia|]. rewrite El. cbn [mbind option_bind].
  eexists _, w. split; [done|]. split; [|split; [done|]; split; [done|]; cbn; by rewrite Ho, <- app_assoc].
  constructor; cbn; rewrite ?E3; try done.
  - by rewrite (cell_set_len _ _ _ _ El).
  - by apply (cell_get_set (js_end dt) _ _ _ El).
  - intros i Hi. apply (cell_get_other _ _ _ _ _ El). lia.
Qed.

Lemma json_end_ok dt d1 d2 brace :
  js_ready dt -> js_nest dt <= 16 -> inside dt d1 brace -> js_same d1 d2 -> js_key_printed d2 = false ->
  exists d3 w, ser_json_end d2 = Some (0, d3) /\ js_same dt d3 /\ js_key_printed d3 = false /\ js_need_separator d3 = true /\ all_ws w /\
    js_out d3 = js_out d2 ++ w ++ [brace] ++ (if js_nest dt =? 0 then [10] else []).
Proof.
  intros Hr Hn Hin (S1 & S2 & S3) Hk. pose proof Hin as [I1 I2 I3 I4 I5]. pose proof Hr as [H0 Hl]. unfold ser_json_end.
  set (d := Json _ (js_nest (js_newline d2) - 1) _ _ _ _).
  assert (Hd : js_nest d = js_nest dt) by (subst d; cbn; lia).
  destruct (json_indent_ok d false) as (w & Hw & E); [split; [lia|subst d; cbn; congruence]|lia|]. rewrite E. clear E.
  rewrite !andb_false_r. cbn [mbind option_bind app andb].
  set (d' := js_flags _ _ _ _). assert (Hd' : js_nest d' = js_nest dt /\ js_end d' = js_end d2) by (subst d'; cbn; subst d; by cbn).
  destruct Hd' as [D1 D2]. rewrite D1, D2. rewrite S3 by lia. rewrite I1 in I4. rewrite I4. cbn [mbind option_bind].
  change (js_end (js_write [brace] d')) with (js_end d'). change (js_nest (js_write [brace] d')) with (js_nest d'). rewrite D1, D2.
  destruct (cell_set_ok (js_end d2) (js_nest dt + 1) 0) as [l' El]; [unfold zlen; lia|]. rewrite El. cbn [mbind option_bind].
  eexists _, w. split; [done|]. cbn [js_nest].
  assert (Hs : forall out kp, js_same dt (Json out (js_nest dt) kp true false l')).
  { intros out kp. split_and!; cbn; [done|rewrite (cell_set_len _ _ _ _ El); congruence|]. intros i Hi.
    rewrite (cell_get_other _ _ _ _ _ El) by lia. rewrite S3 by lia. by apply I5. }
  destruct (js_nest dt =? 0); cbn; (split; [apply Hs|]); split_and!; try done; by rewrite <- ?app_assoc, ?app_nil_r.
Qed.

Lemma elements_not_empty fuel l r : json_elements fuel l = Some r -> forall t, skip_ws l <> 93 :: t.
Proof.
  destruct fuel as [|fuel]; [done|]. cbn [json_elements]. intros H t E. destruct fuel as [|fuel]; [done|].
  cbn [json_value] in H. by rewrite E in H.
Qed.
Lemma members_not_empty fuel l r : json_members fuel l = Some r -> forall t, skip_ws l <> 125 :: t.
Proof. destruct fuel as [|fuel]; [done|]. cbn [json_members]. intros H t E. by rewrite E in H. Qed.

(** The items of a container. *)
Definition wrote_items {A} (reads : list A -> bytes -> Prop) (dt dt' : serialize_json) (l : list A) : Prop :=
  js_same dt dt' /\ js_key_printed dt' = false /\
  match l with
  | [] => js_out dt' = js_out dt /\ js_need_separator dt' = js_need_separator dt
  | _ => js_need_separator dt' = true /\ exists body, js_out dt' = js_out dt ++ js_sep dt ++ body /\ reads l body
  end.

Lemma array_reads l body w :
  match l with [] => body = [] | _ => reads_elements l body end -> all_ws w -> reads_value (JArray l) ([91] ++ body ++ w ++ [93]).
Proof.
  intros Hb Hw fuel w0 rest Hf Hw0 Hr. autorewrite with list in Hf. cbn in Hf. destruct fuel as [|fuel]; [lia|]. cbn [json_value].
  rewrite skip_ws_app by done. rewrite <- !app_assoc. cbn [app]. rewrite skip_ws_char by done. change (91 =? 34) with false.
  change (91 =? chr "[") with true. cbv iota. destruct l as [|v l].
  - subst body. cbn [app]. rewrite skip_ws_app by done. by rewrite skip_ws_char.
  - pose proof (Hb fuel w rest ltac:(lia) Hw) as He. pose proof (elements_not_empty _ _ _ He) as Hne.
    rewrite He. cbn [mbind option_bind].
    destruct (skip_ws _) as [|c t] eqn:E; [done|]. destruct (Z.eq_dec c 93) as [->|Hc]; [by destruct (Hne t)|].
    repeat case_match; simplify_eq; try done; lia.
Qed.

Lemma object_reads l body w :
  match l with [] => body = [] | _ => reads_members l body end -> all_ws w -> reads_value (JObject l) ([123] ++ body ++ w ++ [125]).
Proof.
  intros Hb Hw fuel w0 rest Hf Hw0 Hr. autorewrite with list in Hf. cbn in Hf. destruct fuel as [|fuel]; [lia|]. cbn [json_value].
  rewrite skip_ws_app by done. rewrite <- !app_assoc. cbn [app]. rewrite skip_ws_char by done. change (123 =? 34) with false.
  change (123 =? chr "[") with false. change (123 =? chr "{") with true. cbv iota. destruct l as [|v l].
  - subst body. cbn [app]. rewrite skip_ws_app by done. by rewrite skip_ws_char.
  - pose proof (Hb fuel w rest ltac:(lia) Hw) as He. pose proof (members_not_empty _ _ _ He) as Hne.
    rewrite He. cbn [mbind option_bind].
    destruct (skip_ws _) as [|c t] eqn:E; [done|]. destruct (Z.eq_dec c 125) as [->|Hc]; [by destruct (Hne t)|].
    repeat case_match; simplify_eq; try done; lia.
Qed.

Lemma elements_cons v vb l body w :
  all_ws w -> reads_value v vb -> match l with [] => body = [] | _ => exists b, body = 44 :: b /\ reads_elements l b end ->
  reads_elements (v :: l) (w ++ vb ++ body).
Proof.
  intros Hw Hv Hl fuel w0 rest Hf Hw0. rewrite !length_app in Hf. destruct fuel as [|fuel]; [lia|]. cbn [json_elements].
  rewrite <- !app_assoc. rewrite Hv; [|lia|done|]; [|destruct l as [|v' l]; [subst body; cbn; by apply no_digit_app|by destruct Hl as (b & -> & _)]].
  cbn [mbind option_bind]. destruct l as [|v' l].
  - subst body. cbn [app]. rewrite skip_ws_app by done. by rewrite skip_ws_char.
  - destruct Hl as (b & -> & Hb). cbn [app]. rewrite skip_ws_char by done. cbn in Hf. rewrite Hb; [done|lia|done].
Qed.

Lemma members_cons k v wv vb l body w :
  all_ws w -> all_ws wv -> forallb plain_byte k = true -> reads_value v vb ->
  match l with [] => body = [] | _ => exists b, body = 44 :: b /\ reads_members l b end ->
  reads_members ((k, v) :: l) (w ++ ([34] ++ k ++ [34; 58]) ++ wv ++ vb ++ body).
Proof.
  intros Hw Hwv Hk Hv Hl fuel w0 rest Hf Hw0. rewrite !length_app in Hf. cbn in Hf. destruct fuel as [|fuel]; [lia|]. cbn [json_members].
  rewrite <- !app_assoc. rewrite skip_ws_app by done. cbn [app]. rewrite skip_ws_char by done.
  rewrite plain_body by done. cbn [mbind option_bind]. rewrite skip_ws_char by done.
  rewrite Hv; [|lia|done|]; [|destruct l as [|v' l]; [subst body; cbn; by apply no_digit_app|by destruct Hl as (b & -> & _)]].
  cbn [mbind option_bind]. destruct l as [|v' l].
  - subst body. cbn [app]. rewrite skip_ws_app by done. by rewrite skip_ws_char.
  - destruct Hl as (b & -> & Hb). cbn [app]. rewrite skip_ws_char by done. cbn in Hf. rewrite Hb; [done|lia|done].
Qed.

Lemma ser_run_app {S} (ops : apk_serializer_ops S) s es es' : ser_run ops s (es ++ es') = s ← ser_run ops s es; ser_run ops s es'.
Proof.
  revert s. induction es as [|e es IH]; intros s; [done|]. cbn [app ser_run].
  destruct (ser_event_step ops s e) as [[r s']|]; cbn [mbind option_bind]; [apply IH|done].
Qed.
Lemma ser_run_one {S} (ops : apk_serializer_ops S) s e r s' : ser_event_step ops s e = Some (r, s') -> ser_run ops s [e] = Some s'.
Proof. intros H. cbn [ser_run]. by rewrite H. Qed.

(** A container with its items, at the top or inside of another one. *)
Lemma container_ok {A} (reads : list A -> bytes -> Prop) dt a b e es l v :
  js_ready dt -> js_nest dt <= 15 -> (js_nest dt = 0 -> js_key_printed dt = false) ->
  ser_event_step apk_serializer_json dt e = ser_json_start dt a b ->
  (forall d1, js_ready d1 -> js_nest d1 = js_nest dt + 1 -> js_key_printed d1 = false ->
     exists d2, ser_run apk_serializer_json d1 es = Some d2 /\ wrote_items reads d1 d2 l) ->
  (forall body w, match l with [] => body = [] | _ => reads l body end -> all_ws w -> reads_value v ([a] ++ body ++ w ++ [b])) ->
  exists d3 w body, ser_run apk_serializer_json dt (e :: es ++ [SerEnd]) = Some d3 /\ js_same dt d3 /\ js_key_printed d3 = false /\
    js_need_separator d3 = true /\ all_ws w /\ reads_value v body /\
    js_out d3 = js_out dt ++ (if js_nest dt =? 0 then [] else js_sep dt ++ w) ++ body ++ (if js_nest dt =? 0 then [10] else []).
Proof.
  intros Hr Hn Hk He Hes Hv. destruct (json_start_ok dt a b Hr ltac:(lia) Hk) as (d1 & w & Hs & Hin & Hsep & Hw & Ho).
  pose proof Hin as [I1 I2 I3 I4 I5]. pose proof Hr as [H0 _].
  destruct (Hes d1) as (d2 & Hrun & Hsame & Hkp & Hitems); [split; [lia|done]|done|done|].
  destruct (json_end_ok dt d1 d2 b Hr ltac:(lia) Hin Hsame Hkp) as (d3 & w3 & Hend & Hs3 & Hk3 & Hn3 & Hw3 & Ho3).
  assert (Hbody : exists body, js_out d2 = js_out d1 ++ body /\ match l with [] => body = [] | _ => reads l body end).
  { destruct l as [|x l]; [exists []; rewrite app_nil_r; by destruct Hitems|]. destruct Hitems as (_ & body & E & Hb).
    exists body. split; [|done]. rewrite E. unfold js_sep. by rewrite I3, Hsep. }
  destruct Hbody as (body & Hob & Hb). exists d3, w, ([a] ++ body ++ w3 ++ [b]). split.
  { cbn [ser_run]. rewrite He, Hs. cbn [mbind option_bind]. rewrite ser_run_app, Hrun. cbn [mbind option_bind].
    apply (ser_run_one _ _ _ 0). exact Hend. }
  split_and!; try done; [by apply Hv|]. rewrite Ho3, Hob, Ho. by rewrite <- !app_assoc.
Qed.

Definition items_depth (l : list jvalue) : Z := foldr (fun v d => Z.max (json_depth v) d) 0 l.
Definition members_depth (l : list (bytes * jvalue)) : Z := foldr (fun kv d => Z.max (json_depth kv.2) d) 0 l.

Lemma items_depth_nonneg l : 0 <= items_depth l.
Proof. induction l as [|v l IH]; [done|]. unfold items_depth in *. cbn [foldr]. lia. Qed.
Lemma members_depth_nonneg l : 0 <= members_depth l.
Proof. induction l as [|v l IH]; [done|]. unfold members_depth in *. cbn [foldr]. lia. Qed.

(** An item, then the items after it. *)
Lemma items_cons {A} (reads : list A -> bytes -> Prop) dt d1 d2 x l text :
  js_same dt d1 -> js_key_printed d1 = false -> js_need_separator d1 = true -> js_out d1 = js_out dt ++ js_sep dt ++ text ->
  wrote_items reads d1 d2 l ->
  (forall body, match l with [] => body = [] | _ => exists b, body = 44 :: b /\ reads l b end -> reads (x :: l) (text ++ body)) ->
  wrote_items reads dt d2 (x :: l).
Proof.
  intros Hs Hk Hn Ho (Hs2 & Hk2 & Hl) Hreads. split; [by apply (js_same_trans dt d1)|]. split; [done|].
  destruct l as [|y l].
  - destruct Hl as [E1 E2]. split; [congruence|]. exists (text ++ []). split; [by rewrite E1, Ho, app_nil_r|by apply Hreads].
  - destruct Hl as (E1 & body & E2 & Hb). split; [done|]. exists (text ++ 44 :: body). split; [|apply Hreads; eauto].
    rewrite E2, Ho. unfold js_sep at 2. rewrite Hk, Hn. cbn. by rewrite <- !app_assoc.
Qed.

Lemma key_ok dt k :
  js_ready dt -> js_nest dt <= 16 -> js_key_printed dt = false ->
  exists d w, ser_json_key dt k = Some (0, d) /\ all_ws w /\ js_same dt d /\ js_key_printed d = true /\
    js_out d = js_out dt ++ js_sep dt ++ w ++ [34] ++ blob_data k ++ [34; 58].
Proof.
  intros Hr Hn Hk. unfold ser_json_key. destruct (json_indent_ok (js_newline dt) true Hr Hn) as (w & Hw & ->). cbn [mbind option_bind].
  eexists _, w. split; [done|]. split; [done|]. split; [by split_and!|]. split; [done|].
  unfold js_sep. cbn. rewrite andb_true_r. by rewrite <- !app_assoc.
Qed.

Lemma json_written :
  (forall es v, emits es v -> json_ok v = true -> forall dt, js_ready dt -> 1 <= js_nest dt -> js_nest dt + json_depth v <= 16 ->
     exists dt', ser_run apk_serializer_json dt es = Some dt' /\ wrote_item dt dt' v) /\
  (forall es l, emits_items es l -> forallb json_ok l = true -> forall dt, js_ready dt -> 1 <= js_nest dt -> js_nest dt + items_depth l <= 16 ->
     js_key_printed dt = false -> exists dt', ser_run apk_serializer_json dt es = Some dt' /\ wrote_items reads_elements dt dt' l) /\
  (forall es l, emits_members es l -> forallb (fun kv => forallb plain_byte kv.1 && json_ok kv.2) l = true -> forall dt, js_ready dt ->
     1 <= js_nest dt -> js_nest dt + members_depth l <= 16 -> js_key_printed dt = false ->
     exists dt', ser_run apk_serializer_json dt es = Some dt' /\ wrote_items reads_members dt dt' l).
Proof.
  apply (emits_all_mut
    (fun es v _ => json_ok v = true -> forall dt, js_ready dt -> 1 <= js_nest dt -> js_nest dt + json_depth v <= 16 ->
       exists dt', ser_run apk_serializer_json dt es = Some dt' /\ wrote_item dt dt' v)
    (fun es l _ => forallb json_ok l = true -> forall dt, js_ready dt -> 1 <= js_nest dt -> js_nest dt + items_depth l <= 16 ->
       js_key_printed dt = false -> exists dt', ser_run apk_serializer_json dt es = Some dt' /\ wrote_items reads_elements dt dt' l)
    (fun es l _ => forallb (fun kv => forallb plain_byte kv.1 && json_ok kv.2) l = true -> forall dt, js_ready dt -> 1 <= js_nest dt ->
       js_nest dt + members_depth l <= 16 -> js_key_printed dt = false ->
       exists dt', ser_run apk_serializer_json dt es = Some dt' /\ wrote_items reads_members dt dt' l)).
  - intros b ml Hok dt Hr H1 Hd. cbn in Hd, Hok.
    destruct (scalar_ok dt (JString (blob_data b)) _ (fun dt => ser_json_string dt b ml) Hr ltac:(lia) (string_text_reads _ Hok)) as (dt' & E & H).
    { intros d Ed. unfold ser_json_string. by rewrite Ed. }
    exists dt'. split; [|done]. by apply (ser_run_one _ _ _ 0).
  - intros v hint Hok dt Hr H1 Hd. cbn in Hd, Hok. apply andb_prop in Hok as [O1 O2]. apply Z.leb_le in O1. apply Z.ltb_lt in O2.
    destruct (scalar_ok dt (JNumber v) _ (fun dt => ser_json_numeric dt v hint) Hr ltac:(lia) (number_text_reads v (conj O1 O2))) as (dt' & E & H).
    { intros d Ed. unfold ser_json_numeric. by rewrite Ed. }
    exists dt'. split; [|done]. by apply (ser_run_one _ _ _ 0).
  - intros n es l _ IH Hok dt Hr H1 Hd. cbn in Hd, Hok. fold (items_depth l) in Hd. pose proof (items_depth_nonneg l).
    destruct (container_ok reads_elements dt 91 93 (SerArray n) es l (JArray l)) as (d3 & w & body & E & Hs & Hk & Hn & Hw & Hb & Ho);
      [done|lia|intros; lia|done| |by apply array_reads|].
    { intros d1 R1 N1 K1. apply IH; [done|done|lia|lia|done]. }
    exists d3. split; [done|]. split; [done|]. split; [done|]. split; [done|]. exists w, body. split; [|done].
    destruct (Z.eqb_spec (js_nest dt) 0); [lia|]. by rewrite Ho, app_nil_r, <- !app_assoc.
  - intros id es l _ IH Hok dt Hr H1 Hd. cbn in Hd, Hok. fold (members_depth l) in Hd. pose proof (members_depth_nonneg l).
    destruct (container_ok reads_members dt 123 125 (SerObject id) es l (JObject l)) as (d3 & w & body & E & Hs & Hk & Hn & Hw & Hb & Ho);
      [done|lia|intros; lia|done| |by apply object_reads|].
    { intros d1 R1 N1 K1. apply IH; [done|done|lia|lia|done]. }
    exists d3. split; [done|]. split; [done|]. split; [done|]. split; [done|]. exists w, body. split; [|done].
    destruct (Z.eqb_spec (js_nest dt) 0); [lia|]. by rewrite Ho, app_nil_r, <- !app_assoc.
  - intros _ dt Hr _ _ Hk. exists dt. split; [done|]. by split_and!.
  - intros b es l _ IH Hok dt Hr H1 Hd Hk. by apply IH.
  - intros es v es' l _ IH1 _ IH2 Hok dt Hr H1 Hd Hk. cbn in Hok, Hd. apply andb_prop in Hok as [O1 O2]. fold (items_depth l) in Hd.
    destruct (IH1 O1 dt Hr H1 ltac:(lia)) as (d1 & E1 & Hs1 & Hk1 & Hn1 & w & body & Ho1 & Hw & Hb).
    destruct (IH2 O2 d1) as (d2 & E2 & H2); [by apply (ready_same dt)|destruct Hs1; lia|destruct Hs1; lia|done|].
    exists d2. split; [rewrite ser_run_app, E1; exact E2|]. apply (items_cons reads_elements dt d1 d2 v l (w ++ body)); try done.
    intros t Ht. rewrite <- app_assoc. by apply elements_cons.
  - intros _ dt Hr _ _ Hk. exists dt. split; [done|]. by split_and!.
  - intros b es l _ IH Hok dt Hr H1 Hd Hk. by apply IH.
  - intros k es v es' l _ IH1 _ IH2 Hok dt Hr H1 Hd Hk. cbn in Hok, Hd. apply andb_prop in Hok as [O1 O2]. apply andb_prop in O1 as [O0 O1].
    fold (members_depth l) in Hd. pose proof (members_depth_nonneg l).
    destruct (key_ok dt k Hr ltac:(lia) Hk) as (d0 & w0 & E0 & Hw0 & Hs0 & Hk0 & Ho0).
    destruct (IH1 O1 d0) as (d1 & E1 & Hs1 & Hk1 & Hn1 & w & body & Ho1 & Hw & Hb); [by apply (ready_same dt)|destruct Hs0; lia|destruct Hs0; lia|].
    destruct (IH2 O2 d1) as (d2 & E2 & H2); [apply (ready_same d0); [by apply (ready_same dt)|done]|destruct Hs0, Hs1; lia|destruct Hs0, Hs1; lia|done|].
    exists d2. split.
    { cbn [ser_run]. change (ser_event_step apk_serializer_json dt (SerKey k)) with (ser_json_key dt k). rewrite E0. cbn [mbind option_bind].
      rewrite ser_run_app, E1. exact E2. }
    apply (items_cons reads_members dt d1 d2 (blob_data k, v) l (w0 ++ ([34] ++ blob_data k ++ [34; 58]) ++ w ++ body)); try done.
    + by apply (js_same_trans dt d0).
    + assert (E : js_sep d0 = []) by (unfold js_sep; by rewrite Hk0). rewrite Ho1, Ho0, E. by rewrite <- !app_assoc.
    + intros t Ht. pose proof (members_cons (blob_data k) v w body l t w0 Hw0 Hw O0 Hb Ht) as Hm. revert Hm. by rewrite <- !app_assoc.
Qed.

(** C25: The JSON that is written for a document is read back as the value that the calls describe,
    if its strings have no control characters other than newlines and tabulators, its keys
    need no escapes, and it is not nested too deeply for the indentation. *)
Theorem json_output_parses es v :
  emits es v -> json_ok v = true -> json_depth v <= 16 -> (match v with JArray _ | JObject _ => True | _ => False end) ->
  exists dt, ser_run apk_serializer_json json_init es = Some dt /\ json_document (js_out dt) = Some v.
Proof.
  intros He Hok Hd Htop.
  assert (Hr : js_ready json_init) by (by split).
  assert (Hdoc : forall d3 w body, js_out d3 = js_out json_init ++ (if js_nest json_init =? 0 then [] else js_sep json_init ++ w) ++ body ++
    (if js_nest json_init =? 0 then [10] else []) -> reads_value v body -> json_document (js_out d3) = Some v).
  { intros d3 w body Ho Hb. cbn in Ho. rewrite Ho. unfold json_document.
    pose proof (Hb (2 * length (body ++ [10%Z]) + 2)%nat [] [10]) as Hp. cbn [app] in Hp. rewrite Hp; [done| |constructor|done].
    rewrite length_app. cbn. lia. }
  destruct He as [| |n es l He|id es l He]; [done|done|..]; cbn in Hd, Hok.
  - fold (items_depth l) in Hd.
    destruct (container_ok reads_elements json_init 91 93 (SerArray n) es l (JArray l)) as (d3 & w & body & E & _ & _ & _ & _ & Hb & Ho);
      [done|done|done|done| |by apply array_reads|].
    { intros d1 R1 N1 K1. change (js_nest json_init) with 0 in N1. exact (proj1 (proj2 json_written) es l He Hok d1 R1 ltac:(lia) ltac:(lia) K1). }
    exists d3. split; [done|]. by apply (Hdoc d3 w body).
  - fold (members_depth l) in Hd.
    destruct (container_ok reads_members json_init 123 125 (SerObject id) es l (JObject l)) as (d3 & w & body & E & _ & _ & _ & _ & Hb & Ho);
      [done|done|done|done| |by apply object_reads|].
    { intros d1 R1 N1 K1. change (js_nest json_init) with 0 in N1. exact (proj2 (proj2 json_written) es l He Hok d1 R1 ltac:(lia) ltac:(lia) K1). }
    exists d3. split; [done|]. by apply (Hdoc d3 w body).
Qed.

(** A document with a string that needs escapes, an empty array and an object in an array. *)
Definition example_value : jvalue :=
  JArray [JObject [(bs "name", JString (bs "a" ++ [34; 10; 92] ++ bs "b")); (bs "size", JNumber 120); (bs "deps", JArray [])]; JNumber 0].
Definition example_events : list ser_event :=
  [SerArray (-1); SerObject 0; SerComment (Some (bs "c")); SerKey (Some (bs "name")); SerString (Some (bs "a" ++ [34; 10; 92] ++ bs "b")) false;
   SerKey (Some (bs "size")); SerNumeric 120 1; SerKey (Some (bs "deps")); SerArray 0; SerEnd; SerEnd; SerNumeric 0 0; SerEnd].

Lemma json_output_parses_witness :
  exists dt, ser_run apk_serializer_json json_init example_events = Some dt /\ json_document (js_out dt) = Some example_value.
Proof.
  apply json_output_parses; [|reflexivity|vm_compute; discriminate|exact I].
  apply (em_array (-1) [_; _; _; _; _; _; _; _; _; _; _]).
  apply (ei_cons [_; _; _; _; _; _; _; _; _; _] _ [_]); [|apply (ei_cons [_] _ []); constructor].
  apply (em_object 0 [_; _; _; _; _; _; _; _]). apply eo_comment.
  apply (eo_cons (Some _) [_]); [apply (em_string (Some _))|].
  apply (eo_cons (Some _) [_]); [constructor|].
  apply (eo_cons (Some _) [_; _] _ []); [apply (em_array 0 []); constructor|constructor].
Defined.

(** Nesting: arrays nested in each other are written down to 16 levels; with 17 levels the indentation of
    what is inside is 35 bytes of an array of 34, which the assertion lets through ([None]: read outside of an array),
    although the array of closing brackets has room for 31 levels. *)
Theorem json_nesting_limit :
  let nested n := replicate n (SerArray 0) ++ [SerString (Some (bs "x")) false] ++ replicate n SerEnd in
  (exists dt, ser_run apk_serializer_json json_init (nested 16%nat) = Some dt) /\
  ser_run apk_serializer_json json_init (nested 17%nat) = None.
Proof. split; [eexists; vm_compute; reflexivity|by vm_compute]. Qed.

(** A control character in a string is written as it is, which is not JSON. *)
Theorem json_control_character :
  exists dt, ser_run apk_serializer_json json_init [SerArray 1; SerString (Some [13]) false; SerEnd] = Some dt /\ json_document (js_out dt) = None.
Proof. eexists. split; by vm_compute. Qed.
