(* ===== verification/AdbGen.v ===== *)
(** The reader of text for databases (app_adbgen.c): adb_walk_yaml reads a subset of YAML line by line and
    calls a serialiser.  It is the inverse of the YAML serialiser (Serialize.v) on the text that
    databases are dumped to. *)
From Stdlib Require Import ZArith Lia Ascii String.
From stdpp Require Import base numbers list option.
From S2P Require Import Prelude Clib Blob Codec Dep AdbTrust Index Stream Serialize.

Definition E2BIG : Z := 7.
Definition MBLOCK_SIZE : Z := 4096.

(** The variables of the loop, and the context of the serialiser; started[64] is an array. *)
Record yaml_reader (S : Type) := YamlReader {
  yr_ser : S; yr_multi_line : Z; yr_nesting : Z; yr_new_item : bool; yr_started : list bool; yr_mblock : option wbuf
}.
Arguments YamlReader {S} _ _ _ _ _ _.
Arguments yr_ser {S} _.
Arguments yr_multi_line {S} _.
Arguments yr_nesting {S} _.
Arguments yr_new_item {S} _.
Arguments yr_started {S} _.
Arguments yr_mblock {S} _.

Section reader.
Context {S : Type} (ops : apk_serializer_ops S).
Implicit Types y : yaml_reader S.

Definition yr_set_ser (s : S) y : yaml_reader S :=
  YamlReader s (yr_multi_line y) (yr_nesting y) (yr_new_item y) (yr_started y) (yr_mblock y).
Definition yr_set_nesting (n : Z) y : yaml_reader S :=
  YamlReader (yr_ser y) (yr_multi_line y) n (yr_new_item y) (yr_started y) (yr_mblock y).
Definition yr_set_new_item (b : bool) y : yaml_reader S :=
  YamlReader (yr_ser y) (yr_multi_line y) (yr_nesting y) b (yr_started y) (yr_mblock y).
Definition yr_set_block (multi_line : Z) (m : option wbuf) y : yaml_reader S :=
  YamlReader (yr_ser y) multi_line (yr_nesting y) (yr_new_item y) (yr_started y) m.
Definition yr_set_started (l : list bool) y : yaml_reader S :=
  YamlReader (yr_ser y) (yr_multi_line y) (yr_nesting y) (yr_new_item y) l (yr_mblock y).

(** The outcome of a piece of the loop: [inl] the result after goto err, [inr] go on; [None] an
    access outside of an array, or a failed assertion of the serialiser. *)
Definition yr_call (f : S -> option (Z * S)) y : option ((Z * yaml_reader S) + yaml_reader S) :=
  '(r, s) ← f (yr_ser y);
  Some (if negb (r =? 0) then inl (r, yr_set_ser s y) else inr (yr_set_ser s y)).

Definition yr_bind (m : option ((Z * yaml_reader S) + yaml_reader S)) (f : yaml_reader S -> option ((Z * yaml_reader S) + yaml_reader S))
  : option ((Z * yaml_reader S) + yaml_reader S) :=
  x ← m; match x with inl r => Some (inl r) | inr y => f y end.

(** started[++nesting] = 0 *)
Definition yr_push y : option (yaml_reader S) :=
  l ← cell_set (yr_started y) (yr_nesting y + 1) false;
  Some (yr_set_started l (yr_set_nesting (yr_nesting y + 1) y)).

(** The indentation of a line, not further than a block goes. *)
Fixpoint strip_indent (fuel : nat) (multi_line i : Z) (l : bytes) : Z * bytes :=
  match fuel, l with
  | Datatypes.S fuel, a :: b :: l' =>
      if (a =? chr " ") && (b =? chr " ") then
        if negb (multi_line =? 0) && (multi_line <=? i) then (i, l) else strip_indent fuel multi_line (i + 1) l'
      else (i, l)
  | _, _ => (i, l)
  end.

(** One turn of the loop that closes levels. *)
Definition yr_close_level y : option ((Z * yaml_reader S) + yaml_reader S) :=
  yr_bind
    (if negb (yr_multi_line y =? 0) then
       match apk_blob_pushed MBLOCK_SIZE (yr_mblock y) with
       | None => Some (inl (- E2BIG, y))
       | Some data =>
           let data := if negb (zlen data =? 0) && (List.last data 0 =? 10) then ztake (zlen data - 1) data else data in
           yr_bind (yr_call (fun s => apk_ser_string_ml ops s (Some data) true) y)
             (fun y => Some (inr (yr_set_block 0 (wbuf_new MBLOCK_SIZE) y)))
       end
     else Some (inr y))
    (fun y =>
       started ← cell_get (yr_started y) (yr_nesting y);
       yr_bind (if (started : bool) then yr_call (apk_ser_end ops) y else Some (inr y))
         (fun y => Some (inr (yr_set_nesting (yr_nesting y - 1) y)))).

Fixpoint yr_close_loop (fuel : nat) (i : Z) y : option ((Z * yaml_reader S) + yaml_reader S) :=
  match fuel with
  | O => None
  | Datatypes.S fuel => if i <? yr_nesting y then yr_bind (yr_close_level y) (yr_close_loop fuel i) else Some (inr y)
  end.

(** if (!started[nesting]) { f; started[nesting] = 1; } *)
Definition yr_start (f : S -> option (Z * S)) y : option ((Z * yaml_reader S) + yaml_reader S) :=
  started ← cell_get (yr_started y) (yr_nesting y);
  if (started : bool) then Some (inr y)
  else yr_bind (yr_call f y) (fun y => l ← cell_set (yr_started y) (yr_nesting y) true; Some (inr (yr_set_started l y))).

(** The key and the value of a line, and whether the value follows below. *)
Definition yaml_key_value (l : bytes) : bytes * bytes * bool :=
  match apk_blob_split (Some l) (bs ": ") with
  | Some (key, scalar) => (key, scalar, false)
  | None => if List.last l 0 =? chr ":" then (ztake (zlen l - 1) l, [], true) else ([], l, false)
  end.

Definition yr_key (key : bytes) (start : bool) y : option ((Z * yaml_reader S) + yaml_reader S) :=
  y ← (if yr_new_item y then yr_push y else Some y);
  yr_bind (yr_start (apk_ser_start_object ops) y)
    (fun y => yr_bind (yr_call (fun s => apk_ser_key ops s (Some key)) y)
       (fun y => if start then y ← yr_push y; Some (inr y) else Some (inr y))).

Definition yr_scalar (scalar : bytes) y : option ((Z * yaml_reader S) + yaml_reader S) :=
  if List.hd 0 scalar =? chr "|" then
    y ← yr_push y; Some (inr (yr_set_block (yr_nesting y) (yr_mblock y) y))
  else if List.hd 0 scalar =? 39 then
    if (zlen scalar <? 2) || negb (List.last scalar 0 =? 39) then Some (inl (- APKE_FORMAT_INVALID, y))
    else yr_call (fun s => apk_ser_string ops s (Some (ztake (zlen scalar - 2) (zdrop 1 scalar)))) y
  else yr_call (fun s => apk_ser_string ops s (Some scalar)) y.

(** A line without its indentation and the mark of an item. *)
Definition yaml_content y (l : bytes) : option ((Z * yaml_reader S) + yaml_reader S) :=
  if negb (yr_multi_line y =? 0) then
    let m := apk_blob_push_blob (apk_blob_push_blob (yr_mblock y) l) [10] in
    Some (inr (yr_set_new_item false (yr_set_block (yr_multi_line y) m y)))
  else if negb (zlen l =? 0) && (List.hd 0 l =? chr "#") then yr_call (fun s => apk_ser_comment ops s (Some l)) y
  else
    let '(l, comm) := match apk_blob_split (Some l) (bs " #") with Some (l, comm) => (l, comm) | None => (l, []) end in
    yr_bind
      (if negb (zlen l =? 0) then
         let '(key, scalar, start) := yaml_key_value l in
         yr_bind (if negb (zlen key =? 0) then yr_key key start y else Some (inr y))
           (fun y => yr_bind (if negb (zlen scalar =? 0) then yr_scalar scalar y else Some (inr y))
              (fun y => Some (inr (yr_set_new_item false y))))
       else Some (inr y))
      (fun y => if negb (zlen comm =? 0) then yr_call (fun s => apk_ser_comment ops s (Some comm)) y else Some (inr y)).

(** After the levels were closed: the mark of an item. *)
Definition yaml_item y (l : bytes) : option ((Z * yaml_reader S) + yaml_reader S) :=
  if (2 <=? zlen l) && (znth 0 l 0 =? chr "-") && (znth 0 l 1 =? chr " ") then
    yr_bind (yr_start (fun s => apk_ser_start_array ops s 0) y) (fun y => yaml_content (yr_set_new_item true y) (zdrop 2 l))
  else yaml_content y l.

(** A line of the loop. *)
Definition yaml_line y (line : bytes) : option ((Z * yaml_reader S) + yaml_reader S) :=
  let '(i, l) := strip_indent (length line) (yr_multi_line y) 0 line in
  yr_bind (yr_close_loop (Z.to_nat (yr_nesting y) + 1) i y) (fun y => yaml_item y l).

Fixpoint yaml_lines y (ls : list bytes) : option ((Z * yaml_reader S) + yaml_reader S) :=
  match ls with
  | [] => Some (inr y)
  | l :: ls => yr_bind (yaml_line y l) (fun y => yaml_lines y ls)
  end.

(** adb_walk_yaml over the lines of the stream: the result and the serialiser.  The
    result of the last apk_ser_end is not looked at; at the end of the lines the result is the one of the stream. *)
Definition adb_walk_yaml (bufsize : Z) (s : S) (text : bytes) : option (Z * S) :=
  let '(ls, e) := istream_lines bufsize text in
  let close r := Z.min r 0 in
  match ls with
  | l :: ls =>
      match apk_blob_pull_blob_match l (bs "#%SCHEMA: ") with
      | None => Some (0, s)
      | Some l =>
          '(r, s) ← apk_ser_start_schema ops s (u32 (apk_blob_pull_uint l 16).1);
          if negb (r =? 0) then Some (close r, s)
          else
            started ← cell_set (replicate 64 false) 0 true;
            res ← yaml_lines (YamlReader s 0 0 false started (wbuf_new MBLOCK_SIZE)) ls;
            match res with
            | inl (r, y) => Some (close r, yr_ser y)
            | inr y => '(_, s) ← apk_ser_end ops (yr_ser y); Some (e, s)
            end
      end
  | [] => Some (e, s)
  end.
End reader.

(** ** A serialiser that keeps the calls *)

Definition ser_log : apk_serializer_ops (list ser_event) := SerOps
  (fun s id => Some (0, s ++ [SerObject id])) (fun s n => Some (0, s ++ [SerArray n])) (fun s => Some (0, s ++ [SerEnd]))
  (fun s b => Some (0, s ++ [SerComment b])) (fun s b => Some (0, s ++ [SerKey b])) (fun s b ml => Some (0, s ++ [SerString b ml]))
  (Some (fun s v h => Some (0, s ++ [SerNumeric v h]))).
