(* ===== verification/AdbGenThm.v ===== *)
(** Text written by the YAML serialiser is read back by adb_walk_yaml (AdbGen.v), call by call, and
    what is lost or misread. *)
From Stdlib Require Import ZArith Lia Ascii String.
From stdpp Require Import base numbers list option.
From S2P Require Import Prelude Clib Blob Codec Dep AdbTrust Index Stream Serialize SerializeThm AdbGen.

(** ** Documents *)

#[warnings="-register-all"]
Inductive yvalue :=
  | YString (s : bytes) (multiline : bool) | YNumber (v hint : Z) | YArray (l : list yvalue) | YObject (l : list (bytes * yvalue)).

Definition ynumber (v hint : Z) : bytes := if negb (hint =? 0) then fmt_octal v else uint_text v 10.
Definition yitems (n : Z) : bytes := fmt_d n ++ bs " items".
Definition yblock (s : bytes) (ml : bool) : bool := match need_quoting s ml with QUOTE_BLOCK => true | _ => false end.

(** The calls of a writer, and the calls of the reader: numbers are read as strings, the number of items
    as a comment, and an array without items is not seen. *)
Fixpoint wcalls (v : yvalue) : list ser_event :=
  match v with
  | YString s ml => [SerString (Some s) ml]
  | YNumber v hint => [SerNumeric v hint]
  | YArray l => SerArray (zlen l) :: List.concat (map wcalls l) ++ [SerEnd]
  | YObject l => SerObject 0 :: List.concat (map (fun kv => SerKey (Some kv.1) :: wcalls kv.2) l) ++ [SerEnd]
  end.
Definition wmembers (l : list (bytes * yvalue)) : list ser_event := List.concat (map (fun kv => SerKey (Some kv.1) :: wcalls kv.2) l).

Fixpoint rcalls (v : yvalue) : list ser_event :=
  match v with
  | YString s ml => [SerString (Some s) (yblock s ml)]
  | YNumber v hint => [SerString (Some (ynumber v hint)) false]
  | YArray l =>
      SerComment (Some (bs " " ++ yitems (zlen l))) ::
      match l with [] => [] | _ => SerArray 0 :: List.concat (map rcalls l) ++ [SerEnd] end
  | YObject l => SerObject 0 :: List.concat (map (fun kv => SerKey (Some kv.1) :: rcalls kv.2) l) ++ [SerEnd]
  end.
Definition rmembers (l : list (bytes * yvalue)) : list ser_event := List.concat (map (fun kv => SerKey (Some kv.1) :: rcalls kv.2) l).

(** Keys, and strings as values of a key or as items of an array. *)
Definition key_byte (c : Z) : bool := negb ((c =? chr " ") || (c =? chr ":") || (c =? chr "#") || (c =? 10)).
Definition ykey_ok (k : bytes) : bool := negb (zlen k =? 0) && forallb key_byte k.

Definition yline_ok (l : bytes) : bool := negb ((znth 0 l 0 =? chr "-") && (znth 0 l 1 =? chr " ")).
Definition ystring_ok (item : bool) (s : bytes) (ml : bool) : bool :=
  negb (zlen s =? 0) &&
  match need_quoting s ml with
  | QUOTE_NONE => negb item || negb (List.last s 0 =? chr ":")
  | QUOTE_SINGLE => negb item || (match apk_blob_split (Some s) (bs ": ") with None => true | Some _ => false end)
  | QUOTE_BLOCK =>
      (zlen s <? MBLOCK_SIZE) && forallb yline_ok (blob_fields 10 (Some s)) && forallb (fun l => negb (zlen l =? 0)) (blob_fields 10 (Some s))
  end.

(** Arrays are not items of arrays, and objects are not empty. *)
Fixpoint yok (item : bool) (v : yvalue) : bool :=
  match v with
  | YString s ml => ystring_ok item s ml
  | YNumber v hint => (0 <=? v) && (v <? 2 ^ 64)
  | YArray l => negb item && (zlen l <? 2 ^ 31) && forallb (yok true) l
  | YObject l => negb (zlen l =? 0) && forallb (fun kv => ykey_ok kv.1 && yok false kv.2) l
  end.

Fixpoint ydepth (v : yvalue) : Z :=
  match v with
  | YString _ _ | YNumber _ _ => 0
  | YArray l => 1 + foldr (fun v d => Z.max (ydepth v) d) 0 l
  | YObject l => 1 + foldr (fun kv d => Z.max (ydepth kv.2) d) 0 l
  end.

(** ** The lines of a document *)

Definition pad (d : Z) : bytes := replicate (Z.to_nat (2 * d)) (chr " ").
Definition yscalar (s : bytes) (ml : bool) : bytes :=
  match need_quoting s ml with QUOTE_NONE => s | QUOTE_SINGLE => [39] ++ s ++ [39] | QUOTE_BLOCK => bs "|" end.
Definition yblock_lines (d : Z) (s : bytes) (ml : bool) : list bytes :=
  if yblock s ml then map (fun l => pad (d + 1) ++ l) (apk_blob_foreach_token (Some s) [10]) else [].

(** [head] is the start of the line; an item follows it at once, the value of a key after a blank. *)
Fixpoint ylines (item : bool) (d : Z) (head : bytes) (v : yvalue) : list bytes :=
  let head' := if item then head else head ++ bs " " in
  match v with
  | YString s ml => (head' ++ yscalar s ml) :: yblock_lines d s ml
  | YNumber v hint => [head' ++ ynumber v hint]
  | YArray l => (head' ++ bs "# " ++ yitems (zlen l)) :: List.concat (map (ylines true (d + 1) (pad (d + 1) ++ bs "- ")) l)
  | YObject l =>
      if item then
        match l with
        | [] => []
        | (k, v) :: l =>
            ylines false (d + 1) (head ++ k ++ bs ":") v ++
            List.concat (map (fun kv => ylines false (d + 1) (pad (d + 1) ++ kv.1 ++ bs ":") kv.2) l)
        end
      else head :: List.concat (map (fun kv => ylines false (d + 1) (pad (d + 1) ++ kv.1 ++ bs ":") kv.2) l)
  end.
Definition ymembers (d : Z) (l : list (bytes * yvalue)) : list bytes :=
  List.concat (map (fun kv => ylines false d (pad d ++ kv.1 ++ bs ":") kv.2) l).

Section induction.
Context (P : yvalue -> Prop).
Hypothesis Hs : forall s ml, P (YString s ml).
Hypothesis Hn : forall v h, P (YNumber v h).
Hypothesis Ha : forall l, Forall P l -> P (YArray l).
Hypothesis Ho : forall l, Forall (fun kv => P kv.2) l -> P (YObject l).

Fixpoint yvalue_induction (v : yvalue) : P v :=
  match v with
  | YString s ml => Hs s ml
  | YNumber v h => Hn v h
  | YArray l => Ha l ((fix go l : Forall P l := match l with [] => Forall_nil_2 _ | v :: l => Forall_cons_2 _ _ _ (yvalue_induction v) (go l) end) l)
  | YObject l => Ho l ((fix go l : Forall (fun kv => P kv.2) l :=
      match l with [] => Forall_nil_2 _ | (k, v) :: l => Forall_cons_2 (fun kv => P kv.2) (k, v) l (yvalue_induction v) (go l) end) l)
  end.
End induction.

(** ** Writing *)

Definition ym_same (dt dt' : serialize_yaml) : Prop :=
  ym_nest dt' = ym_nest dt /\ ym_indent dt' = ym_indent dt /\ length (ym_flags dt') = length (ym_flags dt) /\
  forall i, 0 <= i <= ym_nest dt -> cell_get (ym_flags dt') i = cell_get (ym_flags dt) i.

(** At the start of a line. *)
Definition ym_fresh (dt : serialize_yaml) : Prop := ym_line_started dt = false /\ ym_key_printed dt = false.

Record ym_ready (dt : serialize_yaml) (fl : Z) : Prop := {
  yw_len : length (ym_flags dt) = 32%nat; yw_nest : 1 <= ym_nest dt; yw_indent : 0 <= ym_indent dt;
  yw_flag : cell_get (ym_flags dt) (ym_nest dt) = Some fl
}.

Lemma ym_same_trans a b c : ym_same a b -> ym_same b c -> ym_same a c.
Proof. intros (A1 & A2 & A3 & A4) (B1 & B2 & B3 & B4). split_and!; try congruence. intros i Hi. rewrite B4 by lia. by apply A4. Qed.
Lemma ym_ready_same a b fl : ym_ready a fl -> ym_same a b -> ym_ready b fl.
Proof. intros [] (A1 & A2 & A3 & A4). constructor; rewrite ?A1, ?A2; try done; [congruence|]. rewrite A4 by lia. done. Qed.

Lemma pad_write_pad d : 0 <= d <= 16 -> pad_write blanks32 (2 * d) = Some (pad d).
Proof.
  intros Hd. assert (Hall : forallb (fun d => bool_decide (pad_write blanks32 (2 * d) = Some (pad d))) [0;1;2;3;4;5;6;7;8;9;10;11;12;13;14;15;16] = true)
    by (by vm_compute).
  assert (Hin : List.In d [0;1;2;3;4;5;6;7;8;9;10;11;12;13;14;15;16]) by (cbn; lia).
  exact (bool_decide_eq_true_1 _ (proj1 (forallb_forall _ _) Hall d Hin)).
Qed.

(** The start of a line for an item of the container, or for other text. *)
Lemma yaml_indent_fresh dt fl item c :
  ym_fresh dt -> ym_ready dt fl -> ym_indent dt <= 16 -> fl = 0 \/ fl = F_ARRAY ->
  ser_yaml_indent dt item c = Some (ym_line true false (ym_write (pad (ym_indent dt) ++ (if item && negb (fl =? 0) then bs "- " else [])) dt)).
Proof.
  intros [Hl Hk] [] Hi Hfl. unfold ser_yaml_indent. rewrite Hl. cbn [negb]. destruct (Z.ltb_spec 33 (2 * ym_indent dt)); [lia|].
  rewrite pad_write_pad by lia. cbn [mbind option_bind]. destruct item; cbn [andb].
  - change (ym_flags (ym_write _ dt)) with (ym_flags dt). change (ym_nest (ym_write _ dt)) with (ym_nest dt). rewrite yw_flag0. cbn [mbind option_bind].
    destruct Hfl as [->| ->]; cbn; unfold ym_line, ym_write; cbn; rewrite ?Hk, ?app_nil_r, <- ?app_assoc; done.
  - cbn. unfold ym_line, ym_write. cbn. by rewrite Hk, app_nil_r.
Qed.

(** On a line after a key. *)
Lemma yaml_indent_key dt item :
  ym_line_started dt = true -> ym_key_printed dt = true ->
  ser_yaml_indent dt item true = Some (ym_write (bs " ") dt) /\ ser_yaml_indent dt item false = Some dt.
Proof. destruct dt. cbn. intros -> ->. done. Qed.

(** The lines of a block, one level below. *)
Lemma yaml_block_ok lines dt fl :
  ym_fresh dt -> ym_ready dt fl -> fl = 0 \/ fl = F_ARRAY -> ym_indent dt <= 16 ->
  exists dt', yaml_block lines dt = Some dt' /\ ym_fresh dt' /\ ym_nest dt' = ym_nest dt /\ ym_indent dt' = ym_indent dt /\
    ym_flags dt' = ym_flags dt /\ ym_out dt' = ym_out dt ++ unlines (map (fun l => pad (ym_indent dt) ++ l) lines).
Proof.
  revert dt. induction lines as [|l lines IH]; intros dt Hf Hr Hfl Hi.
  { exists dt. cbn. rewrite app_nil_r. by split_and!. }
  cbn [yaml_block map]. rewrite (yaml_indent_fresh dt fl) by done. cbn [mbind option_bind andb]. rewrite app_nil_r.
  set (d1 := ser_yaml_newline _). destruct (IH d1) as (dt' & E & F & N & I & FL & O); [done|by destruct Hr|done|done|].
  exists dt'. rewrite E. split; [done|]. split; [done|]. split_and!; try done. rewrite O. subst d1.
  cbn [ym_out ser_yaml_newline ym_line ym_write ym_indent]. rewrite unlines_cons. by rewrite <- !app_assoc.
Qed.

(** What a value leaves: everything is as before, at the start of a line, after the lines of the value. *)
Definition ym_wrote (dt dt' : serialize_yaml) (o : bytes) (ls : list bytes) : Prop :=
  ym_same dt dt' /\ ym_fresh dt' /\ ym_out dt' = o ++ unlines ls.

(** The context before a value: at the start of a line as an item, or after a key. *)
Definition ym_before (item : bool) (dt : serialize_yaml) (head o : bytes) : Prop :=
  if item then ym_fresh dt /\ ym_ready dt F_ARRAY /\ ym_out dt = o /\ head = pad (ym_indent dt) ++ bs "- "
  else ym_line_started dt = true /\ ym_key_printed dt = true /\ ym_out dt = o ++ head /\ ym_ready dt 0.

Definition yhead (item : bool) (head : bytes) : bytes := if item then head else head ++ bs " ".

(** Indenting before a value that goes on in the line. *)
Lemma yaml_value_indent item dt head o :
  ym_before item dt head o -> ym_indent dt <= 16 ->
  exists d, ser_yaml_indent dt true true = Some d /\ ym_out d = o ++ yhead item head /\ ym_nest d = ym_nest dt /\
    ym_indent d = ym_indent dt /\ ym_flags d = ym_flags dt.
Proof.
  intros Hb Hi. destruct item; cbn in Hb.
  - destruct Hb as (Hf & Hr & Ho & ->). rewrite (yaml_indent_fresh dt F_ARRAY) by auto. eexists. split; [done|]. split; [|done]. cbn. by rewrite Ho.
  - destruct Hb as (H1 & H2 & Ho & Hr). destruct (yaml_indent_key dt true H1 H2) as [-> _]. eexists. split; [done|].
    split; [|done]. cbn. by rewrite Ho, <- app_assoc.
Qed.

Lemma ym_same_of dt d : ym_nest d = ym_nest dt -> ym_indent d = ym_indent dt -> ym_flags d = ym_flags dt -> ym_same dt d.
Proof. intros H1 H2 H3. split_and!; try done; congruence. Qed.

Lemma ready_of item dt head o : ym_before item dt head o -> exists fl, ym_ready dt fl /\ (fl = 0 \/ fl = F_ARRAY).
Proof. destruct item; cbn; intros H; [exists F_ARRAY|exists 0]; destruct_and! H; auto. Qed.

Lemma write_string item dt head o s ml :
  ym_before item dt head o -> ym_indent dt <= 15 ->
  exists dt', ser_yaml_string dt (Some s) ml = Some (0, dt') /\ ym_wrote dt dt' o (ylines item (ym_indent dt) head (YString s ml)).
Proof.
  intros Hb Hi. unfold ser_yaml_string. destruct (yaml_value_indent item dt head o Hb ltac:(lia)) as (d & -> & Ho & E1 & E2 & E3). cbn [mbind option_bind].
  destruct (ready_of item dt head o Hb) as (fl & Hr & Hfl). cbn [ylines]. unfold yblock_lines, yblock, yscalar. fold (yhead item head).
  change (blob_data (Some s)) with s. destruct (need_quoting s ml).
  - eexists. split; [done|]. split; [by apply ym_same_of|]. split; [done|]. cbn [ym_out ser_yaml_newline ym_line ym_write].
    rewrite Ho, unlines_cons. by rewrite <- !app_assoc.
  - eexists. split; [done|]. split; [by apply ym_same_of|]. split; [done|]. cbn [ym_out ser_yaml_newline ym_line ym_write].
    rewrite Ho, unlines_cons. by rewrite <- !app_assoc.
  - set (d1 := ym_shift 1 _).
    destruct (yaml_block_ok (apk_blob_foreach_token (Some s) [10]) d1 fl) as (dt' & E & F & N & I & FL & O); [done| |done|subst d1; cbn; lia|].
    { destruct Hr. subst d1. constructor; cbn; rewrite ?E1, ?E2, ?E3; try done. lia. }
    rewrite E. cbn [mbind option_bind]. eexists. split; [done|]. split; [apply ym_same_of; cbn; rewrite ?N, ?I, ?FL; subst d1; cbn; [done|lia|done]|].
    split; [exact F|]. cbn [ym_out ym_shift]. rewrite O. subst d1. cbn [ym_out ym_shift ser_yaml_newline ym_line ym_write ym_indent].
    rewrite Ho, E2, unlines_cons. by rewrite <- !app_assoc.
Qed.

Lemma write_number item dt head o v hint :
  ym_before item dt head o -> ym_indent dt <= 15 ->
  exists dt', ser_yaml_numeric dt v hint = Some (0, dt') /\ ym_wrote dt dt' o (ylines item (ym_indent dt) head (YNumber v hint)).
Proof.
  intros Hb Hi. unfold ser_yaml_numeric. destruct (yaml_value_indent item dt head o Hb ltac:(lia)) as (d & -> & Ho & E1 & E2 & E3). cbn [mbind option_bind].
  eexists. split; [done|]. split; [by apply ym_same_of|]. split; [done|]. cbn [ylines]. fold (yhead item head).
  cbn [ym_out ser_yaml_newline ym_line ym_write]. rewrite Ho, unlines_cons. by rewrite <- !app_assoc.
Qed.

Lemma write_key_fresh dt k :
  ym_fresh dt -> ym_ready dt 0 -> ym_indent dt <= 16 ->
  exists d, ser_yaml_key dt (Some k) = Some (0, d) /\ ym_same dt d /\ ym_before false d (pad (ym_indent dt) ++ k ++ bs ":") (ym_out dt).
Proof.
  intros Hf Hr Hi. unfold ser_yaml_key. rewrite (proj2 Hf). rewrite (yaml_indent_fresh dt 0) by auto. cbn [mbind option_bind andb Z.eqb negb].
  rewrite app_nil_r. eexists. split; [done|]. split; [by apply ym_same_of|]. split; [done|]. split; [done|]. split; [cbn; by rewrite <- !app_assoc|].
  by destruct Hr.
Qed.

(** Entering and leaving a container. *)
Lemma yaml_enter dt fl fl' :
  ym_ready dt fl -> ym_nest dt <= 30 ->
  exists l, ser_yaml_start_indent dt fl' = Some (Yaml (ym_out dt) (ym_nest dt + 1) (ym_indent dt + 1) (ym_line_started dt) (ym_key_printed dt) l) /\
    length l = 32%nat /\ cell_get l (ym_nest dt + 1) = Some fl' /\ (forall i, 0 <= i <= ym_nest dt -> cell_get l i = cell_get (ym_flags dt) i).
Proof.
  intros [] Hn. unfold ser_yaml_start_indent, APK_SERIALIZE_MAX_NESTING. destruct (Z.ltb_spec (ym_nest dt) 32); [|lia]. cbn [negb].
  destruct (Z.ltb_spec 0 (ym_nest dt)); [|lia]. cbn [ym_shift ym_nest ym_flags ym_indent ym_out ym_line_started ym_key_printed].
  destruct (cell_set_ok (ym_flags dt) (ym_nest dt + 1) fl') as [l El]; [unfold zlen; lia|]. rewrite El. exists l. split; [done|].
  split; [by rewrite (cell_set_len _ _ _ _ El)|]. split; [by apply (cell_get_set (ym_flags dt) _ _ _ El)|].
  intros i Hi'. apply (cell_get_other _ _ _ _ _ El). lia.
Qed.

Lemma yaml_leave dt d1 d2 :
  1 <= ym_nest dt -> ym_nest d1 = ym_nest dt + 1 -> ym_indent d1 = ym_indent dt + 1 -> length (ym_flags d1) = length (ym_flags dt) ->
  (forall i, 0 <= i <= ym_nest dt -> cell_get (ym_flags d1) i = cell_get (ym_flags dt) i) -> ym_same d1 d2 -> ym_fresh d2 ->
  exists d3, ser_yaml_end d2 = Some (0, d3) /\ ym_same dt d3 /\ ym_fresh d3 /\ ym_out d3 = ym_out d2.
Proof.
  intros Hn N I L F (S1 & S2 & S3 & S4) [F1 F2]. unfold ser_yaml_end. rewrite F1. cbn [mbind option_bind]. eexists. split; [done|].
  split; [|done]. split_and!; cbn.
  - lia.
  - destruct (Z.eqb_spec (ym_nest d2 - 1) 0); cbn; lia.
  - congruence.
  - intros i Hi. rewrite S4 by lia. by apply F.
Qed.

Definition writes (v : yvalue) : Prop := forall item dt head o,
  yok item v = true -> ym_before item dt head o -> ym_nest dt + ydepth v <= 30 -> ym_indent dt + ydepth v <= 15 ->
  exists dt', ser_run apk_serializer_yaml dt (wcalls v) = Some dt' /\ ym_wrote dt dt' o (ylines item (ym_indent dt) head v).

Definition yitems_depth (l : list yvalue) : Z := foldr (fun v d => Z.max (ydepth v) d) 0 l.
Definition ymembers_depth (l : list (bytes * yvalue)) : Z := foldr (fun kv d => Z.max (ydepth kv.2) d) 0 l.

Lemma write_items l dt o :
  Forall writes l -> forallb (yok true) l = true -> ym_fresh dt -> ym_ready dt F_ARRAY -> ym_out dt = o ->
  ym_nest dt + yitems_depth l <= 30 -> ym_indent dt + yitems_depth l <= 15 ->
  exists dt', ser_run apk_serializer_yaml dt (List.concat (map wcalls l)) = Some dt' /\
    ym_wrote dt dt' o (List.concat (map (ylines true (ym_indent dt) (pad (ym_indent dt) ++ bs "- ")) l)).
Proof.
  intros Hl. revert dt o. induction Hl as [|v l Hv Hl IH]; intros dt o Hok Hf Hr Ho Hn Hi.
  { exists dt. split; [done|]. split; [by apply ym_same_of|]. split; [done|]. cbn. by rewrite app_nil_r. }
  cbn [forallb] in Hok. apply andb_prop in Hok as [Ok1 Ok2]. unfold yitems_depth in *. cbn [foldr] in Hn, Hi.
  destruct (Hv true dt (pad (ym_indent dt) ++ bs "- ") o Ok1) as (d1 & E1 & S1 & F1 & O1); [by split_and!|lia|lia|].
  pose proof S1 as (N1 & I1 & _).
  destruct (IH d1 (ym_out d1) Ok2 F1) as (d2 & E2 & S2 & F2 & O2); [by apply (ym_ready_same dt)|done|lia|lia|].
  exists d2. cbn [map List.concat]. rewrite ser_run_app, E1. cbn [mbind option_bind]. split; [done|].
  split; [by apply (ym_same_trans dt d1)|]. split; [done|]. rewrite O2, O1, I1, unlines_app. by rewrite <- app_assoc.
Qed.

Lemma write_members l dt :
  Forall (fun kv => writes kv.2) l -> forallb (fun kv => ykey_ok kv.1 && yok false kv.2) l = true -> ym_fresh dt -> ym_ready dt 0 ->
  ym_nest dt + ymembers_depth l <= 30 -> ym_indent dt + ymembers_depth l <= 15 ->
  exists dt', ser_run apk_serializer_yaml dt (wmembers l) = Some dt' /\ ym_wrote dt dt' (ym_out dt) (ymembers (ym_indent dt) l).
Proof.
  intros Hl. revert dt. induction Hl as [|[k v] l Hv Hl IH]; intros dt Hok Hf Hr Hn Hi.
  { exists dt. split; [done|]. split; [by apply ym_same_of|]. split; [done|]. cbn. by rewrite app_nil_r. }
  cbn [forallb fst snd] in *. apply andb_prop in Hok as [Ok1 Ok2]. apply andb_prop in Ok1 as [Ok0 Ok1].
  unfold ymembers_depth in *. cbn [foldr snd] in Hn, Hi. fold (ymembers_depth l) in *.
  assert (0 <= ymembers_depth l) by (clear; induction l as [|x l IH]; [done|]; unfold ymembers_depth in *; cbn [foldr]; lia).
  destruct (write_key_fresh dt k Hf Hr ltac:(lia)) as (d0 & E0 & S0 & B0). pose proof S0 as (N0 & I0 & _).
  destruct (Hv false d0 _ _ Ok1 B0) as (d1 & E1 & S1 & F1 & O1); [lia|lia|]. pose proof S1 as (N1 & I1 & _).
  assert (S01 : ym_same dt d1) by (by apply (ym_same_trans dt d0)).
  destruct (IH d1 Ok2 F1) as (d2 & E2 & S2 & F2 & O2); [by apply (ym_ready_same dt)|lia|lia|].
  exists d2. split.
  { unfold wmembers. cbn [map List.concat fst snd app ser_run].
    change (ser_event_step apk_serializer_yaml dt (SerKey (Some k))) with (ser_yaml_key dt (Some k)). rewrite E0. cbn [mbind option_bind].
    rewrite ser_run_app, E1. exact E2. }
  split; [by apply (ym_same_trans dt d1)|]. split; [done|]. rewrite O2, O1. unfold ymembers. cbn [map List.concat fst snd]. rewrite unlines_app.
  rewrite <- !app_assoc. rewrite I1, I0. done.
Qed.

Lemma yitems_depth_nonneg l : 0 <= yitems_depth l.
Proof. induction l as [|v l IH]; [done|]. unfold yitems_depth in *. cbn [foldr]. lia. Qed.
Lemma ymembers_depth_nonneg l : 0 <= ymembers_depth l.
Proof. induction l as [|v l IH]; [done|]. unfold ymembers_depth in *. cbn [foldr]. lia. Qed.

Lemma write_array l : Forall writes l -> writes (YArray l).
Proof.
  intros Hl item dt head o Hok Hb Hn Hi. cbn [yok ydepth] in *. fold (yitems_depth l) in *. pose proof (yitems_depth_nonneg l).
  apply andb_prop in Hok as [Hok Hl']. apply andb_prop in Hok as [Hitem Hlen]. destruct item; [done|]. apply Z.ltb_lt in Hlen.
  destruct (yaml_value_indent false dt head o Hb ltac:(lia)) as (d & Ed & Ho & E1 & E2 & E3). pose proof Hb as (_ & _ & _ & Hr).
  pose proof (zlen_nonneg l). cbn [wcalls ser_run ser_event_step]. unfold apk_ser_start_array. rewrite s32_small by lia.
  cbn [so_start_array apk_serializer_yaml]. unfold ser_yaml_start_array. destruct (Z.leb_spec 0 (zlen l)); [|lia]. rewrite Ed. cbn [mbind option_bind].
  set (d0 := ser_yaml_newline _).
  destruct (yaml_enter d0 0 F_ARRAY) as (fl & Een & L1 & L2 & L3); [destruct Hr; subst d0; constructor; cbn; congruence || lia|subst d0; cbn; lia|].
  rewrite Een. cbn [mbind option_bind]. set (d1 := Yaml _ _ _ _ _ fl).
  destruct (write_items l d1 (ym_out d1) Hl Hl') as (d2 & Er & S2 & F2 & O2); [done| |done|subst d1 d0; cbn; lia|subst d1 d0; cbn; lia|].
  { destruct Hr. subst d1. constructor; cbn; [done| | |exact L2]; subst d0; cbn; lia. }
  destruct (yaml_leave dt d1 d2) as (d3 & Ee & S3 & F3 & O3); try done; [destruct Hr; lia|subst d1 d0; cbn; lia|subst d1 d0; cbn; lia| | |].
  { subst d1. cbn. rewrite L1. by destruct Hr. }
  { subst d1. cbn. intros i Hi'. rewrite L3; [subst d0; cbn; by rewrite E3|subst d0; cbn; lia]. }
  exists d3. rewrite ser_run_app, Er. cbn [mbind option_bind]. split; [by apply (ser_run_one _ _ _ 0)|]. split; [done|]. split; [done|].
  rewrite O3, O2. cbn [ylines]. rewrite unlines_cons. subst d1 d0. cbn [ym_out ser_yaml_newline ym_line ym_write ym_indent]. rewrite Ho, E2.
  unfold yhead, yitems. by rewrite <- !app_assoc.
Qed.

(** The members of an object, after the key of the first one. *)
Lemma write_after_key k v l d head o :
  writes v -> Forall (fun kv => writes kv.2) l -> forallb (fun kv => ykey_ok kv.1 && yok false kv.2) ((k, v) :: l) = true ->
  ym_before false d head o -> ym_nest d + ymembers_depth ((k, v) :: l) <= 30 -> ym_indent d + ymembers_depth ((k, v) :: l) <= 15 ->
  exists d2, ser_run apk_serializer_yaml d (wcalls v ++ wmembers l) = Some d2 /\
    ym_wrote d d2 o (ylines false (ym_indent d) head v ++ ymembers (ym_indent d) l).
Proof.
  intros Hv Hl Hok Hb Hn Hi. cbn [forallb fst snd] in *. apply andb_prop in Hok as [Ok1 Ok2]. apply andb_prop in Ok1 as [Ok0 Ok1].
  unfold ymembers_depth in Hn, Hi. cbn [foldr snd] in Hn, Hi. fold (ymembers_depth l) in *. pose proof (ymembers_depth_nonneg l).
  destruct (Hv false d head o Ok1 Hb) as (d1 & E1 & S1 & F1 & O1); [lia|lia|]. pose proof S1 as (N1 & I1 & _).
  destruct (write_members l d1 Hl Ok2 F1) as (d2 & E2 & S2 & F2 & O2); [apply (ym_ready_same d); [by destruct Hb as (_ & _ & _ & ?)|done]|lia|lia|].
  exists d2. rewrite ser_run_app, E1. split; [done|]. split; [by apply (ym_same_trans d d1)|]. split; [done|].
  rewrite O2, O1, unlines_app, I1. by rewrite <- app_assoc.
Qed.

Lemma write_object l : Forall (fun kv => writes kv.2) l -> writes (YObject l).
Proof.
  intros Hl item dt head o Hok Hb Hn Hi. cbn [yok ydepth] in *. fold (ymembers_depth l) in *. pose proof (ymembers_depth_nonneg l).
  apply andb_prop in Hok as [Hne Hok]. destruct l as [|[k v] l]; [done|]. inversion_clear Hl as [|? ? Hv Hl'].
  destruct (ready_of item dt head o Hb) as (fl0 & Hr & Hfl0).
  (* the line so far *)
  assert (Hind : exists d, ser_yaml_indent dt true false = Some d /\ ym_nest d = ym_nest dt /\ ym_indent d = ym_indent dt /\ ym_flags d = ym_flags dt /\
    ym_line_started d = true /\ ym_key_printed d = negb item /\ ym_out d = o ++ head).
  { destruct item; cbn in Hb.
    - destruct Hb as (Hf & Hra & Ho & ->). rewrite (yaml_indent_fresh dt F_ARRAY) by (auto || lia). eexists. split; [done|]. split_and!; try done.
      cbn. by rewrite Ho.
    - destruct Hb as (H1 & H2 & Ho & _). destruct (yaml_indent_key dt true H1 H2) as [_ ->]. by exists dt. }
  destruct Hind as (d & Ed & E1 & E2 & E3 & Hls & Hkp & Ho). cbn [wcalls ser_run ser_event_step]. unfold apk_ser_start_schema.
  cbn [so_start_object apk_serializer_yaml]. unfold ser_yaml_start_object. rewrite Ed. cbn [mbind option_bind].
  destruct (yaml_enter d fl0 0) as (fl & Een & L1 & L2 & L3); [destruct Hr; constructor; congruence || lia|lia|].
  rewrite Een. cbn [mbind option_bind Z.eqb negb]. set (d1 := Yaml _ _ _ _ _ fl).
  assert (Hr1 : ym_ready d1 0) by (destruct Hr; subst d1; constructor; cbn; [done|lia|lia|exact L2]).
  (* after the first key *)
  assert (Hkey : exists dk, ser_yaml_key d1 (Some k) = Some (0, dk) /\ ym_same d1 dk /\
    ym_before false dk ((if item then head else pad (ym_indent d1)) ++ k ++ bs ":") (if item then o else o ++ head ++ [10])).
  { destruct item; cbn [negb] in Hkp.
    - unfold ser_yaml_key. assert (Hk1 : ym_key_printed d1 = false) by done. rewrite Hk1. unfold ser_yaml_indent.
      assert (Hl1 : ym_line_started d1 = true) by done. rewrite Hl1. cbn [negb]. rewrite Hk1. cbn [andb mbind option_bind].
      eexists. split; [done|]. split; [by apply ym_same_of|]. split; [done|]. split; [done|]. split; [cbn; rewrite Ho; by rewrite <- !app_assoc|].
      destruct Hr1. by constructor.
    - destruct (write_key_fresh (ser_yaml_newline d1) k) as (dk & Ek & Sk & Bk); [done|by destruct Hr1|subst d1; cbn; lia|].
      exists dk. unfold ser_yaml_key in Ek |- *. assert (Hk1 : ym_key_printed d1 = true) by done. rewrite Hk1. split; [exact Ek|].
      split; [exact Sk|]. change (ym_out (ser_yaml_newline d1)) with (ym_out d ++ [10]) in Bk. by rewrite Ho, <- app_assoc in Bk. }
  destruct Hkey as (dk & Ek & Sk & Bk). pose proof Sk as (Nk & Ik & _).
  destruct (write_after_key k v l dk _ _ Hv Hl' Hok Bk) as (d2 & Er & S2 & F2 & O2); [rewrite Nk; subst d1; cbn [ym_nest ym_indent]; lia|rewrite Ik; subst d1; cbn [ym_nest ym_indent]; lia|].
  assert (S12 : ym_same d1 d2) by (by apply (ym_same_trans d1 dk)).
  destruct (yaml_leave dt d1 d2) as (d3 & Ee & S3 & F3 & O3); try done; [destruct Hr; lia|subst d1; cbn; lia|subst d1; cbn; lia| | |].
  { subst d1. cbn. rewrite L1. by destruct Hr. }
  { subst d1. cbn. intros i Hi'. rewrite L3; [by rewrite E3|lia]. }
  exists d3. split.
  { cbn [map List.concat fst snd app ser_run].
    change (ser_event_step apk_serializer_yaml d1 (SerKey (Some k))) with (ser_yaml_key d1 (Some k)). rewrite Ek. cbn [mbind option_bind].
    rewrite ser_run_app. unfold wmembers in Er. rewrite Er. cbn [mbind option_bind]. by apply (ser_run_one _ _ _ 0). }
  split; [done|]. split; [done|]. rewrite O3, O2, Ik. assert (Hid : ym_indent d1 = ym_indent dt + 1) by (subst d1; cbn; lia). rewrite Hid.
  cbn [ylines]. destruct item; [done|]. rewrite unlines_cons. unfold ymembers. cbn [map List.concat fst snd]. by rewrite <- !app_assoc.
Qed.

Lemma write_value v : writes v.
Proof.
  apply yvalue_induction.
  - intros s ml item dt head o _ Hb _ Hi. cbn [ydepth] in Hi. rewrite Z.add_0_r in Hi. destruct (write_string item dt head o s ml Hb Hi) as (dt' & E & Hw). exists dt'.
    split; [by apply (ser_run_one _ _ _ 0)|done].
  - intros n h item dt head o _ Hb _ Hi. cbn [ydepth] in Hi. rewrite Z.add_0_r in Hi. destruct (write_number item dt head o n h Hb Hi) as (dt' & E & Hw). exists dt'.
    split; [by apply (ser_run_one _ _ _ 0)|done].
  - apply write_array.
  - apply write_object.
Qed.

(** A document: the root object with its schema. *)
Definition ydoc_calls (id : Z) (l : list (bytes * yvalue)) : list ser_event := SerObject id :: wmembers l ++ [SerEnd].
Definition ydoc_lines (id : Z) (l : list (bytes * yvalue)) : list bytes := (bs "#%SCHEMA: " ++ fmt_08X id) :: ymembers 0 l.

Lemma write_document id l :
  id <> 0 -> forallb (fun kv => ykey_ok kv.1 && yok false kv.2) l = true -> ymembers_depth l <= 15 ->
  exists dt, ser_run apk_serializer_yaml yaml_init (ydoc_calls id l) = Some dt /\ ym_out dt = unlines (ydoc_lines id l).
Proof.
  intros Hid Hok Hd. unfold ydoc_calls. cbn [ser_run ser_event_step]. unfold apk_ser_start_schema. cbn [so_start_object apk_serializer_yaml].
  assert (Hs : exists d1, ser_yaml_start_object yaml_init id = Some (0, d1) /\ ym_fresh d1 /\ ym_ready d1 0 /\ ym_nest d1 = 1 /\ ym_indent d1 = 0 /\
    ym_out d1 = bs "#%SCHEMA: " ++ fmt_08X id ++ [10]).
  { unfold ser_yaml_start_object. cbn [mbind option_bind ser_yaml_indent yaml_init ym_line_started negb]. 
    destruct (Z.eqb_spec id 0); [done|]. eexists. split; [cbn; reflexivity|]. split; [done|]. split; [by constructor|]. by split_and!. }
  destruct Hs as (d1 & -> & F1 & R1 & N1 & I1 & O1). cbn [mbind option_bind].
  destruct (write_members l d1) as (d2 & E2 & (N2 & I2 & _) & F2 & O2); [apply Forall_forall; intros kv _; apply write_value|done|done|done|lia|lia|].
  rewrite ser_run_app, E2. cbn [mbind option_bind]. destruct (ser_yaml_end d2) as [[r d3]|] eqn:Ee.
  2:{ unfold ser_yaml_end in Ee. by rewrite (proj1 F2) in Ee. }
  exists d3. split; [by apply (ser_run_one _ _ _ r)|]. unfold ser_yaml_end in Ee. rewrite (proj1 F2) in Ee. cbn in Ee. injection Ee as _ <-. cbn [ym_out].
  rewrite O2, O1, I1. unfold ydoc_lines. rewrite unlines_cons. by rewrite <- !app_assoc.
Qed.

(** ** Reading *)

(** *** Separators *)

Fixpoint no_pair (a b : Z) (l : bytes) : bool :=
  match l with
  | x :: l' => (match l' with y :: _ => negb ((x =? a) && (y =? b)) | [] => true end) && no_pair a b l'
  | [] => true
  end.

Lemma no_pair_split a b l : no_pair a b l = true -> apk_blob_split (Some l) [a; b] = None.
Proof.
  intros Hl. destruct (apk_blob_split (Some l) [a; b]) as [[x y]|] eqn:E; [|done]. apply apk_blob_split_some in E as [-> _]. exfalso.
  induction x as [|c x IH].
  - cbn in Hl. by rewrite !Z.eqb_refl in Hl.
  - cbn [app no_pair] in Hl. apply andb_prop in Hl as [_ Hl]. by apply IH.
Qed.

Lemma no_pair_skip a b k r : Forall (fun c => c <> a) k -> no_pair a b (k ++ r) = no_pair a b r.
Proof.
  induction 1 as [|c k Hc Hk IH]; [done|]. cbn [app no_pair]. rewrite IH. destruct (k ++ r) as [|y l]; [done|].
  by rewrite (proj2 (Z.eqb_neq c a)) by done.
Qed.

Lemma no_pair_none a b l : Forall (fun c => c <> b) l -> no_pair a b l = true.
Proof.
  induction 1 as [|c l Hc Hl IH]; [done|]. cbn [no_pair]. rewrite IH, andb_true_r. destruct Hl as [|y l Hy Hl]; [done|].
  by rewrite (proj2 (Z.eqb_neq y b)), andb_false_r by done.
Qed.

Lemma no_pair_end a b l c : c <> b -> no_pair a b l = true -> no_pair a b (l ++ [c]) = true.
Proof.
  intros Hc. induction l as [|x l IH]; [done|]. cbn [app no_pair]. intros [H1 H2]%andb_prop. rewrite IH, andb_true_r by done.
  destruct l as [|y l]; [|done]. cbn. by rewrite (proj2 (Z.eqb_neq c b)), andb_false_r by done.
Qed.

(** *** Scalars *)

Lemma quoting_loop b prev style :
  need_quoting_loop b prev style <> QUOTE_BLOCK ->
  Forall (fun c => c <> 10 /\ c <> 39) b /\ no_pair 32 35 (prev :: b) = true /\
  (need_quoting_loop b prev style = QUOTE_NONE -> style = QUOTE_NONE /\ Forall (fun c => c <> 35) b /\ no_pair 58 32 (prev :: b) = true).
Proof.
  revert prev style. induction b as [|c b IH]; intros prev style; [done|]. cbn [need_quoting_loop].
  destruct (Z.eqb_spec c 13); [done|]. destruct (Z.eqb_spec c 10); [done|]. destruct (Z.eqb_spec c 39); [done|]. cbn [orb].
  assert (Hcons : forall p st, (st = style \/ st = QUOTE_SINGLE) -> (c = 35 -> p <> 32) ->
    (st = QUOTE_NONE -> style = QUOTE_NONE /\ c <> 35 /\ (c = 32 -> p <> 58)) -> prev = p ->
    need_quoting_loop b c st <> QUOTE_BLOCK ->
    Forall (fun c => c <> 10 /\ c <> 39) (c :: b) /\ no_pair 32 35 (prev :: c :: b) = true /\
    (need_quoting_loop b c st = QUOTE_NONE -> style = QUOTE_NONE /\ Forall (fun c => c <> 35) (c :: b) /\ no_pair 58 32 (prev :: c :: b) = true)).
  { intros p st Hst Hp Hnone -> Hnb. destruct (IH c st Hnb) as (I1 & I2 & I3). split; [by constructor|]. split.
    - change (negb ((p =? 32) && (c =? 35)) && no_pair 32 35 (c :: b) = true). rewrite I2, andb_true_r.
      destruct (Z.eqb_spec p 32); [|done]. destruct (Z.eqb_spec c 35); [by destruct Hp|done].
    - intros E. destruct (I3 E) as (-> & J2 & J3). destruct (Hnone eq_refl) as (-> & K2 & K3). split; [done|]. split; [by constructor|].
      change (negb ((p =? 58) && (c =? 32)) && no_pair 58 32 (c :: b) = true). rewrite J3, andb_true_r.
      destruct (Z.eqb_spec p 58); [|done]. destruct (Z.eqb_spec c 32); [by destruct K3|done]. }
  destruct (Z.eqb_spec c (chr " ")) as [->|Hsp].
  { destruct (Z.eqb_spec prev (chr ":")); apply (Hcons prev); auto; done. }
  destruct (Z.eqb_spec c (chr "#")) as [->|Hh].
  { destruct (Z.eqb_spec prev (chr " ")); [done|]. apply (Hcons prev); auto; done. }
  apply (Hcons prev); auto; done.
Qed.

Lemma head_indicator c l : existsb (Z.eqb c) yaml_indicators = false -> List.In l yaml_indicators -> c <> l.
Proof.
  intros Hc Hin ->. assert (Ht : existsb (Z.eqb l) yaml_indicators = true) by (apply existsb_exists; exists l; by rewrite Z.eqb_refl). congruence.
Qed.

(** The text of a scalar: where it can stand, and what is read of it. *)
Record scalar_text (t : bytes) : Prop := {
  st_len : t <> []; st_comment : no_pair 32 35 (32 :: t) = true; st_hash : List.hd 0 t <> 35; st_nl : Forall (fun c => c <> 10) t
}.
Definition item_text (t : bytes) : Prop := no_pair 58 32 t = true /\ List.last t 0 <> 58.

Lemma scalar_none s ml :
  s <> [] -> need_quoting s ml = QUOTE_NONE ->
  scalar_text s /\ List.hd 0 s <> 124 /\ List.hd 0 s <> 39 /\ List.hd 0 s <> 45 /\ no_pair 58 32 s = true.
Proof.
  intros Hs. unfold need_quoting. destruct (Z.eqb_spec (zlen s) 0) as [E|]; [by apply zlen_0_nil in E|]. destruct (_ || _); [done|].
  set (style := if existsb _ _ then _ else _). intros E. destruct (quoting_loop s 0 style) as (H1 & H2 & H3); [congruence|].
  destruct (H3 E) as (Hst & H4 & H5). destruct s as [|c s]; [done|]. cbn [List.hd] in *. subst style.
  destruct (existsb (Z.eqb c) yaml_indicators) eqn:Ei; [done|].
  assert (Hi : forall l, List.In l yaml_indicators -> c <> l) by (intros l; by apply head_indicator).
  split.
  - constructor; [done| |by inversion H4|eapply Forall_impl; [|exact H1]; by intros ? []].
    cbn [no_pair] in H2 |- *. apply andb_prop in H2 as [_ H2]. rewrite H2, andb_true_r. inversion H4 as [|? ? Hc]. by rewrite (proj2 (Z.eqb_neq c 35)) by done.
  - split_and!; try (apply Hi; cbn; tauto). cbn [no_pair] in H5 |- *. by apply andb_prop in H5 as [_ H5].
Qed.

Lemma scalar_single s ml :
  s <> [] -> need_quoting s ml = QUOTE_SINGLE -> scalar_text ([39] ++ s ++ [39]) /\ Forall (fun c => c <> 10) s.
Proof.
  intros Hs. unfold need_quoting. destruct (Z.eqb_spec (zlen s) 0) as [E|]; [done|]. destruct (_ || _); [done|].
  set (style := if existsb _ _ then _ else _). intros E. destruct (quoting_loop s 0 style) as (H1 & H2 & _); [congruence|].
  assert (Hnl : Forall (fun c => c <> 10) s) by (eapply Forall_impl; [|exact H1]; by intros ? []).
  split; [|done]. constructor; [done| |done|].
  - cbn [no_pair app]. cbn. apply (no_pair_end 32 35 (39 :: s) 39); [done|]. cbn [no_pair] in H2 |- *. apply andb_prop in H2 as [_ H2]. rewrite H2, andb_true_r.
    by destruct s.
  - constructor; [done|]. apply Forall_app. split; [done|by repeat constructor].
Qed.

Lemma number_text v hint :
  0 <= v < 2 ^ 64 -> ynumber v hint <> [] /\ Forall (fun c => 48 <= c <= 57) (ynumber v hint).
Proof.
  intros Hv. unfold ynumber, fmt_octal. destruct (negb (hint =? 0)); [|apply decimal_text; auto].
  destruct (Z.eqb_spec v 0); [split; [done|by repeat constructor]|]. split; [done|]. constructor; [done|]. by apply (decimal_text v Hv 8); auto.
Qed.

Lemma last_in (l : bytes) (d : Z) : l <> [] -> List.In (List.last l d) l.
Proof. induction l as [|c l IH]; [done|]. intros _. destruct l as [|c' l]; [by left|]. right. by apply IH. Qed.

Lemma digits_scalar t :
  t <> [] -> Forall (fun c => 48 <= c <= 57) t -> scalar_text t /\ List.hd 0 t <> 124 /\ List.hd 0 t <> 39 /\ List.hd 0 t <> 45 /\ item_text t.
Proof.
  intros Ht Hd. assert (Hne : forall x, ~ (48 <= x <= 57) -> Forall (fun c => c <> x) t).
  { intros x Hx. eapply Forall_impl; [|exact Hd]. cbn. intros c Hc ->. done. }
  assert (Hhd : 48 <= List.hd 0 t <= 57) by (destruct t; [done|]; by inversion Hd).
  split; [constructor; [done|apply no_pair_none; constructor; [done|apply Hne; lia]|lia|apply Hne; lia]|].
  split_and!; try lia. split; [apply no_pair_none, Hne; lia|].
  pose proof (proj1 (List.Forall_forall _ _) Hd _ (last_in t 0 Ht)) as Hl. cbn in Hl. lia.
Qed.

(** *** The state *)

Abbreviation reader := (yaml_reader (list ser_event)).

(** A state between two lines, with nothing pending. *)
Definition ystate (log : list ser_event) (d : Z) (st : list bool) : reader := YamlReader log 0 d false st (wbuf_new MBLOCK_SIZE).

Definition closeto (i : Z) (y : reader) : option ((Z * reader) + reader) :=
  yr_close_loop ser_log (Z.to_nat (yr_nesting y - i) + 1) i y.

Lemma close_level_nesting y y' : yr_close_level ser_log y = Some (inr y') -> yr_nesting y' = yr_nesting y - 1.
Proof.
  unfold yr_close_level. destruct (negb (yr_multi_line y =? 0)); cbn.
  - destruct (apk_blob_pushed _ _); cbn; [|done]. destruct (cell_get _ _) as [[]|]; cbn; try done; by intros [= <-].
  - destruct (cell_get _ _) as [[]|]; cbn; try done; by intros [= <-].
Qed.

Lemma close_fuel f f' i y :
  (Z.to_nat (yr_nesting y - i) < f)%nat -> (Z.to_nat (yr_nesting y - i) < f')%nat -> yr_close_loop ser_log f i y = yr_close_loop ser_log f' i y.
Proof.
  revert f' y. induction f as [|f IH]; intros f' y H1 H2; [lia|]. destruct f' as [|f']; [lia|]. cbn [yr_close_loop].
  destruct (Z.ltb_spec i (yr_nesting y)); [|done]. destruct (yr_close_level ser_log y) as [[r|y']|] eqn:E; cbn; [done| |done].
  apply close_level_nesting in E. apply IH; lia.
Qed.

Lemma closeto_step i y : i < yr_nesting y -> closeto i y = yr_bind (yr_close_level ser_log y) (closeto i).
Proof.
  intros Hi. unfold closeto at 1. replace (Z.to_nat (yr_nesting y - i) + 1)%nat with (Datatypes.S (Z.to_nat (yr_nesting y - i))) by lia.
  cbn [yr_close_loop]. destruct (Z.ltb_spec i (yr_nesting y)); [|lia]. destruct (yr_close_level ser_log y) as [[r|y']|] eqn:E; cbn; try done.
  apply close_level_nesting in E. apply close_fuel; lia.
Qed.
Lemma closeto_done i y : yr_nesting y <= i -> closeto i y = Some (inr y).
Proof.
  intros Hi. unfold closeto. rewrite Nat.add_1_r. cbn [yr_close_loop]. by destruct (Z.ltb_spec i (yr_nesting y)); [lia|].
Qed.

Lemma closeto_closeto d i y y0 : i <= d -> closeto d y = Some (inr y0) -> closeto i y = closeto i y0.
Proof.
  intros Hi. remember (Z.to_nat (yr_nesting y - d)) as n eqn:Hn. revert y Hn. induction n as [|n IH]; intros y Hn Hc.
  - rewrite closeto_done in Hc by lia. by injection Hc as ->.
  - rewrite closeto_step in Hc by lia. rewrite closeto_step by lia. destruct (yr_close_level ser_log y) as [[r|y']|] eqn:E; cbn in Hc |- *; [done| |done].
    apply IH; [|done]. apply close_level_nesting in E. lia.
Qed.

Lemma yaml_line_eq y line i l :
  strip_indent (length line) (yr_multi_line y) 0 line = (i, l) -> 0 <= i -> yaml_line ser_log y line = yr_bind (closeto i y) (fun y => yaml_item ser_log y l).
Proof.
  intros E Hi. unfold yaml_line. rewrite E. f_equal. unfold closeto. apply close_fuel; lia.
Qed.

(** Indentation *)
Lemma pad_S d : 0 <= d -> pad (d + 1) = 32 :: 32 :: pad d.
Proof. intros Hd. unfold pad. by replace (Z.to_nat (2 * (d + 1))) with (Datatypes.S (Datatypes.S (Z.to_nat (2 * d)))) by lia. Qed.

Definition starts_text (l : bytes) : Prop := match l with c :: _ => c <> 32 | [] => True end.

Lemma strip_stop fuel ml i l : starts_text l -> strip_indent fuel ml i l = (i, l).
Proof.
  destruct fuel; [done|]. destruct l as [|a [|b l]]; try done. cbn. intros Ha. by rewrite (proj2 (Z.eqb_neq a (chr " "))) by done.
Qed.

Lemma strip_pad n ml i l fuel :
  (n <= fuel)%nat -> starts_text l -> ml = 0 \/ i + Z.of_nat n < ml -> strip_indent fuel ml i (pad (Z.of_nat n) ++ l) = (i + Z.of_nat n, l).
Proof.
  revert i fuel. induction n as [|n IH]; intros i fuel Hf Hl Hml; [rewrite Z.add_0_r; by apply strip_stop|].
  destruct fuel as [|fuel]; [lia|]. rewrite Nat2Z.inj_succ in *. unfold Z.succ in *. rewrite pad_S by lia. cbn [app strip_indent].
  change (32 =? chr " ") with true. cbn [andb]. assert (Hb : negb (ml =? 0) && (ml <=? i) = false).
  { destruct (Z.eqb_spec ml 0); [done|]. destruct (Z.leb_spec ml i); [lia|done]. }
  rewrite Hb, IH; [f_equal; lia|lia|done|lia].
Qed.

(** A line of a block. *)
Lemma strip_block n ml i l fuel :
  (n <= fuel)%nat -> ml <> 0 -> i + Z.of_nat n = ml -> strip_indent fuel ml i (pad (Z.of_nat n) ++ l) = (ml, l).
Proof.
  revert i fuel. induction n as [|n IH]; intros i fuel Hf Hml Hn.
  - rewrite Z.add_0_r in Hn. subst i. change (pad (Z.of_nat 0) ++ l) with l. destruct fuel; [done|]. destruct l as [|a [|b l]]; try done. cbn.
    destruct (_ && _); [|done]. by rewrite (proj2 (Z.eqb_neq ml 0)), Z.leb_refl by done.
  - destruct fuel as [|fuel]; [lia|]. rewrite Nat2Z.inj_succ in *. unfold Z.succ in *. rewrite pad_S by lia. cbn [app strip_indent].
    change (32 =? chr " ") with true. cbn [andb]. destruct (Z.leb_spec ml i); [lia|]. rewrite andb_false_r. apply IH; [lia|done|lia].
Qed.

Lemma length_pad d : 0 <= d -> length (pad d) = Z.to_nat (2 * d).
Proof. intros. unfold pad. by rewrite length_replicate. Qed.

(** A line at level [d], after anything that is closed down to level [d] first. *)
Lemma yaml_line_settled y y0 d l :
  0 <= d -> closeto d y = Some (inr y0) -> yr_multi_line y = 0 \/ d < yr_multi_line y -> starts_text l ->
  yaml_line ser_log y (pad d ++ l) = yaml_item ser_log y0 l.
Proof.
  intros Hd Hc Hml Hl. assert (Hf : (Z.to_nat d <= length (pad d ++ l))%nat) by (rewrite length_app, length_pad by lia; lia).
  pose proof (strip_pad (Z.to_nat d) (yr_multi_line y) 0 l _ Hf Hl ltac:(lia)) as E. rewrite Z2Nat.id in E by lia.
  rewrite (yaml_line_eq y _ d l) by (try exact E; lia). by rewrite Hc.
Qed.

(** *** The contents of a line *)

Definition ybase (log : list ser_event) (n : Z) (ni : bool) (st : list bool) : reader := YamlReader log 0 n ni st (wbuf_new MBLOCK_SIZE).

Definition vfirst (v : yvalue) : bytes :=
  match v with
  | YString s ml => bs " " ++ yscalar s ml
  | YNumber v hint => bs " " ++ ynumber v hint
  | YArray l => bs " # " ++ yitems (zlen l)
  | YObject _ => []
  end.
Definition vrest (d : Z) (v : yvalue) : list bytes :=
  match v with
  | YString s ml => yblock_lines d s ml
  | YNumber _ _ => []
  | YArray l => List.concat (map (ylines true (d + 1) (pad (d + 1) ++ bs "- ")) l)
  | YObject l => ymembers (d + 1) l
  end.

Lemma ylines_member d head v : ylines false d head v = (head ++ vfirst v) :: vrest d v.
Proof. destruct v; cbn [ylines vfirst vrest]; rewrite <- ?app_assoc, ?app_nil_r; done. Qed.

Lemma ykey_bytes k : ykey_ok k = true -> k <> [] /\ Forall (fun c => c <> 32 /\ c <> 58 /\ c <> 35 /\ c <> 10) k.
Proof.
  unfold ykey_ok. intros [H1 H2]%andb_prop. split; [by destruct k|]. apply List.Forall_forall. intros c Hc.
  pose proof (proj1 (forallb_forall _ _) H2 c Hc) as Hb. unfold key_byte in Hb. apply negb_true_iff in Hb.
  apply orb_false_iff in Hb as [Hb H10]. apply orb_false_iff in Hb as [Hb H35]. apply orb_false_iff in Hb as [H32 H58].
  by rewrite Z.eqb_neq in *.
Qed.
Lemma ykey_no k x : ykey_ok k = true -> x = 32 \/ x = 58 \/ x = 35 \/ x = 10 -> Forall (fun c => c <> x) k.
Proof. intros [_ Hk]%ykey_bytes Hx. eapply Forall_impl; [|exact Hk]. cbn. intros c (? & ? & ? & ?). destruct Hx as [->|[->|[->| ->]]]; done. Qed.
Lemma ykey_hd k : ykey_ok k = true -> List.hd 0 k <> 35 /\ zlen k <> 0.
Proof.
  intros [Hne Hk]%ykey_bytes. destruct k as [|c k]; [done|]. inversion_clear Hk as [|? ? Hc]. split; [by destruct Hc as (_ & _ & ? & _)|].
  pose proof (zlen_nonneg k). rewrite zlen_cons. lia.
Qed.

Lemma zlen_ne (l : bytes) : l <> [] -> zlen l <> 0.
Proof. intros H1 H2. by apply zlen_0_nil in H2. Qed.

Lemma hd_app_ne (k r : bytes) : k <> [] -> List.hd 0 (k ++ r) = List.hd 0 k.
Proof. by destruct k. Qed.

(** A line that does not start a comment: the text before a comment, and the comment. *)
Lemma content_eq log n ni st l l' comm :
  l <> [] -> List.hd 0 l <> 35 ->
  match apk_blob_split (Some l) (bs " #") with Some (a, b) => (a, b) | None => (l, []) end = (l', comm) -> l' <> [] ->
  yaml_content ser_log (ybase log n ni st) l =
  yr_bind
    (let '(key, scalar, start) := yaml_key_value l' in
     yr_bind (if negb (zlen key =? 0) then yr_key ser_log key start (ybase log n ni st) else Some (inr (ybase log n ni st)))
       (fun y => yr_bind (if negb (zlen scalar =? 0) then yr_scalar ser_log scalar y else Some (inr y))
          (fun y => Some (inr (yr_set_new_item false y)))))
    (fun y => if negb (zlen comm =? 0) then yr_call (fun s => apk_ser_comment ser_log s (Some comm)) y else Some (inr y)).
Proof.
  intros Hl Hh E Hl'. unfold yaml_content. change (yr_multi_line (ybase log n ni st)) with 0. cbn [Z.eqb negb].
  rewrite (proj2 (Z.eqb_neq (List.hd 0 l) (chr "#"))) by done. rewrite andb_false_r. rewrite E.
  rewrite (proj2 (Z.eqb_neq (zlen l') 0)) by (by apply zlen_ne). done.
Qed.

(** A key with a scalar, a key alone, a scalar alone. *)
Lemma content_key_scalar log n ni st k t :
  ykey_ok k = true -> scalar_text t ->
  yaml_content ser_log (ybase log n ni st) (k ++ [58] ++ bs " " ++ t) =
  yr_bind (yr_key ser_log k false (ybase log n ni st))
    (fun y => yr_bind (yr_scalar ser_log t y) (fun y => Some (inr (yr_set_new_item false y)))).
Proof.
  intros Hk []. destruct (ykey_bytes k Hk) as [Hne _]. destruct (ykey_hd k Hk) as [Hh Hz].
  rewrite (content_eq _ _ _ _ _ (k ++ [58] ++ bs " " ++ t) []); [|by destruct k|by rewrite hd_app_ne| |by destruct k].
  - unfold yaml_key_value. pose proof (split_pair 58 32 k t (ykey_no k 58 Hk ltac:(auto))) as E.
    change (bs ": ") with [58; 32]. change (k ++ [58] ++ bs " " ++ t) with (k ++ [58; 32] ++ t). rewrite E.
    rewrite (proj2 (Z.eqb_neq (zlen k) 0)), (proj2 (Z.eqb_neq (zlen t) 0)) by (done || by apply zlen_ne). cbn [negb]. change (zlen (@nil Z) =? 0) with true. cbn [negb].
    destruct (yr_key ser_log k false _) as [[r|y]|]; cbn; try done. destruct (yr_scalar ser_log t y) as [[r|y']|]; done.
  - change (bs " #") with [32; 35]. rewrite no_pair_split; [done|]. rewrite (no_pair_skip 32 35 k) by (apply ykey_no; auto).
    change ([58] ++ bs " " ++ t) with (58 :: 32 :: t). cbn [no_pair] in *. done.
Qed.

Lemma content_key log n ni st k comm :
  ykey_ok k = true ->
  yaml_content ser_log (ybase log n ni st) (k ++ [58] ++ (if zlen comm =? 0 then [] else bs " #" ++ comm)) =
  yr_bind (yr_key ser_log k true (ybase log n ni st))
    (fun y => let y := yr_set_new_item false y in if negb (zlen comm =? 0) then yr_call (fun s => apk_ser_comment ser_log s (Some comm)) y else Some (inr y)).
Proof.
  intros Hk. destruct (ykey_bytes k Hk) as [Hne _]. destruct (ykey_hd k Hk) as [Hh Hz].
  rewrite (content_eq _ _ _ _ _ (k ++ [58]) comm); [|by destruct k|by rewrite hd_app_ne| |by destruct k].
  - unfold yaml_key_value. change (bs ": ") with [58; 32].
    rewrite no_pair_split by (by rewrite (no_pair_skip 58 32 k) by (apply ykey_no; auto)). rewrite List.last_last.
    change (58 =? chr ":") with true. cbv iota. rewrite zlen_app. change (zlen [58]) with 1. replace (zlen k + 1 - 1) with (zlen k) by lia.
    rewrite ztake_app_le, ztake_all by lia. rewrite (proj2 (Z.eqb_neq (zlen k) 0)) by done. cbn [negb]. change (zlen (@nil Z) =? 0) with true. cbn [negb].
    destruct (yr_key ser_log k true _) as [[r|y]|]; done.
  - change (bs " #") with [32; 35]. destruct (Z.eqb_spec (zlen comm) 0) as [E|E].
    + apply zlen_0_nil in E as ->. rewrite app_nil_r. rewrite no_pair_split; [done|]. by rewrite (no_pair_skip 32 35 k) by (apply ykey_no; auto).
    + pose proof (split_pair 32 35 (k ++ [58]) comm) as Es. rewrite <- !app_assoc in Es. rewrite Es; [done|].
      apply Forall_app. split; [apply ykey_no; auto|by repeat constructor].
Qed.

Lemma content_scalar log n ni st t :
  scalar_text t -> item_text t ->
  yaml_content ser_log (ybase log n ni st) t = yr_bind (yr_scalar ser_log t (ybase log n ni st)) (fun y => Some (inr (yr_set_new_item false y))).
Proof.
  intros [] [Hp Hl]. rewrite (content_eq _ _ _ _ _ t []); try done.
  - unfold yaml_key_value. change (bs ": ") with [58; 32]. rewrite no_pair_split by done. rewrite (proj2 (Z.eqb_neq (List.last t 0) (chr ":"))) by done.
    change (zlen (@nil Z) =? 0) with true. cbn [negb yr_bind mbind option_bind].
    rewrite (proj2 (Z.eqb_neq (zlen t) 0)) by (by apply zlen_ne). cbn [negb]. destruct (yr_scalar ser_log t _) as [[r|y]|]; done.
  - change (bs " #") with [32; 35]. rewrite no_pair_split; [done|]. cbn [no_pair] in st_comment0. by apply andb_prop in st_comment0 as [_ ?].
Qed.

(** *** Keys, scalars and blocks *)

(** Levels below [d] are as before. *)
Definition st_below (d : Z) (st st' : list bool) : Prop :=
  length st' = 64%nat /\ forall i, 0 <= i < d -> cell_get st' i = cell_get st i.

Lemma st_below_trans d a b c : st_below d a b -> st_below d b c -> st_below d a c.
Proof. intros [A1 A2] [B1 B2]. split; [done|]. intros i Hi. rewrite B2 by done. by apply A2. Qed.
Lemma st_below_le d e a b : e <= d -> st_below d a b -> st_below e a b.
Proof. intros He [A1 A2]. split; [done|]. intros i Hi. apply A2. lia. Qed.
Lemma st_set d st b st' : length st = 64%nat -> cell_set st d b = Some st' -> st_below d st st' /\ cell_get st' d = Some b.
Proof.
  intros Hl E. split; [split; [by rewrite (cell_set_len _ _ _ _ E)|]|by apply (cell_get_set st d b)].
  intros i Hi. apply (cell_get_other _ _ _ _ _ E). lia.
Qed.

Lemma yr_push_ok (log : list ser_event) ml n ni st m :
  length st = 64%nat -> 0 <= n <= 62 ->
  exists st', yr_push (YamlReader log ml n ni st m) = Some (YamlReader log ml (n + 1) ni st' m) /\ st_below (n + 1) st st' /\
    cell_get st' (n + 1) = Some false.
Proof.
  intros Hl Hn. unfold yr_push. cbn [yr_started yr_nesting]. destruct (cell_set_ok st (n + 1) false) as [st' E]; [unfold zlen; lia|]. rewrite E.
  exists st'. split; [done|]. by apply st_set.
Qed.

Definition obj_call (ni b : bool) : list ser_event := if negb ni && b then [] else [SerObject 0].

Lemma yr_key_ok (log : list ser_event) (n : Z) (ni : bool) (st : list bool) (b : bool) (k : bytes) (start : bool) :
  length st = 64%nat -> 0 <= n <= 60 -> cell_get st n = Some b ->
  let d := if ni then n + 1 else n in
  exists st', yr_key ser_log k start (ybase log n ni st) =
      Some (inr (ybase (log ++ obj_call ni b ++ [SerKey (Some k)]) (if start then d + 1 else d) ni st')) /\
    st_below d st st' /\ cell_get st' d = Some true /\ (start = true -> cell_get st' (d + 1) = Some false).
Proof.
  intros Hl Hn Hb d. unfold yr_key. change (yr_new_item (ybase log n ni st)) with ni.
  assert (Hp : exists st1, (if ni then yr_push (ybase log n ni st) else Some (ybase log n ni st)) = Some (ybase log d ni st1) /\ st_below d st st1 /\
    cell_get st1 d = Some (negb ni && b) /\ length st1 = 64%nat).
  { subst d. destruct ni; [|exists st; split_and!; done].
    destruct (yr_push_ok log 0 n true st (wbuf_new MBLOCK_SIZE) Hl ltac:(lia)) as (st1 & E & Hs & Hg). exists st1. split; [exact E|]. split; [done|]. split; [done|]. by destruct Hs. }
  destruct Hp as (st1 & -> & Hs1 & Hg1 & Hl1). cbn [mbind option_bind]. unfold yr_start.
  change (yr_started (ybase log d ni st1)) with st1. change (yr_nesting (ybase log d ni st1)) with d. rewrite Hg1. cbn [mbind option_bind].
  assert (Hst : exists st2, (if negb ni && b then Some (inr (ybase log d ni st1)) else
      yr_bind (yr_call (apk_ser_start_object ser_log) (ybase log d ni st1))
        (fun y => l ← cell_set (yr_started y) (yr_nesting y) true; Some (inr (yr_set_started l y)))) =
    Some (inr (ybase (log ++ obj_call ni b) d ni st2)) /\ st_below d st1 st2 /\ cell_get st2 d = Some true).
  { unfold obj_call. destruct (negb ni && b); [exists st1; rewrite app_nil_r; split_and!; try done|].
    cbn -[cell_set]. destruct (cell_set_ok st1 d true) as [st2 E]; [subst d; unfold zlen; destruct ni; lia|]. rewrite E. cbn.
    exists st2. split; [done|]. by apply st_set. }
  destruct Hst as (st2 & -> & Hs2 & Hg2). cbn [yr_bind mbind option_bind].
  assert (Hs02 : st_below d st st2) by (by apply (st_below_trans d st st1)).
  cbn -[cell_set yr_push]. rewrite <- app_assoc. destruct start; [|exists st2; split_and!; done].
  destruct (yr_push_ok (log ++ obj_call ni b ++ [SerKey (Some k)]) 0 d ni st2 (wbuf_new MBLOCK_SIZE)) as (st3 & E & Hs3 & Hg3); [by destruct Hs2|subst d; destruct ni; lia|].
  unfold yr_set_ser. cbn [ybase yr_multi_line yr_nesting yr_new_item yr_started yr_mblock]. rewrite E. exists st3. split; [done|].
  split; [apply (st_below_trans d st st2); [done|]; apply (st_below_le (d + 1)); [lia|done]|]. split; [|done].
  destruct Hs3 as [_ Hs3]. rewrite Hs3; [done|subst d; destruct ni; lia].
Qed.

(** A scalar in a line. *)
Lemma yr_scalar_plain (log : list ser_event) n ni st t :
  List.hd 0 t <> 124 -> List.hd 0 t <> 39 ->
  yr_scalar ser_log t (ybase log n ni st) = Some (inr (ybase (log ++ [SerString (Some t) false]) n ni st)).
Proof.
  intros H1 H2. unfold yr_scalar. rewrite (proj2 (Z.eqb_neq (List.hd 0 t) (chr "|"))), (proj2 (Z.eqb_neq (List.hd 0 t) 39)) by done. done.
Qed.
Lemma yr_scalar_quoted (log : list ser_event) n ni st s :
  yr_scalar ser_log ([39] ++ s ++ [39]) (ybase log n ni st) = Some (inr (ybase (log ++ [SerString (Some s) false]) n ni st)).
Proof.
  unfold yr_scalar. cbn [List.hd app]. change (39 =? chr "|") with false. change (39 =? 39) with true. cbv iota.
  rewrite zlen_cons, zlen_app. change (zlen [39]) with 1. pose proof (zlen_nonneg s).
  destruct (Z.ltb_spec (zlen s + 1 + 1) 2); [lia|].
  assert (Hlast : List.last (39 :: s ++ [39]) 0 = 39) by (change (39 :: s ++ [39]) with ((39 :: s) ++ [39]); apply List.last_last). rewrite Hlast.
  change (39 =? 39) with true. cbn [negb orb]. replace (zlen s + 1 + 1 - 2) with (zlen s) by lia.
  change (zdrop 1 (39 :: s ++ [39])) with (s ++ [39]). rewrite ztake_app_le, ztake_all by lia. done.
Qed.

(** A block: lines are collected, and closing the level gives the string. *)
Definition block_buf (data : bytes) : option wbuf := Some (WBuf data (MBLOCK_SIZE - zlen data)).
Definition yblock_state (log : list ser_event) (d : Z) (st : list bool) (data : bytes) : reader :=
  YamlReader log d d false st (block_buf data).

Lemma push_block data l : zlen (data ++ l) <= MBLOCK_SIZE -> apk_blob_push_blob (block_buf data) l = block_buf (data ++ l).
Proof.
  autorewrite with apk. intros Hl. unfold block_buf, apk_blob_push_blob. cbn [w_room w_done]. destruct (Z.ltb_spec (MBLOCK_SIZE - zlen data) (zlen l)); [lia|].
  autorewrite with apk. do 2 f_equal. lia.
Qed.

Lemma fields_unlines s : unlines (fields 10 s) = s ++ [10].
Proof.
  induction s as [|c s IH]; [done|]. cbn [fields]. destruct (Z.eqb_spec c 10) as [->|].
  - rewrite unlines_cons, IH. done.
  - destruct (fields 10 s) as [|f fs]; [by destruct s|]. rewrite unlines_cons in *. cbn. by rewrite IH.
Qed.

Lemma read_block lines log d st data :
  1 <= d -> forallb yline_ok lines = true -> zlen data + zlen (unlines lines) <= MBLOCK_SIZE ->
  yaml_lines ser_log (yblock_state log d st data) (map (fun l => pad d ++ l) lines) = Some (inr (yblock_state log d st (data ++ unlines lines))).
Proof.
  intros Hd. revert data. induction lines as [|l lines IH]; intros data Hok Hlen.
  { cbn. by rewrite app_nil_r. }
  cbn [forallb] in Hok. apply andb_prop in Hok as [Ok1 Ok2]. rewrite unlines_cons in *. autorewrite with apk in Hlen.
  pose proof (zlen_nonneg l). pose proof (zlen_nonneg (unlines lines)). cbn [map yaml_lines].
  assert (Hstrip : strip_indent (length (pad d ++ l)) d 0 (pad d ++ l) = (d, l)).
  { pose proof (strip_block (Z.to_nat d) d 0 l (length (pad d ++ l))) as E. rewrite Z2Nat.id in E by lia. apply E; [|lia|lia].
    rewrite length_app, length_pad by lia. lia. }
  rewrite (yaml_line_eq (yblock_state log d st data) (pad d ++ l) d l Hstrip) by lia. rewrite closeto_done by (cbn; lia). cbn [yr_bind mbind option_bind].
  unfold yaml_item. assert (Hno : (2 <=? zlen l) && (znth 0 l 0 =? chr "-") && (znth 0 l 1 =? chr " ") = false).
  { unfold yline_ok in Ok1. apply negb_true_iff in Ok1. by rewrite <- andb_assoc, Ok1, andb_false_r. }
  rewrite Hno. unfold yaml_content. change (yr_multi_line (yblock_state log d st data)) with d. rewrite (proj2 (Z.eqb_neq d 0)) by lia. cbn [negb].
  change (yr_mblock (yblock_state log d st data)) with (block_buf data). rewrite !push_block by (autorewrite with apk; change (zlen [10]) with 1; lia).
  cbn [yr_bind mbind option_bind]. change (yr_set_new_item false _) with (yblock_state log d st ((data ++ l) ++ [10])).
  rewrite IH; [|done|autorewrite with apk; change (zlen [10]) with 1; lia].
  by rewrite <- !app_assoc.
Qed.

Lemma close_block log d st s :
  1 <= d -> cell_get st d = Some false -> zlen s < MBLOCK_SIZE ->
  closeto (d - 1) (yblock_state log d st (s ++ [10])) = Some (inr (ystate (log ++ [SerString (Some s) true]) (d - 1) st)).
Proof.
  intros Hd Hst Hs. rewrite closeto_step by (cbn; lia). unfold yr_close_level. change (yr_multi_line (yblock_state log d st (s ++ [10]))) with d.
  rewrite (proj2 (Z.eqb_neq d 0)) by lia. cbn [negb]. unfold apk_blob_pushed. cbn [yr_mblock yblock_state block_buf w_done w_room].
  replace (zlen (s ++ [10]) + (MBLOCK_SIZE - zlen (s ++ [10]))) with MBLOCK_SIZE by lia. rewrite Z.eqb_refl. cbn [negb].
  rewrite zlen_app. change (zlen [10]) with 1. pose proof (zlen_nonneg s). rewrite (proj2 (Z.eqb_neq (zlen s + 1) 0)) by lia. cbn [negb andb].
  rewrite List.last_last. change (10 =? 10) with true. cbv iota. replace (zlen s + 1 - 1) with (zlen s) by lia. rewrite ztake_app_le, ztake_all by lia.
  cbn -[cell_get closeto]. rewrite Hst. cbn -[closeto]. rewrite closeto_done by (cbn; lia). done.
Qed.

(** *** States between lines *)

(** What is left open can be closed down to level [d]; the level is started or not. *)
Definition settled (d : Z) (y : reader) (log : list ser_event) (st : list bool) (b : bool) : Prop :=
  closeto d y = Some (inr (ystate log d st)) /\ (yr_multi_line y = 0 \/ d < yr_multi_line y) /\ length st = 64%nat /\ cell_get st d = Some b.
Definition ended (d : Z) (y : reader) (log : list ser_event) (st : list bool) : Prop :=
  exists st', settled d y log st' true /\ st_below d st st'.

Lemma settled_now d log st b : length st = 64%nat -> cell_get st d = Some b -> settled d (ystate log d st) log st b.
Proof. intros. split; [by apply closeto_done|]. split; [by left|]. done. Qed.

(** One level further down. *)
Lemma settled_close d y log st b b' :
  0 <= d -> settled (d + 1) y log st b -> cell_get st d = Some b' -> settled d y (log ++ if b then [SerEnd] else []) st b'.
Proof.
  intros Hd (Hc & Hml & Hl & Hg) Hg'. split; [|by split_and!; try lia]. rewrite (closeto_closeto (d + 1) d y _ ltac:(lia) Hc).
  rewrite closeto_step by (cbn; lia). unfold yr_close_level. change (yr_multi_line (ystate log (d + 1) st)) with 0. cbn [Z.eqb negb yr_bind mbind option_bind].
  change (yr_started (ystate log (d + 1) st)) with st. change (yr_nesting (ystate log (d + 1) st)) with (d + 1). rewrite Hg. cbn [mbind option_bind].
  destruct b; cbn -[closeto]; rewrite ?app_nil_r, closeto_done by (cbn; lia); cbn; by replace (d + 1 - 1) with d by lia.
Qed.

Lemma ended_close d y log st0 st st' b :
  0 <= d -> settled (d + 1) y log st' b -> st_below (d + 1) st st' -> cell_get st d = Some true -> st_below d st0 st ->
  ended d y (log ++ if b then [SerEnd] else []) st0.
Proof.
  intros Hd Hs Hb Hg H0. exists st'. split.
  - apply settled_close; [done|done|]. destruct Hb as [_ Hb]. by rewrite Hb by lia.
  - apply (st_below_trans d st0 st); [done|]. by apply (st_below_le (d + 1)); [lia|].
Qed.

(** *** Scalars with their blocks *)

Lemma split_no_pair a b l : apk_blob_split (Some l) [a; b] = None -> no_pair a b l = true.
Proof.
  intros Hn. assert (Hx : forall x y, l <> x ++ [a; b] ++ y) by (intros x y; by apply apk_blob_split_none). clear Hn.
  induction l as [|c l IH]; [done|]. cbn [no_pair]. rewrite IH, andb_true_r; [|intros x y ->; by apply (Hx (c :: x) y)].
  destruct l as [|c' l]; [done|]. destruct (Z.eqb_spec c a) as [->|]; [|done]. destruct (Z.eqb_spec c' b) as [->|]; [|done]. by destruct (Hx [] l).
Qed.

Lemma block_tokens s :
  forallb (fun l => negb (zlen l =? 0)) (blob_fields 10 (Some s)) = true -> apk_blob_foreach_token (Some s) [10] = fields 10 s.
Proof.
  intros Hne. unfold apk_blob_foreach_token. rewrite foreach_token_loop_fields by lia. cbn [blob_fields] in *.
  induction (fields 10 s) as [|f fs IH]; [done|]. cbn [forallb List.filter] in *. apply andb_prop in Hne as [H1 H2]. rewrite IH by done.
  by destruct f.
Qed.

Lemma block_ok item s ml :
  ystring_ok item s ml = true -> need_quoting s ml = QUOTE_BLOCK ->
  zlen s < MBLOCK_SIZE /\ apk_blob_foreach_token (Some s) [10] = fields 10 s /\ forallb yline_ok (fields 10 s) = true.
Proof.
  unfold ystring_ok. intros [_ H]%andb_prop Hq. rewrite Hq in H. apply andb_prop in H as [H H3]. apply andb_prop in H as [H1 H2].
  apply Z.ltb_lt in H1. split; [done|]. split; [by apply block_tokens|done].
Qed.

(** Reading a scalar and the lines of its block. *)
Definition scalar_step (t : bytes) (rest : list bytes) (y : reader) : option ((Z * reader) + reader) :=
  yr_bind (yr_bind (yr_scalar ser_log t y) (fun y => Some (inr (yr_set_new_item false y)))) (fun y => yaml_lines ser_log y rest).

Lemma read_string item s ml log d ni st :
  ystring_ok item s ml = true -> length st = 64%nat -> 0 <= d <= 60 -> cell_get st d = Some true ->
  exists y, scalar_step (yscalar s ml) (yblock_lines d s ml) (ybase log d ni st) = Some (inr y) /\
    ended d y (log ++ [SerString (Some s) (yblock s ml)]) st.
Proof.
  intros Hok Hl Hd Hg. unfold scalar_step, yscalar, yblock_lines, yblock. assert (Hne : s <> []) by (by destruct s).
  destruct (need_quoting s ml) eqn:Eq.
  - destruct (scalar_none s ml Hne Eq) as (_ & H1 & H2 & _). rewrite yr_scalar_plain by done. eexists. split; [done|].
    exists st. split; [by apply settled_now|done].
  - rewrite yr_scalar_quoted. eexists. split; [done|]. exists st. split; [by apply settled_now|done].
  - destruct (block_ok item s ml Hok Eq) as (Hlen & Htok & Hlines). rewrite Htok. unfold yr_scalar. cbn [List.hd]. change (List.hd 0 (bs "|") =? chr "|") with true. cbv iota.
    destruct (yr_push_ok log 0 d ni st (wbuf_new MBLOCK_SIZE) Hl ltac:(lia)) as (st' & E & Hs & Hf). unfold ybase. rewrite E. cbn [mbind option_bind yr_bind].
    change (yr_set_new_item false _) with (yblock_state log (d + 1) st' []).
    rewrite read_block; [|lia|done|rewrite fields_unlines, zlen_app; change (zlen [10]) with 1; change (zlen (@nil Z)) with 0; lia].
    eexists. split; [done|]. rewrite fields_unlines. cbn [app]. exists st'. split; [|by apply (st_below_le (d + 1)); [lia|]].
    pose proof (close_block log (d + 1) st' s ltac:(lia) Hf Hlen) as Hc. replace (d + 1 - 1) with d in Hc by lia. destruct Hs as [Hs1 Hs2].
    split; [exact Hc|]. split; [right; cbn; lia|]. split; [done|]. by rewrite Hs2 by lia.
Qed.

Lemma read_number v hint log d ni st :
  0 <= v < 2 ^ 64 -> length st = 64%nat -> cell_get st d = Some true ->
  scalar_step (ynumber v hint) [] (ybase log d ni st) = Some (inr (ystate (log ++ [SerString (Some (ynumber v hint)) false]) d st)).
Proof.
  intros Hv Hl Hg. destruct (number_text v hint Hv) as [Hn Hdig]. destruct (digits_scalar _ Hn Hdig) as (_ & H1 & H2 & _).
  unfold scalar_step. by rewrite yr_scalar_plain.
Qed.

Lemma string_text item s ml : ystring_ok item s ml = true -> scalar_text (yscalar s ml) /\ (item = true -> item_text (yscalar s ml)).
Proof.
  intros Hok. pose proof Hok as Hok'. unfold ystring_ok in Hok'. apply andb_prop in Hok' as [Hne H]. assert (Hne' : s <> []) by (by destruct s).
  unfold yscalar. destruct (need_quoting s ml) eqn:Eq.
  - destruct (scalar_none s ml Hne' Eq) as (H1 & _ & _ & _ & H2). split; [done|]. intros ->. split; [done|]. cbn [negb orb] in H.
    apply negb_true_iff in H. by apply Z.eqb_neq in H.
  - destruct (scalar_single s ml Hne' Eq) as (H1 & _). split; [done|]. intros ->. cbn [negb orb] in H.
    destruct (apk_blob_split (Some s) (bs ": ")) eqn:Es; [done|]. apply split_no_pair in Es. split.
    + change ([39] ++ s ++ [39]) with ([39] ++ (s ++ [39])). rewrite no_pair_skip by (by repeat constructor). by apply no_pair_end.
    + change ([39] ++ s ++ [39]) with ((39 :: s) ++ [39]). by rewrite List.last_last.
  - split; [constructor; try done; by repeat constructor|done].
Qed.

(** *** Values *)

Definition ylevel (n : Z) (ni : bool) : Z := if ni then n + 1 else n.

(** A value after its key, at level [n] or, in the first line of an item, one level below. *)
Definition reads (v : yvalue) : Prop := forall log n ni st b k,
  yok false v = true -> ykey_ok k = true -> length st = 64%nat -> 0 <= n -> cell_get st n = Some b -> ylevel n ni + ydepth v <= 40 ->
  exists y, yr_bind (yaml_content ser_log (ybase log n ni st) (k ++ [58] ++ vfirst v)) (fun y => yaml_lines ser_log y (vrest (ylevel n ni) v)) = Some (inr y) /\
    ended (ylevel n ni) y (log ++ obj_call ni b ++ SerKey (Some k) :: rcalls v) st.

Definition ifirst (v : yvalue) : bytes :=
  match v with
  | YString s ml => yscalar s ml
  | YNumber v hint => ynumber v hint
  | YObject ((k, v) :: _) => k ++ [58] ++ vfirst v
  | _ => []
  end.
Definition irest (n : Z) (v : yvalue) : list bytes :=
  match v with
  | YString s ml => yblock_lines n s ml
  | YObject ((_, v) :: l) => vrest (n + 1) v ++ ymembers (n + 1) l
  | _ => []
  end.
Definition reads_item (v : yvalue) : Prop := forall log n st,
  yok true v = true -> length st = 64%nat -> 0 <= n -> cell_get st n = Some true -> n + ydepth v <= 40 ->
  exists y, yr_bind (yaml_content ser_log (ybase log n true st) (ifirst v)) (fun y => yaml_lines ser_log y (irest n v)) = Some (inr y) /\
    ended n y (log ++ rcalls v) st.

Lemma ylines_item n v head : yok true v = true -> ylines true n head v = (head ++ ifirst v) :: irest n v.
Proof.
  destruct v as [s ml|v h|l|[|[k v] l]]; cbn [yok ylines ifirst irest]; try done. intros _. rewrite ylines_member.
  change (bs ":") with [58]. by rewrite <- !app_assoc.
Qed.

Lemma yaml_lines_app y ls ls' : yaml_lines ser_log y (ls ++ ls') = yr_bind (yaml_lines ser_log y ls) (fun y => yaml_lines ser_log y ls').
Proof.
  revert y. induction ls as [|l ls IH]; intros y; [done|]. cbn [app yaml_lines]. destruct (yaml_line ser_log y l) as [[r|y']|]; cbn; [done|apply IH|done].
Qed.

Lemma key_start k r : ykey_ok k = true -> starts_text (k ++ r) /\ (forall y, yaml_item ser_log y (k ++ [58] ++ r) = yaml_content ser_log y (k ++ [58] ++ r)).
Proof.
  intros Hk. destruct (ykey_bytes k Hk) as [Hne Hb]. destruct k as [|c k]; [done|]. inversion_clear Hb as [|? ? Hc Hb'].
  split; [by destruct Hc|]. intros y. unfold yaml_item.
  assert (Hs : (znth 0 ((c :: k) ++ [58] ++ r) 1 =? chr " ") = false).
  { destruct k as [|c' k]; [done|]. inversion_clear Hb' as [|? ? Hc']. apply Z.eqb_neq. by destruct Hc'. }
  by rewrite Hs, andb_false_r.
Qed.

(** The members of an object, after anything settled at their level. *)
Lemma read_members l y log d st b :
  Forall (fun kv => reads kv.2) l -> forallb (fun kv => ykey_ok kv.1 && yok false kv.2) l = true -> 0 <= d -> settled d y log st b ->
  l <> [] \/ b = true -> d + ymembers_depth l <= 40 ->
  exists y', yaml_lines ser_log y (ymembers d l) = Some (inr y') /\ ended d y' (log ++ obj_call false b ++ rmembers l) st.
Proof.
  intros Hl. revert y log st b. induction Hl as [|[k v] l Hv Hl IH]; intros y log st b Hok Hd Hs Hb Hdep.
  { destruct Hb as [| ->]; [done|]. exists y. cbn. rewrite app_nil_r. split; [done|]. exists st. split; [done|]. by destruct Hs as (_ & _ & ? & _). }
  cbn [forallb fst snd] in Hok. apply andb_prop in Hok as [Ok1 Ok2]. apply andb_prop in Ok1 as [Ok0 Ok1].
  unfold ymembers_depth in Hdep. cbn [foldr snd] in Hdep. fold (ymembers_depth l) in Hdep.
  unfold ymembers. cbn [map List.concat fst snd]. rewrite ylines_member, yaml_lines_app. cbn [yaml_lines].
  change (bs ":") with [58]. rewrite <- !app_assoc. pose proof Hs as (Hc & Hml & Hlen & Hg).
  destruct (key_start k ([58] ++ vfirst v) Ok0) as [Hst _]. destruct (key_start k (vfirst v) Ok0) as [_ Hit].
  rewrite (yaml_line_settled y _ d _ Hd Hc Hml Hst), Hit. cbn [snd] in Hv.
  destruct (Hv log d false st b k Ok1 Ok0 Hlen Hd Hg ltac:(cbn; lia)) as (y1 & E1 & st1 & Hs1 & Hb1). cbn [ylevel] in *.
  change (ystate log d st) with (ybase log d false st). rewrite E1. cbn [yr_bind mbind option_bind].
  destruct (IH y1 _ st1 true Ok2 Hd Hs1 ltac:(auto) ltac:(lia)) as (y2 & E2 & st2 & Hs2 & Hb2). exists y2. split; [exact E2|].
  exists st2. split; [|by apply (st_below_trans d st st1)]. unfold rmembers. cbn [map List.concat fst snd]. cbn [obj_call negb andb app] in Hs2.
  unfold rmembers in Hs2. cbn [app] in *. by rewrite <- !app_assoc in Hs2.
Qed.

(** The items of an array. *)
Lemma read_items l y log d st b :
  Forall reads_item l -> forallb (yok true) l = true -> 0 <= d -> settled d y log st b -> d + yitems_depth l <= 40 ->
  exists y' st', yaml_lines ser_log y (List.concat (map (ylines true d (pad d ++ bs "- ")) l)) = Some (inr y') /\
    settled d y' (log ++ (if b then [] else match l with [] => [] | _ => [SerArray 0] end) ++ List.concat (map rcalls l)) st'
      (match l with [] => b | _ => true end) /\ st_below d st st'.
Proof.
  intros Hl. revert y log st b. induction Hl as [|v l Hv Hl IH]; intros y log st b Hok Hd Hs Hdep.
  { exists y, st. cbn. destruct b; cbn; rewrite !app_nil_r; (split; [done|]); (split; [done|]); by destruct Hs as (_ & _ & ? & _). }
  cbn [forallb] in Hok. apply andb_prop in Hok as [Ok1 Ok2]. unfold yitems_depth in Hdep. cbn [foldr] in Hdep. fold (yitems_depth l) in Hdep.
  cbn [map List.concat]. rewrite ylines_item by done. rewrite yaml_lines_app. cbn [yaml_lines]. rewrite <- !app_assoc. pose proof Hs as (Hc & Hml & Hlen & Hg).
  rewrite (yaml_line_settled y _ d _ Hd Hc Hml) by done.
  assert (Hstart : exists st1, yaml_item ser_log (ystate log d st) (bs "- " ++ ifirst v) =
      yaml_content ser_log (ybase (log ++ if b then [] else [SerArray 0]) d true st1) (ifirst v) /\ st_below d st st1 /\ cell_get st1 d = Some true).
  { unfold yaml_item. pose proof (zlen_nonneg (ifirst v)). rewrite zlen_app. change (zlen (bs "- ")) with 2. destruct (Z.leb_spec 2 (2 + zlen (ifirst v))); [|lia].
    change (znth 0 (bs "- " ++ ifirst v) 0 =? chr "-") with true. change (znth 0 (bs "- " ++ ifirst v) 1 =? chr " ") with true. cbn [andb].
    change (zdrop 2 (bs "- " ++ ifirst v)) with (ifirst v). unfold yr_start. change (yr_started (ystate log d st)) with st.
    change (yr_nesting (ystate log d st)) with d. rewrite Hg. cbn [mbind option_bind]. destruct b.
    - exists st. rewrite app_nil_r. split; [done|]. split; done.
    - cbn -[cell_set yaml_content ifirst]. destruct (cell_set_ok st d true) as [st1 E]; [|rewrite E].
      { unfold cell_get in Hg. destruct (Z.ltb_spec d 0); [done|]. apply lookup_lt_Some in Hg. unfold zlen. lia. }
      exists st1. split; [done|]. by apply st_set. }
  destruct Hstart as (st1 & -> & Hs1 & Hg1).
  destruct (Hv (log ++ if b then [] else [SerArray 0]) d st1 Ok1 ltac:(by destruct Hs1) Hd Hg1 ltac:(lia)) as (y1 & E1 & st2 & Hs2 & Hb2).
  rewrite E1. cbn [yr_bind mbind option_bind].
  destruct (IH y1 _ st2 true Ok2 Hd Hs2 ltac:(lia)) as (y2 & st3 & E2 & Hs3 & Hb3). exists y2, st3. split; [exact E2|]. split.
  - cbn [app] in Hs3. rewrite <- !app_assoc in Hs3. by destruct l.
  - apply (st_below_trans d st st1); [done|]. by apply (st_below_trans d st1 st2).
Qed.

(** A key whose value is a scalar, or follows below. *)
Lemma read_key_scalar log n ni st b k t rest calls :
  ykey_ok k = true -> scalar_text t -> length st = 64%nat -> 0 <= n <= 40 -> cell_get st n = Some b ->
  (forall log st, length st = 64%nat -> cell_get st (ylevel n ni) = Some true ->
     exists y, scalar_step t rest (ybase log (ylevel n ni) ni st) = Some (inr y) /\ ended (ylevel n ni) y (log ++ calls) st) ->
  exists y, yr_bind (yaml_content ser_log (ybase log n ni st) (k ++ [58] ++ bs " " ++ t)) (fun y => yaml_lines ser_log y rest) = Some (inr y) /\
    ended (ylevel n ni) y (log ++ obj_call ni b ++ SerKey (Some k) :: calls) st.
Proof.
  intros Hk Ht Hl Hn Hg Hrest. rewrite content_key_scalar by done.
  destruct (yr_key_ok log n ni st b k false Hl ltac:(lia) Hg) as (st1 & E1 & Hs1 & Hg1 & _). fold (ylevel n ni) in *. rewrite E1. cbn [yr_bind mbind option_bind].
  destruct (Hrest (log ++ obj_call ni b ++ [SerKey (Some k)]) st1 ltac:(by destruct Hs1) Hg1) as (y & E & st2 & Hs2 & Hb2).
  exists y. split; [exact E|]. exists st2. split; [|by apply (st_below_trans _ st st1)]. by rewrite <- !app_assoc in Hs2.
Qed.

Lemma read_key_below log n ni st b k comm rest calls bl :
  ykey_ok k = true -> length st = 64%nat -> 0 <= n <= 40 -> cell_get st n = Some b ->
  (forall log st, length st = 64%nat -> cell_get st (ylevel n ni + 1) = Some false ->
     exists y st', yaml_lines ser_log (ystate log (ylevel n ni + 1) st) rest = Some (inr y) /\
       settled (ylevel n ni + 1) y (log ++ calls) st' bl /\ st_below (ylevel n ni + 1) st st') ->
  exists y, yr_bind (yaml_content ser_log (ybase log n ni st) (k ++ [58] ++ (if zlen comm =? 0 then [] else bs " #" ++ comm))) (fun y => yaml_lines ser_log y rest) = Some (inr y) /\
    ended (ylevel n ni) y (log ++ obj_call ni b ++ SerKey (Some k) :: (if zlen comm =? 0 then [] else [SerComment (Some comm)]) ++ calls ++ (if bl then [SerEnd] else [])) st.
Proof.
  intros Hk Hl Hn Hg Hrest. rewrite content_key by done.
  destruct (yr_key_ok log n ni st b k true Hl ltac:(lia) Hg) as (st1 & E1 & Hs1 & Hg1 & Hf). fold (ylevel n ni) in *. specialize (Hf eq_refl). rewrite E1.
  cbn [yr_bind mbind option_bind]. set (log1 := log ++ obj_call ni b ++ [SerKey (Some k)]). set (cm := if zlen comm =? 0 then [] else [SerComment (Some comm)]).
  destruct (Hrest (log1 ++ cm) st1 ltac:(by destruct Hs1) Hf) as (y & st2 & E & Hs2 & Hb2).
  exists y. split.
  - rewrite <- E. subst cm. destruct (zlen comm =? 0); cbn [negb yr_bind mbind option_bind]; [by rewrite app_nil_r|done].
  - assert (Hd : 0 <= ylevel n ni) by (unfold ylevel; destruct ni; lia).
    pose proof (ended_close _ y _ st st1 st2 bl Hd Hs2 Hb2 Hg1 Hs1) as H. subst log1. by rewrite <- !app_assoc in H.
Qed.

Lemma ylevel_le n ni x : ylevel n ni + x <= 40 -> 0 <= n -> 0 <= x -> 0 <= n <= 40 /\ 0 <= ylevel n ni <= 40.
Proof. unfold ylevel. destruct ni; lia. Qed.

Lemma read_array l : Forall (fun v => reads v /\ reads_item v) l -> reads (YArray l).
Proof.
  intros Hl log n ni st b k Hok Hk Hlen Hn Hg Hdep. cbn [yok ydepth vfirst vrest rcalls] in *. fold (yitems_depth l) in *.
  pose proof (yitems_depth_nonneg l). destruct (ylevel_le n ni _ Hdep Hn ltac:(lia)) as [Hn' Hd].
  apply andb_prop in Hok as [_ Hok].
  destruct (read_key_below log n ni st b k (bs " " ++ yitems (zlen l)) (List.concat (map (ylines true (ylevel n ni + 1) (pad (ylevel n ni + 1) ++ bs "- ")) l))
    (match l with [] => [] | _ => SerArray 0 :: List.concat (map rcalls l) end) (match l with [] => false | _ => true end) Hk Hlen Hn' Hg) as (y & E & He).
  - intros log' st' Hlen' Hf. destruct (read_items l (ystate log' (ylevel n ni + 1) st') log' (ylevel n ni + 1) st' false) as (y & st2 & E & Hs & Hb).
    + eapply Forall_impl; [|exact Hl]. by intros v [].
    + done.
    + lia.
    + by apply settled_now.
    + lia.
    + exists y, st2. split; [done|]. split; [|done]. by destruct l.
  - exists y. split; [exact E|]. by destruct l.
Qed.

Lemma read_object l : Forall (fun kv => reads kv.2 /\ reads_item kv.2) l -> reads (YObject l) /\ reads_item (YObject l).
Proof.
  intros Hl. assert (Hl' : Forall (fun kv => reads kv.2) l) by (eapply Forall_impl; [|exact Hl]; by intros v []).
  split.
  - intros log n ni st b k Hok Hk Hlen Hn Hg Hdep. cbn [yok ydepth vfirst vrest rcalls] in *. fold (ymembers_depth l) in *.
    pose proof (ymembers_depth_nonneg l). destruct (ylevel_le n ni _ Hdep Hn ltac:(lia)) as [Hn' Hd]. apply andb_prop in Hok as [Hne Hok].
    destruct (read_key_below log n ni st b k [] (ymembers (ylevel n ni + 1) l) (SerObject 0 :: rmembers l) true Hk Hlen Hn' Hg) as (y & E & He).
    + intros log' st' Hlen' Hf.
      destruct (read_members l (ystate log' (ylevel n ni + 1) st') log' (ylevel n ni + 1) st' false) as (y & E & st2 & Hs & Hb);
        [done|done|lia|by apply settled_now|by left; destruct l|lia|]. by exists y, st2.
    + exists y. split; [exact E|done].
  - intros log n st Hok Hlen Hn Hg Hdep. cbn [yok ydepth] in *. fold (ymembers_depth l) in *. pose proof (ymembers_depth_nonneg l).
    apply andb_prop in Hok as [Hne Hok]. destruct l as [|[k v] l]; [done|]. inversion_clear Hl' as [|? ? Hv Hl'']. cbn [ifirst irest rcalls].
    cbn [forallb fst snd] in Hok, Hv. apply andb_prop in Hok as [Ok1 Ok2]. apply andb_prop in Ok1 as [Ok0 Ok1].
    unfold ymembers_depth in *. cbn [foldr snd] in *. fold (ymembers_depth l) in *. pose proof (ymembers_depth_nonneg l).
    destruct (Hv log n true st true k Ok1 Ok0 Hlen Hn Hg ltac:(cbn; lia)) as (y1 & E1 & st1 & Hs1 & Hb1). cbn [ylevel] in *.
    destruct (read_members l y1 _ (n + 1) st1 true Hl'' Ok2 ltac:(lia) Hs1 ltac:(auto) ltac:(lia)) as (y2 & E2 & st2 & Hs2 & Hb2).
    exists y2. split.
    + destruct (yaml_content _ _ _) as [[r|y]|]; cbn [yr_bind mbind option_bind] in E1 |- *; try done. rewrite yaml_lines_app, E1. exact E2.
    + pose proof (ended_close n y2 _ st st st2 true Hn Hs2) as H3. cbn [obj_call negb andb app] in H3. rewrite <- !app_assoc in H3.
      cbn [map List.concat fst snd app]. rewrite <- app_assoc. apply H3; [by apply (st_below_trans _ st st1)|done|done].
Qed.

Lemma read_value v : reads v /\ reads_item v.
Proof.
  apply (yvalue_induction (fun v => reads v /\ reads_item v)).
  - intros s ml. split.
    + intros log n ni st b k Hok Hk Hlen Hn Hg Hdep. cbn [ydepth] in Hdep. destruct (ylevel_le n ni 0 Hdep Hn ltac:(lia)) as [Hn' Hd].
      destruct (string_text false s ml Hok) as [Ht _]. apply (read_key_scalar log n ni st b k (yscalar s ml)); try done.
      intros log' st' Hlen' Hg'. apply (read_string false); try done. lia.
    + intros log n st Hok Hlen Hn Hg Hdep. cbn [ydepth] in Hdep. destruct (string_text true s ml Hok) as [Ht Hi]. cbn [ifirst irest rcalls].
      rewrite content_scalar by auto. apply (read_string true); try done. lia.
  - intros x h. split.
    + intros log n ni st b k Hok Hk Hlen Hn Hg Hdep. cbn [ydepth yok] in *. destruct (ylevel_le n ni 0 Hdep Hn ltac:(lia)) as [Hn' Hd].
      assert (Hv : 0 <= x < 2 ^ 64) by lia. destruct (number_text x h Hv) as [Ht1 Ht2]. destruct (digits_scalar _ Ht1 Ht2) as (Ht & _).
      apply (read_key_scalar log n ni st b k (ynumber x h)); try done. intros log' st' Hlen' Hg'. cbn [vrest]. rewrite read_number by done.
      eexists. split; [done|]. exists st'. split; [by apply settled_now|done].
    + intros log n st Hok Hlen Hn Hg Hdep. cbn [ydepth yok] in *. assert (Hv : 0 <= x < 2 ^ 64) by lia.
      destruct (number_text x h Hv) as [Ht1 Ht2]. destruct (digits_scalar _ Ht1 Ht2) as (Ht & _ & _ & _ & Hi). cbn [ifirst irest rcalls].
      rewrite content_scalar by auto. fold (scalar_step (ynumber x h) [] (ybase log n true st)). rewrite read_number by done.
      eexists. split; [done|]. exists st. split; [by apply settled_now|done].
  - intros l Hl. split; [by apply read_array|]. intros log n st Hok. done.
  - intros l Hl. by apply read_object.
Qed.

(** *** Documents *)

Definition hex_upper (d : Z) : Z := if d <? 10 then chr "0" + d else chr "A" + d - 10.

Lemma pull_hex_upper d rest v : 0 <= d < 16 -> pull_uint_loop (hex_upper d :: rest) 16 v = pull_uint_loop rest 16 (u64 (u64 (v * 16) + d)).
Proof.
  intros Hd. assert (Hin : List.In d [0;1;2;3;4;5;6;7;8;9;10;11;12;13;14;15]) by (cbn; lia).
  cbn in Hin. repeat (destruct Hin as [<-|Hin]; [reflexivity|]). done.
Qed.

Lemma hex_step a d : 0 <= a -> 0 <= d -> a * 16 + d < 2 ^ 64 -> u64 (u64 (a * 16) + d) = a * 16 + d.
Proof. intros. unfold wrap. by rewrite !Z.mod_small by (rewrite ?Z.mod_small; lia). Qed.

Lemma pull_hex_digits n v acc val :
  0 <= v -> 0 <= val -> val * 16 ^ Z.of_nat n + v mod 16 ^ Z.of_nat n < 2 ^ 64 ->
  pull_uint_loop (hex_digits n v acc) 16 val = pull_uint_loop acc 16 (val * 16 ^ Z.of_nat n + v mod 16 ^ Z.of_nat n).
Proof.
  revert v acc val. induction n as [|n IH]; intros v acc val Hv Hval Hb.
  { cbn [hex_digits]. change (16 ^ Z.of_nat 0) with 1. rewrite Z.mod_1_r. f_equal. lia. }
  cbn [hex_digits]. cbv zeta. fold (hex_upper (v mod 16)). rewrite Nat2Z.inj_succ in *. unfold Z.succ in *.
  assert (Hp : 0 < 16 ^ Z.of_nat n) by (apply Z.pow_pos_nonneg; lia). rewrite Z.pow_add_r in * by lia. change (16 ^ 1) with 16 in *.
  pose proof (Z.mod_pos_bound v 16 ltac:(lia)) as Hm. pose proof (Z.mod_pos_bound (v / 16) (16 ^ Z.of_nat n) Hp) as Hq.
  assert (Hsplit : v mod (16 ^ Z.of_nat n * 16) = v mod 16 + 16 * ((v / 16) mod 16 ^ Z.of_nat n)) by (rewrite Z.mul_comm; by rewrite Z.rem_mul_r by lia).
  rewrite Hsplit in Hb |- *. replace (val * (16 ^ Z.of_nat n * 16)) with (16 * (val * 16 ^ Z.of_nat n)) in Hb |- * by ring.
  assert (Hx : 0 <= val * 16 ^ Z.of_nat n) by (apply Z.mul_nonneg_nonneg; lia). rewrite IH; [|apply Z.div_pos; lia|done|lia].
  rewrite pull_hex_upper by done. f_equal. rewrite hex_step; lia.
Qed.

Lemma fmt_08X_read id : 0 <= id < 2 ^ 32 -> (apk_blob_pull_uint (fmt_08X id) 16).1 = id.
Proof.
  intros Hid. unfold apk_blob_pull_uint, fmt_08X. change (2 ^ 32) with (16 ^ 8) in Hid.
  rewrite pull_hex_digits; change (16 ^ Z.of_nat 8) with (16 ^ 8); rewrite ?Z.mod_small by lia; cbn [pull_uint_loop fst]; lia.
Qed.

(** No line holds a newline. *)
Lemma fields_no_nl s : Forall no_nl (fields 10 s).
Proof.
  induction s as [|c s IH]; [by repeat constructor|]. cbn [fields]. destruct (Z.eqb_spec c 10); [constructor; [constructor|done]|].
  destruct (fields 10 s) as [|f fs]; [by repeat constructor|]. inversion_clear IH. constructor; [by constructor|done].
Qed.
Lemma pad_no_nl d : no_nl (pad d).
Proof. unfold pad. induction (Z.to_nat (2 * d)); [constructor|]. by constructor. Qed.
Lemma key_no_nl k : ykey_ok k = true -> no_nl k.
Proof. intros Hk. apply ykey_no; auto. Qed.
Lemma hex_no_nl n v acc : 0 <= v -> no_nl acc -> no_nl (hex_digits n v acc).
Proof.
  revert v acc. induction n as [|n IH]; intros v acc Hv Ha; [done|]. cbn [hex_digits]. cbv zeta. pose proof (Z.mod_pos_bound v 16 ltac:(lia)).
  apply IH; [apply Z.div_pos; lia|]. constructor; [|done]. change (chr "0") with 48. change (chr "A") with 65. destruct (Z.ltb_spec (v mod 16) 10); lia.
Qed.

Lemma no_nl_app a b : no_nl a -> no_nl b -> no_nl (a ++ b).
Proof. intros. by apply Forall_app. Qed.

Lemma string_lines_no_nl item d head s ml :
  ystring_ok item s ml = true -> no_nl head -> Forall no_nl (ylines item d head (YString s ml)).
Proof.
  intros Hok Hh. cbn [ylines]. destruct (string_text item s ml Hok) as [[_ _ _ Hnl] _]. constructor.
  - apply no_nl_app; [|done]. destruct item; [done|]. apply no_nl_app; [done|by repeat constructor].
  - unfold yblock_lines, yblock. destruct (need_quoting s ml) eqn:Eq; try constructor. destruct (block_ok item s ml Hok Eq) as (_ & -> & _).
    apply Forall_map. eapply Forall_impl; [|apply fields_no_nl]. intros l Hl. by apply no_nl_app; [apply pad_no_nl|].
Qed.

Definition lines_ok (v : yvalue) : Prop := forall item d head, yok item v = true -> no_nl head -> Forall no_nl (ylines item d head v).

Lemma members_no_nl d l :
  Forall (fun kv => lines_ok kv.2) l -> forallb (fun kv => ykey_ok kv.1 && yok false kv.2) l = true -> Forall no_nl (ymembers d l).
Proof.
  unfold ymembers. induction 1 as [|[k v] l Hv Hl IH]; [constructor|]. cbn [forallb map List.concat fst snd] in *. intros [[H1 H2]%andb_prop H3]%andb_prop.
  apply Forall_app. split; [|by apply IH]. apply Hv; [done|]. apply no_nl_app; [apply pad_no_nl|]. apply no_nl_app; [by apply key_no_nl|by repeat constructor].
Qed.

Lemma value_no_nl v : lines_ok v.
Proof.
  apply (yvalue_induction lines_ok).
  - intros s ml item d head. apply string_lines_no_nl.
  - intros x h item d head Hok Hh. cbn [yok ylines] in *. constructor; [|constructor].
    destruct (number_text x h ltac:(lia)) as [Hn Hd]. destruct (digits_scalar _ Hn Hd) as ([_ _ _ Hnl] & _).
    apply no_nl_app; [|done]. destruct item; [done|]. apply no_nl_app; [done|by repeat constructor].
  - intros l Hl item d head Hok Hh. cbn [yok ylines] in *. apply andb_prop in Hok as [Hok Hl']. destruct item; [done|]. cbn [negb andb] in Hok. constructor.
    + repeat apply no_nl_app; try done; try (by repeat constructor). unfold fmt_d. destruct (_ <? 0); [apply no_nl_app; [by repeat constructor|]|]; apply uint_text_no_nl.
    + induction Hl as [|v' l Hv Hl IH]; [constructor|]. cbn [forallb map List.concat] in *. apply andb_prop in Hl' as [H1 H2].
      apply Forall_app. split; [|apply IH; [|done]]. { apply Hv; [done|]. apply no_nl_app; [apply pad_no_nl|by repeat constructor]. }
      rewrite zlen_cons in Hok. pose proof (zlen_nonneg l). lia.
  - intros l Hl item d head Hok Hh. cbn [yok] in Hok. apply andb_prop in Hok as [Hne Hok]. destruct item; cbn [ylines].
    + destruct l as [|[k v'] l]; [done|]. inversion_clear Hl as [|? ? Hv Hl']. cbn [forallb fst snd] in Hok, Hv. apply andb_prop in Hok as [Ok1 Ok2].
      apply andb_prop in Ok1 as [Ok0 Ok1]. apply Forall_app. split; [|by apply members_no_nl].
      apply Hv; [done|]. apply no_nl_app; [done|]. apply no_nl_app; [by apply key_no_nl|by repeat constructor].
    + constructor; [done|]. by apply members_no_nl.
Qed.

(** C24: What YAML text the serialiser writes for a document is read back, call by call: schema, keys, strings,
    items and ends.  Numbers come back as strings of their digits, the number of items of an array as a comment,
    and arrays without items as keys without value.  Keys have no blank, colon or number sign; strings are not
    empty; blocks hold less than MBLOCK_SIZE bytes, no empty line and no line that starts with a dash and a blank;
    items of arrays do not look like keys.  When a line is as long as the buffer of the stream or longer, the result is
    ENOBUFS. *)
Theorem yaml_roundtrip bufsize id l :
  0 < id < 2 ^ 32 -> forallb (fun kv => ykey_ok kv.1 && yok false kv.2) l = true -> ymembers_depth l <= 15 ->
  exists dt cut, ser_run apk_serializer_yaml yaml_init (ydoc_calls id l) = Some dt /\
    adb_walk_yaml ser_log bufsize [] (ym_out dt) =
      Some (if lines_fit bufsize (ym_out dt) then (0, SerObject id :: rmembers l ++ [SerEnd]) else (- ENOBUFS, cut)).
Proof.
  intros Hid Hok Hd. destruct (write_document id l ltac:(lia) Hok Hd) as (dt & E & Ho). exists dt. rewrite Ho.
  assert (Hl : apk_istream_lines (unlines (ydoc_lines id l)) = ydoc_lines id l ++ [[]]).
  { apply apk_istream_lines_unlines. constructor; [apply no_nl_app; [by repeat constructor|apply hex_no_nl; [lia|constructor]]|].
    apply members_no_nl; [|done]. apply Forall_true. intros kv. apply value_no_nl. }
  destruct (cell_set_ok (replicate 64 false) 0 true ltac:(done)) as [st Est].
  destruct (st_set 0 (replicate 64 false) true st ltac:(done) Est) as [[Hlen _] Hg].
  destruct (read_members l (ystate [SerObject id] 0 st) [SerObject id] 0 st true) as (y & Ey & st' & (Hc & Hml & _) & _);
    [apply Forall_true; intros kv; apply read_value|done|lia|by apply settled_now|by right|lia|].
  assert (Hall : exists y2, yaml_lines ser_log (ystate [SerObject id] 0 st) (ymembers 0 l ++ [[]]) = Some (inr y2) /\
    yr_ser y2 ++ [SerEnd] = SerObject id :: rmembers l ++ [SerEnd]).
  { rewrite yaml_lines_app, Ey. cbn [yr_bind mbind option_bind yaml_lines].
    pose proof (yaml_line_settled y _ 0 [] ltac:(lia) Hc Hml I) as El. change (pad 0 ++ []) with (@nil Z) in El. rewrite El. eexists. by split. }
  destruct Hall as (y2 & Hall & Hy2).
  assert (Hrun : forall rest e y3, yaml_lines ser_log (ystate [SerObject id] 0 st) rest = Some (inr y3) ->
    istream_lines bufsize (unlines (ydoc_lines id l)) = ((bs "#%SCHEMA: " ++ fmt_08X id) :: rest, e) ->
    adb_walk_yaml ser_log bufsize [] (unlines (ydoc_lines id l)) = Some (e, yr_ser y3 ++ [SerEnd])).
  { intros rest e y3 Er Ei. unfold adb_walk_yaml. rewrite Ei. rewrite (proj2 (apk_blob_pull_blob_match_spec (bs "#%SCHEMA: " ++ fmt_08X id) _ (fmt_08X id)) eq_refl).
    rewrite fmt_08X_read by lia. unfold wrap. rewrite Z.mod_small by lia. unfold apk_ser_start_schema. cbn [so_start_object ser_log mbind option_bind Z.eqb negb app].
    rewrite Est. cbn [mbind option_bind]. fold (ystate [SerObject id] 0 st). by rewrite Er. }
  pose proof (fitting_spec bufsize (apk_istream_lines (unlines (ydoc_lines id l)))) as Hf. fold (lines_fit bufsize (unlines (ydoc_lines id l))) in Hf.
  fold (istream_lines bufsize (unlines (ydoc_lines id l))) in Hf. destruct (lines_fit _ _).
  - rewrite Hl in Hf. exists []. split; [done|]. rewrite (Hrun _ _ _ Hall Hf). by rewrite Hy2.
  - destruct Hf as (pre & post & Es & Hf). rewrite Hl in Es. destruct pre as [|x pre].
    { exists []. split; [done|]. unfold adb_walk_yaml. by rewrite Hf. }
    injection Es as <- Es. unfold ydoc_lines in Es. rewrite Es, yaml_lines_app in Hall.
    destruct (yaml_lines ser_log (ystate [SerObject id] 0 st) pre) as [[?|y3]|] eqn:E3; [done| |done].
    exists (yr_ser y3 ++ [SerEnd]). split; [done|]. by apply (Hrun pre).
Qed.

Definition ex_document : list (bytes * yvalue) :=
  [(bs "name", YString (bs "busybox") false); (bs "size", YNumber 4711 0);
   (bs "info", YObject [(bs "url", YString (bs "# x: y") false); (bs "text", YString (bs "one" ++ [10] ++ bs "two") true)]);
   (bs "depends", YArray [YString (bs "so:libc") false; YObject [(bs "a", YNumber 420 1); (bs "b", YString (bs "c") false)]])].

Lemma yaml_roundtrip_witness :
  exists dt, ser_run apk_serializer_yaml yaml_init (ydoc_calls 0x676b7061 ex_document) = Some dt /\
    adb_walk_yaml ser_log 32 [] (ym_out dt) = Some (0, SerObject 0x676b7061 :: rmembers ex_document ++ [SerEnd]).
Proof.
  destruct (yaml_roundtrip 32 0x676b7061 ex_document) as (dt & cut & E & H); [lia|by vm_compute|by vm_compute|]. exists dt. split; [exact E|].
  assert (Hfit : match ser_run apk_serializer_yaml yaml_init (ydoc_calls 0x676b7061 ex_document) with Some dt => lines_fit 32 (ym_out dt) | None => false end = true)
    by (by vm_compute).
  rewrite E in Hfit. rewrite Hfit in H. exact H.
Defined.

(** *** What is not read back *)

Definition yaml_reread (id : Z) (l : list (bytes * yvalue)) : option (Z * list ser_event) :=
  dt ← ser_run apk_serializer_yaml yaml_init (ydoc_calls id l); adb_walk_yaml ser_log 4096 [] (ym_out dt).

(** A line of a block that starts with a dash and a blank starts an array. *)
Lemma yaml_block_dash :
  yaml_reread 1 [(bs "t", YString (bs "a" ++ [10] ++ bs "- b") true)] =
  Some (0, [SerObject 1; SerKey (Some (bs "t")); SerArray 0; SerString (Some (bs "a" ++ [10] ++ bs "b")) true; SerEnd; SerEnd]).
Proof. by vm_compute. Qed.

(** Empty lines of a block are lost. *)
Lemma yaml_block_empty_line :
  yaml_reread 1 [(bs "t", YString (bs "a" ++ [10; 10] ++ bs "b") true)] =
  Some (0, [SerObject 1; SerKey (Some (bs "t")); SerString (Some (bs "a" ++ [10] ++ bs "b")) true; SerEnd]).
Proof. by vm_compute. Qed.

(** A quoted item with a colon and a blank is read as a key. *)
Lemma yaml_item_colon :
  yaml_reread 1 [(bs "t", YArray [YString (bs "a: b") false])] =
  Some (0, [SerObject 1; SerKey (Some (bs "t")); SerComment (Some (bs " 1 items")); SerArray 0; SerObject 0; SerKey (Some (39 :: bs "a"));
    SerString (Some (bs "b" ++ [39])) false; SerEnd; SerEnd; SerEnd]).
Proof. by vm_compute. Qed.

(** started[64] is written past its end by a text with 64 levels. *)
Lemma yaml_nesting_overrun :
  adb_walk_yaml ser_log 4096 [] (bs "#%SCHEMA: 1" ++ 10 :: unlines (map (fun d => pad (Z.of_nat d) ++ bs "a:") (seq 0 64))) = None.
Proof. by vm_compute. Qed.
