(* ===== verification/SolverState.v ===== *)
(** State of the dependency solver (solver.c, apk_solver_data.h, apk_solver.h): the records the
    solver attaches to names and packages, its queues, and the database as the solver sees it.

    Names are interned, so a name is its text; packages are compared by address.  The solver
    state of names and packages is kept in maps on the side of the (constant) database. *)
From Stdlib Require Import ZArith Lia.
From stdpp Require Import base numbers list option gmap.
From S2P Require Import Prelude Clib Blob Version Dep Package.

(** ** The database *)

(** struct apk_name *)
Record apk_name := Name {
  nm_providers : list (apk_package * bytes);
  nm_rdepends : list bytes;
  nm_rinstall_if : list bytes;
  nm_solver_flags_set : bool;
}.

(** struct apk_database, the part the solver reads.  [db_installed] is the list of installed
    packages in its order. *)
Record apk_database := Database {
  db_names : gmap bytes apk_name;
  db_installed : list apk_package;
  db_repo_tags : repo_tags;
  db_available_repos : Z;
  db_active_layers : Z;
  db_performing_self_upgrade : bool;
  db_force_broken_world : bool;
}.

Definition name_none : apk_name := Name [] [] [] false.
Definition db_name (db : apk_database) (n : bytes) : apk_name := default name_none (db_names db !! n).
Definition providers (db : apk_database) (n : bytes) : list (apk_package * bytes) := nm_providers (db_name db n).
Definition rdepends (db : apk_database) (n : bytes) : list bytes := nm_rdepends (db_name db n).
Definition rinstall_if (db : apk_database) (n : bytes) : list bytes := nm_rinstall_if (db_name db n).

(** A provider of a name as the C structure. *)
Definition prov (p : apk_package * bytes) : apk_provider := Provider (Some p.1) p.2.
Definition provider_none : apk_provider := Provider None [].

(** ** Solver state *)

(** struct apk_change *)
Record apk_change := Change {
  old_pkg : option apk_package;
  new_pkg : option apk_package;
  old_repository_tag : Z;
  new_repository_tag : Z;
  reinstall : bool;
}.

(** struct apk_solver_name_state.  The links of the dirty and unresolved lists are the lists of
    the solver state; the two fields that share their storage are only used after the lists. *)
Record apk_solver_name_state := NS {
  ns_chosen : apk_provider;
  ns_installed_name : option bytes;
  ns_installed_pkg : option apk_package;
  ns_order_id : Z;
  ns_requirers : Z;
  ns_merge_depends : Z;
  ns_merge_provides : Z;
  ns_seen : bool;
  ns_locked : bool;
  ns_changeset_processed : bool;
  ns_changeset_removed : bool;
  ns_reevaluate_deps : bool;
  ns_reevaluate_iif : bool;
  ns_has_iif : bool;
  ns_no_iif : bool;
  ns_has_options : bool;
  ns_reverse_deps_done : bool;
  ns_has_virtual_provides : bool;
  ns_has_auto_selectable : bool;
  ns_iif_needed : bool;
  ns_resolvenow : bool;
}.

Definition set_ns_chosen (v : apk_provider) (r : apk_solver_name_state) : apk_solver_name_state :=
  NS v (ns_installed_name r) (ns_installed_pkg r) (ns_order_id r) (ns_requirers r)
    (ns_merge_depends r) (ns_merge_provides r) (ns_seen r) (ns_locked r)
    (ns_changeset_processed r) (ns_changeset_removed r) (ns_reevaluate_deps r)
    (ns_reevaluate_iif r) (ns_has_iif r) (ns_no_iif r) (ns_has_options r)
    (ns_reverse_deps_done r) (ns_has_virtual_provides r) (ns_has_auto_selectable r)
    (ns_iif_needed r) (ns_resolvenow r).
Definition set_ns_installed_name (v : option bytes) (r : apk_solver_name_state) : apk_solver_name_state :=
  NS (ns_chosen r) v (ns_installed_pkg r) (ns_order_id r) (ns_requirers r) (ns_merge_depends
    r) (ns_merge_provides r) (ns_seen r) (ns_locked r) (ns_changeset_processed r)
    (ns_changeset_removed r) (ns_reevaluate_deps r) (ns_reevaluate_iif r) (ns_has_iif r)
    (ns_no_iif r) (ns_has_options r) (ns_reverse_deps_done r) (ns_has_virtual_provides r)
    (ns_has_auto_selectable r) (ns_iif_needed r) (ns_resolvenow r).
Definition set_ns_installed_pkg (v : option apk_package) (r : apk_solver_name_state) : apk_solver_name_state :=
  NS (ns_chosen r) (ns_installed_name r) v (ns_order_id r) (ns_requirers r)
    (ns_merge_depends r) (ns_merge_provides r) (ns_seen r) (ns_locked r)
    (ns_changeset_processed r) (ns_changeset_removed r) (ns_reevaluate_deps r)
    (ns_reevaluate_iif r) (ns_has_iif r) (ns_no_iif r) (ns_has_options r)
    (ns_reverse_deps_done r) (ns_has_virtual_provides r) (ns_has_auto_selectable r)
    (ns_iif_needed r) (ns_resolvenow r).
Definition set_ns_order_id (v : Z) (r : apk_solver_name_state) : apk_solver_name_state :=
  NS (ns_chosen r) (ns_installed_name r) (ns_installed_pkg r) v (ns_requirers r)
    (ns_merge_depends r) (ns_merge_provides r) (ns_seen r) (ns_locked r)
    (ns_changeset_processed r) (ns_changeset_removed r) (ns_reevaluate_deps r)
    (ns_reevaluate_iif r) (ns_has_iif r) (ns_no_iif r) (ns_has_options r)
    (ns_reverse_deps_done r) (ns_has_virtual_provides r) (ns_has_auto_selectable r)
    (ns_iif_needed r) (ns_resolvenow r).
Definition set_ns_requirers (v : Z) (r : apk_solver_name_state) : apk_solver_name_state :=
  NS (ns_chosen r) (ns_installed_name r) (ns_installed_pkg r) (ns_order_id r) v
    (ns_merge_depends r) (ns_merge_provides r) (ns_seen r) (ns_locked r)
    (ns_changeset_processed r) (ns_changeset_removed r) (ns_reevaluate_deps r)
    (ns_reevaluate_iif r) (ns_has_iif r) (ns_no_iif r) (ns_has_options r)
    (ns_reverse_deps_done r) (ns_has_virtual_provides r) (ns_has_auto_selectable r)
    (ns_iif_needed r) (ns_resolvenow r).
Definition set_ns_merge_depends (v : Z) (r : apk_solver_name_state) : apk_solver_name_state :=
  NS (ns_chosen r) (ns_installed_name r) (ns_installed_pkg r) (ns_order_id r) (ns_requirers
    r) v (ns_merge_provides r) (ns_seen r) (ns_locked r) (ns_changeset_processed r)
    (ns_changeset_removed r) (ns_reevaluate_deps r) (ns_reevaluate_iif r) (ns_has_iif r)
    (ns_no_iif r) (ns_has_options r) (ns_reverse_deps_done r) (ns_has_virtual_provides r)
    (ns_has_auto_selectable r) (ns_iif_needed r) (ns_resolvenow r).
Definition set_ns_merge_provides (v : Z) (r : apk_solver_name_state) : apk_solver_name_state :=
  NS (ns_chosen r) (ns_installed_name r) (ns_installed_pkg r) (ns_order_id r) (ns_requirers
    r) (ns_merge_depends r) v (ns_seen r) (ns_locked r) (ns_changeset_processed r)
    (ns_changeset_removed r) (ns_reevaluate_deps r) (ns_reevaluate_iif r) (ns_has_iif r)
    (ns_no_iif r) (ns_has_options r) (ns_reverse_deps_done r) (ns_has_virtual_provides r)
    (ns_has_auto_selectable r) (ns_iif_needed r) (ns_resolvenow r).
Definition set_ns_seen (v : bool) (r : apk_solver_name_state) : apk_solver_name_state :=
  NS (ns_chosen r) (ns_installed_name r) (ns_installed_pkg r) (ns_order_id r) (ns_requirers
    r) (ns_merge_depends r) (ns_merge_provides r) v (ns_locked r) (ns_changeset_processed r)
    (ns_changeset_removed r) (ns_reevaluate_deps r) (ns_reevaluate_iif r) (ns_has_iif r)
    (ns_no_iif r) (ns_has_options r) (ns_reverse_deps_done r) (ns_has_virtual_provides r)
    (ns_has_auto_selectable r) (ns_iif_needed r) (ns_resolvenow r).
Definition set_ns_locked (v : bool) (r : apk_solver_name_state) : apk_solver_name_state :=
  NS (ns_chosen r) (ns_installed_name r) (ns_installed_pkg r) (ns_order_id r) (ns_requirers
    r) (ns_merge_depends r) (ns_merge_provides r) (ns_seen r) v (ns_changeset_processed r)
    (ns_changeset_removed r) (ns_reevaluate_deps r) (ns_reevaluate_iif r) (ns_has_iif r)
    (ns_no_iif r) (ns_has_options r) (ns_reverse_deps_done r) (ns_has_virtual_provides r)
    (ns_has_auto_selectable r) (ns_iif_needed r) (ns_resolvenow r).
Definition set_ns_changeset_processed (v : bool) (r : apk_solver_name_state) : apk_solver_name_state :=
  NS (ns_chosen r) (ns_installed_name r) (ns_installed_pkg r) (ns_order_id r) (ns_requirers
    r) (ns_merge_depends r) (ns_merge_provides r) (ns_seen r) (ns_locked r) v
    (ns_changeset_removed r) (ns_reevaluate_deps r) (ns_reevaluate_iif r) (ns_has_iif r)
    (ns_no_iif r) (ns_has_options r) (ns_reverse_deps_done r) (ns_has_virtual_provides r)
    (ns_has_auto_selectable r) (ns_iif_needed r) (ns_resolvenow r).
Definition set_ns_changeset_removed (v : bool) (r : apk_solver_name_state) : apk_solver_name_state :=
  NS (ns_chosen r) (ns_installed_name r) (ns_installed_pkg r) (ns_order_id r) (ns_requirers
    r) (ns_merge_depends r) (ns_merge_provides r) (ns_seen r) (ns_locked r)
    (ns_changeset_processed r) v (ns_reevaluate_deps r) (ns_reevaluate_iif r) (ns_has_iif r)
    (ns_no_iif r) (ns_has_options r) (ns_reverse_deps_done r) (ns_has_virtual_provides r)
    (ns_has_auto_selectable r) (ns_iif_needed r) (ns_resolvenow r).
Definition set_ns_reevaluate_deps (v : bool) (r : apk_solver_name_state) : apk_solver_name_state :=
  NS (ns_chosen r) (ns_installed_name r) (ns_installed_pkg r) (ns_order_id r) (ns_requirers
    r) (ns_merge_depends r) (ns_merge_provides r) (ns_seen r) (ns_locked r)
    (ns_changeset_processed r) (ns_changeset_removed r) v (ns_reevaluate_iif r) (ns_has_iif
    r) (ns_no_iif r) (ns_has_options r) (ns_reverse_deps_done r) (ns_has_virtual_provides r)
    (ns_has_auto_selectable r) (ns_iif_needed r) (ns_resolvenow r).
Definition set_ns_reevaluate_iif (v : bool) (r : apk_solver_name_state) : apk_solver_name_state :=
  NS (ns_chosen r) (ns_installed_name r) (ns_installed_pkg r) (ns_order_id r) (ns_requirers
    r) (ns_merge_depends r) (ns_merge_provides r) (ns_seen r) (ns_locked r)
    (ns_changeset_processed r) (ns_changeset_removed r) (ns_reevaluate_deps r) v (ns_has_iif
    r) (ns_no_iif r) (ns_has_options r) (ns_reverse_deps_done r) (ns_has_virtual_provides r)
    (ns_has_auto_selectable r) (ns_iif_needed r) (ns_resolvenow r).
Definition set_ns_has_iif (v : bool) (r : apk_solver_name_state) : apk_solver_name_state :=
  NS (ns_chosen r) (ns_installed_name r) (ns_installed_pkg r) (ns_order_id r) (ns_requirers
    r) (ns_merge_depends r) (ns_merge_provides r) (ns_seen r) (ns_locked r)
    (ns_changeset_processed r) (ns_changeset_removed r) (ns_reevaluate_deps r)
    (ns_reevaluate_iif r) v (ns_no_iif r) (ns_has_options r) (ns_reverse_deps_done r)
    (ns_has_virtual_provides r) (ns_has_auto_selectable r) (ns_iif_needed r) (ns_resolvenow
    r).
Definition set_ns_no_iif (v : bool) (r : apk_solver_name_state) : apk_solver_name_state :=
  NS (ns_chosen r) (ns_installed_name r) (ns_installed_pkg r) (ns_order_id r) (ns_requirers
    r) (ns_merge_depends r) (ns_merge_provides r) (ns_seen r) (ns_locked r)
    (ns_changeset_processed r) (ns_changeset_removed r) (ns_reevaluate_deps r)
    (ns_reevaluate_iif r) (ns_has_iif r) v (ns_has_options r) (ns_reverse_deps_done r)
    (ns_has_virtual_provides r) (ns_has_auto_selectable r) (ns_iif_needed r) (ns_resolvenow
    r).
Definition set_ns_has_options (v : bool) (r : apk_solver_name_state) : apk_solver_name_state :=
  NS (ns_chosen r) (ns_installed_name r) (ns_installed_pkg r) (ns_order_id r) (ns_requirers
    r) (ns_merge_depends r) (ns_merge_provides r) (ns_seen r) (ns_locked r)
    (ns_changeset_processed r) (ns_changeset_removed r) (ns_reevaluate_deps r)
    (ns_reevaluate_iif r) (ns_has_iif r) (ns_no_iif r) v (ns_reverse_deps_done r)
    (ns_has_virtual_provides r) (ns_has_auto_selectable r) (ns_iif_needed r) (ns_resolvenow
    r).
Definition set_ns_reverse_deps_done (v : bool) (r : apk_solver_name_state) : apk_solver_name_state :=
  NS (ns_chosen r) (ns_installed_name r) (ns_installed_pkg r) (ns_order_id r) (ns_requirers
    r) (ns_merge_depends r) (ns_merge_provides r) (ns_seen r) (ns_locked r)
    (ns_changeset_processed r) (ns_changeset_removed r) (ns_reevaluate_deps r)
    (ns_reevaluate_iif r) (ns_has_iif r) (ns_no_iif r) (ns_has_options r) v
    (ns_has_virtual_provides r) (ns_has_auto_selectable r) (ns_iif_needed r) (ns_resolvenow
    r).
Definition set_ns_has_virtual_provides (v : bool) (r : apk_solver_name_state) : apk_solver_name_state :=
  NS (ns_chosen r) (ns_installed_name r) (ns_installed_pkg r) (ns_order_id r) (ns_requirers
    r) (ns_merge_depends r) (ns_merge_provides r) (ns_seen r) (ns_locked r)
    (ns_changeset_processed r) (ns_changeset_removed r) (ns_reevaluate_deps r)
    (ns_reevaluate_iif r) (ns_has_iif r) (ns_no_iif r) (ns_has_options r)
    (ns_reverse_deps_done r) v (ns_has_auto_selectable r) (ns_iif_needed r) (ns_resolvenow
    r).
Definition set_ns_has_auto_selectable (v : bool) (r : apk_solver_name_state) : apk_solver_name_state :=
  NS (ns_chosen r) (ns_installed_name r) (ns_installed_pkg r) (ns_order_id r) (ns_requirers
    r) (ns_merge_depends r) (ns_merge_provides r) (ns_seen r) (ns_locked r)
    (ns_changeset_processed r) (ns_changeset_removed r) (ns_reevaluate_deps r)
    (ns_reevaluate_iif r) (ns_has_iif r) (ns_no_iif r) (ns_has_options r)
    (ns_reverse_deps_done r) (ns_has_virtual_provides r) v (ns_iif_needed r) (ns_resolvenow
    r).
Definition set_ns_iif_needed (v : bool) (r : apk_solver_name_state) : apk_solver_name_state :=
  NS (ns_chosen r) (ns_installed_name r) (ns_installed_pkg r) (ns_order_id r) (ns_requirers
    r) (ns_merge_depends r) (ns_merge_provides r) (ns_seen r) (ns_locked r)
    (ns_changeset_processed r) (ns_changeset_removed r) (ns_reevaluate_deps r)
    (ns_reevaluate_iif r) (ns_has_iif r) (ns_no_iif r) (ns_has_options r)
    (ns_reverse_deps_done r) (ns_has_virtual_provides r) (ns_has_auto_selectable r) v
    (ns_resolvenow r).
Definition set_ns_resolvenow (v : bool) (r : apk_solver_name_state) : apk_solver_name_state :=
  NS (ns_chosen r) (ns_installed_name r) (ns_installed_pkg r) (ns_order_id r) (ns_requirers
    r) (ns_merge_depends r) (ns_merge_provides r) (ns_seen r) (ns_locked r)
    (ns_changeset_processed r) (ns_changeset_removed r) (ns_reevaluate_deps r)
    (ns_reevaluate_iif r) (ns_has_iif r) (ns_no_iif r) (ns_has_options r)
    (ns_reverse_deps_done r) (ns_has_virtual_provides r) (ns_has_auto_selectable r)
    (ns_iif_needed r) v.


(** struct apk_solver_package_state *)
Record apk_solver_package_state := PSS {
  ps_conflicts : Z;
  ps_pinning_allowed : Z;
  ps_pinning_preferred : Z;
  ps_solver_flags : Z;
  ps_solver_flags_inheritable : Z;
  ps_seen : bool;
  ps_pkg_available : bool;
  ps_pkg_selectable : bool;
  ps_tag_ok : bool;
  ps_tag_preferred : bool;
  ps_dependencies_used : bool;
  ps_dependencies_merged : bool;
  ps_in_changeset : bool;
  ps_iif_triggered : bool;
  ps_iif_failed : bool;
  ps_error : bool;
}.

Definition set_ps_conflicts (v : Z) (r : apk_solver_package_state) : apk_solver_package_state :=
  PSS v (ps_pinning_allowed r) (ps_pinning_preferred r) (ps_solver_flags r)
    (ps_solver_flags_inheritable r) (ps_seen r) (ps_pkg_available r) (ps_pkg_selectable r)
    (ps_tag_ok r) (ps_tag_preferred r) (ps_dependencies_used r) (ps_dependencies_merged r)
    (ps_in_changeset r) (ps_iif_triggered r) (ps_iif_failed r) (ps_error r).
Definition set_ps_pinning_allowed (v : Z) (r : apk_solver_package_state) : apk_solver_package_state :=
  PSS (ps_conflicts r) v (ps_pinning_preferred r) (ps_solver_flags r)
    (ps_solver_flags_inheritable r) (ps_seen r) (ps_pkg_available r) (ps_pkg_selectable r)
    (ps_tag_ok r) (ps_tag_preferred r) (ps_dependencies_used r) (ps_dependencies_merged r)
    (ps_in_changeset r) (ps_iif_triggered r) (ps_iif_failed r) (ps_error r).
Definition set_ps_pinning_preferred (v : Z) (r : apk_solver_package_state) : apk_solver_package_state :=
  PSS (ps_conflicts r) (ps_pinning_allowed r) v (ps_solver_flags r)
    (ps_solver_flags_inheritable r) (ps_seen r) (ps_pkg_available r) (ps_pkg_selectable r)
    (ps_tag_ok r) (ps_tag_preferred r) (ps_dependencies_used r) (ps_dependencies_merged r)
    (ps_in_changeset r) (ps_iif_triggered r) (ps_iif_failed r) (ps_error r).
Definition set_ps_solver_flags (v : Z) (r : apk_solver_package_state) : apk_solver_package_state :=
  PSS (ps_conflicts r) (ps_pinning_allowed r) (ps_pinning_preferred r) v
    (ps_solver_flags_inheritable r) (ps_seen r) (ps_pkg_available r) (ps_pkg_selectable r)
    (ps_tag_ok r) (ps_tag_preferred r) (ps_dependencies_used r) (ps_dependencies_merged r)
    (ps_in_changeset r) (ps_iif_triggered r) (ps_iif_failed r) (ps_error r).
Definition set_ps_solver_flags_inheritable (v : Z) (r : apk_solver_package_state) : apk_solver_package_state :=
  PSS (ps_conflicts r) (ps_pinning_allowed r) (ps_pinning_preferred r) (ps_solver_flags r) v
    (ps_seen r) (ps_pkg_available r) (ps_pkg_selectable r) (ps_tag_ok r) (ps_tag_preferred
    r) (ps_dependencies_used r) (ps_dependencies_merged r) (ps_in_changeset r)
    (ps_iif_triggered r) (ps_iif_failed r) (ps_error r).
Definition set_ps_seen (v : bool) (r : apk_solver_package_state) : apk_solver_package_state :=
  PSS (ps_conflicts r) (ps_pinning_allowed r) (ps_pinning_preferred r) (ps_solver_flags r)
    (ps_solver_flags_inheritable r) v (ps_pkg_available r) (ps_pkg_selectable r) (ps_tag_ok
    r) (ps_tag_preferred r) (ps_dependencies_used r) (ps_dependencies_merged r)
    (ps_in_changeset r) (ps_iif_triggered r) (ps_iif_failed r) (ps_error r).
Definition set_ps_pkg_available (v : bool) (r : apk_solver_package_state) : apk_solver_package_state :=
  PSS (ps_conflicts r) (ps_pinning_allowed r) (ps_pinning_preferred r) (ps_solver_flags r)
    (ps_solver_flags_inheritable r) (ps_seen r) v (ps_pkg_selectable r) (ps_tag_ok r)
    (ps_tag_preferred r) (ps_dependencies_used r) (ps_dependencies_merged r)
    (ps_in_changeset r) (ps_iif_triggered r) (ps_iif_failed r) (ps_error r).
Definition set_ps_pkg_selectable (v : bool) (r : apk_solver_package_state) : apk_solver_package_state :=
  PSS (ps_conflicts r) (ps_pinning_allowed r) (ps_pinning_preferred r) (ps_solver_flags r)
    (ps_solver_flags_inheritable r) (ps_seen r) (ps_pkg_available r) v (ps_tag_ok r)
    (ps_tag_preferred r) (ps_dependencies_used r) (ps_dependencies_merged r)
    (ps_in_changeset r) (ps_iif_triggered r) (ps_iif_failed r) (ps_error r).
Definition set_ps_tag_ok (v : bool) (r : apk_solver_package_state) : apk_solver_package_state :=
  PSS (ps_conflicts r) (ps_pinning_allowed r) (ps_pinning_preferred r) (ps_solver_flags r)
    (ps_solver_flags_inheritable r) (ps_seen r) (ps_pkg_available r) (ps_pkg_selectable r) v
    (ps_tag_preferred r) (ps_dependencies_used r) (ps_dependencies_merged r)
    (ps_in_changeset r) (ps_iif_triggered r) (ps_iif_failed r) (ps_error r).
Definition set_ps_tag_preferred (v : bool) (r : apk_solver_package_state) : apk_solver_package_state :=
  PSS (ps_conflicts r) (ps_pinning_allowed r) (ps_pinning_preferred r) (ps_solver_flags r)
    (ps_solver_flags_inheritable r) (ps_seen r) (ps_pkg_available r) (ps_pkg_selectable r)
    (ps_tag_ok r) v (ps_dependencies_used r) (ps_dependencies_merged r) (ps_in_changeset r)
    (ps_iif_triggered r) (ps_iif_failed r) (ps_error r).
Definition set_ps_dependencies_used (v : bool) (r : apk_solver_package_state) : apk_solver_package_state :=
  PSS (ps_conflicts r) (ps_pinning_allowed r) (ps_pinning_preferred r) (ps_solver_flags r)
    (ps_solver_flags_inheritable r) (ps_seen r) (ps_pkg_available r) (ps_pkg_selectable r)
    (ps_tag_ok r) (ps_tag_preferred r) v (ps_dependencies_merged r) (ps_in_changeset r)
    (ps_iif_triggered r) (ps_iif_failed r) (ps_error r).
Definition set_ps_dependencies_merged (v : bool) (r : apk_solver_package_state) : apk_solver_package_state :=
  PSS (ps_conflicts r) (ps_pinning_allowed r) (ps_pinning_preferred r) (ps_solver_flags r)
    (ps_solver_flags_inheritable r) (ps_seen r) (ps_pkg_available r) (ps_pkg_selectable r)
    (ps_tag_ok r) (ps_tag_preferred r) (ps_dependencies_used r) v (ps_in_changeset r)
    (ps_iif_triggered r) (ps_iif_failed r) (ps_error r).
Definition set_ps_in_changeset (v : bool) (r : apk_solver_package_state) : apk_solver_package_state :=
  PSS (ps_conflicts r) (ps_pinning_allowed r) (ps_pinning_preferred r) (ps_solver_flags r)
    (ps_solver_flags_inheritable r) (ps_seen r) (ps_pkg_available r) (ps_pkg_selectable r)
    (ps_tag_ok r) (ps_tag_preferred r) (ps_dependencies_used r) (ps_dependencies_merged r) v
    (ps_iif_triggered r) (ps_iif_failed r) (ps_error r).
Definition set_ps_iif_triggered (v : bool) (r : apk_solver_package_state) : apk_solver_package_state :=
  PSS (ps_conflicts r) (ps_pinning_allowed r) (ps_pinning_preferred r) (ps_solver_flags r)
    (ps_solver_flags_inheritable r) (ps_seen r) (ps_pkg_available r) (ps_pkg_selectable r)
    (ps_tag_ok r) (ps_tag_preferred r) (ps_dependencies_used r) (ps_dependencies_merged r)
    (ps_in_changeset r) v (ps_iif_failed r) (ps_error r).
Definition set_ps_iif_failed (v : bool) (r : apk_solver_package_state) : apk_solver_package_state :=
  PSS (ps_conflicts r) (ps_pinning_allowed r) (ps_pinning_preferred r) (ps_solver_flags r)
    (ps_solver_flags_inheritable r) (ps_seen r) (ps_pkg_available r) (ps_pkg_selectable r)
    (ps_tag_ok r) (ps_tag_preferred r) (ps_dependencies_used r) (ps_dependencies_merged r)
    (ps_in_changeset r) (ps_iif_triggered r) v (ps_error r).
Definition set_ps_error (v : bool) (r : apk_solver_package_state) : apk_solver_package_state :=
  PSS (ps_conflicts r) (ps_pinning_allowed r) (ps_pinning_preferred r) (ps_solver_flags r)
    (ps_solver_flags_inheritable r) (ps_seen r) (ps_pkg_available r) (ps_pkg_selectable r)
    (ps_tag_ok r) (ps_tag_preferred r) (ps_dependencies_used r) (ps_dependencies_merged r)
    (ps_in_changeset r) (ps_iif_triggered r) (ps_iif_failed r) v.


Definition ns0 : apk_solver_name_state :=
  NS provider_none None None 0 0 0 0 false false false false false false false false false false false false false false.
Definition ps0 : apk_solver_package_state :=
  PSS 0 0 0 0 0 false false false false false false false false false false false.

(** struct apk_solver_state, with the states of the names and packages it works on and the
    change set.  The members of a queue are the names whose list node is linked.
    [ss_errors] grows at most once per package and once per name.  [ss_wrapped] is not in the
    program: it records that the 16-bit count of requirers of some name went past its maximum. *)
Record apk_solver_state := SS {
  ss_names : gmap bytes apk_solver_name_state;
  ss_pkgs : gmap Z apk_solver_package_state;
  ss_dirty : list bytes;
  ss_unresolved : list bytes;
  ss_selectable : list bytes;
  ss_resolvenow : list bytes;
  ss_errors : Z;
  ss_solver_flags_inherit : Z;
  ss_pinning_inherit : Z;
  ss_order_id : Z;
  ss_changes : list apk_change;
  ss_num_install : Z;
  ss_num_remove : Z;
  ss_num_adjust : Z;
  ss_wrapped : bool;
}.

Definition set_ss_names (v : gmap bytes apk_solver_name_state) (r : apk_solver_state) : apk_solver_state :=
  SS v (ss_pkgs r) (ss_dirty r) (ss_unresolved r) (ss_selectable r) (ss_resolvenow r)
    (ss_errors r) (ss_solver_flags_inherit r) (ss_pinning_inherit r) (ss_order_id r)
    (ss_changes r) (ss_num_install r) (ss_num_remove r) (ss_num_adjust r) (ss_wrapped r).
Definition set_ss_pkgs (v : gmap Z apk_solver_package_state) (r : apk_solver_state) : apk_solver_state :=
  SS (ss_names r) v (ss_dirty r) (ss_unresolved r) (ss_selectable r) (ss_resolvenow r)
    (ss_errors r) (ss_solver_flags_inherit r) (ss_pinning_inherit r) (ss_order_id r)
    (ss_changes r) (ss_num_install r) (ss_num_remove r) (ss_num_adjust r) (ss_wrapped r).
Definition set_ss_dirty (v : list bytes) (r : apk_solver_state) : apk_solver_state :=
  SS (ss_names r) (ss_pkgs r) v (ss_unresolved r) (ss_selectable r) (ss_resolvenow r)
    (ss_errors r) (ss_solver_flags_inherit r) (ss_pinning_inherit r) (ss_order_id r)
    (ss_changes r) (ss_num_install r) (ss_num_remove r) (ss_num_adjust r) (ss_wrapped r).
Definition set_ss_unresolved (v : list bytes) (r : apk_solver_state) : apk_solver_state :=
  SS (ss_names r) (ss_pkgs r) (ss_dirty r) v (ss_selectable r) (ss_resolvenow r) (ss_errors
    r) (ss_solver_flags_inherit r) (ss_pinning_inherit r) (ss_order_id r) (ss_changes r)
    (ss_num_install r) (ss_num_remove r) (ss_num_adjust r) (ss_wrapped r).
Definition set_ss_selectable (v : list bytes) (r : apk_solver_state) : apk_solver_state :=
  SS (ss_names r) (ss_pkgs r) (ss_dirty r) (ss_unresolved r) v (ss_resolvenow r) (ss_errors
    r) (ss_solver_flags_inherit r) (ss_pinning_inherit r) (ss_order_id r) (ss_changes r)
    (ss_num_install r) (ss_num_remove r) (ss_num_adjust r) (ss_wrapped r).
Definition set_ss_resolvenow (v : list bytes) (r : apk_solver_state) : apk_solver_state :=
  SS (ss_names r) (ss_pkgs r) (ss_dirty r) (ss_unresolved r) (ss_selectable r) v (ss_errors
    r) (ss_solver_flags_inherit r) (ss_pinning_inherit r) (ss_order_id r) (ss_changes r)
    (ss_num_install r) (ss_num_remove r) (ss_num_adjust r) (ss_wrapped r).
Definition set_ss_errors (v : Z) (r : apk_solver_state) : apk_solver_state :=
  SS (ss_names r) (ss_pkgs r) (ss_dirty r) (ss_unresolved r) (ss_selectable r)
    (ss_resolvenow r) v (ss_solver_flags_inherit r) (ss_pinning_inherit r) (ss_order_id r)
    (ss_changes r) (ss_num_install r) (ss_num_remove r) (ss_num_adjust r) (ss_wrapped r).
Definition set_ss_solver_flags_inherit (v : Z) (r : apk_solver_state) : apk_solver_state :=
  SS (ss_names r) (ss_pkgs r) (ss_dirty r) (ss_unresolved r) (ss_selectable r)
    (ss_resolvenow r) (ss_errors r) v (ss_pinning_inherit r) (ss_order_id r) (ss_changes r)
    (ss_num_install r) (ss_num_remove r) (ss_num_adjust r) (ss_wrapped r).
Definition set_ss_pinning_inherit (v : Z) (r : apk_solver_state) : apk_solver_state :=
  SS (ss_names r) (ss_pkgs r) (ss_dirty r) (ss_unresolved r) (ss_selectable r)
    (ss_resolvenow r) (ss_errors r) (ss_solver_flags_inherit r) v (ss_order_id r)
    (ss_changes r) (ss_num_install r) (ss_num_remove r) (ss_num_adjust r) (ss_wrapped r).
Definition set_ss_order_id (v : Z) (r : apk_solver_state) : apk_solver_state :=
  SS (ss_names r) (ss_pkgs r) (ss_dirty r) (ss_unresolved r) (ss_selectable r)
    (ss_resolvenow r) (ss_errors r) (ss_solver_flags_inherit r) (ss_pinning_inherit r) v
    (ss_changes r) (ss_num_install r) (ss_num_remove r) (ss_num_adjust r) (ss_wrapped r).
Definition set_ss_changes (v : list apk_change) (r : apk_solver_state) : apk_solver_state :=
  SS (ss_names r) (ss_pkgs r) (ss_dirty r) (ss_unresolved r) (ss_selectable r)
    (ss_resolvenow r) (ss_errors r) (ss_solver_flags_inherit r) (ss_pinning_inherit r)
    (ss_order_id r) v (ss_num_install r) (ss_num_remove r) (ss_num_adjust r) (ss_wrapped r).
Definition set_ss_num_install (v : Z) (r : apk_solver_state) : apk_solver_state :=
  SS (ss_names r) (ss_pkgs r) (ss_dirty r) (ss_unresolved r) (ss_selectable r)
    (ss_resolvenow r) (ss_errors r) (ss_solver_flags_inherit r) (ss_pinning_inherit r)
    (ss_order_id r) (ss_changes r) v (ss_num_remove r) (ss_num_adjust r) (ss_wrapped r).
Definition set_ss_num_remove (v : Z) (r : apk_solver_state) : apk_solver_state :=
  SS (ss_names r) (ss_pkgs r) (ss_dirty r) (ss_unresolved r) (ss_selectable r)
    (ss_resolvenow r) (ss_errors r) (ss_solver_flags_inherit r) (ss_pinning_inherit r)
    (ss_order_id r) (ss_changes r) (ss_num_install r) v (ss_num_adjust r) (ss_wrapped r).
Definition set_ss_num_adjust (v : Z) (r : apk_solver_state) : apk_solver_state :=
  SS (ss_names r) (ss_pkgs r) (ss_dirty r) (ss_unresolved r) (ss_selectable r)
    (ss_resolvenow r) (ss_errors r) (ss_solver_flags_inherit r) (ss_pinning_inherit r)
    (ss_order_id r) (ss_changes r) (ss_num_install r) (ss_num_remove r) v (ss_wrapped r).
Definition set_ss_wrapped (v : bool) (r : apk_solver_state) : apk_solver_state :=
  SS (ss_names r) (ss_pkgs r) (ss_dirty r) (ss_unresolved r) (ss_selectable r)
    (ss_resolvenow r) (ss_errors r) (ss_solver_flags_inherit r) (ss_pinning_inherit r)
    (ss_order_id r) (ss_changes r) (ss_num_install r) (ss_num_remove r) (ss_num_adjust r) v.

Definition ss0 : apk_solver_state := SS ∅ ∅ [] [] [] [] 0 0 0 0 [] 0 0 0 false.

Definition nss (s : apk_solver_state) (n : bytes) : apk_solver_name_state := default ns0 (ss_names s !! n).
Definition pss (s : apk_solver_state) (p : apk_package) : apk_solver_package_state := default ps0 (ss_pkgs s !! pkg_addr p).

Definition upd_n (n : bytes) (f : apk_solver_name_state -> apk_solver_name_state) (s : apk_solver_state) : apk_solver_state :=
  set_ss_names (<[n := f (nss s n)]> (ss_names s)) s.
Definition upd_p (p : apk_package) (f : apk_solver_package_state -> apk_solver_package_state) (s : apk_solver_state) : apk_solver_state :=
  set_ss_pkgs (<[pkg_addr p := f (pss s p)]> (ss_pkgs s)) s.

(** A loop over a list that threads the state. *)
Definition for_each {A} (l : list A) (f : A -> apk_solver_state -> apk_solver_state) (s : apk_solver_state) : apk_solver_state :=
  foldl (fun s x => f x s) s l.

(** The same for a body that may run out of fuel. *)
Definition for_eachM {A} (l : list A) (f : A -> apk_solver_state -> option apk_solver_state) (s : apk_solver_state)
  : option apk_solver_state :=
  foldl (fun o x => s ← o; f x s) (Some s) l.

Lemma nss_upd_n s n f m : nss (upd_n n f s) m = if bool_decide (m = n) then f (nss s n) else nss s m.
Proof.
  unfold nss, upd_n. cbn [set_ss_names ss_names]. case_bool_decide as E.
  - subst m. by rewrite lookup_insert_eq.
  - by rewrite lookup_insert_ne.
Qed.

Lemma pss_upd_n s n f p : pss (upd_n n f s) p = pss s p.
Proof. done. Qed.

Lemma pss_upd_p s p f q : pss (upd_p p f s) q = if bool_decide (pkg_addr q = pkg_addr p) then f (pss s p) else pss s q.
Proof.
  unfold pss, upd_p. cbn [set_ss_pkgs ss_pkgs]. case_bool_decide as E.
  - rewrite E. by rewrite lookup_insert_eq.
  - by rewrite lookup_insert_ne.
Qed.

Lemma nss_upd_p s p f n : nss (upd_p p f s) n = nss s n.
Proof. done. Qed.

Lemma upd_p_upd_p p f g s : upd_p p f (upd_p p g s) = upd_p p (fun x => f (g x)) s.
Proof.
  unfold upd_p at 1. rewrite pss_upd_p, bool_decide_eq_true_2 by done.
  unfold upd_p. cbn [set_ss_pkgs ss_pkgs]. by rewrite insert_insert_eq.
Qed.
