(* ===== verification/Solver.v ===== *)
(** The dependency solver (solver.c): discovery of names, constraint propagation, selection of
    packages, generation of the change set, and the driver.

    Loops over arrays are folds over lists.  The recursive functions and the main loop take
    fuel and give [None] when it runs out; SolverThm.v shows how much is enough.  The state has one
    field the code does not have, [ss_wrapped]: it says that a 16-bit count of requirers wrapped
    around in the current pass. *)
From Stdlib Require Import ZArith Lia.
From stdpp Require Import base numbers list option gmap.
From S2P Require Import Prelude Clib Blob Version Dep Package SolverState.

Definition APK_SOLVERF_UPGRADE : Z := 0x0001.
Definition APK_SOLVERF_AVAILABLE : Z := 0x0002.
Definition APK_SOLVERF_REINSTALL : Z := 0x0004.
Definition APK_SOLVERF_LATEST : Z := 0x0008.
Definition APK_SOLVERF_IGNORE_CONFLICT : Z := 0x0010.
Definition APK_SOLVERF_INSTALLED : Z := 0x0020.
Definition APK_SOLVERF_REMOVE : Z := 0x0040.

Definition APK_DEFAULT_PINNING_MASK : Z := BIT APK_DEFAULT_REPOSITORY_TAG.

Definition flag (flags f : Z) : bool := negb (flags .& f =? 0).

(** ** Repositories and tags *)

Fixpoint pinning_mask_repos_loop (tags : repo_tags) (i mask acc : Z) : Z :=
  match tags with
  | [] => acc
  | t :: tags =>
      if mask =? 0 then acc
      else if BIT i .& mask =? 0 then pinning_mask_repos_loop tags (i + 1) mask acc
      else pinning_mask_repos_loop tags (i + 1) (u16 (Z.ldiff mask (BIT i))) (acc .| allowed_repos t)
  end.

Definition apk_db_get_pinning_mask_repos (db : apk_database) (pinning_mask : Z) : Z :=
  pinning_mask_repos_loop (db_repo_tags db) 0 (u16 pinning_mask) 0.

Definition apk_db_pkg_available (db : apk_database) (pkg : apk_package) : bool :=
  flag (repos pkg) (db_available_repos db).

Fixpoint get_tag_loop (tags : repo_tags) (i pinning_mask repos : Z) : Z :=
  match tags with
  | [] => APK_DEFAULT_REPOSITORY_TAG
  | t :: tags =>
      if BIT i .& pinning_mask =? 0 then get_tag_loop tags (i + 1) pinning_mask repos
      else if flag (allowed_repos t) repos then i
      else get_tag_loop tags (i + 1) pinning_mask repos
  end.

Definition get_tag (db : apk_database) (pinning_mask repos : Z) : Z :=
  get_tag_loop (db_repo_tags db) 0 pinning_mask repos.

Definition get_pkg_repos (db : apk_database) (pkg : apk_package) : Z :=
  repos pkg .| match ipkg pkg with
               | Some ip => allowed_repos (znth (RepoTag 0 [] []) (db_repo_tags db) (repository_tag ip))
               | None => 0
               end.

(** pkg->ipkg != NULL *)
Definition installed (pkg : apk_package) : bool := match ipkg pkg with Some _ => true | None => false end.

(** version == &apk_atom_null: atoms are shared, and the empty one is that object. *)
Definition null_version (v : bytes) : bool := bool_decide (v = []).

(** The flag of the name, and the flags of its providers. *)
Definition apk_solver_set_name_flags (db : apk_database) (name : bytes) (solver_flags inheritable : Z) (s : apk_solver_state)
  : apk_database * apk_solver_state :=
  (Database (<[name := Name (providers db name) (rdepends db name) (rinstall_if db name) true]> (db_names db))
     (db_installed db) (db_repo_tags db) (db_available_repos db) (db_active_layers db)
     (db_performing_self_upgrade db) (db_force_broken_world db),
   for_each (providers db name)
     (fun p => upd_p p.1 (fun ps => set_ps_solver_flags_inheritable (u16 (ps_solver_flags_inheritable ps .| inheritable))
                                      (set_ps_solver_flags (u16 (ps_solver_flags ps .| solver_flags)) ps))) s).

Section Solver.
Context `{UndefChecksum}.
Context (db : apk_database) (default_repos : Z) (ignore_conflict : bool).

Definition mark_error (pkg : option apk_package) (s : apk_solver_state) : apk_solver_state :=
  match pkg with
  | None => s
  | Some pkg =>
      if ps_error (pss s pkg) then s
      else set_ss_errors (ss_errors s + 1) (upd_p pkg (set_ps_error true) s)
  end.

(** ** Queues *)

Definition on_dirty (s : apk_solver_state) (n : bytes) : bool := bool_decide (n ∈ ss_dirty s).
Definition on_unresolved (s : apk_solver_state) (n : bytes) : bool :=
  bool_decide (n ∈ ss_unresolved s) || bool_decide (n ∈ ss_selectable s) || bool_decide (n ∈ ss_resolvenow s).

Definition unlink (n : bytes) (l : list bytes) : list bytes := filter (fun m => m <> n) l.

Definition unlink_unresolved (n : bytes) (s : apk_solver_state) : apk_solver_state :=
  set_ss_unresolved (unlink n (ss_unresolved s))
    (set_ss_selectable (unlink n (ss_selectable s)) (set_ss_resolvenow (unlink n (ss_resolvenow s)) s)).
Definition unlink_dirty (n : bytes) (s : apk_solver_state) : apk_solver_state :=
  set_ss_dirty (unlink n (ss_dirty s)) s.

Definition queue_dirty (name : bytes) (s : apk_solver_state) : apk_solver_state :=
  let n := nss s name in
  if on_dirty s name || ns_locked n || ((ns_requirers n =? 0) && negb (ns_reevaluate_iif n)) then s
  else set_ss_dirty (ss_dirty s ++ [name]) s.

Definition queue_resolvenow (s : apk_solver_state) (name : bytes) : bool :=
  let n := nss s name in
  ns_reverse_deps_done n && negb (ns_requirers n =? 0) && ns_has_auto_selectable n && negb (ns_has_options n).

Fixpoint queue_insert (s : apk_solver_state) (head : list bytes) (name : bytes) : list bytes :=
  match head with
  | [] => [name]
  | name0 :: head' =>
      if ns_order_id (nss s name) <? ns_order_id (nss s name0) then name0 :: queue_insert s head' name
      else name :: head
  end.

(** Linking a name that is on none of the three lists. *)
Definition link_unresolved (name : bytes) (s : apk_solver_state) : apk_solver_state :=
  if ns_resolvenow (nss s name) then set_ss_resolvenow (ss_resolvenow s ++ [name]) s
  else if ns_has_auto_selectable (nss s name) then set_ss_selectable (queue_insert s (ss_selectable s) name) s
  else set_ss_unresolved (queue_insert s (ss_unresolved s) name) s.

Definition queue_unresolved (name : bytes) (reevaluate : bool) (s : apk_solver_state) : apk_solver_state :=
  let n := nss s name in
  if ns_locked n then s
  else if on_unresolved s name then
    if ns_resolvenow n then s
    else if queue_resolvenow s name
    then link_unresolved name (unlink_unresolved name (upd_n name (set_ns_resolvenow true) s))
    else if negb reevaluate then s
    else link_unresolved name (unlink_unresolved name s)
  else if (ns_requirers n =? 0) && negb (ns_has_iif n) && negb (ns_iif_needed n) then s
  else link_unresolved name (upd_n name (set_ns_resolvenow (queue_resolvenow s name)) s).

(** ** Propagation upwards *)

Definition reevaluate_reverse_deps (name : bytes) (s : apk_solver_state) : apk_solver_state :=
  for_each (rdepends db name)
    (fun name0 s => if negb (ns_seen (nss s name0)) then s
                    else queue_dirty name0 (upd_n name0 (set_ns_reevaluate_deps true) s)) s.

Definition reevaluate_reverse_installif (name : bytes) (s : apk_solver_state) : apk_solver_state :=
  for_each (rinstall_if db name)
    (fun name0 s => if negb (ns_seen (nss s name0)) then s
                    else if ns_no_iif (nss s name0) then s
                    else queue_dirty name0 (upd_n name0 (set_ns_reevaluate_iif true) s)) s.

Definition reevaluate_reverse_installif_pkg (pkg : apk_package) (s : apk_solver_state) : apk_solver_state :=
  for_each (provides pkg) (fun d => reevaluate_reverse_installif (dep_name d))
    (reevaluate_reverse_installif (pkg_nm pkg) s).

Definition disqualify_package (pkg : apk_package) (s : apk_solver_state) : apk_solver_state :=
  let s := upd_p pkg (set_ps_pkg_selectable false) s in
  let s := reevaluate_reverse_deps (pkg_nm pkg) s in
  let s := for_each (provides pkg) (fun p => reevaluate_reverse_deps (dep_name p)) s in
  reevaluate_reverse_installif_pkg pkg s.

Definition dependency_satisfiable (s : apk_solver_state) (dpkg : apk_package) (dep : apk_dependency) : bool :=
  let n := nss s (dep_name dep) in
  if apk_dep_conflict dep && ignore_conflict then true
  else if ns_locked n then apk_dep_is_provided (Some dpkg) dep (Some (ns_chosen n))
  else if (ns_requirers n =? 0) && apk_dep_is_provided (Some dpkg) dep (Some provider_none) then true
  else existsb (fun p => ps_pkg_selectable (pss s p.1) && apk_dep_is_provided (Some dpkg) dep (Some (prov p)))
         (providers db (dep_name dep)).

(** ** Discovery *)

(** The state of a package when it is first seen. *)
Definition discover_package (pkg : apk_package) (s : apk_solver_state) : apk_solver_state :=
  let repos := get_pkg_repos db pkg in
  let available := negb (filename_ndx pkg =? 0) || apk_db_pkg_available db pkg in
  let selectable :=
    negb (uninstallable pkg) && flag (BIT (layer pkg)) (db_active_layers db) &&
    (available || cached pkg || negb (filename_ndx pkg =? 0) || cached_non_repository pkg ||
     (installed_size pkg =? 0) || installed pkg) in
  let iif_failed :=
    bool_decide (install_if pkg = []) || (flag (ss_solver_flags_inherit s) APK_SOLVERF_AVAILABLE && negb available) in
  let tag_preferred := negb (filename_ndx pkg =? 0) || (installed_size pkg =? 0) || flag repos default_repos in
  let tag_ok := tag_preferred || cached_non_repository pkg || installed pkg in
  upd_p pkg (fun ps =>
    set_ps_tag_ok tag_ok (set_ps_tag_preferred tag_preferred (set_ps_iif_failed iif_failed
      (set_ps_pkg_selectable selectable (set_ps_pkg_available available
        (set_ps_pinning_preferred APK_DEFAULT_PINNING_MASK (set_ps_pinning_allowed APK_DEFAULT_PINNING_MASK
          (set_ps_seen true ps)))))))) s.

Fixpoint discover_name (fuel : nat) (name : bytes) (s : apk_solver_state) : option apk_solver_state :=
  match fuel with
  | O => None
  | S fuel =>
      if ns_seen (nss s name) then Some s
      else
        let s := upd_n name (fun n => set_ns_no_iif true (set_ns_seen true n)) s in
        s ← for_eachM (providers db name) (fun p s =>
              let pkg := p.1 in
              s ← (if ps_seen (pss s pkg) then Some s
                   else for_eachM (depends pkg) (fun dep => discover_name fuel (dep_name dep)) (discover_package pkg s));
              Some (upd_n name (fun n => set_ns_no_iif (ns_no_iif n && ps_iif_failed (pss s pkg)) n) s)) s;
        s ← for_eachM (rinstall_if db name) (discover_name fuel) s;
        s ← for_eachM (providers db name) (fun p s =>
              s ← for_eachM (rinstall_if db (pkg_nm p.1)) (discover_name fuel) s;
              for_eachM (provides p.1) (fun dep => discover_name fuel (dep_name dep)) s) s;
        let oid := u32 (ss_order_id s + 1) in
        let s := set_ss_order_id oid s in
        let s := upd_n name (set_ns_order_id (s32 ((if nm_solver_flags_set (db_name db name) then 0 else BIT 31) .| oid))) s in
        for_eachM (providers db name) (fun p =>
          for_eachM (install_if p.1) (fun dep => discover_name fuel (dep_name dep))) s
  end.

(** ** Constraints *)

(** Increment of the 16-bit count of requirers. *)
Definition add_requirer (name : bytes) (s : apk_solver_state) : apk_solver_state :=
  let r := ns_requirers (nss s name) in
  let s := if r =? 0xffff then set_ss_wrapped true s else s in
  upd_n name (set_ns_requirers (u16 (r + 1))) s.

Definition name_requirers_changed (name : bytes) (s : apk_solver_state) : apk_solver_state :=
  queue_dirty name (reevaluate_reverse_installif name (queue_unresolved name false s)).

Definition inherit_pinning_and_flags (pkg : apk_package) (ppkg : option apk_package) (s : apk_solver_state) : apk_solver_state :=
  let repos := get_pkg_repos db pkg in
  let s :=
    match ppkg with
    | Some ppkg =>
        let pp := pss s ppkg in
        upd_p pkg (fun ps =>
          set_ps_pinning_allowed (ps_pinning_allowed ps .| ps_pinning_allowed pp)
            (set_ps_solver_flags_inheritable (ps_solver_flags_inheritable ps .| ps_solver_flags_inheritable pp)
              (set_ps_solver_flags (ps_solver_flags ps .| ps_solver_flags_inheritable pp) ps))) s
    | None =>
        upd_p pkg (fun ps =>
          let preferred := u16 (ss_pinning_inherit s) in
          set_ps_tag_preferred (flag repos (apk_db_get_pinning_mask_repos db preferred))
            (set_ps_pinning_preferred preferred
              (set_ps_pinning_allowed (u16 (ps_pinning_allowed ps .| ss_pinning_inherit s))
                (set_ps_solver_flags_inheritable (u16 (ps_solver_flags_inheritable ps .| ss_solver_flags_inherit s))
                  (set_ps_solver_flags (u16 (ps_solver_flags ps .| ss_solver_flags_inherit s)) ps))))) s
    end in
  upd_p pkg (fun ps => set_ps_tag_ok (ps_tag_ok ps || flag repos (apk_db_get_pinning_mask_repos db (ps_pinning_allowed ps))) ps) s.

(** The effect of a constraint on one provider of its name. *)
Definition constrain_provider (ppkg : option apk_package) (dep : apk_dependency) (p0 : apk_package * bytes)
    (s : apk_solver_state) : apk_solver_state :=
  let pkg0 := p0.1 in
  let is_provided := apk_dep_is_provided ppkg dep (Some (prov p0)) in
  let s := upd_p pkg0 (fun ps => set_ps_conflicts (u32 (ps_conflicts ps + Z.b2z (negb is_provided))) ps) s in
  let s := if ps_pkg_selectable (pss s pkg0) && negb (ps_conflicts (pss s pkg0) =? 0) then disqualify_package pkg0 s else s in
  if is_provided then inherit_pinning_and_flags pkg0 ppkg s else s.

Definition apply_constraint (ppkg : option apk_package) (dep : apk_dependency) (s : apk_solver_state) : apk_solver_state :=
  let name := dep_name dep in
  if apk_dep_conflict dep && ignore_conflict then s
  else
    let s := if apk_dep_conflict dep then s else add_requirer name s in
    let s := if (ns_requirers (nss s name) =? 1) && negb (apk_dep_conflict dep) then name_requirers_changed name s else s in
    for_each (providers db name) (constrain_provider ppkg dep) s.

Definition exclude_non_providers (name must_provide : bytes) (skip_virtuals : bool) (s : apk_solver_state) : apk_solver_state :=
  if bool_decide (name = must_provide) || ignore_conflict then s
  else for_each (providers db name) (fun p s =>
    if bool_decide (pkg_nm p.1 = must_provide) || negb (ps_pkg_selectable (pss s p.1)) || (skip_virtuals && null_version p.2)
    then s
    else if existsb (fun d => bool_decide (dep_name d = must_provide) || (skip_virtuals && null_version (dep_version d))) (provides p.1)
    then s
    else disqualify_package p.1 s) s.

(** merge_index and merge_index_complete on one of the two counters of a name. *)
Definition merge_index (index num_options : Z) : bool * Z :=
  if negb (index =? num_options) then (false, index) else (true, u16 (num_options + 1)).
Definition merge_index_complete (index num_options : Z) : bool * Z := (index =? num_options, 0).

Definition is_provider_auto_selectable (s : apk_solver_state) (p : apk_package * bytes) : bool :=
  negb (null_version p.2) || negb (provider_priority p.1 =? 0) || negb (ns_requirers (nss s (pkg_nm p.1)) =? 0).

(** The counters of a name in the state; the result says whether the counter matched. *)
Definition merge_depends (name : bytes) (num_options : Z) (s : apk_solver_state) : apk_solver_state :=
  upd_n name (fun n => set_ns_merge_depends (merge_index (ns_merge_depends n) num_options).2 n) s.
Definition merge_depends_complete (name : bytes) (num_options : Z) (s : apk_solver_state) : bool * apk_solver_state :=
  ((merge_index_complete (ns_merge_depends (nss s name)) num_options).1,
   upd_n name (fun n => set_ns_merge_depends (merge_index_complete (ns_merge_depends n) num_options).2 n) s).
Definition merge_provides (name : bytes) (virtual : bool) (num_options : Z) (s : apk_solver_state) : apk_solver_state :=
  upd_n name (fun n =>
    let '(b, i) := merge_index (ns_merge_provides n) num_options in
    let n := set_ns_merge_provides i n in
    if b then set_ns_has_virtual_provides (ns_has_virtual_provides n || virtual) n else n) s.
Definition merge_provides_complete (name : bytes) (num_options : Z) (s : apk_solver_state) : bool * apk_solver_state :=
  ((merge_index_complete (ns_merge_provides (nss s name)) num_options).1,
   upd_n name (fun n => set_ns_merge_provides (merge_index_complete (ns_merge_provides n) num_options).2 n) s).

(** ** Reconsidering a name *)

(** The loop over the dependencies stops at the first that cannot be satisfied any more. *)
Definition recheck_depends (pkg : apk_package) (s : apk_solver_state) : apk_solver_state :=
  if forallb (dependency_satisfiable s pkg) (depends pkg) then s else disqualify_package pkg s.

Definition set_iif (triggered failed : bool) (pkg : apk_package) (s : apk_solver_state) : apk_solver_state :=
  upd_p pkg (fun ps => set_ps_iif_failed failed (set_ps_iif_triggered triggered ps)) s.

Fixpoint check_install_if (pkg : apk_package) (deps : list apk_dependency) (s : apk_solver_state) : apk_solver_state :=
  match deps with
  | [] => s
  | dep :: deps =>
      let n := nss s (dep_name dep) in
      if negb (ns_locked n) then
        let s := if apk_dep_conflict dep
                 then queue_unresolved (dep_name dep) false (upd_n (dep_name dep) (set_ns_iif_needed true) s) else s in
        set_iif false false pkg s
      else if negb (apk_dep_is_provided (Some pkg) dep (Some (ns_chosen n))) then set_iif false true pkg s
      else check_install_if pkg deps s
  end.

(** The local variables of the loop over the providers. *)
Record candidates := Cand {
  c_first : option apk_package;
  c_num_options : Z;
  c_num_tag_not_ok : Z;
  c_has_iif : bool;
  c_no_iif : bool;
  c_auto : bool;
}.

Definition consider_provider (name : bytes) (reevaluate_deps reevaluate_iif : bool) (p : apk_package * bytes)
    (cs : candidates * apk_solver_state) : candidates * apk_solver_state :=
  let '(c, s) := cs in
  let pkg := p.1 in
  let s := upd_p pkg (set_ps_dependencies_merged false) s in
  if reevaluate_deps && negb (ps_pkg_selectable (pss s pkg)) then (c, s)
  else
    let s := if reevaluate_deps then recheck_depends pkg s else s in
    if negb (ps_pkg_selectable (pss s pkg)) then (c, s)
    else
      let s := if reevaluate_iif && negb (ps_iif_triggered (pss s pkg)) && negb (ps_iif_failed (pss s pkg))
               then check_install_if pkg (install_if pkg) (set_iif true false pkg s) else s in
      let s := if reevaluate_iif && ps_iif_triggered (pss s pkg)
               then for_each (install_if pkg)
                      (fun dep s => inherit_pinning_and_flags pkg (prov_pkg (ns_chosen (nss s (dep_name dep)))) s) s
               else s in
      let triggered := ps_iif_triggered (pss s pkg) in
      let c := Cand (c_first c) (c_num_options c) (c_num_tag_not_ok c) (c_has_iif c || triggered)
                 (c_no_iif c && ps_iif_failed (pss s pkg)) (c_auto c || triggered) in
      if ns_requirers (nss s name) =? 0 then (c, s)
      else
        let s := upd_p pkg (set_ps_dependencies_merged true) s in
        let num := c_num_options c in
        let s := for_each (depends pkg)
                   (fun dep s => if apk_dep_conflict dep then s else merge_depends (dep_name dep) num s) s in
        let s := merge_provides (pkg_nm pkg) (null_version p.2) num s in
        let s := for_each (provides pkg) (fun dep => merge_provides (dep_name dep) (null_version (dep_version dep)) num) s in
        (Cand (match c_first c with Some f => Some f | None => Some pkg end) (num + 1)
           (c_num_tag_not_ok c + Z.b2z (negb (ps_tag_ok (pss s pkg)))) (c_has_iif c) (c_no_iif c)
           (c_auto c || is_provider_auto_selectable s p), s).

Definition consider_providers (name : bytes) (reevaluate_deps reevaluate_iif : bool) (s : apk_solver_state)
  : candidates * apk_solver_state :=
  foldl (fun cs p => consider_provider name reevaluate_deps reevaluate_iif p cs)
    (Cand None 0 0 false true false, s) (providers db name).

(** The only candidate's dependencies become constraints; several candidates only require the
    names they have in common. *)
Definition propagate_depends (pkg : apk_package) (num_options : Z) (s : apk_solver_state) : apk_solver_state :=
  for_each (depends pkg) (fun dep s =>
    let '(complete, s) := merge_depends_complete (dep_name dep) num_options s in
    if num_options =? 1 then if complete then apply_constraint (Some pkg) dep s else s
    else if complete && (ns_requirers (nss s (dep_name dep)) =? 0) then
      let s := name_requirers_changed (dep_name dep) (add_requirer (dep_name dep) s) in
      for_each (providers db (dep_name dep)) (fun p => inherit_pinning_and_flags p.1 (Some pkg)) s
    else s) s.

(** A name [n] that all candidates for [name] provide. *)
Definition exclude_complete (name : bytes) (num_options : Z) (n : bytes) (s : apk_solver_state) : apk_solver_state :=
  let '(complete, s) := merge_provides_complete n num_options s in
  if complete then exclude_non_providers n name (ns_has_virtual_provides (nss s n)) s else s.

Definition propagate_provides (name : bytes) (pkg : apk_package) (num_options : Z) (s : apk_solver_state) : apk_solver_state :=
  let s := exclude_complete name num_options (pkg_nm pkg) s in
  let s := for_each (provides pkg) (fun dep => exclude_complete name num_options (dep_name dep)) s in
  let s := upd_n (pkg_nm pkg) (set_ns_has_virtual_provides false) s in
  for_each (provides pkg) (fun dep => upd_n (dep_name dep) (set_ns_has_virtual_provides false)) s.

Definition reconsider_name (name : bytes) (s : apk_solver_state) : apk_solver_state :=
  let reevaluate_deps := ns_reevaluate_deps (nss s name) in
  let reevaluate_iif := ns_reevaluate_iif (nss s name) in
  let s := upd_n name (fun n => set_ns_reevaluate_iif false (set_ns_reevaluate_deps false n)) s in
  let '(c, s) := consider_providers name reevaluate_deps reevaluate_iif s in
  let reevaluate := negb (Bool.eqb (c_auto c) (ns_has_auto_selectable (nss s name))) in
  let s := upd_n name (fun n =>
             set_ns_has_auto_selectable (c_auto c)
               (set_ns_no_iif (c_no_iif c)
                 (set_ns_has_iif (c_has_iif c)
                   (set_ns_has_options ((1 <? c_num_options c) || (0 <? c_num_tag_not_ok c)) n)))) s in
  let s :=
    match c_first c with
    | None => s
    | Some pkg =>
        let s := for_each (providers db name)
                   (fun p => upd_p p.1 (fun ps => set_ps_dependencies_used (ps_dependencies_merged ps) ps)) s in
        propagate_provides name pkg (c_num_options c) (propagate_depends pkg (c_num_options c) s)
    end in
  let done := forallb (fun name0 => negb (ns_seen (nss s name0) && negb (ns_locked (nss s name0)))) (rdepends db name) in
  queue_unresolved name reevaluate (upd_n name (set_ns_reverse_deps_done done) s).

(** ** Choosing a provider *)

(** The result of the first comparison that is not a tie. *)
Definition orelse (r rest : Z) : Z := if r =? 0 then rest else r.
Definition bdiff (a b : bool) : Z := Z.b2z a - Z.b2z b.

Definition version_order (a b : bytes) : Z :=
  let r := apk_version_compare (Some a) (Some b) in
  if r =? APK_VERSION_LESS then -1 else if r =? APK_VERSION_GREATER then 1 else 0.

(** ffs *)
Fixpoint ffs_loop (fuel : nat) (i x : Z) : Z :=
  match fuel with
  | O => 0
  | S fuel => if Z.testbit x i then i + 1 else ffs_loop fuel (i + 1) x
  end.
Definition ffs (x : Z) : Z := ffs_loop 32 0 x.

Definition compare_packages (s : apk_solver_state) (pkgA pkgB : apk_package) (versionA versionB : bytes) : Z :=
  let a := pss s pkgA in
  let b := pss s pkgB in
  let flags := ps_solver_flags a .| ps_solver_flags b in
  let has f := flag flags f in
  let by_installed := bdiff (installed pkgA) (installed pkgB) in
  let first :=
    if has APK_SOLVERF_LATEST && (ps_pinning_allowed a =? APK_DEFAULT_PINNING_MASK) &&
       (ps_pinning_allowed b =? APK_DEFAULT_PINNING_MASK)
    then
      orelse (bdiff (ps_tag_ok a) (ps_tag_ok b))
        (if has APK_SOLVERF_AVAILABLE then bdiff (ps_pkg_available a) (ps_pkg_available b)
         else if has APK_SOLVERF_REINSTALL then bdiff (ps_pkg_selectable a) (ps_pkg_selectable b) else 0)
    else
      orelse (bdiff (ps_pkg_selectable a) (ps_pkg_selectable b))
      (orelse (bdiff (ps_dependencies_used a) (ps_dependencies_used b))
      (orelse (s32 (ps_conflicts b - ps_conflicts a))
      (orelse (if (db_performing_self_upgrade db && negb (has APK_SOLVERF_UPGRADE)) || has APK_SOLVERF_INSTALLED
               then by_installed else 0)
      (orelse (bdiff (ps_tag_ok a) (ps_tag_ok b))
      (orelse (if has APK_SOLVERF_AVAILABLE then bdiff (ps_pkg_available a) (ps_pkg_available b) else 0)
      (orelse (bdiff (ps_tag_preferred a) (ps_tag_preferred b))
              (if negb (has (APK_SOLVERF_REMOVE .| APK_SOLVERF_UPGRADE)) then by_installed else 0))))))) in
  orelse first
  (orelse (version_order versionA versionB)
  (orelse (if bool_decide (pkg_name pkgA = pkg_name pkgB) then version_order (pkg_ver pkgA) (pkg_ver pkgB) else 0)
  (orelse (provider_priority pkgA - provider_priority pkgB)
  (orelse (if negb (has APK_SOLVERF_REMOVE) then by_installed else 0)
  (orelse (bdiff (ps_pkg_selectable a) (ps_pkg_selectable b))
          (ffs (repos pkgB) - ffs (repos pkgA))))))).

Definition compare_providers (s : apk_solver_state) (pA pB : apk_provider) : Z :=
  match prov_pkg pA, prov_pkg pB with
  | Some a, Some b => compare_packages s a b (prov_version pA) (prov_version pB)
  | a, b => bdiff (bool_decide (a <> None)) (bool_decide (b <> None))
  end.

(** ** Assigning names and selecting packages *)

Definition is_pkg (a : option apk_package) (b : apk_package) : bool :=
  match a with Some a => pkg_addr a =? pkg_addr b | None => false end.

Definition assign_name (name : bytes) (p : apk_provider) (s : apk_solver_state) : apk_solver_state :=
  let n := nss s name in
  if ns_locked n then
    if null_version (prov_version p) && null_version (prov_version (ns_chosen n)) then s
    else if ignore_conflict then s
    else mark_error (prov_pkg (ns_chosen n)) (mark_error (prov_pkg p) s)
  else
    let s := upd_n name (fun n => set_ns_chosen p (set_ns_locked true n)) s in
    let s := unlink_dirty name (unlink_unresolved name s) in
    let s :=
      match prov_pkg p with
      | Some pkg =>
          if (ns_requirers (nss s name) =? 0) && ps_iif_triggered (pss s pkg)
          then for_each (install_if pkg) (fun dep s =>
                 if negb (ns_locked (nss s (dep_name dep))) then apply_constraint (Some pkg) dep s else s) s
          else s
      | None => s
      end in
    let s :=
      if ignore_conflict then s
      else for_each (providers db name) (fun p0 s =>
             if is_pkg (prov_pkg p) p0.1 then s
             else if null_version (prov_version p) && null_version p0.2 then s
             else disqualify_package p0.1 s) s in
    let s := reevaluate_reverse_deps name s in
    match prov_pkg p with
    | Some pkg => reevaluate_reverse_installif_pkg pkg s
    | None => reevaluate_reverse_installif name s
    end.

(** The loop over the providers; the solver state does not change in it. *)
Definition choose_provider (name : bytes) (s : apk_solver_state) : apk_provider :=
  let n := nss s name in
  if negb (ns_requirers n =? 0) || ns_has_iif n then
    foldl (fun chosen p =>
      let ps := pss s p.1 in
      if (ns_requirers n =? 0) && (negb (ps_iif_triggered ps) || negb (ps_tag_ok ps) || negb (ps_pkg_selectable ps)) then chosen
      else if negb (is_provider_auto_selectable s p) then chosen
      else if 0 <? compare_providers s (prov p) chosen then prov p else chosen)
      provider_none (providers db name)
  else provider_none.

Definition select_package (name : bytes) (s : apk_solver_state) : apk_solver_state :=
  match prov_pkg (choose_provider name s) with
  | Some pkg =>
      let s := if negb (ps_pkg_selectable (pss s pkg)) || negb (ps_tag_ok (pss s pkg)) then mark_error (Some pkg) s else s in
      let s := assign_name (pkg_nm pkg) (APK_PROVIDER_FROM_PACKAGE pkg) s in
      let s := for_each (provides pkg) (fun d => assign_name (dep_name d) (APK_PROVIDER_FROM_PROVIDES pkg d)) s in
      for_each (depends pkg) (apply_constraint (Some pkg)) s
  | None =>
      let s := assign_name name provider_none s in
      if 0 <? ns_requirers (nss s name) then set_ss_errors (ss_errors s + 1) s else s
  end.

(** ** The main loop *)

Definition dequeue_next_name (s : apk_solver_state) : option (bytes * apk_solver_state) :=
  match ss_resolvenow s, ss_selectable s, ss_unresolved s with
  | n :: l, _, _ => Some (n, set_ss_resolvenow l s)
  | [], n :: l, _ => Some (n, set_ss_selectable l s)
  | [], [], n :: l => Some (n, set_ss_unresolved l s)
  | [], [], [] => None
  end.

(** One turn: a dirty name is reconsidered, or the next name is decided; [None] at the end. *)
Definition solver_turn (s : apk_solver_state) : option apk_solver_state :=
  match ss_dirty s with
  | name :: l => Some (reconsider_name name (set_ss_dirty l s))
  | [] =>
      match dequeue_next_name s with
      | Some (name, s) => Some (select_package name s)
      | None => None
      end
  end.

Fixpoint solver_loop (fuel : nat) (s : apk_solver_state) : option apk_solver_state :=
  match fuel with
  | O => None
  | S fuel => match solver_turn s with Some s => solver_loop fuel s | None => Some s end
  end.

(** ** The change set *)

Definition record_change (opkg npkg : option apk_package) (s : apk_solver_state) : apk_solver_state :=
  let new_tag := match npkg with
                 | Some p => get_tag db (ps_pinning_allowed (pss s p)) (get_pkg_repos db p) | None => 0 end in
  let old_tag := match opkg with
                 | Some p => match ipkg p with Some ip => repository_tag ip | None => 0 end | None => 0 end in
  let re := match npkg with Some p => flag (ps_solver_flags (pss s p)) APK_SOLVERF_REINSTALL | None => false end in
  let s := set_ss_changes (ss_changes s ++ [Change opkg npkg old_tag new_tag re]) s in
  match opkg, npkg with
  | _, None => set_ss_num_remove (ss_num_remove s + 1) s
  | None, Some _ => set_ss_num_install (ss_num_install s + 1) s
  | Some o, Some p =>
      if negb (pkg_addr p =? pkg_addr o) || re || negb (new_tag =? old_tag)
      then set_ss_num_adjust (ss_num_adjust s + 1) s else s
  end.

(** The names that are installed and required by the dependencies of a package. *)
Definition tracked_name (s : apk_solver_state) (d : apk_dependency) : option bytes :=
  if apk_dep_conflict d then None else ns_installed_name (nss s (dep_name d)).

Definition cset_track_deps_added (pkg : apk_package) (s : apk_solver_state) : apk_solver_state :=
  for_each (depends pkg) (fun d s =>
    match tracked_name s d with
    | None => s
    | Some n => upd_n n (fun ns => set_ns_requirers (u16 (ns_requirers ns + 1)) ns) s
    end) s.

(** foreach_reverse_dependency for the installed packages that a package satisfies. *)
Definition reverse_dependencies (pkg : apk_package) (names : list bytes) : list apk_package :=
  names ≫= fun name0 => providers db name0 ≫= fun p0 =>
    if negb (installed p0.1) then []
    else depends p0.1 ≫= fun d0 =>
      if flag (apk_dep_analyze (Some p0.1) d0 (Some pkg)) APK_DEP_SATISFIES then [p0.1] else [].

Section Cset.
(** The two functions that the helpers call back. *)
Context (gen_name_change : bytes -> apk_solver_state -> option apk_solver_state).
Context (gen_name_remove : apk_package -> apk_solver_state -> option apk_solver_state).

Definition cset_track_deps_removed (pkg : apk_package) (s : apk_solver_state) : option apk_solver_state :=
  for_eachM (depends pkg) (fun d s =>
    match tracked_name s d with
    | None => Some s
    | Some n =>
        let r := u16 (ns_requirers (nss s n) - 1) in
        let s := upd_n n (set_ns_requirers r) s in
        if 0 <? r then Some s
        else match ns_installed_pkg (nss s (dep_name d)) with
             | Some pkg0 => gen_name_remove pkg0 s
             | None => Some s
             end
    end) s.

Definition cset_check_removal_by_deps (pkg : apk_package) (s : apk_solver_state) : option apk_solver_state :=
  let n := nss s (pkg_nm pkg) in
  if (ns_requirers n =? 0) && match prov_pkg (ns_chosen n) with None => true | Some _ => false end
  then gen_name_remove pkg s else Some s.

Definition cset_check_install_by_iif (name : bytes) (s : apk_solver_state) : option apk_solver_state :=
  let n := nss s name in
  match prov_pkg (ns_chosen n) with
  | None => Some s
  | Some pkg =>
      if negb (ns_seen n) || ns_changeset_processed n then Some s
      else if forallb (fun dep0 =>
                let n0 := nss s (dep_name dep0) in
                (apk_dep_conflict dep0 || ns_changeset_processed n0) &&
                apk_dep_is_provided (Some pkg) dep0 (Some (ns_chosen n0))) (install_if pkg)
      then gen_name_change name s
      else Some s
  end.

Definition cset_check_removal_by_iif (name : bytes) (s : apk_solver_state) : option apk_solver_state :=
  let n := nss s name in
  match ns_installed_pkg n, prov_pkg (ns_chosen n) with
  | Some pkg, None =>
      if ns_changeset_processed n || ns_changeset_removed n then Some s
      else if existsb (fun dep0 =>
                let n0 := nss s (dep_name dep0) in
                ns_changeset_removed n0 && match prov_pkg (ns_chosen n0) with None => true | Some _ => false end)
                (install_if pkg)
      then cset_check_removal_by_deps pkg s
      else Some s
  | _, _ => Some s
  end.

Definition cset_check_by_reverse_iif (pkg : option apk_package) (cb : bytes -> apk_solver_state -> option apk_solver_state)
    (s : apk_solver_state) : option apk_solver_state :=
  match pkg with
  | None => Some s
  | Some pkg =>
      s ← for_eachM (rinstall_if db (pkg_nm pkg)) cb s;
      for_eachM (provides pkg) (fun d => for_eachM (rinstall_if db (dep_name d)) cb) s
  end.

Definition cset_gen_name_preprocess (name : bytes) (s : apk_solver_state) : option apk_solver_state :=
  if ns_changeset_processed (nss s name) then Some s
  else
    let s := upd_n name (set_ns_changeset_processed true) s in
    s ← (match ns_installed_pkg (nss s name) with
         | Some ip =>
             if match prov_pkg (ns_chosen (nss s name)) with
                | None => true
                | Some c => negb (bool_decide (pkg_nm c = name))
                end
             then gen_name_remove ip s else Some s
         | None => Some s
         end);
    for_eachM (providers db name) (fun p s =>
      let n0 := nss s (pkg_nm p.1) in
      if is_pkg (ns_installed_pkg n0) p.1 && match prov_pkg (ns_chosen n0) with None => true | Some _ => false end
      then gen_name_remove p.1 s else Some s) s.

Definition cset_gen_dep (ppkg : option apk_package) (dep : apk_dependency) (s : apk_solver_state) : option apk_solver_state :=
  let name := dep_name dep in
  let pkg := prov_pkg (ns_chosen (nss s name)) in
  if apk_dep_conflict dep && ignore_conflict then Some s
  else
    let s := if negb (apk_dep_is_provided ppkg dep (Some (ns_chosen (nss s name)))) then mark_error ppkg s else s in
    s ← gen_name_change name s;
    Some (match pkg with Some pkg => if ps_error (pss s pkg) then mark_error ppkg s else s | None => s end).
End Cset.

Fixpoint cset_gen_name_remove (fuel : nat) (pkg : apk_package) (s : apk_solver_state) : option apk_solver_state :=
  match fuel with
  | O => None
  | S fuel =>
      let remove := cset_gen_name_remove fuel in
      let name := pkg_nm pkg in
      if ps_in_changeset (pss s pkg) ||
         match prov_pkg (ns_chosen (nss s name)) with Some c => bool_decide (pkg_nm c = name) | None => false end
      then Some s
      else
        let s := upd_n name (set_ns_changeset_removed true) s in
        let s := upd_p pkg (set_ps_in_changeset true) s in
        s ← for_eachM (reverse_dependencies pkg (rdepends db name)) remove s;
        s ← for_eachM (provides pkg) (fun p => for_eachM (reverse_dependencies pkg (rdepends db (dep_name p))) remove) s;
        s ← cset_check_by_reverse_iif (Some pkg) (cset_check_removal_by_iif remove) s;
        let s := record_change (Some pkg) None s in
        cset_track_deps_removed remove pkg s
  end.

Fixpoint cset_gen_name_change (fuel : nat) (name : bytes) (s : apk_solver_state) : option apk_solver_state :=
  match fuel with
  | O => None
  | S fuel =>
      let change := cset_gen_name_change fuel in
      let remove := cset_gen_name_remove fuel in
      if ns_changeset_processed (nss s name) then Some s
      else
        s ← cset_gen_name_preprocess remove name s;
        match prov_pkg (ns_chosen (nss s name)) with
        | None => Some s
        | Some pkg =>
            if ps_in_changeset (pss s pkg) then Some s
            else
              let s := upd_p pkg (set_ps_in_changeset true) s in
              s ← cset_gen_name_preprocess remove (pkg_nm pkg) s;
              s ← for_eachM (provides pkg) (fun d => cset_gen_name_preprocess remove (dep_name d)) s;
              let opkg := ns_installed_pkg (nss s (pkg_nm pkg)) in
              s ← cset_check_by_reverse_iif opkg (cset_check_removal_by_iif remove) s;
              s ← for_eachM (depends pkg) (cset_gen_dep change (Some pkg)) s;
              let s := record_change opkg (Some pkg) s in
              s ← cset_check_by_reverse_iif (Some pkg) (cset_check_install_by_iif change) s;
              let s := cset_track_deps_added pkg s in
              match opkg with
              | Some opkg => cset_track_deps_removed remove opkg s
              | None => Some s
              end
        end
  end.

Definition cset_reset_name (n : apk_solver_name_state) : apk_solver_name_state :=
  set_ns_requirers 0 (set_ns_installed_name None (set_ns_installed_pkg None n)).

Definition generate_changeset (fuel : nat) (world : list apk_dependency) (s : apk_solver_state) : option apk_solver_state :=
  let s := set_ss_names (cset_reset_name <$> ss_names s) (set_ss_changes [] s) in
  let s := for_each (db_installed db) (fun pkg s =>
             let s := upd_n (pkg_nm pkg) (fun n => set_ns_installed_name (Some (pkg_nm pkg)) (set_ns_installed_pkg (Some pkg) n)) s in
             for_each (provides pkg) (fun d s =>
               if negb (null_version (dep_version d)) then upd_n (dep_name d) (set_ns_installed_name (Some (pkg_nm pkg))) s
               else s) s) s in
  let s := for_each (db_installed db) cset_track_deps_added s in
  s ← for_eachM (db_installed db) (cset_check_removal_by_deps (cset_gen_name_remove fuel)) s;
  s ← for_eachM world (cset_gen_dep (cset_gen_name_change fuel) None) s;
  for_eachM (db_installed db) (fun pkg => cset_gen_name_change fuel (pkg_nm pkg)) s.

(** ** The driver *)

Definition solver_init (solver_flags : Z) (s : apk_solver_state) : apk_solver_state :=
  SS (ss_names s) (ss_pkgs s) [] [] [] [] 0 solver_flags 0 0
    (ss_changes s) (ss_num_install s) (ss_num_remove s) (ss_num_adjust s) false.

Definition apply_world (world : list apk_dependency) (s : apk_solver_state) : apk_solver_state :=
  for_each world (fun d s =>
    if dep_broken d then s
    else apply_constraint None d (set_ss_pinning_inherit (u32 (BIT (dep_repository_tag d))) s)) s.

(** From the state left by what came before, one pass from the discovery to the change set. *)
Definition solver_round (fuel : nat) (solver_flags : Z) (world : list apk_dependency) (s : apk_solver_state)
  : option apk_solver_state :=
  s ← for_eachM world (fun d s => if dep_broken d then Some s else discover_name fuel (dep_name d) s) (solver_init solver_flags s);
  let s := apply_world world s in
  let s := set_ss_pinning_inherit 0 (set_ss_solver_flags_inherit 0 s) in
  s ← solver_loop fuel s;
  generate_changeset fuel world s.

(** free_name and free_package on everything. *)
Definition free_states (s : apk_solver_state) : apk_solver_state := set_ss_pkgs ∅ (set_ss_names ∅ s).

Definition disable_broken (s : apk_solver_state) (d : apk_dependency) : apk_dependency :=
  let broken := match prov_pkg (ns_chosen (nss s (dep_name d))) with None => true | Some pkg => ps_error (pss s pkg) end in
  Dep (dep_name d) (dep_version d) (dep_op d) (dep_broken d || broken) (dep_repository_tag d) (dep_layer d).

Definition set_world_layer (s : apk_solver_state) (d : apk_dependency) : apk_dependency :=
  match prov_pkg (ns_chosen (nss s (dep_name d))) with
  | None => d
  | Some pkg => Dep (dep_name d) (dep_version d) (dep_op d) (dep_broken d) (dep_repository_tag d) (layer pkg)
  end.

(** The rounds; the result is the world and the state before it is freed. *)
Fixpoint solver_rounds (rounds fuel : nat) (solver_flags : Z) (world : list apk_dependency) (s : apk_solver_state)
  : option (list apk_dependency * apk_solver_state) :=
  match rounds with
  | O => None
  | S rounds =>
      s ← solver_round fuel solver_flags world s;
      if negb (ss_errors s =? 0) && db_force_broken_world db
      then solver_rounds rounds fuel solver_flags (map (disable_broken s) world) (free_states s)
      else Some (map (set_world_layer s) world, s)
  end.
End Solver.

(** tolower of the C locale, and strcasecmp. *)
Definition tolower (c : Z) : Z := if (65 <=? c) && (c <=? 90) then c + 32 else c.
Definition strcasecmp (a b : bytes) : Z := strcmp (map tolower a) (map tolower b).

Definition apk_name_cmp_display (a b : bytes) : Z :=
  let r := strcasecmp a b in if r =? 0 then strcmp a b else r.

(** qsort with cmp_pkgname; the names of a world are distinct, so there is one sorted order. *)
Fixpoint world_insert (d : apk_dependency) (l : list apk_dependency) : list apk_dependency :=
  match l with
  | [] => [d]
  | e :: l' => if apk_name_cmp_display (dep_name d) (dep_name e) <=? 0 then d :: l else e :: world_insert d l'
  end.
Definition world_sort (l : list apk_dependency) : list apk_dependency := foldr world_insert [] l.

(** The number of errors, the world, the state after it is freed and the state before. *)
Definition apk_solver_solve `{UndefChecksum} (rounds fuel : nat) (db : apk_database) (solver_flags : Z)
    (world : list apk_dependency) (s : apk_solver_state)
  : option (Z * list apk_dependency * apk_solver_state * apk_solver_state) :=
  let default_repos := apk_db_get_pinning_mask_repos db APK_DEFAULT_PINNING_MASK in
  let ignore_conflict := flag solver_flags APK_SOLVERF_IGNORE_CONFLICT in
  '(world, s) ← solver_rounds db default_repos ignore_conflict rounds fuel solver_flags (world_sort world) s;
  Some (ss_errors s, world, free_states s, s).
