(* ===== verification/SolverInv.v ===== *)
(** What constraint propagation in the solver may change: the relation [wk] between the states
    before and after, which every propagating operation of Solver.v respects, and [dirty_ok],
    which says that names only become dirty when progress was made. *)
From Stdlib Require Import ZArith Lia.
From stdpp Require Import base numbers list option gmap.
From S2P Require Import Prelude Clib Blob Version Dep Package SolverState Solver.

Definition sel (s : apk_solver_state) (p : apk_package) : bool := ps_pkg_selectable (pss s p).
Definition locked (s : apk_solver_state) (n : bytes) : bool := ns_locked (nss s n).
Definition chosen (s : apk_solver_state) (n : bytes) : apk_provider := ns_chosen (nss s n).
Definition processed (s : apk_solver_state) (n : bytes) : bool := ns_changeset_processed (nss s n).
Definition in_cset (s : apk_solver_state) (p : apk_package) : bool := ps_in_changeset (pss s p).
Definition ps_marks (p : apk_solver_package_state) : bool * bool := (ps_error p, ps_in_changeset p).
Definition req (s : apk_solver_state) (n : bytes) : Z := ns_requirers (nss s n).
Definition req_ok (s : apk_solver_state) : Prop := forall n, 0 <= req s n < 65536.
Definition queued (s : apk_solver_state) (n : bytes) : Prop :=
  n ∈ ss_unresolved s \/ n ∈ ss_selectable s \/ n ∈ ss_resolvenow s.

(** The names and package addresses of a database. *)
Record universe (db : apk_database) (U : gset bytes) (P : gset Z) : Prop := {
  u_rdepends n : Forall (fun m => m ∈ U) (rdepends db n);
  u_rinstall_if n : Forall (fun m => m ∈ U) (rinstall_if db n);
  u_addr n : Forall (fun p => pkg_addr p.1 ∈ P) (providers db n);
  u_name n : Forall (fun p => pkg_nm p.1 ∈ U) (providers db n);
  u_depends n : Forall (fun p => Forall (fun d => dep_name d ∈ U) (depends p.1)) (providers db n);
  u_provides n : Forall (fun p => Forall (fun d => dep_name d ∈ U) (provides p.1)) (providers db n);
  u_install_if n : Forall (fun p => Forall (fun d => dep_name d ∈ U) (install_if p.1)) (providers db n);
}.

Lemma universe_mono db U U' P : U ⊆ U' -> universe db U P -> universe db U' P.
Proof.
  intros HU [H1 H2 H3 H4 H5 H6 H7].
  assert (Hd : forall l : list apk_dependency, Forall (fun d => dep_name d ∈ U) l -> Forall (fun d => dep_name d ∈ U') l).
  { intros l Hl. eapply Forall_impl; [exact Hl|]. intros d. apply HU. }
  constructor; intros n; [eapply Forall_impl; [apply (H1 n)|apply HU]|eapply Forall_impl; [apply (H2 n)|apply HU]|apply H3
    |eapply Forall_impl; [apply (H4 n)|intros p; apply HU]|eapply Forall_impl; [apply (H5 n)|intros p; apply Hd]
    |eapply Forall_impl; [apply (H6 n)|intros p; apply Hd]|eapply Forall_impl; [apply (H7 n)|intros p; apply Hd]].
Qed.

(** The arrays of providers say what the packages say: a package is listed under its own name
    with its version, and under every name it provides with the version given there. *)
Record db_wf (db : apk_database) : Prop := {
  w_prov n p : p ∈ providers db n ->
    (pkg_nm p.1 = n /\ p.2 = pkg_ver p.1) \/ exists d, d ∈ provides p.1 /\ dep_name d = n /\ dep_version d = p.2;
  w_self n p : p ∈ providers db n -> (p.1, pkg_ver p.1) ∈ providers db (pkg_nm p.1);
  w_provides n p d : p ∈ providers db n -> d ∈ provides p.1 -> (p.1, dep_version d) ∈ providers db (dep_name d);
  w_addr n m p q : p ∈ providers db n -> q ∈ providers db m -> pkg_addr p.1 = pkg_addr q.1 -> p.1 = q.1;
  w_version n p : p ∈ providers db n -> pkg_ver p.1 <> [];
  w_installed p : p ∈ db_installed db -> (p, pkg_ver p) ∈ providers db (pkg_nm p);
  w_listed n p : p ∈ providers db n -> installed p.1 = true -> p.1 ∈ db_installed db;
}.

(** What the solver's theorems ask of a database: its names are in [U], its packages at the
    addresses [P], and its arrays are consistent.  DatabaseThm.v has the instance. *)
Class SolverDb (db : apk_database) (U : gset bytes) (P : gset Z) : Prop := {
  sdb_universe : universe db U P;
  sdb_wf : db_wf db;
}.

(** Everything a package mentions is in the universe. *)
Record known (U : gset bytes) (P : gset Z) (p : apk_package) : Prop := {
  kn_addr : pkg_addr p ∈ P;
  kn_name : pkg_nm p ∈ U;
  kn_depends : Forall (fun d => dep_name d ∈ U) (depends p);
  kn_provides : Forall (fun d => dep_name d ∈ U) (provides p);
  kn_install_if : Forall (fun d => dep_name d ∈ U) (install_if p);
}.

Lemma known_provider db U P n p : universe db U P -> p ∈ providers db n -> known U P p.1.
Proof.
  intros Hu Hp. destruct Hu as [_ _ Ha Hn Hd Hv Hi].
  constructor; [apply (proj1 (list.Forall_forall _ _) (Ha n)) | apply (proj1 (list.Forall_forall _ _) (Hn n))
    | apply (proj1 (list.Forall_forall _ _) (Hd n)) | apply (proj1 (list.Forall_forall _ _) (Hv n))
    | apply (proj1 (list.Forall_forall _ _) (Hi n))]; exact Hp.
Qed.

Section Wk.
Context (U : gset bytes) (P : gset Z).

Record wk (s s' : apk_solver_state) : Prop := {
  wk_locked n : locked s' n = locked s n;
  wk_chosen n : chosen s' n = chosen s n;
  wk_proc n : processed s' n = processed s n;
  wk_errors : ss_errors s' = ss_errors s;
  wk_marks p : ps_marks (pss s' p) = ps_marks (pss s p);
  wk_sel p : sel s' p = true -> sel s p = true;
  wk_conf : (forall p, sel s p = true -> ps_conflicts (pss s p) = 0) ->
            forall p, sel s' p = true -> ps_conflicts (pss s' p) = 0;
  wk_wrapped : ss_wrapped s = true -> ss_wrapped s' = true;
  wk_req : req_ok s -> req_ok s' /\ (ss_wrapped s' = false -> forall n, req s n <= req s' n);
  wk_queued n : queued s n -> queued s' n;
  wk_inq n : queued s' n -> queued s n \/ locked s n = false /\ n ∈ U;
  wk_dirtyin n : n ∈ ss_dirty s' -> n ∈ ss_dirty s \/ locked s n = false /\ n ∈ U;
  wk_nodup : NoDup (ss_dirty s) -> NoDup (ss_dirty s');
}.

#[global] Instance wk_refl : Reflexive wk.
Proof. intros s. constructor; auto. intros H. split; [done|]. intros _ n. lia. Qed.

Lemma wk_unwrapped s s' : wk s s' -> ss_wrapped s' = false -> ss_wrapped s = false.
Proof. intros Hw E. destruct (ss_wrapped s) eqn:E'; [|done]. apply (wk_wrapped _ _ Hw) in E'. congruence. Qed.

#[global] Instance wk_trans : Transitive wk.
Proof.
  intros s1 s2 s3 A B. constructor.
  - intros n. by rewrite (wk_locked _ _ B), (wk_locked _ _ A).
  - intros n. by rewrite (wk_chosen _ _ B), (wk_chosen _ _ A).
  - intros n. by rewrite (wk_proc _ _ B), (wk_proc _ _ A).
  - by rewrite (wk_errors _ _ B), (wk_errors _ _ A).
  - intros p. by rewrite (wk_marks _ _ B), (wk_marks _ _ A).
  - intros p H. by apply (wk_sel _ _ A), (wk_sel _ _ B).
  - intros H. by apply (wk_conf _ _ B), (wk_conf _ _ A).
  - intros H. by apply (wk_wrapped _ _ B), (wk_wrapped _ _ A).
  - intros Ho. destruct (wk_req _ _ A Ho) as [Ho2 Hr]. destruct (wk_req _ _ B Ho2) as [Ho3 Hr'].
    split; [done|]. intros Hw n. specialize (Hr' Hw n). specialize (Hr (wk_unwrapped _ _ B Hw) n). lia.
  - intros n H. by apply (wk_queued _ _ B), (wk_queued _ _ A).
  - intros n H. destruct (wk_inq _ _ B n H) as [Hq|[Hl Hu]]; [by apply (wk_inq _ _ A)|]. right.
    by rewrite (wk_locked _ _ A) in Hl.
  - intros n H. destruct (wk_dirtyin _ _ B n H) as [Hq|[Hl Hu]]; [by apply (wk_dirtyin _ _ A)|]. right.
    by rewrite (wk_locked _ _ A) in Hl.
  - intros H. by apply (wk_nodup _ _ B), (wk_nodup _ _ A).
Qed.

Lemma wk_error s s' (K : wk s s') p : ps_error (pss s' p) = ps_error (pss s p).
Proof. pose proof (wk_marks _ _ K p) as E. by injection E. Qed.

Lemma wk_in s s' (K : wk s s') p : in_cset s' p = in_cset s p.
Proof. pose proof (wk_marks _ _ K p) as E. by injection E. Qed.

(** Names become dirty only when a package was disqualified or a name got its first requirer. *)
Definition dirty_ok (s s' : apk_solver_state) : Prop :=
  req_ok s -> ss_wrapped s' = false ->
  ss_dirty s' = ss_dirty s \/
  (exists p, pkg_addr p ∈ P /\ sel s p = true /\ sel s' p = false) \/
  (exists n, n ∈ U /\ req s n = 0 /\ req s' n <> 0).

Definition good (s s' : apk_solver_state) : Prop := wk s s' /\ dirty_ok s s'.

#[global] Instance good_refl : Reflexive good.
Proof. intros s. split; [done|]. intros _ _. by left. Qed.

Lemma wk_unsel s s' p : wk s s' -> sel s p = false -> sel s' p = false.
Proof. intros Hw E. destruct (sel s' p) eqn:E'; [|done]. apply (wk_sel _ _ Hw) in E'. congruence. Qed.

#[global] Instance good_trans : Transitive good.
Proof.
  intros s1 s2 s3 [W1 D1] [W2 D2]. split; [by etrans|]. intros Ho Hw.
  pose proof (wk_unwrapped _ _ W2 Hw) as Hw2. destruct (wk_req _ _ W1 Ho) as [Ho2 _].
  destruct (wk_req _ _ W2 Ho2) as [_ Hr]. specialize (Hr Hw).
  destruct (D1 Ho Hw2) as [E1|[(p & Hp & H1 & H2)|(n & Hn & H1 & H2)]].
  - destruct (D2 Ho2 Hw) as [E2|[(p & Hp & H1 & H2)|(n & Hn & H1 & H2)]].
    + left. congruence.
    + right. left. exists p. split; [done|]. split; [by apply (wk_sel _ _ W1)|done].
    + destruct (decide (req s1 n = 0)) as [E|E]; [right; right; eauto|].
      destruct (wk_req _ _ W1 Ho) as [_ Hr1]. specialize (Hr1 Hw2 n). specialize (Ho n). lia.
  - right. left. exists p. split; [done|]. split; [done|]. by apply (wk_unsel _ _ _ W2).
  - right. right. exists n. split; [done|]. split; [done|]. specialize (Hr n). specialize (Ho2 n). lia.
Qed.

Lemma wk_for_each {A} (l : list A) f s :
  (forall x s, x ∈ l -> wk s (f x s)) -> wk s (for_each l f s).
Proof.
  unfold for_each. revert s. induction l as [|x l IH]; intros s Hf; cbn [foldl]; [done|].
  etrans; [apply (Hf x); by left|]. apply IH. intros y s' Hy. apply Hf. by right.
Qed.

Lemma good_for_each {A} (l : list A) f s :
  (forall x s, x ∈ l -> good s (f x s)) -> good s (for_each l f s).
Proof.
  unfold for_each. revert s. induction l as [|x l IH]; intros s Hf; cbn [foldl]; [done|].
  etrans; [apply (Hf x); by left|]. apply IH. intros y s' Hy. apply Hf. by right.
Qed.

(** Updates of the other fields of a name or a package. *)
Lemma good_upd_n n f s :
  (forall x, ns_locked (f x) = ns_locked x /\ ns_chosen (f x) = ns_chosen x /\ ns_changeset_processed (f x) = ns_changeset_processed x /\
             ns_requirers (f x) = ns_requirers x) -> good s (upd_n n f s).
Proof.
  intros Hf. assert (Hx : forall m, locked (upd_n n f s) m = locked s m /\ chosen (upd_n n f s) m = chosen s m /\
    processed (upd_n n f s) m = processed s m /\ req (upd_n n f s) m = req s m).
  { intros m. unfold locked, chosen, req, processed. rewrite nss_upd_n. case_bool_decide as E; [subst m; apply Hf|done]. }
  split; [|intros _ _; by left].
  constructor; try (intros; apply Hx); try (intros; done); auto.
  intros Ho. split; [intros m; destruct (Hx m) as (_ & _ & _ & ->); apply Ho|].
  intros _ m. destruct (Hx m) as (_ & _ & _ & ->). lia.
Qed.

Lemma wk_upd_n n f s :
  (forall x, ns_locked (f x) = ns_locked x /\ ns_chosen (f x) = ns_chosen x /\ ns_changeset_processed (f x) = ns_changeset_processed x /\
             ns_requirers (f x) = ns_requirers x) -> wk s (upd_n n f s).
Proof. intros Hf. exact (proj1 (good_upd_n n f s Hf)). Qed.

Lemma good_upd_p p f s :
  (forall x, ps_marks (f x) = ps_marks x /\ ps_pkg_selectable (f x) = ps_pkg_selectable x /\ ps_conflicts (f x) = ps_conflicts x) ->
  good s (upd_p p f s).
Proof.
  intros Hf. assert (Hx : forall q, ps_marks (pss (upd_p p f s) q) = ps_marks (pss s q) /\
    sel (upd_p p f s) q = sel s q /\ ps_conflicts (pss (upd_p p f s) q) = ps_conflicts (pss s q)).
  { intros q. unfold sel. rewrite pss_upd_p. case_bool_decide as E; [|done].
    assert (Hq : pss s q = pss s p) by (unfold pss; by rewrite E). rewrite Hq. apply Hf. }
  split; [|intros _ _; by left].
  constructor; try (intros; apply Hx); try (intros; done); auto.
  - intros q. by destruct (Hx q) as (_ & -> & _).
  - intros Hc q. destruct (Hx q) as (_ & -> & ->). apply Hc.
Qed.

(** ** Queues *)

Lemma elem_of_unlink n m l : n ∈ unlink m l <-> n <> m /\ n ∈ l.
Proof. unfold unlink. by rewrite list_elem_of_filter. Qed.

Lemma elem_of_queue_insert st l m n : n ∈ queue_insert st l m <-> n = m \/ n ∈ l.
Proof.
  induction l as [|x l IH]; cbn [queue_insert]; [by rewrite elem_of_cons|].
  case_test; rewrite !elem_of_cons, ?IH; tauto.
Qed.

(** Operations that only touch the lists. *)
Lemma wk_lists s s' :
  ss_names s' = ss_names s -> ss_pkgs s' = ss_pkgs s -> ss_errors s' = ss_errors s -> ss_wrapped s' = ss_wrapped s ->
  (forall n, n ∈ ss_dirty s' -> n ∈ ss_dirty s \/ locked s n = false /\ n ∈ U) ->
  (NoDup (ss_dirty s) -> NoDup (ss_dirty s')) ->
  (forall n, queued s n -> queued s' n) ->
  (forall n, queued s' n -> queued s n \/ locked s n = false /\ n ∈ U) -> wk s s'.
Proof.
  intros Hn Hp He Hw Hd Hnd Hq Hq'.
  assert (En : forall n, nss s' n = nss s n) by (intros n; unfold nss; by rewrite Hn).
  assert (Ep : forall p, pss s' p = pss s p) by (intros p; unfold pss; by rewrite Hp).
  constructor; try done.
  - intros n. unfold locked. by rewrite En.
  - intros n. unfold chosen. by rewrite En.
  - intros n. unfold processed. by rewrite En.
  - intros p. by rewrite Ep.
  - intros p. unfold sel. by rewrite Ep.
  - intros H p. unfold sel. rewrite Ep. apply H.
  - by rewrite Hw.
  - intros Ho. split; [intros n; unfold req; rewrite En; apply Ho|]. intros _ n. unfold req. by rewrite En.
Qed.

Lemma queue_dirty_wk name s : name ∈ U -> wk s (queue_dirty name s).
Proof.
  intros Hu. unfold queue_dirty. destruct (on_dirty s name) eqn:Ed; [done|]. cbn [orb].
  destruct (ns_locked (nss s name)) eqn:El; [done|]. cbn [orb]. case_test; [done|].
  unfold on_dirty in Ed. apply bool_decide_eq_false_1 in Ed.
  apply wk_lists; try done; [| |by left].
  - intros n. cbn [set_ss_dirty ss_dirty]. rewrite elem_of_app, list_elem_of_singleton. intros [H|H]; [by left|].
    subst n. by right.
  - intros Hn. cbn [set_ss_dirty ss_dirty]. apply NoDup_app. split; [done|].
    split; [|apply NoDup_singleton]. intros x Hx. rewrite list_elem_of_singleton. congruence.
Qed.

(** Operations that only move a name between the three lists. *)
Lemma requeue_good s s' name :
  ss_names s' = ss_names s -> ss_pkgs s' = ss_pkgs s -> ss_errors s' = ss_errors s -> ss_wrapped s' = ss_wrapped s ->
  ss_dirty s' = ss_dirty s -> locked s name = false -> name ∈ U ->
  (forall n, queued s' n <-> n = name \/ queued s n) -> good s s'.
Proof.
  intros Hn Hp He Hw Hd Hl Hu Hq. split; [|intros _ _; by left].
  apply wk_lists; try done; rewrite ?Hd; auto.
  - intros n H. apply Hq. by right.
  - intros n H. apply Hq in H as [->|H]; auto.
Qed.

Lemma queued_unlink s name n : queued (unlink_unresolved name s) n <-> n <> name /\ queued s n.
Proof. unfold queued, unlink_unresolved. cbn. rewrite !elem_of_unlink. tauto. Qed.

Lemma queued_link s name n : queued (link_unresolved name s) n <-> n = name \/ queued s n.
Proof.
  unfold link_unresolved, queued. repeat case_test; cbn; rewrite ?elem_of_app, ?elem_of_queue_insert, ?list_elem_of_singleton; tauto.
Qed.

Lemma link_good s name : locked s name = false -> name ∈ U -> good s (link_unresolved name s).
Proof.
  intros Hl Hu. apply (requeue_good s _ name); try done; [unfold link_unresolved; repeat case_test; done..|].
  intros n. apply queued_link.
Qed.

Lemma relink_good s name :
  locked s name = false -> name ∈ U -> good s (link_unresolved name (unlink_unresolved name s)).
Proof.
  intros Hl Hu. apply (requeue_good s _ name); try done; [unfold link_unresolved; repeat case_test; done..|].
  intros n. rewrite queued_link, queued_unlink. destruct (decide (n = name)); tauto.
Qed.

Lemma queue_unresolved_good name re s : name ∈ U -> good s (queue_unresolved name re s).
Proof.
  intros Hu. unfold queue_unresolved. destruct (ns_locked (nss s name)) eqn:El; [done|].
  assert (Hup : forall b, good s (upd_n name (set_ns_resolvenow b) s) /\ locked (upd_n name (set_ns_resolvenow b) s) name = false).
  { intros b. split; [by apply good_upd_n|]. unfold locked. rewrite nss_upd_n. by case_bool_decide. }
  repeat case_test; try done.
  - etrans; [apply (Hup true)|]. apply relink_good; [apply Hup|done].
  - by apply relink_good.
  - etrans; [apply Hup|]. apply link_good; [apply Hup|done].
Qed.
End Wk.

(** ** Propagation *)

Section Propagate.
Context `{UndefChecksum}.
Context (db : apk_database) (default_repos : Z) (ignore_conflict : bool).
Context (U : gset bytes) (P : gset Z) (Hu : universe db U P).
#[local] Abbreviation wk := (wk U).
#[local] Abbreviation good := (good U P).

Lemma reevaluate_reverse_deps_wk name s : wk s (reevaluate_reverse_deps db name s).
Proof.
  apply wk_for_each. intros n s' Hn. case_test; [done|].
  assert (n ∈ U) by (by apply (proj1 (list.Forall_forall _ _) (u_rdepends _ _ _ Hu name))).
  etrans; [|by apply queue_dirty_wk]. by apply wk_upd_n.
Qed.

Lemma reevaluate_reverse_installif_wk name s : wk s (reevaluate_reverse_installif db name s).
Proof.
  apply wk_for_each. intros n s' Hn. case_test; [done|]. case_test; [done|].
  assert (n ∈ U) by (by apply (proj1 (list.Forall_forall _ _) (u_rinstall_if _ _ _ Hu name))).
  etrans; [|by apply queue_dirty_wk]. by apply wk_upd_n.
Qed.

Lemma reevaluate_reverse_installif_pkg_wk pkg s : wk s (reevaluate_reverse_installif_pkg db pkg s).
Proof.
  unfold reevaluate_reverse_installif_pkg. etrans; [apply reevaluate_reverse_installif_wk|].
  apply wk_for_each. intros d s' _. apply reevaluate_reverse_installif_wk.
Qed.

(** Updates that make a package unselectable, or keep it selectable without conflicts. *)
Lemma wk_upd_p pkg f s :
  (forall x, ps_marks (f x) = ps_marks x /\ (ps_pkg_selectable (f x) = true -> ps_pkg_selectable x = true)) ->
  (sel (upd_p pkg f s) pkg = true -> ps_conflicts (f (pss s pkg)) = 0) -> wk s (upd_p pkg f s).
Proof.
  intros Hf Hc. assert (Heq : forall q, pkg_addr q = pkg_addr pkg -> pss s q = pss s pkg) by (intros q E; unfold pss; by rewrite E).
  constructor; try done.
  - intros q. rewrite pss_upd_p. case_bool_decide as E; [|done]. rewrite (Heq q E). apply Hf.
  - intros q. unfold sel. rewrite pss_upd_p. case_bool_decide as E; [|done]. rewrite (Heq q E). apply Hf.
  - intros Hk q. unfold sel in *. rewrite pss_upd_p in *. rewrite bool_decide_eq_true_2 in Hc by done.
    case_bool_decide as E; [auto|]. apply Hk.
  - by left.
  - by left.
Qed.

Lemma unselect_wk pkg s : wk s (upd_p pkg (set_ps_pkg_selectable false) s).
Proof. apply wk_upd_p; [done|]. unfold sel. rewrite pss_upd_p. by rewrite bool_decide_eq_true_2. Qed.

Lemma disqualify_rest_wk pkg s :
  wk (upd_p pkg (set_ps_pkg_selectable false) s) (disqualify_package db pkg s).
Proof.
  unfold disqualify_package. etrans; [apply reevaluate_reverse_deps_wk|].
  etrans; [apply wk_for_each; intros d s' _; apply reevaluate_reverse_deps_wk|]. apply reevaluate_reverse_installif_pkg_wk.
Qed.

Lemma disqualify_package_wk pkg s : wk s (disqualify_package db pkg s).
Proof. etrans; [apply unselect_wk|apply disqualify_rest_wk]. Qed.

Lemma disqualify_package_unsel pkg s : sel (disqualify_package db pkg s) pkg = false.
Proof.
  apply (wk_unsel U _ _ _ (disqualify_rest_wk pkg s)). unfold sel. rewrite pss_upd_p. by rewrite bool_decide_eq_true_2.
Qed.

Lemma disqualify_package_good pkg s : pkg_addr pkg ∈ P -> sel s pkg = true -> good s (disqualify_package db pkg s).
Proof.
  intros Hp Hs. split; [apply disqualify_package_wk|]. intros _ _. right. left. exists pkg.
  split; [done|]. split; [done|]. apply disqualify_package_unsel.
Qed.

Lemma inherit_good pkg pp s : good s (inherit_pinning_and_flags db pkg pp s).
Proof. unfold inherit_pinning_and_flags. destruct pp; (etrans; [|by apply good_upd_p]; by apply good_upd_p). Qed.

(** ** Constraints *)

Lemma req_add_requirer name s n :
  req (add_requirer name s) n = if bool_decide (n = name) then u16 (req s name + 1) else req s n.
Proof.
  unfold add_requirer, req. rewrite nss_upd_n. destruct (ns_requirers (nss s name) =? 0xffff); case_bool_decide; done.
Qed.

Lemma add_requirer_wk name s : wk s (add_requirer name s).
Proof.
  assert (Hn : forall n, locked (add_requirer name s) n = locked s n /\ chosen (add_requirer name s) n = chosen s n /\
    processed (add_requirer name s) n = processed s n).
  { intros n. unfold add_requirer, locked, chosen, processed. rewrite nss_upd_n.
    destruct (_ =? _); case_bool_decide as E; try (subst n); done. }
  assert (Hs : ss_dirty (add_requirer name s) = ss_dirty s /\ (forall n, queued (add_requirer name s) n <-> queued s n) /\
    (forall p, pss (add_requirer name s) p = pss s p) /\ ss_errors (add_requirer name s) = ss_errors s /\
    (ss_wrapped s = true \/ req s name = 65535 -> ss_wrapped (add_requirer name s) = true)).
  { unfold add_requirer. unfold req. destruct (Z.eqb_spec (ns_requirers (nss s name)) 0xffff) as [E|E]; repeat split; try done.
    intros [Hw|Hw]; [done|lia]. }
  destruct Hs as (Hd & Hq & Hp & He & Hw).
  constructor; try (intros; apply Hn).
  - done.
  - intros p. by rewrite Hp.
  - intros p. unfold sel. by rewrite Hp.
  - intros Hc p. unfold sel. rewrite Hp. apply Hc.
  - auto.
  - intros Ho. assert (Hr : forall n, 0 <= req (add_requirer name s) n < 65536).
    { intros n. rewrite req_add_requirer. case_bool_decide; [apply (wrap_bound 16); lia|apply Ho]. }
    split; [exact Hr|]. intros Hww n. rewrite req_add_requirer. case_bool_decide as E; [subst n|done].
    specialize (Ho name). assert (req s name <> 65535) by (intros E; rewrite Hw in Hww; [done|by right]).
    rewrite wrap_small; lia.
  - intros n Hx. by apply Hq.
  - intros n Hx. left. by apply Hq.
  - intros n. rewrite Hd. by left.
  - by rewrite Hd.
Qed.

Lemma name_requirers_changed_wk name s : name ∈ U -> wk s (name_requirers_changed db name s).
Proof.
  intros Hn. unfold name_requirers_changed.
  etrans; [exact (proj1 (queue_unresolved_good U P name false s Hn))|].
  etrans; [apply reevaluate_reverse_installif_wk|]. by apply queue_dirty_wk.
Qed.

(** A first requirer. *)
Lemma add_requirer_changed_good name s :
  name ∈ U -> (req_ok s -> req s name = 0) -> good s (name_requirers_changed db name (add_requirer name s)).
Proof.
  intros Hn H0. pose proof (name_requirers_changed_wk name (add_requirer name s) Hn) as Hw2.
  pose proof (add_requirer_wk name s) as Hw1. split; [by etrans|]. intros Ho Hw. right. right. exists name.
  split; [done|]. split; [auto|]. destruct (wk_req _ _ _ Hw1 Ho) as [Ho1 _]. destruct (wk_req _ _ _ Hw2 Ho1) as [_ Hr].
  specialize (Hr Hw name). rewrite req_add_requirer, bool_decide_eq_true_2, (H0 Ho) in Hr by done.
  change (u16 (0 + 1)) with 1 in Hr. lia.
Qed.

Lemma add_requirer_good name s : good s (add_requirer name s).
Proof.
  split; [apply add_requirer_wk|]. intros _ _. left. unfold add_requirer. by destruct (_ =? _).
Qed.

Lemma constrain_provider_good ppkg dep p0 s :
  pkg_addr p0.1 ∈ P -> good s (constrain_provider db ppkg dep p0 s).
Proof.
  intros Hp. unfold constrain_provider.
  set (f := fun ps => set_ps_conflicts _ ps). set (s1 := upd_p p0.1 f s).
  assert (Hs1 : sel s1 p0.1 = sel s p0.1 /\ pss s1 p0.1 = f (pss s p0.1)).
  { unfold s1, sel. by rewrite pss_upd_p, bool_decide_eq_true_2 by done. }
  destruct Hs1 as [Hsel Hps]. assert (Hk : good s (if ps_pkg_selectable (pss s1 p0.1) && negb (ps_conflicts (pss s1 p0.1) =? 0)
    then disqualify_package db p0.1 s1 else s1)).
  { fold (sel s1 p0.1). destruct (sel s1 p0.1) eqn:Es; cbn [andb].
    - destruct (Z.eqb_spec (ps_conflicts (pss s1 p0.1)) 0) as [E|E]; cbn [negb].
      + split; [|intros _ _; by left]. apply wk_upd_p; [done|]. intros _. by rewrite <- Hps.
      + split.
        * etrans; [|apply disqualify_rest_wk]. unfold s1. rewrite upd_p_upd_p. apply wk_upd_p; [done|].
          unfold sel. rewrite pss_upd_p. by rewrite bool_decide_eq_true_2.
        * intros _ _. right. left. exists p0.1. split; [done|]. split; [by rewrite <- Hsel|]. apply disqualify_package_unsel.
    - split; [|intros _ _; by left]. apply wk_upd_p; [done|]. fold s1. by rewrite Es. }
  destruct (apk_dep_is_provided ppkg dep (Some (prov p0))); [|done]. etrans; [exact Hk|]. apply inherit_good.
Qed.

(** A package that does not satisfy a constraint is not selectable afterwards. *)
Lemma constrain_provider_unsel ppkg dep p0 s :
  (sel s p0.1 = true -> ps_conflicts (pss s p0.1) = 0) -> apk_dep_is_provided ppkg dep (Some (prov p0)) = false ->
  sel (constrain_provider db ppkg dep p0 s) p0.1 = false.
Proof.
  intros Hc Hnp. unfold constrain_provider. rewrite Hnp. cbn [negb Z.b2z].
  set (f := fun ps => set_ps_conflicts _ ps). set (s1 := upd_p p0.1 f s).
  assert (Hps : pss s1 p0.1 = f (pss s p0.1)) by (unfold s1; by rewrite pss_upd_p, bool_decide_eq_true_2 by done).
  rewrite Hps. cbn [f ps_pkg_selectable ps_conflicts set_ps_conflicts]. fold (sel s p0.1).
  destruct (sel s p0.1) eqn:Es; cbn [andb].
  - rewrite (Hc eq_refl). change (negb (u32 (0 + 1) =? 0)) with true. cbv iota. apply disqualify_package_unsel.
  - unfold sel. rewrite Hps. exact Es.
Qed.

Lemma provider_addr n p : p ∈ providers db n -> pkg_addr p.1 ∈ P.
Proof. intros Hp. exact (kn_addr _ _ _ (known_provider _ _ _ _ _ Hu Hp)). Qed.

(** The state in which the providers are constrained. *)
Definition constraint_required (dep : apk_dependency) (s : apk_solver_state) : apk_solver_state :=
  let s := if apk_dep_conflict dep then s else add_requirer (dep_name dep) s in
  if (ns_requirers (nss s (dep_name dep)) =? 1) && negb (apk_dep_conflict dep)
  then name_requirers_changed db (dep_name dep) s else s.

Lemma constraint_required_good dep s : dep_name dep ∈ U -> good s (constraint_required dep s).
Proof.
  intros Hn. unfold constraint_required. destruct (apk_dep_conflict dep); cbn [negb]; [by rewrite andb_false_r|].
  rewrite andb_true_r. destruct (Z.eqb_spec (ns_requirers (nss (add_requirer (dep_name dep) s) (dep_name dep))) 1) as [E|E];
    [|apply add_requirer_good].
  apply add_requirer_changed_good; [done|]. intros Ho. specialize (Ho (dep_name dep)).
  change (req (add_requirer (dep_name dep) s) (dep_name dep) = 1) in E.
  rewrite req_add_requirer, bool_decide_eq_true_2 in E by done. unfold wrap in E. 
  destruct (decide (req s (dep_name dep) = 65535)) as [E'|E']; [rewrite E' in E; done|].
  rewrite Z.mod_small in E; lia.
Qed.

Lemma apply_constraint_eq ppkg dep s :
  apply_constraint db ignore_conflict ppkg dep s =
  if apk_dep_conflict dep && ignore_conflict then s
  else for_each (providers db (dep_name dep)) (constrain_provider db ppkg dep) (constraint_required dep s).
Proof. reflexivity. Qed.

Lemma apply_constraint_good ppkg dep s : dep_name dep ∈ U -> good s (apply_constraint db ignore_conflict ppkg dep s).
Proof.
  intros Hn. rewrite apply_constraint_eq. case_test; [done|]. etrans; [by apply constraint_required_good|].
  apply good_for_each. intros p s' Hp. apply constrain_provider_good. by eapply provider_addr.
Qed.

Lemma exclude_non_providers_good name must skip s : good s (exclude_non_providers db ignore_conflict name must skip s).
Proof.
  unfold exclude_non_providers. case_test; [done|]. apply good_for_each. intros p s' Hp.
  destruct (bool_decide (pkg_nm p.1 = must)); [done|]. cbn [orb].
  destruct (ps_pkg_selectable (pss s' p.1)) eqn:Es; [|done]. cbn [negb orb]. case_test; [done|]. case_test; [done|].
  apply disqualify_package_good; [by eapply provider_addr|done].
Qed.

(** ** Reconsidering *)

Lemma recheck_depends_good pkg s : pkg_addr pkg ∈ P -> sel s pkg = true -> good s (recheck_depends db ignore_conflict pkg s).
Proof. intros Hp Hs. unfold recheck_depends. case_test; [done|]. by apply disqualify_package_good. Qed.

Lemma set_iif_good a b pkg s : good s (set_iif a b pkg s).
Proof. by apply good_upd_p. Qed.

Lemma check_install_if_good pkg deps s :
  Forall (fun d => dep_name d ∈ U) deps -> good s (check_install_if pkg deps s).
Proof.
  intros Hd. revert s. induction Hd as [|d deps Hd Hds IH]; intros s; cbn [check_install_if]; [done|].
  case_test; [|case_test; [apply set_iif_good|apply IH]]. etrans; [|apply set_iif_good].
  case_test; [|done]. etrans; [|by apply queue_unresolved_good]. by apply good_upd_n.
Qed.

Lemma merge_provides_good n v k s : good s (merge_provides n v k s).
Proof.
  apply good_upd_n. intros x. destruct (merge_index (ns_merge_provides x) k) as [b i]. by destruct b.
Qed.

Lemma consider_provider_good name rd ri p c s :
  known U P p.1 -> good s (consider_provider db ignore_conflict name rd ri p (c, s)).2.
Proof.
  intros Hk. cbn [consider_provider]. set (s1 := upd_p p.1 (set_ps_dependencies_merged false) s).
  assert (G1 : good s s1) by (by apply good_upd_p).
  destruct (rd && negb (ps_pkg_selectable (pss s1 p.1))) eqn:E1; [done|].
  set (s2 := if rd then recheck_depends db ignore_conflict p.1 s1 else s1).
  assert (G2 : good s s2).
  { etrans; [exact G1|]. unfold s2. destruct rd; [|done]. apply recheck_depends_good; [apply Hk|].
    unfold sel. by destruct (ps_pkg_selectable (pss s1 p.1)). }
  clearbody s2. case_test; [exact G2|].
  set (s3 := if ri && negb (ps_iif_triggered (pss s2 p.1)) && negb (ps_iif_failed (pss s2 p.1)) then _ else s2). assert (G3 : good s s3).
  { etrans; [exact G2|]. unfold s3. case_test; [|done]. etrans; [apply set_iif_good|]. apply check_install_if_good, Hk. }
  clearbody s3. set (s4 := if ri && ps_iif_triggered (pss s3 p.1) then _ else s3). assert (G4 : good s s4).
  { etrans; [exact G3|]. unfold s4. case_test; [|done]. apply good_for_each. intros d s' _. apply inherit_good. }
  clearbody s4. case_test; [exact G4|]. cbn [snd].
  etrans; [exact G4|]. etrans; [by apply (good_upd_p _ _ p.1 (set_ps_dependencies_merged true))|].
  etrans; [|apply good_for_each; intros d s' _; apply merge_provides_good].
  etrans; [|apply merge_provides_good].
  apply good_for_each. intros d s' _. case_test; [done|]. by apply good_upd_n.
Qed.

Lemma consider_provider_first name rd ri p c s :
  c_first (consider_provider db ignore_conflict name rd ri p (c, s)).1 = c_first c \/
  c_first (consider_provider db ignore_conflict name rd ri p (c, s)).1 = Some p.1.
Proof.
  cbn [consider_provider]. repeat (case_test; [by left|]). cbn [fst c_first]. destruct (c_first c); auto.
Qed.

Lemma consider_providers_good name rd ri s :
  let cs := consider_providers db ignore_conflict name rd ri s in
  good s cs.2 /\ forall pkg, c_first cs.1 = Some pkg -> known U P pkg.
Proof.
  cbn zeta. unfold consider_providers.
  assert (Hgen : forall l cs, (forall p, p ∈ l -> known U P p.1) ->
    good s cs.2 -> (forall pkg, c_first cs.1 = Some pkg -> known U P pkg) ->
    let cs' := foldl (fun cs p => consider_provider db ignore_conflict name rd ri p cs) cs l in
    good s cs'.2 /\ forall pkg, c_first cs'.1 = Some pkg -> known U P pkg).
  { induction l as [|p l IH]; intros [c s'] Hl Hg Hf; cbn [foldl]; [done|]. apply IH.
    - intros q Hq. apply Hl. by right.
    - etrans; [exact Hg|]. apply consider_provider_good, Hl. by left.
    - intros pkg. destruct (consider_provider_first name rd ri p c s') as [-> | ->]; [apply Hf|].
      intros [= <-]. apply Hl. by left. }
  apply Hgen; [|done|done]. intros p Hp. by eapply known_provider.
Qed.

Lemma merge_depends_complete_good n k s : good s (merge_depends_complete n k s).2.
Proof. by apply good_upd_n. Qed.
Lemma merge_provides_complete_good n k s : good s (merge_provides_complete n k s).2.
Proof. by apply good_upd_n. Qed.

Lemma propagate_depends_good pkg k s : known U P pkg -> good s (propagate_depends db ignore_conflict pkg k s).
Proof.
  intros Hk. apply good_for_each. intros d s' Hd.
  assert (Hn : dep_name d ∈ U) by (by apply (proj1 (list.Forall_forall _ _) (kn_depends _ _ _ Hk))).
  pose proof (merge_depends_complete_good (dep_name d) k s') as Hm.
  destruct (merge_depends_complete (dep_name d) k s') as [b s1]. cbn [snd] in Hm. etrans; [exact Hm|].
  case_test.
  - case_test; [by apply apply_constraint_good|done].
  - destruct b; [|done]. cbn [andb]. destruct (Z.eqb_spec (ns_requirers (nss s1 (dep_name d))) 0) as [E0|E0]; [|done].
    etrans; [apply add_requirer_changed_good; [done|by intros _]|].
    apply good_for_each. intros p s2 _. apply inherit_good.
Qed.

Lemma propagate_provides_good name pkg k s : good s (propagate_provides db ignore_conflict name pkg k s).
Proof.
  unfold propagate_provides.
  assert (He : forall n s, good s (exclude_complete db ignore_conflict name k n s)).
  { intros n s1. unfold exclude_complete. pose proof (merge_provides_complete_good n k s1) as Hm.
    destruct (merge_provides_complete n k s1) as [b s2]. cbn [snd] in Hm. etrans; [exact Hm|].
    case_test; [apply exclude_non_providers_good|done]. }
  etrans; [apply He|].
  etrans; [apply good_for_each; intros d s' _; apply He|].
  etrans; [|apply good_for_each; intros d s' _; by apply good_upd_n]. by apply good_upd_n.
Qed.

Lemma reconsider_name_good name s : name ∈ U -> good s (reconsider_name db ignore_conflict name s).
Proof.
  intros Hn. unfold reconsider_name. set (s1 := upd_n name _ s).
  assert (G1 : good s s1) by (by apply good_upd_n).
  destruct (consider_providers_good name (ns_reevaluate_deps (nss s name)) (ns_reevaluate_iif (nss s name)) s1) as [G2 Hf].
  destruct (consider_providers _ _ _ _ _ s1) as [c s2]. cbn [fst snd] in G2, Hf.
  etrans; [|by apply queue_unresolved_good]. etrans; [|by apply good_upd_n].
  etrans; [exact G1|]. etrans; [exact G2|]. set (s3 := upd_n name _ s2).
  assert (G3 : good s2 s3) by (by apply good_upd_n). etrans; [exact G3|].
  destruct (c_first c) as [pkg|]; [|done].
  etrans; [|apply propagate_provides_good]. etrans; [|by apply propagate_depends_good; apply Hf].
  apply good_for_each. intros p s' _. by apply good_upd_p.
Qed.
End Propagate.
