(* ===== verification/SolverLoop.v ===== *)
(** The main loop of the solver: its structural invariant and its termination. *)
From Stdlib Require Import ZArith Lia.
From stdpp Require Import base numbers list option gmap.
From S2P Require Import Prelude Clib Blob Version Dep Package SolverState Solver SolverInv.

(** A package that has nothing but an address. *)
Definition set_pkg_addr (a : Z) : apk_package :=
  Pkg a None None [] [] [] [] [] None [] [] [] [] [] [] [] 0 0 0 0 0 0 0 false false false false 0 0 [].

Section Loop.
Context `{UndefChecksum}.
Context (db : apk_database) (ignore_conflict : bool).
Context (U : gset bytes) (P : gset Z) (Hu : universe db U P).
#[local] Abbreviation wk := (wk U).
#[local] Abbreviation good := (good U P).

(** Counts are in range, and what is queued is known and undecided. *)
Record inv (s : apk_solver_state) : Prop := {
  i_req : req_ok s;
  i_nodup : NoDup (ss_dirty s);
  i_dirty n : n ∈ ss_dirty s -> locked s n = false /\ n ∈ U;
  i_queue n : queued s n -> locked s n = false /\ n ∈ U;
}.

Lemma inv_wk s s' : wk s s' -> inv s -> inv s'.
Proof.
  intros W [Hr Hn Hd Hq]. constructor.
  - by apply (wk_req _ _ _ W).
  - by apply (wk_nodup _ _ _ W).
  - intros n Hi. rewrite (wk_locked _ _ _ W). destruct (wk_dirtyin _ _ _ W n Hi) as [H'|H']; auto.
  - intros n Hi. rewrite (wk_locked _ _ _ W). destruct (wk_inq _ _ _ W n Hi) as [H'|H']; auto.
Qed.

(** What only grows: decided names keep their provider, disqualified packages stay so. *)
Record ext (s s' : apk_solver_state) : Prop := {
  e_locked n : locked s n = true -> locked s' n = true /\ chosen s' n = chosen s n;
  e_sel p : sel s' p = true -> sel s p = true;
  e_wrapped : ss_wrapped s = true -> ss_wrapped s' = true;
  e_req : req_ok s -> req_ok s' /\ (ss_wrapped s' = false -> forall n, req s n <= req s' n);
}.

#[global] Instance ext_refl : Reflexive ext.
Proof. intros s. constructor; auto. intros Ho. split; [done|]. intros _ n. lia. Qed.

Lemma ext_unwrapped s s' : ext s s' -> ss_wrapped s' = false -> ss_wrapped s = false.
Proof. intros Hw E. destruct (ss_wrapped s) eqn:E'; [|done]. apply (e_wrapped _ _ Hw) in E'. congruence. Qed.

#[global] Instance ext_trans : Transitive ext.
Proof.
  intros s1 s2 s3 A B. constructor.
  - intros n Hl. destruct (e_locked _ _ A n Hl) as [Hl2 Hc2]. destruct (e_locked _ _ B n Hl2) as [Hl3 Hc3]. split; congruence.
  - intros p Hp. by apply (e_sel _ _ A), (e_sel _ _ B).
  - intros Hw. by apply (e_wrapped _ _ B), (e_wrapped _ _ A).
  - intros Ho. destruct (e_req _ _ A Ho) as [Ho2 Hr]. destruct (e_req _ _ B Ho2) as [Ho3 Hr'].
    split; [done|]. intros Hw n. specialize (Hr' Hw n). specialize (Hr (ext_unwrapped _ _ B Hw) n). lia.
Qed.

Lemma wk_ext s s' : wk s s' -> ext s s'.
Proof.
  intros W. constructor.
  - intros n. by rewrite (wk_locked _ _ _ W), (wk_chosen _ _ _ W).
  - apply (wk_sel _ _ _ W).
  - apply (wk_wrapped _ _ _ W).
  - apply (wk_req _ _ _ W).
Qed.

(** ** Marking errors *)

Lemma mark_error_names p s :
  ss_names (mark_error p s) = ss_names s /\ ss_dirty (mark_error p s) = ss_dirty s /\
  ss_wrapped (mark_error p s) = ss_wrapped s /\ (forall n, queued (mark_error p s) n <-> queued s n) /\
  (forall q, sel (mark_error p s) q = sel s q /\ ps_conflicts (pss (mark_error p s) q) = ps_conflicts (pss s q)).
Proof.
  unfold mark_error. destruct p as [p|]; [|done]. case_test; [done|]. repeat split; try done.
  - unfold sel. change (pss (set_ss_errors _ _) q) with (pss (upd_p p (set_ps_error true) s) q).
    rewrite pss_upd_p. case_bool_decide as Eq; [|done]. unfold pss. by rewrite Eq.
  - change (pss (set_ss_errors _ _) q) with (pss (upd_p p (set_ps_error true) s) q).
    rewrite pss_upd_p. case_bool_decide as Eq; [|done]. unfold pss. by rewrite Eq.
Qed.

Lemma mark_error_nss p s n : nss (mark_error p s) n = nss s n.
Proof. unfold nss. by destruct (mark_error_names p s) as (-> & _). Qed.

Lemma mark_error_ext p s : ext s (mark_error p s).
Proof.
  destruct (mark_error_names p s) as (_ & _ & Hw & _ & Hp).
  assert (Hn := mark_error_nss p s). constructor; unfold locked, chosen, req_ok, req.
  - intros n. by rewrite Hn.
  - intros q. by destruct (Hp q) as [-> _].
  - by rewrite Hw.
  - intros Ho. split; intros; rewrite Hn; [apply Ho|lia].
Qed.

Lemma mark_error_inv p s : inv s -> inv (mark_error p s).
Proof.
  destruct (mark_error_names p s) as (_ & Hd & _ & Hq & _). assert (Hn := mark_error_nss p s).
  intros [H1 H2 H3 H4]. constructor; unfold locked, req_ok, req in *.
  - intros n. rewrite Hn. apply H1.
  - by rewrite Hd.
  - intros n. rewrite Hd, Hn. apply H3.
  - intros n. rewrite Hq, Hn. apply H4.
Qed.

(** ** Assigning a name *)

(** The name is decided and taken off the lists. *)
Definition lock_name (name : bytes) (p : apk_provider) (s : apk_solver_state) : apk_solver_state :=
  unlink_dirty name (unlink_unresolved name (upd_n name (fun n => set_ns_chosen p (set_ns_locked true n)) s)).

Lemma lock_name_nss name p s n :
  locked (lock_name name p s) n = (bool_decide (n = name) || locked s n) /\
  chosen (lock_name name p s) n = (if bool_decide (n = name) then p else chosen s n) /\
  req (lock_name name p s) n = req s n /\ processed (lock_name name p s) n = processed s n.
Proof.
  unfold locked, chosen, req, processed. change (nss (lock_name name p s) n) with
    (nss (upd_n name (fun n => set_ns_chosen p (set_ns_locked true n)) s) n).
  rewrite nss_upd_n. case_bool_decide as E; [by subst n|done].
Qed.

Lemma lock_name_queued name p s n : queued (lock_name name p s) n <-> n <> name /\ queued s n.
Proof. apply (queued_unlink (upd_n name (fun n => set_ns_chosen p (set_ns_locked true n)) s)). Qed.

Lemma lock_name_dirty name p s n : n ∈ ss_dirty (lock_name name p s) <-> n <> name /\ n ∈ ss_dirty s.
Proof. apply elem_of_unlink. Qed.

Lemma lock_name_inv name p s : inv s -> inv (lock_name name p s).
Proof.
  intros [H1 H2 H3 H4]. constructor.
  - intros n. destruct (lock_name_nss name p s n) as (_ & _ & -> & _). apply H1.
  - unfold lock_name, unlink_dirty, unlink. by apply NoDup_filter.
  - intros n. rewrite lock_name_dirty. intros [Hn Hd]. destruct (lock_name_nss name p s n) as (-> & _).
    rewrite bool_decide_eq_false_2 by done. by apply H3.
  - intros n. rewrite lock_name_queued. intros [Hn Hd]. destruct (lock_name_nss name p s n) as (-> & _).
    rewrite bool_decide_eq_false_2 by done. by apply H4.
Qed.

Lemma lock_name_ext name p s : locked s name = false -> ext s (lock_name name p s).
Proof.
  intros Hl. constructor.
  - intros n Hn. destruct (lock_name_nss name p s n) as (-> & -> & _). rewrite Hn, orb_true_r.
    rewrite bool_decide_eq_false_2; [done|]. intros ->. congruence.
  - done.
  - done.
  - intros Ho. split; [intros n|intros _ n]; destruct (lock_name_nss name p s n) as (_ & _ & -> & _); [apply Ho|lia].
Qed.

(** Everything after the name is decided is propagation. *)
Lemma assign_name_wk name p s :
  locked s name = false -> (forall pkg, prov_pkg p = Some pkg -> known U P pkg) ->
  wk (lock_name name p s) (assign_name db ignore_conflict name p s).
Proof.
  intros Hl Hk. unfold assign_name. fold (locked s name). rewrite Hl. fold (lock_name name p s).
  set (s0 := lock_name name p s). set (s1 := match prov_pkg p with Some pkg => _ | None => s0 end).
  assert (W1 : wk s0 s1).
  { unfold s1. destruct (prov_pkg p) as [pkg|]; [|done]. case_test; [|done].
    apply wk_for_each. intros d s' Hd. case_test; [|done].
    refine (proj1 (apply_constraint_good db ignore_conflict U P Hu _ d s' _)).
    by apply (proj1 (list.Forall_forall _ _) (kn_install_if _ _ _ (Hk pkg eq_refl))). }
  etrans; [exact W1|]. clearbody s1. set (s2 := if ignore_conflict then s1 else _). assert (W2 : wk s1 s2).
  { unfold s2. destruct ignore_conflict; [done|]. apply wk_for_each. intros q s' _. case_test; [done|]. case_test; [done|].
    by apply (disqualify_package_wk db U P Hu). }
  etrans; [exact W2|]. clearbody s2. etrans; [by apply (reevaluate_reverse_deps_wk db U P Hu)|].
  destruct (prov_pkg p); [by apply (reevaluate_reverse_installif_pkg_wk db U P Hu)|by apply (reevaluate_reverse_installif_wk db U P Hu)].
Qed.

Lemma assign_name_ext name p s :
  (forall pkg, prov_pkg p = Some pkg -> known U P pkg) -> ext s (assign_name db ignore_conflict name p s).
Proof.
  intros Hk. destruct (locked s name) eqn:Hl.
  - unfold assign_name. fold (locked s name). rewrite Hl. case_test; [done|]. case_test; [done|].
    etrans; apply mark_error_ext.
  - etrans; [by apply (lock_name_ext name p)|]. by apply wk_ext, assign_name_wk.
Qed.

Lemma assign_name_inv name p s :
  (forall pkg, prov_pkg p = Some pkg -> known U P pkg) -> inv s -> inv (assign_name db ignore_conflict name p s).
Proof.
  intros Hk Hi. destruct (locked s name) eqn:Hl.
  - unfold assign_name. fold (locked s name). rewrite Hl. case_test; [done|]. case_test; [done|]. by do 2 apply mark_error_inv.
  - apply (inv_wk (lock_name name p s)); [by apply assign_name_wk|by apply lock_name_inv].
Qed.

Lemma assign_name_locks name p s :
  (forall pkg, prov_pkg p = Some pkg -> known U P pkg) -> locked (assign_name db ignore_conflict name p s) name = true.
Proof.
  intros Hk. destruct (locked s name) eqn:Hl.
  - by apply (e_locked _ _ (assign_name_ext name p s Hk)).
  - rewrite (wk_locked _ _ _ (assign_name_wk name p s Hl Hk)). destruct (lock_name_nss name p s name) as (-> & _).
    by rewrite bool_decide_eq_true_2.
Qed.

(** ** Selecting a package *)

Lemma choose_provider_in name s :
  choose_provider db name s = provider_none \/ exists p, p ∈ providers db name /\ choose_provider db name s = prov p.
Proof.
  unfold choose_provider. case_test; [|by left].
  assert (Hgen : forall l c, (forall p, p ∈ l -> p ∈ providers db name) ->
    (c = provider_none \/ exists p, p ∈ providers db name /\ c = prov p) ->
    let c' := foldl (fun chosen p =>
      let ps := pss s p.1 in
      if (ns_requirers (nss s name) =? 0) && (negb (ps_iif_triggered ps) || negb (ps_tag_ok ps) || negb (ps_pkg_selectable ps))
      then chosen
      else if negb (is_provider_auto_selectable s p) then chosen
      else if 0 <? compare_providers db s (prov p) chosen then prov p else chosen) c l in
    c' = provider_none \/ exists p, p ∈ providers db name /\ c' = prov p).
  { induction l as [|p l IH]; intros c Hl Hc; cbn [foldl]; [done|]. apply IH; [intros q Hq; apply Hl; by right|].
    cbn zeta. case_test; [done|]. case_test; [done|]. case_test; [|done]. right. exists p. split; [apply Hl; by left|done]. }
  apply Hgen; [done|by left].
Qed.

Lemma choose_provider_pkg name s pkg :
  prov_pkg (choose_provider db name s) = Some pkg -> exists v, (pkg, v) ∈ providers db name /\ choose_provider db name s = Provider (Some pkg) v.
Proof.
  destruct (choose_provider_in name s) as [->|([q v] & Hq & ->)]; cbn; [done|]. intros [= ->]. eauto.
Qed.

(** A chain of operations that keep the invariant and only extend the state. *)
Definition steady (s s' : apk_solver_state) : Prop := ext s s' /\ (inv s -> inv s').

#[global] Instance steady_refl : Reflexive steady.
Proof. by split. Qed.
#[global] Instance steady_trans : Transitive steady.
Proof. intros s1 s2 s3 [A B] [C D]. split; [by etrans|auto]. Qed.

Lemma wk_steady s s' : wk s s' -> steady s s'.
Proof. intros W. split; [by apply wk_ext|by apply inv_wk]. Qed.

Lemma mark_error_steady p s : steady s (mark_error p s).
Proof. split; [apply mark_error_ext|apply mark_error_inv]. Qed.

Lemma assign_name_steady name p s :
  (forall pkg, prov_pkg p = Some pkg -> known U P pkg) -> steady s (assign_name db ignore_conflict name p s).
Proof. intros Hk. split; [by apply assign_name_ext|by apply assign_name_inv]. Qed.

Lemma steady_for_each {A} (l : list A) f s : (forall x s, x ∈ l -> steady s (f x s)) -> steady s (for_each l f s).
Proof.
  unfold for_each. revert s. induction l as [|x l IH]; intros s Hf; cbn [foldl]; [done|].
  etrans; [apply (Hf x); by left|]. apply IH. intros y s' Hy. apply Hf. by right.
Qed.

Lemma assign_provides_steady pkg l s :
  known U P pkg ->
  steady s (for_each l (fun d => assign_name db ignore_conflict (dep_name d) (APK_PROVIDER_FROM_PROVIDES pkg d)) s).
Proof. intros Hk. apply steady_for_each. intros x s' _. apply assign_name_steady. by intros q [= <-]. Qed.

(** The provided names of a package, assigned in order, are decided. *)
Lemma assign_provides_locks pkg l d s :
  known U P pkg -> d ∈ l ->
  locked (for_each l (fun d => assign_name db ignore_conflict (dep_name d) (APK_PROVIDER_FROM_PROVIDES pkg d)) s) (dep_name d) = true.
Proof.
  intros Hk Hd. revert s. induction l as [|e l IH]; intros s; [by apply elem_of_nil in Hd|].
  cbn [for_each foldl]. apply elem_of_cons in Hd as [->|Hd]; [|by apply IH].
  refine (proj1 (e_locked _ _ (proj1 (assign_provides_steady pkg l _ Hk)) _ _)). apply assign_name_locks. by intros q [= <-].
Qed.

Lemma apply_depends_wk pkg s :
  known U P pkg -> wk s (for_each (depends pkg) (apply_constraint db ignore_conflict (Some pkg)) s).
Proof.
  intros Hk. apply wk_for_each. intros d s' Hd.
  refine (proj1 (apply_constraint_good db ignore_conflict U P Hu _ d s' _)).
  by apply (proj1 (list.Forall_forall _ _) (kn_depends _ _ _ Hk)).
Qed.

Lemma select_package_steady name s : steady s (select_package db ignore_conflict name s).
Proof.
  unfold select_package. destruct (prov_pkg (choose_provider db name s)) as [pkg|] eqn:Ec.
  - destruct (choose_provider_pkg name s pkg Ec) as (v & Hv & _).
    pose proof (known_provider _ _ _ _ _ Hu Hv) as Hk. cbn [fst] in Hk.
    set (s1 := if _ || _ then mark_error (Some pkg) s else s).
    assert (S1 : steady s s1) by (unfold s1; case_test; [apply mark_error_steady|done]). etrans; [exact S1|].
    etrans; [apply (assign_name_steady (pkg_nm pkg) (APK_PROVIDER_FROM_PACKAGE pkg)); by intros q [= <-]|].
    etrans; [by apply assign_provides_steady|]. by apply wk_steady, apply_depends_wk.
  - etrans; [apply (assign_name_steady name provider_none); done|]. set (s1 := assign_name _ _ _ _ _). clearbody s1.
    case_test; [|done]. split; [|by intros [? ? ? ?]; constructor].
    by constructor.
Qed.

Lemma select_package_locks name s : db_wf db -> locked (select_package db ignore_conflict name s) name = true.
Proof.
  intros Hwf. unfold select_package. destruct (prov_pkg (choose_provider db name s)) as [pkg|] eqn:Ec.
  - destruct (choose_provider_pkg name s pkg Ec) as (v & Hv & _).
    pose proof (known_provider _ _ _ _ _ Hu Hv) as Hk. cbn [fst] in Hk.
    set (s1 := if _ || _ then mark_error (Some pkg) s else s). clearbody s1.
    set (s2 := assign_name _ _ _ _ s1).
    set (s3 := for_each (provides pkg) _ s2).
    rewrite (wk_locked _ _ _ (apply_depends_wk pkg s3 Hk)).
    assert (S3 : steady s2 s3) by (by apply assign_provides_steady).
    destruct (w_prov _ Hwf name (pkg, v) Hv) as [[<- _]|(d & Hd & <- & _)]; cbn [fst].
    + apply (e_locked _ _ (proj1 S3)). apply assign_name_locks. by intros q [= <-].
    + by apply assign_provides_locks.
  - assert (Hl : locked (assign_name db ignore_conflict name provider_none s) name = true) by (by apply assign_name_locks).
    case_test; done.
Qed.

(** ** Termination *)

#[local] Abbreviation card := base.size.

Definition undecided (s : apk_solver_state) : gset bytes := filter (fun n => locked s n = false) U.
Definition unrequired (s : apk_solver_state) : gset bytes := filter (fun n => req s n = 0) U.
Definition candidates_left (s : apk_solver_state) : gset Z :=
  filter (fun a => ps_pkg_selectable (default ps0 (ss_pkgs s !! a)) = true) P.

Definition work (s : apk_solver_state) : nat :=
  (card (undecided s) + card (unrequired s) + card (candidates_left s)) * (card U + 1) + length (ss_dirty s).

Lemma dirty_length s : inv s -> (length (ss_dirty s) <= card U)%nat.
Proof.
  intros [_ Hn Hd _]. rewrite <- (size_list_to_set (C := gset bytes) (ss_dirty s) Hn).
  apply subseteq_size. intros n. rewrite elem_of_list_to_set. intros Hi. by apply Hd.
Qed.

Lemma undecided_mono s s' : ext s s' -> undecided s' ⊆ undecided s.
Proof.
  intros He n. unfold undecided. rewrite !elem_of_filter. intros [Hl Hn]. split; [|done].
  destruct (locked s n) eqn:E; [|done]. destruct (e_locked _ _ He n E). congruence.
Qed.

Lemma unrequired_mono s s' : ext s s' -> req_ok s -> ss_wrapped s' = false -> unrequired s' ⊆ unrequired s.
Proof.
  intros He Ho Hw n. unfold unrequired. rewrite !elem_of_filter. intros [Hl Hn]. split; [|done].
  destruct (e_req _ _ He Ho) as [_ Hr]. specialize (Hr Hw n). specialize (Ho n). lia.
Qed.

Lemma candidates_mono s s' : ext s s' -> candidates_left s' ⊆ candidates_left s.
Proof.
  intros He a. unfold candidates_left. rewrite !elem_of_filter. intros [Hl Ha]. split; [|done].
  exact (e_sel _ _ He (set_pkg_addr a) Hl).
Qed.

(** One reconsidered name: either something was decided about a package or a name, or there is
    one dirty name less. *)
Lemma good_work s s' n l :
  inv s -> ss_dirty s = n :: l -> good (set_ss_dirty l s) s' -> inv s' -> ss_wrapped s' = false -> (work s' < work s)%nat.
Proof.
  intros Hi Hd [W D] Hi' Hw. set (s0 := set_ss_dirty l s) in *.
  assert (Ho : req_ok s0) by (apply (i_req _ Hi)).
  pose proof (subseteq_size _ _ (undecided_mono _ _ (wk_ext _ _ W))) as L1.
  pose proof (subseteq_size _ _ (unrequired_mono _ _ (wk_ext _ _ W) Ho Hw)) as L2.
  pose proof (subseteq_size _ _ (candidates_mono _ _ (wk_ext _ _ W))) as L3.
  change (undecided s0) with (undecided s) in L1. change (unrequired s0) with (unrequired s) in L2.
  change (candidates_left s0) with (candidates_left s) in L3.
  pose proof (dirty_length s' Hi') as Hlen. unfold work. rewrite Hd. cbn [length].
  destruct (D Ho Hw) as [E|[(p & Hp & H1 & H2)|(m & Hm & H1 & H2)]].
  - rewrite E. cbn [s0 set_ss_dirty ss_dirty]. nia.
  - assert (card (candidates_left s') < card (candidates_left s))%nat; [|nia].
    apply subset_size. apply (strict_spec_alt (R := (⊆))). split; [apply (candidates_mono s0); by apply wk_ext|].
    intros E. assert (Hin : pkg_addr p ∈ candidates_left s) by (apply elem_of_filter; done).
    rewrite <- E in Hin. apply elem_of_filter in Hin as [Hx _]. unfold sel, pss in H2. congruence.
  - assert (card (unrequired s') < card (unrequired s))%nat; [|nia].
    apply subset_size. apply (strict_spec_alt (R := (⊆))). split; [apply (unrequired_mono s0); [by apply wk_ext|done|done]|].
    intros E. assert (Hin : m ∈ unrequired s) by (apply elem_of_filter; done).
    rewrite <- E in Hin. apply elem_of_filter in Hin as [Hx _]. done.
Qed.

(** One decided name. *)
Lemma locked_work s s' name :
  inv s -> name ∈ U -> locked s name = false -> ext s s' -> inv s' -> locked s' name = true -> ss_wrapped s' = false ->
  ss_dirty s = [] -> (work s' < work s)%nat.
Proof.
  intros Hi Hn Hl He Hi' Hl' Hw Hd.
  pose proof (subseteq_size _ _ (unrequired_mono _ _ He (i_req _ Hi) Hw)) as L2.
  pose proof (subseteq_size _ _ (candidates_mono _ _ He)) as L3.
  pose proof (dirty_length s' Hi') as Hlen. unfold work. rewrite Hd. cbn [length].
  assert (card (undecided s') < card (undecided s))%nat; [|nia].
  apply subset_size. apply (strict_spec_alt (R := (⊆))). split; [by apply undecided_mono|].
  intros E. assert (Hin : name ∈ undecided s) by (apply elem_of_filter; done).
  rewrite <- E in Hin. apply elem_of_filter in Hin as [Hx _]. congruence.
Qed.

Lemma dequeue_spec s name s1 :
  dequeue_next_name s = Some (name, s1) ->
  queued s name /\ ss_names s1 = ss_names s /\ ss_pkgs s1 = ss_pkgs s /\ ss_dirty s1 = ss_dirty s /\
  ss_errors s1 = ss_errors s /\ ss_wrapped s1 = ss_wrapped s /\
  (forall n, queued s1 n -> queued s n) /\ (forall n, queued s n -> n = name \/ queued s1 n).
Proof.
  unfold dequeue_next_name, queued. destruct (ss_resolvenow s) as [|a l] eqn:E1.
  2: { intros [= <- <-]. cbn. repeat split; try done; try (right; right; by left); intros n; rewrite ?elem_of_cons; tauto. }
  destruct (ss_selectable s) as [|a l] eqn:E2.
  2: { intros [= <- <-]. cbn. rewrite E1. repeat split; try done; try (right; left; by left); intros n; rewrite ?elem_of_cons; tauto. }
  destruct (ss_unresolved s) as [|a l] eqn:E3; [done|].
  intros [= <- <-]. cbn. rewrite E1, E2. repeat split; try done; try (left; by left); intros n; rewrite ?elem_of_cons; tauto.
Qed.

Lemma inv_sub s s1 :
  inv s -> ss_names s1 = ss_names s -> NoDup (ss_dirty s1) ->
  (forall n, n ∈ ss_dirty s1 -> n ∈ ss_dirty s) -> (forall n, queued s1 n -> queued s n) -> inv s1.
Proof.
  intros [H1 H2 H3 H4] Hn Hnd Hd Hq. assert (En : forall n, nss s1 n = nss s n) by (intros n; unfold nss; by rewrite Hn).
  constructor; unfold req_ok, req, locked in *; [intros n; rewrite En; auto|done|intros n; rewrite En; auto|intros n; rewrite En; auto].
Qed.

Lemma ext_sub s s1 : ss_names s1 = ss_names s -> ss_pkgs s1 = ss_pkgs s -> ss_wrapped s1 = ss_wrapped s -> ext s s1.
Proof.
  intros Hn Hp Hw. assert (En : forall n, nss s1 n = nss s n) by (intros n; unfold nss; by rewrite Hn).
  constructor; unfold locked, chosen, req_ok, req, sel.
  - intros n. by rewrite En.
  - intros p. unfold pss. by rewrite Hp.
  - by rewrite Hw.
  - intros Ho. split; intros; rewrite En; [apply Ho|lia].
Qed.

(** Every turn keeps the invariant, extends the state, and leaves less to do. *)
Lemma solver_turn_steady s s' :
  db_wf db -> inv s -> solver_turn db ignore_conflict s = Some s' ->
  inv s' /\ ext s s' /\ (ss_wrapped s' = false -> (work s' < work s)%nat).
Proof.
  intros Hwf Hi. unfold solver_turn. destruct (ss_dirty s) as [|name l] eqn:Ed.
  - destruct (dequeue_next_name s) as [[name s1]|] eqn:Eq; [|done]. intros [= <-].
    destruct (dequeue_spec s name s1 Eq) as (Hq & Hn & Hp & Hd & _ & Hw & Hq1 & _).
    destruct (i_queue _ Hi name Hq) as [Hl HU].
    assert (Hi1 : inv s1) by (apply (inv_sub s); rewrite ?Hd; auto; apply Hi).
    assert (He1 : ext s s1) by (by apply ext_sub).
    destruct (select_package_steady name s1) as [He2 Hi2].
    pose proof (select_package_locks name s1 Hwf) as Hlk.
    split; [auto|]. split; [by etrans|]. intros Hwr.
    apply (locked_work s _ name); auto. by etrans.
  - intros [= <-]. destruct (i_dirty _ Hi name ltac:(rewrite Ed; by left)) as [Hl HU].
    pose proof (reconsider_name_good db ignore_conflict U P Hu name (set_ss_dirty l s) HU) as [W D].
    assert (Hi1 : inv (set_ss_dirty l s)).
    { apply (inv_sub s); try done; cbn [set_ss_dirty ss_dirty].
      - pose proof (i_nodup _ Hi) as Hnd. rewrite Ed in Hnd. by apply list.NoDup_cons in Hnd as [_ Hnd].
      - rewrite Ed. by right. }
    pose proof (inv_wk _ _ W Hi1) as Hi2. split; [done|].
    split; [etrans; [by apply (ext_sub s (set_ss_dirty l s))|by apply wk_ext]|].
    intros Hwr. by apply (good_work s _ name l).
Qed.

(** The state after [k] turns, or at the end if that comes first. *)
Fixpoint solver_steps (k : nat) (s : apk_solver_state) : apk_solver_state :=
  match k with
  | O => s
  | S k => match solver_turn db ignore_conflict s with Some s' => solver_steps k s' | None => s end
  end.

Lemma solver_steps_ext k s : db_wf db -> inv s -> ext s (solver_steps k s).
Proof.
  intros Hwf. revert s. induction k as [|k IH]; intros s Hi; cbn [solver_steps]; [done|].
  destruct (solver_turn db ignore_conflict s) as [s'|] eqn:E; [|done].
  destruct (solver_turn_steady s s' Hwf Hi E) as (Hi' & He & _). etrans; [exact He|]. by apply IH.
Qed.

Lemma solver_loop_ends fuel s :
  db_wf db -> inv s -> (work s < fuel)%nat -> ss_wrapped (solver_steps fuel s) = false ->
  solver_loop db ignore_conflict fuel s = Some (solver_steps fuel s).
Proof.
  intros Hwf. revert s. induction fuel as [|fuel IH]; intros s Hi Hf Hw; [lia|].
  cbn [solver_loop solver_steps] in *. destruct (solver_turn db ignore_conflict s) as [s'|] eqn:E; [|done].
  destruct (solver_turn_steady s s' Hwf Hi E) as (Hi' & _ & Hlt). apply IH; [done| |done].
  assert (ss_wrapped s' = false); [|specialize (Hlt H0); lia].
  by apply (ext_unwrapped _ _ (solver_steps_ext fuel s' Hwf Hi')).
Qed.

(** What every turn preserves holds at the end, where nothing is queued. *)
Lemma solver_loop_ind (I : apk_solver_state -> Prop) fuel s s' :
  (forall s s', I s -> solver_turn db ignore_conflict s = Some s' -> I s') -> I s ->
  solver_loop db ignore_conflict fuel s = Some s' -> I s' /\ forall n, ~ queued s' n.
Proof.
  intros Hstep. revert s. induction fuel as [|fuel IH]; intros s Hi; cbn [solver_loop]; [done|].
  destruct (solver_turn db ignore_conflict s) as [s1|] eqn:E; [by apply IH, (Hstep s)|].
  intros [= <-]. split; [done|]. intros n. revert E. unfold solver_turn, dequeue_next_name, queued.
  destruct (ss_dirty s); [|done]. destruct (ss_resolvenow s); [|done]. destruct (ss_selectable s); [|done].
  destruct (ss_unresolved s); [|done]. intros _ Hx. rewrite !elem_of_nil in Hx. tauto.
Qed.

(** The work is bounded by the size of the database. *)
Lemma work_bound s : inv s -> (work s <= (2 * card U + card P) * (card U + 1) + card U)%nat.
Proof.
  intros Hi. pose proof (dirty_length s Hi). unfold work.
  assert (card (undecided s) <= card U)%nat by (apply subseteq_size; intros n; unfold undecided; rewrite elem_of_filter; tauto).
  assert (card (unrequired s) <= card U)%nat by (apply subseteq_size; intros n; unfold unrequired; rewrite elem_of_filter; tauto).
  assert (card (candidates_left s) <= card P)%nat by (apply subseteq_size; intros n; unfold candidates_left; rewrite elem_of_filter; tauto).
  nia.
Qed.
End Loop.
