(* ===== verification/SolverSound.v ===== *)
(** Soundness of the solver: when it reports no errors, the choice it made satisfies the world
    and the packages chosen do not clash. *)
From Stdlib Require Import ZArith Lia.
From stdpp Require Import base numbers list option gmap.
From S2P Require Import Prelude Clib Blob Version Dep Package SolverState Solver SolverInv SolverLoop.

Section Sound.
Context `{UndefChecksum}.
Context (db : apk_database).
Context (U : gset bytes) (P : gset Z) (Hu : universe db U P) (Hwf : db_wf db).
(** The constraints of the world that were applied. *)
Context (W : list apk_dependency).
#[local] Abbreviation wk := (wk U).
#[local] Abbreviation inv := (inv U).
#[local] Abbreviation assign_name := (assign_name db false).

(** ** What decisions keep *)

(** Packages are marked only together with the count. *)
Definition err_ok (s : apk_solver_state) : Prop :=
  0 <= ss_errors s /\ forall p, ps_error (pss s p) = true -> 0 < ss_errors s.

Record keep (s s' : apk_solver_state) : Prop := {
  x_ext : ext s s';
  x_inv : inv s -> inv s';
  x_queued n : queued s n -> queued s' n \/ locked s' n = true;
  x_unl n : locked s' n = false -> chosen s' n = chosen s n;
  x_conf : (forall p, sel s p = true -> ps_conflicts (pss s p) = 0) ->
           forall p, sel s' p = true -> ps_conflicts (pss s' p) = 0;
  x_err : err_ok s -> err_ok s';
  x_errors : ss_errors s <= ss_errors s';
  x_proc n : processed s' n = processed s n;
  x_in p : in_cset s' p = in_cset s p;
}.

#[global] Instance keep_refl : Reflexive keep.
Proof. intros s. constructor; auto; try done. Qed.

#[global] Instance keep_trans : Transitive keep.
Proof.
  intros s1 s2 s3 A B. constructor.
  - etrans; [apply A|apply B].
  - intros Hi. by apply (x_inv _ _ B), (x_inv _ _ A).
  - intros n Hq. destruct (x_queued _ _ A n Hq) as [Hq'|Hl]; [by apply (x_queued _ _ B)|].
    right. by apply (e_locked _ _ (x_ext _ _ B)).
  - intros n Hl. rewrite (x_unl _ _ B n Hl). apply (x_unl _ _ A).
    destruct (locked s2 n) eqn:E; [|done]. destruct (e_locked _ _ (x_ext _ _ B) n E). congruence.
  - intros Hc. by apply (x_conf _ _ B), (x_conf _ _ A).
  - intros Hc. by apply (x_err _ _ B), (x_err _ _ A).
  - etrans; [apply A|apply B].
  - intros n. by rewrite (x_proc _ _ B), (x_proc _ _ A).
  - intros p. by rewrite (x_in _ _ B), (x_in _ _ A).
Qed.

Lemma wk_keep s s' : wk s s' -> keep s s'.
Proof.
  intros K. constructor.
  - by apply (wk_ext U).
  - by apply inv_wk.
  - intros n Hq. left. by apply (wk_queued _ _ _ K).
  - intros n _. apply (wk_chosen _ _ _ K).
  - apply (wk_conf _ _ _ K).
  - intros [H0 He]. unfold err_ok. rewrite (wk_errors _ _ _ K). split; [done|]. intros p.
    rewrite (wk_error _ _ _ K). apply He.
  - by rewrite (wk_errors _ _ _ K).
  - apply (wk_proc _ _ _ K).
  - apply (wk_in _ _ _ K).
Qed.

Lemma keep_for_each {A} (l : list A) f s : (forall x s, x ∈ l -> keep s (f x s)) -> keep s (for_each l f s).
Proof.
  unfold for_each. revert s. induction l as [|x l IH]; intros s Hf; cbn [foldl]; [done|].
  etrans; [apply (Hf x); by left|]. apply IH. intros y s' Hy. apply Hf. by right.
Qed.

Lemma mark_error_in p s q : in_cset (mark_error p s) q = in_cset s q.
Proof.
  unfold in_cset, mark_error. destruct p as [p|]; [|done]. case_test; [done|].
  change (pss (set_ss_errors _ _) q) with (pss (upd_p p (set_ps_error true) s) q).
  rewrite pss_upd_p. case_bool_decide as Eq; [|done]. unfold pss. by rewrite Eq.
Qed.

Lemma mark_error_keep p s : keep s (mark_error p s).
Proof.
  destruct (mark_error_names p s) as (_ & _ & _ & Hq & Hp). assert (Hn := mark_error_nss p s). constructor.
  - apply mark_error_ext.
  - apply mark_error_inv.
  - intros n. rewrite Hq. by left.
  - intros n _. unfold chosen. by rewrite Hn.
  - intros Hc q. destruct (Hp q) as [-> ->]. apply Hc.
  - unfold mark_error. destruct p as [p|]; [|done]. case_test; [done|]. intros [H0 He].
    split; cbn [ss_errors set_ss_errors upd_p set_ss_pkgs]; [lia|]. intros q _. lia.
  - unfold mark_error. destruct p as [p|]; [|done]. case_test; [done|]. cbn [ss_errors set_ss_errors upd_p set_ss_pkgs]. lia.
  - intros n. unfold processed. by rewrite Hn.
  - intros q. apply mark_error_in.
Qed.

(** A marked error is counted. *)
Lemma mark_error_counts p s : err_ok s -> 0 < ss_errors (mark_error (Some p) s).
Proof.
  intros [H0 He]. unfold mark_error. destruct (ps_error (pss s p)) eqn:E; [by apply (He p)|].
  cbn [ss_errors set_ss_errors upd_p set_ss_pkgs]. lia.
Qed.

Lemma lock_name_keep name p s : locked s name = false -> keep s (lock_name name p s).
Proof.
  intros Hl. constructor.
  - by apply lock_name_ext.
  - apply lock_name_inv.
  - intros n Hq. destruct (decide (n = name)) as [->|Hn].
    + right. destruct (lock_name_nss name p s name) as (-> & _). by rewrite bool_decide_eq_true_2.
    + left. by apply lock_name_queued.
  - intros n. destruct (lock_name_nss name p s n) as (-> & -> & _). case_bool_decide; done.
  - done.
  - done.
  - done.
  - intros n. apply lock_name_nss.
  - done.
Qed.

Lemma assign_name_keep name p s : (forall pkg, prov_pkg p = Some pkg -> known U P pkg) -> keep s (assign_name name p s).
Proof.
  intros Hk. destruct (locked s name) eqn:Hl.
  - unfold Solver.assign_name. fold (locked s name). rewrite Hl. case_test; [done|].
    etrans; apply mark_error_keep.
  - etrans; [by apply (lock_name_keep name p)|]. by apply wk_keep, (assign_name_wk db false U P Hu).
Qed.

Lemma assign_provides_keep pkg l s :
  known U P pkg -> keep s (for_each l (fun d => assign_name (dep_name d) (APK_PROVIDER_FROM_PROVIDES pkg d)) s).
Proof. intros Hk. apply keep_for_each. intros x s' _. apply assign_name_keep. by intros q [= <-]. Qed.

Lemma select_package_keep name s : keep s (select_package db false name s).
Proof.
  unfold select_package. destruct (prov_pkg (choose_provider db name s)) as [pkg|] eqn:Ec.
  - destruct (choose_provider_pkg db name s pkg Ec) as (v & Hv & _).
    pose proof (known_provider _ _ _ _ _ Hu Hv) as Hk. cbn [fst] in Hk.
    set (s1 := if _ || _ then mark_error (Some pkg) s else s).
    assert (S1 : keep s s1) by (unfold s1; case_test; [apply mark_error_keep|done]). etrans; [exact S1|].
    etrans; [apply (assign_name_keep (pkg_nm pkg) (APK_PROVIDER_FROM_PACKAGE pkg)); by intros q [= <-]|].
    etrans; [by apply assign_provides_keep|]. by apply wk_keep, (apply_depends_wk db false U P Hu).
  - etrans; [apply (assign_name_keep name provider_none); done|]. set (s1 := assign_name _ _ _). clearbody s1.
    case_test; [|done]. constructor.
    + by constructor.
    + intros [? ? ? ?]. by constructor.
    + intros n Hq. by left.
    + done.
    + done.
    + intros [H0 He]. split; cbn [ss_errors set_ss_errors]; [lia|]. intros p _. lia.
    + cbn [ss_errors set_ss_errors]. lia.
    + done.
    + done.
Qed.

(** ** Choices *)

(** No constraint of the world speaks against the package, under any name. *)
Definition suits_world (p : apk_package) : Prop :=
  forall d v, d ∈ W -> (p, v) ∈ providers db (dep_name d) -> apk_dep_is_provided None d (Some (Provider (Some p) v)) = true.

(** The package holds its own name and every name it provides; an unversioned name may be held
    by another package that provides it without a version. *)
Definition holds_names (s : apk_solver_state) (p : apk_package) : Prop :=
  (locked s (pkg_nm p) = true /\ chosen s (pkg_nm p) = APK_PROVIDER_FROM_PACKAGE p) /\
  forall d, d ∈ provides p -> locked s (dep_name d) = true /\
    (chosen s (dep_name d) = APK_PROVIDER_FROM_PROVIDES p d \/
     dep_version d = [] /\ prov_version (chosen s (dep_name d)) = []).

Lemma holds_names_keep s s' p : keep s s' -> holds_names s p -> holds_names s' p.
Proof.
  intros K [[Hl Hc] Hp]. split.
  - destruct (e_locked _ _ (x_ext _ _ K) _ Hl) as [-> ->]. done.
  - intros d Hd. destruct (Hp d Hd) as [Hl' Hc']. by destruct (e_locked _ _ (x_ext _ _ K) _ Hl') as [-> ->].
Qed.

(** The invariant of the loop; [x] is a name that was just taken off its queue. *)
Record snd_inv (x : option bytes) (s : apk_solver_state) : Prop := {
  s_inv : inv s;
  s_conf p : sel s p = true -> ps_conflicts (pss s p) = 0;
  s_err : err_ok s;
  s_wsel d p : d ∈ W -> p ∈ providers db (dep_name d) -> apk_dep_is_provided None d (Some (prov p)) = false -> sel s p.1 = false;
  s_wreq d : ss_wrapped s = false -> d ∈ W -> apk_dep_conflict d = false -> 1 <= req s (dep_name d);
  s_wq d : ss_wrapped s = false -> d ∈ W -> apk_dep_conflict d = false -> queued s (dep_name d) \/ locked s (dep_name d) = true \/ x = Some (dep_name d);
  s_unl n : locked s n = false -> chosen s n = provider_none;
  s_chosen n p v : locked s n = true -> chosen s n = Provider (Some p) v -> (p, v) ∈ providers db n;
  s_ok n p v : ss_errors s = 0 -> locked s n = true -> chosen s n = Provider (Some p) v -> suits_world p /\ holds_names s p;
  s_none n d : ss_errors s = 0 -> ss_wrapped s = false -> locked s n = true -> prov_pkg (chosen s n) = None ->
    d ∈ W -> apk_dep_conflict d = false -> dep_name d <> n;
  s_clean : (forall n, processed s n = false) /\ (forall p, in_cset s p = false);
}.

Lemma snd_keep x s s' :
  snd_inv x s -> keep s s' ->
  (forall n p v, locked s n = false -> locked s' n = true -> chosen s' n = Provider (Some p) v ->
     (p, v) ∈ providers db n /\ (ss_errors s' = 0 -> suits_world p /\ holds_names s' p)) ->
  (forall n d, locked s n = false -> locked s' n = true -> prov_pkg (chosen s' n) = None ->
     ss_errors s' = 0 -> ss_wrapped s' = false -> d ∈ W -> apk_dep_conflict d = false -> dep_name d <> n) ->
  snd_inv x s'.
Proof.
  intros S K Hnew Hnone. pose proof (x_ext _ _ K) as E.
  destruct (x_err _ _ K (s_err _ _ S)) as [H0' _]. destruct (s_err _ _ S) as [H0 _]. pose proof (x_errors _ _ K) as Hle.
  constructor.
  - by apply (x_inv _ _ K), S.
  - apply (x_conf _ _ K), S.
  - by apply (x_err _ _ K), S.
  - intros d p Hd Hp Hn. destruct (sel s' p.1) eqn:Es; [|done]. apply (e_sel _ _ E) in Es.
    by rewrite (s_wsel _ _ S d p) in Es.
  - intros d Hw Hd Hc. destruct (e_req _ _ E (i_req _ _ (s_inv _ _ S))) as [_ Hr]. specialize (Hr Hw (dep_name d)).
    pose proof (s_wreq _ _ S d (ext_unwrapped _ _ E Hw) Hd Hc). lia.
  - intros d Hw Hd Hc. destruct (s_wq _ _ S d (ext_unwrapped _ _ E Hw) Hd Hc) as [Hq|[Hl|Hx]]; [|right; left; by apply (e_locked _ _ E)|by right; right].
    destruct (x_queued _ _ K _ Hq); auto.
  - intros n Hl. rewrite (x_unl _ _ K n Hl). apply (s_unl _ _ S). destruct (locked s n) eqn:El; [|done].
    destruct (e_locked _ _ E n El). congruence.
  - intros n p v Hl Hc. destruct (locked s n) eqn:El; [|by apply (Hnew n p v)].
    destruct (e_locked _ _ E n El) as [_ Hc']. apply (s_chosen _ _ S); congruence.
  - intros n p v He Hl Hc. destruct (locked s n) eqn:El; [|by apply (Hnew n p v)].
    destruct (e_locked _ _ E n El) as [_ Hc'].
    destruct (s_ok _ _ S n p v ltac:(lia) El ltac:(congruence)) as [Hs Hh]. split; [done|]. by apply (holds_names_keep s).
  - intros n d He Hw Hl Hc. destruct (locked s n) eqn:El; [|by apply (Hnone n d)].
    destruct (e_locked _ _ E n El) as [_ Hc'].
    apply (s_none _ _ S); [lia|by apply (ext_unwrapped _ _ E)|done|congruence].
  - destruct (s_clean _ _ S) as [A B]. split; [intros n; by rewrite (x_proc _ _ K)|intros p; by rewrite (x_in _ _ K)].
Qed.

Lemma snd_wk x s s' : snd_inv x s -> wk s s' -> snd_inv x s'.
Proof.
  intros S K. apply (snd_keep x s); [done|by apply wk_keep| |]; intros n ?; intros;
    rewrite (wk_locked _ _ _ K) in *; congruence.
Qed.

(** ** Selecting a package *)

(** Names decided in between are decided for this package. *)
Definition assigned (pkg : apk_package) (s s' : apk_solver_state) : Prop :=
  forall n, locked s n = false -> locked s' n = true ->
    exists v, chosen s' n = Provider (Some pkg) v /\ (pkg, v) ∈ providers db n.

Lemma assigned_trans pkg s1 s2 s3 : ext s2 s3 -> assigned pkg s1 s2 -> assigned pkg s2 s3 -> assigned pkg s1 s3.
Proof.
  intros E A B n H1 H3. destruct (locked s2 n) eqn:E2; [|by apply B].
  destruct (e_locked _ _ E n E2) as [_ ->]. by apply A.
Qed.

Lemma assigned_wk pkg s s' : wk s s' -> assigned pkg s s'.
Proof. intros K n. rewrite (wk_locked _ _ _ K). congruence. Qed.

Lemma assigned_mark pkg p s : assigned pkg s (mark_error p s).
Proof. intros n. unfold locked. rewrite mark_error_nss. congruence. Qed.

Lemma assign_name_assigned name pkg v s :
  known U P pkg -> (pkg, v) ∈ providers db name -> assigned pkg s (assign_name name (Provider (Some pkg) v) s).
Proof.
  intros Hk Hin. destruct (locked s name) eqn:Hl.
  - unfold Solver.assign_name. fold (locked s name). rewrite Hl. case_test; [by intros n ? ?; congruence|].
    eapply assigned_trans; [apply mark_error_ext|apply assigned_mark|apply assigned_mark].
  - assert (K : wk (lock_name name (Provider (Some pkg) v) s) (assign_name name (Provider (Some pkg) v) s)).
    { apply (assign_name_wk db false U P Hu); [done|]. by intros q [= <-]. }
    intros n H1. rewrite (wk_locked _ _ _ K), (wk_chosen _ _ _ K).
    destruct (lock_name_nss name (Provider (Some pkg) v) s n) as (-> & -> & _).
    case_bool_decide as En; [subst n; eauto|]. cbn [orb]. congruence.
Qed.

(** An assignment without an error decided the name, or met an unversioned one. *)
Lemma assign_name_no_error name pkg v s :
  known U P pkg -> err_ok s -> ss_errors (assign_name name (Provider (Some pkg) v) s) = 0 ->
  locked (assign_name name (Provider (Some pkg) v) s) name = true /\
  (chosen (assign_name name (Provider (Some pkg) v) s) name = Provider (Some pkg) v \/
   v = [] /\ prov_version (chosen (assign_name name (Provider (Some pkg) v) s) name) = []).
Proof.
  intros Hk He H0. destruct (locked s name) eqn:Hl.
  - revert H0. unfold Solver.assign_name. fold (locked s name). rewrite Hl. cbn [prov_version prov_pkg].
    fold (chosen s name). destruct (null_version v) eqn:Ev; cbn [andb].
    + destruct (null_version (prov_version (chosen s name))) eqn:Ec.
      * intros _. split; [done|]. right. unfold null_version in *. apply bool_decide_eq_true_1 in Ev, Ec. done.
      * intros H0. exfalso. pose proof (x_errors _ _ (mark_error_keep (prov_pkg (chosen s name)) (mark_error (Some pkg) s))).
        pose proof (mark_error_counts pkg s He). lia.
    + intros H0. exfalso. pose proof (x_errors _ _ (mark_error_keep (prov_pkg (chosen s name)) (mark_error (Some pkg) s))).
      pose proof (mark_error_counts pkg s He). lia.
  - assert (K : wk (lock_name name (Provider (Some pkg) v) s) (assign_name name (Provider (Some pkg) v) s)).
    { apply (assign_name_wk db false U P Hu); [done|]. by intros q [= <-]. }
    rewrite (wk_locked _ _ _ K), (wk_chosen _ _ _ K).
    destruct (lock_name_nss name (Provider (Some pkg) v) s name) as (-> & -> & _).
    rewrite bool_decide_eq_true_2 by done. split; [done|]. by left.
Qed.

Lemma assign_provides_assigned pkg l s :
  known U P pkg -> (forall d, d ∈ l -> (pkg, dep_version d) ∈ providers db (dep_name d)) ->
  assigned pkg s (for_each l (fun d => assign_name (dep_name d) (APK_PROVIDER_FROM_PROVIDES pkg d)) s).
Proof.
  intros Hk. revert s. induction l as [|d l IH]; intros s Hl; [intros n ? ?; cbn in *; congruence|]. cbn [for_each foldl].
  eapply assigned_trans; [apply (assign_provides_keep pkg l _ Hk)|apply assign_name_assigned; [done|apply Hl; by left]|].
  apply IH. intros e He. apply Hl. by right.
Qed.

Lemma assign_provides_no_error pkg l s :
  known U P pkg -> err_ok s ->
  ss_errors (for_each l (fun d => assign_name (dep_name d) (APK_PROVIDER_FROM_PROVIDES pkg d)) s) = 0 ->
  forall d, d ∈ l ->
  let s' := for_each l (fun d => assign_name (dep_name d) (APK_PROVIDER_FROM_PROVIDES pkg d)) s in
  locked s' (dep_name d) = true /\
  (chosen s' (dep_name d) = APK_PROVIDER_FROM_PROVIDES pkg d \/ dep_version d = [] /\ prov_version (chosen s' (dep_name d)) = []).
Proof.
  intros Hk. revert s. induction l as [|e l IH]; intros s He H0 d Hd; [by apply elem_of_nil in Hd|].
  cbn [for_each foldl] in *. set (s1 := assign_name (dep_name e) (APK_PROVIDER_FROM_PROVIDES pkg e) s) in *.
  assert (K1 : keep s s1) by (apply assign_name_keep; by intros q [= <-]).
  pose proof (assign_provides_keep pkg l s1 Hk) as K2. unfold for_each in K2.
  pose proof (x_err _ _ K1 He) as He1. pose proof (x_errors _ _ K2) as Hle. destruct He1 as [Hge He1].
  apply elem_of_cons in Hd as [->|Hd]; [|by apply IH].
  destruct (assign_name_no_error (dep_name e) pkg (dep_version e) s Hk He) as [Hl Hc]; [change (ss_errors s1 = 0); lia|].
  change (locked s1 (dep_name e) = true) in Hl.
  destruct (e_locked _ _ (x_ext _ _ K2) _ Hl) as [Hl2 Hc2]. split; [exact Hl2|]. rewrite Hc2. exact Hc.
Qed.

Lemma select_some_snd x name s pkg v :
  snd_inv x s -> (pkg, v) ∈ providers db name -> prov_pkg (choose_provider db name s) = Some pkg ->
  snd_inv x (select_package db false name s).
Proof.
  intros S Hv Ec. pose proof (known_provider _ _ _ _ _ Hu Hv) as Hk. cbn [fst] in Hk.
  pose proof (select_package_keep name s) as K. revert K. unfold select_package. rewrite Ec.
  set (s1 := if _ || _ then mark_error (Some pkg) s else s).
  set (s2 := assign_name (pkg_nm pkg) (APK_PROVIDER_FROM_PACKAGE pkg) s1).
  set (s3 := for_each (provides pkg) _ s2). set (s4 := for_each (depends pkg) _ s3). intros K.
  assert (K1 : keep s s1) by (unfold s1; case_test; [apply mark_error_keep|done]).
  assert (K2 : keep s1 s2) by (apply assign_name_keep; by intros q [= <-]).
  assert (K3 : keep s2 s3) by (by apply assign_provides_keep).
  assert (W4 : wk s3 s4) by (by apply (apply_depends_wk db false U P Hu)).
  pose proof (w_self _ Hwf _ _ Hv) as Hself. cbn [fst] in Hself.
  assert (Hprov : forall d, d ∈ provides pkg -> (pkg, dep_version d) ∈ providers db (dep_name d)).
  { intros d Hd. by apply (w_provides _ Hwf _ _ d Hv). }
  assert (A : assigned pkg s s4).
  { apply (assigned_trans pkg s s3 s4); [by apply (wk_ext U)| |by apply assigned_wk].
    apply (assigned_trans pkg s s2 s3); [apply K3| |by apply assign_provides_assigned].
    apply (assigned_trans pkg s s1 s2); [apply K2| |by apply assign_name_assigned].
    unfold s1. case_test; [apply assigned_mark|intros n ? ?; congruence]. }
  pose proof (x_err _ _ K1 (s_err _ _ S)) as E1. pose proof (x_err _ _ K2 E1) as E2. pose proof (x_err _ _ K3 E2) as E3.
  pose proof (x_errors _ _ K2) as L2. pose proof (x_errors _ _ K3) as L3. pose proof (wk_errors _ _ _ W4) as L4.
  assert (Hzero : ss_errors s4 = 0 -> ss_errors s1 = 0 /\ ss_errors s2 = 0 /\ ss_errors s3 = 0).
  { intros H0. destruct E1, E2, E3. lia. }
  assert (Hsuits : ss_errors s4 = 0 -> suits_world pkg).
  { intros H0. destruct (Hzero H0) as (Z1 & _). intros d w Hd Hin.
    destruct (apk_dep_is_provided None d (Some (Provider (Some pkg) w))) eqn:Ep; [done|].
    pose proof (s_wsel _ _ S d (pkg, w) Hd Hin Ep) as Hs. cbn [fst] in Hs. unfold s1 in Z1. fold (sel s pkg) in Z1. rewrite Hs in Z1.
    cbn [negb orb] in Z1. pose proof (mark_error_counts pkg s (s_err _ _ S)). lia. }
  assert (Hholds : ss_errors s4 = 0 -> holds_names s4 pkg).
  { intros H0. destruct (Hzero H0) as (_ & Z2 & Z3). apply (holds_names_keep s3); [by apply wk_keep|]. split.
    - destruct (assign_name_no_error (pkg_nm pkg) pkg (pkg_ver pkg) s1 Hk E1 Z2) as [Hl [Hc|[Hc _]]].
      + destruct (e_locked _ _ (x_ext _ _ K3) _ Hl) as [-> ->]. done.
      + by apply (w_version _ Hwf _ _ Hself) in Hc.
    - by apply assign_provides_no_error. }
  apply (snd_keep x s); [done|exact K| |].
  - intros n p w H1 H2 Hc. destruct (A n H1 H2) as (w' & Hc' & Hin). rewrite Hc in Hc'. injection Hc' as -> ->.
    split; [done|]. auto.
  - intros n d H1 H2 Hc. destruct (A n H1 H2) as (w' & Hc' & _). by rewrite Hc' in Hc.
Qed.

Lemma select_none_snd x name s :
  snd_inv x s -> prov_pkg (choose_provider db name s) = None -> snd_inv x (select_package db false name s).
Proof.
  intros S Ec. pose proof (select_package_keep name s) as K. revert K. unfold select_package. rewrite Ec.
  set (s1 := assign_name name provider_none s). set (s2 := if 0 <? ns_requirers (nss s1 name) then set_ss_errors _ s1 else s1). intros K.
  assert (K1 : keep s s1) by (by apply assign_name_keep).
  assert (Hlc : forall n, locked s2 n = locked s1 n /\ chosen s2 n = chosen s1 n) by (intros n; unfold s2; by case_test).
  assert (Hnew : forall n, locked s n = false -> locked s1 n = true -> n = name).
  { intros n H1. destruct (locked s name) eqn:Hl.
    - unfold s1, Solver.assign_name. fold (locked s name). rewrite Hl. case_test; [congruence|].
      unfold locked. rewrite !mark_error_nss. unfold locked in H1. congruence.
    - assert (W1 : wk (lock_name name provider_none s) s1) by (by apply (assign_name_wk db false U P Hu)).
      rewrite (wk_locked _ _ _ W1). destruct (lock_name_nss name provider_none s n) as (-> & _).
      case_bool_decide; [done|]. cbn [orb]. congruence. }
  assert (Hc1 : locked s name = false -> chosen s1 name = provider_none).
  { intros Hl. assert (W1 : wk (lock_name name provider_none s) s1) by (by apply (assign_name_wk db false U P Hu)).
    rewrite (wk_chosen _ _ _ W1). destruct (lock_name_nss name provider_none s name) as (_ & -> & _).
    by rewrite bool_decide_eq_true_2. }
  apply (snd_keep x s); [done|exact K| |].
  - intros n p v H1 H2 Hc. destruct (Hlc n) as [L C]. rewrite L in H2. pose proof (Hnew n H1 H2) as ->.
    rewrite C, (Hc1 H1) in Hc. done.
  - intros n d H1 H2 _ H0 Hw Hd Hnc En. destruct (Hlc n) as [L C]. rewrite L in H2. pose proof (Hnew n H1 H2) as ->.
    destruct (e_req _ _ (x_ext _ _ K) (i_req _ _ (s_inv _ _ S))) as [_ Hr]. specialize (Hr Hw name).
    pose proof (s_wreq _ _ S d (ext_unwrapped _ _ (x_ext _ _ K) Hw) Hd Hnc) as Hreq. rewrite En in Hreq.
    destruct (x_err _ _ K1 (s_err _ _ S)) as [Hge _]. revert H0 Hr. unfold s2. fold (req s1 name).
    destruct (Z.ltb_spec 0 (req s1 name)); cbn [ss_errors set_ss_errors]; [lia|]. lia.
Qed.

(** States that differ only in their lists. *)
Lemma snd_lists x y s s1 :
  snd_inv x s -> ss_names s1 = ss_names s -> ss_pkgs s1 = ss_pkgs s -> ss_errors s1 = ss_errors s ->
  ss_wrapped s1 = ss_wrapped s -> inv s1 ->
  (forall n, queued s n \/ x = Some n -> queued s1 n \/ locked s1 n = true \/ y = Some n) -> snd_inv y s1.
Proof.
  intros [S1 S2 S3 S4 S5 S6 S7 S8 S9 S10 S11] Hn Hp He Hw Hi Hq.
  assert (En : forall n, nss s1 n = nss s n) by (intros n; unfold nss; by rewrite Hn).
  assert (Ep : forall p, pss s1 p = pss s p) by (intros p; unfold pss; by rewrite Hp).
  assert (Eh : forall p, holds_names s p -> holds_names s1 p) by (intros p; unfold holds_names, locked, chosen; rewrite !En; intros [A B]; split; [done|]; intros d; rewrite En; apply B).
  constructor; unfold locked, chosen, req, sel, err_ok in *.
  - done.
  - intros p. rewrite Ep. apply S2.
  - rewrite He. split; [apply S3|]. intros p. rewrite Ep. apply S3.
  - intros d p. rewrite Ep. apply S4.
  - intros d. rewrite Hw, En. apply S5.
  - intros d. rewrite Hw. intros Hww Hd Hc. destruct (S6 d Hww Hd Hc) as [Hx|[Hx|Hx]]; [apply Hq; by left|right; left; by rewrite En|apply Hq; by right].
  - intros n. rewrite En. apply S7.
  - intros n p v. rewrite En. apply S8.
  - intros n p v. rewrite He, En. intros H0 Hl Hc. destruct (S9 n p v H0 Hl Hc). auto.
  - intros n d. rewrite He, Hw, En. apply S10.
  - destruct S11 as [A B]. unfold processed, in_cset in *. split; intros; by rewrite ?En, ?Ep.
Qed.

Lemma solver_turn_snd s s' : snd_inv None s -> solver_turn db false s = Some s' -> snd_inv None s'.
Proof.
  intros S. unfold solver_turn. destruct (ss_dirty s) as [|name l] eqn:Ed.
  - destruct (dequeue_next_name s) as [[name s1]|] eqn:Eq; [|done]. intros [= <-].
    destruct (dequeue_spec s name s1 Eq) as (Hq & Hn & Hp & Hd & Her & Hw & Hq1 & Hq2).
    assert (Hi1 : inv s1) by (apply (inv_sub U s); rewrite ?Hd; auto; apply S).
    assert (S1 : snd_inv (Some name) s1).
    { apply (snd_lists None _ s); try done. intros n [Hx|Hx]; [|done]. destruct (Hq2 n Hx) as [->|?]; auto. }
    assert (S2 : snd_inv (Some name) (select_package db false name s1)).
    { destruct (prov_pkg (choose_provider db name s1)) as [pkg|] eqn:Ec; [|by apply select_none_snd].
      destruct (choose_provider_pkg db name s1 pkg Ec) as (v & Hv & _). by apply (select_some_snd _ name s1 pkg v). }
    apply (snd_lists (Some name) _ _ _ S2); try done; [apply S2|]. intros n [Hx|[= <-]]; [by left|].
    right. left. by apply (select_package_locks db false U P Hu).
  - intros [= <-]. destruct (i_dirty _ _ (s_inv _ _ S) name ltac:(rewrite Ed; by left)) as [_ HU].
    assert (S1 : snd_inv None (set_ss_dirty l s)).
    { apply (snd_lists None _ s); try done; [|intros n [Hx|Hx]; [by left|done]].
      apply (inv_sub U s); try done; [apply S| |]; cbn [set_ss_dirty ss_dirty].
      - pose proof (i_nodup _ _ (s_inv _ _ S)) as Hnd. rewrite Ed in Hnd. by apply list.NoDup_cons in Hnd as [_ Hnd].
      - rewrite Ed. by right. }
    apply (snd_wk _ _ _ S1). exact (proj1 (reconsider_name_good db false U P Hu name (set_ss_dirty l s) HU)).
Qed.

(** ** The end of the loop *)

Lemma world_satisfied s :
  snd_inv None s -> (forall n, ~ queued s n) -> ss_errors s = 0 -> ss_wrapped s = false ->
  forall d, d ∈ W -> apk_dep_is_provided None d (Some (chosen s (dep_name d))) = true.
Proof.
  intros S Hq H0 Hw d Hd.
  assert (Hnone : prov_pkg (chosen s (dep_name d)) = None -> apk_dep_is_provided None d (Some (chosen s (dep_name d))) = true).
  { intros Hc. unfold apk_dep_is_provided. rewrite Hc. destruct (apk_dep_conflict d) eqn:Ec; [done|].
    destruct (s_wq _ _ S d Hw Hd Ec) as [Hx|[Hl|Hx]]; [by apply Hq in Hx| |done].
    by destruct (s_none _ _ S (dep_name d) d H0 Hw Hl Hc Hd Ec). }
  destruct (locked s (dep_name d)) eqn:Hl; [|by apply Hnone; rewrite (s_unl _ _ S _ Hl)].
  destruct (chosen s (dep_name d)) as [[p|] v] eqn:Ec; [|by apply Hnone].
  destruct (s_ok _ _ S (dep_name d) p v H0 Hl Ec) as [Hs _]. apply Hs; [done|]. by apply (s_chosen _ _ S).
Qed.
End Sound.
