(* ===== verification/SolverStart.v ===== *)
(** The start of a round of the solver: discovery ends within the number of names, and applying
    the world to a fresh state establishes the invariant of the main loop. *)
From Stdlib Require Import ZArith Lia.
From stdpp Require Import base numbers list option gmap.
From S2P Require Import Prelude Clib Blob Version Dep Package SolverState Solver SolverInv SolverLoop SolverSound.

(** A loop whose body succeeds and relates the states, as long as a condition that the relation
    preserves holds. *)
Lemma for_eachM_total {A} (R : apk_solver_state -> apk_solver_state -> Prop) (I : apk_solver_state -> Prop)
    (l : list A) (f : A -> apk_solver_state -> option apk_solver_state) s :
  Reflexive R -> Transitive R -> (forall s s', I s -> R s s' -> I s') ->
  (forall x s, x ∈ l -> I s -> exists s', f x s = Some s' /\ R s s') -> I s ->
  exists s', for_eachM l f s = Some s' /\ R s s'.
Proof.
  intros Hr Ht HI Hf. unfold for_eachM. revert s. induction l as [|x l IH]; intros s Hs; cbn [foldl]; [eauto|].
  destruct (Hf x s ltac:(by left) Hs) as (s1 & H1 & R1). cbn [mbind option_bind]. rewrite H1.
  destruct (IH ltac:(intros y s' Hy; apply Hf; by right) s1 (HI _ _ Hs R1)) as (s2 & H2 & R2).
  exists s2. split; [done|]. by etrans.
Qed.

Section Start.
Context `{UndefChecksum}.
Context (db : apk_database) (default_repos : Z).
Context (U : gset bytes) (P : gset Z) (Hu : universe db U P).
#[local] Abbreviation wk := (wk U).
#[local] Abbreviation good := (good U P).
#[local] Abbreviation card := base.size.

(** ** Discovery *)

Record discovers (s s' : apk_solver_state) : Prop := {
  d_name n : locked s' n = locked s n /\ chosen s' n = chosen s n /\ req s' n = req s n /\
    ns_changeset_processed (nss s' n) = ns_changeset_processed (nss s n);
  d_seen n : ns_seen (nss s n) = true -> ns_seen (nss s' n) = true;
  d_pkg p : ps_error (pss s' p) = ps_error (pss s p) /\ ps_conflicts (pss s' p) = ps_conflicts (pss s p) /\
    ps_in_changeset (pss s' p) = ps_in_changeset (pss s p);
  d_lists : ss_dirty s' = ss_dirty s /\ ss_unresolved s' = ss_unresolved s /\ ss_selectable s' = ss_selectable s /\
    ss_resolvenow s' = ss_resolvenow s;
  d_errors : ss_errors s' = ss_errors s;
  d_wrapped : ss_wrapped s' = ss_wrapped s;
}.

#[global] Instance discovers_refl : Reflexive discovers.
Proof. intros s. by constructor. Qed.

#[global] Instance discovers_trans : Transitive discovers.
Proof.
  intros s1 s2 s3 [A1 A2 A3 A4 A5 A6] [B1 B2 B3 B4 B5 B6]. constructor; auto; try congruence.
  - intros n. destruct (A1 n) as (? & ? & ? & ?), (B1 n) as (? & ? & ? & ?). repeat split; congruence.
  - intros p. destruct (A3 p) as (? & ? & ?), (B3 p) as (? & ? & ?). repeat split; congruence.
  - destruct A4 as (? & ? & ? & ?), B4 as (? & ? & ? & ?). repeat split; congruence.
Qed.

Lemma discovers_upd_n n f s :
  (forall x, ns_locked (f x) = ns_locked x /\ ns_chosen (f x) = ns_chosen x /\ ns_requirers (f x) = ns_requirers x /\
     ns_changeset_processed (f x) = ns_changeset_processed x /\ (ns_seen x = true -> ns_seen (f x) = true)) ->
  discovers s (upd_n n f s).
Proof.
  intros Hf. constructor; try done.
  - intros m. unfold locked, chosen, req. rewrite nss_upd_n. case_bool_decide as E; [subst m|done].
    destruct (Hf (nss s n)) as (? & ? & ? & ? & ?). auto.
  - intros m. rewrite nss_upd_n. case_bool_decide as E; [subst m; apply Hf|done].
Qed.

Lemma discover_package_discovers pkg s : discovers s (discover_package db default_repos pkg s).
Proof.
  constructor; try done. intros q. unfold discover_package. rewrite pss_upd_p.
  case_bool_decide as E; [|done]. unfold pss. by rewrite E.
Qed.

Definition unseen (s : apk_solver_state) : gset bytes := filter (fun n => ns_seen (nss s n) = false) U.

Lemma unseen_mono s s' : discovers s s' -> unseen s' ⊆ unseen s.
Proof.
  intros D n. unfold unseen. rewrite !elem_of_filter. intros [Hs Hn]. split; [|done].
  destruct (ns_seen (nss s n)) eqn:E; [|done]. apply (d_seen _ _ D) in E. congruence.
Qed.

(** A list of names, from a state with enough fuel left. *)
Lemma discover_list fuel (l : list bytes) s :
  (forall n s, n ∈ U -> (card (unseen s) < fuel)%nat -> exists s', discover_name db default_repos fuel n s = Some s' /\ discovers s s') ->
  Forall (fun n => n ∈ U) l -> (card (unseen s) < fuel)%nat ->
  exists s', for_eachM l (discover_name db default_repos fuel) s = Some s' /\ discovers s s'.
Proof.
  intros Hd Hl Hs. apply (for_eachM_total discovers (fun s => (card (unseen s) < fuel)%nat)); try apply _; [| |done].
  - intros s1 s2 H1 D. pose proof (subseteq_size _ _ (unseen_mono _ _ D)). lia.
  - intros n s1 Hn H1. apply Hd; [|done]. by apply (proj1 (list.Forall_forall _ _) Hl).
Qed.

Lemma for_eachM_map {A B} (g : A -> B) f (l : list A) s :
  for_eachM l (fun x => f (g x)) s = for_eachM (map g l) f s.
Proof.
  unfold for_eachM. generalize (Some s). induction l as [|x l IH]; intros o; cbn; [done|]. apply IH.
Qed.

Lemma discover_deps fuel (l : list apk_dependency) s :
  (forall n s, n ∈ U -> (card (unseen s) < fuel)%nat -> exists s', discover_name db default_repos fuel n s = Some s' /\ discovers s s') ->
  Forall (fun d => dep_name d ∈ U) l -> (card (unseen s) < fuel)%nat ->
  exists s', for_eachM l (fun dep => discover_name db default_repos fuel (dep_name dep)) s = Some s' /\ discovers s s'.
Proof.
  intros Hd Hl Hs. rewrite (for_eachM_map dep_name (discover_name db default_repos fuel)). apply discover_list; [done| |done].
  by apply Forall_map.
Qed.

Lemma bindM_total (R : apk_solver_state -> apk_solver_state -> Prop) s (o : option apk_solver_state) g :
  Transitive R -> (exists s1, o = Some s1 /\ R s s1) -> (forall s1, R s s1 -> exists s2, g s1 = Some s2 /\ R s1 s2) ->
  exists s2, (s ← o; g s) = Some s2 /\ R s s2.
Proof.
  intros Ht (s1 & -> & R1) Hg. destruct (Hg s1 R1) as (s2 & H2 & R2). exists s2. split; [exact H2|]. by etrans.
Qed.

Lemma discover_name_total fuel : forall n s,
  n ∈ U -> (card (unseen s) < fuel)%nat ->
  exists s', discover_name db default_repos fuel n s = Some s' /\ discovers s s'.
Proof.
  induction fuel as [|fuel IH]; intros n s Hn Hf; [lia|]. cbn [discover_name].
  destruct (ns_seen (nss s n)) eqn:Es; [by exists s|]. set (s0 := upd_n n _ s).
  assert (D0 : discovers s s0) by (by apply discovers_upd_n).
  assert (H0 : (card (unseen s0) < fuel)%nat).
  { assert (card (unseen s0) < card (unseen s))%nat; [|lia]. apply subset_size, (strict_spec_alt (R := (⊆))).
    split; [by apply unseen_mono|]. intros E. assert (Hin : n ∈ unseen s) by (by apply elem_of_filter).
    rewrite <- E in Hin. apply elem_of_filter in Hin as [Hx _]. unfold s0 in Hx. rewrite nss_upd_n, bool_decide_eq_true_2 in Hx; done. }
  assert (Hlt : forall s1, discovers s0 s1 -> (card (unseen s1) < fuel)%nat).
  { intros s1 D. pose proof (subseteq_size _ _ (unseen_mono _ _ D)). lia. }
  assert (HI : forall s1 s2, discovers s0 s1 -> discovers s1 s2 -> discovers s0 s2) by (intros s1 s2 A B; by etrans).
  assert (Hkn : forall p, p ∈ providers db n -> known U P p.1) by (intros p Hp; by eapply known_provider).
  match goal with |- exists s', ?o = Some s' /\ _ => enough (Hgoal : exists s', o = Some s' /\ discovers s0 s') end.
  { destruct Hgoal as (s' & H1 & H2). exists s'. split; [exact H1|by etrans]. }
  apply (bindM_total discovers); [apply _| |intros s1 D1].
  { apply (for_eachM_total discovers (discovers s0)); try apply _; [exact HI| |done]. intros p s1 Hp D1.
    apply (bindM_total discovers); [apply _| |].
    - destruct (ps_seen (pss s1 p.1)); [by exists s1|].
      destruct (discover_deps fuel (depends p.1) (discover_package db default_repos p.1 s1) IH) as (s2 & H2 & D2).
      + apply (Hkn p Hp).
      + apply Hlt. etrans; [exact D1|apply discover_package_discovers].
      + exists s2. split; [done|]. etrans; [apply discover_package_discovers|done].
    - intros s2 D2. eexists. split; [reflexivity|]. by apply discovers_upd_n. }
  apply (bindM_total discovers); [apply _| |intros s2 D2].
  { apply discover_list; [exact IH|apply (u_rinstall_if _ _ _ Hu)|auto]. }
  pose proof (HI _ _ D1 D2) as D02. apply (bindM_total discovers); [apply _| |intros s3 D3].
  { apply (for_eachM_total discovers (discovers s0)); try apply _; [exact HI| |done]. intros p s3 Hp D3.
    apply (bindM_total discovers); [apply _| |intros s4 D4].
    - apply discover_list; [exact IH|apply (u_rinstall_if _ _ _ Hu)|auto].
    - apply discover_deps; [exact IH|apply (Hkn p Hp)|eauto]. }
  pose proof (HI _ _ D02 D3) as D03. set (s4 := upd_n n _ _).
  assert (D4 : discovers s3 s4).
  { unfold s4. etrans; [|by apply discovers_upd_n]. by constructor. }
  destruct (for_eachM_total discovers (discovers s0) (providers db n)
    (fun p => for_eachM (install_if p.1) (fun dep => discover_name db default_repos fuel (dep_name dep))) s4) as (s5 & H5 & D5);
    try apply _; [exact HI| |by apply (HI s3)|].
  { intros p s5 Hp D5. apply discover_deps; [exact IH|apply (Hkn p Hp)|auto]. }
  exists s5. split; [exact H5|by etrans].
Qed.

(** ** Counts of requirers *)

(** Only the increments in apply_constraint and reconsider_name change the counts. *)
Definition same_req (s s' : apk_solver_state) : Prop := forall n, req s' n = req s n.

#[global] Instance same_req_refl : Reflexive same_req.
Proof. by intros s n. Qed.
#[global] Instance same_req_trans : Transitive same_req.
Proof. intros s1 s2 s3 A B n. by rewrite B, A. Qed.

Lemma same_req_names s s' : ss_names s' = ss_names s -> same_req s s'.
Proof. intros E n. unfold req, nss. by rewrite E. Qed.

Lemma same_req_upd_n n f s : (forall x, ns_requirers (f x) = ns_requirers x) -> same_req s (upd_n n f s).
Proof. intros Hf m. unfold req. rewrite nss_upd_n. case_bool_decide as E; [subst m; apply Hf|done]. Qed.

Lemma same_req_for_each {A} (l : list A) f s : (forall x s, same_req s (f x s)) -> same_req s (for_each l f s).
Proof.
  intros Hf. unfold for_each. revert s. induction l as [|x l IH]; intros s; cbn [foldl]; [done|].
  etrans; [apply (Hf x)|apply IH].
Qed.

Lemma same_req_queue_dirty n s : same_req s (queue_dirty n s).
Proof. apply same_req_names. unfold queue_dirty. by case_test. Qed.

Lemma same_req_link n s : same_req s (link_unresolved n s).
Proof. apply same_req_names. unfold link_unresolved. by repeat case_test. Qed.

Lemma same_req_queue_unresolved n re s : same_req s (queue_unresolved n re s).
Proof.
  unfold queue_unresolved. repeat case_test; try done.
  - etrans; [|apply same_req_link]. etrans; [|by apply same_req_names]. by apply same_req_upd_n.
  - etrans; [|apply same_req_link]. by apply same_req_names.
  - etrans; [|apply same_req_link]. by apply same_req_upd_n.
Qed.

Lemma same_req_reverse_deps n s : same_req s (reevaluate_reverse_deps db n s).
Proof.
  apply same_req_for_each. intros m s'. case_test; [done|]. etrans; [|apply same_req_queue_dirty]. by apply same_req_upd_n.
Qed.

Lemma same_req_reverse_installif n s : same_req s (reevaluate_reverse_installif db n s).
Proof.
  apply same_req_for_each. intros m s'. case_test; [done|]. case_test; [done|].
  etrans; [|apply same_req_queue_dirty]. by apply same_req_upd_n.
Qed.

Lemma same_req_disqualify pkg s : same_req s (disqualify_package db pkg s).
Proof.
  unfold disqualify_package, reevaluate_reverse_installif_pkg.
  etrans; [|apply same_req_for_each; intros; apply same_req_reverse_installif].
  etrans; [|apply same_req_reverse_installif].
  etrans; [|apply same_req_for_each; intros; apply same_req_reverse_deps].
  etrans; [|apply same_req_reverse_deps]. by apply same_req_names.
Qed.

Lemma same_req_constrain ppkg d p s : same_req s (constrain_provider db ppkg d p s).
Proof.
  unfold constrain_provider. set (s1 := upd_p p.1 _ s). assert (R1 : same_req s s1) by (by apply same_req_names).
  set (s2 := if _ && _ then disqualify_package db p.1 s1 else s1).
  assert (R2 : same_req s s2) by (unfold s2; case_test; [etrans; [exact R1|apply same_req_disqualify]|done]).
  clearbody s2. case_test; [|done]. etrans; [exact R2|]. unfold inherit_pinning_and_flags. by destruct ppkg.
Qed.

(** ** Applying the world *)

(** A name with requirers waits to be decided. *)
Definition waiting (s : apk_solver_state) : Prop :=
  ss_wrapped s = false -> forall n, req s n <> 0 -> queued s n.

Lemma queue_unresolved_queued n re s : locked s n = false -> req s n <> 0 -> queued (queue_unresolved n re s) n.
Proof.
  intros Hl Hr. unfold queue_unresolved. fold (locked s n). rewrite Hl.
  destruct (on_unresolved s n) eqn:Eo.
  - assert (Hq : queued s n).
    { unfold on_unresolved in Eo. apply orb_true_iff in Eo as [Eo|Eo]; [apply orb_true_iff in Eo as [Eo|Eo]|];
        apply bool_decide_eq_true_1 in Eo; unfold queued; auto. }
    repeat case_test; try done; apply queued_link; by left.
  - fold (req s n). rewrite (proj2 (Z.eqb_neq _ _) Hr). cbn [andb]. apply queued_link. by left.
Qed.

Lemma constraint_required_waiting dep s :
  dep_name dep ∈ U -> (forall n, locked s n = false) -> req_ok s -> waiting s -> waiting (constraint_required db dep s).
Proof.
  intros Hn Hl Ho Hwt. unfold constraint_required. destruct (apk_dep_conflict dep); cbn [negb]; [by rewrite andb_false_r|].
  rewrite andb_true_r. set (name := dep_name dep) in *. set (s1 := add_requirer name s).
  assert (W1 : wk s s1) by apply add_requirer_wk.
  assert (Hr1 : forall n, n <> name -> req s1 n = req s n) by (intros n Hne; unfold s1; rewrite req_add_requirer; by rewrite bool_decide_eq_false_2).
  assert (Hrn : req s1 name = u16 (req s name + 1)) by (unfold s1; rewrite req_add_requirer; by rewrite bool_decide_eq_true_2).
  fold (req s1 name). destruct (Z.eqb_spec (req s1 name) 1) as [E1|E1].
  - intros Hw n Hr.
    assert (R : same_req s1 (name_requirers_changed db name s1)).
    { unfold name_requirers_changed. etrans; [|apply same_req_queue_dirty]. etrans; [|apply same_req_reverse_installif].
      apply same_req_queue_unresolved. }
    assert (W2 : wk (queue_unresolved name false s1) (name_requirers_changed db name s1)).
    { unfold name_requirers_changed. etrans; [by apply (reevaluate_reverse_installif_wk db U P Hu)|]. by apply queue_dirty_wk. }
    apply (wk_queued _ _ _ W2). destruct (decide (n = name)) as [->|Hne].
    + apply queue_unresolved_queued; [by rewrite (wk_locked _ _ _ W1)|lia].
    + apply (wk_queued _ _ _ (proj1 (queue_unresolved_good U P name false s1 Hn))).
      apply (wk_queued _ _ _ W1). rewrite (R n), (Hr1 n Hne) in Hr. apply Hwt; [|done].
      apply (wk_unwrapped _ _ _ W1). apply (wk_unwrapped _ _ _ (name_requirers_changed_wk db U P Hu name s1 Hn) Hw).
  - intros Hw n Hr. apply (wk_queued _ _ _ W1). pose proof (wk_unwrapped _ _ _ W1 Hw) as Hw0.
    destruct (decide (n = name)) as [->|Hne]; [|by rewrite (Hr1 n Hne) in Hr; apply Hwt].
    apply Hwt; [done|]. intros E0. rewrite Hrn, E0 in E1. done.
Qed.

Lemma constrain_providers_waiting ppkg d l s :
  (forall p, p ∈ l -> pkg_addr p.1 ∈ P) -> waiting s -> waiting (for_each l (constrain_provider db ppkg d) s).
Proof.
  intros Hp Hwt Hw n Hr.
  assert (G : good s (for_each l (constrain_provider db ppkg d) s)).
  { apply good_for_each. intros p s' Hin. by apply (constrain_provider_good db U P Hu), Hp. }
  apply (wk_queued _ _ _ (proj1 G)). apply Hwt; [exact (wk_unwrapped _ _ _ (proj1 G) Hw)|].
  by rewrite (same_req_for_each l (constrain_provider db ppkg d) s (fun p s => same_req_constrain ppkg d p s) n) in Hr.
Qed.

(** Providers that do not satisfy a constraint end up unselectable. *)
Lemma constrain_providers_unsel ppkg d l s p :
  (forall p, p ∈ l -> pkg_addr p.1 ∈ P) -> (forall q, sel s q = true -> ps_conflicts (pss s q) = 0) -> p ∈ l ->
  apk_dep_is_provided ppkg d (Some (prov p)) = false -> sel (for_each l (constrain_provider db ppkg d) s) p.1 = false.
Proof.
  intros HP. revert s. induction l as [|q l IH]; intros s Hc Hp Hn; [by apply elem_of_nil in Hp|]. cbn [for_each foldl].
  assert (W1 : wk s (constrain_provider db ppkg d q s)) by (apply (constrain_provider_good db U P Hu), HP; by left).
  apply elem_of_cons in Hp as [->|Hp].
  - assert (G : good (constrain_provider db ppkg d q s) (for_each l (constrain_provider db ppkg d) (constrain_provider db ppkg d q s))).
    { apply good_for_each. intros x s' Hin. apply (constrain_provider_good db U P Hu), HP. by right. }
    apply (wk_unsel _ _ _ _ (proj1 G)). apply (constrain_provider_unsel db U P Hu); [apply Hc|done].
  - apply IH; [intros x Hx; apply HP; by right|by apply (wk_conf _ _ _ W1)|done|done].
Qed.

(** Before the first decision, with the constraints [W] applied. *)
Record started (W : list apk_dependency) (s : apk_solver_state) : Prop := {
  st_snd : snd_inv db U W None s;
  st_waiting : waiting s;
  st_unlocked n : locked s n = false;
}.

(** One more constraint on a state that satisfies it. *)
Lemma started_extend W d s :
  started W s ->
  (forall p, p ∈ providers db (dep_name d) -> apk_dep_is_provided None d (Some (prov p)) = false -> sel s p.1 = false) ->
  (ss_wrapped s = false -> apk_dep_conflict d = false -> req s (dep_name d) <> 0) -> started (W ++ [d]) s.
Proof.
  intros [S Hwt Hl] Hsel Hreq. constructor; [|done|done]. destruct S as [S1 S2 S3 S4 S5 S6 S7 S8 S9 S10 S11].
  constructor; try done.
  - intros e p. rewrite elem_of_app, list_elem_of_singleton. intros [He| ->]; [by apply S4|apply Hsel].
  - intros e Hw. rewrite elem_of_app, list_elem_of_singleton. intros [He| ->]; [by apply S5|].
    intros Hc. specialize (Hreq Hw Hc). pose proof (i_req _ _ S1 (dep_name d)). lia.
  - intros e Hw. rewrite elem_of_app, list_elem_of_singleton. intros [He| ->]; [by apply S6|].
    intros Hc. left. apply Hwt; auto.
  - intros n p v _ Hx. by rewrite Hl in Hx.
  - intros n e _ _ Hx. by rewrite Hl in Hx.
Qed.

Lemma started_constraint W d s :
  started W s -> dep_name d ∈ U -> started (W ++ [d]) (apply_constraint db false None d s).
Proof.
  intros [S Hwt Hl] Hn. pose proof (apply_constraint_good db false U P Hu None d s Hn) as [K _].
  pose proof (i_req _ _ (s_inv _ _ _ _ _ S)) as Ho.
  assert (Hadr : forall p, p ∈ providers db (dep_name d) -> pkg_addr p.1 ∈ P) by (intros p Hp; by eapply provider_addr).
  pose proof (constraint_required_good db U P Hu d s Hn) as [K1 _].
  apply started_extend.
  - constructor.
    + by apply (snd_wk db U W None s).
    + rewrite apply_constraint_eq, andb_false_r. apply constrain_providers_waiting; [done|]. by apply constraint_required_waiting.
    + intros n. by rewrite (wk_locked _ _ _ K).
  - intros p Hp Hnp. rewrite apply_constraint_eq, andb_false_r. apply constrain_providers_unsel; try done.
    apply (wk_conf _ _ _ K1), S.
  - intros Hw Hc. rewrite apply_constraint_eq, andb_false_r.
    rewrite (same_req_for_each _ _ _ (fun p s => same_req_constrain None d p s) (dep_name d)).
    rewrite apply_constraint_eq, andb_false_r in Hw.
    assert (G : good (constraint_required db d s) (for_each (providers db (dep_name d)) (constrain_provider db None d) (constraint_required db d s))).
    { apply good_for_each. intros p s' Hin. by apply (constrain_provider_good db U P Hu), Hadr. }
    pose proof (wk_unwrapped _ _ _ (proj1 G) Hw) as Hw1. revert Hw1. unfold constraint_required. rewrite Hc. cbn [negb].
    rewrite andb_true_r. fold (req (add_requirer (dep_name d) s) (dep_name d)).
    assert (W2 : wk s (add_requirer (dep_name d) s)) by apply add_requirer_wk.
    assert (Hadd : ss_wrapped (add_requirer (dep_name d) s) = false -> 1 <= req (add_requirer (dep_name d) s) (dep_name d)).
    { intros Hw2. destruct (wk_req _ _ _ W2 Ho) as [_ Hr]. specialize (Hr Hw2 (dep_name d)). specialize (Ho (dep_name d)).
      rewrite req_add_requirer, bool_decide_eq_true_2 in Hr by done.
      rewrite req_add_requirer, bool_decide_eq_true_2 by done. destruct (decide (req s (dep_name d) = 0)) as [->|]; [done|lia]. }
    case_test; [|intros Hw2; specialize (Hadd Hw2); lia]. intros Hw3.
    assert (R : same_req (add_requirer (dep_name d) s) (name_requirers_changed db (dep_name d) (add_requirer (dep_name d) s))).
    { unfold name_requirers_changed. etrans; [|apply same_req_queue_dirty]. etrans; [|apply same_req_reverse_installif].
      apply same_req_queue_unresolved. }
    rewrite (R (dep_name d)). pose proof (wk_unwrapped _ _ _ (name_requirers_changed_wk db U P Hu _ _ Hn) Hw3) as Hw4.
    specialize (Hadd Hw4). lia.
Qed.

Lemma pinning_wk v s : wk s (set_ss_pinning_inherit v s).
Proof. by apply wk_lists; auto. Qed.
Lemma flags_wk v s : wk s (set_ss_solver_flags_inherit v s).
Proof. by apply wk_lists; auto. Qed.

Lemma started_same W s s' :
  wk s s' -> ss_names s' = ss_names s -> (forall n, queued s n <-> queued s' n) -> ss_wrapped s' = ss_wrapped s -> started W s -> started W s'.
Proof.
  intros K Hn Hq Hw [S Hwt Hl]. constructor.
  - by apply (snd_wk db U W None s).
  - intros Hw' n. rewrite (same_req_names _ _ Hn n). intros Hr. apply Hq, Hwt; [congruence|done].
  - intros n. by rewrite (wk_locked _ _ _ K).
Qed.

Definition unbroken (world : list apk_dependency) : list apk_dependency := filter (fun d => dep_broken d = false) world.

Lemma apply_world_started world W s :
  Forall (fun d => dep_name d ∈ U) world -> started W s -> started (W ++ unbroken world) (apply_world db false world s).
Proof.
  intros Hn. revert W s. induction Hn as [|d world Hd Hn IH]; intros W s Hs; cbn [apply_world for_each foldl].
  { by rewrite app_nil_r. }
  unfold unbroken. rewrite filter_cons. destruct (dep_broken d) eqn:Eb.
  - rewrite decide_False by done. by apply IH.
  - rewrite decide_True by done. change (d :: filter _ world) with ([d] ++ unbroken world). rewrite app_assoc.
    apply IH. apply started_constraint; [|done]. apply (started_same W s); try done. apply pinning_wk.
Qed.

(** ** Fresh states *)

(** As memory is zeroed: nothing decided, counted or marked (package flags may be set). *)
Record fresh (s : apk_solver_state) : Prop := {
  f_name n : nss s n = ns0;
  f_pkg p : ps_error (pss s p) = false /\ ps_conflicts (pss s p) = 0 /\ ps_in_changeset (pss s p) = false;
}.

Lemma fresh_started flags s s' :
  fresh s -> discovers (solver_init flags s) s' -> started [] s'.
Proof.
  intros [Hn Hp] D. destruct (d_lists _ _ D) as (L1 & L2 & L3 & L4). cbn in L1, L2, L3, L4.
  assert (En : forall n, locked s' n = false /\ chosen s' n = provider_none /\ req s' n = 0).
  { intros n. destruct (d_name _ _ D n) as (-> & -> & -> & _). unfold locked, chosen, req.
    change (nss (solver_init flags s) n) with (nss s n). by rewrite Hn. }
  assert (Hq : forall n, ~ queued s' n) by (intros n; unfold queued; rewrite L2, L3, L4, !elem_of_nil; tauto).
  assert (Hpk : forall p, ps_error (pss s' p) = false /\ ps_conflicts (pss s' p) = 0).
  { intros p. destruct (d_pkg _ _ D p) as (-> & -> & _). split; apply (Hp p). }
  constructor; [|by intros _ n; destruct (En n) as (_ & _ & ->)|intros n; apply En].
  constructor; try (intros; exfalso; by eapply not_elem_of_nil).
  - constructor.
    + intros n. destruct (En n) as (_ & _ & ->). lia.
    + rewrite L1. apply NoDup_nil_2.
    + intros n. rewrite L1. intros Hx. by apply elem_of_nil in Hx.
    + intros n Hx. by apply Hq in Hx.
  - intros p _. apply Hpk.
  - unfold err_ok. rewrite (d_errors _ _ D). cbn. split; [done|]. intros p. by destruct (Hpk p) as [-> _].
  - intros n _. apply En.
  - intros n p v Hl. destruct (En n) as (E & _). congruence.
  - intros n p v _ Hl. destruct (En n) as (E & _). congruence.
  - split; [intros n|intros p].
    + unfold processed. destruct (d_name _ _ D n) as (_ & _ & _ & ->). change (nss (solver_init flags s) n) with (nss s n). by rewrite Hn.
    + unfold in_cset. destruct (d_pkg _ _ D p) as (_ & _ & ->). apply (Hp p).
Qed.

(** The state in which the main loop starts. *)
Definition solver_start (fuel : nat) (ignore_conflict : bool) (solver_flags : Z) (world : list apk_dependency) (s : apk_solver_state)
  : option apk_solver_state :=
  s ← for_eachM world (fun d s => if dep_broken d then Some s else discover_name db default_repos fuel (dep_name d) s)
        (solver_init solver_flags s);
  Some (set_ss_pinning_inherit 0 (set_ss_solver_flags_inherit 0 (apply_world db ignore_conflict world s))).

Lemma solver_start_started fuel flags world s :
  Forall (fun d => dep_name d ∈ U) world -> fresh s -> (card U < fuel)%nat ->
  exists s', solver_start fuel false flags world s = Some s' /\ started (unbroken world) s'.
Proof.
  intros Hn Hf Hfuel. unfold solver_start.
  assert (Hsz : forall s, (card (unseen s) < fuel)%nat).
  { intros s1. assert (card (unseen s1) <= card U)%nat; [|lia].
    apply subseteq_size. intros n. unfold unseen. rewrite elem_of_filter. tauto. }
  destruct (for_eachM_total discovers (fun _ => True) world
    (fun d s => if dep_broken d then Some s else discover_name db default_repos fuel (dep_name d) s) (solver_init flags s))
    as (s1 & H1 & D1); try apply _; [done| |done|].
  { intros d s1 Hd _. destruct (dep_broken d); [by exists s1|]. apply discover_name_total; [|apply Hsz].
    by apply (proj1 (list.Forall_forall _ _) Hn). }
  rewrite H1. cbn [mbind option_bind]. eexists. split; [reflexivity|].
  pose proof (apply_world_started world [] s1 Hn (fresh_started flags s s1 Hf D1)) as Hs. cbn [app] in Hs.
  apply (started_same _ _ _ (pinning_wk 0 _)); try done. by apply (started_same _ _ _ (flags_wk 0 _)).
Qed.
End Start.
