(* ===== verification/SolverCset.v ===== *)
(** The change set: its generation ends, leaves the choice alone, and, when it reports no
    errors, the packages it installs or keeps are closed under dependencies. *)
From Stdlib Require Import ZArith Lia.
From stdpp Require Import base numbers list option gmap.
From S2P Require Import Prelude Clib Blob Version Dep Package SolverState Solver SolverInv SolverLoop SolverSound SolverStart.

Section Cset.
Context `{UndefChecksum}.
Context (db : apk_database) (ignore_conflict : bool).
Context (U : gset bytes) (P : gset Z) (Hu : universe db U P) (Hwf : db_wf db).
#[local] Abbreviation card := base.size.

Definition inst_pkg (s : apk_solver_state) (n : bytes) : option apk_package := ns_installed_pkg (nss s n).

(** The packages of the database. *)
Definition isdb (p : apk_package) : Prop := exists n v, (p, v) ∈ providers db n.

Lemma isdb_known p : isdb p -> known U P p.
Proof. intros (n & v & Hp). by apply (known_provider db U P n (p, v)). Qed.

Lemma isdb_addr p q : isdb p -> isdb q -> pkg_addr p = pkg_addr q -> p = q.
Proof. intros (n & v & Hp) (m & w & Hq). apply (w_addr _ Hwf n m (p, v) (q, w) Hp Hq). Qed.

(** What removing packages may change. *)
Record cr (s s' : apk_solver_state) : Prop := {
  cr_chosen n : chosen s' n = chosen s n;
  cr_processed n : processed s' n = processed s n;
  cr_inst n : inst_pkg s' n = inst_pkg s n;
  cr_error p : ps_error (pss s' p) = ps_error (pss s p);
  cr_errors : ss_errors s' = ss_errors s;
  cr_wrapped : ss_wrapped s' = ss_wrapped s;
  cr_in p : in_cset s p = true -> in_cset s' p = true;
  cr_new p : isdb p -> in_cset s' p = true -> in_cset s p = true \/
    forall c, prov_pkg (chosen s (pkg_nm p)) = Some c -> pkg_nm c <> pkg_nm p;
  cr_changes : exists l, ss_changes s' = ss_changes s ++ l /\ Forall (fun c => new_pkg c = None) l;
}.

#[global] Instance cr_refl : Reflexive cr.
Proof. intros s. constructor; try done; [auto|]. exists []. by rewrite app_nil_r. Qed.

#[global] Instance cr_trans : Transitive cr.
Proof.
  intros s1 s2 s3 A B. constructor.
  - intros n. by rewrite (cr_chosen _ _ B), (cr_chosen _ _ A).
  - intros n. by rewrite (cr_processed _ _ B), (cr_processed _ _ A).
  - intros n. by rewrite (cr_inst _ _ B), (cr_inst _ _ A).
  - intros p. by rewrite (cr_error _ _ B), (cr_error _ _ A).
  - by rewrite (cr_errors _ _ B), (cr_errors _ _ A).
  - by rewrite (cr_wrapped _ _ B), (cr_wrapped _ _ A).
  - intros p Hp. by apply (cr_in _ _ B), (cr_in _ _ A).
  - intros p Hd Hp. destruct (cr_new _ _ B p Hd Hp) as [H2|H2]; [by apply (cr_new _ _ A)|]. right. by rewrite <- (cr_chosen _ _ A).
  - destruct (cr_changes _ _ A) as (l1 & E1 & F1), (cr_changes _ _ B) as (l2 & E2 & F2). exists (l1 ++ l2).
    rewrite E2, E1, app_assoc. split; [done|]. by apply Forall_app.
Qed.

(** Updates of the counts and of the mark for removal. *)
Lemma cr_upd_n n f s :
  (forall x, ns_chosen (f x) = ns_chosen x /\ ns_changeset_processed (f x) = ns_changeset_processed x /\
     ns_installed_pkg (f x) = ns_installed_pkg x) -> cr s (upd_n n f s).
Proof.
  intros Hf. assert (Hx : forall m, chosen (upd_n n f s) m = chosen s m /\ processed (upd_n n f s) m = processed s m /\
    inst_pkg (upd_n n f s) m = inst_pkg s m).
  { intros m. unfold chosen, processed, inst_pkg. rewrite nss_upd_n. case_bool_decide as E; [subst m; apply Hf|done]. }
  constructor; try (intros; apply Hx); try done; [by left|]. exists []. by rewrite app_nil_r.
Qed.

Lemma cr_record_remove p s : cr s (record_change db (Some p) None s).
Proof. constructor; try done; [by left|]. eexists. split; [reflexivity|]. by repeat constructor. Qed.

Lemma cr_track_deps_added pkg s : cr s (cset_track_deps_added pkg s).
Proof.
  unfold cset_track_deps_added, for_each. generalize (depends pkg) as l. intros l. revert s.
  induction l as [|d l IH]; intros s; cbn [foldl]; [done|]. etrans; [|apply IH]. destruct (tracked_name s d); [|done].
  by apply cr_upd_n.
Qed.

(** The installed packages the state knows are packages of the database. *)
Definition inst_known (s : apk_solver_state) : Prop := forall n p, inst_pkg s n = Some p -> isdb p.

Lemma inst_known_cr s s' : cr s s' -> inst_known s -> inst_known s'.
Proof. intros C Hk n p. rewrite (cr_inst _ _ C). apply Hk. Qed.

Definition outside (s : apk_solver_state) : gset Z :=
  filter (fun a => ps_in_changeset (default ps0 (ss_pkgs s !! a)) = false) P.

Lemma outside_mono s s' : cr s s' -> outside s' ⊆ outside s.
Proof.
  intros C a. unfold outside. rewrite !elem_of_filter. intros [Ha Hp]. split; [|done].
  pose proof (cr_in _ _ C (set_pkg_addr a)) as Hi. unfold in_cset, pss in Hi. cbn in Hi.
  destruct (ps_in_changeset (default ps0 (ss_pkgs s !! a))); [|done]. rewrite Hi in Ha; done.
Qed.

(** ** Helpers that call back a removal *)

Section Helpers.
(** A removal that succeeds whenever the installed packages are known and [I] holds. *)
Context (remove : apk_package -> apk_solver_state -> option apk_solver_state) (I : apk_solver_state -> Prop).
Context (HI : forall s s', I s -> cr s s' -> I s') (Hik : forall s, I s -> inst_known s).
Context (Hrem : forall p s, isdb p -> I s -> exists s', remove p s = Some s' /\ cr s s').

Lemma track_deps_removed_total pkg s : I s -> exists s', cset_track_deps_removed remove pkg s = Some s' /\ cr s s'.
Proof.
  intros Hs. apply (for_eachM_total cr I); try apply _; [done| |done]. intros d s1 _ H1.
  destruct (tracked_name s1 d) as [n|]; [|by exists s1].
  cbn zeta. set (s2 := upd_n n (set_ns_requirers _) s1). assert (C2 : cr s1 s2) by (by apply cr_upd_n).
  case_test; [by exists s2|]. destruct (ns_installed_pkg (nss s2 (dep_name d))) as [q|] eqn:Eq; [|by exists s2].
  destruct (Hrem q s2) as (s3 & H3 & C3); [apply (Hik s2 (HI _ _ H1 C2) (dep_name d) q Eq)|by apply (HI s1)|].
  exists s3. split; [done|]. by etrans.
Qed.

Lemma check_removal_by_deps_total pkg s :
  isdb pkg -> I s -> exists s', cset_check_removal_by_deps remove pkg s = Some s' /\ cr s s'.
Proof. intros Hk Hs. unfold cset_check_removal_by_deps. case_test; [by apply Hrem|by exists s]. Qed.

Lemma check_removal_by_iif_total n s : I s -> exists s', cset_check_removal_by_iif remove n s = Some s' /\ cr s s'.
Proof.
  intros Hs. unfold cset_check_removal_by_iif. destruct (ns_installed_pkg (nss s n)) as [q|] eqn:Eq; [|by exists s].
  destruct (prov_pkg (ns_chosen (nss s n))); [by exists s|]. case_test; [by exists s|]. case_test; [|by exists s].
  apply check_removal_by_deps_total; [|done]. exact (Hik s Hs n q Eq).
Qed.

Lemma check_by_reverse_iif_total pkg s :
  I s -> exists s', cset_check_by_reverse_iif db pkg (cset_check_removal_by_iif remove) s = Some s' /\ cr s s'.
Proof.
  intros Hs. destruct pkg as [pkg|]; cbn [cset_check_by_reverse_iif]; [|by exists s].
  assert (Hl : forall l s, I s -> exists s', for_eachM l (cset_check_removal_by_iif remove) s = Some s' /\ cr s s').
  { intros l s1 H1. apply (for_eachM_total cr I); try apply _; [done| |done]. intros n s2 _ H2. by apply check_removal_by_iif_total. }
  apply (bindM_total cr); [apply _|by apply Hl|]. intros s1 C1.
  apply (for_eachM_total cr I); try apply _; [done| |by apply (HI s)]. intros d s2 _ H2. by apply Hl.
Qed.

Lemma removals_total l s :
  (forall p, p ∈ l -> isdb p) -> I s -> exists s', for_eachM l remove s = Some s' /\ cr s s'.
Proof.
  intros Hl Hs. apply (for_eachM_total cr I); try apply _; [done| |done]. intros p s1 Hp H1. apply Hrem; auto.
Qed.
End Helpers.

Lemma reverse_dependencies_known pkg names p : p ∈ reverse_dependencies db pkg names -> isdb p.
Proof.
  unfold reverse_dependencies. rewrite list_elem_of_bind. intros (n & Hp & _). apply list_elem_of_bind in Hp as ([q v] & Hp & Hq).
  cbn [fst] in Hp. destruct (negb (installed q)); [by apply elem_of_nil in Hp|].
  apply list_elem_of_bind in Hp as (d & Hp & _). case_test; [|by apply elem_of_nil in Hp].
  apply list_elem_of_singleton in Hp as ->. by exists n, v.
Qed.

Lemma cset_gen_name_remove_total fuel : forall pkg s,
  isdb pkg -> inst_known s -> (card (outside s) < fuel)%nat ->
  exists s', cset_gen_name_remove db fuel pkg s = Some s' /\ cr s s'.
Proof.
  induction fuel as [|fuel IH]; intros pkg s Hk Hi Hf; [lia|]. cbn [cset_gen_name_remove].
  destruct (ps_in_changeset (pss s pkg)) eqn:Ein; cbn [orb]; [by exists s|].
  match goal with |- context [if ?c then Some s else _] => destruct c eqn:Ech end; [by exists s|]. cbn zeta.
  set (s1 := upd_n (pkg_nm pkg) _ s). set (s2 := upd_p pkg _ s1).
  assert (C1 : cr s s1) by (by apply cr_upd_n).
  assert (C2 : cr s s2).
  { etrans; [exact C1|]. constructor; try done.
    - intros q. unfold s2. rewrite pss_upd_p. case_bool_decide as E; [|done]. unfold pss. by rewrite E.
    - intros q. unfold in_cset, s2. rewrite pss_upd_p. by case_bool_decide.
    - intros q Hq. unfold in_cset, s2. rewrite pss_upd_p. case_bool_decide as E; [|by left].
      intros _. right. rewrite (isdb_addr q pkg Hq Hk E). intros c Hc Hn.
      rewrite (cr_chosen _ _ C1) in Hc. unfold chosen in Hc. rewrite Hc in Ech.
      by rewrite bool_decide_eq_true_2 in Ech.
    - exists []. by rewrite app_nil_r. }
  assert (H2 : (card (outside s2) < fuel)%nat).
  { assert (card (outside s2) < card (outside s))%nat; [|lia]. apply subset_size, (strict_spec_alt (R := (⊆))).
    split; [by apply outside_mono|]. intros E.
    assert (Hin : pkg_addr pkg ∈ outside s) by (apply elem_of_filter; split; [exact Ein|apply (isdb_known _ Hk)]).
    rewrite <- E in Hin. apply elem_of_filter in Hin as [Hx _]. revert Hx.
    change (in_cset s2 pkg = false -> False). unfold in_cset, s2. rewrite pss_upd_p. by rewrite bool_decide_eq_true_2. }
  set (I := fun s => inst_known s /\ (card (outside s) < fuel)%nat).
  assert (HI : forall s s', I s -> cr s s' -> I s').
  { intros s3 s4 [A B] C. split; [by apply (inst_known_cr s3)|]. pose proof (subseteq_size _ _ (outside_mono _ _ C)). lia. }
  assert (Hrem : forall p s, isdb p -> I s -> exists s', cset_gen_name_remove db fuel p s = Some s' /\ cr s s').
  { intros p s3 Hp [A B]. by apply IH. }
  assert (I2 : I s2) by (split; [by apply (inst_known_cr s)|done]).
  match goal with |- exists s', ?o = Some s' /\ _ => enough (Hgoal : exists s', o = Some s' /\ cr s2 s') end.
  { destruct Hgoal as (s' & H1 & C3). exists s'. split; [exact H1|by etrans]. }
  apply (bindM_total cr); [apply _|apply (removals_total _ I HI Hrem); [intros p; apply reverse_dependencies_known|done]|].
  intros s3 C3. apply (bindM_total cr); [apply _| |intros s4 C4].
  { apply (for_eachM_total cr I); try apply _; [done| |by apply (HI s2)]. intros d s4 _ H4.
    apply (removals_total _ I HI Hrem); [intros p; apply reverse_dependencies_known|done]. }
  pose proof (HI _ _ I2 C3) as I3. pose proof (HI _ _ I3 C4) as I4.
  apply (bindM_total cr); [apply _|apply (check_by_reverse_iif_total _ I HI); [by intros s5 [? _]|exact Hrem|exact I4]|intros s5 C5].
  pose proof (cr_record_remove pkg s5) as C6.
  destruct (track_deps_removed_total (cset_gen_name_remove db fuel) I HI ltac:(by intros s6 [? _]) Hrem pkg
    (record_change db (Some pkg) None s5)) as (s7 & H7 & C7); [apply (HI s5); [by apply (HI s4)|done]|].
  exists s7. split; [exact H7|]. by etrans.
Qed.

(** ** Changes *)

(** What generating changes may do. *)
Record cc (s s' : apk_solver_state) : Prop := {
  cc_chosen n : chosen s' n = chosen s n;
  cc_inst n : inst_pkg s' n = inst_pkg s n;
  cc_wrapped : ss_wrapped s' = ss_wrapped s;
  cc_processed n : processed s n = true -> processed s' n = true;
  cc_in p : in_cset s p = true -> in_cset s' p = true;
  cc_errors : ss_errors s <= ss_errors s';
  cc_err : err_ok s -> err_ok s';
}.

#[global] Instance cc_refl : Reflexive cc.
Proof. by constructor. Qed.

#[global] Instance cc_trans : Transitive cc.
Proof.
  intros s1 s2 s3 A B. constructor; intros.
  - by rewrite (cc_chosen _ _ B), (cc_chosen _ _ A).
  - by rewrite (cc_inst _ _ B), (cc_inst _ _ A).
  - by rewrite (cc_wrapped _ _ B), (cc_wrapped _ _ A).
  - by apply (cc_processed _ _ B), (cc_processed _ _ A).
  - by apply (cc_in _ _ B), (cc_in _ _ A).
  - etrans; [apply A|apply B].
  - by apply (cc_err _ _ B), (cc_err _ _ A).
Qed.

Lemma cr_cc s s' : cr s s' -> cc s s'.
Proof.
  intros C. constructor.
  - apply (cr_chosen _ _ C).
  - apply (cr_inst _ _ C).
  - apply (cr_wrapped _ _ C).
  - intros n. by rewrite (cr_processed _ _ C).
  - apply (cr_in _ _ C).
  - by rewrite (cr_errors _ _ C).
  - intros [H0 He]. unfold err_ok. rewrite (cr_errors _ _ C). split; [done|]. intros p. rewrite (cr_error _ _ C). apply He.
Qed.

(** The choice is consistent: chosen packages are of the database and hold their names. *)
Definition chosen_db (s : apk_solver_state) : Prop :=
  forall n p v, chosen s n = Provider (Some p) v -> (p, v) ∈ providers db n.

Definition choice_ok (s : apk_solver_state) : Prop :=
  chosen_db s /\
  forall n p v, chosen s n = Provider (Some p) v ->
    chosen s (pkg_nm p) = APK_PROVIDER_FROM_PACKAGE p /\
    forall d, d ∈ provides p -> chosen s (dep_name d) = APK_PROVIDER_FROM_PROVIDES p d \/
      dep_version d = [] /\ prov_version (chosen s (dep_name d)) = [].

Lemma choice_ok_cc s s' : cc s s' -> choice_ok s -> choice_ok s'.
Proof.
  intros C [A B]. split.
  - intros n p v. rewrite (cc_chosen _ _ C). apply A.
  - intros n p v. rewrite !(cc_chosen _ _ C). intros Hc. destruct (B n p v Hc) as [B1 B2]. split; [done|].
    intros d Hd. rewrite (cc_chosen _ _ C). by apply B2.
Qed.

Definition is_chosen (s : apk_solver_state) (p : apk_package) : Prop := exists n v, chosen s n = Provider (Some p) v.
Definition recorded (s : apk_solver_state) (p : apk_package) : Prop := exists c, c ∈ ss_changes s /\ new_pkg c = Some p.

(** A dependency that the choice provides, and whose name was visited. *)
Definition satisfied (s : apk_solver_state) (ppkg : option apk_package) (d : apk_dependency) : Prop :=
  apk_dep_conflict d && ignore_conflict = true \/
  (ppkg = None \/ apk_dep_is_provided ppkg d (Some (chosen s (dep_name d))) = true) /\ processed s (dep_name d) = true.

Lemma satisfied_cc s s' pp d : cc s s' -> satisfied s pp d -> satisfied s' pp d.
Proof.
  intros C [?|[A B]]; [by left|]. right. split; [by rewrite (cc_chosen _ _ C)|by apply (cc_processed _ _ C)].
Qed.

(** The invariant while the packages at the addresses [G] are being visited; [x] is a name
    whose visit has just begun. *)
Record J (G : gset Z) (x : option bytes) (s : apk_solver_state) : Prop := {
  j_in n p v : chosen s n = Provider (Some p) v -> in_cset s p = true -> recorded s p \/ pkg_addr p ∈ G;
  j_proc n p v : x <> Some n -> processed s n = true -> chosen s n = Provider (Some p) v ->
    exists p', (p', v) ∈ providers db n /\ in_cset s p' = true /\ is_chosen s p';
  j_ok p d : ss_errors s = 0 -> recorded s p -> d ∈ depends p -> satisfied s (Some p) d;
  j_err : err_ok s;
  j_rec p : recorded s p -> is_chosen s p;
}.

Lemma J_cr G x s s' : choice_ok s -> cr s s' -> J G x s -> J G x s'.
Proof.
  intros [Hdb Hch] C [J1 J2 J3 J4 J5]. destruct (cr_changes _ _ C) as (l & El & Fl).
  assert (Hrec : forall p, recorded s' p <-> recorded s p).
  { intros p. unfold recorded. rewrite El. split; intros (c & Hc & Hn); exists c; split; try done.
    - apply elem_of_app in Hc as [Hc|Hc]; [done|]. rewrite list.Forall_forall in Fl. rewrite (Fl c Hc) in Hn. done.
    - apply elem_of_app. by left. }
  assert (His : forall p, is_chosen s' p <-> is_chosen s p).
  { intros p. unfold is_chosen. split; intros (n & v & Hc); exists n, v; by rewrite (cr_chosen _ _ C) in *. }
  constructor.
  - intros n p v. rewrite (cr_chosen _ _ C), Hrec. intros Hc Hin.
    destruct (cr_new _ _ C p ltac:(exists n, v; by apply Hdb) Hin) as [Hi|Hi]; [by apply (J1 n p v)|].
    destruct (Hch n p v Hc) as [Hs _]. by destruct (Hi p ltac:(by rewrite Hs)).
  - intros n p v Hx. rewrite (cr_chosen _ _ C), (cr_processed _ _ C). intros Hp Hc.
    destruct (J2 n p v Hx Hp Hc) as (p' & A & B & D). exists p'. split; [done|]. split; [by apply (cr_in _ _ C)|by apply His].
  - intros p d. rewrite (cr_errors _ _ C), Hrec. intros H0 Hr Hd. apply (satisfied_cc s); [by apply cr_cc|by apply J3].
  - by apply (cc_err _ _ (cr_cc _ _ C)).
  - intros p. rewrite Hrec, His. apply J5.
Qed.

(** Beginning the visit of a name. *)
Definition mark_processed (n : bytes) (s : apk_solver_state) : apk_solver_state := upd_n n (set_ns_changeset_processed true) s.

Lemma mark_nss n s m :
  chosen (mark_processed n s) m = chosen s m /\ inst_pkg (mark_processed n s) m = inst_pkg s m /\
  processed (mark_processed n s) m = (bool_decide (m = n) || processed s m).
Proof.
  unfold chosen, inst_pkg, processed, mark_processed. rewrite nss_upd_n. case_bool_decide as E; [by subst m|done].
Qed.

Lemma mark_cc n s : cc s (mark_processed n s).
Proof.
  constructor; try done; intros; try apply mark_nss.
  destruct (mark_nss n s n0) as (_ & _ & ->). rewrite H0. apply orb_true_r.
Qed.

Lemma J_mark G n s : J G None s -> J G (Some n) (mark_processed n s).
Proof.
  intros [J1 J2 J3 J4 J5].
  assert (His : forall p, is_chosen s p -> is_chosen (mark_processed n s) p).
  { intros p (m & v & Hc). exists m, v. by destruct (mark_nss n s m) as (-> & _). }
  constructor.
  - intros m p v. destruct (mark_nss n s m) as (-> & _). apply J1.
  - intros m p v Hx. destruct (mark_nss n s m) as (-> & _ & ->). rewrite bool_decide_eq_false_2 by congruence. cbn [orb].
    intros Hp Hc. destruct (J2 m p v ltac:(done) Hp Hc) as (p' & A & B & D). eauto.
  - intros p d H0 Hr Hd. apply (satisfied_cc s); [apply mark_cc|by apply J3].
  - done.
  - intros p Hr. apply His. by apply J5.
Qed.

(** The name is accounted for by a package that provides the same version of it. *)
Lemma J_unmark G n s :
  J G (Some n) s ->
  (forall p v, chosen s n = Provider (Some p) v -> exists p', (p', v) ∈ providers db n /\ in_cset s p' = true /\ is_chosen s p') ->
  J G None s.
Proof.
  intros [J1 J2 J3 J4 J5] Hn. constructor; try done. intros m p v _ Hp Hc.
  destruct (decide (m = n)) as [->|Hm]; [by apply (Hn p v)|]. apply (J2 m p v); [congruence|done|done].
Qed.

(** ** Visits *)

(** A step of the generation: it may extend what [cc] allows and keeps the invariant. *)
Definition step (s s' : apk_solver_state) : Prop :=
  cc s s' /\ forall G, choice_ok s -> J G None s -> J G None s'.

#[global] Instance step_refl : Reflexive step.
Proof. by split. Qed.
#[global] Instance step_trans : Transitive step.
Proof.
  intros s1 s2 s3 [A B] [C D]. split; [by etrans|]. intros G Hc Hj. apply D; [by apply (choice_ok_cc s1)|by apply B].
Qed.

Lemma cr_step s s' : cr s s' -> step s s'.
Proof. intros C. split; [by apply cr_cc|]. intros G Hc. by apply J_cr. Qed.

Lemma mark_error_cc p s : cc s (mark_error p s).
Proof.
  pose proof (mark_error_keep U p s) as K. assert (Hn := mark_error_nss p s). constructor.
  - intros n. unfold chosen. by rewrite Hn.
  - intros n. unfold inst_pkg. by rewrite Hn.
  - by destruct (mark_error_names p s) as (_ & _ & -> & _).
  - intros n. unfold processed. by rewrite Hn.
  - intros q. unfold in_cset, mark_error. destruct p as [p|]; [|done]. case_test; [done|].
    change (pss (set_ss_errors _ _) q) with (pss (upd_p p (set_ps_error true) s) q).
    rewrite pss_upd_p. case_bool_decide as Eq; [|done]. unfold pss. by rewrite Eq.
  - apply (x_errors _ _ _ K).
  - apply (x_err _ _ _ K).
Qed.

Lemma mark_error_changes p s : ss_changes (mark_error p s) = ss_changes s.
Proof. unfold mark_error. destruct p as [p|]; [|done]. by case_test. Qed.

Lemma mark_error_step p s : step s (mark_error p s).
Proof.
  pose proof (mark_error_cc p s) as C. split; [exact C|]. intros G _ [J1 J2 J3 J4 J5].
  assert (Hrec : forall q, recorded (mark_error p s) q <-> recorded s q) by (intros q; unfold recorded; by rewrite mark_error_changes).
  assert (His : forall q, is_chosen (mark_error p s) q <-> is_chosen s q).
  { intros q. unfold is_chosen. split; intros (n & v & Hc); exists n, v; by rewrite (cc_chosen _ _ C) in *. }
  constructor.
  - intros n q v. rewrite (cc_chosen _ _ C), mark_error_in, Hrec. apply J1.
  - intros n q v Hx. unfold processed. rewrite mark_error_nss, (cc_chosen _ _ C). intros Hp Hc.
    destruct (J2 n q v Hx Hp Hc) as (p' & A & B & D). exists p'. rewrite mark_error_in, His. done.
  - intros q d H0. rewrite Hrec. intros Hr Hd. apply (satisfied_cc s); [done|]. apply J3; try done.
    pose proof (cc_errors _ _ C). destruct J4. lia.
  - by apply (cc_err _ _ C).
  - intros q. rewrite Hrec, His. apply J5.
Qed.

(** Removals with a fixed fuel, as the visits use them. *)
Section Visit.
Context (fuel : nat) (Hfuel : (card P < fuel)%nat).
#[local] Abbreviation remove := (cset_gen_name_remove db fuel).

Lemma outside_le s : (card (outside s) <= card P)%nat.
Proof. apply subseteq_size. intros a. unfold outside. rewrite elem_of_filter. tauto. Qed.

Lemma remove_total p s : isdb p -> inst_known s -> exists s', remove p s = Some s' /\ cr s s'.
Proof. intros Hp Hi. apply cset_gen_name_remove_total; [done|done|]. pose proof (outside_le s). lia. Qed.

Lemma inst_known_keep s s' : inst_known s -> cr s s' -> inst_known s'.
Proof. intros Hi C. by apply (inst_known_cr s). Qed.

Lemma preprocess_total n s :
  inst_known s ->
  exists s', cset_gen_name_preprocess db remove n s = Some s' /\
    (processed s n = true /\ s' = s \/ processed s n = false /\ cr (mark_processed n s) s').
Proof.
  intros Hi. unfold cset_gen_name_preprocess. fold (processed s n). destruct (processed s n); [eauto|]. cbn zeta.
  fold (mark_processed n s). set (s0 := mark_processed n s).
  assert (Hi0 : inst_known s0) by (intros m p; destruct (mark_nss n s m) as (_ & E & _); unfold s0; rewrite E; apply Hi).
  match goal with |- exists s', ?o = Some s' /\ _ => enough (Hgoal : exists s', o = Some s' /\ cr s0 s') end.
  { destruct Hgoal as (s' & H1 & C). exists s'. split; [exact H1|]. by right. }
  apply (bindM_total cr); [apply _| |intros s1 C1].
  - destruct (ns_installed_pkg (nss s0 n)) as [q|] eqn:Eq; [|by exists s0]. case_test; [|by exists s0].
    apply remove_total; [|done]. exact (Hi0 n q Eq).
  - apply (for_eachM_total cr inst_known); try apply _; [exact inst_known_keep| |by apply (inst_known_keep s0)].
    intros p s2 Hp H2. case_test; [|by exists s2]. apply remove_total; [|done]. destruct p as [p v]. by exists n, v.
Qed.

Lemma preprocess_cc n s s' :
  (processed s n = true /\ s' = s \/ processed s n = false /\ cr (mark_processed n s) s') ->
  cc s s' /\ processed s' n = true.
Proof.
  intros [[Hp ->]|[Hp C]]; [done|]. split; [etrans; [apply mark_cc|by apply cr_cc]|].
  rewrite (cr_processed _ _ C). destruct (mark_nss n s n) as (_ & _ & ->). by rewrite bool_decide_eq_true_2.
Qed.

(** A name that the package being visited holds, or provides without a version like the one
    that holds it. *)
Definition covers (s : apk_solver_state) (p : apk_package) (n : bytes) : Prop :=
  forall q v, chosen s n = Provider (Some q) v -> (p, v) ∈ providers db n.

Lemma preprocess_J G n p s s' :
  (processed s n = true /\ s' = s \/ processed s n = false /\ cr (mark_processed n s) s') ->
  choice_ok s -> is_chosen s p -> in_cset s p = true -> covers s p n -> J G None s -> J G None s'.
Proof.
  intros [[Hp ->]|[Hp C]] Hok Hch Hin Hcov Hj; [done|].
  assert (Hok0 : choice_ok (mark_processed n s)) by (apply (choice_ok_cc s); [apply mark_cc|done]).
  apply (J_unmark G n); [apply (J_cr _ _ _ _ Hok0 C), J_mark, Hj|].
  intros q v. rewrite (cr_chosen _ _ C). destruct (mark_nss n s n) as (-> & _). intros Hc. exists p.
  split; [by apply (Hcov q)|]. split; [by apply (cr_in _ _ C)|].
  destruct Hch as (m & w & Hm). exists m, w. rewrite (cr_chosen _ _ C). by destruct (mark_nss n s m) as (-> & _).
Qed.

Lemma covers_own s p n v : choice_ok s -> chosen s n = Provider (Some p) v -> covers s p (pkg_nm p).
Proof.
  intros [Hdb Hch] Hc q w Hq. destruct (Hch n p v Hc) as [Hs _]. rewrite Hs in Hq. injection Hq as <- <-. by apply Hdb.
Qed.

Lemma covers_provides s p n v d : choice_ok s -> chosen s n = Provider (Some p) v -> d ∈ provides p -> covers s p (dep_name d).
Proof.
  intros [Hdb Hch] Hc Hd q w Hq. pose proof (w_provides _ Hwf n (p, v) d (Hdb _ _ _ Hc) Hd) as Hin. cbn [fst] in Hin.
  destruct (Hch n p v Hc) as [_ Hp]. destruct (Hp d Hd) as [Hs|[Hv Hs]].
  - rewrite Hs in Hq. by injection Hq as <- <-.
  - rewrite Hq in Hs. cbn in Hs. by rewrite Hs, <- Hv.
Qed.

Lemma preprocess_list l s :
  inst_known s -> exists s', for_eachM l (cset_gen_name_preprocess db remove) s = Some s' /\ cc s s' /\
    forall G p, choice_ok s -> is_chosen s p -> in_cset s p = true -> (forall n, n ∈ l -> covers s p n) -> J G None s -> J G None s'.
Proof.
  unfold for_eachM. revert s. induction l as [|n l IH]; intros s Hi; cbn [foldl].
  { exists s. split; [done|]. split; [done|]. auto. }
  destruct (preprocess_total n s Hi) as (s1 & H1 & P1). cbn [mbind option_bind]. rewrite H1.
  destruct (preprocess_cc n s s1 P1) as [C1 _].
  destruct (IH s1) as (s2 & H2 & C2 & J2); [intros m p; rewrite (cc_inst _ _ C1); apply Hi|].
  exists s2. split; [exact H2|]. split; [by etrans|]. intros G p Hok Hch Hin Hcov Hj. apply (J2 G p).
  - by apply (choice_ok_cc s).
  - destruct Hch as (m & w & Hm). exists m, w. by rewrite (cc_chosen _ _ C1).
  - by apply (cc_in _ _ C1).
  - intros m Hm q v. rewrite (cc_chosen _ _ C1). apply Hcov. by right.
  - apply (preprocess_J G n p s s1 P1); try done. apply Hcov. by left.
Qed.
End Visit.

Definition unprocessed (s : apk_solver_state) : gset bytes := filter (fun n => processed s n = false) U.

Lemma unprocessed_mono s s' : cc s s' -> unprocessed s' ⊆ unprocessed s.
Proof.
  intros C n. unfold unprocessed. rewrite !elem_of_filter. intros [Hp Hn]. split; [|done].
  destruct (processed s n) eqn:E; [|done]. apply (cc_processed _ _ C) in E. congruence.
Qed.

(** The conditions under which a visit with [fuel] succeeds. *)
Record ready (fuel : nat) (s : apk_solver_state) : Prop := {
  r_inst : inst_known s;
  r_chosen : chosen_db s;
  r_fuel : (card (unprocessed s) + card P < fuel)%nat;
}.

Lemma ready_cc fuel s s' : cc s s' -> ready fuel s -> ready fuel s'.
Proof.
  intros C [A B D]. constructor.
  - intros n p. rewrite (cc_inst _ _ C). apply A.
  - intros n p v. rewrite (cc_chosen _ _ C). apply B.
  - pose proof (subseteq_size _ _ (unprocessed_mono _ _ C)). lia.
Qed.

Lemma ready_step fuel s s' : ready fuel s -> step s s' -> ready fuel s'.
Proof. intros Hr [C _]. by apply (ready_cc fuel s). Qed.

Section Calls.
(** A visit that succeeds. *)
Context (fuel : nat) (change : bytes -> apk_solver_state -> option apk_solver_state).
Context (Hchange : forall n s, n ∈ U -> ready fuel s ->
  exists s', change n s = Some s' /\ step s s' /\ processed s' n = true).

Lemma check_install_by_iif_total n s :
  n ∈ U -> ready fuel s -> exists s', cset_check_install_by_iif change n s = Some s' /\ step s s'.
Proof.
  intros Hn Hr. unfold cset_check_install_by_iif. destruct (prov_pkg (ns_chosen (nss s n))); [|by exists s].
  case_test; [by exists s|]. case_test; [|by exists s]. destruct (Hchange n s Hn Hr) as (s' & H1 & H2 & _). eauto.
Qed.

Lemma check_installs_total l s :
  Forall (fun n => n ∈ U) l -> ready fuel s -> exists s', for_eachM l (cset_check_install_by_iif change) s = Some s' /\ step s s'.
Proof.
  intros Hl Hr. apply (for_eachM_total step (ready fuel)); try apply _; [apply ready_step| |done].
  intros n s1 Hn H1. apply check_install_by_iif_total; [|done]. by apply (proj1 (list.Forall_forall _ _) Hl).
Qed.

Lemma check_install_by_reverse_iif_total pkg s :
  ready fuel s -> exists s', cset_check_by_reverse_iif db (Some pkg) (cset_check_install_by_iif change) s = Some s' /\ step s s'.
Proof.
  intros Hr. cbn [cset_check_by_reverse_iif]. apply (bindM_total step); [apply _| |intros s1 S1].
  - apply check_installs_total; [apply (u_rinstall_if _ _ _ Hu)|done].
  - apply (for_eachM_total step (ready fuel)); try apply _; [apply ready_step| |by apply (ready_step fuel s)].
    intros d s2 _ H2. apply check_installs_total; [apply (u_rinstall_if _ _ _ Hu)|done].
Qed.

(** Without errors the dependency is provided by the choice. *)
Lemma gen_dep_total ppkg d s :
  dep_name d ∈ U -> ready fuel s ->
  exists s', cset_gen_dep ignore_conflict change ppkg d s = Some s' /\ step s s' /\
    (err_ok s -> ss_errors s' = 0 -> satisfied s' ppkg d).
Proof.
  intros Hn Hr. unfold cset_gen_dep. destruct (apk_dep_conflict d && ignore_conflict) eqn:Ei.
  { exists s. split; [done|]. split; [done|]. intros _ _. by left. }
  set (s1 := if negb _ then mark_error ppkg s else s). assert (S1 : step s s1) by (unfold s1; case_test; [apply mark_error_step|done]).
  destruct (Hchange (dep_name d) s1 Hn (ready_step _ _ _ Hr S1)) as (s2 & H2 & S2 & P2). rewrite H2. cbn [mbind option_bind].
  set (s3 := match prov_pkg (ns_chosen (nss s (dep_name d))) with Some _ => _ | None => s2 end).
  assert (S3 : step s2 s3) by (unfold s3; destruct (prov_pkg _); [case_test; [apply mark_error_step|done]|done]).
  exists s3. split; [done|]. split; [etrans; [exact S1|by etrans]|]. intros He H0. right.
  split; [|by apply (cc_processed _ _ (proj1 S3))].
  pose proof (cc_errors _ _ (proj1 S2)) as L2. pose proof (cc_errors _ _ (proj1 S3)) as L3.
  assert (Hch : chosen s3 (dep_name d) = chosen s (dep_name d)).
  { by rewrite (cc_chosen _ _ (proj1 S3)), (cc_chosen _ _ (proj1 S2)), (cc_chosen _ _ (proj1 S1)). }
  rewrite Hch. destruct ppkg as [pp|]; [right|by left].
  destruct (apk_dep_is_provided (Some pp) d (Some (chosen s (dep_name d)))) eqn:Ep; [done|].
  exfalso. revert L2. unfold s1, chosen in *. rewrite Ep. cbn [negb]. pose proof (mark_error_counts pp s He). lia.
Qed.

Lemma gen_deps_total ppkg l s :
  Forall (fun d => dep_name d ∈ U) l -> ready fuel s ->
  exists s', for_eachM l (cset_gen_dep ignore_conflict change ppkg) s = Some s' /\ step s s' /\
    (err_ok s -> ss_errors s' = 0 -> forall d, d ∈ l -> satisfied s' ppkg d).
Proof.
  intros Hl. unfold for_eachM. revert s. induction Hl as [|d l Hd Hl IH]; intros s Hr; cbn [foldl].
  { exists s. split; [done|]. split; [done|]. intros _ _ d Hd. by apply elem_of_nil in Hd. }
  destruct (gen_dep_total ppkg d s Hd Hr) as (s1 & H1 & S1 & Q1). cbn [mbind option_bind]. rewrite H1.
  destruct (IH s1 (ready_step _ _ _ Hr S1)) as (s2 & H2 & S2 & Q2). exists s2. split; [done|]. split; [by etrans|].
  intros He H0 e Hin. pose proof (cc_err _ _ (proj1 S1) He) as He1. pose proof (cc_errors _ _ (proj1 S2)).
  apply elem_of_cons in Hin as [->|Hin]; [|by apply Q2]. apply (satisfied_cc s1); [apply S2|]. apply Q1; [done|].
  destruct He1. lia.
Qed.
End Calls.

(** Taking up a package. *)
Lemma J_enter G n p v s :
  J G (Some n) s -> chosen_db s -> chosen s n = Provider (Some p) v ->
  J (G ∪ {[pkg_addr p]}) None (upd_p p (set_ps_in_changeset true) s).
Proof.
  intros [J1 J2 J3 J4 J5] Hdb Hc. set (s' := upd_p p _ s).
  assert (Hin : forall q, in_cset s' q = (bool_decide (pkg_addr q = pkg_addr p) || in_cset s q)).
  { intros q. unfold in_cset, s'. rewrite pss_upd_p. by case_bool_decide. }
  constructor.
  - intros m q w Hq. rewrite Hin. case_bool_decide as E; cbn [orb]; [intros _; right; set_solver|].
    intros Hi. destruct (J1 m q w Hq Hi); [by left|right; set_solver].
  - intros m q w _ Hp Hq. destruct (decide (m = n)) as [->|Hm].
    + change (chosen s n = Provider (Some q) w) in Hq. rewrite Hc in Hq. injection Hq as <- <-. exists p.
      split; [by apply Hdb|]. split; [rewrite Hin; by rewrite bool_decide_eq_true_2|]. by exists n, v.
    + destruct (J2 m q w ltac:(congruence) Hp Hq) as (p' & A & B & D). exists p'. split; [done|]. split; [|done].
      rewrite Hin, B. apply orb_true_r.
  - intros q d H0 Hr Hd. exact (J3 q d H0 Hr Hd).
  - destruct J4 as [A B]. split; [done|]. intros q. unfold s'. rewrite pss_upd_p. case_bool_decide as E; [|apply B].
    cbn. apply (B p).
  - exact J5.
Qed.

(** Recording it. *)
Lemma J_record G p o s :
  J (G ∪ {[pkg_addr p]}) None s -> chosen_db s -> is_chosen s p ->
  (ss_errors s = 0 -> forall d, d ∈ depends p -> satisfied s (Some p) d) ->
  J G None (record_change db o (Some p) s).
Proof.
  intros [J1 J2 J3 J4 J5] Hdb Hch Hok. set (s' := record_change db o (Some p) s).
  assert (Hs : ss_names s' = ss_names s /\ ss_pkgs s' = ss_pkgs s /\ ss_errors s' = ss_errors s).
  { unfold s', record_change. destruct o; [|done]. by case_test. }
  destruct Hs as (Hn & Hp & He).
  assert (En : forall n, nss s' n = nss s n) by (intros n; unfold nss; by rewrite Hn).
  assert (Ep : forall q, pss s' q = pss s q) by (intros q; unfold pss; by rewrite Hp).
  assert (Hrec : forall q, recorded s' q <-> q = p \/ recorded s q).
  { intros q. unfold recorded. assert (Hc : exists c, new_pkg c = Some p /\ ss_changes s' = ss_changes s ++ [c]).
    { unfold s', record_change. destruct o; [case_test|]; by eexists (Change _ (Some p) _ _ _). }
    destruct Hc as (c & Hc & ->). setoid_rewrite elem_of_app. setoid_rewrite list_elem_of_singleton. split.
    - intros (c' & [Hin| ->] & Hq); [right; eauto|left; congruence].
    - intros [->|(c' & Hin & Hq)]; eauto. }
  assert (Hsat : forall q d, satisfied s (Some q) d -> satisfied s' (Some q) d) by (intros q d; unfold satisfied, chosen, processed; by rewrite En).
  constructor; unfold chosen, in_cset, processed, is_chosen, err_ok in *.
  - intros n q v. rewrite En, Ep, Hrec. intros Hq Hi. destruct (J1 n q v Hq Hi) as [Hr|Hr]; [left; by right|].
    apply elem_of_union in Hr as [Hr|Hr]; [by right|]. apply elem_of_singleton in Hr. left. left.
    destruct Hch as (m & w & Hm). apply isdb_addr; [exists n, v; by apply Hdb|exists m, w; by apply Hdb|done].
  - intros n q v Hx. rewrite En. intros Hpr Hq. destruct (J2 n q v Hx Hpr Hq) as (p' & A & B & (m & w & D)).
    exists p'. rewrite Ep. split; [done|]. split; [done|]. exists m, w. unfold chosen. by rewrite En.
  - intros q d. rewrite He, Hrec. intros H0 [->|Hr] Hd; apply Hsat; [by apply Hok|by apply J3].
  - rewrite He. split; [apply J4|]. intros q. rewrite Ep. apply J4.
  - intros q. rewrite Hrec. intros [->|Hr].
    + destruct Hch as (m & w & Hm). exists m, w. unfold chosen. by rewrite En.
    + destruct (J5 q Hr) as (m & w & Hm). exists m, w. unfold chosen. by rewrite En.
Qed.

Lemma record_cc o p s : cc s (record_change db o p s).
Proof.
  assert (Hs : ss_names (record_change db o p s) = ss_names s /\ ss_pkgs (record_change db o p s) = ss_pkgs s /\
    ss_errors (record_change db o p s) = ss_errors s /\ ss_wrapped (record_change db o p s) = ss_wrapped s).
  { unfold record_change. destruct o, p; try done. by case_test. }
  destruct Hs as (Hn & Hp & He & Hw).
  constructor; unfold chosen, inst_pkg, processed, in_cset, nss, pss, err_ok; rewrite ?Hn, ?Hp, ?He, ?Hw; try done.
  unfold pss. by rewrite Hp.
Qed.

Lemma enter_cc p s : cc s (upd_p p (set_ps_in_changeset true) s).
Proof.
  constructor; try done.
  - intros q. unfold in_cset. rewrite pss_upd_p. by case_bool_decide.
  - intros [A B]. split; [done|]. intros q. rewrite pss_upd_p. case_bool_decide; [apply (B p)|apply B].
Qed.

(** The part of a visit after the package was taken up. *)
Definition visit_package (change : bytes -> apk_solver_state -> option apk_solver_state)
    (remove : apk_package -> apk_solver_state -> option apk_solver_state) (pkg : apk_package) (s : apk_solver_state)
  : option apk_solver_state :=
  s ← cset_gen_name_preprocess db remove (pkg_nm pkg) s;
  s ← for_eachM (provides pkg) (fun d => cset_gen_name_preprocess db remove (dep_name d)) s;
  let opkg := ns_installed_pkg (nss s (pkg_nm pkg)) in
  s ← cset_check_by_reverse_iif db opkg (cset_check_removal_by_iif remove) s;
  s ← for_eachM (depends pkg) (cset_gen_dep ignore_conflict change (Some pkg)) s;
  let s := record_change db opkg (Some pkg) s in
  s ← cset_check_by_reverse_iif db (Some pkg) (cset_check_install_by_iif change) s;
  let s := cset_track_deps_added pkg s in
  match opkg with
  | Some opkg => cset_track_deps_removed remove opkg s
  | None => Some s
  end.

Lemma visit_package_total fuel change n v pkg s :
  (forall n s, n ∈ U -> ready fuel s -> exists s', change n s = Some s' /\ step s s' /\ processed s' n = true) ->
  ready fuel s -> chosen s n = Provider (Some pkg) v -> in_cset s pkg = true ->
  exists s', visit_package change (cset_gen_name_remove db fuel) pkg s = Some s' /\ cc s s' /\
    forall G, choice_ok s -> J (G ∪ {[pkg_addr pkg]}) None s -> J G None s'.
Proof.
  intros Hchange Hr Hc Hin. unfold visit_package.
  assert (HP : (card P < fuel)%nat) by (destruct Hr; lia).
  assert (Hdb : isdb pkg) by (exists n, v; by apply (r_chosen _ _ Hr)).
  pose proof (isdb_known _ Hdb) as Hk.
  destruct (preprocess_total fuel HP (pkg_nm pkg) s (r_inst _ _ Hr)) as (s1 & H1 & P1). rewrite H1. cbn [mbind option_bind].
  destruct (preprocess_cc _ _ _ P1) as [C1 _]. pose proof (ready_cc _ _ _ C1 Hr) as R1.
  destruct (preprocess_list fuel HP (map dep_name (provides pkg)) s1 (r_inst _ _ R1)) as (s2 & H2 & C2 & Q2).
  rewrite (for_eachM_map dep_name (cset_gen_name_preprocess db (cset_gen_name_remove db fuel))), H2. cbn [mbind option_bind].
  pose proof (ready_cc _ _ _ C2 R1) as R2. cbn zeta. set (opkg := ns_installed_pkg (nss s2 (pkg_nm pkg))).
  assert (Hrem : forall p s, isdb p -> inst_known s -> exists s', cset_gen_name_remove db fuel p s = Some s' /\ cr s s').
  { intros p s3 Hp Hi. by apply remove_total. }
  destruct (check_by_reverse_iif_total _ inst_known inst_known_keep ltac:(done) Hrem opkg s2 (r_inst _ _ R2)) as (s3 & H3 & C3).
  rewrite H3. cbn [mbind option_bind]. pose proof (cr_step _ _ C3) as S3. pose proof (ready_step _ _ _ R2 S3) as R3.
  destruct (gen_deps_total fuel change Hchange (Some pkg) (depends pkg) s3 (kn_depends _ _ _ Hk) R3) as (s4 & H4 & S4 & Q4).
  rewrite H4. cbn [mbind option_bind]. pose proof (ready_step _ _ _ R3 S4) as R4.
  set (s5 := record_change db opkg (Some pkg) s4). pose proof (ready_cc _ _ _ (record_cc opkg (Some pkg) s4) R4) as R5. fold s5 in R5.
  destruct (check_install_by_reverse_iif_total fuel change Hchange pkg s5 R5) as (s6 & H6 & S6). rewrite H6. cbn [mbind option_bind].
  pose proof (cr_step _ _ (cr_track_deps_added pkg s6)) as S7. set (s7 := cset_track_deps_added pkg s6) in *.
  pose proof (ready_step _ _ _ (ready_step _ _ _ R5 S6) S7) as R7.
  assert (Hlast : exists s8, (match opkg with Some o => cset_track_deps_removed (cset_gen_name_remove db fuel) o s7 | None => Some s7 end) = Some s8 /\ step s7 s8).
  { destruct opkg as [o|]; [|by exists s7].
    destruct (track_deps_removed_total _ inst_known inst_known_keep ltac:(done) Hrem o s7 (r_inst _ _ R7)) as (s8 & H8 & C8).
    exists s8. split; [done|by apply cr_step]. }
  destruct Hlast as (s8 & H8 & S8). exists s8. split; [exact H8|].
  assert (C14 : cc s s4) by (etrans; [exact C1|]; etrans; [exact C2|]; etrans; [apply S3|apply S4]).
  split. { etrans; [exact C14|]. etrans; [apply record_cc|]. etrans; [apply S6|]. etrans; [apply S7|apply S8]. }
  intros G Hok HJ. set (G' := G ∪ {[pkg_addr pkg]}) in *.
  assert (Hch : forall s', cc s s' -> is_chosen s' pkg) by (intros s' C; exists n, v; by rewrite (cc_chosen _ _ C)).
  assert (J1 : J G' None s1).
  { apply (preprocess_J G' (pkg_nm pkg) pkg s s1 P1); try done; [by exists n, v|by apply (covers_own s pkg n v)]. }
  assert (Hok1 : choice_ok s1) by (by apply (choice_ok_cc s)).
  assert (J2 : J G' None s2).
  { apply (Q2 G' pkg); try done; [by apply Hch|by apply (cc_in _ _ C1)|].
    intros m Hm. apply list_elem_of_fmap in Hm as (d & -> & Hd). apply (covers_provides s1 pkg n v d Hok1); [|done].
    by rewrite (cc_chosen _ _ C1). }
  assert (J3 : J G' None s3) by (apply S3; [by apply (choice_ok_cc s1)|done]).
  assert (Hok3 : choice_ok s3) by (apply (choice_ok_cc s); [etrans; [exact C1|]; etrans; [exact C2|apply S3]|done]).
  assert (J4 : J G' None s4) by (by apply S4).
  assert (J5 : J G None s5).
  { apply J_record; [done|apply R4|by apply Hch|]. intros H0. by apply (Q4 (j_err _ _ _ J3)). }
  assert (Hok5 : choice_ok s5) by (apply (choice_ok_cc s); [etrans; [exact C14|apply record_cc]|done]).
  assert (J6 : J G None s6) by (by apply S6). assert (Hok6 : choice_ok s6) by (apply (choice_ok_cc s5); [apply S6|done]).
  assert (J7 : J G None s7) by (by apply S7). apply S8; [|done]. apply (choice_ok_cc s6); [apply S7|done].
Qed.

Lemma cset_gen_name_change_total fuel : forall n s,
  n ∈ U -> ready fuel s ->
  exists s', cset_gen_name_change db ignore_conflict fuel n s = Some s' /\ step s s' /\ processed s' n = true.
Proof.
  induction fuel as [|fuel IH]; intros n s Hn Hr; [destruct Hr; lia|]. cbn [cset_gen_name_change].
  fold (processed s n). destruct (processed s n) eqn:Ep; [by exists s|]. cbn zeta.
  destruct (decide (card P < fuel)%nat) as [HP|HP].
  2: { exfalso. assert (0 < card (unprocessed s))%nat; [|destruct Hr; lia].
       assert (Hin : n ∈ unprocessed s) by (by apply elem_of_filter). apply (non_empty_inhabited_L n) in Hin.
       apply set_size_pos in Hin || (destruct (card (unprocessed s)) eqn:E0; [apply size_empty_inv in E0; set_solver|lia]). }
  destruct (preprocess_total fuel HP n s (r_inst _ _ Hr)) as (s1 & H1 & P1). rewrite H1. cbn [mbind option_bind].
  destruct (preprocess_cc _ _ _ P1) as [C1 Hp1].
  destruct P1 as [[E _]|[_ D1]]; [congruence|].
  assert (R1 : ready fuel s1).
  { pose proof (ready_cc _ _ _ C1 Hr) as [A B D]. constructor; [done|done|].
    assert (card (unprocessed s1) < card (unprocessed s))%nat; [|destruct Hr; lia].
    apply subset_size, (strict_spec_alt (R := (⊆))). split; [by apply unprocessed_mono|]. intros E.
    assert (Hin : n ∈ unprocessed s) by (by apply elem_of_filter). rewrite <- E in Hin.
    apply elem_of_filter in Hin as [Hx _]. congruence. }
  assert (Hm : forall G, choice_ok s -> J G None s -> J G (Some n) s1 /\ choice_ok s1).
  { intros G Hok HJ. split; [|by apply (choice_ok_cc s)]. apply (J_cr G (Some n) (mark_processed n s)); [|done|by apply J_mark].
    apply (choice_ok_cc s); [apply mark_cc|done]. }
  destruct (ns_chosen (nss s1 n)) as [[pkg|] v] eqn:Ec; cbn [prov_pkg].
  2: { exists s1. split; [done|]. split; [|done]. split; [done|]. intros G Hok HJ. apply (J_unmark G n); [by apply Hm|].
       intros p w Hx. unfold chosen in Hx. congruence. }
  fold (in_cset s1 pkg). destruct (in_cset s1 pkg) eqn:Ein.
  { exists s1. split; [done|]. split; [|done]. split; [done|]. intros G Hok HJ. destruct (Hm G Hok HJ) as [HJ1 Hok1].
    apply (J_unmark G n); [done|]. intros p w Hx. unfold chosen in Hx. rewrite Ec in Hx. injection Hx as <- <-. exists pkg.
    split; [by apply (r_chosen _ _ R1)|]. split; [done|]. by exists n, v. }
  set (s2 := upd_p pkg (set_ps_in_changeset true) s1). pose proof (enter_cc pkg s1) as C2. fold s2 in C2.
  assert (Hin2 : in_cset s2 pkg = true) by (unfold in_cset, s2; rewrite pss_upd_p; by rewrite bool_decide_eq_true_2).
  destruct (visit_package_total fuel (cset_gen_name_change db ignore_conflict fuel) n v pkg s2 IH (ready_cc _ _ _ C2 R1) Ec Hin2)
    as (s3 & H3 & C3 & Q3).
  exists s3. split; [exact H3|]. assert (C : cc s s3) by (etrans; [exact C1|]; by etrans).
  split; [|by apply (cc_processed _ _ C3), (cc_processed _ _ C2)]. split; [exact C|]. intros G Hok HJ.
  destruct (Hm G Hok HJ) as [HJ1 Hok1]. apply Q3; [by apply (choice_ok_cc s1)|]. by apply (J_enter G n pkg v s1); [|apply R1|].
Qed.
(** ** The whole change set *)

(** What clearing the counts and listing the installed packages keeps. *)
Record quiet (s s' : apk_solver_state) : Prop := {
  q_chosen n : chosen s' n = chosen s n;
  q_processed n : processed s' n = processed s n;
  q_pkgs : ss_pkgs s' = ss_pkgs s;
  q_errors : ss_errors s' = ss_errors s;
  q_wrapped : ss_wrapped s' = ss_wrapped s;
  q_changes : ss_changes s' = ss_changes s;
  q_inst : inst_known s -> inst_known s';
}.

#[global] Instance quiet_refl : Reflexive quiet.
Proof. by constructor. Qed.

#[global] Instance quiet_trans : Transitive quiet.
Proof.
  intros s1 s2 s3 A B. constructor; intros.
  - by rewrite (q_chosen _ _ B), (q_chosen _ _ A).
  - by rewrite (q_processed _ _ B), (q_processed _ _ A).
  - by rewrite (q_pkgs _ _ B), (q_pkgs _ _ A).
  - by rewrite (q_errors _ _ B), (q_errors _ _ A).
  - by rewrite (q_wrapped _ _ B), (q_wrapped _ _ A).
  - by rewrite (q_changes _ _ B), (q_changes _ _ A).
  - by apply (q_inst _ _ B), (q_inst _ _ A).
Qed.

Lemma quiet_for_each {A} (l : list A) f s : (forall x s, x ∈ l -> quiet s (f x s)) -> quiet s (for_each l f s).
Proof.
  unfold for_each. revert s. induction l as [|x l IH]; intros s Hf; cbn [foldl]; [done|].
  etrans; [apply (Hf x); by left|]. apply IH. intros y s' Hy. apply Hf. by right.
Qed.

Lemma quiet_upd_n n f s :
  (forall x, ns_chosen (f x) = ns_chosen x /\ ns_changeset_processed (f x) = ns_changeset_processed x /\
     (ns_installed_pkg (f x) = ns_installed_pkg x \/ exists p, ns_installed_pkg (f x) = Some p /\ isdb p)) -> quiet s (upd_n n f s).
Proof.
  intros Hf. constructor; try done.
  - intros m. unfold chosen. rewrite nss_upd_n. case_bool_decide as E; [subst m; apply Hf|done].
  - intros m. unfold processed. rewrite nss_upd_n. case_bool_decide as E; [subst m; apply Hf|done].
  - intros Hk m p. unfold inst_pkg. rewrite nss_upd_n. case_bool_decide as E; [subst m|apply Hk].
    destruct (Hf (nss s n)) as (_ & _ & [->|(q & -> & Hq)]); [apply Hk|]. by intros [= <-].
Qed.

Lemma reset_nss s n :
  nss (set_ss_names (cset_reset_name <$> ss_names s) (set_ss_changes [] s)) n = cset_reset_name (nss s n).
Proof. unfold nss. cbn [ss_names set_ss_names]. rewrite lookup_fmap. by destruct (ss_names s !! n). Qed.

(** The state before the first visit: the installed packages known, nothing visited. *)
Lemma installed_quiet s :
  quiet s (for_each (db_installed db) (fun pkg s =>
             let s := upd_n (pkg_nm pkg) (fun n => set_ns_installed_name (Some (pkg_nm pkg)) (set_ns_installed_pkg (Some pkg) n)) s in
             for_each (provides pkg) (fun d s =>
               if negb (null_version (dep_version d)) then upd_n (dep_name d) (set_ns_installed_name (Some (pkg_nm pkg))) s
               else s) s) s).
Proof.
  apply quiet_for_each. intros pkg s' Hp. cbn zeta. pose proof (w_installed _ Hwf pkg Hp) as Hin.
  etrans; [apply quiet_upd_n|apply quiet_for_each].
  - intros x. split; [done|]. split; [done|]. right. exists pkg. split; [done|]. by exists (pkg_nm pkg), (pkg_ver pkg).
  - intros d s2 _. case_test; [|done]. apply quiet_upd_n. intros x. by repeat (split; [done|]); left.
Qed.

(** Clearing the counts, then listing and counting what is installed. *)
Definition cset_start (s : apk_solver_state) : apk_solver_state :=
  let s := set_ss_names (cset_reset_name <$> ss_names s) (set_ss_changes [] s) in
  let s := for_each (db_installed db) (fun pkg s =>
             let s := upd_n (pkg_nm pkg) (fun n => set_ns_installed_name (Some (pkg_nm pkg)) (set_ns_installed_pkg (Some pkg) n)) s in
             for_each (provides pkg) (fun d s =>
               if negb (null_version (dep_version d)) then upd_n (dep_name d) (set_ns_installed_name (Some (pkg_nm pkg))) s
               else s) s) s in
  for_each (db_installed db) cset_track_deps_added s.

Record prepared (s s' : apk_solver_state) : Prop := {
  t_chosen n : chosen s' n = chosen s n;
  t_errors : ss_errors s' = ss_errors s;
  t_wrapped : ss_wrapped s' = ss_wrapped s;
  t_inst : inst_known s';
  t_J : choice_ok s -> J ∅ None s';
  t_ok : choice_ok s -> choice_ok s';
}.

Lemma cset_start_prepared s :
  err_ok s -> (forall n, processed s n = false) -> (forall p, in_cset s p = false) -> prepared s (cset_start s).
Proof.
  intros Herr Hproc Hin. unfold cset_start. cbn zeta. set (s1 := set_ss_names _ _). set (s2 := for_each (db_installed db) _ s1).
  assert (Q2 : quiet s1 s2) by apply installed_quiet.
  set (s3 := for_each (db_installed db) cset_track_deps_added s2).
  assert (C3 : cr s2 s3).
  { unfold s3, for_each. generalize (db_installed db) as l. intros l. generalize s2. induction l as [|p l IH]; intros s4; cbn [foldl]; [done|].
    etrans; [apply cr_track_deps_added|apply IH]. }
  assert (N1 : forall n, nss s1 n = cset_reset_name (nss s n)) by apply reset_nss.
  assert (Hch2 : forall n, chosen s2 n = chosen s n).
  { intros n. rewrite (q_chosen _ _ Q2). unfold chosen. by rewrite N1. }
  assert (Hik2 : inst_known s2) by (apply (q_inst _ _ Q2); intros n p; unfold inst_pkg; by rewrite N1).
  assert (Hp2 : forall p, pss s2 p = pss s p) by (intros p; unfold pss; by rewrite (q_pkgs _ _ Q2)).
  assert (Hok2 : choice_ok s -> choice_ok s2).
  { intros [A B]. split; [intros n p v; rewrite Hch2; apply A|]. intros n p v. rewrite !Hch2. intros Hc.
    destruct (B n p v Hc) as [B1 B2]. split; [done|]. intros d Hd. rewrite Hch2. by apply B2. }
  assert (J2 : J ∅ None s2).
  { assert (Hrec : forall p, ~ recorded s2 p).
    { intros p (c & Hc & _). rewrite (q_changes _ _ Q2) in Hc. by apply elem_of_nil in Hc. }
    constructor.
    - intros n p v _. unfold in_cset. rewrite Hp2. fold (in_cset s p). by rewrite Hin.
    - intros n p v _. rewrite (q_processed _ _ Q2). unfold processed. rewrite N1.
      change (ns_changeset_processed _) with (processed s n). by rewrite Hproc.
    - intros p d _ Hr. by apply Hrec in Hr.
    - unfold err_ok. rewrite (q_errors _ _ Q2). split; [apply Herr|]. intros p. rewrite Hp2. apply Herr.
    - intros p Hr. by apply Hrec in Hr. }
  constructor.
  - intros n. by rewrite (cr_chosen _ _ C3).
  - rewrite (cr_errors _ _ C3). apply Q2.
  - rewrite (cr_wrapped _ _ C3). apply Q2.
  - by apply (inst_known_cr s2).
  - intros Hok. by apply (J_cr _ _ s2); [apply Hok2| |].
  - intros Hok. apply (choice_ok_cc s2); [by apply cr_cc|by apply Hok2].
Qed.

Lemma generate_changeset_total fuel world s :
  Forall (fun d => dep_name d ∈ U) world -> chosen_db s -> err_ok s ->
  (forall n, processed s n = false) -> (forall p, in_cset s p = false) -> (card U + card P < fuel)%nat ->
  exists s', generate_changeset db ignore_conflict fuel world s = Some s' /\
    (forall n, chosen s' n = chosen s n) /\ ss_errors s <= ss_errors s' /\ ss_wrapped s' = ss_wrapped s /\
    (choice_ok s -> J ∅ None s' /\ (ss_errors s' = 0 -> forall d, d ∈ world -> satisfied s' None d)).
Proof.
  intros Hworld Hdb Herr Hproc Hin Hfuel. unfold generate_changeset. cbn zeta.
  destruct (cset_start_prepared s Herr Hproc Hin) as [T1 T2 T3 T4 T5 T6]. fold (cset_start s). set (s3 := cset_start s) in *. clearbody s3.
  assert (Hrdy : forall s', cc s3 s' -> ready fuel s').
  { intros s' C. apply (ready_cc fuel s3 s' C). constructor; [done|intros n p v; rewrite T1; apply Hdb|].
    assert (card (unprocessed s3) <= card U)%nat; [|lia]. apply subseteq_size. intros n. unfold unprocessed. rewrite elem_of_filter. tauto. }
  assert (Hinst : forall p, p ∈ db_installed db -> isdb p).
  { intros p Hp. exists (pkg_nm p), (pkg_ver p). by apply (w_installed _ Hwf). }
  destruct (for_eachM_total cr inst_known (db_installed db) (cset_check_removal_by_deps (cset_gen_name_remove db fuel)) s3)
    as (s4 & H4 & C4); try apply _; [by intros; eapply inst_known_cr| |done|].
  { intros p s4 Hp H4. apply (check_removal_by_deps_total _ inst_known); [|by apply Hinst|done].
    intros q s5. apply remove_total. lia. }
  pose proof (cset_gen_name_change_total fuel) as Hchange. pose proof (cr_cc _ _ C4) as C34.
  destruct (gen_deps_total fuel (cset_gen_name_change db ignore_conflict fuel) Hchange None world s4 Hworld (Hrdy s4 C34)) as (s5 & H5 & S5 & Q5).
  assert (C35 : cc s3 s5) by (etrans; [exact C34|apply S5]).
  destruct (for_eachM_total step (ready fuel) (db_installed db) (fun pkg => cset_gen_name_change db ignore_conflict fuel (pkg_nm pkg)) s5)
    as (s6 & H6 & S6); try apply _; [apply ready_step| |by apply Hrdy|].
  { intros p s6 Hp H6. destruct (Hchange (pkg_nm p) s6) as (s7 & H7 & S7 & _); [|done|by exists s7].
    apply (isdb_known p), Hinst, Hp. }
  exists s6. rewrite H4. cbn [mbind option_bind]. rewrite H5. cbn [mbind option_bind]. split; [exact H6|].
  assert (C36 : cc s3 s6) by (etrans; [exact C35|apply S6]).
  split; [intros n; by rewrite (cc_chosen _ _ C36)|]. split; [rewrite <- T2; apply C36|].
  split; [by rewrite (cc_wrapped _ _ C36)|]. intros Hok. specialize (T5 Hok). specialize (T6 Hok).
  assert (J4 : J ∅ None s4) by (by apply (J_cr _ _ s3)).
  assert (J5 : J ∅ None s5) by (apply S5; [by apply (choice_ok_cc s3)|done]).
  split; [apply S6; [by apply (choice_ok_cc s3)|done]|]. intros H0 d Hd. apply (satisfied_cc s5); [apply S6|].
  apply Q5; [apply J4| |done]. pose proof (cc_errors _ _ (proj1 S6)). destruct (j_err _ _ _ J5). lia.
Qed.
End Cset.
