(* ===== verification/SolverPlan.v ===== *)
(** What the change set is about: it accounts for every installed package exactly once, and for every package that will
    be installed exactly once (solver.c, the functions that generate the change set). *)
From Stdlib Require Import ZArith Lia.
From stdpp Require Import base numbers list option gmap.
From S2P Require Import Prelude Clib Blob Version Dep Package SolverState Solver SolverInv SolverLoop SolverSound SolverStart SolverCset.

(** The package that a change is recorded for. *)
Definition subject (c : apk_change) : option apk_package := match new_pkg c with Some p => Some p | None => old_pkg c end.
Definition subjects (l : list apk_change) : list Z := pkg_addr <$> omap subject l.

Lemma subjects_app l1 l2 : subjects (l1 ++ l2) = subjects l1 ++ subjects l2.
Proof. unfold subjects. by rewrite omap_app, fmap_app. Qed.
Lemma elem_of_subjects a l : a ∈ subjects l <-> exists c p, c ∈ l /\ subject c = Some p /\ pkg_addr p = a.
Proof.
  unfold subjects. rewrite list_elem_of_fmap. split.
  - intros (p & -> & Hp). apply list_elem_of_omap in Hp as (c & Hc & Hs). by exists c, p.
  - intros (c & p & Hc & Hs & <-). exists p. split; [done|]. apply list_elem_of_omap. by exists c.
Qed.

Section Plan.
Context `{UndefChecksum}.
Context (db : apk_database) (ignore_conflict : bool).
Context (Hwf : db_wf db).
(** No two installed packages have the same name. *)
Context (Hnames : NoDup (pkg_nm <$> db_installed db)).

(** A package of this name was chosen for it. *)
Definition holds (s : apk_solver_state) (n : bytes) : bool :=
  match prov_pkg (chosen s n) with Some c => bool_decide (pkg_nm c = n) | None => false end.

(** A change installs a chosen package in the place of the installed package of that name, or it removes an installed
    package whose name is not chosen. *)
Definition change_ok (s : apk_solver_state) (c : apk_change) : Prop :=
  match new_pkg c with
  | Some p => is_chosen s p /\ old_pkg c = inst_pkg s (pkg_nm p)
  | None => exists q, old_pkg c = Some q /\ inst_pkg s (pkg_nm q) = Some q /\ holds s (pkg_nm q) = false
  end.

(** A step that appends the changes [l]: they are for the packages that it marks, and the installed packages whose names
    it visits are marked unless their name is held. *)
Record adds (s s' : apk_solver_state) (l : list apk_change) : Prop := {
  ad_chosen n : chosen s' n = chosen s n;
  ad_inst n : inst_pkg s' n = inst_pkg s n;
  ad_proc n : processed s n = true -> processed s' n = true;
  ad_changes : ss_changes s' = ss_changes s ++ l;
  ad_ok : Forall (change_ok s) l;
  ad_in p : in_cset s' p = in_cset s p || bool_decide (pkg_addr p ∈ subjects l);
  ad_once : NoDup (subjects l);
  ad_fresh p : pkg_addr p ∈ subjects l -> in_cset s p = false;
  ad_cover n q : processed s' n = true -> processed s n = false -> inst_pkg s n = Some q -> holds s n = false -> in_cset s' q = true;
}.
Definition ext (s s' : apk_solver_state) : Prop := exists l, adds s s' l.

Lemma holds_same s s' n : chosen s' n = chosen s n -> holds s' n = holds s n.
Proof. unfold holds. by intros ->. Qed.
Lemma change_ok_same s s' c : (forall n, chosen s' n = chosen s n) -> (forall n, inst_pkg s' n = inst_pkg s n) -> change_ok s c -> change_ok s' c.
Proof.
  intros Hc Hi. unfold change_ok. destruct (new_pkg c) as [p|].
  - intros [(n & v & Hn) Ho]. split; [exists n, v; by rewrite Hc|by rewrite Hi].
  - intros (q & Hq & Hs & Hh). exists q. split; [done|]. rewrite Hi. split; [done|]. by rewrite (holds_same s).
Qed.

Lemma adds_trans s1 s2 s3 l1 l2 : adds s1 s2 l1 -> adds s2 s3 l2 -> adds s1 s3 (l1 ++ l2).
Proof.
  intros A B. constructor.
  - intros n. by rewrite (ad_chosen _ _ _ B), (ad_chosen _ _ _ A).
  - intros n. by rewrite (ad_inst _ _ _ B), (ad_inst _ _ _ A).
  - intros n Hn. by apply (ad_proc _ _ _ B), (ad_proc _ _ _ A).
  - by rewrite (ad_changes _ _ _ B), (ad_changes _ _ _ A), app_assoc.
  - apply Forall_app. split; [apply A|]. eapply Forall_impl; [apply B|]. intros c. apply change_ok_same; intros n; symmetry; apply A.
  - intros p. rewrite (ad_in _ _ _ B), (ad_in _ _ _ A), subjects_app, <- orb_assoc. f_equal. apply eq_true_iff_eq.
    rewrite orb_true_iff, !bool_decide_eq_true, elem_of_app. done.
  - rewrite subjects_app. apply NoDup_app. split; [apply A|]. split; [|apply B]. intros a H1 H2.
    pose proof H1 as (c & p & _ & _ & <-)%elem_of_subjects. pose proof (ad_fresh _ _ _ B p H2) as Hf.
    rewrite (ad_in _ _ _ A), bool_decide_eq_true_2, orb_true_r in Hf by done. done.
  - intros p. rewrite subjects_app, elem_of_app. intros [Hp|Hp]; [by apply (ad_fresh _ _ _ A)|].
    pose proof (ad_fresh _ _ _ B p Hp) as Hf. rewrite (ad_in _ _ _ A) in Hf. by apply orb_false_iff in Hf as [? _].
  - intros n q H3 H1 Hi Hh. destruct (processed s2 n) eqn:E2.
    + rewrite (ad_in _ _ _ B). rewrite (ad_cover _ _ _ A n q); done.
    + apply (ad_cover _ _ _ B n q); [done|done|by rewrite (ad_inst _ _ _ A)|]. by rewrite (holds_same s1) by apply A.
Qed.

(** Steps that change neither marks nor changes. *)
Record still (s s' : apk_solver_state) : Prop := {
  sl_chosen n : chosen s' n = chosen s n;
  sl_inst n : inst_pkg s' n = inst_pkg s n;
  sl_proc n : processed s' n = processed s n;
  sl_in p : in_cset s' p = in_cset s p;
  sl_changes : ss_changes s' = ss_changes s;
}.

Lemma still_adds s s' : still s s' -> adds s s' [].
Proof.
  intros [A B C D E]. constructor; try done.
  - intros n. by rewrite C.
  - by rewrite app_nil_r.
  - intros p. rewrite D. cbn. by rewrite orb_false_r.
  - constructor.
  - intros p Hp. by apply elem_of_nil in Hp.
  - intros n q. rewrite C. congruence.
Qed.

#[local] Instance ext_refl : Reflexive ext.
Proof. intros s. exists []. by apply still_adds. Qed.
#[local] Instance ext_trans : Transitive ext.
Proof. intros s1 s2 s3 [l1 A] [l2 B]. exists (l1 ++ l2). by apply (adds_trans _ s2). Qed.

Lemma still_ext s s' : still s s' -> ext s s'.
Proof. intros. exists []. by apply still_adds. Qed.

Lemma still_upd_n n f s :
  (forall x, ns_chosen (f x) = ns_chosen x /\ ns_changeset_processed (f x) = ns_changeset_processed x /\
     ns_installed_pkg (f x) = ns_installed_pkg x) -> still s (upd_n n f s).
Proof.
  intros Hf. assert (Hx : forall m, chosen (upd_n n f s) m = chosen s m /\ processed (upd_n n f s) m = processed s m /\
    inst_pkg (upd_n n f s) m = inst_pkg s m).
  { intros m. unfold chosen, processed, inst_pkg. rewrite nss_upd_n. case_bool_decide as E; [subst m; apply Hf|done]. }
  constructor; try (intros; apply Hx); done.
Qed.

Lemma still_mark_error p s : still s (mark_error p s).
Proof.
  constructor.
  - intros n. unfold chosen. by rewrite mark_error_nss.
  - intros n. unfold inst_pkg. by rewrite mark_error_nss.
  - intros n. unfold processed. by rewrite mark_error_nss.
  - intros q. apply mark_error_in.
  - apply mark_error_changes.
Qed.

Lemma ext_track_added pkg s : ext s (cset_track_deps_added pkg s).
Proof.
  unfold cset_track_deps_added, for_each. generalize (depends pkg) as l. intros l. revert s.
  induction l as [|d l IH]; intros s; cbn [foldl]; [done|]. etrans; [|apply IH]. destruct (tracked_name s d); [|done].
  by apply still_ext, still_upd_n.
Qed.

(** The installed package of a name. *)
Definition base (s : apk_solver_state) : Prop :=
  forall n q, inst_pkg s n = Some q <-> q ∈ db_installed db /\ pkg_nm q = n.
Definition mine (s : apk_solver_state) (p : apk_package) : Prop := inst_pkg s (pkg_nm p) = Some p.

Lemma base_ext s s' : ext s s' -> base s -> base s'.
Proof. intros [l A] Hb n q. rewrite (ad_inst _ _ _ A). apply Hb. Qed.
Lemma mine_ext s s' p : ext s s' -> mine s p -> mine s' p.
Proof. intros [l A]. unfold mine. by rewrite (ad_inst _ _ _ A). Qed.
Lemma mine_inst s n q : base s -> inst_pkg s n = Some q -> mine s q.
Proof. intros Hb Hq. unfold mine. apply Hb in Hq as Hn. destruct Hn as [_ ->]. done. Qed.
Lemma in_ext s s' p : ext s s' -> in_cset s p = true -> in_cset s' p = true.
Proof. intros [l A] Hp. rewrite (ad_in _ _ _ A), Hp. done. Qed.
Lemma holds_ext s s' n : ext s s' -> holds s' n = holds s n.
Proof. intros [l A]. apply holds_same, A. Qed.

Lemma ext_for_eachM {A} (l : list A) f s s' :
  (forall x s s', x ∈ l -> base s -> f x s = Some s' -> ext s s') -> base s -> for_eachM l f s = Some s' -> ext s s'.
Proof.
  unfold for_eachM. revert s. induction l as [|x l IH]; intros s Hf Hb; cbn [foldl]; [by intros [= <-]|]. cbn [mbind option_bind].
  destruct (f x s) as [s1|] eqn:E.
  - intros Hl. assert (E1 : ext s s1) by (apply (Hf x); [by left|done|done]). etrans; [exact E1|].
    apply IH; [|by apply (base_ext s)|done]. intros y s2 s3 Hy. apply Hf. by right.
  - intros Hl. exfalso. clear -Hl. induction l as [|y l IH]; [done|]. by apply IH.
Qed.

(** ** Removals *)

Section Helpers.
Context (rm : apk_package -> apk_solver_state -> option apk_solver_state).
Context (Hrm : forall p s s', base s -> mine s p -> rm p s = Some s' -> ext s s').

Lemma track_removed_ext pkg s s' : base s -> cset_track_deps_removed rm pkg s = Some s' -> ext s s'.
Proof.
  apply ext_for_eachM. intros d s1 s2 _ Hb. destruct (tracked_name s1 d) as [n|]; [|by intros [= <-]]. cbn zeta.
  set (s3 := upd_n n (set_ns_requirers _) s1). assert (E3 : ext s1 s3) by (by apply still_ext, still_upd_n).
  case_test; [by intros [= <-]|]. destruct (ns_installed_pkg (nss s3 (dep_name d))) as [q|] eqn:Eq; [|by intros [= <-]].
  intros Hq. pose proof (base_ext _ _ E3 Hb) as Hb3. etrans; [exact E3|]. apply (Hrm q s3 s2 Hb3); [|done].
  by apply (mine_inst s3 (dep_name d)).
Qed.

Lemma removal_by_deps_ext pkg s s' : base s -> mine s pkg -> cset_check_removal_by_deps rm pkg s = Some s' -> ext s s'.
Proof. intros Hb Hm. unfold cset_check_removal_by_deps. case_test; [by apply Hrm|by intros [= <-]]. Qed.

Lemma removal_by_iif_ext n s s' : base s -> cset_check_removal_by_iif rm n s = Some s' -> ext s s'.
Proof.
  intros Hb. unfold cset_check_removal_by_iif. destruct (ns_installed_pkg (nss s n)) as [q|] eqn:Eq; [|by intros [= <-]].
  destruct (prov_pkg _); [by intros [= <-]|]. case_test; [by intros [= <-]|]. case_test; [|by intros [= <-]].
  apply removal_by_deps_ext; [done|]. by apply (mine_inst s n).
Qed.

Lemma reverse_mine pkg names p s : base s -> p ∈ reverse_dependencies db pkg names -> mine s p.
Proof.
  intros Hb Hp. pose proof (reverse_dependencies_known db pkg names p Hp) as Hk. apply Hb. split; [|done]. destruct Hk as (m & w & Hk). apply (w_listed _ Hwf m (p, w) Hk). cbn [fst]. clear Hk m w.
  revert Hp. unfold reverse_dependencies. rewrite list_elem_of_bind. intros (n & Hp & _). apply list_elem_of_bind in Hp as ([q v] & Hp & Hq).
  cbn [fst] in Hp. destruct (installed q) eqn:Ei; cbn [negb] in Hp; [|by apply elem_of_nil in Hp].
  apply list_elem_of_bind in Hp as (d & Hp & _). case_test; [|by apply elem_of_nil in Hp]. by apply list_elem_of_singleton in Hp as ->.
Qed.
End Helpers.

Lemma reverse_iif_ext pkg cb s s' :
  (forall n s s', base s -> cb n s = Some s' -> ext s s') -> base s -> cset_check_by_reverse_iif db pkg cb s = Some s' -> ext s s'.
Proof.
  intros Hcb Hb. destruct pkg as [pkg|]; cbn [cset_check_by_reverse_iif]; [|by intros [= <-]].
  destruct (for_eachM (rinstall_if db (pkg_nm pkg)) cb s) as [s1|] eqn:E1; [|done]. cbn [mbind option_bind]. intros E2.
  apply ext_for_eachM in E1; [|by intros; eapply Hcb|done]. etrans; [exact E1|]. revert E2. apply ext_for_eachM; [|by apply (base_ext s)].
  intros d s2 s3 _ H2. apply ext_for_eachM; [by intros; eapply Hcb|done].
Qed.

(** A package is marked, other changes are made, and then its own is recorded. *)
Definition marked (p : apk_package) (s s' : apk_solver_state) : Prop := exists s0, still s s0 /\ s' = upd_p p (set_ps_in_changeset true) s0.

Lemma marked_in p s s' q : marked p s s' -> in_cset s' q = bool_decide (pkg_addr q = pkg_addr p) || in_cset s q.
Proof. intros (s0 & S & ->). unfold in_cset at 1. rewrite pss_upd_p. case_bool_decide; [done|]. apply (sl_in _ _ S). Qed.

Lemma record_still o n s : (forall m, nss (record_change db o n s) m = nss s m) /\ (forall q, pss (record_change db o n s) q = pss s q) /\
  exists c, ss_changes (record_change db o n s) = ss_changes s ++ [c] /\ old_pkg c = o /\ new_pkg c = n.
Proof.
  unfold record_change. destruct o as [o|], n as [n|]; cbn zeta; [case_test| | |]; (split; [done|]); (split; [done|]); by eexists (Change _ _ _ _ _).
Qed.

Lemma record_adds o n p s s1 s2 l :
  marked p s s1 -> in_cset s p = false -> adds s1 s2 l -> subject (Change o n 0 0 false) = Some p -> change_ok s (Change o n 0 0 false) ->
  exists c, adds s (record_change db o n s2) (l ++ [c]).
Proof.
  intros Hm Hin A Hs Hok. destruct (record_still o n s2) as (Rn & Rp & c & Rc & Ro & Rw). exists c.
  pose proof Hm as (s0 & S & Es1).
  assert (Hch : forall m, chosen s1 m = chosen s m) by (intros m; rewrite Es1; apply (sl_chosen _ _ S m)).
  assert (Hii : forall m, inst_pkg s1 m = inst_pkg s m) by (intros m; rewrite Es1; apply (sl_inst _ _ S m)).
  assert (Hpp : forall m, processed s1 m = processed s m) by (intros m; rewrite Es1; apply (sl_proc _ _ S m)).
  assert (Hcc : ss_changes s1 = ss_changes s) by (rewrite Es1; apply (sl_changes _ _ S)).
  assert (Hsub : subject c = Some p) by (unfold subject in *; rewrite Ro, Rw; exact Hs).
  assert (Hsl : subjects (l ++ [c]) = subjects l ++ [pkg_addr p]) by (rewrite subjects_app; unfold subjects at 2; cbn; by rewrite Hsub).
  assert (Hnp : pkg_addr p ∉ subjects l).
  { intros Hp. pose proof (ad_fresh _ _ _ A p Hp) as Hf. rewrite (marked_in p s s1) in Hf by done. rewrite bool_decide_eq_true_2 in Hf; done. }
  assert (Hin2 : forall q, in_cset (record_change db o n s2) q = in_cset s2 q) by (intros q; unfold in_cset; by rewrite Rp).
  constructor.
  - intros m. unfold chosen. rewrite Rn. change (chosen s2 m = chosen s m). by rewrite (ad_chosen _ _ _ A).
  - intros m. unfold inst_pkg. rewrite Rn. change (inst_pkg s2 m = inst_pkg s m). by rewrite (ad_inst _ _ _ A).
  - intros m Hp. unfold processed. rewrite Rn. change (processed s2 m = true). apply (ad_proc _ _ _ A). by rewrite Hpp.
  - by rewrite Rc, (ad_changes _ _ _ A), Hcc, app_assoc.
  - apply Forall_app. split.
    + eapply Forall_impl; [apply A|]. intros x. by apply change_ok_same.
    + apply Forall_singleton. unfold change_ok in *. rewrite Ro, Rw. exact Hok.
  - intros q. rewrite Hin2, (ad_in _ _ _ A), (marked_in p s s1) by done. rewrite Hsl.
    rewrite (bool_decide_ext (pkg_addr q ∈ subjects l ++ [pkg_addr p]) (pkg_addr q = pkg_addr p \/ pkg_addr q ∈ subjects l))
      by (rewrite elem_of_app, list_elem_of_singleton; tauto).
    rewrite bool_decide_or. by destruct (bool_decide (pkg_addr q = _)), (in_cset s q).
  - rewrite Hsl. apply NoDup_app. split; [apply A|]. split; [|apply NoDup_singleton]. intros a Ha ->%list_elem_of_singleton. done.
  - intros q. rewrite Hsl, elem_of_app, list_elem_of_singleton. intros [Hq|Hq].
    + pose proof (ad_fresh _ _ _ A q Hq) as Hf. rewrite (marked_in p s s1) in Hf by done. by apply orb_false_iff in Hf as [_ ?].
    + rewrite <- Hin. unfold in_cset, pss. by rewrite Hq.
  - intros m q. rewrite Hin2. unfold processed at 1. rewrite Rn. change (ns_changeset_processed (nss s2 m)) with (processed s2 m).
    intros H2 H1 Hi Hh. apply (ad_cover _ _ _ A m q); [done|by rewrite Hpp|by rewrite Hii|by rewrite (holds_same s)].
Qed.

Lemma marked_base p s s' : marked p s s' -> base s -> base s'.
Proof. intros (s0 & S & ->) Hb n q. change (inst_pkg s0 n = Some q <-> q ∈ db_installed db /\ pkg_nm q = n). rewrite (sl_inst _ _ S). apply Hb. Qed.
Lemma marked_mine p s s' q : marked p s s' -> mine s q -> mine s' q.
Proof. intros (s0 & S & ->). unfold mine. change (inst_pkg s (pkg_nm q) = Some q -> inst_pkg s0 (pkg_nm q) = Some q). by rewrite (sl_inst _ _ S). Qed.

Lemma remove_ext fuel : forall pkg s s', base s -> mine s pkg -> cset_gen_name_remove db fuel pkg s = Some s' ->
  ext s s' /\ (holds s (pkg_nm pkg) = false -> in_cset s' pkg = true).
Proof.
  induction fuel as [|fuel IH]; intros pkg s s' Hb Hm; [done|]. cbn [cset_gen_name_remove]. cbn zeta. fold (in_cset s pkg).
  change (match prov_pkg (ns_chosen (nss s (pkg_nm pkg))) with Some c => bool_decide (pkg_nm c = pkg_nm pkg) | None => false end) with (holds s (pkg_nm pkg)).
  destruct (in_cset s pkg) eqn:Ein; cbn [orb]; [by intros [= <-]|]. destruct (holds s (pkg_nm pkg)) eqn:Eh; [by intros [= <-]|].
  set (s0 := upd_n (pkg_nm pkg) (set_ns_changeset_removed true) s). set (s1 := upd_p pkg (set_ps_in_changeset true) s0).
  assert (M : marked pkg s s1) by (exists s0; split; [by apply still_upd_n|done]). pose proof (marked_base _ _ _ M Hb) as Hb1.
  assert (Hrm : forall p s s', base s -> mine s p -> cset_gen_name_remove db fuel p s = Some s' -> ext s s') by (intros; by eapply IH).
  clearbody s1. clear s0.
  destruct (for_eachM _ (cset_gen_name_remove db fuel) s1) as [s2|] eqn:E2; [|done]. cbn [mbind option_bind].
  apply ext_for_eachM in E2; [| |done].
  2:{ intros p s3 s4 Hp H3. apply Hrm; [done|]. by apply (reverse_mine pkg (rdepends db (pkg_nm pkg))). }
  pose proof (base_ext _ _ E2 Hb1) as Hb2.
  destruct (for_eachM (provides pkg) _ s2) as [s3|] eqn:E3; [|done]. cbn [mbind option_bind].
  apply ext_for_eachM in E3; [| |done].
  2:{ intros d s4 s5 _ H4. apply ext_for_eachM; [|done]. intros p s6 s7 Hp H6. apply Hrm; [done|]. by apply (reverse_mine pkg (rdepends db (dep_name d))). }
  pose proof (base_ext _ _ E3 Hb2) as Hb3.
  destruct (cset_check_by_reverse_iif db (Some pkg) _ s3) as [s4|] eqn:E4; [|done]. cbn [mbind option_bind].
  apply reverse_iif_ext in E4; [| |done].
  2:{ intros n s5 s6 H5. by apply removal_by_iif_ext. }
  assert (E14 : ext s1 s4) by (etrans; [exact E2|]; by etrans). destruct E14 as [l A].
  destruct (record_adds (Some pkg) None pkg s s1 s4 l M Ein A) as [c A5]; [done|by exists pkg|].
  intros E6. set (s5 := record_change db (Some pkg) None s4) in *. assert (E5 : ext s s5) by (by eexists).
  apply track_removed_ext in E6; [|done|by apply (base_ext s)]. split; [by etrans|]. intros _. apply (in_ext s5); [done|].
  rewrite (ad_in _ _ _ A5), Ein. cbn [orb]. apply bool_decide_eq_true_2. rewrite subjects_app, elem_of_app. right.
  pose proof (ad_changes _ _ _ A5) as Hc. destruct (record_still (Some pkg) None s4) as (_ & _ & c' & Hc' & Ho & Hn).
  fold s5 in Hc'. rewrite Hc' in Hc. rewrite (ad_changes _ _ _ A) in Hc. destruct M as (s0 & S & ->). cbn [ss_changes upd_p set_ss_pkgs] in Hc.
  rewrite (sl_changes _ _ S), <- app_assoc in Hc. apply app_inv_head, app_inv_head in Hc. injection Hc as <-.
  unfold subjects, subject. cbn. rewrite Hn, Ho. cbn. by left.
Qed.

(** ** Visits *)

Lemma preprocess_ext fuel n s s' : base s -> cset_gen_name_preprocess db (cset_gen_name_remove db fuel) n s = Some s' ->
  ext s s' /\ processed s' n = true.
Proof.
  intros Hb. unfold cset_gen_name_preprocess. fold (processed s n). destruct (processed s n) eqn:Ep; [by intros [= <-]|]. cbn zeta.
  fold (mark_processed n s). set (s0 := mark_processed n s). assert (Hm := mark_nss n s). fold s0 in Hm.
  assert (Hb0 : base s0) by (intros m q; destruct (Hm m) as (_ & -> & _); apply Hb).
  match goal with |- context [mbind _ ?o] => destruct o as [s1|] eqn:E1; [|done] end. cbn [mbind option_bind]. intros E2.
  assert (H1 : ext s0 s1 /\ (forall q, inst_pkg s n = Some q -> holds s n = false -> in_cset s1 q = true)).
  { change (ns_installed_pkg (nss s0 n)) with (inst_pkg s0 n) in E1. destruct (Hm n) as (Hc & Hi & _). rewrite Hi in E1.
    destruct (inst_pkg s n) as [q|] eqn:Eq; [|by injection E1 as <-]. fold (chosen s0 n) in E1. rewrite Hc in E1.
    pose proof (proj1 (Hb n q) Eq) as [_ Hqn].
    assert (Hcond : match prov_pkg (chosen s n) with None => true | Some c => negb (bool_decide (pkg_nm c = n)) end = negb (holds s n)).
    { unfold holds. by destruct (prov_pkg (chosen s n)). }
    rewrite Hcond in E1. destruct (holds s n) eqn:Eh; cbn [negb] in E1; [by injection E1 as <-|].
    apply remove_ext in E1 as [E1 F1]; [|done|by unfold mine; rewrite Hqn, Hi]. split; [done|]. intros q' [= <-] _. apply F1.
    rewrite Hqn, (holds_same s); done. }
  destruct H1 as [H1 Hq]. apply ext_for_eachM in E2; [| |by apply (base_ext s0)].
  2:{ intros [p v] s2 s3 Hp Hb2. cbn [fst]. fold (inst_pkg s2 (pkg_nm p)). destruct (_ && _) eqn:Ec; [|by intros [= <-]]. apply andb_true_iff in Ec as [Ec _].
      unfold is_pkg in Ec. destruct (inst_pkg s2 (pkg_nm p)) as [q|] eqn:Ei; [|done]. apply Z.eqb_eq in Ec.
      assert (q = p) as ->.
      { apply (isdb_addr db Hwf); [|by exists n, v|done]. apply Hb2 in Ei as [Hin _]. exists (pkg_nm q), (pkg_ver q). by apply (w_installed _ Hwf). }
      intros E. by apply remove_ext in E as [E _]. }
  destruct H1 as [l1 A1], E2 as [l2 A2]. pose proof (adds_trans _ _ _ _ _ A1 A2) as A. split.
  - exists (l1 ++ l2). constructor.
    + intros m. rewrite (ad_chosen _ _ _ A). apply Hm.
    + intros m. rewrite (ad_inst _ _ _ A). apply Hm.
    + intros m Hp. apply (ad_proc _ _ _ A). destruct (Hm m) as (_ & _ & ->). rewrite Hp. apply orb_true_r.
    + apply (ad_changes _ _ _ A).
    + eapply Forall_impl; [apply A|]. intros c. apply change_ok_same; intros m; symmetry; apply Hm.
    + apply (ad_in _ _ _ A).
    + apply (ad_once _ _ _ A).
    + apply (ad_fresh _ _ _ A).
    + intros m q H2 H0 Hi Hh. destruct (decide (m = n)) as [->|Hmn]; [apply (in_ext s1); [by exists l2|by apply Hq]|].
      destruct (Hm m) as (Hc & Hi0 & Hp0). apply (ad_cover _ _ _ A m q); [done| |by rewrite Hi0|by rewrite (holds_same s)].
      rewrite Hp0, bool_decide_eq_false_2 by done. exact H0.
  - apply (ad_proc _ _ _ A). destruct (Hm n) as (_ & _ & ->). by rewrite bool_decide_eq_true_2.
Qed.

Section Calls.
Context (change : bytes -> apk_solver_state -> option apk_solver_state).
Context (Hchange : forall n s s', base s -> change n s = Some s' -> ext s s').

Lemma install_by_iif_ext n s s' : base s -> cset_check_install_by_iif change n s = Some s' -> ext s s'.
Proof.
  intros Hb. unfold cset_check_install_by_iif. destruct (prov_pkg _); [|by intros [= <-]]. case_test; [by intros [= <-]|].
  case_test; [by apply Hchange|by intros [= <-]].
Qed.

Lemma gen_dep_ext ppkg d s s' : base s -> cset_gen_dep ignore_conflict change ppkg d s = Some s' -> ext s s'.
Proof.
  intros Hb. unfold cset_gen_dep. case_test; [by intros [= <-]|]. set (s1 := if negb _ then mark_error ppkg s else s).
  assert (E1 : ext s s1) by (subst s1; case_test; [apply still_ext, still_mark_error|done]). clearbody s1.
  destruct (change (dep_name d) s1) as [s2|] eqn:E2; [|done]. cbn [mbind option_bind]. intros [= <-].
  apply Hchange in E2; [|by apply (base_ext s)]. etrans; [exact E1|]. etrans; [exact E2|].
  destruct (prov_pkg _); [|done]. case_test; [apply still_ext, still_mark_error|done].
Qed.
End Calls.

Lemma change_ext fuel : forall n s s', base s -> cset_gen_name_change db ignore_conflict fuel n s = Some s' -> ext s s' /\ processed s' n = true.
Proof.
  induction fuel as [|fuel IH]; intros n s s' Hb; [done|]. cbn [cset_gen_name_change]. cbn zeta. fold (processed s n).
  destruct (processed s n) eqn:Ep; [by intros [= <-]|].
  destruct (cset_gen_name_preprocess db (cset_gen_name_remove db fuel) n s) as [s1|] eqn:E1; [|done]. cbn [mbind option_bind].
  apply preprocess_ext in E1 as [E1 Hp1]; [|done]. pose proof (base_ext _ _ E1 Hb) as Hb1.
  fold (chosen s1 n). destruct (chosen s1 n) as [[pkg|] v] eqn:Ec; cbn [prov_pkg]; [|by intros [= <-]].
  fold (in_cset s1 pkg). destruct (in_cset s1 pkg) eqn:Ein; [by intros [= <-]|]. intros Hrun.
  enough (Hx : ext s1 s') by (split; [by etrans|]; destruct Hx as [l A]; by apply (ad_proc _ _ _ A)). clear E1 Hp1 Ep Hb s. revert Hrun.
  set (s2 := upd_p pkg (set_ps_in_changeset true) s1). assert (M : marked pkg s1 s2) by (by exists s1). pose proof (marked_base _ _ _ M Hb1) as Hb2.
  assert (Hchange : forall n s s', base s -> cset_gen_name_change db ignore_conflict fuel n s = Some s' -> ext s s') by (intros; by eapply IH).
  assert (Hrm : forall p s s', base s -> mine s p -> cset_gen_name_remove db fuel p s = Some s' -> ext s s') by (intros; by eapply remove_ext).
  clearbody s2. destruct (cset_gen_name_preprocess db _ (pkg_nm pkg) s2) as [s3|] eqn:E3; [|done]. cbn [mbind option_bind].
  apply preprocess_ext in E3 as [E3 _]; [|done]. pose proof (base_ext _ _ E3 Hb2) as Hb3.
  destruct (for_eachM (provides pkg) _ s3) as [s4|] eqn:E4; [|done]. cbn [mbind option_bind].
  apply ext_for_eachM in E4; [| |done]. 2:{ intros d s5 s6 _ H5 E. by apply preprocess_ext in E as [E _]. }
  pose proof (base_ext _ _ E4 Hb3) as Hb4. assert (E24 : ext s2 s4) by (by etrans).
  assert (Hopkg : ns_installed_pkg (nss s4 (pkg_nm pkg)) = inst_pkg s1 (pkg_nm pkg)).
  { destruct E24 as [l A]. change (inst_pkg s4 (pkg_nm pkg) = inst_pkg s1 (pkg_nm pkg)). rewrite (ad_inst _ _ _ A).
    destruct M as (s0 & S & ->). apply (sl_inst _ _ S). }
  rewrite Hopkg. set (opkg := inst_pkg s1 (pkg_nm pkg)).
  destruct (cset_check_by_reverse_iif db opkg _ s4) as [s5|] eqn:E5; [|done]. cbn [mbind option_bind].
  apply reverse_iif_ext in E5; [| |done]. 2:{ intros m s6 s7 H6. by apply removal_by_iif_ext. }
  pose proof (base_ext _ _ E5 Hb4) as Hb5.
  destruct (for_eachM (depends pkg) _ s5) as [s6|] eqn:E6; [|done]. cbn [mbind option_bind].
  apply ext_for_eachM in E6; [| |done]. 2:{ intros d s7 s8 _ H7. by apply gen_dep_ext. }
  assert (E26 : ext s2 s6) by (etrans; [exact E24|]; by etrans). destruct E26 as [l A].
  destruct (record_adds opkg (Some pkg) pkg s1 s2 s6 l M Ein A) as [c A7]; [done|split; [by exists n, v|done]|].
  set (s7 := record_change db opkg (Some pkg) s6) in *. assert (E7 : ext s1 s7) by (by eexists). clearbody s7.
  destruct (cset_check_by_reverse_iif db (Some pkg) _ s7) as [s8|] eqn:E8; [|done]. cbn [mbind option_bind].
  pose proof (base_ext _ _ E7 Hb1) as Hb7. apply reverse_iif_ext in E8; [| |done]. 2:{ intros m s9 s10 H9. by apply install_by_iif_ext. }
  assert (E18 : ext s1 (cset_track_deps_added pkg s8)) by (etrans; [exact E7|]; etrans; [exact E8|apply ext_track_added]).
  destruct opkg as [o|]; [|by intros [= <-]]. intros E9. apply track_removed_ext in E9; [by etrans|done|by apply (base_ext s1)].
Qed.

(** ** The whole change set *)

Lemma inst_upd_n n f s m : inst_pkg (upd_n n f s) m = if bool_decide (m = n) then ns_installed_pkg (f (nss s n)) else inst_pkg s m.
Proof. unfold inst_pkg. rewrite nss_upd_n. by case_bool_decide. Qed.

(** Listing the installed packages. *)
Lemma list_installed l s n q : NoDup (pkg_nm <$> l) ->
  inst_pkg (for_each l (fun pkg s =>
    let s := upd_n (pkg_nm pkg) (fun n => set_ns_installed_name (Some (pkg_nm pkg)) (set_ns_installed_pkg (Some pkg) n)) s in
    for_each (provides pkg) (fun d s =>
      if negb (null_version (dep_version d)) then upd_n (dep_name d) (set_ns_installed_name (Some (pkg_nm pkg))) s else s) s) s) n = Some q <->
  q ∈ l /\ pkg_nm q = n \/ inst_pkg s n = Some q /\ n ∉ pkg_nm <$> l.
Proof.
  unfold for_each at 1. revert s. induction l as [|p l IH]; intros s Hnd; cbn [foldl fmap list_fmap].
  { split; [intros Hq; right; split; [done|apply not_elem_of_nil]|]. intros [[Hq _]|[Hq _]]; [by apply elem_of_nil in Hq|done]. }
  apply NoDup_cons in Hnd as [Hp Hnd]. rewrite IH by done. clear IH.
  assert (Hprov : forall ds s, inst_pkg (for_each ds (fun d s =>
    if negb (null_version (dep_version d)) then upd_n (dep_name d) (set_ns_installed_name (Some (pkg_nm p))) s else s) s) n = inst_pkg s n).
  { unfold for_each. induction ds as [|d ds IH]; intros s0; cbn [foldl]; [done|]. rewrite IH. case_test; [|done].
    rewrite inst_upd_n. case_bool_decide as En; [by subst n|done]. }
  rewrite Hprov, inst_upd_n. cbn [ns_installed_pkg set_ns_installed_name set_ns_installed_pkg]. rewrite !elem_of_cons.
  case_bool_decide as E; [subst n|].
  - split.
    + intros [[Hq En]|[[= <-] _]]; [left; split; [by right|done]|left; split; [by left|done]].
    + intros [[[->|Hq] En]|[_ Hn]]; [by right|left; done|]. destruct Hn. by left.
  - split.
    + intros [[Hq En]|[Hi Hn]]; [left; split; [by right|done]|right]. split; [done|]. by intros [?|?].
    + intros [[[->|Hq] En]|[Hi Hn]]; [done|by left|right]. split; [done|]. intros Hx. apply Hn. by right.
Qed.

(** The state before the first visit. *)
Record ready_plan (s s' : apk_solver_state) : Prop := {
  rp_base : base s';
  rp_chosen n : chosen s' n = chosen s n;
  rp_proc n : processed s' n = processed s n;
  rp_in p : in_cset s' p = in_cset s p;
  rp_changes : ss_changes s' = [];
}.

Lemma cset_start_plan s : ready_plan s (cset_start db s).
Proof.
  unfold cset_start. cbn zeta. set (s1 := set_ss_names _ _). set (s2 := for_each (db_installed db) _ s1).
  assert (Q2 : quiet db s1 s2) by (by apply installed_quiet).
  assert (N1 : forall n, nss s1 n = cset_reset_name (nss s n)) by apply reset_nss.
  assert (Hb2 : base s2).
  { intros n q. unfold s2. rewrite list_installed by done. split; [intros [?|[Hi _]]; [done|]|by left].
    unfold inst_pkg in Hi. by rewrite N1 in Hi. }
  set (s3 := for_each (db_installed db) cset_track_deps_added s2).
  assert (S3 : still s2 s3).
  { assert (Hone : forall pkg s, still s (cset_track_deps_added pkg s)).
    { intros pkg. unfold cset_track_deps_added, for_each. generalize (depends pkg) as l. induction l as [|d l IH]; intros s0; cbn [foldl]; [done|].
      assert (still s0 (match tracked_name s0 d with None => s0 | Some n => upd_n n (fun ns => set_ns_requirers (u16 (ns_requirers ns + 1)) ns) s0 end)) as [A1 A2 A3 A4 A5]
        by (destruct (tracked_name s0 d); [by apply still_upd_n|done]).
      destruct (IH (match tracked_name s0 d with None => s0 | Some n => upd_n n (fun ns => set_ns_requirers (u16 (ns_requirers ns + 1)) ns) s0 end)) as [B1 B2 B3 B4 B5].
      constructor; intros; etrans; eauto. }
    unfold s3, for_each. generalize (db_installed db) as l. intros l. clear -Hone. generalize s2. induction l as [|p l IH]; intros s0; cbn [foldl]; [done|].
    destruct (Hone p s0) as [A1 A2 A3 A4 A5], (IH (cset_track_deps_added p s0)) as [B1 B2 B3 B4 B5]. constructor; intros; etrans; eauto. }
  constructor.
  - intros n q. rewrite (sl_inst _ _ S3). apply Hb2.
  - intros n. rewrite (sl_chosen _ _ S3), (q_chosen _ _ _ Q2). unfold chosen. by rewrite N1.
  - intros n. rewrite (sl_proc _ _ S3), (q_processed _ _ _ Q2). unfold processed. by rewrite N1.
  - intros p. rewrite (sl_in _ _ S3). unfold in_cset, pss. by rewrite (q_pkgs _ _ _ Q2).
  - rewrite (sl_changes _ _ S3). apply (q_changes _ _ _ Q2).
Qed.

Lemma generate_plan fuel world s s' :
  generate_changeset db ignore_conflict fuel world s = Some s' ->
  exists s0, ready_plan s s0 /\ adds s0 s' (ss_changes s') /\ forall p, p ∈ db_installed db -> processed s' (pkg_nm p) = true.
Proof.
  unfold generate_changeset. cbn zeta. fold (cset_start db s). pose proof (cset_start_plan s) as R. set (s0 := cset_start db s) in *. clearbody s0.
  pose proof (rp_base _ _ R) as Hb0.
  destruct (for_eachM (db_installed db) (cset_check_removal_by_deps _) s0) as [s1|] eqn:E1; [|done]. cbn [mbind option_bind].
  apply ext_for_eachM in E1; [| |done].
  2:{ intros p s2 s3 Hp H2. apply removal_by_deps_ext; [|done|by apply H2]. intros. by eapply remove_ext. }
  pose proof (base_ext _ _ E1 Hb0) as Hb1.
  destruct (for_eachM world _ s1) as [s2|] eqn:E2; [|done]. cbn [mbind option_bind].
  apply ext_for_eachM in E2; [| |done]. 2:{ intros d s3 s4 _ H3. apply gen_dep_ext; [|done]. intros. by eapply change_ext. }
  pose proof (base_ext _ _ E2 Hb1) as Hb2. intros E3.
  assert (H3 : ext s2 s' /\ forall p, p ∈ db_installed db -> processed s' (pkg_nm p) = true).
  { revert E3. unfold for_eachM. generalize (db_installed db) as l. intros l. clear E2. revert s2 Hb2.
    induction l as [|p l IH]; intros s2 Hb2; cbn [foldl].
    { intros [= <-]. split; [done|]. intros p Hp. by apply elem_of_nil in Hp. }
    cbn [mbind option_bind]. destruct (cset_gen_name_change _ _ _ _ s2) as [s3|] eqn:E3.
    - apply change_ext in E3 as [E3 Hp3]; [|done]. intros El. apply IH in El as [El Hl]; [|by apply (base_ext s2)]. split; [by etrans|].
      intros q [->|Hq]%elem_of_cons; [|by apply Hl]. destruct El as [l' A]. by apply (ad_proc _ _ _ A).
    - intros El. exfalso. clear -El. induction l as [|y l IH]; [done|]. by apply IH. }
  destruct H3 as [E3' Hproc]. assert (E : ext s0 s') by (etrans; [exact E1|]; by etrans). destruct E as [l A]. exists s0. split; [done|]. split; [|done].
  pose proof (ad_changes _ _ _ A) as Hc. rewrite (rp_changes _ _ R) in Hc. cbn in Hc. by rewrite Hc.
Qed.

(** ** What it says *)

(** Every installed package is replaced, kept or removed by exactly one change, no package is installed twice, and a change
    replaces a package by one of the same name. *)
Record plan_exact (cs : list apk_change) : Prop := {
  px_old : omap old_pkg cs ≡ₚ db_installed db;
  px_new : NoDup (pkg_addr <$> omap new_pkg cs);
  px_change c : c ∈ cs ->
    match old_pkg c, new_pkg c with
    | Some o, Some p => pkg_nm o = pkg_nm p
    | Some o, None => forall p, p ∈ omap new_pkg cs -> pkg_nm p <> pkg_nm o
    | None, Some p => forall q, q ∈ db_installed db -> pkg_nm q <> pkg_nm p
    | None, None => False
    end;
}.

Lemma NoDup_omap_by {A B C} (f : A -> option B) (g : A -> option C) l :
  NoDup (omap f l) -> (forall x, x ∈ l -> is_Some (f x)) ->
  (forall x y b, x ∈ l -> y ∈ l -> g x = Some b -> g y = Some b -> f x = f y) -> NoDup (omap g l).
Proof.
  induction l as [|x l IH]; intros Hnd Hs Hf; [constructor|]. destruct (Hs x ltac:(by left)) as [b Hb].
  cbn in Hnd |- *. rewrite Hb in Hnd. apply NoDup_cons in Hnd as [Hx Hnd].
  assert (IH' : NoDup (omap g l)) by (apply IH; [done|intros y Hy; apply Hs; by right|intros y z c Hy Hz; apply Hf; by right]).
  destruct (g x) as [c|] eqn:Eg; [|done]. apply NoDup_cons. split; [|done]. intros Hc. apply list_elem_of_omap in Hc as (y & Hy & Hgy).
  apply Hx, list_elem_of_omap. exists y. split; [done|]. rewrite <- Hb. symmetry. apply (Hf x y c); [by left|by right|done|done].
Qed.

Section Exact.
Context (s0 s' : apk_solver_state) (l : list apk_change) (A : adds s0 s' l).
Context (Hb : base s0) (Hproc : forall n, processed s0 n = false) (Hin : forall p, in_cset s0 p = false).
Context (Hch : choice_ok db s') (HJ : J db ignore_conflict ∅ None s') (Hvisit : forall p, p ∈ db_installed db -> processed s' (pkg_nm p) = true).
Context (Hl : ss_changes s' = l).

Lemma chosen_own p : is_chosen s0 p -> isdb db p /\ chosen s0 (pkg_nm p) = APK_PROVIDER_FROM_PACKAGE p.
Proof.
  intros (n & v & Hc). rewrite <- (ad_chosen _ _ _ A) in Hc. destruct Hch as [Hdb Hx]. split; [exists n, v; by apply Hdb|].
  rewrite <- (ad_chosen _ _ _ A). by apply (Hx n p v).
Qed.
Lemma chosen_holds p : is_chosen s0 p -> holds s0 (pkg_nm p) = true.
Proof. intros Hp. apply chosen_own in Hp as [_ Hp]. unfold holds. rewrite Hp. cbn. by rewrite bool_decide_eq_true_2. Qed.
Lemma installed_isdb q : q ∈ db_installed db -> isdb db q.
Proof. intros Hq. exists (pkg_nm q), (pkg_ver q). by apply (w_installed _ Hwf). Qed.

Lemma change_cases c : c ∈ l -> change_ok s0 c.
Proof. intros Hc. pose proof (ad_ok _ _ _ A) as H0. rewrite list.Forall_forall in H0. by apply H0. Qed.

Lemma subject_isdb c p : c ∈ l -> subject c = Some p -> isdb db p.
Proof.
  intros Hc Hs. pose proof (change_cases c Hc) as Hok. unfold subject, change_ok in *. destruct (new_pkg c) as [x|].
  - injection Hs as ->. apply chosen_own, Hok.
  - destruct Hok as (q & Hq & Hi & _). rewrite Hq in Hs. injection Hs as ->. apply installed_isdb. by apply Hb in Hi as [? _].
Qed.

(** A held name is accounted for by the package that holds it. *)
Lemma held_recorded n p : processed s' n = true -> holds s' n = true -> prov_pkg (chosen s' n) = Some p -> recorded s' p.
Proof.
  intros Hp Hh Hc. destruct (chosen s' n) as [op v] eqn:Ec. cbn in Hc. subst op. unfold holds in Hh. rewrite Ec in Hh. cbn in Hh. apply bool_decide_eq_true in Hh.
  destruct Hch as [Hdb Hx]. destruct (Hx n p v Ec) as [Hown _]. rewrite Hh, Ec in Hown. injection Hown as Hv.
  assert (Hv0 : v <> []) by (subst v; exact (w_version _ Hwf _ _ (Hdb _ _ _ Ec))).
  destruct (j_proc _ _ _ _ _ HJ n p v ltac:(done) Hp Ec) as (p' & Hp' & Hi & (m & w & Hm)).
  assert (p' = p) as ->.
  { destruct (Hx m p' w Hm) as [Ho Hd]. destruct (w_prov _ Hwf _ _ Hp') as [[En _]|(d & Hdp & En & Ev)]; cbn [fst snd] in *.
    - rewrite En, Ec in Ho. by injection Ho.
    - destruct (Hd d Hdp) as [Hq|[Hq _]]; [|by rewrite Hq in Ev; congruence]. rewrite En, Ec in Hq. by injection Hq. }
  destruct (j_in _ _ _ _ _ HJ m p w Hm Hi) as [?|?]; [done|set_solver].
Qed.

Lemma old_covered q : q ∈ db_installed db -> exists c, c ∈ l /\ old_pkg c = Some q.
Proof.
  intros Hq. set (n := pkg_nm q). assert (Hi : inst_pkg s0 n = Some q) by (by apply Hb). pose proof (Hvisit q Hq) as Hp. fold n in Hp.
  destruct (holds s0 n) eqn:Eh.
  - assert (Eh' : holds s' n = true) by (by rewrite (holds_same s0) by apply A). pose proof Eh' as Eh2. unfold holds in Eh2.
    destruct (prov_pkg (chosen s' n)) as [p|] eqn:Ep; [|done]. apply bool_decide_eq_true in Eh2.
    destruct (held_recorded n p Hp Eh' Ep) as (c & Hc & Hn). rewrite Hl in Hc. exists c. split; [done|].
    pose proof (change_cases c Hc) as Hok. unfold change_ok in Hok. rewrite Hn in Hok. destruct Hok as [_ ->]. by rewrite Eh2.
  - pose proof (ad_cover _ _ _ A n q Hp (Hproc n) Hi Eh) as Hc. rewrite (ad_in _ _ _ A), Hin in Hc. cbn [orb] in Hc. apply bool_decide_eq_true in Hc.
    apply elem_of_subjects in Hc as (c & p & Hc & Hs & Ha).
    assert (p = q) as -> by (apply (isdb_addr db Hwf); [by apply (subject_isdb c)|by apply installed_isdb|done]).
    exists c. split; [done|]. pose proof (change_cases c Hc) as Hok. unfold change_ok, subject in *. destruct (new_pkg c) as [x|]; [|done].
    injection Hs as ->. destruct Hok as [Hok _]. apply chosen_holds in Hok. fold n in Hok. congruence.
Qed.

Lemma old_installed c q : c ∈ l -> old_pkg c = Some q -> q ∈ db_installed db /\
  match new_pkg c with Some p => pkg_nm q = pkg_nm p | None => holds s0 (pkg_nm q) = false end.
Proof.
  intros Hc Ho. pose proof (change_cases c Hc) as Hok. unfold change_ok in Hok. destruct (new_pkg c) as [p|].
  - destruct Hok as [_ Hi]. rewrite Ho in Hi. symmetry in Hi. apply Hb in Hi as [? ?]. done.
  - destruct Hok as (x & Hx & Hi & Hh). rewrite Ho in Hx. injection Hx as <-. by apply Hb in Hi as [? _].
Qed.

Lemma new_chosen p : p ∈ omap new_pkg l -> is_chosen s0 p.
Proof.
  intros (c & Hc & Hn)%list_elem_of_omap. pose proof (change_cases c Hc) as Hok. unfold change_ok in Hok. rewrite Hn in Hok. apply Hok.
Qed.

Lemma exact : plan_exact l.
Proof.
  assert (Hs : forall c, c ∈ l -> is_Some (pkg_addr <$> subject c)).
  { intros c Hc. pose proof (change_cases c Hc) as Hok. unfold change_ok, subject in *. destruct (new_pkg c); [by eexists|].
    destruct Hok as (q & -> & _). by eexists. }
  assert (Hnd : NoDup (omap (fun c => pkg_addr <$> subject c) l)).
  { pose proof (ad_once _ _ _ A) as Hn. unfold subjects in Hn. rewrite list_fmap_omap in Hn. exact Hn. }
  split.
  - apply NoDup_Permutation.
    + apply (NoDup_omap_by (fun c => pkg_addr <$> subject c) old_pkg l Hnd Hs). intros c1 c2 q H1 H2 O1 O2.
      destruct (old_installed c1 q H1 O1) as [_ N1], (old_installed c2 q H2 O2) as [_ N2].
      pose proof (change_cases c1 H1) as K1. pose proof (change_cases c2 H2) as K2. unfold subject, change_ok in *.
      destruct (new_pkg c1) as [p1|], (new_pkg c2) as [p2|].
      * destruct K1 as [K1 _], K2 as [K2 _]. apply chosen_own in K1 as [_ K1], K2 as [_ K2]. rewrite <- N1 in K1. rewrite <- N2 in K2. rewrite K1 in K2.
        by injection K2 as -> _.
      * destruct K1 as [K1 _]. apply chosen_holds in K1. rewrite <- N1 in K1. congruence.
      * destruct K2 as [K2 _]. apply chosen_holds in K2. rewrite <- N2 in K2. congruence.
      * by rewrite O1, O2.
    + by apply NoDup_fmap_1 in Hnames.
    + intros q. rewrite list_elem_of_omap. split; [intros (c & Hc & Ho); by apply (old_installed c)|apply old_covered].
  - rewrite list_fmap_omap. apply (NoDup_omap_by (fun c => pkg_addr <$> subject c) _ l Hnd Hs). intros c1 c2 a H1 H2. unfold subject.
    destruct (new_pkg c1), (new_pkg c2); cbn; congruence.
  - intros c Hc. pose proof (change_cases c Hc) as Hok. destruct (old_pkg c) as [o|] eqn:Eo.
    + destruct (old_installed c o Hc Eo) as [_ Hn]. destruct (new_pkg c) as [p|]; [done|]. intros p Hp E. apply new_chosen, chosen_holds in Hp. congruence.
    + unfold change_ok in Hok. rewrite Eo in Hok. destruct (new_pkg c) as [p|]; [|by destruct Hok as (q & ? & _)]. destruct Hok as [_ Hi]. intros q Hq E.
      symmetry in Hi. assert (Hx : inst_pkg s0 (pkg_nm q) = Some q) by (by apply Hb). rewrite E in Hx. congruence.
Qed.
End Exact.
End Plan.
