(* ===== verification/Database.v ===== *)
(** The package database (database.c, package.c): interned names with their providers and
    reverse dependencies, packages found by their identity, and the installed packages.

    Packages live at addresses, as in the code: an array of providers holds addresses, so that a
    change to a package is seen through every name.  The hash tables of names and packages are
    maps here (Hash.v is about the tables themselves). *)
From Stdlib Require Import ZArith Lia.
From stdpp Require Import base numbers list option gmap.
From S2P Require Import Prelude Clib Blob Codec Version Dep Package Index SolverState SolverInv.

(** ** State *)

(** struct apk_name; [dn_state] is state_int. *)
Record dbname := DbName {
  dn_providers : list (Z * bytes);
  dn_rdepends : list bytes;
  dn_rinstall_if : list bytes;
  dn_is_dependency : bool;
  dn_has_repository_providers : bool;
  dn_state : Z;
}.

Definition dbname0 : dbname := DbName [] [] [] false false 0.

Definition set_dn_providers (v : list (Z * bytes)) (n : dbname) : dbname :=
  DbName v (dn_rdepends n) (dn_rinstall_if n) (dn_is_dependency n) (dn_has_repository_providers n) (dn_state n).
Definition set_dn_rdepends (v : list bytes) (n : dbname) : dbname :=
  DbName (dn_providers n) v (dn_rinstall_if n) (dn_is_dependency n) (dn_has_repository_providers n) (dn_state n).
Definition set_dn_rinstall_if (v : list bytes) (n : dbname) : dbname :=
  DbName (dn_providers n) (dn_rdepends n) v (dn_is_dependency n) (dn_has_repository_providers n) (dn_state n).
Definition set_dn_is_dependency (v : bool) (n : dbname) : dbname :=
  DbName (dn_providers n) (dn_rdepends n) (dn_rinstall_if n) v (dn_has_repository_providers n) (dn_state n).
Definition set_dn_has_repository_providers (v : bool) (n : dbname) : dbname :=
  DbName (dn_providers n) (dn_rdepends n) (dn_rinstall_if n) (dn_is_dependency n) v (dn_state n).
Definition set_dn_state (v : Z) (n : dbname) : dbname :=
  DbName (dn_providers n) (dn_rdepends n) (dn_rinstall_if n) (dn_is_dependency n) (dn_has_repository_providers n) v.

(** The part of struct apk_database that holds packages.  [st_next] is the address the next
    package gets; the installed packages are a list of addresses in their order. *)
Record store := Store {
  st_names : gmap bytes dbname;
  st_pkgs : gmap Z apk_package;
  st_ids : gmap bytes Z;
  st_next : Z;
  st_installed : list Z;
  st_open_complete : bool;
  st_arches : list bytes;
  st_noarch : bytes;
}.

Definition set_st_names (v : gmap bytes dbname) (s : store) : store :=
  Store v (st_pkgs s) (st_ids s) (st_next s) (st_installed s) (st_open_complete s) (st_arches s) (st_noarch s).
Definition set_st_pkgs (v : gmap Z apk_package) (s : store) : store :=
  Store (st_names s) v (st_ids s) (st_next s) (st_installed s) (st_open_complete s) (st_arches s) (st_noarch s).
Definition set_st_installed (v : list Z) (s : store) : store :=
  Store (st_names s) (st_pkgs s) (st_ids s) (st_next s) v (st_open_complete s) (st_arches s) (st_noarch s).
Definition set_st_open_complete (v : bool) (s : store) : store :=
  Store (st_names s) (st_pkgs s) (st_ids s) (st_next s) (st_installed s) v (st_arches s) (st_noarch s).

Definition store_init (next : Z) (arches : list bytes) (noarch : bytes) : store :=
  Store ∅ ∅ ∅ next [] false arches noarch.

(** apk_db_get_name gives a zeroed name for a new text. *)
Definition apk_db_get_name (s : store) (n : bytes) : dbname := default dbname0 (st_names s !! n).
Definition upd_name (n : bytes) (f : dbname -> dbname) (s : store) : store :=
  set_st_names (<[n := f (apk_db_get_name s n)]> (st_names s)) s.
Definition get_pkg (s : store) (a : Z) : apk_package := default (pkg_reset a) (st_pkgs s !! a).
Definition upd_pkg (a : Z) (f : apk_package -> apk_package) (s : store) : store :=
  set_st_pkgs (<[a := f (get_pkg s a)]> (st_pkgs s)) s.

(** ** Reverse dependencies *)

Definition add_name_to_array (name : bytes) (a : list bytes) : list bytes :=
  if bool_decide (name ∈ a) then a else a ++ [name].

(** The names under which a package is listed. *)
Definition names_of (pkg : apk_package) : list bytes := pkg_nm pkg :: map dep_name (provides pkg).
Definition add_names (pkg : apk_package) (a : list bytes) : list bytes :=
  foldl (fun a n => add_name_to_array n a) a (names_of pkg).

Definition apk_db_pkg_rdepends (pkg : apk_package) (s : store) : store :=
  let s := foldl (fun s d => upd_name (dep_name d) (fun rn =>
             set_dn_rdepends (add_names pkg (dn_rdepends rn))
               (set_dn_is_dependency (dn_is_dependency rn || negb (apk_dep_conflict d)) rn)) s) s (depends pkg) in
  foldl (fun s d => upd_name (dep_name d) (fun rn => set_dn_rinstall_if (add_names pkg (dn_rinstall_if rn)) rn) s)
    s (install_if pkg).

(** The array of touched names, of which the first 128 are kept, and their number. *)
Definition TOUCHED : Z := 128.
Record touched := Touched { t_names : list bytes; t_num : Z }.

Definition touch (rname : bytes) (t : touched) : touched :=
  Touched (if t_num t <? TOUCHED then t_names t ++ [rname] else t_names t) (t_num t + 1).

(** A name met for the first time as a dependency (bit 1) or install_if (bit 2) of [name]. *)
Definition meet (bit : Z) (add : dbname -> dbname) (rname : bytes) (st : store * touched) : store * touched :=
  let '(s, t) := st in
  let rn := apk_db_get_name s rname in
  if dn_state rn .& bit =? 0
  then (upd_name rname (fun rn => add (set_dn_state (dn_state rn .| bit) rn)) s,
        if dn_state rn =? 0 then touch rname t else t)
  else (s, t).

Definition apk_db_name_rdepends (name : bytes) (s : store) : store :=
  let provs := dn_providers (apk_db_get_name s name) in
  let '(s, t) := foldl (fun st p =>
      let pkg := get_pkg s p.1 in
      let st := foldl (fun st d =>
                  let '(s, t) := st in
                  let s := upd_name (dep_name d) (fun rn => set_dn_is_dependency (dn_is_dependency rn || negb (apk_dep_conflict d)) rn) s in
                  meet 1 (fun rn => set_dn_rdepends (dn_rdepends rn ++ [name]) rn) (dep_name d) (s, t)) st (depends pkg) in
      foldl (fun st d => meet 2 (fun rn => set_dn_rinstall_if (dn_rinstall_if rn ++ [name]) rn) (dep_name d) st)
        st (install_if pkg)) (s, Touched [] 0) provs in
  if TOUCHED <? t_num t
  then foldl (fun s p =>
         let pkg := get_pkg s p.1 in
         foldl (fun s d => upd_name (dep_name d) (set_dn_state 0) s)
           (foldl (fun s d => upd_name (dep_name d) (set_dn_state 0) s) s (depends pkg)) (install_if pkg)) s provs
  else foldl (fun s n => upd_name n (set_dn_state 0) s) s (t_names t).

(** The end of apk_db_open: the hash table enumerates its names in some order. *)
Definition open_names (names : list bytes) (s : store) : store :=
  set_st_open_complete true (foldl (fun s n => apk_db_name_rdepends n s) s names).

(** ** Packages *)

Definition id_key (d : apk_digest) : bytes := ztake APK_DIGEST_LENGTH_SHA1 (d_data d).

Definition apk_db_get_pkg (s : store) (id : apk_digest) : option Z :=
  if d_len id <? APK_DIGEST_LENGTH_SHA1 then None else st_ids s !! id_key id.

(** The package made of a template. *)
Definition pkg_of_tmpl (addr : Z) (pkg : apk_package) (id : apk_digest) : apk_package :=
  let alg := match ipkg pkg with
             | Some ip => if (d_alg id =? APK_DIGEST_SHA1) && sha256_160 ip then APK_DIGEST_SHA256_160 else d_alg id
             | None => d_alg id
             end in
  Pkg addr (pkg_name pkg) None (depends pkg) (install_if pkg) (provides pkg) (recommends pkg) (tags pkg) (version pkg)
    (arch pkg) (license pkg) (origin pkg) (maintainer pkg) (url pkg) (description pkg) (commit pkg) (installed_size pkg)
    (size pkg) (build_time pkg) (foreach_genid pkg) (repos pkg) (provider_priority pkg) (filename_ndx pkg) (marked pkg)
    (uninstallable pkg) (cached_non_repository pkg) (cached pkg) (layer pkg) alg (ztake (d_len id) (d_data id)).

Definition add_provider (n : bytes) (p : Z * bytes) (s : store) : store :=
  upd_name n (fun x => set_dn_providers (dn_providers x ++ [p]) x) s.

(** Entering a new package: the hash table, the arrays of providers, the reverse dependencies. *)
Definition new_package (pkg : apk_package) (id : apk_digest) (s : store) : Z * store :=
  let a := st_next s in
  let idb := pkg_of_tmpl a pkg id in
  let s := Store (st_names s) (<[a := idb]> (st_pkgs s)) (<[id_key id := a]> (st_ids s)) (a + 1)
             (st_installed s) (st_open_complete s) (st_arches s) (st_noarch s) in
  let s := add_provider (pkg_nm idb) (a, pkg_ver idb) s in
  let s := foldl (fun s d => add_provider (dep_name d) (a, dep_version d) s) s (provides idb) in
  (a, if st_open_complete s then apk_db_pkg_rdepends idb s else s).

Definition set_filename_ndx (v : Z) (r : apk_package) : apk_package :=
  Pkg (pkg_addr r) (pkg_name r) (ipkg r) (depends r) (install_if r) (provides r) (recommends r) (tags r) (version r)
    (arch r) (license r) (origin r) (maintainer r) (url r) (description r) (commit r) (installed_size r) (size r)
    (build_time r) (foreach_genid r) (repos r) (provider_priority r) v (marked r) (uninstallable r)
    (cached_non_repository r) (cached r) (layer r) (digest_alg r) (digest r).

(** A package that is already there: its repositories grow. *)
Definition merge_package (pkg : apk_package) (a : Z) (s : store) : store :=
  upd_pkg a (fun idb =>
    let idb := set_repos (repos idb .| repos pkg) idb in
    if filename_ndx idb =? 0 then set_filename_ndx (filename_ndx pkg) idb else idb) s.

Definition mark_repository (nm : bytes) (idb : apk_package) (s : store) : store :=
  foldl (fun s d => upd_name (dep_name d) (set_dn_has_repository_providers true) s)
    (upd_name nm (set_dn_has_repository_providers true) s) (provides idb).

(** The record of the installed package moves from the template to the package. *)
Definition move_ipkg (tmpl : Z) (a : Z) (ip : apk_installed_package) (s : store) : store :=
  set_st_installed (map (fun b => if b =? tmpl then a else b) (st_installed s)) (upd_pkg a (set_ipkg (Some ip)) s).

(** The address of the package, [None] when the template is refused, and the template after.
    old_repos has 16 bits, although repos has 32. *)
Definition apk_db_pkg_add (t : apk_package_tmpl) (s : store) : option Z * apk_package_tmpl * store :=
  let pkg := tm_pkg t in
  match pkg_name pkg, version pkg with
  | Some nm, Some _ =>
      if d_len (tm_id t) <? APK_DIGEST_LENGTH_SHA1 then (None, t, s)
      else
        let pkg := if apk_db_arch_compatible (st_arches s) (st_noarch s) (arch pkg) then pkg else set_uninstallable true pkg in
        let '(a, old_repos, s) :=
          match st_ids s !! id_key (tm_id t) with
          | None => let '(a, s) := new_package pkg (tm_id t) s in (a, 0, s)
          | Some a => (a, u16 (repos (get_pkg s a)), merge_package pkg a s)
          end in
        let idb := get_pkg s a in
        let s := if negb (repos idb =? 0) && (old_repos =? 0) then mark_repository nm idb s else s in
        let s := match ipkg idb, ipkg pkg with
                 | None, Some ip => move_ipkg (pkg_addr pkg) a ip s
                 | _, _ => s
                 end in
        (Some a, apk_pkgtmpl_reset t, s)
  | _, _ => (None, t, s)
  end.

(** ** Installed packages *)

(** apk_pkg_install on a package of the database, and on a template outside of it. *)
Definition apk_pkg_install (pkg : apk_package) (s : store) : apk_package * store :=
  match ipkg pkg with
  | Some _ => (pkg, s)
  | None =>
      (set_ipkg (Some ipkg_new) pkg,
       match pkg_name pkg with Some _ => set_st_installed (st_installed s ++ [pkg_addr pkg]) s | None => s end)
  end.

Definition install_at (a : Z) (s : store) : store :=
  let '(pkg, s) := apk_pkg_install (get_pkg s a) s in upd_pkg a (fun _ => pkg) s.

Definition apk_pkg_uninstall (a : Z) (s : store) : store :=
  match ipkg (get_pkg s a) with
  | None => s
  | Some _ => upd_pkg a (set_ipkg None) (set_st_installed (filter (fun b => b <> a) (st_installed s)) s)
  end.

(** ** The solver's view *)

Definition view_name (s : store) (n : dbname) : apk_name :=
  Name (map (fun p => (get_pkg s p.1, p.2)) (dn_providers n)) (dn_rdepends n) (dn_rinstall_if n) false.

Definition view (tags : repo_tags) (available_repos active_layers : Z) (self_upgrade force_broken_world : bool) (s : store)
  : apk_database :=
  Database (view_name s <$> st_names s) (map (get_pkg s) (st_installed s)) tags available_repos active_layers
    self_upgrade force_broken_world.

(** ** Names and arrays *)

Lemma get_upd_name n f s m :
  apk_db_get_name (upd_name n f s) m = if bool_decide (m = n) then f (apk_db_get_name s n) else apk_db_get_name s m.
Proof.
  unfold apk_db_get_name at 1, upd_name. cbn [st_names set_st_names]. case_bool_decide as E.
  - subst m. by rewrite lookup_insert_eq.
  - by rewrite lookup_insert_ne.
Qed.

(** What the updates of names of a list keep. *)
Lemma fold_upd_keep {A B} (pi : dbname -> B) (k : A -> bytes) (f : A -> dbname -> dbname) l s n :
  (forall x y, pi (f x y) = pi y) ->
  pi (apk_db_get_name (foldl (fun s x => upd_name (k x) (f x) s) s l) n) = pi (apk_db_get_name s n).
Proof.
  intros Hf. revert s. induction l as [|x l IH]; intros s; cbn [foldl]; [done|]. rewrite IH, get_upd_name.
  case_bool_decide as E; [subst n; apply Hf|done].
Qed.

(** Everything but the names. *)
Definition same_rest (s s' : store) : Prop :=
  st_pkgs s' = st_pkgs s /\ st_ids s' = st_ids s /\ st_next s' = st_next s /\ st_installed s' = st_installed s /\
  st_open_complete s' = st_open_complete s /\ st_arches s' = st_arches s /\ st_noarch s' = st_noarch s.

#[global] Instance same_rest_refl : Reflexive same_rest.
Proof. by intros s. Qed.
#[global] Instance same_rest_trans : Transitive same_rest.
Proof.
  intros s1 s2 s3 (A1 & A2 & A3 & A4 & A5 & A6 & A7) (B1 & B2 & B3 & B4 & B5 & B6 & B7). repeat split; congruence.
Qed.

Lemma same_rest_pkg s s' a : same_rest s s' -> get_pkg s' a = get_pkg s a.
Proof. intros (E & _). unfold get_pkg. by rewrite E. Qed.

Lemma same_rest_fold {A} (f : store -> A -> store) l s : (forall s x, same_rest s (f s x)) -> same_rest s (foldl f s l).
Proof. intros Hf. revert s. induction l as [|x l IH]; intros s; cbn [foldl]; [done|]. etrans; [apply Hf|apply IH]. Qed.

Lemma elem_of_add_names pkg a m : m ∈ add_names pkg a <-> m ∈ a \/ m ∈ names_of pkg.
Proof.
  unfold add_names. generalize (names_of pkg) as l. intros l. revert a. induction l as [|x l IH]; intros a; cbn [foldl].
  - rewrite elem_of_nil. tauto.
  - rewrite IH. unfold add_name_to_array. case_bool_decide as E; rewrite ?elem_of_app, ?list_elem_of_singleton, elem_of_cons; [|tauto].
    assert (m = x -> m ∈ a) by (by intros ->). tauto.
Qed.

Lemma NoDup_add_names pkg a : NoDup a -> NoDup (add_names pkg a).
Proof.
  unfold add_names. generalize (names_of pkg) as l. intros l. revert a. induction l as [|x l IH]; intros a Ha; cbn [foldl]; [done|].
  apply IH. unfold add_name_to_array. case_bool_decide as E; [done|]. apply NoDup_app. split; [done|].
  split; [|apply NoDup_singleton]. intros y Hy. rewrite list_elem_of_singleton. congruence.
Qed.

(** ** The invariant *)

(** The names a package is listed under, with the versions. *)
Definition prov_list (p : apk_package) : list (bytes * bytes) :=
  (pkg_nm p, pkg_ver p) :: map (fun d => (dep_name d, dep_version d)) (provides p).

Lemma prov_list_names p n : n ∈ names_of p <-> exists v, (n, v) ∈ prov_list p.
Proof.
  unfold names_of, prov_list. rewrite elem_of_cons, list_elem_of_fmap. split.
  - intros [->|(d & -> & Hd)]; [exists (pkg_ver p); by left|]. exists (dep_version d). right. apply list_elem_of_fmap. eauto.
  - intros (v & Hv). apply elem_of_cons in Hv as [[= -> _]|Hv]; [by left|]. apply list_elem_of_fmap in Hv as (d & [= -> _] & Hd). right. eauto.
Qed.

Definition depends_on (p : apk_package) (n : bytes) : Prop := n ∈ map dep_name (depends p).
Definition installs_if (p : apk_package) (n : bytes) : Prop := n ∈ map dep_name (install_if p).
Definition needs (p : apk_package) (n : bytes) : Prop :=
  exists d, d ∈ depends p /\ dep_name d = n /\ apk_dep_conflict d = false.

(** The array of a name lists, once each, the names of the packages with [rel]. *)
Definition lists_names (s : store) (rel : apk_package -> bytes -> Prop) (n : bytes) (a : list bytes) : Prop :=
  NoDup a /\ forall m, m ∈ a <-> exists b p, st_pkgs s !! b = Some p /\ m ∈ names_of p /\ rel p n.

Record store_core (s : store) : Prop := {
  ok_addr a p : st_pkgs s !! a = Some p -> pkg_addr p = a /\ a < st_next s /\ is_Some (pkg_name p);
  ok_prov n a v : (a, v) ∈ dn_providers (apk_db_get_name s n) <-> exists p, st_pkgs s !! a = Some p /\ (n, v) ∈ prov_list p;
  ok_ids k a : st_ids s !! k = Some a <-> exists p, st_pkgs s !! a = Some p /\ apk_pkg_hash_blob p = k;
  ok_state n : dn_state (apk_db_get_name s n) = 0;
  ok_rdepends n : if st_open_complete s then lists_names s depends_on n (dn_rdepends (apk_db_get_name s n))
                  else dn_rdepends (apk_db_get_name s n) = [];
  ok_rinstall_if n : if st_open_complete s then lists_names s installs_if n (dn_rinstall_if (apk_db_get_name s n))
                     else dn_rinstall_if (apk_db_get_name s n) = [];
  ok_dependency n : dn_is_dependency (apk_db_get_name s n) = true <->
    st_open_complete s = true /\ exists a p, st_pkgs s !! a = Some p /\ needs p n;
}.

(** The names that some repository provides. *)
Definition repository_ok (s : store) : Prop :=
  forall n, dn_has_repository_providers (apk_db_get_name s n) = true <->
    exists a p, st_pkgs s !! a = Some p /\ repos p <> 0 /\ n ∈ names_of p.

(** The list of installed packages is that of the packages with a record of their own. *)
Definition inst (s : store) (a : Z) : Prop := exists p, st_pkgs s !! a = Some p /\ is_Some (ipkg p).
Definition installed_ok (s : store) : Prop := NoDup (st_installed s) /\ forall a, a ∈ st_installed s <-> inst s a.

Lemma store_init_core next arches noarch : store_core (store_init next arches noarch).
Proof.
  constructor; unfold apk_db_get_name, store_init; cbn [st_names st_pkgs st_ids st_open_complete]; intros.
  - by rewrite lookup_empty in *.
  - rewrite lookup_empty. cbn. rewrite elem_of_nil. split; [done|]. intros (p & E & _). by rewrite lookup_empty in E.
  - rewrite lookup_empty. split; [done|]. intros (p & E & _). by rewrite lookup_empty in E.
  - by rewrite lookup_empty.
  - by rewrite lookup_empty.
  - by rewrite lookup_empty.
  - rewrite lookup_empty. cbn. split; [done|]. by intros [? _].
Qed.

Lemma store_init_repository next arches noarch : repository_ok (store_init next arches noarch).
Proof.
  intros n. unfold apk_db_get_name, store_init. cbn [st_names st_pkgs]. rewrite lookup_empty. cbn. split; [done|].
  intros (a & p & E & _). by rewrite lookup_empty in E.
Qed.

(** ** Changes that the invariant does not see *)

(** The fields of a package that do not change once it is in the database. *)
Definition static (p : apk_package) :=
  (pkg_addr p, pkg_name p, version p, depends p, install_if p, provides p, digest p).
Definition arrays (x : dbname) := (dn_providers x, dn_rdepends x, dn_rinstall_if x, dn_is_dependency x, dn_state x).

Record unseen_change (s s' : store) : Prop := {
  uc_arrays n : arrays (apk_db_get_name s' n) = arrays (apk_db_get_name s n);
  uc_static a : static <$> st_pkgs s' !! a = static <$> st_pkgs s !! a;
  uc_ids : st_ids s' = st_ids s;
  uc_next : st_next s' = st_next s;
  uc_open : st_open_complete s' = st_open_complete s;
}.

#[global] Instance unseen_change_refl : Reflexive unseen_change.
Proof. by constructor. Qed.
#[global] Instance unseen_change_trans : Transitive unseen_change.
Proof. intros s1 s2 s3 [A1 A2 A3 A4 A5] [B1 B2 B3 B4 B5]. constructor; intros; rewrite ?B1, ?A1, ?B2, ?A2; congruence. Qed.

Lemma static_eq p q : static p = static q ->
  pkg_addr p = pkg_addr q /\ pkg_name p = pkg_name q /\ names_of p = names_of q /\ prov_list p = prov_list q /\
  depends p = depends q /\ install_if p = install_if q /\ apk_pkg_hash_blob p = apk_pkg_hash_blob q.
Proof.
  unfold static, names_of, prov_list, apk_pkg_hash_blob, pkg_nm, pkg_ver. intros [= -> -> -> -> -> -> ->]. done.
Qed.

Lemma unseen_pkg s s' b (Q : apk_package -> Prop) :
  unseen_change s s' -> (forall p q, static p = static q -> Q p -> Q q) ->
  (exists p, st_pkgs s' !! b = Some p /\ Q p) <-> (exists p, st_pkgs s !! b = Some p /\ Q p).
Proof.
  intros U HQ. pose proof (uc_static _ _ U b) as E.
  destruct (st_pkgs s' !! b) as [p|], (st_pkgs s !! b) as [q|]; cbn in E; try done.
  apply (inj Some) in E. split; intros (r & [= <-] & Hr); eexists; (split; [done|]); [by apply (HQ p)|by apply (HQ q)].
Qed.

Lemma unseen_lists s s' rel n a :
  unseen_change s s' -> (forall p q, static p = static q -> rel p n -> rel q n) -> lists_names s rel n a -> lists_names s' rel n a.
Proof.
  intros U Hrel [A B]. split; [done|]. intros m. rewrite B. split; intros (b & Hb); exists b; revert Hb;
    apply (unseen_pkg s s' b (fun p => m ∈ names_of p /\ rel p n) U); intros p q E [Hm Hr];
    (split; [by destruct (static_eq p q E) as (_ & _ & <- & _)|by apply (Hrel p)]).
Qed.

Lemma unseen_core s s' : unseen_change s s' -> store_core s -> store_core s'.
Proof.
  intros U [C1 C2 C3 C4 C5 C6 C7].
  assert (Ea : forall n, dn_providers (apk_db_get_name s' n) = dn_providers (apk_db_get_name s n) /\
    dn_rdepends (apk_db_get_name s' n) = dn_rdepends (apk_db_get_name s n) /\
    dn_rinstall_if (apk_db_get_name s' n) = dn_rinstall_if (apk_db_get_name s n) /\
    dn_is_dependency (apk_db_get_name s' n) = dn_is_dependency (apk_db_get_name s n) /\
    dn_state (apk_db_get_name s' n) = dn_state (apk_db_get_name s n)).
  { intros n. pose proof (uc_arrays _ _ U n) as E. unfold arrays in E. by injection E as -> -> -> -> ->. }
  constructor.
  - intros a p Hp. pose proof (uc_static _ _ U a) as E. rewrite Hp in E. destruct (st_pkgs s !! a) as [q|] eqn:Eq; [|done].
    apply (inj Some) in E. destruct (C1 a q Eq) as (H1 & H2 & H3). destruct (static_eq p q E) as (-> & -> & _).
    by rewrite (uc_next _ _ U).
  - intros n a v. destruct (Ea n) as (-> & _). rewrite C2. symmetry. apply (unseen_pkg s s' a (fun p => (n, v) ∈ prov_list p) U).
    intros p q E. by destruct (static_eq p q E) as (_ & _ & _ & -> & _).
  - intros k a. rewrite (uc_ids _ _ U), C3. symmetry. apply (unseen_pkg s s' a (fun p => apk_pkg_hash_blob p = k) U).
    intros p q E. by destruct (static_eq p q E) as (_ & _ & _ & _ & _ & _ & ->).
  - intros n. destruct (Ea n) as (_ & _ & _ & _ & ->). apply C4.
  - intros n. destruct (Ea n) as (_ & -> & _). rewrite (uc_open _ _ U). specialize (C5 n). destruct (st_open_complete s); [|done].
    apply (unseen_lists s); [done| |done]. intros p q E. unfold depends_on. by destruct (static_eq p q E) as (_ & _ & _ & _ & -> & _).
  - intros n. destruct (Ea n) as (_ & _ & -> & _). rewrite (uc_open _ _ U). specialize (C6 n). destruct (st_open_complete s); [|done].
    apply (unseen_lists s); [done| |done]. intros p q E. unfold installs_if. by destruct (static_eq p q E) as (_ & _ & _ & _ & _ & -> & _).
  - intros n. destruct (Ea n) as (_ & _ & _ & -> & _). rewrite C7, (uc_open _ _ U).
    assert (Hn : forall a, (exists p, st_pkgs s' !! a = Some p /\ needs p n) <-> exists p, st_pkgs s !! a = Some p /\ needs p n).
    { intros a. apply (unseen_pkg s s' a (fun p => needs p n) U). intros p q E. unfold needs.
      by destruct (static_eq p q E) as (_ & _ & _ & _ & -> & _). }
    split; intros [? (a & Ha)]; (split; [done|]); exists a; by apply Hn.
Qed.

Lemma unseen_upd_pkg a f s :
  is_Some (st_pkgs s !! a) -> (forall p, static (f p) = static p) -> unseen_change s (upd_pkg a f s).
Proof.
  intros [p Hp] Hf. constructor; try done. intros b. unfold upd_pkg, get_pkg. cbn [st_pkgs set_st_pkgs].
  destruct (decide (b = a)) as [->|Hb]; [|by rewrite lookup_insert_ne]. rewrite lookup_insert_eq, Hp. cbn. by rewrite Hf.
Qed.

Lemma unseen_fold_names {A} (k : A -> bytes) (f : A -> dbname -> dbname) l s :
  (forall x y, arrays (f x y) = arrays y) -> unseen_change s (foldl (fun s x => upd_name (k x) (f x) s) s l).
Proof.
  intros Hf. assert (R : same_rest s (foldl (fun s x => upd_name (k x) (f x) s) s l)) by (by apply same_rest_fold).
  destruct R as (R1 & R2 & R3 & R4 & R5 & _). constructor; try done; [|intros a; by rewrite R1].
  intros n. by apply (fold_upd_keep arrays).
Qed.

(** ** Reverse dependencies of a package *)

Lemma rdepends_depends pkg l s n :
  let s' := foldl (fun s d => upd_name (dep_name d) (fun rn =>
             set_dn_rdepends (add_names pkg (dn_rdepends rn))
               (set_dn_is_dependency (dn_is_dependency rn || negb (apk_dep_conflict d)) rn)) s) s l in
  (NoDup (dn_rdepends (apk_db_get_name s n)) -> NoDup (dn_rdepends (apk_db_get_name s' n))) /\
  (forall m, m ∈ dn_rdepends (apk_db_get_name s' n) <->
     m ∈ dn_rdepends (apk_db_get_name s n) \/ m ∈ names_of pkg /\ n ∈ map dep_name l) /\
  (dn_is_dependency (apk_db_get_name s' n) = true <->
     dn_is_dependency (apk_db_get_name s n) = true \/ exists d, d ∈ l /\ dep_name d = n /\ apk_dep_conflict d = false).
Proof.
  cbn zeta. revert s. induction l as [|d l IH]; intros s; cbn [foldl map].
  { split; [done|]. split; [intros m; rewrite elem_of_nil; tauto|]. split; [by left|]. intros [?|(d & Hd & _)]; [done|]. by apply elem_of_nil in Hd. }
  set (s1 := upd_name (dep_name d) _ s). destruct (IH s1) as (A & B & C).
  assert (E : apk_db_get_name s1 n = if bool_decide (n = dep_name d) then _ else _) by apply get_upd_name.
  split; [|split].
  - intros Hn. apply A. rewrite E. case_bool_decide as Hd; [subst n; by apply NoDup_add_names|done].
  - intros m. rewrite B, E, elem_of_cons. case_bool_decide as Hd; [subst n; cbn [dn_rdepends dn_rinstall_if set_dn_rdepends set_dn_rinstall_if]; rewrite elem_of_add_names|]; tauto.
  - rewrite C, E. assert (Hx : forall Q : apk_dependency -> Prop, (exists e, e ∈ d :: l /\ Q e) <-> Q d \/ exists e, e ∈ l /\ Q e).
    { intros Q. split; [intros (e & [->|He]%elem_of_cons & HQ); [by left|right; by exists e]|].
      intros [HQ|(e & He & HQ)]; [exists d|exists e]; (split; [rewrite elem_of_cons; auto|done]). }
    rewrite Hx. case_bool_decide as Hd; [subst n; cbn [dn_is_dependency set_dn_rdepends set_dn_is_dependency]|].
    + rewrite orb_true_iff, negb_true_iff. tauto.
    + assert (dep_name d <> n) by congruence. tauto.
Qed.

Lemma rdepends_install_if pkg l s n :
  let s' := foldl (fun s d => upd_name (dep_name d) (fun rn => set_dn_rinstall_if (add_names pkg (dn_rinstall_if rn)) rn) s) s l in
  (NoDup (dn_rinstall_if (apk_db_get_name s n)) -> NoDup (dn_rinstall_if (apk_db_get_name s' n))) /\
  (forall m, m ∈ dn_rinstall_if (apk_db_get_name s' n) <->
     m ∈ dn_rinstall_if (apk_db_get_name s n) \/ m ∈ names_of pkg /\ n ∈ map dep_name l).
Proof.
  cbn zeta. revert s. induction l as [|d l IH]; intros s; cbn [foldl map].
  { split; [done|]. intros m. rewrite elem_of_nil. tauto. }
  set (s1 := upd_name (dep_name d) _ s). destruct (IH s1) as (A & B).
  assert (E : apk_db_get_name s1 n = if bool_decide (n = dep_name d) then _ else _) by apply get_upd_name.
  split.
  - intros Hn. apply A. rewrite E. case_bool_decide as Hd; [subst n; by apply NoDup_add_names|done].
  - intros m. rewrite B, E, elem_of_cons. case_bool_decide as Hd; [subst n; cbn [dn_rdepends dn_rinstall_if set_dn_rdepends set_dn_rinstall_if]; rewrite elem_of_add_names|]; tauto.
Qed.

Lemma pkg_rdepends_spec pkg s n :
  let x := apk_db_get_name s n in
  let y := apk_db_get_name (apk_db_pkg_rdepends pkg s) n in
  dn_providers y = dn_providers x /\ dn_has_repository_providers y = dn_has_repository_providers x /\ dn_state y = dn_state x /\
  (NoDup (dn_rdepends x) -> NoDup (dn_rdepends y)) /\ (NoDup (dn_rinstall_if x) -> NoDup (dn_rinstall_if y)) /\
  (forall m, m ∈ dn_rdepends y <-> m ∈ dn_rdepends x \/ m ∈ names_of pkg /\ depends_on pkg n) /\
  (forall m, m ∈ dn_rinstall_if y <-> m ∈ dn_rinstall_if x \/ m ∈ names_of pkg /\ installs_if pkg n) /\
  (dn_is_dependency y = true <-> dn_is_dependency x = true \/ needs pkg n).
Proof.
  cbn zeta. unfold apk_db_pkg_rdepends. set (s1 := foldl _ s (depends pkg)).
  destruct (rdepends_depends pkg (depends pkg) s n) as (A1 & A2 & A3). fold s1 in A1, A2, A3.
  destruct (rdepends_install_if pkg (install_if pkg) s1 n) as (B1 & B2). cbn zeta in *.
  set (s2 := foldl _ s1 (install_if pkg)) in *.
  assert (K1 : forall {B} (pi : dbname -> B), (forall rl x, pi (set_dn_rinstall_if rl x) = pi x) -> pi (apk_db_get_name s2 n) = pi (apk_db_get_name s1 n)).
  { intros B pi Hpi. apply (fold_upd_keep pi). intros; apply Hpi. }
  assert (K2 : forall {B} (pi : dbname -> B), (forall rl b x, pi (set_dn_rdepends rl (set_dn_is_dependency b x)) = pi x) ->
    pi (apk_db_get_name s1 n) = pi (apk_db_get_name s n)).
  { intros B pi Hpi. apply (fold_upd_keep pi). intros; apply Hpi. }
  rewrite !(K1 _ dn_providers), !(K1 _ dn_has_repository_providers), !(K1 _ dn_state), !(K1 _ dn_rdepends), !(K1 _ dn_is_dependency) by done.
  rewrite !(K2 _ dn_providers), !(K2 _ dn_has_repository_providers), !(K2 _ dn_state) by done.
  rewrite (K2 _ dn_rinstall_if) in B1, B2 by done. by refine (conj eq_refl (conj eq_refl (conj eq_refl (conj A1 (conj B1 (conj A2 (conj B2 A3))))))).
Qed.

(** ** A new package *)

Lemma fold_add_provider a l s n b v :
  (b, v) ∈ dn_providers (apk_db_get_name (foldl (fun s d => add_provider (dep_name d) (a, dep_version d) s) s l) n) <->
  (b, v) ∈ dn_providers (apk_db_get_name s n) \/ b = a /\ (n, v) ∈ map (fun d => (dep_name d, dep_version d)) l.
Proof.
  revert s. induction l as [|d l IH]; intros s; cbn [foldl map].
  { rewrite elem_of_nil. tauto. }
  rewrite IH. unfold add_provider at 1. rewrite get_upd_name, elem_of_cons. case_bool_decide as E.
  - subst n. cbn [dn_providers set_dn_providers]. rewrite elem_of_app, list_elem_of_singleton.
    assert ((b, v) = (a, dep_version d) <-> b = a /\ (dep_name d, v) = (dep_name d, dep_version d)) by (split; [by intros [= -> ->]|by intros [-> [= ->]]]).
    tauto.
  - assert ((n, v) <> (dep_name d, dep_version d)) by congruence. tauto.
Qed.

(** The package is in the table and in the arrays of providers. *)
Definition listed (idb : apk_package) (id : apk_digest) (s : store) : store :=
  let a := st_next s in
  foldl (fun s d => add_provider (dep_name d) (a, dep_version d) s)
    (add_provider (pkg_nm idb) (a, pkg_ver idb)
      (Store (st_names s) (<[a := idb]> (st_pkgs s)) (<[id_key id := a]> (st_ids s)) (a + 1)
        (st_installed s) (st_open_complete s) (st_arches s) (st_noarch s))) (provides idb).

Lemma listed_spec idb id s :
  let s' := listed idb id s in
  st_pkgs s' = <[st_next s := idb]> (st_pkgs s) /\ st_ids s' = <[id_key id := st_next s]> (st_ids s) /\
  st_next s' = st_next s + 1 /\ st_open_complete s' = st_open_complete s /\ st_installed s' = st_installed s /\
  (forall n b v, (b, v) ∈ dn_providers (apk_db_get_name s' n) <->
     (b, v) ∈ dn_providers (apk_db_get_name s n) \/ b = st_next s /\ (n, v) ∈ prov_list idb) /\
  (forall B (pi : dbname -> B) n, (forall l x, pi (set_dn_providers l x) = pi x) ->
     pi (apk_db_get_name s' n) = pi (apk_db_get_name s n)).
Proof.
  cbn zeta. unfold listed. cbn zeta. set (s0 := Store _ _ _ _ _ _ _ _). set (s1 := add_provider _ _ s0). set (s2 := foldl _ s1 _).
  assert (R : same_rest s0 s2).
  { etrans; [|apply same_rest_fold; by intros]. done. }
  destruct R as (-> & -> & -> & -> & -> & _). repeat (split; [done|]). split.
  - intros n b v. unfold s2. rewrite fold_add_provider. unfold s1, add_provider. rewrite get_upd_name.
    change (apk_db_get_name s0) with (apk_db_get_name s). unfold prov_list. rewrite elem_of_cons. case_bool_decide as E.
    + subst n. cbn [dn_providers set_dn_providers]. rewrite elem_of_app, list_elem_of_singleton.
      assert ((b, v) = (st_next s, pkg_ver idb) <-> b = st_next s /\ (pkg_nm idb, v) = (pkg_nm idb, pkg_ver idb)) by (split; [by intros [= -> ->]|by intros [-> [= ->]]]).
      tauto.
    + assert ((n, v) <> (pkg_nm idb, pkg_ver idb)) by congruence. tauto.
  - intros B pi n Hpi. unfold s2. etrans; [apply (fold_upd_keep pi dep_name (fun d x => set_dn_providers (dn_providers x ++ [(st_next s, dep_version d)]) x)); intros; apply Hpi|].
    unfold s1, add_provider. rewrite get_upd_name. case_bool_decide as E; [subst n; by rewrite Hpi|done].
Qed.

(** One more package in what the invariant quantifies over. *)
Lemma insert_pkg s a p (Q : Z -> apk_package -> Prop) :
  st_pkgs s !! a = None ->
  (exists b q, <[a := p]> (st_pkgs s) !! b = Some q /\ Q b q) <-> Q a p \/ exists b q, st_pkgs s !! b = Some q /\ Q b q.
Proof.
  intros Ha. split.
  - intros (b & q & Hb & HQ). destruct (decide (b = a)) as [->|Hn].
    + rewrite lookup_insert_eq in Hb. injection Hb as <-. by left.
    + rewrite lookup_insert_ne in Hb by done. right. eauto.
  - intros [HQ|(b & q & Hb & HQ)]; [exists a, p; by rewrite lookup_insert_eq|]. exists b, q. split; [|done].
    rewrite lookup_insert_ne; [done|]. intros ->. congruence.
Qed.

Lemma next_free s : store_core s -> st_pkgs s !! st_next s = None.
Proof. intros C. destruct (st_pkgs s !! st_next s) as [p|] eqn:E; [|done]. destruct (ok_addr _ C _ _ E) as (_ & Hlt & _). lia. Qed.

Lemma lists_insert s s' p rel n (x y : list bytes) :
  store_core s -> st_pkgs s' = <[st_next s := p]> (st_pkgs s) ->
  (NoDup x -> NoDup y) -> (forall m, m ∈ y <-> m ∈ x \/ m ∈ names_of p /\ rel p n) ->
  lists_names s rel n x -> lists_names s' rel n y.
Proof.
  intros C Hp Hnd Hy [A B]. split; [auto|]. intros m. rewrite Hy, B, Hp.
  rewrite (insert_pkg s (st_next s) p (fun _ q => m ∈ names_of q /\ rel q n)) by (by apply next_free). tauto.
Qed.

Lemma new_package_pkgs pkg id s :
  let '(a, s') := new_package pkg id s in
  a = st_next s /\ st_pkgs s' = <[a := pkg_of_tmpl a pkg id]> (st_pkgs s) /\ st_installed s' = st_installed s /\
  st_open_complete s' = st_open_complete s /\
  forall n, dn_has_repository_providers (apk_db_get_name s' n) = dn_has_repository_providers (apk_db_get_name s n).
Proof.
  unfold new_package. fold (listed (pkg_of_tmpl (st_next s) pkg id) id s).
  destruct (listed_spec (pkg_of_tmpl (st_next s) pkg id) id s) as (L1 & L2 & L3 & L4 & L5 & _ & L7). cbn zeta in *.
  set (s2 := listed _ id s) in *. split; [done|]. destruct (st_open_complete s2) eqn:Eo.
  - assert (R : same_rest s2 (apk_db_pkg_rdepends (pkg_of_tmpl (st_next s) pkg id) s2)).
    { unfold apk_db_pkg_rdepends. etrans; [|apply same_rest_fold; by intros]. by apply same_rest_fold. }
    destruct R as (-> & _ & _ & -> & -> & _). repeat (split; [congruence|]). intros n.
    destruct (pkg_rdepends_spec (pkg_of_tmpl (st_next s) pkg id) s2 n) as (_ & -> & _). by apply L7.
  - repeat (split; [congruence|]). intros n. by apply L7.
Qed.

Lemma new_package_core pkg id s :
  store_core s -> st_ids s !! id_key id = None -> is_Some (pkg_name pkg) -> APK_DIGEST_LENGTH_SHA1 <= d_len id ->
  store_core (new_package pkg id s).2.
Proof.
  intros C Hid Hn Hlen. unfold new_package. set (idb := pkg_of_tmpl (st_next s) pkg id). fold (listed idb id s).
  destruct (listed_spec idb id s) as (L1 & L2 & L3 & L4 & L5 & L6 & L7). cbn zeta in *. set (s2 := listed idb id s) in *.
  pose proof (next_free s C) as Hfree.
  assert (Hkey : apk_pkg_hash_blob idb = id_key id).
  { unfold apk_pkg_hash_blob, id_key, idb. cbn [digest pkg_of_tmpl]. unfold ztake. rewrite take_take. f_equal. lia. }
  set (s3 := if st_open_complete s2 then _ else s2).
  assert (H3 : st_pkgs s3 = st_pkgs s2 /\ st_ids s3 = st_ids s2 /\ st_next s3 = st_next s2 /\ st_open_complete s3 = st_open_complete s2).
  { unfold s3. destruct (st_open_complete s2) eqn:Eo; [|done].
    assert (R : same_rest s2 (apk_db_pkg_rdepends idb s2)).
    { unfold apk_db_pkg_rdepends. etrans; [|apply same_rest_fold; by intros]. by apply same_rest_fold. }
    destruct R as (-> & -> & -> & _ & -> & _). done. }
  destruct H3 as (P3 & I3 & N3 & O3).
  assert (K3 : forall n, dn_providers (apk_db_get_name s3 n) = dn_providers (apk_db_get_name s2 n) /\
                         dn_state (apk_db_get_name s3 n) = dn_state (apk_db_get_name s n)).
  { intros n. unfold s3. destruct (st_open_complete s2); [|split; [done|by apply L7]].
    destruct (pkg_rdepends_spec idb s2 n) as (-> & _ & -> & _). split; [done|by apply L7]. }
  cbn [snd]. fold s3. constructor.
  - intros a p. rewrite P3, L1, N3, L3. destruct (decide (a = st_next s)) as [->|Ha].
    + rewrite lookup_insert_eq. intros [= <-]. split; [done|]. split; [lia|done].
    + rewrite lookup_insert_ne by done. intros Hp. destruct (ok_addr _ C a p Hp) as (? & ? & ?). split; [done|]. split; [lia|done].
  - intros n a v. destruct (K3 n) as [-> _]. rewrite L6, (ok_prov _ C), P3, L1.
    destruct (decide (a = st_next s)) as [->|Ha].
    + rewrite Hfree, lookup_insert_eq. split; [intros [(p & ? & _)|[_ ?]]; [done|eauto]|]. intros (p & [= <-] & ?). by right.
    + rewrite lookup_insert_ne by done. tauto.
  - intros k a. rewrite I3, L2, P3, L1. destruct (decide (a = st_next s)) as [->|Ha].
    + rewrite lookup_insert_eq. destruct (decide (k = id_key id)) as [->|Hk].
      * rewrite lookup_insert_eq. split; [intros _; by exists idb|done].
      * rewrite lookup_insert_ne by done. rewrite (ok_ids _ C), Hfree. split; [by intros (p & ? & _)|].
        intros (p & [= <-] & E). congruence.
    + rewrite (lookup_insert_ne (st_pkgs s) (st_next s) a idb) by done. destruct (decide (k = id_key id)) as [->|Hk].
      * rewrite lookup_insert_eq, <- (ok_ids _ C), Hid. split; [intros [= E]; congruence|done].
      * rewrite lookup_insert_ne by done. apply (ok_ids _ C).
  - intros n. destruct (K3 n) as [_ ->]. apply (ok_state _ C).
  - intros n. rewrite O3, L4. pose proof (ok_rdepends _ C n) as Hr. unfold s3. rewrite L4. destruct (st_open_complete s) eqn:Eo.
    + destruct (pkg_rdepends_spec idb s2 n) as (_ & _ & _ & Q1 & _ & Q2 & _).
      rewrite (L7 _ dn_rdepends) in Q1, Q2 by done. apply (lists_insert s _ idb depends_on n (dn_rdepends (apk_db_get_name s n))); auto.
      unfold s3 in P3. rewrite L4 in P3. by rewrite P3.
    + by rewrite (L7 _ dn_rdepends).
  - intros n. rewrite O3, L4. pose proof (ok_rinstall_if _ C n) as Hr. unfold s3. rewrite L4. destruct (st_open_complete s) eqn:Eo.
    + destruct (pkg_rdepends_spec idb s2 n) as (_ & _ & _ & _ & Q1 & _ & Q2 & _).
      rewrite (L7 _ dn_rinstall_if) in Q1, Q2 by done. apply (lists_insert s _ idb installs_if n (dn_rinstall_if (apk_db_get_name s n))); auto.
      unfold s3 in P3. rewrite L4 in P3. by rewrite P3.
    + by rewrite (L7 _ dn_rinstall_if).
  - intros n. rewrite O3, L4. pose proof (ok_dependency _ C n) as Hd. unfold s3 in *. rewrite L4 in *. destruct (st_open_complete s) eqn:Eo.
    + destruct (pkg_rdepends_spec idb s2 n) as (_ & _ & _ & _ & _ & _ & _ & ->). rewrite (L7 _ dn_is_dependency), Hd, P3, L1 by done.
      rewrite (insert_pkg s (st_next s) idb (fun _ q => needs q n)) by done. tauto.
    + rewrite (L7 _ dn_is_dependency), Hd by done. split; by intros [? _].
Qed.

(** ** Adding a package *)

Lemma lookup_upd_pkg a f s b :
  is_Some (st_pkgs s !! a) ->
  st_pkgs (upd_pkg a f s) !! b = if bool_decide (b = a) then f <$> st_pkgs s !! a else st_pkgs s !! b.
Proof.
  intros [p Hp]. unfold upd_pkg, get_pkg. cbn [st_pkgs set_st_pkgs]. rewrite Hp. cbn [default from_option].
  case_bool_decide as E; [subst b; by rewrite lookup_insert_eq|by rewrite lookup_insert_ne].
Qed.

Lemma merge_static pkg idb :
  static (let idb := set_repos (repos idb .| repos pkg) idb in
          if filename_ndx idb =? 0 then set_filename_ndx (filename_ndx pkg) idb else idb) = static idb.
Proof. cbn zeta. by case_test. Qed.

Lemma mark_repository_unseen nm idb s : unseen_change s (mark_repository nm idb s).
Proof.
  unfold mark_repository. etrans; [|by apply unseen_fold_names]. constructor; try done.
  intros n. rewrite get_upd_name. by case_bool_decide as E; [subst n|].
Qed.

Lemma mark_repository_spec nm idb s n :
  dn_has_repository_providers (apk_db_get_name (mark_repository nm idb s) n) = true <->
  dn_has_repository_providers (apk_db_get_name s n) = true \/ n = nm \/ n ∈ map dep_name (provides idb).
Proof.
  unfold mark_repository. generalize (provides idb) as l. intros l.
  set (s1 := upd_name nm _ s).
  assert (E : dn_has_repository_providers (apk_db_get_name s1 n) = true <-> dn_has_repository_providers (apk_db_get_name s n) = true \/ n = nm).
  { unfold s1. rewrite get_upd_name. case_bool_decide as Hn; [subst n; cbn; tauto|tauto]. }
  enough (G : forall s, dn_has_repository_providers (apk_db_get_name (foldl (fun s d => upd_name (dep_name d) (set_dn_has_repository_providers true) s) s l) n) = true <->
    dn_has_repository_providers (apk_db_get_name s n) = true \/ n ∈ map dep_name l) by (rewrite G, E; tauto).
  clear. induction l as [|d l IH]; intros s; cbn [foldl map]; [rewrite elem_of_nil; tauto|].
  rewrite IH, get_upd_name, elem_of_cons. case_bool_decide as E; [subst n; cbn; tauto|tauto].
Qed.

(** The package at an address, found or made. *)
Definition entered (t : apk_package_tmpl) (pkg : apk_package) (s : store) : Z * Z * store :=
  match st_ids s !! id_key (tm_id t) with
  | None => let '(a, s) := new_package pkg (tm_id t) s in (a, 0, s)
  | Some a => (a, u16 (repos (get_pkg s a)), merge_package pkg a s)
  end.

Lemma ids_pkg s k a : store_core s -> st_ids s !! k = Some a -> st_pkgs s !! a = Some (get_pkg s a).
Proof. intros C (p & Hp & _)%(ok_ids _ C). unfold get_pkg. by rewrite Hp. Qed.

Lemma entered_core t pkg s :
  store_core s -> is_Some (pkg_name pkg) -> APK_DIGEST_LENGTH_SHA1 <= d_len (tm_id t) ->
  store_core (entered t pkg s).2 /\ st_pkgs (entered t pkg s).2 !! (entered t pkg s).1.1 = Some (get_pkg (entered t pkg s).2 (entered t pkg s).1.1) /\
  st_installed (entered t pkg s).2 = st_installed s /\ (forall b, inst (entered t pkg s).2 b <-> inst s b).
Proof.
  intros C Hn Hl. unfold entered. destruct (st_ids s !! id_key (tm_id t)) as [a|] eqn:Ei.
  - pose proof (ids_pkg s _ a C Ei) as Hp. cbn [fst snd]. unfold merge_package.
    assert (Hs : is_Some (st_pkgs s !! a)) by (by rewrite Hp). split; [|split; [|split; [done|]]].
    + apply (unseen_core s); [|done]. apply unseen_upd_pkg; [done|]. intros p. apply merge_static.
    + unfold get_pkg. rewrite lookup_upd_pkg, bool_decide_eq_true_2 by done. by rewrite Hp.
    + intros b. unfold inst. rewrite lookup_upd_pkg by done. case_bool_decide as E; [subst b; rewrite Hp; cbn [fmap option_fmap option_map]|done].
      split; intros (p & [= <-] & Hi); eexists; (split; [done|]); revert Hi; by case_test.
  - pose proof (new_package_core pkg (tm_id t) s C Ei Hn Hl) as Hc. pose proof (new_package_pkgs pkg (tm_id t) s) as Hp.
    destruct (new_package pkg (tm_id t) s) as [a s']. destruct Hp as (-> & Hp & Hi & _). cbn [fst snd] in *.
    split; [done|]. split; [unfold get_pkg; by rewrite Hp, lookup_insert_eq|]. split; [done|].
    intros b. unfold inst. rewrite Hp. destruct (decide (b = st_next s)) as [->|Hbn]; [|by rewrite lookup_insert_ne].
    rewrite lookup_insert_eq, (next_free s C). split; [intros (p & [= <-] & Hx); by destruct Hx|by intros (p & ? & _)].
Qed.

(** Marking the names of a package that has just got its first repository. *)
Lemma repository_enter s s' a p old nm :
  repository_ok s -> st_pkgs s' = <[a := p]> (st_pkgs s) ->
  (forall n, dn_has_repository_providers (apk_db_get_name s' n) = dn_has_repository_providers (apk_db_get_name s n)) ->
  match st_pkgs s !! a with
  | None => old = 0
  | Some q => old = u16 (repos q) /\ names_of q = names_of p /\ (repos q <> 0 -> repos p <> 0)
  end ->
  pkg_name p = Some nm ->
  repository_ok (if negb (repos p =? 0) && (old =? 0) then mark_repository nm p s' else s').
Proof.
  intros R Hp Hh Hold Hn.
  assert (Hrep : forall n, (exists b q, st_pkgs s' !! b = Some q /\ repos q <> 0 /\ n ∈ names_of q) <->
    (repos p <> 0 /\ n ∈ names_of p) \/ exists b q, st_pkgs s !! b = Some q /\ repos q <> 0 /\ n ∈ names_of q).
  { intros n. rewrite Hp. split.
    - intros (b & q & Hb & HQ). destruct (decide (b = a)) as [->|Hba].
      + rewrite lookup_insert_eq in Hb. injection Hb as <-. by left.
      + rewrite lookup_insert_ne in Hb by done. right. eauto.
    - intros [HQ|(b & q & Hb & HQ1 & HQ2)]; [exists a, p; by rewrite lookup_insert_eq|].
      destruct (decide (b = a)) as [->|Hba]; [|exists b, q; by rewrite lookup_insert_ne].
      rewrite Hb in Hold. destruct Hold as (_ & En & Er). exists a, p. rewrite lookup_insert_eq, <- En. auto. }
  assert (Hnames : forall n, n ∈ names_of p <-> n = nm \/ n ∈ map dep_name (provides p)).
  { intros n. unfold names_of, pkg_nm. by rewrite Hn, elem_of_cons. }
  destruct (Z.eqb_spec (repos p) 0) as [E0|E0]; cbn [negb andb].
  { intros n. rewrite Hh, (R n), Hrep. tauto. }
  destruct (Z.eqb_spec old 0) as [E1|E1]; intros n.
  - rewrite mark_repository_spec, Hh.
    assert (Hpk : st_pkgs (mark_repository nm p s') = st_pkgs s').
    { unfold mark_repository. by apply (same_rest_fold (fun s d => upd_name (dep_name d) (set_dn_has_repository_providers true) s) _ (upd_name nm _ s')). }
    rewrite Hpk, Hrep, (R n), Hnames. tauto.
  - rewrite Hh, (R n), Hrep. split; [tauto|]. intros [[_ Hx]|?]; [|done].
    destruct (st_pkgs s !! a) as [q|] eqn:Ea; [|done]. destruct Hold as (-> & En & _). exists a, q. rewrite En.
    split; [done|]. split; [|done]. intros E. by rewrite E in E1.
Qed.

Lemma entered_repository t pkg nm s :
  store_core s -> repository_ok s -> pkg_name pkg = Some nm ->
  (forall a, st_ids s !! id_key (tm_id t) = Some a -> pkg_name (get_pkg s a) = Some nm) ->
  let '(a, old_repos, s') := entered t pkg s in
  repository_ok (if negb (repos (get_pkg s' a) =? 0) && (old_repos =? 0) then mark_repository nm (get_pkg s' a) s' else s').
Proof.
  intros C R Hn Hsame. unfold entered. destruct (st_ids s !! id_key (tm_id t)) as [a|] eqn:Ei.
  - specialize (Hsame a eq_refl). pose proof (ids_pkg s _ a C Ei) as Hp. unfold merge_package. set (f := fun idb => _).
    assert (Hg : get_pkg (upd_pkg a f s) a = f (get_pkg s a)).
    { unfold get_pkg at 1, upd_pkg. cbn [st_pkgs set_st_pkgs]. by rewrite lookup_insert_eq. }
    destruct (static_eq _ _ (merge_static pkg (get_pkg s a) : static (f (get_pkg s a)) = _)) as (_ & Hnm & Hno & _).
    rewrite Hg. apply (repository_enter s _ a); try done; [|congruence]. rewrite Hp. split; [done|]. split; [done|].
    intros Hr E. apply Hr. assert (Hr' : repos (f (get_pkg s a)) = repos (get_pkg s a) .| repos pkg) by (unfold f; cbn zeta; by case_test).
    rewrite E in Hr'. by apply eq_sym, Z.lor_eq_0_iff in Hr' as [? _].
  - pose proof (new_package_pkgs pkg (tm_id t) s) as Hp. destruct (new_package pkg (tm_id t) s) as [a s']. destruct Hp as (-> & Hp & _ & _ & Hh).
    set (idb := pkg_of_tmpl (st_next s) pkg (tm_id t)) in *.
    assert (Hg : get_pkg s' (st_next s) = idb) by (unfold get_pkg; by rewrite Hp, lookup_insert_eq). rewrite Hg.
    apply (repository_enter s _ (st_next s)); try done. by rewrite next_free.
Qed.

Lemma move_ipkg_unseen tmpl a ip s : is_Some (st_pkgs s !! a) -> unseen_change s (move_ipkg tmpl a ip s).
Proof.
  intros Ha. unfold move_ipkg. pose proof (unseen_upd_pkg a (set_ipkg (Some ip)) s Ha ltac:(done)) as [U1 U2 U3 U4 U5]. by constructor.
Qed.

Lemma move_ipkg_repository tmpl a ip s : is_Some (st_pkgs s !! a) -> repository_ok s -> repository_ok (move_ipkg tmpl a ip s).
Proof.
  intros Ha R n. change (apk_db_get_name (move_ipkg tmpl a ip s) n) with (apk_db_get_name s n). rewrite (R n).
  change (st_pkgs (move_ipkg tmpl a ip s)) with (st_pkgs (upd_pkg a (set_ipkg (Some ip)) s)).
  split; intros (b & p & Hb & HQ).
  - destruct (decide (b = a)) as [->|Hba]; [exists a, (set_ipkg (Some ip) p)|exists b, p]; rewrite lookup_upd_pkg by done.
    + rewrite bool_decide_eq_true_2, Hb by done. done.
    + by rewrite bool_decide_eq_false_2.
  - rewrite lookup_upd_pkg in Hb by done. case_bool_decide as E; [subst b|eauto].
    destruct (st_pkgs s !! a) as [q|] eqn:Eq; [|done]. cbn in Hb. injection Hb as <-. exists a, q. done.
Qed.

(** The template's record of the installed package is on the list too, and the package it
    stands for is not installed yet. *)
Definition tmpl_installed (t : apk_package_tmpl) (s : store) : Prop :=
  match ipkg (tm_pkg t) with
  | None => installed_ok s
  | Some _ => NoDup (st_installed s) /\ st_pkgs s !! pkg_addr (tm_pkg t) = None /\
      (forall b, b ∈ st_installed s <-> inst s b \/ b = pkg_addr (tm_pkg t)) /\
      (forall a, st_ids s !! id_key (tm_id t) = Some a -> ipkg (get_pkg s a) = None)
  end.

(** Handing the record over. *)
Lemma move_ipkg_installed tmpl a ip s :
  is_Some (st_pkgs s !! a) -> ~ inst s a -> a <> tmpl -> NoDup (st_installed s) -> ~ inst s tmpl ->
  (forall b, b ∈ st_installed s <-> inst s b \/ b = tmpl) -> installed_ok (move_ipkg tmpl a ip s).
Proof.
  intros Ha Hn Hat Hnd Hti Hl. assert (Hal : a ∉ st_installed s) by (rewrite Hl; tauto).
  unfold installed_ok, move_ipkg, inst. cbn [st_installed st_pkgs set_st_installed]. change (st_installed (upd_pkg a _ s)) with (st_installed s). split.
  - apply NoDup_fmap_2_strong; [|done]. intros x y Hx Hy. destruct (Z.eqb_spec x tmpl), (Z.eqb_spec y tmpl); congruence.
  - intros b. rewrite list_elem_of_fmap, lookup_upd_pkg by done. split.
    + intros (c & -> & Hc). destruct (Z.eqb_spec c tmpl) as [Ec|Ec].
      * rewrite bool_decide_eq_true_2 by done. destruct Ha as [q ->]. eexists. by split; [|eexists].
      * apply Hl in Hc as [Hc|Hc]; [|done]. case_bool_decide as E; [by subst c|exact Hc].
    + case_bool_decide as E.
      * subst b. intros _. exists tmpl. rewrite Z.eqb_refl. split; [done|]. apply Hl. by right.
      * intros Hb. exists b. destruct (Z.eqb_spec b tmpl) as [->|Eb]; [by destruct Hti|]. split; [done|]. apply Hl. by left.
Qed.

Lemma pkg_add_ok t s r t' s' :
  store_core s -> repository_ok s ->
  (forall a, st_ids s !! id_key (tm_id t) = Some a -> pkg_name (get_pkg s a) = pkg_name (tm_pkg t)) ->
  apk_db_pkg_add t s = (r, t', s') ->
  store_core s' /\ repository_ok s' /\
  (is_Some r -> tmpl_installed t s -> pkg_addr (tm_pkg t) <> st_next s -> installed_ok s').
Proof.
  intros C R Hsame. unfold apk_db_pkg_add. destruct (pkg_name (tm_pkg t)) as [nm|] eqn:En; [|intros [= <- <- <-]; split; [done|]; split; [done|]; by intros [? ?]].
  destruct (version (tm_pkg t)) as [v|]; [|intros [= <- <- <-]; split; [done|]; split; [done|]; by intros [? ?]].
  destruct (Z.ltb_spec (d_len (tm_id t)) APK_DIGEST_LENGTH_SHA1) as [Hl|Hl]; [intros [= <- <- <-]; split; [done|]; split; [done|]; by intros [? ?]|].
  cbn zeta. set (pkg := if apk_db_arch_compatible _ _ _ then _ else _). fold (entered t pkg s).
  assert (Hn : pkg_name pkg = Some nm /\ ipkg pkg = ipkg (tm_pkg t) /\ pkg_addr pkg = pkg_addr (tm_pkg t)) by (unfold pkg; by case_test).
  destruct Hn as (Hn & Hip & Had).
  destruct (entered_core t pkg s C ltac:(by rewrite Hn) Hl) as (C1 & P1 & I1 & M1).
  pose proof (entered_repository t pkg nm s C R Hn Hsame) as R1.
  assert (Hold : is_Some (ipkg (tm_pkg t)) -> tmpl_installed t s -> ipkg (get_pkg (entered t pkg s).2 (entered t pkg s).1.1) = None).
  { intros [ip Hi]. unfold tmpl_installed. rewrite Hi. intros (_ & _ & _ & Hd). unfold entered. destruct (st_ids s !! id_key (tm_id t)) as [a|] eqn:Ei.
    - cbn [fst snd]. unfold get_pkg at 1, merge_package, upd_pkg. cbn [st_pkgs set_st_pkgs]. rewrite lookup_insert_eq. cbn [default from_option].
      case_test; apply (Hd a eq_refl).
    - pose proof (new_package_pkgs pkg (tm_id t) s) as Hp. destruct (new_package pkg (tm_id t) s) as [a s2]. destruct Hp as (-> & Hp & _).
      cbn [fst snd]. unfold get_pkg. by rewrite Hp, lookup_insert_eq. }
  assert (Hnew : forall b, st_pkgs s !! b = None -> b <> (entered t pkg s).1.1 \/ b = st_next s).
  { intros b Hb. unfold entered. destruct (st_ids s !! id_key (tm_id t)) as [a|] eqn:Ei.
    - left. cbn [fst]. intros ->. rewrite (ids_pkg s _ a C Ei) in Hb. done.
    - pose proof (new_package_pkgs pkg (tm_id t) s) as Hp. destruct (new_package pkg (tm_id t) s) as [a s2]. destruct Hp as (-> & _). cbn [fst].
      destruct (decide (b = st_next s)); tauto. }
  destruct (entered t pkg s) as [[a old] s1]. cbn [fst snd] in *.
  set (s2 := if _ && _ then mark_repository nm (get_pkg s1 a) s1 else s1) in *.
  assert (U2 : unseen_change s1 s2) by (unfold s2; case_test; [apply mark_repository_unseen|done]).
  assert (R2 : same_rest s1 s2).
  { unfold s2. case_test; [|done]. unfold mark_repository. etrans; [|apply same_rest_fold; by intros]. done. }
  assert (P2 : st_pkgs s2 = st_pkgs s1) by apply R2. assert (I2 : st_installed s2 = st_installed s) by (rewrite <- I1; apply R2).
  pose proof (unseen_core _ _ U2 C1) as C2.
  assert (Hin : forall b, inst s2 b <-> inst s b) by (intros b; unfold inst in *; by rewrite P2).
  unfold tmpl_installed in *. rewrite Hip, Had. destruct (ipkg (tm_pkg t)) as [ip|] eqn:Ei.
  - destruct (ipkg (get_pkg s1 a)) as [ip'|] eqn:Ea; intros [= <- <- <-].
    + split; [done|]. split; [done|]. intros _ Ht Hx. specialize (Hold ltac:(done) Ht). congruence.
    + assert (Hs : is_Some (st_pkgs s2 !! a)) by (by rewrite P2, P1).
      split; [apply (unseen_core s2); [by apply move_ipkg_unseen|done]|]. split; [by apply move_ipkg_repository|].
      intros _ (Hnd & Ht & Hls & _) Hx. assert (Hat : a <> pkg_addr (tm_pkg t)) by (destruct (Hnew _ Ht); congruence).
      apply move_ipkg_installed; try done; rewrite ?I2; try done.
      * intros (p & Hp & Hi). rewrite P2, P1 in Hp. injection Hp as <-. rewrite Ea in Hi. by destruct Hi.
      * rewrite Hin. intros (p & Hp & _). congruence.
      * intros b. rewrite Hin. apply Hls.
  - intros Heq. assert (s' = s2 /\ r = Some a) as [-> ->] by (destruct (ipkg (get_pkg s1 a)); by simplify_eq).
    split; [done|]. split; [done|]. intros _ [Hnd Hls] _. split; [by rewrite I2|]. intros b. rewrite I2, Hin. apply Hls.
Qed.

(** ** Reverse dependencies of all names *)

Definition on_list (l : list apk_dependency) (n : bytes) : bool := bool_decide (n ∈ map dep_name l).

Lemma on_list_snoc l d n : on_list (l ++ [d]) n = on_list l n || bool_decide (n = dep_name d).
Proof.
  unfold on_list. rewrite map_app. cbn [map]. rewrite <- bool_decide_or. apply bool_decide_ext.
  by rewrite elem_of_app, list_elem_of_singleton.
Qed.

Lemma on_list_app l k n : on_list (l ++ k) n = on_list l n || on_list k n.
Proof. unfold on_list. rewrite map_app, <- bool_decide_or. apply bool_decide_ext. by rewrite elem_of_app. Qed.

Lemma on_list_true l n : on_list l n = true <-> n ∈ map dep_name l.
Proof. unfold on_list. by rewrite bool_decide_eq_true. Qed.

(** While a name is visited: [D] and [I] are the dependencies met so far. *)
Record visiting (name : bytes) (s0 : store) (D I : list apk_dependency) (s : store) (t : touched) : Prop := {
  v_rest : same_rest s0 s;
  v_prov n : dn_providers (apk_db_get_name s n) = dn_providers (apk_db_get_name s0 n);
  v_repo n : dn_has_repository_providers (apk_db_get_name s n) = dn_has_repository_providers (apk_db_get_name s0 n);
  v_state n : dn_state (apk_db_get_name s n) = Z.b2z (on_list D n) + 2 * Z.b2z (on_list I n);
  v_rdepends n : dn_rdepends (apk_db_get_name s n) = dn_rdepends (apk_db_get_name s0 n) ++ (if on_list D n then [name] else []);
  v_rinstall_if n : dn_rinstall_if (apk_db_get_name s n) = dn_rinstall_if (apk_db_get_name s0 n) ++ (if on_list I n then [name] else []);
  v_dependency n : dn_is_dependency (apk_db_get_name s n) = true <->
    dn_is_dependency (apk_db_get_name s0 n) = true \/ exists d, d ∈ D /\ dep_name d = n /\ apk_dep_conflict d = false;
  v_num : 0 <= t_num t;
  v_touched n : t_num t <= TOUCHED -> on_list D n || on_list I n = true -> n ∈ t_names t;
}.

Lemma state_bits (a b : bool) :
  (((Z.b2z a + 2 * Z.b2z b) .& 1 =? 0) = negb a) /\ (((Z.b2z a + 2 * Z.b2z b) .& 2 =? 0) = negb b) /\
  ((Z.b2z a + 2 * Z.b2z b =? 0) = negb (a || b)) /\
  ((Z.b2z a + 2 * Z.b2z b) .| 1 = 1 + 2 * Z.b2z b) /\ ((Z.b2z a + 2 * Z.b2z b) .| 2 = Z.b2z a + 2).
Proof. by destruct a, b. Qed.

Lemma touch_names t rname n (met : bool) :
  0 <= t_num t -> (t_num t <= TOUCHED -> met = true -> n ∈ t_names t) ->
  t_num (touch rname t) <= TOUCHED -> n = rname \/ met = true -> n ∈ t_names (touch rname t).
Proof.
  unfold touch. cbn [t_num t_names]. intros H0 Hm Hn Hx. rewrite (proj2 (Z.ltb_lt _ _)) by lia.
  rewrite elem_of_app, list_elem_of_singleton. destruct Hx as [->|Hx]; [by right|left]. apply Hm; [lia|done].
Qed.

(** A name met as a dependency or as an install_if. *)
Lemma visit_depend name s0 D I s t d :
  visiting name s0 D I s t ->
  let '(s', t') := meet 1 (fun rn => set_dn_rdepends (dn_rdepends rn ++ [name]) rn) (dep_name d)
    (upd_name (dep_name d) (fun rn => set_dn_is_dependency (dn_is_dependency rn || negb (apk_dep_conflict d)) rn) s, t) in
  visiting name s0 (D ++ [d]) I s' t'.
Proof.
  intros [V1 V2 V3 V4 V5 V6 V7 V8 V9]. unfold meet. set (s1 := upd_name (dep_name d) _ s).
  assert (E1 : forall n, apk_db_get_name s1 n = if bool_decide (n = dep_name d) then _ else _) by (intros n; apply get_upd_name).
  assert (Hdep : forall n, dn_is_dependency (apk_db_get_name s1 n) = true <->
    dn_is_dependency (apk_db_get_name s0 n) = true \/ exists e, e ∈ D ++ [d] /\ dep_name e = n /\ apk_dep_conflict e = false).
  { intros n. assert (Hx : (exists e, e ∈ D ++ [d] /\ dep_name e = n /\ apk_dep_conflict e = false) <->
      (exists e, e ∈ D /\ dep_name e = n /\ apk_dep_conflict e = false) \/ dep_name d = n /\ apk_dep_conflict d = false).
    { split; [intros (e & [He| ->%list_elem_of_singleton]%elem_of_app & HQ); eauto|].
      intros [(e & He & HQ)|HQ]; [exists e|exists d]; (split; [apply elem_of_app; rewrite ?list_elem_of_singleton; auto|done]). }
    rewrite Hx, E1. case_bool_decide as En; [subst n; cbn [dn_is_dependency set_dn_is_dependency]|rewrite V7; intuition congruence].
    rewrite orb_true_iff, negb_true_iff, V7. tauto. }
  assert (Hst : dn_state (apk_db_get_name s1 (dep_name d)) = Z.b2z (on_list D (dep_name d)) + 2 * Z.b2z (on_list I (dep_name d))).
  { rewrite E1, bool_decide_eq_true_2 by done. apply V4. }
  destruct (state_bits (on_list D (dep_name d)) (on_list I (dep_name d))) as (B1 & _ & B3 & B4 & _).
  rewrite Hst, B1, B3. destruct (on_list D (dep_name d)) eqn:Eo; cbn [negb orb].
  - assert (Hno : forall n, on_list (D ++ [d]) n = on_list D n).
    { intros n. rewrite on_list_snoc. case_bool_decide as E; [subst n; by rewrite Eo|by rewrite orb_false_r]. }
    constructor; try done; intros n; rewrite ?Hno; try (rewrite E1; case_bool_decide as E; [subst n|]); cbn; auto.
  - set (s2 := upd_name (dep_name d) _ s1).
    assert (E2 : forall n, apk_db_get_name s2 n = if bool_decide (n = dep_name d) then _ else _) by (intros n; apply get_upd_name).
    assert (Hg : apk_db_get_name s1 (dep_name d) = set_dn_is_dependency (dn_is_dependency (apk_db_get_name s (dep_name d)) || negb (apk_dep_conflict d)) (apk_db_get_name s (dep_name d))).
    { by rewrite E1, bool_decide_eq_true_2. }
    constructor.
    + done.
    + intros n. rewrite E2. case_bool_decide as E; [subst n; rewrite Hg; apply V2|rewrite E1, bool_decide_eq_false_2 by done; apply V2].
    + intros n. rewrite E2. case_bool_decide as E; [subst n; rewrite Hg; apply V3|rewrite E1, bool_decide_eq_false_2 by done; apply V3].
    + intros n. rewrite E2, on_list_snoc. case_bool_decide as E; [subst n|rewrite E1, bool_decide_eq_false_2, orb_false_r by done; apply V4].
      cbn [dn_state set_dn_rdepends set_dn_state]. rewrite Hst, orb_true_r. exact B4.
    + intros n. rewrite E2, on_list_snoc. case_bool_decide as E; [subst n|rewrite E1, bool_decide_eq_false_2, orb_false_r by done; apply V5].
      cbn [dn_rdepends set_dn_rdepends set_dn_state]. rewrite Hg, orb_true_r. cbn [dn_rdepends set_dn_is_dependency]. rewrite V5, Eo. by rewrite app_nil_r.
    + intros n. rewrite E2. case_bool_decide as E; [subst n; rewrite Hg; apply V6|rewrite E1, bool_decide_eq_false_2 by done; apply V6].
    + intros n. rewrite <- Hdep, E2. case_bool_decide as E; [subst n; done|done].
    + destruct (on_list I (dep_name d)); [done|cbn [negb touch t_num]; lia].
    + intros n. rewrite on_list_snoc. destruct (on_list I (dep_name d)) eqn:Ei; cbn [negb].
      * intros Hn Hx. apply V9; [done|]. revert Hx. case_bool_decide as E; [subst n; intros _; by rewrite Ei, orb_true_r|by rewrite orb_false_r].
      * intros Hn Hx. apply (touch_names t (dep_name d) n (on_list D n || on_list I n) V8 (V9 n)); [done|].
        revert Hx. case_bool_decide; [by left|rewrite orb_false_r; by right].
Qed.

Lemma visit_install_if name s0 D I s t d :
  visiting name s0 D I s t ->
  let '(s', t') := meet 2 (fun rn => set_dn_rinstall_if (dn_rinstall_if rn ++ [name]) rn) (dep_name d) (s, t) in
  visiting name s0 D (I ++ [d]) s' t'.
Proof.
  intros [V1 V2 V3 V4 V5 V6 V7 V8 V9]. unfold meet.
  destruct (state_bits (on_list D (dep_name d)) (on_list I (dep_name d))) as (_ & B2 & B3 & _ & B5).
  rewrite V4, B2, B3. destruct (on_list I (dep_name d)) eqn:Eo; cbn [negb].
  - assert (Hno : forall n, on_list (I ++ [d]) n = on_list I n).
    { intros n. rewrite on_list_snoc. case_bool_decide as E; [subst n; by rewrite Eo|by rewrite orb_false_r]. }
    constructor; try done; intros n; rewrite ?Hno; auto.
  - set (s2 := upd_name (dep_name d) _ s).
    assert (E2 : forall n, apk_db_get_name s2 n = if bool_decide (n = dep_name d) then _ else _) by (intros n; apply get_upd_name).
    constructor.
    + done.
    + intros n. rewrite E2. case_bool_decide as E; [subst n; apply V2|apply V2].
    + intros n. rewrite E2. case_bool_decide as E; [subst n; apply V3|apply V3].
    + intros n. rewrite E2, on_list_snoc. case_bool_decide as E; [subst n|rewrite orb_false_r; apply V4].
      cbn [dn_state set_dn_rinstall_if set_dn_state]. rewrite V4, orb_true_r, Eo. exact B5.
    + intros n. rewrite E2. case_bool_decide as E; [subst n; apply V5|apply V5].
    + intros n. rewrite E2, on_list_snoc. case_bool_decide as E; [subst n|rewrite orb_false_r; apply V6].
      cbn [dn_rinstall_if set_dn_rinstall_if set_dn_state]. rewrite orb_true_r, V6, Eo. by rewrite app_nil_r.
    + intros n. rewrite <- V7, E2. case_bool_decide as E; [subst n; done|done].
    + destruct (on_list D (dep_name d)); [done|cbn [negb touch t_num orb]; lia].
    + intros n. rewrite on_list_snoc. destruct (on_list D (dep_name d)) eqn:Ei; cbn [negb orb].
      * intros Hn Hx. apply V9; [done|]. revert Hx. case_bool_decide as E; [subst n; intros _; by rewrite Ei|by rewrite orb_false_r].
      * intros Hn Hx. apply (touch_names t (dep_name d) n (on_list D n || on_list I n) V8 (V9 n)); [done|].
        revert Hx. case_bool_decide; [by left|rewrite orb_false_r; by right].
Qed.

Lemma visit_depends name s0 D I l : forall s t,
  visiting name s0 D I s t ->
  let '(s', t') := foldl (fun st d =>
      let '(s, t) := st in
      let s := upd_name (dep_name d) (fun rn => set_dn_is_dependency (dn_is_dependency rn || negb (apk_dep_conflict d)) rn) s in
      meet 1 (fun rn => set_dn_rdepends (dn_rdepends rn ++ [name]) rn) (dep_name d) (s, t)) (s, t) l in
  visiting name s0 (D ++ l) I s' t'.
Proof.
  revert D. induction l as [|d l IH]; intros D s t V; cbn [foldl]; [by rewrite app_nil_r|].
  pose proof (visit_depend name s0 D I s t d V) as V1. destruct (meet 1 _ _ _) as [s1 t1].
  specialize (IH (D ++ [d]) s1 t1 V1). by rewrite <- app_assoc in IH.
Qed.

Lemma visit_install_ifs name s0 D I l : forall s t,
  visiting name s0 D I s t ->
  let '(s', t') := foldl (fun st d => meet 2 (fun rn => set_dn_rinstall_if (dn_rinstall_if rn ++ [name]) rn) (dep_name d) st) (s, t) l in
  visiting name s0 D (I ++ l) s' t'.
Proof.
  revert I. induction l as [|d l IH]; intros I s t V; cbn [foldl]; [by rewrite app_nil_r|].
  pose proof (visit_install_if name s0 D I s t d V) as V1. destruct (meet 2 _ _ _) as [s1 t1].
  specialize (IH (I ++ [d]) s1 t1 V1). by rewrite <- app_assoc in IH.
Qed.

(** The dependencies of the providers of a name. *)
Definition prov_depends (s : store) (provs : list (Z * bytes)) : list apk_dependency := provs ≫= (fun p => depends (get_pkg s p.1)).
Definition prov_install_if (s : store) (provs : list (Z * bytes)) : list apk_dependency := provs ≫= (fun p => install_if (get_pkg s p.1)).

Lemma visit_providers name s0 provs : forall D I s t,
  visiting name s0 D I s t ->
  let '(s', t') := foldl (fun st p =>
      let pkg := get_pkg s0 p.1 in
      let st := foldl (fun st d =>
                  let '(s, t) := st in
                  let s := upd_name (dep_name d) (fun rn => set_dn_is_dependency (dn_is_dependency rn || negb (apk_dep_conflict d)) rn) s in
                  meet 1 (fun rn => set_dn_rdepends (dn_rdepends rn ++ [name]) rn) (dep_name d) (s, t)) st (depends pkg) in
      foldl (fun st d => meet 2 (fun rn => set_dn_rinstall_if (dn_rinstall_if rn ++ [name]) rn) (dep_name d) st)
        st (install_if pkg)) (s, t) provs in
  visiting name s0 (D ++ prov_depends s0 provs) (I ++ prov_install_if s0 provs) s' t'.
Proof.
  induction provs as [|p provs IH]; intros D I s t V; cbn [foldl].
  { unfold prov_depends, prov_install_if. cbn [mbind list_bind]. by rewrite !app_nil_r. }
  cbn zeta. pose proof (visit_depends name s0 D I (depends (get_pkg s0 p.1)) s t V) as V1.
  destruct (foldl _ (s, t) (depends (get_pkg s0 p.1))) as [s1 t1].
  pose proof (visit_install_ifs name s0 _ I (install_if (get_pkg s0 p.1)) s1 t1 V1) as V2.
  destruct (foldl _ (s1, t1) (install_if (get_pkg s0 p.1))) as [s2 t2].
  specialize (IH _ _ s2 t2 V2). by rewrite <- !app_assoc in IH.
Qed.

(** Clearing the marks. *)
Lemma clear_marks {A} (k : A -> bytes) (l : list A) s :
  let s' := foldl (fun s x => upd_name (k x) (set_dn_state 0) s) s l in
  same_rest s s' /\
  (forall n, n ∈ map k l \/ dn_state (apk_db_get_name s n) = 0 -> dn_state (apk_db_get_name s' n) = 0) /\
  (forall B (pi : dbname -> B) n, (forall v x, pi (set_dn_state v x) = pi x) -> pi (apk_db_get_name s' n) = pi (apk_db_get_name s n)).
Proof.
  cbn zeta. split; [by apply same_rest_fold|]. split.
  - intros n. revert s. induction l as [|x l IH]; intros s; cbn [foldl map].
    { rewrite elem_of_nil. tauto. }
    rewrite elem_of_cons. intros Hn. apply IH. rewrite get_upd_name. case_bool_decide as E; [by right|tauto].
  - intros B pi n Hpi. apply (fold_upd_keep pi). intros; apply Hpi.
Qed.

Lemma clear_provs provs : forall s,
  let s' := foldl (fun s p =>
         let pkg := get_pkg s p.1 in
         foldl (fun s d => upd_name (dep_name d) (set_dn_state 0) s)
           (foldl (fun s d => upd_name (dep_name d) (set_dn_state 0) s) s (depends pkg)) (install_if pkg)) s provs in
  same_rest s s' /\
  (forall n, on_list (prov_depends s provs) n || on_list (prov_install_if s provs) n = true \/ dn_state (apk_db_get_name s n) = 0 ->
     dn_state (apk_db_get_name s' n) = 0) /\
  (forall B (pi : dbname -> B) n, (forall v x, pi (set_dn_state v x) = pi x) -> pi (apk_db_get_name s' n) = pi (apk_db_get_name s n)).
Proof.
  induction provs as [|p provs IH]; intros s; cbn [foldl]; cbn zeta.
  { split; [done|]. split; [|done]. intros n [Hn|Hn]; [done|done]. }
  destruct (clear_marks dep_name (depends (get_pkg s p.1)) s) as (R1 & S1 & K1).
  set (s1 := foldl _ s (depends _)) in *.
  destruct (clear_marks dep_name (install_if (get_pkg s p.1)) s1) as (R2 & S2 & K2). set (s2 := foldl _ s1 (install_if _)) in *.
  destruct (IH s2) as (R3 & S3 & K3). cbn zeta in *.
  assert (R12 : same_rest s s2) by (by etrans).
  assert (Eb : prov_depends s2 provs = prov_depends s provs /\ prov_install_if s2 provs = prov_install_if s provs).
  { unfold prov_depends, prov_install_if. split; apply list_bind_ext; auto; intros q; by rewrite (same_rest_pkg _ _ _ R12). }
  destruct Eb as [Eb1 Eb2]. rewrite Eb1, Eb2 in S3. split; [by etrans|]. split.
  - intros n Hn. apply S3. change (prov_depends s (p :: provs)) with (depends (get_pkg s p.1) ++ prov_depends s provs) in Hn.
    change (prov_install_if s (p :: provs)) with (install_if (get_pkg s p.1) ++ prov_install_if s provs) in Hn.
    rewrite !on_list_app in Hn. specialize (S1 n). specialize (S2 n). rewrite <- on_list_true in S1, S2.
    destruct (on_list (prov_depends s provs) n); [by left|]. destruct (on_list (prov_install_if s provs) n); [by left|].
    right. rewrite !orb_false_r, orb_true_iff in Hn. tauto.
  - intros B pi n Hpi. rewrite (K3 _ pi), (K2 _ pi) by done. by apply K1.
Qed.

(** A visit of one name: it is appended to the arrays of the names its providers depend on. *)
Record visited (name : bytes) (s s' : store) : Prop := {
  vd_rest : same_rest s s';
  vd_prov n : dn_providers (apk_db_get_name s' n) = dn_providers (apk_db_get_name s n);
  vd_repo n : dn_has_repository_providers (apk_db_get_name s' n) = dn_has_repository_providers (apk_db_get_name s n);
  vd_state n : dn_state (apk_db_get_name s' n) = 0;
  vd_rdepends n : dn_rdepends (apk_db_get_name s' n) = dn_rdepends (apk_db_get_name s n) ++
    (if on_list (prov_depends s (dn_providers (apk_db_get_name s name))) n then [name] else []);
  vd_rinstall_if n : dn_rinstall_if (apk_db_get_name s' n) = dn_rinstall_if (apk_db_get_name s n) ++
    (if on_list (prov_install_if s (dn_providers (apk_db_get_name s name))) n then [name] else []);
  vd_dependency n : dn_is_dependency (apk_db_get_name s' n) = true <->
    dn_is_dependency (apk_db_get_name s n) = true \/
    exists d, d ∈ prov_depends s (dn_providers (apk_db_get_name s name)) /\ dep_name d = n /\ apk_dep_conflict d = false;
}.

Lemma visiting_cleared name s D I s1 t s' :
  visiting name s D I s1 t -> same_rest s1 s' ->
  (forall n, on_list D n || on_list I n = true \/ dn_state (apk_db_get_name s1 n) = 0 -> dn_state (apk_db_get_name s' n) = 0) ->
  (forall B (pi : dbname -> B) n, (forall v x, pi (set_dn_state v x) = pi x) -> pi (apk_db_get_name s' n) = pi (apk_db_get_name s1 n)) ->
  D = prov_depends s (dn_providers (apk_db_get_name s name)) -> I = prov_install_if s (dn_providers (apk_db_get_name s name)) ->
  visited name s s'.
Proof.
  intros V R S K -> ->. constructor.
  - etrans; [apply V|exact R].
  - intros n. rewrite (K _ dn_providers) by done. apply V.
  - intros n. rewrite (K _ dn_has_repository_providers) by done. apply V.
  - intros n. apply S. rewrite (v_state _ _ _ _ _ _ V). destruct (on_list _ n); [by left|]. destruct (on_list _ n); [by left|by right].
  - intros n. rewrite (K _ dn_rdepends) by done. apply V.
  - intros n. rewrite (K _ dn_rinstall_if) by done. apply V.
  - intros n. rewrite (K _ dn_is_dependency) by done. apply V.
Qed.

Lemma name_rdepends_visited name s :
  (forall n, dn_state (apk_db_get_name s n) = 0) -> visited name s (apk_db_name_rdepends name s).
Proof.
  intros H0. unfold apk_db_name_rdepends. set (provs := dn_providers (apk_db_get_name s name)).
  assert (V0 : visiting name s [] [] s (Touched [] 0)).
  { constructor; try done; intros n; rewrite ?app_nil_r; try done.
    split; [by left|]. intros [?|(d & Hd & _)]; [done|by apply elem_of_nil in Hd]. }
  pose proof (visit_providers name s provs [] [] s (Touched [] 0) V0) as V. cbn [app] in V.
  destruct (foldl _ (s, Touched [] 0) provs) as [s1 t]. destruct (Z.ltb_spec TOUCHED (t_num t)) as [Ht|Ht].
  - destruct (clear_provs provs s1) as (R & S & K).
    assert (Eb : prov_depends s1 provs = prov_depends s provs /\ prov_install_if s1 provs = prov_install_if s provs).
    { unfold prov_depends, prov_install_if. split; apply list_bind_ext; auto; intros q; by rewrite (same_rest_pkg _ _ _ (v_rest _ _ _ _ _ _ V)). }
    destruct Eb as [E1 E2]. rewrite E1, E2 in S. by apply (visiting_cleared name s _ _ s1 t _ V R S K).
  - destruct (clear_marks (fun n : bytes => n) (t_names t) s1) as (R & S & K).
    apply (visiting_cleared name s _ _ s1 t _ V R); [|done|done|done]. intros n Hn. apply S. destruct Hn as [Hn|Hn]; [left|by right].
    rewrite list_fmap_id. by apply (v_touched _ _ _ _ _ _ V).
Qed.

(** All names, in some order. *)
Definition dep_of (s : store) (m : bytes) : list apk_dependency := prov_depends s (dn_providers (apk_db_get_name s m)).
Definition iif_of (s : store) (m : bytes) : list apk_dependency := prov_install_if s (dn_providers (apk_db_get_name s m)).

Record opened (names : list bytes) (s s' : store) : Prop := {
  on_rest : same_rest s s';
  on_prov n : dn_providers (apk_db_get_name s' n) = dn_providers (apk_db_get_name s n);
  on_repo n : dn_has_repository_providers (apk_db_get_name s' n) = dn_has_repository_providers (apk_db_get_name s n);
  on_state n : dn_state (apk_db_get_name s' n) = 0;
  on_rdepends n : dn_rdepends (apk_db_get_name s' n) = dn_rdepends (apk_db_get_name s n) ++ filter (fun m => on_list (dep_of s m) n) names;
  on_rinstall_if n : dn_rinstall_if (apk_db_get_name s' n) = dn_rinstall_if (apk_db_get_name s n) ++ filter (fun m => on_list (iif_of s m) n) names;
  on_dependency n : dn_is_dependency (apk_db_get_name s' n) = true <->
    dn_is_dependency (apk_db_get_name s n) = true \/
    exists m d, m ∈ names /\ d ∈ dep_of s m /\ dep_name d = n /\ apk_dep_conflict d = false;
}.

Lemma visited_dep_of name s s' m : visited name s s' -> dep_of s' m = dep_of s m /\ iif_of s' m = iif_of s m.
Proof.
  intros V. unfold dep_of, iif_of, prov_depends, prov_install_if. rewrite (vd_prov _ _ _ V).
  split; apply list_bind_ext; auto; intros q; by rewrite (same_rest_pkg _ _ _ (vd_rest _ _ _ V)).
Qed.

Lemma open_fold names : forall s,
  (forall n, dn_state (apk_db_get_name s n) = 0) -> opened names s (foldl (fun s n => apk_db_name_rdepends n s) s names).
Proof.
  induction names as [|m names IH]; intros s H0; cbn [foldl].
  { constructor; try done; intros n; rewrite ?app_nil_r; try done. split; [by left|]. intros [?|(m & d & Hm & _)]; [done|by apply elem_of_nil in Hm]. }
  pose proof (name_rdepends_visited m s H0) as V. set (s1 := apk_db_name_rdepends m s) in *. clearbody s1.
  destruct (IH s1 (vd_state _ _ _ V)) as [O1 O2 O3 O4 O5 O6 O7]. set (s2 := foldl _ s1 names) in *.
  assert (Ed : forall k, dep_of s1 k = dep_of s k) by (intros k; by apply (visited_dep_of m)).
  assert (Ei : forall k, iif_of s1 k = iif_of s k) by (intros k; by apply (visited_dep_of m)).
  constructor.
  - etrans; [apply V|exact O1].
  - intros n. rewrite O2. apply V.
  - intros n. rewrite O3. apply V.
  - done.
  - intros n. rewrite O5, (vd_rdepends _ _ _ V), filter_cons, <- app_assoc. f_equal. fold (dep_of s m).
    rewrite (list_filter_iff _ (fun k => on_list (dep_of s k) n)) by (intros k; by rewrite Ed). by destruct (on_list (dep_of s m) n).
  - intros n. rewrite O6, (vd_rinstall_if _ _ _ V), filter_cons, <- app_assoc. f_equal. fold (iif_of s m).
    rewrite (list_filter_iff _ (fun k => on_list (iif_of s k) n)) by (intros k; by rewrite Ei). by destruct (on_list (iif_of s m) n).
  - intros n. rewrite O7, (vd_dependency _ _ _ V). fold (dep_of s m). split.
    + intros [[?|(d & Hd & HQ)]|(k & d & Hk & Hd & HQ)]; [by left| |].
      * right. exists m, d. split; [by left|done].
      * right. exists k, d. rewrite Ed in Hd. split; [by right|done].
    + intros [?|(k & d & [->|Hk]%elem_of_cons & Hd & HQ)]; [by left; left|left; right; by exists d|].
      right. exists k, d. by rewrite Ed.
Qed.

(** What the providers of a name depend on. *)
Lemma dep_of_spec s m d :
  store_core s -> d ∈ dep_of s m <-> exists b p, st_pkgs s !! b = Some p /\ m ∈ names_of p /\ d ∈ depends p.
Proof.
  intros C. unfold dep_of, prov_depends. rewrite list_elem_of_bind. split.
  - intros ([b v] & Hd & Hb). apply (ok_prov _ C) in Hb as (p & Hp & Hv). cbn [fst] in Hd. unfold get_pkg in Hd. rewrite Hp in Hd.
    exists b, p. split; [done|]. split; [apply prov_list_names; eauto|done].
  - intros (b & p & Hp & (v & Hv)%prov_list_names & Hd). exists (b, v). split; [cbn [fst]; unfold get_pkg; by rewrite Hp|].
    apply (ok_prov _ C). eauto.
Qed.

Lemma iif_of_spec s m d :
  store_core s -> d ∈ iif_of s m <-> exists b p, st_pkgs s !! b = Some p /\ m ∈ names_of p /\ d ∈ install_if p.
Proof.
  intros C. unfold iif_of, prov_install_if. rewrite list_elem_of_bind. split.
  - intros ([b v] & Hd & Hb). apply (ok_prov _ C) in Hb as (p & Hp & Hv). cbn [fst] in Hd. unfold get_pkg in Hd. rewrite Hp in Hd.
    exists b, p. split; [done|]. split; [apply prov_list_names; eauto|done].
  - intros (b & p & Hp & (v & Hv)%prov_list_names & Hd). exists (b, v). split; [cbn [fst]; unfold get_pkg; by rewrite Hp|].
    apply (ok_prov _ C). eauto.
Qed.

(** The names the hash table enumerates: once each, and all that have providers. *)
Definition enumerates (names : list bytes) (s : store) : Prop :=
  NoDup names /\ forall n, dn_providers (apk_db_get_name s n) <> [] -> n ∈ names.

Lemma enumerates_names names s b p m :
  store_core s -> enumerates names s -> st_pkgs s !! b = Some p -> m ∈ names_of p -> m ∈ names.
Proof.
  intros C [_ He] Hp (v & Hv)%prov_list_names. apply He. intros E.
  assert (Hin : (b, v) ∈ dn_providers (apk_db_get_name s m)) by (apply (ok_prov _ C); eauto). rewrite E in Hin. by apply elem_of_nil in Hin.
Qed.

(** An array filled by visiting all names lists the names of the packages with the relation. *)
Lemma filter_lists names s rel src n (get : apk_package -> list apk_dependency) :
  store_core s -> enumerates names s ->
  (forall m d, d ∈ src m <-> exists b p, st_pkgs s !! b = Some p /\ m ∈ names_of p /\ d ∈ get p) ->
  (forall p, rel p n <-> n ∈ map dep_name (get p)) ->
  lists_names s rel n (filter (fun m => on_list (src m) n) names).
Proof.
  intros C He Hof Hrel. split; [apply NoDup_filter, He|]. intros m. rewrite list_elem_of_filter.
  rewrite Is_true_true, on_list_true. split.
  - intros [(d & -> & Hd)%list_elem_of_fmap _]. apply Hof in Hd as (b & p & Hp & Hm & Hd). exists b, p. split; [done|]. split; [done|].
    apply Hrel, list_elem_of_fmap. eauto.
  - intros (b & p & Hp & Hm & (d & -> & Hd)%Hrel%list_elem_of_fmap). split; [|by apply (enumerates_names names s b p)].
    apply list_elem_of_fmap. exists d. split; [done|]. apply Hof. eauto.
Qed.

Lemma open_names_core names s :
  store_core s -> st_open_complete s = false -> enumerates names s -> store_core (open_names names s).
Proof.
  intros C Ho He. destruct (open_fold names s (ok_state _ C)) as [O1 O2 O3 O4 O5 O6 O7]. unfold open_names.
  set (s1 := foldl _ s names) in *. destruct O1 as (P1 & P2 & P3 & P4 & P5 & _).
  assert (L : forall rel n l, lists_names s rel n l -> lists_names (set_st_open_complete true s1) rel n l).
  { intros rel n l. unfold lists_names. cbn [st_pkgs set_st_open_complete]. by rewrite P1. }
  change (apk_db_get_name (set_st_open_complete true s1)) with (apk_db_get_name s1).
  constructor; cbn [st_pkgs st_ids st_next st_open_complete set_st_open_complete]; rewrite ?P1, ?P2, ?P3.
  - apply C.
  - intros n a v. change (apk_db_get_name (set_st_open_complete true s1) n) with (apk_db_get_name s1 n). rewrite O2. apply (ok_prov _ C).
  - apply C.
  - intros n. apply O4.
  - intros n. change (apk_db_get_name (set_st_open_complete true s1) n) with (apk_db_get_name s1 n). rewrite O5. apply L.
    pose proof (ok_rdepends _ C n) as Hn. rewrite Ho in Hn. rewrite Hn. cbn [app].
    apply (filter_lists names s depends_on (dep_of s) n depends C He); [intros m d; by apply dep_of_spec|done].
  - intros n. change (apk_db_get_name (set_st_open_complete true s1) n) with (apk_db_get_name s1 n). rewrite O6. apply L.
    pose proof (ok_rinstall_if _ C n) as Hn. rewrite Ho in Hn. rewrite Hn. cbn [app].
    apply (filter_lists names s installs_if (iif_of s) n install_if C He); [intros m d; by apply iif_of_spec|done].
  - intros n. change (apk_db_get_name (set_st_open_complete true s1) n) with (apk_db_get_name s1 n). rewrite O7, (ok_dependency _ C), Ho. split.
    + intros [[? _]|(m & d & _ & Hd & HQ)]; [done|]. split; [done|]. apply (dep_of_spec s m d C) in Hd as (b & p & Hp & _ & Hd).
      exists b, p. split; [done|]. by exists d.
    + intros [_ (b & p & Hp & d & Hd & HQ)]. right. assert (Hm : pkg_nm p ∈ names_of p) by (by left).
      exists (pkg_nm p), d. split; [by apply (enumerates_names names s b p)|]. split; [|done]. apply (dep_of_spec s _ d C). eauto.
Qed.

Lemma open_names_repository names s :
  (forall n, dn_state (apk_db_get_name s n) = 0) -> repository_ok s -> repository_ok (open_names names s).
Proof.
  intros H0 R n. destruct (open_fold names s H0) as [(P1 & _) _ O3 _ _ _ _]. unfold open_names. set (s1 := foldl _ s names) in *.
  change (apk_db_get_name (set_st_open_complete true s1) n) with (apk_db_get_name s1 n). rewrite O3. cbn [st_pkgs set_st_open_complete].
  rewrite P1. apply R.
Qed.
