(* ===== verification/DatabaseThm.v ===== *)
(** Theorems on the package database: the states it can reach keep their tables, arrays and
    lists consistent, and what the solver sees of such a state is well formed. *)
From Stdlib Require Import ZArith Lia String.
From stdpp Require Import base numbers list option gmap.
From S2P Require Import Prelude Clib Blob Codec Version Dep Package Index SolverState SolverInv Database.

(** ** The operations as steps *)

(** Identities are assumed to determine the name, as they are digests of the package. *)
Definition same_name (t : apk_package_tmpl) (s : store) : Prop :=
  forall a, st_ids s !! id_key (tm_id t) = Some a -> pkg_name (get_pkg s a) = pkg_name (tm_pkg t).

Inductive db_step (s : store) : store -> Prop :=
| db_add t r t' s' :
    ipkg (tm_pkg t) = None -> same_name t s -> pkg_addr (tm_pkg t) <> st_next s ->
    apk_db_pkg_add t s = (r, t', s') -> db_step s s'
| db_read_installed t ip r t' s' :
    is_Some (pkg_name (tm_pkg t)) -> same_name t s ->
    pkg_addr (tm_pkg t) <> st_next s -> st_pkgs s !! pkg_addr (tm_pkg t) = None -> pkg_addr (tm_pkg t) ∉ st_installed s ->
    (forall a, st_ids s !! id_key (tm_id t) = Some a -> ipkg (get_pkg s a) = None) ->
    ipkg (tm_pkg t) = None ->
    apk_db_pkg_add (with_pkg t (set_ipkg (Some ip))) (apk_pkg_install (tm_pkg t) s).2 = (Some r, t', s') ->
    db_step s s'
| db_open names : st_open_complete s = false -> enumerates names s -> db_step s (open_names names s)
| db_install a : is_Some (st_pkgs s !! a) -> db_step s (install_at a s)
| db_uninstall a : db_step s (apk_pkg_uninstall a s).

Inductive db_reachable : store -> Prop :=
| reach_init next arches noarch : db_reachable (store_init next arches noarch)
| reach_step s s' : db_reachable s -> db_step s s' -> db_reachable s'.

Record store_ok (s : store) : Prop := {
  so_core : store_core s;
  so_repository : repository_ok s;
  so_installed : installed_ok s;
}.

(** ** Installing and removing *)

Lemma repository_same s s' :
  (forall n, dn_has_repository_providers (apk_db_get_name s' n) = dn_has_repository_providers (apk_db_get_name s n)) ->
  (forall a, (fun p => (repos p, names_of p)) <$> st_pkgs s' !! a = (fun p => (repos p, names_of p)) <$> st_pkgs s !! a) ->
  repository_ok s -> repository_ok s'.
Proof.
  intros Hn Hp R n. rewrite Hn, (R n). split; intros (a & p & Ha & HQ); exists a; specialize (Hp a); rewrite Ha in Hp; cbn in Hp.
  - destruct (st_pkgs s' !! a) as [q|]; [|done]. cbn in Hp. apply (inj Some), pair_equal_spec in Hp as [E1 E2]. exists q. by rewrite E1, E2.
  - destruct (st_pkgs s !! a) as [q|]; [|done]. cbn in Hp. apply (inj Some), pair_equal_spec in Hp as [E1 E2]. exists q. by rewrite <- E1, <- E2.
Qed.

(** Changing only the record of the installed package. *)
Lemma upd_ipkg_ok a v l s :
  is_Some (st_pkgs s !! a) -> store_core s -> repository_ok s ->
  let s' := set_st_installed l (upd_pkg a (set_ipkg v) s) in
  store_core s' /\ repository_ok s' /\ forall b, inst s' b <-> if bool_decide (b = a) then is_Some v else inst s b.
Proof.
  intros Ha C R. cbn zeta. split; [|split].
  - apply (unseen_core s); [|done]. destruct (unseen_upd_pkg a (set_ipkg v) s Ha ltac:(done)) as [U1 U2 U3 U4 U5]. by constructor.
  - apply (repository_same s); [done| |done]. intros b. cbn [st_pkgs set_st_installed]. rewrite lookup_upd_pkg by done.
    case_bool_decide as E; [subst b|done]. by destruct (st_pkgs s !! a).
  - intros b. unfold inst. cbn [st_pkgs set_st_installed]. rewrite lookup_upd_pkg by done. case_bool_decide as E; [subst b|done].
    destruct Ha as [p ->]. cbn [fmap option_fmap option_map]. split; [by intros (q & [= <-] & Hq)|]. intros Hv. eexists. by split.
Qed.

Lemma install_at_ok a s : is_Some (st_pkgs s !! a) -> store_ok s -> store_ok (install_at a s).
Proof.
  intros Ha [C R [Hnd Hl]]. unfold install_at, apk_pkg_install. destruct (ipkg (get_pkg s a)) as [ip|] eqn:Ei.
  - assert (E : upd_pkg a (fun _ => get_pkg s a) s = s); [|rewrite E; by constructor]. destruct Ha as [p Hp].
    destruct s. unfold upd_pkg, get_pkg, set_st_pkgs in *. cbn in *. rewrite Hp. cbn. by rewrite insert_id.
  - assert (Had : pkg_addr (get_pkg s a) = a /\ is_Some (pkg_name (get_pkg s a))).
    { destruct Ha as [p Hp]. destruct (ok_addr _ C a p Hp) as (H1 & _ & H2). unfold get_pkg. by rewrite Hp. }
    destruct Had as [-> [nm ->]].
    assert (E : upd_pkg a (fun _ => set_ipkg (Some ipkg_new) (get_pkg s a)) (set_st_installed (st_installed s ++ [a]) s) =
      set_st_installed (st_installed s ++ [a]) (upd_pkg a (set_ipkg (Some ipkg_new)) s)) by done.
    rewrite E. destruct (upd_ipkg_ok a (Some ipkg_new) (st_installed s ++ [a]) s Ha C R) as (C' & R' & Hi). constructor; [done|done|].
    assert (Hna : a ∉ st_installed s).
    { rewrite Hl. intros (p & Hp & Hx). unfold get_pkg in Ei. rewrite Hp in Ei. cbn in Ei. rewrite Ei in Hx. by destruct Hx. }
    split; cbn [st_installed set_st_installed].
    + apply NoDup_app. split; [done|]. split; [|apply NoDup_singleton]. intros x Hx. rewrite list_elem_of_singleton. congruence.
    + intros b. rewrite Hi, elem_of_app, list_elem_of_singleton, Hl. case_bool_decide as Eb; [|tauto]. split; [done|by right].
Qed.

Lemma apk_pkg_uninstall_ok a s : store_ok s -> store_ok (apk_pkg_uninstall a s).
Proof.
  intros [C R [Hnd Hl]]. unfold apk_pkg_uninstall. destruct (ipkg (get_pkg s a)) as [ip|] eqn:Ei; [|by constructor].
  assert (Ha : is_Some (st_pkgs s !! a)).
  { unfold get_pkg in Ei. destruct (st_pkgs s !! a); [done|]. cbn in Ei. done. }
  assert (E : upd_pkg a (set_ipkg None) (set_st_installed (filter (fun b => b <> a) (st_installed s)) s) =
    set_st_installed (filter (fun b => b <> a) (st_installed s)) (upd_pkg a (set_ipkg None) s)) by done.
  rewrite E. destruct (upd_ipkg_ok a None (filter (fun b => b <> a) (st_installed s)) s Ha C R) as (C' & R' & Hi). constructor; [done|done|].
  split; cbn [st_installed set_st_installed]; [by apply NoDup_filter|]. intros b. rewrite Hi, list_elem_of_filter, Hl.
  case_bool_decide as Eb; [|tauto]. split; [by intros [? _]|by intros [? ?]].
Qed.

(** A refused template changes nothing. *)
Lemma pkg_add_refused t s t' s' : apk_db_pkg_add t s = (None, t', s') -> s' = s.
Proof.
  unfold apk_db_pkg_add. destruct (pkg_name (tm_pkg t)); [|by intros [= _ <-]]. destruct (version (tm_pkg t)); [|by intros [= _ <-]].
  case_test; [by intros [= _ <-]|]. cbn zeta. destruct (match st_ids s !! _ with Some _ => _ | None => _ end) as [[a old] s1].
  destruct (ipkg (get_pkg s1 a)); [done|]. by destruct (ipkg (if _ : bool then _ else _)).
Qed.

Lemma db_step_ok s s' : store_ok s -> db_step s s' -> store_ok s'.
Proof.
  intros Hs Hstep. pose proof Hs as [C R I]. destruct Hstep as [t r t' s' Hi Hsn Had Ha|t ip r t' s' Hn Hsn Had Hp Hil Hid Hi Ha|names Ho He|a Ha|a].
  - destruct r as [r|]; [|by rewrite (pkg_add_refused _ _ _ _ Ha)].
    destruct (pkg_add_ok t s _ _ _ C R Hsn Ha) as (C' & R' & I'). constructor; [done|done|]. apply I'; [done| |done].
    unfold tmpl_installed. by rewrite Hi.
  - unfold apk_pkg_install in Ha. destruct Hn as [nm Hn]. rewrite Hi, Hn in Ha. cbn [snd] in Ha.
    set (s1 := set_st_installed _ s) in Ha. assert (U : unseen_change s s1) by (by constructor).
    destruct (pkg_add_ok (with_pkg t (set_ipkg (Some ip))) s1 _ _ _ (unseen_core _ _ U C) R Hsn Ha) as (C' & R' & I').
    constructor; [done|done|]. destruct I as [Hnd Hl]. apply I'; [done| |done]. unfold tmpl_installed. cbn [with_pkg tm_pkg set_ipkg ipkg pkg_addr].
    split; [|split; [done|split; [|done]]].
    + apply NoDup_app. split; [done|]. split; [|apply NoDup_singleton]. intros x Hx. rewrite list_elem_of_singleton. congruence.
    + intros b. unfold s1. cbn [st_installed set_st_installed]. rewrite elem_of_app, list_elem_of_singleton, Hl. done.
  - constructor; [by apply open_names_core|by apply open_names_repository; [apply C|]|].
    destruct (open_fold names s (ok_state _ C)) as [(P1 & _ & _ & P4 & _) _ _ _ _ _ _]. unfold installed_ok, inst, open_names in *.
    cbn [st_installed st_pkgs set_st_open_complete]. by rewrite P1, P4.
  - by apply install_at_ok.
  - by apply apk_pkg_uninstall_ok.
Qed.

Lemma db_reachable_ok s : db_reachable s -> store_ok s.
Proof.
  induction 1 as [next arches noarch|s s' _ IH Hstep]; [|by apply (db_step_ok s)].
  constructor; [apply store_init_core|apply store_init_repository|]. split; cbn; [apply NoDup_nil_2|]. intros a. rewrite elem_of_nil.
  split; [done|]. intros (p & Hp & _). cbn [st_pkgs store_init] in Hp. by rewrite lookup_empty in Hp.
Qed.

(** C4: in every state the package database can reach by adding packages, reading the installed
    ones, computing the reverse dependencies at the end of apk_db_open, installing and removing:
    the array of providers of a name lists exactly the packages with that name or providing it,
    with the right versions; identities find exactly the packages that have them; once opened,
    rdepends and rinstall_if of a name list, without repetition, the names of exactly the
    packages that depend on it or are installed by it, whether the package came before the
    database was opened (apk_db_name_rdepends, with its 128 touched names) or after
    (apk_db_pkg_rdepends); and the installed packages are exactly those with a record. *)
Theorem database_consistent s :
  db_reachable s ->
  (forall n a v, (a, v) ∈ dn_providers (apk_db_get_name s n) <-> exists p, st_pkgs s !! a = Some p /\ (n, v) ∈ prov_list p) /\
  (forall id a, APK_DIGEST_LENGTH_SHA1 <= d_len id ->
     apk_db_get_pkg s id = Some a <-> exists p, st_pkgs s !! a = Some p /\ apk_pkg_hash_blob p = id_key id) /\
  (st_open_complete s = true -> forall n,
     lists_names s depends_on n (dn_rdepends (apk_db_get_name s n)) /\
     lists_names s installs_if n (dn_rinstall_if (apk_db_get_name s n)) /\
     (dn_is_dependency (apk_db_get_name s n) = true <-> exists a p, st_pkgs s !! a = Some p /\ needs p n)) /\
  repository_ok s /\ installed_ok s.
Proof.
  intros [C R I]%db_reachable_ok. split; [apply C|]. split; [|split; [|done]].
  - intros id a Hl. unfold apk_db_get_pkg. rewrite (proj2 (Z.ltb_ge _ _)) by done. apply C.
  - intros Ho n. pose proof (ok_rdepends _ C n) as H1. pose proof (ok_rinstall_if _ C n) as H2. pose proof (ok_dependency _ C n) as H3.
    rewrite Ho in H1, H2. split; [done|]. split; [done|]. rewrite H3. split; [by intros [_ ?]|done].
Qed.

(** ** What the solver sees *)

Section View.
Context (tags : repo_tags) (available_repos active_layers : Z) (self_upgrade force_broken_world : bool).
#[local] Abbreviation view := (view tags available_repos active_layers self_upgrade force_broken_world).

(** All names that packages mention, and the addresses of packages. *)
Definition pkg_mentions (p : apk_package) : list bytes :=
  names_of p ++ map dep_name (depends p) ++ map dep_name (install_if p).
Definition store_names (s : store) : gset bytes := list_to_set (map_to_list (st_pkgs s) ≫= (fun x => pkg_mentions x.2)).
Definition store_addrs (s : store) : gset Z := dom (st_pkgs s).

Lemma elem_of_store_names s n : n ∈ store_names s <-> exists a p, st_pkgs s !! a = Some p /\ n ∈ pkg_mentions p.
Proof.
  unfold store_names. rewrite elem_of_list_to_set, list_elem_of_bind. split.
  - intros ([a p] & Hn & Hp). apply elem_of_map_to_list in Hp. eauto.
  - intros (a & p & Hp & Hn). exists (a, p). split; [done|]. by apply elem_of_map_to_list.
Qed.

Lemma view_providers s n :
  providers (view s) n = map (fun p => (get_pkg s p.1, p.2)) (dn_providers (apk_db_get_name s n)).
Proof. unfold providers, db_name, apk_db_get_name. cbn. rewrite lookup_fmap. by destruct (st_names s !! n). Qed.

Lemma view_rdepends s n : rdepends (view s) n = dn_rdepends (apk_db_get_name s n).
Proof. unfold rdepends, db_name, apk_db_get_name. cbn. rewrite lookup_fmap. by destruct (st_names s !! n). Qed.

Lemma view_rinstall_if s n : rinstall_if (view s) n = dn_rinstall_if (apk_db_get_name s n).
Proof. unfold rinstall_if, db_name, apk_db_get_name. cbn. rewrite lookup_fmap. by destruct (st_names s !! n). Qed.

Lemma elem_of_view_providers s n p v :
  store_core s -> (p, v) ∈ providers (view s) n <-> exists a, st_pkgs s !! a = Some p /\ (n, v) ∈ prov_list p.
Proof.
  intros C. rewrite view_providers, list_elem_of_fmap. split.
  - intros ([a w] & [= -> ->] & Ha). apply (ok_prov _ C) in Ha as (q & Hq & Hv). exists a. unfold get_pkg. by rewrite Hq.
  - intros (a & Ha & Hv). exists (a, v). cbn [fst snd]. unfold get_pkg. rewrite Ha. split; [done|]. apply (ok_prov _ C). eauto.
Qed.

Lemma elem_of_prov_list p n v :
  (n, v) ∈ prov_list p <-> (pkg_nm p = n /\ v = pkg_ver p) \/ exists d, d ∈ provides p /\ dep_name d = n /\ dep_version d = v.
Proof.
  unfold prov_list. rewrite elem_of_cons, list_elem_of_fmap. split.
  - intros [[= -> ->]|(d & [= -> ->] & Hd)]; [by left|right; by exists d].
  - intros [[<- ->]|(d & Hd & <- & <-)]; [by left|right; by exists d].
Qed.

Lemma view_wf s :
  store_core s -> installed_ok s -> (forall a p, st_pkgs s !! a = Some p -> pkg_ver p <> []) -> db_wf (view s).
Proof.
  intros C [_ I] Hv.
  assert (Hself : forall a p, st_pkgs s !! a = Some p -> (p, pkg_ver p) ∈ providers (view s) (pkg_nm p)).
  { intros a p Ha. apply elem_of_view_providers; [done|]. exists a. split; [done|]. by left. }
  constructor.
  - intros n [p v] (a & Ha & Hp)%elem_of_view_providers; [|done]. by apply elem_of_prov_list.
  - intros n [p v] (a & Ha & _)%elem_of_view_providers; [|done]. by apply (Hself a).
  - intros n [p v] d (a & Ha & _)%elem_of_view_providers Hd; [|done]. apply elem_of_view_providers; [done|]. exists a. split; [done|].
    apply elem_of_prov_list. right. by exists d.
  - intros n m [p v] [q w] (a & Ha & _)%elem_of_view_providers (b & Hb & _)%elem_of_view_providers; [|done|done]. cbn [fst].
    destruct (ok_addr _ C a p Ha) as (-> & _). destruct (ok_addr _ C b q Hb) as (-> & _). intros ->. congruence.
  - intros n [p v] (a & Ha & _)%elem_of_view_providers; [|done]. by apply (Hv a).
  - intros p (a & -> & (q & Hq & _)%I)%list_elem_of_fmap. unfold get_pkg. rewrite Hq. by apply (Hself a).
  - intros n [p v] (a & Ha & _)%elem_of_view_providers Hi; [|done]. cbn [fst] in *. apply list_elem_of_fmap. exists a. unfold get_pkg. rewrite Ha.
    split; [done|]. apply I. exists p. split; [done|]. unfold Solver.installed in Hi. destruct (ipkg p); [by eexists|done].
Qed.

Lemma view_universe s : store_core s -> st_open_complete s = true -> universe (view s) (store_names s) (store_addrs s).
Proof.
  intros C Ho.
  assert (Hin : forall n (Q : apk_package -> Prop), (forall a p, st_pkgs s !! a = Some p -> Q p) -> Forall (fun p => Q p.1) (providers (view s) n)).
  { intros n Q HQ. apply list.Forall_forall. intros [p v] (a & Ha & _)%elem_of_view_providers; [|done]. by apply (HQ a). }
  assert (Hm : forall a p l, st_pkgs s !! a = Some p -> (forall n, n ∈ map dep_name l -> n ∈ pkg_mentions p) -> Forall (fun d => dep_name d ∈ store_names s) l).
  { intros a p l Ha Hl. apply list.Forall_forall. intros d Hd. apply elem_of_store_names. exists a, p. split; [done|]. apply Hl, list_elem_of_fmap. eauto. }
  constructor; intros n.
  - rewrite view_rdepends. pose proof (ok_rdepends _ C n) as Hr. rewrite Ho in Hr. apply list.Forall_forall. intros m (a & p & Ha & Hp & _)%Hr.
    apply elem_of_store_names. exists a, p. split; [done|]. apply elem_of_app. by left.
  - rewrite view_rinstall_if. pose proof (ok_rinstall_if _ C n) as Hr. rewrite Ho in Hr. apply list.Forall_forall. intros m (a & p & Ha & Hp & _)%Hr.
    apply elem_of_store_names. exists a, p. split; [done|]. apply elem_of_app. by left.
  - apply (Hin n (fun p => pkg_addr p ∈ store_addrs s)). intros a p Ha. destruct (ok_addr _ C a p Ha) as (-> & _). by apply elem_of_dom.
  - apply (Hin n (fun p => pkg_nm p ∈ store_names s)). intros a p Ha. apply elem_of_store_names. exists a, p. split; [done|]. by left.
  - apply (Hin n (fun p => Forall _ (depends p))). intros a p Ha. apply (Hm a p); [done|]. intros m Hx. unfold pkg_mentions. rewrite !elem_of_app. auto.
  - apply (Hin n (fun p => Forall _ (provides p))). intros a p Ha. apply (Hm a p); [done|]. intros m Hx. unfold pkg_mentions, names_of.
    rewrite elem_of_app, elem_of_cons. auto.
  - apply (Hin n (fun p => Forall _ (install_if p))). intros a p Ha. apply (Hm a p); [done|]. intros m Hx. unfold pkg_mentions. rewrite !elem_of_app. auto.
Qed.

(** C5: a database that was reached through the operations of database.c, that is open, and
    whose packages have versions, gives the solver what its theorems ask for: the view of it is
    a [SolverDb] for the names that packages mention (or more) and their addresses. *)
Theorem database_solver_db (s : store) (W : gset bytes) :
  db_reachable s -> st_open_complete s = true -> (forall a p, st_pkgs s !! a = Some p -> pkg_ver p <> []) ->
  SolverDb (view s) (store_names s ∪ W) (store_addrs s).
Proof.
  intros [C R I]%db_reachable_ok Ho Hv. constructor; [|by apply view_wf].
  apply (universe_mono _ (store_names s)); [apply union_subseteq_l|]. by apply view_universe.
Qed.
End View.

(** ** Loading and opening *)

(** The templates of an index, one after the other. *)
Definition db_load (ts : list apk_package_tmpl) (s : store) : store := foldl (fun s t => (apk_db_pkg_add t s).2) s ts.

Definition addable (t : apk_package_tmpl) (s : store) : bool :=
  bool_decide (ipkg (tm_pkg t) = None) && negb (pkg_addr (tm_pkg t) =? st_next s) &&
  match st_ids s !! id_key (tm_id t) with
  | Some a => bool_decide (pkg_name (get_pkg s a) = pkg_name (tm_pkg t))
  | None => true
  end.

Fixpoint all_addable (ts : list apk_package_tmpl) (s : store) : bool :=
  match ts with [] => true | t :: ts => addable t s && all_addable ts (apk_db_pkg_add t s).2 end.

Lemma db_load_reachable ts : forall s, db_reachable s -> all_addable ts s = true -> db_reachable (db_load ts s).
Proof.
  induction ts as [|t ts IH]; intros s Hs; cbn [db_load foldl all_addable]; [done|]. rewrite andb_true_iff. intros [Ha Hts].
  apply IH; [|done]. unfold addable in Ha. rewrite !andb_true_iff, bool_decide_eq_true, negb_true_iff, Z.eqb_neq in Ha. destruct Ha as [[Hi Had] Hn].
  destruct (apk_db_pkg_add t s) as [[r t'] s'] eqn:E. eapply reach_step; [exact Hs|]. apply (db_add s t r t' s'); try done.
  intros a Ea. rewrite Ea in Hn. by apply bool_decide_eq_true_1 in Hn.
Qed.

Definition table_names (s : store) : list bytes := (map_to_list (st_names s)).*1.

Lemma table_names_enumerates s : enumerates (table_names s) s.
Proof.
  split; [apply NoDup_fst_map_to_list|]. intros n Hn. unfold apk_db_get_name in Hn. destruct (st_names s !! n) as [x|] eqn:E; [|done].
  apply list_elem_of_fmap. exists (n, x). split; [done|]. by apply elem_of_map_to_list.
Qed.

Definition db_opened (ts : list apk_package_tmpl) : store :=
  let s := db_load ts (store_init 100 [] (bs "noarch")) in open_names (table_names s) s.

Lemma db_opened_reachable ts :
  all_addable ts (store_init 100 [] (bs "noarch")) = true -> db_reachable (db_opened ts).
Proof.
  intros Ha. eapply reach_step; [apply db_load_reachable; [apply reach_init|exact Ha]|]. unfold db_opened. cbn zeta.
  apply db_open; [|apply table_names_enumerates]. assert (G : forall s, st_open_complete s = false -> st_open_complete (db_load ts s) = false).
  { clear Ha. induction ts as [|t ts IH]; intros s Hs; cbn [db_load foldl]; [done|]. apply IH. clear IH.
    unfold apk_db_pkg_add. destruct (pkg_name (tm_pkg t)) as [nm|]; [|done]. destruct (version (tm_pkg t)); [|done]. case_test; [done|].
    cbn zeta. set (pkg := if _ : bool then _ else _). destruct (st_ids s !! _) as [a|].
    - set (s1 := merge_package pkg a s). assert (H1 : st_open_complete s1 = false) by done. clearbody s1. set (s2 := if _ && _ then mark_repository nm (get_pkg s1 a) s1 else s1).
      assert (H2 : st_open_complete s2 = false) by (unfold s2; case_test; [by rewrite (uc_open _ _ (mark_repository_unseen nm (get_pkg s1 a) s1))|done]).
      by destruct (ipkg (get_pkg s1 a)), (ipkg pkg).
    - pose proof (new_package_pkgs pkg (tm_id t) s) as Hp. destruct (new_package pkg (tm_id t) s) as [a s1]. destruct Hp as (_ & _ & _ & H1 & _). rewrite Hs in H1.
      set (s2 := if _ && _ then mark_repository nm (get_pkg s1 a) s1 else s1).
      assert (H2 : st_open_complete s2 = false) by (unfold s2; case_test; [by rewrite (uc_open _ _ (mark_repository_unseen nm (get_pkg s1 a) s1))|done]).
      by destruct (ipkg (get_pkg s1 a)), (ipkg pkg). }
  by apply G.
Qed.

(** Templates for examples. *)
Definition ex_dep (n : string) : apk_dependency := Dep (bs n) [] APK_DEPMASK_ANY false 0 0.
Definition ex_eq (n v : string) : apk_dependency := Dep (bs n) (bs v) APK_VERSION_EQUAL false 0 0.
Definition ex_tmpl (id : Z) (n v : string) (deps prov iif : list apk_dependency) : apk_package_tmpl :=
  Tmpl (Pkg 1 (Some (bs n)) None deps iif prov [] [] (Some (bs v)) [] [] [] [] [] [] [] 1 1 0 0 1 0 0 false false false false 0 0 [])
    (Digest APK_DIGEST_SHA1 20 (replicate 20 id)).

Definition ex_packages : list apk_package_tmpl :=
  [ex_tmpl 1 "app" "1.0" [ex_dep "lib"; ex_dep "so:x"] [] []; ex_tmpl 2 "app" "2.0" [ex_dep "lib"; ex_dep "so:missing"] [] [];
   ex_tmpl 3 "lib" "1.0" [] [] []; ex_tmpl 4 "x" "1.0" [ex_dep "app"] [ex_eq "so:x" "1"] [];
   ex_tmpl 5 "lib-doc" "1.0" [] [] [ex_dep "lib"; ex_dep "doc"]; ex_tmpl 6 "doc" "1.0" [] [] []; ex_tmpl 3 "lib" "1.0" [] [] []].

Definition ex_store : store := db_opened ex_packages.

Lemma ex_store_reachable : db_reachable ex_store.
Proof. apply db_opened_reachable. by vm_compute. Qed.

Lemma database_consistent_witness :
  base.size (st_pkgs ex_store) = 6%nat /\ dn_rdepends (apk_db_get_name ex_store (bs "lib")) = [bs "app"] /\ installed_ok ex_store.
Proof. split; [by vm_compute|]. split; [by vm_compute|]. apply (database_consistent ex_store ex_store_reachable). Defined.

Lemma database_solver_db_witness :
  SolverDb (view [RepoTag 1 [] []] 1 1 false false ex_store) (store_names ex_store ∪ ∅) (store_addrs ex_store).
Proof.
  apply (database_solver_db [RepoTag 1 [] []] 1 1 false false ex_store ∅ ex_store_reachable); [by vm_compute|].
  apply map_Forall_lookup, (bool_decide_eq_true_1 _). by vm_compute.
Defined.

(** ** A repeated entry of the installed database *)

(** C38: when the installed database lists a package twice, the second record of the installed
    package is not handed over: the list of installed packages keeps an entry for the address
    of the reader's template, which is reset (it has no name any more) and goes away. *)
Theorem duplicate_installed_dangles t s r t' s' a ip :
  apk_db_pkg_add t s = (Some r, t', s') ->
  st_ids s !! id_key (tm_id t) = Some a -> ipkg (get_pkg s a) = Some ip ->
  pkg_addr (tm_pkg t) ∈ st_installed s ->
  pkg_addr (tm_pkg t) ∈ st_installed s' /\ pkg_name (tm_pkg t') = None.
Proof.
  unfold apk_db_pkg_add. destruct (pkg_name (tm_pkg t)) as [nm|]; [|done]. destruct (version (tm_pkg t)); [|done]. case_test; [done|].
  intros Ha Hid Hip Hin. rewrite Hid in Ha. revert Ha. cbn zeta. set (pkg := if _ : bool then _ else _). set (s1 := merge_package pkg a s).
  assert (Hi : is_Some (ipkg (get_pkg s1 a))).
  { unfold s1, merge_package, get_pkg at 1, upd_pkg. cbn [st_pkgs set_st_pkgs]. rewrite lookup_insert_eq. cbn [default from_option].
    case_test; cbn [id ipkg set_repos set_filename_ndx]; by rewrite Hip. }
  destruct Hi as [ip' ->]. set (s2 := if _ && _ then mark_repository nm (get_pkg s1 a) s1 else s1).
  assert (H2 : st_installed s2 = st_installed s).
  { unfold s2. case_test; [|done]. unfold mark_repository.
    by destruct (same_rest_fold (fun s d => upd_name (dep_name d) (set_dn_has_repository_providers true) s) (provides (get_pkg s1 a))
      (upd_name nm (set_dn_has_repository_providers true) s1)) as (_ & _ & _ & -> & _). }
  intros [= _ <- <-]. by rewrite H2.
Qed.

Lemma duplicate_installed_dangles_witness :
  let t := with_pkg (ex_tmpl 3 "lib" "1.0" [] [] []) (set_ipkg (Some ipkg_new)) in
  let s := set_st_installed [102; 1] (install_at 102 ex_store) in
  exists t' s', apk_db_pkg_add t s = (Some 102, t', s') /\ 1 ∈ st_installed s' /\ pkg_name (tm_pkg t') = None.
Proof.
  cbn zeta. set (t := with_pkg _ _). set (s := set_st_installed _ _).
  destruct (apk_db_pkg_add t s) as [[r t'] s'] eqn:E. assert (r = Some 102).
  { transitivity (apk_db_pkg_add t s).1.1; [by rewrite E|]. by vm_compute. }
  subst r. exists t', s'. split; [done|]. apply (duplicate_installed_dangles t s 102 t' s' 102 ipkg_new E); [by vm_compute|by vm_compute|].
  apply elem_of_cons. right. by left.
Defined.
