(* ===== verification/Repos.v ===== *)
(** The repositories of a database (database.c): adding the repositories of a list (RepoParser.v), the names of index
    and package files and the way back from a file name to its package, choosing the repository of a package.
    The printable form of URLs (print.c) and the test for local files (io.c). *)
From Stdlib Require Import ZArith Lia Ascii String.
From stdpp Require Import base numbers list option gmap.
From S2P Require Import Prelude Clib Blob Codec Dep Package Array Subst RepoParser RepoThm.
From S2P Require Import Index SolverState Solver Database.

(** ** URLs *)

(** The loop over the bytes from [i] on: where the password starts (0 before it was seen) and ends. *)
Fixpoint sanitize_loop (l : bytes) (i password_start : Z) : option (Z * Z) :=
  match l with
  | [] => None
  | c :: l =>
      if c =? chr "/" then None
      else if c =? chr "@" then if password_start =? 0 then None else Some (password_start, i)
      else sanitize_loop l (i + 1) (if (c =? chr ":") && (password_start =? 0) then i + 1 else password_start)
  end.

(** apk_blob_fmt into a buffer: the null blob when the text and its zero byte do not fit. *)
Definition fmt_blob (sz : Z) (text : bytes) : blob := if sz <=? zlen text then None else Some text.

Definition apk_url_sanitize (url : bytes) : blob :=
  let authority := apk_blob_contains (Some url) (bs "://") in
  if authority <? 0 then Some url
  else match sanitize_loop (zdrop (authority + 3) url) (authority + 3) 0 with
       | None => Some url
       | Some (password_start, i) => fmt_blob PATH_MAX (ztake password_start url ++ bs "*" ++ zdrop i url)
       end.

(** Whether a URL names a file of the file system: the loop looks for the colon in the first bytes. *)
Fixpoint scheme_loop (fuel : nat) (l : bytes) : bool :=
  match fuel, l with
  | S fuel, c :: l => if negb (c =? chr ":") then scheme_loop fuel l else negb ((znth 0 l 0 =? chr "/") && (znth 0 l 1 =? chr "/"))
  | _, _ => true
  end.
Definition apk_url_local_file (url : bytes) : bool :=
  if (zlen url <? 4) || (znth 0 url 0 =? chr "/") then true
  else if (5 <=? zlen url) && (apk_blob_starts_with url (bs "file:") || apk_blob_starts_with url (bs "test:")) then true
  else scheme_loop (Z.to_nat (Z.min 10 (zlen url) - 2)) url.

(** ** Repositories *)

Definition APK_MAX_REPOS : Z := 32.

Record apk_repository := Repository {
  repo_hash : bytes; repo_tag_mask : Z; repo_absolute_pkgname : bool; repo_is_remote : bool; repo_stale : bool; repo_v2_allowed : bool;
  repo_url_base : bytes; repo_url_printable : bytes; repo_url_index : bytes; repo_url_index_printable : bytes; repo_pkgname_spec : bytes
}.

Definition set_tag_mask (v : Z) (r : apk_repository) : apk_repository :=
  Repository (repo_hash r) v (repo_absolute_pkgname r) (repo_is_remote r) (repo_stale r) (repo_v2_allowed r)
    (repo_url_base r) (repo_url_printable r) (repo_url_index r) (repo_url_index_printable r) (repo_pkgname_spec r).
Definition set_stale (v : bool) (r : apk_repository) : apk_repository :=
  Repository (repo_hash r) (repo_tag_mask r) (repo_absolute_pkgname r) (repo_is_remote r) v (repo_v2_allowed r)
    (repo_url_base r) (repo_url_printable r) (repo_url_index r) (repo_url_index_printable r) (repo_pkgname_spec r).

(** db->repos up to num_repos, and db->repo_tags up to num_repo_tags. *)
Record repo_db := RepoDb { rd_repos : list apk_repository; rd_tags : repo_tags }.

Definition default_pkgname_spec : bytes := bs "${name}-${version}.apk".
Definition default_reponame_spec : bytes := bs "${arch}/${name}-${version}.apk".
Definition default_cachename_spec : bytes := bs "${name}-${version}.${hash:8}.apk".

(** The first repository with the same URLs gets the tag as well. *)
Fixpoint tag_known (url_base url_index : bytes) (bit : Z) (l : list apk_repository) : option (list apk_repository) :=
  match l with
  | [] => None
  | r :: l =>
      if (apk_blob_compare (Some url_base) (Some (repo_url_base r)) =? 0) && (apk_blob_compare (Some url_index) (Some (repo_url_index r)) =? 0)
      then Some (set_tag_mask (u16 (repo_tag_mask r .| bit)) r :: l)
      else l ← tag_known url_base url_index bit l; Some (r :: l)
  end.

(** The base of a repository, its index, the length of its printable form and the template of its packages.  [None] for
    a URL that is too long: the index is the null blob and the base a length without memory. *)
Definition repo_urls (arch0 url : bytes) (index_file : option bytes) : option (bytes * bytes * Z * bytes) :=
  match index_file with
  | Some index_file =>
      let url_base := apk_blob_trim_end url (chr "/") in
      url_index ← fmt_blob PATH_MAX (url_base ++ bs "/" ++ arch0 ++ bs "/" ++ index_file);
      Some (url_base, url_index, zlen url_base, default_reponame_spec)
  | None =>
      let url_base := match apk_blob_rsplit url (chr "/") with Some (url_base, _) => url_base | None => bs "." end in
      Some (url_base, url, zlen url, default_pkgname_spec)
  end.

Section adding.
(** The digest of a text, the architecture of the database, and whether the cached index of a repository is too old. *)
Context (sha256 : bytes -> bytes) (arch0 : bytes) (is_index_stale : apk_repository -> bool).

(** [None] when memory is accessed that is not there, or the tag has no number (BIT(-1)). *)
Definition add_repository_component (db : repo_db) (url : bytes) (index_file : option bytes) (tag : blob) : option (Z * repo_db) :=
  let '(tags, tag_id) := apk_db_get_tag_id (rd_tags db) tag in
  '(url_base, url_index, printable_len, pkgname_spec) ← repo_urls arch0 url index_file;
  let bit := 1 .<< tag_id in
  match tag_known url_base url_index bit (rd_repos db) with
  | Some repos => if tag_id <? 0 then None else Some (0, RepoDb repos tags)
  | None =>
      url_index_printable ← apk_url_sanitize url_index;
      let url_printable := ztake (zlen url_index_printable + (printable_len - zlen url_index)) url_index_printable in
      if APK_MAX_REPOS <=? zlen (rd_repos db) then Some (-1, RepoDb (rd_repos db) tags)
      else if tag_id <? 0 then None
      else
        let repo := Repository (sha256 url_index) (u16 bit) false (negb (apk_url_local_file url_index) || apk_blob_starts_with url_index (bs "test:")) false
                      (negb (apk_blob_ends_with url_index (bs ".adb"))) url_base url_printable url_index url_index_printable pkgname_spec in
        Some (0, RepoDb (rd_repos db ++ [set_stale (is_index_stale repo) repo]) tags)
  end.

(** The callback of the parser in the database; what comes after [None] is not looked at. *)
Definition db_repoparser_ops (db : option repo_db) (url : bytes) (index_file : option bytes) (tag : blob) : Z * option repo_db :=
  match db with
  | None => (0, None)
  | Some db => match add_repository_component db url index_file tag with Some (r, db) => (r, Some db) | None => (0, None) end
  end.
End adding.

(** ** Names of files *)

Definition apk_repo_subst (repo : apk_repository) (key : bytes) (to : option wbuf) : Z * option wbuf :=
  if apk_blob_compare (Some key) (Some (bs "hash")) =? 0 then (0, apk_blob_push_hexdump to (repo_hash repo)) else (- APKE_FORMAT_INVALID, to).

Definition apk_repo_index_cache_url (buf : Z) (repo : apk_repository) (len : Z) : option (Z + bytes) :=
  apk_blob_subst buf (apk_repo_subst repo) len (bs "APKINDEX.${hash:8}.tar.gz").

(** For the repositories of the list and the cache; the result is the text in the buffer. *)
Definition apk_repo_package_url (buf : Z) (repo : apk_repository) (pkg : apk_package) (len : Z) : option (Z + bytes) :=
  if repo_absolute_pkgname repo then apk_blob_subst buf (apk_pkg_subst pkg) len (repo_pkgname_spec repo)
  else match fmt_blob len (repo_url_base repo ++ bs "/") with
       | None => Some (inl (- ENOBUFS))
       | Some base =>
           r ← apk_blob_subst (buf + zlen base) (apk_pkg_subst pkg) (len - zlen base) (repo_pkgname_spec repo);
           Some (match r with inl r => inl r | inr name => inr (base ++ name) end)
       end.

(** The repository that a package is read from. *)
Inductive chosen_repo := CacheRepository | FilenameRepository | ListedRepository (i : Z).
Fixpoint first_repo (fuel : nat) (i : Z) (mask : Z) : option Z :=
  match fuel with O => None | S fuel => if Z.testbit mask i then Some i else first_repo fuel (i + 1) mask end.
Definition apk_db_select_repo (available_repos local_repos : Z) (pkg : apk_package) : option chosen_repo :=
  if cached pkg then Some CacheRepository
  else if negb (filename_ndx pkg =? 0) then Some FilenameRepository
  else
    let m := repos pkg .& available_repos in
    if m =? 0 then None
    else ListedRepository <$> first_repo 32 0 (if negb (m .& local_repos =? 0) then m .& local_repos else m).

(** The dependencies of the world whose tag has no repository; a tag without an entry counts as one of them. *)
Definition apk_db_check_world (force_broken_world : bool) (tags : repo_tags) (world : list apk_dependency) : Z :=
  if force_broken_world then 0
  else zlen (List.filter (fun d => negb ((dep_repository_tag d =? 0) || negb (allowed_repos (znth (RepoTag 0 [] []) tags (dep_repository_tag d)) =? 0))) world).

(** *** From a file name to the package *)

Section by_name.
Context (buf : Z) (s : store) (filename : bytes) (filesize : Z) (name_format : bytes).

(** The providers of a name.  [None] when memory before the buffer is written. *)
Fixpoint match_providers (name : bytes) (l : list (Z * bytes)) : option (option Z) :=
  match l with
  | [] => Some None
  | (a, _) :: l =>
      let pkg := get_pkg s a in
      if negb (bool_decide (pkg_name pkg = Some name)) then match_providers name l
      else if negb (filesize =? 0) && negb (size pkg =? filesize) then match_providers name l
      else
        r ← apk_blob_subst buf (apk_pkg_subst pkg) PATH_MAX name_format;
        match r with
        | inl _ => match_providers name l
        | inr text => if apk_blob_compare (Some filename) (Some text) =? 0 then Some (Some a) else match_providers name l
        end
  end.

(** The split points from [i] on. *)
Fixpoint split_points (fuel : nat) (i : Z) (split_char : Z) : option (option Z) :=
  match fuel with
  | O => Some None
  | S fuel =>
      if i <? zlen filename then
        if negb (znth 0 filename i =? split_char) then split_points fuel (i + 1) split_char
        else
          let name := ztake i filename in
          r ← match_providers name (dn_providers (apk_db_get_name s name));
          match r with Some a => Some (Some a) | None => split_points fuel (i + 1) split_char end
      else Some None
  end.
End by_name.

Definition apk_db_get_pkg_by_name (buf : Z) (s : store) (filename : bytes) (filesize : Z) (spec : blob) : option (option Z) :=
  let spec := default default_pkgname_spec spec in
  let name_format := match apk_blob_rsplit spec (chr "/") with Some (_, f) => f | None => spec end in
  if negb (apk_blob_starts_with name_format (bs "${name}")) then Some None
  else
    let split_char := znth 0 name_format 7 in
    let name_format := if existsb (Z.eqb (chr "/")) filename then spec else name_format in
    split_points buf s filename filesize name_format (length filename) 1 split_char.
