(* ===== verification/InstalledDb.v ===== *)
(** The installed database (database.c): the directories and files of installed packages, and
    the text form of the installed packages, its reader apk_db_fdb_read and its writer
    apk_db_fdb_write.

    Directories, directory instances (a directory of one package) and files live at addresses, as
    in the code, since they refer to each other.  The hash tables of directories and files are
    maps from the bucket and the key, so that a lookup with the hash of another key fails
    as it does in the code.  Access control lists are interned (Atom.v), so they are compared by
    their contents. *)
From Stdlib Require Import ZArith Lia Ascii String.
From stdpp Require Import base numbers list option gmap.
From S2P Require Import Prelude Clib Blob Codec Ctype Version Dep Package Index SolverState SolverInv Database.

(** ** Data *)

(** struct apk_db_acl *)
Record apk_db_acl := Acl { acl_mode : Z; acl_uid : Z; acl_gid : Z; acl_xattr_hash : bytes }.

#[export] Instance apk_db_acl_eq_dec : EqDecision apk_db_acl.
Proof. solve_decision. Defined.

Definition __apk_db_acl_atomize (mode uid gid : Z) (hash : bytes) : apk_db_acl := Acl (mode .& 0xfff) uid gid hash.
Definition apk_db_acl_atomize (mode uid gid : Z) : apk_db_acl := __apk_db_acl_atomize mode uid gid [].
Definition apk_db_acl_atomize_digest (mode uid gid : Z) (dig : apk_digest) : apk_db_acl :=
  __apk_db_acl_atomize mode uid gid (apk_digest_blob dig).

Definition apk_default_acl_dir : apk_db_acl := apk_db_acl_atomize 0x1ed 0 0.
Definition apk_default_acl_file : apk_db_acl := apk_db_acl_atomize 0x1a4 0 0.

(** struct apk_db_file *)
Record apk_db_file := DbFile {
  f_diri : Z; f_acl : apk_db_acl; f_audited : bool; f_broken : bool;
  f_digest_alg : Z; f_name : bytes; f_digest : bytes }.

Definition set_f_acl (v : apk_db_acl) (f : apk_db_file) : apk_db_file :=
  DbFile (f_diri f) v (f_audited f) (f_broken f) (f_digest_alg f) (f_name f) (f_digest f).

Definition apk_dbf_digest_blob (f : apk_db_file) : bytes := ztake (apk_digest_alg_len (f_digest_alg f)) (f_digest f).

Definition apk_dbf_digest_set (alg : Z) (data : bytes) (f : apk_db_file) : apk_db_file :=
  let len := apk_digest_alg_len alg in
  if 20 <? len
  then DbFile (f_diri f) (f_acl f) (f_audited f) (f_broken f) APK_DIGEST_NONE (f_name f) (f_digest f)
  else DbFile (f_diri f) (f_acl f) (f_audited f) (f_broken f) alg (f_name f) (overwrite (f_digest f) (ztake len data)).

Definition APK_PROTECT_NONE : Z := 0.
Definition APK_PROTECT_IGNORE : Z := 1.
Definition apk_protect_mode_none (mode : Z) : bool := (mode =? APK_PROTECT_NONE) || (mode =? APK_PROTECT_IGNORE).

(** struct apk_protected_path *)
Record apk_protected_path := Ppath { relative_pattern : bytes; protect_mode : Z }.

(** struct apk_db_dir *)
Record apk_db_dir := DbDir {
  dr_hash : Z; dr_parent : option Z; dr_owner : option Z; dr_diris : list Z;
  dr_protected_paths : list apk_protected_path; dr_refs : Z; dr_name : bytes;
  dr_protect_mode : Z; dr_has_protected_children : bool;
  dr_created : bool; dr_modified : bool; dr_permissions_ok : bool }.

Definition set_dr_refs (v : Z) (d : apk_db_dir) : apk_db_dir :=
  DbDir (dr_hash d) (dr_parent d) (dr_owner d) (dr_diris d) (dr_protected_paths d) v (dr_name d) (dr_protect_mode d)
    (dr_has_protected_children d) (dr_created d) (dr_modified d) (dr_permissions_ok d).
Definition set_dr_owner (v : option Z) (d : apk_db_dir) : apk_db_dir :=
  DbDir (dr_hash d) (dr_parent d) v (dr_diris d) (dr_protected_paths d) (dr_refs d) (dr_name d) (dr_protect_mode d)
    (dr_has_protected_children d) (dr_created d) (dr_modified d) (dr_permissions_ok d).
Definition set_dr_diris (v : list Z) (d : apk_db_dir) : apk_db_dir :=
  DbDir (dr_hash d) (dr_parent d) (dr_owner d) v (dr_protected_paths d) (dr_refs d) (dr_name d) (dr_protect_mode d)
    (dr_has_protected_children d) (dr_created d) (dr_modified d) (dr_permissions_ok d).
Definition set_dr_modified (v : bool) (d : apk_db_dir) : apk_db_dir :=
  DbDir (dr_hash d) (dr_parent d) (dr_owner d) (dr_diris d) (dr_protected_paths d) (dr_refs d) (dr_name d) (dr_protect_mode d)
    (dr_has_protected_children d) (dr_created d) v (dr_permissions_ok d).
(** The parent and what a directory inherits from it. *)
Definition set_dr_inherited (parent : option Z) (mode : Z) (children : bool) (ppaths : list apk_protected_path) (d : apk_db_dir) : apk_db_dir :=
  DbDir (dr_hash d) parent (dr_owner d) (dr_diris d) ppaths (dr_refs d) (dr_name d) mode
    children (dr_created d) (dr_modified d) (dr_permissions_ok d).

(** struct apk_db_dir_instance *)
Record apk_db_dir_instance := Diri { di_files : list Z; di_pkg : Z; di_dir : Z; di_acl : apk_db_acl }.

Definition set_di_acl (v : apk_db_acl) (d : apk_db_dir_instance) : apk_db_dir_instance :=
  Diri (di_files d) (di_pkg d) (di_dir d) v.

(** struct apk_ipkg_creator *)
Record apk_ipkg_creator := Ic {
  ic_diri : option Z; ic_diris : list Z; ic_files : list Z; ic_num_unsorted_diris : Z; ic_files_unsorted : bool }.

(** The part of struct apk_database about files.  [fs_owned] is ipkg->diris, by the address of the
    package. *)
Record fs_db := Fs {
  fs_dirs : gmap Z apk_db_dir; fs_dir_tab : gmap (Z * bytes) Z;
  fs_diris : gmap Z apk_db_dir_instance;
  fs_files : gmap Z apk_db_file; fs_file_tab : gmap (Z * bytes * bytes) Z;
  fs_owned : gmap Z (list Z);
  fs_ic : apk_ipkg_creator;
  fs_next : Z; fs_num_dirs : Z; fs_num_files : Z;
  fs_protected_paths : list apk_protected_path }.

Definition set_fs_dirs v (s : fs_db) : fs_db :=
  Fs v (fs_dir_tab s) (fs_diris s) (fs_files s) (fs_file_tab s) (fs_owned s) (fs_ic s) (fs_next s) (fs_num_dirs s) (fs_num_files s) (fs_protected_paths s).
Definition set_fs_dir_tab v (s : fs_db) : fs_db :=
  Fs (fs_dirs s) v (fs_diris s) (fs_files s) (fs_file_tab s) (fs_owned s) (fs_ic s) (fs_next s) (fs_num_dirs s) (fs_num_files s) (fs_protected_paths s).
Definition set_fs_diris v (s : fs_db) : fs_db :=
  Fs (fs_dirs s) (fs_dir_tab s) v (fs_files s) (fs_file_tab s) (fs_owned s) (fs_ic s) (fs_next s) (fs_num_dirs s) (fs_num_files s) (fs_protected_paths s).
Definition set_fs_files v (s : fs_db) : fs_db :=
  Fs (fs_dirs s) (fs_dir_tab s) (fs_diris s) v (fs_file_tab s) (fs_owned s) (fs_ic s) (fs_next s) (fs_num_dirs s) (fs_num_files s) (fs_protected_paths s).
Definition set_fs_file_tab v (s : fs_db) : fs_db :=
  Fs (fs_dirs s) (fs_dir_tab s) (fs_diris s) (fs_files s) v (fs_owned s) (fs_ic s) (fs_next s) (fs_num_dirs s) (fs_num_files s) (fs_protected_paths s).
Definition set_fs_owned v (s : fs_db) : fs_db :=
  Fs (fs_dirs s) (fs_dir_tab s) (fs_diris s) (fs_files s) (fs_file_tab s) v (fs_ic s) (fs_next s) (fs_num_dirs s) (fs_num_files s) (fs_protected_paths s).
Definition set_fs_ic v (s : fs_db) : fs_db :=
  Fs (fs_dirs s) (fs_dir_tab s) (fs_diris s) (fs_files s) (fs_file_tab s) (fs_owned s) v (fs_next s) (fs_num_dirs s) (fs_num_files s) (fs_protected_paths s).
Definition set_fs_next v (s : fs_db) : fs_db :=
  Fs (fs_dirs s) (fs_dir_tab s) (fs_diris s) (fs_files s) (fs_file_tab s) (fs_owned s) (fs_ic s) v (fs_num_dirs s) (fs_num_files s) (fs_protected_paths s).
Definition set_fs_num_dirs v (s : fs_db) : fs_db :=
  Fs (fs_dirs s) (fs_dir_tab s) (fs_diris s) (fs_files s) (fs_file_tab s) (fs_owned s) (fs_ic s) (fs_next s) v (fs_num_files s) (fs_protected_paths s).
Definition set_fs_num_files v (s : fs_db) : fs_db :=
  Fs (fs_dirs s) (fs_dir_tab s) (fs_diris s) (fs_files s) (fs_file_tab s) (fs_owned s) (fs_ic s) (fs_next s) (fs_num_dirs s) v (fs_protected_paths s).

Definition ic_empty : apk_ipkg_creator := Ic None [] [] 0 false.
Definition dir_zero (name : bytes) (hash : Z) : apk_db_dir := DbDir hash None None [] [] 0 name 0 false false false false.
Definition get_dir (s : fs_db) (a : Z) : apk_db_dir := default (dir_zero [] 0) (fs_dirs s !! a).
Definition get_diri (s : fs_db) (a : Z) : apk_db_dir_instance := default (Diri [] 0 0 apk_default_acl_dir) (fs_diris s !! a).
Definition get_file (s : fs_db) (a : Z) : apk_db_file :=
  default (DbFile 0 apk_default_acl_file false false 0 [] []) (fs_files s !! a).
Definition upd_dir (a : Z) (f : apk_db_dir -> apk_db_dir) (s : fs_db) : fs_db := set_fs_dirs (<[a := f (get_dir s a)]> (fs_dirs s)) s.
Definition upd_diri (a : Z) (f : apk_db_dir_instance -> apk_db_dir_instance) (s : fs_db) : fs_db :=
  set_fs_diris (<[a := f (get_diri s a)]> (fs_diris s)) s.
Definition upd_file (a : Z) (f : apk_db_file -> apk_db_file) (s : fs_db) : fs_db :=
  set_fs_files (<[a := f (get_file s a)]> (fs_files s)) s.

(** A name with its length in a field of [w] bits: 16 for directories, 8 for files. *)
Definition name_field (w : Z) (name : bytes) : bytes := ztake (wrap w (zlen name)) name.

(** apk_db_open before anything is read. *)
Definition fs_init (ppaths : list apk_protected_path) : fs_db := Fs ∅ ∅ ∅ ∅ ∅ ∅ ic_empty 1 0 0 ppaths.

(** Sizes of the hash tables (apk_db_init). *)
Definition DIR_BUCKETS : Z := 20000.
Definition FILE_BUCKETS : Z := 200000.

(** ** Directories *)

(** The pattern matching of the C library, with FNM_PATHNAME: pattern and text. *)
Class Fnmatch := fnmatch : bytes -> bytes -> bool.

(** APK_SIMULATE of the flags: nothing is done to the file system. *)
Class Simulate := simulate : bool.

Section Dirs.
Context {FM : Fnmatch} {SIM : Simulate}.

Definition apk_db_dir_ref (a : Z) (s : fs_db) : fs_db := upd_dir a (fun d => set_dr_refs (u16 (dr_refs d + 1)) d) s.

Definition apk_db_dir_query (s : fs_db) (name : bytes) : option Z :=
  fs_dir_tab s !! (apk_blob_hash name mod DIR_BUCKETS, name).

(** The loop over the protected paths: the paths for the children, the mode and the mark. *)
Fixpoint protect_loop (ppaths : list apk_protected_path) (relative_name : bytes) (acc : list apk_protected_path)
    (mode : Z) (children : bool) : list apk_protected_path * Z * bool :=
  match ppaths with
  | [] => (acc, mode, children)
  | p :: ppaths =>
      match apk_blob_split (Some (relative_pattern p)) (bs "/") with
      | Some (first, rest) =>
          if fnmatch first relative_name
          then protect_loop ppaths relative_name (acc ++ [Ppath rest (protect_mode p)]) mode
                 (children || negb (apk_protect_mode_none (protect_mode p)))
          else protect_loop ppaths relative_name acc mode children
      | None =>
          if fnmatch (relative_pattern p) relative_name
          then protect_loop ppaths relative_name acc (protect_mode p)
                 (children || negb (apk_protect_mode_none (protect_mode p)))
          else protect_loop ppaths relative_name acc mode children
      end
  end.

(** strrchr(dir->rooted_name, '/') + 1 *)
Definition basename (name : bytes) : bytes := match apk_blob_rsplit name (chr "/") with Some (_, r) => r | None => name end.

Fixpoint apk_db_dir_get (fuel : nat) (name : bytes) (s : fs_db) : option (Z * fs_db) :=
  match fuel with
  | O => None
  | S fuel =>
      let hash := apk_blob_hash name in
      let name := apk_blob_trim_end name (chr "/") in
      let key := (hash mod DIR_BUCKETS, name) in
      let found := fs_dir_tab s !! key in
      let reuse := match found with Some a => negb (dr_refs (get_dir s a) =? 0) | None => false end in
      if reuse then match found with Some a => Some (a, apk_db_dir_ref a s) | None => None end
      else
        let '(a, s) := match found with
                       | Some a => (a, s)
                       | None => let a := fs_next s in
                                 let kept := name_field 16 name in
                                 (a, set_fs_next (a + 1) (set_fs_dir_tab (<[(hash mod DIR_BUCKETS, kept) := a]> (fs_dir_tab s))
                                       (set_fs_dirs (<[a := dir_zero kept hash]> (fs_dirs s)) s)))
                       end in
        let s := set_fs_num_dirs (fs_num_dirs s + 1) (upd_dir a (fun d => set_dr_diris [] (set_dr_refs 1 d)) s) in
        let inherit parent mode children ppaths s :=
          let '(acc, mode, children) := protect_loop ppaths (basename name) [] mode children in
          Some (a, upd_dir a (set_dr_inherited parent mode children acc) s) in
        if zlen name =? 0 then
          Some (a, upd_dir a (fun d => set_dr_inherited None (dr_protect_mode d) true (dr_protected_paths d) d) s)
        else match apk_blob_rsplit name (chr "/") with
             | Some (bparent, _) =>
                 r ← apk_db_dir_get fuel bparent s;
                 let '(parent, s) := r in
                 let mode := dr_protect_mode (get_dir s parent) in
                 inherit (Some parent) mode (negb (apk_protect_mode_none mode)) (dr_protected_paths (get_dir s parent)) s
             | None =>
                 r ← apk_db_dir_get fuel [] s;
                 let '(parent, s) := r in
                 inherit (Some parent) (dr_protect_mode (get_dir s a)) (dr_has_protected_children (get_dir s a)) (fs_protected_paths s) s
             end
  end.

(** Every level of recursion drops a component of the path, the last one is the root. *)
Definition dir_get (name : bytes) (s : fs_db) : option (Z * fs_db) := apk_db_dir_get (S (S (length name))) name s.

(** ** Files and directory instances of the package that is read *)

Definition dir_name_of (s : fs_db) (diri : Z) : bytes := dr_name (get_dir s (di_dir (get_diri s diri))).

Definition files_qsort_cmp (s : fs_db) (a b : Z) : Z := apk_blob_sort (f_name (get_file s a)) (f_name (get_file s b)).
Definition diri_qsort_cmp (s : fs_db) (a b : Z) : Z := apk_blob_sort (dir_name_of s a) (dir_name_of s b).
Definition diri_bsearch_cmp (s : fs_db) (dirname : bytes) (a : Z) : Z := apk_blob_sort dirname (dir_name_of s a).

(** qsort of the C library, as an insertion sort. *)
Section Sort.
Context (cmp : Z -> Z -> Z).
Fixpoint qsort_insert (x : Z) (l : list Z) : list Z :=
  match l with
  | [] => [x]
  | y :: l' => if cmp x y <=? 0 then x :: l else y :: qsort_insert x l'
  end.
Definition qsort (l : list Z) : list Z := foldr qsort_insert [] l.
End Sort.

(** bsearch of the C library: the middle of what is left, from [base]. *)
Fixpoint bsearch (fuel : nat) (cmp : Z -> Z) (l : list Z) (base nel : nat) : option Z :=
  match fuel with
  | O => None
  | S fuel =>
      if (nel =? 0)%nat then None
      else
        let i := (base + nel / 2)%nat in
        match l !! i with
        | None => None
        | Some x =>
            if cmp x <? 0 then bsearch fuel cmp l base (nel / 2)
            else if 0 <? cmp x then bsearch fuel cmp l (S i) (nel - (nel / 2 + 1))
            else Some x
        end
  end.

Definition set_ic_num_unsorted (v : Z) (ic : apk_ipkg_creator) : apk_ipkg_creator :=
  Ic (ic_diri ic) (ic_diris ic) (ic_files ic) v (ic_files_unsorted ic).

Definition apk_db_file_new (diri : Z) (name : bytes) (s : fs_db) : Z * fs_db :=
  let a := fs_next s in
  let file := DbFile diri apk_default_acl_file false false 0 (name_field 8 name) (replicate 20 0) in
  let s := set_fs_next (a + 1) (set_fs_files (<[a := file]> (fs_files s)) s) in
  let ic := fs_ic s in
  let unsorted := ic_files_unsorted ic ||
    match last (ic_files ic) with Some l => files_qsort_cmp s a l <? 0 | None => false end in
  (a, set_fs_ic (Ic (ic_diri ic) (ic_diris ic) (ic_files ic ++ [a]) (ic_num_unsorted_diris ic) unsorted) s).

Definition apk_db_file_get (diri : Z) (name : bytes) (s : fs_db) : Z * fs_db :=
  let dir := get_dir s (di_dir (get_diri s diri)) in
  let hash := apk_blob_hash_seed name (dr_hash dir) mod FILE_BUCKETS in
  match fs_file_tab s !! (hash, dr_name dir, name) with
  | Some a => (a, s)
  | None =>
      let '(a, s) := apk_db_file_new diri name s in
      (a, set_fs_num_files (fs_num_files s + 1) (set_fs_file_tab (<[(hash, dr_name dir, f_name (get_file s a)) := a]> (fs_file_tab s)) s))
  end.

Definition apk_db_ipkg_creator_reset (s : fs_db) : fs_db :=
  set_fs_ic (Ic None [] (ic_files (fs_ic s)) 0 (ic_files_unsorted (fs_ic s))) s.

Definition apk_db_ipkg_commit_files (s : fs_db) : fs_db :=
  let ic := fs_ic s in
  let files := if ic_files_unsorted ic then qsort (files_qsort_cmp s) (ic_files ic) else ic_files ic in
  let s := match ic_diri ic with
           | Some a => upd_diri a (fun d => Diri files (di_pkg d) (di_dir d) (di_acl d)) s
           | None => s
           end in
  set_fs_ic (Ic (ic_diri ic) (ic_diris ic) [] (ic_num_unsorted_diris ic) false) s.

Definition apk_db_ipkg_commit (pkg : Z) (s : fs_db) : fs_db :=
  let s := apk_db_ipkg_commit_files s in
  let diris := ic_diris (fs_ic s) in
  let s := set_fs_owned (<[pkg := diris]> (fs_owned s)) s in
  let s := foldl (fun s a => upd_dir (di_dir (get_diri s a)) (fun d => set_dr_diris (dr_diris d ++ [a]) d) s) s diris in
  apk_db_ipkg_creator_reset s.

Definition apk_db_diri_bsearch (dirname : bytes) (s : fs_db) : option Z * fs_db :=
  let ic := fs_ic s in
  let s := if 32 <? ic_num_unsorted_diris ic
           then set_fs_ic (Ic (ic_diri ic) (qsort (diri_qsort_cmp s) (ic_diris ic)) (ic_files ic) 0 (ic_files_unsorted ic)) s
           else s in
  let diris := ic_diris (fs_ic s) in
  let last_sorted := (length diris - Z.to_nat (ic_num_unsorted_diris (fs_ic s)))%nat in
  match bsearch (S (length diris)) (diri_bsearch_cmp s dirname) diris 0 last_sorted with
  | Some a => (Some a, s)
  | None => (head (filter (fun a => diri_bsearch_cmp s dirname a = 0) (drop last_sorted diris)), s)
  end.

Definition apk_db_diri_query (dirname : bytes) (s : fs_db) : option Z * fs_db :=
  match ic_diri (fs_ic s) with
  | Some a => if diri_bsearch_cmp s dirname a =? 0 then (Some a, s) else apk_db_diri_bsearch dirname s
  | None => apk_db_diri_bsearch dirname s
  end.

Definition apk_db_diri_select (a : Z) (s : fs_db) : fs_db :=
  if bool_decide (ic_diri (fs_ic s) = Some a) then s
  else
    let s := apk_db_ipkg_commit_files s in
    let ic := fs_ic s in
    set_fs_ic (Ic (Some a) (ic_diris ic) (di_files (get_diri s a)) (ic_num_unsorted_diris ic) (ic_files_unsorted ic)) s.

(** Whether a new directory comes before the last one: [res] is the comparison with the
    directory that was used last. *)
Definition diri_unsorted (dirname : bytes) (res : Z) (s : fs_db) : bool :=
  let ic := fs_ic s in
  (if negb (ic_num_unsorted_diris ic =? 0) then -1
   else match last (ic_diris ic) with
        | Some l => if bool_decide (ic_diri ic = Some l) then res else diri_bsearch_cmp s dirname l
        | None => res
        end) <? 0.

Definition apk_db_diri_new (dirname : bytes) (pkg res : Z) (s : fs_db) : option (Z * fs_db) :=
  let a := fs_next s in
  r ← dir_get dirname (set_fs_next (a + 1) s);
  let '(dir, s) := r in
  let s := set_fs_diris (<[a := Diri [] pkg dir apk_default_acl_dir]> (fs_diris s)) s in
  let unsorted := diri_unsorted dirname res s in
  let ic := fs_ic s in
  Some (a, set_fs_ic (Ic (ic_diri ic) (ic_diris ic ++ [a]) (ic_files ic)
                        (if unsorted then ic_num_unsorted_diris ic + 1 else ic_num_unsorted_diris ic) (ic_files_unsorted ic)) s).

Definition apk_db_diri_get (dirname : bytes) (pkg : Z) (s : fs_db) : option (Z * fs_db) :=
  let res := match ic_diri (fs_ic s) with Some a => diri_bsearch_cmp s dirname a | None => 1 end in
  match ic_diri (fs_ic s), res =? 0 with
  | Some a, true => Some (a, s)
  | _, _ =>
      let '(diri, s) := apk_db_diri_bsearch dirname s in
      r ← match diri with Some a => Some (a, s) | None => apk_db_diri_new dirname pkg res s end;
      let '(a, s) := r in
      Some (a, apk_db_diri_select a s)
  end.

(** ** Owners of directories *)

(** A package by its address: the template that is read, or a package of the database. *)
Definition pkg_at (t : apk_package) (st : store) (a : Z) : apk_package := if a =? pkg_addr t then t else get_pkg st a.

(** The mark of the directory; the permissions in the file system are outside of the model. *)
Definition apk_db_dir_update_permissions (diri : Z) (s : fs_db) : fs_db :=
  let dir := di_dir (get_diri s diri) in
  if negb (dr_permissions_ok (get_dir s dir)) then s
  else if simulate then s
  else upd_dir dir (set_dr_modified true) s.

Definition apk_db_dir_apply_diri_permissions (t : apk_package) (st : store) (diri : Z) (s : fs_db) : option fs_db :=
  let dir := di_dir (get_diri s diri) in
  match dr_owner (get_dir s dir) with
  | None => Some (upd_dir dir (set_dr_owner (Some diri)) s)
  | Some o =>
      r ← apk_pkg_replaces_dir (pkg_at t st (di_pkg (get_diri s o))) (pkg_at t st (di_pkg (get_diri s diri)));
      if negb (r =? APK_PKG_REPLACES_YES) then Some s
      else
        let s := if negb (bool_decide (di_acl (get_diri s o) = di_acl (get_diri s diri)))
                 then apk_db_dir_update_permissions diri s else s in
        Some (upd_dir dir (set_dr_owner (Some diri)) s)
  end.
End Dirs.

(** ** Reading *)

(** The local variables of apk_db_fdb_read, and the database.  The record that [ipkg] points to
    is the one of the template; [fr_ipkg] says that the pointer is set. *)
Record fdb_reader := FdbReader {
  fr_db : db_compat; fr_tmpl : apk_package_tmpl; fr_ipkg : bool; fr_diri : option Z; fr_file : option Z;
  fr_file_digest : apk_digest; fr_xattr_digest : apk_digest; fr_fs : fs_db; fr_store : store }.

Definition set_fr_db v (r : fdb_reader) : fdb_reader :=
  FdbReader v (fr_tmpl r) (fr_ipkg r) (fr_diri r) (fr_file r) (fr_file_digest r) (fr_xattr_digest r) (fr_fs r) (fr_store r).
Definition set_fr_tmpl v (r : fdb_reader) : fdb_reader :=
  FdbReader (fr_db r) v (fr_ipkg r) (fr_diri r) (fr_file r) (fr_file_digest r) (fr_xattr_digest r) (fr_fs r) (fr_store r).
Definition set_fr_ipkg v (r : fdb_reader) : fdb_reader :=
  FdbReader (fr_db r) (fr_tmpl r) v (fr_diri r) (fr_file r) (fr_file_digest r) (fr_xattr_digest r) (fr_fs r) (fr_store r).
Definition set_fr_diri v (r : fdb_reader) : fdb_reader :=
  FdbReader (fr_db r) (fr_tmpl r) (fr_ipkg r) v (fr_file r) (fr_file_digest r) (fr_xattr_digest r) (fr_fs r) (fr_store r).
Definition set_fr_file v (r : fdb_reader) : fdb_reader :=
  FdbReader (fr_db r) (fr_tmpl r) (fr_ipkg r) (fr_diri r) v (fr_file_digest r) (fr_xattr_digest r) (fr_fs r) (fr_store r).
Definition set_fr_file_digest v (r : fdb_reader) : fdb_reader :=
  FdbReader (fr_db r) (fr_tmpl r) (fr_ipkg r) (fr_diri r) (fr_file r) v (fr_xattr_digest r) (fr_fs r) (fr_store r).
Definition set_fr_xattr_digest v (r : fdb_reader) : fdb_reader :=
  FdbReader (fr_db r) (fr_tmpl r) (fr_ipkg r) (fr_diri r) (fr_file r) (fr_file_digest r) v (fr_fs r) (fr_store r).
Definition set_fr_fs v (r : fdb_reader) : fdb_reader :=
  FdbReader (fr_db r) (fr_tmpl r) (fr_ipkg r) (fr_diri r) (fr_file r) (fr_file_digest r) (fr_xattr_digest r) v (fr_store r).
Definition set_fr_store v (r : fdb_reader) : fdb_reader :=
  FdbReader (fr_db r) (fr_tmpl r) (fr_ipkg r) (fr_diri r) (fr_file r) (fr_file_digest r) (fr_xattr_digest r) (fr_fs r) v.

(** A blob with an integer at its front; nothing is read from a NULL blob. *)
Definition pull_uint (b : blob) (radix : Z) : Z * blob :=
  match b with None => (0, None) | Some l => let '(v, l) := apk_blob_pull_uint l radix in (v, Some l) end.

(** The new state, an error, or [None] for an invalid memory access. *)
Abbreviation fdb_res := (option (fdb_reader + Z)).

Section Read.
Context {FM : Fnmatch} {SIM : Simulate} (layer : Z) (force_old_apk : bool).

Definition bad : fdb_res := Some (inr (- APKE_V2DB_FORMAT)).

(** apk_db_ipkg_create of the template, when [ipkg] is NULL. *)
Definition fdb_create (r : fdb_reader) : fdb_reader :=
  if fr_ipkg r then r
  else
    let '(pkg, st) := apk_pkg_install (tm_pkg (fr_tmpl r)) (fr_store r) in
    let fs := apk_db_ipkg_creator_reset (fr_fs r) in
    let diris := default [] (fs_owned fs !! pkg_addr pkg) in
    let fs := set_fs_ic (Ic None diris (ic_files (fs_ic fs)) 0 (ic_files_unsorted (fs_ic fs))) fs in
    set_fr_ipkg true (set_fr_tmpl (Tmpl pkg (tm_id (fr_tmpl r))) (set_fr_fs fs (set_fr_store st r))).

(** The directories of the package and its record go to the package of the database. *)
Definition fdb_pkg_add (r : fdb_reader) : option fdb_reader :=
  let t := fr_tmpl r in
  let old := match fr_store r with s => match st_ids s !! id_key (tm_id t) with Some a => ipkg (get_pkg s a) | None => None end end in
  let '(res, t', st) := apk_db_pkg_add t (fr_store r) in
  match res with
  | None => None
  | Some a =>
      let fs := fr_fs r in
      let tmpl := pkg_addr (tm_pkg t) in
      let fs := match old, ipkg (tm_pkg t) with
                | None, Some _ =>
                    let diris := default [] (fs_owned fs !! tmpl) in
                    let fs := foldl (fun fs d => upd_diri d (fun x => Diri (di_files x) a (di_dir x) (di_acl x)) fs) fs diris in
                    set_fs_owned (<[a := diris]> (delete tmpl (fs_owned fs))) fs
                | _, _ => set_fs_owned (delete tmpl (fs_owned fs)) fs
                end in
      Some (set_fr_tmpl t' (set_fr_fs fs (set_fr_store st r)))
  end.

(** The owner of the directory that is left. *)
Definition fdb_apply (r : fdb_reader) : option fs_db :=
  match fr_diri r with
  | Some d => apk_db_dir_apply_diri_permissions (tm_pkg (fr_tmpl r)) (fr_store r) d (fr_fs r)
  | None => Some (fr_fs r)
  end.

(** The empty line at the end of a package. *)
Definition fdb_end (r : fdb_reader) : fdb_res :=
  match pkg_name (tm_pkg (fr_tmpl r)) with
  | None => Some (inl r)
  | Some _ =>
      fs ← fdb_apply r;
      let r := fdb_create (set_fr_fs fs r) in
      let r := set_fr_fs (apk_db_ipkg_commit (pkg_addr (tm_pkg (fr_tmpl r))) (fr_fs r)) r in
      match fdb_pkg_add r with
      | None => bad
      | Some r => Some (inl (set_fr_tmpl (with_pkg (fr_tmpl r) (set_layer layer)) (set_fr_ipkg false (set_fr_diri None r))))
      end
  end.

Definition upd_ipkg (f : apk_installed_package -> apk_installed_package) (r : fdb_reader) : fdb_reader :=
  set_fr_tmpl (with_pkg (fr_tmpl r) (fun p => set_ipkg (f <$> ipkg p) p)) r.

(** The letters of the line of flags. *)
Fixpoint fdb_flags (l : bytes) (ip : apk_installed_package) : option apk_installed_package :=
  match l with
  | [] => Some ip
  | c :: l =>
      if c =? chr "f" then fdb_flags l (set_broken_files true ip)
      else if c =? chr "s" then fdb_flags l (set_broken_script true ip)
      else if c =? chr "x" then fdb_flags l (set_broken_xattr true ip)
      else if c =? chr "S" then fdb_flags l (set_sha256_160 true ip)
      else if force_old_apk then fdb_flags l ip
      else None
  end.

(** The value of an acl line: the acl, what is left of the line, and the digest variable. *)
Definition fdb_acl (l : bytes) (xattr_digest : apk_digest) : option (apk_db_acl * blob * apk_digest) :=
  let '(uid, b) := pull_uint (Some l) 10 in
  let b := apk_blob_pull_char b (chr ":") in
  let '(gid, b) := pull_uint b 10 in
  let b := apk_blob_pull_char b (chr ":") in
  let '(mode, b) := pull_uint b 8 in
  d ← match apk_blob_pull_blob_match (blob_data b) (bs ":") with
      | Some rest => apk_blob_pull_digest (Some rest) xattr_digest
      | None => Some (b, apk_digest_reset xattr_digest)
      end;
  let '(b, dig) := d in
  Some (apk_db_acl_atomize_digest (u32 mode) (u32 uid) (u32 gid) dig, b, dig).

(** A result whose line must not have been used up by an error. *)
Definition unless_null (b : blob) (r : fdb_reader) : fdb_res := if APK_BLOB_IS_NULL b then bad else Some (inl r).

(** The variable length of a dependency line: pulling it leaves a NULL blob exactly when it
    stopped at something that is not a dependency. *)
Definition deps_rest (rc : Z) : blob := if rc =? - APKE_DEPENDENCY_FORMAT then None else Some [].

Definition set_fr_tags (tgs : repo_tags) (r : fdb_reader) : fdb_reader :=
  let db := fr_db r in
  set_fr_db (Compat tgs (compat_depversions db) (compat_notinstallable db) (compat_newfeatures db)) r.

(** The entries of the installed database: [add_info] is the result of apk_pkgtmpl_add_info. *)
Definition fdb_entry (add_info field : Z) (l : bytes) (r : fdb_reader) : fdb_res :=
  let p := tm_pkg (fr_tmpl r) in
  if is_field field "g" then
    Some (inl (set_fr_tmpl (with_pkg (fr_tmpl r) (fun p => set_tags (tags p ++ apk_blob_foreach_word (Some l)) p)) r))
  else if is_field field "F" then
    match pkg_name p with
    | None => bad
    | Some _ =>
        fs ← fdb_apply r;
        d ← apk_db_diri_get l (pkg_addr p) fs;
        Some (inl (set_fr_diri (Some d.1) (set_fr_fs d.2 r)))
    end
  else if is_field field "a" || is_field field "M" then
    match fr_diri r, fr_file r with
    | None, _ => bad
    | Some d, file =>
        if is_field field "a" && bool_decide (file = None) then bad
        else
          x ← fdb_acl l (fr_xattr_digest r);
          let '(acl, b, dig) := x in
          let fs := if is_field field "M" then upd_diri d (set_di_acl acl) (fr_fs r)
                    else match file with Some f => upd_file f (set_f_acl acl) (fr_fs r) | None => fr_fs r end in
          unless_null b (set_fr_xattr_digest dig (set_fr_fs fs r))
    end
  else if is_field field "R" then
    match fr_diri r with
    | None => bad
    | Some d => let '(f, fs) := apk_db_file_get d l (fr_fs r) in Some (inl (set_fr_file (Some f) (set_fr_fs fs r)))
    end
  else if is_field field "Z" then
    match fr_file r with
    | None => bad
    | Some f =>
        x ← apk_blob_pull_digest (Some l) (fr_file_digest r);
        let '(b, dig) := x in
        let sha256 := match ipkg p with Some ip => sha256_160 ip | None => false end in
        let dig := if (d_alg dig =? APK_DIGEST_SHA1) && sha256 then apk_digest_set dig APK_DIGEST_SHA256_160 else dig in
        unless_null b (set_fr_file_digest dig (set_fr_fs (upd_file f (apk_dbf_digest_set (d_alg dig) (d_data dig)) (fr_fs r)) r))
    end
  else if is_field field "r" then
    match apk_blob_pull_deps (Some l) (db_tags (fr_db r)) (default [] (replaces <$> ipkg p)) false with
    | None => None
    | Some (rc, tgs, deps) => unless_null (deps_rest rc) (upd_ipkg (set_replaces deps) (set_fr_tags tgs r))
    end
  else if is_field field "q" then Some (inl (upd_ipkg (set_replaces_priority (u16 (apk_blob_pull_uint l 10).1)) r))
  else if is_field field "s" then
    let '(tgs, tag) := apk_db_get_tag_id (db_tags (fr_db r)) (Some l) in
    Some (inl (upd_ipkg (set_repository_tag (wrap 6 tag)) (set_fr_tags tgs r)))
  else if is_field field "f" then
    match ipkg p with
    | None => None
    | Some ip => match fdb_flags l ip with None => bad | Some ip => Some (inl (upd_ipkg (fun _ => ip) r)) end
    end
  else if negb (add_info =? 0) && negb force_old_apk then bad
  else Some (inl (set_fr_tmpl (with_pkg (fr_tmpl r) (set_filename_ndx 0)) r)).

(** One turn of the loop of apk_db_fdb_read for the installed database. *)
Definition fdb_line (r : fdb_reader) (l : bytes) : fdb_res :=
  if zlen l <? 2 then fdb_end r
  else if negb (znth 0 l 1 =? chr ":") then bad
  else
    let field := znth 0 l 0 in
    let l := zdrop 2 l in
    match apk_pkgtmpl_add_info (fr_db r) (fr_tmpl r) field l with
    | None => None
    | Some (db, t, res) =>
        let r := set_fr_tmpl t (set_fr_db db r) in
        if res =? 0 then Some (inl r)
        else
          let r := if res =? 1 then fdb_create r else r in
          if fr_ipkg r then fdb_entry res field l r else Some (inl r)
    end.

Fixpoint fdb_lines (r : fdb_reader) (ls : list bytes) : fdb_res :=
  match ls with
  | [] => Some (inl r)
  | l :: ls => match fdb_line r l with Some (inl r) => fdb_lines r ls | e => e end
  end.

(** The variables at the start; the digests are uninitialised. *)
Definition fdb_start (tmpl : Z) (db : db_compat) (dig1 dig2 : apk_digest) (fs : fs_db) (st : store) : fdb_reader :=
  FdbReader db (with_pkg (apk_pkgtmpl_init tmpl) (set_layer layer)) false None None dig1 dig2 fs st.

Definition apk_db_fdb_read (bufsize tmpl : Z) (db : db_compat) (dig1 dig2 : apk_digest) (fs : fs_db) (st : store) (text : bytes) : fdb_res :=
  let '(ls, e) := istream_lines bufsize text in
  match fdb_lines (fdb_start tmpl db dig1 dig2 fs st) ls with
  | Some (inl r) => Some (if e <? 0 then inr e else inl r)
  | r => r
  end.
End Read.

(** ** Writing *)

Definition PATH_MAX : Z := 4096.
Definition FDB_BUF : Z := 1024 + PATH_MAX.

Definition apk_blob_push_db_acl (b : option wbuf) (field : ascii) (acl : apk_db_acl) : option wbuf :=
  let b := apk_blob_push_blob b [chr field; chr ":"] in
  let b := apk_blob_push_uint b (acl_uid acl) 10 in
  let b := apk_blob_push_blob b (bs ":") in
  let b := apk_blob_push_uint b (acl_gid acl) 10 in
  let b := apk_blob_push_blob b (bs ":") in
  let b := apk_blob_push_uint b (acl_mode acl) 8 in
  let b := if negb (zlen (acl_xattr_hash acl) =? 0)
           then apk_blob_push_hash (apk_blob_push_blob b (bs ":")) (acl_xattr_hash acl) else b in
  apk_blob_push_blob b [10].

(** The stream takes everything that is written to it. *)
Fixpoint write_blobs_loop (os sep : bytes) (blobs : list bytes) : bytes :=
  match blobs with
  | [] => os
  | b :: blobs => write_blobs_loop (os ++ sep ++ b) (bs " ") blobs
  end.
Definition write_blobs (os field : bytes) (blobs : list bytes) : bytes :=
  if zlen blobs =? 0 then os else write_blobs_loop os field blobs ++ [10].

(** The buffer goes to the stream; [None] when something did not fit into it. *)
Definition fdb_flush (buf : option wbuf) (os : bytes) : option bytes :=
  t ← apk_blob_pushed FDB_BUF buf; Some (os ++ t).

Definition fdb_push_file (file : apk_db_file) (buf : option wbuf) : option wbuf :=
  let buf := apk_blob_push_blob (apk_blob_push_blob (apk_blob_push_blob buf (bs "R:")) (f_name file)) [10] in
  let buf := if negb (bool_decide (f_acl file = apk_default_acl_file)) then apk_blob_push_db_acl buf "a" (f_acl file) else buf in
  if negb (f_digest_alg file =? APK_DIGEST_NONE)
  then apk_blob_push_blob (apk_blob_push_hash (apk_blob_push_blob buf (bs "Z:")) (apk_dbf_digest_blob file)) [10]
  else buf.

Fixpoint fdb_write_files (s : fs_db) (files : list Z) (os : bytes) : option bytes :=
  match files with
  | [] => Some os
  | f :: files =>
      os ← fdb_flush (fdb_push_file (get_file s f) (wbuf_new FDB_BUF)) os;
      fdb_write_files s files os
  end.

Definition fdb_push_diri (s : fs_db) (d : Z) (buf : option wbuf) : option wbuf :=
  let buf := apk_blob_push_blob (apk_blob_push_blob (apk_blob_push_blob buf (bs "F:")) (dir_name_of s d)) [10] in
  let acl := di_acl (get_diri s d) in
  if negb (bool_decide (acl = apk_default_acl_dir)) then apk_blob_push_db_acl buf "M" acl else buf.

Fixpoint fdb_write_diris (s : fs_db) (diris : list Z) (buf : option wbuf) (os : bytes) : option bytes :=
  match diris with
  | [] => Some os
  | d :: diris =>
      os ← fdb_flush (fdb_push_diri s d buf) os;
      os ← fdb_write_files s (di_files (get_diri s d)) os;
      fdb_write_diris s diris (wbuf_new FDB_BUF) os
  end.

(** The lines about the installed package go to the buffer. *)
Definition fdb_push_ipkg (tgs : repo_tags) (ip : apk_installed_package) (buf : option wbuf) : option wbuf :=
  let nl b := apk_blob_push_blob b [10] in
  let buf := if negb (zlen (replaces ip) =? 0)
             then nl (apk_blob_push_deps (apk_blob_push_blob buf (bs "r:")) (Some tgs) (replaces ip)) else buf in
  let buf := if negb (replaces_priority ip =? 0)
             then nl (apk_blob_push_uint (apk_blob_push_blob buf (bs "q:")) (replaces_priority ip) 10) else buf in
  let buf := if negb (repository_tag ip =? 0)
             then nl (apk_blob_push_blob (apk_blob_push_blob buf (bs "s:")) (plain_name (znth (RepoTag 0 [] []) tgs (repository_tag ip)))) else buf in
  if broken_files ip || broken_script ip || broken_xattr ip || sha256_160 ip then
    let flag (b : bool) c buf := if b then apk_blob_push_blob buf c else buf in
    nl (flag (sha256_160 ip) (bs "S") (flag (broken_xattr ip) (bs "x") (flag (broken_script ip) (bs "s")
         (flag (broken_files ip) (bs "f") (apk_blob_push_blob buf (bs "f:"))))))
  else buf.

(** One package: the text in [os] grows, [None] is an error. *)
Definition apk_db_fdb_write (tgs : repo_tags) (s : fs_db) (pkg : apk_package) (ip : apk_installed_package) (os : bytes) : option bytes :=
  os ← apk_pkg_write_index_header pkg os;
  let os := write_blobs os (bs "g:") (tags pkg) in
  os ← fdb_write_diris s (default [] (fs_owned s !! pkg_addr pkg)) (fdb_push_ipkg tgs ip (wbuf_new FDB_BUF)) os;
  Some (os ++ [10]).
