(* ===== verification/InstalledDbThm.v ===== *)
(** The installed database: what its writer stores, its reader gives back. *)
From Stdlib Require Import ZArith Lia Ascii String Sorted.
From stdpp Require Import base numbers list option gmap sorting.
From S2P Require Import Prelude Clib Blob Codec Ctype Version Dep Package Index SolverState SolverInv Database InstalledDb.

(** ** Directories *)

(** What a directory keeps when others are added. *)
Definition dir_kept (d d' : apk_db_dir) : Prop := dr_name d' = dr_name d /\ dr_owner d' = dr_owner d.

(** Only directories change: old ones stay where they are, new ones have no owner. *)
Record dirs_grow (s s' : fs_db) : Prop := {
  dg_rest : s' = set_fs_num_dirs (fs_num_dirs s') (set_fs_next (fs_next s')
              (set_fs_dir_tab (fs_dir_tab s') (set_fs_dirs (fs_dirs s') s)));
  dg_next : fs_next s <= fs_next s';
  dg_old : forall a d, fs_dirs s !! a = Some d -> exists d', fs_dirs s' !! a = Some d' /\ dir_kept d d';
  dg_new : forall a d', fs_dirs s !! a = None -> fs_dirs s' !! a = Some d' -> dr_owner d' = None;
}.

(** The table of directories: every entry is a directory of that name; addresses are below the
    next free one. *)
Record dirs_ok (s : fs_db) : Prop := {
  ds_tab : forall k a, fs_dir_tab s !! k = Some a -> exists d, fs_dirs s !! a = Some d /\ dr_name d = k.2;
  ds_next : forall a d, fs_dirs s !! a = Some d -> a < fs_next s;
}.

Lemma dirs_grow_refl s : dirs_grow s s.
Proof. split; [by destruct s|lia| |congruence]. intros a d E. by exists d. Qed.

Lemma dirs_grow_trans s1 s2 s3 : dirs_grow s1 s2 -> dirs_grow s2 s3 -> dirs_grow s1 s3.
Proof.
  intros [R1 N1 O1 F1] [R2 N2 O2 F2]. split; [|lia| |].
  - rewrite R2 at 1. rewrite R1. by destruct s1, s2, s3.
  - intros a d E. destruct (O1 _ _ E) as (d1 & E1 & K1 & K1'). destruct (O2 _ _ E1) as (d2 & E2 & K2 & K2').
    exists d2. split; [done|]. split; congruence.
  - intros a d' E E'. destruct (fs_dirs s2 !! a) as [d2|] eqn:E2; [|by eapply F2].
    destruct (O2 _ _ E2) as (d3 & E3 & _ & K). rewrite E3 in E'. injection E' as ->. rewrite K. by eapply F1.
Qed.

Lemma upd_dir_grow s a f d :
  fs_dirs s !! a = Some d -> dir_kept d (f d) -> dirs_ok s -> dirs_grow s (upd_dir a f s) /\ dirs_ok (upd_dir a f s).
Proof.
  intros Ea Hk [T N]. assert (Hg : get_dir s a = d) by (unfold get_dir; by rewrite Ea).
  unfold upd_dir. rewrite Hg. split; split; try by destruct s.
  - intros b e Eb. cbn. destruct (decide (a = b)) as [<-|Hne].
    + rewrite lookup_insert_eq. exists (f d). split; [done|]. congruence.
    + rewrite lookup_insert_ne by done. by exists e.
  - intros b e' Eb. cbn. destruct (decide (a = b)) as [<-|Hne]; [congruence|]. rewrite lookup_insert_ne by done. congruence.
  - cbn. intros k b Ek. destruct (T k b Ek) as (e & Ee & He). destruct (decide (a = b)) as [<-|Hne].
    + rewrite lookup_insert_eq. exists (f d). split; [done|]. destruct Hk. congruence.
    + rewrite lookup_insert_ne by done. by exists e.
  - cbn. intros b e. destruct (decide (a = b)) as [<-|Hne]; [intros _; by eapply N|]. rewrite lookup_insert_ne by done. apply N.
Qed.

Lemma set_num_dirs_grow s n : dirs_ok s -> dirs_grow s (set_fs_num_dirs n s) /\ dirs_ok (set_fs_num_dirs n s).
Proof.
  intros [T N]. split; split; try by destruct s. intros a d E. by exists d. cbn. congruence.
Qed.

Lemma new_dir_grow s key d :
  dirs_ok s -> dr_name d = key.2 -> dr_owner d = None ->
  let s' := set_fs_next (fs_next s + 1) (set_fs_dir_tab (<[key := fs_next s]> (fs_dir_tab s)) (set_fs_dirs (<[fs_next s := d]> (fs_dirs s)) s)) in
  dirs_grow s s' /\ dirs_ok s'.
Proof.
  intros [T N] Hn Ho s'. assert (Hf : fs_dirs s !! fs_next s = None).
  { apply eq_None_not_Some. intros [e E]. apply N in E. lia. }
  split; split; try by destruct s.
  - cbn. lia.
  - cbn. intros a e E. exists e. rewrite lookup_insert_ne by congruence. done.
  - cbn. intros a e. rewrite lookup_insert_Some. intros E [[<- <-]|[_ E']]; congruence.
  - cbn. intros k a. rewrite lookup_insert_Some. intros [[<- <-]|[_ E]].
    + exists d. by rewrite lookup_insert_eq.
    + destruct (T _ _ E) as (e & Ee & He). exists e. rewrite lookup_insert_ne by congruence. done.
  - cbn. intros a e. rewrite lookup_insert_Some. intros [[<- <-]|[_ E]]; [lia|]. apply N in E. lia.
Qed.

Lemma trim_end_fuel_len p l : (length (trim_end_fuel p l) <= length l)%nat.
Proof. induction l as [|x l IH]; cbn; [lia|]. destruct (p x); cbn; lia. Qed.

Lemma trim_end_len l c : (length (apk_blob_trim_end l c) <= length l)%nat.
Proof.
  unfold apk_blob_trim_end. rewrite length_rev. pose proof (trim_end_fuel_len (Z.eqb c) (rev l)) as H.
  by rewrite length_rev in H.
Qed.

(** Short names are kept whole. *)
Lemma name_field_id w name : 0 <= w -> zlen name < 2 ^ w -> name_field w name = name.
Proof.
  intros Hw Hl. unfold name_field, wrap. rewrite Z.mod_small by (pose proof (zlen_nonneg name); lia).
  unfold ztake, zlen. rewrite Nat2Z.id. apply take_ge. lia.
Qed.

Section DirGet.
Context {FM : Fnmatch}.

(** A directory of that name, in tables that only grew. *)
Definition dir_got (name : bytes) (s : fs_db) (a : Z) (s' : fs_db) : Prop :=
  dirs_grow s s' /\ dirs_ok s' /\ exists d, fs_dirs s' !! a = Some d /\ dr_name d = name.

Lemma dir_got_trans name s1 s2 a s3 : dirs_grow s1 s2 -> dir_got name s2 a s3 -> dir_got name s1 a s3.
Proof. intros G (G' & R). split; [by eapply dirs_grow_trans|done]. Qed.

Lemma dir_got_upd name s a s' f :
  dir_got name s a s' -> (forall d, dir_kept d (f d)) -> dir_got name s a (upd_dir a f s').
Proof.
  intros (G & O & d & Ed & Hd) Hf. destruct (upd_dir_grow s' a f d Ed (Hf d) O) as [G' O'].
  split; [by eapply dirs_grow_trans|]. split; [done|]. exists (f d). split; [|destruct (Hf d); congruence].
  unfold upd_dir, get_dir. cbn. rewrite lookup_insert_eq, Ed. done.
Qed.

(** Directories that were looked at before are still there. *)
Lemma dir_got_later name s a s' s'' : dir_got name s a s' -> dirs_grow s' s'' -> dirs_ok s'' -> dir_got name s a s''.
Proof.
  intros (G & _ & d & Ed & Hd) G' O'. split; [by eapply dirs_grow_trans|]. split; [done|].
  destruct (dg_old _ _ G' _ _ Ed) as (d' & E' & K & _). exists d'. split; [done|]. congruence.
Qed.

(** The recursion ends, and what it returns is a directory of the name without its trailing
    slashes. *)
Lemma dir_get_spec fuel name s :
  dirs_ok s -> zlen name < 2 ^ 16 -> (length name + 2 <= fuel)%nat ->
  exists a s', apk_db_dir_get fuel name s = Some (a, s') /\ dir_got (apk_blob_trim_end name (chr "/")) s a s'.
Proof.
  revert name s. induction fuel as [|fuel IH]; intros name s Hs Hlen Hf; [lia|]. cbn [apk_db_dir_get].
  pose proof (trim_end_len name (chr "/")) as Ht. set (nm := apk_blob_trim_end name (chr "/")) in *.
  set (key := (apk_blob_hash name mod DIR_BUCKETS, nm)).
  assert (Hnew : forall a s1, dir_got nm s a s1 ->
    exists b s', (let s := set_fs_num_dirs (fs_num_dirs s1 + 1) (upd_dir a (fun d => set_dr_diris [] (set_dr_refs 1 d)) s1) in
        let inherit parent mode children ppaths s :=
          let '(acc, mode, children) := protect_loop ppaths (basename nm) [] mode children in
          Some (a, upd_dir a (set_dr_inherited parent mode children acc) s) in
        if zlen nm =? 0 then
          Some (a, upd_dir a (fun d => set_dr_inherited None (dr_protect_mode d) true (dr_protected_paths d) d) s)
        else match apk_blob_rsplit nm (chr "/") with
             | Some (bparent, _) =>
                 r ← apk_db_dir_get fuel bparent s;
                 let '(parent, s) := r in
                 let mode := dr_protect_mode (get_dir s parent) in
                 inherit (Some parent) mode (negb (apk_protect_mode_none mode)) (dr_protected_paths (get_dir s parent)) s
             | None =>
                 r ← apk_db_dir_get fuel [] s;
                 let '(parent, s) := r in
                 inherit (Some parent) (dr_protect_mode (get_dir s a)) (dr_has_protected_children (get_dir s a)) (fs_protected_paths s) s
             end) = Some (b, s') /\ dir_got nm s b s').
  { intros a s1 Hg. cbv zeta. set (s2 := set_fs_num_dirs _ _).
    assert (Hg2 : dir_got nm s a s2).
    { apply (dir_got_later _ _ _ (upd_dir a (fun d => set_dr_diris [] (set_dr_refs 1 d)) s1)); [by apply dir_got_upd| |];
        apply set_num_dirs_grow; by apply (dir_got_upd nm s a s1). }
    assert (Hrec : forall x, (length x + 2 <= fuel)%nat -> (length x <= length name)%nat -> exists b s3, apk_db_dir_get fuel x s2 = Some (b, s3) /\ dir_got nm s a s3).
    { intros x Hx Hxl. destruct (IH x s2) as (b & s3 & E & G3 & O3 & _); [by apply Hg2|unfold zlen in *; lia|done|]. exists b, s3. split; [done|].
      by apply (dir_got_later _ _ _ s2). }
    assert (Hinh : forall s3 parent mode children ppaths, dir_got nm s a s3 ->
      exists b s', (let '(acc, mode, children) := protect_loop ppaths (basename nm) [] mode children in
        Some (a, upd_dir a (set_dr_inherited parent mode children acc) s3)) = Some (b, s') /\ dir_got nm s b s').
    { intros s3 parent mode children ppaths H3. destruct (protect_loop _ _ _ _ _) as [[acc m] c].
      eexists _, _. split; [done|]. by apply dir_got_upd. }
    destruct (Z.eqb_spec (zlen nm) 0) as [E0|E0].
    - eexists _, _. split; [done|]. by apply dir_got_upd.
    - destruct (apk_blob_rsplit nm (chr "/")) as [[x y]|] eqn:Ex.
      + apply apk_blob_rsplit_some in Ex as [Ex _]. assert (Hl : length nm = (length x + S (length y))%nat) by (rewrite Ex, length_app; done).
        destruct (Hrec x) as (b & s3 & -> & G3); [lia|lia|].
        cbn [mbind option_bind]. by apply Hinh.
      + destruct (Hrec []) as (b & s3 & -> & G3); [unfold zlen in E0; cbn; lia|cbn; lia|].
        cbn [mbind option_bind]. by apply Hinh. }
  destruct (fs_dir_tab s !! key) as [a|] eqn:Ek.
  - destruct (ds_tab s Hs _ _ Ek) as (d & Ed & Hd). assert (G0 : dir_got nm s a s).
    { split; [apply dirs_grow_refl|]. split; [done|]. by exists d. }
    destruct (negb (dr_refs (get_dir s a) =? 0)).
    + eexists _, _. split; [done|]. by apply dir_got_upd.
    + by apply Hnew.
  - rewrite name_field_id by (unfold zlen in *; lia). fold key. apply Hnew. destruct (new_dir_grow s key (dir_zero nm (apk_blob_hash name)) Hs) as [G O]; [done..|].
    split; [done|]. split; [done|]. eexists. split; [cbn; apply lookup_insert_eq|done].
Qed.
End DirGet.

(** ** The files of a package, without addresses *)

Record file_desc := FileDesc { fd_name : bytes; fd_acl : apk_db_acl; fd_alg : Z; fd_digest : bytes }.
Record dir_desc := DirDesc { dd_name : bytes; dd_acl : apk_db_acl; dd_files : list file_desc }.

Definition describe (x : apk_db_file) : file_desc := FileDesc (f_name x) (f_acl x) (f_digest_alg x) (apk_dbf_digest_blob x).
Definition describe_diri (s : fs_db) (a : Z) : dir_desc :=
  DirDesc (dir_name_of s a) (di_acl (get_diri s a)) ((fun f => describe (get_file s f)) <$> di_files (get_diri s a)).
Definition package_files (s : fs_db) (pkg : Z) : list dir_desc := describe_diri s <$> default [] (fs_owned s !! pkg).

(** What is below an address stays as it is. *)
Record fs_ext (base : Z) (s s' : fs_db) : Prop := {
  fe_dirs : forall a d, fs_dirs s !! a = Some d -> exists d', fs_dirs s' !! a = Some d' /\ dr_name d' = dr_name d;
  fe_diris : forall a, a < base -> fs_diris s' !! a = fs_diris s !! a;
  fe_files : forall a, a < base -> fs_files s' !! a = fs_files s !! a;
  fe_owned : fs_owned s' = fs_owned s;
}.

Lemma fs_ext_refl base s : fs_ext base s s.
Proof. split; auto. intros a d E. by exists d. Qed.

Lemma fs_ext_trans base s1 s2 s3 : fs_ext base s1 s2 -> fs_ext base s2 s3 -> fs_ext base s1 s3.
Proof.
  intros [D1 I1 F1 O1] [D2 I2 F2 O2]. split; [|intros; by rewrite I2, I1|intros; by rewrite F2, F1|congruence].
  intros a d E. destruct (D1 _ _ E) as (d1 & E1 & H1). destruct (D2 _ _ E1) as (d2 & E2 & H2). exists d2. split; [done|]. congruence.
Qed.

(** A directory instance whose record, directory and files are below [n]. *)
Definition diri_at (n : Z) (s : fs_db) (a : Z) : Prop :=
  a < n /\ exists di, fs_diris s !! a = Some di /\ is_Some (fs_dirs s !! di_dir di) /\ Forall (fun f => f < n) (di_files di).

Lemma describe_diri_eq s s' a di di' :
  fs_diris s !! a = Some di -> fs_diris s' !! a = Some di' -> di_acl di' = di_acl di -> di_files di' = di_files di ->
  dr_name (get_dir s' (di_dir di')) = dr_name (get_dir s (di_dir di)) ->
  Forall (fun f => fs_files s' !! f = fs_files s !! f) (di_files di) -> describe_diri s' a = describe_diri s a.
Proof.
  intros E E' Ha Hf Hn Hx. unfold describe_diri, dir_name_of.
  assert (G : get_diri s a = di) by (unfold get_diri; by rewrite E).
  assert (G' : get_diri s' a = di') by (unfold get_diri; by rewrite E').
  rewrite G, G', Ha, Hf, Hn. f_equal. apply list_fmap_ext. intros i f Hi. unfold get_file.
  rewrite list.Forall_forall in Hx. by rewrite Hx by (by eapply list_elem_of_lookup_2).
Qed.

Lemma describe_diri_ext base s s' a : fs_ext base s s' -> diri_at base s a -> describe_diri s' a = describe_diri s a.
Proof.
  intros [D I F _] (Hlt & di & E & [d Ed] & Hf). apply (describe_diri_eq s s' a di di); [done| |done..| |].
  - by rewrite I.
  - destruct (D _ _ Ed) as (d' & Ed' & Hn). unfold get_dir. by rewrite Ed, Ed'.
  - eapply list.Forall_impl; [exact Hf|cbn]. auto.
Qed.

Lemma diri_at_ext base n s s' a : fs_ext base s s' -> diri_at base s a -> base <= n -> diri_at n s' a.
Proof.
  intros [D I F _] (Hlt & di & E & [d Ed] & Hf) Hn. split; [lia|]. exists di. rewrite I by done.
  split; [done|]. split; [destruct (D _ _ Ed) as (d' & E' & _); eauto|]. eapply list.Forall_impl; [exact Hf|cbn]. intros f. lia.
Qed.

(** ** A package that is being read *)

Section Creating.
Context {FM : Fnmatch} (pkg : Z) (good : Z -> Prop).

(** Directories whose owners are packages that are still there. *)
Definition owners_ok (s : fs_db) : Prop :=
  forall a d o, fs_dirs s !! a = Some d -> dr_owner d = Some o ->
  exists di, fs_diris s !! o = Some di /\ good (di_pkg di).

Definition paths_in (known : list (bytes * bytes)) (s : fs_db) : Prop :=
  forall k f, fs_file_tab s !! k = Some f -> (k.1.2, k.2) ∈ known.

(** Between two lines: [s0] is the state before the package, [ads] its directory instances so far. *)
Record creating (s0 : fs_db) (known : list (bytes * bytes)) (s : fs_db) (ads : list Z) (ds : list dir_desc) : Prop := {
  cg_dirs : dirs_ok s;
  cg_diris : forall a di, fs_diris s !! a = Some di -> a < fs_next s;
  cg_owners : owners_ok s;
  cg_paths : paths_in known s;
  cg_ext : fs_ext (fs_next s0) s0 s;
  cg_next : fs_next s0 <= fs_next s;
  cg_ic : fs_ic s = Ic (last ads) ads (ic_files (fs_ic s)) 0 false;
  cg_nil : ads = [] -> ic_files (fs_ic s) = [];
  cg_files : Forall (fun f => f < fs_next s) (ic_files (fs_ic s));
  cg_ads : Forall (fun a => fs_next s0 <= a /\ diri_at (fs_next s) s a /\ di_pkg (get_diri s a) = pkg) ads;
  cg_nodup : NoDup ads;
  cg_mine : forall a di, fs_diris s !! a = Some di -> di_pkg di = pkg -> a ∈ ads;
  cg_desc : describe_diri (apk_db_ipkg_commit_files s) <$> ads = ds;
}.

Lemma describe_diri_same s s' a :
  get_diri s' a = get_diri s a -> dr_name (get_dir s' (di_dir (get_diri s a))) = dr_name (get_dir s (di_dir (get_diri s a))) ->
  Forall (fun f => get_file s' f = get_file s f) (di_files (get_diri s a)) -> describe_diri s' a = describe_diri s a.
Proof.
  intros E Hn Hf. unfold describe_diri, dir_name_of. rewrite E, Hn. f_equal. apply list_fmap_ext. intros i f Hi.
  rewrite list.Forall_forall in Hf. by rewrite Hf by (by eapply list_elem_of_lookup_2).
Qed.

(** The files of the current directory go to its instance. *)
Definition commit_diris (ads : list Z) (files : list Z) (s : fs_db) : gmap Z apk_db_dir_instance :=
  match last ads with
  | Some a => <[a := Diri files (di_pkg (get_diri s a)) (di_dir (get_diri s a)) (di_acl (get_diri s a))]> (fs_diris s)
  | None => fs_diris s
  end.

Lemma commit_files_eq s ads :
  fs_ic s = Ic (last ads) ads (ic_files (fs_ic s)) 0 false ->
  apk_db_ipkg_commit_files s = set_fs_ic (Ic (last ads) ads [] 0 false) (set_fs_diris (commit_diris ads (ic_files (fs_ic s)) s) s).
Proof.
  intros E. unfold apk_db_ipkg_commit_files, commit_diris, upd_diri. rewrite E. cbn. destruct (last ads); by destruct s.
Qed.

Lemma get_diri_commit s ads a :
  fs_ic s = Ic (last ads) ads (ic_files (fs_ic s)) 0 false ->
  get_diri (apk_db_ipkg_commit_files s) a =
  if bool_decide (last ads = Some a) then Diri (ic_files (fs_ic s)) (di_pkg (get_diri s a)) (di_dir (get_diri s a)) (di_acl (get_diri s a))
  else get_diri s a.
Proof.
  intros E. rewrite (commit_files_eq _ _ E). unfold get_diri, commit_diris. cbn. case_bool_decide as Hl.
  - rewrite Hl. by rewrite lookup_insert_eq.
  - destruct (last ads) as [b|]; [|done]. rewrite lookup_insert_ne by congruence. done.
Qed.

(** The directory and the files of an instance after the commit are below the next address. *)
Lemma creating_below s0 known s ads ds a :
  creating s0 known s ads ds -> a ∈ ads ->
  is_Some (fs_dirs s !! di_dir (get_diri s a)) /\
  Forall (fun f => f < fs_next s) (di_files (get_diri (apk_db_ipkg_commit_files s) a)).
Proof.
  intros C Ha. pose proof (cg_ads _ _ _ _ _ C) as Hads. rewrite list.Forall_forall in Hads.
  destruct (Hads a Ha) as (_ & (_ & di & E & Hd & Hf) & _).
  assert (G : get_diri s a = di) by (unfold get_diri; by rewrite E).
  rewrite (get_diri_commit _ _ _ (cg_ic _ _ _ _ _ C)), G. split; [done|].
  case_bool_decide; [apply (cg_files _ _ _ _ _ C)|done].
Qed.

(** A later state, in which an instance of the package is what it was after the commit. *)
Lemma describe_later_at s0 known s ads ds s' a :
  creating s0 known s ads ds -> a ∈ ads ->
  get_diri s' a = get_diri (apk_db_ipkg_commit_files s) a ->
  (forall a d, fs_dirs s !! a = Some d -> exists d', fs_dirs s' !! a = Some d' /\ dr_name d' = dr_name d) ->
  (forall f, f < fs_next s -> fs_files s' !! f = fs_files s !! f) ->
  describe_diri s' a = describe_diri (apk_db_ipkg_commit_files s) a.
Proof.
  intros C Ha Hi Hd Hf. destruct (creating_below _ _ _ _ _ a C Ha) as [[d Ed] Hfs].
  assert (Hdir : di_dir (get_diri (apk_db_ipkg_commit_files s) a) = di_dir (get_diri s a)).
  { rewrite (get_diri_commit _ _ _ (cg_ic _ _ _ _ _ C)). by case_bool_decide. }
  pose proof (commit_files_eq _ _ (cg_ic _ _ _ _ _ C)) as Ec.
  apply describe_diri_same; [done| |].
  - rewrite Hdir. destruct (Hd _ _ Ed) as (d' & Ed' & Hn). unfold get_dir. rewrite Ed', Ec. cbn. by rewrite Ed.
  - eapply list.Forall_impl; [exact Hfs|cbn]. intros f Hlt. unfold get_file. rewrite Hf by done. by rewrite Ec.
Qed.

Lemma describe_later s0 known s ads ds s' :
  creating s0 known s ads ds ->
  (forall a, a ∈ ads -> get_diri s' a = get_diri (apk_db_ipkg_commit_files s) a) ->
  (forall a d, fs_dirs s !! a = Some d -> exists d', fs_dirs s' !! a = Some d' /\ dr_name d' = dr_name d) ->
  (forall f, f < fs_next s -> fs_files s' !! f = fs_files s !! f) ->
  describe_diri s' <$> ads = ds.
Proof.
  intros C Hi Hd Hf. rewrite <- (cg_desc _ _ _ _ _ C). apply list_fmap_ext. intros i a Ha.
  apply list_elem_of_lookup_2 in Ha. apply (describe_later_at s0 known s ads ds); auto.
Qed.

Lemma same_names_dirs (D E : gmap Z apk_db_dir) :
  (forall a, dr_name <$> D !! a = dr_name <$> E !! a) ->
  forall a d, E !! a = Some d -> exists d', D !! a = Some d' /\ dr_name d' = dr_name d.
Proof.
  intros H' a d Ed. specialize (H' a). rewrite Ed in H'. destruct (D !! a) as [d'|]; [|done]. cbn in H'.
  exists d'. split; [done|]. congruence.
Qed.

Lemma creating_touch s0 known s ads ds D :
  creating s0 known s ads ds -> (forall a, dr_name <$> D !! a = dr_name <$> fs_dirs s !! a) ->
  owners_ok (set_fs_dirs D s) -> creating s0 known (set_fs_dirs D s) ads ds.
Proof.
  intros C Hn Ho. pose proof (same_names_dirs _ _ Hn) as Hs. pose proof C as [Hd Hi _ Hp He Hx Hic Hnil Hf Ha Hnd Hmine _].
  split; try done.
  - destruct Hd as [T N]. split; cbn.
    + intros k a Ek. destruct (T _ _ Ek) as (d & Ed & Hk). destruct (Hs _ _ Ed) as (d' & Ed' & Hk'). exists d'. split; [done|]. congruence.
    + intros a d Ed. specialize (Hn a). rewrite Ed in Hn. destruct (fs_dirs s !! a) as [e|] eqn:Ee; [|done]. by eapply N.
  - destruct He as [D0 I0 F0 O0]. split; try done. cbn. intros a d Ed. destruct (D0 _ _ Ed) as (d1 & E1 & H1).
    destruct (Hs _ _ E1) as (d2 & E2 & H2). exists d2. split; [done|]. congruence.
  - eapply list.Forall_impl; [exact Ha|cbn]. intros a (Hb & (Hlt & di & Edi & [d Ed] & Hfs) & Hpk). split; [done|]. split; [|done].
    split; [done|]. exists di. split; [done|]. split; [|done]. destruct (Hs _ _ Ed) as (d' & E' & _). by exists d'.
  - apply (describe_later s0 known s ads); [done| | |].
    + intros a _. rewrite (get_diri_commit _ _ _ Hic). by rewrite (get_diri_commit (set_fs_dirs D s) ads a Hic).
    + rewrite (commit_files_eq (set_fs_dirs D s) ads Hic). cbn. done.
    + rewrite (commit_files_eq (set_fs_dirs D s) ads Hic). cbn. done.
Qed.

(** The binary search finds nothing when nothing compares equal. *)
Lemma bsearch_none fuel cmp l base nel : Forall (fun x => cmp x <> 0) l -> bsearch fuel cmp l base nel = None.
Proof.
  intros Hl. revert base nel. induction fuel as [|fuel IH]; intros base nel; [done|]. cbn [bsearch].
  destruct (nel =? 0)%nat; [done|]. destruct (l !! (base + nel / 2)%nat) as [x|] eqn:Ex; [|done].
  destruct (Z.ltb_spec (cmp x) 0); [apply IH|]. destruct (Z.ltb_spec 0 (cmp x)); [apply IH|].
  rewrite list.Forall_forall in Hl. destruct (Hl x); [by eapply list_elem_of_lookup_2|lia].
Qed.

Lemma diri_bsearch_fresh s ads files nm :
  fs_ic s = Ic (last ads) ads files 0 false -> Forall (fun a => diri_bsearch_cmp s nm a <> 0) ads ->
  apk_db_diri_bsearch nm s = (None, s).
Proof.
  intros Hic Hc. unfold apk_db_diri_bsearch. rewrite Hic. cbn [ic_num_unsorted_diris Z.ltb Z.compare ic_diris].
  rewrite Hic. cbn [ic_diris ic_num_unsorted_diris]. rewrite bsearch_none by done. f_equal.
  rewrite Nat.sub_0_r, drop_all. done.
Qed.

(** The names of the instances are those of their descriptions. *)
Lemma creating_name s0 known s ads ds a :
  creating s0 known s ads ds -> dd_name (describe_diri (apk_db_ipkg_commit_files s) a) = dir_name_of s a.
Proof.
  intros C. pose proof (cg_ic _ _ _ _ _ C) as Hic. cbn. unfold dir_name_of. rewrite (get_diri_commit _ _ _ Hic), (commit_files_eq _ _ Hic).
  unfold get_dir. cbn. by case_bool_decide.
Qed.

(** The state after a new directory, given what the directory tables became. *)
Definition diri_state (a dir : Z) (ads files : list Z) (s sd : fs_db) : fs_db :=
  set_fs_ic (Ic (Some a) (ads ++ [a]) [] 0 false)
    (set_fs_diris (commit_diris ads files (set_fs_diris (<[a := Diri [] pkg dir apk_default_acl_dir]> (fs_diris s)) sd)) sd).

Lemma diri_get_eq s ads files nm :
  fs_ic s = Ic (last ads) ads files 0 false -> dirs_ok s -> Forall (fun a => a < fs_next s) ads ->
  Forall (fun a => 0 < diri_bsearch_cmp s nm a) ads ->
  zlen nm < 2 ^ 16 ->
  exists dir sd, apk_db_diri_get nm pkg s = Some (fs_next s, diri_state (fs_next s) dir ads files s sd) /\
    dir_got (apk_blob_trim_end nm (chr "/")) (set_fs_next (fs_next s + 1) s) dir sd.
Proof.
  intros Hic [T N] Hlt Hc Hlen. set (a := fs_next s).
  destruct (dir_get_spec (S (S (length nm))) nm (set_fs_next (a + 1) s)) as (dir & sd & Ed & Hg).
  { split; [done|]. cbn. intros b d E. apply N in E. unfold a. lia. } { done. } { lia. }
  exists dir, sd. split; [|done]. pose proof (dg_rest _ _ (proj1 Hg)) as Er.
  assert (Hlast : forall x, last ads = Some x -> x < a /\ 0 < diri_bsearch_cmp s nm x).
  { intros x Hx. apply last_Some_elem_of in Hx. rewrite list.Forall_forall in Hlt, Hc. by split; [apply Hlt|apply Hc]. }
  assert (Hfresh : apk_db_diri_bsearch nm s = (None, s)).
  { eapply diri_bsearch_fresh; [done|]. eapply list.Forall_impl; [exact Hc|cbn]. lia. }
  assert (Hnew : forall res, 0 < res -> exists s3, apk_db_diri_new nm pkg res s = Some (a, s3) /\
    apk_db_diri_select a s3 = diri_state a dir ads files s sd).
  { intros res Hres. unfold apk_db_diri_new, dir_get. fold a. rewrite Ed. cbn [mbind option_bind]. eexists. split; [reflexivity|].
    assert (Hu : diri_unsorted nm res (set_fs_diris (<[a := Diri [] pkg dir apk_default_acl_dir]> (fs_diris sd)) sd) = false).
    { unfold diri_unsorted. cbn. rewrite Er. cbn. rewrite Hic. cbn.
      destruct (last ads) as [l|]; [rewrite bool_decide_true by done|]; apply Z.ltb_ge; lia. }
    rewrite Hu. rewrite Er. cbn. rewrite Hic. cbn. unfold apk_db_diri_select. cbn [fs_ic set_fs_ic ic_diri].
    rewrite bool_decide_false by (intros E; apply Hlast in E as [E _]; unfold a in E; lia).
    unfold apk_db_ipkg_commit_files. cbn [fs_ic set_fs_ic ic_files_unsorted ic_files ic_diri ic_diris ic_num_unsorted_diris].
    unfold diri_state, commit_diris, upd_diri. destruct (last ads) as [l|] eqn:El.
    - assert (Hne : l <> a) by (destruct (Hlast l eq_refl); lia). unfold get_diri. cbn.
      rewrite lookup_insert_ne by done. rewrite lookup_insert_eq. by destruct s, sd.
    - unfold get_diri. cbn. rewrite lookup_insert_eq. by destruct s, sd. }
  unfold apk_db_diri_get. rewrite Hic. cbn [ic_diri]. rewrite Hfresh. destruct (last ads) as [l|] eqn:El.
  - destruct (Hlast l eq_refl) as [_ Hl]. rewrite (proj2 (Z.eqb_neq _ _)) by lia.
    destruct (Hnew _ Hl) as (s3 & E3 & Es). rewrite E3. cbn. by rewrite Es.
  - destruct (Hnew 1 ltac:(lia)) as (s3 & E3 & Es). change (1 =? 0) with false. rewrite E3. cbn. by rewrite Es.
Qed.

(** What the commit writes for an instance. *)
Lemma commit_diris_lookup ads files s x :
  (exists l, last ads = Some l /\ l = x /\
     commit_diris ads files s !! x = Some (Diri files (di_pkg (get_diri s x)) (di_dir (get_diri s x)) (di_acl (get_diri s x)))) \/
  last ads <> Some x /\ commit_diris ads files s !! x = fs_diris s !! x.
Proof.
  unfold commit_diris. destruct (last ads) as [l|]; [|by right]. destruct (decide (l = x)) as [->|Hne].
  - left. exists x. by rewrite lookup_insert_eq.
  - right. rewrite lookup_insert_ne by done. split; [congruence|done].
Qed.

(** Committing keeps the instances where they are. *)
Lemma commit_diris_at s0 known s ads ds n x :
  creating s0 known s ads ds -> fs_next s <= n -> x ∈ ads ->
  exists di, commit_diris ads (ic_files (fs_ic s)) s !! x = Some di /\ di = get_diri (apk_db_ipkg_commit_files s) x /\
    is_Some (fs_dirs s !! di_dir di) /\ Forall (fun f => f < n) (di_files di) /\ di_pkg di = pkg.
Proof.
  intros C Hn Hx. pose proof (cg_ic _ _ _ _ _ C) as Hic. destruct (creating_below _ _ _ _ _ x C Hx) as [Hd Hf].
  pose proof (cg_ads _ _ _ _ _ C) as Hads. rewrite list.Forall_forall in Hads. destruct (Hads x Hx) as (_ & (_ & di & Edi & _ & _) & Hp).
  exists (get_diri (apk_db_ipkg_commit_files s) x). split.
  - rewrite (get_diri_commit _ _ _ Hic). destruct (commit_diris_lookup ads (ic_files (fs_ic s)) s x) as [(l & El & -> & E)|[Hl E]].
    + rewrite E. by rewrite bool_decide_true.
    + rewrite E, Edi, bool_decide_false by done. unfold get_diri. by rewrite Edi.
  - split; [done|]. split; [|split].
    + rewrite (get_diri_commit _ _ _ Hic). case_bool_decide; done.
    + eapply list.Forall_impl; [exact Hf|cbn]. lia.
    + rewrite (get_diri_commit _ _ _ Hic). case_bool_decide; done.
Qed.

(** A later state in which the old instances are the committed ones and the directories kept their
    names and owners. *)
Record carried (ads : list Z) (s s' : fs_db) : Prop := {
  ca_dirs : forall a d, fs_dirs s !! a = Some d -> exists d', fs_dirs s' !! a = Some d' /\ dr_name d' = dr_name d;
  ca_owner : forall a d' o, fs_dirs s' !! a = Some d' -> dr_owner d' = Some o -> exists d, fs_dirs s !! a = Some d /\ dr_owner d = Some o;
  ca_diris : forall x, x < fs_next s -> fs_diris s' !! x = commit_diris ads (ic_files (fs_ic s)) s !! x;
  ca_next : fs_next s <= fs_next s';
  ca_files : fs_files s' = fs_files s;
}.

Section Carried.
Context (s0 : fs_db) (known : list (bytes * bytes)) (s : fs_db) (ads : list Z) (ds : list dir_desc) (s' : fs_db).
Context (C : creating s0 known s ads ds) (K : carried ads s s').

Lemma ads_below x : x ∈ ads -> fs_next s0 <= x < fs_next s.
Proof. intros Hx. pose proof (cg_ads _ _ _ _ _ C) as Ha. rewrite list.Forall_forall in Ha. destruct (Ha x Hx) as (? & (? & _) & _). done. Qed.

Lemma carried_old x :
  x ∈ ads -> exists di, fs_diris s' !! x = Some di /\ di = get_diri (apk_db_ipkg_commit_files s) x /\ is_Some (fs_dirs s' !! di_dir di) /\
    Forall (fun f => f < fs_next s') (di_files di) /\ di_pkg di = pkg.
Proof.
  intros Hx. destruct (commit_diris_at s0 known s ads ds (fs_next s') x C (ca_next _ _ _ K) Hx) as (di & E1 & E2 & [e E3] & E4 & E5).
  exists di. rewrite (ca_diris _ _ _ K) by (by apply ads_below). split; [done|]. split; [done|]. split; [|done].
  destruct (ca_dirs _ _ _ K _ _ E3) as (e' & -> & _). done.
Qed.

(** The record of an instance that is not one of the package. *)
Lemma carried_lookup x : x < fs_next s -> x ∈ ads \/ fs_diris s' !! x = fs_diris s !! x.
Proof.
  intros Hx. rewrite (ca_diris _ _ _ K) by done.
  destruct (commit_diris_lookup ads (ic_files (fs_ic s)) s x) as [(l & El & -> & _)|[_ E]]; [left; by apply last_Some_elem_of|by right].
Qed.

Lemma carried_owners : owners_ok s'.
Proof.
  intros a d o Ed Eo. destruct (ca_owner _ _ _ K _ _ _ Ed Eo) as (e & Ee & Eo'). destruct (cg_owners _ _ _ _ _ C _ _ _ Ee Eo') as (di & Edi & Hg).
  rewrite (ca_diris _ _ _ K) by (by eapply (cg_diris _ _ _ _ _ C)).
  destruct (commit_diris_lookup ads (ic_files (fs_ic s)) s o) as [(l & El & -> & E')|[_ E']]; rewrite E'; [|eauto].
  eexists. split; [done|]. cbn. unfold get_diri. by rewrite Edi.
Qed.

Lemma carried_ext : fs_ext (fs_next s0) s0 (set_fs_owned (fs_owned s0) s').
Proof.
  destruct (cg_ext _ _ _ _ _ C) as [D0 I0 F0 O0]. pose proof (cg_next _ _ _ _ _ C). split; cbn; [| |by rewrite (ca_files _ _ _ K)|done].
  - intros b e Eb. destruct (D0 _ _ Eb) as (e1 & E1 & H1). destruct (ca_dirs _ _ _ K _ _ E1) as (e2 & E2 & H2). exists e2. split; [done|congruence].
  - intros x Hlt. rewrite <- I0 by done. destruct (carried_lookup x ltac:(lia)) as [Hx|E]; [|done]. apply ads_below in Hx. lia.
Qed.

Lemma carried_ads : Forall (fun a => fs_next s0 <= a /\ diri_at (fs_next s') s' a /\ di_pkg (get_diri s' a) = pkg) ads.
Proof.
  apply list.Forall_forall. intros x Hx. destruct (carried_old x Hx) as (di & E1 & _ & E3 & E4 & E5). pose proof (ads_below x Hx).
  pose proof (ca_next _ _ _ K). split; [lia|]. split; [split; [lia|]; by exists di|unfold get_diri; by rewrite E1].
Qed.

Lemma carried_mine x di : x < fs_next s -> fs_diris s' !! x = Some di -> di_pkg di = pkg -> x ∈ ads.
Proof. intros Hx Ex Hp. destruct (carried_lookup x Hx) as [?|E]; [done|]. rewrite E in Ex. by eapply (cg_mine _ _ _ _ _ C). Qed.

Lemma carried_desc s'' :
  fs_dirs s'' = fs_dirs s' -> fs_files s'' = fs_files s' -> (forall x, x ∈ ads -> get_diri s'' x = get_diri s' x) -> describe_diri s'' <$> ads = ds.
Proof.
  intros Ed Ef Ei. apply (describe_later s0 known s ads ds s'' C).
  - intros x Hx. rewrite Ei by done. destruct (carried_old x Hx) as (di & E1 & -> & _). unfold get_diri at 1. by rewrite E1.
  - rewrite Ed. apply (ca_dirs _ _ _ K).
  - rewrite Ef, (ca_files _ _ _ K). done.
Qed.
End Carried.

(** What a new directory changes. *)
Lemma diri_state_carried s0 known s ads ds dir sd :
  creating s0 known s ads ds -> dirs_grow (set_fs_next (fs_next s + 1) s) sd ->
  let s' := diri_state (fs_next s) dir ads (ic_files (fs_ic s)) s sd in
  carried ads s s' /\ fs_diris s' !! fs_next s = Some (Diri [] pkg dir apk_default_acl_dir) /\
  (forall x di, fs_diris s' !! x = Some di -> x <= fs_next s).
Proof.
  intros C G s'. set (a := fs_next s). pose proof (dg_next _ _ G) as Gn. cbn in Gn.
  assert (Hne : forall x, x ∈ ads -> x <> a) by (intros x Hx; apply (ads_below _ _ _ _ _ C) in Hx; unfold a; lia).
  assert (Hla : last ads <> Some a) by (intros El; by apply last_Some_elem_of, Hne in El).
  assert (Hlook : forall x, x <> a -> fs_diris s' !! x = commit_diris ads (ic_files (fs_ic s)) s !! x).
  { intros x Hxa. unfold s', diri_state. cbn. unfold commit_diris, get_diri. cbn. destruct (last ads) as [l|] eqn:El; cbn.
    - assert (l <> a) by congruence. rewrite (lookup_insert_ne _ a l) by done. destruct (decide (l = x)) as [->|]; [by rewrite !lookup_insert_eq|].
      rewrite !lookup_insert_ne by done. done.
    - by rewrite lookup_insert_ne by done. }
  split; [split|split].
  - intros b e Eb. destruct (dg_old _ _ G b e Eb) as (e' & Ee & Hk & _). by exists e'.
  - intros b e o Eb Eo. change (fs_dirs sd !! b = Some e) in Eb. destruct (fs_dirs s !! b) as [e0|] eqn:E0.
    + exists e0. split; [done|]. destruct (dg_old _ _ G b e0 E0) as (e' & Ee & _ & Hk). congruence.
    + rewrite (dg_new _ _ G b e E0 Eb) in Eo. done.
  - intros x Hx. apply Hlook. unfold a. lia.
  - cbn. lia.
  - cbn. rewrite (dg_rest _ _ G). done.
  - set (sn := set_fs_diris (<[a:=Diri [] pkg dir apk_default_acl_dir]> (fs_diris s)) sd).
    change (fs_diris s') with (commit_diris ads (ic_files (fs_ic s)) sn). destruct (commit_diris_lookup ads (ic_files (fs_ic s)) sn a)
      as [(l & El & -> & _)|[_ ->]]; [done|]. cbn. apply lookup_insert_eq.
  - intros x di Ex. destruct (decide (x = a)) as [->|Hxa]; [done|]. rewrite Hlook in Ex by done.
    destruct (commit_diris_lookup ads (ic_files (fs_ic s)) s x) as [(l & El & -> & _)|[_ E']].
    + apply last_Some_elem_of, (ads_below _ _ _ _ _ C) in El. lia.
    + rewrite E' in Ex. apply (cg_diris _ _ _ _ _ C) in Ex. unfold a. lia.
Qed.

Lemma creating_diri s0 known s ads ds nm :
  creating s0 known s ads ds -> apk_blob_trim_end nm (chr "/") = nm -> zlen nm < 2 ^ 16 -> Forall (fun d => 0 < apk_blob_sort nm (dd_name d)) ds ->
  exists s', apk_db_diri_get nm pkg s = Some (fs_next s, s') /\
    creating s0 known s' (ads ++ [fs_next s]) (ds ++ [DirDesc nm apk_default_acl_dir []]).
Proof.
  intros C Hnm Hlen Hord. pose proof (cg_ic _ _ _ _ _ C) as Hic. set (a := fs_next s).
  assert (Hcmp : Forall (fun a => 0 < diri_bsearch_cmp s nm a) ads).
  { rewrite <- (cg_desc _ _ _ _ _ C), Forall_fmap in Hord. eapply list.Forall_impl; [exact Hord|]. intros x Hx'. cbn in Hx'.
    unfold diri_bsearch_cmp. by rewrite <- (creating_name _ _ _ _ _ x C). }
  destruct (diri_get_eq s ads (ic_files (fs_ic s)) nm Hic (cg_dirs _ _ _ _ _ C)) as (dir & sd & E & G & Hok & d & Ed & Hdn); [|done|done|].
  { apply list.Forall_forall. intros x Hx. by apply (ads_below _ _ _ _ _ C). }
  rewrite E. eexists. split; [done|]. destruct (diri_state_carried s0 known s ads ds dir sd C G) as (K & Ha & Hle).
  fold a in Ha, Hle, K |- *. pose proof (dg_next _ _ G) as Gn. cbn in Gn. fold a in Gn. pose proof (cg_next _ _ _ _ _ C) as Hx0. fold a in Hx0.
  set (s' := diri_state a dir ads (ic_files (fs_ic s)) s sd) in *.
  assert (Hsame : fs_dirs s' = fs_dirs sd /\ fs_next s' = fs_next sd /\ fs_owned s' = fs_owned s /\ fs_file_tab s' = fs_file_tab s /\
                  fs_ic s' = Ic (Some a) (ads ++ [a]) [] 0 false /\ fs_dir_tab s' = fs_dir_tab sd).
  { unfold s', diri_state. cbn. rewrite (dg_rest _ _ G). cbn. by repeat split. }
  destruct Hsame as (Sd & Sn & So & St & Si & Sdt). clearbody s'.
  assert (Hic' : fs_ic s' = Ic (last (ads ++ [a])) (ads ++ [a]) (ic_files (fs_ic s')) 0 false) by (by rewrite Si, last_snoc).
  assert (Hc' : forall x, get_diri (apk_db_ipkg_commit_files s') x = get_diri s' x).
  { intros x. rewrite (get_diri_commit _ _ _ Hic'), last_snoc, Si. case_bool_decide as Hx; [|done]. injection Hx as <-. unfold get_diri. by rewrite Ha. }
  pose proof (commit_files_eq _ _ Hic') as Ec.
  split; rewrite ?Sn, ?Si; cbn [ic_files]; try done.
  - destruct Hok as [T N]. split; rewrite ?Sdt, ?Sd, ?Sn; done.
  - intros x di Ex. apply Hle in Ex. lia.
  - by apply (carried_owners s0 known s ads ds).
  - intros k f. rewrite St. apply (cg_paths _ _ _ _ _ C).
  - pose proof (carried_ext s0 known s ads ds s' C K) as [D0 I0 F0 _]. split; cbn in *; try done. by rewrite So, (fe_owned _ _ _ (cg_ext _ _ _ _ _ C)).
  - lia.
  - by rewrite last_snoc.
  - apply Forall_app. split; [rewrite <- Sn; by eapply carried_ads|]. constructor; [|constructor]. split; [done|]. split; [|unfold get_diri; by rewrite Ha].
    split; [lia|]. eexists. split; [exact Ha|]. cbn [di_dir di_files]. rewrite Sd, Ed. split; [done|constructor].
  - apply list.NoDup_app. split; [by apply (cg_nodup _ _ _ _ _ C)|]. split; [|apply NoDup_singleton]. intros x Hxa Hx1.
    apply list_elem_of_singleton in Hx1. apply (ads_below _ _ _ _ _ C) in Hxa. unfold a in *. lia.
  - intros x di Ex Hpk. apply elem_of_app. destruct (decide (x = a)) as [->|Hxa]; [right; by left|left].
    eapply (carried_mine s0 known s ads ds s' C K); [|exact Ex|done]. apply Hle in Ex. fold a. lia.
  - rewrite fmap_app. f_equal.
    + apply (carried_desc s0 known s ads ds s' C K); [by rewrite Ec..|]. intros x _. apply Hc'.
    + cbn. f_equal. unfold describe_diri, dir_name_of. rewrite Hc'. assert (Sc : fs_dirs (apk_db_ipkg_commit_files s') = fs_dirs sd) by (rewrite Ec; exact Sd).
      unfold get_diri, get_dir. rewrite Ha, Sc. cbn. rewrite Ed. cbn. by rewrite Hdn, Hnm.
Qed.

(** A step inside the last directory: its acl, or its files. *)
Record inside (ads : list Z) (s s' : fs_db) : Prop := {
  in_dirs : fs_dirs s' = fs_dirs s;
  in_tab : fs_dir_tab s' = fs_dir_tab s;
  in_owned : fs_owned s' = fs_owned s;
  in_next : fs_next s <= fs_next s';
  in_files : forall f, f < fs_next s -> fs_files s' !! f = fs_files s !! f;
  in_diris : forall a, fs_diris s' !! a =
    (fun di => if bool_decide (last ads = Some a) then set_di_acl (di_acl (get_diri s' a)) di else di) <$> fs_diris s !! a;
}.

Lemma inside_di ads s s' a di :
  inside ads s s' -> fs_diris s !! a = Some di ->
  exists di', fs_diris s' !! a = Some di' /\ di_pkg di' = di_pkg di /\ di_dir di' = di_dir di /\ di_files di' = di_files di /\
    (last ads <> Some a -> di' = di).
Proof.
  intros I E. pose proof (in_diris _ _ _ I a) as Ea. rewrite E in Ea. cbn in Ea. eexists. split; [exact Ea|]. by case_bool_decide.
Qed.

Lemma creating_inside s0 known known' s ads s' files' ds ds' :
  creating s0 known s ads ds -> inside ads s s' ->
  fs_ic s' = Ic (last ads) ads files' 0 false -> (ads = [] -> files' = []) -> Forall (fun f => f < fs_next s') files' ->
  paths_in known' s' -> describe_diri (apk_db_ipkg_commit_files s') <$> ads = ds' ->
  creating s0 known' s' ads ds'.
Proof.
  intros C I Hic' Hnil' Hf' Hp' Hdesc'. pose proof C as [Hd Hi Ho Hp He Hx Hic Hnil Hf Ha Hnd Hmine Hdesc].
  pose proof I as [Id It Iw In Ifi _]. split; try done.
  - destruct Hd as [T N]. split; rewrite ?It, ?Id; [done|]. intros a d E. apply N in E. lia.
  - intros a di E. rewrite (in_diris _ _ _ I) in E. destruct (fs_diris s !! a) as [d0|] eqn:E0; [|done]. apply Hi in E0. lia.
  - intros a d o. rewrite Id. intros E Eo. destruct (Ho _ _ _ E Eo) as (di & Edi & Hg).
    destruct (inside_di _ _ _ _ _ I Edi) as (di' & E' & Hp1 & _). exists di'. split; [done|]. by rewrite Hp1.
  - destruct He as [D0 I0 F0 O0]. split; [by rewrite Id| | |by rewrite Iw].
    + intros a Hlt. rewrite <- (I0 a Hlt), (in_diris _ _ _ I). destruct (fs_diris s !! a); [|done]. cbn. rewrite bool_decide_false; [done|].
      intros El. apply last_Some_elem_of in El. rewrite list.Forall_forall in Ha. destruct (Ha a El) as (? & _). lia.
    + intros f Hlt. rewrite Ifi by lia. by apply F0.
  - lia.
  - rewrite Hic'. done.
  - by rewrite Hic'.
  - by rewrite Hic'.
  - eapply list.Forall_impl; [exact Ha|cbn]. intros a (Hb & (Hlt & di & Edi & Hdir & Hfs) & Hpk). split; [done|].
    destruct (inside_di _ _ _ _ _ I Edi) as (di' & E' & H1 & H2 & H3 & _). split.
    + split; [lia|]. exists di'. rewrite H2, H3, Id. split; [done|]. split; [done|]. eapply list.Forall_impl; [exact Hfs|cbn]. lia.
    + unfold get_diri in *. rewrite E'. rewrite Edi in Hpk. cbn in *. congruence.
  - intros a di E Hpk. rewrite (in_diris _ _ _ I) in E. destruct (fs_diris s !! a) as [d0|] eqn:E0; [|done]. cbn in E.
    eapply Hmine; [exact E0|]. by case_bool_decide; simplify_eq.
Qed.

(** The descriptions after such a step: only the last one changes. *)
Lemma inside_desc s0 known s pre a s' files' ds x :
  creating s0 known s (pre ++ [a]) (ds ++ [x]) -> inside (pre ++ [a]) s s' -> fs_ic s' = Ic (Some a) (pre ++ [a]) files' 0 false ->
  describe_diri (apk_db_ipkg_commit_files s') <$> (pre ++ [a]) =
  ds ++ [DirDesc (dd_name x) (di_acl (get_diri s' a)) ((fun f => describe (get_file s' f)) <$> files')].
Proof.
  intros C I Hic'. pose proof C as [Hd Hi Ho Hp He Hx Hic Hnil Hf Ha Hnd Hmine Hdesc]. rewrite fmap_app in *.
  apply app_inj_tail in Hdesc as [Hpre Hlast].
  assert (Hic2 : fs_ic s' = Ic (last (pre ++ [a])) (pre ++ [a]) (ic_files (fs_ic s')) 0 false) by (by rewrite Hic', last_snoc).
  pose proof (commit_files_eq _ _ Hic2) as Ec. apply Forall_app in Ha as [Ha1 Ha2]. apply Forall_cons_1 in Ha2 as [(_ & (_ & di & Edi & _ & _) & _) _].
  apply list.NoDup_app in Hnd as (_ & Hnd & _). f_equal.
  - rewrite <- Hpre. apply list_fmap_ext. intros i b Hb. apply list_elem_of_lookup_2 in Hb.
    assert (Hne : b <> a) by (intros ->; by destruct (Hnd a Hb); apply list_elem_of_singleton).
    apply (describe_later_at s0 known s _ _ _ b C); [set_unfold; auto| | |].
    + rewrite (get_diri_commit _ _ _ Hic), (get_diri_commit _ _ _ Hic2), last_snoc, !bool_decide_false by congruence.
      rewrite list.Forall_forall in Ha1. destruct (Ha1 b Hb) as (_ & (_ & d & Ed & _ & _) & _).
      destruct (inside_di _ _ _ _ _ I Ed) as (d' & Ed' & _ & _ & _ & Hsame). unfold get_diri. rewrite Ed, Ed', Hsame; [done|].
      rewrite last_snoc. congruence.
    + rewrite Ec. cbn [fs_dirs set_fs_ic set_fs_diris]. rewrite (in_dirs _ _ _ I). eauto.
    + rewrite Ec. cbn [fs_files set_fs_ic set_fs_diris]. apply (in_files _ _ _ I).
  - cbn. f_equal. subst x. destruct (inside_di _ _ _ _ _ I Edi) as (di' & Edi' & _ & Hdir & _).
    unfold describe_diri at 1. rewrite (get_diri_commit _ _ _ Hic2), last_snoc, bool_decide_true by done. rewrite Hic'. cbn [ic_files di_acl di_files].
    f_equal.
    + rewrite (creating_name _ _ _ _ _ a C). unfold dir_name_of. rewrite (get_diri_commit _ _ _ Hic2), last_snoc, bool_decide_true by done. cbn [di_dir].
      assert (G : get_diri s a = di) by (unfold get_diri; by rewrite Edi). assert (G' : get_diri s' a = di') by (unfold get_diri; by rewrite Edi').
      rewrite G, G', Hdir, Ec. unfold get_dir. cbn [fs_dirs set_fs_ic set_fs_diris]. by rewrite (in_dirs _ _ _ I).
    + apply list_fmap_ext. intros i f _. unfold get_file. by rewrite Ec.
Qed.

(** The description of the last directory. *)
Lemma creating_last s0 known s pre a ds x :
  creating s0 known s (pre ++ [a]) (ds ++ [x]) ->
  x = DirDesc (dir_name_of s a) (di_acl (get_diri s a)) ((fun f => describe (get_file s f)) <$> ic_files (fs_ic s)).
Proof.
  intros C. pose proof (cg_ic _ _ _ _ _ C) as Hic. pose proof (cg_desc _ _ _ _ _ C) as Hd. rewrite fmap_app in Hd.
  apply app_inj_tail in Hd as [_ <-]. rewrite <- (creating_name _ _ _ _ _ a C). unfold describe_diri. cbn [dd_name].
  rewrite (get_diri_commit _ _ _ Hic), last_snoc, bool_decide_true by done. cbn [di_acl di_files]. f_equal.
  apply list_fmap_ext. intros i f _. by rewrite (commit_files_eq _ _ Hic).
Qed.

Lemma creating_acl s0 known s pre a ds x acl :
  creating s0 known s (pre ++ [a]) (ds ++ [x]) ->
  creating s0 known (upd_diri a (set_di_acl acl) s) (pre ++ [a]) (ds ++ [DirDesc (dd_name x) acl (dd_files x)]).
Proof.
  intros C. pose proof C as [Hd Hi Ho Hp He Hx Hic Hnil Hf Ha Hnd Hmine Hdesc]. set (s' := upd_diri a (set_di_acl acl) s).
  apply Forall_app in Ha as [_ Ha]. apply Forall_cons_1 in Ha as [(_ & (_ & di & Edi & _) & _) _].
  assert (G : get_diri s a = di) by (unfold get_diri; by rewrite Edi).
  assert (G' : get_diri s' a = set_di_acl acl di) by (unfold get_diri; cbn; by rewrite lookup_insert_eq, G).
  assert (I : inside (pre ++ [a]) s s').
  { split; try done. intros b. rewrite last_snoc. case_bool_decide as Hb.
    - injection Hb as <-. rewrite G', Edi. cbn. by rewrite lookup_insert_eq, G.
    - cbn. rewrite lookup_insert_ne by congruence. by destruct (fs_diris s !! b). }
  eapply creating_inside; [exact C|exact I|exact Hic|done..|]. rewrite last_snoc in Hic.
  erewrite inside_desc; [|exact C|exact I|exact Hic]. rewrite G'. do 3 f_equal. by rewrite (creating_last _ _ _ _ _ _ _ C).
Qed.

(** A new file in the last directory. *)
Definition file_state (key : Z * bytes * bytes) (x : apk_db_file) (s : fs_db) : fs_db :=
  let f := fs_next s in let ic := fs_ic s in
  set_fs_num_files (fs_num_files s + 1) (set_fs_file_tab (<[key := f]> (fs_file_tab s))
    (set_fs_ic (Ic (ic_diri ic) (ic_diris ic) (ic_files ic ++ [f]) (ic_num_unsorted_diris ic) (ic_files_unsorted ic))
       (set_fs_next (f + 1) (set_fs_files (<[f := x]> (fs_files s)) s)))).

Lemma creating_file s0 known s pre a ds x k nm file :
  creating s0 known s (pre ++ [a]) (ds ++ [x]) ->
  creating s0 ((dd_name x, nm) :: known) (file_state (k, dd_name x, nm) file s) (pre ++ [a])
    (ds ++ [DirDesc (dd_name x) (dd_acl x) (dd_files x ++ [describe file])]).
Proof.
  intros C. pose proof C as [Hd Hi Ho Hp He Hx Hic Hnil Hf Ha Hnd Hmine Hdesc]. set (s' := file_state (k, dd_name x, nm) file s).
  assert (I : inside (pre ++ [a]) s s').
  { split; try done.
    - cbn. lia.
    - intros f Hlt. cbn. by rewrite lookup_insert_ne by lia.
    - intros b. cbn. case_bool_decide; [|by destruct (fs_diris s !! b)]. unfold get_diri. cbn. destruct (fs_diris s !! b) as [[]|]; done. }
  assert (Hic' : fs_ic s' = Ic (last (pre ++ [a])) (pre ++ [a]) (ic_files (fs_ic s) ++ [fs_next s]) 0 false) by (cbn; by rewrite Hic).
  eapply creating_inside; [exact C|exact I|exact Hic'|by destruct pre| | |].
  - cbn. apply Forall_app. split; [|repeat constructor; lia]. eapply list.Forall_impl; [exact Hf|cbn]. lia.
  - intros k' f. cbn. rewrite lookup_insert_Some. intros [[<- _]|[_ E]]; [by left|right; by eapply Hp].
  - rewrite last_snoc in Hic'. erewrite inside_desc; [|exact C|exact I|exact Hic']. pose proof (creating_last _ _ _ _ _ _ _ C) as El.
    change (get_diri s' a) with (get_diri s a). do 3 f_equal; [by rewrite El|]. rewrite fmap_app. rewrite El at 1. cbn [dd_files]. f_equal.
    + apply list_fmap_ext. intros i f Hi'. unfold get_file. f_equal. cbn. rewrite list.Forall_forall in Hf.
      rewrite lookup_insert_ne; [done|]. apply list_elem_of_lookup_2, Hf in Hi'. lia.
    + cbn. unfold get_file. cbn. by rewrite lookup_insert_eq.
Qed.
End Creating.

(** ** Owners *)

Section Owners.
Context {FM : Fnmatch} {SIM : Simulate} (t : apk_package) (st : store).

(** Installed packages, the one that is read included. *)
Definition present (a : Z) : Prop := is_Some (ipkg (pkg_at t st a)).
Abbreviation creating_t := (creating (pkg_addr t) present).

Lemma creating_upd_dir s0 known s ads ds dir f a :
  creating_t s0 known s ads ds -> present (pkg_addr t) -> is_Some (fs_dirs s !! dir) -> a ∈ ads ->
  (forall d, dr_name (f d) = dr_name d /\ (dr_owner (f d) = dr_owner d \/ dr_owner (f d) = Some a)) ->
  creating_t s0 known (upd_dir dir f s) ads ds.
Proof.
  intros C Hg [d Ed] Ha Hf. unfold upd_dir. assert (G : get_dir s dir = d) by (unfold get_dir; by rewrite Ed). rewrite G.
  destruct (Hf d) as [Hn Hw]. apply creating_touch; [done| |].
  - intros b. destruct (decide (dir = b)) as [<-|]; [|by rewrite lookup_insert_ne].
    rewrite lookup_insert_eq, Ed. cbn. by rewrite Hn.
  - pose proof (cg_owners _ _ _ _ _ _ _ C) as Ho. intros b e o. cbn. rewrite lookup_insert_Some. intros [[<- <-]|[_ Eb]] Eo; [|by eapply Ho].
    destruct Hw as [Hw|Hw]; [eapply Ho; [exact Ed|congruence]|]. assert (o = a) as -> by congruence.
    pose proof (cg_ads _ _ _ _ _ _ _ C) as Hads. rewrite list.Forall_forall in Hads. destruct (Hads a Ha) as (_ & (_ & di & Edi & _) & Hp).
    exists di. split; [done|]. unfold get_diri in Hp. rewrite Edi in Hp. cbn in Hp. by rewrite Hp.
Qed.

Lemma replaces_dir_defined a b : is_Some (ipkg a) -> is_Some (ipkg b) -> is_Some (apk_pkg_replaces_dir a b).
Proof.
  intros [ia Ha] [ib Hb]. unfold apk_pkg_replaces_dir. destruct (pkg_name a), (pkg_name b); eauto. rewrite Ha, Hb. case_bool_decide; eauto.
Qed.

Lemma apply_permissions_spec s0 known s ads ds a :
  creating_t s0 known s ads ds -> is_Some (ipkg t) -> a ∈ ads ->
  exists s', apk_db_dir_apply_diri_permissions t st a s = Some s' /\ creating_t s0 known s' ads ds /\ fs_ic s' = fs_ic s.
Proof.
  intros C Ht Ha. assert (Hg : present (pkg_addr t)) by (unfold present, pkg_at; by rewrite Z.eqb_refl).
  destruct (creating_below _ _ _ _ _ _ _ a C Ha) as [Hdir _].
  assert (Hset : forall s1, creating_t s0 known s1 ads ds -> is_Some (fs_dirs s1 !! di_dir (get_diri s a)) ->
    creating_t s0 known (upd_dir (di_dir (get_diri s a)) (set_dr_owner (Some a)) s1) ads ds).
  { intros s1 C1 H1. apply (creating_upd_dir _ _ _ _ _ _ _ a C1); auto. }
  unfold apk_db_dir_apply_diri_permissions. destruct (dr_owner (get_dir s (di_dir (get_diri s a)))) as [o|] eqn:Eo; [|eexists; split; [done|]; split; [by apply Hset|done]].
  assert (Ho : exists d, fs_dirs s !! di_dir (get_diri s a) = Some d /\ dr_owner d = Some o).
  { destruct Hdir as [d Ed]. unfold get_dir in Eo. rewrite Ed in Eo. by exists d. }
  destruct Ho as (d & Ed & Hod). destruct (cg_owners _ _ _ _ _ _ _ C _ _ _ Ed Hod) as (di & Edi & Hgo).
  pose proof (cg_ads _ _ _ _ _ _ _ C) as Hads. rewrite list.Forall_forall in Hads. destruct (Hads a Ha) as (_ & _ & Hpa).
  destruct (replaces_dir_defined (pkg_at t st (di_pkg (get_diri s o))) (pkg_at t st (di_pkg (get_diri s a)))) as [r Er].
  { unfold get_diri. rewrite Edi. done. } { by rewrite Hpa. }
  rewrite Er. cbn [mbind option_bind]. destruct (negb (r =? APK_PKG_REPLACES_YES)); [by eexists|].
  unfold apk_db_dir_update_permissions. set (s1 := if negb _ then _ else s).
  assert (C1 : creating_t s0 known s1 ads ds /\ is_Some (fs_dirs s1 !! di_dir (get_diri s a)) /\ fs_ic s1 = fs_ic s).
  { unfold s1. destruct (negb _); [|done]. destruct (negb (dr_permissions_ok _)), simulate; try done. split; [|split; [|done]].
    - apply (creating_upd_dir _ _ _ _ _ _ _ a C); auto.
    - cbn. rewrite lookup_insert_eq. done. }
  eexists. split; [done|]. destruct C1 as (C1 & H1 & H2). split; [by apply Hset|done].
Qed.
End Owners.

(** ** Access control lists as text *)

Definition hash_ok (h : bytes) : Prop := bytes_ok h /\ zlen h = 20.

Record acl_ok (acl : apk_db_acl) : Prop := {
  ao_mode : 0 <= acl_mode acl < 2 ^ 12;
  ao_uid : 0 <= acl_uid acl < 2 ^ 32;
  ao_gid : 0 <= acl_gid acl < 2 ^ 32;
  ao_hash : acl_xattr_hash acl = [] \/ hash_ok (acl_xattr_hash acl);
}.

Definition xattr_text (h : bytes) : bytes := if zlen h =? 0 then [] else chr ":" :: hash_text h.
Definition acl_text (acl : apk_db_acl) : bytes :=
  uint_text (acl_uid acl) 10 ++ chr ":" :: uint_text (acl_gid acl) 10 ++ chr ":" :: uint_text (acl_mode acl) 8 ++ xattr_text (acl_xattr_hash acl).

Lemma push_db_acl_text b field acl :
  acl_ok acl -> apk_blob_push_db_acl b field acl = apk_blob_push_blob b ([chr field; chr ":"] ++ acl_text acl ++ [10]).
Proof.
  intros [_ _ _ Hh]. unfold apk_blob_push_db_acl, acl_text, xattr_text. rewrite !push_uint_eq, !apk_blob_push_app.
  destruct Hh as [Hh|[_ Hh]].
  - assert (Hz : (zlen (acl_xattr_hash acl) =? 0) = true) by (by rewrite Hh). rewrite Hz. cbn [negb].
    rewrite apk_blob_push_app, app_nil_r. by repeat (cbn [app]; rewrite <- !app_assoc).
  - assert (Hz : (zlen (acl_xattr_hash acl) =? 0) = false) by (by rewrite Hh). rewrite Hz. cbn [negb].
    rewrite (push_hash_eq _ _ Hh), !apk_blob_push_app. by repeat (cbn [app]; rewrite <- !app_assoc).
Qed.

Lemma land_mode m : 0 <= m < 2 ^ 12 -> m .& 0xfff = m.
Proof. intros Hm. change 0xfff with (Z.ones 12). rewrite Z.land_ones by lia. by apply Z.mod_small. Qed.

Lemma digest_blob_of h n d : zlen h = n -> apk_digest_blob (Digest APK_DIGEST_SHA1 n (h ++ d)) = h.
Proof. intros <-. unfold apk_digest_blob, ztake, zlen. cbn. rewrite Nat2Z.id. apply take_app_length. Qed.

Lemma pull_char_cons c l : apk_blob_pull_char (Some (c :: l)) c = Some l.
Proof. cbn. by rewrite Z.eqb_refl. Qed.

Lemma colon_stops radix l : radix <= 16 -> uint_stops radix (chr ":" :: l).
Proof. intros Hr. right. change (dx (chr ":")) with 255. lia. Qed.

Lemma fdb_acl_text acl dig :
  acl_ok acl -> zlen (d_data dig) = 64 ->
  exists dig', fdb_acl (acl_text acl) dig = Some (acl, Some [], dig') /\ zlen (d_data dig') = 64.
Proof.
  intros Hok Hd. pose proof Hok as [Hm Hu Hg Hh]. unfold fdb_acl, pull_uint, acl_text.
  do 2 (rewrite uint_text_pull by (lia || by apply colon_stops); rewrite pull_char_cons).
  assert (Hs : uint_stops 8 (xattr_text (acl_xattr_hash acl))) by (unfold xattr_text; destruct (zlen _ =? 0); [done|by apply colon_stops]).
  rewrite uint_text_pull by (done || lia). cbn [blob_data]. unfold apk_db_acl_atomize_digest, __apk_db_acl_atomize.
  rewrite !(wrap_small 32) by lia. rewrite land_mode by done.
  unfold xattr_text. destruct Hh as [Hh|[Hb Hl]].
  - destruct acl as [m u g h]. cbn [acl_xattr_hash] in Hh. subst h. eexists. split; [reflexivity|exact Hd].
  - rewrite Hl. cbn [Z.eqb Pos.eqb].
    assert (Hp : apk_blob_pull_blob_match (chr ":" :: hash_text (acl_xattr_hash acl)) (bs ":") = Some (hash_text (acl_xattr_hash acl))).
    { unfold apk_blob_pull_blob_match. rewrite zlen_cons. pose proof (zlen_nonneg (hash_text (acl_xattr_hash acl))).
      change (zlen (bs ":")) with 1. destruct (Z.ltb_spec (zlen (hash_text (acl_xattr_hash acl)) + 1) 1); [lia|]. done. }
    rewrite Hp, <- (app_nil_r (hash_text _)), pull_digest_hash_text by done. cbn [mbind option_bind].
    rewrite (digest_blob_of _ 20) by done. eexists. split; [by destruct acl|]. cbn. rewrite zlen_app.
    unfold zdrop, zlen in *. rewrite length_drop. lia.
Qed.

(** ** The lines of directories and files *)

Definition acl_line (field : ascii) (dflt acl : apk_db_acl) : list bytes :=
  if bool_decide (acl = dflt) then [] else [[chr field; chr ":"] ++ acl_text acl].
Definition file_lines (x : file_desc) : list bytes :=
  [bs "R:" ++ fd_name x] ++ acl_line "a" apk_default_acl_file (fd_acl x) ++
  (if fd_alg x =? APK_DIGEST_NONE then [] else [bs "Z:" ++ hash_text (fd_digest x)]).
Definition dir_lines (x : dir_desc) : list bytes :=
  [bs "F:" ++ dd_name x] ++ acl_line "M" apk_default_acl_dir (dd_acl x) ++ (dd_files x ≫= file_lines).

(** A digest is what the flag of the package says, or absent. *)
Record file_ok (sha256 : bool) (x : file_desc) : Prop := {
  fo_name : no_nl (fd_name x) /\ zlen (fd_name x) < 2 ^ 8;
  fo_acl : acl_ok (fd_acl x);
  fo_digest : (fd_alg x = APK_DIGEST_NONE /\ fd_digest x = []) \/
    (fd_alg x = (if sha256 then APK_DIGEST_SHA256_160 else APK_DIGEST_SHA1) /\ hash_ok (fd_digest x));
}.

Definition name_before (a b : bytes) : Prop := 0 < apk_blob_sort b a.

Record dir_ok (sha256 : bool) (x : dir_desc) : Prop := {
  dio_name : no_nl (dd_name x) /\ apk_blob_trim_end (dd_name x) (chr "/") = dd_name x /\ zlen (dd_name x) < 2 ^ 16;
  dio_acl : acl_ok (dd_acl x);
  dio_files : Forall (file_ok sha256) (dd_files x);
  dio_sorted : StronglySorted name_before (fd_name <$> dd_files x);
}.

Definition paths (x : dir_desc) : list (bytes * bytes) := (fun f => (dd_name x, fd_name f)) <$> dd_files x.

Section Lines.
Context {FM : Fnmatch} {SIM : Simulate} (layer : Z) (force_old_apk : bool).
Abbreviation line := (fdb_line layer force_old_apk).
Abbreviation lines := (fdb_lines layer force_old_apk).

Lemma fdb_lines_app r ls ks :
  lines r (ls ++ ks) = match lines r ls with Some (inl r) => lines r ks | e => e end.
Proof. revert r. induction ls as [|l ls IH]; intros r; [done|]. cbn [app fdb_lines]. destruct (line r l) as [[?|?]|]; auto. Qed.

Definition fdb_reads (r : fdb_reader) (ls : list bytes) (r' : fdb_reader) : Prop := lines r ls = Some (inl r').

Lemma fdb_reads_app r ls r1 ks r2 : fdb_reads r ls r1 -> fdb_reads r1 ks r2 -> fdb_reads r (ls ++ ks) r2.
Proof. unfold fdb_reads. intros H1 H2. by rewrite fdb_lines_app, H1. Qed.

Lemma fdb_reads_1 r l r' : line r l = Some (inl r') -> fdb_reads r [l] r'.
Proof. unfold fdb_reads. cbn. by intros ->. Qed.

(** A line of the installed database, when the record of the package exists. *)
Lemma fdb_line_entry r c v :
  fr_ipkg r = true -> apk_pkgtmpl_add_info (fr_db r) (fr_tmpl r) c v = Some (fr_db r, fr_tmpl r, 1) ->
  line r (c :: chr ":" :: v) = fdb_entry force_old_apk 1 c v r.
Proof.
  intros Hi E. unfold fdb_line. rewrite !zlen_cons. pose proof (zlen_nonneg v).
  destruct (Z.ltb_spec (zlen v + 1 + 1) 2); [lia|].
  change (znth 0 (c :: chr ":" :: v) 1) with (chr ":"). change (znth 0 (c :: chr ":" :: v) 0) with c.
  change (zdrop 2 (c :: chr ":" :: v)) with v. rewrite Z.eqb_refl. cbn [negb]. rewrite E.
  assert (Hr : set_fr_tmpl (fr_tmpl r) (set_fr_db (fr_db r) r) = r) by (by destruct r). rewrite Hr.
  cbn [Z.eqb Pos.eqb]. unfold fdb_create. by rewrite Hi, Hi.
Qed.

(** Inside a package whose record exists. *)
Record reading (r0 : fdb_reader) (s0 : fs_db) (known : list (bytes * bytes)) (r : fdb_reader) (ads : list Z) (ds : list dir_desc) : Prop := {
  rg_tmpl : fr_tmpl r = fr_tmpl r0;
  rg_db : fr_db r = fr_db r0;
  rg_store : fr_store r = fr_store r0;
  rg_ipkg : fr_ipkg r = true;
  rg_diri : fr_diri r = last ads;
  rg_dig : zlen (d_data (fr_file_digest r)) = 64 /\ zlen (d_data (fr_xattr_digest r)) = 64;
  rg_fs : creating (pkg_addr (tm_pkg (fr_tmpl r0))) (present (tm_pkg (fr_tmpl r0)) (fr_store r0)) s0 known (fr_fs r) ads ds;
}.

Lemma reads_F r0 s0 known r ads ds nm :
  reading r0 s0 known r ads ds -> is_Some (ipkg (tm_pkg (fr_tmpl r0))) -> is_Some (pkg_name (tm_pkg (fr_tmpl r0))) ->
  apk_blob_trim_end nm (chr "/") = nm -> zlen nm < 2 ^ 16 -> Forall (fun d => name_before (dd_name d) nm) ds ->
  exists r' a, fdb_reads r [bs "F:" ++ nm] r' /\ reading r0 s0 known r' (ads ++ [a]) (ds ++ [DirDesc nm apk_default_acl_dir []]).
Proof.
  intros [Rt Rb Rs Ri Rd Rg C] Hip [n Hn] Hnm Hlen Hord.
  assert (Happly : exists fs, fdb_apply r = Some fs /\ creating (pkg_addr (tm_pkg (fr_tmpl r0))) (present (tm_pkg (fr_tmpl r0)) (fr_store r0)) s0 known fs ads ds).
  { unfold fdb_apply. rewrite Rd, Rt, Rs. destruct (last ads) as [a|] eqn:El; [|eauto].
    destruct (apply_permissions_spec _ _ _ _ _ _ _ a C Hip) as (s' & E & C' & _); [by apply last_Some_elem_of|eauto]. }
  destruct Happly as (fs & Ef & Cf). destruct (creating_diri _ _ _ _ _ _ _ nm Cf Hnm Hlen Hord) as (s' & Eg & Cg).
  eexists _, _. split.
  - apply fdb_reads_1. change (bs "F:" ++ nm) with (chr "F" :: chr ":" :: nm). rewrite fdb_line_entry by done.
    unfold fdb_entry. cbn. rewrite Rt, Hn, Ef. cbn [mbind option_bind]. rewrite Eg. cbn. reflexivity.
  - split; cbn; try done. by rewrite last_snoc.
Qed.

Lemma reads_M r0 s0 known r pre a ds x acl :
  reading r0 s0 known r (pre ++ [a]) (ds ++ [x]) -> acl_ok acl -> dd_acl x = apk_default_acl_dir ->
  exists r', fdb_reads r (acl_line "M" apk_default_acl_dir acl) r' /\
    reading r0 s0 known r' (pre ++ [a]) (ds ++ [DirDesc (dd_name x) acl (dd_files x)]).
Proof.
  intros R Ha Hx. unfold acl_line. case_bool_decide as Hd.
  - exists r. split; [done|]. subst acl. rewrite <- Hx. by destruct x.
  - pose proof R as [Rt Rb Rs Ri Rd [Rg1 Rg2] C]. destruct (fdb_acl_text acl (fr_xattr_digest r) Ha Rg2) as (dig & Ed & Hl).
    rewrite last_snoc in Rd. eexists. split.
    + apply fdb_reads_1. change ([chr "M"; chr ":"] ++ acl_text acl) with (chr "M" :: chr ":" :: acl_text acl).
      rewrite fdb_line_entry by done. unfold fdb_entry. cbn. rewrite Rd, Ed. cbn. reflexivity.
    + split; cbn; try done. * by rewrite last_snoc. * by apply creating_acl.
Qed.

Definition file_zero (a : Z) (nm : bytes) : apk_db_file := DbFile a apk_default_acl_file false false 0 nm (replicate 20 0).

Lemma file_get_eq pkg good s0 known s pre a ds x nm :
  creating pkg good s0 known s (pre ++ [a]) (ds ++ [x]) -> (dd_name x, nm) ∉ known ->
  (forall l, last (dd_files x) = Some l -> name_before (fd_name l) nm) -> zlen nm < 2 ^ 8 ->
  exists k, apk_db_file_get a nm s = (fs_next s, file_state (k, dd_name x, nm) (file_zero a nm) s).
Proof.
  intros C Hk Hord Hlen. pose proof (creating_last _ _ _ _ _ _ _ _ _ C) as Ex. pose proof (cg_ic _ _ _ _ _ _ _ C) as Hic.
  exists (apk_blob_hash_seed nm (dr_hash (get_dir s (di_dir (get_diri s a)))) mod FILE_BUCKETS).
  unfold apk_db_file_get. set (h := apk_blob_hash_seed _ _ mod _).
  assert (Hn : dr_name (get_dir s (di_dir (get_diri s a))) = dd_name x) by (by rewrite Ex). rewrite Hn.
  destruct (fs_file_tab s !! (h, dd_name x, nm)) as [f|] eqn:Ef; [by apply (cg_paths _ _ _ _ _ _ _ C) in Ef|].
  assert (Hu : match last (ic_files (fs_ic s)) with
               | Some l => files_qsort_cmp (set_fs_next (fs_next s + 1) (set_fs_files (<[fs_next s := file_zero a nm]> (fs_files s)) s)) (fs_next s) l <? 0
               | None => false end = false).
  { destruct (last (ic_files (fs_ic s))) as [l|] eqn:El; [|done]. apply Z.ltb_ge. unfold files_qsort_cmp, get_file. cbn.
    pose proof (cg_files _ _ _ _ _ _ _ C) as Hf. rewrite list.Forall_forall in Hf. pose proof (Hf l (last_Some_elem_of _ _ El)).
    rewrite lookup_insert_eq, lookup_insert_ne by lia. cbn.
    specialize (Hord (describe (get_file s l))). unfold name_before in Hord. cbn in Hord. unfold get_file in Hord.
    apply Z.lt_le_incl, Hord. rewrite Ex. cbn. by rewrite fmap_last, El. }
  assert (Hf : ic_files_unsorted (fs_ic s) = false) by (by rewrite Hic).
  unfold apk_db_file_new. rewrite name_field_id by (done || lia). cbv zeta. fold (file_zero a nm). change (fs_ic (set_fs_next _ (set_fs_files _ s))) with (fs_ic s).
  rewrite Hu, Hf. unfold file_state. rewrite Hf.
  unfold get_file. cbn [fs_files set_fs_ic set_fs_next set_fs_files]. rewrite lookup_insert_eq. reflexivity.
Qed.

(** Between the lines of a file: [file] is what is known of it. *)
Definition in_file (r : fdb_reader) (key : Z * bytes * bytes) (file : apk_db_file) (r' : fdb_reader) : Prop :=
  exists d1 d2, zlen (d_data d1) = 64 /\ zlen (d_data d2) = 64 /\
  r' = FdbReader (fr_db r) (fr_tmpl r) true (fr_diri r) (Some (fs_next (fr_fs r))) d1 d2 (file_state key file (fr_fs r)) (fr_store r).

Lemma upd_file_state key file f s : upd_file (fs_next s) f (file_state key file s) = file_state key (f file) s.
Proof.
  unfold upd_file, get_file, file_state. cbn. rewrite lookup_insert_eq. cbn. unfold set_fs_files. cbn. by rewrite insert_insert, decide_True.
Qed.

Lemma reads_a r key file r' acl a :
  in_file r key file r' -> fr_diri r = Some a -> acl_ok acl -> f_acl file = apk_default_acl_file ->
  exists r'', fdb_reads r' (acl_line "a" apk_default_acl_file acl) r'' /\ in_file r key (set_f_acl acl file) r''.
Proof.
  intros (d1 & d2 & L1 & L2 & ->) Hd Ha Hf. unfold acl_line. case_bool_decide as Hq.
  - eexists. split; [done|]. exists d1, d2. split; [done|]. split; [done|]. assert (set_f_acl acl file = file) as -> by (subst acl; rewrite <- Hf; by destruct file). done.
  - destruct (fdb_acl_text acl d2 Ha L2) as (dig & Ed & Hl). eexists. split.
    + apply fdb_reads_1. change ([chr "a"; chr ":"] ++ acl_text acl) with (chr "a" :: chr ":" :: acl_text acl).
      rewrite fdb_line_entry by done. unfold fdb_entry. cbn -[upd_file file_state].
      rewrite Hd, Ed. cbn -[upd_file file_state]. reflexivity.
    + exists d1, dig. split; [done|]. split; [done|]. cbn -[upd_file file_state]. by rewrite upd_file_state, Hd.
Qed.

(** The digest as it is stored. *)
Definition set_digest (alg : Z) (h : bytes) (f : apk_db_file) : apk_db_file :=
  if alg =? APK_DIGEST_NONE then f
  else DbFile (f_diri f) (f_acl f) (f_audited f) (f_broken f) alg (f_name f) h.

Lemma reads_Z r key file r' x ip :
  in_file r key file r' -> ipkg (tm_pkg (fr_tmpl r)) = Some ip -> file_ok (sha256_160 ip) x -> f_digest file = replicate 20 0 ->
  exists r'', fdb_reads r' (if fd_alg x =? APK_DIGEST_NONE then [] else [bs "Z:" ++ hash_text (fd_digest x)]) r'' /\
    in_file r key (set_digest (fd_alg x) (fd_digest x) file) r''.
Proof.
  intros (d1 & d2 & L1 & L2 & ->) Hip [_ _ Hx] Hf. unfold set_digest. destruct Hx as [[Ha _]|[Ha [Hb Hl]]].
  - rewrite Ha. cbn. eexists. split; [done|]. by exists d1, d2.
  - assert (Hz : (fd_alg x =? APK_DIGEST_NONE) = false) by (rewrite Ha; by destruct (sha256_160 ip)). rewrite Hz.
    eexists. split.
    + apply fdb_reads_1. change (bs "Z:" ++ hash_text (fd_digest x)) with (chr "Z" :: chr ":" :: hash_text (fd_digest x)). rewrite fdb_line_entry by done. unfold fdb_entry.
      cbn -[upd_file file_state hash_text apk_blob_pull_digest]. rewrite <- (app_nil_r (hash_text _)), pull_digest_hash_text by done.
      cbn -[upd_file file_state apk_dbf_digest_set zdrop app]. rewrite Hip. reflexivity.
    + assert (Hset : forall alg, apk_digest_alg_len alg = 20 -> apk_dbf_digest_set alg (fd_digest x ++ zdrop 20 (d_data d1)) file =
        DbFile (f_diri file) (f_acl file) (f_audited file) (f_broken file) alg (f_name file) (fd_digest x)).
      { intros alg Hal. unfold apk_dbf_digest_set. rewrite Hal. cbn [Z.ltb Z.compare Pos.compare Pos.compare_cont]. f_equal.
        rewrite Hf. unfold overwrite, ztake, zdrop, zlen in *. replace (Z.to_nat 20) with (length (fd_digest x)) by lia.
        rewrite take_app_length, drop_ge; [by rewrite app_nil_r|]. rewrite length_replicate. lia. }
      exists (Digest (fd_alg x) 20 (fd_digest x ++ zdrop 20 (d_data d1))), d2. split; [|split; [done|]].
      * cbn. rewrite zlen_app. unfold zdrop, zlen in *. rewrite length_drop. lia.
      * cbn -[upd_file file_state apk_dbf_digest_set zdrop app]. rewrite upd_file_state, Ha.
        destruct (sha256_160 ip); cbn -[file_state apk_dbf_digest_set zdrop app]; by rewrite Hset.
Qed.

Lemma describe_stored sha256 a x :
  file_ok sha256 x -> describe (set_digest (fd_alg x) (fd_digest x) (set_f_acl (fd_acl x) (file_zero a (fd_name x)))) = x.
Proof.
  intros [_ _ Hx]. destruct x as [n acl alg h]. cbn [fd_alg fd_digest fd_acl fd_name] in *. unfold set_digest.
  destruct Hx as [[-> ->]|[Ha [_ Hl]]]; [done|].
  assert (Hz : (alg =? APK_DIGEST_NONE) = false) by (subst alg; by destruct sha256). rewrite Hz.
  unfold describe, apk_dbf_digest_blob. cbn. f_equal. assert (apk_digest_alg_len alg = 20) as -> by (subst alg; by destruct sha256).
  unfold ztake, zlen in *. apply take_ge. lia.
Qed.

Lemma reads_file r0 s0 known r pre a ds x f ip :
  reading r0 s0 known r (pre ++ [a]) (ds ++ [x]) -> ipkg (tm_pkg (fr_tmpl r0)) = Some ip -> file_ok (sha256_160 ip) f ->
  (dd_name x, fd_name f) ∉ known -> (forall l, last (dd_files x) = Some l -> name_before (fd_name l) (fd_name f)) ->
  exists r', fdb_reads r (file_lines f) r' /\
    reading r0 s0 ((dd_name x, fd_name f) :: known) r' (pre ++ [a]) (ds ++ [DirDesc (dd_name x) (dd_acl x) (dd_files x ++ [f])]).
Proof.
  intros R Hip Hf Hk Hord. pose proof R as [Rt Rb Rs Ri Rd [Rg1 Rg2] C]. rewrite last_snoc in Rd.
  destruct (file_get_eq _ _ _ _ _ _ _ _ _ _ C Hk Hord (proj2 (fo_name _ _ Hf))) as [k Eg].
  set (key := (k, dd_name x, fd_name f)) in *. set (r1 := set_fr_file (Some (fs_next (fr_fs r))) (set_fr_fs (file_state key (file_zero a (fd_name f)) (fr_fs r)) r)).
  assert (E1 : fdb_reads r [bs "R:" ++ fd_name f] r1).
  { apply fdb_reads_1. change (bs "R:" ++ fd_name f) with (chr "R" :: chr ":" :: fd_name f). rewrite fdb_line_entry by done.
    unfold fdb_entry. cbn -[file_state apk_db_file_get]. rewrite Rd, Eg. reflexivity. }
  assert (I1 : in_file r key (file_zero a (fd_name f)) r1).
  { exists (fr_file_digest r), (fr_xattr_digest r). split; [done|]. split; [done|]. unfold r1. destruct r. cbn in Ri |- *. by rewrite Ri. }
  destruct (reads_a r key _ r1 (fd_acl f) a I1 Rd (fo_acl _ _ Hf) eq_refl) as (r2 & E2 & I2).
  destruct (reads_Z r key _ r2 f ip I2) as (r3 & E3 & I3); [by rewrite Rt|done|done|]. exists r3. split.
  - unfold file_lines. eapply fdb_reads_app; [exact E1|]. by eapply fdb_reads_app.
  - destruct I3 as (d1 & d2 & L1 & L2 & ->). split; try done; [by rewrite last_snoc|]. cbn [fr_fs].
    pose proof (creating_file _ _ _ _ _ _ _ _ _ k (fd_name f) (set_digest (fd_alg f) (fd_digest f) (set_f_acl (fd_acl f) (file_zero a (fd_name f)))) C) as C'.
    by rewrite (describe_stored (sha256_160 ip) a f Hf) in C'.
Qed.

(** The files of a directory, after the ones that were read. *)
Lemma reads_files r0 s0 pre a ds ip fs : forall known r x,
  reading r0 s0 known r (pre ++ [a]) (ds ++ [x]) -> ipkg (tm_pkg (fr_tmpl r0)) = Some ip -> Forall (file_ok (sha256_160 ip)) fs ->
  NoDup (((fun f => (dd_name x, fd_name f)) <$> fs) ++ known) -> StronglySorted name_before (fd_name <$> (dd_files x ++ fs)) ->
  exists r' known', fdb_reads r (fs ≫= file_lines) r' /\
    reading r0 s0 known' r' (pre ++ [a]) (ds ++ [DirDesc (dd_name x) (dd_acl x) (dd_files x ++ fs)]) /\
    known' ≡ₚ ((fun f => (dd_name x, fd_name f)) <$> fs) ++ known.
Proof.
  induction fs as [|f fs IH]; intros known r x R Hip Hfs Hnd Hs.
  - exists r, known. split; [done|]. rewrite app_nil_r. by destruct x.
  - apply Forall_cons_1 in Hfs as [Hf Hfs]. rewrite fmap_cons in Hnd. cbn [app] in Hnd. apply NoDup_cons in Hnd as [Hnot Hnd].
    destruct (reads_file r0 s0 known r pre a ds x f ip R Hip Hf) as (r1 & E1 & R1).
    { intros Hin. apply Hnot. apply elem_of_app. by right. }
    { intros l Hl. apply last_Some in Hl as [l' Hl]. rewrite Hl in Hs. rewrite <- app_assoc, !fmap_app in Hs. cbn in Hs.
      apply StronglySorted_app in Hs as (_ & _ & Hs). inversion_clear Hs as [|? ? _ Hall]. by apply Forall_cons_1 in Hall as [? _]. }
    destruct (IH ((dd_name x, fd_name f) :: known) r1 (DirDesc (dd_name x) (dd_acl x) (dd_files x ++ [f])) R1 Hip Hfs) as (r2 & known' & E2 & R2 & Hp).
    + cbn [dd_name]. rewrite <- Permutation_middle. by apply NoDup_cons.
    + cbn [dd_files]. by rewrite <- app_assoc.
    + exists r2, known'. split; [by eapply fdb_reads_app|]. cbn [dd_name dd_acl dd_files] in R2, Hp. rewrite <- app_assoc in R2. split; [done|].
      rewrite Hp. rewrite fmap_cons. cbn. by rewrite Permutation_middle.
Qed.

Lemma reads_dir r0 s0 known r ads ds x ip :
  reading r0 s0 known r ads ds -> ipkg (tm_pkg (fr_tmpl r0)) = Some ip -> is_Some (pkg_name (tm_pkg (fr_tmpl r0))) ->
  dir_ok (sha256_160 ip) x -> Forall (fun d => name_before (dd_name d) (dd_name x)) ds -> NoDup (paths x ++ known) ->
  exists r' known' a, fdb_reads r (dir_lines x) r' /\ reading r0 s0 known' r' (ads ++ [a]) (ds ++ [x]) /\ known' ≡ₚ paths x ++ known.
Proof.
  intros R Hip Hn [(_ & Hnm & Hlen) Hacl Hfs Hs] Hord Hnd.
  destruct (reads_F r0 s0 known r ads ds (dd_name x) R) as (r1 & a & E1 & R1); [by rewrite Hip|done..|].
  destruct (reads_M r0 s0 known r1 ads a ds _ (dd_acl x) R1 Hacl eq_refl) as (r2 & E2 & R2). cbn [dd_name dd_files] in R2.
  destruct (reads_files r0 s0 ads a ds ip (dd_files x) known r2 _ R2 Hip Hfs Hnd Hs) as (r3 & known' & E3 & R3 & Hp).
  exists r3, known', a. split; [|split; [by destruct x|done]].
  unfold dir_lines. eapply fdb_reads_app; [exact E1|]. by eapply fdb_reads_app.
Qed.

Lemma reads_dirs r0 s0 ip xs : forall known r ads ds,
  reading r0 s0 known r ads ds -> ipkg (tm_pkg (fr_tmpl r0)) = Some ip -> is_Some (pkg_name (tm_pkg (fr_tmpl r0))) ->
  Forall (dir_ok (sha256_160 ip)) xs -> StronglySorted name_before (dd_name <$> (ds ++ xs)) -> NoDup ((xs ≫= paths) ++ known) ->
  exists r' known' ads', fdb_reads r (xs ≫= dir_lines) r' /\ reading r0 s0 known' r' ads' (ds ++ xs) /\ known' ≡ₚ (xs ≫= paths) ++ known.
Proof.
  induction xs as [|x xs IH]; intros known r ads ds R Hip Hn Hxs Hs Hnd.
  - exists r, known, ads. split; [done|]. by rewrite app_nil_r.
  - apply Forall_cons_1 in Hxs as [Hx Hxs]. change ((x :: xs) ≫= paths) with (paths x ++ (xs ≫= paths)) in *.
    rewrite <- app_assoc in Hnd.
    assert (Hperm : paths x ++ (xs ≫= paths) ++ known ≡ₚ (xs ≫= paths) ++ paths x ++ known) by (by rewrite !app_assoc, (Permutation_app_comm (paths x))).
    destruct (reads_dir r0 s0 known r ads ds x ip R Hip Hn Hx) as (r1 & known1 & a & E1 & R1 & Hp1).
    { rewrite fmap_app in Hs. cbn in Hs. apply StronglySorted_app in Hs as (Hc & _ & _). apply list.Forall_forall. intros d Hd.
      apply Hc; [by apply list_elem_of_fmap_2|by left]. }
    { rewrite Hperm in Hnd. by apply list.NoDup_app in Hnd as (_ & _ & ?). }
    destruct (IH known1 r1 (ads ++ [a]) (ds ++ [x]) R1 Hip Hn Hxs) as (r2 & known2 & ads2 & E2 & R2 & Hp2).
    { by rewrite <- app_assoc. } { by rewrite Hp1, <- Hperm. }
    exists r2, known2, ads2. split; [by eapply fdb_reads_app|]. rewrite <- app_assoc in R2. split; [done|].
    by rewrite Hp2, Hp1, <- app_assoc, Hperm.
Qed.
End Lines.
