(* ===== verification/InstalledDbRt.v ===== *)
(** The round trip of the installed database: header lines, the lines of the installed package,
    the end of a package, and the text of all packages. *)
From Stdlib Require Import ZArith Lia Ascii String Sorted.
From stdpp Require Import base numbers list option gmap sorting.
From S2P Require Import Prelude Clib Blob Codec Ctype Version Dep Package Index SolverState SolverInv Database InstalledDb InstalledDbThm.

(** ** The lines that are also in an index *)




Section Header.
Context {FM : Fnmatch} {SIM : Simulate} (layer : Z) (force_old_apk : bool) (arches : list bytes) (noarch : bytes) (repo : Z).
Abbreviation line := (fdb_line layer force_old_apk).
Abbreviation reads_fdb := (fdb_reads layer force_old_apk).




End Header.

(** ** The lines of the installed package *)








Section Ipkg.
Context {FM : Fnmatch} {SIM : Simulate} (layer : Z) (force_old_apk : bool).
Abbreviation reads_fdb := (fdb_reads layer force_old_apk).




Lemma set_fr_tags_id r : set_fr_tags (db_tags (fr_db r)) r = r.
Proof. destruct r as [[] ]. done. Qed.





End Ipkg.

(** ** The end of a package *)

















Section End.
Context {FM : Fnmatch} {SIM : Simulate} (force_old_apk : bool).

End End.

(** ** One package *)





Section Package.
Context {FM : Fnmatch} {SIM : Simulate} (force_old_apk : bool).
Abbreviation reads_fdb := (fdb_reads 0 force_old_apk).




End Package.

(** ** The text that is written *)












(** ** No line holds a newline *)







(** ** All packages *)






Section All.
Context {FM : Fnmatch} {SIM : Simulate} (force_old_apk : bool).


End All.

(** ** The properties *)


(** What is stored of a package without directories does not depend on its record: the
    repository it is pinned to, its replaced packages, its priority and its broken flags are not
    written, so they are gone when the database is read again. *)
Theorem meta_package_record_lost tgs s p ip ip' os :
  default [] (fs_owned s !! pkg_addr p) = [] ->
  apk_db_fdb_write tgs s p ip os = apk_db_fdb_write tgs s p ip' os.
Proof. intros E. unfold apk_db_fdb_write. by rewrite E. Qed.

Definition example_pkg : apk_package :=
  Pkg 7 (Some (bs "base")) (Some (IPkg (replicate 7 None) [] [] [] 3 0 false true false false false false)) [] [] [] [] [bs "core"]
    (Some (bs "3.1-r0")) (bs "noarch") (bs "MIT") [] [] [] (bs "base files") [] 10 20 0 0 0 0 0
    false false false false 0 APK_DIGEST_SHA1 (replicate 20 5).



Lemma meta_package_record_lost_witness :
  let p := set_ipkg None example_pkg in
  let pinned := IPkg (replicate 7 None) [] [] [] 0 1 false false false false false false in
  let tgs := [RepoTag 0 [] []; RepoTag 0 (bs "@edge") (bs "edge")] in
  repository_tag pinned <> repository_tag ipkg_new /\
  apk_db_fdb_write tgs (fs_init []) p pinned [] = apk_db_fdb_write tgs (fs_init []) p ipkg_new [].
Proof. intros p pinned tgs. split; [done|]. by apply meta_package_record_lost. Defined.
