(* ===== verification/Disk.v ===== *)
(** The system calls on files that the code uses, on a tree of files.

    Names of files are resolved to lists of components, so that two spellings of a path are one
    file; several names may refer to one inode.  A call may fail for reasons of its own (a full
    or broken disk, missing permissions): the class [Os] gives for every call by its number an
    error number, or 0.  A path is walked component by component from the destination: links
    on the way are followed, and the last component where the call follows it; links with an absolute
    target start at the destination again, which is the root of the files. *)
From Stdlib Require Import ZArith Lia Ascii String.
From stdpp Require Import base numbers list option gmap.
From S2P Require Import Prelude Clib Blob Tar.

Definition EPERM : Z := 1.
Definition ENOENT : Z := 2.
Definition EBUSY : Z := 16.
Definition EEXIST : Z := 17.
Definition ENOTDIR : Z := 20.
Definition EISDIR : Z := 21.
Definition ENOTEMPTY : Z := 39.
Definition ELOOP : Z := 40.
Definition EOPNOTSUPP : Z := 95.

(** ** Paths *)

(** The text between slashes; [cur] is what was read of the component, backwards. *)
Fixpoint components (cur p : bytes) : list bytes :=
  match p with
  | [] => [rev cur]
  | c :: p => if c =? chr "/" then rev cur :: components [] p else components (c :: cur) p
  end.

(** The name of a file: the components from the root. *)
Abbreviation fname := (list bytes).

Definition enter (at_ : fname) (c : bytes) : fname :=
  if bool_decide (c = []) || bool_decide (c = bs ".") then at_
  else if bool_decide (c = bs "..") then removelast at_
  else at_ ++ [c].

(** The name that a path has without a look at the files: no links. *)
Definition resolve_from (at_ : fname) (p : bytes) : fname := foldl enter at_ (components [] p).
Definition resolve (p : bytes) : fname := resolve_from [] p.

(** ** State *)

Record inode := Inode {
  in_mode : Z; in_uid : Z; in_gid : Z; in_mtime : Z; in_rdev : Z;
  in_data : bytes; in_xattrs : list apk_xattr }.

Definition in_type (i : inode) : Z := in_mode i .& S_IFMT.
Definition is_dir (i : inode) : bool := in_type i =? S_IFDIR.
Definition is_lnk (i : inode) : bool := in_type i =? S_IFLNK.
Definition set_in_owner (uid gid : Z) (i : inode) : inode :=
  Inode (if is_dir i then in_mode i else in_mode i .& 0xf3ff) uid gid (in_mtime i) (in_rdev i) (in_data i) (in_xattrs i).
Definition set_in_mode (mode : Z) (i : inode) : inode :=
  Inode (in_type i .| (mode .& 0xfff)) (in_uid i) (in_gid i) (in_mtime i) (in_rdev i) (in_data i) (in_xattrs i).
Definition set_in_mtime (t : Z) (i : inode) : inode :=
  Inode (in_mode i) (in_uid i) (in_gid i) t (in_rdev i) (in_data i) (in_xattrs i).
Definition set_in_data (d : bytes) (i : inode) : inode :=
  Inode (in_mode i) (in_uid i) (in_gid i) (in_mtime i) (in_rdev i) d (in_xattrs i).
Definition set_in_xattr (x : apk_xattr) (i : inode) : inode :=
  Inode (in_mode i) (in_uid i) (in_gid i) (in_mtime i) (in_rdev i) (in_data i)
    (x :: filter (fun y => xa_name y <> xa_name x) (in_xattrs i)).

(** The names and inodes, the next number of an inode, and the number of calls so far. *)
Record disk := Disk { dk_names : gmap fname Z; dk_inodes : gmap Z inode; dk_next : Z; dk_calls : nat }.

Definition set_names v (d : disk) : disk := Disk v (dk_inodes d) (dk_next d) (dk_calls d).
Definition set_inodes v (d : disk) : disk := Disk (dk_names d) v (dk_next d) (dk_calls d).
Definition upd_inode (n : Z) (f : inode -> inode) (d : disk) : disk := set_inodes (alter f n (dk_inodes d)) d.

(** How the calls fail, what write does at each of its next calls for a file that is made by the
    call of a number, and the user and the time of new files. *)
Class Os := {
  os_fault : nat -> Z;
  os_write : nat -> list Z;
  os_uid : Z; os_gid : Z; os_time : Z }.

Definition inode_at (d : disk) (k : fname) : option inode := n ← dk_names d !! k; dk_inodes d !! n.

(** Whether there is a name below [k]. *)
Definition has_children (d : disk) (k : fname) : bool :=
  existsb (fun x => bool_decide (k `prefix_of` x.1) && negb (bool_decide (x.1 = k))) (map_to_list (dk_names d)).

Section calls.
Context {OS : Os}.

(** A call that is counted, and may fail before it does anything. *)
Definition sys {A} (fail : Z -> A) (f : disk -> A * disk) (d : disk) : A * disk :=
  let n := dk_calls d in
  let d := Disk (dk_names d) (dk_inodes d) (dk_next d) (S n) in
  if 0 <? os_fault n then (fail (- os_fault n), d) else f d.
Definition sysz (f : disk -> Z * disk) : disk -> Z * disk := sys (fun e => e) f.

(** Where a path leads from a directory: the last component in the directory that the ones before it lead to.  At most
    [links] links are followed. *)
Fixpoint walk (links : nat) (d : disk) (follow : bool) {struct links} : fname -> list bytes -> Z + fname :=
  fix go (at_ : fname) (l : list bytes) {struct l} : Z + fname :=
    match l with
    | [] => inr at_
    | c :: l =>
        if bool_decide (c = []) || bool_decide (c = bs ".") then go at_ l
        else if bool_decide (c = bs "..") then go (removelast at_) l
        else
          let k := at_ ++ [c] in
          if bool_decide (l = []) && negb follow then inr k
          else match inode_at d k with
               | None => if bool_decide (l = []) then inr k else inl (- ENOENT)
               | Some i =>
                   if is_lnk i then
                     match links with
                     | O => inl (- ELOOP)
                     | S links => walk links d follow (if List.hd 0 (in_data i) =? chr "/" then [] else at_) (components [] (in_data i) ++ l)
                     end
                   else if bool_decide (l = []) then inr k
                   else if is_dir i then go k l
                   else inl (- ENOTDIR)
               end
    end.
Definition MAXSYMLINKS : nat := 40.
(** The name that a path means for a call that does not follow its last component, and for one that does. *)
Definition locate (d : disk) (p : bytes) : Z + fname := walk MAXSYMLINKS d false [] (components [] p).
Definition locate_follow (d : disk) (p : bytes) : Z + fname := walk MAXSYMLINKS d true [] (components [] p).

(** The inode that a call works on: its number, or an error. *)
Definition at_inode (nofollow : bool) (d : disk) (p : bytes) : Z + Z :=
  match (if nofollow then locate d p else locate_follow d p) with
  | inl e => inl e
  | inr k => match dk_names d !! k with None => inl (- ENOENT) | Some n => inr n end
  end.

Definition with_inode (nofollow : bool) (p : bytes) (f : Z -> disk -> Z * disk) (d : disk) : Z * disk :=
  match at_inode nofollow d p with inl e => (e, d) | inr n => f n d end.

(** A call on the name that a path means. *)
Definition with_name (p : bytes) (f : fname -> disk -> Z * disk) (d : disk) : Z * disk :=
  match locate d p with inl e => (e, d) | inr k => f k d end.

(** fstatat with AT_SYMLINK_NOFOLLOW, and without *)
Definition stat_inode (nofollow : bool) (p : bytes) : disk -> (Z + (Z * inode)) * disk :=
  sys inl (fun d => match at_inode nofollow d p with
                    | inl e => (inl e, d)
                    | inr n => (match dk_inodes d !! n with None => inl (- ENOENT) | Some i => inr (n, i) end, d)
                    end).
Definition sys_lstat (p : bytes) := stat_inode true p.
Definition sys_stat (p : bytes) := stat_inode false p.

Definition new_inode (k : fname) (i : inode) (d : disk) : disk :=
  Disk (<[k := dk_next d]> (dk_names d)) (<[dk_next d := i]> (dk_inodes d)) (dk_next d + 1) (dk_calls d).
Definition sys_make (p : bytes) (mode rdev : Z) (data : bytes) : disk -> Z * disk :=
  sysz (with_name p (fun k d =>
    if bool_decide (k = []) then (- EEXIST, d)
    else match dk_names d !! k with
         | Some _ => (- EEXIST, d)
         | None => (0, new_inode k (Inode mode os_uid os_gid os_time rdev data []) d)
         end)).

(** mkdirat, openat with O_CREAT and O_EXCL, symlinkat, mknodat; there is no umask. *)
Definition sys_mkdir (p : bytes) (mode : Z) := sys_make p (S_IFDIR .| (mode .& 0xfff)) 0 [].
Definition sys_create (p : bytes) (mode : Z) := sys_make p (S_IFREG .| (mode .& 0xfff)) 0 [].
Definition sys_symlink (target p : bytes) := sys_make p (S_IFLNK .| 0x1ff) 0 target.
Definition sys_mknod (p : bytes) (mode dev : Z) := sys_make p mode dev [].

(** openat with O_CREAT and O_TRUNC, which follows the last component: the number of the inode, or an error. *)
Definition sys_open_trunc (p : bytes) (mode : Z) : disk -> (Z + Z) * disk :=
  sys inl (fun d =>
    match locate_follow d p with
    | inl e => (inl e, d)
    | inr k =>
        match dk_names d !! k with
        | None =>
            if bool_decide (k = []) then (inl (- EISDIR), d)
            else (inr (dk_next d), new_inode k (Inode (S_IFREG .| (mode .& 0xfff)) os_uid os_gid os_time 0 [] []) d)
        | Some n =>
            if default false (is_dir <$> dk_inodes d !! n) then (inl (- EISDIR), d)
            else (inr n, upd_inode n (set_in_data []) d)
        end
    end).
(** Writing all of a text to a file that was opened so. *)
Definition sys_write_all (n : Z) (text : bytes) : disk -> Z * disk := sysz (fun d => (0, upd_inode n (set_in_data text) d)).

(** unlinkat without and with AT_REMOVEDIR *)
Definition sys_unlink (p : bytes) : disk -> Z * disk :=
  sysz (with_name p (fun k d =>
    match inode_at d k with
    | None => (if bool_decide (k = []) then - EISDIR else - ENOENT, d)
    | Some i => if is_dir i then (- EISDIR, d) else (0, set_names (delete k (dk_names d)) d)
    end)).
Definition sys_rmdir (p : bytes) : disk -> Z * disk :=
  sysz (with_name p (fun k d =>
    if bool_decide (k = []) then (- EBUSY, d)
    else match inode_at d k with
         | None => (- ENOENT, d)
         | Some i =>
             if negb (is_dir i) then (- ENOTDIR, d)
             else if has_children d k then (- ENOTEMPTY, d)
             else (0, set_names (delete k (dk_names d)) d)
         end)).

Definition sys_link (p q : bytes) : disk -> Z * disk :=
  sysz (with_name p (fun old d =>
    match dk_names d !! old with
    | None => (- ENOENT, d)
    | Some n =>
        with_name q (fun new d =>
          if bool_decide (new = []) then (- EEXIST, d)
          else match dk_names d !! new with
               | Some _ => (- EEXIST, d)
               | None => if default false (is_dir <$> dk_inodes d !! n) then (- EPERM, d)
                         else (0, set_names (<[new := n]> (dk_names d)) d)
               end) d
    end)).

(** renameat of a file; the names that are renamed are never directories. *)
Definition sys_rename (p q : bytes) : disk -> Z * disk :=
  sysz (with_name p (fun old =>
    with_name q (fun new d =>
      match dk_names d !! old with
      | None => (- ENOENT, d)
      | Some n =>
          let moved := set_names (<[new := n]> (delete old (dk_names d))) d in
          if default false (is_dir <$> dk_inodes d !! n) || bool_decide (new = []) then (- EISDIR, d)
          else match dk_names d !! new with
               | None => (0, moved)
               | Some m => if default false (is_dir <$> dk_inodes d !! m) then (- EISDIR, d)
                           else if m =? n then (0, d) else (0, moved)
               end
      end))).

(** fchmodat, fchownat (which clears the set-id bits), fsetxattr and utimensat *)
Definition sys_chmod (nofollow : bool) (p : bytes) (mode : Z) : disk -> Z * disk :=
  sysz (with_inode nofollow p (fun n d =>
    if default false (is_lnk <$> dk_inodes d !! n) then (- EOPNOTSUPP, d) else (0, upd_inode n (set_in_mode mode) d))).
Definition sys_chown (nofollow : bool) (p : bytes) (uid gid : Z) : disk -> Z * disk :=
  sysz (with_inode nofollow p (fun n d => (0, upd_inode n (set_in_owner uid gid) d))).
Definition sys_setxattr (p : bytes) (x : apk_xattr) : disk -> Z * disk :=
  sysz (with_inode false p (fun n d => (0, upd_inode n (set_in_xattr x) d))).
Definition sys_utimens (nofollow : bool) (p : bytes) (t : Z) : disk -> Z * disk :=
  sysz (with_inode nofollow p (fun n d => (0, upd_inode n (set_in_mtime t) d))).
(** faccessat *)
Definition sys_access (p : bytes) : disk -> Z * disk := sysz (with_inode false p (fun n d => (0, d))).
(** openat of a file that is there, and reading all of it *)
Definition sys_open (p : bytes) : disk -> Z * disk := sysz (with_inode false p (fun n d => (0, d))).
Definition sys_read : disk -> Z * disk := sysz (fun d => (0, d)).
End calls.
