(* ===== verification/FsDir.v ===== *)
(** The back ends for files of packages (fs_fsys.c, fs_uvol.c, apk_fs.h), reading the state of a file
    (apk_fileinfo_get of io.c), and the wrappers for executables that come with them (apk_shim.c).

    A file of a package is extracted to a temporary name in its directory, and a later control operation moves
    it to its place, to a name with a suffix, or removes it.  Directories below uvol are volumes that
    another program manages. *)
From Stdlib Require Import ZArith Lia Ascii String.
From stdpp Require Import base numbers list option gmap.
From S2P Require Import Prelude Clib Blob Codec Array Dep AdbTrust Stream Tar Disk.

Definition ENOMEM : Z := 12.
Definition EINVAL : Z := 22.
Definition ENOSYS : Z := 38.
Definition APKE_FORMAT_OBSOLETE : Z := APKE_FIRST_VALUE + 34.
Definition APKE_UVOL_NOT_AVAILABLE : Z := APKE_FIRST_VALUE + 58.
Definition APKE_UVOL_ERROR : Z := APKE_FIRST_VALUE + 59.
Definition APKE_UVOL_ROOT : Z := APKE_FIRST_VALUE + 60.
Definition APKE_NOT_EXTRACTED : Z := APKE_FIRST_VALUE + 62.

Definition APK_FS_PRIO_DISK : Z := 0.
Definition APK_FS_PRIO_UVOL : Z := 1.
Definition APK_FS_PRIO_MAX : Z := 2.
Definition APK_FS_CTRL_COMMIT : Z := 1.
Definition APK_FS_CTRL_APKNEW : Z := 2.
Definition APK_FS_CTRL_CANCEL : Z := 3.
Definition APK_FS_CTRL_DELETE : Z := 4.
Definition APK_FS_CTRL_DELETE_APKNEW : Z := 5.
Definition APK_FS_DIR_MODIFIED : Z := 1.
Definition APK_EXTRACTW_OWNER : Z := 1.
Definition APK_EXTRACTW_PERMISSION : Z := 2.
Definition APK_EXTRACTW_MTIME : Z := 4.
Definition APK_EXTRACTW_XATTR : Z := 8.
Definition APK_FSEXTRACTF_NO_CHOWN : Z := 1.
Definition APK_FSEXTRACTF_NO_OVERWRITE : Z := 2.
Definition APK_FSEXTRACTF_NO_SYS_XATTRS : Z := 4.
Definition APK_FSEXTRACTF_NO_DEVICES : Z := 8.
Definition TMPNAME_MAX : Z := PATH_MAX + 64.

(** ** State *)

(** The files below the destination; the wrappers outside of it, by their absolute name; the commands that were
    given to the program for volumes. *)
Record world := World { w_disk : disk; w_abs : gmap bytes bytes; w_shim_dirty : bool; w_uvol : list (list bytes) }.

Definition set_disk v (w : world) : world := World v (w_abs w) (w_shim_dirty w) (w_uvol w).
Definition set_abs v (w : world) : world := World (w_disk w) v (w_shim_dirty w) (w_uvol w).
Definition set_shim_dirty v (w : world) : world := World (w_disk w) (w_abs w) v (w_uvol w).
Definition set_uvol v (w : world) : world := World (w_disk w) (w_abs w) (w_shim_dirty w) v.

(** The context of the program that the back ends use: flags, root and environment variables, whether volumes are
    available (0 or an error), the result of a command given all commands, and what is in the buffer of a path before it is set. *)
Class FsCtx := {
  ac_extract_flags : Z;
  ac_root : option bytes;
  env_HPKG_PREFIX : option bytes;
  env_HOME : option bytes;
  ac_uvol : Z;
  uvol_result : list (list bytes) -> Z;
  uninit : bytes }.

Definition flag (flags bit : Z) : bool := negb (flags .& bit =? 0).

Definition apknew_suffix : bytes := bs ".apk-new".
Definition apk_pathbuilder_cstr (pb : apk_pathbuilder) : bytes := until_nul (name pb).
(** apk_fmt of a text into a buffer. *)
Definition apk_fmt (sz : Z) (text : bytes) : Z := if zlen text <? sz then zlen text else - ENOBUFS.

Section Fs.
Context {OS : Os} {FC : FsCtx} {pkey : Type} {CR : Crypto pkey}.

Definition on_disk {A} (f : disk -> A * disk) (w : world) : A * world :=
  let '(r, d) := f (w_disk w) in (r, set_disk d w).

(** ** Wrappers of executables *)

Definition is_executable_elf (relpath : bytes) (w : world) : bool * world :=
  let '(r, w) := on_disk (sys_lstat relpath) w in
  match r with
  | inl _ => (false, w)
  | inr (_, i) =>
      if negb (in_type i =? S_IFREG) then (false, w)
      else if in_mode i .& 0x49 =? 0 then (false, w)
      else
        let '(r, w) := on_disk (sys_open relpath) w in
        if r <? 0 then (false, w)
        else
          let '(r, w) := on_disk sys_read w in
          if r <? 0 then (false, w)
          else (prefixb (0x7f :: bs "ELF") (in_data i), w)
  end.

Definition is_shim_target (relpath : bytes) : bool :=
  existsb (fun b => prefixb (bs b) relpath) ["bin/"; "sbin/"; "usr/bin/"; "usr/sbin/"; "usr/local/bin/"]%string.

(** The prefix for a buffer of [bufsz] bytes, or an error. *)
Definition get_hpkg_prefix (bufsz : Z) : Z + bytes :=
  match env_HPKG_PREFIX with
  | Some (c :: env) => if bufsz <=? zlen (c :: env) then inl (- ENAMETOOLONG) else inr (c :: env)
  | _ =>
      let root := match ac_root with Some (c :: r) => c :: r | _ => bs "/" end in
      let rootlen := Z.min (zlen root) PATH_MAX in
      let rootlen := if (8 <? rootlen) && (strcmp (zdrop (rootlen - 8) root) (bs "/sysroot") =? 0) then rootlen - 8 else rootlen in
      let rest root rootlen := if bufsz <=? rootlen then inl (- ENAMETOOLONG) else inr (ztake rootlen root) in
      if rootlen =? 0 then
        match env_HOME with
        | Some (c :: home) => let s := c :: home ++ bs "/.hapkg" in if bufsz <=? zlen s then inl (- ENAMETOOLONG) else inr s
        | _ => rest (bs "/") 1
        end
      else rest root rootlen
  end.

(** The directory of the wrappers, the wrapper and the program of a path. *)
Definition build_paths (relpath : bytes) : Z + (bytes * bytes * bytes) :=
  let basename := match apk_blob_rsplit relpath (chr "/") with Some (_, b) => b | None => relpath end in
  let p := apk_blob_trim_start relpath (chr "/") in
  if (zlen p =? 0) || (zlen basename =? 0) then inl (- EINVAL)
  else match get_hpkg_prefix PATH_MAX with
       | inl r => inl r
       | inr prefix =>
           let stage_root := prefix ++ bs "/temp/horpkgruntime" in
           let shim_path := stage_root ++ bs "/bin/" ++ basename in
           let realbin := prefix ++ bs "/sysroot/" ++ p in
           if PATH_MAX <=? zlen stage_root then inl (- ENAMETOOLONG)
           else if PATH_MAX <=? zlen shim_path then inl (- ENAMETOOLONG)
           else if PATH_MAX <=? zlen realbin then inl (- ENAMETOOLONG)
           else inr (stage_root, shim_path, realbin)
       end.

Definition nl : bytes := [10].
Definition quoted (s : bytes) : bytes := [34] ++ s ++ [34].
(** The lines that add a directory of libraries. *)
Definition shim_lib (dir : bytes) : bytes :=
  bs "if [ -d " ++ quoted dir ++ bs " ]; then" ++ nl ++
  bs "    if [ -n " ++ quoted (bs "$LD_LIBRARY_PATH") ++ bs " ]; then" ++ nl ++
  bs "        LD_LIBRARY_PATH=" ++ quoted (dir ++ bs ":$LD_LIBRARY_PATH") ++ nl ++
  bs "    else" ++ nl ++
  bs "        LD_LIBRARY_PATH=" ++ quoted dir ++ nl ++
  bs "    fi" ++ nl ++ bs "fi" ++ nl.
Definition shim_text (real_path : bytes) : bytes :=
  bs "#!/system/bin/sh" ++ nl ++
  bs "HPKG_PREFIX=" ++ quoted (bs "${HPKG_PREFIX:-$HOME/.hapkg}") ++ nl ++
  bs "REAL_BIN=" ++ quoted real_path ++ nl ++ nl ++
  bs "export HPKG_PREFIX" ++ nl ++
  shim_lib (bs "$HPKG_PREFIX/sysroot/lib") ++ shim_lib (bs "$HPKG_PREFIX/sysroot/usr/lib") ++
  bs "if [ -n " ++ quoted (bs "$LD_LIBRARY_PATH") ++ bs " ]; then" ++ nl ++
  bs "    export LD_LIBRARY_PATH" ++ nl ++ bs "fi" ++ nl ++ nl ++
  bs "exec loader " ++ quoted (bs "$REAL_BIN") ++ bs " " ++ quoted (bs "$@") ++ nl.
Definition hnp_json : bytes :=
  bs "{" ++ nl ++ bs "  " ++ quoted (bs "type") ++ bs ": " ++ quoted (bs "hnp-config") ++ bs "," ++ nl ++
  bs "  " ++ quoted (bs "name") ++ bs ": " ++ quoted (bs "horpkgruntime") ++ bs "," ++ nl ++
  bs "  " ++ quoted (bs "version") ++ bs ": " ++ quoted (bs "1.0") ++ bs "," ++ nl ++
  bs "  " ++ quoted (bs "install") ++ bs ": {" ++ nl ++ bs "    " ++ quoted (bs "links") ++ bs ": []" ++ nl ++
  bs "  }" ++ nl ++ bs "}" ++ nl.

(** A call on a file outside of the destination. *)
Definition other_call (w : world) : Z * world := on_disk (sysz (fun d => (0, d))) w.

(** apk_make_dirs: the error is the one of the last call. *)
Fixpoint make_dirs (fuel : nat) (dirname : bytes) (dirmode parentmode : Z) (d : disk) : Z * disk :=
  match fuel with
  | O => (- ENOENT, d)
  | S fuel =>
      let '(r, d) := sys_access dirname d in
      if r =? 0 then (0, d)
      else
        let '(r, d) := sys_mkdir dirname dirmode d in
        if r =? 0 then (0, d)
        else if negb (r =? - ENOENT) || (parentmode =? 0) then (r, d)
        else match apk_blob_rsplit dirname (chr "/") with
             | None => (r, d)
             | Some (parent, _) =>
                 if (zlen parent =? 0) || (PATH_MAX <=? zlen parent + 1) then (r, d)
                 else
                   let '(r, d) := make_dirs fuel parent parentmode parentmode d in
                   if r <? 0 then (r, d) else sys_mkdir dirname dirmode d
             end
  end.
Definition apk_make_dirs (dirname : bytes) (dirmode parentmode : Z) : disk -> Z * disk :=
  make_dirs (S (length dirname)) dirname dirmode parentmode.

(** The part of an absolute path below the destination, when it is there by its name. *)
Fixpoint below (root k : fname) : option fname :=
  match root, k with
  | [], _ => Some k
  | c :: root, x :: k => if bool_decide (c = x) then below root k else None
  | _ :: _, [] => None
  end.
Definition destination : fname := resolve (match ac_root with Some (c :: r) => c :: r | _ => bs "/" end).
Definition dest_path (path : bytes) : option bytes :=
  (fun k => foldr (fun c rest => c ++ match rest with [] => [] | _ => chr "/" :: rest end) [] k) <$> below destination (resolve path).

(** A directory of wrappers. *)
Definition shim_dirs (path : bytes) (w : world) : Z * world :=
  let '(r, w) := match dest_path path with
                 | Some p => on_disk (apk_make_dirs p 0x1ed 0x1ed) w
                 | None => other_call w
                 end in
  (if (r <? 0) && negb (r =? - EEXIST) then r else 0, w).

(** Whether stat finds the manifest. *)
Definition manifest_there (path : bytes) (w : world) : bool * world :=
  match dest_path path with
  | Some p => let '(r, w) := on_disk (sys_stat p) w in (match r with inl _ => false | inr _ => true end, w)
  | None => let '(r, w) := other_call w in (negb ((r <? 0) || bool_decide (w_abs w !! path = None)), w)
  end.

(** open with O_CREAT and O_TRUNC, and the text that is written. *)
Definition write_shim (path : bytes) (mode : Z) (text : bytes) (w : world) : Z * world :=
  match dest_path path with
  | Some p =>
      let '(r, w) := on_disk (sys_open_trunc p mode) w in
      match r with inl e => (e, w) | inr n => on_disk (sys_write_all n text) w end
  | None =>
      let '(r, w) := other_call w in
      if r <? 0 then (r, w)
      else
        let '(r, w) := other_call w in
        if r <? 0 then (r, set_abs (<[path := []]> (w_abs w)) w) else (0, set_abs (<[path := text]> (w_abs w)) w)
  end.

(** The wrapper is removed. *)
Definition unlink_shim (path : bytes) (w : world) : Z * world :=
  match dest_path path with
  | Some p => on_disk (sys_unlink p) w
  | None =>
      let '(r, w) := other_call w in
      if r <? 0 then (r, w)
      else if bool_decide (w_abs w !! path = None) then (- ENOENT, w) else (0, set_abs (delete path (w_abs w)) w)
  end.

Definition apk_shim_install (relative_path : bytes) (w : world) : Z * world :=
  if negb (is_shim_target relative_path) then (0, w)
  else
    let '(elf, w) := is_executable_elf relative_path w in
    if negb elf then (0, w)
    else match build_paths relative_path with
         | inl r => (r, w)
         | inr (stage_root, shim_path, real_path) =>
             let '(r, w) := shim_dirs stage_root w in
             if r <? 0 then (r, w)
             else if PATH_MAX <=? zlen (stage_root ++ bs "/bin") then (- ENAMETOOLONG, w)
             else
               let '(r, w) := shim_dirs (stage_root ++ bs "/bin") w in
               if r <? 0 then (r, w)
               else
                 let manifest := stage_root ++ bs "/hnp.json" in
                 if PATH_MAX <=? zlen manifest then (- ENAMETOOLONG, w)
                 else
                   let '(there, w) := manifest_there manifest w in
                   let w := if there then w else (write_shim manifest 0x1a4 hnp_json w).2 in
                   let '(r, w) := write_shim shim_path 0x1ed (shim_text real_path) w in
                   if negb (r =? 0) then (r, w) else (0, set_shim_dirty true w)
         end.

Definition apk_shim_remove (relative_path : bytes) (w : world) : Z * world :=
  match build_paths relative_path with
  | inl r => (r, w)
  | inr (_, shim_path, _) =>
      let '(r, w) := unlink_shim shim_path w in
      if (r <? 0) && negb (r =? - ENOENT) then (r, w) else (0, set_shim_dirty true w)
  end.

(** ** The state of a file *)

(** What the callers use of struct apk_file_info. *)
Record file_state := FileState { fs_digest_of : apk_digest; fs_ino : Z }.

(** apk_fileinfo_get with APK_FI_NOFOLLOW and APK_FI_DIGEST(hash_alg). *)
Definition apk_fileinfo_get (filename : bytes) (hash_alg : Z) (w : world) : Z * file_state * world :=
  let '(r, w) := on_disk (sys_lstat filename) w in
  match r with
  | inl r => (r, FileState digest_zero 0, w)
  | inr (ino, i) =>
      let fi := FileState digest_zero ino in
      if hash_alg =? APK_DIGEST_NONE then (0, fi, w)
      else if is_dir i then (0, fi, w)
      else if is_lnk i then
        if PATH_MAX <? zlen (in_data i) then (- ENOMEM, fi, w)
        else
          let '(r, w) := on_disk sys_read w in
          if r <? 0 then (r, fi, w)
          else (0, FileState (apk_digest_calc digest_zero hash_alg (in_data i)).2 ino, w)
      else
        let '(r, w) := on_disk (sys_open filename) w in
        if r <? 0 then (0, fi, w)
        else
          let '(r, w) := on_disk sys_read w in
          (r, FileState (digest_final hash_alg (if r <? 0 then [] else in_data i)) ino, w)
  end.

(** ** Files on the disk *)

(** struct apk_fsdir; [d_uvol] says which of the tables of operations [ops] points to. *)
Record apk_fsdir := Fsdir { d_uvol : bool; d_pb : apk_pathbuilder; d_pkgctx : blob }.

Definition fsys_dir_create (d : apk_fsdir) (mode uid gid : Z) (w : world) : Z * world :=
  let dirname := apk_pathbuilder_cstr (d_pb d) in
  let '(r, w) := on_disk (sys_mkdir dirname mode) w in
  if r <? 0 then (r, w)
  else if flag ac_extract_flags APK_FSEXTRACTF_NO_CHOWN then (0, w)
  else
    let '(r, w) := on_disk (sys_chown false dirname uid gid) w in
    (if r <? 0 then APK_EXTRACTW_OWNER else 0, w).

Definition fsys_dir_delete (d : apk_fsdir) (w : world) : Z * world := on_disk (sys_rmdir (apk_pathbuilder_cstr (d_pb d))) w.

Definition fsys_dir_check (d : apk_fsdir) (mode uid gid : Z) (w : world) : Z * world :=
  let '(r, w) := on_disk (sys_lstat (apk_pathbuilder_cstr (d_pb d))) w in
  match r with
  | inl r => (r, w)
  | inr (_, st) =>
      (if negb (in_mode st .& 0xfff =? mode .& 0xfff) || negb (in_uid st =? uid) || negb (in_gid st =? gid)
       then APK_FS_DIR_MODIFIED else 0, w)
  end.

Definition fsys_dir_update_perms (d : apk_fsdir) (mode uid gid : Z) (w : world) : Z * world :=
  let dirname := apk_pathbuilder_cstr (d_pb d) in
  let '(r, w) := on_disk (sys_chmod false dirname (mode .& 0xfff)) w in
  if r =? - ENOENT then (- ENOENT, w)
  else
    let ret := if r <? 0 then APK_EXTRACTW_PERMISSION else 0 in
    if flag ac_extract_flags APK_FSEXTRACTF_NO_CHOWN then (ret, w)
    else
      let '(r, w) := on_disk (sys_chown false dirname uid gid) w in
      (if r <? 0 then ret .| APK_EXTRACTW_OWNER else ret, w).

(** The temporary name of a file of a package: the C string in the buffer of TMPNAME_MAX bytes. *)
Definition format_tmpname (pkgctx dirname fullname : bytes) : option bytes :=
  let d := digest_final APK_DIGEST_SHA256 (pkgctx ++ fullname) in
  let b := wbuf_new TMPNAME_MAX in
  let b := apk_blob_push_blob b dirname in
  let b := if 0 <? zlen dirname then apk_blob_push_blob b (bs "/.apk.") else apk_blob_push_blob b (bs ".apk.") in
  let b := apk_blob_push_hexdump b (ztake 24 (d_data d)) in
  let b := apk_blob_push_blob b [0] in
  until_nul ∘ w_done <$> b.

Definition get_dirname (fullname : bytes) : bytes :=
  match apk_blob_rsplit fullname (chr "/") with Some (dir, _) => dir | None => [] end.

Definition is_system_xattr (name : bytes) : bool := negb (prefixb (bs "user.") name).

(** unlinkat before a file is made. *)
Definition clear_name (fi : apk_file_info) (fn : bytes) (w : world) : Z * world :=
  if negb (fi_mode fi .& S_IFMT =? S_IFDIR) && negb (flag ac_extract_flags APK_FSEXTRACTF_NO_OVERWRITE) then
    let '(r, w) := on_disk (sys_unlink fn) w in (if r =? - ENOENT then 0 else r, w)
  else (0, w).

(** The contents of a new file from a stream: the result, the stream, the world.  The descriptor refers to the inode that
    was made. *)
Definition write_file {S} `{IstreamOps S} (fi : apk_file_info) (fn : bytes) (st : apk_istream S) (w : world)
  : option (Z * apk_istream S * world) :=
  let n := dk_calls (w_disk w) in
  let ino := dk_next (w_disk w) in
  let '(r, w) := on_disk (sys_create fn (fi_mode fi .& 0xfff)) w in
  if r <? 0 then Some (r, st, w)
  else
    '(_, st, os, _) ← apk_stream_copy (Datatypes.S (Z.to_nat (fi_size fi))) st (Fos 0 (WFile [] (os_write n)) []) (fi_size fi);
    let '(close_r, w) := on_disk sys_read w in
    '(r, f) ← fdo_close os false close_r 0;
    let data := match f with Kept c => c | Renamed c => c | Unlinked => [] end in
    let w := set_disk (upd_inode ino (set_in_data data) (w_disk w)) w in
    if r <? 0 then let '(_, w) := on_disk (sys_unlink fn) w in Some (r, st, w) else Some (r, st, w).

Definition xattr_step (fn : bytes) (acc : Z * world) (x : apk_xattr) : Z * world :=
  let '(ret, w) := acc in
  if flag ac_extract_flags APK_FSEXTRACTF_NO_SYS_XATTRS && is_system_xattr (xa_name x) then (ret, w)
  else
    let '(r, w) := on_disk (sys_setxattr fn x) w in
    (if r <? 0 then ret .| APK_EXTRACTW_XATTR else ret, w).

(** Owner, mode, extended attributes and time of a file that was made. *)
Definition set_attributes (fi : apk_file_info) (fn : bytes) (w : world) : Z * world :=
  let lnk := fi_mode fi .& S_IFMT =? S_IFLNK in
  let '(ret, w) :=
    if negb (flag ac_extract_flags APK_FSEXTRACTF_NO_CHOWN) then
      let '(r, w) := on_disk (sys_chown lnk fn (fi_uid fi) (fi_gid fi)) w in
      let ret := if negb (r =? 0) then APK_EXTRACTW_OWNER else 0 in
      if negb (fi_mode fi .& 0xe00 =? 0) then
        let '(r, w) := on_disk (sys_chmod lnk fn (fi_mode fi)) w in
        (if negb (r =? 0) then ret .| APK_EXTRACTW_PERMISSION else ret, w)
      else (ret, w)
    else (0, w) in
  let '(ret, w) :=
    if negb lnk && negb (zlen (fi_xattrs fi) =? 0) then
      let '(r, w) := on_disk (sys_open fn) w in
      if r <? 0 then (ret .| APK_EXTRACTW_XATTR, w) else foldl (xattr_step fn) (ret, w) (fi_xattrs fi)
    else (ret, w) in
  if negb lnk then
    let '(r, w) := on_disk (sys_utimens false fn (fi_mtime fi)) w in
    (if negb (r =? 0) then ret .| APK_EXTRACTW_MTIME else ret, w)
  else (ret, w).

(** The switch on the kind of the file: a result below zero ends the extraction. *)
Definition make_file {S} `{IstreamOps S} (fi : apk_file_info) (fn : bytes) (pkgctx : blob) (st : apk_istream S) (w : world)
  : option (Z * apk_istream S * world) :=
  let ty := fi_mode fi .& S_IFMT in
  if ty =? S_IFDIR then
    let '(r, w) := on_disk (sys_mkdir fn (fi_mode fi .& 0xfff)) w in
    Some (if (r <? 0) && negb (r =? - EEXIST) then r else 0, st, w)
  else if ty =? S_IFREG then
    match fi_link_target fi with
    | None => write_file fi fn st w
    | Some link_target =>
        link_target ← match pkgctx with
                      | Some pkgctx => format_tmpname pkgctx (get_dirname link_target) link_target
                      | None => Some link_target
                      end;
        let '(r, w) := on_disk (sys_link link_target fn) w in Some (r, st, w)
    end
  else if ty =? S_IFLNK then
    link_target ← fi_link_target fi;
    let '(r, w) := on_disk (sys_symlink link_target fn) w in Some (r, st, w)
  else if (ty =? S_IFBLK) || (ty =? S_IFCHR) || (ty =? S_IFIFO) then
    if flag ac_extract_flags APK_FSEXTRACTF_NO_DEVICES then Some (- APKE_NOT_EXTRACTED, st, w)
    else let '(r, w) := on_disk (sys_mknod fn (fi_mode fi) (fi_device fi)) w in Some (r, st, w)
  else Some (0, st, w).

Definition fsys_file_extract {S} `{IstreamOps S} (fi : apk_file_info) (pkgctx : blob) (st : apk_istream S) (w : world)
  : option (Z * apk_istream S * world) :=
  fn ← match pkgctx with
       | Some pkgctx => format_tmpname pkgctx (get_dirname (fi_name fi)) (fi_name fi)
       | None => Some (fi_name fi)
       end;
  let '(r, w) := clear_name fi fn w in
  if negb (r =? 0) then Some (r, st, w)
  else
    '(r, st, w) ← make_file fi fn pkgctx st w;
    if r <? 0 then Some (r, st, w)
    else let '(ret, w) := set_attributes fi fn w in Some (ret, st, w).

(** The path of a file in the directory, which is the directory when it does not fit. *)
Definition file_pb (d : apk_fsdir) (filename : bytes) : apk_pathbuilder := (apk_pathbuilder_pushb (d_pb d) filename).1.

Definition fsys_file_control (d : apk_fsdir) (filename : bytes) (ctrl : Z) (w : world) : option (Z * world) :=
  let dirname := apk_pathbuilder_get (d_pb d) in
  let pb := file_pb d filename in
  let fn := apk_pathbuilder_cstr pb in
  let tmpname := format_tmpname (blob_data (d_pkgctx d)) dirname (apk_pathbuilder_get pb) in
  if ctrl =? APK_FS_CTRL_COMMIT then
    tmpname ← tmpname;
    let '(r, w) := on_disk (sys_rename tmpname fn) w in
    if r <? 0 then let '(_, w) := on_disk (sys_unlink tmpname) w in Some (r, w)
    else let '(shim_rc, w) := apk_shim_install fn w in Some (if shim_rc <? 0 then shim_rc else 0, w)
  else if ctrl =? APK_FS_CTRL_APKNEW then
    let rc := apk_fmt TMPNAME_MAX (fn ++ apknew_suffix) in
    if rc <? 0 then Some (rc, w)
    else
      tmpname ← tmpname;
      let '(r, w) := on_disk (sys_rename tmpname (fn ++ apknew_suffix)) w in
      Some (if r <? 0 then r else rc, w)
  else if ctrl =? APK_FS_CTRL_CANCEL then
    tmpname ← tmpname;
    Some (on_disk (sys_unlink tmpname) w)
  else if ctrl =? APK_FS_CTRL_DELETE then
    let '(r, w) := on_disk (sys_unlink fn) w in
    if r <? 0 then Some (r, w) else let '(_, w) := apk_shim_remove fn w in Some (0, w)
  else if ctrl =? APK_FS_CTRL_DELETE_APKNEW then
    let rc := apk_fmt TMPNAME_MAX (fn ++ apknew_suffix) in
    if rc <? 0 then Some (rc, w) else let '(_, w) := on_disk (sys_unlink (fn ++ apknew_suffix)) w in Some (rc, w)
  else Some (- ENOSYS, w).

Definition fsys_file_info (d : apk_fsdir) (filename : bytes) (hash_alg : Z) (w : world) : Z * file_state * world :=
  apk_fileinfo_get (apk_pathbuilder_cstr (file_pb d filename)) hash_alg w.

(** ** Volumes *)

(** The program is run with an action and arguments; what it reads of a stream is skipped by the reader of the archive otherwise. *)
Definition uvol_run (argv : list bytes) (w : world) : Z * world :=
  let w := set_uvol (w_uvol w ++ [argv]) w in
  (if uvol_result (w_uvol w) =? 0 then 0 else - APKE_UVOL_ERROR, w).

Definition uvol_file_extract (fi : apk_file_info) (pkgctx : blob) (w : world) : Z * world :=
  if ac_uvol <? 0 then (ac_uvol, w)
  else
    let uvol_name := match apk_blob_rsplit (fi_name fi) (chr "/") with Some (_, n) => n | None => fi_name fi end in
    let size := blob_data (w_done <$> apk_blob_push_uint (wbuf_new 64) (u64 (fi_size fi)) 10) in
    let '(r, w) := uvol_run [bs "create"; uvol_name; size; bs "ro"] w in
    if negb (r =? 0) then (r, w)
    else
      let '(r, w) := uvol_run [bs "write"; uvol_name; size] w in
      let '(r, w) := if (r =? 0) && APK_BLOB_IS_NULL pkgctx then uvol_run [bs "up"; uvol_name] w else (r, w) in
      if negb (r =? 0) then let '(_, w) := uvol_run [bs "remove"; uvol_name] w in (r, w) else (r, w).

Definition uvol_file_control (filename : bytes) (ctrl : Z) (w : world) : Z * world :=
  if ac_uvol <? 0 then (ac_uvol, w)
  else
    let uvol_name := apk_pathbuilder_cstr (apk_pathbuilder_setb (PB 0 uninit) filename).1 in
    if ctrl =? APK_FS_CTRL_COMMIT then uvol_run [bs "up"; uvol_name] w
    else if (ctrl =? APK_FS_CTRL_APKNEW) || (ctrl =? APK_FS_CTRL_CANCEL) || (ctrl =? APK_FS_CTRL_DELETE) then
      let '(r, w) := uvol_run [bs "down"; uvol_name] w in
      if negb (r =? 0) then (r, w) else uvol_run [bs "remove"; uvol_name] w
    else if ctrl =? APK_FS_CTRL_DELETE_APKNEW then (0, w)
    else (- APKE_UVOL_ERROR, w).

(** ** The operations of a directory *)

Definition apk_fsops_get (dir : bytes) : bool :=
  apk_blob_starts_with dir (bs "uvol") && ((zlen dir =? 4) || (znth 0 dir 4 =? chr "/")).

Definition apk_fsdir_get (dir : bytes) (pkgctx : blob) : apk_fsdir :=
  Fsdir (apk_fsops_get dir) (apk_pathbuilder_setb (PB 0 uninit) dir).1 pkgctx.

Definition apk_fsdir_priority (d : apk_fsdir) : Z := if d_uvol d then APK_FS_PRIO_UVOL else APK_FS_PRIO_DISK.
Definition apk_fsdir_create (d : apk_fsdir) (mode uid gid : Z) (w : world) : Z * world :=
  if d_uvol d then (0, w) else fsys_dir_create d mode uid gid w.
Definition apk_fsdir_delete (d : apk_fsdir) (w : world) : Z * world := if d_uvol d then (0, w) else fsys_dir_delete d w.
Definition apk_fsdir_check (d : apk_fsdir) (mode uid gid : Z) (w : world) : Z * world :=
  if d_uvol d then (0, w) else fsys_dir_check d mode uid gid w.
Definition apk_fsdir_update_perms (d : apk_fsdir) (mode uid gid : Z) (w : world) : Z * world :=
  if d_uvol d then (0, w) else fsys_dir_update_perms d mode uid gid w.
Definition apk_fsdir_file_control (d : apk_fsdir) (filename : bytes) (ctrl : Z) (w : world) : option (Z * world) :=
  if d_uvol d then Some (uvol_file_control filename ctrl w) else fsys_file_control d filename ctrl w.
Definition apk_fsdir_file_info (d : apk_fsdir) (filename : bytes) (hash_alg : Z) (w : world) : Z * file_state * world :=
  if d_uvol d then (- APKE_UVOL_ERROR, FileState digest_zero 0, w) else fsys_file_info d filename hash_alg w.

Definition need_checksum (fi : apk_file_info) : bool :=
  let ty := fi_mode fi .& S_IFMT in
  if (ty =? S_IFDIR) || (ty =? 0xc000) || (ty =? S_IFBLK) || (ty =? S_IFCHR) || (ty =? S_IFIFO) then false
  else match fi_link_target fi with Some _ => false | None => true end.

Definition apk_fs_extract {S} `{IstreamOps S} (fi : apk_file_info) (pkgctx : blob) (st : apk_istream S) (w : world)
  : option (Z * apk_istream S * world) :=
  if (d_alg (fi_digest fi) =? APK_DIGEST_NONE) && need_checksum fi then Some (- APKE_FORMAT_OBSOLETE, st, w)
  else if fi_mode fi .& S_IFMT =? S_IFDIR then
    let '(r, w) := apk_fsdir_create (apk_fsdir_get (fi_name fi) pkgctx) (fi_mode fi) (fi_uid fi) (fi_gid fi) w in Some (r, st, w)
  else if apk_fsops_get (ztake 5 (fi_name fi)) then
    let '(r, w) := uvol_file_extract fi pkgctx w in Some (r, st, w)
  else fsys_file_extract fi pkgctx st w.
End Fs.
