(* ===== verification/FsThm.v ===== *)
(** What the operations on files keep: a file under one name, with its contents.

    [kept K] is the relation between two disks in which the name [K] refers to the same inode, and the inode has the
    same type and contents; every system call and every operation of the back ends has it for the names that
    the call does not change, however it fails. *)
From Stdlib Require Import ZArith Lia Ascii String.
From stdpp Require Import base numbers list option gmap.
From S2P Require Import Prelude Clib Blob Codec Array Dep AdbTrust Stream Tar TarThm Disk FsDir.

(** ** Paths *)

Lemma components_slash cur p q : components cur (p ++ chr "/" :: q) = components cur p ++ components [] q.
Proof.
  revert cur. induction p as [|c p IH]; intros cur; cbn [components app].
  - by rewrite Z.eqb_refl.
  - destruct (c =? chr "/"); [|apply IH]. by rewrite IH.
Qed.

(** A slash at the front of nothing adds an empty component. *)
Lemma resolve_join p q : resolve (p ++ chr "/" :: q) = resolve_from (resolve p) q.
Proof. unfold resolve, resolve_from. by rewrite components_slash, foldl_app. Qed.

Definition no_slash (s : bytes) : Prop := Forall (fun c => c <> chr "/") s.

Lemma components_plain cur q : no_slash q -> components cur q = [rev cur ++ q].
Proof.
  revert cur. induction q as [|c q IH]; intros cur Hq; cbn [components].
  - by rewrite app_nil_r.
  - apply Forall_cons in Hq as [Hc Hq]. destruct (Z.eqb_spec c (chr "/")); [done|]. rewrite IH by done. cbn [rev].
    by rewrite <- app_assoc.
Qed.

(** The last component of a path with something after it. *)
Lemma components_suffix cur p q : no_slash q -> exists l c, components cur (p ++ q) = l ++ [c ++ q].
Proof.
  intros Hq. revert cur. induction p as [|x p IH]; intros cur; cbn [app components].
  - exists [], (rev cur). by rewrite components_plain.
  - destruct (x =? chr "/").
    + destruct (IH []) as (l & c & ->). by exists (rev cur :: l), c.
    + apply IH.
Qed.

(** Names that are neither empty nor dots. *)
Definition proper_name (c : bytes) : Prop := c <> [] /\ c <> bs "." /\ c <> bs "..".

Lemma enter_proper at_ c : proper_name c -> enter at_ c = at_ ++ [c].
Proof. intros (H1 & H2 & H3). unfold enter. by rewrite !bool_decide_eq_false_2 by done. Qed.

Lemma resolve_plain at_ q : no_slash q -> proper_name q -> resolve_from at_ q = at_ ++ [q].
Proof. intros Hs Hp. unfold resolve_from. rewrite components_plain by done. cbn. by apply enter_proper. Qed.

(** *** Where paths lead *)

Lemma walk_cons links d follow at_ c l :
  walk links d follow at_ (c :: l) =
    if bool_decide (c = []) || bool_decide (c = bs ".") then walk links d follow at_ l
    else if bool_decide (c = bs "..") then walk links d follow (removelast at_) l
    else
      let k := at_ ++ [c] in
      if bool_decide (l = []) && negb follow then inr k
      else match inode_at d k with
           | None => if bool_decide (l = []) then inr k else inl (- ENOENT)
           | Some i =>
               if is_lnk i then
                 match links with
                 | O => inl (- ELOOP)
                 | S links => walk links d follow (if List.hd 0 (in_data i) =? chr "/" then [] else at_) (components [] (in_data i) ++ l)
                 end
               else if bool_decide (l = []) then inr k
               else if is_dir i then walk links d follow k l
               else inl (- ENOTDIR)
           end.
Proof. by destruct links. Qed.

(** Whatever links are followed, the last component stays when the call does not follow it. *)
Lemma walk_last links d at_ l c k : proper_name c -> walk links d false at_ (l ++ [c]) = inr k -> exists dir, k = dir ++ [c].
Proof.
  intros (H1 & H2 & H3). revert at_ l k. induction links as [|links IH]; intros at_ l; revert at_; induction l as [|x l IHl]; intros at_ k.
  1, 3: rewrite app_nil_l, walk_cons, !bool_decide_eq_false_2, bool_decide_eq_true_2 by done; cbn; intros [= <-]; by exists at_.
  all: rewrite <- app_comm_cons, walk_cons; destruct (_ || _); [apply IHl|]; destruct (bool_decide (x = _)); [apply IHl|]; cbv zeta.
  all: rewrite (bool_decide_eq_false_2 (l ++ [c] = [])) by (by destruct l); cbn [andb]; destruct (inode_at d _) as [i|]; [|done].
  all: destruct (is_lnk i); [|destruct (is_dir i); [apply IHl|done]].
  - done.
  - rewrite app_assoc. apply IH.
Qed.

Lemma walk_ext links d d' follow at_ l : (forall k, inode_at d' k = inode_at d k) -> walk links d' follow at_ l = walk links d follow at_ l.
Proof.
  intros Hd. revert at_ l. induction links as [|links IH]; intros at_ l; revert at_; induction l as [|x l IHl]; intros at_; try done.
  all: rewrite !walk_cons, !IHl; cbv zeta; rewrite Hd, ?IH; destruct (inode_at d _) as [i|]; rewrite ?IHl; try done.
  destruct (is_lnk i); [|done]. by rewrite IH.
Qed.

(** A path whose last component is another one than the last of [K]. *)
Definition elsewhere (K : fname) (p : bytes) : Prop := exists l c, components [] p = l ++ [c] /\ proper_name c /\ forall dir, K <> dir ++ [c].

Lemma elsewhere_locate K p d : elsewhere K p -> locate d p <> inr K.
Proof. intros (l & c & Hp & Hc & HK) E. unfold locate in E. rewrite Hp in E. apply walk_last in E as [dir E]; [|done]. by apply (HK dir). Qed.

Lemma components_nonempty cur p : components cur p <> [].
Proof. revert cur. induction p as [|c p IH]; intros cur; cbn [components]; [done|]. destruct (c =? chr "/"); [done|apply IH]. Qed.

(** The same as a test. *)
Definition elsewhereb (K : fname) (p : bytes) : bool :=
  let c := List.last (components [] p) [] in
  negb (bool_decide (c = [])) && negb (bool_decide (c = bs ".")) && negb (bool_decide (c = bs "..")) && negb (bool_decide (List.last K [] = c)).

Lemma elsewhereb_ok K p : elsewhereb K p = true -> elsewhere K p.
Proof.
  unfold elsewhereb. rewrite !andb_true_iff, !negb_true_iff, !bool_decide_eq_false. intros [[[H1 H2] H3] H4].
  pose proof (components_nonempty [] p) as Hne.
  exists (removelast (components [] p)), (List.last (components [] p) []). split; [by apply app_removelast_last|]. split; [done|].
  intros dir ->. by rewrite last_last in H4.
Qed.

(** ** The relation *)

Definition disk_ok (d : disk) : Prop :=
  forall k n, dk_names d !! k = Some n -> n < dk_next d /\ is_Some (dk_inodes d !! n).

Record kept (K : fname) (d d' : disk) : Prop := {
  kept_ok : disk_ok d -> disk_ok d';
  kept_name : dk_names d' !! K = dk_names d !! K;
  kept_inode n i : disk_ok d -> dk_names d !! K = Some n -> dk_inodes d !! n = Some i ->
    exists i', dk_inodes d' !! n = Some i' /\ in_data i' = in_data i /\ in_type i' = in_type i;
}.

#[export] Instance kept_refl K : Reflexive (kept K).
Proof. intros d. split; eauto. Qed.

#[export] Instance kept_trans K : Transitive (kept K).
Proof.
  intros d1 d2 d3 [A1 A2 A3] [B1 B2 B3]. split; [auto|congruence|].
  intros n i Hok Hn Hi. destruct (A3 n i Hok Hn Hi) as (i1 & H1 & H2 & H3).
  destruct (B3 n i1) as (i2 & H4 & H5 & H6); [auto|congruence|done|]. exists i2. split; [done|]. split; congruence.
Qed.

(** What the clients need of a kept file. *)
Lemma kept_inode_at K d d' i : kept K d d' -> disk_ok d -> inode_at d K = Some i ->
  exists i', inode_at d' K = Some i' /\ in_data i' = in_data i /\ in_type i' = in_type i.
Proof.
  intros [_ Hn Hi] Hok. unfold inode_at. rewrite Hn. destruct (dk_names d !! K) as [n|] eqn:E; [|done]. cbn.
  intros Hd. by apply Hi.
Qed.

(** Changing an inode without its contents, adding and removing other names. *)
Lemma kept_upd K n f d : (forall i, in_data (f i) = in_data i /\ in_type (f i) = in_type i) -> kept K d (upd_inode n f d).
Proof.
  intros Hf. unfold upd_inode, set_inodes. split; unfold disk_ok; cbn [dk_names dk_inodes dk_next].
  - intros Hok k m Hm. destruct (Hok k m Hm) as [H1 [i Hi]]. split; [done|]. destruct (decide (m = n)) as [->|Hne].
    + rewrite lookup_alter_eq, Hi. by eexists.
    + rewrite lookup_alter_ne by done. by eexists.
  - done.
  - intros m i _ _ Hi. destruct (decide (m = n)) as [->|Hne].
    + rewrite lookup_alter_eq, Hi. cbn. eexists. split; [done|]. apply Hf.
    + rewrite lookup_alter_ne by done. eauto.
Qed.

Lemma kept_delete K k d : k <> K -> kept K d (set_names (delete k (dk_names d)) d).
Proof.
  intros Hk. split; unfold disk_ok; cbn [dk_names dk_inodes dk_next set_names new_inode].
  - intros Hok k' m Hm. apply lookup_delete_Some in Hm as [_ Hm]. by apply (Hok k').
  - by rewrite lookup_delete_ne.
  - eauto.
Qed.

Lemma kept_insert K k n d : k <> K -> (disk_ok d -> n < dk_next d /\ is_Some (dk_inodes d !! n)) ->
  kept K d (set_names (<[k := n]> (dk_names d)) d).
Proof.
  intros Hk Hn. split; unfold disk_ok; cbn [dk_names dk_inodes dk_next set_names new_inode].
  - intros Hok k' m Hm. apply lookup_insert_Some in Hm as [[_ <-]|[_ Hm]]; [by apply Hn|by apply (Hok k')].
  - by rewrite lookup_insert_ne.
  - eauto.
Qed.

Lemma kept_new K k i d : k <> K -> kept K d (new_inode k i d).
Proof.
  intros Hk. split; unfold disk_ok; cbn [dk_names dk_inodes dk_next set_names new_inode].
  - intros Hok k' m Hm. apply lookup_insert_Some in Hm as [[_ <-]|[_ Hm]].
    + split; [lia|]. rewrite lookup_insert_eq. by eexists.
    + destruct (Hok k' m Hm) as [H1 H2]. split; [lia|]. by rewrite lookup_insert_ne by lia.
  - by rewrite lookup_insert_ne.
  - intros n j Hok Hn Hj. destruct (Hok K n Hn). rewrite lookup_insert_ne by lia. eauto.
Qed.

Lemma set_in_mode_type m i : in_type (set_in_mode m i) = in_type i.
Proof.
  unfold in_type at 1, set_in_mode. cbn. unfold in_type, S_IFMT. apply Z.bits_inj'. intros n Hn.
  rewrite !Z.land_spec, Z.lor_spec, !Z.land_spec. change 0xf000 with (Z.shiftl 15 12). change 0xfff with (Z.ones 12).
  rewrite Z.shiftl_spec by done. destruct (Z.testbit (in_mode i) n); cbn; rewrite ?andb_true_r, ?andb_false_r; cbn.
  - destruct (Z.testbit 15 (n - 12)) eqn:E; cbn; [done|]. by rewrite andb_false_r.
  - destruct (Z.testbit 15 (n - 12)) eqn:E; [|by rewrite andb_false_r].
    rewrite Z.testbit_ones_nonneg by lia. destruct (Z.ltb_spec n 12); [|by rewrite andb_false_r].
    rewrite Z.testbit_neg_r in E by lia. done.
Qed.

Lemma set_in_owner_type u g i : in_type (set_in_owner u g i) = in_type i.
Proof.
  unfold set_in_owner, in_type. cbn. destruct (is_dir i); [done|]. by rewrite <- Z.land_assoc.
Qed.

(** Two disks with the same files. *)
Lemma locate_ext d d' p : (forall k, inode_at d' k = inode_at d k) -> locate d' p = locate d p.
Proof. apply walk_ext. Qed.
(** Comparing two walks by computing them would take too long. *)
#[global] Opaque locate locate_follow.

(** ** System calls *)

Section calls.
Context {OS : Os} (K : fname).

(** The count of calls is no part of what a call sees. *)
Definition counted (d : disk) : disk := Disk (dk_names d) (dk_inodes d) (dk_next d) (S (dk_calls d)).

Lemma locate_counted d p : locate (counted d) p = locate d p.
Proof. by apply locate_ext. Qed.

Lemma kept_sys_at {A} fail (f : disk -> A * disk) d : kept K (counted d) (f (counted d)).2 -> kept K d (sys fail f d).2.
Proof.
  intros Hf. unfold sys. fold (counted d). assert (H0 : kept K d (counted d)) by (split; eauto). destruct (0 <? _); [done|]. by etrans.
Qed.
Lemma kept_sys {A} fail (f : disk -> A * disk) d : (forall d, kept K d (f d).2) -> kept K d (sys fail f d).2.
Proof. intros Hf. apply kept_sys_at, Hf. Qed.

Lemma kept_with_inode nofollow p f d : (forall n d, kept K d (f n d).2) -> kept K d (with_inode nofollow p f d).2.
Proof. intros Hf. unfold with_inode. destruct (at_inode _ _ _); [done|apply Hf]. Qed.
Lemma kept_with_name p f d : (forall k, locate d p = inr k -> kept K d (f k d).2) -> kept K d (with_name p f d).2.
Proof. intros Hf. unfold with_name. destruct (locate d p); [done|by apply Hf]. Qed.

Lemma kept_stat nofollow p d : kept K d (stat_inode nofollow p d).2.
Proof. apply kept_sys. intros d'. by destruct (at_inode _ _ _). Qed.
Lemma kept_lstat p d : kept K d (sys_lstat p d).2.
Proof. apply kept_stat. Qed.

Lemma kept_make p mode rdev data d : locate d p <> inr K -> kept K d (sys_make p mode rdev data d).2.
Proof.
  intros Hp. apply kept_sys_at, kept_with_name. intros k Hk. rewrite locate_counted in Hk. case_bool_decide; [done|]. destruct (dk_names _ !! k); [done|].
  apply kept_new. congruence.
Qed.

(** Making a file where there is one fails. *)
Lemma kept_make_there p mode rdev data d : is_Some (dk_names d !! K) -> kept K d (sys_make p mode rdev data d).2.
Proof.
  intros [n Hn]. apply kept_sys_at, kept_with_name. intros k Hk. case_bool_decide; [done|]. destruct (dk_names _ !! k) eqn:E; [done|]. apply kept_new.
  intros ->. cbn in E. congruence.
Qed.

Lemma kept_unlink p d : locate d p <> inr K -> kept K d (sys_unlink p d).2.
Proof.
  intros Hp. apply kept_sys_at, kept_with_name. intros k Hk. rewrite locate_counted in Hk. destruct (inode_at _ k); [|done]. destruct (is_dir _); [done|].
  apply kept_delete. congruence.
Qed.

(** Directories: the name is not the one of a file. *)
Lemma kept_rmdir p d : (exists i, inode_at d K = Some i /\ is_dir i = false) -> kept K d (sys_rmdir p d).2.
Proof.
  intros (i & Hi & Hd). apply kept_sys_at, kept_with_name. intros k Hk. case_bool_decide; [done|]. destruct (inode_at _ k) as [j|] eqn:E; [|done].
  destruct (is_dir j) eqn:Ej; [|done]. cbn [negb]. destruct (has_children _ _); [done|].
  apply kept_delete. intros ->. change (inode_at (counted d) K) with (inode_at d K) in E. congruence.
Qed.

Lemma kept_link p q d : locate d q <> inr K -> kept K d (sys_link p q d).2.
Proof.
  intros Hq. apply kept_sys_at, kept_with_name. intros k Hk. destruct (dk_names _ !! k) as [n|] eqn:E; [|done].
  apply kept_with_name. intros k' Hk'. rewrite locate_counted in Hk'. case_bool_decide; [done|]. destruct (dk_names _ !! k'); [done|]. destruct (default _ _); [done|].
  apply kept_insert; [congruence|]. intros Hok. by apply (Hok _ _ E).
Qed.

Lemma kept_rename p q d : locate d p <> inr K -> locate d q <> inr K -> kept K d (sys_rename p q d).2.
Proof.
  intros Hp Hq. apply kept_sys_at, kept_with_name. intros old Ho. apply kept_with_name. intros new Hnew. rewrite locate_counted in Ho, Hnew.
  cbv zeta. set (d' := counted d) in *.
  destruct (dk_names d' !! old) as [n|] eqn:E; [|done]. destruct (_ || _); [done|].
  assert (Ho' : old <> K) by congruence. assert (Hn' : new <> K) by congruence.
  assert (Hm : kept K d' (set_names (<[new := n]> (delete old (dk_names d'))) d')).
  { etrans; [by apply (kept_insert K new n); [|intros Hok; apply (Hok _ _ E)]|].
    split; cbn; unfold disk_ok; cbn.
    - intros Hok k m Hm. apply (Hok k). rewrite lookup_insert_Some in Hm |- *. destruct Hm as [?|[H1 H2]]; [by left|right].
      split; [done|]. by apply lookup_delete_Some in H2 as [_ ?].
    - rewrite !lookup_insert_ne by done. by rewrite lookup_delete_ne.
    - eauto. }
  destruct (dk_names d' !! new); [|exact Hm]. destruct (default _ _); [done|]. destruct (_ =? _); [done|exact Hm].
Qed.

Lemma kept_chmod nofollow p m d : kept K d (sys_chmod nofollow p m d).2.
Proof.
  apply kept_sys. intros d'. apply kept_with_inode. intros n e. destruct (default _ _); [done|]. apply kept_upd.
  intros i. split; [done|apply set_in_mode_type].
Qed.
Lemma kept_chown nofollow p u g d : kept K d (sys_chown nofollow p u g d).2.
Proof. apply kept_sys. intros d'. apply kept_with_inode. intros n e. apply kept_upd. intros i. split; [done|apply set_in_owner_type]. Qed.
Lemma kept_setxattr p x d : kept K d (sys_setxattr p x d).2.
Proof. apply kept_sys. intros d'. apply kept_with_inode. intros n e. by apply kept_upd. Qed.
Lemma kept_utimens nofollow p t d : kept K d (sys_utimens nofollow p t d).2.
Proof. apply kept_sys. intros d'. apply kept_with_inode. intros n e. by apply kept_upd. Qed.
Lemma kept_open p d : kept K d (sys_open p d).2.
Proof. apply kept_sys. intros d'. by apply kept_with_inode. Qed.
Lemma kept_read d : kept K d (sys_read d).2.
Proof. by apply kept_sys. Qed.
Lemma kept_access p d : kept K d (sys_access p d).2.
Proof. apply kept_sys. intros d'. by apply kept_with_inode. Qed.
End calls.

Create HintDb kept.
#[export] Hint Resolve kept_stat kept_lstat kept_make kept_unlink kept_link kept_rename kept_chmod kept_chown kept_setxattr kept_utimens kept_open
  kept_read : kept.

(** ** The back ends *)

(** A file that is not a directory. *)
Definition is_file (K : fname) (d : disk) : Prop := exists i, inode_at d K = Some i /\ is_dir i = false.

(** The file [K] keeps its inode, type and contents. *)
Definition safe (K : fname) (w w' : world) : Prop :=
  disk_ok (w_disk w) -> is_file K (w_disk w) -> kept K (w_disk w) (w_disk w').

Lemma kept_is_file K d d' : kept K d d' -> disk_ok d -> is_file K d -> is_file K d'.
Proof.
  intros Hk Hok (i & Hi & Hd). destruct (kept_inode_at K d d' i Hk Hok Hi) as (i' & Hi' & _ & Ht). exists i'. split; [done|].
  unfold is_dir in *. by rewrite Ht.
Qed.

#[export] Instance safe_refl K : Reflexive (safe K).
Proof. by intros w _ _. Qed.
#[export] Instance safe_trans K : Transitive (safe K).
Proof.
  intros w1 w2 w3 H1 H2 Hok Hf. pose proof (H1 Hok Hf) as Hk. etrans; [exact Hk|]. apply H2; [by apply Hk|by eapply kept_is_file].
Qed.

(** Names that belong to the user: no temporary names, no new versions of files. *)
Definition user_name (K : fname) : Prop :=
  forall k c, K = k ++ [c] -> ~ (exists h, c = bs ".apk." ++ h) /\ ~ (exists h, c = h ++ apknew_suffix).

Lemma user_name_tmp K k h : user_name K -> k ++ [bs ".apk." ++ h] <> K.
Proof. intros HK E. destruct (HK k _ (eq_sym E)) as [H _]. apply H. by exists h. Qed.
Lemma user_name_new K k h : user_name K -> k ++ [h ++ apknew_suffix] <> K.
Proof. intros HK E. destruct (HK k _ (eq_sym E)) as [_ H]. apply H. by exists h. Qed.

Lemma until_nul_prefix l : exists r, l = until_nul l ++ r.
Proof. induction l as [|x l (r & E)]; [by exists []|]. cbn. destruct (x =? 0); [by exists (x :: l)|]. exists r. cbn. by f_equal. Qed.

Lemma until_nul_join s r : no_nul s -> until_nul (s ++ r) = s ++ until_nul r.
Proof. induction 1 as [|x s Hx _ IH]; [done|]. cbn. destruct (Z.eqb_spec x 0); [done|]. by rewrite IH. Qed.

Lemma xd_no_slash i : xd_at i <> chr "/".
Proof.
  unfold xd_at, znth. assert (H : Forall (fun c => c <> chr "/") (0 :: xd)) by (repeat (constructor; [by vm_compute|]); constructor).
  apply Forall_cons in H as [H0 H]. destruct (i <? 0); [done|]. destruct (nth_in_or_default (Z.to_nat i) xd 0) as [Hin| ->]; [|done].
  rewrite List.Forall_forall in H. by apply H.
Qed.

Lemma hexdump_no_slash l : no_slash (hexdump l).
Proof.
  unfold hexdump. induction l as [|x l IH]; [by constructor|]. cbn. repeat (constructor; [apply xd_no_slash|]). exact IH.
Qed.

(** Steps through calls: the result of each call becomes a variable, and its obligation is left first. *)
Ltac sstep :=
  match goal with
  | |- safe _ _ (snd (_, _)) => solve [intros _ _; reflexivity]
  | |- safe ?K ?w0 (snd (match ?e with pair _ _ => _ end)) =>
      let H := fresh "Hs" in
      assert (H : safe K w0 (snd e)); [|destruct e as [? ?]; cbn [snd] in H; etrans; [exact H|]; clear H]
  | |- safe _ _ (snd (if ?b then _ else _)) => destruct b
  end.
Ltac ssteps := repeat (sstep; try (by auto with kept)).

Section backends.
Context {OS : Os} {FC : FsCtx} {pkey : Type} {CR : Crypto pkey} (K : fname).

(** The last component of a temporary name starts with the mark. *)
Lemma tmpname_last pkgctx dirname fullname fn :
  format_tmpname pkgctx dirname fullname = Some fn -> no_nul dirname ->
  exists l h, components [] fn = l ++ [bs ".apk." ++ h] /\ proper_name (bs ".apk." ++ h).
Proof.
  unfold format_tmpname. set (hex := ztake 24 _). rewrite (hexdump_appends hex). intros E Hn.
  set (mid := if 0 <? zlen dirname then bs "/.apk." else bs ".apk.") in *.
  assert (E1 : exists b, apk_blob_push_blob (wbuf_new TMPNAME_MAX) (dirname ++ mid ++ hexdump hex ++ [0]) = Some b /\ fn = until_nul (w_done b)).
  { unfold mid. destruct (0 <? zlen dirname); rewrite !apk_blob_push_app, <- ?app_assoc in E;
      destruct (apk_blob_push_blob _ _) as [b|]; try done; cbn in E; injection E as <-; by exists b. }
  clear E. destruct E1 as (b & E & ->). cbn in E. destruct (_ <? _) in E; [done|]. injection E as <-. cbn [w_done app].
  rewrite until_nul_join by done.
  assert (Hmid : until_nul (mid ++ hexdump hex ++ [0]) = mid ++ until_nul (hexdump hex ++ [0])).
  { apply until_nul_join. unfold mid. destruct (0 <? _); repeat (constructor; [by vm_compute|]); constructor. }
  rewrite Hmid. set (h := until_nul _).
  assert (Hh : no_slash (bs ".apk." ++ h)).
  { apply Forall_app. split; [repeat (constructor; [by vm_compute|]); constructor|]. destruct (until_nul_prefix (hexdump hex ++ [0])) as [r Hr].
    fold h in Hr. assert (Hall : no_slash (hexdump hex ++ [0])) by (apply Forall_app; split; [apply hexdump_no_slash|by repeat constructor]).
    rewrite Hr in Hall. by apply Forall_app in Hall as [? _]. }
  assert (Hp : proper_name (bs ".apk." ++ h)) by (repeat split; done).
  unfold mid. destruct (Z.ltb_spec 0 (zlen dirname)) as [Hl|Hl].
  - change (bs "/.apk." ++ h) with (chr "/" :: bs ".apk." ++ h). rewrite components_slash, (components_plain [] (bs ".apk." ++ h)) by done. eexists _, h. by split.
  - assert (dirname = []) as -> by (destruct dirname; [done|]; rewrite zlen_cons in Hl; pose proof (zlen_nonneg dirname); lia).
    rewrite app_nil_l, components_plain by done. exists [], h. by split.
Qed.

Lemma tmpname_elsewhere pkgctx dirname fullname fn :
  user_name K -> format_tmpname pkgctx dirname fullname = Some fn -> no_nul dirname -> elsewhere K fn.
Proof.
  intros HK E Hn. destruct (tmpname_last _ _ _ _ E Hn) as (l & h & Hc & Hp). exists l, (bs ".apk." ++ h). split; [done|]. split; [done|].
  intros dir HK'. by apply (user_name_tmp K dir h).
Qed.

Lemma apknew_elsewhere fn : user_name K -> elsewhere K (fn ++ apknew_suffix).
Proof.
  intros HK. destruct (components_suffix [] fn apknew_suffix) as (l & c & E); [repeat (constructor; [by vm_compute|]); constructor|].
  exists l, (c ++ apknew_suffix). split; [done|]. split; [|intros dir HK'; by apply (user_name_new K dir c)].
  assert (Hl : 3 <= zlen (c ++ apknew_suffix)) by (rewrite zlen_app; pose proof (zlen_nonneg c); change (zlen apknew_suffix) with 8; lia).
  repeat split; intros Heq; rewrite Heq in Hl; by vm_compute in Hl.
Qed.

Lemma safe_disk {A} (f : disk -> A * disk) w : kept K (w_disk w) (f (w_disk w)).2 -> safe K w (on_disk f w).2.
Proof. intros Hk _ _. unfold on_disk. by destruct (f (w_disk w)). Qed.

Lemma safe_disk_fst {A} (f : disk -> A * disk) w r w' : kept K (w_disk w) (f (w_disk w)).2 -> on_disk f w = (r, w') -> safe K w w'.
Proof. intros Hk E. apply (safe_disk f) in Hk. by rewrite E in Hk. Qed.

#[local] Hint Resolve safe_disk : kept.

(** Calls that never change a name. *)
Lemma safe_other w : safe K w (other_call w).2.
Proof. apply safe_disk. by apply kept_sys. Qed.
#[local] Hint Resolve safe_other : kept.

Lemma safe_elf p w : safe K w (is_executable_elf p w).2.
Proof.
  unfold is_executable_elf. sstep; [auto with kept|]. destruct s as [|[? i]]; [done|]. ssteps.
Qed.
#[local] Hint Resolve safe_elf : kept.

(** *** Wrappers outside of the destination *)

Lemma below_app root k x : below root k = None -> below k root = None -> below root (k ++ x) = None.
Proof.
  revert k. induction root as [|c root IH]; intros k; [done|]. destruct k as [|y k]; [done|]. cbn [below app].
  case_bool_decide as E; [|done]. rewrite (bool_decide_eq_true_2 (y = c)) by done. apply IH.
Qed.

(** The directory of the wrappers is not below the destination, and the destination not below it. *)
Definition shims_outside : Prop :=
  forall prefix, get_hpkg_prefix PATH_MAX = inr prefix ->
    let stage := resolve (prefix ++ bs "/temp/horpkgruntime") in below destination stage = None /\ below stage destination = None.
Hypothesis outside : shims_outside.

Lemma rsplit_basename p : no_slash (match apk_blob_rsplit p (chr "/") with Some (_, b) => b | None => p end).
Proof.
  destruct (apk_blob_rsplit p (chr "/")) as [[a b]|] eqn:E; [by apply apk_blob_rsplit_some in E as [_ ?]|].
  unfold apk_blob_rsplit in E. destruct (memrchr p (chr "/")) eqn:Em; [done|]. by apply memrchr_none in Em.
Qed.

(** The paths that are used for a file. *)
Lemma shim_paths_outside p stage shim real :
  build_paths p = inr (stage, shim, real) ->
  dest_path stage = None /\ dest_path (stage ++ bs "/bin") = None /\ dest_path (stage ++ bs "/hnp.json") = None /\ dest_path shim = None.
Proof.
  unfold build_paths. pose proof (rsplit_basename p) as Hb. set (base := match apk_blob_rsplit p _ with Some _ => _ | None => _ end) in *. clearbody base.
  destruct (_ || _); [done|]. destruct (get_hpkg_prefix PATH_MAX) as [|prefix] eqn:Ep; [done|]. destruct (outside prefix Ep) as [O1 O2].
  repeat (destruct (_ <=? _); [done|]). intros [= <- <- _]. set (st := prefix ++ _) in *.
  assert (Hx : forall x, below destination (resolve st ++ x) = None) by (intros x; by apply below_app).
  assert (Hbin : resolve (st ++ bs "/bin") = resolve st ++ [bs "bin"]).
  { change (bs "/bin") with (chr "/" :: bs "bin"). rewrite resolve_join. apply resolve_plain; [repeat (constructor; [by vm_compute|]); constructor|by repeat split]. }
  unfold dest_path. rewrite O1, Hbin, Hx. split; [done|]. split; [done|]. split.
  - change (bs "/hnp.json") with (chr "/" :: bs "hnp.json"). rewrite resolve_join, resolve_plain, Hx; [done| |by repeat split].
    repeat (constructor; [by vm_compute|]); constructor.
  - assert (Hr : resolve (st ++ bs "/bin/" ++ base) = enter (resolve st ++ [bs "bin"]) base).
    { change (bs "/bin/" ++ base) with (bs "/bin" ++ chr "/" :: base). rewrite app_assoc, resolve_join, Hbin. unfold resolve_from. by rewrite components_plain. }
    match goal with |- context [resolve ?x] => change x with (st ++ bs "/bin/" ++ base) end. rewrite Hr. unfold enter. destruct (_ || _); [by rewrite Hx|]. destruct (bool_decide _); [|by rewrite <- app_assoc, Hx].
    rewrite removelast_last. by rewrite O1.
Qed.

Lemma safe_shim_dirs p w : dest_path p = None -> safe K w (shim_dirs p w).2.
Proof. intros Hp. unfold shim_dirs. rewrite Hp. ssteps. Qed.
Lemma safe_manifest p w : dest_path p = None -> safe K w (manifest_there p w).2.
Proof. intros Hp. unfold manifest_there. rewrite Hp. ssteps. Qed.
Lemma safe_write_shim p m t w : dest_path p = None -> safe K w (write_shim p m t w).2.
Proof. intros Hp. unfold write_shim. rewrite Hp. ssteps. Qed.
Lemma safe_unlink_shim p w : dest_path p = None -> safe K w (unlink_shim p w).2.
Proof. intros Hp. unfold unlink_shim. rewrite Hp. ssteps. Qed.
#[local] Hint Resolve safe_shim_dirs safe_manifest safe_write_shim safe_unlink_shim : kept.

Lemma safe_shim_install p w : safe K w (apk_shim_install p w).2.
Proof.
  unfold apk_shim_install. ssteps. destruct (build_paths p) as [|[[stage shim] real]] eqn:E; [done|].
  apply shim_paths_outside in E as (H1 & H2 & H3 & H4). ssteps.
  match goal with |- safe _ ?w0 (write_shim _ _ _ (if ?there then _ else _)).2 =>
    destruct there; [by apply safe_write_shim|transitivity (write_shim (stage ++ bs "/hnp.json") 0x1a4 hnp_json w0).2; by apply safe_write_shim] end.
Qed.
Lemma safe_shim_remove p w : safe K w (apk_shim_remove p w).2.
Proof.
  unfold apk_shim_remove. destruct (build_paths p) as [|[[stage shim] real]] eqn:E; [done|].
  apply shim_paths_outside in E as (H1 & H2 & H3 & H4). ssteps.
Qed.
#[local] Hint Resolve safe_shim_install safe_shim_remove : kept.

Lemma safe_fileinfo p alg w : safe K w (apk_fileinfo_get p alg w).2.
Proof.
  unfold apk_fileinfo_get. sstep; [auto with kept|]. destruct s as [|[ino i]]; [done|]. ssteps.
Qed.
#[local] Hint Resolve safe_fileinfo : kept.

Lemma safe_dir_update_perms d m u g w : safe K w (apk_fsdir_update_perms d m u g w).2.
Proof. unfold apk_fsdir_update_perms, fsys_dir_update_perms. ssteps. Qed.
Lemma safe_dir_check d m u g w : safe K w (apk_fsdir_check d m u g w).2.
Proof. unfold apk_fsdir_check, fsys_dir_check. ssteps. by destruct s as [|[? ?]]. Qed.

(** Directories are made where nothing is, and removed where no file is. *)
Lemma safe_dir_create d m u g w : safe K w (apk_fsdir_create d m u g w).2.
Proof.
  unfold apk_fsdir_create, fsys_dir_create. ssteps.
  intros _ (i & Hi & _). unfold on_disk. match goal with |- context [sys_mkdir ?a ?b ?c] => pose proof (kept_make_there K a (S_IFDIR .| (b .& 0xfff)) 0 [] c) as Hk end.
  unfold sys_mkdir. destruct (sys_make _ _ _ _ _). apply Hk. unfold inode_at in Hi. destruct (dk_names _ !! K); [by eexists|done].
Qed.
Lemma safe_dir_delete d w : safe K w (apk_fsdir_delete d w).2.
Proof.
  unfold apk_fsdir_delete, fsys_dir_delete. ssteps. intros Hok Hf. unfold on_disk.
  pose proof (kept_rmdir K (apk_pathbuilder_cstr (d_pb d)) (w_disk w) Hf) as Hk. by destruct (sys_rmdir _ _).
Qed.
#[local] Hint Resolve safe_dir_update_perms safe_dir_check safe_dir_create safe_dir_delete : kept.

(** *** Extracting *)

Lemma kept_other_inode n f d : dk_names d !! K <> Some n -> kept K d (upd_inode n f d).
Proof.
  intros HK. unfold upd_inode, set_inodes. split; unfold disk_ok; cbn [dk_names dk_inodes dk_next].
  - intros Hok k m Hm. destruct (Hok k m Hm) as [H1 [i Hi]]. split; [done|]. destruct (decide (m = n)) as [->|Hne].
    + rewrite lookup_alter_eq, Hi. by eexists.
    + rewrite lookup_alter_ne by done. by eexists.
  - done.
  - intros m i _ Hm Hi. rewrite lookup_alter_ne by congruence. eauto.
Qed.

Lemma safe_write_file {S} `{IstreamOps S} fi fn (st : apk_istream S) w r st' w' :
  elsewhere K fn -> write_file fi fn st w = Some (r, st', w') -> safe K w w'.
Proof.
  intros Hfn. pose proof (fun d => elsewhere_locate K fn d Hfn) as Hl. unfold write_file. set (ino := dk_next (w_disk w)).
  destruct (on_disk (sys_create fn _) w) as [r1 w1] eqn:E1.
  pose proof (safe_disk_fst _ _ _ _ (kept_make K fn _ _ _ _ (Hl _)) E1) as H1. destruct (r1 <? 0); [by intros [= _ _ <-]|].
  destruct (apk_stream_copy _ _ _ _) as [[[[? st1] os] ?]|]; [|done]. cbn [mbind option_bind].
  destruct (on_disk sys_read w1) as [cr w2] eqn:E2. destruct (fdo_close os false cr 0) as [[rc f]|]; [|done]. cbn [mbind option_bind].
  set (data := match f with Kept c => c | Renamed c => c | Unlinked => [] end). set (w3 := set_disk _ w2).
  assert (H3 : safe K w w3).
  { assert (H2 : safe K w w2) by (etrans; [exact H1|]; apply (safe_disk_fst _ _ _ _ (kept_read K (w_disk w1)) E2)).
    intros Hok Hf. pose proof (H2 Hok Hf) as Hk. etrans; [exact Hk|]. apply kept_other_inode. rewrite (kept_name K _ _ Hk).
    intros HK. destruct (Hok _ _ HK). unfold ino in *. lia. }
  destruct (rc <? 0); [|by intros [= _ _ <-]]. destruct (on_disk (sys_unlink fn) w3) as [r4 w4] eqn:E4. intros [= _ _ <-].
  etrans; [exact H3|]. apply (safe_disk_fst _ _ _ _ (kept_unlink K fn _ (Hl _)) E4).
Qed.

Lemma safe_set_attributes fi fn w : safe K w (set_attributes fi fn w).2.
Proof.
  assert (Hx : forall l acc, safe K acc.2 (foldl (xattr_step fn) acc l).2).
  { induction l as [|x l IH]; intros acc; [done|]. cbn [foldl]. etrans; [|apply IH]. destruct acc as [ret w0]. unfold xattr_step. ssteps. }
  unfold set_attributes. ssteps. apply (Hx _ (_, _)).
Qed.

Lemma safe_file_extract {S} `{IstreamOps S} fi pkgctx (st : apk_istream S) w r st' w' :
  user_name K -> no_nul (fi_name fi) -> fsys_file_extract fi (Some pkgctx) st w = Some (r, st', w') -> safe K w w'.
Proof.
  intros HK Hn. unfold fsys_file_extract. destruct (format_tmpname _ _ _) as [fn|] eqn:Efn; [|done]. cbn [mbind option_bind].
  assert (Hel : elsewhere K fn).
  { apply (tmpname_elsewhere _ _ _ _ HK Efn). unfold get_dirname. destruct (apk_blob_rsplit _ _) as [[a b]|] eqn:E; [|by constructor].
    apply apk_blob_rsplit_some in E as [E _]. rewrite E in Hn. by apply Forall_app in Hn as [? _]. }
  pose proof (fun d => elsewhere_locate K fn d Hel) as Hfn.
  assert (Hc : safe K w (clear_name fi fn w).2) by (unfold clear_name; ssteps).
  destruct (clear_name fi fn w) as [r1 w1]. destruct (negb _); [by intros [= _ _ <-]|].
  destruct (make_file fi fn (Some pkgctx) st w1) as [[[r2 st2] w2]|] eqn:E; [|done]. cbn [mbind option_bind].
  assert (Hm : safe K w1 w2).
  { revert E. unfold make_file. destruct (_ =? S_IFDIR).
    { destruct (on_disk _ w1) as [r3 w3] eqn:E. intros [= _ _ <-]. apply (safe_disk_fst _ _ _ _ (kept_make K fn _ _ _ _ (Hfn _)) E). }
    destruct (_ =? S_IFREG).
    { clear Efn. destruct (fi_link_target fi) as [t|]; [|by apply safe_write_file]. cbv iota. destruct (format_tmpname _ _ _) as [t'|]; [|done]. cbn [mbind option_bind].
      destruct (on_disk _ w1) as [r3 w3] eqn:E. intros [= _ _ <-]. apply (safe_disk_fst _ _ _ _ (kept_link K t' fn _ (Hfn _)) E). }
    destruct (_ =? S_IFLNK).
    { destruct (fi_link_target fi) as [t|]; [|done]. cbn [mbind option_bind].
      destruct (on_disk _ w1) as [r3 w3] eqn:E. intros [= _ _ <-]. apply (safe_disk_fst _ _ _ _ (kept_make K fn _ _ _ _ (Hfn _)) E). }
    destruct (_ || _); [|by intros [= _ _ <-]]. destruct (flag _ _); [by intros [= _ _ <-]|].
    destruct (on_disk _ w1) as [r3 w3] eqn:E. intros [= _ _ <-]. apply (safe_disk_fst _ _ _ _ (kept_make K fn _ _ _ _ (Hfn _)) E). }
  destruct (r2 <? 0); [intros [= _ _ <-]; by etrans|]. pose proof (safe_set_attributes fi fn w2) as Ha.
  destruct (set_attributes fi fn w2) as [ret w3]. intros [= _ _ <-]. etrans; [exact Hc|]. by etrans.
Qed.

Lemma safe_uvol_run argv w : safe K w (uvol_run argv w).2.
Proof. unfold uvol_run. by intros _ _. Qed.
#[local] Hint Resolve safe_uvol_run : kept.

Lemma safe_fs_extract {S} `{IstreamOps S} fi pkgctx (st : apk_istream S) w r st' w' :
  user_name K -> no_nul (fi_name fi) -> apk_fs_extract fi (Some pkgctx) st w = Some (r, st', w') -> safe K w w'.
Proof.
  intros HK Hn. unfold apk_fs_extract. destruct (_ && _); [by intros [= _ _ <-]|]. destruct (_ =? S_IFDIR).
  { pose proof (safe_dir_create (apk_fsdir_get (fi_name fi) (Some pkgctx)) (fi_mode fi) (fi_uid fi) (fi_gid fi) w) as Hd.
    destruct (apk_fsdir_create _ _ _ _ w). by intros [= _ _ <-]. }
  destruct (apk_fsops_get _); [|by apply safe_file_extract].
  assert (Hu : safe K w (uvol_file_extract fi (Some pkgctx) w).2) by (unfold uvol_file_extract; ssteps).
  destruct (uvol_file_extract _ _ w). by intros [= _ _ <-].
Qed.

(** *** Control operations *)

(** Only the operation that commits or deletes the file itself touches it. *)
Lemma safe_file_control d filename ctrl w r w' :
  user_name K -> no_nul (apk_pathbuilder_get (d_pb d)) ->
  (d_uvol d = false -> ctrl = APK_FS_CTRL_COMMIT \/ ctrl = APK_FS_CTRL_DELETE -> locate (w_disk w) (apk_pathbuilder_cstr (file_pb d filename)) <> inr K) ->
  apk_fsdir_file_control d filename ctrl w = Some (r, w') -> safe K w w'.
Proof.
  intros HK Hn Hfn. unfold apk_fsdir_file_control. destruct (d_uvol d); [|specialize (Hfn eq_refl)].
  { assert (Hu : safe K w (uvol_file_control filename ctrl w).2) by (unfold uvol_file_control; ssteps).
    intros [= E]. by rewrite E in Hu. }
  unfold fsys_file_control. set (fn := apk_pathbuilder_cstr (file_pb d filename)) in *.
  set (tmp := format_tmpname _ _ _). assert (Htmp : forall t, tmp = Some t -> forall d, locate d t <> inr K).
  { intros t Ht d'. by apply elsewhere_locate, (tmpname_elsewhere _ _ _ _ HK Ht). }
  pose proof (fun d => elsewhere_locate K _ d (apknew_elsewhere fn HK)) as Hnew.
  destruct (Z.eqb_spec ctrl APK_FS_CTRL_COMMIT).
  { destruct tmp as [t|]; [|done]. cbn [mbind option_bind]. destruct (on_disk _ w) as [r1 w1] eqn:E.
    assert (H1 : safe K w w1) by (apply (safe_disk_fst _ _ _ _ (kept_rename K t fn _ ltac:(by apply Htmp) ltac:(apply Hfn; by left)) E)).
    destruct (r1 <? 0).
    - destruct (on_disk _ w1) as [r2 w2] eqn:E2. intros [= _ <-]. etrans; [exact H1|].
      apply (safe_disk_fst _ _ _ _ (kept_unlink K t _ ltac:(by apply Htmp)) E2).
    - pose proof (safe_shim_install fn w1) as Hs. destruct (apk_shim_install fn w1). intros [= _ <-]. by etrans. }
  destruct (Z.eqb_spec ctrl APK_FS_CTRL_APKNEW).
  { destruct (_ <? 0); [by intros [= _ <-]|]. destruct tmp as [t|]; [|done]. cbn [mbind option_bind].
    destruct (on_disk _ w) as [r1 w1] eqn:E. intros [= _ <-]. apply (safe_disk_fst _ _ _ _ (kept_rename K t _ _ ltac:(by apply Htmp) (Hnew _)) E). }
  destruct (Z.eqb_spec ctrl APK_FS_CTRL_CANCEL).
  { destruct tmp as [t|]; [|done]. cbn [mbind option_bind]. intros [= E]. apply (safe_disk_fst _ _ _ _ (kept_unlink K t _ ltac:(by apply Htmp)) E). }
  destruct (Z.eqb_spec ctrl APK_FS_CTRL_DELETE).
  { destruct (on_disk _ w) as [r1 w1] eqn:E.
    assert (H1 : safe K w w1) by (apply (safe_disk_fst _ _ _ _ (kept_unlink K fn _ ltac:(apply Hfn; by right)) E)).
    destruct (r1 <? 0); [by intros [= _ <-]|]. pose proof (safe_shim_remove fn w1) as Hs. destruct (apk_shim_remove fn w1).
    intros [= _ <-]. by etrans. }
  destruct (Z.eqb_spec ctrl APK_FS_CTRL_DELETE_APKNEW); [|by intros [= _ <-]].
  destruct (_ <? 0); [by intros [= _ <-]|]. destruct (on_disk _ w) as [r1 w1] eqn:E. intros [= _ <-].
  apply (safe_disk_fst _ _ _ _ (kept_unlink K _ _ (Hnew _)) E).
Qed.
End backends.
