(* ===== verification/Install.v ===== *)
(** Installing, upgrading and removing packages (database.c): the files of a package are extracted to
    temporary names, entered into the tables of the installed database (InstalledDb.v), moved to their places with regard
    to protected directories, and the files of the package that is replaced or removed are deleted.

    The state is the installed database, the packages (Database.v) and the file system (FsDir.v).  Scripts of
    packages are a parameter that may change the file system in any way. *)
From Stdlib Require Import ZArith Lia Ascii String.
From stdpp Require Import base numbers list option gmap.
From S2P Require Import Prelude Clib Blob Codec Version Array Dep Package SolverState Database AdbTrust Stream Tar Gunzip ExtractV2 InstalledDb Disk FsDir.

Definition APK_PROTECT_CHANGED : Z := 2.
Definition APK_PROTECT_SYMLINKS_ONLY : Z := 3.
Definition APK_PROTECT_ALL : Z := 4.
Definition APK_SCRIPT_PRE_INSTALL : Z := 0.
Definition APK_SCRIPT_POST_INSTALL : Z := 1.
Definition APK_SCRIPT_PRE_DEINSTALL : Z := 2.
Definition APK_SCRIPT_POST_DEINSTALL : Z := 3.
Definition APK_SCRIPT_PRE_UPGRADE : Z := 4.
Definition APK_SCRIPT_POST_UPGRADE : Z := 5.

(** A line of protected_paths.d. *)
Definition apk_db_add_protected_path (ppaths : list apk_protected_path) (blob : bytes) : list apk_protected_path :=
  let add mode b :=
    ppaths ++ [Ppath (apk_blob_trim_end (apk_blob_trim_start b (chr "/")) (chr "/")) mode] in
  match blob with
  | [] => ppaths
  | c :: rest =>
      if c =? chr "#" then ppaths
      else if c =? chr "-" then add APK_PROTECT_IGNORE rest
      else if c =? chr "+" then add APK_PROTECT_CHANGED rest
      else if c =? chr "@" then add APK_PROTECT_SYMLINKS_ONLY rest
      else if c =? chr "!" then add APK_PROTECT_ALL rest
      else add APK_PROTECT_CHANGED blob
  end.

(** ** State *)

(** [i_dir_errors] is num_dir_update_errors, [i_id_resets] counts the resets of the cache of users, [i_script_dirs] is
    script_dirs_checked. *)
Record idb := Idb { i_fs : fs_db; i_store : store; i_w : world; i_dir_errors : Z; i_id_resets : Z; i_tags : repo_tags; i_script_dirs : bool }.

Definition set_i_fs v (s : idb) : idb := Idb v (i_store s) (i_w s) (i_dir_errors s) (i_id_resets s) (i_tags s) (i_script_dirs s).
Definition set_i_store v (s : idb) : idb := Idb (i_fs s) v (i_w s) (i_dir_errors s) (i_id_resets s) (i_tags s) (i_script_dirs s).
Definition set_i_w v (s : idb) : idb := Idb (i_fs s) (i_store s) v (i_dir_errors s) (i_id_resets s) (i_tags s) (i_script_dirs s).
Definition set_i_dir_errors v (s : idb) : idb := Idb (i_fs s) (i_store s) (i_w s) v (i_id_resets s) (i_tags s) (i_script_dirs s).
Definition set_i_id_resets v (s : idb) : idb := Idb (i_fs s) (i_store s) (i_w s) (i_dir_errors s) v (i_tags s) (i_script_dirs s).
Definition set_i_tags v (s : idb) : idb := Idb (i_fs s) (i_store s) (i_w s) (i_dir_errors s) (i_id_resets s) v (i_script_dirs s).
Definition set_i_script_dirs v (s : idb) : idb := Idb (i_fs s) (i_store s) (i_w s) (i_dir_errors s) (i_id_resets s) (i_tags s) v.
Definition upd_i_fs (f : fs_db -> fs_db) (s : idb) : idb := set_i_fs (f (i_fs s)) s.
Definition ipkg_of (s : idb) (pkg : Z) : option apk_installed_package := ipkg (get_pkg (i_store s) pkg).
Definition upd_ipkg_of (pkg : Z) (f : apk_installed_package -> apk_installed_package) (s : idb) : idb :=
  set_i_store (upd_pkg pkg (fun p => set_ipkg (f <$> ipkg p) p) (i_store s)) s.

Definition set_dr_created (created permissions_ok : bool) (d : apk_db_dir) : apk_db_dir :=
  DbDir (dr_hash d) (dr_parent d) (dr_owner d) (dr_diris d) (dr_protected_paths d) (dr_refs d) (dr_name d) (dr_protect_mode d)
    (dr_has_protected_children d) created (dr_modified d) permissions_ok.
Definition set_dr_parent (v : option Z) (d : apk_db_dir) : apk_db_dir :=
  DbDir (dr_hash d) v (dr_owner d) (dr_diris d) (dr_protected_paths d) (dr_refs d) (dr_name d) (dr_protect_mode d)
    (dr_has_protected_children d) (dr_created d) (dr_modified d) (dr_permissions_ok d).
Definition set_triggers (v : list bytes) (r : apk_installed_package) : apk_installed_package :=
  IPkg (scripts r) v (pending_triggers r) (replaces r) (replaces_priority r) (repository_tag r) (run_all_triggers r) (broken_files r)
    (broken_script r) (broken_xattr r) (sha256_160 r) (to_be_removed r).
Definition set_run_all_triggers (v : bool) (r : apk_installed_package) : apk_installed_package :=
  IPkg (scripts r) (triggers r) (pending_triggers r) (replaces r) (replaces_priority r) (repository_tag r) v (broken_files r)
    (broken_script r) (broken_xattr r) (sha256_160 r) (to_be_removed r).
Definition set_f_audited (v : bool) (f : apk_db_file) : apk_db_file :=
  DbFile (f_diri f) (f_acl f) v (f_broken f) (f_digest_alg f) (f_name f) (f_digest f).
Definition set_f_broken (v : bool) (f : apk_db_file) : apk_db_file :=
  DbFile (f_diri f) (f_acl f) (f_audited f) v (f_digest_alg f) (f_name f) (f_digest f).

(** The flags of the program, whether a script can be kept in memory (/dev/fd and memfd_create work), and running a program
    for a script: its type, the name of the package, its text and arguments. *)
Class InstallCtx := {
  ic_purge : bool;
  ic_clean_protected : bool;
  ic_no_scripts : bool;
  ic_force_overwrite : bool;
  ic_usermode : bool;
  ic_memfd : bool;
  exec_script : Z -> bytes -> bytes -> list bytes -> world -> Z * world }.

Section Install.
Context {OS : Os} {FC : FsCtx} {pkey : Type} {CR : Crypto pkey} {FM : Fnmatch} {SIM : Simulate} {IC : InstallCtx} {UC : UndefChecksum}.

(** Calls of the file system. *)
Definition run_w {A} (f : world -> A * world) (s : idb) : A * idb := let '(r, w) := f (i_w s) in (r, set_i_w w s).
Definition run_ctl (d : apk_fsdir) (filename : bytes) (ctrl : Z) (s : idb) : option (Z * idb) :=
  '(r, w) ← apk_fsdir_file_control d filename ctrl (i_w s); Some (r, set_i_w w s).

(** ** Directories *)

Definition apk_db_dir_get_mode (mode : Z) : Z := if ic_usermode then mode .| 0xc0 else mode.
Definition apk_pkg_ctx (p : apk_package) : bytes := default [] (pkg_name p) ++ [0].

Definition apk_db_dir_mkdir (d : apk_fsdir) (acl : apk_db_acl) (s : idb) : Z * idb :=
  if simulate then (0, s)
  else run_w (apk_fsdir_create d (apk_db_dir_get_mode (acl_mode acl)) (acl_uid acl) (acl_gid acl)) s.

Definition apk_db_dir_prepare (dir : Z) (expected_acl : option apk_db_acl) (new_acl : apk_db_acl) (s : idb) : idb :=
  let dd := get_dir (i_fs s) dir in
  if zlen (dr_name dd) =? 0 then s
  else if dr_created dd then s
  else
    let s := upd_i_fs (upd_dir dir (set_dr_created true (dr_permissions_ok dd))) s in
    let d := apk_fsdir_get (dr_name dd) APK_BLOB_NULL in
    let mkdir s :=
      let '(r, s) := apk_db_dir_mkdir d new_acl s in
      if r =? 0 then upd_i_fs (upd_dir dir (set_dr_created true true)) s else s in
    match expected_acl with
    | None => mkdir s
    | Some acl =>
        let '(r, s) := run_w (apk_fsdir_check d (apk_db_dir_get_mode (acl_mode acl)) (acl_uid acl) (acl_gid acl)) s in
        if r =? - ENOENT then mkdir s
        else if r =? 0 then upd_i_fs (upd_dir dir (set_dr_created true true)) s
        else s
    end.

(** The levels of recursion are bounded by the depth of the directory. *)
Fixpoint dir_unref (fuel : nat) (dir : Z) (s : idb) : option idb :=
  match fuel with
  | O => None
  | S fuel =>
      let s := upd_i_fs (upd_dir dir (fun d => set_dr_refs (u16 (dr_refs d - 1)) d)) s in
      let dd := get_dir (i_fs s) dir in
      if 0 <? dr_refs dd then Some s
      else
        let s := upd_i_fs (fun f => set_fs_num_dirs (fs_num_dirs f - 1) f) s in
        s ← (if negb (zlen (dr_name dd) =? 0) then
               let s := upd_i_fs (upd_dir dir (set_dr_modified true)) s in
               let s := if simulate then s else (run_w (apk_fsdir_delete (apk_fsdir_get (dr_name dd) APK_BLOB_NULL)) s).2 in
               parent ← dr_parent dd;
               s ← dir_unref fuel parent s;
               Some (upd_i_fs (upd_dir dir (set_dr_parent None)) s)
             else Some s);
        Some (upd_i_fs (upd_dir dir (set_dr_created false false)) s)
  end.
(** apk_db_dir_unref with APK_DIR_REMOVE. *)
Definition apk_db_dir_unref (dir : Z) (s : idb) : option idb := dir_unref (S (S (length (dr_name (get_dir (i_fs s) dir))))) dir s.

(** apk_db_dir_update_permissions: the mark of InstalledDb.v, and the permissions on the disk. *)
Definition dir_update_permissions (diri : Z) (s : idb) : idb :=
  let di := get_diri (i_fs s) diri in
  let dd := get_dir (i_fs s) (di_dir di) in
  let s := upd_i_fs (apk_db_dir_update_permissions diri) s in
  if negb (dr_permissions_ok dd) || simulate then s
  else
    let acl := di_acl di in
    let '(r, s) := run_w (apk_fsdir_update_perms (apk_fsdir_get (dr_name dd) APK_BLOB_NULL)
                            (apk_db_dir_get_mode (acl_mode acl)) (acl_uid acl) (acl_gid acl)) s in
    if negb (r =? 0) then set_i_dir_errors (i_dir_errors s + 1) s else s.

Definition dir_apply_diri_permissions (diri : Z) (s : idb) : option idb :=
  let f := i_fs s in
  let di := get_diri f diri in
  match dr_owner (get_dir f (di_dir di)) with
  | None => Some (upd_i_fs (upd_dir (di_dir di) (set_dr_owner (Some diri))) s)
  | Some o =>
      r ← apk_pkg_replaces_dir (get_pkg (i_store s) (di_pkg (get_diri f o))) (get_pkg (i_store s) (di_pkg di));
      if negb (r =? APK_PKG_REPLACES_YES) then Some s
      else
        let s := if negb (bool_decide (di_acl (get_diri f o) = di_acl di)) then dir_update_permissions diri s else s in
        Some (upd_i_fs (upd_dir (di_dir di) (set_dr_owner (Some diri))) s)
  end.

(** The walk over the instances of a directory for its new owner. *)
Fixpoint new_owner (s : idb) (owner : option Z) (diris : list Z) : option (option Z) :=
  match diris with
  | [] => Some owner
  | di :: diris =>
      match owner with
      | None => new_owner s (Some di) diris
      | Some o =>
          r ← apk_pkg_replaces_dir (get_pkg (i_store s) (di_pkg (get_diri (i_fs s) o))) (get_pkg (i_store s) (di_pkg (get_diri (i_fs s) di)));
          new_owner s (if r =? APK_PKG_REPLACES_YES then Some di else Some o) diris
      end
  end.

Definition apk_db_diri_remove (diri : Z) (s : idb) : option idb :=
  let dir := di_dir (get_diri (i_fs s) diri) in
  let s := upd_i_fs (upd_dir dir (fun d => set_dr_diris (filter (fun x => x <> diri) (dr_diris d)) d)) s in
  let dd := get_dir (i_fs s) dir in
  s ← (if bool_decide (dr_owner dd = Some diri) then
         owner ← new_owner s None (dr_diris dd);
         let s := upd_i_fs (upd_dir dir (set_dr_owner owner)) s in
         Some (match owner with Some o => dir_update_permissions o s | None => s end)
       else Some s);
  apk_db_dir_unref dir s.

(** ** Files *)

(** Whether the file on the disk is there and is not what [dbf] says. *)
Definition apk_db_audit_file (d : apk_fsdir) (filename : bytes) (dbf : option apk_db_file) (s : idb) : bool * idb :=
  let alg := match dbf with Some f => f_digest_alg f | None => APK_DIGEST_NONE end in
  let '(r, fi, w) := apk_fsdir_file_info d filename alg (i_w s) in
  let s := set_i_w w s in
  if negb (r =? 0) || (alg =? APK_DIGEST_NONE) then (negb (r =? - ENOENT), s)
  else match dbf with
       | Some f => (negb (apk_digest_cmp_blob (fs_digest_of fi) alg (Some (apk_dbf_digest_blob f)) =? 0), s)
       | None => (false, s)
       end.

(** The number of the inode; there is one device. *)
Definition fileid_get (d : apk_fsdir) (filename : bytes) (s : idb) : option Z * idb :=
  let '(r, fi, w) := apk_fsdir_file_info d filename APK_DIGEST_NONE (i_w s) in
  (if negb (r =? 0) then None else Some (fs_ino fi), set_i_w w s).

(** The key of a file in the table of files, with its bucket. *)
Definition file_key (dd : apk_db_dir) (name : bytes) : Z * bytes * bytes :=
  (apk_blob_hash_seed name (dr_hash dd) mod FILE_BUCKETS, dr_name dd, name).
Definition hash_delete (k : Z * bytes * bytes) (f : fs_db) : fs_db := set_fs_file_tab (delete k (fs_file_tab f)) f.
Definition add_files (n : Z) (f : fs_db) : fs_db := set_fs_num_files (fs_num_files f + n) f.

(** Whether the file may be deleted: it is not one of the files of the new package (sorting and
    bsearch find a number that is in the list). *)
Definition purge_wanted (fileids : option (list Z)) (d : apk_fsdir) (filename : bytes) (s : idb) : bool * idb :=
  match fileids with
  | None => (true, s)
  | Some ids => let '(id, s) := fileid_get d filename s in
                (match id with None => true | Some n => negb (existsb (Z.eqb n) ids) end, s)
  end.

Definition purge_file (is_installed : bool) (fileids : option (list Z)) (dd : apk_db_dir) (d : apk_fsdir) (file : Z) (s : idb) : option idb :=
  let fl := get_file (i_fs s) file in
  if f_audited fl then Some s
  else
    let dirclean := ic_purge || negb is_installed || apk_protect_mode_none (dr_protect_mode dd) in
    let delapknew := is_installed && negb (apk_protect_mode_none (dr_protect_mode dd)) in
    let filename := f_name fl in
    let '(do_delete, s) := purge_wanted fileids d filename s in
    let '(go, s) := if do_delete then
                      if dirclean then (true, s)
                      else let '(changed, s) := apk_db_audit_file d filename (Some fl) s in (negb changed, s)
                    else (false, s) in
    s ← (if go then snd <$> run_ctl d filename (if is_installed then APK_FS_CTRL_DELETE else APK_FS_CTRL_CANCEL) s else Some s);
    s ← (if delapknew then snd <$> run_ctl d filename APK_FS_CTRL_DELETE_APKNEW s else Some s);
    Some (if is_installed then upd_i_fs (fun f => add_files (-1) (hash_delete (file_key dd filename) f)) s else s).

Fixpoint fold_opt {A S} (f : A -> S -> option S) (l : list A) (s : S) : option S :=
  match l with [] => Some s | x :: l => s ← f x s; fold_opt f l s end.

Definition purge_diri (pkg : Z) (is_installed : bool) (fileids : option (list Z)) (diri : Z) (s : idb) : option idb :=
  let dir := di_dir (get_diri (i_fs s) diri) in
  let s := if is_installed then upd_i_fs (upd_dir dir (set_dr_modified true)) s else s in
  let dd := get_dir (i_fs s) dir in
  let d := apk_fsdir_get (dr_name dd) (Some (apk_pkg_ctx (get_pkg (i_store s) pkg))) in
  s ← fold_opt (purge_file is_installed fileids dd d) (di_files (get_diri (i_fs s) diri)) s;
  apk_db_diri_remove diri s.

Definition apk_db_purge_pkg (pkg : Z) (is_installed : bool) (fileids : option (list Z)) (s : idb) : option idb :=
  let fileids := match fileids with Some [] => None | x => x end in
  s ← fold_opt (purge_diri pkg is_installed fileids) (default [] (fs_owned (i_fs s) !! pkg)) s;
  Some (upd_i_fs (fun f => set_fs_owned (<[pkg := []]> (fs_owned f)) f) s).

(** What is done with the new file: the choice of apk_db_migrate_files_for_priority. *)
Definition migrate_ctrl (dd : apk_db_dir) (d : apk_fsdir) (file : apk_db_file) (ofile : option apk_db_file) (s : idb) : Z * idb :=
  let overlay := match ofile with
                 | Some o => APK_BLOB_IS_NULL (pkg_name (get_pkg (i_store s) (di_pkg (get_diri (i_fs s) (f_diri o)))))
                 | None => false
                 end in
  if overlay then (APK_FS_CTRL_CANCEL, s)
  else if apk_protect_mode_none (dr_protect_mode dd) then (APK_FS_CTRL_COMMIT, s)
  else
    let '(changed, s) := apk_db_audit_file d (f_name file) ofile s in
    if negb changed then (APK_FS_CTRL_COMMIT, s)
    else if ic_clean_protected then (APK_FS_CTRL_CANCEL, s)
    else
      let '(differs, s) := apk_db_audit_file d (f_name file) (Some file) s in
      (if differs then APK_FS_CTRL_APKNEW else APK_FS_CTRL_CANCEL, s).

(** The file in the file system. *)
Definition migrate_file_fs (pkg : Z) (dd : apk_db_dir) (d : apk_fsdir) (fl : apk_db_file) (ofile : option apk_db_file) (s : idb) : option idb :=
  if f_broken fl then Some s
  else
    let '(ctrl, s) := migrate_ctrl dd d fl ofile s in
    '(r, s) ← run_ctl d (f_name fl) ctrl s;
    if r <? 0 then Some (upd_ipkg_of pkg (set_broken_files true) s)
    else if bool_decide (dr_name dd = bs "etc") && (ctrl =? APK_FS_CTRL_COMMIT) &&
            (bool_decide (f_name fl = bs "passwd") || bool_decide (f_name fl = bs "group"))
    then Some (set_i_id_resets (i_id_resets s + 1) s)
    else Some s.

(** The file in the tables; the second component is the array of inode numbers. *)
Definition claim_file (want_ids : bool) (dd : apk_db_dir) (d : apk_fsdir) (file : Z) (fl : apk_db_file) (ofile : option Z) (acc : idb * list Z)
  : idb * list Z :=
  let '(s, ids) := acc in
  let k := file_key dd (f_name fl) in
  if bool_decide (ofile = Some file) then (s, ids)
  else
    let '(s, ids) :=
      match ofile with
      | Some o => (upd_i_fs (fun f => hash_delete k (upd_file o (set_f_audited true) f)) s, ids)
      | None =>
          let '(id, s) := if want_ids then fileid_get d (f_name fl) s else (None, s) in
          (upd_i_fs (add_files 1) s, match id with Some n => ids ++ [n] | None => ids end)
      end in
    (upd_i_fs (fun f => set_fs_file_tab (<[k := file]> (fs_file_tab f)) f) s, ids).

Definition migrate_file (pkg : Z) (want_ids : bool) (dd : apk_db_dir) (d : apk_fsdir) (file : Z) (acc : idb * list Z) : option (idb * list Z) :=
  let '(s, ids) := acc in
  let fl := get_file (i_fs s) file in
  let ofile := fs_file_tab (i_fs s) !! file_key dd (f_name fl) in
  s ← migrate_file_fs pkg dd d fl (get_file (i_fs s) <$> ofile) s;
  Some (claim_file want_ids dd d file fl ofile (s, ids)).

Definition migrate_diri (pkg : Z) (want_ids : bool) (priority : Z) (diri : Z) (acc : idb * list Z * Z) : option (idb * list Z * Z) :=
  let '(s, ids, next_priority) := acc in
  let dir := di_dir (get_diri (i_fs s) diri) in
  let dd := get_dir (i_fs s) dir in
  let d := apk_fsdir_get (dr_name dd) (Some (apk_pkg_ctx (get_pkg (i_store s) pkg))) in
  let dir_priority := apk_fsdir_priority d in
  if negb (dir_priority =? priority) then
    Some (s, ids, if (priority <? dir_priority) && (dir_priority <? next_priority) then dir_priority else next_priority)
  else
    let s := upd_i_fs (upd_dir dir (set_dr_modified true)) s in
    '(s, ids) ← fold_opt (migrate_file pkg want_ids dd d) (di_files (get_diri (i_fs s) diri)) (s, ids);
    Some (s, ids, next_priority).

Definition apk_db_migrate_files_for_priority (pkg : Z) (want_ids : bool) (priority : Z) (acc : idb * list Z) : option (idb * list Z * Z) :=
  let '(s, ids) := acc in
  fold_opt (migrate_diri pkg want_ids priority) (default [] (fs_owned (i_fs s) !! pkg)) (s, ids, APK_FS_PRIO_MAX).

(** The priorities grow up to APK_FS_PRIO_MAX. *)
Fixpoint migrate_loop (fuel : nat) (pkg : Z) (want_ids : bool) (prio : Z) (acc : idb * list Z) : option (idb * list Z) :=
  match fuel with
  | O => None
  | S fuel =>
      if prio =? APK_FS_PRIO_MAX then Some acc
      else '(s, ids, prio) ← apk_db_migrate_files_for_priority pkg want_ids prio acc; migrate_loop fuel pkg want_ids prio (s, ids)
  end.
Definition apk_db_migrate_files (pkg : Z) (want_ids : bool) (s : idb) : option (idb * list Z) :=
  migrate_loop 3 pkg want_ids APK_FS_PRIO_DISK (s, []).

(** ** Scripts *)

(** The script as a file: the result, whether a file was made below the destination, and the state. *)
Definition script_file (fn text : bytes) (s : idb) : Z * bool * idb :=
  if ic_memfd then
    let '(r, s) := run_w other_call (set_i_script_dirs true s) in (r, false, s)
  else
    let '(r, s) := if i_script_dirs s then (0, s) else run_w (on_disk (apk_make_dirs (bs "lib/apk/exec") 0x1c0 0x1ed)) s in
    if r <? 0 then (r, false, s)
    else
      let s := set_i_script_dirs true s in
      let '(r, s) := run_w (on_disk (sys_open_trunc fn 0x1ed)) s in
      match r with
      | inl e => (e, false, s)
      | inr n => let '(r, s) := run_w (on_disk (sys_write_all n text)) s in (r, true, s)
      end.

(** The result of apk_ipkg_run_script, and the state after it. *)
Definition ipkg_run_script (pkg type : Z) (argv : list bytes) (s : idb) : Z * idb :=
  let p := get_pkg (i_store s) pkg in
  match ipkg p ≫= fun ip => if APK_SCRIPT_MAX <=? type then None else znth None (scripts ip) type with
  | None => (0, s)
  | Some text =>
      if ic_no_scripts || simulate then (0, s)
      else
        let nm := default [] (pkg_name p) in
        let fn := bs "lib/apk/exec/" ++ nm ++ bs "-" ++ default [] (version p) ++ bs "." ++ znth [] apk_script_types type in
        if apk_fmt PATH_MAX fn <? 0 then (1, upd_ipkg_of pkg (set_broken_script true) s)
        else
          let '(r, created, s) := script_file fn text s in
          let '(ret, s) :=
            if r <? 0 then (1, upd_ipkg_of pkg (set_broken_script true) s)
            else
              let '(r, w) := exec_script type nm text (fn :: argv) (i_w s) in
              let s := set_i_w w s in
              if r <? 0 then (1, upd_ipkg_of pkg (set_broken_script true) s) else (0, set_i_id_resets (i_id_resets s + 1) s) in
          (ret, if created then (run_w (on_disk (sys_unlink fn)) s).2 else s)
  end.
Definition apk_ipkg_run_script (pkg type : Z) (argv : list bytes) (s : idb) : idb := (ipkg_run_script pkg type argv s).2.

(** ** Extracting *)

(** struct install_ctx *)
Record install_ctx := ICtx { ix_db : idb; ix_pkg : Z; ix_script : Z; ix_args : list bytes; ix_pending : bool; ix_size : Z }.
Definition set_ix_db v (x : install_ctx) : install_ctx := ICtx v (ix_pkg x) (ix_script x) (ix_args x) (ix_pending x) (ix_size x).
Definition set_ix_pending v (x : install_ctx) : install_ctx := ICtx (ix_db x) (ix_pkg x) (ix_script x) (ix_args x) v (ix_size x).
Definition add_ix_size (n : Z) (x : install_ctx) : install_ctx :=
  ICtx (ix_db x) (ix_pkg x) (ix_script x) (ix_args x) (ix_pending x) (u64 (ix_size x + n)).

Definition apk_db_run_pending_script (x : install_ctx) : install_ctx :=
  if negb (ix_pending x) then x
  else set_ix_db (apk_ipkg_run_script (ix_pkg x) (ix_script x) (ix_args x) (ix_db x)) (set_ix_pending false x).

Definition contains_control_character (str : bytes) : bool := existsb (fun c => (c <? 0x20) || (c =? 0x7f)) str.
Definition strstr (s sub : bytes) : bool := match memmem s sub with Some _ => true | None => false end.

(** The sanity check of a file name. *)
Definition malicious_name (name : bytes) : bool :=
  (List.hd 0 name =? chr "/") || contains_control_character name || prefixb (bs "./") name || prefixb (bs "../") name ||
  strstr name (bs "/./") || strstr name (bs "/../").

Definition apk_db_file_query (f : fs_db) (dir name : bytes) : option Z :=
  let dir := apk_blob_trim_end dir (chr "/") in
  fs_file_tab f !! (apk_blob_hash_seed name (apk_blob_hash dir) mod FILE_BUCKETS, dir, name).

Definition apk_db_ipkg_find_file (file : bytes) (f : fs_db) : option Z * fs_db :=
  let '(dir, file) := match apk_blob_rsplit file (chr "/") with Some (d, n) => (d, n) | None => ([], file) end in
  let '(diri, f) := apk_db_diri_query dir f in
  match diri with
  | None => (None, f)
  | Some a =>
      let ic := fs_ic f in
      let '(files, f) :=
        if bool_decide (ic_diri ic = Some a) then
          if ic_files_unsorted ic then
            let files := qsort (files_qsort_cmp f) (ic_files ic) in
            (files, set_fs_ic (Ic (ic_diri ic) (ic_diris ic) files (ic_num_unsorted_diris ic) false) f)
          else (ic_files ic, f)
        else (di_files (get_diri f a), f) in
      (bsearch (S (length files)) (fun x => apk_blob_sort file (f_name (get_file f x))) files 0 (length files), f)
  end.

Definition broken (x : install_ctx) : install_ctx := set_ix_db (upd_ipkg_of (ix_pkg x) (set_broken_files true) (ix_db x)) x.

Definition apk_calc_installed_size (size : Z) : Z := u64 ((size + 4095) .& (- 4096)).

(** The digest of a file that was extracted. *)
Definition file_digest_set (sha160 : bool) (ae : apk_file_info) (link : option apk_db_file) (f : apk_db_file) : apk_db_file :=
  let f := match link with
           | Some l => if negb sha160 then apk_dbf_digest_set (f_digest_alg l) (f_digest l) f
                       else apk_dbf_digest_set (d_alg (fi_digest ae)) (d_data (fi_digest ae)) f
           | None => apk_dbf_digest_set (d_alg (fi_digest ae)) (d_data (fi_digest ae)) f
           end in
  if sha160 && (fi_mode ae .& S_IFMT =? S_IFLNK) then
    let d := (apk_digest_calc digest_zero APK_DIGEST_SHA256_160 (default [] (fi_link_target ae))).2 in
    apk_dbf_digest_set (d_alg d) (d_data d) f
  else if (f_digest_alg f =? APK_DIGEST_NONE) && (d_alg (fi_digest ae) =? APK_DIGEST_SHA256) then
    apk_dbf_digest_set APK_DIGEST_SHA256_160 (d_data (fi_digest ae)) f
  else f.

(** What becomes of the result of apk_fs_extract: the result of the function, and the context. *)
Definition extract_result (r : Z) (file : Z) (link : option Z) (ae : apk_file_info) (x : install_ctx) : Z * install_ctx :=
  let pkg := ix_pkg x in
  let x := if 0 <? r then
             set_ix_db (upd_ipkg_of pkg (if flag r APK_EXTRACTW_XATTR then set_broken_xattr true else set_broken_files true) (ix_db x)) x
           else x in
  let r := if 0 <? r then 0 else r in
  let upd f x := set_ix_db (upd_i_fs (upd_file file f) (ix_db x)) x in
  if r =? 0 then
    let sha160 := default false (sha256_160 <$> ipkg_of (ix_db x) pkg) in
    (0, upd (file_digest_set sha160 ae (get_file (i_fs (ix_db x)) <$> link)) x)
  else if r =? - APKE_NOT_EXTRACTED then (0, upd (set_f_broken true) x)
  else (if r =? - ENOSPC then r else 0, upd (set_f_broken true) (broken x)).

(** A file that passed the checks is entered and extracted. *)
Definition install_entry {S} `{IstreamOps S} (ae : apk_file_info) (bfile : bytes) (diri : Z) (file : option Z) (link : option Z)
    (st : apk_istream S) (x : install_ctx) : option (Z * install_ctx * apk_istream S) :=
  let s := ix_db x in
  let pkg := ix_pkg x in
  let opkg := (fun f => di_pkg (get_diri (i_fs s) (f_diri (get_file (i_fs s) f)))) <$> file in
  let '(file, f) := match file with
                    | Some a => if bool_decide (opkg = Some pkg) then (a, i_fs s) else apk_db_file_new diri bfile (i_fs s)
                    | None => apk_db_file_new diri bfile (i_fs s)
                    end in
  let f := upd_file file (set_f_acl (apk_db_acl_atomize_digest (fi_mode ae) (fi_uid ae) (fi_gid ae) (fi_xattr_digest ae))) f in
  '(r, st, w) ← apk_fs_extract ae (Some (apk_pkg_ctx (get_pkg (i_store s) pkg))) st (i_w s);
  let '(ret, x) := extract_result r file link ae (set_ix_db (set_i_w w (set_i_fs f s)) x) in
  Some (ret, add_ix_size (apk_calc_installed_size (fi_size ae)) x, st).

(** Files that are not directories: the directory, the target of a hard link, the owner of the name. *)
Definition install_nondir {S} `{IstreamOps S} (ae : apk_file_info) (st : apk_istream S) (x : install_ctx)
  : option (Z * install_ctx * apk_istream S) :=
  let name := fi_name ae in
  let pkg := ix_pkg x in
  let done x := Some (0, x, st) in
  let '(bdir, bfile) := match apk_blob_rsplit name (chr "/") with Some (d, n) => (Some d, n) | None => (None, name) end in
  let '(diri, f) := apk_db_diri_query (blob_data bdir) (i_fs (ix_db x)) in
  let x := set_ix_db (set_i_fs f (ix_db x)) x in
  r ← match diri, bdir with
      | None, Some _ => Some (inl (broken x))
      | None, None => '(a, f) ← apk_db_diri_get [] pkg f; Some (inr (a, set_ix_db (set_i_fs f (ix_db x)) x))
      | Some a, _ => Some (inr (a, set_ix_db (set_i_fs (apk_db_diri_select a f) (ix_db x)) x))
      end;
  match r with
  | inl x => done x
  | inr (diri, x) =>
      let '(found, x) :=
        match fi_link_target ae with
        | Some t => if fi_mode ae .& S_IFMT =? S_IFREG then
                      let '(l, f) := apk_db_ipkg_find_file t (i_fs (ix_db x)) in
                      (Some l, set_ix_db (set_i_fs f (ix_db x)) x)
                    else (None, x)
        | None => (None, x)
        end in
      match found with
      | Some None => done (broken x)
      | _ =>
          let s := ix_db x in
          let file := apk_db_file_query (i_fs s) (blob_data bdir) bfile in
          verdict ← match file with
                    | None => Some APK_PKG_REPLACES_YES
                    | Some a => apk_pkg_replaces_file (get_pkg (i_store s) (di_pkg (get_diri (i_fs s) (f_diri (get_file (i_fs s) a)))))
                                  (get_pkg (i_store s) pkg)
                    end;
          if (verdict =? APK_PKG_REPLACES_CONFLICT) && negb ic_force_overwrite then done (broken x)
          else if verdict =? APK_PKG_REPLACES_NO then done x
          else install_entry ae bfile diri file (default None found) st x
      end
  end.

Definition install_dir (ae : apk_file_info) (x : install_ctx) : option install_ctx :=
  let name := apk_blob_trim_end (fi_name ae) (chr "/") in
  '(diri, f) ← apk_db_diri_get name (ix_pkg x) (i_fs (ix_db x));
  let f := upd_diri diri (set_di_acl (apk_db_acl_atomize_digest (fi_mode ae) (fi_uid ae) (fi_gid ae) (fi_xattr_digest ae))) f in
  let s := set_i_fs f (ix_db x) in
  let dir := di_dir (get_diri f diri) in
  let expected := (fun o => di_acl (get_diri f o)) <$> dr_owner (get_dir f dir) in
  s ← dir_apply_diri_permissions diri s;
  owner ← dr_owner (get_dir (i_fs s) dir);
  Some (set_ix_db (apk_db_dir_prepare dir expected (di_acl (get_diri (i_fs s) owner)) s) x).

Definition apk_db_install_file {S} `{IstreamOps S} (x : install_ctx) (ae : apk_file_info) (st : apk_istream S)
  : option (Z * install_ctx * apk_istream S) :=
  let x := apk_db_run_pending_script x in
  if malicious_name (fi_name ae) then Some (0, broken x, st)
  else if negb (fi_mode ae .& S_IFMT =? S_IFDIR) then install_nondir ae st x
  else x ← install_dir ae x; Some (0, add_ix_size (apk_calc_installed_size (fi_size ae)) x, st).

(** ** The operations of the extractor *)

Section package.
Context {CC : CryptoCtx pkey} {S : Type} `{IstreamOps S} {zs : Type} `{Zlib zs}.
Context (trust : apk_trust pkey) (verify_alg : Z) (verify_digest : blob) (turns : nat).
#[local] Instance package_read : IstreamOps (@v2_source pkey S zs) := gzi_read (Some (apk_sign_ctx_mpart_cb trust verify_alg verify_digest)) turns.

(** A line of .PKGINFO. *)
Definition read_info_line (x : install_ctx) (line : blob) (sg : v2_file (pkey := pkey) (S := S) (zs := zs)) : option (install_ctx * v2_file (pkey := pkey) (S := S) (zs := zs)) :=
  let pkg := ix_pkg x in
  let upd f x := set_ix_db (upd_ipkg_of pkg f (ix_db x)) x in
  if (blob_len line <? 1) || (List.hd 0 (blob_data line) =? chr "#") then Some (x, sg)
  else match apk_blob_split line (bs " = ") with
       | None => Some (x, sg)
       | Some (l, r) =>
           if apk_blob_compare (Some (bs "replaces")) (Some l) =? 0 then
             '(_, tgs, deps) ← apk_blob_pull_deps (Some r) (i_tags (ix_db x)) (default [] (replaces <$> ipkg_of (ix_db x) pkg)) false;
             Some (upd (set_replaces deps) (set_ix_db (set_i_tags tgs (ix_db x)) x), sg)
           else if apk_blob_compare (Some (bs "replaces_priority")) (Some l) =? 0 then
             Some (upd (set_replaces_priority (u16 (apk_blob_pull_uint r 10).1)) x, sg)
           else if apk_blob_compare (Some (bs "triggers")) (Some l) =? 0 then
             Some (upd (set_triggers (apk_blob_foreach_word (Some r))) x, sg)
           else sg ← apk_extract_v2_control sg l r; Some (x, sg)
       end.

Fixpoint install_meta_loop (fuel : nat) (x : install_ctx) (sg : v2_file (pkey := pkey) (S := S) (zs := zs)) : option (install_ctx * v2_file (pkey := pkey) (S := S) (zs := zs)) :=
  match fuel with
  | O => None
  | Datatypes.S fuel =>
      '(r, l, sg) ← apk_istream_get_delim sg [10];
      if negb (r =? 0) then Some (x, sg)
      else '(x, sg) ← read_info_line x l sg; install_meta_loop fuel x sg
  end.

Definition apk_db_install_v2meta (x : install_ctx) (sg : v2_file (pkey := pkey) (S := S) (zs := zs)) :=
  '(x, sg) ← install_meta_loop (Z.to_nat (is_len sg + sg_bytes_left (is_src sg) + 2)) x sg; Some (0, x, sg).

Definition APK_MAX_SCRIPT_SIZE : Z := 262144.

Definition apk_ipkg_add_script (x : install_ctx) (type size : Z) (sg : v2_file (pkey := pkey) (S := S) (zs := zs)) : option (install_ctx * v2_file (pkey := pkey) (S := S) (zs := zs)) :=
  if APK_MAX_SCRIPT_SIZE <? size then Some (x, sg)
  else
    '(_, b, sg) ← apk_blob_from_istream sg size;
    Some (set_ix_db (upd_ipkg_of (ix_pkg x) (fun ip => (apk_ipkg_assign_script ip type b).1) (ix_db x)) x, sg).

Definition apk_db_install_script (x : install_ctx) (type size : Z) (sg : v2_file (pkey := pkey) (S := S) (zs := zs)) :=
  '(x, sg) ← apk_ipkg_add_script x type size sg;
  Some (0, set_ix_pending (ix_pending x || (type =? ix_script x)) x, sg).

Definition extract_installer : extract_ops (X := install_ctx) (pkey := pkey) (S := S) (zs := zs) := {|
  op_v2index := None;
  op_v2meta := Some apk_db_install_v2meta;
  op_script := Some apk_db_install_script;
  op_file := Some apk_db_install_file
|}.

(** The extraction and the script that is left to run; [st] is the stream of the package, in the format of version 2. *)
Context (sort : list apk_xattr -> list apk_xattr) (idc : id_cache) (junk : Z) (fuel : nat) (bufsize : Z).

Definition unpack_stream (st : apk_istream S) (pkg : Z) (upgrade : bool) (args : list bytes) (s : idb) : option (Z * idb) :=
  let x := ICtx s pkg (if upgrade then APK_SCRIPT_PRE_UPGRADE else APK_SCRIPT_PRE_INSTALL) args false 0 in
  '(r, x, _) ← apk_extract_v2 trust verify_alg verify_digest turns extract_installer sort idc junk fuel bufsize st None x;
  if negb (r =? 0) then Some (r, ix_db x) else Some (0, ix_db (apk_db_run_pending_script x)).
End package.

(** apk_db_unpack_pkg from the point where the package is open: the package must have the identity that the database has. *)
Definition apk_db_unpack_pkg {CC : CryptoCtx pkey} {S : Type} `{IstreamOps S} {zs : Type} `{Zlib zs} (trust : apk_trust pkey) (turns : nat)
    (sort : list apk_xattr -> list apk_xattr) (idc : id_cache) (junk : Z) (fuel : nat) (bufsize : Z)
    (st : apk_istream S) (pkg : Z) (upgrade : bool) (args : list bytes) (s : idb) : option (Z * idb) :=
  let p := get_pkg (i_store s) pkg in
  unpack_stream (zs := zs) trust (digest_alg p) (Some (apk_pkg_digest_blob p)) turns sort idc junk fuel bufsize st pkg upgrade args s.

(** ** Packages *)

(** apk_db_ipkg_create of a package of the database. *)
Definition ipkg_create (pkg : Z) (s : idb) : idb :=
  let s := upd_i_fs apk_db_ipkg_creator_reset s in
  let s := set_i_store (install_at pkg (i_store s)) s in
  upd_i_fs (fun f => let ic := fs_ic f in
    set_fs_ic (Ic (ic_diri ic) (default [] (fs_owned f !! pkg)) (ic_files ic) (ic_num_unsorted_diris ic) (ic_files_unsorted ic)) f) s.

(** apk_pkg_uninstall also frees the array of directory instances. *)
Definition pkg_uninstall (pkg : Z) (s : idb) : idb :=
  match ipkg_of s pkg with
  | None => s
  | Some _ => upd_i_fs (fun f => set_fs_owned (delete pkg (fs_owned f)) f) (set_i_store (apk_pkg_uninstall pkg (i_store s)) s)
  end.

(** The record of the new package before it is unpacked. *)
Definition install_start (newpkg : Z) (s : idb) : idb :=
  upd_ipkg_of newpkg (fun ip => set_triggers [] (set_broken_xattr false (set_broken_files false
    (set_broken_script false (set_run_all_triggers true ip))))) (ipkg_create newpkg s).

(** The arguments of scripts: the new version, and the old one of an upgrade. *)
Definition script_args (oldpkg : option Z) (newpkg : Z) (s : idb) : list bytes :=
  let ver a := default [] (version (get_pkg (i_store s) a)) in
  ver newpkg :: match oldpkg with Some old => [ver old] | None => [] end.

(** apk_db_install_pkg; [unpack] is apk_db_unpack_pkg of the stream of the new package. *)
Definition install_new (unpack : Z -> bool -> list bytes -> idb -> option (Z * idb)) (oldpkg : option Z) (newpkg : Z) (args : list bytes) (s : idb)
  : option (Z * idb) :=
  let same := bool_decide (oldpkg = Some newpkg) in
  let upgrade := match oldpkg with Some _ => true | None => false end in
  let s := install_start newpkg s in
  let finish ids s :=
    s ← match oldpkg with
        | Some old => match ipkg_of s old with
                      | Some _ => if same then Some s else s ← apk_db_purge_pkg old true (Some ids) s; Some (pkg_uninstall old s)
                      | None => Some s
                      end
        | None => Some s
        end;
    let s := apk_ipkg_run_script newpkg (if upgrade then APK_SCRIPT_POST_UPGRADE else APK_SCRIPT_POST_INSTALL) args s in
    let bad := match ipkg_of s newpkg with Some ip => broken_files ip || broken_script ip | None => false end in
    Some (if bad then -1 else 0, s) in
  if negb (installed_size (get_pkg (i_store s) newpkg) =? 0) then
    '(r, s) ← unpack newpkg upgrade args s;
    let s := upd_i_fs (apk_db_ipkg_commit newpkg) s in
    if negb (r =? 0) then
      s ← (if same then Some s else apk_db_purge_pkg newpkg false None s);
      Some (r, pkg_uninstall newpkg s)
    else
      '(s, ids) ← apk_db_migrate_files newpkg upgrade s;
      finish ids s
  else finish [] s.

Definition apk_db_install_pkg (unpack : Z -> bool -> list bytes -> idb -> option (Z * idb)) (oldpkg newpkg : option Z) (s : idb) : option (Z * idb) :=
  let ver a := default [] (version (get_pkg (i_store s) a)) in
  match oldpkg, newpkg with
  | Some old, None =>
      match ipkg_of s old with
      | None => Some (0, s)
      | Some _ =>
          let args := [ver old] in
          let s := apk_ipkg_run_script old APK_SCRIPT_PRE_DEINSTALL args s in
          s ← apk_db_purge_pkg old true None s;
          let s := apk_ipkg_run_script old APK_SCRIPT_POST_DEINSTALL args s in
          Some (0, pkg_uninstall old s)
      end
  | _, Some new => install_new unpack oldpkg new (script_args oldpkg new s) s
  | None, None => None
  end.
End Install.
