(* ===== verification/InstallToy.v ===== *)
(** A concrete system for runs of the installation (Install.v): no call fails, scripts do nothing, and a package with one
    file in a protected directory. *)
From Stdlib Require Import ZArith Lia Ascii String.
From stdpp Require Import base numbers list option gmap.
From S2P Require Import Prelude Clib Blob Codec Version Array Dep Package SolverState Database AdbTrust Stream StreamThm Tar TarThm Gunzip ExtractV2 ExtractToy InstalledDb Disk FsDir Install.

#[export] Instance toy_os : Os := {| os_fault _ := 0; os_write _ := []; os_uid := 0; os_gid := 0; os_time := 1000 |}.
#[export] Instance toy_fs_ctx : FsCtx := {|
  ac_extract_flags := 0; ac_root := Some (bs "/data/sysroot"); env_HPKG_PREFIX := None; env_HOME := None; ac_uvol := -1; uvol_result _ := -1;
  uninit := replicate (Z.to_nat Array.PATH_MAX) 0 |}.
#[export] Instance toy_fnmatch : Fnmatch := fun pattern name => bool_decide (pattern = name).
#[export] Instance toy_simulate : Simulate := false.
#[export] Instance toy_install_ctx : InstallCtx := {|
  ic_purge := false; ic_clean_protected := false; ic_no_scripts := false; ic_force_overwrite := false; ic_usermode := false; ic_memfd := true;
  exec_script _ _ _ _ w := (0, w) |}.
#[export] Instance toy_undef : UndefChecksum := fun _ _ => false.

(** ** Packages *)

Definition toy_dir (name : String.string) : bytes :=
  hdr_bytes (apk_tar_fill_header hdr_zero (chr "5") (Some (bs name)) 0 (example_file (bs name) []).1).
(** A header with the checksum of the file that follows, as format 2 wants it. *)
Definition toy_checksum (data : bytes) : bytes :=
  let text := bs "68 APK-TOOLS.checksum.SHA1=" ++ toy_hex (replicate 20 (toy_sum data)) ++ [10] in
  hdr_bytes (apk_tar_fill_header hdr_zero (chr "x") (Some (bs "pax")) (zlen text) (example_file (bs "pax") []).1) ++
  text ++ replicate (Z.to_nat (512 - zlen text)) 0.
Definition toy_contents (motd : String.string) : bytes :=
  toy_member (toy_dir "etc" ++ toy_checksum (bs motd) ++ toy_entry "etc/motd" (bs motd) ++ toy_end).
Definition toy_control (motd : String.string) : bytes :=
  toy_member (toy_entry ".PKGINFO"
    (bs "pkgname = toy" ++ [10] ++ bs "datahash = " ++ toy_hex (replicate 32 (toy_sum (toy_contents motd))) ++ [10])).
Definition toy_pack (motd : String.string) : bytes :=
  toy_member (toy_entry ".SIGN.RSA.key7" [7; toy_sum (toy_control motd)]) ++ toy_control motd ++ toy_contents motd.

Definition toy_pkg (addr : Z) (ver motd : String.string) : apk_package :=
  Pkg addr (Some (bs "toy")) None [] [] [] [] [] (Some (bs ver)) (bs "noarch") (bs "MIT") [] [] [] (bs "toy") [] 4096 20 0 0 0 0 0
    false false false false 0 APK_DIGEST_SHA1 (replicate 20 (toy_sum (toy_control motd))).

(** No files, and two versions of a package that is not installed. *)
Definition toy_world : world := World (Disk ∅ ∅ 1 0) ∅ false [].
Definition toy_base : idb :=
  Idb (fs_init [Ppath (bs "etc") APK_PROTECT_CHANGED])
    (Store ∅ {[1 := toy_pkg 1 "1.0" "one"; 2 := toy_pkg 2 "2.0" "two"]} ∅ 100 [] true [bs "noarch"] (bs "noarch"))
    toy_world 0 0 repo_tags_init false.

(** apk_db_unpack_pkg of a package in memory. *)
Abbreviation toy_unpack motd :=
  (apk_db_unpack_pkg (zs := toy_zs) (toy_store false) 1000 id no_ids 0 100 4096 (apk_istream_from_blob (toy_pack motd))).

(** Version 1 is installed, and then the user changes its file. *)
Definition toy_installed : option (Z * idb) := apk_db_install_pkg (toy_unpack "one") None (Some 1) toy_base.
Definition toy_edit (text : String.string) (s : idb) : idb :=
  let d := w_disk (i_w s) in
  match dk_names d !! [bs "etc"; bs "motd"] with
  | Some n => set_i_w (set_disk (upd_inode n (set_in_data (bs text)) d) (i_w s)) s
  | None => s
  end.
