(* ===== verification/InstallThm.v ===== *)
(** Theorems about installing packages (Install.v): which files a package can change.

    The first part follows one file of the disk through all operations ([safe] of FsThm.v). *)
From Stdlib Require Import ZArith Lia Ascii String.
From stdpp Require Import base numbers list option gmap.
From S2P Require Import Prelude Clib Blob Codec Version Array Dep Package SolverState Database AdbTrust Stream Tar TarThm Gunzip ExtractV2 InstalledDb Disk FsDir FsThm Install.

(** ** Reading an archive: what the callback keeps *)

Section tar_ctx.
Context {S : Type} `{IstreamOps S} {C : Type} {pkey : Type} `{!Crypto pkey}.
Context (sort : list apk_xattr -> list apk_xattr) (idc : id_cache) (junk : Z).
Context (parser : C -> apk_file_info -> apk_istream (segment S) -> option (Z * C * apk_istream (segment S))) (P : C -> Prop).
Hypothesis parser_keeps : forall c fi sg r c' sg', no_nul (fi_name fi) -> P c -> parser c fi sg = Some (r, c', sg') -> P c'.

Lemma until_nul_no_nul s : no_nul (until_nul s).
Proof. induction s as [|x s IH]; [by constructor|]. cbn. destruct (Z.eqb_spec x 0); [by constructor|]. by constructor. Qed.

Lemma cstr_at_no_nul mem off s : cstr_at mem off = Some s -> no_nul s.
Proof. unfold cstr_at. destruct (_ <? _); [|done]. intros [= <-]. apply until_nul_no_nul. Qed.

Lemma tar_switch_ctx (t t' : @tar_state S C) h e k r e' k' : tar_switch junk t h e k = Some (r, t', e', k') -> ts_ctx t' = ts_ctx t.
Proof.
  unfold tar_switch. destruct (_ =? chr "L").
  { destruct (apk_istream_read _ _) as [[[? ?] ?]|]; [|done]. by intros [= <- <- <- <-]. }
  repeat match goal with |- (if ?b then _ else _) = _ -> _ => destruct b; [by intros [= <- <- <- <-]|] end.
  destruct (_ =? chr "x"); [|by intros [= <- <- <- <-]].
  destruct (apk_istream_read _ _) as [[[? ?] ?]|]; [|done]. by intros [= <- <- <- <-].
Qed.

Lemma tar_file_ctx t h e r t' : P (ts_ctx t) -> tar_file parser t h e = Some (r, t') -> P (ts_ctx t').
Proof.
  intros HP. unfold tar_file. destruct (file_info_of t h e) as [fi|] eqn:Hfi; [|done]. cbn [mbind option_bind].
  assert (Hn : no_nul (fi_name fi)).
  { revert Hfi. unfold file_info_of, name_cstr. destruct (name_mem _ _ _) as [[mem off]|]; [|done]. cbn [mbind option_bind].
    destruct (cstr_at mem off) as [nm|] eqn:E; [|done]. cbn [mbind option_bind].
    destruct (match te_link_target e with None => _ | Some _ => _ end); [|done]. intros [= <-]. by apply cstr_at_no_nul in E. }
  destruct (parser _ _ _) as [[[r' c] sg]|] eqn:Hp; [|done]. cbn [mbind option_bind].
  apply parser_keeps in Hp; [|done|done]. destruct (negb _); [by intros [= _ <-]|].
  destruct (segment_close sg) as [[r'' st]|]; [|done]. by intros [= _ <-].
Qed.

Definition step_ctx (s : @tar_step S C) : Prop := match s with TarErr _ t | TarNext t => P (ts_ctx t) end.

Lemma tar_header_step_ctx t h res : P (ts_ctx t) -> tar_header_step sort idc junk parser t h = Some res -> step_ctx res.
Proof.
  intros HP. unfold tar_header_step. destruct (negb _); [by intros [= <-]|].
  destruct (tar_entry_of idc h (ts_name t)) as [e r]. destruct (negb _); [by intros [= <-]|]. set (pre := negb _ && _ && _). clearbody pre.
  set (t1 := if pre then _ else t). set (e1 := if pre then _ else e).
  assert (H1 : P (ts_ctx t1)) by (subst t1; by destruct pre). clearbody t1 e1.
  destruct (_ <=? te_size e1); [by intros [= <-]|].
  match goal with |- context [mbind _ ?m] => destruct m as [[t2 e2]|] eqn:E; [|done] end. cbn [mbind option_bind].
  assert (H2 : P (ts_ctx t2)).
  { destruct (negb _) in E; [|by injection E as <- <-]. destruct (handle_extended_header _ _ _ _) as [[pax e']|]; [|done].
    cbn [mbind option_bind] in E. destruct (apk_fileinfo_hash_xattr_array _ _ _ _). by injection E as <- <-. }
  destruct (tar_switch junk t2 h e2 _) as [[[[r3 t3] e3] skip]|] eqn:Esw; [|done]. cbn [mbind option_bind].
  apply tar_switch_ctx in Esw. rewrite <- Esw in H2. destruct (r3 <? 0); [by intros [= <-]|].
  destruct (name_too_long t3 h e3) as [[]|]; cbn [mbind option_bind]; [by intros [= <-]| |done].
  match goal with |- context [mbind _ ?m] => destruct m as [[[r4 t4] skip4]|] eqn:E4; [|done] end. cbn [mbind option_bind].
  assert (H4 : P (ts_ctx t4)).
  { destruct (negb _) in E4; [|by injection E4 as <- <- <-]. destruct (tar_file parser t3 h e3) as [[r' t']|] eqn:Ef; [|done].
    injection E4 as <- <- <-. by apply tar_file_ctx in Ef. }
  destruct (negb (r4 =? 0)); [by intros [= <-]|]. destruct (skip4 =? 0); [by intros [= <-]|].
  destruct (apk_istream_skip _ _) as [[r' st]|]; [|done]. cbn [mbind option_bind]. by destruct (r' <? 0); intros [= <-].
Qed.

Lemma apk_tar_parse_ctx fuel st c r c' st' : P c -> apk_tar_parse sort idc junk parser fuel st c = Some (r, c', st') -> P c'.
Proof.
  intros HP. unfold apk_tar_parse.
  assert (Hl : forall fuel t r t', P (ts_ctx t) -> tar_loop sort idc junk parser fuel t = Some (r, t') -> P (ts_ctx t')).
  { clear HP c st r c' st' fuel. induction fuel as [|fuel IH]; intros t r t' Ht; [done|]. cbn [tar_loop].
    destruct (apk_istream_read_max _ _) as [[[r1 d] st1]|]; [|done]. cbn [mbind option_bind].
    destruct (negb _); [by intros [= _ <-]|]. destruct (_ =? 0).
    - destruct (ts_end _); [|by apply IH]. destruct (tar_drain fuel st1) as [[r2 st2]|]; [|done]. by intros [= _ <-].
    - destruct (tar_header_step _ _ _ _ _ _) as [step|] eqn:Es; [|done]. cbn [mbind option_bind].
      apply tar_header_step_ctx in Es; [|exact Ht]. destruct step; [by intros [= _ <-]|by apply IH]. }
  destruct (tar_loop _ _ _ _ _ _) as [[r1 t]|] eqn:E; [|done]. cbn [mbind option_bind]. intros [= _ <- _]. by apply Hl in E.
Qed.
End tar_ctx.

(** ** Extracting a package *)

Section extracting.
Context {OS : Os} {FC : FsCtx} {pkey : Type} {CR : Crypto pkey} {FM : Fnmatch} {SIM : Simulate} {IC : InstallCtx} {UC : UndefChecksum}.
Context (K : fname) (HK : user_name K).
(** Scripts are not run, or kept in memory and leave the file alone. *)
Definition scripts_quiet : Prop :=
  ic_no_scripts = true \/ ic_memfd = true /\ forall type nm text args w, safe K w (exec_script type nm text args w).2.
Hypothesis scripts_safe : scripts_quiet.
Implicit Types s : idb.

Definition safe_i s s' : Prop := safe K (i_w s) (i_w s').

#[local] Instance safe_i_refl : Reflexive safe_i.
Proof. by intros s _ _. Qed.
#[local] Instance safe_i_trans : Transitive safe_i.
Proof. intros s1 s2 s3. apply safe_trans. Qed.

Definition safe_x (x x' : install_ctx) : Prop := safe_i (ix_db x) (ix_db x').
#[local] Instance safe_x_trans : Transitive safe_x.
Proof. intros x1 x2 x3. apply safe_trans. Qed.

(** States with the same world, or a known step. *)
Ltac sdone :=
  first [done | solve [intros _ _; reflexivity]
        | match goal with H : safe_i _ _ |- _ => exact H | H : safe _ _ _ |- _ => exact H | H : safe_x _ _ |- _ => exact H end].

Lemma safe_run_w {A} (f : world -> A * world) s : safe K (i_w s) (f (i_w s)).2 -> safe_i s (run_w f s).2.
Proof. intros H. unfold run_w, safe_i. by destruct (f (i_w s)). Qed.

Lemma safe_run_script pkg type args s : safe_i s (apk_ipkg_run_script pkg type args s).
Proof.
  unfold apk_ipkg_run_script, ipkg_run_script. cbv zeta. destruct (_ ≫= _) as [text|]; [|done].
  destruct scripts_safe as [->|[Hm Hexec]]; [sdone|]. destruct (_ || _); [sdone|]. destruct (_ <? 0); [sdone|].
  unfold script_file. rewrite Hm. pose proof (safe_run_w other_call (set_i_script_dirs true s) (safe_other K _)) as H1.
  destruct (run_w other_call _) as [r1 s1]. cbn in H1. destruct (r1 <? 0); [sdone|].
  match goal with |- context [exec_script ?a ?b ?c ?d ?w] => pose proof (Hexec a b c d w) as Hs; destruct (exec_script a b c d w) as [r w1] end.
  destruct (r <? 0); by etrans.
Qed.

Lemma safe_dir_update diri s : safe_i s (dir_update_permissions diri s).
Proof.
  unfold dir_update_permissions. cbv zeta. destruct (_ || _); [sdone|].
  match goal with |- context [run_w ?f ?s1] => pose proof (safe_run_w f s1 (safe_dir_update_perms _ _ _ _ _ _)) as Hs; destruct (run_w f s1) as [r s2] end.
  destruct (negb _); sdone.
Qed.

Lemma safe_mkdir d acl s : safe_i s (apk_db_dir_mkdir d acl s).2.
Proof. unfold apk_db_dir_mkdir. destruct simulate; [done|]. apply safe_run_w, safe_dir_create. Qed.

Lemma safe_prepare dir expected acl s : safe_i s (apk_db_dir_prepare dir expected acl s).
Proof.
  unfold apk_db_dir_prepare. cbv zeta. destruct (_ =? 0); [done|]. destruct (dr_created _); [done|].
  set (s1 := upd_i_fs _ s). change (safe_i s) with (safe_i s1). clearbody s1.
  assert (Hmk : forall d s, safe_i s (let '(r, s) := apk_db_dir_mkdir d acl s in
                              if r =? 0 then upd_i_fs (upd_dir dir (set_dr_created true true)) s else s)).
  { intros d s2. pose proof (safe_mkdir d acl s2) as Hd. destruct (apk_db_dir_mkdir d acl s2) as [r s3]. destruct (r =? 0); sdone. }
  destruct expected as [e|]; [|apply Hmk].
  match goal with |- context [run_w ?f s1] => pose proof (safe_run_w f s1 (safe_dir_check _ _ _ _ _ _)) as Hc; destruct (run_w f s1) as [r s2] end.
  cbn in Hc. destruct (r =? _); [etrans; [exact Hc|apply Hmk]|]. destruct (r =? 0); sdone.
Qed.

Lemma safe_apply diri s s' : dir_apply_diri_permissions diri s = Some s' -> safe_i s s'.
Proof.
  unfold dir_apply_diri_permissions. cbv zeta. destruct (dr_owner _) as [o|]; [|intros [= <-]; sdone].
  destruct (apk_pkg_replaces_dir _ _) as [r|]; [|done]. cbn [mbind option_bind]. destruct (negb _); [by intros [= <-]|].
  destruct (negb _); intros [= <-]; [apply (safe_dir_update diri s)|sdone].
Qed.

Lemma safe_pending x : safe_x x (apk_db_run_pending_script x).
Proof. unfold apk_db_run_pending_script. destruct (negb _); [sdone|]. unfold safe_x. cbn. apply safe_run_script. Qed.

Lemma safe_extract_result r file link ae x : safe_x x (extract_result r file link ae x).2.
Proof. unfold extract_result. cbv zeta. destruct (0 <? r); repeat destruct (_ =? _); sdone. Qed.

Lemma safe_install_entry {S} `{IstreamOps S} ae bfile diri file link (st : apk_istream S) x r x' st' :
  no_nul (fi_name ae) -> install_entry ae bfile diri file link st x = Some (r, x', st') -> safe_x x x'.
Proof.
  intros Hn. unfold install_entry. cbv zeta.
  set (fl := match file with Some _ => _ | None => _ end). destruct fl as [a f].
  destruct (apk_fs_extract _ _ _ _) as [[[r1 st1] w1]|] eqn:E; [|done]. cbn [mbind option_bind].
  apply (safe_fs_extract K) in E; [|done|done].
  match goal with |- context [extract_result ?a ?b ?c ?d ?x0] => pose proof (safe_extract_result a b c d x0) as Hr; destruct (extract_result a b c d x0) as [ret x2] end.
  intros [= _ <- _]. unfold safe_x, safe_i in *. cbn in *. by etrans.
Qed.

(** Whatever an entry of an archive says, no file that is already there changes. *)
Lemma safe_install_file {S} `{IstreamOps S} x ae (st : apk_istream S) r x' st' :
  no_nul (fi_name ae) -> apk_db_install_file x ae st = Some (r, x', st') -> safe_x x x'.
Proof.
  intros Hn. unfold apk_db_install_file. pose proof (safe_pending x) as Hp. set (x1 := apk_db_run_pending_script x) in *. clearbody x1.
  intros E. transitivity x1; [exact Hp|]. clear Hp. revert E. destruct (malicious_name _); [intros [= _ <- _]; sdone|]. destruct (negb _).
  - unfold install_nondir. cbv zeta. destruct (match apk_blob_rsplit _ _ with Some _ => _ | None => _ end) as [bdir bfile].
    destruct (apk_db_diri_query _ _) as [diri f]. set (x2 := set_ix_db _ x1).
    match goal with |- context [mbind _ ?m] => destruct m as [[x3|[d x3]]|] eqn:E; [| |done] end; cbn [mbind option_bind].
    { intros [= _ <- _]. destruct diri; [done|]. destruct bdir; [injection E as <-; sdone|]. by destruct (apk_db_diri_get _ _ _) as [[? ?]|]. }
    assert (H3 : safe_x x1 x3).
    { destruct diri; [injection E as <- <-; sdone|]. destruct bdir; [done|]. destruct (apk_db_diri_get _ _ _) as [[? ?]|]; [|done]. injection E as <- <-; sdone. }
    match goal with |- context [match ?m with pair _ _ => _ end] => destruct m as [found x4] eqn:E4 end.
    assert (H4 : safe_x x1 x4).
    { destruct (fi_link_target ae); [|injection E4 as _ <-; sdone]. destruct (_ =? S_IFREG); [|injection E4 as _ <-; sdone].
      destruct (apk_db_ipkg_find_file _ _). injection E4 as _ <-; sdone. }
    destruct found as [[l|]|]; [|intros [= _ <- _]; sdone|].
    all: match goal with |- context [mbind _ ?m] => destruct m as [v|]; [|done] end; cbn [mbind option_bind].
    all: destruct (_ && _); [intros [= _ <- _]; sdone|]; destruct (v =? _); [intros [= _ <- _]; sdone|].
    all: intros Ee; apply safe_install_entry in Ee; [|done]; by etrans.
  - unfold install_dir. cbv zeta. destruct (apk_db_diri_get _ _ _) as [[diri f]|]; [|done]. cbn [mbind option_bind].
    destruct (dir_apply_diri_permissions _ _) as [s2|] eqn:E; [|done]. cbn [mbind option_bind]. apply safe_apply in E.
    match goal with |- context [mbind _ (dr_owner ?o)] => destruct (dr_owner o) end; cbn [mbind option_bind]; [|done]. intros [= _ <- _]. unfold safe_x. cbn [ix_db set_ix_db add_ix_size].
    etrans; [exact E|apply safe_prepare].
Qed.

Section package.
Context {CC : CryptoCtx pkey} {S : Type} `{IstreamOps S} {zs : Type} `{Zlib zs}.
Context (trust : apk_trust pkey) (verify_alg : Z) (verify_digest : blob) (turns : nat).
Context (sort : list apk_xattr -> list apk_xattr) (idc : id_cache) (junk : Z) (fuel : nat) (bufsize : Z).
#[local] Instance package_read' : IstreamOps (@v2_source pkey S zs) := gzi_read (Some (apk_sign_ctx_mpart_cb trust verify_alg verify_digest)) turns.

Lemma safe_meta_loop n x sg x' sg' : install_meta_loop (S := S) (zs := zs) trust verify_alg verify_digest turns n x sg = Some (x', sg') -> safe_x x x'.
Proof.
  revert x sg. induction n as [|n IH]; intros x sg; [done|]. cbn [install_meta_loop].
  destruct (apk_istream_get_delim _ _) as [[[r l] sg1]|]; [|done]. cbn [mbind option_bind]. destruct (negb _); [intros [= <- _]; sdone|].
  destruct (read_info_line x l sg1) as [[x1 sg2]|] eqn:E; [|done]. cbn [mbind option_bind]. intros Hl. apply IH in Hl.
  transitivity x1; [|exact Hl]. revert E. unfold read_info_line. cbv zeta. destruct (_ || _); [intros [= <- _]; sdone|].
  destruct (apk_blob_split l _) as [[a b]|]; [|intros [= <- _]; sdone]. destruct (_ =? 0).
  { destruct (apk_blob_pull_deps _ _ _ _) as [[[? ?] ?]|]; [|done]. intros [= <- _]; sdone. }
  destruct (_ =? 0); [intros [= <- _]; sdone|]. destruct (_ =? 0); [intros [= <- _]; sdone|].
  destruct (apk_extract_v2_control _ _ _); [|done]. intros [= <- _]; sdone.
Qed.
Lemma safe_entry e fi sg r e' sg' :
  no_nul (fi_name fi) ->
  apk_extract_v2_entry trust verify_alg verify_digest turns (extract_installer (S := S) (zs := zs) trust verify_alg verify_digest turns) e fi sg = Some (r, e', sg') ->
  safe_x (xs_client e) (xs_client e').
Proof.
  intros Hn. unfold apk_extract_v2_entry. destruct (apk_sign_ctx_process_file _ _ _ _ _ _) as [[r1 sg1]|]; [|done]. cbn [mbind option_bind].
  destruct (r1 <=? 0); [intros [= _ <- _]; sdone|]. cbv zeta. destruct (negb (sc_control_started _)); [intros [= _ <- _]; sdone|].
  cbn [op_v2meta op_script op_v2index op_file extract_installer]. destruct (_ || _).
  - destruct (_ =? chr ".").
    + destruct (xs_is_index _); [intros [= _ <- _]; sdone|]. destruct (_ =? 0).
      { unfold apk_db_install_v2meta. destruct (install_meta_loop _ _ _ _ _ _ _) as [[x1 sg2]|] eqn:E; [|done]. cbn. intros [= _ <- _]. by apply safe_meta_loop in E. }
      destruct (_ =? 0); [intros [= _ <- _]; sdone|]. destruct (negb _); [|intros [= _ <- _]; sdone].
      unfold apk_db_install_script, apk_ipkg_add_script. destruct (_ <? _); [cbn; intros [= _ <- _]; sdone|].
      destruct (apk_blob_from_istream _ _) as [[[? ?] ?]|]; [|done]. cbn. intros [= _ <- _]; sdone.
    + destruct (xs_is_package _); intros [= _ <- _]; sdone.
  - destruct (negb _); [intros [= _ <- _]; sdone|]. destruct (_ =? chr "."); [intros [= _ <- _]; sdone|].
    destruct (apk_db_install_file _ _ _) as [[[? x1] ?]|] eqn:E; [|done]. cbn. intros [= _ <- _]. by apply safe_install_file in E.
Qed.

Lemma safe_unpack_stream st pkg upgrade args s r s' :
  unpack_stream (S := S) (zs := zs) trust verify_alg verify_digest turns sort idc junk fuel bufsize st pkg upgrade args s = Some (r, s') -> safe_i s s'.
Proof.
  unfold unpack_stream. set (x := ICtx _ _ _ _ _ _). destruct (apk_extract_v2 _ _ _ _ _ _ _ _ _ _ _ _ _) as [[[r1 x1] g]|] eqn:E; [|done]. cbn [mbind option_bind].
  assert (H1 : safe_x x x1).
  { revert E. unfold apk_extract_v2. destruct (apk_istream_zlib _ _ _ _); [|intros [= _ <- _]; sdone].
    destruct (apk_tar_parse _ _ _ _ _ _ _) as [[[r2 e] gis]|] eqn:Et; [|done]. cbn. intros [= _ <- _].
    apply (apk_tar_parse_ctx sort idc junk _ (fun e => safe_x x (xs_client e))) in Et; [done| |sdone].
    intros c fi sg r3 c' sg' Hn Hc Hp. apply safe_entry in Hp; [|done]. by etrans. }
  destruct (negb _); [intros [= _ <-]; exact H1|]. intros [= _ <-]. change (safe_x x (apk_db_run_pending_script x1)). transitivity x1; [exact H1|apply safe_pending].
Qed.
End package.

Lemma safe_unpack {CC : CryptoCtx pkey} {S : Type} `{IstreamOps S} {zs : Type} `{Zlib zs} trust turns sort idc junk fuel bufsize st pkg upgrade args s r s' :
  apk_db_unpack_pkg (S := S) (zs := zs) trust turns sort idc junk fuel bufsize st pkg upgrade args s = Some (r, s') -> safe_i s s'.
Proof. apply safe_unpack_stream. Qed.
End extracting.
