(* ===== verification/InstallKeep.v ===== *)
(** Files that the user has changed, in protected directories, survive upgrades and removals (Install.v).

    A file of the disk is followed through moving the files of a new package to their places and through deleting the
    files of an old one, for any failures of the system calls. *)
From Stdlib Require Import ZArith Lia Ascii String.
From stdpp Require Import base numbers list option gmap.
From S2P Require Import Prelude Clib Blob Codec Version Array Dep Package SolverState Database AdbTrust Stream Tar TarThm Gunzip ExtractV2 InstalledDb Disk FsDir FsThm Install InstallThm.

(** ** What does not change in the tables *)

Definition dir_static (d : apk_db_dir) : bytes * Z * Z := (dr_name d, dr_hash d, dr_protect_mode d).
Definition file_static (f : apk_db_file) : bytes * Z * bytes * Z := (f_name f, f_digest_alg f, f_digest f, f_diri f).

(** Names, protection and digests of all directories and files are the same, and packages own the same. *)
Record same_layout (f f' : fs_db) : Prop := {
  sl_dir a : dir_static (get_dir f' a) = dir_static (get_dir f a);
  sl_diri a : get_diri f' a = get_diri f a;
  sl_file a : file_static (get_file f' a) = file_static (get_file f a);
  sl_owned : fs_owned f' = fs_owned f;
}.

#[export] Instance same_layout_refl : Reflexive same_layout.
Proof. by intros f. Qed.
#[export] Instance same_layout_trans : Transitive same_layout.
Proof. intros f1 f2 f3 [A1 A2 A3 A4] [B1 B2 B3 B4]. split; intros; congruence. Qed.

Lemma get_upd_dir f a g b : get_dir (upd_dir a g f) b = if bool_decide (b = a) then g (get_dir f a) else get_dir f b.
Proof.
  unfold get_dir at 1, upd_dir. cbn. case_bool_decide as E; [subst b; by rewrite lookup_insert_eq|by rewrite lookup_insert_ne].
Qed.
Lemma get_upd_file f a g b : get_file (upd_file a g f) b = if bool_decide (b = a) then g (get_file f a) else get_file f b.
Proof.
  unfold get_file at 1, upd_file. cbn. case_bool_decide as E; [subst b; by rewrite lookup_insert_eq|by rewrite lookup_insert_ne].
Qed.

Lemma layout_upd_dir a g f : (forall d, dir_static (g d) = dir_static d) -> same_layout f (upd_dir a g f).
Proof. intros Hg. split; try done. intros b. rewrite get_upd_dir. case_bool_decide as E; [subst b; apply Hg|done]. Qed.
Lemma layout_upd_file a g f : (forall x, file_static (g x) = file_static x) -> same_layout f (upd_file a g f).
Proof. intros Hg. split; try done. intros b. rewrite get_upd_file. case_bool_decide as E; [subst b; apply Hg|done]. Qed.

(** Steps that change neither the table nor the files. *)
Record same_tab (f f' : fs_db) : Prop := {
  st_layout : same_layout f f';
  st_tab : fs_file_tab f' = fs_file_tab f;
  st_num : fs_num_files f' = fs_num_files f;
  st_files : fs_files f' = fs_files f;
}.

#[export] Instance same_tab_refl : Reflexive same_tab.
Proof. by intros f. Qed.
#[export] Instance same_tab_trans : Transitive same_tab.
Proof. intros f1 f2 f3 [A1 A2 A3 A4] [B1 B2 B3 B4]. split; [by etrans|congruence..]. Qed.

Lemma same_tab_dir a g f : (forall d, dir_static (g d) = dir_static d) -> same_tab f (upd_dir a g f).
Proof. intros Hg. split; [by apply layout_upd_dir|done..]. Qed.

(** What every turn of a loop keeps. *)
Lemma fold_opt_inv {A B} (P : B -> Prop) (f : A -> B -> option B) l b b' :
  P b -> (forall x b b', x ∈ l -> P b -> f x b = Some b' -> P b') -> fold_opt f l b = Some b' -> P b'.
Proof.
  revert b. induction l as [|x l IH]; intros b Hb Hf; [by intros [= <-]|]. cbn. destruct (f x b) as [b1|] eqn:E; [|done]. cbn.
  apply IH; [by apply (Hf x b b1); [left| |]|]. intros y c c' Hy. apply Hf. by right.
Qed.

(** The files of a package, with their directory instances. *)
Definition pkg_files (f : fs_db) (pkg : Z) : list (Z * Z) :=
  default [] (fs_owned f !! pkg) ≫= fun di => pair di <$> di_files (get_diri f di).

Lemma elem_of_pkg_files f pkg di file :
  (di, file) ∈ pkg_files f pkg <-> di ∈ default [] (fs_owned f !! pkg) /\ file ∈ di_files (get_diri f di).
Proof.
  unfold pkg_files. rewrite list_elem_of_bind. split.
  - intros (x & Hx & Hd). apply list_elem_of_fmap in Hx as (y & [= -> ->] & Hy). done.
  - intros [H1 H2]. exists di. split; [|done]. apply list_elem_of_fmap. by exists file.
Qed.

Lemma pkg_files_layout f f' pkg : same_layout f f' -> pkg_files f' pkg = pkg_files f pkg.
Proof.
  intros [_ Hd _ Ho]. unfold pkg_files. rewrite Ho. generalize (default [] (fs_owned f !! pkg)). intros l.
  induction l as [|x l IH]; [done|]. cbn. by rewrite IH, Hd.
Qed.

Section keep.
Context {OS : Os} {FC : FsCtx} {pkey : Type} {CR : Crypto pkey} {FM : Fnmatch} {SIM : Simulate} {IC : InstallCtx} {UC : UndefChecksum}.
Implicit Types s : idb.

(** The directory of an instance, its operations, and the path of a file of it on the disk. *)
Definition inst_dir (f : fs_db) (di : Z) : apk_db_dir := get_dir f (di_dir (get_diri f di)).
Definition fsdir_of (f : fs_db) (ctx : bytes) (di : Z) : apk_fsdir := apk_fsdir_get (dr_name (inst_dir f di)) (Some ctx).
Definition target (f : fs_db) (di file : Z) : option bytes :=
  let d := fsdir_of f [] di in
  if d_uvol d then None else Some (apk_pathbuilder_cstr (file_pb d (f_name (get_file f file)))).
(** The path may lead to the file [K]: whatever links there are among the directories, it has the same last component. *)
Definition aims (K : fname) (path : option bytes) : bool := match path with Some p => negb (elsewhereb K p) | None => false end.
Definition key_of (f : fs_db) (di file : Z) : Z * bytes * bytes := file_key (inst_dir f di) (f_name (get_file f file)).

Lemma layout_dir f f' di : same_layout f f' -> dir_static (inst_dir f' di) = dir_static (inst_dir f di).
Proof. intros [Hd Hi _ _]. unfold inst_dir. by rewrite Hi, Hd. Qed.

Lemma target_layout f f' di file : same_layout f f' -> target f' di file = target f di file.
Proof.
  intros Hl. pose proof (layout_dir f f' di Hl) as Hd. pose proof (sl_file _ _ Hl file) as Hf. unfold dir_static, file_static in *.
  unfold target, fsdir_of. injection Hd as -> _ _. by injection Hf as -> _ _ _.
Qed.
Lemma key_layout f f' di file : same_layout f f' -> key_of f' di file = key_of f di file.
Proof.
  intros Hl. pose proof (layout_dir f f' di Hl) as Hd. pose proof (sl_file _ _ Hl file) as Hf. unfold dir_static, file_static in *.
  unfold key_of, file_key. injection Hd as -> -> _. by injection Hf as -> _ _ _.
Qed.

(** ** Comparing a file with its record *)

(** The file on the disk is not what the record says. *)
Definition local_change (i : inode) (dbf : option apk_db_file) : bool :=
  match dbf with
  | None => true
  | Some f =>
      let alg := f_digest_alg f in
      (alg =? APK_DIGEST_NONE) || is_dir i ||
      negb (apk_digest_cmp_blob (if is_lnk i then (apk_digest_calc digest_zero alg (in_data i)).2 else digest_final alg (in_data i))
              alg (Some (apk_dbf_digest_blob f)) =? 0)
  end.

Lemma local_change_same i i' f f' :
  in_data i' = in_data i -> in_type i' = in_type i -> file_static <$> f' = file_static <$> f -> local_change i' f' = local_change i f.
Proof.
  intros Hd Ht Hf. destruct f as [f|], f' as [f'|]; try done. cbn in Hf. injection Hf as H1 H2 H3 H4.
  unfold local_change, apk_dbf_digest_blob, is_dir, is_lnk. by rewrite Hd, Ht, H2, H3.
Qed.

(** Reading the state of a file changes no name and no inode. *)
Definition same_files (w w' : world) : Prop := dk_names (w_disk w') = dk_names (w_disk w) /\ dk_inodes (w_disk w') = dk_inodes (w_disk w).

Lemma same_files_locate w w' p : same_files w w' -> locate (w_disk w') p = locate (w_disk w) p.
Proof. intros [H1 H2]. apply locate_ext. intros k. unfold inode_at. by rewrite H1, H2. Qed.

Lemma sys_same {A} fail (f : disk -> A * disk) d : (forall d, (f d).2 = d) -> dk_names (sys fail f d).2 = dk_names d /\ dk_inodes (sys fail f d).2 = dk_inodes d.
Proof. intros Hf. unfold sys. destruct (0 <? _); [done|]. by rewrite Hf. Qed.

Lemma on_disk_same {A} (f : disk -> A * disk) w :
  (dk_names (f (w_disk w)).2 = dk_names (w_disk w) /\ dk_inodes (f (w_disk w)).2 = dk_inodes (w_disk w)) -> same_files w (on_disk f w).2.
Proof. unfold on_disk, same_files. by destruct (f (w_disk w)). Qed.

Lemma fileinfo_same p alg w : same_files w (apk_fileinfo_get p alg w).2.
Proof.
  assert (Hl : forall w, same_files w (on_disk (sys_lstat p) w).2) by (intros w0; apply on_disk_same, sys_same; intros d; by destruct (at_inode _ _ _)).
  assert (Ho : forall w, same_files w (on_disk (sys_open p) w).2)
    by (intros w0; apply on_disk_same, sys_same; intros d; unfold with_inode; by destruct (at_inode _ _ _)).
  assert (Hr : forall w, same_files w (on_disk sys_read w).2) by (intros w0; by apply on_disk_same, sys_same).
  unfold apk_fileinfo_get. specialize (Hl w). destruct (on_disk (sys_lstat p) w) as [r w1]. cbn [snd] in Hl. destruct r as [|[ino i]]; [exact Hl|].
  destruct (_ =? _); [exact Hl|]. destruct (is_dir i); [exact Hl|]. destruct (is_lnk i).
  - destruct (_ <? _); [exact Hl|]. specialize (Hr w1). destruct (on_disk sys_read w1) as [r w2]. cbn [snd] in Hr.
    destruct (r <? 0); unfold same_files in *; cbn [snd]; intuition congruence.
  - specialize (Ho w1). destruct (on_disk (sys_open p) w1) as [r w2]. cbn [snd] in Ho. destruct (r <? 0); [unfold same_files in *; cbn [snd]; intuition congruence|].
    specialize (Hr w2). destruct (on_disk sys_read w2) as [r' w3]. unfold same_files in *. cbn [snd] in *. intuition congruence.
Qed.

Lemma file_info_same d fn alg w : same_files w (apk_fsdir_file_info d fn alg w).2.
Proof. unfold apk_fsdir_file_info. destruct (d_uvol d); [done|]. apply fileinfo_same. Qed.

Lemma audit_same d fn dbf s : same_files (i_w s) (i_w (apk_db_audit_file d fn dbf s).2).
Proof.
  unfold apk_db_audit_file. set (alg := match dbf with Some _ => _ | None => _ end). pose proof (file_info_same d fn alg (i_w s)) as H.
  destruct (apk_fsdir_file_info _ _ _ _) as [[r fi] w1]. destruct (_ || _); [exact H|]. by destruct dbf.
Qed.

Lemma safe_audit K d fn dbf s : safe_i K s (apk_db_audit_file d fn dbf s).2.
Proof.
  unfold apk_db_audit_file, apk_fsdir_file_info, fsys_file_info. destruct (d_uvol d); [by intros _ _|].
  match goal with |- context [apk_fileinfo_get ?p ?a ?w] => pose proof (safe_fileinfo K p a w) as H; destruct (apk_fileinfo_get p a w) as [[r fi] w1] end.
  destruct (_ || _); [exact H|]. by destruct dbf.
Qed.

Lemma audit_fs d fn dbf s : i_fs (apk_db_audit_file d fn dbf s).2 = i_fs s /\ i_store (apk_db_audit_file d fn dbf s).2 = i_store s.
Proof.
  unfold apk_db_audit_file. destruct (apk_fsdir_file_info _ _ _ _) as [[r fi] w1]. destruct (_ || _); [done|]. by destruct dbf.
Qed.

(** The results of calls when files that are there are never reported as missing. *)
Section faults.
Hypothesis no_enoent : forall n, os_fault n <> ENOENT.

Lemma read_result d : let r := (sys_read d).1 in r = 0 \/ r < 0 /\ r <> - ENOENT.
Proof.
  unfold sys_read, sysz, sys. destruct (Z.ltb_spec 0 (os_fault (dk_calls d))); [right|by left]. cbn.
  pose proof (no_enoent (dk_calls d)). lia.
Qed.

Lemma lstat_result p d k i : locate d p = inr k -> inode_at d k = Some i ->
  (exists e, (sys_lstat p d).1 = inl e /\ e <> 0 /\ e <> - ENOENT) \/ exists n, (sys_lstat p d).1 = inr (n, i).
Proof.
  intros Hk Hi. unfold sys_lstat, stat_inode, sys. destruct (Z.ltb_spec 0 (os_fault (dk_calls d))).
  - left. exists (- os_fault (dk_calls d)). pose proof (no_enoent (dk_calls d)). split; [done|lia].
  - right. fold (counted d). unfold at_inode. rewrite locate_counted, Hk. cbn [dk_names counted]. unfold inode_at in Hi.
    destruct (dk_names d !! k) as [n|]; [|done]. cbn in Hi |- *. exists n. by rewrite Hi.
Qed.

(** The state of a file that is there: an error, or a digest that is not set or the one of the contents. *)
Lemma fileinfo_outcome p alg w k i : locate (w_disk w) p = inr k -> inode_at (w_disk w) k = Some i ->
  let '(r, fi, _) := apk_fileinfo_get p alg w in
  (r <> 0 /\ r <> - ENOENT) \/
  r = 0 /\ (alg = APK_DIGEST_NONE \/ fs_digest_of fi = digest_zero \/ is_dir i = false /\
    fs_digest_of fi = if is_lnk i then (apk_digest_calc digest_zero alg (in_data i)).2 else digest_final alg (in_data i)).
Proof.
  intros Hk Hi. unfold apk_fileinfo_get. unfold on_disk at 1. pose proof (lstat_result p (w_disk w) k i Hk Hi) as Hl.
  destruct (sys_lstat p (w_disk w)) as [r0 d0]. cbn [fst] in Hl. destruct Hl as [(e & -> & H1 & H2)|(n & ->)]; [by left|].
  destruct (Z.eqb_spec alg APK_DIGEST_NONE); [right; auto|]. destruct (is_dir i) eqn:Ed; [right; auto|].
  destruct (is_lnk i).
  - destruct (_ <? _); [by left|]. unfold on_disk. cbn [w_disk set_disk]. pose proof (read_result d0) as Hr. destruct (sys_read d0) as [r d1]. cbn [fst] in Hr.
    destruct Hr as [->|[Hr1 Hr2]]; [right; auto|]. destruct (Z.ltb_spec r 0); [|lia]. left. split; [lia|done].
  - unfold on_disk at 1. cbn [w_disk set_disk]. destruct (sys_open p d0) as [r1 d1]. destruct (r1 <? 0); [right; auto|].
    unfold on_disk. cbn [w_disk set_disk]. pose proof (read_result d1) as Hr. destruct (sys_read d1) as [r d2]. cbn [fst] in Hr.
    destruct Hr as [->|[Hr1 Hr2]]; [right; auto|]. left. split; [lia|done].
Qed.

(** Failures count as changes. *)
Lemma audit_changed d fn dbf s k i :
  d_uvol d = false -> locate (w_disk (i_w s)) (apk_pathbuilder_cstr (file_pb d fn)) = inr k -> inode_at (w_disk (i_w s)) k = Some i -> local_change i dbf = true ->
  (apk_db_audit_file d fn dbf s).1 = true.
Proof.
  intros Hu Hk Hi Hc. unfold apk_db_audit_file, apk_fsdir_file_info, fsys_file_info. rewrite Hu.
  set (alg := match dbf with Some f => f_digest_alg f | None => APK_DIGEST_NONE end).
  pose proof (fileinfo_outcome _ alg _ _ _ Hk Hi) as Ho. destruct (apk_fileinfo_get _ alg _) as [[r fi] w1].
  destruct Ho as [[H1 H2]|[-> Ho]].
  { destruct (Z.eqb_spec r 0); [done|]. cbn. by destruct (Z.eqb_spec r (- ENOENT)). }
  destruct (Z.eqb_spec alg APK_DIGEST_NONE) as [Ea|Ea]; [done|]. cbn [negb orb Z.eqb].
  destruct dbf as [f|]; [|done]. cbn [fst local_change] in *. fold alg in Hc. destruct Ho as [?|[Hz|[Hd Hz]]]; [done| |].
  - rewrite Hz. unfold apk_digest_cmp_blob, digest_zero. cbn [d_alg]. destruct (Z.eqb_spec 0 alg); [done|]. cbn [negb].
    destruct (Z.eqb_spec (alg - 0) 0); [lia|done].
  - destruct (Z.eqb_spec alg APK_DIGEST_NONE); [done|]. rewrite Hd in Hc. cbn [orb] in Hc. by rewrite Hz.
Qed.
End faults.

(** ** Following a file *)

Section follow.
Context (K : fname) (HK : user_name K) (i0 : inode) (Hfile : is_dir i0 = false).
Hypothesis no_enoent : forall n, os_fault n <> ENOENT.
Hypothesis outside : shims_outside.

(** The file is there with its contents. *)
Definition tracks s : Prop :=
  disk_ok (w_disk (i_w s)) /\ exists i, inode_at (w_disk (i_w s)) K = Some i /\ in_data i = in_data i0 /\ in_type i = in_type i0.

Lemma tracks_file s : tracks s -> is_file K (w_disk (i_w s)).
Proof. intros (_ & i & Hi & _ & Ht). exists i. split; [done|]. unfold is_dir in *. by rewrite Ht. Qed.

Lemma tracks_safe s s' : tracks s -> safe_i K s s' -> tracks s'.
Proof.
  intros Ht Hs. pose proof (Hs (proj1 Ht) (tracks_file s Ht)) as Hk. destruct Ht as (Hok & i & Hi & Hd & Hty).
  split; [by apply Hk|]. destruct (kept_inode_at K _ _ i Hk Hok Hi) as (i' & Hi' & Hd' & Hty'). exists i'. split; [done|]. split; congruence.
Qed.

(** The path of a file leads to [K] now. *)
Definition hits s (d : apk_fsdir) (fn : bytes) : Prop := locate (w_disk (i_w s)) (apk_pathbuilder_cstr (file_pb d fn)) = inr K.

Lemma hits_same s s' d fn : same_files (i_w s) (i_w s') -> hits s' d fn -> hits s d fn.
Proof. intros Hs. unfold hits. by rewrite (same_files_locate _ _ _ Hs). Qed.
Lemma hits_aims s d fn : hits s d fn -> elsewhereb K (apk_pathbuilder_cstr (file_pb d fn)) = false.
Proof. intros Hh. destruct (elsewhereb _ _) eqn:E; [|done]. apply elsewhereb_ok, (elsewhere_locate _ _ (w_disk (i_w s))) in E. done. Qed.

(** A file whose path may lead to [K] is in a protected directory, and [K] is not the file that [ofile] describes. *)
Definition guarded (dd : apk_db_dir) (d : apk_fsdir) (fn : bytes) (ofile : option apk_db_file) : Prop :=
  d_uvol d = false -> elsewhereb K (apk_pathbuilder_cstr (file_pb d fn)) = false ->
  apk_protect_mode_none (dr_protect_mode dd) = false /\ local_change i0 ofile = true.

Lemma run_ctl_tracks d fn ctrl s r s' :
  tracks s -> no_nul (apk_pathbuilder_get (d_pb d)) ->
  (d_uvol d = false -> ctrl = APK_FS_CTRL_COMMIT \/ ctrl = APK_FS_CTRL_DELETE -> ~ hits s d fn) ->
  run_ctl d fn ctrl s = Some (r, s') -> tracks s' /\ i_fs s' = i_fs s /\ i_store s' = i_store s.
Proof.
  intros Ht Hn Hc. unfold run_ctl. destruct (apk_fsdir_file_control d fn ctrl (i_w s)) as [[r1 w1]|] eqn:E; [|done]. cbn. intros [= <- <-].
  split; [|done]. apply (safe_file_control K) in E; [|done..]. by apply (tracks_safe s).
Qed.

Lemma tracks_audit d fn dbf s :
  tracks s -> d_uvol d = false -> hits s d fn -> local_change i0 dbf = true ->
  (apk_db_audit_file d fn dbf s).1 = true.
Proof.
  intros (_ & i & Hi & Hd & Hty) Hu Hp Hc. apply (audit_changed no_enoent d fn dbf s K i); [done|done|done|].
  by rewrite (local_change_same i0 i dbf dbf).
Qed.

(** A guarded file is not committed over [K]. *)
Lemma migrate_ctrl_guard dd d fl ofile s :
  tracks s -> guarded dd d (f_name fl) ofile -> d_uvol d = false -> hits s d (f_name fl) ->
  (migrate_ctrl dd d fl ofile s).1 = APK_FS_CTRL_CANCEL \/ (migrate_ctrl dd d fl ofile s).1 = APK_FS_CTRL_APKNEW.
Proof.
  intros Ht Hg Hu Hp. destruct (Hg Hu (hits_aims _ _ _ Hp)) as [H1 H2]. pose proof (tracks_audit d (f_name fl) ofile s Ht Hu Hp H2) as Ha.
  unfold migrate_ctrl. cbv zeta. destruct (match ofile with Some _ => _ | None => _ end); [by left|]. rewrite H1.
  destruct (apk_db_audit_file d (f_name fl) ofile s) as [c s1]. cbn in Ha. subst c. cbn [negb]. destruct ic_clean_protected; [by left|].
  destruct (apk_db_audit_file d (f_name fl) (Some fl) s1) as [[] s2]; [by right|by left].
Qed.

Lemma migrate_ctrl_tracks dd d fl ofile s : tracks s -> tracks (migrate_ctrl dd d fl ofile s).2 /\
  i_fs (migrate_ctrl dd d fl ofile s).2 = i_fs s /\ i_store (migrate_ctrl dd d fl ofile s).2 = i_store s.
Proof.
  intros Ht. unfold migrate_ctrl. cbv zeta. destruct (match ofile with Some _ => _ | None => _ end); [done|]. destruct (apk_protect_mode_none _); [done|].
  pose proof (tracks_safe _ _ Ht (safe_audit K d (f_name fl) ofile s)) as H1. pose proof (audit_fs d (f_name fl) ofile s) as [E1 E2].
  destruct (apk_db_audit_file d (f_name fl) ofile s) as [c s1]. cbn in *. destruct c; cbn [negb]; [|done]. destruct ic_clean_protected; [done|].
  pose proof (tracks_safe _ _ H1 (safe_audit K d (f_name fl) (Some fl) s1)) as H3. pose proof (audit_fs d (f_name fl) (Some fl) s1) as [E3 E4].
  destruct (apk_db_audit_file d (f_name fl) (Some fl) s1) as [c s2]. cbn in *. split; [done|]. split; congruence.
Qed.

Lemma same_files_trans w1 w2 w3 : same_files w1 w2 -> same_files w2 w3 -> same_files w1 w3.
Proof. intros [A1 A2] [B1 B2]. split; congruence. Qed.

Lemma migrate_ctrl_same dd d fl ofile s : same_files (i_w s) (i_w (migrate_ctrl dd d fl ofile s).2).
Proof.
  unfold migrate_ctrl. cbv zeta. destruct (match ofile with Some _ => _ | None => _ end); [done|]. destruct (apk_protect_mode_none _); [done|].
  pose proof (audit_same d (f_name fl) ofile s) as H1. destruct (apk_db_audit_file d (f_name fl) ofile s) as [c s1]. cbn [snd] in H1.
  destruct c; cbn [negb]; [|exact H1]. destruct ic_clean_protected; [exact H1|].
  pose proof (audit_same d (f_name fl) (Some fl) s1) as H2. destruct (apk_db_audit_file d (f_name fl) (Some fl) s1) as [c s2]. cbn [snd] in *.
  by apply (same_files_trans _ (i_w s1)).
Qed.

Lemma migrate_fs_tracks pkg dd d fl ofile s s' :
  tracks s -> no_nul (apk_pathbuilder_get (d_pb d)) -> guarded dd d (f_name fl) ofile ->
  migrate_file_fs pkg dd d fl ofile s = Some s' -> tracks s' /\ i_fs s' = i_fs s.
Proof.
  intros Ht Hn Hg. unfold migrate_file_fs. destruct (f_broken fl); [by intros [= <-]|].
  pose proof (migrate_ctrl_tracks dd d fl ofile s Ht) as (H1 & E1 & E2).
  pose proof (migrate_ctrl_guard dd d fl ofile s Ht Hg) as Hc. pose proof (migrate_ctrl_same dd d fl ofile s) as Hsame.
  destruct (migrate_ctrl dd d fl ofile s) as [ctrl s1]. cbn [fst snd] in *.
  destruct (run_ctl d (f_name fl) ctrl s1) as [[r s2]|] eqn:E; [|done]. cbn [mbind option_bind].
  apply run_ctl_tracks in E as (H2 & E3 & _); [|done|done|].
  2:{ intros Hu Hor Hp. specialize (Hc Hu (hits_same _ _ _ _ Hsame Hp)). by destruct Hor, Hc as [Hc|Hc]; subst ctrl. }
  destruct (r <? 0); [intros [= <-]; split; [exact H2|cbn; congruence]|].
  destruct (_ && _); intros [= <-]; (split; [exact H2|cbn; congruence]).
Qed.

(** *** Moving the files of a package to their places *)

Lemma claim_tracks want dd d file fl ofile s ids :
  tracks s -> let s' := (claim_file want dd d file fl ofile (s, ids)).1 in
  tracks s' /\ same_layout (i_fs s) (i_fs s') /\
  forall k, k <> file_key dd (f_name fl) -> fs_file_tab (i_fs s') !! k = fs_file_tab (i_fs s) !! k.
Proof.
  intros Ht. unfold claim_file. cbv zeta. case_bool_decide; [done|]. destruct ofile as [o|].
  - cbn. split; [exact Ht|]. split.
    + destruct (layout_upd_file o (set_f_audited true) (i_fs s)) as [L1 L2 L3 L4]; [done|]. by split.
    + intros k Hk. by rewrite lookup_insert_ne, lookup_delete_ne.
  - assert (Hid : let s1 := (if want then fileid_get d (f_name fl) s else (None, s)).2 in tracks s1 /\ i_fs s1 = i_fs s).
    { destruct want; [|done]. unfold fileid_get, apk_fsdir_file_info, fsys_file_info. destruct (d_uvol d); [done|].
      match goal with |- context [apk_fileinfo_get ?p ?a ?w] => pose proof (safe_fileinfo K p a w) as H1; destruct (apk_fileinfo_get p a w) as [[r fi] w1] end.
      split; [|done]. by apply (tracks_safe s). }
    destruct (if want then _ else _) as [id s1]. cbn in *. destruct Hid as [H1 E1]. split; [exact H1|]. split.
    + rewrite <- E1. by split.
    + intros k Hk. rewrite lookup_insert_ne by done. by rewrite E1.
Qed.

(** The hypotheses about a file of the package in the tables [f0] at the start. *)
Definition file_guard (f0 : fs_db) (p : Z * Z) : Prop :=
  no_nul (apk_pathbuilder_get (d_pb (fsdir_of f0 [] p.1))) /\
  (aims K (target f0 p.1 p.2) = true ->
   apk_protect_mode_none (dr_protect_mode (inst_dir f0 p.1)) = false /\
   local_change i0 (get_file f0 <$> fs_file_tab f0 !! key_of f0 p.1 p.2) = true).

(** The tables have the names that were there, and the entries of the files that are left. *)
Record mig_inv (f0 : fs_db) (rest : list (Z * Z)) s : Prop := {
  mi_tracks : tracks s;
  mi_layout : same_layout f0 (i_fs s);
  mi_left p : p ∈ rest -> fs_file_tab (i_fs s) !! key_of f0 p.1 p.2 = fs_file_tab f0 !! key_of f0 p.1 p.2;
}.

Lemma mig_inv_sub f0 rest rest' s : mig_inv f0 rest s -> (forall p, p ∈ rest' -> p ∈ rest) -> mig_inv f0 rest' s.
Proof. intros [H1 H2 H3] Hs. split; [done|done|]. auto. Qed.

Lemma migrate_file_step f0 pkg want di ctx dd file rest s ids s' ids' :
  mig_inv f0 ((di, file) :: rest) s -> Forall (file_guard f0) [(di, file)] ->
  (forall p, p ∈ rest -> key_of f0 p.1 p.2 <> key_of f0 di file) ->
  dir_static dd = dir_static (inst_dir f0 di) ->
  migrate_file pkg want dd (apk_fsdir_get (dr_name dd) (Some ctx)) file (s, ids) = Some (s', ids') -> mig_inv f0 rest s'.
Proof.
  intros [Ht Hl Hleft] Hg Hne Hdd. apply Forall_singleton in Hg as [Hn Hg]. cbn [fst snd] in *.
  unfold dir_static in Hdd. injection Hdd as Hname Hhash Hprot.
  assert (Hfl : f_name (get_file (i_fs s) file) = f_name (get_file f0 file)) by (pose proof (sl_file _ _ Hl file) as E; unfold file_static in E; congruence).
  assert (Hkey : file_key dd (f_name (get_file (i_fs s) file)) = key_of f0 di file) by (unfold key_of, file_key; by rewrite Hfl, Hname, Hhash).
  pose proof (Hleft (di, file) ltac:(by left)) as Hk0. cbn [fst snd] in Hk0.
  unfold migrate_file. rewrite Hkey, Hk0. set (o := fs_file_tab f0 !! key_of f0 di file) in *.
  destruct (migrate_file_fs _ _ _ _ _ s) as [s1|] eqn:E; [|done]. cbn [mbind option_bind]. intros E2. apply (inj Some) in E2.
  apply migrate_fs_tracks in E as [H1 Ef]; [|done| |].
  2:{ rewrite Hname. exact Hn. }
  2:{ intros Hu Hp. rewrite Hfl in Hp. rewrite Hname in Hu, Hp. rewrite Hprot.
      assert (Htg : aims K (target f0 di file) = true).
      { unfold target, fsdir_of. cbv zeta. change (d_uvol (apk_fsdir_get (dr_name (inst_dir f0 di)) (Some []))) with (d_uvol (apk_fsdir_get (dr_name (inst_dir f0 di)) (Some ctx))).
        rewrite Hu. cbn [aims]. apply negb_true_iff. exact Hp. }
      destruct (Hg Htg) as [G1 G2]. split; [done|]. rewrite <- G2. apply local_change_same; [done|done|].
      destruct o as [o|]; [|done]. cbn. f_equal. apply (sl_file _ _ Hl). }
  destruct (claim_tracks want dd (apk_fsdir_get (dr_name dd) (Some ctx)) file (get_file (i_fs s) file) o s1 ids H1) as (H2 & H3 & H4).
  rewrite E2 in H2, H3, H4. cbn [fst] in *. rewrite Ef in H3, H4. split; [done|by etrans|].
  intros p Hp. rewrite H4; [apply Hleft; by right|]. rewrite Hkey. by apply Hne.
Qed.

(** The files of one directory instance. *)
Lemma migrate_files_step f0 pkg want di ctx dd files rest s ids s' ids' :
  mig_inv f0 ((pair di <$> files) ++ rest) s -> Forall (file_guard f0) (pair di <$> files) ->
  NoDup ((fun p => key_of f0 p.1 p.2) <$> ((pair di <$> files) ++ rest)) -> dir_static dd = dir_static (inst_dir f0 di) ->
  fold_opt (migrate_file pkg want dd (apk_fsdir_get (dr_name dd) (Some ctx))) files (s, ids) = Some (s', ids') -> mig_inv f0 rest s'.
Proof.
  intros Hi Hg Hnd Hdd. revert s ids Hi. induction files as [|file files IH]; intros s ids Hi; [by intros [= <- <-]|].
  cbn [fold_opt]. destruct (migrate_file _ _ _ _ file (s, ids)) as [[s1 ids1]|] eqn:E; [|done]. cbn [mbind option_bind].
  cbn [fmap list_fmap app] in *. apply NoDup_cons in Hnd as [Hnin Hnd]. apply Forall_cons in Hg as [Hg1 Hg].
  apply (migrate_file_step f0 pkg want di ctx dd file ((pair di <$> files) ++ rest)) in E; [|done|by constructor| |done].
  - by apply IH.
  - intros p Hp Heq. apply Hnin. apply list_elem_of_fmap. exists p. split; [exact (eq_sym Heq)|done].
Qed.

(** The directory instances of one priority: a list of them that is walked, with their files. *)
Definition files_of (f0 : fs_db) (diris : list Z) : list (Z * Z) := diris ≫= fun di => pair di <$> di_files (get_diri f0 di).

Lemma prio_uvol dd ctx prio : apk_fsdir_priority (apk_fsdir_get (dr_name dd) ctx) = prio -> prio <> APK_FS_PRIO_DISK ->
  d_uvol (apk_fsdir_get (dr_name dd) ctx) = true.
Proof. unfold apk_fsdir_priority. destruct (d_uvol _); [done|]. intros <- H. by destruct H. Qed.

Lemma migrate_diri_step f0 pkg want di rest s ids np s' ids' np' :
  mig_inv f0 (files_of f0 (di :: rest)) s -> Forall (file_guard f0) (files_of f0 (di :: rest)) ->
  NoDup ((fun p => key_of f0 p.1 p.2) <$> files_of f0 (di :: rest)) ->
  migrate_diri pkg want APK_FS_PRIO_DISK di (s, ids, np) = Some (s', ids', np') -> mig_inv f0 (files_of f0 rest) s'.
Proof.
  intros Hi Hg Hnd. pose proof (mi_layout _ _ _ Hi) as Hl. unfold migrate_diri. cbv zeta.
  destruct (negb _).
  { intros [= <- _ _]. apply (mig_inv_sub _ _ _ _ Hi). intros p Hp. unfold files_of. cbn. apply elem_of_app. by right. }
  set (dir := di_dir (get_diri (i_fs s) di)). set (s1 := upd_i_fs (upd_dir dir (set_dr_modified true)) s).
  destruct (fold_opt _ _ (s1, ids)) as [[s2 ids2]|] eqn:E; [|done]. cbn [mbind option_bind]. intros [= <- _ _].
  change (di_files (get_diri (i_fs s1) di)) with (di_files (get_diri (i_fs s) di)) in E. rewrite (sl_diri _ _ Hl) in E.
  unfold files_of in Hg, Hnd, Hi. cbn [mbind list_bind] in Hg, Hnd, Hi. apply Forall_app in Hg as [Hg _].
  apply (migrate_files_step f0 pkg want di _ _ _ (files_of f0 rest)) in E; [exact E| |exact Hg|exact Hnd|].
  - destruct Hi as [H1 H2 H3]. split; [exact H1| |exact H3]. etrans; [exact H2|]. apply layout_upd_dir. done.
  - apply (layout_dir f0 (i_fs s) di Hl).
Qed.

(** Volumes do not concern the disk. *)
Lemma migrate_uvol_step f0 pkg want prio di s ids np s' ids' np' :
  prio <> APK_FS_PRIO_DISK -> mig_inv f0 [] s -> no_nul (apk_pathbuilder_get (d_pb (fsdir_of f0 [] di))) ->
  migrate_diri pkg want prio di (s, ids, np) = Some (s', ids', np') -> mig_inv f0 [] s'.
Proof.
  intros Hprio Hi Hn. pose proof (mi_layout _ _ _ Hi) as Hl. unfold migrate_diri. cbv zeta.
  destruct (Z.eqb_spec (apk_fsdir_priority (apk_fsdir_get (dr_name (get_dir (i_fs s) (di_dir (get_diri (i_fs s) di)))) (Some (apk_pkg_ctx (get_pkg (i_store s) pkg))))) prio) as [Hp|Hp];
    cbn [negb]; [|by intros [= <- _ _]].
  apply prio_uvol in Hp as Hu; [|done]. set (d := apk_fsdir_get _ _) in *. set (dir := di_dir (get_diri (i_fs s) di)) in *. set (dd := get_dir (i_fs s) dir) in *.
  set (s1 := upd_i_fs (upd_dir dir (set_dr_modified true)) s). destruct (fold_opt _ _ (s1, ids)) as [[s2 ids2]|] eqn:E; [|done].
  cbn [mbind option_bind]. intros [= <- _ _].
  assert (Hn1 : no_nul (apk_pathbuilder_get (d_pb d))).
  { pose proof (layout_dir f0 (i_fs s) di Hl) as Hd. unfold dir_static in Hd. injection Hd as Hd _ _. unfold fsdir_of in Hn. rewrite <- Hd in Hn. exact Hn. }
  assert (Hi1 : mig_inv f0 [] s1).
  { destruct Hi as [H1 H2 H3]. split; [exact H1| |by intros p Hp'; apply not_elem_of_nil in Hp']. etrans; [exact H2|]. apply layout_upd_dir. done. }
  set (files := di_files (get_diri (i_fs s1) di)) in E. clearbody files s1. revert s1 ids E Hi1.
  induction files as [|file files IH]; intros s1 ids1 E Hi1; [by injection E as -> ->|]. cbn [fold_opt] in E.
  destruct (migrate_file pkg want dd d file (s1, ids1)) as [[s3 ids3]|] eqn:Em; [|done]. cbn [mbind option_bind] in E.
  apply (IH _ _ E). destruct Hi1 as [H1 H2 _]. revert Em. unfold migrate_file.
  destruct (migrate_file_fs _ _ _ _ _ s1) as [s4|] eqn:E4; [|done]. cbn [mbind option_bind]. intros E5. apply (inj Some) in E5.
  apply migrate_fs_tracks in E4 as [H4 Ef]; [|done|done|intros Hf; by rewrite Hu in Hf].
  match type of E5 with claim_file ?a ?b ?c ?x ?y ?o (?z, ?t) = _ => destruct (claim_tracks a b c x y o z t H4) as (G1 & G2 & _) end.
  rewrite E5 in G1, G2. cbn [fst] in G1, G2. rewrite Ef in G2. split; [exact G1|by etrans|by intros p Hp'; apply not_elem_of_nil in Hp'].
Qed.

(** The names of the directories of a package are C strings. *)
Definition dirs_ok (f0 : fs_db) (pkg : Z) : Prop :=
  forall di, di ∈ default [] (fs_owned f0 !! pkg) -> no_nul (apk_pathbuilder_get (d_pb (fsdir_of f0 [] di))).

(** What is assumed of the files of a package that is installed: every file that would replace [K] is in a protected
    directory, and the contents of [K] are not the ones of the file that the tables have under that name. *)
Definition new_pkg_guard (f0 : fs_db) (pkg : Z) : Prop :=
  NoDup ((fun p => key_of f0 p.1 p.2) <$> pkg_files f0 pkg) /\
  dirs_ok f0 pkg /\
  forall di file, (di, file) ∈ pkg_files f0 pkg -> aims K (target f0 di file) = true ->
    apk_protect_mode_none (dr_protect_mode (inst_dir f0 di)) = false /\
    local_change i0 (get_file f0 <$> fs_file_tab f0 !! key_of f0 di file) = true.

(** The next priority is the end or above the one that was handled. *)
Lemma next_priority pkg want prio diris acc s ids np :
  fold_opt (migrate_diri pkg want prio) diris acc = Some (s, ids, np) -> np = acc.2 \/ prio < np.
Proof.
  revert acc. induction diris as [|di diris IH]; intros acc; [intros [= ->]; by left|]. cbn [fold_opt].
  destruct (migrate_diri pkg want prio di acc) as [acc1|] eqn:E; [|done]. cbn [mbind option_bind]. intros H. apply IH in H as [->|H]; [|by right].
  revert E. destruct acc as [[s1 ids1] np1]. unfold migrate_diri. cbv zeta. destruct (negb _).
  - intros [= <-]. cbn. destruct (Z.ltb_spec prio (apk_fsdir_priority (apk_fsdir_get (dr_name (get_dir (i_fs s1) (di_dir (get_diri (i_fs s1) di)))) (Some (apk_pkg_ctx (get_pkg (i_store s1) pkg))))));
      cbn [andb]; [|by left]. destruct (_ <? np1); [by right|by left].
  - destruct (fold_opt _ _ _) as [[s2 ids2]|]; [|done]. cbn. intros [= <-]. by left.
Qed.

Lemma migrate_pass_disk f0 pkg want diris s ids np s' ids' np' :
  mig_inv f0 (files_of f0 diris) s -> Forall (file_guard f0) (files_of f0 diris) ->
  NoDup ((fun p => key_of f0 p.1 p.2) <$> files_of f0 diris) ->
  fold_opt (migrate_diri pkg want APK_FS_PRIO_DISK) diris (s, ids, np) = Some (s', ids', np') -> mig_inv f0 [] s'.
Proof.
  revert s ids np. induction diris as [|di diris IH]; intros s ids np Hi Hg Hnd; [by intros [= <- _ _]|]. cbn [fold_opt].
  destruct (migrate_diri _ _ _ di (s, ids, np)) as [[[s1 ids1] np1]|] eqn:E; [|done]. cbn [mbind option_bind].
  apply (migrate_diri_step f0 _ _ _ diris) in E; [|done..]. unfold files_of in Hg, Hnd. cbn [mbind list_bind] in Hg, Hnd. rewrite fmap_app in Hnd.
  apply Forall_app in Hg as [_ Hg]. apply NoDup_app in Hnd as (_ & _ & Hnd). by apply IH.
Qed.

Lemma migrate_pass_uvol f0 pkg want prio diris s ids np s' ids' np' :
  prio <> APK_FS_PRIO_DISK -> mig_inv f0 [] s -> (forall di, di ∈ diris -> no_nul (apk_pathbuilder_get (d_pb (fsdir_of f0 [] di)))) ->
  fold_opt (migrate_diri pkg want prio) diris (s, ids, np) = Some (s', ids', np') -> mig_inv f0 [] s'.
Proof.
  intros Hp. revert s ids np. induction diris as [|di diris IH]; intros s ids np Hi Hn; [by intros [= <- _ _]|]. cbn [fold_opt].
  destruct (migrate_diri _ _ _ di (s, ids, np)) as [[[s1 ids1] np1]|] eqn:E; [|done]. cbn [mbind option_bind].
  apply (migrate_uvol_step f0) in E; [|done|done|apply Hn; by left]. apply IH; [done|]. intros d Hd. apply Hn. by right.
Qed.

Lemma migrate_tracks pkg want s s' ids :
  tracks s -> new_pkg_guard (i_fs s) pkg -> apk_db_migrate_files pkg want s = Some (s', ids) ->
  tracks s' /\ same_layout (i_fs s) (i_fs s').
Proof.
  intros Ht (Hnd & Hn & Hg). set (f0 := i_fs s) in *. set (diris := default [] (fs_owned f0 !! pkg)) in *.
  assert (E0 : apk_db_migrate_files pkg want s = '(s1, ids1, prio) ← fold_opt (migrate_diri pkg want APK_FS_PRIO_DISK) diris (s, [], APK_FS_PRIO_MAX);
                 migrate_loop 2 pkg want prio (s1, ids1)) by reflexivity. rewrite E0. clear E0.
  match goal with |- context [fold_opt ?g diris ?a] => destruct (fold_opt g diris a) as [[[s1 ids1] np1]|] eqn:E; [|done] end. cbn [mbind option_bind].
  pose proof (next_priority _ _ _ _ _ _ _ _ E) as Hnp1.
  apply (migrate_pass_disk f0) in E as Hi1; [| | |exact Hnd].
  2:{ split; [exact Ht|done|done]. }
  2:{ apply Forall_forall. intros [di file] Hp. apply elem_of_pkg_files in Hp as Hd. split; [apply Hn, Hd|]. by apply Hg. }
  assert (Hloop : forall n prio s1 ids1, prio <> APK_FS_PRIO_DISK -> APK_FS_PRIO_DISK < prio -> mig_inv f0 [] s1 ->
    migrate_loop n pkg want prio (s1, ids1) = Some (s', ids) -> mig_inv f0 [] s').
  { clear E Hnp1 Hi1 s1 ids1 np1. induction n as [|n IH]; intros prio s1 ids1 Hp1 Hp2 Hi; [done|]. cbn [migrate_loop].
    destruct (prio =? APK_FS_PRIO_MAX); [by intros [= <- _]|]. unfold apk_db_migrate_files_for_priority.
    rewrite (sl_owned _ _ (mi_layout _ _ _ Hi)). fold diris. match goal with |- context [fold_opt ?g diris ?a] => destruct (fold_opt g diris a) as [[[s2 ids2] np2]|] eqn:E; [|done] end. cbn [mbind option_bind].
    pose proof (next_priority _ _ _ _ _ _ _ _ E) as Hnp. apply (migrate_pass_uvol f0) in E; [|done|done|done].
    cbn in Hnp. apply IH; [| |done]; destruct Hnp as [->|Hnp]; unfold APK_FS_PRIO_MAX, APK_FS_PRIO_DISK in *; lia. }
  intros Hl. apply Hloop in Hl; [by destruct Hl| | |done]; cbn in Hnp1; destruct Hnp1 as [->|H]; unfold APK_FS_PRIO_MAX, APK_FS_PRIO_DISK in *; lia.
Qed.

(** *** Deleting the files of a package *)

(** A step that keeps the file and the table of files. *)
Definition quiet s s' : Prop := safe_i K s s' /\ same_tab (i_fs s) (i_fs s').

#[local] Instance quiet_refl : Reflexive quiet.
Proof. intros s. split; [by intros _ _|done]. Qed.
#[local] Instance quiet_trans : Transitive quiet.
Proof. intros s1 s2 s3 [A1 A2] [B1 B2]. split; [by apply (safe_trans K _ (i_w s2))|by etrans]. Qed.

Lemma quiet_fs g s : same_tab (i_fs s) (g (i_fs s)) -> quiet s (upd_i_fs g s).
Proof. intros H. split; [by intros _ _|exact H]. Qed.

Lemma quiet_update diri s : quiet s (dir_update_permissions diri s).
Proof.
  split; [apply safe_dir_update|]. unfold dir_update_permissions. cbv zeta.
  assert (Hl : same_tab (i_fs s) (i_fs (upd_i_fs (apk_db_dir_update_permissions diri) s))).
  { cbn. unfold apk_db_dir_update_permissions. destruct (negb _); [done|]. destruct simulate; [done|]. by apply same_tab_dir. }
  destruct (_ || _); [exact Hl|]. unfold run_w. destruct (apk_fsdir_update_perms _ _ _ _ _) as [r w1]. destruct (negb _); exact Hl.
Qed.

Lemma quiet_unref n dir s s' : dir_unref n dir s = Some s' -> quiet s s'.
Proof.
  revert dir s s'. induction n as [|n IH]; intros dir s s'; [done|]. cbn [dir_unref]. cbv zeta. set (s1 := upd_i_fs (upd_dir dir _) s).
  assert (H1 : quiet s s1) by (apply quiet_fs, same_tab_dir; done).
  destruct (0 <? _); [by intros [= <-]|]. set (s2 := upd_i_fs (fun f => set_fs_num_dirs _ f) s1).
  assert (H2 : quiet s s2) by (etrans; [exact H1|]; apply quiet_fs; split; [by split|done..]). clearbody s2. destruct (negb _).
  2:{ cbn. intros [= <-]. etrans; [exact H2|]. by apply quiet_fs, same_tab_dir. }
  set (s3 := upd_i_fs (upd_dir dir (set_dr_modified true)) s2).
  set (s4 := if simulate then s3 else _). assert (H4 : quiet s s4).
  { etrans; [exact H2|]. assert (H3 : quiet s2 s3) by (apply quiet_fs; by apply same_tab_dir). subst s4. destruct simulate; [exact H3|].
    etrans; [exact H3|]. split; [|unfold run_w; by destruct (apk_fsdir_delete _ _)]. apply safe_run_w, safe_dir_delete. }
  clearbody s4. destruct (dr_parent _) as [parent|]; [|done]. cbn [mbind option_bind]. destruct (dir_unref n parent s4) as [s5|] eqn:E; [|done].
  cbn [mbind option_bind]. intros [= <-]. apply IH in E. etrans; [exact H4|]. etrans; [exact E|].
  etrans; [apply (quiet_fs (upd_dir dir (set_dr_parent None))), same_tab_dir; done|]. by apply quiet_fs, same_tab_dir.
Qed.

Lemma quiet_diri_remove diri s s' : apk_db_diri_remove diri s = Some s' -> quiet s s'.
Proof.
  unfold apk_db_diri_remove. cbv zeta. set (dir := di_dir _). set (s1 := upd_i_fs (upd_dir dir _) s).
  assert (H1 : quiet s s1) by (apply quiet_fs, same_tab_dir; done). clearbody s1. case_bool_decide.
  - destruct (new_owner s1 None _) as [owner|]; [|done]. cbn [mbind option_bind]. set (s2 := upd_i_fs (upd_dir dir (set_dr_owner owner)) s1).
    assert (H2 : quiet s s2) by (etrans; [exact H1|]; by apply quiet_fs, same_tab_dir). intros E. apply quiet_unref in E.
    etrans; [|exact E]. destruct owner as [o|]; [|exact H2]. etrans; [exact H2|apply quiet_update].
  - cbn [mbind option_bind]. intros E. apply quiet_unref in E. by etrans.
Qed.

(** What is assumed of the files of a package that is removed. *)
Definition old_file_guard (f0 : fs_db) (p : Z * Z) : Prop :=
  aims K (target f0 p.1 p.2) = true ->
  apk_protect_mode_none (dr_protect_mode (inst_dir f0 p.1)) = false /\ local_change i0 (Some (get_file f0 p.2)) = true.
Definition old_pkg_guard (f0 : fs_db) (pkg : Z) : Prop :=
  dirs_ok f0 pkg /\
  Forall (old_file_guard f0) (pkg_files f0 pkg).

Hypothesis no_purge : ic_purge = false.

Lemma purge_file_tracks fileids dd d file s s' :
  tracks s -> no_nul (apk_pathbuilder_get (d_pb d)) -> guarded dd d (f_name (get_file (i_fs s) file)) (Some (get_file (i_fs s) file)) ->
  purge_file true fileids dd d file s = Some s' -> tracks s' /\ same_layout (i_fs s) (i_fs s').
Proof.
  intros Ht Hn Hg. unfold purge_file. set (fl := get_file (i_fs s) file) in *. destruct (f_audited fl); [by intros [= <-]|].
  rewrite no_purge. cbn [orb negb andb]. set (none := apk_protect_mode_none (dr_protect_mode dd)) in *.
  assert (Hw : let s1 := (purge_wanted fileids d (f_name fl) s).2 in tracks s1 /\ i_fs s1 = i_fs s).
  { unfold purge_wanted. destruct fileids as [ids|]; [|done]. unfold fileid_get, apk_fsdir_file_info, fsys_file_info. destruct (d_uvol d); [done|].
    match goal with |- context [apk_fileinfo_get ?p ?a ?w] => pose proof (safe_fileinfo K p a w) as H1; destruct (apk_fileinfo_get p a w) as [[r fi] w1] end.
    split; [|done]. by apply (tracks_safe s). }
  destruct (purge_wanted fileids d (f_name fl) s) as [del s1]. cbn in Hw. destruct Hw as [H1 E1].
  match goal with |- context [let '(go, s) := ?m in _] => set (goes := m) end.
  assert (Hgo : tracks goes.2 /\ i_fs goes.2 = i_fs s /\
    (d_uvol d = false -> hits goes.2 d (f_name fl) -> goes.1 = false)).
  { subst goes. destruct del; [|done]. destruct none eqn:En.
    { split; [done|]. split; [done|]. intros Hu Hp. destruct (Hg Hu (hits_aims _ _ _ Hp)) as [Hf _]. by fold none in Hf; rewrite En in Hf. }
    pose proof (tracks_safe _ _ H1 (safe_audit K d (f_name fl) (Some fl) s1)) as H2. pose proof (audit_fs d (f_name fl) (Some fl) s1) as [E2 _].
    pose proof (tracks_audit d (f_name fl) (Some fl) s1 H1) as Ha. pose proof (audit_same d (f_name fl) (Some fl) s1) as Hsame.
    destruct (apk_db_audit_file d (f_name fl) (Some fl) s1) as [c s2]. cbn [fst snd] in *.
    split; [done|]. split; [congruence|]. intros Hu Hp. destruct (Hg Hu (hits_aims _ _ _ Hp)) as [_ Hc]. by rewrite (Ha Hu (hits_same _ _ _ _ Hsame Hp) Hc). }
  destruct goes as [go s2]. cbn in Hgo. destruct Hgo as (H2 & E2 & Hgo). change (if true then APK_FS_CTRL_DELETE else APK_FS_CTRL_CANCEL) with APK_FS_CTRL_DELETE.
  match goal with |- context [mbind _ ?m] => destruct m as [s3|] eqn:E3; [|done] end. cbn [mbind option_bind].
  assert (H3 : tracks s3 /\ i_fs s3 = i_fs s).
  { destruct go; [|injection E3 as <-; done]. destruct (run_ctl d (f_name fl) APK_FS_CTRL_DELETE s2) as [[r s4]|] eqn:E; [|done]. injection E3 as <-.
    apply run_ctl_tracks in E as (H3 & E4 & _); [split; [done|congruence]|done|done|]. intros Hu _ Hp. by specialize (Hgo Hu Hp). }
  destruct H3 as [H3 E4]. clear E3.
  match goal with |- context [mbind _ ?m] => destruct m as [s5|] eqn:E5; [|done] end. cbn [mbind option_bind]. intros [= <-].
  assert (H5 : tracks s5 /\ i_fs s5 = i_fs s).
  { destruct (negb none); [|injection E5 as <-; done]. destruct (run_ctl d (f_name fl) APK_FS_CTRL_DELETE_APKNEW s3) as [[r s4]|] eqn:E; [|done]. injection E5 as <-.
    apply run_ctl_tracks in E as (H6 & E6 & _); [split; [done|congruence]|done|done|]. by intros _ [?|?]. }
  destruct H5 as [H5 E6]. split; [exact H5|]. cbn. rewrite E6. by split.
Qed.

Lemma purge_diri_tracks f0 pkg fileids di s s' :
  tracks s -> same_layout f0 (i_fs s) -> no_nul (apk_pathbuilder_get (d_pb (fsdir_of f0 [] di))) ->
  Forall (old_file_guard f0) (pair di <$> di_files (get_diri f0 di)) ->
  purge_diri pkg true fileids di s = Some s' -> tracks s' /\ same_layout f0 (i_fs s').
Proof.
  intros Ht Hl Hn Hg. unfold purge_diri. cbv zeta. set (dir := di_dir (get_diri (i_fs s) di)).
  set (s1 := upd_i_fs (upd_dir dir (set_dr_modified true)) s). assert (Hl1 : same_layout f0 (i_fs s1)) by (etrans; [exact Hl|]; by apply layout_upd_dir).
  assert (Ht1 : tracks s1) by exact Ht.
  change (get_dir (i_fs s1) dir) with (inst_dir (i_fs s1) di). rewrite (sl_diri _ _ Hl1 di).
  pose proof (layout_dir f0 (i_fs s1) di Hl1) as Hd. set (dd := inst_dir (i_fs s1) di) in *. unfold dir_static in Hd.
  assert (Hname : dr_name dd = dr_name (inst_dir f0 di)) by congruence. assert (Hprot : dr_protect_mode dd = dr_protect_mode (inst_dir f0 di)) by congruence.
  set (d := apk_fsdir_get (dr_name dd) _).
  assert (Hn1 : no_nul (apk_pathbuilder_get (d_pb d))) by (unfold fsdir_of in Hn; rewrite <- Hname in Hn; exact Hn).
  assert (Hu : d_uvol d = d_uvol (fsdir_of f0 [] di)) by (unfold fsdir_of; rewrite <- Hname; done).
  assert (Hpb : d_pb d = d_pb (fsdir_of f0 [] di)) by (unfold fsdir_of; rewrite <- Hname; done).
  clearbody s1 dd d. match goal with |- context [fold_opt ?g ?l s1] => destruct (fold_opt g l s1) as [s2|] eqn:E; [|done] end. cbn [mbind option_bind].
  assert (H2 : tracks s2 /\ same_layout f0 (i_fs s2)).
  { revert E. apply (fold_opt_inv (fun s => tracks s /\ same_layout f0 (i_fs s))); [done|]. intros file s3 s4 Hin [H3 Hl3] E4.
    rewrite Forall_forall in Hg. assert (Hg1 : old_file_guard f0 (di, file)) by (apply Hg, list_elem_of_fmap; eauto).
    apply purge_file_tracks in E4 as [H4 Hl4]; [split; [done|by etrans]|done|done|].
    intros Hu' Hp. rewrite Hprot. assert (Htg : aims K (target f0 di file) = true).
    { unfold target. cbv zeta. rewrite <- Hu, Hu'. cbn [aims]. apply negb_true_iff. rewrite <- Hp. unfold file_pb. rewrite Hpb.
      pose proof (sl_file _ _ Hl3 file) as Ef. unfold file_static in Ef. by injection Ef as -> _ _ _. }
    destruct (Hg1 Htg) as [G1 G2]. split; [exact G1|]. rewrite <- G2. apply local_change_same; [done|done|]. cbn. f_equal. apply (sl_file _ _ Hl3). }
  destruct H2 as [H2 H3]. intros Er. apply quiet_diri_remove in Er as [Hs Hl3]. split; [by apply (tracks_safe s2)|etrans; [exact H3|apply Hl3]].
Qed.

Lemma purge_tracks pkg fileids s s' :
  tracks s -> old_pkg_guard (i_fs s) pkg -> apk_db_purge_pkg pkg true fileids s = Some s' -> tracks s'.
Proof.
  intros Ht [Hn Hg]. unfold apk_db_purge_pkg. cbv zeta. set (ids := match fileids with Some [] => None | x => x end).
  match goal with |- context [fold_opt ?g ?l s] => destruct (fold_opt g l s) as [s2|] eqn:E; [|done] end. cbn [mbind option_bind]. intros [= <-].
  change (tracks s2). set (f0 := i_fs s) in *.
  assert (H2 : tracks s2 /\ same_layout f0 (i_fs s2)); [|apply H2]. revert E. apply (fold_opt_inv (fun s => tracks s /\ same_layout f0 (i_fs s))); [done|].
  intros di s3 s4 Hin [H3 Hl3] E4. apply (purge_diri_tracks f0) in E4; [done|done|done|by apply Hn|].
  rewrite Forall_forall in Hg |- *. intros p Hp. apply Hg. apply list_elem_of_fmap in Hp as (file & -> & Hf). by apply elem_of_pkg_files.
Qed.

(** *** Whole operations *)

Hypothesis scripts_safe : scripts_quiet K.

Lemma run_script_fs pkg type args s : i_fs (apk_ipkg_run_script pkg type args s) = i_fs s.
Proof.
  assert (Hw : forall A (f : world -> A * world) s, i_fs (run_w f s).2 = i_fs s) by (intros A f s0; unfold run_w; by destruct (f (i_w s0))).
  assert (Hf : forall fn text s, i_fs (script_file fn text s).2 = i_fs s).
  { intros fn text s0. unfold script_file. destruct ic_memfd.
    { pose proof (Hw _ other_call (set_i_script_dirs true s0)) as H1. by destruct (run_w _ _). }
    match goal with |- context [if i_script_dirs s0 then ?a else ?b] => set (m := if i_script_dirs s0 then a else b); assert (H1 : i_fs m.2 = i_fs s0) by (subst m; destruct (i_script_dirs s0); [done|apply Hw]) end.
    destruct m as [r s1]. destruct (r <? 0); [exact H1|]. cbn [snd] in H1.
    match goal with |- context [run_w ?f ?t] => pose proof (Hw _ f t) as H2; destruct (run_w f t) as [r2 s2] end. cbn in H2. destruct r2 as [e|n]; [cbn; congruence|].
    match goal with |- context [run_w ?f ?t] => pose proof (Hw _ f t) as H3; destruct (run_w f t) as [r3 s3] end. cbn in *. congruence. }
  unfold apk_ipkg_run_script, ipkg_run_script. cbv zeta. destruct (_ ≫= _) as [text|]; [|done]. destruct (_ || _); [done|]. destruct (_ <? 0); [done|].
  match goal with |- context [script_file ?a ?b s] => pose proof (Hf a b s) as H1; destruct (script_file a b s) as [[r created] s1] end. cbn [snd] in H1.
  destruct (r <? 0); [destruct created; cbn [snd]; [by rewrite Hw|done]|].
  destruct (exec_script _ _ _ _ _) as [r1 w1]. destruct (r1 <? 0), created; cbn [snd]; rewrite ?Hw; exact H1.
Qed.

(** A package whose extraction failed: its temporary files are removed. *)
Lemma purge_cancel_tracks dd d file s s' :
  tracks s -> no_nul (apk_pathbuilder_get (d_pb d)) -> purge_file false None dd d file s = Some s' -> tracks s' /\ i_fs s' = i_fs s.
Proof.
  intros Ht Hn. unfold purge_file. destruct (f_audited _); [by intros [= <-]|]. cbn [purge_wanted andb]. rewrite orb_true_r. cbn [orb].
  destruct (run_ctl d _ APK_FS_CTRL_CANCEL s) as [[r s1]|] eqn:E; [|done]. cbn. intros [= <-].
  apply run_ctl_tracks in E as (H1 & E1 & _); [done|done|done|]. by intros _ [?|?].
Qed.

Lemma purge_failed_tracks pkg s s' : tracks s -> dirs_ok (i_fs s) pkg -> apk_db_purge_pkg pkg false None s = Some s' -> tracks s'.
Proof.
  intros Ht Hn. unfold apk_db_purge_pkg. cbv zeta. match goal with |- context [fold_opt ?g ?l s] => destruct (fold_opt g l s) as [s2|] eqn:E; [|done] end.
  cbn [mbind option_bind]. intros [= <-]. change (tracks s2). set (f0 := i_fs s) in *.
  assert (H2 : tracks s2 /\ same_layout f0 (i_fs s2)); [|apply H2]. revert E. apply (fold_opt_inv (fun s => tracks s /\ same_layout f0 (i_fs s))); [done|].
  intros di s3 s4 Hin [H3 Hl3]. unfold purge_diri. cbv zeta. change (get_dir (i_fs s3) (di_dir (get_diri (i_fs s3) di))) with (inst_dir (i_fs s3) di).
  set (dd := inst_dir (i_fs s3) di). set (d := apk_fsdir_get (dr_name dd) _).
  assert (Hn1 : no_nul (apk_pathbuilder_get (d_pb d))).
  { pose proof (layout_dir f0 (i_fs s3) di Hl3) as Hd. unfold dir_static in Hd. assert (Hname : dr_name dd = dr_name (inst_dir f0 di)) by (unfold dd; congruence).
    specialize (Hn di Hin). unfold fsdir_of in Hn. rewrite <- Hname in Hn. exact Hn. }
  match goal with |- context [fold_opt ?g ?l s3] => destruct (fold_opt g l s3) as [s5|] eqn:E5; [|done] end. cbn [mbind option_bind]. intros Er.
  assert (H5 : tracks s5 /\ same_layout f0 (i_fs s5)).
  { revert E5. apply (fold_opt_inv (fun s => tracks s /\ same_layout f0 (i_fs s))); [done|]. intros file s6 s7 _ [H6 Hl6] E7.
    apply purge_cancel_tracks in E7 as [H7 ->]; done. }
  destruct H5 as [H5 Hl5]. apply quiet_diri_remove in Er as [Hs Hl4]. split; [by apply (tracks_safe s5)|etrans; [exact Hl5|apply Hl4]].
Qed.

Lemma old_guard_layout f f' pkg : same_layout f f' -> old_pkg_guard f pkg -> old_pkg_guard f' pkg.
Proof.
  intros Hl [Hn Hg]. split.
  - intros di. rewrite (sl_owned _ _ Hl). intros Hdi. pose proof (layout_dir f f' di Hl) as Hd. unfold dir_static in Hd.
    unfold fsdir_of. injection Hd as -> _ _. by apply Hn.
  - rewrite (pkg_files_layout _ _ _ Hl). rewrite Forall_forall in Hg |- *. intros p Hp Htg. rewrite (target_layout _ _ _ _ Hl) in Htg.
    destruct (Hg p Hp Htg) as [G1 G2]. pose proof (layout_dir f f' p.1 Hl) as Hd. unfold dir_static in Hd. injection Hd as _ _ ->. split; [done|].
    rewrite <- G2. apply local_change_same; [done|done|]. cbn. f_equal. apply (sl_file _ _ Hl).
Qed.
Lemma uninstall_tracks pkg s : tracks s -> tracks (pkg_uninstall pkg s).
Proof. intros Ht. unfold pkg_uninstall. by destruct (ipkg_of s pkg). Qed.

(** Removing a package keeps the contents of every file that differs from what the package installed and is in a
    protected directory, whatever calls fail, as long as the purging of such files was not asked for. *)
Lemma remove_tracks unpack old s r s' :
  tracks s -> old_pkg_guard (i_fs s) old -> apk_db_install_pkg unpack (Some old) None s = Some (r, s') -> tracks s'.
Proof.
  intros Ht Hg. unfold apk_db_install_pkg. destruct (ipkg_of s old); [|by intros [= _ <-]].
  set (s1 := apk_ipkg_run_script _ _ _ s). destruct (apk_db_purge_pkg old true None s1) as [s2|] eqn:E; [|done]. cbn [mbind option_bind]. intros [= _ <-].
  apply purge_tracks in E; [|apply (tracks_safe s); [done|by apply safe_run_script]|by unfold s1; rewrite run_script_fs].
  unfold pkg_uninstall. assert (H3 : tracks (apk_ipkg_run_script old APK_SCRIPT_POST_DEINSTALL [default [] (version (get_pkg (i_store s) old))] s2)).
  { apply (tracks_safe s2); [done|by apply safe_run_script]. }
  by destruct (ipkg_of _ old).
Qed.

(** Installing or upgrading a package keeps the contents of every file that the user changed in a protected directory: the
    new version of the file is put beside it or dropped, and the removal of the old package leaves it.  [unpack] is the
    extraction of the new package; the assumptions about its files are made in the state that it leaves. *)
Lemma upgrade_tracks unpack oldpkg new s r s' :
  tracks s -> (forall old, oldpkg = Some old -> old_pkg_guard (i_fs s) old) ->
  (forall r1 s1, unpack new (match oldpkg with Some _ => true | None => false end) (script_args oldpkg new s) (install_start new s) = Some (r1, s1) ->
     let f := apk_db_ipkg_commit new (i_fs s1) in
     safe_i K (install_start new s) s1 /\ dirs_ok f new /\
     (r1 = 0 -> new_pkg_guard f new /\ forall old, oldpkg = Some old -> old_pkg_guard f old)) ->
  apk_db_install_pkg unpack oldpkg (Some new) s = Some (r, s') -> tracks s'.
Proof.
  intros Ht Hold Hnew Hrun.
  assert (Hr : install_new unpack oldpkg new (script_args oldpkg new s) s = Some (r, s')) by (by destruct oldpkg). clear Hrun. revert Hr Hnew.
  generalize (script_args oldpkg new s). intros args Hr Hnew. revert Hr.
  unfold install_new. cbv zeta. set (s1 := install_start new s) in *.
  assert (Ht1 : tracks s1) by exact Ht. assert (Hl1 : same_layout (i_fs s) (i_fs s1)) by (by split). clearbody s1.
  set (up := match oldpkg with Some _ => true | None => false end) in *.
  assert (Hfin : forall ids s2, tracks s2 -> (forall old, oldpkg = Some old -> old_pkg_guard (i_fs s2) old) ->
    (s ← match oldpkg with
         | Some old => match ipkg_of s2 old with
                       | Some _ => if bool_decide (oldpkg = Some new) then Some s2
                                   else s ← apk_db_purge_pkg old true (Some ids) s2; Some (pkg_uninstall old s)
                       | None => Some s2
                       end
         | None => Some s2
         end;
     let s := apk_ipkg_run_script new (if up then APK_SCRIPT_POST_UPGRADE else APK_SCRIPT_POST_INSTALL) args s in
     let bad := match ipkg_of s new with Some ip => broken_files ip || broken_script ip | None => false end in
     Some (if bad then -1 else 0, s)) = Some (r, s') -> tracks s').
  { intros ids s2 Ht2 Hg2. match goal with |- context [mbind _ ?m] => destruct m as [s3|] eqn:E; [|done] end. cbn [mbind option_bind]. intros [= _ <-].
    apply (tracks_safe s3); [|by apply safe_run_script]. destruct oldpkg as [old|]; [|by injection E as <-].
    destruct (ipkg_of s2 old); [|by injection E as <-]. case_bool_decide; [by injection E as <-|].
    destruct (apk_db_purge_pkg old true (Some ids) s2) as [s4|] eqn:E4; [|done]. injection E as <-. apply uninstall_tracks.
    apply (purge_tracks _ _ _ _ Ht2 (Hg2 old eq_refl) E4). }
  destruct (negb _).
  2:{ apply Hfin; [done|]. intros old Ho. apply (old_guard_layout (i_fs s)); [done|by apply Hold]. }
  destruct (unpack new up args s1) as [[r1 s2]|] eqn:Eu; [|done]. cbn [mbind option_bind]. set (s3 := upd_i_fs (apk_db_ipkg_commit new) s2).
  destruct (Hnew r1 s2 eq_refl) as (Hsafe & Hd & Hg). pose proof (tracks_safe _ _ Ht1 Hsafe) as Ht2. assert (Ht3 : tracks s3) by exact Ht2.
  change (apk_db_ipkg_commit new (i_fs s2)) with (i_fs s3) in *. clearbody s3.
  destruct (Z.eqb_spec r1 0) as [->|Hr1]; cbn [negb].
  - destruct (Hg eq_refl) as [Hg1 Hg2]. destruct (apk_db_migrate_files new up s3) as [[s4 ids]|] eqn:Em; [|done]. cbn [mbind option_bind].
    apply migrate_tracks in Em as [H4 Hl4]; [|done|done]. apply Hfin; [done|]. intros old Ho. apply (old_guard_layout (i_fs s3)); [done|by apply Hg2].
  - destruct (bool_decide _); cbn [mbind option_bind]; [intros [= _ <-]; by apply uninstall_tracks|].
    destruct (apk_db_purge_pkg new false None s3) as [s4|] eqn:E4; [|done]. cbn [mbind option_bind]. intros [= _ <-].
    apply uninstall_tracks. by apply purge_failed_tracks in E4.
Qed.
End follow.
End keep.
