(* ===== verification/InstallTab.v ===== *)
(** The table of files of the installed database through installations (Install.v): its entries are exactly the files of the
    installed packages that no other package has taken over. *)
From Stdlib Require Import ZArith Lia Ascii String.
From stdpp Require Import base numbers list option gmap.
From S2P Require Import Prelude Clib Blob Codec Version Array Dep Package SolverState Database AdbTrust Stream Tar TarThm Gunzip ExtractV2 InstalledDb Disk FsDir FsThm Install InstallThm InstallKeep.

(** ** The invariant *)

(** The table has exactly the files of [Q] (pairs of a directory instance and a file) that are not taken over, and the
    counter counts them. *)
Record tab_inv (f : fs_db) (Q : Z * Z -> Prop) : Prop := {
  ti_tab k a : fs_file_tab f !! k = Some a <-> exists di, Q (di, a) /\ f_audited (get_file f a) = false /\ key_of f di a = k;
  ti_num : fs_num_files f = Z.of_nat (base.size (fs_file_tab f));
  ti_diri di a : Q (di, a) -> f_diri (get_file f a) = di;
}.

Lemma tab_inv_ext f Q Q' : (forall p, Q p <-> Q' p) -> tab_inv f Q -> tab_inv f Q'.
Proof.
  intros HQ [H1 H2 H3]. split; [|done|].
  - intros k a. rewrite H1. split; intros (di & Hq & H); exists di; (split; [by apply HQ|done]).
  - intros di a Hq. apply H3. by apply HQ.
Qed.

Lemma tab_inv_same f f' Q : same_tab f f' -> tab_inv f Q -> tab_inv f' Q.
Proof.
  intros [Hl Ht Hn Hf] [H1 H2 H3]. assert (Hg : forall a, get_file f' a = get_file f a) by (intros a; unfold get_file; by rewrite Hf). split.
  - intros k a. rewrite Ht, H1, Hg. split; intros (di & Hq & Ha & Hk); exists di; (split; [done|]); (split; [done|]).
    + by rewrite (key_layout _ _ _ _ Hl).
    + by rewrite <- (key_layout _ _ _ _ Hl).
  - by rewrite Hn, Ht.
  - intros di a Hq. rewrite Hg. by apply H3.
Qed.

(** One key for a file. *)
Lemma tab_key f Q di a : tab_inv f Q -> Q (di, a) -> f_audited (get_file f a) = false -> fs_file_tab f !! key_of f di a = Some a.
Proof. intros Hi Hq Ha. apply (ti_tab _ _ Hi). by exists di. Qed.

(** ** Claiming a file *)

Definition claimed (k : Z * bytes * bytes) (a : Z) (o : option Z) (f : fs_db) : fs_db :=
  let f := match o with Some o => hash_delete k (upd_file o (set_f_audited true) f) | None => add_files 1 f end in
  set_fs_file_tab (<[k := a]> (fs_file_tab f)) f.

Lemma claimed_layout k a o f : same_layout f (claimed k a o f).
Proof.
  destruct o as [o|]; [|by split]. destruct (layout_upd_file o (set_f_audited true) f) as [L1 L2 L3 L4]; [done|]. by split.
Qed.

Lemma claimed_audited k a o f b : f_audited (get_file (claimed k a o f) b) = f_audited (get_file f b) || bool_decide (o = Some b).
Proof.
  destruct o as [o|].
  - change (get_file (claimed k a (Some o) f) b) with (get_file (upd_file o (set_f_audited true) f) b). rewrite get_upd_file. case_bool_decide as E.
    + subst b. rewrite bool_decide_eq_true_2 by done. by rewrite orb_true_r.
    + rewrite bool_decide_eq_false_2 by congruence. by rewrite orb_false_r.
  - change (get_file (claimed k a None f) b) with (get_file f b). rewrite bool_decide_eq_false_2 by done. by rewrite orb_false_r.
Qed.

Lemma claimed_tab k a o f : fs_file_tab f !! k = o -> forall k', fs_file_tab (claimed k a o f) !! k' = if bool_decide (k' = k) then Some a else fs_file_tab f !! k'.
Proof.
  intros Ho k'. unfold claimed. destruct o as [o|]; cbn; case_bool_decide as E; subst; rewrite ?lookup_insert_eq, ?lookup_insert_ne, ?lookup_delete_ne by done; done.
Qed.

Lemma claim_inv f Q di a :
  tab_inv f Q -> ~ (exists di, Q (di, a)) -> f_diri (get_file f a) = di -> f_audited (get_file f a) = false ->
  tab_inv (claimed (key_of f di a) a (fs_file_tab f !! key_of f di a) f) (fun p => Q p \/ p = (di, a)).
Proof.
  intros Hi Hna Hd Ha. set (k := key_of f di a). set (o := fs_file_tab f !! k). set (f' := claimed k a o f).
  assert (Hl : same_layout f f') by apply claimed_layout.
  assert (Hoa : o <> Some a). { intros E. apply (ti_tab _ _ Hi) in E as (d & Hq & _). apply Hna. by exists d. }
  split.
  - intros k' b. unfold f' at 1. rewrite claimed_tab by done. split.
    + case_bool_decide as E.
      * intros [= <-]. subst k'. exists di. split; [by right|]. rewrite (claimed_audited k a o f), Ha, bool_decide_eq_false_2 by done. split; [done|].
        by rewrite (key_layout _ _ _ _ Hl).
      * intros Hb. apply (ti_tab _ _ Hi) in Hb as Hb'. destruct Hb' as (d & Hq & Hb1 & Hb2). exists d. split; [by left|].
        rewrite (claimed_audited k a o f), Hb1. split; [|by rewrite (key_layout _ _ _ _ Hl)]. apply bool_decide_eq_false_2. intros Eo.
        apply E. unfold o in Eo. apply (ti_tab _ _ Hi) in Eo as (d2 & Hq2 & _ & Hk2).
        rewrite <- (ti_diri _ _ Hi _ _ Hq) in Hb2. rewrite <- (ti_diri _ _ Hi _ _ Hq2) in Hk2. congruence.
    + intros (d & Hq & Hb1 & Hb2). rewrite (claimed_audited k a o f) in Hb1. apply orb_false_iff in Hb1 as [Hb1 Hbo]. rewrite (key_layout _ _ _ _ Hl) in Hb2.
      destruct Hq as [Hq|[= -> ->]]; [|by rewrite bool_decide_eq_true_2].
      pose proof (tab_key f Q d b Hi Hq Hb1) as Ht. rewrite Hb2 in Ht. destruct (decide (k' = k)) as [E|E]; [|by rewrite bool_decide_eq_false_2].
      exfalso. apply bool_decide_eq_false in Hbo. apply Hbo. unfold o. by rewrite <- E.
  - pose proof (ti_num _ _ Hi) as Hn. unfold f', claimed. destruct (fs_file_tab f !! k) as [x|] eqn:Ex; unfold o; rewrite ?Ex; cbn.
    + rewrite map_size_insert_None by apply lookup_delete_eq. rewrite map_size_delete, Ex. cbn.
      assert (base.size (fs_file_tab f) <> 0%nat) by (intros Hz; apply map_size_empty_inv in Hz; by rewrite Hz, lookup_empty in Ex). lia.
    + rewrite map_size_insert_None by done. lia.
  - intros d b [Hq|[= -> ->]].
    + pose proof (sl_file _ _ Hl b) as E. unfold file_static in E. rewrite <- (ti_diri _ _ Hi d b Hq). congruence.
    + pose proof (sl_file _ _ Hl a) as E. unfold file_static in E. congruence.
Qed.

(** ** Moving the files of a package to their places *)

Section tab.
Context {OS : Os} {FC : FsCtx} {pkey : Type} {CR : Crypto pkey} {FM : Fnmatch} {SIM : Simulate} {IC : InstallCtx} {UC : UndefChecksum}.
Implicit Types s : idb.

(** Temporary names always fit their buffer. *)
Lemma tmpname_total ctx dirname fullname : zlen dirname <= PATH_MAX -> is_Some (format_tmpname ctx dirname fullname).
Proof.
  intros Hd. unfold format_tmpname. set (hex := ztake 24 _). rewrite (hexdump_appends hex).
  assert (Hh : zlen (hexdump hex) <= 48).
  { rewrite zlen_hexdump. unfold hex. rewrite zlen_ztake_min by lia. lia. }
  pose proof (zlen_nonneg dirname).
  destruct (0 <? zlen dirname); rewrite !apk_blob_push_app; cbn;
    match goal with |- context [if ?b then _ else _] => destruct b eqn:E end; try (by eexists);
    apply Z.ltb_lt in E; repeat (rewrite zlen_app in E || rewrite zlen_cons in E); change (zlen (@nil Z)) with 0 in E; change TMPNAME_MAX with 4160 in E; unfold PATH_MAX in *; lia.
Qed.

Lemma fsdir_path dir ctx : zlen (apk_pathbuilder_get (d_pb (apk_fsdir_get dir ctx))) <= PATH_MAX.
Proof.
  unfold apk_fsdir_get, apk_pathbuilder_get. cbn [d_pb]. unfold apk_pathbuilder_setb, apk_pathbuilder_pushb. cbn [namelen name].
  pose proof (zlen_nonneg dir). destruct (Z.leb_spec Array.PATH_MAX (0 + zlen dir + 2)) as [Hl|Hl]; cbn [fst namelen name negb Z.eqb].
  - rewrite zlen_ztake_min by lia. unfold PATH_MAX. lia.
  - rewrite zlen_ztake_min; [|apply Z.mod_pos_bound; lia]. unfold u16, wrap. rewrite Z.mod_small; unfold Array.PATH_MAX, PATH_MAX in *; lia.
Qed.

Lemma run_ctl_total dir ctx fn ctrl s : exists r s', run_ctl (apk_fsdir_get dir ctx) fn ctrl s = Some (r, s') /\ i_fs s' = i_fs s.
Proof.
  assert (Hc : exists r w, apk_fsdir_file_control (apk_fsdir_get dir ctx) fn ctrl (i_w s) = Some (r, w)).
  { set (d := apk_fsdir_get dir ctx). unfold apk_fsdir_file_control. destruct (d_uvol d); [by destruct (uvol_file_control fn ctrl (i_w s)) as [r w]; exists r, w|].
    destruct (tmpname_total (blob_data (d_pkgctx d)) (apk_pathbuilder_get (d_pb d)) (apk_pathbuilder_get (file_pb d fn)) (fsdir_path dir ctx)) as [t Ht].
    unfold fsys_file_control. rewrite Ht. cbn [mbind option_bind].
    repeat first [destruct (ctrl =? _) | destruct (_ <? 0)
      | match goal with |- context [let '(_, _) := ?m in _] => destruct m as [? ?] end]; eauto.
    destruct (on_disk _ _) as [r w]. by exists r, w. }
  destruct Hc as (r & w & E). unfold run_ctl. rewrite E. cbn. by exists r, (set_i_w w s).
Qed.

Lemma migrate_ctrl_fs dd d fl ofile s : i_fs (migrate_ctrl dd d fl ofile s).2 = i_fs s.
Proof.
  unfold migrate_ctrl. cbv zeta. destruct (match ofile with Some _ => _ | None => _ end); [done|]. destruct (apk_protect_mode_none _); [done|].
  pose proof (audit_fs d (f_name fl) ofile s) as [E1 _]. destruct (apk_db_audit_file d (f_name fl) ofile s) as [c s1]. cbn in *.
  destruct c; cbn [negb]; [|done]. destruct ic_clean_protected; [done|].
  pose proof (audit_fs d (f_name fl) (Some fl) s1) as [E3 _]. destruct (apk_db_audit_file d (f_name fl) (Some fl) s1) as [c s2]. cbn in *. congruence.
Qed.

Lemma migrate_file_fs_total pkg dd dir ctx fl ofile s :
  exists s', migrate_file_fs pkg dd (apk_fsdir_get dir ctx) fl ofile s = Some s' /\ i_fs s' = i_fs s.
Proof.
  unfold migrate_file_fs. destruct (f_broken fl); [eauto|]. pose proof (migrate_ctrl_fs dd (apk_fsdir_get dir ctx) fl ofile s) as E1.
  destruct (migrate_ctrl _ _ fl ofile s) as [ctrl s1]. cbn in E1. destruct (run_ctl_total dir ctx (f_name fl) ctrl s1) as (r & s2 & -> & E2).
  cbn [mbind option_bind]. destruct (r <? 0); [eexists; split; [done|cbn; congruence]|].
  destruct (_ && _); (eexists; split; [done|cbn; congruence]).
Qed.

Lemma fileid_fs d fn s : i_fs (fileid_get d fn s).2 = i_fs s.
Proof. unfold fileid_get. by destruct (apk_fsdir_file_info _ _ _ _) as [[? ?] ?]. Qed.

Lemma claim_file_fs want dd d file fl ofile s ids :
  i_fs (claim_file want dd d file fl ofile (s, ids)).1 =
  if bool_decide (ofile = Some file) then i_fs s else claimed (file_key dd (f_name fl)) file ofile (i_fs s).
Proof.
  unfold claim_file. case_bool_decide; [done|]. destruct ofile as [o|]; [done|].
  pose proof (fileid_fs d (f_name fl) s) as E. destruct want; [|done]. destruct (fileid_get d (f_name fl) s) as [id s1]. cbn in *. by rewrite E.
Qed.

(** The state while the files [L] of a package are claimed: [D] are claimed, the others are not in the table. *)
Record claiming (f0 : fs_db) (Q : Z * Z -> Prop) (L : list (Z * Z)) (D : Z * Z -> Prop) s : Prop := {
  cl_layout : same_layout f0 (i_fs s);
  cl_tab : tab_inv (i_fs s) (fun p => Q p \/ D p);
  cl_rest p : p ∈ L -> ~ D p -> ~ Q p /\ f_audited (get_file (i_fs s) p.2) = false /\ f_diri (get_file f0 p.2) = p.1;
}.

Lemma claiming_ext f0 Q L D D' s : (forall p, D p <-> D' p) -> claiming f0 Q L D s -> claiming f0 Q L D' s.
Proof.
  intros HD [H1 H2 H3]. split; [done| |].
  - apply (tab_inv_ext _ _ _ (fun p => or_iff_compat_l (Q p) (HD p)) H2).
  - intros p Hp Hn. apply H3; [done|]. by rewrite HD.
Qed.

Lemma claiming_same f0 Q L D s s' : same_tab (i_fs s) (i_fs s') -> claiming f0 Q L D s -> claiming f0 Q L D s'.
Proof.
  intros Hs [H1 H2 H3]. split; [etrans; [exact H1|apply Hs]|by apply (tab_inv_same (i_fs s))|].
  intros p Hp Hn. destruct (H3 p Hp Hn) as (R1 & R2 & R3). split; [done|]. split; [|done]. unfold get_file. by rewrite (st_files _ _ Hs).
Qed.

Lemma migrate_file_claims f0 Q L D pkg want di ctx dd file s ids :
  claiming f0 Q L D s -> (di, file) ∈ L -> ~ D (di, file) -> dir_static dd = dir_static (inst_dir f0 di) ->
  exists s' ids', migrate_file pkg want dd (apk_fsdir_get (dr_name dd) ctx) file (s, ids) = Some (s', ids') /\
    claiming f0 Q L (fun p => D p \/ p = (di, file)) s'.
Proof.
  intros [Hl Ht Hr] Hin HnD Hdd. destruct (Hr (di, file) Hin HnD) as (Hq & Ha & Hdi). cbn [fst snd] in *.
  assert (Hfd : f_diri (get_file (i_fs s) file) = di) by (pose proof (sl_file _ _ Hl file) as E; unfold file_static in E; congruence).
  assert (Hkey : file_key dd (f_name (get_file (i_fs s) file)) = key_of (i_fs s) di file).
  { pose proof (layout_dir f0 (i_fs s) di Hl) as E. unfold key_of, file_key, dir_static in *. rewrite <- E in Hdd. by injection Hdd as -> -> _. }
  unfold migrate_file. rewrite Hkey. set (o := fs_file_tab (i_fs s) !! key_of (i_fs s) di file).
  destruct (migrate_file_fs_total pkg dd (dr_name dd) ctx (get_file (i_fs s) file) (get_file (i_fs s) <$> o) s) as (s1 & E1 & Ef). rewrite E1. cbn [mbind option_bind].
  pose proof (claim_file_fs want dd (apk_fsdir_get (dr_name dd) ctx) file (get_file (i_fs s) file) o s1 ids) as Ec. rewrite Hkey, Ef in Ec.
  destruct (claim_file _ _ _ _ _ _ _) as [s2 ids2]. cbn [fst] in Ec.
  assert (Hnone : ~ exists d, Q (d, file) \/ D (d, file)).
  { intros (d & Hd). pose proof (ti_diri _ _ Ht d file Hd) as E. rewrite Hfd in E. subst d. tauto. }
  assert (Ho : o <> Some file). { intros E. apply (ti_tab _ _ Ht) in E as (d & Hd & _). apply Hnone. eauto. }
  rewrite bool_decide_eq_false_2 in Ec by done. exists s2, ids2. split; [done|]. split.
  - rewrite Ec. etrans; [exact Hl|apply claimed_layout].
  - rewrite Ec. apply (tab_inv_ext _ (fun p => (Q p \/ D p) \/ p = (di, file))); [tauto|by apply claim_inv].
  - intros p Hp Hn. destruct (Hr p Hp ltac:(tauto)) as (R1 & R2 & R3). split; [done|]. split; [|done].
    rewrite Ec, claimed_audited, R2. apply bool_decide_eq_false_2. intros E. unfold o in E.
    apply (ti_tab _ _ Ht) in E as (d & Hd & _). pose proof (ti_diri _ _ Ht d p.2 Hd) as E.
    assert (f_diri (get_file (i_fs s) p.2) = p.1) by (pose proof (sl_file _ _ Hl p.2) as E2; unfold file_static in E2; congruence).
    destruct p as [d' b]. cbn [fst snd] in *. assert (Edd : d = d') by congruence. rewrite Edd in Hd. tauto.
Qed.

(** The files of a directory instance. *)
Lemma migrate_files_claims f0 Q L D pkg want di ctx dd files s ids :
  claiming f0 Q L D s -> (forall file, file ∈ files -> (di, file) ∈ L /\ ~ D (di, file)) -> NoDup files -> dir_static dd = dir_static (inst_dir f0 di) ->
  exists s' ids', fold_opt (migrate_file pkg want dd (apk_fsdir_get (dr_name dd) ctx)) files (s, ids) = Some (s', ids') /\
    claiming f0 Q L (fun p => D p \/ p ∈ pair di <$> files) s'.
Proof.
  intros Hc Hin Hnd Hdd. revert D s ids Hc Hin. induction Hnd as [|file files Hnf Hnd IH]; intros D s ids Hc Hin.
  - exists s, ids. split; [done|]. apply (claiming_ext _ _ _ D); [|done]. intros p. cbn. rewrite elem_of_nil. tauto.
  - cbn [fold_opt]. destruct (Hin file) as [H1 H2]; [by left|].
    destruct (migrate_file_claims f0 Q L D pkg want di ctx dd file s ids Hc H1 H2 Hdd) as (s1 & ids1 & -> & Hc1). cbn [mbind option_bind].
    destruct (IH _ s1 ids1 Hc1) as (s2 & ids2 & E2 & Hc2).
    { intros x Hx. destruct (Hin x) as [G1 G2]; [by right|]. split; [done|]. intros [?|[= ->]]; [done|]. by apply Hnf. }
    exists s2, ids2. split; [done|]. apply (claiming_ext _ _ _ _ _ _) with (2 := Hc2). intros p. cbn [fmap list_fmap]. rewrite elem_of_cons. tauto.
Qed.

Definition prio_of (f0 : fs_db) (di : Z) : Z := apk_fsdir_priority (fsdir_of f0 [] di).

(** One pass, over the instances [diris]. *)
Lemma migrate_pass_claims f0 Q L D pkg want prio diris s ids np :
  claiming f0 Q L D s -> (forall di file, (di, file) ∈ files_of f0 diris -> (di, file) ∈ L) ->
  NoDup (files_of f0 diris) -> (forall p, p ∈ files_of f0 diris -> prio_of f0 p.1 = prio -> ~ D p) ->
  exists s' ids' np', fold_opt (migrate_diri pkg want prio) diris (s, ids, np) = Some (s', ids', np') /\
    claiming f0 Q L (fun p => D p \/ p ∈ files_of f0 diris /\ prio_of f0 p.1 = prio) s' /\
    np' <= np /\ (forall di, di ∈ diris -> prio < prio_of f0 di -> np' <= prio_of f0 di) /\
    (np' = np \/ prio < np' /\ exists di, di ∈ diris /\ prio_of f0 di = np').
Proof.
  revert D s ids np. induction diris as [|di diris IH]; intros D s ids np Hc HL Hnd HD.
  { exists s, ids, np. split; [done|]. split; [|split; [lia|split; [|by left]]].
    - apply (claiming_ext _ _ _ D); [|done]. intros p. unfold files_of. cbn. rewrite elem_of_nil. tauto.
    - intros di Hdi. by apply elem_of_nil in Hdi. }
  assert (Hfs : forall p, p ∈ files_of f0 (di :: diris) <-> p ∈ pair di <$> di_files (get_diri f0 di) \/ p ∈ files_of f0 diris).
  { intros p. unfold files_of. cbn. by rewrite elem_of_app. }
  unfold files_of in Hnd. cbn [mbind list_bind] in Hnd. apply NoDup_app in Hnd as (Hnd1 & Hdisj & Hnd2). fold (files_of f0 diris) in Hnd2, Hdisj.
  pose proof (cl_layout _ _ _ _ _ Hc) as Hl. cbn [fold_opt].
  set (dd := inst_dir (i_fs s) di). set (d := apk_fsdir_get (dr_name dd) (Some (apk_pkg_ctx (get_pkg (i_store s) pkg)))).
  assert (Hdd : dir_static dd = dir_static (inst_dir f0 di)) by (by apply layout_dir).
  assert (Hpr : apk_fsdir_priority d = prio_of f0 di).
  { unfold prio_of, fsdir_of, d, apk_fsdir_priority. cbn. unfold dir_static in Hdd. by injection Hdd as -> _ _. }
  assert (Hstep : exists s1 ids1 np1, migrate_diri pkg want prio di (s, ids, np) = Some (s1, ids1, np1) /\
    claiming f0 Q L (fun p => D p \/ p ∈ pair di <$> di_files (get_diri f0 di) /\ prio_of f0 p.1 = prio) s1 /\
    np1 <= np /\ (prio < prio_of f0 di -> np1 <= prio_of f0 di) /\ (np1 = np \/ prio < np1 /\ prio_of f0 di = np1)).
  { unfold migrate_diri. cbv zeta. change (get_dir (i_fs s) (di_dir (get_diri (i_fs s) di))) with dd. fold d. rewrite Hpr.
    destruct (Z.eqb_spec (prio_of f0 di) prio) as [Ep|Ep]; cbn [negb].
    - set (s1 := upd_i_fs (upd_dir (di_dir (get_diri (i_fs s) di)) (set_dr_modified true)) s).
      assert (Hc1 : claiming f0 Q L D s1) by (apply (claiming_same _ _ _ _ s); [by apply same_tab_dir|done]).
      change (di_files (get_diri (i_fs s1) di)) with (di_files (get_diri (i_fs s) di)). rewrite (sl_diri _ _ Hl).
      destruct (migrate_files_claims f0 Q L D pkg want di (Some (apk_pkg_ctx (get_pkg (i_store s) pkg))) dd (di_files (get_diri f0 di)) s1 ids Hc1) as (s2 & ids2 & E2 & Hc2); [| |done|].
      + intros file Hf. assert (Hp : (di, file) ∈ files_of f0 (di :: diris)) by (apply Hfs; left; apply list_elem_of_fmap; eauto). split; [by apply HL|]. by apply HD.
      + by apply NoDup_fmap_1 in Hnd1.
      + fold d in E2. rewrite E2. cbn [mbind option_bind]. exists s2, ids2, np. split; [done|]. split; [|split; [lia|split; [lia|by left]]].
        apply (claiming_ext _ _ _ _ _ _) with (2 := Hc2). intros p. split; [|tauto]. intros [?|Hp]; [by left|right]. split; [done|].
        apply list_elem_of_fmap in Hp as (f & -> & _). done.
    - eexists s, ids, _. split; [done|]. split; [|].
      + apply (claiming_ext _ _ _ D); [|done]. intros p. split; [tauto|]. intros [?|[Hp Hq]]; [done|].
        apply list_elem_of_fmap in Hp as (f & -> & _). done.
      + destruct (Z.ltb_spec prio (prio_of f0 di)); cbn [andb]; [|split; [lia|split; [lia|by left]]].
        destruct (Z.ltb_spec (prio_of f0 di) np); (split; [lia|split; [lia|]]); [by right|by left]. }
  destruct Hstep as (s1 & ids1 & np1 & -> & Hc1 & Hn1 & Hn2 & Hn3). cbn [mbind option_bind].
  destruct (IH _ s1 ids1 np1 Hc1) as (s2 & ids2 & np2 & -> & Hc2 & Hm1 & Hm2 & Hm3).
  { intros d' f' H. apply HL, Hfs. by right. }
  { done. }
  { intros p Hp Hq. specialize (HD p ltac:(apply Hfs; by right) Hq). intros [?|[Hp' _]]; [done|]. by apply (Hdisj p). }
  exists s2, ids2, np2. split; [done|]. split; [|split; [lia|split]].
  - apply (claiming_ext _ _ _ _ _ _) with (2 := Hc2). intros p. rewrite Hfs. tauto.
  - intros x Hx Hlt. apply elem_of_cons in Hx as [->|Hx]; [specialize (Hn2 Hlt); lia|by apply Hm2].
  - destruct Hm3 as [->|(Hm3 & x & Hx & Hxp)]; [|right; split; [done|]; exists x; split; [by right|done]].
    destruct Hn3 as [->|[Hn3 Hn4]]; [by left|right; split; [done|]]. exists di. split; [by left|done].
Qed.

Lemma prio_range f0 di : prio_of f0 di = APK_FS_PRIO_DISK \/ prio_of f0 di = APK_FS_PRIO_UVOL.
Proof. unfold prio_of, apk_fsdir_priority. destruct (d_uvol _); [by right|by left]. Qed.

(** Every file of a package gets its entry; files with the same name lose theirs. *)
Lemma migrate_claims pkg want s Q :
  tab_inv (i_fs s) Q -> NoDup (pkg_files (i_fs s) pkg) ->
  (forall p, p ∈ pkg_files (i_fs s) pkg -> ~ Q p /\ f_audited (get_file (i_fs s) p.2) = false /\ f_diri (get_file (i_fs s) p.2) = p.1) ->
  exists s' ids, apk_db_migrate_files pkg want s = Some (s', ids) /\ same_layout (i_fs s) (i_fs s') /\
    tab_inv (i_fs s') (fun p => Q p \/ p ∈ pkg_files (i_fs s) pkg).
Proof.
  intros Hi Hnd HL. set (f0 := i_fs s) in *. set (L := pkg_files f0 pkg) in *. set (diris := default [] (fs_owned f0 !! pkg)).
  assert (Hc0 : claiming f0 Q L (fun _ => False) s). { split; [done| |auto]. apply (tab_inv_ext _ Q); [tauto|done]. }
  change L with (files_of f0 diris) in Hnd.
  destruct (migrate_pass_claims f0 Q L _ pkg want APK_FS_PRIO_DISK diris s [] APK_FS_PRIO_MAX Hc0) as (s1 & ids1 & np1 & E1 & Hc1 & Ha & Hb & Hcase); [done|done|tauto|].
  assert (E0 : apk_db_migrate_files pkg want s = '(s1, ids1, prio) ← fold_opt (migrate_diri pkg want APK_FS_PRIO_DISK) diris (s, [], APK_FS_PRIO_MAX);
                 migrate_loop 2 pkg want prio (s1, ids1)) by reflexivity. rewrite E0, E1. clear E0 E1. cbn [mbind option_bind].
  assert (Hin : forall p, p ∈ L -> p.1 ∈ diris) by (intros [d f] Hp; by apply elem_of_pkg_files in Hp as [? _]).
  destruct Hcase as [->|(Hgt & di & Hdi & Hp)].
  - exists s1, ids1. split; [done|]. split; [apply Hc1|]. apply (tab_inv_ext _ _ _) with (2 := cl_tab _ _ _ _ _ Hc1). intros p.
    split; [intros [?|[[]|[? _]]]; [by left|by right]|]. intros [?|Hp]; [by left|]. right; right. split; [done|].
    destruct (prio_range f0 p.1) as [?|Hu]; [done|]. specialize (Hb p.1 (Hin p Hp)). rewrite Hu in Hb. by specialize (Hb ltac:(done)).
  - assert (np1 = APK_FS_PRIO_UVOL) as ->.
    { destruct (prio_range f0 di) as [E|E]; rewrite E in Hp; [|done]. unfold APK_FS_PRIO_DISK in *. lia. }
    destruct (migrate_pass_claims f0 Q L _ pkg want APK_FS_PRIO_UVOL diris s1 ids1 APK_FS_PRIO_MAX Hc1) as (s2 & ids2 & np2 & E2 & Hc2 & Ha2 & Hb2 & Hcase2).
    { done. }
    { done. }
    { intros p Hp' Hq [[]|[_ Hq']]. rewrite Hq in Hq'. done. }
    assert (np2 = APK_FS_PRIO_MAX) as ->.
    { destruct Hcase2 as [?|(Hgt2 & x & _ & Hx)]; [done|]. destruct (prio_range f0 x) as [E|E]; rewrite E in Hx; subst np2; done. }
    assert (E3 : migrate_loop 2 pkg want APK_FS_PRIO_UVOL (s1, ids1) =
      '(s2, ids2, prio) ← fold_opt (migrate_diri pkg want APK_FS_PRIO_UVOL) (default [] (fs_owned (i_fs s1) !! pkg)) (s1, ids1, APK_FS_PRIO_MAX);
      migrate_loop 1 pkg want prio (s2, ids2)) by reflexivity.
    rewrite E3, (sl_owned _ _ (cl_layout _ _ _ _ _ Hc1)). fold diris. rewrite E2. cbn [mbind option_bind]. exists s2, ids2. split; [done|]. split; [apply Hc2|].
    apply (tab_inv_ext _ _ _) with (2 := cl_tab _ _ _ _ _ Hc2). intros p. split; [intros [?|[[[]|[? _]]|[? _]]]; [by left|by right|by right]|].
    intros [?|Hp']; [by left|]. right. destruct (prio_range f0 p.1) as [E|E]; [left; right|right]; done.
Qed.
(** ** Deleting the files of a package *)

Lemma audited_inv f Q di a : tab_inv f Q -> Q (di, a) -> f_audited (get_file f a) = true -> tab_inv f (fun p => Q p /\ p <> (di, a)).
Proof.
  intros [H1 H2 H3] Hq Ha. split; [|done|intros d b [? _]; auto]. intros k b. rewrite H1. split; intros (d & Hb & Hc & Hk); exists d.
  - split; [|done]. split; [done|]. intros [= -> ->]. congruence.
  - by destruct Hb.
Qed.

Lemma unclaim_inv f Q di a :
  tab_inv f Q -> Q (di, a) -> f_audited (get_file f a) = false ->
  tab_inv (add_files (-1) (hash_delete (key_of f di a) f)) (fun p => Q p /\ p <> (di, a)).
Proof.
  intros Hi Hq Ha. pose proof (tab_key f Q di a Hi Hq Ha) as Hk. set (k := key_of f di a) in *. split.
  - intros k' b. cbn [fs_file_tab add_files hash_delete set_fs_num_files set_fs_file_tab]. split.
    + intros [Hne Hb]%lookup_delete_Some. apply (ti_tab _ _ Hi) in Hb as (d & Hb1 & Hb2 & Hb3). exists d. split; [|done].
      split; [done|]. intros [= -> ->]. by apply Hne.
    + intros (d & [Hb1 Hne] & Hb2 & Hb3). pose proof (tab_key f Q d b Hi Hb1 Hb2) as Ht. change (key_of f d b = k') in Hb3. rewrite Hb3 in Ht.
      rewrite lookup_delete_ne; [done|]. intros E. rewrite <- E, Hk in Ht. apply (inj Some) in Ht. subst b. apply Hne.
      by rewrite <- (ti_diri _ _ Hi _ _ Hq), <- (ti_diri _ _ Hi _ _ Hb1).
  - cbn. rewrite map_size_delete, Hk, (ti_num _ _ Hi). cbn.
    assert (base.size (fs_file_tab f) <> 0%nat) by (intros Hz; apply map_size_empty_inv in Hz; by rewrite Hz, lookup_empty in Hk). lia.
  - intros d b [Hb _]. by apply (ti_diri _ _ Hi).
Qed.

Lemma unclaim_layout k f : same_layout f (add_files (-1) (hash_delete k f)).
Proof. by split. Qed.

Lemma purge_wanted_fs fileids d fn s : i_fs (purge_wanted fileids d fn s).2 = i_fs s.
Proof. unfold purge_wanted. destruct fileids; [|done]. pose proof (fileid_fs d fn s). by destruct (fileid_get d fn s). Qed.

(** Deleting one file succeeds and removes its entry. *)
Lemma purge_file_inv f0 Q fileids di ctx dd file s :
  same_layout f0 (i_fs s) -> tab_inv (i_fs s) Q -> Q (di, file) -> dir_static dd = dir_static (inst_dir f0 di) ->
  exists s', purge_file true fileids dd (apk_fsdir_get (dr_name dd) ctx) file s = Some s' /\ same_layout f0 (i_fs s') /\
    tab_inv (i_fs s') (fun p => Q p /\ p <> (di, file)).
Proof.
  intros Hl Hi Hq Hdd. unfold purge_file. set (fl := get_file (i_fs s) file). destruct (f_audited fl) eqn:Ea.
  { exists s. split; [done|]. split; [done|by apply audited_inv]. }
  set (d := apk_fsdir_get _ _). pose proof (purge_wanted_fs fileids d (f_name fl) s) as E1.
  destruct (purge_wanted fileids d (f_name fl) s) as [del s1]. cbn in E1.
  match goal with |- context [let '(go, s) := ?m in _] => assert (E2 : i_fs m.2 = i_fs s); [|destruct m as [go s2]; cbn in E2] end.
  { destruct del; [|done]. destruct (_ || _ || _); [done|]. pose proof (audit_fs d (f_name fl) (Some fl) s1) as [E2 _].
    destruct (apk_db_audit_file _ _ _ _) as [c s2]. cbn in *. congruence. }
  assert (Hrun : forall (b : bool) ctrl s2, exists s3, (if b then snd <$> run_ctl d (f_name fl) ctrl s2 else Some s2) = Some s3 /\ i_fs s3 = i_fs s2).
  { intros [] ctrl s3; [|by exists s3]. destruct (run_ctl_total (dr_name dd) ctx (f_name fl) ctrl s3) as (r & s4 & E & Ef). fold d in E. rewrite E. by exists s4. }
  destruct (Hrun go APK_FS_CTRL_DELETE s2) as (s3 & -> & E3). cbn [mbind option_bind].
  match goal with |- context [if ?b then snd <$> run_ctl d _ ?c s3 else _] => destruct (Hrun b c s3) as (s4 & -> & E4) end. cbn [mbind option_bind].
  eexists. split; [done|]. cbn [i_fs upd_i_fs set_i_fs]. rewrite E4, E3, E2.
  assert (Hkey : file_key dd (f_name fl) = key_of (i_fs s) di file).
  { pose proof (layout_dir f0 (i_fs s) di Hl) as E. unfold key_of, file_key, dir_static in *. rewrite <- E in Hdd. by injection Hdd as -> -> _. }
  rewrite Hkey. split; [etrans; [exact Hl|apply unclaim_layout]|by apply unclaim_inv].
Qed.

(** The state while files are deleted: the table has the files of [Q] that are not in [D]. *)
Definition purging (f0 : fs_db) (Q : Z * Z -> Prop) (D : list (Z * Z)) s : Prop :=
  same_layout f0 (i_fs s) /\ tab_inv (i_fs s) (fun p => Q p /\ p ∉ D).

Lemma purge_files_inv f0 Q D fileids di ctx dd files s :
  purging f0 Q D s -> (forall file, file ∈ files -> Q (di, file) /\ (di, file) ∉ D) -> NoDup files -> dir_static dd = dir_static (inst_dir f0 di) ->
  exists s', fold_opt (purge_file true fileids dd (apk_fsdir_get (dr_name dd) ctx)) files s = Some s' /\ purging f0 Q (D ++ (pair di <$> files)) s'.
Proof.
  intros Hp Hin Hnd Hdd. revert D s Hp Hin. induction Hnd as [|file files Hnf Hnd IH]; intros D s [Hl Hi] Hin.
  { exists s. cbn. by rewrite app_nil_r. }
  cbn [fold_opt]. destruct (purge_file_inv f0 _ fileids di ctx dd file s Hl Hi) as (s1 & -> & Hl1 & Hi1); [apply Hin; by left|done|].
  cbn [mbind option_bind]. destruct (IH (D ++ [(di, file)]) s1) as (s2 & E2 & Hp2).
  - split; [done|]. apply (tab_inv_ext _ _ _) with (2 := Hi1). intros p. rewrite not_elem_of_app, list_elem_of_singleton. tauto.
  - intros x Hx. destruct (Hin x) as [G1 G2]; [by right|]. split; [done|]. rewrite not_elem_of_app, list_elem_of_singleton. split; [done|]. by intros [= ->].
  - exists s2. split; [done|]. by rewrite <- app_assoc in Hp2.
Qed.

Lemma purge_diris_inv f0 Q D pkg fileids diris s s' :
  purging f0 Q D s -> (forall p, p ∈ files_of f0 diris -> Q p /\ p ∉ D) -> NoDup (files_of f0 diris) ->
  fold_opt (purge_diri pkg true fileids) diris s = Some s' -> purging f0 Q (D ++ files_of f0 diris) s'.
Proof.
  revert D s. induction diris as [|di diris IH]; intros D s Hp Hin Hnd.
  { intros [= <-]. by rewrite app_nil_r. }
  unfold files_of in Hin, Hnd |- *. cbn [mbind list_bind] in Hin, Hnd |- *. apply NoDup_app in Hnd as (Hnd1 & Hdisj & Hnd2).
  cbn [fold_opt]. destruct (purge_diri pkg true fileids di s) as [s1|] eqn:E; [|done]. cbn [mbind option_bind]. rewrite app_assoc. intros Er.
  refine (IH _ s1 _ _ Hnd2 Er).
  - clear Er. revert E. unfold purge_diri. cbv zeta. set (dir := di_dir (get_diri (i_fs s) di)). set (s0 := upd_i_fs (upd_dir dir (set_dr_modified true)) s).
    assert (Hp0 : purging f0 Q D s0).
    { destruct Hp as [Hl Hi]. split; [etrans; [exact Hl|]; by apply layout_upd_dir|]. apply (tab_inv_same (i_fs s)); [by apply same_tab_dir|done]. }
    change (get_dir (i_fs s0) dir) with (inst_dir (i_fs s0) di). rewrite (sl_diri _ _ (proj1 Hp0) di).
    destruct (purge_files_inv f0 Q D fileids di (Some (apk_pkg_ctx (get_pkg (i_store s0) pkg))) (inst_dir (i_fs s0) di) (di_files (get_diri f0 di)) s0 Hp0) as (s2 & -> & Hp2).
    + intros file Hf. apply Hin, elem_of_app. left. apply list_elem_of_fmap. by exists file.
    + by apply NoDup_fmap_1 in Hnd1.
    + apply layout_dir, Hp0.
    + cbn [mbind option_bind]. intros Er. apply (quiet_diri_remove []) in Er as [_ Hs].
      destruct Hp2 as [Hl2 Hi2]. split; [etrans; [exact Hl2|apply Hs]|by apply (tab_inv_same (i_fs s2))].
  - intros p Hp'. destruct (Hin p) as [G1 G2]; [apply elem_of_app; by right|]. split; [done|]. apply not_elem_of_app. split; [done|].
    intros Hd. by apply (Hdisj p).
Qed.

(** The entries of the files of a package are gone after its removal, and no others. *)
Lemma purge_inv pkg fileids s s' Q :
  tab_inv (i_fs s) Q -> NoDup (pkg_files (i_fs s) pkg) -> (forall p, p ∈ pkg_files (i_fs s) pkg -> Q p) ->
  apk_db_purge_pkg pkg true fileids s = Some s' -> tab_inv (i_fs s') (fun p => Q p /\ p ∉ pkg_files (i_fs s) pkg).
Proof.
  intros Hi Hnd Hin. unfold apk_db_purge_pkg. cbv zeta. set (ids := match fileids with Some [] => None | x => x end).
  match goal with |- context [fold_opt ?g ?l s] => destruct (fold_opt g l s) as [s2|] eqn:E; [|done] end. cbn [mbind option_bind]. intros [= <-].
  apply (purge_diris_inv (i_fs s) Q []) in E as [_ H2].
  - destruct H2 as [G1 G2 G3]. by split.
  - split; [done|]. apply (tab_inv_ext _ Q); [|done]. intros p. rewrite elem_of_nil. tauto.
  - intros p Hp. split; [by apply Hin|apply not_elem_of_nil].
  - done.
Qed.
End tab.
