(* ===== verification/InstallProps.v ===== *)
(** What installing, upgrading and removing packages (Install.v) promises: names of files stay below the root, extraction
    touches no file of the user, changed files in protected directories are kept, and the table of files is exact. *)
From Stdlib Require Import ZArith Lia Ascii String.
From stdpp Require Import base numbers list option gmap.
From S2P Require Import Prelude Clib Blob Codec Version Array Dep Package SolverState Database AdbTrust Stream StreamThm Tar TarThm Gunzip ExtractV2 ExtractToy InstalledDb Disk FsDir FsThm Install InstallToy InstallThm InstallKeep InstallTab.

(** ** Names *)

(** Every component but the last is followed by a slash, and preceded by one or at the start. *)
Lemma components_inner cur p l1 x y l2 :
  components cur p = l1 ++ x :: y :: l2 ->
  exists p1 p2, rev cur ++ p = p1 ++ x ++ chr "/" :: p2 /\ (p1 = [] \/ exists p1', p1 = p1' ++ [chr "/"]).
Proof.
  revert cur l1. induction p as [|c p IH]; intros cur l1; cbn [components].
  - destruct l1 as [|? [|]]; done.
  - destruct (Z.eqb_spec c (chr "/")) as [->|].
    + destruct l1 as [|z l1]; cbn [app]; intros E.
      * injection E as <- _. exists [], p. split; [done|by left].
      * injection E as <- E. destruct (IH [] l1 E) as (p1 & p2 & Hp & Hc). cbn [rev app] in Hp. exists (rev cur ++ chr "/" :: p1), p2. split.
        { by rewrite Hp, <- app_assoc. }
        right. destruct Hc as [->|(p1' & ->)]; [by exists (rev cur)|]. exists (rev cur ++ chr "/" :: p1'). by rewrite <- app_assoc.
    + intros E. destruct (IH (c :: cur) l1 E) as (p1 & p2 & Hp & Hc). exists p1, p2. split; [|done]. rewrite <- Hp. cbn [rev]. by rewrite <- app_assoc.
Qed.

Lemma strstr_false s sub l r : strstr s sub = false -> s = l ++ sub ++ r -> False.
Proof.
  unfold strstr. destruct (memmem s sub) eqn:E; [done|]. intros _ Hs. by apply (memmem_none s sub l r).
Qed.

Lemma prefixb_false s p r : prefixb p s = false -> s = p ++ r -> False.
Proof. intros Hp ->. assert (prefixb p (p ++ r) = true) by (apply prefixb_spec; eauto). congruence. Qed.

(** No component of an accepted name but the last is a dot name. *)
Lemma accepted_inner name l1 x y l2 :
  malicious_name name = false -> components [] name = l1 ++ x :: y :: l2 -> x <> bs "." /\ x <> bs "..".
Proof.
  unfold malicious_name. rewrite !orb_false_iff. intros (((((_ & _) & H1) & H2) & H3) & H4) E.
  apply components_inner in E as (p1 & p2 & Hp & Hc). cbn [rev app] in Hp. subst name.
  split; intros ->; (destruct Hc as [->|(p1' & ->)]; [|rewrite <- app_assoc in *]).
  - exact (prefixb_false _ _ _ H1 eq_refl).
  - exact (strstr_false _ _ p1' p2 H3 eq_refl).
  - exact (prefixb_false _ _ _ H2 eq_refl).
  - exact (strstr_false _ _ p1' p2 H4 eq_refl).
Qed.

Definition given (c : bytes) : Prop := c <> [].
#[export] Instance given_dec c : Decision (given c) := decide (c <> []).

Lemma enter_inner at_ l : Forall (fun x => x <> bs "." /\ x <> bs "..") l -> foldl enter at_ l = at_ ++ filter given l.
Proof.
  intros Hl. revert at_. induction Hl as [|x l [H1 H2] Hl IH]; intros at_; [by rewrite app_nil_r|]. cbn [foldl]. rewrite IH, filter_cons.
  destruct (decide (given x)) as [Hx|Hx]; unfold given in Hx.
  - rewrite enter_proper by done. by rewrite <- app_assoc.
  - destruct x; [|by destruct Hx]. done.
Qed.

(** The first component. *)
Lemma components_first cur p x l : components cur p = x :: l ->
  exists t, x = rev cur ++ t /\ (l = [] -> p = t) /\ (l <> [] -> exists q, p = t ++ chr "/" :: q).
Proof.
  revert cur. induction p as [|c p IH]; intros cur; cbn [components].
  - intros [= <- <-]. exists []. by rewrite app_nil_r.
  - destruct (Z.eqb_spec c (chr "/")) as [->|].
    + intros [= <- <-]. exists []. rewrite app_nil_r. split; [done|]. split; [intros E; by apply components_nonempty in E|]. intros _. by exists p.
    + intros E. destruct (IH _ E) as (t & -> & H1 & H2). exists (c :: t). cbn [rev]. rewrite <- app_assoc. split; [done|].
      split; [intros Hl; by rewrite H1|]. intros Hl. destruct (H2 Hl) as (q & ->). by exists q.
Qed.

(** C12: The names that the installation accepts, in a directory [root], refer to [root] or to a file below it; the
    directories on the way are the components of the name.  The only accepted name that leaves the directory is the
    name of its parent. *)
Theorem accepted_names_confined root name :
  malicious_name name = false ->
  contains_control_character name = false /\
  (exists dirs c, components [] name = dirs ++ [c] /\ resolve_from root name = enter (root ++ filter given dirs) c) /\
  (name <> bs ".." -> root `prefix_of` resolve_from root name).
Proof.
  intros Hm. assert (Hc : contains_control_character name = false /\ (List.hd 0 name =? chr "/") = false).
  { unfold malicious_name in Hm. rewrite !orb_false_iff in Hm. tauto. }
  destruct Hc as [Hc Hh]. split; [done|]. destruct (exists_last (components_nonempty [] name)) as (dirs & c & E).
  assert (Hd : Forall (fun x => x <> bs "." /\ x <> bs "..") dirs).
  { apply Forall_forall. intros x Hx. apply list_elem_of_split in Hx as (l1 & l2 & ->).
    destruct l2 as [|y l2]; [apply (accepted_inner name l1 x c [])|apply (accepted_inner name l1 x y (l2 ++ [c]))]; try done; by rewrite E, <- app_assoc. }
  assert (Er : resolve_from root name = enter (root ++ filter given dirs) c).
  { unfold resolve_from. rewrite E, foldl_app. cbn [foldl]. by rewrite enter_inner. }
  split; [by exists dirs, c|]. intros Hne. rewrite Er. unfold enter. destruct (_ || _); [by apply prefix_app_r|].
  case_bool_decide as Ec; [|rewrite <- app_assoc; by apply prefix_app_r].
  destruct dirs as [|d dirs]; cbn [app] in E; destruct (components_first [] name _ _ E) as (t & Et & H1 & H2); cbn [rev app] in Et; subst t.
  - exfalso. apply Hne. by rewrite H1.
  - destruct H2 as (q & ->); [by destruct dirs|]. destruct d as [|z d]; [done|]. rewrite filter_cons, decide_True by done.
    rewrite removelast_app by done. by apply prefix_app_r.
Qed.

Lemma accepted_names_confined_witness :
  malicious_name (bs "usr/bin/ls") = false /\ [bs "sysroot"] `prefix_of` resolve_from [bs "sysroot"] (bs "usr/bin/ls").
Proof.
  split; [by vm_compute|]. destruct (accepted_names_confined [bs "sysroot"] (bs "usr/bin/ls")) as (_ & _ & H); [by vm_compute|]. by apply H.
Defined.

(** ** Files of the user *)

Section files.
Context {OS : Os} {FC : FsCtx} {pkey : Type} {CR : Crypto pkey} {FM : Fnmatch} {SIM : Simulate} {IC : InstallCtx} {UC : UndefChecksum}.
Context {CC : CryptoCtx pkey} {S : Type} `{IstreamOps S} {zs : Type} `{Zlib zs}.
Context (trust : apk_trust pkey) (turns : nat).
Context (sort : list apk_xattr -> list apk_xattr) (idc : id_cache) (junk : Z) (fuel : nat) (bufsize : Z).

Abbreviation unpack := (apk_db_unpack_pkg (S := S) (zs := zs) trust turns sort idc junk fuel bufsize).

(** C9: Unpacking a package, whatever its bytes are and whatever calls fail, leaves every file on the disk with its contents
    and type, but for the temporary names that apk makes and files that are named as new versions.  The one thing in a package
    that could change a file while it is unpacked is its script: the claim is for runs without scripts (--no-scripts), and
    for runs in which scripts are kept in memory (memfd_create) and leave the file alone. *)
Theorem unpack_keeps_files K i st pkg upgrade args s r s' :
  user_name K -> scripts_quiet K -> disk_ok (w_disk (i_w s)) -> inode_at (w_disk (i_w s)) K = Some i -> is_dir i = false ->
  unpack st pkg upgrade args s = Some (r, s') ->
  exists i', inode_at (w_disk (i_w s')) K = Some i' /\ in_data i' = in_data i /\ in_type i' = in_type i.
Proof.
  intros HK Hs Hok Hi Hf Hu. apply (safe_unpack K HK Hs) in Hu. apply (kept_inode_at K (w_disk (i_w s)) _ i); [|done|done]. apply Hu; [done|]. by exists i.
Qed.

(** C11: Removing a package without --purge keeps the contents of a file that the user changed.  Directories may be reached
    through symbolic links, so any file of the package with the same last component may turn out to be the file; the claim
    is for a file such that all files of the package with that last component are in protected directories and recorded with
    other contents.  Calls may fail with any error but the false statement that a file is missing (ENOENT), scripts are not
    run or leave the file alone, and the wrappers of executables are not kept below the destination. *)
Theorem remove_keeps_changes unp K i old s r s' :
  user_name K -> is_dir i = false -> (forall n, os_fault n <> ENOENT) -> shims_outside -> ic_purge = false -> scripts_quiet K ->
  tracks K i s -> old_pkg_guard K i (i_fs s) old ->
  apk_db_install_pkg unp (Some old) None s = Some (r, s') -> tracks K i s'.
Proof. intros. by apply (remove_tracks K ltac:(done) i ltac:(done) ltac:(done) ltac:(done) ltac:(done) ltac:(done) unp old s r). Qed.

(** C8: Installing or upgrading a package from its archive, without --purge, keeps the contents of a file that the user
    changed: the new version of the file is put beside it or dropped, and the removal of the old package leaves it.
    Directories may be reached through symbolic links, so the claim is for a file such that all files of both packages with
    the same last component are in protected directories and recorded with other contents; for the new package that is
    said of the tables that its extraction leaves.  Calls may fail with any error but the false statement that a file is
    missing (ENOENT), scripts are not run or leave the file alone, and the wrappers of executables are not kept
    below the destination. *)
Theorem upgrade_keeps_changes st K i oldpkg new s r s' :
  user_name K -> is_dir i = false -> (forall n, os_fault n <> ENOENT) -> shims_outside -> ic_purge = false -> scripts_quiet K ->
  tracks K i s -> (forall old, oldpkg = Some old -> old_pkg_guard K i (i_fs s) old) ->
  (forall r1 s1, unpack st new (match oldpkg with Some _ => true | None => false end) (script_args oldpkg new s) (install_start new s) = Some (r1, s1) ->
     let f := apk_db_ipkg_commit new (i_fs s1) in
     dirs_ok f new /\ new_pkg_guard K i f new /\ forall old, oldpkg = Some old -> old_pkg_guard K i f old) ->
  apk_db_install_pkg (unpack st) oldpkg (Some new) s = Some (r, s') -> tracks K i s'.
Proof.
  intros HK Hd Hos Hsh Hp Hs Ht Hold Hnew. apply (upgrade_tracks K HK i Hd Hos Hsh Hp Hs (unpack st) oldpkg new s r s' Ht Hold).
  intros r1 s1 E f. destruct (Hnew r1 s1 E) as (G1 & G2 & G3). split; [by apply (safe_unpack K HK Hs) in E|]. done.
Qed.
End files.

(** ** The table of files *)

Section table.
Context {OS : Os} {FC : FsCtx} {pkey : Type} {CR : Crypto pkey} {FM : Fnmatch} {SIM : Simulate} {IC : InstallCtx} {UC : UndefChecksum}.

(** C10: Moving the files of a new package to their places always comes to an end and gives every file its entry in the table of
    files; the files of other packages with the same names are marked as taken over.  When the files of the old package are
    deleted after that, the table has exactly the files of the installed packages that are not taken over, each under its
    name, and the counter of files is its size. *)
Theorem upgrade_file_table new old want s Q :
  tab_inv (i_fs s) Q ->
  NoDup (pkg_files (i_fs s) new) -> NoDup (pkg_files (i_fs s) old) -> (forall p, p ∈ pkg_files (i_fs s) old -> Q p) ->
  (forall p, p ∈ pkg_files (i_fs s) new -> ~ Q p /\ f_audited (get_file (i_fs s) p.2) = false /\ f_diri (get_file (i_fs s) p.2) = p.1) ->
  exists s1 ids, apk_db_migrate_files new want s = Some (s1, ids) /\
    tab_inv (i_fs s1) (fun p => Q p \/ p ∈ pkg_files (i_fs s) new) /\
    forall fileids s2, apk_db_purge_pkg old true fileids s1 = Some s2 ->
      tab_inv (i_fs s2) (fun p => (Q p \/ p ∈ pkg_files (i_fs s) new) /\ p ∉ pkg_files (i_fs s) old).
Proof.
  intros Hi Hn Ho Hold Hnew. destruct (migrate_claims new want s Q Hi Hn Hnew) as (s1 & ids & E & Hl & H1).
  exists s1, ids. split; [done|]. split; [done|]. intros fileids s2 Hp. rewrite <- (pkg_files_layout _ _ old Hl) in Ho, Hold |- *.
  apply (purge_inv old fileids s1 s2 _ H1 Ho); [|done]. intros p Hp'. left. by apply Hold.
Qed.
End table.

(** ** A concrete upgrade and removal *)

Section decide.
Context {FC : FsCtx} {pkey : Type} {CR : Crypto pkey} (K : fname) (i : inode).

(** The assumptions on the tables as tests. *)
Definition dirs_okb (f : fs_db) (pkg : Z) : bool :=
  forallb (fun di => forallb (fun c => negb (c =? 0)) (apk_pathbuilder_get (d_pb (fsdir_of f [] di)))) (default [] (fs_owned f !! pkg)).
Definition guardb (f : fs_db) (recorded : Z * Z -> option apk_db_file) (p : Z * Z) : bool :=
  negb (aims K (target f p.1 p.2)) ||
  negb (apk_protect_mode_none (dr_protect_mode (inst_dir f p.1))) && local_change i (recorded p).
Definition new_guardb (f : fs_db) (pkg : Z) : bool :=
  bool_decide (NoDup ((fun p => key_of f p.1 p.2) <$> pkg_files f pkg)) && dirs_okb f pkg &&
  forallb (guardb f (fun p => get_file f <$> fs_file_tab f !! key_of f p.1 p.2)) (pkg_files f pkg).
Definition old_guardb (f : fs_db) (pkg : Z) : bool :=
  dirs_okb f pkg && forallb (guardb f (fun p => Some (get_file f p.2))) (pkg_files f pkg).

Lemma dirs_okb_ok f pkg : dirs_okb f pkg = true -> dirs_ok f pkg.
Proof.
  unfold dirs_okb. rewrite forallb_forall. intros Hd di Hdi. apply list_elem_of_In, Hd in Hdi. rewrite forallb_forall in Hdi.
  apply Forall_forall. intros c Hc ->. apply list_elem_of_In, Hdi in Hc. done.
Qed.
Lemma guardb_ok f recorded p : guardb f recorded p = true -> aims K (target f p.1 p.2) = true ->
  apk_protect_mode_none (dr_protect_mode (inst_dir f p.1)) = false /\ local_change i (recorded p) = true.
Proof. unfold guardb. intros Hg Ht. rewrite Ht in Hg. cbn [negb orb] in Hg. apply andb_true_iff in Hg as [Hg ?]. by apply negb_true_iff in Hg. Qed.
Lemma new_guardb_ok f pkg : new_guardb f pkg = true -> new_pkg_guard K i f pkg.
Proof.
  unfold new_guardb. rewrite !andb_true_iff, forallb_forall, bool_decide_eq_true. intros [[H1 H2] H3]. split; [done|]. split; [by apply dirs_okb_ok|].
  intros di file Hp. apply list_elem_of_In, H3 in Hp. by apply (guardb_ok _ _ _ Hp).
Qed.
Lemma old_guardb_ok f pkg : old_guardb f pkg = true -> old_pkg_guard K i f pkg.
Proof.
  unfold old_guardb. rewrite andb_true_iff, forallb_forall. intros [H1 H2]. split; [by apply dirs_okb_ok|]. apply Forall_forall.
  intros p Hp. apply list_elem_of_In, H2 in Hp. exact (guardb_ok _ _ _ Hp).
Qed.

(** The file is on a consistent disk. *)
Definition tracksb (s : idb) : bool :=
  let d := w_disk (i_w s) in
  forallb (fun x => (x.2 <? dk_next d) && match dk_inodes d !! x.2 with Some _ => true | None => false end) (map_to_list (dk_names d)) &&
  match inode_at d K with Some j => bool_decide (in_data j = in_data i) && (in_type j =? in_type i) | None => false end.
Lemma tracksb_ok s : tracksb s = true -> tracks K i s.
Proof.
  unfold tracksb, tracks. rewrite andb_true_iff, forallb_forall. intros [H1 H2]. split.
  - intros k n Hk. apply elem_of_map_to_list, list_elem_of_In, H1 in Hk. apply andb_true_iff in Hk as [Hn Hi]. cbn [snd] in *.
    apply Z.ltb_lt in Hn. split; [done|]. by destruct (dk_inodes _ !! n); [eexists|].
  - destruct (inode_at _ K) as [j|]; [|done]. apply andb_true_iff in H2 as [Hd Ht]. apply bool_decide_eq_true in Hd. apply Z.eqb_eq in Ht. by exists j.
Qed.
End decide.

(** The invariant of the table of files for a list of files. *)
Definition tab_invb (f : fs_db) (L : list (Z * Z)) : bool :=
  forallb (fun x => existsb (fun p => (p.2 =? x.2) && negb (f_audited (get_file f p.2)) && bool_decide (key_of f p.1 p.2 = x.1)) L) (map_to_list (fs_file_tab f)) &&
  forallb (fun p => (f_audited (get_file f p.2) || bool_decide (fs_file_tab f !! key_of f p.1 p.2 = Some p.2)) && (f_diri (get_file f p.2) =? p.1)) L &&
  (fs_num_files f =? Z.of_nat (base.size (fs_file_tab f))).

Lemma tab_invb_ok f L : tab_invb f L = true -> tab_inv f (fun p => p ∈ L).
Proof.
  unfold tab_invb. rewrite !andb_true_iff, !forallb_forall. intros [[H1 H2] H3]. split; [|by apply Z.eqb_eq|].
  - intros k a. split.
    + intros Hk. apply elem_of_map_to_list, list_elem_of_In, H1, existsb_exists in Hk as ([di b] & Hp & Hb). cbn [fst snd] in Hb.
      rewrite !andb_true_iff, Z.eqb_eq, negb_true_iff, bool_decide_eq_true in Hb. destruct Hb as [[-> Ha] Hk]. exists di. by apply list_elem_of_In in Hp.
    + intros (di & Hp & Ha & <-). apply list_elem_of_In, H2 in Hp. cbn [fst snd] in Hp. rewrite Ha in Hp. cbn [orb] in Hp.
      apply andb_true_iff in Hp as [Hp _]. by apply bool_decide_eq_true in Hp.
  - intros di a Hp. apply list_elem_of_In, H2, andb_true_iff in Hp as [_ Hp]. by apply Z.eqb_eq in Hp.
Qed.

(** Version 1 of the package was installed, and the user has changed its file. *)
Definition toy_user : idb := toy_edit "mine" (default (0, toy_base) toy_installed).2.
Definition toy_name : fname := [bs "etc"; bs "motd"].
Definition toy_inode : inode := Inode (S_IFREG .| 0x1a4) 1000 7 123456 0 (bs "mine") [].

(** A run that returns. *)
Lemma returns {A} (o : option A) : match o with Some _ => true | None => false end = true -> exists x, o = Some x.
Proof. destruct o; [eauto|done]. Qed.

Lemma toy_user_name : user_name toy_name.
Proof.
  intros k c E. change toy_name with ([bs "etc"] ++ [bs "motd"]) in E. apply app_inj_tail in E as [_ <-]. split; intros (h & E).
  - done.
  - apply (f_equal reverse) in E. rewrite reverse_app in E. done.
Qed.
Lemma toy_scripts K : scripts_quiet K.
Proof. right. split; [done|]. intros type nm text args w Hok Hf. cbn. apply kept_refl. Qed.
Lemma toy_shims : shims_outside.
Proof.
  intros prefix E. match type of E with ?a = _ => assert (E1 : a = inr (bs "/data")) by (vm_compute; reflexivity) end. rewrite E1 in E. injection E as <-.
  split; vm_compute; reflexivity.
Qed.

Lemma unpack_keeps_files_witness :
  exists r s i', toy_unpack "two" 2 true [] (install_start 2 toy_user) = Some (r, s) /\
    inode_at (w_disk (i_w s)) toy_name = Some i' /\ in_data i' = bs "mine".
Proof.
  destruct (returns (toy_unpack "two" 2 true [] (install_start 2 toy_user))) as [[r s] E]; [vm_compute; reflexivity|]. exists r, s.
  assert (Ht : tracks toy_name toy_inode (install_start 2 toy_user)) by (apply tracksb_ok; by vm_compute). destruct Ht as (Hok & i & Hi & Hd & Hty).
  destruct (unpack_keeps_files (zs := toy_zs) (toy_store false) 1000 id no_ids 0 100 4096 toy_name i
    (apk_istream_from_blob (toy_pack "two")) 2 true [] (install_start 2 toy_user) r s toy_user_name (toy_scripts _) Hok Hi) as (i' & Hi' & Hd' & _);
    [|exact E|].
  { unfold is_dir. rewrite Hty. reflexivity. }
  exists i'. split; [exact E|]. split; [exact Hi'|]. by rewrite Hd', Hd.
Defined.

Lemma remove_keeps_changes_witness :
  exists r s, apk_db_install_pkg (toy_unpack "two") (Some 1) None toy_user = Some (r, s) /\ tracks toy_name toy_inode s.
Proof.
  destruct (returns (apk_db_install_pkg (toy_unpack "two") (Some 1) None toy_user)) as [[r s] E]; [vm_compute; reflexivity|]. exists r, s. split; [exact E|].
  apply (remove_keeps_changes (toy_unpack "two") toy_name toy_inode 1 toy_user r s);
    [apply toy_user_name|done|done|apply toy_shims|done|apply toy_scripts|apply tracksb_ok; by vm_compute|apply old_guardb_ok; by vm_compute|exact E].
Defined.

Lemma upgrade_keeps_changes_witness :
  exists r s, apk_db_install_pkg (toy_unpack "two") (Some 1) (Some 2) toy_user = Some (r, s) /\ tracks toy_name toy_inode s /\
    in_data <$> inode_at (w_disk (i_w s)) [bs "etc"; bs "motd.apk-new"] = Some (bs "two").
Proof.
  destruct (returns (apk_db_install_pkg (toy_unpack "two") (Some 1) (Some 2) toy_user)) as [[r s] E]; [vm_compute; reflexivity|]. exists r, s. split; [exact E|].
  split.
  - apply (upgrade_keeps_changes (zs := toy_zs) (toy_store false) 1000 id no_ids 0 100 4096
      (apk_istream_from_blob (toy_pack "two")) toy_name toy_inode (Some 1) 2 toy_user r s);
      [apply toy_user_name|done|done|apply toy_shims|done|apply toy_scripts|apply tracksb_ok; by vm_compute| |intros r1 s1 E1 f|exact E].
    + intros old [= <-]. apply old_guardb_ok. by vm_compute.
    + assert (Hb : match toy_unpack "two" 2 true (script_args (Some 1) 2 toy_user) (install_start 2 toy_user) with
                   | Some (_, s1) => let f := apk_db_ipkg_commit 2 (i_fs s1) in dirs_okb f 2 && new_guardb toy_name toy_inode f 2 && old_guardb toy_name toy_inode f 1
                   | None => true end = true) by (by vm_compute).
      rewrite E1 in Hb.
      cbv zeta in Hb. apply andb_true_iff in Hb as [Hb H3]. apply andb_true_iff in Hb as [H1 H2].
      split; [by apply dirs_okb_ok|]. split; [by apply new_guardb_ok|]. intros old [= <-]. by apply old_guardb_ok.
  - assert (Hd : match apk_db_install_pkg (toy_unpack "two") (Some 1) (Some 2) toy_user with
                 | Some (_, s) => in_data <$> inode_at (w_disk (i_w s)) [bs "etc"; bs "motd.apk-new"]
                 | None => None
                 end = Some (bs "two")) by (vm_compute; reflexivity).
    rewrite E in Hd. exact Hd.
Defined.

(** The directories of a path are followed: when bin is a link to usr/bin, renaming a file to a name in bin replaces
    the file of that name in usr/bin, and deleting it there deletes it in bin. *)
Definition merged_disk : disk :=
  let dir := Inode (S_IFDIR .| 0x1ed) 0 0 0 0 [] [] in
  Disk {[[bs "usr"] := 1; [bs "usr"; bs "bin"] := 2; [bs "bin"] := 3; [bs "usr"; bs "bin"; bs "tool"] := 4; [bs "new"] := 5]}
    {[1 := dir; 2 := dir; 3 := Inode (S_IFLNK .| 0x1ff) 0 0 0 0 (bs "usr/bin") [];
      4 := Inode (S_IFREG .| 0x1ed) 0 0 0 0 (bs "old") []; 5 := Inode (S_IFREG .| 0x1ed) 0 0 0 0 (bs "new") []]} 6 0.

Example rename_through_link :
  let '(r, d) := sys_rename (bs "new") (bs "bin/tool") merged_disk in
  r = 0 /\ in_data <$> inode_at d [bs "usr"; bs "bin"; bs "tool"] = Some (bs "new") /\
  let '(r, d) := sys_unlink (bs "/usr/../bin/tool") d in r = 0 /\ inode_at d [bs "usr"; bs "bin"; bs "tool"] = None.
Proof. vm_compute. repeat split. Qed.

(** The state when version 2 is unpacked and its files are to be moved. *)
Definition toy_unpacked : idb :=
  upd_i_fs (apk_db_ipkg_commit 2) (default (0, toy_base) (toy_unpack "two" 2 true [] (install_start 2 toy_user))).2.

Lemma upgrade_file_table_witness :
  pkg_files (i_fs toy_unpacked) 1 <> [] /\ pkg_files (i_fs toy_unpacked) 2 <> [] /\
  exists s1 ids s2, apk_db_migrate_files 2 true toy_unpacked = Some (s1, ids) /\ apk_db_purge_pkg 1 true (Some ids) s1 = Some s2 /\
    tab_inv (i_fs s2) (fun p => (p ∈ pkg_files (i_fs toy_unpacked) 1 \/ p ∈ pkg_files (i_fs toy_unpacked) 2) /\ p ∉ pkg_files (i_fs toy_unpacked) 1).
Proof.
  split; [by vm_compute|]. split; [by vm_compute|].
  destruct (upgrade_file_table 2 1 true toy_unpacked (fun p => p ∈ pkg_files (i_fs toy_unpacked) 1)) as (s1 & ids & E & _ & H).
  - apply tab_invb_ok. by vm_compute.
  - apply (bool_decide_unpack _). by vm_compute.
  - apply (bool_decide_unpack _). by vm_compute.
  - done.
  - intros p. change (pkg_files (i_fs toy_unpacked) 2) with [(5, 6)]. intros ->%list_elem_of_singleton. split; [|by vm_compute].
    apply (bool_decide_unpack _). by vm_compute.
  - destruct (returns ('(s1, ids) ← apk_db_migrate_files 2 true toy_unpacked; apk_db_purge_pkg 1 true (Some ids) s1)) as [s2 E2]; [vm_compute; reflexivity|].
    rewrite E in E2. cbn [mbind option_bind] in E2. exists s1, ids, s2. split; [exact E|]. split; [exact E2|]. by apply (H (Some ids)).
Defined.
