(* ===== verification/SolverThm.v ===== *)
(** The theorems on a pass of the dependency solver: it ends, and the change set of a pass
    without errors describes a consistent set of packages. *)
From Stdlib Require Import ZArith Lia String.
From stdpp Require Import base numbers list option gmap.
From S2P Require Import Prelude Clib Blob Version Dep Package SolverState Solver SolverInv SolverLoop SolverSound SolverStart SolverCset SolverPlan Database DatabaseThm.

(** ** What a set of packages has to satisfy *)

Section Spec.
Context `{UndefChecksum}.
Context (db : apk_database).

(** A dependency of [pp] (of the world when absent) is met by the packages [T]: someone provides
    it, or, for a conflict, nobody provides it in a version that it rules out.  What the solver
    does not ensure is left out: a checksum of a name provided without a version, and, of the
    conflicts that a package states (those of the world are all checked), every provider that
    provides the name without a version. *)
Definition meets (T : apk_package -> Prop) (pp : option apk_package) (d : apk_dependency) : Prop :=
  if apk_dep_conflict d
  then forall q v, T q -> (q, v) ∈ providers db (dep_name d) -> (v <> [] \/ pp = None) ->
         apk_dep_is_provided pp d (Some (Provider (Some q) v)) = true
  else exists q v, T q /\ (q, v) ∈ providers db (dep_name d) /\
         (apk_dep_is_provided pp d (Some (Provider (Some q) v)) = true \/
          v = [] /\ dep_op d = APK_DEPMASK_CHECKSUM /\ is_Some pp).

(** A set of packages that can be installed together and that does what the world asks for. *)
Record installable (world : list apk_dependency) (T : apk_package -> Prop) : Prop := {
  is_known p : T p -> (p, pkg_ver p) ∈ providers db (pkg_nm p);
  is_world d : d ∈ world -> dep_broken d = false -> meets T None d;
  is_depends p d : T p -> d ∈ depends p -> meets T (Some p) d;
  is_names p q : T p -> T q -> pkg_nm p = pkg_nm q -> p = q;
  is_provides p q d : T p -> T q -> d ∈ provides p -> dep_name d = pkg_nm q -> p = q;
  is_shared p q d e : T p -> T q -> d ∈ provides p -> e ∈ provides q -> dep_name d = dep_name e ->
    p = q \/ dep_version d = [] /\ dep_version e = [];
}.

(** The packages that are there after the change set. *)
Definition target (s : apk_solver_state) (p : apk_package) : Prop :=
  exists c, c ∈ ss_changes s /\ new_pkg c = Some p.
End Spec.

Section Round.
Context `{UndefChecksum}.
Context (db : apk_database) (default_repos : Z).
Context (U : gset bytes) (P : gset Z) `{Hdb : !SolverDb db U P}.
Let Hu : universe db U P := sdb_universe.
Let Hwf : db_wf db := sdb_wf.
#[local] Abbreviation card := base.size.

(** The turns, levels of recursion and visits a pass may take. *)
Definition round_fuel : nat := ((2 * card U + card P) * (card U + 1) + card U + card P + 1)%nat.

(** ** From the loop to the choice *)

Lemma snd_choice_ok W s : snd_inv db U W None s -> ss_errors s = 0 -> choice_ok db s.
Proof.
  intros S H0.
  assert (Hl : forall n p v, chosen s n = Provider (Some p) v -> locked s n = true).
  { intros n p v Hc. destruct (locked s n) eqn:E; [done|]. rewrite (s_unl _ _ _ _ _ S n E) in Hc. done. }
  split.
  - intros n p v Hc. apply (s_chosen _ _ _ _ _ S); [by apply (Hl n p v)|done].
  - intros n p v Hc. destruct (s_ok _ _ _ _ _ S n p v H0 (Hl _ _ _ Hc) Hc) as [_ [[_ Hs] Hp]].
    split; [done|]. intros d Hd. by destruct (Hp d Hd) as [_ Hx].
Qed.

Lemma snd_chosen_db W s : snd_inv db U W None s -> chosen_db db s.
Proof.
  intros S n p v Hc. apply (s_chosen _ _ _ _ _ S); [|done]. destruct (locked s n) eqn:E; [done|].
  rewrite (s_unl _ _ _ _ _ S n E) in Hc. done.
Qed.

(** The pass in two parts. *)
Lemma round_start fuel flags world s ic :
  solver_round db default_repos ic fuel flags world s =
  (s1 ← solver_start db default_repos fuel ic flags world s; s2 ← solver_loop db ic fuel s1; generate_changeset db ic fuel world s2).
Proof. unfold solver_round, solver_start. by destruct (for_eachM world _ (solver_init flags s)). Qed.

(** The facts after the change set of a pass. *)
Record round_end (world : list apk_dependency) (s2 s' : apk_solver_state) : Prop := {
  re_snd : snd_inv db U (unbroken world) None s2;
  re_queue n : ~ queued s2 n;
  re_chosen n : chosen s' n = chosen s2 n;
  re_errors : ss_errors s2 <= ss_errors s';
  re_wrapped : ss_wrapped s' = ss_wrapped s2;
  re_cset : choice_ok db s2 -> J db false ∅ None s' /\
    (ss_errors s' = 0 -> forall d, d ∈ world -> satisfied false s' None d);
}.

Lemma loop_end fuel world s1 s2 :
  Forall (fun d => dep_name d ∈ U) world -> snd_inv db U (unbroken world) None s1 -> (card U + card P < fuel)%nat ->
  solver_loop db false fuel s1 = Some s2 ->
  exists s', generate_changeset db false fuel world s2 = Some s' /\ round_end world s2 s'.
Proof.
  intros Hw S1 Hfuel Hl.
  destruct (solver_loop_ind db false (snd_inv db U (unbroken world) None) fuel s1 s2) as [S2 Hq]; [|done|done|].
  { intros s s'. by apply (solver_turn_snd db U P). }
  destruct (s_clean _ _ _ _ _ S2) as [Hp Hi].
  destruct (generate_changeset_total db false U P Hu Hwf fuel world s2 Hw (snd_chosen_db _ _ S2) (s_err _ _ _ _ _ S2) Hp Hi Hfuel)
    as (s' & Hs' & A & B & C & D).
  exists s'. by split.
Qed.

Lemma round_ends fuel flags world s s' :
  Forall (fun d => dep_name d ∈ U) world -> fresh s -> (round_fuel <= fuel)%nat ->
  solver_round db default_repos false fuel flags world s = Some s' ->
  exists s2, generate_changeset db false fuel world s2 = Some s' /\ round_end world s2 s'.
Proof.
  intros Hw Hf Hfuel. unfold round_fuel in Hfuel. rewrite round_start.
  destruct (solver_start_started db default_repos U P Hu fuel flags world s Hw Hf) as (s1 & -> & S1); [nia|].
  cbn [mbind option_bind]. destruct (solver_loop db false fuel s1) as [s2|] eqn:El; [|done]. cbn [mbind option_bind].
  destruct (loop_end fuel world s1 s2 Hw (st_snd _ _ _ _ S1)) as (s3 & Hg & He); [nia|done|]. rewrite Hg. intros [= <-]. by exists s2.
Qed.

(** ** Termination *)

(** C3: a pass of the solver (apk_solver_solve from the discovery of the world to the change set)
    over a well-formed database whose names are in [U] and whose packages have their addresses
    in [P] returns once it may take [round_fuel] turns, a bound in the sizes of [U] and [P]
    alone; the only thing that can keep it from that bound is a 16-bit count of requirers that
    wraps around during the main loop. *)
Theorem solver_round_returns fuel flags world s :
  Forall (fun d => dep_name d ∈ U) world -> fresh s -> (round_fuel <= fuel)%nat ->
  (exists s', solver_round db default_repos false fuel flags world s = Some s') \/
  (exists s1, solver_start db default_repos fuel false flags world s = Some s1 /\
     ss_wrapped (solver_steps db false fuel s1) = true).
Proof.
  intros Hw Hf Hfuel. unfold round_fuel in Hfuel. rewrite round_start.
  destruct (solver_start_started db default_repos U P Hu fuel flags world s Hw Hf) as (s1 & -> & S1); [nia|].
  destruct (ss_wrapped (solver_steps db false fuel s1)) eqn:Ew; [right; by exists s1|left]. cbn [mbind option_bind].
  pose proof (st_snd _ _ _ _ S1) as S. pose proof (work_bound U P s1 (s_inv _ _ _ _ _ S)) as Hb.
  rewrite (solver_loop_ends db false U P Hu fuel s1 Hwf (s_inv _ _ _ _ _ S)); [|lia|done]. cbn [mbind option_bind].
  destruct (loop_end fuel world s1 (solver_steps db false fuel s1) Hw S) as (s' & -> & _); [nia| |by exists s'].
  apply (solver_loop_ends db false U P Hu fuel s1 Hwf (s_inv _ _ _ _ _ S)); [lia|done].
Qed.

(** ** Soundness *)

Section Sound.
Context (world : list apk_dependency) (s2 s' : apk_solver_state) (He : round_end world s2 s').
Context (H0 : ss_errors s' = 0).

Lemma end_errors : ss_errors s2 = 0.
Proof. pose proof (re_errors _ _ _ He). destruct (s_err _ _ _ _ _ (re_snd _ _ _ He)). lia. Qed.

Lemma end_ok : choice_ok db s'.
Proof.
  destruct (snd_choice_ok _ _ (re_snd _ _ _ He) end_errors) as [A B]. split.
  - intros n p v. rewrite (re_chosen _ _ _ He). apply A.
  - intros n p v. rewrite !(re_chosen _ _ _ He). intros Hc. destruct (B n p v Hc) as [B1 B2]. split; [done|].
    intros d Hd. rewrite (re_chosen _ _ _ He). by apply B2.
Qed.

Lemma end_J : J db false ∅ None s'.
Proof. apply (re_cset _ _ _ He), (snd_choice_ok _ _ (re_snd _ _ _ He) end_errors). Qed.

Lemma target_chosen p : target s' p -> is_chosen s' p.
Proof. apply (j_rec _ _ _ _ _ end_J). Qed.

(** A package of the change set holds its name and what it provides. *)
Lemma target_holds p : target s' p ->
  (p, pkg_ver p) ∈ providers db (pkg_nm p) /\ chosen s' (pkg_nm p) = APK_PROVIDER_FROM_PACKAGE p /\
  forall d, d ∈ provides p -> chosen s' (dep_name d) = APK_PROVIDER_FROM_PROVIDES p d \/
    dep_version d = [] /\ prov_version (chosen s' (dep_name d)) = [].
Proof.
  intros (n & v & Hc)%target_chosen. destruct end_ok as [A B]. destruct (B n p v Hc) as [B1 B2].
  split; [|done]. apply (w_self _ Hwf n (p, v)). by apply A.
Qed.

(** Under a name, it is the choice unless the version is empty. *)
Lemma target_provider p n v : target s' p -> (p, v) ∈ providers db n ->
  chosen s' n = Provider (Some p) v \/ v = [] /\ prov_version (chosen s' n) = [].
Proof.
  intros Ht Hp. destruct (target_holds p Ht) as (_ & Hn & Hd).
  destruct (w_prov _ Hwf n (p, v) Hp) as [[<- Hv]|(d & Hin & <- & Hv)]; cbn [fst snd] in *.
  - left. rewrite Hn. by subst v.
  - subst v. by apply Hd.
Qed.

(** A processed name with a choice is provided by the change set, in the chosen version. *)
Lemma processed_target n p v : processed s' n = true -> chosen s' n = Provider (Some p) v ->
  exists q, target s' q /\ (q, v) ∈ providers db n /\ is_chosen s' q.
Proof.
  intros Hp Hc. destruct (j_proc _ _ _ _ _ end_J n p v ltac:(done) Hp Hc) as (q & Hq & Hin & (m & w & Hm)).
  exists q. split; [|by split; [|exists m, w]]. destruct (j_in _ _ _ _ _ end_J m q w Hm Hin) as [Hr|Hr]; [done|set_solver].
Qed.

Lemma suits p : is_chosen s' p -> suits_world db (unbroken world) p.
Proof.
  intros (n & v & Hc). rewrite (re_chosen _ _ _ He) in Hc. pose proof (re_snd _ _ _ He) as S.
  apply (s_ok _ _ _ _ _ S n p v end_errors); [|done]. destruct (locked s2 n) eqn:E; [done|].
  rewrite (s_unl _ _ _ _ _ S n E) in Hc. done.
Qed.

Lemma end_world d : ss_wrapped s' = false -> d ∈ world -> dep_broken d = false -> meets db (target s') None d.
Proof.
  intros Hw Hd Hb. assert (Hu' : d ∈ unbroken world) by (apply list_elem_of_filter; done).
  unfold meets. destruct (apk_dep_conflict d) eqn:Ec.
  - intros q v Hq Hp _. by apply (suits q (target_chosen q Hq) d v).
  - pose proof (world_satisfied db U (unbroken world) s2 (re_snd _ _ _ He) (re_queue _ _ _ He) end_errors) as Hs.
    rewrite <- (re_wrapped _ _ _ He) in Hs. specialize (Hs Hw d Hu').
    destruct (re_cset _ _ _ He (snd_choice_ok _ _ (re_snd _ _ _ He) end_errors)) as [_ Hproc].
    destruct (Hproc H0 d Hd) as [Hx|[_ Hp]]; [by rewrite andb_false_r in Hx|].
    rewrite <- (re_chosen _ _ _ He) in Hs.
    destruct (chosen s' (dep_name d)) as [[p|] v] eqn:Eh; [|unfold apk_dep_is_provided in Hs; cbn in Hs; congruence].
    destruct (processed_target _ p v Hp Eh) as (q & Hq & Hin & Hc). exists q, v. split; [done|]. split; [done|].
    left. by apply (suits q Hc d v).
Qed.

(** Without a conflict, the answer for a provider depends on its version, or on its checksum. *)
Lemma provided_version pp d p q v :
  apk_dep_conflict d = false -> dep_op d <> APK_DEPMASK_CHECKSUM ->
  apk_dep_is_provided pp d (Some (Provider (Some p) v)) = apk_dep_is_provided pp d (Some (Provider (Some q) v)).
Proof.
  intros Hc Hk. unfold apk_dep_is_provided. cbn [prov_pkg prov_version]. rewrite Hc. cbn [andb].
  by rewrite (proj2 (Z.eqb_neq _ _) Hk).
Qed.

Lemma end_depends p d : target s' p -> d ∈ depends p -> meets db (target s') (Some p) d.
Proof.
  intros Ht Hd. destruct (j_ok _ _ _ _ _ end_J p d H0 Ht Hd) as [Hx|[[Hx|Hx] Hp]]; [by rewrite andb_false_r in Hx|done|].
  unfold meets. destruct (apk_dep_conflict d) eqn:Ec.
  - intros q v Hq Hin [Hv|?]; [|done]. destruct (target_provider q _ v Hq Hin) as [Hc|[? _]]; [by rewrite <- Hc|done].
  - destruct (chosen s' (dep_name d)) as [[c|] v] eqn:Eh; [|unfold apk_dep_is_provided in Hx; cbn in Hx; congruence].
    destruct (processed_target _ c v Hp Eh) as (q & Hq & Hin & Hc). exists q, v. split; [done|]. split; [done|].
    destruct (target_provider q _ v Hq Hin) as [Hc'|[-> _]]; [left; congruence|].
    destruct (decide (dep_op d = APK_DEPMASK_CHECKSUM)) as [Ek|Ek]; [right; eauto|left].
    by rewrite (provided_version _ d q c).
Qed.

Lemma end_installable : ss_wrapped s' = false -> installable db world (target s').
Proof.
  intros Hw. constructor.
  - intros p Hp. apply (target_holds p Hp).
  - intros d. by apply end_world.
  - apply end_depends.
  - intros p q Hp Hq E. destruct (target_holds p Hp) as (_ & Ep & _), (target_holds q Hq) as (_ & Eq & _).
    rewrite E, Eq in Ep. unfold APK_PROVIDER_FROM_PACKAGE in Ep. congruence.
  - intros p q d Hp Hq Hd E. destruct (target_holds p Hp) as (_ & _ & Ep), (target_holds q Hq) as (Hin & Eq & _).
    destruct (Ep d Hd) as [Ec|[_ Ec]]; rewrite E, Eq in Ec; [unfold APK_PROVIDER_FROM_PACKAGE, APK_PROVIDER_FROM_PROVIDES in Ec; congruence|].
    by destruct (w_version _ Hwf _ _ Hin).
  - intros p q d e Hp Hq Hd Hpe E. destruct (target_holds p Hp) as (_ & _ & Ep), (target_holds q Hq) as (_ & _ & Eq).
    specialize (Ep d Hd). specialize (Eq e Hpe). rewrite E in Ep.
    destruct Ep as [Ep|[Ep1 Ep2]], Eq as [Eq|[Eq1 Eq2]]; rewrite ?Ep in *; rewrite ?Eq in *; cbn in *; try (by right).
    left. by injection Eq.
Qed.
End Sound.

(** A pass without errors. *)
Lemma solver_round_sound fuel flags world s s' :
  Forall (fun d => dep_name d ∈ U) world -> fresh s -> (round_fuel <= fuel)%nat ->
  solver_round db default_repos false fuel flags world s = Some s' -> ss_errors s' = 0 -> ss_wrapped s' = false ->
  installable db world (target s').
Proof.
  intros Hw Hf Hfuel Hr H0 Hwr. destruct (round_ends fuel flags world s s' Hw Hf Hfuel Hr) as (s2 & _ & He).
  by apply (end_installable world s2 s').
Qed.

(** The change set of a pass without errors. *)
Lemma solver_round_exact fuel flags world s s' :
  NoDup (pkg_nm <$> db_installed db) ->
  Forall (fun d => dep_name d ∈ U) world -> fresh s -> (round_fuel <= fuel)%nat ->
  solver_round db default_repos false fuel flags world s = Some s' -> ss_errors s' = 0 -> plan_exact db (ss_changes s').
Proof.
  intros Hn Hw Hf Hfuel Hr H0. destruct (round_ends fuel flags world s s' Hw Hf Hfuel Hr) as (s2 & Hg & He).
  destruct (generate_plan db false Hwf Hn fuel world s2 s' Hg) as (s0 & R & A & Hv). destruct (s_clean _ _ _ _ _ (re_snd _ _ _ He)) as [Hp Hi].
  apply (exact db false Hwf Hn s0 s' (ss_changes s') A (rp_base _ _ _ R)); [| | | |done|done].
  - intros n. by rewrite (rp_proc _ _ _ R).
  - intros p. by rewrite (rp_in _ _ _ R).
  - by apply (end_ok world s2).
  - by apply (end_J world s2).
Qed.

(** ** The driver *)

Lemma free_states_fresh s : fresh (free_states s).
Proof. by constructor. Qed.

Lemma disable_broken_name s d : dep_name (disable_broken s d) = dep_name d.
Proof. done. Qed.

(** Noting the layer of a dependency does not change what it asks for. *)
Lemma set_world_layer_same s d :
  let e := set_world_layer s d in
  dep_name e = dep_name d /\ dep_version e = dep_version d /\ dep_op e = dep_op d /\ dep_broken e = dep_broken d.
Proof. unfold set_world_layer. by destruct (prov_pkg _). Qed.

Lemma meets_layer T pp s d : meets db T pp d -> meets db T pp (set_world_layer s d).
Proof.
  destruct (set_world_layer_same s d) as (En & Ev & Eo & _). cbn zeta in *.
  assert (Ep : forall p, apk_dep_is_provided pp (set_world_layer s d) p = apk_dep_is_provided pp d p).
  { intros p. unfold apk_dep_is_provided, apk_dep_conflict, apk_dep_match_checksum. by rewrite Ev, Eo. }
  unfold meets. assert (apk_dep_conflict (set_world_layer s d) = apk_dep_conflict d) as -> by (unfold apk_dep_conflict; by rewrite Eo).
  rewrite En, Eo. destruct (apk_dep_conflict d).
  - intros Hm q v. rewrite Ep. apply Hm.
  - intros (q & v & A & B & D). exists q, v. by rewrite Ep.
Qed.

Lemma installable_layer world T s : installable db world T -> installable db (map (set_world_layer s) world) T.
Proof.
  intros [H1 H2 H3 H4 H5 H6]. constructor; try done. intros e (d & -> & Hd)%list_elem_of_fmap Hb.
  destruct (set_world_layer_same s d) as (_ & _ & _ & Eb). cbn zeta in Eb. rewrite Eb in Hb. by apply meets_layer, H2.
Qed.

Lemma solver_rounds_sound rounds fuel flags : forall world s world' s',
  Forall (fun d => dep_name d ∈ U) world -> fresh s -> (round_fuel <= fuel)%nat ->
  solver_rounds db default_repos false rounds fuel flags world s = Some (world', s') ->
  ss_errors s' = 0 -> ss_wrapped s' = false -> installable db world' (target s').
Proof.
  induction rounds as [|rounds IH]; intros world s world' s' Hw Hf Hfuel; cbn [solver_rounds]; [done|].
  destruct (solver_round db default_repos false fuel flags world s) as [s1|] eqn:Er; [|done]. cbn [mbind option_bind].
  case_test.
  - apply IH; [|apply free_states_fresh|done]. apply Forall_fmap. eapply Forall_impl; [exact Hw|]. done.
  - intros [= <- <-] H0 Hwr. apply installable_layer. by apply (solver_round_sound fuel flags world s).
Qed.

Lemma solver_rounds_exact rounds fuel flags : forall world s world' s',
  NoDup (pkg_nm <$> db_installed db) ->
  Forall (fun d => dep_name d ∈ U) world -> fresh s -> (round_fuel <= fuel)%nat ->
  solver_rounds db default_repos false rounds fuel flags world s = Some (world', s') ->
  ss_errors s' = 0 -> plan_exact db (ss_changes s').
Proof.
  induction rounds as [|rounds IH]; intros world s world' s' Hn Hw Hf Hfuel; cbn [solver_rounds]; [done|].
  destruct (solver_round db default_repos false fuel flags world s) as [s1|] eqn:Er; [|done]. cbn [mbind option_bind].
  case_test.
  - apply IH; [done| |apply free_states_fresh|done]. apply Forall_fmap. eapply Forall_impl; [exact Hw|]. done.
  - intros [= <- <-] H0. by apply (solver_round_exact fuel flags world s).
Qed.

Lemma elem_of_world_insert d l e : e ∈ world_insert d l <-> e = d \/ e ∈ l.
Proof.
  induction l as [|x l IH]; cbn [world_insert]; [by rewrite list_elem_of_singleton, elem_of_nil; tauto|].
  case_test; rewrite !elem_of_cons, ?IH; tauto.
Qed.

Lemma elem_of_world_sort l e : e ∈ world_sort l <-> e ∈ l.
Proof.
  induction l as [|x l IH]; [done|]. change (world_sort (x :: l)) with (world_insert x (world_sort l)).
  by rewrite elem_of_world_insert, elem_of_cons, IH.
Qed.
End Round.

(** C1: when apk_solver_solve reports no errors for a database with consistent arrays, the
    packages of its change set (those it installs, upgrades, downgrades or keeps) can be
    installed together: every constraint of the returned world that is not marked broken is met
    by them, so is every dependency of each of them, no two have the same name, none provides
    the name of another, and two that provide the same further name both provide it without a
    version.  No count of requirers must have wrapped around in the last pass, and conflicts
    must not have been ignored on request. *)
Theorem apk_solver_solve_sound `{UndefChecksum} (db : apk_database) U P `{!SolverDb db U P} rounds fuel flags world s world' freed s' :
  Forall (fun d => dep_name d ∈ U) world -> fresh s -> (round_fuel U P <= fuel)%nat ->
  flag flags APK_SOLVERF_IGNORE_CONFLICT = false ->
  apk_solver_solve rounds fuel db flags world s = Some (0, world', freed, s') -> ss_wrapped s' = false ->
  installable db world' (target s').
Proof.
  intros Hw Hf Hfuel Hflag. unfold apk_solver_solve. rewrite Hflag.
  destruct (solver_rounds _ _ _ _ _ _ _ _) as [[w1 s1]|] eqn:Er; [|done]. cbn [mbind option_bind]. intros [= H0 <- <- <-] Hwr.
  refine (solver_rounds_sound db _ U P rounds fuel flags (world_sort world) s w1 s1 _ Hf Hfuel Er H0 Hwr).
  rewrite list.Forall_forall in *. intros d Hd. apply Hw. by apply elem_of_world_sort.
Qed.

(** C2: Without errors, the change set accounts for every installed package exactly once: it is kept, replaced by the chosen
    package of its name, or removed when no package of its name was chosen; and no package is installed twice. *)
Theorem apk_solver_solve_exact `{UndefChecksum} (db : apk_database) U P `{!SolverDb db U P} rounds fuel flags world s world' freed s' :
  NoDup (pkg_nm <$> db_installed db) ->
  Forall (fun d => dep_name d ∈ U) world -> fresh s -> (round_fuel U P <= fuel)%nat ->
  flag flags APK_SOLVERF_IGNORE_CONFLICT = false ->
  apk_solver_solve rounds fuel db flags world s = Some (0, world', freed, s') ->
  plan_exact db (ss_changes s').
Proof.
  intros Hn Hw Hf Hfuel Hflag. unfold apk_solver_solve. rewrite Hflag.
  destruct (solver_rounds _ _ _ _ _ _ _ _) as [[w1 s1]|] eqn:Er; [|done]. cbn [mbind option_bind]. intros [= H0 <- <- <-].
  refine (solver_rounds_exact db _ U P rounds fuel flags (world_sort world) s w1 s1 Hn _ Hf Hfuel Er H0).
  rewrite list.Forall_forall in *. intros d Hd. apply Hw. by apply elem_of_world_sort.
Qed.

(** ** Examples *)

#[local] Instance no_checksums : UndefChecksum := fun _ _ => false.

Definition ex_db (force : bool) (s : store) : apk_database := view [RepoTag 1 [] []] 1 1 false force s.
Definition ex_world : list apk_dependency := [ex_eq "app" "1.0"; ex_dep "doc"].
Definition ex_names : gset bytes := store_names ex_store ∪ ∅.

Lemma ex_solver_db : SolverDb (ex_db false ex_store) ex_names (store_addrs ex_store).
Proof.
  constructor.
  - apply (universe_mono _ (store_names ex_store)); [apply union_subseteq_l|]. apply view_universe; [|by vm_compute].
    apply (db_reachable_ok _ ex_store_reachable).
  - destruct (db_reachable_ok _ ex_store_reachable) as [C _ I]. apply view_wf; [done|done|].
    apply map_Forall_lookup, (bool_decide_eq_true_1 _). by vm_compute.
Qed.

Lemma ss0_fresh : fresh ss0.
Proof. by constructor. Qed.

Lemma ex_world_names : Forall (fun d => dep_name d ∈ ex_names) ex_world.
Proof. apply (bool_decide_eq_true_1 _). by vm_compute. Qed.

Lemma solver_round_returns_witness :
  (exists s', solver_round (ex_db false ex_store) 1 false 400 0 ex_world ss0 = Some s') \/
  (exists s1, solver_start (ex_db false ex_store) 1 400 false 0 ex_world ss0 = Some s1 /\
     ss_wrapped (solver_steps (ex_db false ex_store) false 400 s1) = true).
Proof.
  apply (solver_round_returns (ex_db false ex_store) 1 ex_names (store_addrs ex_store) (Hdb := ex_solver_db) 400 0 ex_world ss0 ex_world_names ss0_fresh).
  apply (bool_decide_eq_true_1 (round_fuel ex_names (store_addrs ex_store) <= 400)%nat). by vm_compute.
Defined.

(** The packages of a change set, whether a count wrapped, and the errors. *)
Definition summary (s : apk_solver_state) : list Z * bool * Z :=
  (omap (fun c => pkg_addr <$> new_pkg c) (ss_changes s), ss_wrapped s, ss_errors s).

Lemma summary_some (o : option apk_solver_state) l w e :
  summary <$> o = Some (l, w, e) -> exists s, o = Some s /\ ss_wrapped s = w /\ ss_errors s = e.
Proof. destruct o as [s|]; [|done]. intros [= _ <- <-]. by exists s. Qed.

Lemma ex_round : exists s', solver_round (ex_db false ex_store) 1 false 400 0 ex_world ss0 = Some s' /\ ss_wrapped s' = false /\ ss_errors s' = 0.
Proof. apply (summary_some _ [102; 103; 100; 105; 104]). vm_compute. reflexivity. Qed.

Definition solve_summary (o : option (Z * list apk_dependency * apk_solver_state * apk_solver_state)) : option (Z * bool) :=
  match o with Some (e, _, _, s) => Some (e, ss_wrapped s) | None => None end.

Lemma solve_summary_some o e w :
  solve_summary o = Some (e, w) -> exists world' freed s', o = Some (e, world', freed, s') /\ ss_wrapped s' = w.
Proof. destruct o as [[[[e' wd] f] s']|]; [|done]. intros [= -> <-]. by exists wd, f, s'. Qed.

Lemma ex_solved : exists world' freed s',
  apk_solver_solve 1 400 (ex_db false ex_store) 0 ex_world ss0 = Some (0, world', freed, s') /\ ss_wrapped s' = false.
Proof. apply solve_summary_some. vm_compute. reflexivity. Qed.

Lemma ex_fuel : (round_fuel ex_names (store_addrs ex_store) <= 400)%nat.
Proof. apply (bool_decide_eq_true_1 _). by vm_compute. Qed.

Lemma apk_solver_solve_sound_witness :
  exists world' freed s',
    apk_solver_solve 1 400 (ex_db false ex_store) 0 ex_world ss0 = Some (0, world', freed, s') /\
    installable (ex_db false ex_store) world' (target s').
Proof.
  destruct ex_solved as (w & f & s' & E & Hw). exists w, f, s'. split; [done|].
  apply (apk_solver_solve_sound (ex_db false ex_store) ex_names (store_addrs ex_store) (SolverDb0 := ex_solver_db) 1 400 0 ex_world ss0 w f s'
    ex_world_names ss0_fresh ex_fuel); [by vm_compute|exact E|exact Hw].
Defined.

(** With app 2.0, lib and doc installed, asking for app 1.0 replaces app, keeps lib, adds x and removes doc. *)
Definition inst_store : store := install_at 105 (install_at 102 (install_at 101 ex_store)).
Definition inst_world : list apk_dependency := [ex_eq "app" "1.0"].

Lemma inst_store_reachable : db_reachable inst_store.
Proof.
  assert (Hi : forall a s, db_reachable s -> bool_decide (is_Some (st_pkgs s !! a)) = true -> db_reachable (install_at a s)).
  { intros a s Hs Ha. eapply reach_step; [exact Hs|]. by apply db_install, (bool_decide_eq_true_1 _). }
  unfold inst_store. apply Hi; [apply Hi; [apply Hi; [apply ex_store_reachable|]|]|]; by vm_compute.
Qed.

Lemma inst_solver_db : SolverDb (ex_db false inst_store) (store_names inst_store) (store_addrs inst_store).
Proof.
  destruct (db_reachable_ok _ inst_store_reachable) as [C _ I]. constructor; [apply view_universe; [done|by vm_compute]|].
  apply view_wf; [done|done|]. apply map_Forall_lookup, (bool_decide_eq_true_1 _). by vm_compute.
Qed.

Definition plan_summary (o : option (Z * list apk_dependency * apk_solver_state * apk_solver_state)) : option (Z * list (option Z * option Z)) :=
  match o with Some (e, _, _, s) => Some (e, map (fun c => (pkg_addr <$> old_pkg c, pkg_addr <$> new_pkg c)) (ss_changes s)) | None => None end.

Lemma plan_summary_some o e l :
  plan_summary o = Some (e, l) ->
  exists world' freed s', o = Some (e, world', freed, s') /\
    map (fun c => (pkg_addr <$> old_pkg c, pkg_addr <$> new_pkg c)) (ss_changes s') = l.
Proof. destruct o as [[[[e' wd] f] s']|]; [|done]. intros [= -> <-]. by exists wd, f, s'. Qed.

Lemma apk_solver_solve_exact_witness :
  exists world' freed s',
    apk_solver_solve 1 400 (ex_db false inst_store) 0 inst_world ss0 = Some (0, world', freed, s') /\
    map (fun c => (pkg_addr <$> old_pkg c, pkg_addr <$> new_pkg c)) (ss_changes s') = [(Some 105, None); (Some 102, Some 102); (None, Some 103); (Some 101, Some 100)] /\
    plan_exact (ex_db false inst_store) (ss_changes s').
Proof.
  destruct (plan_summary_some (apk_solver_solve 1 400 (ex_db false inst_store) 0 inst_world ss0) 0 [(Some 105, None); (Some 102, Some 102); (None, Some 103); (Some 101, Some 100)]) as (w & f & s' & E & Hl); [by vm_compute|].
  exists w, f, s'. split; [exact E|]. split; [exact Hl|].
  apply (apk_solver_solve_exact (ex_db false inst_store) (store_names inst_store) (store_addrs inst_store) (SolverDb0 := inst_solver_db) 1 400 0 inst_world ss0 w f s').
  - apply (bool_decide_eq_true_1 _). by vm_compute.
  - apply (bool_decide_eq_true_1 _). by vm_compute.
  - exact ss0_fresh.
  - apply (bool_decide_eq_true_1 _). by vm_compute.
  - by vm_compute.
  - exact E.
Defined.

(** ** What the driver does not ensure *)

Definition ex_any : list apk_dependency := [ex_dep "app"; ex_dep "doc"].

(** the solver is a heuristic that does not go back on a choice: there is a database and a
    world for which apk_solver_solve reports errors although a set of packages that satisfies
    the world exists (it takes the newest version, whose dependency nobody provides, although
    an older version can be installed). *)
Theorem apk_solver_solve_incomplete :
  solve_summary (apk_solver_solve 1 400 (ex_db false ex_store) 0 ex_any ss0) = Some (2, false) /\
  exists T, installable (ex_db false ex_store) ex_any T.
Proof.
  split; [by vm_compute|]. destruct ex_round as (s' & Hr & Hw & H0). exists (target s').
  destruct (solver_round_sound (ex_db false ex_store) 1 ex_names (store_addrs ex_store) (Hdb := ex_solver_db) 400 0 ex_world ss0 s'
    ex_world_names ss0_fresh ex_fuel Hr H0 Hw) as [H1 H2 H3 H4 H5 H6].
  constructor; [exact H1| |exact H3|exact H4|exact H5|exact H6]. intros d Hd Hb. apply elem_of_cons in Hd as [->|Hd]; [|apply H2; [by right|exact Hb]].
  destruct (H2 (ex_eq "app" "1.0") ltac:(by left) eq_refl) as (q & v & Hq & Hp & _).
  exists q, v. split; [exact Hq|]. split; [exact Hp|]. left. reflexivity.
Qed.

(** foo pulls in two packages through install_if that need different versions of v. *)
Definition loop_packages : list apk_package_tmpl :=
  [ex_tmpl 1 "foo" "1" [] [] []; ex_tmpl 2 "p1" "1" [ex_eq "v" "1"] [] [ex_dep "foo"]; ex_tmpl 3 "p2" "1" [ex_eq "v" "2"] [] [ex_dep "foo"];
   ex_tmpl 4 "v" "1" [] [] []; ex_tmpl 5 "v" "2" [] [] []].
Definition loop_db : apk_database := ex_db true (db_opened loop_packages).
Definition loop_world : list apk_dependency := [ex_dep "foo"].

(** A state as the driver leaves it between two passes: only the counts of changes survive. *)
Definition between (s : apk_solver_state) : Prop := ss_names s = ∅ /\ ss_pkgs s = ∅.

Lemma loop_round s :
  between s -> exists s', solver_round loop_db 1 false 400 0 loop_world s = Some s' /\ ss_errors s' <> 0 /\
    map (disable_broken s') loop_world = loop_world.
Proof.
  destruct s as [nm pk d1 d2 d3 d4 e f pi oi ch ni nr na w]. intros [E1 E2]. cbn in E1, E2. subst nm pk.
  enough (Hx : (fun s' => (ss_errors s', map (disable_broken s') loop_world)) <$>
    solver_round loop_db 1 false 400 0 loop_world (SS ∅ ∅ d1 d2 d3 d4 e f pi oi ch ni nr na w) = Some (3, loop_world)).
  { destruct (solver_round _ _ _ _ _ _ _) as [s'|]; [|done]. exists s'. apply (inj Some), pair_equal_spec in Hx as [H1 H2].
    split; [done|]. split; [by rewrite H1|exact H2]. }
  vm_compute. reflexivity.
Qed.

(** C37: with --force-broken-world the driver may restart forever: for this database and world
    every pass ends with errors and disables no constraint of the world (the one constraint is
    satisfied by a package without an error), so the driver starts the same pass again, and no
    number of passes is enough. *)
Theorem solver_restarts_forever :
  (forall rounds, solver_rounds loop_db 1 false rounds 400 0 loop_world ss0 = None) /\
  (forall s, between s -> exists s', solver_round loop_db 1 false 400 0 loop_world s = Some s' /\ ss_errors s' <> 0 /\
     map (disable_broken s') loop_world = loop_world).
Proof.
  split; [|apply loop_round]. assert (G : forall rounds s, between s -> solver_rounds loop_db 1 false rounds 400 0 loop_world s = None); [|by intros; apply G].
  induction rounds as [|rounds IH]; intros s Hs; cbn [solver_rounds]; [done|].
  destruct (loop_round s Hs) as (s' & -> & He & Hd). cbn [mbind option_bind]. rewrite (proj2 (Z.eqb_neq _ _) He).
  change (db_force_broken_world loop_db) with true. cbn [negb andb]. rewrite Hd. by apply IH.
Qed.

Lemma solver_restarts_forever_witness : solver_rounds loop_db 1 false 5 400 0 loop_world ss0 = None.
Proof. apply (proj1 solver_restarts_forever 5%nat). Defined.
